(* ===== verification/_CoqProject ===== *)
-Q . S2P
Prelude.v
CStr.v
Types.v
Ids.v
Names.v
MsgProc.v
Codec.v
Bin.v
Structs.v
MngTlvs.v
MngTlvsSpec.v
Dispatch.v
SigTlvs.v
Auth.v
Cfg.v
Message.v
ParseSafe.v
MessageInv.v
ParseFacts.v
BuildFacts.v
RoundTrip.v
SigFacts.v
Config.v
Json.v
JsonVal.v
JsonSafe.v
JsonRound.v
JsonNum.v
JsonFacts.v
JsonType.v
JsonFile.v
CTlvs.v
CTlvsFacts.v
MsgCall.v
TlvMem.v
TlvMemFacts.v
CApi.v
ClkEvent.v
ClkEventFacts.v
ClkConfig.v
ClkMsg.v
ClkProxy.v
ClkClient.v
ClkRound.v
Text.v
JsonProc.v
JsonTo.v
JsonFrom.v
JsonLayout.v
JsonDoc.v
JsonTake.v
JsonAgree.v
JsonMsgFacts.v
Sock.v
SockFacts.v
SockAddr.v
SockC.v
SockCFacts.v
Opt.v
OptFacts.v
Init.v
InitFacts.v
Ptp.v
PtpC.v
PtpFacts.v
ClkPtp4l.v
ClkPtp4lHost.v
ClkPtp4lFacts.v
ClkPtp4lSys.v
ClkEventC.v
ClkQueue.v
ClkChrony.v
ClkChronyFacts.v
SigC.v
CfgC.v
MsgC.v
MsgCFacts.v
Hmac.v
JsonC.v
