(* ===== verification/Prelude.v ===== *)
(** * libptpmgmt: a verification development

    libptpmgmt is a C++ library that builds and parses the management and
    signalling messages of the Precision Time Protocol (IEEE 1588).  A program
    creates a [Message], prepares a request with [setAction], writes it to a
    buffer with [build], and parses what it receives with [parse].  The
    configuration of linuxptp ([ConfigFile]) gives the parameters of messages,
    a key file ([SaFile]) the keys of their authentication.  The clock manager,
    in [src/clkmgr], is built on it: a proxy process reads its time bases from a
    JSON file and follows ptp4l and chrony, client processes subscribe to time
    bases and are notified of their events through queues of messages.

    ** The parts and their files

    - Prelude.v (this file): machine integers as [Z] with wrap-around, octets,
      big and little endian conversions ([cpu_to_net] of [src/src/comp.h]), the
      tactics and lemmas on lists that the files share.
    - CStr.v: [isspace], [strtok_r] (class [Token]) and [strtol].
    - Types.v: [src/src/types.m4] and [src/src/types.cpp]: enumerators, time
      stamps, identities, addresses, [MsgParams].  A 48 or 64 bits field is a
      [Z] kept in its range; the loops [normNano] and [subt] run on fuel, and
      theorems show how much is enough.
    - Ids.v: the table of management ids, [src/src/ids_base.m4], and the
      functions of [src/src/msg.cpp] that consult it.
    - Names.v: the names of enumerators in [src/src/msg.cpp], both ways.
    - MsgProc.v: [struct MsgProc], the cursor over a message, with its [proc]
      functions, as programs of a monad with state and two failures: the error
      that C++ returns, and an access outside the buffer.  Each program runs
      in both directions, as the C++ function does with [m_build].
    - Codec.v: the judgements on these programs ([codec] for a round trip,
      [reads] for safety on any octets) and their rules of composition.
    - Structs.v: the judgements for the structures and lists on the wire.
    - MngTlvs.v: [src/src/mngTlvs.m4] and [src/src/mngTlvs.cpp]: the 59
      management structures, their [_f] and [_s] functions, the dispatch
      [call_tlv_data], [verifyTlv], [dataFieldSize], the event mask.
    - MngTlvsSpec.v: the class [TlvSpec], which states what the dispatch and
      the messages need of the function of one TLV, with an instance for each.
    - Dispatch.v: theorems on the dispatch, through the class only, and on the
      event mask.
    - SigTlvs.v: [src/src/sigTlvs.m4] and [src/src/sigTlvs.cpp].
    - Bin.v: [src/src/bin.cpp], the class [Binary] with its allocation.  The
      other files use its abstraction, the list of its octets.
    - Auth.v: [Spp] and [SaFile] of [src/src/cfg.cpp], [HMAC_Key] of
      [src/src/hmac.cpp] and [src/hmac].  The MAC library is third-party code:
      the class [MacLib] is a parameter and [MacLaws] states the documented
      size of its results.
    - Cfg.v and Config.v: the readers of the key file and of the configuration,
      in place on their array of 512 characters, with positions outside of it
      as faults; the getters of [ConfigFile]; the use by a message.
    - Message.v: the class [Message]: its fields in four records (build
      parameters, results of the last parse, [MsgParams], authentication),
      [setAction], [getMsgPlanedLen], [build], [parse] with [parseSig] and
      [parseAuth], the access to signalling TLVs.  [None] is an access outside
      the buffer or the use of a null object.
    - ParseSafe.v, MessageInv.v, ParseFacts.v, BuildFacts.v, RoundTrip.v:
      theorems on messages.
    - SigFacts.v: the copies and moves of [MessageSigTlv] and [MessageSigTlvs],
      and theorems on signalling messages.
    - Json.v: the parser of [src/src/jsonParser.cpp] as programs of a monad over
      its readers (a string, or a file by lines of 511 characters); JsonVal.v: its
      values, [toString] and the access functions.  JsonSafe.v, JsonRound.v,
      JsonNum.v, JsonFacts.v, JsonType.v, JsonFile.v: theorems on them.
    - Text.v: numbers, time stamps and identities as text.  JsonProc.v: the class
      [JsonProc], which prints and reads structures, and the function of the
      fields of every structure ([src/src/json.cpp]), once for all instances.
      JsonTo.v: the instance that prints, with [msg2json] and [tlv2json];
      JsonFrom.v: the instance that reads, with [Json2msg]
      ([src/src/jsonDef.cpp]).  JsonLayout.v: the layout of the printed texts,
      which the parser reads; JsonDoc.v: a third instance, the document of a
      structure, which each method prints; JsonTake.v, JsonAgree.v: each method
      reads it; JsonMsgFacts.v: the theorems.  JsonC.v: the C structure
      [ptpmgmt_json_t], its functions and their theorems.
    - CTlvs.v: the C structure of every management TLV and its conversions
      [_c1] and [_c2] of [src/src/mngTlvs.cpp]; CTlvsFacts.v: they are inverses.
    - MsgCall.v: [MessageDispatcher] and [MessageBuilder] of
      [src/src/msgCall.cpp], on a heap of structures with the pointers of the
      message and of the builder, with the theorems on both.
    - TlvMem.v: [ptpmgmt_tlv_mem], the blocks of memory of a C structure;
      TlvMemFacts.v: theorems on it.  CApi.v: the request of a C message, the
      dispatcher and the builder of C, and their theorems.
    - SigC.v: the C structures of signalling TLVs, [cpp2cSigTlv] of
      [src/src/sigTlvs.cpp], and what a C program reads in them.
    - CfgC.v: the C structures of the configuration, of security parameters and
      of a key file ([src/src/cfg.cpp]), on a heap with generations of the map of
      a key file, and their theorems.
    - MsgC.v: the rest of a C message: its parameters ([ptpmgmt_MsgParams] of
      [src/src/types.cpp]), its authentication, its results and the blocks that it
      gives; MsgCFacts.v: theorems.
    - Hmac.v: the loader of the authentication libraries, [src/src/hmac.cpp], over
      a class for the dynamic loader, with the steps of its threads, and theorems.
    - ClkEvent.v: subscriptions, events and the state of a time base in a client
      ([subscription.cpp], [timebase_state.cpp], [clock_event_handler.hpp] of
      [src/clkmgr/client]); ClkEventFacts.v: theorems on them.
    - ClkConfig.v: [std::map] as a sorted list; the time bases in the file of the
      proxy ([config_parser.cpp], with the parser of Json.v) and in a client
      ([timebase_configs.cpp]).
    - ClkMsg.v: the buffer and the messages of [src/clkmgr/common], as programs of
      a monad over the state of a process and the buffer; the class [Side] is what
      a process adds to a message, the class [Queues] stands for the queues of the
      system; the rules for these programs.
    - ClkProxy.v: sessions, subscribers and notifications of the proxy
      ([src/clkmgr/proxy/client.cpp] and its messages), an instance of [Side];
      with its states as a step relation, and their invariant.
    - ClkClient.v: the state, handlers, requests and waits of a client
      ([client_state.cpp], [clockmanager.cpp]), the other instance of [Side], and
      its listener.  ClkRound.v: both sides together.
    - ClkEventC.v: what a client reads of its time bases in C++ and C
      ([clock_event.cpp], [clockmanager_c.cpp]).
    - ClkQueue.v: the queues of the system with their moves, the listener with the
      loop of its thread, the end of a process and the start of a client
      ([msgq_tport.cpp], [termin.cpp]) over the class [MqOs], and theorems.
    - ClkPtp4l.v: the connections of the proxy to ptp4l
      ([src/clkmgr/proxy/connect_ptp4l.cpp]): the call-backs for messages of
      ptp4l, the start of a connection and its loops.  ClkPtp4lHost.v: what a
      thread shares with the others, and what it must keep of it.
      ClkPtp4lFacts.v: a round of a thread; ClkPtp4lSys.v: all threads together
      with the service of the proxy, as a step relation.
    - ClkChrony.v: the connections to chrony ([connect_chrony.cpp]); the library
      of chrony is the class [ChronyLib].  ClkChronyFacts.v: theorems.
    - Sock.v: [src/src/sock.cpp]: the sockets on UNIX addresses, UDP and raw
      Ethernet, as sequences of calls of the class [Os].  SockFacts.v and
      SockAddr.v: theorems on descriptors, addresses and frames.  SockC.v: the C
      interface of the sockets, SockCFacts.v: its theorems, and a system on which
      they are run.
    - Opt.v: the options of a command line ([src/src/opt.cpp]) with the memory of
      their names, over a getopt_long that is a parameter; OptFacts.v.  Init.v:
      [Init::process] of [src/src/init.cpp], which puts the options, the
      configuration, the key file, the socket and the message together;
      InitFacts.v.
    - Ptp.v: the network interface and the clocks of [src/src/ptp.cpp]; the
      requests to the kernel are the constructors of an indexed family [ioctl],
      the system is the class [PtpOs].  PtpC.v: their C interface.  PtpFacts.v:
      theorems.

    ** What the theorems show

    - Safety: [parse] on any octets returns, never leaves the buffer and uses
      no null pointer (ParseSafe.v), for every object that operations can
      produce (MessageInv.v); the readers of files stay in their array when
      every line ends with a line feed (Cfg.v, Config.v).
    - Building: with the announced size of buffer [build] succeeds and writes
      the octets of a given layout, with less it reports an error
      (BuildFacts.v); parsing the layout gives back the structure
      (RoundTrip.v), from the round trip of every TLV (Dispatch.v, SigTlvs.v);
      a signalling message gives the list of its TLVs (SigFacts.v).
    - Authentication: with a required code, nothing is taken from a message
      whose code does not verify (ParseFacts.v).
    - Configuration: values are in their ranges, keys are well-formed, and a
      message can always use them.
    - Refinement: event masks are sets, [Binary] is a list of octets; time
      stamps are integers of nanoseconds; texts in hexadecimal and base 64 are
      read back; names identify enumerators.
    - JSON: parsing ends on every input and gives well-formed values, what is
      printed is read back, what was read and printed is read as the same value,
      a file is read as its text.
    - JSON of messages: what [tlv2json] and [msg2json] print is read as a
      structure that is the same (JsonMsgFacts.v); a request in
      JSON becomes the request of a message, and no text gives a message data of
      a wrong type.
    - Call-backs and the C interface: a reply reaches the call-back of its id with
      its structure; a builder loses no structure and leaves no pointer to a
      deleted one (MsgCall.v); C structures convert back to what they were
      made from; the blocks of [ptpmgmt_tlv_mem] are released once
      (TlvMemFacts.v); the C functions do what the C++ ones do, and which of them
      keep the address of a deleted structure (CApi.v); what a C program reads of a
      signalling TLV is the TLV (SigC.v); no sequence of C calls on a message, on a
      key file or on a JSON request uses or releases a block twice, and which
      structures are stale after which calls (MsgCFacts.v, CfgC.v, JsonC.v).
    - Authentication libraries: threads that share the loader never use a null
      pointer or a library that is not loaded, unless one releases it between the
      loading and the counting of a key (Hmac.v).
    - Clock manager: counters of events are the changes of the observed states
      (ClkEventFacts.v); in all reachable states of the proxy subscribers are
      sessions, and both listeners return from any message (ClkProxy.v,
      ClkClient.v); a connect request connects, a notification arrives as
      the event that it was, a wait ends and misses no event (ClkRound.v), and a C
      program reads what it gave (ClkEventC.v).  No queue or descriptor is lost, but
      a second connection of a client ends its process (ClkQueue.v).  In any
      interleaving of the threads of ptp4l, or of chrony, with the others, none
      faults and the clients get the event of each (ClkPtp4lSys.v,
      ClkChronyFacts.v); what each state of a port and a lost connection do
      (ClkPtp4lFacts.v).
    - Sockets, start, clocks: no operation loses a descriptor of the process
      (SockFacts.v, InitFacts.v, PtpFacts.v), frames carry the addresses of
      their socket (SockAddr.v), options give a result for every command line
      (OptFacts.v), which parameters a message gets (InitFacts.v), what a clock
      that is opened has (PtpFacts.v); no sequence of C calls on live objects is
      undefined (SockCFacts.v, PtpFacts.v).

    ** Bounds and fuel

    The loops over a signalling message and over lists of records run on fuel
    from the octets that are left: each round consumes at least one octet, and
    theorems show that fuel never runs out.  The lines of a file and the tokens
    of a text use their length.  The JSON parser uses the characters that are
    left for loops and nesting (JsonSafe.v).  The search for a free session uses
    one round more than there are sessions, which is enough while an id is free
    ([free_session_enough]); without a free id it has no end
    ([free_session_full]).  The list of time bases in a message of at most 8192
    octets uses 8192 rounds, of 144 octets each.  [statusWait] has a list of what
    happens between its rounds instead of fuel: it ends when one of them is after
    the time of the caller.

    ** What is not modelled

    Floating point ([float_seconds], [getFloat], [std::to_string] of a double, and
    the frequency of a clock, which is the class [FreqArith]; a [Float64_t] on the
    wire is its 64 bits): no value of the protocol is decided by it.  Memory
    exhaustion.  The log of errors and the version ([src/src/err.cpp],
    [src/src/ver.cpp]), which no other part reads.  The wrappers of the libraries of
    authentication in [src/hmac], calls of third-party code; their common contract
    is [MacLib].  IP addresses as texts ([inet_pton]).  The script wrappers, the
    tools and the samples.  Of the clock manager: signals, the command line of the
    proxy, printing; threads are modelled by the steps between their locks. *)

From stdpp Require Export base numbers list strings gmap.
From Stdlib Require Export Init.Byte.
From Stdlib Require Strings.Byte.
From Stdlib Require Export ZArith Lia.

#[global] Open Scope Z_scope.

(** ** Machine integers

    A C++ integer of width [w] is a [Z] kept in the range of its type.  [uwrap]
    and [swrap] are the conversions to the unsigned and the signed type of
    width [w]; [uint] and [sint] say that a value is one of the type. *)

Definition uwrap (w z : Z) : Z := z mod 2 ^ w.
Definition swrap (w z : Z) : Z :=
  let u := uwrap w z in if u <? 2 ^ (w - 1) then u else u - 2 ^ w.

Definition uint (w z : Z) : Prop := 0 <= z < 2 ^ w.
Definition sint (w z : Z) : Prop := - 2 ^ (w - 1) <= z < 2 ^ (w - 1).

#[global] Instance uint_dec w z : Decision (uint w z).
Proof. unfold uint. apply _. Defined.
#[global] Instance sint_dec w z : Decision (sint w z).
Proof. unfold sint. apply _. Defined.

Lemma uwrap_small w z : uint w z -> uwrap w z = z.
Proof. intros. by apply Z.mod_small. Qed.

Lemma swrap_uwrap w z : swrap w (uwrap w z) = swrap w z.
Proof.
  unfold swrap, uwrap. destruct (decide (0 <= w)).
  - rewrite Zmod_mod. done.
  - by rewrite Z.pow_neg_r, !Z.mod_0_r by lia.
Qed.

Lemma swrap_small w z : 0 < w -> sint w z -> swrap w z = z.
Proof.
  unfold swrap, uwrap, sint. intros Hw H.
  assert (2 ^ w = 2 * 2 ^ (w - 1)) as E.
  { rewrite <- Z.pow_succ_r by lia. f_equal. lia. }
  rewrite E. destruct (decide (0 <= z)).
  - rewrite Z.mod_small by lia. by destruct (Z.ltb_spec z (2 ^ (w - 1))); lia.
  - assert (z mod (2 * 2 ^ (w - 1)) = z + 2 * 2 ^ (w - 1)) as ->.
    { symmetry. apply (Z.mod_unique _ _ (-1)); lia. }
    destruct (Z.ltb_spec (z + 2 * 2 ^ (w - 1)) (2 ^ (w - 1))); lia.
Qed.

Lemma uint_uwrap w z : 0 <= w -> uint w (uwrap w z).
Proof. intros. apply Z.mod_pos_bound. apply Z.pow_pos_nonneg; lia. Qed.

(** [swrap] changes a value by a multiple of [2 ^ w]. *)
Lemma uwrap_swrap w z : 0 <= w -> uwrap w (swrap w z) = uwrap w z.
Proof.
  intros Hw. unfold swrap. destruct (_ <? _); unfold uwrap; [by rewrite Zmod_mod|].
  rewrite Zminus_mod, Z_mod_same_full, Z.sub_0_r, !Zmod_mod. done.
Qed.

Lemma sint_swrap w z : 0 < w -> sint w (swrap w z).
Proof.
  intros Hw. unfold sint, swrap. pose proof (uint_uwrap w z ltac:(lia)) as [? ?].
  assert (2 ^ w = 2 * 2 ^ (w - 1)).
  { rewrite <- Z.pow_succ_r by lia. f_equal. lia. }
  destruct (Z.ltb_spec (uwrap w z) (2 ^ (w - 1))); lia.
Qed.

(** Length of a list as a [Z]: the [size()] of a container. *)
Definition len {A} (l : list A) : Z := Z.of_nat (length l).
Lemma len_app {A} (l l' : list A) : len (l ++ l') = len l + len l'.
Proof. unfold len. rewrite length_app. lia. Qed.

Lemma len_nonneg {A} (l : list A) : 0 <= len l.
Proof. unfold len. lia. Qed.

(** ** Octets *)

Definition b2z (b : byte) : Z := Z.of_N (Byte.to_N b).
Definition z2b (z : Z) : byte :=
  match Byte.of_N (Z.to_N (z mod 256)) with Some b => b | None => x00 end.

Lemma b2z_range b : 0 <= b2z b < 256.
Proof.
  unfold b2z. pose proof (Byte.to_N_bounded b). lia.
Qed.

Lemma b2z_z2b z : b2z (z2b z) = z mod 256.
Proof.
  unfold b2z, z2b. pose proof (Z.mod_pos_bound z 256 eq_refl) as Hb.
  destruct (Byte.of_N (Z.to_N (z mod 256))) as [b|] eqn:E.
  - apply Byte.to_of_N in E. rewrite E. lia.
  - apply Byte.of_N_None_iff in E. lia.
Qed.

Lemma z2b_b2z b : z2b (b2z b) = b.
Proof.
  unfold z2b. rewrite Z.mod_small by apply b2z_range.
  unfold b2z. rewrite N2Z.id, Byte.of_to_N. done.
Qed.

Lemma b2z_inj a b : b2z a = b2z b -> a = b.
Proof. intros H. rewrite <- (z2b_b2z a), H. apply z2b_b2z. Qed.

#[global] Instance byte_eq_dec : EqDecision byte := Byte.byte_eq_dec.
#[global] Instance byte_countable : Countable byte.
Proof. refine (inj_countable Byte.to_N Byte.of_N _). apply Byte.of_to_N. Defined.

(** ** Byte order *)

Fixpoint le_enc (n : nat) (z : Z) : list byte :=
  match n with
  | O => []
  | S n => z2b z :: le_enc n (z / 256)
  end.

Fixpoint le_dec (bs : list byte) : Z :=
  match bs with
  | [] => 0
  | b :: bs => b2z b + 256 * le_dec bs
  end.

Definition be_enc (n : nat) (z : Z) : list byte := rev (le_enc n z).
Definition be_dec (bs : list byte) : Z := le_dec (rev bs).

Lemma length_le_enc n z : length (le_enc n z) = n.
Proof. revert z; induction n; intros; simpl; auto. Qed.

Lemma length_be_enc n z : length (be_enc n z) = n.
Proof. unfold be_enc. rewrite length_rev. apply length_le_enc. Qed.

Lemma len_be_enc n z : len (be_enc n z) = Z.of_nat n.
Proof. unfold len. by rewrite length_be_enc. Qed.

Lemma len_le_enc n z : len (le_enc n z) = Z.of_nat n.
Proof. unfold len. by rewrite length_le_enc. Qed.

Lemma pow256_succ n : 256 ^ Z.of_nat (S n) = 256 * 256 ^ Z.of_nat n.
Proof. rewrite Nat2Z.inj_succ, Z.pow_succ_r by lia. done. Qed.

Lemma le_dec_enc n z : le_dec (le_enc n z) = z mod 256 ^ Z.of_nat n.
Proof.
  revert z; induction n as [|n IH]; intros z.
  - simpl. by rewrite Z.mod_1_r.
  - cbn [le_enc le_dec]. rewrite IH, b2z_z2b, pow256_succ.
    rewrite Z.rem_mul_r by lia. done.
Qed.

Lemma le_dec_range bs : 0 <= le_dec bs < 256 ^ len bs.
Proof.
  induction bs as [|b bs IH]; unfold len in *; [simpl; lia|].
  cbn [le_dec length]. rewrite pow256_succ.
  pose proof (b2z_range b). lia.
Qed.

Lemma le_enc_dec bs : le_enc (length bs) (le_dec bs) = bs.
Proof.
  induction bs as [|b bs IH]; [done|]. cbn [length le_enc le_dec].
  pose proof (b2z_range b) as Hb. f_equal.
  - apply b2z_inj. rewrite b2z_z2b, Z.mul_comm, Z.mod_add by lia.
    apply Z.mod_small; lia.
  - rewrite Z.mul_comm, Z.div_add, Z.div_small by lia. exact IH.
Qed.

Lemma be_dec_enc n z : be_dec (be_enc n z) = z mod 256 ^ Z.of_nat n.
Proof. unfold be_dec, be_enc. rewrite rev_involutive. apply le_dec_enc. Qed.

Lemma be_dec_range bs : 0 <= be_dec bs < 256 ^ len bs.
Proof.
  unfold be_dec. pose proof (le_dec_range (rev bs)) as H.
  unfold len in *. by rewrite length_rev in H.
Qed.

Lemma be_enc_dec bs : be_enc (length bs) (be_dec bs) = bs.
Proof.
  unfold be_dec, be_enc. rewrite <- (length_rev bs), le_enc_dec.
  apply rev_involutive.
Qed.

(** A masked octet. *)
Lemma land_byte m n : 0 <= m < 256 -> 0 <= Z.land m n < 256.
Proof.
  intros Hm. assert (Z.land m n = Z.land m n mod 2 ^ 8) as ->.
  { rewrite <- Z.land_ones by lia. rewrite <- Z.land_assoc, (Z.land_comm n), Z.land_assoc.
    by rewrite Z.land_ones, Z.mod_small by lia. }
  apply Z.mod_pos_bound. lia.
Qed.
