(* ===== verification/CStr.v ===== *)
(** * CStr.v: C strings

    The functions of the C library that the parsers of text use, on lists of
    octets: [isspace], [strtok_r] (class [Token] of [src/src/comp.h]) and
    [strtol] as the C17 standard and the C locale define them. *)

From S2P Require Import Prelude.
From Stdlib Require Strings.String.

Definition bytes (s : String.string) : list byte := String.list_byte_of_string s.

(** The part of a string before its first NUL. *)
Fixpoint cstr (s : list byte) : list byte :=
  match s with
  | [] => []
  | c :: s => if bool_decide (c = x00) then [] else c :: cstr s
  end.

Definition isspace (c : byte) : bool := (b2z c =? 32) || ((9 <=? b2z c) && (b2z c <=? 13)).
Definition isdigit (c : byte) : bool := (48 <=? b2z c) && (b2z c <=? 57).

(** ** strtok_r *)

Section Token.
Context (sep : list byte).

Definition is_sep (c : byte) : bool := bool_decide (c ∈ sep).

(** The token and the rest of the string after the separator that ends it. *)
Fixpoint token_of (s : list byte) : list byte * list byte :=
  match s with
  | [] => ([], [])
  | c :: s => if is_sep c then ([], s)
              else let '(t, r) := token_of s in (c :: t, r)
  end.
Fixpoint strtok (s : list byte) : option (list byte * list byte) :=
  match s with
  | [] => None
  | c :: s' => if is_sep c then strtok s' else Some (token_of s)
  end.

(** All the tokens, as [first] and [next] give them until the null pointer. *)
Fixpoint tokens_fuel (fuel : nat) (s : list byte) : list (list byte) :=
  match fuel with
  | O => []
  | S fuel => match strtok s with
              | None => []
              | Some (t, r) => t :: tokens_fuel fuel r
              end
  end.
Definition tokens (s : list byte) : list (list byte) := tokens_fuel (S (length s)) s.
End Token.

(** ** strtol *)

Definition LONG_MAX : Z := 2 ^ 63 - 1.
Definition LONG_MIN : Z := - 2 ^ 63.

(** The value of a digit; 36 for other characters. *)
Definition digit_val (c : byte) : Z :=
  let z := b2z c in
  if (48 <=? z) && (z <=? 57) then z - 48
  else if (65 <=? z) && (z <=? 90) then z - 55
  else if (97 <=? z) && (z <=? 122) then z - 87
  else 36.

(** The digits at the start: whether there is one, the value, the rest. *)
Fixpoint digits (base acc : Z) (some : bool) (s : list byte) : bool * Z * list byte :=
  match s with
  | c :: s' => if digit_val c <? base then digits base (acc * base + digit_val c) true s'
               else (some, acc, s)
  | [] => (some, acc, s)
  end.

Fixpoint skip_space (s : list byte) : list byte :=
  match s with
  | c :: s' => if isspace c then skip_space s' else s
  | [] => []
  end.

(** The base and the digits after an optional "0x". *)
Definition radix (base : Z) (s : list byte) : Z * list byte :=
  match s with
  | c0 :: c1 :: c2 :: s' =>
      if bool_decide (c0 = x30) && (bool_decide (c1 = x78) || bool_decide (c1 = x58)) &&
         (digit_val c2 <? 16) && ((base =? 0) || (base =? 16))
      then (16, c2 :: s')
      else (if base =? 0 then if bool_decide (c0 = x30) then 8 else 10 else base, s)
  | c0 :: _ => (if base =? 0 then if bool_decide (c0 = x30) then 8 else 10 else base, s)
  | [] => (if base =? 0 then 10 else base, s)
  end.

(** [strtol(s, &end, base)]: the value and [end]. *)
Definition strtol (base : Z) (s : list byte) : Z * list byte :=
  let s1 := skip_space s in
  let '(neg, s2) := match s1 with
                    | c :: r => if bool_decide (c = x2d) then (true, r)
                                else if bool_decide (c = x2b) then (false, r)
                                else (false, s1)
                    | [] => (false, s1)
                    end in
  let '(b, s3) := radix base s2 in
  let '(some, v, rest) := digits b 0 false s3 in
  if some then (Z.max LONG_MIN (Z.min LONG_MAX (if neg then - v else v)), rest)
  else (0, s).

(** ** Lemmas *)

Section TokenFacts.
Context (sep : list byte).

(** A string without separators is one token. *)
Lemma token_of_plain s r :
  Forall (fun c => is_sep sep c = false) s ->
  token_of sep (s ++ r) = let '(t, r) := token_of sep r in (s ++ t, r).
Proof.
  induction 1 as [|c s Hc _ IH]; cbn; [by destruct (token_of sep r)|].
  rewrite Hc, IH. by destruct (token_of sep r).
Qed.

Lemma token_of_len s t r : token_of sep s = (t, r) -> (length r <= length s)%nat.
Proof.
  revert t r. induction s as [|c s IH]; intros t r E; cbn in E; [by simplify_eq|].
  destruct (is_sep sep c); [simplify_eq; cbn; lia|].
  destruct (token_of sep s) as [t' r']. simplify_eq. specialize (IH _ _ eq_refl). cbn. lia.
Qed.
Lemma strtok_len s t r : strtok sep s = Some (t, r) -> (length r < length s)%nat.
Proof.
  revert t r. induction s as [|c s IH]; intros t r E; [done|]. cbn in E.
  destruct (is_sep sep c); [apply IH in E; cbn; lia|].
  destruct (token_of sep s) as [t' r'] eqn:F. apply token_of_len in F. simplify_eq. cbn. lia.
Qed.

(** More fuel than octets is enough. *)
Lemma tokens_fuel_enough n s : (length s < n)%nat -> tokens_fuel sep n s = tokens sep s.
Proof.
  unfold tokens. generalize (Nat.lt_succ_diag_r (length s)). generalize (S (length s)) as k.
  revert s. induction n as [|n IH]; intros s k Hk Hn; [lia|]. destruct k as [|k]; [lia|].
  cbn. destruct (strtok sep s) as [[t r]|] eqn:E; [|done]. apply strtok_len in E. f_equal.
  apply IH; lia.
Qed.

Lemma tokens_unfold s :
  tokens sep s = match strtok sep s with None => [] | Some (t, r) => t :: tokens sep r end.
Proof.
  unfold tokens at 1. cbn. destruct (strtok sep s) as [[t r]|] eqn:E; [|done].
  apply strtok_len in E. by rewrite tokens_fuel_enough.
Qed.
End TokenFacts.
