(* ===== verification/Types.v ===== *)
(** * Types.v: the PTP data types

    The enumerators and structures of [src/src/types.m4] (the source of the
    generated [types.h]) with the methods of [src/src/types.cpp]: the [size()]
    functions, the [Timestamp_t] and [TimeInterval_t] integer arithmetic, the
    comparisons of clock and port identities and the signalling filter of
    [MsgParams].

    A C++ enumeration that is filled by a cast from the wire ([(T)v]) can hold
    any value of its underlying type, so such fields are [Z] and the
    enumerators are named constants.  The methods on [long double]
    ([getInterval], [toFloat], [fromFloat], the [float_seconds] overloads) are
    not modelled. *)

From S2P Require Import Prelude.

(** ** Enumerators *)

(** Parsing and building errors. *)
Inductive MNG_PARSE_ERROR_e :=
| MNG_PARSE_ERROR_OK
| MNG_PARSE_ERROR_MSG
| MNG_PARSE_ERROR_SIG
| MNG_PARSE_ERROR_SMPTE
| MNG_PARSE_ERROR_INVALID_ID
| MNG_PARSE_ERROR_INVALID_TLV
| MNG_PARSE_ERROR_MISMATCH_TLV
| MNG_PARSE_ERROR_SIZE_MISS
| MNG_PARSE_ERROR_TOO_SMALL
| MNG_PARSE_ERROR_SIZE
| MNG_PARSE_ERROR_VAL
| MNG_PARSE_ERROR_HEADER
| MNG_PARSE_ERROR_ACTION
| MNG_PARSE_ERROR_UNSUPPORT
| MNG_PARSE_ERROR_MEM
| MNG_PARSE_ERROR_AUTH
| MNG_PARSE_ERROR_AUTH_NONE
| MNG_PARSE_ERROR_AUTH_WRONG
| MNG_PARSE_ERROR_AUTH_NOKEY.

#[global] Instance MNG_PARSE_ERROR_e_eq_dec : EqDecision MNG_PARSE_ERROR_e.
Proof. solve_decision. Defined.

(** PTP message types (4 bits) that the parser distinguishes. *)
Definition Signaling : Z := 0xc.
Definition Management : Z := 0xd.

(** TLV types (16 bits). *)
Definition MANAGEMENT : Z := 0x0001.
Definition MANAGEMENT_ERROR_STATUS : Z := 0x0002.
Definition ORGANIZATION_EXTENSION : Z := 0x0003.
Definition PATH_TRACE : Z := 0x0008.
Definition ALTERNATE_TIME_OFFSET_INDICATOR : Z := 0x0009.
Definition ORGANIZATION_EXTENSION_PROPAGATE : Z := 0x4000.
Definition ENHANCED_ACCURACY_METRICS : Z := 0x4001.
Definition ORGANIZATION_EXTENSION_DO_NOT_PROPAGATE : Z := 0x8000.
Definition L1_SYNC : Z := 0x8001.
Definition PORT_COMMUNICATION_AVAILABILITY : Z := 0x8002.
Definition PROTOCOL_ADDRESS : Z := 0x8003.
Definition SLAVE_RX_SYNC_TIMING_DATA : Z := 0x8004.
Definition SLAVE_RX_SYNC_COMPUTED_DATA : Z := 0x8005.
Definition SLAVE_TX_EVENT_TIMESTAMPS : Z := 0x8006.
Definition CUMULATIVE_RATE_RATIO : Z := 0x8007.
Definition AUTHENTICATION : Z := 0x8009.
Definition SLAVE_DELAY_TIMING_DATA_NP : Z := 0x7f00.

(** PTP management action. *)
Inductive actionField_e := GET | SET | RESPONSE | COMMAND | ACKNOWLEDGE.

#[global] Instance actionField_e_eq_dec : EqDecision actionField_e.
Proof. solve_decision. Defined.

(** The value of the enumerator, as it is put on the wire. *)
Definition actionField_val (a : actionField_e) : Z :=
  match a with
  | GET => 0 | SET => 1 | RESPONSE => 2 | COMMAND => 3 | ACKNOWLEDGE => 4
  end.

(** Implementation-specific management TLVs in use. *)
Inductive implementSpecific_e := noImplementSpecific | linuxptp.

#[global] Instance implementSpecific_e_eq_dec : EqDecision implementSpecific_e.
Proof. solve_decision. Defined.

(** Limits of the 48 bits integers. *)
Definition INT48_MIN : Z := - 0x7fffffffffff - 1.
Definition INT48_MAX : Z := 0x7fffffffffff.
Definition UINT48_MAX : Z := 0xffffffffffff.

(** Receive authentication modes, bits of [MsgParams::rcvAuth]. *)
Definition RCV_AUTH_MNG : Z := 1.
Definition RCV_AUTH_SIG_LAST : Z := 2.
Definition RCV_AUTH_SIG_ALL : Z := 4.
Definition RCV_AUTH_ALL : Z := 7.
Definition RCV_AUTH_IGNORE : Z := 8.

(** ** Structures *)

Record TimeInterval_t := mk_TimeInterval { scaledNanoseconds : Z }.

Record Timestamp_t := mk_Timestamp {
  secondsField : Z;
  nanosecondsField : Z
}.

Record ClockIdentity_t := mk_ClockIdentity { ci_v : list byte }.

Record PortIdentity_t := mk_PortIdentity {
  clockIdentity : ClockIdentity_t;
  portNumber : Z
}.

Record PortAddress_t := mk_PortAddress {
  networkProtocol : Z;
  addressLength : Z;
  addressField : list byte
}.

Record ClockQuality_t := mk_ClockQuality {
  clockClass : Z;
  clockAccuracy : Z;
  offsetScaledLogVariance : Z
}.

Record PTPText_t := mk_PTPText {
  lengthField : Z;
  textField : list byte
}.

Record FaultRecord_t := mk_FaultRecord {
  faultRecordLength : Z;
  faultTime : Timestamp_t;
  severityCode : Z;
  faultName : PTPText_t;
  faultValue : PTPText_t;
  faultDescription : PTPText_t
}.

Record AcceptableMaster_t := mk_AcceptableMaster {
  acceptablePortIdentity : PortIdentity_t;
  alternatePriority1 : Z
}.

Record LinuxptpUnicastMaster_t := mk_LinuxptpUnicastMaster {
  lum_portIdentity : PortIdentity_t;
  lum_clockQuality : ClockQuality_t;
  lum_selected : Z;
  lum_portState : Z;
  lum_priority1 : Z;
  lum_priority2 : Z;
  lum_portAddress : PortAddress_t
}.

(** Decidable equality of the structures. *)
#[global] Instance TimeInterval_t_eq_dec : EqDecision TimeInterval_t.
Proof. solve_decision. Defined.
#[global] Instance Timestamp_t_eq_dec : EqDecision Timestamp_t.
Proof. solve_decision. Defined.
#[global] Instance ClockIdentity_t_eq_dec : EqDecision ClockIdentity_t.
Proof. solve_decision. Defined.
#[global] Instance PortIdentity_t_eq_dec : EqDecision PortIdentity_t.
Proof. solve_decision. Defined.
#[global] Instance PortAddress_t_eq_dec : EqDecision PortAddress_t.
Proof. solve_decision. Defined.

(** ** The size() methods *)

Definition TimeInterval_size : Z := 8.
Definition Timestamp_size : Z := 6 + 4.
Definition ClockIdentity_size : Z := 8.
Definition PortIdentity_size : Z := ClockIdentity_size + 2.
Definition PortAddress_size (d : PortAddress_t) : Z := 2 + 2 + len (addressField d).
Definition ClockQuality_size : Z := 1 + 1 + 2.
Definition PTPText_size (d : PTPText_t) : Z := 1 + len (textField d).
Definition FaultRecord_size (d : FaultRecord_t) : Z :=
  2 + Timestamp_size + 1 + PTPText_size (faultName d) +
  PTPText_size (faultValue d) + PTPText_size (faultDescription d).
Definition AcceptableMaster_size : Z := PortIdentity_size + 1.
Definition LinuxptpUnicastMaster_size (d : LinuxptpUnicastMaster_t) : Z :=
  PortIdentity_size + ClockQuality_size + 1 + 1 + 1 + 1 +
  PortAddress_size (lum_portAddress d).

(** ** Ranges of the C++ field types *)

Definition wf_TimeInterval (d : TimeInterval_t) : Prop := sint 64 (scaledNanoseconds d).
Definition wf_Timestamp (d : Timestamp_t) : Prop :=
  uint 64 (secondsField d) /\ uint 32 (nanosecondsField d).
Definition wf_ClockIdentity (d : ClockIdentity_t) : Prop := length (ci_v d) = 8%nat.
Definition wf_PortIdentity (d : PortIdentity_t) : Prop :=
  wf_ClockIdentity (clockIdentity d) /\ uint 16 (portNumber d).

(** ** TimeInterval_t *)

(** [getIntervalInt]: nanoseconds, rounded towards zero.  The negation is done
    in [int64_t]; of [INT64_MIN] it is written with the wrap-around. *)
Definition getIntervalInt (d : TimeInterval_t) : Z :=
  let n := scaledNanoseconds d in
  if n <? 0 then swrap 64 (- Z.shiftr (swrap 64 (- n)) 16) else Z.shiftr n 16.
Definition TimeInterval_isZero (d : TimeInterval_t) : bool := scaledNanoseconds d =? 0.

(** ** Timestamp_t *)

Definition NSEC_PER_SEC : Z := 1000000000.
Definition NSEC_PER_USEC : Z := 1000.

Record timespec := mk_timespec { tv_sec : Z; tv_nsec : Z }.
Record timeval := mk_timeval { tvv_sec : Z; tv_usec : Z }.

Definition Timestamp_from_timespec (ts : timespec) : Timestamp_t :=
  mk_Timestamp (uwrap 64 (tv_sec ts)) (uwrap 32 (tv_nsec ts)).
Definition toTimespec (d : Timestamp_t) : timespec :=
  mk_timespec (swrap 64 (secondsField d)) (swrap 64 (nanosecondsField d)).
Definition Timestamp_from_timeval (tv : timeval) : Timestamp_t :=
  mk_Timestamp (uwrap 64 (tvv_sec tv)) (uwrap 32 (tv_usec tv * NSEC_PER_USEC)).
Definition toTimeval (d : Timestamp_t) : timeval :=
  mk_timeval (swrap 64 (secondsField d)) (nanosecondsField d / NSEC_PER_USEC).

(** [fromNanoseconds]: [lldiv] truncates towards zero and the argument is cast
    to [long long], so the remainder can be negative.  The [while] adds
    [NSEC_PER_SEC] until it is not; one round is enough, and the fuel of two
    is proved sufficient below. *)
Fixpoint fixRem (fuel : nat) (quot rem : Z) : option (Z * Z) :=
  match fuel with
  | O => None
  | S fuel =>
      if rem <? 0 then fixRem fuel (quot - 1) (rem + NSEC_PER_SEC)
      else Some (quot, rem)
  end.
Definition fromNanoseconds (nanoseconds : Z) : option Timestamp_t :=
  let n := swrap 64 nanoseconds in
  match fixRem 2 (Z.quot n NSEC_PER_SEC) (Z.rem n NSEC_PER_SEC) with
  | Some (q, r) => Some (mk_Timestamp (uwrap 64 q) (uwrap 32 r))
  | None => None
  end.
Definition toNanoseconds (d : Timestamp_t) : Z :=
  uwrap 64 (nanosecondsField d + uwrap 64 (secondsField d * NSEC_PER_SEC)).

Definition Timestamp_eq (a b : Timestamp_t) : bool :=
  (secondsField a =? secondsField b) && (nanosecondsField a =? nanosecondsField b).
Definition Timestamp_less (a b : Timestamp_t) : bool :=
  (secondsField a <? secondsField b) ||
  ((secondsField a =? secondsField b) && (nanosecondsField a <? nanosecondsField b)).
Definition Timestamp_isZero (d : Timestamp_t) : bool :=
  (secondsField d =? 0) && (nanosecondsField d =? 0).

(** [normNano]: the loop on a 32 bits counter; [None] is running out of fuel. *)
Fixpoint normNano_loop (fuel : nat) (d : Timestamp_t) : option Timestamp_t :=
  match fuel with
  | O => None
  | S fuel =>
      if NSEC_PER_SEC <=? nanosecondsField d then
        normNano_loop fuel (mk_Timestamp (uwrap 64 (secondsField d + 1))
                              (uwrap 32 (nanosecondsField d - NSEC_PER_SEC)))
      else Some d
  end.
Definition normNano (d : Timestamp_t) : option Timestamp_t := normNano_loop 6 d.

Definition Timestamp_add (a ts : Timestamp_t) : option Timestamp_t :=
  normNano (mk_Timestamp (uwrap 64 (secondsField a + secondsField ts))
              (uwrap 32 (nanosecondsField a + nanosecondsField ts))).

(** [subt]: borrow loop, subtraction and normalisation.  The borrow loop does
    not always end (see [subt_borrow_diverges]), so it takes the number of
    iterations it may use. *)
Fixpoint subt_borrow (fuel : nat) (d ts : Timestamp_t) : option Timestamp_t :=
  match fuel with
  | O => None
  | S fuel =>
      if nanosecondsField d <? nanosecondsField ts then
        subt_borrow fuel (mk_Timestamp (uwrap 64 (secondsField d - 1))
                            (uwrap 32 (nanosecondsField d + NSEC_PER_SEC))) ts
      else Some d
  end.
Definition Timestamp_subt (fuel : nat) (a ts : Timestamp_t) : option Timestamp_t :=
  let a := mk_Timestamp (uwrap 64 (secondsField a - secondsField ts)) (nanosecondsField a) in
  match subt_borrow fuel a ts with
  | Some a => normNano (mk_Timestamp (secondsField a)
                          (uwrap 32 (nanosecondsField a - nanosecondsField ts)))
  | None => None
  end.

(** A time stamp as the library produces it: nanoseconds below one second. *)
Definition normal (d : Timestamp_t) : Prop :=
  uint 64 (secondsField d) /\ 0 <= nanosecondsField d < NSEC_PER_SEC.

(** ** Identities *)

(** [memcmp] on octets: the sign of the comparison, over the first [n]. *)
Fixpoint memcmp (n : nat) (a b : list byte) : comparison :=
  match n, a, b with
  | S n, x :: a, y :: b =>
      match b2z x ?= b2z y with Eq => memcmp n a b | c => c end
  | _, _, _ => Eq
  end.

Definition ClockIdentity_eq (a b : ClockIdentity_t) : bool :=
  match memcmp 8 (ci_v a) (ci_v b) with Eq => true | _ => false end.
Definition ClockIdentity_less (a b : ClockIdentity_t) : bool :=
  match memcmp 8 (ci_v a) (ci_v b) with Lt => true | _ => false end.
Definition ClockIdentity_clear (val : Z) : ClockIdentity_t :=
  mk_ClockIdentity (repeat (z2b val) 8).
Definition ClockIdentity_eq_bin (a : ClockIdentity_t) (bin : list byte) : bool :=
  (len bin =? ClockIdentity_size) &&
  match memcmp 8 (ci_v a) bin with Eq => true | _ => false end.
Definition PortIdentity_eq (a b : PortIdentity_t) : bool :=
  ClockIdentity_eq (clockIdentity a) (clockIdentity b) &&
  (portNumber a =? portNumber b).
Definition PortIdentity_less (a b : PortIdentity_t) : bool :=
  if ClockIdentity_eq (clockIdentity a) (clockIdentity b)
  then portNumber a <? portNumber b
  else ClockIdentity_less (clockIdentity a) (clockIdentity b).
Definition PortIdentity_clear : PortIdentity_t :=
  mk_PortIdentity (ClockIdentity_clear 0) 0.

(** [Binary::eq] and [Binary::less] on the contents of two binaries, and the
    comparisons of port addresses that use them. *)
Definition Binary_eq (a b : list byte) : bool :=
  (len a =? len b) &&
  ((len a =? 0) || match memcmp (length a) a b with Eq => true | _ => false end).
Definition Binary_less (a b : list byte) : bool :=
  let size := Z.min (len a) (len b) in
  (0 <? size) &&
  match memcmp (Z.to_nat size) a b with Lt => true | _ => false end.
Definition PortAddress_eq (a b : PortAddress_t) : bool :=
  (networkProtocol a =? networkProtocol b) &&
  Binary_eq (addressField a) (addressField b).
Definition PortAddress_less (a b : PortAddress_t) : bool :=
  if networkProtocol a =? networkProtocol b
  then Binary_less (addressField a) (addressField b)
  else networkProtocol a <? networkProtocol b.

(** ** MsgParams *)

Definition allPorts : Z := 0xffff.
Definition allClocks : ClockIdentity_t := mk_ClockIdentity (repeat xff 8).

Record MsgParams := mk_MsgParams {
  transportSpecific : Z;
  domainNumber : Z;
  boundaryHops : Z;
  minorVersion : Z;
  isUnicast : bool;
  implementSpecific : implementSpecific_e;
  target : PortIdentity_t;
  self_id : PortIdentity_t;
  useZeroGet : bool;
  rcvSignaling : bool;
  filterSignaling : bool;
  rcvSMPTEOrg : bool;
  sendAuth : bool;
  rcvAuth : Z;
  allowSigTlvs : gmap Z bool
}.

Definition MsgParams_default : MsgParams :=
  mk_MsgParams 0 0 1 0 true linuxptp (mk_PortIdentity allClocks allPorts)
    PortIdentity_clear true false true true true RCV_AUTH_ALL ∅.

Definition set_allowSigTlvs (f : gmap Z bool -> gmap Z bool) (p : MsgParams) : MsgParams :=
  mk_MsgParams (transportSpecific p) (domainNumber p) (boundaryHops p)
    (minorVersion p) (isUnicast p) (implementSpecific p) (target p) (self_id p)
    (useZeroGet p) (rcvSignaling p) (filterSignaling p) (rcvSMPTEOrg p)
    (sendAuth p) (rcvAuth p) (f (allowSigTlvs p)).
Definition allowSigTlv (type : Z) : MsgParams -> MsgParams :=
  set_allowSigTlvs (fun m => <[type := true]> m).
Definition removeSigTlv (type : Z) : MsgParams -> MsgParams :=
  set_allowSigTlvs (fun m => delete type m).
Definition isSigTlv (p : MsgParams) (type : Z) : bool :=
  match allowSigTlvs p !! type with Some _ => true | None => false end.
Definition countSigTlvs (p : MsgParams) : Z := Z.of_nat (size (allowSigTlvs p)).

(** The C++ types of the fields. *)
Definition wf_MsgParams (p : MsgParams) : Prop :=
  uint 8 (transportSpecific p) /\ uint 8 (domainNumber p) /\
  uint 8 (boundaryHops p) /\ uint 8 (minorVersion p) /\
  wf_PortIdentity (target p) /\ wf_PortIdentity (self_id p) /\ uint 8 (rcvAuth p).

(** ** Time stamps: theorems *)

(** The time a stamp stands for, in nanoseconds. *)
Definition stamp (d : Timestamp_t) : Z :=
  secondsField d * NSEC_PER_SEC + nanosecondsField d.

(** The range of the stamps: 64 bits of seconds. *)
Definition STAMP_RANGE : Z := 2 ^ 64 * NSEC_PER_SEC.

Lemma fixRem_correct n :
  exists q r, fixRem 2 (Z.quot n NSEC_PER_SEC) (Z.rem n NSEC_PER_SEC) = Some (q, r) /\
    n = q * NSEC_PER_SEC + r /\ 0 <= r < NSEC_PER_SEC.
Proof.
  unfold NSEC_PER_SEC. pose proof (Z.quot_rem' n 1000000000) as E.
  assert (- 1000000000 < Z.rem n 1000000000 < 1000000000).
  { pose proof (Z.rem_bound_abs n 1000000000). lia. }
  cbn [fixRem]. unfold NSEC_PER_SEC.
  destruct (Z.ltb_spec (Z.rem n 1000000000) 0);
    [destruct (Z.ltb_spec (Z.rem n 1000000000 + 1000000000) 0); [lia|]|];
    eexists _, _; (split; [done|]); lia.
Qed.

(** [fromNanoseconds] always returns, with the nanoseconds below one second,
    and [toNanoseconds] gives the argument back, for every 64 bits value. *)
Theorem nanoseconds_roundtrip n :
  uint 64 n ->
  exists d, fromNanoseconds n = Some d /\ normal d /\ toNanoseconds d = n.
Proof.
  intros Hn. unfold fromNanoseconds.
  destruct (fixRem_correct (swrap 64 n)) as (q & r & -> & E & Hr).
  eexists. split; [done|]. unfold NSEC_PER_SEC in Hr.
  assert (uwrap 32 r = r) as Er by (apply uwrap_small; unfold uint; lia).
  split.
  - split; cbn; [by apply uint_uwrap|]. rewrite Er. unfold NSEC_PER_SEC. lia.
  - unfold toNanoseconds; cbn. rewrite Er. transitivity (uwrap 64 (swrap 64 n)).
    + rewrite E. unfold uwrap. rewrite Zmult_mod_idemp_l, Zplus_mod_idemp_r. f_equal. lia.
    + rewrite uwrap_swrap by lia. by apply uwrap_small.
Qed.

Lemma nanoseconds_roundtrip_witness :
  exists d, fromNanoseconds (2 ^ 64 - 1) = Some d /\ toNanoseconds d = 2 ^ 64 - 1.
Proof.
  destruct (nanoseconds_roundtrip (2 ^ 64 - 1)) as (d & H & _ & E).
  - split; vm_compute; [discriminate|reflexivity].
  - exists d. split; [exact H|exact E].
Defined.

Lemma normNano_loop_correct fuel d :
  normal d \/ wf_Timestamp d -> nanosecondsField d < Z.of_nat fuel * NSEC_PER_SEC ->
  exists r, normNano_loop fuel d = Some r /\ normal r /\
    stamp r mod STAMP_RANGE = stamp d mod STAMP_RANGE.
Proof.
  unfold NSEC_PER_SEC. revert d. induction fuel as [|fuel IH]; intros [s n] Hd Hf;
    unfold wf_Timestamp, normal, uint, NSEC_PER_SEC in Hd; cbn in Hd, Hf; [lia|].
  cbn [normNano_loop nanosecondsField secondsField]. unfold NSEC_PER_SEC at 1.
  destruct (Z.leb_spec 1000000000 n).
  - destruct Hd as [Hd|[Hs Hn]]; [lia|]. unfold NSEC_PER_SEC.
    rewrite (uwrap_small 32) by (unfold uint; lia).
    destruct (IH (mk_Timestamp (uwrap 64 (s + 1)) (n - 1000000000))) as (r & E & Hr & Hm).
    + right. split; cbn; [by apply uint_uwrap|unfold uint; lia].
    + cbn. lia.
    + exists r. split; [done|]. split; [done|]. rewrite Hm. unfold stamp, STAMP_RANGE, uwrap.
      cbn. unfold NSEC_PER_SEC. rewrite <- Zplus_mod_idemp_l, Zmult_mod_distr_r, Zmod_mod,
        <- Zmult_mod_distr_r, Zplus_mod_idemp_l. f_equal. lia.
  - exists (mk_Timestamp s n). split; [done|]. split; [|done].
    unfold normal, uint, NSEC_PER_SEC; cbn. lia.
Qed.

(** The loop of [normNano] ends for every 32 bits value. *)
Lemma normNano_correct d :
  wf_Timestamp d ->
  exists r, normNano d = Some r /\ normal r /\
    stamp r mod STAMP_RANGE = stamp d mod STAMP_RANGE.
Proof.
  intros H. apply normNano_loop_correct; [by right|].
  destruct H as [_ [_ H]]. unfold NSEC_PER_SEC. lia.
Qed.

Lemma stamp_normal d : normal d -> 0 <= stamp d < STAMP_RANGE.
Proof. unfold normal, stamp, STAMP_RANGE, uint, NSEC_PER_SEC. lia. Qed.

Lemma normal_wf d : normal d -> wf_Timestamp d.
Proof. unfold normal, wf_Timestamp, uint, NSEC_PER_SEC. lia. Qed.

(** Wrapping the seconds changes the stamp by a multiple of its range. *)
Lemma stamp_wrap s n :
  stamp (mk_Timestamp (uwrap 64 s) n) mod STAMP_RANGE = (s * NSEC_PER_SEC + n) mod STAMP_RANGE.
Proof.
  unfold stamp, STAMP_RANGE, uwrap. cbn [secondsField nanosecondsField].
  rewrite <- Zplus_mod_idemp_l, Zmult_mod_distr_r, Zmod_mod, <- Zmult_mod_distr_r,
    Zplus_mod_idemp_l. done.
Qed.

(** The sum of two normal time stamps is always computed, is normal, and is
    the sum of the two times modulo the range of the seconds field. *)
Theorem timestamp_add_correct a b :
  normal a -> normal b ->
  exists r, Timestamp_add a b = Some r /\ normal r /\
    stamp r = (stamp a + stamp b) mod STAMP_RANGE.
Proof.
  intros Ha Hb. unfold Timestamp_add.
  assert (uwrap 32 (nanosecondsField a + nanosecondsField b) =
    nanosecondsField a + nanosecondsField b) as En.
  { apply uwrap_small. unfold normal, uint, NSEC_PER_SEC in *. lia. }
  rewrite En. match goal with |- context [normNano ?d] => destruct (normNano_correct d) as (r & E & Hr & Hm) end.
  { split; cbn; [by apply uint_uwrap|]. unfold normal, uint, NSEC_PER_SEC in *. lia. }
  exists r. split; [done|]. split; [done|].
  rewrite <- (Z.mod_small (stamp r) STAMP_RANGE) by (by apply stamp_normal).
  rewrite Hm, stamp_wrap. f_equal. unfold stamp. lia.
Qed.

Lemma timestamp_add_correct_witness :
  exists r, Timestamp_add (mk_Timestamp 1 999999999) (mk_Timestamp 2 2) = Some r /\
    stamp r = 4000000001.
Proof.
  destruct (timestamp_add_correct (mk_Timestamp 1 999999999) (mk_Timestamp 2 2))
    as (r & H & _ & E).
  - unfold normal, uint, NSEC_PER_SEC; cbn; lia.
  - unfold normal, uint, NSEC_PER_SEC; cbn; lia.
  - exists r. split; [exact H|exact E].
Defined.

Lemma subt_borrow_correct d ts fuel :
  normal d -> normal ts -> (2 <= fuel)%nat ->
  exists r, subt_borrow fuel d ts = Some r /\ uint 64 (secondsField r) /\
    nanosecondsField ts <= nanosecondsField r < 2 * NSEC_PER_SEC /\
    stamp r mod STAMP_RANGE = stamp d mod STAMP_RANGE.
Proof.
  intros Hd Ht Hf. destruct fuel as [|[|fuel]]; [lia..|]. destruct d as [s n].
  unfold normal, uint, NSEC_PER_SEC in *. cbn in Hd.
  cbn [subt_borrow secondsField nanosecondsField]. unfold NSEC_PER_SEC.
  rewrite (uwrap_small 32 (n + 1000000000)) by (unfold uint; lia).
  destruct (Z.ltb_spec n (nanosecondsField ts)).
  - destruct (Z.ltb_spec (n + 1000000000) (nanosecondsField ts)); [lia|].
    eexists. split; [done|]. split; [by apply uint_uwrap|]. split; [cbn; lia|].
    rewrite stamp_wrap. unfold stamp, NSEC_PER_SEC; cbn. f_equal. lia.
  - eexists. split; [done|]. split; [cbn; lia|]. split; [cbn; lia|done].
Qed.

(** The difference of two normal time stamps is computed with at most one
    round of the borrow loop, is normal, and is the difference of the two times
    modulo the range of the seconds field. *)
Theorem timestamp_subt_correct a b fuel :
  normal a -> normal b -> (2 <= fuel)%nat ->
  exists r, Timestamp_subt fuel a b = Some r /\ normal r /\
    stamp r = (stamp a - stamp b) mod STAMP_RANGE.
Proof.
  intros Ha Hb Hf. unfold Timestamp_subt.
  destruct (subt_borrow_correct
    (mk_Timestamp (uwrap 64 (secondsField a - secondsField b)) (nanosecondsField a)) b fuel)
    as (d & -> & Hs & Hn & Hm); [|done..|].
  { split; [by apply uint_uwrap|apply Ha]. }
  assert (0 <= nanosecondsField b) by apply Hb.
  rewrite (uwrap_small 32) by (unfold uint, NSEC_PER_SEC in *; lia).
  match goal with |- context [normNano ?d] => destruct (normNano_correct d) as (r & E & Hr & Hm') end.
  { split; cbn; [done|]. unfold uint, NSEC_PER_SEC in *. lia. }
  exists r. split; [done|]. split; [done|].
  rewrite <- (Z.mod_small (stamp r) STAMP_RANGE) by (by apply stamp_normal).
  rewrite Hm'. replace (stamp (mk_Timestamp _ _)) with (stamp d - nanosecondsField b)
    by (unfold stamp; cbn; lia).
  rewrite <- Zminus_mod_idemp_l, Hm, stamp_wrap, Zminus_mod_idemp_l. f_equal.
  unfold stamp. lia.
Qed.

Lemma timestamp_subt_correct_witness :
  exists r, Timestamp_subt 2 (mk_Timestamp 5 1) (mk_Timestamp 2 3) = Some r /\
    stamp r = 2999999998.
Proof.
  destruct (timestamp_subt_correct (mk_Timestamp 5 1) (mk_Timestamp 2 3) 2)
    as (r & H & _ & E).
  - unfold normal, uint, NSEC_PER_SEC; cbn; lia.
  - unfold normal, uint, NSEC_PER_SEC; cbn; lia.
  - auto.
  - exists r. split; [exact H|exact E].
Defined.

(** The rounds of the borrow loop keep the nanoseconds a multiple of 512. *)
Lemma subt_borrow_stuck fuel d ts :
  nanosecondsField ts = 2 ^ 32 - 1 -> uint 32 (nanosecondsField d) ->
  nanosecondsField d mod 512 = 0 -> subt_borrow fuel d ts = None.
Proof.
  intros Ht. revert d. induction fuel as [|fuel IH]; intros d Hu H5; [done|].
  cbn [subt_borrow]. rewrite Ht. unfold uint in Hu.
  destruct (Z.ltb_spec (nanosecondsField d) (2 ^ 32 - 1)).
  - apply IH; cbn; [by apply uint_uwrap|]. unfold uwrap, NSEC_PER_SEC.
    rewrite Z.mod_mod_divide by (by exists (2 ^ 23)).
    rewrite <- Zplus_mod_idemp_l, H5. done.
  - assert (nanosecondsField d = 2 ^ 32 - 1) as E by lia. rewrite E in H5. done.
Qed.

(** Subtracting a stamp whose nanoseconds field is not below one second can
    loop for ever: no number of rounds is enough for 0 minus 0xffffffff. *)
Theorem subt_borrow_diverges fuel :
  Timestamp_subt fuel (mk_Timestamp 0 0) (mk_Timestamp 0 0xffffffff) = None.
Proof. unfold Timestamp_subt. by rewrite subt_borrow_stuck. Qed.

(** ** Identities: theorems *)

Lemma memcmp_eq n a b :
  length a = n -> length b = n -> memcmp n a b = Eq <-> a = b.
Proof.
  revert a b. induction n as [|n IH]; intros [|x a] [|y b]; cbn; intros La Lb; try done.
  destruct (Z.compare_spec (b2z x) (b2z y)) as [E|L|L].
  - rewrite IH by lia. apply b2z_inj in E as ->. split; congruence.
  - split; [done|]. intros [= -> _]. lia.
  - split; [done|]. intros [= -> _]. lia.
Qed.

Lemma memcmp_antisym n a b : memcmp n b a = CompOpp (memcmp n a b).
Proof.
  revert a b. induction n as [|n IH]; intros [|x a] [|y b]; cbn; try done.
  rewrite (Z.compare_antisym (b2z x) (b2z y)). by destruct (b2z x ?= b2z y); cbn.
Qed.

Lemma memcmp_trans n a b c :
  length a = n -> length b = n -> length c = n ->
  memcmp n a b = Lt -> memcmp n b c = Lt -> memcmp n a c = Lt.
Proof.
  revert a b c. induction n as [|n IH]; intros [|x a] [|y b] [|z c]; cbn; intros; try done.
  destruct (Z.compare_spec (b2z x) (b2z y)); destruct (Z.compare_spec (b2z y) (b2z z));
    destruct (Z.compare_spec (b2z x) (b2z z)); try done; try lia.
  eapply IH; [..|done|done]; lia.
Qed.

Lemma ClockIdentity_eq_spec a b :
  wf_ClockIdentity a -> wf_ClockIdentity b -> ClockIdentity_eq a b = true <-> a = b.
Proof.
  destruct a as [a], b as [b]. unfold wf_ClockIdentity, ClockIdentity_eq; cbn [ci_v].
  intros Ha Hb.
  assert (mk_ClockIdentity a = mk_ClockIdentity b <-> a = b) as -> by (split; congruence).
  rewrite <- (memcmp_eq 8 a b Ha Hb).
  destruct (memcmp 8 a b); split; done.
Qed.

Lemma ClockIdentity_less_cases a b :
  wf_ClockIdentity a -> wf_ClockIdentity b ->
  (ClockIdentity_less a b = true /\ ClockIdentity_less b a = false /\ a <> b) \/ a = b \/
  (ClockIdentity_less b a = true /\ ClockIdentity_less a b = false /\ a <> b).
Proof.
  intros Ha Hb. pose proof (ClockIdentity_eq_spec a b Ha Hb) as E.
  unfold ClockIdentity_eq, ClockIdentity_less in *. rewrite (memcmp_antisym 8 (ci_v a)).
  destruct (memcmp 8 (ci_v a) (ci_v b)); cbn [CompOpp]; intuition congruence.
Qed.

(** On port identities whose clock identity has its 8 octets, the equality
    is equality of the structures and [less] is a strict total order, as the
    containers sorted with it need. *)
Theorem port_identity_order a b c :
  wf_PortIdentity a -> wf_PortIdentity b -> wf_PortIdentity c ->
  (PortIdentity_eq a b = true <-> a = b) /\
  PortIdentity_less a a = false /\
  (PortIdentity_less a b = true -> PortIdentity_less b c = true ->
     PortIdentity_less a c = true) /\
  (PortIdentity_less a b = true \/ a = b \/ PortIdentity_less b a = true).
Proof.
  intros [Ha _] [Hb _] [Hc _]. destruct a as [a i], b as [b j], c as [c k].
  cbn in Ha, Hb, Hc. unfold PortIdentity_eq, PortIdentity_less; cbn [clockIdentity portNumber].
  pose proof (ClockIdentity_eq_spec a b Ha Hb) as Eab.
  pose proof (ClockIdentity_eq_spec b a Hb Ha) as Eba.
  pose proof (ClockIdentity_eq_spec a a Ha Ha) as Eaa.
  pose proof (ClockIdentity_eq_spec b c Hb Hc) as Ebc.
  pose proof (ClockIdentity_eq_spec a c Ha Hc) as Eac.
  pose proof (ClockIdentity_less_cases a b Ha Hb) as Cab.
  pose proof (ClockIdentity_less_cases b c Hb Hc) as Cbc.
  split; [|split; [|split]].
  - rewrite andb_true_iff, Z.eqb_eq, Eab. split; [intros [-> ->]; done|].
    intros [= -> ->]. done.
  - rewrite (proj2 Eaa eq_refl). lia.
  - destruct (ClockIdentity_eq a b) eqn:E1.
    { rewrite (proj1 Eab eq_refl) in *. destruct (ClockIdentity_eq b c); [lia|done]. }
    destruct (ClockIdentity_eq b c) eqn:E2.
    { rewrite <- (proj1 Ebc eq_refl) in *. by rewrite E1. }
    unfold ClockIdentity_less. intros L1 L2.
    destruct (memcmp 8 (ci_v a) (ci_v b)) eqn:M1; try done.
    destruct (memcmp 8 (ci_v b) (ci_v c)) eqn:M2; try done.
    pose proof (memcmp_trans 8 _ _ _ Ha Hb Hc M1 M2) as M3. rewrite M3.
    destruct (ClockIdentity_eq a c) eqn:E3; [|done].
    unfold ClockIdentity_eq in E3. by rewrite M3 in E3.
  - destruct Cab as [(L & _ & N)|[->|(L & _ & N)]].
    + left. destruct (ClockIdentity_eq a b); [|done]. by destruct N; apply Eab.
    + rewrite (proj2 Eba eq_refl). destruct (Z.lt_trichotomy i j) as [?|[->|?]]; [|tauto|].
      * left. lia.
      * right; right. lia.
    + right; right. destruct (ClockIdentity_eq b a); [|done]. by destruct N; symmetry; apply Eba.
Qed.

Lemma port_identity_order_witness :
  PortIdentity_less (mk_PortIdentity allClocks 1) (mk_PortIdentity allClocks 3) = true.
Proof.
  destruct (port_identity_order (mk_PortIdentity allClocks 1) (mk_PortIdentity allClocks 2)
    (mk_PortIdentity allClocks 3)) as (_ & _ & T & _);
    [split; [reflexivity|split; vm_compute; (reflexivity || discriminate)]..|].
  apply T; reflexivity.
Defined.

(** [getIntervalInt] is the scaled value divided by 2^16, rounded towards
    zero, except for the one value whose negation overflows. *)
Theorem getIntervalInt_correct d :
  wf_TimeInterval d -> scaledNanoseconds d <> - 2 ^ 63 ->
  getIntervalInt d = Z.quot (scaledNanoseconds d) (2 ^ 16).
Proof.
  unfold wf_TimeInterval, sint, getIntervalInt. destruct d as [n]; cbn -[Z.pow]. intros Hn Hm.
  destruct (Z.ltb_spec n 0).
  - rewrite (swrap_small 64 (- n)) by (unfold sint; lia).
    rewrite Z.shiftr_div_pow2 by lia.
    assert (0 <= - n / 2 ^ 16 <= - n).
    { split; [apply Z.div_pos; lia|]. apply Z.div_le_upper_bound; lia. }
    rewrite swrap_small by (unfold sint; lia).
    rewrite <- (Z.opp_involutive n) at 2. rewrite Z.quot_opp_l by lia.
    by rewrite Z.quot_div_nonneg by lia.
  - rewrite Z.shiftr_div_pow2 by lia. by rewrite Z.quot_div_nonneg by lia.
Qed.

Lemma getIntervalInt_correct_witness :
  getIntervalInt (mk_TimeInterval (-98304)) = -1.
Proof.
  rewrite (getIntervalInt_correct (mk_TimeInterval (-98304))).
  - reflexivity.
  - split; vm_compute; [discriminate|reflexivity].
  - discriminate.
Defined.
