(* ===== verification/Ids.v ===== *)
(** * Ids.v: the table of management TLVs

    [mng_vals_e] and the table of [src/src/ids_base.m4], included by
    [src/src/msg.cpp] as [mng_all_vals], with the functions of [Message] that
    only consult the table. *)

From S2P Require Import Prelude Types.

(** ** The identifiers *)

Inductive mng_vals_e :=
| NULL_PTP_MANAGEMENT
| CLOCK_DESCRIPTION
| USER_DESCRIPTION
| SAVE_IN_NON_VOLATILE_STORAGE
| RESET_NON_VOLATILE_STORAGE
| INITIALIZE
| FAULT_LOG
| FAULT_LOG_RESET
| DEFAULT_DATA_SET
| CURRENT_DATA_SET
| PARENT_DATA_SET
| TIME_PROPERTIES_DATA_SET
| PORT_DATA_SET
| PRIORITY1
| PRIORITY2
| DOMAIN
| SLAVE_ONLY
| LOG_ANNOUNCE_INTERVAL
| ANNOUNCE_RECEIPT_TIMEOUT
| LOG_SYNC_INTERVAL
| VERSION_NUMBER
| ENABLE_PORT
| DISABLE_PORT
| TIME
| CLOCK_ACCURACY
| UTC_PROPERTIES
| TRACEABILITY_PROPERTIES
| TIMESCALE_PROPERTIES
| UNICAST_NEGOTIATION_ENABLE
| PATH_TRACE_LIST
| PATH_TRACE_ENABLE
| GRANDMASTER_CLUSTER_TABLE
| UNICAST_MASTER_TABLE
| UNICAST_MASTER_MAX_TABLE_SIZE
| ACCEPTABLE_MASTER_TABLE
| ACCEPTABLE_MASTER_TABLE_ENABLED
| ACCEPTABLE_MASTER_MAX_TABLE_SIZE
| ALTERNATE_MASTER
| ALTERNATE_TIME_OFFSET_ENABLE
| ALTERNATE_TIME_OFFSET_NAME
| ALTERNATE_TIME_OFFSET_MAX_KEY
| ALTERNATE_TIME_OFFSET_PROPERTIES
| TRANSPARENT_CLOCK_PORT_DATA_SET
| LOG_MIN_PDELAY_REQ_INTERVAL
| TRANSPARENT_CLOCK_DEFAULT_DATA_SET
| PRIMARY_DOMAIN
| DELAY_MECHANISM
| EXTERNAL_PORT_CONFIGURATION_ENABLED
| MASTER_ONLY
| HOLDOVER_UPGRADE_ENABLE
| EXT_PORT_CONFIG_PORT_DATA_SET
| TIME_STATUS_NP
| GRANDMASTER_SETTINGS_NP
| PORT_DATA_SET_NP
| SUBSCRIBE_EVENTS_NP
| PORT_PROPERTIES_NP
| PORT_STATS_NP
| SYNCHRONIZATION_UNCERTAIN_NP
| PORT_SERVICE_STATS_NP
| UNICAST_MASTER_TABLE_NP
| PORT_HWCLOCK_NP
| POWER_PROFILE_SETTINGS_NP
| CMLDS_INFO_NP
| PORT_CORRECTIONS_NP
| EXTERNAL_GRANDMASTER_PROPERTIES_NP
| LAST_MNG_ID
| SMPTE_MNG_ID.

#[global] Instance mng_vals_e_eq_dec : EqDecision mng_vals_e.
Proof. solve_decision. Defined.

(** The ids of the table, [FIRST_MNG_ID] up to [LAST_MNG_ID] excluded, in the
    order of the enumerator. *)
Definition mng_ids : list mng_vals_e :=
  [ NULL_PTP_MANAGEMENT; CLOCK_DESCRIPTION ;
    USER_DESCRIPTION; SAVE_IN_NON_VOLATILE_STORAGE ;
    RESET_NON_VOLATILE_STORAGE; INITIALIZE ;
    FAULT_LOG; FAULT_LOG_RESET ;
    DEFAULT_DATA_SET; CURRENT_DATA_SET ;
    PARENT_DATA_SET; TIME_PROPERTIES_DATA_SET ;
    PORT_DATA_SET; PRIORITY1 ;
    PRIORITY2; DOMAIN ;
    SLAVE_ONLY; LOG_ANNOUNCE_INTERVAL ;
    ANNOUNCE_RECEIPT_TIMEOUT; LOG_SYNC_INTERVAL ;
    VERSION_NUMBER; ENABLE_PORT ;
    DISABLE_PORT; TIME ;
    CLOCK_ACCURACY; UTC_PROPERTIES ;
    TRACEABILITY_PROPERTIES; TIMESCALE_PROPERTIES ;
    UNICAST_NEGOTIATION_ENABLE; PATH_TRACE_LIST ;
    PATH_TRACE_ENABLE; GRANDMASTER_CLUSTER_TABLE ;
    UNICAST_MASTER_TABLE; UNICAST_MASTER_MAX_TABLE_SIZE ;
    ACCEPTABLE_MASTER_TABLE; ACCEPTABLE_MASTER_TABLE_ENABLED ;
    ACCEPTABLE_MASTER_MAX_TABLE_SIZE; ALTERNATE_MASTER ;
    ALTERNATE_TIME_OFFSET_ENABLE; ALTERNATE_TIME_OFFSET_NAME ;
    ALTERNATE_TIME_OFFSET_MAX_KEY; ALTERNATE_TIME_OFFSET_PROPERTIES ;
    TRANSPARENT_CLOCK_PORT_DATA_SET; LOG_MIN_PDELAY_REQ_INTERVAL ;
    TRANSPARENT_CLOCK_DEFAULT_DATA_SET; PRIMARY_DOMAIN ;
    DELAY_MECHANISM; EXTERNAL_PORT_CONFIGURATION_ENABLED ;
    MASTER_ONLY; HOLDOVER_UPGRADE_ENABLE ;
    EXT_PORT_CONFIG_PORT_DATA_SET; TIME_STATUS_NP ;
    GRANDMASTER_SETTINGS_NP; PORT_DATA_SET_NP ;
    SUBSCRIBE_EVENTS_NP; PORT_PROPERTIES_NP ;
    PORT_STATS_NP; SYNCHRONIZATION_UNCERTAIN_NP ;
    PORT_SERVICE_STATS_NP; UNICAST_MASTER_TABLE_NP ;
    PORT_HWCLOCK_NP; POWER_PROFILE_SETTINGS_NP ;
    CMLDS_INFO_NP; PORT_CORRECTIONS_NP ;
    EXTERNAL_GRANDMASTER_PROPERTIES_NP ].

(** [id < FIRST_MNG_ID || id >= LAST_MNG_ID] fails: [id] is in the table. *)
Definition in_table (id : mng_vals_e) : bool :=
  match id with LAST_MNG_ID | SMPTE_MNG_ID => false | _ => true end.

(** ** The table *)

Inductive scope_e := s_port | s_clock.

Definition A_GET : Z := Z.shiftl 1 (actionField_val GET).
Definition A_SET : Z := Z.shiftl 1 (actionField_val SET).
Definition A_COMMAND : Z := Z.shiftl 1 (actionField_val COMMAND).
Definition A_USE_LINUXPTP : Z := Z.shiftl 1 5.
Definition use_GSC : Z := Z.lor (Z.lor A_GET A_SET) A_COMMAND.
Definition use_GS : Z := Z.lor A_GET A_SET.
Definition use_GL : Z := Z.lor A_GET A_USE_LINUXPTP.
Definition use_GSL : Z := Z.lor (Z.lor A_GET A_SET) A_USE_LINUXPTP.

(** The functions a TLV has: none, one for its dataField, and whether the
    dataField has a variable size. *)
Inductive func_e := NA | UF | UFS | UFB | UFBS.

Record ManagementId_t := mk_ManagementId {
  mi_value : Z;
  mi_scope : scope_e;
  mi_allowed : Z;
  mi_size : Z;
  mi_func : func_e
}.

(** The last two enumerators have no entry; no function below uses the table
    for them. *)
Definition mng_all_vals (id : mng_vals_e) : ManagementId_t :=
  match id with
  | NULL_PTP_MANAGEMENT => mk_ManagementId 0x0000 s_port use_GSC 0 NA
  | CLOCK_DESCRIPTION => mk_ManagementId 0x0001 s_port A_GET (-2) UFS
  | USER_DESCRIPTION => mk_ManagementId 0x0002 s_clock use_GS (-2) UFBS
  | SAVE_IN_NON_VOLATILE_STORAGE => mk_ManagementId 0x0003 s_clock A_COMMAND 0 NA
  | RESET_NON_VOLATILE_STORAGE => mk_ManagementId 0x0004 s_clock A_COMMAND 0 NA
  | INITIALIZE => mk_ManagementId 0x0005 s_clock A_COMMAND 2 UFB
  | FAULT_LOG => mk_ManagementId 0x0006 s_clock A_GET (-2) UFS
  | FAULT_LOG_RESET => mk_ManagementId 0x0007 s_clock A_COMMAND 0 NA
  | DEFAULT_DATA_SET => mk_ManagementId 0x2000 s_clock A_GET 20 UF
  | CURRENT_DATA_SET => mk_ManagementId 0x2001 s_clock A_GET 18 UF
  | PARENT_DATA_SET => mk_ManagementId 0x2002 s_clock A_GET 32 UF
  | TIME_PROPERTIES_DATA_SET => mk_ManagementId 0x2003 s_clock A_GET 4 UF
  | PORT_DATA_SET => mk_ManagementId 0x2004 s_port A_GET 26 UF
  | PRIORITY1 => mk_ManagementId 0x2005 s_clock use_GS 2 UFB
  | PRIORITY2 => mk_ManagementId 0x2006 s_clock use_GS 2 UFB
  | DOMAIN => mk_ManagementId 0x2007 s_clock use_GS 2 UFB
  | SLAVE_ONLY => mk_ManagementId 0x2008 s_clock use_GS 2 UFB
  | LOG_ANNOUNCE_INTERVAL => mk_ManagementId 0x2009 s_port use_GS 2 UFB
  | ANNOUNCE_RECEIPT_TIMEOUT => mk_ManagementId 0x200a s_port use_GS 2 UFB
  | LOG_SYNC_INTERVAL => mk_ManagementId 0x200b s_port use_GS 2 UFB
  | VERSION_NUMBER => mk_ManagementId 0x200c s_port use_GS 2 UFB
  | ENABLE_PORT => mk_ManagementId 0x200d s_port A_COMMAND 0 NA
  | DISABLE_PORT => mk_ManagementId 0x200e s_port A_COMMAND 0 NA
  | TIME => mk_ManagementId 0x200f s_clock use_GS 10 UFB
  | CLOCK_ACCURACY => mk_ManagementId 0x2010 s_clock use_GS 2 UFB
  | UTC_PROPERTIES => mk_ManagementId 0x2011 s_clock use_GS 4 UFB
  | TRACEABILITY_PROPERTIES => mk_ManagementId 0x2012 s_clock use_GS 2 UFB
  | TIMESCALE_PROPERTIES => mk_ManagementId 0x2013 s_clock use_GS 2 UFB
  | UNICAST_NEGOTIATION_ENABLE => mk_ManagementId 0x2014 s_port use_GS 2 UFB
  | PATH_TRACE_LIST => mk_ManagementId 0x2015 s_clock A_GET (-2) UFS
  | PATH_TRACE_ENABLE => mk_ManagementId 0x2016 s_clock use_GS 2 UFB
  | GRANDMASTER_CLUSTER_TABLE => mk_ManagementId 0x2017 s_clock use_GS (-2) UFBS
  | UNICAST_MASTER_TABLE => mk_ManagementId 0x2018 s_port use_GS (-2) UFBS
  | UNICAST_MASTER_MAX_TABLE_SIZE => mk_ManagementId 0x2019 s_port A_GET 2 UF
  | ACCEPTABLE_MASTER_TABLE => mk_ManagementId 0x201a s_clock use_GS (-2) UFBS
  | ACCEPTABLE_MASTER_TABLE_ENABLED => mk_ManagementId 0x201b s_port use_GS 2 UFB
  | ACCEPTABLE_MASTER_MAX_TABLE_SIZE => mk_ManagementId 0x201c s_clock A_GET 2 UF
  | ALTERNATE_MASTER => mk_ManagementId 0x201d s_port use_GS 4 UFB
  | ALTERNATE_TIME_OFFSET_ENABLE => mk_ManagementId 0x201e s_clock use_GS 2 UFB
  | ALTERNATE_TIME_OFFSET_NAME => mk_ManagementId 0x201f s_clock use_GS (-2) UFBS
  | ALTERNATE_TIME_OFFSET_MAX_KEY => mk_ManagementId 0x2020 s_clock A_GET 2 UF
  | ALTERNATE_TIME_OFFSET_PROPERTIES => mk_ManagementId 0x2021 s_clock use_GS 16 UFB
  | TRANSPARENT_CLOCK_PORT_DATA_SET => mk_ManagementId 0x4001 s_port A_GET 20 UF
  | LOG_MIN_PDELAY_REQ_INTERVAL => mk_ManagementId 0x6001 s_port use_GS 2 UFB
  | TRANSPARENT_CLOCK_DEFAULT_DATA_SET => mk_ManagementId 0x4000 s_clock A_GET 12 UF
  | PRIMARY_DOMAIN => mk_ManagementId 0x4002 s_clock use_GS 2 UFB
  | DELAY_MECHANISM => mk_ManagementId 0x6000 s_port use_GS 2 UFB
  | EXTERNAL_PORT_CONFIGURATION_ENABLED => mk_ManagementId 0x3000 s_clock use_GS 2 UFB
  | MASTER_ONLY => mk_ManagementId 0x3001 s_port use_GS 2 UFB
  | HOLDOVER_UPGRADE_ENABLE => mk_ManagementId 0x3002 s_clock use_GS 2 UFB
  | EXT_PORT_CONFIG_PORT_DATA_SET => mk_ManagementId 0x3003 s_port use_GS 2 UFB
  | TIME_STATUS_NP => mk_ManagementId 0xc000 s_clock use_GL 50 UF
  | GRANDMASTER_SETTINGS_NP => mk_ManagementId 0xc001 s_clock use_GSL 8 UFB
  | PORT_DATA_SET_NP => mk_ManagementId 0xc002 s_port use_GSL 8 UFB
  | SUBSCRIBE_EVENTS_NP => mk_ManagementId 0xc003 s_clock use_GSL 66 UFB
  | PORT_PROPERTIES_NP => mk_ManagementId 0xc004 s_port use_GL (-2) UFS
  | PORT_STATS_NP => mk_ManagementId 0xc005 s_port use_GL 266 UF
  | SYNCHRONIZATION_UNCERTAIN_NP => mk_ManagementId 0xc006 s_clock use_GSL 2 UFB
  | PORT_SERVICE_STATS_NP => mk_ManagementId 0xc007 s_port use_GL 90 UF
  | UNICAST_MASTER_TABLE_NP => mk_ManagementId 0xc008 s_port use_GL (-2) UFS
  | PORT_HWCLOCK_NP => mk_ManagementId 0xc009 s_port use_GL 16 UF
  | POWER_PROFILE_SETTINGS_NP => mk_ManagementId 0xc00a s_port use_GSL 16 UFB
  | CMLDS_INFO_NP => mk_ManagementId 0xc00b s_port use_GL 16 UF
  | PORT_CORRECTIONS_NP => mk_ManagementId 0xc00c s_port use_GSL 24 UFB
  | EXTERNAL_GRANDMASTER_PROPERTIES_NP => mk_ManagementId 0xc00d s_clock use_GSL 10 UFB
  | LAST_MNG_ID | SMPTE_MNG_ID => mk_ManagementId 0 s_port 0 (-1) NA
  end.

(** ** Functions on the table *)

Definition allowed_bit (id : mng_vals_e) (bits : Z) : bool :=
  negb (Z.land (mi_allowed (mng_all_vals id)) bits =? 0).

(** A linuxptp TLV when linuxptp is not used. *)
Definition blocked (spec : implementSpecific_e) (id : mng_vals_e) : bool :=
  match spec with
  | linuxptp => false
  | noImplementSpecific => allowed_bit id A_USE_LINUXPTP
  end.

(** [Message::findTlvId]: [value] is the managementId in host order. *)
Definition findTlvId (value : Z) (spec : implementSpecific_e) : option mng_vals_e :=
  match List.find (fun id => mi_value (mng_all_vals id) =? value) mng_ids with
  | None => None
  | Some id => if blocked spec id then None else Some id
  end.

(** [Message::checkReplyAction] on the id of the reply. *)
Definition checkReplyAction (id : mng_vals_e) (actionField : Z) : bool :=
  if actionField =? actionField_val ACKNOWLEDGE then allowed_bit id A_COMMAND
  else if actionField =? actionField_val RESPONSE
  then allowed_bit id (Z.lor A_SET A_GET)
  else false.

(** [Message::allowedAction]. *)
Definition allowedAction (spec : implementSpecific_e) (id : mng_vals_e)
    (action : actionField_e) : bool :=
  match action with
  | GET | SET | COMMAND =>
      if in_table id then
        if blocked spec id then false
        else allowed_bit id (Z.shiftl 1 (actionField_val action))
      else false
  | _ => false
  end.

(** [Message::isEmpty] and [Message::isValidId]. *)
Definition isEmpty (id : mng_vals_e) : bool :=
  in_table id && (mi_size (mng_all_vals id) =? 0).
Definition isValidId (spec : implementSpecific_e) (id : mng_vals_e) : bool :=
  in_table id && negb (blocked spec id).

(** ** Facts of the table *)

Lemma in_mng_ids id : in_table id = true <-> In id mng_ids.
Proof.
  split.
  - destruct id; cbn; intros; try discriminate; tauto.
  - intros H. destruct id; try reflexivity; cbn in H; intuition discriminate.
Qed.

(** A property of every entry is decided by going through the table. *)
Lemma table_forall (P : mng_vals_e -> bool) :
  forallb P mng_ids = true -> forall id, in_table id = true -> P id = true.
Proof.
  intros H id Hid. apply in_mng_ids in Hid. by apply (proj1 (forallb_forall P mng_ids) H).
Qed.

Lemma mng_values_inj id id' :
  in_table id = true -> in_table id' = true ->
  mi_value (mng_all_vals id) = mi_value (mng_all_vals id') -> id = id'.
Proof.
  intros Hi Hi' E.
  assert (forallb (fun id => forallb (fun id' =>
    if decide (mi_value (mng_all_vals id) = mi_value (mng_all_vals id'))
    then bool_decide (id = id') else true) mng_ids) mng_ids = true) as H
    by (vm_compute; reflexivity).
  pose proof (table_forall _ (table_forall _ H id Hi) id' Hi') as H'. cbv beta in H'.
  rewrite decide_True in H' by done. by apply bool_decide_eq_true_1 in H'.
Qed.

Lemma mng_value_uint id : uint 16 (mi_value (mng_all_vals id)).
Proof. destruct id; vm_compute; intuition discriminate. Qed.

Lemma find_value id :
  in_table id = true ->
  List.find (fun id' => mi_value (mng_all_vals id') =? mi_value (mng_all_vals id)) mng_ids
  = Some id.
Proof. destruct id; intros; try discriminate; vm_compute; reflexivity. Qed.

Lemma find_value_inv v id :
  List.find (fun id' => mi_value (mng_all_vals id') =? v) mng_ids = Some id ->
  in_table id = true /\ mi_value (mng_all_vals id) = v.
Proof. intros [Hin E%Z.eqb_eq]%find_some. split; [by apply in_mng_ids|done]. Qed.

(** ** Theorems *)

(** [findTlvId] finds exactly the id of the table with the given value,
    unless it is a linuxptp id and linuxptp is not in use; values of no id are
    refused. *)
Theorem findTlvId_correct v spec id :
  findTlvId v spec = Some id <->
  in_table id = true /\ mi_value (mng_all_vals id) = v /\ blocked spec id = false.
Proof.
  unfold findTlvId. split.
  - destruct (List.find _ _) as [id'|] eqn:E; [|done].
    apply find_value_inv in E as [Ht Hv].
    destruct (blocked spec id') eqn:B; [done|]. by intros [= ->].
  - intros (Ht & <- & B). rewrite find_value by done. by rewrite B.
Qed.

(** The reply of the action that a request may use is accepted: RESPONSE for
    an id that allows GET or SET, ACKNOWLEDGE for an id that allows COMMAND; no
    other action is accepted as a reply. *)
Theorem reply_of_request spec id action :
  allowedAction spec id action = true ->
  isValidId spec id = true /\
  checkReplyAction id (actionField_val
    (match action with COMMAND => ACKNOWLEDGE | _ => RESPONSE end)) = true /\
  checkReplyAction id (actionField_val action) = false.
Proof.
  unfold allowedAction, isValidId, checkReplyAction.
  intros H. destruct spec, id, action; try discriminate H; repeat split; reflexivity.
Qed.

Lemma reply_of_request_witness :
  checkReplyAction ENABLE_PORT (actionField_val ACKNOWLEDGE) = true.
Proof. apply (reply_of_request linuxptp ENABLE_PORT COMMAND); reflexivity. Defined.
