(* ===== verification/Names.v ===== *)
(** * Names.v: the names of the enumerators

    The [*2str_c] functions of [src/src/msg.cpp] and the functions that find an
    enumerator by its name.  Values of C++ enumerations come from the network, so
    they are integers; [string] is the part of a [std::string] before its first
    NUL for [strcmp], [strcasecmp] and [strcasestr] (C locale). *)

From S2P Require Import Prelude Types Ids.

Open Scope string_scope.
Open Scope Z_scope.

(** ** C strings *)

Fixpoint c_str (s : string) : string :=
  match s with
  | EmptyString => EmptyString
  | String a s => if Ascii.eqb a Ascii.zero then EmptyString else String a (c_str s)
  end.

Definition tolower (a : Ascii.ascii) : Ascii.ascii :=
  let n := Ascii.nat_of_ascii a in
  if (65 <=? n)%nat && (n <=? 90)%nat then Ascii.ascii_of_nat (n + 32) else a.
Fixpoint lower (s : string) : string :=
  match s with
  | EmptyString => EmptyString
  | String a s => String (tolower a) (lower s)
  end.

Fixpoint contains (s str : string) : bool :=
  String.prefix str s ||
  match s with EmptyString => false | String _ s => contains s str end.

(** The results of [strcmp] and [strcasecmp] against 0, and of [strcasestr]
    against the null pointer. *)
Definition strcmp_eq (a b : string) : bool := String.eqb (c_str a) (c_str b).
Definition strcasecmp_eq (a b : string) : bool := String.eqb (lower (c_str a)) (lower (c_str b)).
Definition strcasestr (hay needle : string) : bool :=
  contains (lower (c_str hay)) (lower (c_str needle)).

(** ** Names *)

(** [switch] over [caseItem]s, and [caseItemOff], which drops a prefix. *)
Fixpoint case_item (items : list (Z * string)) (unknown : string) (val : Z) : string :=
  match items with
  | [] => unknown
  | (v, name) :: items => if val =? v then name else case_item items unknown val
  end.
Definition without (off : nat) (items : list (Z * string)) : list (Z * string) :=
  map (fun '(v, s) => (v, String.substring off (String.length s - off) s)) items.

Definition err2str_c (err : MNG_PARSE_ERROR_e) : string :=
  match err with
  | MNG_PARSE_ERROR_OK => "MNG_PARSE_ERROR_OK"
  | MNG_PARSE_ERROR_MSG => "MNG_PARSE_ERROR_MSG"
  | MNG_PARSE_ERROR_SIG => "MNG_PARSE_ERROR_SIG"
  | MNG_PARSE_ERROR_SMPTE => "MNG_PARSE_ERROR_SMPTE"
  | MNG_PARSE_ERROR_INVALID_ID => "MNG_PARSE_ERROR_INVALID_ID"
  | MNG_PARSE_ERROR_INVALID_TLV => "MNG_PARSE_ERROR_INVALID_TLV"
  | MNG_PARSE_ERROR_MISMATCH_TLV => "MNG_PARSE_ERROR_MISMATCH_TLV"
  | MNG_PARSE_ERROR_SIZE_MISS => "MNG_PARSE_ERROR_SIZE_MISS"
  | MNG_PARSE_ERROR_TOO_SMALL => "MNG_PARSE_ERROR_TOO_SMALL"
  | MNG_PARSE_ERROR_SIZE => "MNG_PARSE_ERROR_SIZE"
  | MNG_PARSE_ERROR_VAL => "MNG_PARSE_ERROR_VAL"
  | MNG_PARSE_ERROR_HEADER => "MNG_PARSE_ERROR_HEADER"
  | MNG_PARSE_ERROR_ACTION => "MNG_PARSE_ERROR_ACTION"
  | MNG_PARSE_ERROR_UNSUPPORT => "MNG_PARSE_ERROR_UNSUPPORT"
  | MNG_PARSE_ERROR_MEM => "MNG_PARSE_ERROR_MEM"
  | MNG_PARSE_ERROR_AUTH => "MNG_PARSE_ERROR_AUTH"
  | MNG_PARSE_ERROR_AUTH_NONE => "MNG_PARSE_ERROR_AUTH_NONE"
  | MNG_PARSE_ERROR_AUTH_WRONG => "MNG_PARSE_ERROR_AUTH_WRONG"
  | MNG_PARSE_ERROR_AUTH_NOKEY => "MNG_PARSE_ERROR_AUTH_NOKEY"
  end.

Definition act2str_c (action : Z) : string :=
  case_item [(0, "GET"); (1, "SET"); (2, "RESPONSE"); (3, "COMMAND"); (4, "ACKNOWLEDGE")]
    "unknown" action.

Definition type2str_c (val : Z) : string :=
  case_item
   [(0, "Sync");
    (1, "Delay_Req");
    (2, "Pdelay_Req");
    (3, "Pdelay_Resp");
    (0x8, "Follow_Up");
    (0x9, "Delay_Resp");
    (0xa, "Pdelay_Resp_Follow_Up");
    (0xb, "Announce");
    (0xc, "Signaling");
    (0xd, "Management")] "unknown message type" val.

Definition tlv2str_c (val : Z) : string :=
  case_item
   [(0x0001, "MANAGEMENT");
    (0x0002, "MANAGEMENT_ERROR_STATUS");
    (0x0003, "ORGANIZATION_EXTENSION");
    (0x0004, "REQUEST_UNICAST_TRANSMISSION");
    (0x0005, "GRANT_UNICAST_TRANSMISSION");
    (0x0006, "CANCEL_UNICAST_TRANSMISSION");
    (0x0007, "ACKNOWLEDGE_CANCEL_UNICAST_TRANSMISSION");
    (0x0008, "PATH_TRACE");
    (0x0009, "ALTERNATE_TIME_OFFSET_INDICATOR");
    (0x4000, "ORGANIZATION_EXTENSION_PROPAGATE");
    (0x4001, "ENHANCED_ACCURACY_METRICS");
    (0x8000, "ORGANIZATION_EXTENSION_DO_NOT_PROPAGATE");
    (0x8001, "L1_SYNC");
    (0x8002, "PORT_COMMUNICATION_AVAILABILITY");
    (0x8003, "PROTOCOL_ADDRESS");
    (0x8004, "SLAVE_RX_SYNC_TIMING_DATA");
    (0x8005, "SLAVE_RX_SYNC_COMPUTED_DATA");
    (0x8006, "SLAVE_TX_EVENT_TIMESTAMPS");
    (0x8007, "CUMULATIVE_RATE_RATIO");
    (0x8009, "AUTHENTICATION");
    (0x7f00, "SLAVE_DELAY_TIMING_DATA_NP");
    (0x8008, "PAD")] "unknown TLV" val.

Definition errId2str_c (val : Z) : string :=
  case_item
   [(0x0001, "RESPONSE_TOO_BIG");
    (0x0002, "NO_SUCH_ID");
    (0x0003, "WRONG_LENGTH");
    (0x0004, "WRONG_VALUE");
    (0x0005, "NOT_SETABLE");
    (0x0006, "NOT_SUPPORTED");
    (0xfffe, "GENERAL_ERROR")] "unknown" val.

Definition clkType2str_c (val : Z) : string :=
  case_item
   [(0x8000, "ordinaryClock");
    (0x4000, "boundaryClock");
    (0x2000, "p2pTransparentClock");
    (0x1000, "e2eTransparentClock");
    (0x0800, "managementClock")] "unknown" val.

Definition netProt2str_c (val : Z) : string :=
  case_item
   [(1, "UDP_IPv4");
    (2, "UDP_IPv6");
    (3, "IEEE_802_3");
    (4, "DeviceNet");
    (5, "ControlNet");
    (6, "PROFINET")] "unknown" val.

Definition clockAcc2str_c (val : Z) : string :=
  case_item (without 9
   [(0x17, "Accurate_within_1ps");
    (0x18, "Accurate_within_2_5ps");
    (0x19, "Accurate_within_10ps");
    (0x1a, "Accurate_within_25ps");
    (0x1b, "Accurate_within_100ps");
    (0x1c, "Accurate_within_250ps");
    (0x1d, "Accurate_within_1ns");
    (0x1e, "Accurate_within_2_5ns");
    (0x1f, "Accurate_within_10ns");
    (0x20, "Accurate_within_25ns");
    (0x21, "Accurate_within_100ns");
    (0x22, "Accurate_within_250ns");
    (0x23, "Accurate_within_1us");
    (0x24, "Accurate_within_2_5us");
    (0x25, "Accurate_within_10us");
    (0x26, "Accurate_within_25us");
    (0x27, "Accurate_within_100us");
    (0x28, "Accurate_within_250us");
    (0x29, "Accurate_within_1ms");
    (0x2a, "Accurate_within_2_5ms");
    (0x2b, "Accurate_within_10ms");
    (0x2c, "Accurate_within_25ms");
    (0x2d, "Accurate_within_100ms");
    (0x2e, "Accurate_within_250ms");
    (0x2f, "Accurate_within_1s");
    (0x30, "Accurate_within_10s");
    (0x31, "Accurate_more_10s");
    (0xfe, "Accurate_Unknown")])
   (if val <? 0x17 then "Accurate_small_1ps" else "Accurate_unknown_val") val.

Definition faultRec2str_c (val : Z) : string :=
  case_item (without 2
   [(0x00, "F_Emergency");
    (0x01, "F_Alert");
    (0x02, "F_Critical");
    (0x03, "F_Error");
    (0x04, "F_Warning");
    (0x05, "F_Notice");
    (0x06, "F_Informational");
    (0x07, "F_Debug")]) "unknown fault record" val.

Definition timeSrc2str_c (val : Z) : string :=
  case_item
   [(0x10, "ATOMIC_CLOCK");
    (0x20, "GNSS");
    (0x30, "TERRESTRIAL_RADIO");
    (0x39, "SERIAL_TIME_CODE");
    (0x40, "PTP");
    (0x50, "NTP");
    (0x60, "HAND_SET");
    (0x90, "OTHER");
    (0xa0, "INTERNAL_OSCILLATOR")] "unknown clock" val.

Definition portState2str_c (val : Z) : string :=
  case_item
   [(1, "INITIALIZING");
    (2, "FAULTY");
    (3, "DISABLED");
    (4, "LISTENING");
    (5, "PRE_TIME_TRANSMITTER");
    (6, "TIME_TRANSMITTER");
    (7, "PASSIVE");
    (8, "UNCALIBRATED");
    (9, "TIME_RECEIVER")] "unknown state" val.

Definition delayMech2str_c (val : Z) : string :=
  case_item
   [(0, "AUTO");
    (1, "E2E");
    (2, "P2P");
    (0xfe, "NO_MECHANISM");
    (3, "COMMON_P2P");
    (4, "SPECIAL")] "unknown" val.

Definition smpteLck2str_c (val : Z) : string :=
  case_item (without 6
   [(0, "SMPTE_NOT_IN_USE");
    (1, "SMPTE_FREE_RUN");
    (2, "SMPTE_COLD_LOCKING");
    (3, "SMPTE_WARM_LOCKING");
    (4, "SMPTE_LOCKED")]) "unknown" val.

Definition ts2str_c (val : Z) : string :=
  case_item (without 3
   [(0, "TS_SOFTWARE");
    (1, "TS_HARDWARE");
    (2, "TS_LEGACY_HW");
    (3, "TS_ONESTEP");
    (4, "TS_P2P1STEP")]) "unknown" val.

Definition pwr2str_c (val : Z) : string :=
  case_item (without 21
   [(0, "IEEE_C37_238_VERSION_NONE");
    (1, "IEEE_C37_238_VERSION_2011");
    (2, "IEEE_C37_238_VERSION_2017")]) "unknown state" val.

Definition us2str_c (val : Z) : string :=
  case_item (without 3
   [(0, "UC_WAIT");
    (1, "UC_HAVE_ANN");
    (2, "UC_NEED_SYDY");
    (3, "UC_HAVE_SYDY")]) "???" val.

Definition mng2str_c (id : mng_vals_e) : string :=
  match id with
  | NULL_PTP_MANAGEMENT => "NULL_PTP_MANAGEMENT"
  | CLOCK_DESCRIPTION => "CLOCK_DESCRIPTION"
  | USER_DESCRIPTION => "USER_DESCRIPTION"
  | SAVE_IN_NON_VOLATILE_STORAGE => "SAVE_IN_NON_VOLATILE_STORAGE"
  | RESET_NON_VOLATILE_STORAGE => "RESET_NON_VOLATILE_STORAGE"
  | INITIALIZE => "INITIALIZE"
  | FAULT_LOG => "FAULT_LOG"
  | FAULT_LOG_RESET => "FAULT_LOG_RESET"
  | DEFAULT_DATA_SET => "DEFAULT_DATA_SET"
  | CURRENT_DATA_SET => "CURRENT_DATA_SET"
  | PARENT_DATA_SET => "PARENT_DATA_SET"
  | TIME_PROPERTIES_DATA_SET => "TIME_PROPERTIES_DATA_SET"
  | PORT_DATA_SET => "PORT_DATA_SET"
  | PRIORITY1 => "PRIORITY1"
  | PRIORITY2 => "PRIORITY2"
  | DOMAIN => "DOMAIN"
  | SLAVE_ONLY => "SLAVE_ONLY"
  | LOG_ANNOUNCE_INTERVAL => "LOG_ANNOUNCE_INTERVAL"
  | ANNOUNCE_RECEIPT_TIMEOUT => "ANNOUNCE_RECEIPT_TIMEOUT"
  | LOG_SYNC_INTERVAL => "LOG_SYNC_INTERVAL"
  | VERSION_NUMBER => "VERSION_NUMBER"
  | ENABLE_PORT => "ENABLE_PORT"
  | DISABLE_PORT => "DISABLE_PORT"
  | TIME => "TIME"
  | CLOCK_ACCURACY => "CLOCK_ACCURACY"
  | UTC_PROPERTIES => "UTC_PROPERTIES"
  | TRACEABILITY_PROPERTIES => "TRACEABILITY_PROPERTIES"
  | TIMESCALE_PROPERTIES => "TIMESCALE_PROPERTIES"
  | UNICAST_NEGOTIATION_ENABLE => "UNICAST_NEGOTIATION_ENABLE"
  | PATH_TRACE_LIST => "PATH_TRACE_LIST"
  | PATH_TRACE_ENABLE => "PATH_TRACE_ENABLE"
  | GRANDMASTER_CLUSTER_TABLE => "GRANDMASTER_CLUSTER_TABLE"
  | UNICAST_MASTER_TABLE => "UNICAST_MASTER_TABLE"
  | UNICAST_MASTER_MAX_TABLE_SIZE => "UNICAST_MASTER_MAX_TABLE_SIZE"
  | ACCEPTABLE_MASTER_TABLE => "ACCEPTABLE_MASTER_TABLE"
  | ACCEPTABLE_MASTER_TABLE_ENABLED => "ACCEPTABLE_MASTER_TABLE_ENABLED"
  | ACCEPTABLE_MASTER_MAX_TABLE_SIZE => "ACCEPTABLE_MASTER_MAX_TABLE_SIZE"
  | ALTERNATE_MASTER => "ALTERNATE_MASTER"
  | ALTERNATE_TIME_OFFSET_ENABLE => "ALTERNATE_TIME_OFFSET_ENABLE"
  | ALTERNATE_TIME_OFFSET_NAME => "ALTERNATE_TIME_OFFSET_NAME"
  | ALTERNATE_TIME_OFFSET_MAX_KEY => "ALTERNATE_TIME_OFFSET_MAX_KEY"
  | ALTERNATE_TIME_OFFSET_PROPERTIES => "ALTERNATE_TIME_OFFSET_PROPERTIES"
  | TRANSPARENT_CLOCK_PORT_DATA_SET => "TRANSPARENT_CLOCK_PORT_DATA_SET"
  | LOG_MIN_PDELAY_REQ_INTERVAL => "LOG_MIN_PDELAY_REQ_INTERVAL"
  | TRANSPARENT_CLOCK_DEFAULT_DATA_SET => "TRANSPARENT_CLOCK_DEFAULT_DATA_SET"
  | PRIMARY_DOMAIN => "PRIMARY_DOMAIN"
  | DELAY_MECHANISM => "DELAY_MECHANISM"
  | EXTERNAL_PORT_CONFIGURATION_ENABLED => "EXTERNAL_PORT_CONFIGURATION_ENABLED"
  | MASTER_ONLY => "MASTER_ONLY"
  | HOLDOVER_UPGRADE_ENABLE => "HOLDOVER_UPGRADE_ENABLE"
  | EXT_PORT_CONFIG_PORT_DATA_SET => "EXT_PORT_CONFIG_PORT_DATA_SET"
  | TIME_STATUS_NP => "TIME_STATUS_NP"
  | GRANDMASTER_SETTINGS_NP => "GRANDMASTER_SETTINGS_NP"
  | PORT_DATA_SET_NP => "PORT_DATA_SET_NP"
  | SUBSCRIBE_EVENTS_NP => "SUBSCRIBE_EVENTS_NP"
  | PORT_PROPERTIES_NP => "PORT_PROPERTIES_NP"
  | PORT_STATS_NP => "PORT_STATS_NP"
  | SYNCHRONIZATION_UNCERTAIN_NP => "SYNCHRONIZATION_UNCERTAIN_NP"
  | PORT_SERVICE_STATS_NP => "PORT_SERVICE_STATS_NP"
  | UNICAST_MASTER_TABLE_NP => "UNICAST_MASTER_TABLE_NP"
  | PORT_HWCLOCK_NP => "PORT_HWCLOCK_NP"
  | POWER_PROFILE_SETTINGS_NP => "POWER_PROFILE_SETTINGS_NP"
  | CMLDS_INFO_NP => "CMLDS_INFO_NP"
  | PORT_CORRECTIONS_NP => "PORT_CORRECTIONS_NP"
  | EXTERNAL_GRANDMASTER_PROPERTIES_NP => "EXTERNAL_GRANDMASTER_PROPERTIES_NP"
  | LAST_MNG_ID | SMPTE_MNG_ID => "unknown"
  end.

(** The flags of [TIME_PROPERTIES_DATA_SET]. *)
Definition is_LI_61 (flags : Z) : bool := negb (Z.land flags (Z.shiftl 1 0) =? 0).
Definition is_LI_59 (flags : Z) : bool := negb (Z.land flags (Z.shiftl 1 1) =? 0).
Definition is_UTCV (flags : Z) : bool := negb (Z.land flags (Z.shiftl 1 2) =? 0).
Definition is_PTP (flags : Z) : bool := negb (Z.land flags (Z.shiftl 1 3) =? 0).
Definition is_TTRA (flags : Z) : bool := negb (Z.land flags (Z.shiftl 1 4) =? 0).
Definition is_FTRA (flags : Z) : bool := negb (Z.land flags (Z.shiftl 1 5) =? 0).

(** ** Finding an enumerator *)

(** [_strcmp], chosen by [exact]. *)
Definition cmp_eq (exact : bool) : string -> string -> bool :=
  if exact then strcmp_eq else strcasecmp_eq.

(** The loop shared by [findMngID] and [findTimeSrc]: a whole name is taken at
    once; a single partial match is taken at the end.  The result is the value
    returned and the one of the output parameter. *)
Section Find.
Context {A : Type} (name : A -> string) (cmp : string -> string -> bool) (str : string).

Fixpoint find_loop (l : list A) (exact : bool) (find : Z) (out : A) : bool * A :=
  match l with
  | [] => (find =? 1, out)
  | c :: l =>
      if cmp str (name c) then (true, c)
      else if negb exact && strcasestr (name c) str then
        find_loop l (if 1 <? find + 1 then true else exact) (find + 1) c
      else find_loop l exact find out
  end.

(** The loop without partial matches. *)
Fixpoint find_whole (l : list A) : option A :=
  match l with
  | [] => None
  | c :: l => if cmp str (name c) then Some c else find_whole l
  end.
End Find.

Definition findMngID (str : string) (id : mng_vals_e) (exact : bool) : bool * mng_vals_e :=
  if String.eqb str "" then (false, id)
  else if negb exact && strcasestr str "NULL" then (true, NULL_PTP_MANAGEMENT)
  else find_loop mng2str_c (cmp_eq exact) str mng_ids exact 0 id.

Definition GNSS : Z := 0x20.
(** From [ATOMIC_CLOCK] to [INTERNAL_OSCILLATOR]. *)
Definition time_sources : list Z := seqZ 0x10 0x91.
Definition findTimeSrc (str : string) (type : Z) (exact : bool) : bool * Z :=
  if String.eqb str "" then (false, type)
  else if cmp_eq exact str "GPS" then (true, GNSS)
  else find_loop timeSrc2str_c (cmp_eq exact) str time_sources exact 0 type.

(** From [INITIALIZING] to [TIME_RECEIVER], then the old names. *)
Definition port_states : list Z := seqZ 1 9.
Definition findPortState (str : string) (state : Z) (caseSens : bool) : bool * Z :=
  if String.eqb str "" then (false, state)
  else
    match find_whole portState2str_c (cmp_eq caseSens) str port_states with
    | Some v => (true, v)
    | None =>
        if cmp_eq caseSens str "PRE_MASTER" then (true, 5)
        else if cmp_eq caseSens str "MASTER" then (true, 6)
        else if cmp_eq caseSens str "SLAVE" then (true, 9)
        else (false, state)
    end.

(** From [AUTO] to [SPECIAL], then [NO_MECHANISM]. *)
Definition delay_mechs : list Z := seqZ 0 5.
Definition NO_MECHANISM : Z := 0xfe.
Definition findDelayMech (str : string) (type : Z) (exact : bool) : bool * Z :=
  if String.eqb str "" then (false, type)
  else
    match find_whole delayMech2str_c (cmp_eq exact) str delay_mechs with
    | Some v => (true, v)
    | None =>
        if cmp_eq exact str (delayMech2str_c NO_MECHANISM) then (true, NO_MECHANISM)
        else (false, type)
    end.

(** ** Lemmas *)

Section FindFacts.
Context {A : Type} (name : A -> string) (cmp : string -> string -> bool) (str : string).

Lemma find_whole_spec l : find_whole name cmp str l = List.find (fun c => cmp str (name c)) l.
Proof. induction l as [|c l IH]; [done|]. cbn. by destruct (cmp str (name c)). Qed.

Definition partial (c : A) : bool := strcasestr (name c) str.

(** The loop, by the number of partial matches before. *)
Lemma find_loop_exact l n out :
  find_loop name cmp str l true n out =
  match find_whole name cmp str l with Some c => (true, c) | None => (n =? 1, out) end.
Proof. induction l as [|c l IH]; [done|]. cbn. by destruct (cmp str (name c)). Qed.

Lemma find_loop_one l out :
  find_loop name cmp str l false 1 out =
  match find_whole name cmp str l with
  | Some c => (true, c)
  | None => match filter partial l with [] => (true, out) | c :: _ => (false, c) end
  end.
Proof.
  induction l as [|c l IH]; [done|]. cbn [find_loop find_whole negb andb].
  destruct (cmp str (name c)); [done|]. rewrite filter_cons. fold (partial c).
  destruct (decide (partial c)) as [P|P]; cycle 1.
  { apply Is_true_false in P. by rewrite P. }
  apply Is_true_true in P. rewrite P. cbn match. rewrite find_loop_exact.
  by destruct (find_whole name cmp str l).
Qed.

Lemma find_loop_none l out :
  find_loop name cmp str l false 0 out =
  match find_whole name cmp str l with
  | Some c => (true, c)
  | None => match filter partial l with
            | [] => (false, out) | [c] => (true, c) | _ :: c :: _ => (false, c) end
  end.
Proof.
  induction l as [|c l IH]; [done|]. cbn [find_loop find_whole negb andb].
  destruct (cmp str (name c)); [done|]. rewrite filter_cons. fold (partial c).
  destruct (decide (partial c)) as [P|P]; cycle 1.
  { apply Is_true_false in P. by rewrite P. }
  apply Is_true_true in P. rewrite P. cbn match. change (0 + 1) with 1.
  change (1 <? 1) with false. cbn match. rewrite find_loop_one.
  destruct (find_whole name cmp str l); [done|]. by destruct (filter partial l).
Qed.
End FindFacts.

(** No two ids have names that differ only in case. *)
Lemma mng_names_inj id id' :
  in_table id = true -> in_table id' = true ->
  lower (c_str (mng2str_c id)) = lower (c_str (mng2str_c id')) -> id = id'.
Proof.
  intros Hi Hi' E.
  assert (forallb (fun id => forallb (fun id' =>
    negb (strcasecmp_eq (mng2str_c id) (mng2str_c id')) || bool_decide (id = id'))
    mng_ids) mng_ids = true) as H by (vm_compute; reflexivity).
  pose proof (table_forall _ (table_forall _ H id Hi) id' Hi') as H'. cbv beta in H'.
  unfold strcasecmp_eq in H'. rewrite E, String.eqb_refl in H'. by apply bool_decide_eq_true_1 in H'.
Qed.

Lemma cmp_eq_lower exact a b :
  cmp_eq exact a b = true -> lower (c_str a) = lower (c_str b).
Proof.
  unfold cmp_eq, strcmp_eq, strcasecmp_eq. destruct exact; intros H%String.eqb_eq; congruence.
Qed.

(** The whole name of an id finds it, and only it. *)
Lemma find_whole_mng exact str id :
  find_whole mng2str_c (cmp_eq exact) str mng_ids = Some id <->
  in_table id = true /\ cmp_eq exact str (mng2str_c id) = true.
Proof.
  rewrite find_whole_spec. split.
  - intros [Hin E]%find_some. split; [by apply in_mng_ids|done].
  - intros [Ht E]. destruct (List.find _ _) as [c|] eqn:F.
    + apply find_some in F as [Hc Ec]. f_equal. apply mng_names_inj; [by apply in_mng_ids|done|].
      apply cmp_eq_lower in E, Ec. congruence.
    + apply in_mng_ids in Ht. pose proof (find_none _ _ F id Ht) as N. cbv beta in N. congruence.
Qed.

Lemma find_whole_mng_none exact str :
  find_whole mng2str_c (cmp_eq exact) str mng_ids = None <->
  forall id, in_table id = true -> cmp_eq exact str (mng2str_c id) = false.
Proof.
  split.
  - intros F id Ht. destruct (cmp_eq exact str (mng2str_c id)) eqn:E; [|done].
    rewrite (proj2 (find_whole_mng exact str id) (conj Ht E)) in F. done.
  - intros H. destruct (find_whole _ _ _ _) as [id|] eqn:F; [|done].
    apply find_whole_mng in F as [Ht E]. rewrite H in E by done. done.
Qed.

Lemma filter_iff_in {A} (P Q : A -> Prop) `{!forall x, Decision (P x)} `{!forall x, Decision (Q x)}
    (l : list A) :
  (forall x, x ∈ l -> P x <-> Q x) -> filter P l = filter Q l.
Proof.
  induction l as [|x l IH]; intros PQ; [done|]. rewrite !filter_cons.
  rewrite IH by (intros; apply PQ; by right). pose proof (PQ x ltac:(by left)) as Hx.
  destruct (decide (P x)), (decide (Q x)); tauto || done.
Qed.

(** One id has a name with the text in it. *)
Lemma partial_one str id :
  in_table id = true ->
  filter (partial mng2str_c str) mng_ids = [id] <->
  forall id', in_table id' = true -> strcasestr (mng2str_c id') str = bool_decide (id' = id).
Proof.
  intros Ht. assert (filter (fun x => x = id) mng_ids = [id]) as One
    by (destruct id; try done; by vm_compute).
  split.
  - intros F id' Hi. apply in_mng_ids, list_elem_of_In in Hi.
    assert (id' ∈ filter (partial mng2str_c str) mng_ids <-> id' ∈ [id]) as M by by rewrite F.
    rewrite list_elem_of_filter, list_elem_of_singleton in M. unfold partial in M.
    symmetry. destruct (strcasestr (mng2str_c id') str);
      [apply bool_decide_eq_true_2|apply bool_decide_eq_false_2]; [by apply M|].
    intros ->. by apply M.
  - intros H. rewrite <- One. apply filter_iff_in. intros x Hx.
    rewrite list_elem_of_In, <- in_mng_ids in Hx. unfold partial. rewrite H by done.
    by rewrite bool_decide_spec.
Qed.

(** ** Theorems *)

(** [findMngID] accepts a text exactly when it names an id: for an exact
    search, the whole name; otherwise, ignoring case, any text with NULL for the
    null id, or the whole name, or a text that is part of the name of this id and
    of no other. *)
Theorem findMngID_correct str id0 exact id :
  findMngID str id0 exact = (true, id) <->
  str <> "" /\ in_table id = true /\
  if exact then strcmp_eq str (mng2str_c id) = true
  else if strcasestr str "NULL" then id = NULL_PTP_MANAGEMENT
  else strcasecmp_eq str (mng2str_c id) = true \/
       (forall id', in_table id' = true -> strcasecmp_eq str (mng2str_c id') = false) /\
       (forall id', in_table id' = true ->
          strcasestr (mng2str_c id') str = bool_decide (id' = id)).
Proof.
  unfold findMngID. destruct (String.eqb_spec str "") as [->|Ne];
    [split; [done|intros [N _]; by destruct N]|].
  destruct exact; cbn [negb andb].
  { rewrite find_loop_exact. pose proof (find_whole_mng true str id) as W.
    cbn [cmp_eq] in *. destruct (find_whole _ _ _ _) as [c|].
    - split; [intros [= ->]; split; [done|]; by apply W|].
      intros [_ H]. by apply W in H as [= ->].
    - split; [done|]. intros [_ H]. by apply W in H. }
  destruct (strcasestr str "NULL");
    [split; [by intros [= <-]|by intros (_ & _ & ->)]|].
  rewrite find_loop_none. pose proof (find_whole_mng false str) as W.
  pose proof (find_whole_mng_none false str) as N. cbn [cmp_eq] in *.
  destruct (find_whole _ _ _ _) as [c|] eqn:F.
  - pose proof (proj1 (W c) eq_refl) as [Hc Ec]. split.
    + intros [= <-]. auto.
    + intros (_ & Ht & [E|[H _]]); [|].
      { pose proof (proj2 (W id) (conj Ht E)). congruence. }
      rewrite H in Ec by done. done.
  - pose proof (proj1 N eq_refl) as N'. split.
    + intros E. destruct (filter (partial mng2str_c str) mng_ids) as [|c [|c' l]] eqn:Fl; [done| |done].
      injection E as ->. assert (in_table id = true) as Ht.
      { apply in_mng_ids, list_elem_of_In.
        assert (id ∈ filter (partial mng2str_c str) mng_ids) as Hin by (rewrite Fl; by left).
        by apply list_elem_of_filter in Hin as [_ ?]. }
      split; [done|]. split; [done|]. right. split; [done|]. by apply partial_one.
    + intros (_ & Ht & [E|[_ H]]); [rewrite N' in E; done|].
      apply (proj2 (partial_one str id Ht)) in H. by rewrite H.
Qed.

(** The name of every time source, port state and delay mechanism is found
    again, with or without regard to case; the old names of the port states stand
    for the new ones. *)
Theorem names_roundtrip exact :
  (forall v v0, v ∈ [0x10; 0x20; 0x30; 0x39; 0x40; 0x50; 0x60; 0x90; 0xa0] ->
     findTimeSrc (timeSrc2str_c v) v0 exact = (true, v)) /\
  (forall v v0, v ∈ port_states -> findPortState (portState2str_c v) v0 exact = (true, v)) /\
  (forall v v0, v ∈ app delay_mechs [NO_MECHANISM] ->
     findDelayMech (delayMech2str_c v) v0 exact = (true, v)) /\
  (forall v0, findPortState "MASTER" v0 exact = (true, 6) /\
     findPortState "SLAVE" v0 exact = (true, 9) /\ findTimeSrc "GPS" v0 exact = (true, GNSS)).
Proof.
  split; [|split; [|split]]; [intros v v0 H..|intros v0].
  all: try (apply list_elem_of_In in H; cbn in H; destruct exact;
    (repeat destruct H as [<-|H]; [by vm_compute..|done])).
  by destruct exact; vm_compute.
Qed.

(** [findTimeSrc] goes through the values between the enumerators as well,
    whose name is "unknown clock": it takes that text for the value 0x11, which
    is no time source, and does not find the only time source with "clock" in its
    name. *)
Theorem findTimeSrc_gaps v0 :
  findTimeSrc "unknown clock" v0 true = (true, 0x11) /\
  fst (findTimeSrc "clock" v0 false) = false /\
  filter (fun v => strcasestr (timeSrc2str_c v) "clock")
    [0x10; 0x20; 0x30; 0x39; 0x40; 0x50; 0x60; 0x90; 0xa0] = [0x10].
Proof. by vm_compute. Qed.
