(* ===== verification/MsgProc.v ===== *)
(** * MsgProc.v: the message cursor

    [struct MsgProc] of [src/src/comp.h] and the primitive [proc] functions of
    [src/src/mngTlvs.cpp].  One function serves both directions: with [m_build]
    it writes the value at the cursor, without it reads the value there.  A
    C++ function that returns [true] on error and [false] on success becomes a
    function of the monad [M]: [Pass] carries the updated argument and cursor,
    [Stop] is the error return, and [Fault] is an access outside the buffer,
    which C++ leaves undefined.

    A function that returns an error drops the partly updated argument: on
    parsing the caller deletes the structure; on building it keeps the fields
    normalised so far, which the next build normalises to the same values. *)

From S2P Require Import Prelude Types.

(** ** The buffer *)

Definition load (buf : list byte) (off n : Z) : option (list byte) :=
  if bool_decide (0 <= off /\ 0 <= n /\ off + n <= len buf)
  then Some (take (Z.to_nat n) (drop (Z.to_nat off) buf)) else None.

Definition store (buf : list byte) (off : Z) (bs : list byte) : option (list byte) :=
  if bool_decide (0 <= off /\ off + len bs <= len buf)
  then Some (take (Z.to_nat off) buf ++ bs ++ drop (Z.to_nat (off + len bs)) buf)
  else None.

(** ** The cursor *)

Record MsgProc := mk_MsgProc {
  m_build : bool;
  m_buf : list byte;
  m_cur : Z;
  m_left : Z;
  m_size : Z;
  m_err : MNG_PARSE_ERROR_e
}.

Definition move (val : Z) (s : MsgProc) : MsgProc :=
  mk_MsgProc (m_build s) (m_buf s) (m_cur s + val) (m_left s - val)
    (m_size s + val) (m_err s).
Definition set_m_buf (b : list byte) (s : MsgProc) : MsgProc :=
  mk_MsgProc (m_build s) b (m_cur s) (m_left s) (m_size s) (m_err s).
Definition set_m_err (e : MNG_PARSE_ERROR_e) (s : MsgProc) : MsgProc :=
  mk_MsgProc (m_build s) (m_buf s) (m_cur s) (m_left s) (m_size s) e.

Inductive outcome (A : Type) :=
| Pass (a : A) (s : MsgProc)
| Stop (s : MsgProc)
| Fault.
Arguments Pass {A} a s.
Arguments Stop {A} s.
Arguments Fault {A}.

Definition M (A : Type) : Type := MsgProc -> outcome A.

Definition ret {A} (a : A) : M A := fun s => Pass a s.
Definition fail {A} : M A := fun s => Stop s.
Definition bind {A B} (m : M A) (k : A -> M B) : M B := fun s =>
  match m s with
  | Pass a s => k a s
  | Stop s => Stop s
  | Fault => Fault
  end.
Definition ask_build : M bool := fun s => Pass (m_build s) s.
Definition raise {A} (e : MNG_PARSE_ERROR_e) : M A := fun s => Stop (set_m_err e s).

Declare Scope ptp_scope.
Delimit Scope ptp_scope with ptp.
Notation "x <- m ;; k" := (bind m (fun x => k))
  (at level 100, m at next level, right associativity) : ptp_scope.
Notation "m ;;; k" := (bind m (fun _ => k))
  (at level 100, right associativity) : ptp_scope.
#[global] Open Scope ptp_scope.

(** ** Primitive fields *)

(** The common shape of the primitives: check the room, write the encoding or
    read [n] octets, move the cursor. *)
Definition access {A} (n : Z) (enc : A -> list byte) (dec : list byte -> A) (v : A) : M A :=
  fun s =>
    if m_left s <? n then Stop s
    else if m_build s then
      match store (m_buf s) (m_cur s) (enc v) with
      | Some b => Pass v (move n (set_m_buf b s))
      | None => Fault
      end
    else
      match load (m_buf s) (m_cur s) n with
      | Some bs => Pass (dec bs) (move n s)
      | None => Fault
      end.

(** [procB8], [procBU] and [procBN]: the integers in network order. *)
Definition procBU (n : nat) : Z -> M Z := access (Z.of_nat n) (be_enc n) be_dec.
Definition procBN (n : nat) : Z -> M Z :=
  access (Z.of_nat n) (be_enc n) (fun bs => swrap (8 * Z.of_nat n) (be_dec bs)).
Definition proc_u8 : Z -> M Z := procBU 1.
Definition proc_u16 : Z -> M Z := procBU 2.
Definition proc_u32 : Z -> M Z := procBU 4.
Definition proc_u64 : Z -> M Z := procBU 8.
Definition proc_i8 : Z -> M Z := procBN 1.
Definition proc_i16 : Z -> M Z := procBN 2.
Definition proc_i32 : Z -> M Z := procBN 4.
Definition proc_i64 : Z -> M Z := procBN 8.
Definition procRes : M Z := proc_u8 0.

(** [procLe]: the linuxptp statistics are little endian. *)
Definition procLe : Z -> M Z := access 8 (le_enc 8) le_dec.

(** [procE8] and [procE16]: enumerators, by their underlying integer. *)
Definition procE8 (val : Z) : M Z :=
  build <- ask_build ;;
  v <- proc_u8 (if build then uwrap 8 val else 0) ;;
  ret (if build then val else v).
Definition procE16 (val : Z) : M Z :=
  build <- ask_build ;;
  v <- proc_u16 (if build then uwrap 16 val else 0) ;;
  ret (if build then val else v).

(** [if(m_left < n) return true;] before any octet is touched. *)
Definition room (n : Z) : M unit := fun s =>
  if m_left s <? n then Stop s else Pass tt s.

(** [proc48] of [UInteger48_t]. *)
Definition proc48u (val : Z) : M Z :=
  build <- ask_build ;;
  room 6 ;;;
  if build && (UINT48_MAX <? val) then raise MNG_PARSE_ERROR_VAL
  else
    high <- proc_u16 (if build then Z.land (Z.shiftr val 32) 0xffff else 0) ;;
    low <- proc_u32 (if build then Z.land val 0xffffffff else 0) ;;
    ret (if build then val else Z.lor low (Z.shiftl high 32)).

(** [proc48] of [Integer48_t]. *)
Definition sig_16bits : Z := Z.shiftl 1 15.
Definition sig_64bits : Z := Z.shiftl 1 63.
Definition proc48i (val : Z) : M Z :=
  build <- ask_build ;;
  room 6 ;;;
  if build && ((val <? INT48_MIN) || (INT48_MAX <? val))
  then raise MNG_PARSE_ERROR_VAL
  else
    high <- proc_u16 (if build then
                        let high := Z.land (Z.shiftr val 32) 0x7fff in
                        if val <? 0 then Z.lor high sig_16bits else high
                      else 0) ;;
    low <- proc_u32 (if build then Z.land val 0xffffffff else 0) ;;
    ret (if build then val else
           let r := Z.lor low (Z.shiftl (Z.land high 0x7fff) 32) in
           let r := if negb (Z.land high sig_16bits =? 0)
                    then Z.lor r sig_64bits else r in
           swrap 64 r).

(** [proc(Float64_t)], on a host whose [double] is the 64 bits IEEE 754 format
    in host order ([use64] with [USE_HOST]): the value is its bit pattern. *)
Definition proc_Float64 (val : Z) : M Z := proc_u64 val.

(** [proc(string &, uint16_t)]: the length is the low 16 bits of the string's. *)
Definition proc_string (str : list byte) (n : Z) : M (list byte) := fun s =>
  let n := if m_build s then uwrap 16 (len str) else n in
  access n (take (Z.to_nat n)) (fun bs => bs) str s.

(** [proc(Binary &, uint16_t)]: [Binary::copy] writes the whole binary. *)
Definition proc_binary (bin : list byte) (n : Z) : M (list byte) := fun s =>
  let n := if m_build s then uwrap 16 (len bin) else n in
  access n (fun b => b) (fun bs => bs) bin s.

(** [proc(uint8_t *, size_t)]: an array of [n] octets. *)
Definition proc_octets (val : list byte) (n : Z) : M (list byte) :=
  access n (fun b => b) (fun bs => bs) val.

(** [procFlags]: the flags are masked on build only. *)
Definition normFlags (flagsMask flags : Z) : Z :=
  if 1 <? flagsMask then Z.land flags flagsMask
  else if 0 <? flags then 1 else flags.
Definition procFlags (flags flagsMask : Z) : M Z :=
  build <- ask_build ;;
  proc_u8 (if build then normFlags flagsMask flags else flags).

(** ** Structures *)

Definition proc_TimeInterval (v : TimeInterval_t) : M TimeInterval_t :=
  x <- proc_i64 (scaledNanoseconds v) ;; ret (mk_TimeInterval x).

Definition proc_Timestamp (d : Timestamp_t) : M Timestamp_t :=
  secs <- proc48u (secondsField d) ;;
  nano <- proc_u32 (nanosecondsField d) ;;
  ret (mk_Timestamp secs nano).

Definition proc_ClockIdentity (v : ClockIdentity_t) : M ClockIdentity_t :=
  x <- proc_octets (ci_v v) ClockIdentity_size ;; ret (mk_ClockIdentity x).

Definition proc_PortIdentity (d : PortIdentity_t) : M PortIdentity_t :=
  clk <- proc_ClockIdentity (clockIdentity d) ;;
  port <- proc_u16 (portNumber d) ;;
  ret (mk_PortIdentity clk port).

Definition proc_PortAddress (d : PortAddress_t) : M PortAddress_t :=
  let alen := uwrap 16 (len (addressField d)) in
  net <- procE16 (networkProtocol d) ;;
  alen <- proc_u16 alen ;;
  addr <- proc_binary (addressField d) alen ;;
  ret (mk_PortAddress net alen addr).

Definition proc_ClockQuality (d : ClockQuality_t) : M ClockQuality_t :=
  cls <- proc_u8 (clockClass d) ;;
  acc <- procE8 (clockAccuracy d) ;;
  var <- proc_u16 (offsetScaledLogVariance d) ;;
  ret (mk_ClockQuality cls acc var).

Definition proc_PTPText (d : PTPText_t) : M PTPText_t :=
  let sz := len (textField d) in
  if 255 <? sz then fail
  else
    n <- proc_u8 (uwrap 8 sz) ;;
    txt <- proc_string (textField d) n ;;
    ret (mk_PTPText n txt).

Definition proc_FaultRecord (d : FaultRecord_t) : M FaultRecord_t :=
  build <- ask_build ;;
  recLen <- proc_u16 (if build then uwrap 16 (FaultRecord_size d)
                      else faultRecordLength d) ;;
  time <- proc_Timestamp (faultTime d) ;;
  sev <- procE8 (severityCode d) ;;
  name <- proc_PTPText (faultName d) ;;
  value <- proc_PTPText (faultValue d) ;;
  desc <- proc_PTPText (faultDescription d) ;;
  let d := mk_FaultRecord recLen time sev name value desc in
  if negb build && negb (recLen =? FaultRecord_size d)
  then raise MNG_PARSE_ERROR_SIZE_MISS
  else ret d.

Definition proc_AcceptableMaster (d : AcceptableMaster_t) : M AcceptableMaster_t :=
  port <- proc_PortIdentity (acceptablePortIdentity d) ;;
  prio <- proc_u8 (alternatePriority1 d) ;;
  ret (mk_AcceptableMaster port prio).

Definition proc_LinuxptpUnicastMaster (d : LinuxptpUnicastMaster_t) : M LinuxptpUnicastMaster_t :=
  port <- proc_PortIdentity (lum_portIdentity d) ;;
  quality <- proc_ClockQuality (lum_clockQuality d) ;;
  sel <- proc_u8 (lum_selected d) ;;
  state <- procE8 (lum_portState d) ;;
  p1 <- proc_u8 (lum_priority1 d) ;;
  p2 <- proc_u8 (lum_priority2 d) ;;
  addr <- proc_PortAddress (lum_portAddress d) ;;
  ret (mk_LinuxptpUnicastMaster port quality sel state p1 p2 addr).

(** ** Lists of structures *)

Section Vectors.
Context {T : Type} (proc : T -> M T) (zero : T).

(** The build half of both: every record in order. *)
Fixpoint vector_b (vec : list T) : M (list T) :=
  match vec with
  | [] => ret []
  | r :: vec => r <- proc r ;; vec <- vector_b vec ;; ret (r :: vec)
  end.

(** [vector_f]: [count] records.  The fuel bounds the records that the octets
    left can hold; [Fault] marks its exhaustion, excluded by
    [reads_vector_f] of Structs.v. *)
Fixpoint vector_f_loop (fuel : nat) (count : Z) (vec : list T) : M (list T) :=
  if count <=? 0 then ret vec
  else match fuel with
       | O => fun _ => Fault
       | S fuel => r <- proc zero ;; vector_f_loop fuel (count - 1) (vec ++ [r])
       end.
Definition vector_f (count : Z) (vec : list T) : M (list T) := fun s =>
  if m_build s then vector_b vec s
  else vector_f_loop (S (Z.to_nat (m_left s))) (uwrap 32 count) vec s.

(** [vector_o]: records as long as the octets left can hold one. *)
Fixpoint vector_o_loop (fuel : nat) (size : Z) (vec : list T) : M (list T) := fun s =>
  if m_left s <? size then Pass vec s
  else match fuel with
       | O => Fault
       | S fuel => (r <- proc zero ;; vector_o_loop fuel size (vec ++ [r])) s
       end.
Definition vector_o (size : Z) (vec : list T) : M (list T) := fun s =>
  if m_build s then vector_b vec s
  else vector_o_loop (S (Z.to_nat (m_left s))) size vec s.
End Vectors.

(** [for(i = 0; i < MAX; i++) procLe(a[i])]: a fixed array. *)
Fixpoint procLe_array (vals : list Z) : M (list Z) :=
  match vals with
  | [] => ret []
  | v :: vals => v <- procLe v ;; vals <- procLe_array vals ;; ret (v :: vals)
  end.
