(* ===== verification/Codec.v ===== *)
(** * Codec.v: reasoning rules for the message cursor

    The three judgements of the development on programs of the monad [M]:

    - [codec f g a n]: [f], run to build, emits [n] octets and returns [a] when
      there is room for them and stops otherwise; [g], run to parse those
      octets, returns [a] and moves by [n] octets;
    - [codec_end f g a n]: the same for the last field of a TLV, where at most
      one padding octet follows;
    - [reads k f g]: run to parse in any well formed state, [f] and [g] are the
      same computation, never access an octet outside the buffer, keep the
      cursor inside it and consume at least [k] octets when they pass.

    Each primitive of MsgProc.v has a rule in the hint databases [codec] and
    [reads]; the rules for [bind] make the proofs for the TLVs a search. *)

From S2P Require Import Prelude Types MsgProc.

(** ** Well formed states *)

Definition ok (s : MsgProc) : Prop :=
  0 <= m_cur s /\ 0 <= m_left s /\ m_cur s + m_left s <= len (m_buf s).

Definition splice (buf : list byte) (off : Z) (bs : list byte) : list byte :=
  take (Z.to_nat off) buf ++ bs ++ drop (Z.to_nat (off + len bs)) buf.

(** The state after writing [bs] at the cursor. *)
Definition put (bs : list byte) (s : MsgProc) : MsgProc :=
  move (len bs) (set_m_buf (splice (m_buf s) (m_cur s) bs) s).

(** The octets at the cursor start with [bs]. *)
Definition at_cur (s : MsgProc) (bs : list byte) : Prop :=
  take (length bs) (drop (Z.to_nat (m_cur s)) (m_buf s)) = bs.

(** What parsing may change: the cursor moves forward in the same buffer, and
    the error is never replaced by success. *)
Definition follows (s s' : MsgProc) : Prop :=
  m_build s' = m_build s /\ m_buf s' = m_buf s /\
  m_cur s' + m_left s' = m_cur s + m_left s /\
  m_size s' - m_cur s' = m_size s - m_cur s /\
  m_left s' <= m_left s /\
  (m_err s <> MNG_PARSE_ERROR_OK -> m_err s' <> MNG_PARSE_ERROR_OK).

Definition emits {A} (m : M A) (a : A) (bs : list byte) : Prop :=
  forall s, ok s -> m_build s = true ->
    (len bs <= m_left s -> m s = Pass a (put bs s)) /\
    (m_left s < len bs -> exists s', m s = Stop s' /\ m_err s' = m_err s).

Definition consumes {A} (m : M A) (bs : list byte) (a : A) : Prop :=
  forall s, ok s -> m_build s = false -> at_cur s bs -> len bs <= m_left s ->
    m s = Pass a (move (len bs) s).

Definition consumes_end {A} (m : M A) (bs : list byte) (a : A) : Prop :=
  forall s, ok s -> m_build s = false -> at_cur s bs ->
    len bs <= m_left s <= len bs + 1 ->
    m s = Pass a (move (len bs) s).

Definition codec {A} (f g : M A) (a : A) (n : Z) : Prop :=
  exists bs, emits f a bs /\ consumes g bs a /\ len bs = n.

Definition codec_end {A} (f g : M A) (a : A) (n : Z) : Prop :=
  exists bs, emits f a bs /\ consumes_end g bs a /\ len bs = n.

Definition reads {A} (k : Z) (f g : M A) : Prop :=
  forall s, ok s -> m_build s = false ->
    g s = f s /\
    match f s with
    | Pass _ s' => ok s' /\ follows s s' /\ m_left s' + k <= m_left s
    | Stop s' => ok s' /\ follows s s'
    | Fault => False
    end.

(** ** Lengths and the buffer *)


Lemma len_cons {A} (x : A) l : len (x :: l) = 1 + len l.
Proof. unfold len. simpl. lia. Qed.

Lemma to_nat_len {A} (l : list A) : Z.to_nat (len l) = length l.
Proof. unfold len. lia. Qed.

Lemma len_splice buf off bs :
  0 <= off -> off + len bs <= len buf -> len (splice buf off bs) = len buf.
Proof.
  unfold splice, len. intros. rewrite !length_app, length_take, length_drop. lia.
Qed.

Lemma splice_app buf off b1 b2 :
  0 <= off -> off + len b1 + len b2 <= len buf ->
  splice (splice buf off b1) (off + len b1) b2 = splice buf off (b1 ++ b2).
Proof.
  intros H0 H1. unfold splice. rewrite len_app.
  pose proof (len_nonneg b1). pose proof (len_nonneg b2).
  assert (length (take (Z.to_nat off) buf ++ b1) = Z.to_nat (off + len b1)) as L1.
  { rewrite length_app, length_take. unfold len in *. lia. }
  rewrite (app_assoc (take (Z.to_nat off) buf) b1), take_app_length' by lia.
  rewrite <- !app_assoc. do 3 f_equal.
  rewrite (app_assoc (take (Z.to_nat off) buf) b1), drop_app_ge by lia.
  rewrite L1, drop_drop. f_equal. lia.
Qed.

Lemma store_splice buf off bs :
  0 <= off -> off + len bs <= len buf -> store buf off bs = Some (splice buf off bs).
Proof. intros. unfold store. by rewrite bool_decide_eq_true_2. Qed.

Lemma load_in buf off n :
  0 <= off -> 0 <= n -> off + n <= len buf ->
  load buf off n = Some (take (Z.to_nat n) (drop (Z.to_nat off) buf)).
Proof. intros. unfold load. by rewrite bool_decide_eq_true_2. Qed.

(** Reading back what was written. *)
Lemma take_drop_splice buf off bs :
  0 <= off -> off + len bs <= len buf ->
  take (length bs) (drop (Z.to_nat off) (splice buf off bs)) = bs.
Proof.
  intros. unfold splice.
  rewrite drop_app_length' by (rewrite length_take; unfold len in *; lia).
  by rewrite take_app_length.
Qed.

Lemma put_app b1 b2 s :
  ok s -> len (b1 ++ b2) <= m_left s -> put (b1 ++ b2) s = put b2 (put b1 s).
Proof.
  intros (?&?&?) Hl. rewrite len_app in Hl. destruct s as [b buf cur left sz e].
  unfold put, move, set_m_buf; cbn in *. rewrite len_app.
  f_equal; [|lia..]. symmetry. apply splice_app; lia.
Qed.

Lemma ok_put bs s : ok s -> len bs <= m_left s -> ok (put bs s).
Proof.
  intros (?&?&?) ?. pose proof (len_nonneg bs). unfold ok, put; cbn.
  rewrite len_splice by lia. lia.
Qed.

Lemma ok_move n s : ok s -> 0 <= n <= m_left s -> ok (move n s).
Proof. intros (?&?&?) ?. unfold ok; cbn. lia. Qed.

Lemma move_move a b s : move b (move a s) = move (a + b) s.
Proof. unfold move; cbn. f_equal; lia. Qed.

Lemma move_0 s : move 0 s = s.
Proof. destruct s; unfold move; cbn. f_equal; lia. Qed.

Lemma at_cur_app s b1 b2 :
  0 <= m_cur s ->
  at_cur s (b1 ++ b2) -> at_cur s b1 /\ at_cur (move (len b1) s) b2.
Proof.
  unfold at_cur. cbn. intros H0 H. rewrite length_app in H. split.
  - apply (f_equal (take (length b1))) in H.
    rewrite take_take, take_app_length in H. by rewrite Nat.min_l in H by lia.
  - apply (f_equal (drop (length b1))) in H.
    rewrite drop_app_length in H. rewrite <- H at 2.
    rewrite skipn_firstn_comm, drop_drop. f_equal; [lia|].
    f_equal. unfold len. lia.
Qed.

(** What is written is at the cursor of a reader put there. *)
Lemma at_cur_put bs s t :
  ok s -> len bs <= m_left s ->
  m_buf t = m_buf (put bs s) -> m_cur t = m_cur s -> at_cur t bs.
Proof.
  intros (?&?&?) ? Hb Hc. unfold at_cur. rewrite Hb, Hc. cbn.
  apply take_drop_splice; lia.
Qed.

(** ** Rules: emission and consumption *)

Lemma emits_ret {A} (a : A) : emits (ret a) a [].
Proof.
  intros s (?&?&?) _. split.
  - intros _. unfold ret. f_equal. destruct s; unfold put, move, splice, set_m_buf; cbn.
    f_equal; [|change (len []) with 0; lia..].
    change (len []) with 0. rewrite Z.add_0_r. symmetry. apply take_drop.
  - change (len []) with 0. lia.
Qed.

Lemma emits_bind {A B} (m : M A) (k : A -> M B) a b b1 b2 :
  emits m a b1 -> emits (k a) b b2 -> emits (bind m k) b (b1 ++ b2).
Proof.
  intros H1 H2 s Hs Hb. pose proof (len_nonneg b1). pose proof (len_nonneg b2).
  destruct (H1 s Hs Hb) as [P1 S1]. rewrite len_app. unfold bind.
  destruct (Z_le_gt_dec (len b1) (m_left s)) as [L|L].
  - rewrite P1 by done. destruct (H2 (put b1 s)) as [P2 S2]; [by apply ok_put|done|].
    cbn [put move m_left set_m_buf m_err] in P2, S2. split; intros.
    + rewrite put_app by (rewrite ?len_app; done || lia). apply P2. lia.
    + apply S2. lia.
  - destruct S1 as (s' & -> & E); [lia|]. split; [lia|]. eauto.
Qed.

Lemma consumes_ret {A} (a : A) : consumes (ret a) [] a.
Proof. intros s ? _ _ _. change (len []) with 0. by rewrite move_0. Qed.

Lemma consumes_bind {A B} (m : M A) (k : A -> M B) a b b1 b2 :
  consumes m b1 a -> consumes (k a) b2 b -> consumes (bind m k) (b1 ++ b2) b.
Proof.
  intros H1 H2 s Hs Hb Hat Hl. rewrite len_app in *.
  pose proof (len_nonneg b1). pose proof (len_nonneg b2).
  destruct (at_cur_app s b1 b2) as [A1 A2]; [apply Hs|done|].
  unfold bind. rewrite H1 by (done || lia).
  rewrite H2; [by rewrite move_move|apply ok_move; [done|lia]|done|done|cbn; lia].
Qed.

Lemma consumes_end_bind {A B} (m : M A) (k : A -> M B) a b b1 b2 :
  consumes m b1 a -> consumes_end (k a) b2 b -> consumes_end (bind m k) (b1 ++ b2) b.
Proof.
  intros H1 H2 s Hs Hb Hat Hl. rewrite len_app in *.
  pose proof (len_nonneg b1). pose proof (len_nonneg b2).
  destruct (at_cur_app s b1 b2) as [A1 A2]; [apply Hs|done|].
  unfold bind. rewrite H1 by (done || lia).
  rewrite H2; [by rewrite move_move|apply ok_move; [done|lia]|done|done|cbn; lia].
Qed.

Lemma consumes_weaken {A} (m : M A) bs a : consumes m bs a -> consumes_end m bs a.
Proof. intros H s ? ? ? ?. apply H; done || lia. Qed.

Lemma codec_ret {A} (a : A) : codec (ret a) (ret a) a 0.
Proof. exists []. split; [apply emits_ret|split; [apply consumes_ret|done]]. Qed.

Lemma codec_bind {A B} (f g : M A) (k k' : A -> M B) a b n n' :
  codec f g a n -> codec (k a) (k' a) b n' ->
  codec (bind f k) (bind g k') b (n + n').
Proof.
  intros (b1 & E1 & C1 & L1) (b2 & E2 & C2 & L2). exists (b1 ++ b2).
  rewrite len_app, L1, L2. eauto using emits_bind, consumes_bind.
Qed.

Lemma codec_end_bind {A B} (f g : M A) (k k' : A -> M B) a b n n' :
  codec f g a n -> codec_end (k a) (k' a) b n' ->
  codec_end (bind f k) (bind g k') b (n + n').
Proof.
  intros (b1 & E1 & C1 & L1) (b2 & E2 & C2 & L2). exists (b1 ++ b2).
  rewrite len_app, L1, L2. eauto using emits_bind, consumes_end_bind.
Qed.

Lemma codec_weaken {A} (f g : M A) a n : codec f g a n -> codec_end f g a n.
Proof. intros (bs & ? & ? & ?). exists bs. eauto using consumes_weaken. Qed.

Lemma codec_len {A} (f g : M A) a n n' : codec f g a n -> n = n' -> codec f g a n'.
Proof. by intros ? <-. Qed.

Lemma codec_end_len {A} (f g : M A) a n n' :
  codec_end f g a n -> n = n' -> codec_end f g a n'.
Proof. by intros ? <-. Qed.

(** Programs that first look at the direction. *)
Lemma codec_ask {A} (k k' : bool -> M A) a n :
  codec (k true) (k' false) a n ->
  codec (bind ask_build k) (bind ask_build k') a n.
Proof.
  intros (bs & E & C & L). exists bs. split; [|split; [|done]].
  - intros s Hs Hb. unfold bind, ask_build. rewrite Hb. by apply E.
  - intros s Hs Hb. unfold bind, ask_build. rewrite Hb. by apply C.
Qed.

Lemma codec_end_ask {A} (k k' : bool -> M A) a n :
  codec_end (k true) (k' false) a n ->
  codec_end (bind ask_build k) (bind ask_build k') a n.
Proof.
  intros (bs & E & C & L). exists bs. split; [|split; [|done]].
  - intros s Hs Hb. unfold bind, ask_build. rewrite Hb. by apply E.
  - intros s Hs Hb. unfold bind, ask_build. rewrite Hb. by apply C.
Qed.

(** The rule for the primitives: the encoding of [v] has [n] octets and is
    decoded to [v]. *)
Lemma emits_access {A} n enc dec (v : A) :
  len (enc v) = n -> emits (access n enc dec v) v (enc v).
Proof.
  intros Hn s (?&?&?) Hb. unfold access. rewrite Hb. split; intros.
  - destruct (Z.ltb_spec (m_left s) n); [lia|].
    rewrite store_splice by lia. unfold put. by rewrite Hn.
  - destruct (Z.ltb_spec (m_left s) n); [eauto|lia].
Qed.

Lemma codec_access {A} n enc dec enc' dec' (v v' : A) :
  len (enc v) = n -> dec' (enc v) = v ->
  codec (access n enc dec v) (access n enc' dec' v') v n.
Proof.
  intros Hn Hd. exists (enc v). split; [by apply emits_access|split; [|done]].
  intros s (?&?&?) Hb Hat Hl. unfold access. rewrite Hb.
  destruct (Z.ltb_spec (m_left s) n); [lia|].
  pose proof (len_nonneg (enc v)).
  rewrite load_in by lia. rewrite Hn. f_equal.
  transitivity (dec' (enc v)); [|done]. f_equal.
  rewrite <- Hn, to_nat_len. exact Hat.
Qed.

Lemma emits_Res : emits procRes 0 [x00].
Proof. by apply (emits_access 1 (be_enc 1)). Qed.

(** ** Rules: parsing *)

Lemma follows_refl s : follows s s.
Proof. unfold follows. repeat split; done || lia. Qed.

Lemma follows_trans s1 s2 s3 : follows s1 s2 -> follows s2 s3 -> follows s1 s3.
Proof.
  unfold follows. intros (?&?&?&?&?&?) (?&?&?&?&?&?).
  repeat split; congruence || lia || auto.
Qed.

Lemma follows_move n s : 0 <= n -> follows s (move n s).
Proof. intros. unfold follows; cbn. repeat split; done || lia. Qed.

Lemma reads_ret {A} (a : A) : reads 0 (ret a) (ret a).
Proof.
  intros s ? ?. split; [done|]. cbn. split; [done|]. split; [apply follows_refl|lia].
Qed.

Lemma reads_fail {A} : reads 0 (@fail A) fail.
Proof. intros s ? ?. split; [done|]. cbn. split; [done|]. apply follows_refl. Qed.

Lemma reads_raise {A} e : e <> MNG_PARSE_ERROR_OK -> reads 0 (@raise A e) (raise e).
Proof.
  intros He s H ?. split; [done|]. cbn. split; [exact H|]. unfold follows; cbn.
  repeat split; done || lia.
Qed.

Lemma reads_bind {A B} (f g : M A) (k k' : A -> M B) n n' :
  reads n f g -> (forall a, reads n' (k a) (k' a)) ->
  reads (n + n') (bind f k) (bind g k').
Proof.
  intros H1 H2 s Hs Hb. destruct (H1 s Hs Hb) as [E H]. unfold bind. rewrite E.
  destruct (f s) as [a s'|s'|]; [|by eauto|done].
  destruct H as (Hok & F & L).
  assert (m_build s' = false) as Hb' by (destruct F; congruence).
  destruct (H2 a s' Hok Hb') as [E' H']. split; [done|].
  destruct (k a s') as [b s''|s''|]; [|by destruct H'; eauto using follows_trans|done].
  destruct H' as (? & ? & ?). split; [done|]. split; [by eapply follows_trans|lia].
Qed.

Lemma reads_weaken {A} (f g : M A) n n' : reads n f g -> n' <= n -> reads n' f g.
Proof.
  intros H L s Hs Hb. destruct (H s Hs Hb) as [E H']. split; [done|].
  destruct (f s); [|done..]. destruct H' as (?&?&?). split; [done|]. split; [done|lia].
Qed.

Lemma reads_ask {A} (k k' : bool -> M A) n :
  reads n (k false) (k' false) -> reads n (bind ask_build k) (bind ask_build k').
Proof.
  intros H s Hs Hb. unfold bind, ask_build. rewrite Hb. by apply H.
Qed.

Lemma reads_access {A} n enc dec enc' (v v' : A) :
  0 <= n -> reads n (access n enc dec v) (access n enc' dec v').
Proof.
  intros Hn s Hs Hb. unfold access. rewrite Hb. split; [done|].
  destruct (Z.ltb_spec (m_left s) n); [by split; [|apply follows_refl]|].
  destruct Hs as (?&?&?). rewrite load_in by lia.
  split; [apply ok_move; [done|lia]|]. split; [by apply follows_move|cbn; lia].
Qed.

Create HintDb codec discriminated.
Create HintDb reads discriminated.

(** Search over a program made of binds: [codec_step] and [reads_step] apply
    the bind rule with a lemma of the database for the first component. *)
Ltac codec_prim := solve [eauto 3 with codec].
Ltac codec_step :=
  first
    [ apply codec_ret
    | eapply codec_ask; cbv beta iota
    | eapply codec_bind; [codec_prim|cbv beta iota] ].
Ltac codec_auto := repeat codec_step.

Ltac reads_prim := solve [eauto 3 with reads].
Ltac reads_step :=
  first
    [ apply reads_ret
    | eapply reads_ask; cbv beta iota
    | eapply reads_bind; [reads_prim|intros ?; cbv beta iota] ].
Ltac reads_auto := repeat reads_step.

(** ** The primitives *)

Lemma pow256 n : 256 ^ Z.of_nat n = 2 ^ (8 * Z.of_nat n).
Proof. rewrite Z.pow_mul_r by lia. done. Qed.

Lemma be_dec_enc_u n v : uint (8 * Z.of_nat n) v -> be_dec (be_enc n v) = v.
Proof. intros H. rewrite be_dec_enc, pow256. by apply Z.mod_small. Qed.

Lemma be_dec_enc_s n v :
  (0 < n)%nat -> sint (8 * Z.of_nat n) v ->
  swrap (8 * Z.of_nat n) (be_dec (be_enc n v)) = v.
Proof.
  intros Hn H. rewrite be_dec_enc, pow256.
  change (swrap (8 * Z.of_nat n) (uwrap (8 * Z.of_nat n) v) = v).
  rewrite swrap_uwrap. apply swrap_small; [lia|done].
Qed.

Lemma codec_BU n v v' :
  uint (8 * Z.of_nat n) v -> codec (procBU n v) (procBU n v') v (Z.of_nat n).
Proof. intros. apply codec_access; [apply len_be_enc|by apply be_dec_enc_u]. Qed.

Lemma codec_BN n v v' :
  (0 < n)%nat -> sint (8 * Z.of_nat n) v ->
  codec (procBN n v) (procBN n v') v (Z.of_nat n).
Proof. intros. apply codec_access; [apply len_be_enc|by apply be_dec_enc_s]. Qed.

Lemma codec_u8 v v' : uint 8 v -> codec (proc_u8 v) (proc_u8 v') v 1.
Proof. apply (codec_BU 1). Qed.
Lemma codec_u16 v v' : uint 16 v -> codec (proc_u16 v) (proc_u16 v') v 2.
Proof. apply (codec_BU 2). Qed.
Lemma codec_u32 v v' : uint 32 v -> codec (proc_u32 v) (proc_u32 v') v 4.
Proof. apply (codec_BU 4). Qed.
Lemma codec_u64 v v' : uint 64 v -> codec (proc_u64 v) (proc_u64 v') v 8.
Proof. apply (codec_BU 8). Qed.
Lemma codec_i8 v v' : sint 8 v -> codec (proc_i8 v) (proc_i8 v') v 1.
Proof. apply (codec_BN 1). lia. Qed.
Lemma codec_i16 v v' : sint 16 v -> codec (proc_i16 v) (proc_i16 v') v 2.
Proof. apply (codec_BN 2). lia. Qed.
Lemma codec_i32 v v' : sint 32 v -> codec (proc_i32 v) (proc_i32 v') v 4.
Proof. apply (codec_BN 4). lia. Qed.
Lemma codec_i64 v v' : sint 64 v -> codec (proc_i64 v) (proc_i64 v') v 8.
Proof. apply (codec_BN 8). lia. Qed.
Lemma codec_Res : codec procRes procRes 0 1.
Proof. apply codec_u8. unfold uint. lia. Qed.
Lemma codec_Float64 v v' : uint 64 v -> codec (proc_Float64 v) (proc_Float64 v') v 8.
Proof. apply codec_u64. Qed.

Lemma codec_Le v v' : uint 64 v -> codec (procLe v) (procLe v') v 8.
Proof.
  intros H. apply codec_access; [apply len_le_enc|].
  rewrite le_dec_enc. change (256 ^ Z.of_nat 8) with (2 ^ 64). by apply Z.mod_small.
Qed.

#[export] Hint Resolve codec_u8 codec_u16 codec_u32 codec_u64 codec_i8 codec_i16
  codec_i32 codec_i64 codec_Res codec_Le codec_Float64 : codec.

Lemma codec_E8 v v' : uint 8 v -> codec (procE8 v) (procE8 v') v 1.
Proof.
  intros H. unfold procE8. apply codec_ask.
  eapply codec_len; [eapply (codec_bind _ _ _ _ v)|].
  - rewrite uwrap_small by done. by apply codec_u8.
  - apply codec_ret.
  - lia.
Qed.

Lemma codec_E16 v v' : uint 16 v -> codec (procE16 v) (procE16 v') v 2.
Proof.
  intros H. unfold procE16. apply codec_ask.
  eapply codec_len; [eapply (codec_bind _ _ _ _ v)|].
  - rewrite uwrap_small by done. by apply codec_u16.
  - apply codec_ret.
  - lia.
Qed.

(** An early room check for all the octets of a program. *)
Lemma codec_room {A} n (f g : M A) a :
  codec f g a n -> codec (room n ;;; f) (room n ;;; g) a n.
Proof.
  intros (bs & E & C & L). exists bs. split; [|split; [|done]].
  - intros s Hs Hb. unfold bind, room. destruct (E s Hs Hb) as [P S]. split; intros.
    + destruct (Z.ltb_spec (m_left s) n); [lia|]. by apply P.
    + destruct (Z.ltb_spec (m_left s) n); [by eauto|lia].
  - intros s Hs Hb Hat Hl. unfold bind, room.
    destruct (Z.ltb_spec (m_left s) n); [lia|]. by apply C.
Qed.

Lemma land_ones32 v : Z.land v 0xffffffff = v mod 2 ^ 32.
Proof. change 0xffffffff with (Z.ones 32). by apply Z.land_ones. Qed.
Lemma land_ones16 v : Z.land v 0xffff = v mod 2 ^ 16.
Proof. change 0xffff with (Z.ones 16). by apply Z.land_ones. Qed.
Lemma land_ones15 v : Z.land v 0x7fff = v mod 2 ^ 15.
Proof. change 0x7fff with (Z.ones 15). by apply Z.land_ones. Qed.

(** Two halves put together with or are their sum. *)
Lemma lor_shiftl_add k a b : 0 <= k -> 0 <= a < 2 ^ k -> Z.lor a (Z.shiftl b k) = a + b * 2 ^ k.
Proof.
  intros Hk Ha. rewrite <- Z.shiftl_mul_pow2 by done.
  rewrite <- (Z.add_lor_land a), <- (Z.add_0_r (Z.lor _ _)) at 1. f_equal.
  symmetry. apply Z.bits_inj'. intros i Hi.
  rewrite Z.land_spec, Z.bits_0, Z.shiftl_spec by done.
  destruct (decide (i < k)).
  - by rewrite (Z.testbit_neg_r b) by lia; rewrite andb_false_r.
  - destruct (decide (a = 0)) as [->|]; [by rewrite Z.testbit_0_l|].
    rewrite (Z.bits_above_log2 a i); [done|lia|].
    apply Z.log2_lt_pow2; [lia|]. apply Z.lt_le_trans with (2 ^ k); [lia|].
    apply Z.pow_le_mono_r; lia.
Qed.

Lemma split48 v :
  uint 48 v -> v mod 2 ^ 32 + (v / 2 ^ 32) mod 2 ^ 16 * 2 ^ 32 = v.
Proof.
  intros [? ?]. rewrite (Z.mod_small (v / 2 ^ 32)).
  - pose proof (Z.div_mod v (2 ^ 32)). lia.
  - split; [apply Z.div_pos; lia|]. apply Z.div_lt_upper_bound; lia.
Qed.

Lemma codec_48u v v' : uint 48 v -> codec (proc48u v) (proc48u v') v 6.
Proof.
  intros H. unfold proc48u. apply codec_ask, codec_room. cbn [andb].
  destruct (Z.ltb_spec UINT48_MAX v); [destruct H; unfold UINT48_MAX in *; lia|].
  rewrite land_ones16, land_ones32, Z.shiftr_div_pow2 by lia.
  eapply codec_len; [eapply codec_bind; [|eapply codec_bind]|].
  - apply codec_u16. apply Z.mod_pos_bound. lia.
  - apply codec_u32. apply Z.mod_pos_bound. lia.
  - rewrite lor_shiftl_add by (try lia; apply Z.mod_pos_bound; lia).
    rewrite split48 by done. apply codec_ret.
  - lia.
Qed.

Lemma codec_octets v v' n : len v = n -> codec (proc_octets v n) (proc_octets v' n) v n.
Proof. intros. by apply codec_access. Qed.

Lemma codec_string str str' n :
  uint 16 (len str) ->
  codec (proc_string str n) (proc_string str' (len str)) str (len str).
Proof.
  intros H. destruct (codec_access (len str) (take (Z.to_nat (len str))) (fun bs => bs)
    (take (Z.to_nat (len str))) (fun bs => bs) str str') as (bs & E & C & L).
  - rewrite to_nat_len. by rewrite firstn_all.
  - rewrite to_nat_len. by rewrite firstn_all.
  - exists bs. split; [|split; [|done]]; intros s Hs Hb; unfold proc_string; rewrite Hb.
    + rewrite uwrap_small by done. by apply E.
    + by apply C.
Qed.

Lemma codec_binary bin bin' n :
  uint 16 (len bin) ->
  codec (proc_binary bin n) (proc_binary bin' (len bin)) bin (len bin).
Proof.
  intros H. destruct (codec_access (len bin) (fun b : list byte => b) (fun bs => bs)
    (fun b => b) (fun bs => bs) bin bin') as (bs & E & C & L); [done|done|].
  exists bs. split; [|split; [|done]]; intros s Hs Hb; unfold proc_binary; rewrite Hb.
  - rewrite uwrap_small by done. by apply E.
  - by apply C.
Qed.

Lemma normFlags_uint mask fl : uint 8 fl -> uint 8 mask -> uint 8 (normFlags mask fl).
Proof.
  unfold normFlags. intros H1 H2. destruct (Z.ltb_spec 1 mask).
  - destruct H1, H2. split; [apply Z.land_nonneg; lia|].
    destruct (decide (Z.land fl mask = 0)) as [->|]; [lia|].
    apply Z.log2_lt_cancel. eapply Z.le_lt_trans; [apply Z.log2_land; lia|].
    assert (Z.log2 mask < 8) by (apply Z.log2_lt_pow2; lia).
    change (Z.log2 (2 ^ 8)) with 8. lia.
  - destruct (0 <? fl); unfold uint in *; lia.
Qed.

Lemma normFlags_idemp mask fl : normFlags mask (normFlags mask fl) = normFlags mask fl.
Proof.
  unfold normFlags. destruct (Z.ltb_spec 1 mask).
  - by rewrite <- Z.land_assoc, Z.land_diag.
  - destruct (Z.ltb_spec 0 fl); [done|]. destruct (Z.ltb_spec 0 fl); [lia|done].
Qed.

Lemma codec_Flags fl fl' mask :
  uint 8 fl -> uint 8 mask ->
  codec (procFlags fl mask) (procFlags fl' mask) (normFlags mask fl) 1.
Proof.
  intros. unfold procFlags. apply codec_ask. apply codec_u8. by apply normFlags_uint.
Qed.

#[export] Hint Resolve codec_E8 codec_E16 codec_48u codec_octets : codec.
#[export] Hint Extern 2 (codec (procFlags _ _) _ _ _) =>
  apply codec_Flags; [eassumption|vm_compute; intuition discriminate] : codec.

(** ** The primitives, parsing *)

Lemma reads_BU n v v' : reads (Z.of_nat n) (procBU n v) (procBU n v').
Proof. apply reads_access. lia. Qed.
Lemma reads_BN n v v' : reads (Z.of_nat n) (procBN n v) (procBN n v').
Proof. apply reads_access. lia. Qed.
Lemma reads_u8 v v' : reads 1 (proc_u8 v) (proc_u8 v').
Proof. apply (reads_BU 1). Qed.
Lemma reads_u16 v v' : reads 2 (proc_u16 v) (proc_u16 v').
Proof. apply (reads_BU 2). Qed.
Lemma reads_u32 v v' : reads 4 (proc_u32 v) (proc_u32 v').
Proof. apply (reads_BU 4). Qed.
Lemma reads_u64 v v' : reads 8 (proc_u64 v) (proc_u64 v').
Proof. apply (reads_BU 8). Qed.
Lemma reads_i8 v v' : reads 1 (proc_i8 v) (proc_i8 v').
Proof. apply (reads_BN 1). Qed.
Lemma reads_i16 v v' : reads 2 (proc_i16 v) (proc_i16 v').
Proof. apply (reads_BN 2). Qed.
Lemma reads_i32 v v' : reads 4 (proc_i32 v) (proc_i32 v').
Proof. apply (reads_BN 4). Qed.
Lemma reads_i64 v v' : reads 8 (proc_i64 v) (proc_i64 v').
Proof. apply (reads_BN 8). Qed.
Lemma reads_Res : reads 1 procRes procRes.
Proof. apply reads_u8. Qed.
Lemma reads_Float64 v v' : reads 8 (proc_Float64 v) (proc_Float64 v').
Proof. apply reads_u64. Qed.
Lemma reads_Le v v' : reads 8 (procLe v) (procLe v').
Proof. apply reads_access. lia. Qed.
Lemma reads_room n : reads 0 (room n) (room n).
Proof.
  intros s Hs Hb. split; [done|]. unfold room.
  destruct (m_left s <? n); eauto using follows_refl.
  split; [done|]. split; [apply follows_refl|lia].
Qed.
Lemma reads_octets v v' n : 0 <= n -> reads n (proc_octets v n) (proc_octets v' n).
Proof. apply reads_access. Qed.
Lemma reads_string str str' n : 0 <= n -> reads 0 (proc_string str n) (proc_string str' n).
Proof.
  intros Hn s Hs Hb. unfold proc_string. rewrite Hb.
  by apply (reads_weaken _ _ n 0); [apply reads_access|..].
Qed.
Lemma reads_binary bin bin' n : 0 <= n -> reads 0 (proc_binary bin n) (proc_binary bin' n).
Proof.
  intros Hn s Hs Hb. unfold proc_binary. rewrite Hb.
  by apply (reads_weaken _ _ n 0); [apply reads_access|..].
Qed.

#[export] Hint Resolve reads_u8 reads_u16 reads_u32 reads_u64 reads_i8 reads_i16
  reads_i32 reads_i64 reads_Res reads_Le reads_Float64 reads_room : reads.
#[export] Hint Extern 2 (reads _ (proc_octets _ _) _) => apply reads_octets; done : reads.

Lemma reads_E8 v v' : reads 1 (procE8 v) (procE8 v').
Proof. unfold procE8. eapply reads_weaken; [reads_auto|lia]. Qed.
Lemma reads_E16 v v' : reads 2 (procE16 v) (procE16 v').
Proof. unfold procE16. eapply reads_weaken; [reads_auto|lia]. Qed.
Lemma reads_48u v v' : reads 6 (proc48u v) (proc48u v').
Proof. unfold proc48u. eapply reads_weaken; [reads_auto|lia]. Qed.
Lemma reads_48i v v' : reads 6 (proc48i v) (proc48i v').
Proof. unfold proc48i. eapply reads_weaken; [reads_auto|lia]. Qed.
Lemma reads_Flags fl fl' mask : reads 1 (procFlags fl mask) (procFlags fl' mask).
Proof. unfold procFlags. eapply reads_weaken; [reads_auto|]. apply reads_u8. lia. Qed.

#[export] Hint Resolve reads_E8 reads_E16 reads_48u reads_48i reads_Flags : reads.
