(* ===== verification/Bin.v ===== *)
(** * Bin.v: class Binary

    [src/src/bin.cpp]: an octet string in an allocated buffer.  The model keeps
    the whole allocation, because the octets after the length are visible again
    when the length grows; a null buffer is an allocation of no octets.
    Allocations do not fail.  The conversions to and from IP addresses, which are
    those of the C library, are not modelled. *)

From S2P Require Import Prelude CStr Types Codec.

Definition min_alloc_size : Z := Z.shiftl 1 5.
Definition EUI48 : Z := 6.
Definition EUI64 : Z := 8.

Record Binary := mk_Binary { m_buf : list byte; m_size : Z }.

Definition m_alloc (b : Binary) : Z := len (m_buf b).

(** The octets of the string. *)
Definition octets (b : Binary) : list byte := take (Z.to_nat (m_size b)) (m_buf b).

Definition zeros (n : Z) : list byte := replicate (Z.to_nat n) x00.

(** ** Memory *)

Definition alloc_size (l_alloc : Z) : Z :=
  if l_alloc <=? min_alloc_size then min_alloc_size
  else l_alloc + (min_alloc_size - Z.land (l_alloc - 1) (min_alloc_size - 1) - 1).

Definition iResize (l_alloc : Z) (b : Binary) : Binary :=
  if (l_alloc <=? m_alloc b) && negb (m_alloc b =? 0) then b
  else mk_Binary (octets b ++ zeros (alloc_size l_alloc - m_size b)) (m_size b).

(** [memcpy(m_buf + off, bs)] and [memset(m_buf + off, 0, ...)] to the end. *)
Definition write (off : Z) (bs : list byte) (b : Binary) : list byte := splice (m_buf b) off bs.
Definition wipe (off : Z) (b : Binary) : list byte :=
  take (Z.to_nat off) (m_buf b) ++ zeros (m_alloc b - off).

(** ** Constructors and assignment *)

Definition Binary_null : Binary := mk_Binary [] 0.
Definition Binary_new : Binary := iResize 1 Binary_null.

(** [setBin(buf, length)]; the octets are those at [buf]. *)
Definition setBin (bs : list byte) (b : Binary) : Binary :=
  if len bs =? 0 then mk_Binary (m_buf b) 0
  else let b := iResize (len bs) b in mk_Binary (write 0 bs b) (len bs).

Definition Binary_of (bs : list byte) : Binary := iResize 1 (setBin bs Binary_null).
Definition Binary_copy (rhs : Binary) : Binary := iResize 1 (setBin (octets rhs) Binary_null).
(** [Binary(length, set)]. *)
Definition Binary_fill (length : Z) (set : byte) : Binary :=
  if length =? 0 then Binary_null
  else let b := iResize length Binary_null in
       mk_Binary (write 0 (repeat set (Z.to_nat length)) b) length.
Definition assign (rhs b : Binary) : Binary := setBin (octets rhs) b.

(** [mvBin]: the object and the one moved from. *)
Definition mvBin (rhs b : Binary) : Binary * Binary := (rhs, Binary_null).

(** [clear] and [setBin(string)]. *)
Definition clear (b : Binary) : Binary := mk_Binary (zeros (m_alloc b)) 0.
Definition setBin_string (str : list byte) (b : Binary) : Binary :=
  match str with [] => clear b | _ => setBin str b end.

(** ** Access *)

Definition setBin_at (position : Z) (value : byte) (b : Binary) : Binary :=
  let b := iResize (position + 1) b in
  mk_Binary (write position [value] b) (Z.max (m_size b) (position + 1)).

Definition getBin (position : Z) (b : Binary) : byte :=
  if m_size b <=? position then x00 else nth (Z.to_nat position) (m_buf b) x00.

(** [operator[]]: the octet that the reference stands for, and the object. *)
Definition index (position : Z) (b : Binary) : byte * Binary :=
  let b := iResize (position + 1) b in
  (nth (Z.to_nat position) (m_buf b) x00,
   mk_Binary (m_buf b) (Z.max (m_size b) (position + 1))).

Definition resize (length : Z) (b : Binary) : Binary :=
  if length =? 0 then clear b
  else
    let b := iResize length b in
    mk_Binary (if length <? m_alloc b then wipe length b else m_buf b) length.

Definition append (octet : byte) (b : Binary) : Binary :=
  let b := iResize (m_size b + 1) b in
  mk_Binary (write (m_size b) [octet] b) (m_size b + 1).
Definition append_bin (rhs b : Binary) : Binary :=
  if 0 <? m_size rhs then
    let b := iResize (m_size b + m_size rhs) b in
    mk_Binary (write (m_size b) (octets rhs) b) (m_size b + m_size rhs)
  else b.

(** [copy] writes the octets to the target. *)
Definition copy (b : Binary) : list byte := octets b.

Definition isMacLen (b : Binary) : bool := (m_size b =? EUI48) || (m_size b =? EUI64).

Definition eui48ToEui64 (b : Binary) : bool * Binary :=
  if m_size b =? EUI64 then (true, b)
  else if negb (m_size b =? EUI48) then (false, b)
  else
    let b := iResize EUI64 b in
    let at_ i buf := nth i buf x00 in
    let m := m_buf b in
    let m := <[7%nat := at_ 5%nat m]> m in
    let m := <[6%nat := at_ 4%nat m]> m in
    let m := <[5%nat := at_ 3%nat m]> m in
    let m := <[4%nat := xfe]> m in
    let m := <[3%nat := xff]> m in
    (true, mk_Binary m (m_size b + 2)).

(** ** Identifiers and hexadecimal *)

Definition idsep : list byte := bytes ":.-".

Definition parseByte (cur : list byte) (id : Binary) : option Binary :=
  let '(a, rest) := strtol 16 cur in
  if bool_decide (rest = cur) || negb (bool_decide (rest = [])) || (a <? 0) || (0xff <? a)
  then None else Some (append (z2b a) id).

(** [snprintf("%02x")]. *)
Definition hex_digit (v : Z) : byte := nth (Z.to_nat v) (bytes "0123456789abcdef") x00.
Definition hex_octet (o : byte) : list byte :=
  [hex_digit (b2z o / 16); hex_digit (b2z o mod 16)].

Fixpoint bufToHex (bin : list byte) : list byte :=
  match bin with [] => [] | o :: bin => hex_octet o ++ bufToHex bin end.
Definition toHex (b : Binary) : list byte := bufToHex (octets b).

Fixpoint bufToId_more (sep id : list byte) : list byte :=
  match id with [] => [] | o :: id => sep ++ hex_octet o ++ bufToId_more sep id end.
Definition bufToId (sep id : list byte) : list byte :=
  match id with [] => [] | o :: id => hex_octet o ++ bufToId_more sep id end.
Definition toId (sep : list byte) (b : Binary) : list byte := bufToId sep (octets b).

Fixpoint parse_tokens (f : list byte -> Binary -> option Binary) (l : list (list byte))
    (id : Binary) : option Binary :=
  match l with [] => Some id | t :: l => id ← f t id; parse_tokens f l id end.

Definition fromId (str : list byte) (b : Binary) : bool * Binary :=
  if len str <? 2 then (false, b)
  else match parse_tokens parseByte (tokens idsep (cstr str)) Binary_new with
       | None => (false, b)
       | Some id => (true, assign id b)
       end.
Definition fromMac (str : list byte) (b : Binary) : bool * Binary :=
  let '(r, b) := fromId str b in (r && isMacLen b, b).

(** The octets of one token: pairs of digits, and a last single one. *)
Fixpoint hex_token (t : list byte) (id : Binary) : option Binary :=
  match t with
  | [] => Some id
  | [a] => parseByte [a] id
  | a :: b :: t => id ← parseByte [a; b] id; hex_token t id
  end.
Definition fromHex (hex : list byte) (b : Binary) : bool * Binary :=
  match hex with
  | [] => (false, b)
  | _ => match parse_tokens hex_token (tokens idsep (cstr hex)) Binary_new with
         | None => (false, b)
         | Some id => (true, assign id b)
         end
  end.

(** ** Base 64 *)

Definition toB64 : list byte :=
  bytes "ABCDEFGHIJKLMNOPQRSTUVWXYZabcdefghijklmnopqrstuvwxyz0123456789".
Definition B64 : list Z :=
  [62; 73; 82; -1; 63; 52; 53; 54; 55; 56; 57; 58; 59; 60; 61;
   -1; -1; -1; -1; -1; -1; -1; 0; 1; 2; 3; 4; 5; 6; 7; 8; 9; 10; 11; 12; 13;
   14; 15; 16; 17; 18; 19; 20; 21; 22; 23; 24; 25; -1; -1; -1; -1; 83; -1;
   26; 27; 28; 29; 30; 31; 32; 33; 34; 35; 36; 37; 38; 39; 40; 41; 42; 43;
   44; 45; 46; 47; 48; 49; 50; 51].

(** The alphabets seen so far. *)
Definition URL : Z := 0x1.
Definition BOTH : Z := 0x2.
Definition STAND : Z := 0x4.
Definition IMAP : Z := 0x8.

(** [parseB64]: the six bits and the alphabets.  [char] is signed: the octets
    above 0x7f are smaller than '+'. *)
Definition parseB64 (c : byte) (safe : Z) : option (Z * Z) :=
  let ch := swrap 8 (b2z c) in
  if (ch <? 43) || (122 <? ch) then None
  else
    let r := nth (Z.to_nat (ch - 43)) B64 (-1) in
    let has bits := negb (Z.land safe bits =? 0) in
    if r =? -1 then None
    else if r =? 62 then
      if has URL then None else Some (r, Z.lor safe BOTH)
    else if r =? 63 then
      if has (Z.lor URL IMAP) then None else Some (r, Z.lor BOTH STAND)
    else if r =? 73 then
      if has (Z.lor URL STAND) then None else Some (r - 10, Z.lor BOTH IMAP)
    else if (r =? 82) || (r =? 83) then
      if has BOTH then None else Some (r - 20, URL)
    else Some (r, safe).

Definition join0 (a0 a1 : Z) : byte :=
  z2b (Z.lor (Z.land (Z.shiftl a0 2) 0xfc) (Z.land (Z.shiftr a1 4) 0x03)).
Definition join1 (a1 a2 : Z) : byte :=
  z2b (Z.lor (Z.land (Z.shiftl a1 4) 0xf0) (Z.land (Z.shiftr a2 2) 0x0f)).
Definition join2 (a2 a3 : Z) : byte :=
  z2b (Z.lor (Z.land (Z.shiftl a2 6) 0xc0) (Z.land a3 0x3f)).

(** What follows the loop: one to four characters, first without the padding. *)
Definition strip (n : Z) (cur : list byte) : list byte :=
  if (len cur =? n) && bool_decide (nth (Z.to_nat n - 1) cur x00 = x3d)
  then take (Z.to_nat n - 1) cur else cur.
Definition b64_tail (cur : list byte) (safe : Z) (id : Binary) : option Binary :=
  match cur with
  | c0 :: c1 :: more =>
      '(a0, safe) ← parseB64 c0 safe;
      '(a1, safe) ← parseB64 c1 safe;
      match more with
      | [] => Some (append (join0 a0 a1) id)
      | c2 :: more =>
          '(a2, safe) ← parseB64 c2 safe;
          match more with
          | [] => Some (append (join1 a1 a2) (append (join0 a0 a1) id))
          | c3 :: _ =>
              '(a3, _) ← parseB64 c3 safe;
              Some (append (join2 a2 a3) (append (join1 a1 a2) (append (join0 a0 a1) id)))
          end
      end
  | _ => None
  end.
Definition b64_last (pad : bool) (cur : list byte) (safe : Z) (id : Binary) : option Binary :=
  if (len cur <? 2) || (pad && negb (len cur =? 4)) then None
  else b64_tail (strip 3 (strip 4 cur)) safe id.

Fixpoint b64_loop (pad : bool) (cur : list byte) (safe : Z) (id : Binary) : option Binary :=
  match cur with
  | c0 :: c1 :: c2 :: c3 :: ((_ :: _) as more) =>
      '(a0, safe) ← parseB64 c0 safe;
      '(a1, safe) ← parseB64 c1 safe;
      '(a2, safe) ← parseB64 c2 safe;
      '(a3, safe) ← parseB64 c3 safe;
      b64_loop pad more safe
        (append (join2 a2 a3) (append (join1 a1 a2) (append (join0 a0 a1) id)))
  | _ => b64_last pad cur safe id
  end.

Definition fromBase64 (bin64 : list byte) (pad : bool) (b : Binary) : bool * Binary :=
  match bin64 with
  | [] => (true, clear b)
  | _ => match b64_loop pad bin64 0 Binary_new with
         | None => (false, b)
         | Some id => (true, assign id b)
         end
  end.

Section ToBase64.
Context (pad : bool) (v62 v63 : byte).

Definition b64 (v : Z) : byte := nth (Z.to_nat v) (toB64 ++ [v62; v63]) x00.
Definition split0 (c0 : byte) : Z := Z.land (Z.shiftr (b2z c0) 2) 0x3f.
Definition split1 (c0 c1 : byte) : Z :=
  Z.lor (Z.land (Z.shiftl (Z.land (b2z c0) 0x03) 4) 0x30) (Z.land (Z.shiftr (b2z c1) 4) 0x0f).
Definition split2 (c1 c2 : byte) : Z :=
  Z.lor (Z.land (Z.shiftl (Z.land (b2z c1) 0x0f) 2) 0x3c) (Z.land (Z.shiftr (b2z c2) 6) 0x03).
Definition split3 (c2 : byte) : Z := Z.land (b2z c2) 0x3f.

Fixpoint toBase64_loop (cur : list byte) : list byte :=
  match cur with
  | c0 :: c1 :: c2 :: ((_ :: _) as more) =>
      [b64 (split0 c0); b64 (split1 c0 c1); b64 (split2 c1 c2); b64 (split3 c2)] ++
      toBase64_loop more
  | [c0; c1; c2] =>
      [b64 (split0 c0); b64 (split1 c0 c1); b64 (split2 c1 c2); b64 (split3 c2)]
  | [c0; c1] =>
      [b64 (split0 c0); b64 (split1 c0 c1); b64 (split2 c1 x00)] ++ (if pad then bytes "=" else [])
  | [c0] => [b64 (split0 c0); b64 (split1 c0 x00)] ++ (if pad then bytes "==" else [])
  | [] => []
  end.
Definition toBase64 (b : Binary) : list byte :=
  if m_size b =? 0 then [] else toBase64_loop (octets b).
End ToBase64.

(** ** Comparison *)

(** [eq] and [less] compare the octets as in Types.v. *)
Definition eq (rhs b : Binary) : bool := Binary_eq (octets b) (octets rhs).
Definition less (rhs b : Binary) : bool := Binary_less (octets b) (octets rhs).

(** ** The allocation *)

Definition wf_Binary (b : Binary) : Prop := 0 <= m_size b <= m_alloc b /\ m_alloc b mod 32 = 0.

Lemma alloc_size_ge n : 0 <= n -> n <= alloc_size n /\ 0 < alloc_size n /\ alloc_size n mod 32 = 0.
Proof.
  intros H. unfold alloc_size, min_alloc_size. change (Z.shiftl 1 5) with 32.
  destruct (Z.leb_spec n 32); [split; [lia|done]|].
  change (32 - 1) with (Z.ones 5). rewrite Z.land_ones by lia. change (2 ^ 5) with 32.
  pose proof (Z.mod_pos_bound (n - 1) 32 ltac:(lia)).
  pose proof (Z.div_mod (n - 1) 32 ltac:(lia)).
  split; [lia|]. split; [lia|].
  replace (n + (32 - (n - 1) mod 32 - 1)) with ((((n - 1) / 32) + 1) * 32) by lia.
  by apply Z.mod_mul.
Qed.

Lemma len_zeros n : 0 <= n -> len (zeros n) = n.
Proof. intros. unfold len, zeros. rewrite length_replicate. lia. Qed.

Lemma len_octets b : wf_Binary b -> len (octets b) = m_size b.
Proof. intros [H _]. unfold octets, m_alloc, len in *. rewrite length_take. lia. Qed.

(** [iResize] keeps the octets; the rest is new and zero, or as it was. *)
Lemma iResize_spec n b :
  wf_Binary b -> 0 <= n ->
  let b' := iResize n b in
  wf_Binary b' /\ n <= m_alloc b' /\ 0 < m_alloc b' /\ m_size b' = m_size b /\
  octets b' = octets b.
Proof.
  intros W Hn. pose proof (len_octets b W) as L. destruct W as [Hs Ha]. cbv zeta. unfold iResize.
  destruct ((n <=? m_alloc b) && negb (m_alloc b =? 0)) eqn:E.
  { split; [done|]. split; [lia|]. split; [lia|done]. }
  destruct (alloc_size_ge n Hn) as (A1 & A2 & A3).
  assert (m_size b <= alloc_size n) as Hle.
  { destruct (Z.eqb_spec (m_alloc b) 0); [lia|]. destruct (Z.leb_spec n (m_alloc b)); [done|lia]. }
  set (b' := mk_Binary _ _). assert (m_alloc b' = alloc_size n) as Ea.
  { unfold b', m_alloc; cbn [m_buf]. rewrite len_app, L, len_zeros by lia. lia. }
  unfold wf_Binary. rewrite Ea. change (m_size b') with (m_size b).
  split; [split; [lia|done]|]. split; [done|]. split; [done|]. split; [done|].
  unfold octets at 1; cbn [m_buf m_size b']. rewrite take_app_length'; [done|].
  unfold len in L. lia.
Qed.

Lemma take_splice_end buf off bs :
  0 <= off -> off + len bs <= len buf ->
  take (Z.to_nat (off + len bs)) (splice buf off bs) = take (Z.to_nat off) buf ++ bs.
Proof.
  intros H0 H. unfold splice. rewrite app_assoc, take_app_length'; [done|].
  rewrite length_app, length_take. unfold len in *. lia.
Qed.
Lemma drop_splice_end buf off bs :
  0 <= off -> off + len bs <= len buf ->
  drop (Z.to_nat (off + len bs)) (splice buf off bs) = drop (Z.to_nat (off + len bs)) buf.
Proof.
  intros H0 H. unfold splice. rewrite app_assoc, drop_app_length'; [done|].
  rewrite length_app, length_take. unfold len in *. lia.
Qed.

(** Writing [bs] at [off], which becomes the end of the string. *)
Lemma write_end off bs b :
  wf_Binary b -> 0 <= off -> off + len bs <= m_alloc b ->
  let b' := mk_Binary (write off bs b) (off + len bs) in
  wf_Binary b' /\ octets b' = take (Z.to_nat off) (m_buf b) ++ bs.
Proof.
  intros [_ Ha] H0 H. pose proof (len_nonneg bs). cbv zeta. unfold wf_Binary, octets, m_alloc, write in *.
  cbn [m_buf m_size]. rewrite len_splice by done. split; [split; [lia|done]|].
  by apply take_splice_end.
Qed.

Lemma setBin_spec bs b :
  wf_Binary b -> wf_Binary (setBin bs b) /\ octets (setBin bs b) = bs.
Proof.
  intros W. unfold setBin. destruct (Z.eqb_spec (len bs) 0) as [E|].
  { destruct W as [[] ?]. split; [unfold wf_Binary, m_alloc in *; cbn [m_buf m_size]; split; [lia|done]|].
    destruct bs; [done|]. rewrite len_cons in E. pose proof (len_nonneg bs). lia. }
  destruct (iResize_spec (len bs) b W (len_nonneg bs)) as (W' & H & _).
  destruct (write_end 0 bs (iResize (len bs) b)) as [A B]; [done|lia|lia|].
  rewrite Z.add_0_l in A, B. split; [done|]. by rewrite B.
Qed.

Lemma append_spec o b :
  wf_Binary b -> wf_Binary (append o b) /\ octets (append o b) = octets b ++ [o].
Proof.
  intros W. pose proof W as [[] _]. unfold append.
  destruct (iResize_spec (m_size b + 1) b W ltac:(lia)) as (W' & Hr & _ & Es & Eo).
  rewrite Es.
  destruct (write_end (m_size b) [o] (iResize (m_size b + 1) b) W' ltac:(lia) Hr) as [A B].
  change (len [o]) with 1 in A, B. split; [done|]. rewrite B, <- Eo. unfold octets.
  by rewrite Es.
Qed.

Lemma append_bin_spec rhs b :
  wf_Binary b -> wf_Binary rhs ->
  wf_Binary (append_bin rhs b) /\ octets (append_bin rhs b) = octets b ++ octets rhs.
Proof.
  intros W Wr. pose proof W as [[] _]. pose proof Wr as [[] _]. unfold append_bin.
  pose proof (len_octets rhs Wr) as Lr. destruct (Z.ltb_spec 0 (m_size rhs)); cycle 1.
  { split; [done|]. unfold octets at 3. replace (m_size rhs) with 0 by lia. by rewrite take_0, app_nil_r. }
  rewrite <- Lr.
  destruct (iResize_spec (m_size b + len (octets rhs)) b W ltac:(lia)) as (W' & Hr & _ & Es & Eo).
  rewrite Es.
  destruct (write_end (m_size b) (octets rhs) _ W' ltac:(lia) Hr) as [A B].
  split; [done|]. rewrite B. f_equal. rewrite <- Eo. unfold octets at 2. by rewrite Es.
Qed.

Lemma clear_spec b : wf_Binary b -> wf_Binary (clear b) /\ octets (clear b) = [].
Proof.
  intros [[] Ha]. unfold wf_Binary, clear, m_alloc; cbn [m_buf m_size].
  rewrite len_zeros by (unfold m_alloc in *; lia). unfold m_alloc in *. split; [split; [lia|done]|done].
Qed.

Lemma getBin_spec i b :
  wf_Binary b -> 0 <= i -> getBin i b = nth (Z.to_nat i) (octets b) x00.
Proof.
  intros W Hi. pose proof (len_octets b W) as L. unfold getBin. destruct (Z.leb_spec (m_size b) i).
  - rewrite nth_overflow; [done|]. unfold len in L. lia.
  - unfold octets. rewrite <- (firstn_skipn (Z.to_nat (m_size b)) (m_buf b)) at 1.
    rewrite app_nth1; [done|]. unfold octets, len in L. lia.
Qed.

Lemma Binary_new_spec : wf_Binary Binary_new /\ octets Binary_new = [].
Proof. split; [|done]. split; vm_compute; intuition discriminate. Qed.

(** ** Octets after the length *)

(** The allocation after the octets is zero.  Every operation keeps it so, but
    for [setBin] and [eui48ToEui64], which leave what was there. *)
Definition clean (b : Binary) : Prop :=
  drop (Z.to_nat (m_size b)) (m_buf b) = zeros (m_alloc b - m_size b).

Lemma drop_zeros n k : 0 <= n -> drop (Z.to_nat n) (zeros k) = zeros (k - n).
Proof. intros. unfold zeros. rewrite drop_replicate. f_equal. lia. Qed.
Lemma take_zeros n k : 0 <= n <= k -> take (Z.to_nat n) (zeros k) = zeros n.
Proof. intros. unfold zeros. rewrite take_replicate. f_equal. lia. Qed.
Lemma zeros_app n k : 0 <= n -> 0 <= k -> zeros n ++ zeros k = zeros (n + k).
Proof. intros. unfold zeros. rewrite <- replicate_add. f_equal. lia. Qed.

Lemma clean_buf b : wf_Binary b -> clean b -> m_buf b = octets b ++ zeros (m_alloc b - m_size b).
Proof. intros W C. unfold octets. by rewrite <- C, take_drop. Qed.

Lemma clean_intro buf n k :
  0 <= n <= len buf -> buf = take (Z.to_nat n) buf ++ zeros k -> clean (mk_Binary buf n).
Proof.
  intros H E. unfold clean, m_alloc; cbn [m_buf m_size].
  pose proof (f_equal (drop (Z.to_nat n)) E) as D.
  rewrite drop_app_length' in D by (rewrite length_take; unfold len in H; lia). rewrite D.
  pose proof (f_equal (@length byte) D) as L. rewrite length_drop in L. unfold zeros in *.
  rewrite length_replicate in L. f_equal. unfold len. lia.
Qed.

Lemma iResize_clean n b : wf_Binary b -> 0 <= n -> clean b -> clean (iResize n b).
Proof.
  intros W Hn C. pose proof (iResize_spec n b W Hn) as ((Hw & _) & _). revert Hw. unfold iResize.
  destruct (_ && _); [done|]. intros Hw.
  apply clean_intro with (alloc_size n - m_size b); [exact Hw|].
  rewrite take_app_length'; [done|]. pose proof (len_octets b W). destruct W. unfold len in *. lia.
Qed.

(** With a clean allocation, the operations are those on lists. *)
Definition list_resize (n : Z) (l : list byte) : list byte :=
  take (Z.to_nat n) l ++ zeros (n - len l).
Definition list_set (i : Z) (v : byte) (l : list byte) : list byte :=
  if i <? len l then <[Z.to_nat i := v]> l else l ++ zeros (i - len l) ++ [v].

(** The first [n] octets of a clean allocation. *)
Lemma take_clean n b :
  wf_Binary b -> clean b -> 0 <= n <= m_alloc b ->
  take (Z.to_nat n) (m_buf b) = list_resize n (octets b).
Proof.
  intros W C H. rewrite (clean_buf b W C) at 1. pose proof (len_octets b W) as L.
  unfold list_resize. rewrite L, take_app. f_equal. destruct W as [[] _].
  replace (length (octets b)) with (Z.to_nat (m_size b)) by (unfold len in L; lia).
  destruct (Z.le_gt_cases n (m_size b)).
  - replace (Z.to_nat n - Z.to_nat (m_size b))%nat with 0%nat by lia. unfold zeros.
    replace (Z.to_nat (n - m_size b)) with 0%nat by lia. done.
  - replace (Z.to_nat n - Z.to_nat (m_size b))%nat with (Z.to_nat (n - m_size b)) by lia.
    apply take_zeros. lia.
Qed.

Lemma resize_spec n b :
  wf_Binary b -> clean b -> 0 <= n ->
  wf_Binary (resize n b) /\ clean (resize n b) /\ octets (resize n b) = list_resize n (octets b).
Proof.
  intros W C Hn. unfold resize. destruct (Z.eqb_spec n 0) as [->|].
  { destruct (clear_spec b W) as [Wc Ec]. split; [done|]. split.
    - unfold clean, clear, m_alloc; cbn [m_buf m_size]. rewrite len_zeros; [|apply len_nonneg].
      by rewrite drop_0, Z.sub_0_r.
    - unfold list_resize. rewrite Ec, take_0. unfold zeros.
      replace (Z.to_nat (0 - len (octets b))) with 0%nat; [done|]. pose proof (len_nonneg (octets b)). lia. }
  destruct (iResize_spec n b W Hn) as (W' & Hr & _ & Es & Eo).
  pose proof (iResize_clean n b W Hn C) as C'. set (b' := iResize n b) in *.
  pose proof (take_clean n b' W' C' ltac:(lia)) as T. rewrite Eo in T.
  assert (len (take (Z.to_nat n) (m_buf b')) = n) as Lt
    by (unfold m_alloc, len in *; rewrite length_take; lia).
  set (m := if n <? m_alloc b' then wipe n b' else m_buf b').
  assert (m = take (Z.to_nat n) (m_buf b') ++ zeros (m_alloc b' - n)) as Em.
  { unfold m, wipe. destruct (Z.ltb_spec n (m_alloc b')); [done|].
    replace (m_alloc b' - n) with 0 by lia. unfold zeros. cbn. rewrite app_nil_r.
    rewrite take_ge; [done|]. unfold m_alloc, len in *. lia. }
  assert (len m = m_alloc b') as Lm by (rewrite Em, len_app, Lt, len_zeros; lia).
  assert (take (Z.to_nat n) m = take (Z.to_nat n) (m_buf b')) as Tm.
  { rewrite Em. apply take_app_length'. unfold len in Lt. lia. }
  split; [|split].
  - destruct W' as [_ Ha]. unfold wf_Binary, m_alloc at 1 2; cbn [m_buf m_size]. rewrite Lm. by split.
  - apply clean_intro with (m_alloc b' - n); [lia|]. by rewrite Tm.
  - unfold octets; cbn [m_buf m_size]. by rewrite Tm.
Qed.

Lemma append_clean o b : wf_Binary b -> clean b -> clean (append o b).
Proof.
  intros W C. unfold append. pose proof W as [[] _].
  destruct (iResize_spec (m_size b + 1) b W ltac:(lia)) as (W' & Hr & _ & Es & Eo).
  pose proof (iResize_clean (m_size b + 1) b W ltac:(lia) C) as C'.
  set (b' := iResize (m_size b + 1) b) in *. rewrite Es. unfold clean, m_alloc; cbn [m_buf m_size].
  unfold write. change 1 with (len [o]) at 1. rewrite drop_splice_end, len_splice;
    [|change (len [o]) with 1; unfold m_alloc in Hr; lia..].
  change (len [o]) with 1. unfold clean in C'. rewrite Es in C'.
  rewrite Z2Nat.inj_add, <- drop_drop, C', drop_zeros by lia. unfold m_alloc. f_equal. lia.
Qed.

Lemma splice_insert buf i v :
  0 <= i < len buf -> splice buf i [v] = <[Z.to_nat i := v]> buf.
Proof.
  intros H. unfold splice. rewrite insert_take_drop by (unfold len in H; lia).
  change (len [v]) with 1. by replace (Z.to_nat (i + 1)) with (S (Z.to_nat i)) by lia.
Qed.

Lemma setBin_at_spec i v b :
  wf_Binary b -> clean b -> 0 <= i ->
  wf_Binary (setBin_at i v b) /\ octets (setBin_at i v b) = list_set i v (octets b).
Proof.
  intros W C Hi. unfold setBin_at, list_set. rewrite (len_octets b W).
  destruct (iResize_spec (i + 1) b W ltac:(lia)) as (W' & Hr & _ & Es & Eo).
  pose proof (iResize_clean (i + 1) b W ltac:(lia) C) as C'. set (b' := iResize (i + 1) b) in *.
  rewrite Es. pose proof W as [[] _]. pose proof W' as [[] Ha].
  destruct (Z.ltb_spec i (m_size b)).
  - rewrite Z.max_l by lia. unfold write. rewrite splice_insert by (unfold m_alloc in *; lia).
    split.
    + unfold wf_Binary, m_alloc in *; cbn [m_buf m_size].
      assert (len (<[Z.to_nat i:=v]> (m_buf b')) = len (m_buf b')) as ->
        by (unfold len; by rewrite length_insert). split; [lia|done].
    + unfold octets at 1; cbn [m_buf m_size]. rewrite take_insert_lt by lia. f_equal.
      rewrite <- Eo. unfold octets. by rewrite Es.
  - rewrite Z.max_r by lia.
    destruct (write_end i [v] b' W' Hi) as [A B]; [change (len [v]) with 1; lia|].
    change (len [v]) with 1 in A, B. split; [done|]. rewrite B.
    rewrite (take_clean i b' W' C') by lia. unfold list_resize. rewrite Eo, (len_octets b W).
    rewrite take_ge; [by rewrite <- app_assoc|].
    pose proof (len_octets b W). unfold len in *. lia.
Qed.

(** ** Theorems: the octet string *)

(** [setBin], [append], [clear] and [getBin] are assignment, concatenation,
    the empty string and access with zero outside, whatever the allocation held;
    with an allocation that is zero after the octets, [resize] and the access by
    position that makes a string longer fill with zeros.  All keep the length
    inside the allocation, which is a multiple of 32 octets. *)
Theorem Binary_refines b bs o i v :
  wf_Binary b -> 0 <= i ->
  (wf_Binary (setBin bs b) /\ octets (setBin bs b) = bs) /\
  (wf_Binary (append o b) /\ octets (append o b) = octets b ++ [o]) /\
  (forall rhs, wf_Binary rhs -> wf_Binary (append_bin rhs b) /\
     octets (append_bin rhs b) = octets b ++ octets rhs) /\
  (wf_Binary (clear b) /\ octets (clear b) = []) /\
  getBin i b = nth (Z.to_nat i) (octets b) x00 /\
  (clean b ->
    (wf_Binary (resize i b) /\ clean (resize i b) /\
     octets (resize i b) = list_resize i (octets b)) /\
    (wf_Binary (setBin_at i v b) /\ octets (setBin_at i v b) = list_set i v (octets b)) /\
    clean (append o b)).
Proof.
  intros W Hi. split; [by apply setBin_spec|]. split; [by apply append_spec|].
  split; [intros; by apply append_bin_spec|]. split; [by apply clear_spec|].
  split; [by apply getBin_spec|]. intros C. split; [by apply resize_spec|].
  split; [by apply setBin_at_spec|by apply append_clean].
Qed.

Lemma Binary_refines_witness : octets (append x2a (Binary_of [x01; x02])) = [x01; x02; x2a].
Proof.
  apply (Binary_refines (Binary_of [x01; x02]) [] x2a 0 x00);
    [split; vm_compute; intuition discriminate|lia].
Defined.

(** [setBin] leaves the octets of a longer string after the new one, and they
    come back when the string is made longer by [resize] or by position. *)
Theorem Binary_stale_octets :
  let b := setBin [x01] (Binary_of (bytes "secret")) in
  octets b = [x01] /\
  octets (resize 6 b) = x01 :: bytes "ecret" /\
  octets (setBin_at 4 x02 b) = x01 :: bytes "ecr" ++ [x02].
Proof. by vm_compute. Qed.

(** [eui48ToEui64] makes an EUI-64 of the six octets of an EUI-48 by putting
    ff:fe in its middle, leaves an EUI-64 alone and refuses other lengths. *)
Theorem eui48ToEui64_correct b :
  wf_Binary b ->
  let (r, b') := eui48ToEui64 b in
  r = isMacLen b /\ wf_Binary b' /\
  octets b' = if m_size b =? EUI48
              then take 3 (octets b) ++ [xff; xfe] ++ drop 3 (octets b) else octets b.
Proof.
  intros W. unfold eui48ToEui64, isMacLen, EUI48, EUI64.
  destruct (Z.eqb_spec (m_size b) 8) as [E|]; [by rewrite E|].
  destruct (Z.eqb_spec (m_size b) 6) as [E|]; cbn [negb orb]; [|done].
  destruct (iResize_spec 8 b W ltac:(lia)) as (W' & Hr & _ & Es & Eo).
  set (b' := iResize 8 b) in *. rewrite <- Eo. unfold octets. cbn [m_size m_buf]. rewrite Es, E.
  unfold m_alloc, len in Hr. destruct (m_buf b') as [|o0 [|o1 [|o2 [|o3 [|o4 [|o5 [|o6 [|o7 l]]]]]]]] eqn:B;
    cbn [length] in Hr; try lia.
  split; [done|]. split; [|done]. destruct W' as [_ Ha]. unfold wf_Binary, m_alloc in *.
  rewrite B in Ha. unfold len in *. cbn -[Z.of_nat Z.modulo] in *. split; [lia|exact Ha].
Qed.

Lemma eui48ToEui64_correct_witness :
  octets (snd (eui48ToEui64 (Binary_of [x01; x02; x03; x04; x05; x06]))) =
  [x01; x02; x03; xff; xfe; x04; x05; x06].
Proof.
  apply (eui48ToEui64_correct (Binary_of [x01; x02; x03; x04; x05; x06])).
  split; vm_compute; intuition discriminate.
Defined.

(** ** Text: pairs of hexadecimal digits *)

Definition all_bytes : list byte := map z2b (seqZ 0 256).
Lemma in_all_bytes o : In o all_bytes.
Proof.
  apply in_map_iff. exists (b2z o). split; [apply z2b_b2z|].
  apply list_elem_of_In, elem_of_seqZ. apply b2z_range.
Qed.
Lemma byte_check (P : byte -> bool) : forallb P all_bytes = true -> forall o, P o = true.
Proof. intros H o. by apply (proj1 (forallb_forall P all_bytes) H), in_all_bytes. Qed.
Lemma byte_check2 (P : byte -> byte -> bool) :
  forallb (fun a => forallb (P a) all_bytes) all_bytes = true -> forall a b, P a b = true.
Proof. intros H a. apply byte_check. by apply (byte_check _ H a). Qed.

Definition append_all (l : list byte) (id : Binary) : Binary :=
  fold_left (fun id o => append o id) l id.

Lemma append_all_spec l id :
  wf_Binary id -> wf_Binary (append_all l id) /\ octets (append_all l id) = octets id ++ l.
Proof.
  revert id. induction l as [|o l IH]; intros id W; [by rewrite app_nil_r|].
  change (append_all (o :: l) id) with (append_all l (append o id)).
  destruct (append_spec o id W) as [W' E]. destruct (IH (append o id) W') as [W'' E'].
  split; [done|]. by rewrite E', E, <- app_assoc.
Qed.

(** Assigning what was collected from nothing. *)
Lemma assign_collected l b :
  wf_Binary b -> octets (assign (append_all l Binary_new) b) = l.
Proof.
  intros W. destruct Binary_new_spec as [Wn En].
  destruct (append_all_spec l Binary_new Wn) as [_ E]. rewrite En in E.
  unfold assign. rewrite E. by apply setBin_spec.
Qed.

Lemma parse_hex_octet o id : parseByte (hex_octet o) id = Some (append o id).
Proof.
  assert (strtol 16 (hex_octet o) = (b2z o, [])) as E.
  { apply (bool_decide_eq_true_1 (strtol 16 (hex_octet o) = (b2z o, []))).
    revert o. apply byte_check. vm_compute. reflexivity. }
  unfold parseByte. rewrite E. pose proof (b2z_range o).
  rewrite bool_decide_eq_false_2 by done. rewrite bool_decide_eq_true_2 by done.
  destruct (Z.ltb_spec (b2z o) 0); [lia|]. destruct (Z.ltb_spec 255 (b2z o)); [lia|].
  cbn. by rewrite z2b_b2z.
Qed.

(** Not a separator and not the end of the string. *)
Definition plain (c : byte) : Prop := is_sep idsep c = false /\ c <> x00.

Lemma hex_octet_plain o : Forall plain (hex_octet o).
Proof.
  assert (forall o, (fun o => forallb (fun c => negb (is_sep idsep c) && negb (bool_decide (c = x00)))
    (hex_octet o)) o = true) as F by (apply byte_check; vm_compute; reflexivity).
  specialize (F o). cbv beta in F. apply Forall_forall. intros c Hc%list_elem_of_In.
  apply (proj1 (forallb_forall _ _) F) in Hc. apply andb_prop in Hc as [H1 H2].
  split; [by apply negb_true_iff|]. apply negb_true_iff, bool_decide_eq_false in H2. done.
Qed.

Lemma cstr_no_nul s : Forall (fun c => c <> x00) s -> cstr s = s.
Proof.
  induction 1 as [|c s Hc _ IH]; [done|]. cbn. by rewrite bool_decide_eq_false_2, IH.
Qed.

Lemma tokens_skip sep s r : Forall (fun c => is_sep sep c = true) s -> tokens sep (s ++ r) = tokens sep r.
Proof.
  intros H. rewrite (tokens_unfold sep (s ++ r)), (tokens_unfold sep r).
  enough (strtok sep (s ++ r) = strtok sep r) as -> by done.
  induction H as [|c s Hc _ IH]; [done|]. cbn. by rewrite Hc.
Qed.

Lemma strtok_token sep t r :
  t <> [] -> Forall (fun c => is_sep sep c = false) t ->
  strtok sep (t ++ r) = Some (let '(t', r) := token_of sep r in (t ++ t', r)).
Proof.
  intros N F. destruct F as [|c t Hc F]; [done|]. cbn. rewrite Hc.
  rewrite (token_of_plain sep t r F). by destruct (token_of sep r).
Qed.

(** A token, some separators and the rest. *)
Lemma tokens_cons sep t s r :
  t <> [] -> s <> [] -> Forall (fun c => is_sep sep c = false) t ->
  Forall (fun c => is_sep sep c = true) s ->
  tokens sep (t ++ s ++ r) = t :: tokens sep r.
Proof.
  intros Nt Ns Ft Fs. rewrite tokens_unfold, strtok_token by done.
  destruct Fs as [|c s Hc Fs]; [done|]. cbn. rewrite Hc, app_nil_r. f_equal. by apply tokens_skip.
Qed.
Lemma tokens_last sep t :
  t <> [] -> Forall (fun c => is_sep sep c = false) t -> tokens sep t = [t].
Proof.
  intros Nt Ft. rewrite tokens_unfold. rewrite <- (app_nil_r t) at 1.
  rewrite strtok_token by done. cbn. by rewrite app_nil_r.
Qed.

Lemma Forall_plain_sep t : Forall plain t -> Forall (fun c => is_sep idsep c = false) t.
Proof. intros F. eapply Forall_impl; [exact F|]. by intros c []. Qed.
Lemma Forall_plain_nul t : Forall plain t -> Forall (fun c => c <> x00) t.
Proof. intros F. eapply Forall_impl; [exact F|]. by intros c []. Qed.

Lemma bufToHex_plain l : Forall plain (bufToHex l).
Proof.
  induction l as [|o l IH]; [constructor|]. apply Forall_app. split; [apply hex_octet_plain|done].
Qed.

Lemma hex_token_all l id : hex_token (bufToHex l) id = Some (append_all l id).
Proof.
  revert id. induction l as [|o l IH]; intros id; [done|].
  change (hex_token (bufToHex (o :: l)) id) with
    (id ← parseByte (hex_octet o) id; hex_token (bufToHex l) id).
  rewrite parse_hex_octet. cbn [mbind option_bind]. apply IH.
Qed.

Section IdSep.
Context (sep : list byte) (Ns : sep <> []) (Fs : Forall (fun c => is_sep idsep c = true) sep).

Lemma tokens_id o l : tokens idsep (bufToId sep (o :: l)) = map hex_octet (o :: l).
Proof using Ns Fs.
  cbn [bufToId]. revert o. induction l as [|o' l IH]; intros o.
  - cbn [bufToId_more]. rewrite app_nil_r. apply tokens_last; [done|].
    apply Forall_plain_sep, hex_octet_plain.
  - cbn [bufToId_more]. rewrite tokens_cons; [by rewrite IH|done|done| |done].
    apply Forall_plain_sep, hex_octet_plain.
Qed.

Lemma parse_tokens_hex l id :
  parse_tokens parseByte (map hex_octet l) id = Some (append_all l id).
Proof.
  revert id. induction l as [|o l IH]; intros id; [done|]. cbn [map parse_tokens].
  rewrite parse_hex_octet. cbn [mbind option_bind]. apply IH.
Qed.

Lemma bufToId_no_nul l : Forall (fun c => c <> x00) (bufToId sep l).
Proof using Fs.
  assert (Forall (fun c => c <> x00) sep) as Fn.
  { eapply Forall_impl; [exact Fs|]. intros c Hc ->. done. }
  assert (forall o, Forall (fun c => c <> x00) (hex_octet o)) as Fh
    by (intros; apply Forall_plain_nul, hex_octet_plain).
  assert (forall l, Forall (fun c => c <> x00) (bufToId_more sep l)) as Fm.
  { induction l0 as [|o l0 IH]; [constructor|]. cbn [bufToId_more]. by repeat apply Forall_app_2. }
  destruct l; [constructor|]. cbn [bufToId]. by apply Forall_app_2.
Qed.
Lemma fromId_text o l b :
  fromId (bufToId sep (o :: l)) b = (true, assign (append_all (o :: l) Binary_new) b).
Proof using Ns Fs.
  unfold fromId. destruct (Z.ltb_spec (len (bufToId sep (o :: l))) 2) as [H|].
  { cbn [bufToId] in H. rewrite len_app in H. change (len (hex_octet o)) with 2 in H.
    pose proof (len_nonneg (bufToId_more sep l)). lia. }
  rewrite cstr_no_nul by apply bufToId_no_nul. rewrite tokens_id.
  by rewrite parse_tokens_hex.
Qed.
End IdSep.

(** The hexadecimal text of a string of at least one octet, and the text with
    a separator between the octets, are read back as the same octets, whatever
    the object held before; the separator is any text of ':', '.' and '-'. *)
Theorem hex_roundtrip a b sep :
  wf_Binary b -> octets a <> [] -> sep <> [] -> Forall (fun c => is_sep idsep c = true) sep ->
  (fst (fromHex (toHex a) b) = true /\ octets (snd (fromHex (toHex a) b)) = octets a) /\
  (fst (fromId (toId sep a) b) = true /\ octets (snd (fromId (toId sep a) b)) = octets a).
Proof.
  intros W Ne Ns Fs. unfold toHex, toId. destruct (octets a) as [|o l]; [done|]. split.
  - assert (fromHex (bufToHex (o :: l)) b = (true, assign (append_all (o :: l) Binary_new) b)) as ->.
    { unfold fromHex. destruct (bufToHex (o :: l)) eqn:E; [done|]. rewrite <- E.
      rewrite cstr_no_nul by apply Forall_plain_nul, bufToHex_plain.
      rewrite tokens_last; [|by rewrite E|apply Forall_plain_sep, bufToHex_plain].
      cbn [parse_tokens]. by rewrite hex_token_all. }
    split; [done|]. by apply assign_collected.
  - rewrite fromId_text by done. split; [done|]. by apply assign_collected.
Qed.

Lemma hex_roundtrip_witness :
  octets (snd (fromId (bytes "1b:00:5e") (Binary_of (bytes "old")))) = [x1b; x00; x5e].
Proof.
  apply (hex_roundtrip (Binary_of [x1b; x00; x5e]) (Binary_of (bytes "old")) (bytes ":"));
    [split; vm_compute; intuition discriminate|done|done|].
  constructor; [reflexivity|constructor].
Defined.

(** ** Base 64 *)

(** The characters for 62 and 63 of the three alphabets, and what [safe] can be
    while reading them. *)
Definition alphabet (v62 v63 : byte) (safes : list Z) : Prop :=
  (v62 = x2b /\ v63 = x2f /\ safes = [0; 2; 6]) \/
  (v62 = x2d /\ v63 = x5f /\ safes = [0; 1]) \/
  (v62 = x2b /\ v63 = x2c /\ safes = [0; 2; 10]).

Lemma parseB64_b64 v62 v63 safes safe v :
  alphabet v62 v63 safes -> safe ∈ safes -> 0 <= v < 64 ->
  exists safe', safe' ∈ safes /\ parseB64 (b64 v62 v63 v) safe = Some (v, safe').
Proof.
  intros A Hs Hv.
  assert (forallb (fun safe => forallb (fun v =>
    match parseB64 (b64 v62 v63 v) safe with
    | Some (w, safe') => (w =? v) && bool_decide (safe' ∈ safes)
    | None => false end) (seqZ 0 64)) safes = true) as F
    by (destruct A as [(-> & -> & ->)|[(-> & -> & ->)|(-> & -> & ->)]]; vm_compute; reflexivity).
  apply list_elem_of_In in Hs. apply (proj1 (forallb_forall _ _) F) in Hs.
  assert (In v (seqZ 0 64)) as Hin by (apply list_elem_of_In, elem_of_seqZ; lia).
  apply (proj1 (forallb_forall _ _) Hs) in Hin.
  destruct (parseB64 _ _) as [[w s]|]; [|done]. apply andb_prop in Hin as [E1 E2].
  apply Z.eqb_eq in E1 as ->. apply bool_decide_eq_true_1 in E2. eauto.
Qed.

Lemma b64_not_pad v62 v63 safes v :
  alphabet v62 v63 safes -> 0 <= v < 64 -> b64 v62 v63 v <> x3d.
Proof.
  intros A Hv E. destruct (parseB64_b64 v62 v63 safes 0 v A) as (s & _ & H); [|done|].
  - destruct A as [(_ & _ & ->)|[(_ & _ & ->)|(_ & _ & ->)]]; by left.
  - rewrite E in H. done.
Qed.

Lemma split_range c0 c1 :
  0 <= split0 c0 < 64 /\ 0 <= split1 c0 c1 < 64 /\ 0 <= split2 c0 c1 < 64 /\ 0 <= split3 c0 < 64.
Proof.
  assert (forall c0 c1, (fun c0 c1 => forallb (fun v => (0 <=? v) && (v <? 64))
    [split0 c0; split1 c0 c1; split2 c0 c1; split3 c0]) c0 c1 = true) as F
    by (apply byte_check2; vm_compute; reflexivity).
  specialize (F c0 c1). cbn [forallb] in F. lia.
Qed.

(** The two halves of an octet in its two characters. *)
Lemma join_split_halves c0 c1 :
  (join0 (split0 c0) (split1 c0 c1) = c0 /\
   Z.land (Z.shiftl (split1 c0 c1) 4) 0xf0 = Z.land (b2z c1) 0xf0 /\
   Z.land (Z.shiftr (split2 c0 c1) 2) 0x0f = Z.land (b2z c0) 0x0f) /\
  z2b (Z.lor (Z.land (b2z c0) 0xf0) (Z.land (b2z c0) 0x0f)) = c0 /\
  join2 (split2 c0 c1) (split3 c1) = c1.
Proof.
  assert (forall c0 c1, (fun c0 c1 =>
    bool_decide (join0 (split0 c0) (split1 c0 c1) = c0) &&
    ((Z.land (Z.shiftl (split1 c0 c1) 4) 0xf0 =? Z.land (b2z c1) 0xf0) &&
     (Z.land (Z.shiftr (split2 c0 c1) 2) 0x0f =? Z.land (b2z c0) 0x0f)) &&
    (bool_decide (z2b (Z.lor (Z.land (b2z c0) 0xf0) (Z.land (b2z c0) 0x0f)) = c0) &&
     bool_decide (join2 (split2 c0 c1) (split3 c1) = c1))) c0 c1 = true) as F
    by (apply byte_check2; vm_compute; reflexivity).
  specialize (F c0 c1). cbv beta in F. rewrite !andb_true_iff, !bool_decide_eq_true in F.
  rewrite !Z.eqb_eq in F. intuition.
Qed.

Lemma join1_split c0 c1 c2 : join1 (split1 c0 c1) (split2 c1 c2) = c1.
Proof.
  destruct (join_split_halves c0 c1) as [(_ & E1 & _) _].
  destruct (join_split_halves c1 c2) as [(_ & _ & E2) [E3 _]].
  unfold join1. by rewrite E1, E2.
Qed.
Lemma join0_split c0 c1 : join0 (split0 c0) (split1 c0 c1) = c0.
Proof. apply join_split_halves. Qed.
Lemma join2_split c1 c2 : join2 (split2 c1 c2) (split3 c2) = c2.
Proof. apply join_split_halves. Qed.

Lemma strip_4 c0 c1 c2 c3 :
  strip 3 (strip 4 [c0; c1; c2; c3]) =
  if bool_decide (c3 = x3d)
  then if bool_decide (c2 = x3d) then [c0; c1] else [c0; c1; c2]
  else [c0; c1; c2; c3].
Proof.
  unfold strip at 2. change (nth (Z.to_nat 4 - 1) [c0; c1; c2; c3] x00) with c3.
  change (len [c0; c1; c2; c3] =? 4) with true. by destruct (bool_decide (c3 = x3d)).
Qed.
Lemma b64_loop_step pad c0 c1 c2 c3 x more safe id :
  b64_loop pad (c0 :: c1 :: c2 :: c3 :: x :: more) safe id =
  '(a0, safe) ← parseB64 c0 safe;
  '(a1, safe) ← parseB64 c1 safe;
  '(a2, safe) ← parseB64 c2 safe;
  '(a3, safe) ← parseB64 c3 safe;
  b64_loop pad (x :: more) safe
    (append (join2 a2 a3) (append (join1 a1 a2) (append (join0 a0 a1) id))).
Proof. reflexivity. Qed.
Lemma strip_3 c0 c1 c2 :
  strip 3 (strip 4 [c0; c1; c2]) = if bool_decide (c2 = x3d) then [c0; c1] else [c0; c1; c2].
Proof. reflexivity. Qed.

Section Base64.
Context (pad : bool) (v62 v63 : byte) (safes : list Z) (A : alphabet v62 v63 safes).

Ltac read_char :=
  match goal with
  | Hs : ?s ∈ safes |- context [parseB64 (b64 v62 v63 ?v) ?s] =>
      let s' := fresh "s" in let Hs' := fresh "Hs" in let E := fresh "E" in
      destruct (parseB64_b64 v62 v63 safes s v A Hs) as (s' & Hs' & E);
      [apply split_range; exact x00|rewrite E; cbn [mbind option_bind]; clear E]
  end.

Lemma not_pad v : 0 <= v < 64 -> bool_decide (b64 v62 v63 v = x3d) = false.
Proof using A. intros. apply bool_decide_eq_false_2. by eapply b64_not_pad. Qed.

(** The last group, of one to three octets. *)
Lemma b64_last_enc rpad l id safe :
  (rpad = true -> pad = true) -> safe ∈ safes -> (0 < length l <= 3)%nat ->
  b64_last rpad (toBase64_loop pad v62 v63 l) safe id = Some (append_all l id).
Proof using A.
  intros Hp Hs Hl. pose proof split_range as R. unfold b64_last.
  assert (b64_tail (strip 3 (strip 4 (toBase64_loop pad v62 v63 l))) safe id =
    Some (append_all l id)) as T.
  { destruct l as [|c0 [|c1 [|c2 [|]]]]; cbn [length] in Hl; try lia; cbn [toBase64_loop].
    - assert (strip 3 (strip 4 (app [b64 v62 v63 (split0 c0); b64 v62 v63 (split1 c0 x00)]
        (if pad then bytes "==" else []))) =
        [b64 v62 v63 (split0 c0); b64 v62 v63 (split1 c0 x00)]) as -> by by destruct pad.
      cbn [b64_tail]. do 2 read_char. by rewrite join0_split.
    - assert (strip 3 (strip 4 (app [b64 v62 v63 (split0 c0); b64 v62 v63 (split1 c0 c1);
        b64 v62 v63 (split2 c1 x00)] (if pad then bytes "=" else []))) =
        [b64 v62 v63 (split0 c0); b64 v62 v63 (split1 c0 c1); b64 v62 v63 (split2 c1 x00)]) as ->.
      { destruct pad; [change (bytes "=") with [x3d]; cbn [app]; rewrite strip_4|
          cbn [app]; rewrite strip_3]; by rewrite not_pad by apply (R c1 x00). }
      cbn [b64_tail]. do 3 read_char. by rewrite join0_split, join1_split.
    - rewrite strip_4, not_pad by apply (R c2 x00). cbn [b64_tail]. do 4 read_char.
      by rewrite join0_split, join1_split, join2_split. }
  rewrite T. destruct l as [|c0 [|c1 [|c2 [|]]]]; cbn [length] in Hl; try lia;
    (destruct pad; [by destruct rpad|]; destruct rpad; [by specialize (Hp eq_refl)|done]).
Qed.

Lemma toBase64_loop_ne l : l <> [] -> toBase64_loop pad v62 v63 l <> [].
Proof. by destruct l as [|c0 [|c1 [|c2 [|]]]]. Qed.

Lemma b64_loop_enc rpad l id safe :
  (rpad = true -> pad = true) -> safe ∈ safes -> l <> [] ->
  b64_loop rpad (toBase64_loop pad v62 v63 l) safe id = Some (append_all l id).
Proof using A.
  intros Hp. revert id safe. induction l as [l IH] using (induction_ltof1 _ (@length byte)).
  intros id safe Hs Ne. destruct l as [|c0 [|c1 [|c2 [|c3 l]]]]; [done|..].
  - rewrite <- (b64_last_enc rpad [c0] id safe Hp Hs) by (cbn; lia). by destruct pad.
  - rewrite <- (b64_last_enc rpad [c0; c1] id safe Hp Hs) by (cbn; lia). by destruct pad.
  - rewrite <- (b64_last_enc rpad [c0; c1; c2] id safe Hp Hs) by (cbn; lia). done.
  - change (toBase64_loop pad v62 v63 (c0 :: c1 :: c2 :: c3 :: l)) with
      ([b64 v62 v63 (split0 c0); b64 v62 v63 (split1 c0 c1); b64 v62 v63 (split2 c1 c2);
        b64 v62 v63 (split3 c2)] ++ toBase64_loop pad v62 v63 (c3 :: l)).
    pose proof (toBase64_loop_ne (c3 :: l) ltac:(done)) as N.
    destruct (toBase64_loop pad v62 v63 (c3 :: l)) as [|x more] eqn:E; [done|].
    cbn [app]. rewrite b64_loop_step. do 4 read_char. rewrite <- E.
    rewrite IH; [|unfold ltof; cbn; lia|done|done].
    by rewrite join0_split, join1_split, join2_split.
Qed.
End Base64.

(** The base 64 text of any string, in the standard, the URL and the IMAP
    alphabet and with or without padding, is read back as the same octets; only
    reading that asks for padding needs it. *)
Theorem base64_roundtrip a b pad rpad v62 v63 safes :
  wf_Binary a -> wf_Binary b -> alphabet v62 v63 safes -> (rpad = true -> pad = true) ->
  fst (fromBase64 (toBase64 pad v62 v63 a) rpad b) = true /\
  octets (snd (fromBase64 (toBase64 pad v62 v63 a) rpad b)) = octets a.
Proof.
  intros Wa W A Hp. unfold toBase64. destruct (Z.eqb_spec (m_size a) 0) as [E|N].
  { cbn. split; [done|]. unfold octets. by rewrite E. }
  assert (octets a <> []) as Ne.
  { intros E. apply N. pose proof (len_octets a Wa) as L. by rewrite E in L. }
  assert (0 ∈ safes) as H0 by (destruct A as [(_ & _ & ->)|[(_ & _ & ->)|(_ & _ & ->)]]; by left).
  unfold fromBase64. pose proof (toBase64_loop_ne pad v62 v63 (octets a) Ne) as Nt.
  destruct (toBase64_loop pad v62 v63 (octets a)) eqn:E; [done|]. rewrite <- E.
  rewrite (b64_loop_enc pad v62 v63 safes A rpad (octets a) Binary_new 0 Hp H0 Ne).
  split; [done|]. by apply assign_collected.
Qed.

Lemma base64_roundtrip_witness :
  octets (snd (fromBase64 (bytes "c2VjcmV0Pw==") true Binary_new)) = bytes "secret?".
Proof.
  apply (base64_roundtrip (Binary_of (bytes "secret?")) Binary_new true true x2b x2f [0; 2; 6]);
    [split; vm_compute; intuition discriminate..|by left|done].
Defined.
