(* ===== verification/Structs.v ===== *)
(** * Structs.v: the structures and lists on the wire

    The rules of [Codec] and [reads] for the [proc] functions of the PTP
    structures and for the list functions [vector_f] and [vector_o].  For each
    structure, [wf_*] gives the ranges of its C++ field types together with the
    limits that building enforces, and [norm_*] is the structure that building
    leaves behind and that parsing returns: the length fields follow the
    contents. *)

From S2P Require Import Prelude Types MsgProc Codec.

(** ** Values a parser returns *)

Definition yields {A} (m : M A) (P : A -> Prop) : Prop :=
  forall s a s', m_build s = false -> m s = Pass a s' -> P a.

Lemma reads_bind_yields {A B} (f g : M A) (k k' : A -> M B) P n n' :
  reads n f g -> yields f P -> (forall a, P a -> reads n' (k a) (k' a)) ->
  reads (n + n') (bind f k) (bind g k').
Proof.
  intros H1 HP H2 s Hs Hb. destruct (H1 s Hs Hb) as [E H]. unfold bind. rewrite E.
  destruct (f s) as [a s'|s'|] eqn:Ef; [|by eauto|done].
  destruct H as (Hok & F & L).
  assert (m_build s' = false) as Hb' by (destruct F; congruence).
  destruct (H2 a (HP _ _ _ Hb Ef) s' Hok Hb') as [E' H']. split; [done|].
  destruct (k a s') as [b s''|s''|]; [|by destruct H'; eauto using follows_trans|done].
  destruct H' as (? & ? & ?). split; [done|]. split; [by eapply follows_trans|lia].
Qed.

Lemma yields_BU n v : yields (procBU n v) (uint (8 * Z.of_nat n)).
Proof.
  intros s a s' Hb H. unfold procBU, access in H. rewrite Hb in H.
  repeat case_match; simplify_eq/=. unfold load in *. case_bool_decide; simplify_eq.
  unfold uint. rewrite <- pow256. match goal with |- context [be_dec ?l] => set (bs := l) end.
  pose proof (be_dec_range bs) as [? Hr]. split; [done|].
  assert (len bs = Z.of_nat n) as <-; [|done].
  subst bs. unfold len. rewrite length_take, length_drop. unfold len in *. lia.
Qed.

Lemma yields_u8 v : yields (proc_u8 v) (uint 8).
Proof. apply (yields_BU 1). Qed.
Lemma yields_u16 v : yields (proc_u16 v) (uint 16).
Proof. apply (yields_BU 2). Qed.

(** ** Well formed and normal structures *)

Definition wf_Timestamp48 (d : Timestamp_t) : Prop :=
  uint 48 (secondsField d) /\ uint 32 (nanosecondsField d).

Definition wf_PortAddress (d : PortAddress_t) : Prop :=
  uint 16 (networkProtocol d) /\ uint 16 (len (addressField d)).
Definition norm_PortAddress (d : PortAddress_t) : PortAddress_t :=
  mk_PortAddress (networkProtocol d) (len (addressField d)) (addressField d).

Definition wf_ClockQuality (d : ClockQuality_t) : Prop :=
  uint 8 (clockClass d) /\ uint 8 (clockAccuracy d) /\
  uint 16 (offsetScaledLogVariance d).

Definition wf_PTPText (d : PTPText_t) : Prop := len (textField d) <= 255.
Definition norm_PTPText (d : PTPText_t) : PTPText_t :=
  mk_PTPText (len (textField d)) (textField d).

Definition wf_FaultRecord (d : FaultRecord_t) : Prop :=
  wf_Timestamp48 (faultTime d) /\ uint 8 (severityCode d) /\
  wf_PTPText (faultName d) /\ wf_PTPText (faultValue d) /\
  wf_PTPText (faultDescription d).
Definition norm_FaultRecord (d : FaultRecord_t) : FaultRecord_t :=
  mk_FaultRecord (FaultRecord_size d) (faultTime d) (severityCode d)
    (norm_PTPText (faultName d)) (norm_PTPText (faultValue d))
    (norm_PTPText (faultDescription d)).

Definition wf_AcceptableMaster (d : AcceptableMaster_t) : Prop :=
  wf_PortIdentity (acceptablePortIdentity d) /\ uint 8 (alternatePriority1 d).

Definition wf_LinuxptpUnicastMaster (d : LinuxptpUnicastMaster_t) : Prop :=
  wf_PortIdentity (lum_portIdentity d) /\ wf_ClockQuality (lum_clockQuality d) /\
  uint 8 (lum_selected d) /\ uint 8 (lum_portState d) /\ uint 8 (lum_priority1 d) /\
  uint 8 (lum_priority2 d) /\ wf_PortAddress (lum_portAddress d).
Definition norm_LinuxptpUnicastMaster (d : LinuxptpUnicastMaster_t) : LinuxptpUnicastMaster_t :=
  mk_LinuxptpUnicastMaster (lum_portIdentity d) (lum_clockQuality d) (lum_selected d)
    (lum_portState d) (lum_priority1 d) (lum_priority2 d)
    (norm_PortAddress (lum_portAddress d)).

(** [T rec = {}]: the zero values a record of a list starts from. *)
Definition zero_Timestamp := mk_Timestamp 0 0.
Definition zero_TimeInterval := mk_TimeInterval 0.
Definition zero_ClockIdentity := ClockIdentity_clear 0.
Definition zero_PortIdentity := PortIdentity_clear.
Definition zero_ClockQuality := mk_ClockQuality 0 0 0.
Definition zero_PortAddress := mk_PortAddress 0 0 [].
Definition zero_PTPText := mk_PTPText 0 [].
Definition zero_FaultRecord :=
  mk_FaultRecord 0 zero_Timestamp 0 zero_PTPText zero_PTPText zero_PTPText.
Definition zero_AcceptableMaster := mk_AcceptableMaster zero_PortIdentity 0.
Definition zero_LinuxptpUnicastMaster :=
  mk_LinuxptpUnicastMaster zero_PortIdentity zero_ClockQuality 0 0 0 0 zero_PortAddress.

(** A structure that a parser may start from: its text is short enough. *)
Definition fresh_PTPText (d : PTPText_t) : Prop := len (textField d) <= 255.

(** ** Round trips of the structures *)

(** Split the well-formedness of the record into hypotheses on its fields and
    search; the length is left to [lia]. *)
Ltac wf_split :=
  repeat match goal with H : _ /\ _ |- _ => destruct H end.
Ltac unfold_sizes :=
  unfold AcceptableMaster_size, PortIdentity_size, ClockIdentity_size, Timestamp_size,
    TimeInterval_size, ClockQuality_size in *.
Ltac codec_record d :=
  destruct d; cbn in *; wf_split; eapply codec_len; [codec_auto|cbn; unfold_sizes; try lia].

Lemma codec_TimeInterval d d' :
  wf_TimeInterval d ->
  codec (proc_TimeInterval d) (proc_TimeInterval d') d TimeInterval_size.
Proof.
  unfold wf_TimeInterval, proc_TimeInterval, TimeInterval_size. intros. codec_record d.
Qed.

Lemma codec_Timestamp d d' :
  wf_Timestamp48 d -> codec (proc_Timestamp d) (proc_Timestamp d') d Timestamp_size.
Proof. unfold wf_Timestamp48, proc_Timestamp, Timestamp_size. intros. codec_record d. Qed.

Lemma codec_ClockIdentity d d' :
  wf_ClockIdentity d ->
  codec (proc_ClockIdentity d) (proc_ClockIdentity d') d ClockIdentity_size.
Proof.
  unfold wf_ClockIdentity, proc_ClockIdentity, ClockIdentity_size. intros H.
  assert (len (ci_v d) = 8) by (unfold len; lia). clear H. codec_record d.
Qed.
#[export] Hint Resolve codec_TimeInterval codec_Timestamp codec_ClockIdentity : codec.

Lemma codec_PortIdentity d d' :
  wf_PortIdentity d ->
  codec (proc_PortIdentity d) (proc_PortIdentity d') d PortIdentity_size.
Proof. unfold wf_PortIdentity, proc_PortIdentity, PortIdentity_size. intros. codec_record d. Qed.

Lemma codec_ClockQuality d d' :
  wf_ClockQuality d ->
  codec (proc_ClockQuality d) (proc_ClockQuality d') d ClockQuality_size.
Proof. unfold wf_ClockQuality, proc_ClockQuality, ClockQuality_size. intros. codec_record d. Qed.
#[export] Hint Resolve codec_PortIdentity codec_ClockQuality : codec.

Lemma codec_PortAddress d d' :
  wf_PortAddress d ->
  codec (proc_PortAddress d) (proc_PortAddress d') (norm_PortAddress d) (PortAddress_size d).
Proof.
  unfold wf_PortAddress, proc_PortAddress, norm_PortAddress, PortAddress_size.
  destruct d as [net al addr]; cbn. intros [? H].
  rewrite (uwrap_small 16 (len addr)) by done.
  eapply codec_len; [codec_step; codec_step|].
  - eapply codec_bind; [by apply codec_binary|apply codec_ret].
  - lia.
Qed.

Lemma codec_PTPText d d' :
  wf_PTPText d -> fresh_PTPText d' ->
  codec (proc_PTPText d) (proc_PTPText d') (norm_PTPText d) (PTPText_size d).
Proof.
  unfold wf_PTPText, fresh_PTPText, proc_PTPText, norm_PTPText, PTPText_size. intros H H'.
  pose proof (len_nonneg (textField d)).
  destruct (Z.ltb_spec 255 (len (textField d))); [lia|].
  destruct (Z.ltb_spec 255 (len (textField d'))); [lia|].
  rewrite (uwrap_small 8 (len (textField d))) by (unfold uint; lia).
  eapply codec_len; [eapply codec_bind; [|eapply codec_bind]|].
  - apply codec_u8. unfold uint; lia.
  - apply codec_string. unfold uint; lia.
  - apply codec_ret.
  - lia.
Qed.

Lemma fresh_zero_PTPText : fresh_PTPText zero_PTPText.
Proof. by vm_compute. Qed.
#[export] Hint Resolve codec_PortAddress codec_PTPText fresh_zero_PTPText : codec.

Lemma codec_FaultRecord d :
  wf_FaultRecord d ->
  codec (proc_FaultRecord d) (proc_FaultRecord zero_FaultRecord)
    (norm_FaultRecord d) (FaultRecord_size d).
Proof.
  unfold wf_FaultRecord, proc_FaultRecord, norm_FaultRecord. intros H.
  assert (uint 16 (FaultRecord_size d)) as Hs.
  { unfold wf_PTPText, FaultRecord_size, Timestamp_size, PTPText_size, uint in *. wf_split.
    pose proof (len_nonneg (textField (faultName d))).
    pose proof (len_nonneg (textField (faultValue d))).
    pose proof (len_nonneg (textField (faultDescription d))). lia. }
  wf_split. apply codec_ask. rewrite (uwrap_small 16) by done. cbn [negb andb].
  eapply codec_len;
    [do 6 (eapply codec_bind; [solve [eauto 3 with codec]|]); cbv beta zeta iota|].
  - rewrite Z.eqb_refl. cbn [negb]. apply codec_ret.
  - unfold FaultRecord_size. lia.
Qed.

Lemma codec_AcceptableMaster d d' :
  wf_AcceptableMaster d ->
  codec (proc_AcceptableMaster d) (proc_AcceptableMaster d') d AcceptableMaster_size.
Proof.
  unfold wf_AcceptableMaster, proc_AcceptableMaster, AcceptableMaster_size. intros.
  codec_record d.
Qed.

Lemma codec_LinuxptpUnicastMaster d d' :
  wf_LinuxptpUnicastMaster d ->
  codec (proc_LinuxptpUnicastMaster d) (proc_LinuxptpUnicastMaster d')
    (norm_LinuxptpUnicastMaster d) (LinuxptpUnicastMaster_size d).
Proof.
  unfold wf_LinuxptpUnicastMaster, proc_LinuxptpUnicastMaster,
    norm_LinuxptpUnicastMaster, LinuxptpUnicastMaster_size. intros.
  codec_record d.
Qed.

(** ** Round trips of the lists *)

Definition total {T} (sz : T -> Z) (vec : list T) : Z :=
  foldr (fun r acc => sz r + acc) 0 vec.

Lemma total_cons {T} (sz : T -> Z) r vec : total sz (r :: vec) = sz r + total sz vec.
Proof. done. Qed.

Lemma total_const {T} n (vec : list T) : total (fun _ => n) vec = n * len vec.
Proof.
  induction vec as [|r vec IH]; [change (len []) with 0; cbn; lia|].
  rewrite len_cons, total_cons. lia.
Qed.

Section VectorCodec.
Context {T : Type} (proc : T -> M T) (zero : T).
Context (wf : T -> Prop) (norm : T -> T) (sz : T -> Z).
Hypothesis proc_codec : forall r, wf r -> codec (proc r) (proc zero) (norm r) (sz r).

(** The build half emits the records one after the other. *)
Lemma vector_b_codec vec :
  Forall wf vec ->
  exists bs, emits (vector_b proc vec) (map norm vec) bs /\ len bs = total sz vec /\
    forall fuel acc, (length vec <= fuel)%nat ->
      consumes (vector_f_loop proc zero fuel (len vec) acc) bs (acc ++ map norm vec).
Proof.
  induction vec as [|r vec IH]; intros Hf.
  - exists []. split; [apply emits_ret|]. split; [done|]. intros [|fuel] acc _;
      cbn [vector_f_loop]; change (len []) with 0; cbn [Z.leb Z.compare];
      rewrite app_nil_r; apply consumes_ret.
  - apply Forall_cons in Hf as [Hr Hf]. destruct (IH Hf) as (b2 & E2 & L2 & C2).
    destruct (proc_codec r Hr) as (b1 & E1 & C1 & L1).
    exists (b1 ++ b2). split; [|split].
    + cbn [vector_b map]. eapply emits_bind; [done|].
      rewrite <- (app_nil_r b2). eapply emits_bind; [done|apply emits_ret].
    + rewrite len_app, total_cons. lia.
    + intros [|fuel] acc Hl; cbn [length] in Hl; [lia|]. cbn [vector_f_loop map].
      destruct (Z.leb_spec (len (r :: vec)) 0);
        [rewrite len_cons in *; pose proof (len_nonneg vec); lia|].
      eapply consumes_bind; [done|]. rewrite len_cons.
      replace (1 + len vec - 1) with (len vec) by lia.
      replace (acc ++ norm r :: map norm vec) with ((acc ++ [norm r]) ++ map norm vec)
        by (by rewrite <- app_assoc).
      apply C2. lia.
Qed.

Lemma total_length vec : (forall r, wf r -> 1 <= sz r) -> Forall wf vec -> len vec <= total sz vec.
Proof.
  intros Hp. induction 1 as [|r vec Hr _ IH]; [done|]. rewrite len_cons, total_cons.
  specialize (Hp r Hr). lia.
Qed.

Lemma codec_vector_f vec c count :
  (forall r, wf r -> 1 <= sz r) -> Forall wf vec -> uwrap 32 count = len vec ->
  codec (vector_f proc zero c vec) (vector_f proc zero count []) (map norm vec) (total sz vec).
Proof.
  intros Hp Hf Hc. destruct (vector_b_codec vec Hf) as (bs & E & L & C).
  exists bs. split; [|split; [|done]].
  - intros s Hs Hb. unfold vector_f. rewrite Hb. by apply E.
  - intros s Hs Hb Hat Hl. unfold vector_f. rewrite Hb, Hc. apply C; try done.
    pose proof (total_length vec Hp Hf). unfold len in *. lia.
Qed.

(** [vector_o]: the list ends where the octets end. *)
Lemma codec_vector_o vec size :
  2 <= size -> (forall r, wf r -> sz r = size) -> Forall wf vec ->
  codec_end (vector_o proc zero size vec) (vector_o proc zero size [])
    (map norm vec) (total sz vec).
Proof.
  intros H2 Hsz Hf.
  assert (exists bs, emits (vector_b proc vec) (map norm vec) bs /\ len bs = total sz vec /\
    forall fuel acc s, (length vec <= fuel)%nat -> ok s -> m_build s = false ->
      at_cur s bs -> len bs <= m_left s <= len bs + 1 ->
      vector_o_loop proc zero fuel size acc s =
        Pass (acc ++ map norm vec) (move (len bs) s)) as (bs & E & L & C).
  { induction vec as [|r vec IH].
    - exists []. split; [apply emits_ret|]. split; [done|]. change (len []) with 0.
      intros [|fuel] acc s _ Hs Hb _ Hl; cbn [vector_o_loop];
        (destruct (Z.ltb_spec (m_left s) size); [|lia]);
        cbn [map]; by rewrite app_nil_r, move_0.
    - apply Forall_cons in Hf as [Hr Hf]. destruct (IH Hf) as (b2 & E2 & L2 & C2).
      destruct (proc_codec r Hr) as (b1 & E1 & C1 & L1).
      exists (b1 ++ b2). split; [|split].
      + cbn [vector_b map]. eapply emits_bind; [done|].
        rewrite <- (app_nil_r b2). eapply emits_bind; [done|apply emits_ret].
      + rewrite len_app, total_cons. lia.
      + rewrite len_app. intros [|fuel] acc s Hl Hs Hb Hat Hleft; cbn [length] in Hl; [lia|].
        pose proof (len_nonneg b2). rewrite (Hsz r Hr) in L1.
        cbn [vector_o_loop]. destruct (Z.ltb_spec (m_left s) size); [lia|].
        destruct (at_cur_app s b1 b2) as [A1 A2]; [apply Hs|done|].
        unfold bind. rewrite C1 by (done || lia).
        rewrite C2; [|lia|apply ok_move; [done|lia]|done|done|cbn; lia].
        by rewrite move_move, <- app_assoc. }
  exists bs. split; [|split; [|done]].
  - intros s Hs Hb. unfold vector_o. rewrite Hb. by apply E.
  - intros s Hs Hb Hat Hl. unfold vector_o. rewrite Hb. apply C; try done.
    assert (len vec <= total sz vec).
    { apply total_length; [|done]. intros r Hr. rewrite (Hsz r Hr). lia. }
    unfold len in *. lia.
Qed.
End VectorCodec.

(** ** Parsing the structures and the lists *)

Lemma reads_TimeInterval d d' : reads 8 (proc_TimeInterval d) (proc_TimeInterval d').
Proof. unfold proc_TimeInterval. eapply reads_weaken; [reads_auto|lia]. Qed.
Lemma reads_Timestamp d d' : reads 10 (proc_Timestamp d) (proc_Timestamp d').
Proof. unfold proc_Timestamp. eapply reads_weaken; [reads_auto|lia]. Qed.
Lemma reads_ClockIdentity d d' : reads 8 (proc_ClockIdentity d) (proc_ClockIdentity d').
Proof.
  unfold proc_ClockIdentity, ClockIdentity_size. eapply reads_weaken; [reads_auto|lia].
Qed.
#[export] Hint Resolve reads_TimeInterval reads_Timestamp reads_ClockIdentity : reads.

Lemma reads_PortIdentity d d' : reads 10 (proc_PortIdentity d) (proc_PortIdentity d').
Proof. unfold proc_PortIdentity. eapply reads_weaken; [reads_auto|lia]. Qed.
Lemma reads_ClockQuality d d' : reads 4 (proc_ClockQuality d) (proc_ClockQuality d').
Proof. unfold proc_ClockQuality. eapply reads_weaken; [reads_auto|lia]. Qed.

Lemma reads_PortAddress d d' : reads 4 (proc_PortAddress d) (proc_PortAddress d').
Proof.
  unfold proc_PortAddress. eapply reads_weaken.
  - eapply reads_bind; [reads_prim|intros ?].
    eapply reads_bind_yields; [reads_prim|apply yields_u16|intros n [? _]].
    eapply reads_bind; [by apply reads_binary|intros ?]. apply reads_ret.
  - lia.
Qed.

Lemma reads_PTPText d d' :
  fresh_PTPText d -> fresh_PTPText d' -> reads 1 (proc_PTPText d) (proc_PTPText d').
Proof.
  unfold fresh_PTPText, proc_PTPText. intros H H'.
  destruct (Z.ltb_spec 255 (len (textField d))); [lia|].
  destruct (Z.ltb_spec 255 (len (textField d'))); [lia|].
  eapply reads_weaken.
  - eapply reads_bind_yields; [reads_prim|apply yields_u8|intros n [? _]].
    eapply reads_bind; [by apply reads_string|intros ?]. apply reads_ret.
  - lia.
Qed.
#[export] Hint Resolve reads_PortIdentity reads_ClockQuality reads_PortAddress
  reads_PTPText fresh_zero_PTPText : reads.

Lemma reads_FaultRecord :
  reads 16 (proc_FaultRecord zero_FaultRecord) (proc_FaultRecord zero_FaultRecord).
Proof.
  unfold proc_FaultRecord. eapply reads_weaken.
  - reads_step. cbn [negb andb faultTime severityCode faultName faultValue
      faultDescription zero_FaultRecord].
    do 6 (eapply reads_bind; [reads_prim|intros ?]). cbv zeta.
    instantiate (1 := 0). case_match; [by apply reads_raise|apply reads_ret].
  - lia.
Qed.
Lemma reads_AcceptableMaster d d' : reads 11 (proc_AcceptableMaster d) (proc_AcceptableMaster d').
Proof. unfold proc_AcceptableMaster. eapply reads_weaken; [reads_auto|lia]. Qed.
Lemma reads_LinuxptpUnicastMaster d d' :
  reads 22 (proc_LinuxptpUnicastMaster d) (proc_LinuxptpUnicastMaster d').
Proof. unfold proc_LinuxptpUnicastMaster. eapply reads_weaken; [reads_auto|lia]. Qed.

Section VectorReads.
Context {T : Type} (proc : T -> M T) (zero : T) (k : Z).
Hypothesis proc_reads : reads k (proc zero) (proc zero).
Hypothesis k_pos : 1 <= k.

(** The outcome of a parser that cannot fault. *)
Definition parsed {A} (s : MsgProc) (o : outcome A) : Prop :=
  match o with
  | Pass _ s' | Stop s' => ok s' /\ follows s s'
  | Fault => False
  end.

Lemma parsed_trans {A} s s' (o : outcome A) : follows s s' -> parsed s' o -> parsed s o.
Proof. destruct o; cbn; [..|done]; intros ? [? ?]; eauto using follows_trans. Qed.

Lemma vector_f_loop_parsed fuel count vec s :
  ok s -> m_build s = false -> m_left s < Z.of_nat fuel ->
  parsed s (vector_f_loop proc zero fuel count vec s).
Proof.
  revert count vec s. induction fuel as [|fuel IH]; intros count vec s Hs Hb Hl;
    [destruct Hs; lia|].
  cbn [vector_f_loop]. destruct (count <=? 0); [by split; [|apply follows_refl]|].
  unfold bind. destruct (proc_reads s Hs Hb) as [_ H].
  destruct (proc zero s) as [r s'|s'|]; [|done..].
  destruct H as (Hok & F & L).
  apply (parsed_trans s s'); [done|]. apply IH; [done|destruct F; congruence|lia].
Qed.

Lemma vector_o_loop_parsed fuel size vec s :
  ok s -> m_build s = false -> m_left s < Z.of_nat fuel ->
  parsed s (vector_o_loop proc zero fuel size vec s).
Proof.
  revert vec s. induction fuel as [|fuel IH]; intros vec s Hs Hb Hl; [destruct Hs; lia|].
  cbn [vector_o_loop]. destruct (m_left s <? size); [by split; [|apply follows_refl]|].
  unfold bind. destruct (proc_reads s Hs Hb) as [_ H].
  destruct (proc zero s) as [r s'|s'|]; [|done..].
  destruct H as (Hok & F & L).
  apply (parsed_trans s s'); [done|]. apply IH; [done|destruct F; congruence|lia].
Qed.

Lemma parsed_reads {A} s (o : outcome A) :
  parsed s o ->
  match o with
  | Pass _ s' => ok s' /\ follows s s' /\ m_left s' + 0 <= m_left s
  | Stop s' => ok s' /\ follows s s'
  | Fault => False
  end.
Proof.
  destruct o; cbn; [|done..]. intros [Hok F]. split; [done|]. split; [done|].
  destruct F as (?&?&?&?&?&?). lia.
Qed.

Lemma reads_vector_f count vec :
  reads 0 (vector_f proc zero count vec) (vector_f proc zero count vec).
Proof.
  intros s Hs Hb. split; [done|]. apply parsed_reads. unfold vector_f. rewrite Hb.
  apply vector_f_loop_parsed; [done..|]. destruct Hs. lia.
Qed.

Lemma reads_vector_o size vec :
  reads 0 (vector_o proc zero size vec) (vector_o proc zero size vec).
Proof.
  intros s Hs Hb. split; [done|]. apply parsed_reads. unfold vector_o. rewrite Hb.
  apply vector_o_loop_parsed; [done..|]. destruct Hs. lia.
Qed.
End VectorReads.

Lemma codec_Le_array vals vals' :
  Forall (uint 64) vals -> length vals' = length vals ->
  codec (procLe_array vals) (procLe_array vals') vals (8 * len vals).
Proof.
  intros H. revert vals'. induction H as [|v vals Hv _ IH]; intros [|v' vals'] Hl;
    simplify_eq/=; [apply codec_ret|].
  rewrite len_cons. eapply codec_len; [|]; cycle 1.
  - instantiate (1 := 8 + (8 * len vals + 0)). lia.
  - eapply codec_bind; [by apply codec_Le|]. eapply codec_bind; [by apply IH|apply codec_ret].
Qed.

Lemma reads_Le_array vals vals' :
  length vals' = length vals -> reads (8 * len vals) (procLe_array vals) (procLe_array vals').
Proof.
  revert vals'. induction vals as [|v vals IH]; intros [|v' vals'] Hl; simplify_eq/=;
    [apply reads_ret|].
  rewrite len_cons. eapply reads_weaken.
  - eapply reads_bind; [apply reads_Le|intros ?]. eapply reads_bind; [by apply IH|intros ?].
    apply reads_ret.
  - lia.
Qed.
