(* ===== verification/MngTlvs.v ===== *)
(** * MngTlvs.v: the management TLVs

    The structures of [src/src/mngTlvs.m4] (the source of the generated
    [mngTlvs.h]) and the functions of [src/src/mngTlvs.cpp] on them: one [_f]
    function per TLV, used both to build and to parse, one [_s] function per
    TLV of variable size, the event mask of [SUBSCRIBE_EVENTS_NP] and the
    dispatch on the management id, [call_tlv_data] and [dataFieldSize].

    The structures keep the C++ field names, prefixed to make them unique, and
    the C++ order of the fields.  An array is a list, a [std::string] and a
    [Binary] are their octets. *)

From S2P Require Import Prelude Types Ids MsgProc Codec Structs.

(** ** Flag masks *)

Definition DEFAULT_DATA_SET_flagsMask : Z := 0x3.
Definition PARENT_DATA_SET_flagsMask : Z := 0x1.
Definition TIME_PROPERTIES_DATA_SET_flagsMask : Z := 0x3f.
Definition SLAVE_ONLY_flagsMask : Z := 0x1.
Definition UTC_PROPERTIES_flagsMask : Z := 0x7.
Definition TRACEABILITY_PROPERTIES_flagsMask : Z := 0x30.
Definition TIMESCALE_PROPERTIES_flagsMask : Z := 0x8.
Definition UNICAST_NEGOTIATION_ENABLE_flagsMask : Z := 0x1.
Definition PATH_TRACE_ENABLE_flagsMask : Z := 0x1.
Definition ACCEPTABLE_MASTER_TABLE_ENABLED_flagsMask : Z := 0x1.
Definition ALTERNATE_MASTER_flagsMask : Z := 0x1.
Definition ALTERNATE_TIME_OFFSET_ENABLE_flagsMask : Z := 0x1.
Definition TRANSPARENT_CLOCK_PORT_DATA_SET_flagsMask : Z := 0x1.
Definition EXTERNAL_PORT_CONFIGURATION_ENABLED_flagsMask : Z := 0x1.
Definition MASTER_ONLY_flagsMask : Z := 0x1.
Definition HOLDOVER_UPGRADE_ENABLE_flagsMask : Z := 0x1.
Definition EXT_PORT_CONFIG_PORT_DATA_SET_flagsMask : Z := 0x1.
Definition GRANDMASTER_SETTINGS_NP_flagsMask : Z := 0x3f.

(** ** Structures *)

Record CLOCK_DESCRIPTION_t := mk_CLOCK_DESCRIPTION {
  cd_clockType : Z;
  cd_physicalLayerProtocol : PTPText_t;
  cd_physicalAddressLength : Z;
  cd_physicalAddress : list byte;
  cd_protocolAddress : PortAddress_t;
  cd_manufacturerIdentity : list byte;
  cd_productDescription : PTPText_t;
  cd_revisionData : PTPText_t;
  cd_userDescription : PTPText_t;
  cd_profileIdentity : list byte
}.
Record USER_DESCRIPTION_t := mk_USER_DESCRIPTION {
  ud_userDescription : PTPText_t
}.
Record INITIALIZE_t := mk_INITIALIZE {
  ini_initializationKey : Z
}.
Record FAULT_LOG_t := mk_FAULT_LOG {
  fl_numberOfFaultRecords : Z;
  fl_faultRecords : list FaultRecord_t
}.
Record DEFAULT_DATA_SET_t := mk_DEFAULT_DATA_SET {
  dds_flags : Z;
  dds_numberPorts : Z;
  dds_priority1 : Z;
  dds_clockQuality : ClockQuality_t;
  dds_priority2 : Z;
  dds_clockIdentity : ClockIdentity_t;
  dds_domainNumber : Z
}.
Record CURRENT_DATA_SET_t := mk_CURRENT_DATA_SET {
  cds_stepsRemoved : Z;
  cds_offsetFromMaster : TimeInterval_t;
  cds_meanPathDelay : TimeInterval_t
}.
Record PARENT_DATA_SET_t := mk_PARENT_DATA_SET {
  pds_parentPortIdentity : PortIdentity_t;
  pds_flags : Z;
  pds_observedParentOffsetScaledLogVariance : Z;
  pds_observedParentClockPhaseChangeRate : Z;
  pds_grandmasterPriority1 : Z;
  pds_grandmasterClockQuality : ClockQuality_t;
  pds_grandmasterPriority2 : Z;
  pds_grandmasterIdentity : ClockIdentity_t
}.
Record TIME_PROPERTIES_DATA_SET_t := mk_TIME_PROPERTIES_DATA_SET {
  tpds_currentUtcOffset : Z;
  tpds_flags : Z;
  tpds_timeSource : Z
}.
Record PORT_DATA_SET_t := mk_PORT_DATA_SET {
  ptds_portIdentity : PortIdentity_t;
  ptds_portState : Z;
  ptds_logMinDelayReqInterval : Z;
  ptds_peerMeanPathDelay : TimeInterval_t;
  ptds_logAnnounceInterval : Z;
  ptds_announceReceiptTimeout : Z;
  ptds_logSyncInterval : Z;
  ptds_delayMechanism : Z;
  ptds_logMinPdelayReqInterval : Z;
  ptds_versionNumber : Z
}.
Record PRIORITY1_t := mk_PRIORITY1 {
  pr1_priority1 : Z
}.
Record PRIORITY2_t := mk_PRIORITY2 {
  pr2_priority2 : Z
}.
Record DOMAIN_t := mk_DOMAIN {
  dom_domainNumber : Z
}.
Record SLAVE_ONLY_t := mk_SLAVE_ONLY {
  so_flags : Z
}.
Record LOG_ANNOUNCE_INTERVAL_t := mk_LOG_ANNOUNCE_INTERVAL {
  lai_logAnnounceInterval : Z
}.
Record ANNOUNCE_RECEIPT_TIMEOUT_t := mk_ANNOUNCE_RECEIPT_TIMEOUT {
  art_announceReceiptTimeout : Z
}.
Record LOG_SYNC_INTERVAL_t := mk_LOG_SYNC_INTERVAL {
  lsi_logSyncInterval : Z
}.
Record VERSION_NUMBER_t := mk_VERSION_NUMBER {
  vn_versionNumber : Z
}.
Record TIME_t := mk_TIME {
  tm_currentTime : Timestamp_t
}.
Record CLOCK_ACCURACY_t := mk_CLOCK_ACCURACY {
  ca_clockAccuracy : Z
}.
Record UTC_PROPERTIES_t := mk_UTC_PROPERTIES {
  up_currentUtcOffset : Z;
  up_flags : Z
}.
Record TRACEABILITY_PROPERTIES_t := mk_TRACEABILITY_PROPERTIES {
  trp_flags : Z
}.
Record TIMESCALE_PROPERTIES_t := mk_TIMESCALE_PROPERTIES {
  tsp_flags : Z;
  tsp_timeSource : Z
}.
Record UNICAST_NEGOTIATION_ENABLE_t := mk_UNICAST_NEGOTIATION_ENABLE {
  une_flags : Z
}.
Record PATH_TRACE_LIST_t := mk_PATH_TRACE_LIST {
  ptl_pathSequence : list ClockIdentity_t
}.
Record PATH_TRACE_ENABLE_t := mk_PATH_TRACE_ENABLE {
  pte_flags : Z
}.
Record GRANDMASTER_CLUSTER_TABLE_t := mk_GRANDMASTER_CLUSTER_TABLE {
  gct_logQueryInterval : Z;
  gct_actualTableSize : Z;
  gct_PortAddress : list PortAddress_t
}.
Record UNICAST_MASTER_TABLE_t := mk_UNICAST_MASTER_TABLE {
  umt_logQueryInterval : Z;
  umt_actualTableSize : Z;
  umt_PortAddress : list PortAddress_t
}.
Record UNICAST_MASTER_MAX_TABLE_SIZE_t := mk_UNICAST_MASTER_MAX_TABLE_SIZE {
  umm_maxTableSize : Z
}.
Record ACCEPTABLE_MASTER_TABLE_t := mk_ACCEPTABLE_MASTER_TABLE {
  amt_actualTableSize : Z;
  amt_list : list AcceptableMaster_t
}.
Record ACCEPTABLE_MASTER_TABLE_ENABLED_t := mk_ACCEPTABLE_MASTER_TABLE_ENABLED {
  ame_flags : Z
}.
Record ACCEPTABLE_MASTER_MAX_TABLE_SIZE_t := mk_ACCEPTABLE_MASTER_MAX_TABLE_SIZE {
  amm_maxTableSize : Z
}.
Record ALTERNATE_MASTER_t := mk_ALTERNATE_MASTER {
  am_flags : Z;
  am_logAlternateMulticastSyncInterval : Z;
  am_numberOfAlternateMasters : Z
}.
Record ALTERNATE_TIME_OFFSET_ENABLE_t := mk_ALTERNATE_TIME_OFFSET_ENABLE {
  atoe_keyField : Z;
  atoe_flags : Z
}.
Record ALTERNATE_TIME_OFFSET_NAME_t := mk_ALTERNATE_TIME_OFFSET_NAME {
  aton_keyField : Z;
  aton_displayName : PTPText_t
}.
Record ALTERNATE_TIME_OFFSET_MAX_KEY_t := mk_ALTERNATE_TIME_OFFSET_MAX_KEY {
  atom_maxKey : Z
}.
Record ALTERNATE_TIME_OFFSET_PROPERTIES_t := mk_ALTERNATE_TIME_OFFSET_PROPERTIES {
  atop_keyField : Z;
  atop_currentOffset : Z;
  atop_jumpSeconds : Z;
  atop_timeOfNextJump : Z
}.
Record TRANSPARENT_CLOCK_PORT_DATA_SET_t := mk_TRANSPARENT_CLOCK_PORT_DATA_SET {
  tcp_portIdentity : PortIdentity_t;
  tcp_flags : Z;
  tcp_logMinPdelayReqInterval : Z;
  tcp_peerMeanPathDelay : TimeInterval_t
}.
Record LOG_MIN_PDELAY_REQ_INTERVAL_t := mk_LOG_MIN_PDELAY_REQ_INTERVAL {
  lmp_logMinPdelayReqInterval : Z
}.
Record TRANSPARENT_CLOCK_DEFAULT_DATA_SET_t := mk_TRANSPARENT_CLOCK_DEFAULT_DATA_SET {
  tcd_clockIdentity : ClockIdentity_t;
  tcd_numberPorts : Z;
  tcd_delayMechanism : Z;
  tcd_primaryDomain : Z
}.
Record PRIMARY_DOMAIN_t := mk_PRIMARY_DOMAIN {
  pd_primaryDomain : Z
}.
Record DELAY_MECHANISM_t := mk_DELAY_MECHANISM {
  dm_delayMechanism : Z
}.
Record EXTERNAL_PORT_CONFIGURATION_ENABLED_t := mk_EXTERNAL_PORT_CONFIGURATION_ENABLED {
  epc_flags : Z
}.
Record MASTER_ONLY_t := mk_MASTER_ONLY {
  mo_flags : Z
}.
Record HOLDOVER_UPGRADE_ENABLE_t := mk_HOLDOVER_UPGRADE_ENABLE {
  hue_flags : Z
}.
Record EXT_PORT_CONFIG_PORT_DATA_SET_t := mk_EXT_PORT_CONFIG_PORT_DATA_SET {
  epp_flags : Z;
  epp_desiredState : Z
}.
Record TIME_STATUS_NP_t := mk_TIME_STATUS_NP {
  tsn_master_offset : Z;
  tsn_ingress_time : Z;
  tsn_cumulativeScaledRateOffset : Z;
  tsn_scaledLastGmPhaseChange : Z;
  tsn_gmTimeBaseIndicator : Z;
  tsn_nanoseconds_msb : Z;
  tsn_nanoseconds_lsb : Z;
  tsn_fractional_nanoseconds : Z;
  tsn_gmPresent : Z;
  tsn_gmIdentity : ClockIdentity_t
}.
Record GRANDMASTER_SETTINGS_NP_t := mk_GRANDMASTER_SETTINGS_NP {
  gsn_clockQuality : ClockQuality_t;
  gsn_currentUtcOffset : Z;
  gsn_flags : Z;
  gsn_timeSource : Z
}.
Record PORT_DATA_SET_NP_t := mk_PORT_DATA_SET_NP {
  pdsn_neighborPropDelayThresh : Z;
  pdsn_asCapable : Z
}.
Record SUBSCRIBE_EVENTS_NP_t := mk_SUBSCRIBE_EVENTS_NP {
  sen_duration : Z;
  sen_bitmask : list byte
}.
Record PORT_PROPERTIES_NP_t := mk_PORT_PROPERTIES_NP {
  ppn_portIdentity : PortIdentity_t;
  ppn_portState : Z;
  ppn_timestamping : Z;
  ppn_interface : PTPText_t
}.
Record PORT_STATS_NP_t := mk_PORT_STATS_NP {
  psn_portIdentity : PortIdentity_t;
  psn_rxMsgType : list Z;
  psn_txMsgType : list Z
}.
Record SYNCHRONIZATION_UNCERTAIN_NP_t := mk_SYNCHRONIZATION_UNCERTAIN_NP {
  sun_val : Z
}.
Record PORT_SERVICE_STATS_NP_t := mk_PORT_SERVICE_STATS_NP {
  pss_portIdentity : PortIdentity_t;
  pss_announce_timeout : Z;
  pss_sync_timeout : Z;
  pss_delay_timeout : Z;
  pss_unicast_service_timeout : Z;
  pss_unicast_request_timeout : Z;
  pss_master_announce_timeout : Z;
  pss_master_sync_timeout : Z;
  pss_qualification_timeout : Z;
  pss_sync_mismatch : Z;
  pss_followup_mismatch : Z
}.
Record UNICAST_MASTER_TABLE_NP_t := mk_UNICAST_MASTER_TABLE_NP {
  umn_actualTableSize : Z;
  umn_unicastMasters : list LinuxptpUnicastMaster_t
}.
Record PORT_HWCLOCK_NP_t := mk_PORT_HWCLOCK_NP {
  phn_portIdentity : PortIdentity_t;
  phn_phc_index : Z;
  phn_flags : Z
}.
Record POWER_PROFILE_SETTINGS_NP_t := mk_POWER_PROFILE_SETTINGS_NP {
  ppsn_version : Z;
  ppsn_grandmasterID : Z;
  ppsn_grandmasterTimeInaccuracy : Z;
  ppsn_networkTimeInaccuracy : Z;
  ppsn_totalTimeInaccuracy : Z
}.
Record CMLDS_INFO_NP_t := mk_CMLDS_INFO_NP {
  cin_meanLinkDelay : TimeInterval_t;
  cin_scaledNeighborRateRatio : Z;
  cin_as_capable : Z
}.
Record PORT_CORRECTIONS_NP_t := mk_PORT_CORRECTIONS_NP {
  pcn_egressLatency : Z;
  pcn_ingressLatency : Z;
  pcn_delayAsymmetry : Z
}.
Record EXTERNAL_GRANDMASTER_PROPERTIES_NP_t := mk_EXTERNAL_GRANDMASTER_PROPERTIES_NP {
  egp_gmIdentity : ClockIdentity_t;
  egp_stepsRemoved : Z
}.

(** The SMPTE organization extension, a management TLV of its own
    ([src/src/sigTlvs.m4]). *)
Record SMPTE_ORGANIZATION_EXTENSION_t := mk_SMPTE_ORGANIZATION_EXTENSION {
  smp_organizationId : list byte;
  smp_organizationSubType : list byte;
  smp_defaultSystemFrameRate_numerator : Z;
  smp_defaultSystemFrameRate_denominator : Z;
  smp_masterLockingStatus : Z;
  smp_timeAddressFlags : Z;
  smp_currentLocalOffset : Z;
  smp_jumpSeconds : Z;
  smp_timeOfNextJump : Z;
  smp_timeOfNextJam : Z;
  smp_timeOfPreviousJam : Z;
  smp_previousJamLocalOffset : Z;
  smp_daylightSaving : Z;
  smp_leapSecondJump : Z
}.

(** What [new] leaves in the structure: empty strings and lists, and integers
    whose value is not used (see [tlv_init_irrelevant]). *)

Definition init_CLOCK_DESCRIPTION : CLOCK_DESCRIPTION_t :=
  mk_CLOCK_DESCRIPTION 0 zero_PTPText 0 [] zero_PortAddress (repeat x00 3) zero_PTPText zero_PTPText zero_PTPText (repeat x00 6).
Definition init_USER_DESCRIPTION : USER_DESCRIPTION_t :=
  mk_USER_DESCRIPTION zero_PTPText.
Definition init_INITIALIZE : INITIALIZE_t :=
  mk_INITIALIZE 0.
Definition init_FAULT_LOG : FAULT_LOG_t :=
  mk_FAULT_LOG 0 [].
Definition init_DEFAULT_DATA_SET : DEFAULT_DATA_SET_t :=
  mk_DEFAULT_DATA_SET 0 0 0 zero_ClockQuality 0 zero_ClockIdentity 0.
Definition init_CURRENT_DATA_SET : CURRENT_DATA_SET_t :=
  mk_CURRENT_DATA_SET 0 zero_TimeInterval zero_TimeInterval.
Definition init_PARENT_DATA_SET : PARENT_DATA_SET_t :=
  mk_PARENT_DATA_SET zero_PortIdentity 0 0 0 0 zero_ClockQuality 0 zero_ClockIdentity.
Definition init_TIME_PROPERTIES_DATA_SET : TIME_PROPERTIES_DATA_SET_t :=
  mk_TIME_PROPERTIES_DATA_SET 0 0 0.
Definition init_PORT_DATA_SET : PORT_DATA_SET_t :=
  mk_PORT_DATA_SET zero_PortIdentity 0 0 zero_TimeInterval 0 0 0 0 0 0.
Definition init_PRIORITY1 : PRIORITY1_t :=
  mk_PRIORITY1 0.
Definition init_PRIORITY2 : PRIORITY2_t :=
  mk_PRIORITY2 0.
Definition init_DOMAIN : DOMAIN_t :=
  mk_DOMAIN 0.
Definition init_SLAVE_ONLY : SLAVE_ONLY_t :=
  mk_SLAVE_ONLY 0.
Definition init_LOG_ANNOUNCE_INTERVAL : LOG_ANNOUNCE_INTERVAL_t :=
  mk_LOG_ANNOUNCE_INTERVAL 0.
Definition init_ANNOUNCE_RECEIPT_TIMEOUT : ANNOUNCE_RECEIPT_TIMEOUT_t :=
  mk_ANNOUNCE_RECEIPT_TIMEOUT 0.
Definition init_LOG_SYNC_INTERVAL : LOG_SYNC_INTERVAL_t :=
  mk_LOG_SYNC_INTERVAL 0.
Definition init_VERSION_NUMBER : VERSION_NUMBER_t :=
  mk_VERSION_NUMBER 0.
Definition init_TIME : TIME_t :=
  mk_TIME zero_Timestamp.
Definition init_CLOCK_ACCURACY : CLOCK_ACCURACY_t :=
  mk_CLOCK_ACCURACY 0.
Definition init_UTC_PROPERTIES : UTC_PROPERTIES_t :=
  mk_UTC_PROPERTIES 0 0.
Definition init_TRACEABILITY_PROPERTIES : TRACEABILITY_PROPERTIES_t :=
  mk_TRACEABILITY_PROPERTIES 0.
Definition init_TIMESCALE_PROPERTIES : TIMESCALE_PROPERTIES_t :=
  mk_TIMESCALE_PROPERTIES 0 0.
Definition init_UNICAST_NEGOTIATION_ENABLE : UNICAST_NEGOTIATION_ENABLE_t :=
  mk_UNICAST_NEGOTIATION_ENABLE 0.
Definition init_PATH_TRACE_LIST : PATH_TRACE_LIST_t :=
  mk_PATH_TRACE_LIST [].
Definition init_PATH_TRACE_ENABLE : PATH_TRACE_ENABLE_t :=
  mk_PATH_TRACE_ENABLE 0.
Definition init_GRANDMASTER_CLUSTER_TABLE : GRANDMASTER_CLUSTER_TABLE_t :=
  mk_GRANDMASTER_CLUSTER_TABLE 0 0 [].
Definition init_UNICAST_MASTER_TABLE : UNICAST_MASTER_TABLE_t :=
  mk_UNICAST_MASTER_TABLE 0 0 [].
Definition init_UNICAST_MASTER_MAX_TABLE_SIZE : UNICAST_MASTER_MAX_TABLE_SIZE_t :=
  mk_UNICAST_MASTER_MAX_TABLE_SIZE 0.
Definition init_ACCEPTABLE_MASTER_TABLE : ACCEPTABLE_MASTER_TABLE_t :=
  mk_ACCEPTABLE_MASTER_TABLE 0 [].
Definition init_ACCEPTABLE_MASTER_TABLE_ENABLED : ACCEPTABLE_MASTER_TABLE_ENABLED_t :=
  mk_ACCEPTABLE_MASTER_TABLE_ENABLED 0.
Definition init_ACCEPTABLE_MASTER_MAX_TABLE_SIZE : ACCEPTABLE_MASTER_MAX_TABLE_SIZE_t :=
  mk_ACCEPTABLE_MASTER_MAX_TABLE_SIZE 0.
Definition init_ALTERNATE_MASTER : ALTERNATE_MASTER_t :=
  mk_ALTERNATE_MASTER 0 0 0.
Definition init_ALTERNATE_TIME_OFFSET_ENABLE : ALTERNATE_TIME_OFFSET_ENABLE_t :=
  mk_ALTERNATE_TIME_OFFSET_ENABLE 0 0.
Definition init_ALTERNATE_TIME_OFFSET_NAME : ALTERNATE_TIME_OFFSET_NAME_t :=
  mk_ALTERNATE_TIME_OFFSET_NAME 0 zero_PTPText.
Definition init_ALTERNATE_TIME_OFFSET_MAX_KEY : ALTERNATE_TIME_OFFSET_MAX_KEY_t :=
  mk_ALTERNATE_TIME_OFFSET_MAX_KEY 0.
Definition init_ALTERNATE_TIME_OFFSET_PROPERTIES : ALTERNATE_TIME_OFFSET_PROPERTIES_t :=
  mk_ALTERNATE_TIME_OFFSET_PROPERTIES 0 0 0 0.
Definition init_TRANSPARENT_CLOCK_PORT_DATA_SET : TRANSPARENT_CLOCK_PORT_DATA_SET_t :=
  mk_TRANSPARENT_CLOCK_PORT_DATA_SET zero_PortIdentity 0 0 zero_TimeInterval.
Definition init_LOG_MIN_PDELAY_REQ_INTERVAL : LOG_MIN_PDELAY_REQ_INTERVAL_t :=
  mk_LOG_MIN_PDELAY_REQ_INTERVAL 0.
Definition init_TRANSPARENT_CLOCK_DEFAULT_DATA_SET : TRANSPARENT_CLOCK_DEFAULT_DATA_SET_t :=
  mk_TRANSPARENT_CLOCK_DEFAULT_DATA_SET zero_ClockIdentity 0 0 0.
Definition init_PRIMARY_DOMAIN : PRIMARY_DOMAIN_t :=
  mk_PRIMARY_DOMAIN 0.
Definition init_DELAY_MECHANISM : DELAY_MECHANISM_t :=
  mk_DELAY_MECHANISM 0.
Definition init_EXTERNAL_PORT_CONFIGURATION_ENABLED : EXTERNAL_PORT_CONFIGURATION_ENABLED_t :=
  mk_EXTERNAL_PORT_CONFIGURATION_ENABLED 0.
Definition init_MASTER_ONLY : MASTER_ONLY_t :=
  mk_MASTER_ONLY 0.
Definition init_HOLDOVER_UPGRADE_ENABLE : HOLDOVER_UPGRADE_ENABLE_t :=
  mk_HOLDOVER_UPGRADE_ENABLE 0.
Definition init_EXT_PORT_CONFIG_PORT_DATA_SET : EXT_PORT_CONFIG_PORT_DATA_SET_t :=
  mk_EXT_PORT_CONFIG_PORT_DATA_SET 0 0.
Definition init_TIME_STATUS_NP : TIME_STATUS_NP_t :=
  mk_TIME_STATUS_NP 0 0 0 0 0 0 0 0 0 zero_ClockIdentity.
Definition init_GRANDMASTER_SETTINGS_NP : GRANDMASTER_SETTINGS_NP_t :=
  mk_GRANDMASTER_SETTINGS_NP zero_ClockQuality 0 0 0.
Definition init_PORT_DATA_SET_NP : PORT_DATA_SET_NP_t :=
  mk_PORT_DATA_SET_NP 0 0.
Definition init_SUBSCRIBE_EVENTS_NP : SUBSCRIBE_EVENTS_NP_t :=
  mk_SUBSCRIBE_EVENTS_NP 0 (repeat x00 64).
Definition init_PORT_PROPERTIES_NP : PORT_PROPERTIES_NP_t :=
  mk_PORT_PROPERTIES_NP zero_PortIdentity 0 0 zero_PTPText.
Definition init_PORT_STATS_NP : PORT_STATS_NP_t :=
  mk_PORT_STATS_NP zero_PortIdentity (repeat 0 16) (repeat 0 16).
Definition init_SYNCHRONIZATION_UNCERTAIN_NP : SYNCHRONIZATION_UNCERTAIN_NP_t :=
  mk_SYNCHRONIZATION_UNCERTAIN_NP 0.
Definition init_PORT_SERVICE_STATS_NP : PORT_SERVICE_STATS_NP_t :=
  mk_PORT_SERVICE_STATS_NP zero_PortIdentity 0 0 0 0 0 0 0 0 0 0.
Definition init_UNICAST_MASTER_TABLE_NP : UNICAST_MASTER_TABLE_NP_t :=
  mk_UNICAST_MASTER_TABLE_NP 0 [].
Definition init_PORT_HWCLOCK_NP : PORT_HWCLOCK_NP_t :=
  mk_PORT_HWCLOCK_NP zero_PortIdentity 0 0.
Definition init_POWER_PROFILE_SETTINGS_NP : POWER_PROFILE_SETTINGS_NP_t :=
  mk_POWER_PROFILE_SETTINGS_NP 0 0 0 0 0.
Definition init_CMLDS_INFO_NP : CMLDS_INFO_NP_t :=
  mk_CMLDS_INFO_NP zero_TimeInterval 0 0.
Definition init_PORT_CORRECTIONS_NP : PORT_CORRECTIONS_NP_t :=
  mk_PORT_CORRECTIONS_NP 0 0 0.
Definition init_EXTERNAL_GRANDMASTER_PROPERTIES_NP : EXTERNAL_GRANDMASTER_PROPERTIES_NP_t :=
  mk_EXTERNAL_GRANDMASTER_PROPERTIES_NP zero_ClockIdentity 0.
Definition init_SMPTE_ORGANIZATION_EXTENSION : SMPTE_ORGANIZATION_EXTENSION_t :=
  mk_SMPTE_ORGANIZATION_EXTENSION (repeat x00 3) (repeat x00 3) 0 0 0 0 0 0 0 0 0 0 0 0.

(** ** Build and parse functions *)

Definition CLOCK_DESCRIPTION_f (d : CLOCK_DESCRIPTION_t) : M CLOCK_DESCRIPTION_t :=
  let alen := uwrap 16 (len (cd_physicalAddress d)) in
  clockType <- proc_u16 (cd_clockType d) ;;
  layer <- proc_PTPText (cd_physicalLayerProtocol d) ;;
  alen <- proc_u16 alen ;;
  addr <- proc_binary (cd_physicalAddress d) alen ;;
  protocol <- proc_PortAddress (cd_protocolAddress d) ;;
  manufacturer <- proc_octets (cd_manufacturerIdentity d) 3 ;;
  procRes ;;;
  product <- proc_PTPText (cd_productDescription d) ;;
  revision <- proc_PTPText (cd_revisionData d) ;;
  user <- proc_PTPText (cd_userDescription d) ;;
  profile <- proc_octets (cd_profileIdentity d) 6 ;;
  ret (mk_CLOCK_DESCRIPTION clockType layer alen addr protocol manufacturer
         product revision user profile).
Definition USER_DESCRIPTION_f (d : USER_DESCRIPTION_t) : M USER_DESCRIPTION_t :=
  userDescription <- proc_PTPText (ud_userDescription d) ;;
  ret (mk_USER_DESCRIPTION userDescription).
Definition INITIALIZE_f (d : INITIALIZE_t) : M INITIALIZE_t :=
  initializationKey <- proc_u16 (ini_initializationKey d) ;;
  ret (mk_INITIALIZE initializationKey).
Definition FAULT_LOG_f (d : FAULT_LOG_t) : M FAULT_LOG_t :=
  build <- ask_build ;;
  count <- proc_u16 (if build then uwrap 16 (len (fl_faultRecords d))
             else fl_numberOfFaultRecords d) ;;
  vec <- vector_f proc_FaultRecord zero_FaultRecord count (fl_faultRecords d) ;;
  ret (mk_FAULT_LOG count vec).
Definition DEFAULT_DATA_SET_f (d : DEFAULT_DATA_SET_t) : M DEFAULT_DATA_SET_t :=
  flags <- procFlags (dds_flags d) DEFAULT_DATA_SET_flagsMask ;;
  procRes ;;;
  numberPorts <- proc_u16 (dds_numberPorts d) ;;
  priority1 <- proc_u8 (dds_priority1 d) ;;
  clockQuality <- proc_ClockQuality (dds_clockQuality d) ;;
  priority2 <- proc_u8 (dds_priority2 d) ;;
  clockIdentity <- proc_ClockIdentity (dds_clockIdentity d) ;;
  domainNumber <- proc_u8 (dds_domainNumber d) ;;
  ret (mk_DEFAULT_DATA_SET flags numberPorts priority1 clockQuality priority2
         clockIdentity domainNumber).
Definition CURRENT_DATA_SET_f (d : CURRENT_DATA_SET_t) : M CURRENT_DATA_SET_t :=
  stepsRemoved <- proc_u16 (cds_stepsRemoved d) ;;
  offsetFromMaster <- proc_TimeInterval (cds_offsetFromMaster d) ;;
  meanPathDelay <- proc_TimeInterval (cds_meanPathDelay d) ;;
  ret (mk_CURRENT_DATA_SET stepsRemoved offsetFromMaster meanPathDelay).
Definition PARENT_DATA_SET_f (d : PARENT_DATA_SET_t) : M PARENT_DATA_SET_t :=
  parentPortIdentity <- proc_PortIdentity (pds_parentPortIdentity d) ;;
  flags <- procFlags (pds_flags d) PARENT_DATA_SET_flagsMask ;;
  procRes ;;;
  observedParentOffsetScaledLogVariance <- proc_u16 (pds_observedParentOffsetScaledLogVariance d) ;;
  observedParentClockPhaseChangeRate <- proc_i32 (pds_observedParentClockPhaseChangeRate d) ;;
  grandmasterPriority1 <- proc_u8 (pds_grandmasterPriority1 d) ;;
  grandmasterClockQuality <- proc_ClockQuality (pds_grandmasterClockQuality d) ;;
  grandmasterPriority2 <- proc_u8 (pds_grandmasterPriority2 d) ;;
  grandmasterIdentity <- proc_ClockIdentity (pds_grandmasterIdentity d) ;;
  ret (mk_PARENT_DATA_SET parentPortIdentity flags observedParentOffsetScaledLogVariance
         observedParentClockPhaseChangeRate grandmasterPriority1 grandmasterClockQuality
         grandmasterPriority2 grandmasterIdentity).
Definition TIME_PROPERTIES_DATA_SET_f (d : TIME_PROPERTIES_DATA_SET_t) : M TIME_PROPERTIES_DATA_SET_t :=
  currentUtcOffset <- proc_i16 (tpds_currentUtcOffset d) ;;
  flags <- procFlags (tpds_flags d) TIME_PROPERTIES_DATA_SET_flagsMask ;;
  timeSource <- procE8 (tpds_timeSource d) ;;
  ret (mk_TIME_PROPERTIES_DATA_SET currentUtcOffset flags timeSource).
Definition PORT_DATA_SET_f (d : PORT_DATA_SET_t) : M PORT_DATA_SET_t :=
  portIdentity <- proc_PortIdentity (ptds_portIdentity d) ;;
  portState <- procE8 (ptds_portState d) ;;
  logMinDelayReqInterval <- proc_i8 (ptds_logMinDelayReqInterval d) ;;
  peerMeanPathDelay <- proc_TimeInterval (ptds_peerMeanPathDelay d) ;;
  logAnnounceInterval <- proc_i8 (ptds_logAnnounceInterval d) ;;
  announceReceiptTimeout <- proc_u8 (ptds_announceReceiptTimeout d) ;;
  logSyncInterval <- proc_i8 (ptds_logSyncInterval d) ;;
  delayMechanism <- procE8 (ptds_delayMechanism d) ;;
  logMinPdelayReqInterval <- proc_i8 (ptds_logMinPdelayReqInterval d) ;;
  versionNumber <- proc_u8 (ptds_versionNumber d) ;;
  ret (mk_PORT_DATA_SET portIdentity portState logMinDelayReqInterval peerMeanPathDelay
         logAnnounceInterval announceReceiptTimeout logSyncInterval delayMechanism
         logMinPdelayReqInterval versionNumber).
Definition PRIORITY1_f (d : PRIORITY1_t) : M PRIORITY1_t :=
  priority1 <- proc_u8 (pr1_priority1 d) ;;
  ret (mk_PRIORITY1 priority1).
Definition PRIORITY2_f (d : PRIORITY2_t) : M PRIORITY2_t :=
  priority2 <- proc_u8 (pr2_priority2 d) ;;
  ret (mk_PRIORITY2 priority2).
Definition DOMAIN_f (d : DOMAIN_t) : M DOMAIN_t :=
  domainNumber <- proc_u8 (dom_domainNumber d) ;;
  ret (mk_DOMAIN domainNumber).
Definition SLAVE_ONLY_f (d : SLAVE_ONLY_t) : M SLAVE_ONLY_t :=
  flags <- procFlags (so_flags d) SLAVE_ONLY_flagsMask ;;
  ret (mk_SLAVE_ONLY flags).
Definition LOG_ANNOUNCE_INTERVAL_f (d : LOG_ANNOUNCE_INTERVAL_t) : M LOG_ANNOUNCE_INTERVAL_t :=
  logAnnounceInterval <- proc_i8 (lai_logAnnounceInterval d) ;;
  ret (mk_LOG_ANNOUNCE_INTERVAL logAnnounceInterval).
Definition ANNOUNCE_RECEIPT_TIMEOUT_f (d : ANNOUNCE_RECEIPT_TIMEOUT_t) : M ANNOUNCE_RECEIPT_TIMEOUT_t :=
  announceReceiptTimeout <- proc_u8 (art_announceReceiptTimeout d) ;;
  ret (mk_ANNOUNCE_RECEIPT_TIMEOUT announceReceiptTimeout).
Definition LOG_SYNC_INTERVAL_f (d : LOG_SYNC_INTERVAL_t) : M LOG_SYNC_INTERVAL_t :=
  logSyncInterval <- proc_i8 (lsi_logSyncInterval d) ;;
  ret (mk_LOG_SYNC_INTERVAL logSyncInterval).
Definition VERSION_NUMBER_f (d : VERSION_NUMBER_t) : M VERSION_NUMBER_t :=
  versionNumber <- proc_u8 (vn_versionNumber d) ;;
  ret (mk_VERSION_NUMBER versionNumber).
Definition TIME_f (d : TIME_t) : M TIME_t :=
  currentTime <- proc_Timestamp (tm_currentTime d) ;;
  ret (mk_TIME currentTime).
Definition CLOCK_ACCURACY_f (d : CLOCK_ACCURACY_t) : M CLOCK_ACCURACY_t :=
  clockAccuracy <- procE8 (ca_clockAccuracy d) ;;
  ret (mk_CLOCK_ACCURACY clockAccuracy).
Definition UTC_PROPERTIES_f (d : UTC_PROPERTIES_t) : M UTC_PROPERTIES_t :=
  currentUtcOffset <- proc_i16 (up_currentUtcOffset d) ;;
  flags <- procFlags (up_flags d) UTC_PROPERTIES_flagsMask ;;
  ret (mk_UTC_PROPERTIES currentUtcOffset flags).
Definition TRACEABILITY_PROPERTIES_f (d : TRACEABILITY_PROPERTIES_t) : M TRACEABILITY_PROPERTIES_t :=
  flags <- procFlags (trp_flags d) TRACEABILITY_PROPERTIES_flagsMask ;;
  ret (mk_TRACEABILITY_PROPERTIES flags).
Definition TIMESCALE_PROPERTIES_f (d : TIMESCALE_PROPERTIES_t) : M TIMESCALE_PROPERTIES_t :=
  flags <- procFlags (tsp_flags d) TIMESCALE_PROPERTIES_flagsMask ;;
  timeSource <- procE8 (tsp_timeSource d) ;;
  ret (mk_TIMESCALE_PROPERTIES flags timeSource).
Definition UNICAST_NEGOTIATION_ENABLE_f (d : UNICAST_NEGOTIATION_ENABLE_t) : M UNICAST_NEGOTIATION_ENABLE_t :=
  flags <- procFlags (une_flags d) UNICAST_NEGOTIATION_ENABLE_flagsMask ;;
  ret (mk_UNICAST_NEGOTIATION_ENABLE flags).
Definition PATH_TRACE_LIST_f (d : PATH_TRACE_LIST_t) : M PATH_TRACE_LIST_t :=
  vec <- vector_o proc_ClockIdentity zero_ClockIdentity ClockIdentity_size (ptl_pathSequence d) ;;
  ret (mk_PATH_TRACE_LIST vec).
Definition PATH_TRACE_ENABLE_f (d : PATH_TRACE_ENABLE_t) : M PATH_TRACE_ENABLE_t :=
  flags <- procFlags (pte_flags d) PATH_TRACE_ENABLE_flagsMask ;;
  ret (mk_PATH_TRACE_ENABLE flags).
Definition GRANDMASTER_CLUSTER_TABLE_f (d : GRANDMASTER_CLUSTER_TABLE_t) : M GRANDMASTER_CLUSTER_TABLE_t :=
  build <- ask_build ;;
  logQueryInterval <- proc_i8 (gct_logQueryInterval d) ;;
  count <- proc_u8 (if build then uwrap 8 (len (gct_PortAddress d))
             else gct_actualTableSize d) ;;
  vec <- vector_f proc_PortAddress zero_PortAddress count (gct_PortAddress d) ;;
  ret (mk_GRANDMASTER_CLUSTER_TABLE logQueryInterval count vec).
Definition UNICAST_MASTER_TABLE_f (d : UNICAST_MASTER_TABLE_t) : M UNICAST_MASTER_TABLE_t :=
  build <- ask_build ;;
  logQueryInterval <- proc_i8 (umt_logQueryInterval d) ;;
  count <- proc_u16 (if build then uwrap 16 (len (umt_PortAddress d))
             else umt_actualTableSize d) ;;
  vec <- vector_f proc_PortAddress zero_PortAddress count (umt_PortAddress d) ;;
  ret (mk_UNICAST_MASTER_TABLE logQueryInterval count vec).
Definition UNICAST_MASTER_MAX_TABLE_SIZE_f (d : UNICAST_MASTER_MAX_TABLE_SIZE_t) : M UNICAST_MASTER_MAX_TABLE_SIZE_t :=
  maxTableSize <- proc_u16 (umm_maxTableSize d) ;;
  ret (mk_UNICAST_MASTER_MAX_TABLE_SIZE maxTableSize).
Definition ACCEPTABLE_MASTER_TABLE_f (d : ACCEPTABLE_MASTER_TABLE_t) : M ACCEPTABLE_MASTER_TABLE_t :=
  build <- ask_build ;;
  count <- proc_i16 (if build then swrap 16 (len (amt_list d))
             else amt_actualTableSize d) ;;
  vec <- vector_f proc_AcceptableMaster zero_AcceptableMaster count (amt_list d) ;;
  ret (mk_ACCEPTABLE_MASTER_TABLE count vec).
Definition ACCEPTABLE_MASTER_TABLE_ENABLED_f (d : ACCEPTABLE_MASTER_TABLE_ENABLED_t) : M ACCEPTABLE_MASTER_TABLE_ENABLED_t :=
  flags <- procFlags (ame_flags d) ACCEPTABLE_MASTER_TABLE_ENABLED_flagsMask ;;
  ret (mk_ACCEPTABLE_MASTER_TABLE_ENABLED flags).
Definition ACCEPTABLE_MASTER_MAX_TABLE_SIZE_f (d : ACCEPTABLE_MASTER_MAX_TABLE_SIZE_t) : M ACCEPTABLE_MASTER_MAX_TABLE_SIZE_t :=
  maxTableSize <- proc_u16 (amm_maxTableSize d) ;;
  ret (mk_ACCEPTABLE_MASTER_MAX_TABLE_SIZE maxTableSize).
Definition ALTERNATE_MASTER_f (d : ALTERNATE_MASTER_t) : M ALTERNATE_MASTER_t :=
  flags <- procFlags (am_flags d) ALTERNATE_MASTER_flagsMask ;;
  logAlternateMulticastSyncInterval <- proc_i8 (am_logAlternateMulticastSyncInterval d) ;;
  numberOfAlternateMasters <- proc_u8 (am_numberOfAlternateMasters d) ;;
  ret (mk_ALTERNATE_MASTER flags logAlternateMulticastSyncInterval
         numberOfAlternateMasters).
Definition ALTERNATE_TIME_OFFSET_ENABLE_f (d : ALTERNATE_TIME_OFFSET_ENABLE_t) : M ALTERNATE_TIME_OFFSET_ENABLE_t :=
  keyField <- proc_u8 (atoe_keyField d) ;;
  flags <- procFlags (atoe_flags d) ALTERNATE_TIME_OFFSET_ENABLE_flagsMask ;;
  ret (mk_ALTERNATE_TIME_OFFSET_ENABLE keyField flags).
Definition ALTERNATE_TIME_OFFSET_NAME_f (d : ALTERNATE_TIME_OFFSET_NAME_t) : M ALTERNATE_TIME_OFFSET_NAME_t :=
  keyField <- proc_u8 (aton_keyField d) ;;
  displayName <- proc_PTPText (aton_displayName d) ;;
  ret (mk_ALTERNATE_TIME_OFFSET_NAME keyField displayName).
Definition ALTERNATE_TIME_OFFSET_MAX_KEY_f (d : ALTERNATE_TIME_OFFSET_MAX_KEY_t) : M ALTERNATE_TIME_OFFSET_MAX_KEY_t :=
  maxKey <- proc_u8 (atom_maxKey d) ;;
  ret (mk_ALTERNATE_TIME_OFFSET_MAX_KEY maxKey).
Definition ALTERNATE_TIME_OFFSET_PROPERTIES_f (d : ALTERNATE_TIME_OFFSET_PROPERTIES_t) : M ALTERNATE_TIME_OFFSET_PROPERTIES_t :=
  keyField <- proc_u8 (atop_keyField d) ;;
  currentOffset <- proc_i32 (atop_currentOffset d) ;;
  jumpSeconds <- proc_i32 (atop_jumpSeconds d) ;;
  timeOfNextJump <- proc48u (atop_timeOfNextJump d) ;;
  ret (mk_ALTERNATE_TIME_OFFSET_PROPERTIES keyField currentOffset jumpSeconds
         timeOfNextJump).
Definition TRANSPARENT_CLOCK_PORT_DATA_SET_f (d : TRANSPARENT_CLOCK_PORT_DATA_SET_t) : M TRANSPARENT_CLOCK_PORT_DATA_SET_t :=
  portIdentity <- proc_PortIdentity (tcp_portIdentity d) ;;
  flags <- procFlags (tcp_flags d) TRANSPARENT_CLOCK_PORT_DATA_SET_flagsMask ;;
  logMinPdelayReqInterval <- proc_i8 (tcp_logMinPdelayReqInterval d) ;;
  peerMeanPathDelay <- proc_TimeInterval (tcp_peerMeanPathDelay d) ;;
  ret (mk_TRANSPARENT_CLOCK_PORT_DATA_SET portIdentity flags logMinPdelayReqInterval
         peerMeanPathDelay).
Definition LOG_MIN_PDELAY_REQ_INTERVAL_f (d : LOG_MIN_PDELAY_REQ_INTERVAL_t) : M LOG_MIN_PDELAY_REQ_INTERVAL_t :=
  logMinPdelayReqInterval <- proc_i8 (lmp_logMinPdelayReqInterval d) ;;
  ret (mk_LOG_MIN_PDELAY_REQ_INTERVAL logMinPdelayReqInterval).
Definition TRANSPARENT_CLOCK_DEFAULT_DATA_SET_f (d : TRANSPARENT_CLOCK_DEFAULT_DATA_SET_t) : M TRANSPARENT_CLOCK_DEFAULT_DATA_SET_t :=
  clockIdentity <- proc_ClockIdentity (tcd_clockIdentity d) ;;
  numberPorts <- proc_u16 (tcd_numberPorts d) ;;
  delayMechanism <- procE8 (tcd_delayMechanism d) ;;
  primaryDomain <- proc_u8 (tcd_primaryDomain d) ;;
  ret (mk_TRANSPARENT_CLOCK_DEFAULT_DATA_SET clockIdentity numberPorts delayMechanism
         primaryDomain).
Definition PRIMARY_DOMAIN_f (d : PRIMARY_DOMAIN_t) : M PRIMARY_DOMAIN_t :=
  primaryDomain <- proc_u8 (pd_primaryDomain d) ;;
  ret (mk_PRIMARY_DOMAIN primaryDomain).
Definition DELAY_MECHANISM_f (d : DELAY_MECHANISM_t) : M DELAY_MECHANISM_t :=
  delayMechanism <- procE8 (dm_delayMechanism d) ;;
  ret (mk_DELAY_MECHANISM delayMechanism).
Definition EXTERNAL_PORT_CONFIGURATION_ENABLED_f (d : EXTERNAL_PORT_CONFIGURATION_ENABLED_t) : M EXTERNAL_PORT_CONFIGURATION_ENABLED_t :=
  flags <- procFlags (epc_flags d) EXTERNAL_PORT_CONFIGURATION_ENABLED_flagsMask ;;
  ret (mk_EXTERNAL_PORT_CONFIGURATION_ENABLED flags).
Definition MASTER_ONLY_f (d : MASTER_ONLY_t) : M MASTER_ONLY_t :=
  flags <- procFlags (mo_flags d) MASTER_ONLY_flagsMask ;;
  ret (mk_MASTER_ONLY flags).
Definition HOLDOVER_UPGRADE_ENABLE_f (d : HOLDOVER_UPGRADE_ENABLE_t) : M HOLDOVER_UPGRADE_ENABLE_t :=
  flags <- procFlags (hue_flags d) HOLDOVER_UPGRADE_ENABLE_flagsMask ;;
  ret (mk_HOLDOVER_UPGRADE_ENABLE flags).
Definition EXT_PORT_CONFIG_PORT_DATA_SET_f (d : EXT_PORT_CONFIG_PORT_DATA_SET_t) : M EXT_PORT_CONFIG_PORT_DATA_SET_t :=
  flags <- procFlags (epp_flags d) EXT_PORT_CONFIG_PORT_DATA_SET_flagsMask ;;
  desiredState <- procE8 (epp_desiredState d) ;;
  ret (mk_EXT_PORT_CONFIG_PORT_DATA_SET flags desiredState).
Definition TIME_STATUS_NP_f (d : TIME_STATUS_NP_t) : M TIME_STATUS_NP_t :=
  master_offset <- proc_i64 (tsn_master_offset d) ;;
  ingress_time <- proc_i64 (tsn_ingress_time d) ;;
  cumulativeScaledRateOffset <- proc_i32 (tsn_cumulativeScaledRateOffset d) ;;
  scaledLastGmPhaseChange <- proc_i32 (tsn_scaledLastGmPhaseChange d) ;;
  gmTimeBaseIndicator <- proc_u16 (tsn_gmTimeBaseIndicator d) ;;
  nanoseconds_msb <- proc_u16 (tsn_nanoseconds_msb d) ;;
  nanoseconds_lsb <- proc_u64 (tsn_nanoseconds_lsb d) ;;
  fractional_nanoseconds <- proc_u16 (tsn_fractional_nanoseconds d) ;;
  gmPresent <- proc_i32 (tsn_gmPresent d) ;;
  gmIdentity <- proc_ClockIdentity (tsn_gmIdentity d) ;;
  ret (mk_TIME_STATUS_NP master_offset ingress_time cumulativeScaledRateOffset
         scaledLastGmPhaseChange gmTimeBaseIndicator nanoseconds_msb nanoseconds_lsb
         fractional_nanoseconds gmPresent gmIdentity).
Definition GRANDMASTER_SETTINGS_NP_f (d : GRANDMASTER_SETTINGS_NP_t) : M GRANDMASTER_SETTINGS_NP_t :=
  clockQuality <- proc_ClockQuality (gsn_clockQuality d) ;;
  currentUtcOffset <- proc_i16 (gsn_currentUtcOffset d) ;;
  flags <- procFlags (gsn_flags d) GRANDMASTER_SETTINGS_NP_flagsMask ;;
  timeSource <- procE8 (gsn_timeSource d) ;;
  ret (mk_GRANDMASTER_SETTINGS_NP clockQuality currentUtcOffset flags timeSource).
Definition PORT_DATA_SET_NP_f (d : PORT_DATA_SET_NP_t) : M PORT_DATA_SET_NP_t :=
  neighborPropDelayThresh <- proc_u32 (pdsn_neighborPropDelayThresh d) ;;
  asCapable <- proc_i32 (pdsn_asCapable d) ;;
  ret (mk_PORT_DATA_SET_NP neighborPropDelayThresh asCapable).
Definition SUBSCRIBE_EVENTS_NP_f (d : SUBSCRIBE_EVENTS_NP_t) : M SUBSCRIBE_EVENTS_NP_t :=
  duration <- proc_u16 (sen_duration d) ;;
  bitmask <- proc_octets (sen_bitmask d) 64 ;;
  ret (mk_SUBSCRIBE_EVENTS_NP duration bitmask).
Definition PORT_PROPERTIES_NP_f (d : PORT_PROPERTIES_NP_t) : M PORT_PROPERTIES_NP_t :=
  portIdentity <- proc_PortIdentity (ppn_portIdentity d) ;;
  portState <- procE8 (ppn_portState d) ;;
  timestamping <- procE8 (ppn_timestamping d) ;;
  interface <- proc_PTPText (ppn_interface d) ;;
  ret (mk_PORT_PROPERTIES_NP portIdentity portState timestamping interface).
Definition PORT_STATS_NP_f (d : PORT_STATS_NP_t) : M PORT_STATS_NP_t :=
  portIdentity <- proc_PortIdentity (psn_portIdentity d) ;;
  rxMsgType <- procLe_array (psn_rxMsgType d) ;;
  txMsgType <- procLe_array (psn_txMsgType d) ;;
  ret (mk_PORT_STATS_NP portIdentity rxMsgType txMsgType).
Definition SYNCHRONIZATION_UNCERTAIN_NP_f (d : SYNCHRONIZATION_UNCERTAIN_NP_t) : M SYNCHRONIZATION_UNCERTAIN_NP_t :=
  val <- proc_u8 (sun_val d) ;;
  ret (mk_SYNCHRONIZATION_UNCERTAIN_NP val).
Definition PORT_SERVICE_STATS_NP_f (d : PORT_SERVICE_STATS_NP_t) : M PORT_SERVICE_STATS_NP_t :=
  portIdentity <- proc_PortIdentity (pss_portIdentity d) ;;
  announce_timeout <- procLe (pss_announce_timeout d) ;;
  sync_timeout <- procLe (pss_sync_timeout d) ;;
  delay_timeout <- procLe (pss_delay_timeout d) ;;
  unicast_service_timeout <- procLe (pss_unicast_service_timeout d) ;;
  unicast_request_timeout <- procLe (pss_unicast_request_timeout d) ;;
  master_announce_timeout <- procLe (pss_master_announce_timeout d) ;;
  master_sync_timeout <- procLe (pss_master_sync_timeout d) ;;
  qualification_timeout <- procLe (pss_qualification_timeout d) ;;
  sync_mismatch <- procLe (pss_sync_mismatch d) ;;
  followup_mismatch <- procLe (pss_followup_mismatch d) ;;
  ret (mk_PORT_SERVICE_STATS_NP portIdentity announce_timeout sync_timeout delay_timeout
         unicast_service_timeout unicast_request_timeout master_announce_timeout
         master_sync_timeout qualification_timeout sync_mismatch followup_mismatch).
Definition UNICAST_MASTER_TABLE_NP_f (d : UNICAST_MASTER_TABLE_NP_t) : M UNICAST_MASTER_TABLE_NP_t :=
  build <- ask_build ;;
  count <- proc_i16 (if build then swrap 16 (len (umn_unicastMasters d))
             else umn_actualTableSize d) ;;
  vec <- vector_f proc_LinuxptpUnicastMaster zero_LinuxptpUnicastMaster count (umn_unicastMasters d) ;;
  ret (mk_UNICAST_MASTER_TABLE_NP count vec).
Definition PORT_HWCLOCK_NP_f (d : PORT_HWCLOCK_NP_t) : M PORT_HWCLOCK_NP_t :=
  portIdentity <- proc_PortIdentity (phn_portIdentity d) ;;
  phc_index <- proc_i32 (phn_phc_index d) ;;
  flags <- proc_u8 (phn_flags d) ;;
  ret (mk_PORT_HWCLOCK_NP portIdentity phc_index flags).
Definition POWER_PROFILE_SETTINGS_NP_f (d : POWER_PROFILE_SETTINGS_NP_t) : M POWER_PROFILE_SETTINGS_NP_t :=
  version <- procE16 (ppsn_version d) ;;
  grandmasterID <- proc_u16 (ppsn_grandmasterID d) ;;
  grandmasterTimeInaccuracy <- proc_u32 (ppsn_grandmasterTimeInaccuracy d) ;;
  networkTimeInaccuracy <- proc_u32 (ppsn_networkTimeInaccuracy d) ;;
  totalTimeInaccuracy <- proc_u32 (ppsn_totalTimeInaccuracy d) ;;
  ret (mk_POWER_PROFILE_SETTINGS_NP version grandmasterID grandmasterTimeInaccuracy
         networkTimeInaccuracy totalTimeInaccuracy).
Definition CMLDS_INFO_NP_f (d : CMLDS_INFO_NP_t) : M CMLDS_INFO_NP_t :=
  meanLinkDelay <- proc_TimeInterval (cin_meanLinkDelay d) ;;
  scaledNeighborRateRatio <- proc_i32 (cin_scaledNeighborRateRatio d) ;;
  as_capable <- proc_u32 (cin_as_capable d) ;;
  ret (mk_CMLDS_INFO_NP meanLinkDelay scaledNeighborRateRatio as_capable).
Definition PORT_CORRECTIONS_NP_f (d : PORT_CORRECTIONS_NP_t) : M PORT_CORRECTIONS_NP_t :=
  egressLatency <- proc_i64 (pcn_egressLatency d) ;;
  ingressLatency <- proc_i64 (pcn_ingressLatency d) ;;
  delayAsymmetry <- proc_i64 (pcn_delayAsymmetry d) ;;
  ret (mk_PORT_CORRECTIONS_NP egressLatency ingressLatency delayAsymmetry).
Definition EXTERNAL_GRANDMASTER_PROPERTIES_NP_f (d : EXTERNAL_GRANDMASTER_PROPERTIES_NP_t) : M EXTERNAL_GRANDMASTER_PROPERTIES_NP_t :=
  gmIdentity <- proc_ClockIdentity (egp_gmIdentity d) ;;
  stepsRemoved <- proc_u16 (egp_stepsRemoved d) ;;
  ret (mk_EXTERNAL_GRANDMASTER_PROPERTIES_NP gmIdentity stepsRemoved).

Definition SMPTE_ORGANIZATION_EXTENSION_f (d : SMPTE_ORGANIZATION_EXTENSION_t) : M SMPTE_ORGANIZATION_EXTENSION_t :=
  organizationId <- proc_octets (smp_organizationId d) 3 ;;
  if negb (bool_decide (organizationId = [x68; x97; xe8]))
  then raise MNG_PARSE_ERROR_INVALID_ID
  else
    organizationSubType <- proc_octets (smp_organizationSubType d) 3 ;;
    defaultSystemFrameRate_numerator <- proc_u32 (smp_defaultSystemFrameRate_numerator d) ;;
    defaultSystemFrameRate_denominator <- proc_u32 (smp_defaultSystemFrameRate_denominator d) ;;
    masterLockingStatus <- procE8 (smp_masterLockingStatus d) ;;
    timeAddressFlags <- proc_u8 (smp_timeAddressFlags d) ;;
    currentLocalOffset <- proc_i32 (smp_currentLocalOffset d) ;;
    jumpSeconds <- proc_i32 (smp_jumpSeconds d) ;;
    timeOfNextJump <- proc48u (smp_timeOfNextJump d) ;;
    timeOfNextJam <- proc48u (smp_timeOfNextJam d) ;;
    timeOfPreviousJam <- proc48u (smp_timeOfPreviousJam d) ;;
    previousJamLocalOffset <- proc_i32 (smp_previousJamLocalOffset d) ;;
    daylightSaving <- proc_u8 (smp_daylightSaving d) ;;
    leapSecondJump <- proc_u8 (smp_leapSecondJump d) ;;
    ret (mk_SMPTE_ORGANIZATION_EXTENSION organizationId organizationSubType defaultSystemFrameRate_numerator defaultSystemFrameRate_denominator masterLockingStatus timeAddressFlags currentLocalOffset jumpSeconds timeOfNextJump timeOfNextJam timeOfPreviousJam previousJamLocalOffset daylightSaving leapSecondJump).

(** ** Size functions *)

(** [vector_l]: the size of a variable length list. *)
Definition vector_l {T} (size : T -> Z) (ret : Z) (vec : list T) : Z :=
  fold_left (fun ret r => ret + size r) vec ret.

Definition CLOCK_DESCRIPTION_s (d : CLOCK_DESCRIPTION_t) : Z :=
  13 + len (cd_physicalAddress d) + PortAddress_size (cd_protocolAddress d) +
  PTPText_size (cd_physicalLayerProtocol d) + PTPText_size (cd_productDescription d) +
  PTPText_size (cd_revisionData d) + PTPText_size (cd_userDescription d).
Definition USER_DESCRIPTION_s (d : USER_DESCRIPTION_t) : Z :=
  PTPText_size (ud_userDescription d).
Definition FAULT_LOG_s (d : FAULT_LOG_t) : Z :=
  vector_l FaultRecord_size 2 (fl_faultRecords d).
Definition PATH_TRACE_LIST_s (d : PATH_TRACE_LIST_t) : Z :=
  ClockIdentity_size * len (ptl_pathSequence d).
Definition GRANDMASTER_CLUSTER_TABLE_s (d : GRANDMASTER_CLUSTER_TABLE_t) : Z :=
  vector_l PortAddress_size 2 (gct_PortAddress d).
Definition UNICAST_MASTER_TABLE_s (d : UNICAST_MASTER_TABLE_t) : Z :=
  vector_l PortAddress_size 3 (umt_PortAddress d).
Definition ACCEPTABLE_MASTER_TABLE_s (d : ACCEPTABLE_MASTER_TABLE_t) : Z :=
  2 + AcceptableMaster_size * len (amt_list d).
Definition ALTERNATE_TIME_OFFSET_NAME_s (d : ALTERNATE_TIME_OFFSET_NAME_t) : Z :=
  1 + PTPText_size (aton_displayName d).
Definition PORT_PROPERTIES_NP_s (d : PORT_PROPERTIES_NP_t) : Z :=
  2 + PortIdentity_size + PTPText_size (ppn_interface d).
Definition UNICAST_MASTER_TABLE_NP_s (d : UNICAST_MASTER_TABLE_NP_t) : Z :=
  vector_l LinuxptpUnicastMaster_size 2 (umn_unicastMasters d).

(** ** The event mask of SUBSCRIBE_EVENTS_NP *)

Definition EVENT_BITMASK_CNT : Z := 64.

(** [div_event_wo]: byte and bit mask of an event, with the truncated division
    of [div]. *)
Definition div_event_wo (event : Z) : Z * Z :=
  (Z.quot event 8, Z.shiftl 1 (Z.rem event 8)).
Definition div_event (event : Z) : option (Z * Z) :=
  if (event <? 0) || (EVENT_BITMASK_CNT * 8 <=? event) then None
  else Some (div_event_wo event).

Definition mask_at (bitmask : list byte) (q : Z) : Z :=
  match bitmask !! Z.to_nat q with Some b => b2z b | None => 0 end.
Definition setEvent (d : SUBSCRIBE_EVENTS_NP_t) (event : Z) : SUBSCRIBE_EVENTS_NP_t :=
  match div_event event with
  | Some (q, r) =>
      mk_SUBSCRIBE_EVENTS_NP (sen_duration d)
        (<[Z.to_nat q := z2b (Z.lor (mask_at (sen_bitmask d) q) r)]> (sen_bitmask d))
  | None => d
  end.
Definition clearEvent (d : SUBSCRIBE_EVENTS_NP_t) (event : Z) : SUBSCRIBE_EVENTS_NP_t :=
  match div_event event with
  | Some (q, r) =>
      mk_SUBSCRIBE_EVENTS_NP (sen_duration d)
        (<[Z.to_nat q := z2b (Z.land (mask_at (sen_bitmask d) q) (Z.lnot r))]> (sen_bitmask d))
  | None => d
  end.
Definition clearAll (d : SUBSCRIBE_EVENTS_NP_t) : SUBSCRIBE_EVENTS_NP_t :=
  mk_SUBSCRIBE_EVENTS_NP (sen_duration d) (repeat x00 64).
Definition getEvent (d : SUBSCRIBE_EVENTS_NP_t) (event : Z) : bool :=
  match div_event event with
  | Some (q, r) => 0 <? Z.land (mask_at (sen_bitmask d) q) r
  | None => false
  end.

(** ** Any management TLV *)

(** [BaseMngTlv] and the structures derived from it. *)
Inductive BaseMngTlv :=
| T_CLOCK_DESCRIPTION (d : CLOCK_DESCRIPTION_t)
| T_USER_DESCRIPTION (d : USER_DESCRIPTION_t)
| T_INITIALIZE (d : INITIALIZE_t)
| T_FAULT_LOG (d : FAULT_LOG_t)
| T_DEFAULT_DATA_SET (d : DEFAULT_DATA_SET_t)
| T_CURRENT_DATA_SET (d : CURRENT_DATA_SET_t)
| T_PARENT_DATA_SET (d : PARENT_DATA_SET_t)
| T_TIME_PROPERTIES_DATA_SET (d : TIME_PROPERTIES_DATA_SET_t)
| T_PORT_DATA_SET (d : PORT_DATA_SET_t)
| T_PRIORITY1 (d : PRIORITY1_t)
| T_PRIORITY2 (d : PRIORITY2_t)
| T_DOMAIN (d : DOMAIN_t)
| T_SLAVE_ONLY (d : SLAVE_ONLY_t)
| T_LOG_ANNOUNCE_INTERVAL (d : LOG_ANNOUNCE_INTERVAL_t)
| T_ANNOUNCE_RECEIPT_TIMEOUT (d : ANNOUNCE_RECEIPT_TIMEOUT_t)
| T_LOG_SYNC_INTERVAL (d : LOG_SYNC_INTERVAL_t)
| T_VERSION_NUMBER (d : VERSION_NUMBER_t)
| T_TIME (d : TIME_t)
| T_CLOCK_ACCURACY (d : CLOCK_ACCURACY_t)
| T_UTC_PROPERTIES (d : UTC_PROPERTIES_t)
| T_TRACEABILITY_PROPERTIES (d : TRACEABILITY_PROPERTIES_t)
| T_TIMESCALE_PROPERTIES (d : TIMESCALE_PROPERTIES_t)
| T_UNICAST_NEGOTIATION_ENABLE (d : UNICAST_NEGOTIATION_ENABLE_t)
| T_PATH_TRACE_LIST (d : PATH_TRACE_LIST_t)
| T_PATH_TRACE_ENABLE (d : PATH_TRACE_ENABLE_t)
| T_GRANDMASTER_CLUSTER_TABLE (d : GRANDMASTER_CLUSTER_TABLE_t)
| T_UNICAST_MASTER_TABLE (d : UNICAST_MASTER_TABLE_t)
| T_UNICAST_MASTER_MAX_TABLE_SIZE (d : UNICAST_MASTER_MAX_TABLE_SIZE_t)
| T_ACCEPTABLE_MASTER_TABLE (d : ACCEPTABLE_MASTER_TABLE_t)
| T_ACCEPTABLE_MASTER_TABLE_ENABLED (d : ACCEPTABLE_MASTER_TABLE_ENABLED_t)
| T_ACCEPTABLE_MASTER_MAX_TABLE_SIZE (d : ACCEPTABLE_MASTER_MAX_TABLE_SIZE_t)
| T_ALTERNATE_MASTER (d : ALTERNATE_MASTER_t)
| T_ALTERNATE_TIME_OFFSET_ENABLE (d : ALTERNATE_TIME_OFFSET_ENABLE_t)
| T_ALTERNATE_TIME_OFFSET_NAME (d : ALTERNATE_TIME_OFFSET_NAME_t)
| T_ALTERNATE_TIME_OFFSET_MAX_KEY (d : ALTERNATE_TIME_OFFSET_MAX_KEY_t)
| T_ALTERNATE_TIME_OFFSET_PROPERTIES (d : ALTERNATE_TIME_OFFSET_PROPERTIES_t)
| T_TRANSPARENT_CLOCK_PORT_DATA_SET (d : TRANSPARENT_CLOCK_PORT_DATA_SET_t)
| T_LOG_MIN_PDELAY_REQ_INTERVAL (d : LOG_MIN_PDELAY_REQ_INTERVAL_t)
| T_TRANSPARENT_CLOCK_DEFAULT_DATA_SET (d : TRANSPARENT_CLOCK_DEFAULT_DATA_SET_t)
| T_PRIMARY_DOMAIN (d : PRIMARY_DOMAIN_t)
| T_DELAY_MECHANISM (d : DELAY_MECHANISM_t)
| T_EXTERNAL_PORT_CONFIGURATION_ENABLED (d : EXTERNAL_PORT_CONFIGURATION_ENABLED_t)
| T_MASTER_ONLY (d : MASTER_ONLY_t)
| T_HOLDOVER_UPGRADE_ENABLE (d : HOLDOVER_UPGRADE_ENABLE_t)
| T_EXT_PORT_CONFIG_PORT_DATA_SET (d : EXT_PORT_CONFIG_PORT_DATA_SET_t)
| T_TIME_STATUS_NP (d : TIME_STATUS_NP_t)
| T_GRANDMASTER_SETTINGS_NP (d : GRANDMASTER_SETTINGS_NP_t)
| T_PORT_DATA_SET_NP (d : PORT_DATA_SET_NP_t)
| T_SUBSCRIBE_EVENTS_NP (d : SUBSCRIBE_EVENTS_NP_t)
| T_PORT_PROPERTIES_NP (d : PORT_PROPERTIES_NP_t)
| T_PORT_STATS_NP (d : PORT_STATS_NP_t)
| T_SYNCHRONIZATION_UNCERTAIN_NP (d : SYNCHRONIZATION_UNCERTAIN_NP_t)
| T_PORT_SERVICE_STATS_NP (d : PORT_SERVICE_STATS_NP_t)
| T_UNICAST_MASTER_TABLE_NP (d : UNICAST_MASTER_TABLE_NP_t)
| T_PORT_HWCLOCK_NP (d : PORT_HWCLOCK_NP_t)
| T_POWER_PROFILE_SETTINGS_NP (d : POWER_PROFILE_SETTINGS_NP_t)
| T_CMLDS_INFO_NP (d : CMLDS_INFO_NP_t)
| T_PORT_CORRECTIONS_NP (d : PORT_CORRECTIONS_NP_t)
| T_EXTERNAL_GRANDMASTER_PROPERTIES_NP (d : EXTERNAL_GRANDMASTER_PROPERTIES_NP_t)
| T_SMPTE_ORGANIZATION_EXTENSION (d : SMPTE_ORGANIZATION_EXTENSION_t).

(** What the dispatch needs of a TLV structure [D]: its function, its initial
    value, the pointer conversions to and from the base ([dynamic_cast]). *)
Class MngTlv (D : Type) := {
  tlv_f : D -> M D;
  tlv_init : D;
  tlv_up : D -> BaseMngTlv;
  tlv_cast : BaseMngTlv -> option D
}.

#[global] Instance MngTlv_CLOCK_DESCRIPTION : MngTlv CLOCK_DESCRIPTION_t := {
  tlv_f := CLOCK_DESCRIPTION_f; tlv_init := init_CLOCK_DESCRIPTION; tlv_up := T_CLOCK_DESCRIPTION;
  tlv_cast t := match t with T_CLOCK_DESCRIPTION d => Some d | _ => None end }.
#[global] Instance MngTlv_USER_DESCRIPTION : MngTlv USER_DESCRIPTION_t := {
  tlv_f := USER_DESCRIPTION_f; tlv_init := init_USER_DESCRIPTION; tlv_up := T_USER_DESCRIPTION;
  tlv_cast t := match t with T_USER_DESCRIPTION d => Some d | _ => None end }.
#[global] Instance MngTlv_INITIALIZE : MngTlv INITIALIZE_t := {
  tlv_f := INITIALIZE_f; tlv_init := init_INITIALIZE; tlv_up := T_INITIALIZE;
  tlv_cast t := match t with T_INITIALIZE d => Some d | _ => None end }.
#[global] Instance MngTlv_FAULT_LOG : MngTlv FAULT_LOG_t := {
  tlv_f := FAULT_LOG_f; tlv_init := init_FAULT_LOG; tlv_up := T_FAULT_LOG;
  tlv_cast t := match t with T_FAULT_LOG d => Some d | _ => None end }.
#[global] Instance MngTlv_DEFAULT_DATA_SET : MngTlv DEFAULT_DATA_SET_t := {
  tlv_f := DEFAULT_DATA_SET_f; tlv_init := init_DEFAULT_DATA_SET; tlv_up := T_DEFAULT_DATA_SET;
  tlv_cast t := match t with T_DEFAULT_DATA_SET d => Some d | _ => None end }.
#[global] Instance MngTlv_CURRENT_DATA_SET : MngTlv CURRENT_DATA_SET_t := {
  tlv_f := CURRENT_DATA_SET_f; tlv_init := init_CURRENT_DATA_SET; tlv_up := T_CURRENT_DATA_SET;
  tlv_cast t := match t with T_CURRENT_DATA_SET d => Some d | _ => None end }.
#[global] Instance MngTlv_PARENT_DATA_SET : MngTlv PARENT_DATA_SET_t := {
  tlv_f := PARENT_DATA_SET_f; tlv_init := init_PARENT_DATA_SET; tlv_up := T_PARENT_DATA_SET;
  tlv_cast t := match t with T_PARENT_DATA_SET d => Some d | _ => None end }.
#[global] Instance MngTlv_TIME_PROPERTIES_DATA_SET : MngTlv TIME_PROPERTIES_DATA_SET_t := {
  tlv_f := TIME_PROPERTIES_DATA_SET_f; tlv_init := init_TIME_PROPERTIES_DATA_SET; tlv_up := T_TIME_PROPERTIES_DATA_SET;
  tlv_cast t := match t with T_TIME_PROPERTIES_DATA_SET d => Some d | _ => None end }.
#[global] Instance MngTlv_PORT_DATA_SET : MngTlv PORT_DATA_SET_t := {
  tlv_f := PORT_DATA_SET_f; tlv_init := init_PORT_DATA_SET; tlv_up := T_PORT_DATA_SET;
  tlv_cast t := match t with T_PORT_DATA_SET d => Some d | _ => None end }.
#[global] Instance MngTlv_PRIORITY1 : MngTlv PRIORITY1_t := {
  tlv_f := PRIORITY1_f; tlv_init := init_PRIORITY1; tlv_up := T_PRIORITY1;
  tlv_cast t := match t with T_PRIORITY1 d => Some d | _ => None end }.
#[global] Instance MngTlv_PRIORITY2 : MngTlv PRIORITY2_t := {
  tlv_f := PRIORITY2_f; tlv_init := init_PRIORITY2; tlv_up := T_PRIORITY2;
  tlv_cast t := match t with T_PRIORITY2 d => Some d | _ => None end }.
#[global] Instance MngTlv_DOMAIN : MngTlv DOMAIN_t := {
  tlv_f := DOMAIN_f; tlv_init := init_DOMAIN; tlv_up := T_DOMAIN;
  tlv_cast t := match t with T_DOMAIN d => Some d | _ => None end }.
#[global] Instance MngTlv_SLAVE_ONLY : MngTlv SLAVE_ONLY_t := {
  tlv_f := SLAVE_ONLY_f; tlv_init := init_SLAVE_ONLY; tlv_up := T_SLAVE_ONLY;
  tlv_cast t := match t with T_SLAVE_ONLY d => Some d | _ => None end }.
#[global] Instance MngTlv_LOG_ANNOUNCE_INTERVAL : MngTlv LOG_ANNOUNCE_INTERVAL_t := {
  tlv_f := LOG_ANNOUNCE_INTERVAL_f; tlv_init := init_LOG_ANNOUNCE_INTERVAL; tlv_up := T_LOG_ANNOUNCE_INTERVAL;
  tlv_cast t := match t with T_LOG_ANNOUNCE_INTERVAL d => Some d | _ => None end }.
#[global] Instance MngTlv_ANNOUNCE_RECEIPT_TIMEOUT : MngTlv ANNOUNCE_RECEIPT_TIMEOUT_t := {
  tlv_f := ANNOUNCE_RECEIPT_TIMEOUT_f; tlv_init := init_ANNOUNCE_RECEIPT_TIMEOUT; tlv_up := T_ANNOUNCE_RECEIPT_TIMEOUT;
  tlv_cast t := match t with T_ANNOUNCE_RECEIPT_TIMEOUT d => Some d | _ => None end }.
#[global] Instance MngTlv_LOG_SYNC_INTERVAL : MngTlv LOG_SYNC_INTERVAL_t := {
  tlv_f := LOG_SYNC_INTERVAL_f; tlv_init := init_LOG_SYNC_INTERVAL; tlv_up := T_LOG_SYNC_INTERVAL;
  tlv_cast t := match t with T_LOG_SYNC_INTERVAL d => Some d | _ => None end }.
#[global] Instance MngTlv_VERSION_NUMBER : MngTlv VERSION_NUMBER_t := {
  tlv_f := VERSION_NUMBER_f; tlv_init := init_VERSION_NUMBER; tlv_up := T_VERSION_NUMBER;
  tlv_cast t := match t with T_VERSION_NUMBER d => Some d | _ => None end }.
#[global] Instance MngTlv_TIME : MngTlv TIME_t := {
  tlv_f := TIME_f; tlv_init := init_TIME; tlv_up := T_TIME;
  tlv_cast t := match t with T_TIME d => Some d | _ => None end }.
#[global] Instance MngTlv_CLOCK_ACCURACY : MngTlv CLOCK_ACCURACY_t := {
  tlv_f := CLOCK_ACCURACY_f; tlv_init := init_CLOCK_ACCURACY; tlv_up := T_CLOCK_ACCURACY;
  tlv_cast t := match t with T_CLOCK_ACCURACY d => Some d | _ => None end }.
#[global] Instance MngTlv_UTC_PROPERTIES : MngTlv UTC_PROPERTIES_t := {
  tlv_f := UTC_PROPERTIES_f; tlv_init := init_UTC_PROPERTIES; tlv_up := T_UTC_PROPERTIES;
  tlv_cast t := match t with T_UTC_PROPERTIES d => Some d | _ => None end }.
#[global] Instance MngTlv_TRACEABILITY_PROPERTIES : MngTlv TRACEABILITY_PROPERTIES_t := {
  tlv_f := TRACEABILITY_PROPERTIES_f; tlv_init := init_TRACEABILITY_PROPERTIES; tlv_up := T_TRACEABILITY_PROPERTIES;
  tlv_cast t := match t with T_TRACEABILITY_PROPERTIES d => Some d | _ => None end }.
#[global] Instance MngTlv_TIMESCALE_PROPERTIES : MngTlv TIMESCALE_PROPERTIES_t := {
  tlv_f := TIMESCALE_PROPERTIES_f; tlv_init := init_TIMESCALE_PROPERTIES; tlv_up := T_TIMESCALE_PROPERTIES;
  tlv_cast t := match t with T_TIMESCALE_PROPERTIES d => Some d | _ => None end }.
#[global] Instance MngTlv_UNICAST_NEGOTIATION_ENABLE : MngTlv UNICAST_NEGOTIATION_ENABLE_t := {
  tlv_f := UNICAST_NEGOTIATION_ENABLE_f; tlv_init := init_UNICAST_NEGOTIATION_ENABLE; tlv_up := T_UNICAST_NEGOTIATION_ENABLE;
  tlv_cast t := match t with T_UNICAST_NEGOTIATION_ENABLE d => Some d | _ => None end }.
#[global] Instance MngTlv_PATH_TRACE_LIST : MngTlv PATH_TRACE_LIST_t := {
  tlv_f := PATH_TRACE_LIST_f; tlv_init := init_PATH_TRACE_LIST; tlv_up := T_PATH_TRACE_LIST;
  tlv_cast t := match t with T_PATH_TRACE_LIST d => Some d | _ => None end }.
#[global] Instance MngTlv_PATH_TRACE_ENABLE : MngTlv PATH_TRACE_ENABLE_t := {
  tlv_f := PATH_TRACE_ENABLE_f; tlv_init := init_PATH_TRACE_ENABLE; tlv_up := T_PATH_TRACE_ENABLE;
  tlv_cast t := match t with T_PATH_TRACE_ENABLE d => Some d | _ => None end }.
#[global] Instance MngTlv_GRANDMASTER_CLUSTER_TABLE : MngTlv GRANDMASTER_CLUSTER_TABLE_t := {
  tlv_f := GRANDMASTER_CLUSTER_TABLE_f; tlv_init := init_GRANDMASTER_CLUSTER_TABLE; tlv_up := T_GRANDMASTER_CLUSTER_TABLE;
  tlv_cast t := match t with T_GRANDMASTER_CLUSTER_TABLE d => Some d | _ => None end }.
#[global] Instance MngTlv_UNICAST_MASTER_TABLE : MngTlv UNICAST_MASTER_TABLE_t := {
  tlv_f := UNICAST_MASTER_TABLE_f; tlv_init := init_UNICAST_MASTER_TABLE; tlv_up := T_UNICAST_MASTER_TABLE;
  tlv_cast t := match t with T_UNICAST_MASTER_TABLE d => Some d | _ => None end }.
#[global] Instance MngTlv_UNICAST_MASTER_MAX_TABLE_SIZE : MngTlv UNICAST_MASTER_MAX_TABLE_SIZE_t := {
  tlv_f := UNICAST_MASTER_MAX_TABLE_SIZE_f; tlv_init := init_UNICAST_MASTER_MAX_TABLE_SIZE; tlv_up := T_UNICAST_MASTER_MAX_TABLE_SIZE;
  tlv_cast t := match t with T_UNICAST_MASTER_MAX_TABLE_SIZE d => Some d | _ => None end }.
#[global] Instance MngTlv_ACCEPTABLE_MASTER_TABLE : MngTlv ACCEPTABLE_MASTER_TABLE_t := {
  tlv_f := ACCEPTABLE_MASTER_TABLE_f; tlv_init := init_ACCEPTABLE_MASTER_TABLE; tlv_up := T_ACCEPTABLE_MASTER_TABLE;
  tlv_cast t := match t with T_ACCEPTABLE_MASTER_TABLE d => Some d | _ => None end }.
#[global] Instance MngTlv_ACCEPTABLE_MASTER_TABLE_ENABLED : MngTlv ACCEPTABLE_MASTER_TABLE_ENABLED_t := {
  tlv_f := ACCEPTABLE_MASTER_TABLE_ENABLED_f; tlv_init := init_ACCEPTABLE_MASTER_TABLE_ENABLED; tlv_up := T_ACCEPTABLE_MASTER_TABLE_ENABLED;
  tlv_cast t := match t with T_ACCEPTABLE_MASTER_TABLE_ENABLED d => Some d | _ => None end }.
#[global] Instance MngTlv_ACCEPTABLE_MASTER_MAX_TABLE_SIZE : MngTlv ACCEPTABLE_MASTER_MAX_TABLE_SIZE_t := {
  tlv_f := ACCEPTABLE_MASTER_MAX_TABLE_SIZE_f; tlv_init := init_ACCEPTABLE_MASTER_MAX_TABLE_SIZE; tlv_up := T_ACCEPTABLE_MASTER_MAX_TABLE_SIZE;
  tlv_cast t := match t with T_ACCEPTABLE_MASTER_MAX_TABLE_SIZE d => Some d | _ => None end }.
#[global] Instance MngTlv_ALTERNATE_MASTER : MngTlv ALTERNATE_MASTER_t := {
  tlv_f := ALTERNATE_MASTER_f; tlv_init := init_ALTERNATE_MASTER; tlv_up := T_ALTERNATE_MASTER;
  tlv_cast t := match t with T_ALTERNATE_MASTER d => Some d | _ => None end }.
#[global] Instance MngTlv_ALTERNATE_TIME_OFFSET_ENABLE : MngTlv ALTERNATE_TIME_OFFSET_ENABLE_t := {
  tlv_f := ALTERNATE_TIME_OFFSET_ENABLE_f; tlv_init := init_ALTERNATE_TIME_OFFSET_ENABLE; tlv_up := T_ALTERNATE_TIME_OFFSET_ENABLE;
  tlv_cast t := match t with T_ALTERNATE_TIME_OFFSET_ENABLE d => Some d | _ => None end }.
#[global] Instance MngTlv_ALTERNATE_TIME_OFFSET_NAME : MngTlv ALTERNATE_TIME_OFFSET_NAME_t := {
  tlv_f := ALTERNATE_TIME_OFFSET_NAME_f; tlv_init := init_ALTERNATE_TIME_OFFSET_NAME; tlv_up := T_ALTERNATE_TIME_OFFSET_NAME;
  tlv_cast t := match t with T_ALTERNATE_TIME_OFFSET_NAME d => Some d | _ => None end }.
#[global] Instance MngTlv_ALTERNATE_TIME_OFFSET_MAX_KEY : MngTlv ALTERNATE_TIME_OFFSET_MAX_KEY_t := {
  tlv_f := ALTERNATE_TIME_OFFSET_MAX_KEY_f; tlv_init := init_ALTERNATE_TIME_OFFSET_MAX_KEY; tlv_up := T_ALTERNATE_TIME_OFFSET_MAX_KEY;
  tlv_cast t := match t with T_ALTERNATE_TIME_OFFSET_MAX_KEY d => Some d | _ => None end }.
#[global] Instance MngTlv_ALTERNATE_TIME_OFFSET_PROPERTIES : MngTlv ALTERNATE_TIME_OFFSET_PROPERTIES_t := {
  tlv_f := ALTERNATE_TIME_OFFSET_PROPERTIES_f; tlv_init := init_ALTERNATE_TIME_OFFSET_PROPERTIES; tlv_up := T_ALTERNATE_TIME_OFFSET_PROPERTIES;
  tlv_cast t := match t with T_ALTERNATE_TIME_OFFSET_PROPERTIES d => Some d | _ => None end }.
#[global] Instance MngTlv_TRANSPARENT_CLOCK_PORT_DATA_SET : MngTlv TRANSPARENT_CLOCK_PORT_DATA_SET_t := {
  tlv_f := TRANSPARENT_CLOCK_PORT_DATA_SET_f; tlv_init := init_TRANSPARENT_CLOCK_PORT_DATA_SET; tlv_up := T_TRANSPARENT_CLOCK_PORT_DATA_SET;
  tlv_cast t := match t with T_TRANSPARENT_CLOCK_PORT_DATA_SET d => Some d | _ => None end }.
#[global] Instance MngTlv_LOG_MIN_PDELAY_REQ_INTERVAL : MngTlv LOG_MIN_PDELAY_REQ_INTERVAL_t := {
  tlv_f := LOG_MIN_PDELAY_REQ_INTERVAL_f; tlv_init := init_LOG_MIN_PDELAY_REQ_INTERVAL; tlv_up := T_LOG_MIN_PDELAY_REQ_INTERVAL;
  tlv_cast t := match t with T_LOG_MIN_PDELAY_REQ_INTERVAL d => Some d | _ => None end }.
#[global] Instance MngTlv_TRANSPARENT_CLOCK_DEFAULT_DATA_SET : MngTlv TRANSPARENT_CLOCK_DEFAULT_DATA_SET_t := {
  tlv_f := TRANSPARENT_CLOCK_DEFAULT_DATA_SET_f; tlv_init := init_TRANSPARENT_CLOCK_DEFAULT_DATA_SET; tlv_up := T_TRANSPARENT_CLOCK_DEFAULT_DATA_SET;
  tlv_cast t := match t with T_TRANSPARENT_CLOCK_DEFAULT_DATA_SET d => Some d | _ => None end }.
#[global] Instance MngTlv_PRIMARY_DOMAIN : MngTlv PRIMARY_DOMAIN_t := {
  tlv_f := PRIMARY_DOMAIN_f; tlv_init := init_PRIMARY_DOMAIN; tlv_up := T_PRIMARY_DOMAIN;
  tlv_cast t := match t with T_PRIMARY_DOMAIN d => Some d | _ => None end }.
#[global] Instance MngTlv_DELAY_MECHANISM : MngTlv DELAY_MECHANISM_t := {
  tlv_f := DELAY_MECHANISM_f; tlv_init := init_DELAY_MECHANISM; tlv_up := T_DELAY_MECHANISM;
  tlv_cast t := match t with T_DELAY_MECHANISM d => Some d | _ => None end }.
#[global] Instance MngTlv_EXTERNAL_PORT_CONFIGURATION_ENABLED : MngTlv EXTERNAL_PORT_CONFIGURATION_ENABLED_t := {
  tlv_f := EXTERNAL_PORT_CONFIGURATION_ENABLED_f; tlv_init := init_EXTERNAL_PORT_CONFIGURATION_ENABLED; tlv_up := T_EXTERNAL_PORT_CONFIGURATION_ENABLED;
  tlv_cast t := match t with T_EXTERNAL_PORT_CONFIGURATION_ENABLED d => Some d | _ => None end }.
#[global] Instance MngTlv_MASTER_ONLY : MngTlv MASTER_ONLY_t := {
  tlv_f := MASTER_ONLY_f; tlv_init := init_MASTER_ONLY; tlv_up := T_MASTER_ONLY;
  tlv_cast t := match t with T_MASTER_ONLY d => Some d | _ => None end }.
#[global] Instance MngTlv_HOLDOVER_UPGRADE_ENABLE : MngTlv HOLDOVER_UPGRADE_ENABLE_t := {
  tlv_f := HOLDOVER_UPGRADE_ENABLE_f; tlv_init := init_HOLDOVER_UPGRADE_ENABLE; tlv_up := T_HOLDOVER_UPGRADE_ENABLE;
  tlv_cast t := match t with T_HOLDOVER_UPGRADE_ENABLE d => Some d | _ => None end }.
#[global] Instance MngTlv_EXT_PORT_CONFIG_PORT_DATA_SET : MngTlv EXT_PORT_CONFIG_PORT_DATA_SET_t := {
  tlv_f := EXT_PORT_CONFIG_PORT_DATA_SET_f; tlv_init := init_EXT_PORT_CONFIG_PORT_DATA_SET; tlv_up := T_EXT_PORT_CONFIG_PORT_DATA_SET;
  tlv_cast t := match t with T_EXT_PORT_CONFIG_PORT_DATA_SET d => Some d | _ => None end }.
#[global] Instance MngTlv_TIME_STATUS_NP : MngTlv TIME_STATUS_NP_t := {
  tlv_f := TIME_STATUS_NP_f; tlv_init := init_TIME_STATUS_NP; tlv_up := T_TIME_STATUS_NP;
  tlv_cast t := match t with T_TIME_STATUS_NP d => Some d | _ => None end }.
#[global] Instance MngTlv_GRANDMASTER_SETTINGS_NP : MngTlv GRANDMASTER_SETTINGS_NP_t := {
  tlv_f := GRANDMASTER_SETTINGS_NP_f; tlv_init := init_GRANDMASTER_SETTINGS_NP; tlv_up := T_GRANDMASTER_SETTINGS_NP;
  tlv_cast t := match t with T_GRANDMASTER_SETTINGS_NP d => Some d | _ => None end }.
#[global] Instance MngTlv_PORT_DATA_SET_NP : MngTlv PORT_DATA_SET_NP_t := {
  tlv_f := PORT_DATA_SET_NP_f; tlv_init := init_PORT_DATA_SET_NP; tlv_up := T_PORT_DATA_SET_NP;
  tlv_cast t := match t with T_PORT_DATA_SET_NP d => Some d | _ => None end }.
#[global] Instance MngTlv_SUBSCRIBE_EVENTS_NP : MngTlv SUBSCRIBE_EVENTS_NP_t := {
  tlv_f := SUBSCRIBE_EVENTS_NP_f; tlv_init := init_SUBSCRIBE_EVENTS_NP; tlv_up := T_SUBSCRIBE_EVENTS_NP;
  tlv_cast t := match t with T_SUBSCRIBE_EVENTS_NP d => Some d | _ => None end }.
#[global] Instance MngTlv_PORT_PROPERTIES_NP : MngTlv PORT_PROPERTIES_NP_t := {
  tlv_f := PORT_PROPERTIES_NP_f; tlv_init := init_PORT_PROPERTIES_NP; tlv_up := T_PORT_PROPERTIES_NP;
  tlv_cast t := match t with T_PORT_PROPERTIES_NP d => Some d | _ => None end }.
#[global] Instance MngTlv_PORT_STATS_NP : MngTlv PORT_STATS_NP_t := {
  tlv_f := PORT_STATS_NP_f; tlv_init := init_PORT_STATS_NP; tlv_up := T_PORT_STATS_NP;
  tlv_cast t := match t with T_PORT_STATS_NP d => Some d | _ => None end }.
#[global] Instance MngTlv_SYNCHRONIZATION_UNCERTAIN_NP : MngTlv SYNCHRONIZATION_UNCERTAIN_NP_t := {
  tlv_f := SYNCHRONIZATION_UNCERTAIN_NP_f; tlv_init := init_SYNCHRONIZATION_UNCERTAIN_NP; tlv_up := T_SYNCHRONIZATION_UNCERTAIN_NP;
  tlv_cast t := match t with T_SYNCHRONIZATION_UNCERTAIN_NP d => Some d | _ => None end }.
#[global] Instance MngTlv_PORT_SERVICE_STATS_NP : MngTlv PORT_SERVICE_STATS_NP_t := {
  tlv_f := PORT_SERVICE_STATS_NP_f; tlv_init := init_PORT_SERVICE_STATS_NP; tlv_up := T_PORT_SERVICE_STATS_NP;
  tlv_cast t := match t with T_PORT_SERVICE_STATS_NP d => Some d | _ => None end }.
#[global] Instance MngTlv_UNICAST_MASTER_TABLE_NP : MngTlv UNICAST_MASTER_TABLE_NP_t := {
  tlv_f := UNICAST_MASTER_TABLE_NP_f; tlv_init := init_UNICAST_MASTER_TABLE_NP; tlv_up := T_UNICAST_MASTER_TABLE_NP;
  tlv_cast t := match t with T_UNICAST_MASTER_TABLE_NP d => Some d | _ => None end }.
#[global] Instance MngTlv_PORT_HWCLOCK_NP : MngTlv PORT_HWCLOCK_NP_t := {
  tlv_f := PORT_HWCLOCK_NP_f; tlv_init := init_PORT_HWCLOCK_NP; tlv_up := T_PORT_HWCLOCK_NP;
  tlv_cast t := match t with T_PORT_HWCLOCK_NP d => Some d | _ => None end }.
#[global] Instance MngTlv_POWER_PROFILE_SETTINGS_NP : MngTlv POWER_PROFILE_SETTINGS_NP_t := {
  tlv_f := POWER_PROFILE_SETTINGS_NP_f; tlv_init := init_POWER_PROFILE_SETTINGS_NP; tlv_up := T_POWER_PROFILE_SETTINGS_NP;
  tlv_cast t := match t with T_POWER_PROFILE_SETTINGS_NP d => Some d | _ => None end }.
#[global] Instance MngTlv_CMLDS_INFO_NP : MngTlv CMLDS_INFO_NP_t := {
  tlv_f := CMLDS_INFO_NP_f; tlv_init := init_CMLDS_INFO_NP; tlv_up := T_CMLDS_INFO_NP;
  tlv_cast t := match t with T_CMLDS_INFO_NP d => Some d | _ => None end }.
#[global] Instance MngTlv_PORT_CORRECTIONS_NP : MngTlv PORT_CORRECTIONS_NP_t := {
  tlv_f := PORT_CORRECTIONS_NP_f; tlv_init := init_PORT_CORRECTIONS_NP; tlv_up := T_PORT_CORRECTIONS_NP;
  tlv_cast t := match t with T_PORT_CORRECTIONS_NP d => Some d | _ => None end }.
#[global] Instance MngTlv_EXTERNAL_GRANDMASTER_PROPERTIES_NP : MngTlv EXTERNAL_GRANDMASTER_PROPERTIES_NP_t := {
  tlv_f := EXTERNAL_GRANDMASTER_PROPERTIES_NP_f; tlv_init := init_EXTERNAL_GRANDMASTER_PROPERTIES_NP; tlv_up := T_EXTERNAL_GRANDMASTER_PROPERTIES_NP;
  tlv_cast t := match t with T_EXTERNAL_GRANDMASTER_PROPERTIES_NP d => Some d | _ => None end }.

(** The case that [ids.h] generates for an id: a TLV without dataField, a TLV
    with a function, or no case. *)
Inductive tlv_case :=
| CaseNA
| CaseUF (D : Type) (inst : MngTlv D)
| CaseNone.

Definition tlv_case_of (id : mng_vals_e) : tlv_case :=
  match id with
  | NULL_PTP_MANAGEMENT => CaseNA
  | CLOCK_DESCRIPTION => CaseUF CLOCK_DESCRIPTION_t _
  | USER_DESCRIPTION => CaseUF USER_DESCRIPTION_t _
  | SAVE_IN_NON_VOLATILE_STORAGE => CaseNA
  | RESET_NON_VOLATILE_STORAGE => CaseNA
  | INITIALIZE => CaseUF INITIALIZE_t _
  | FAULT_LOG => CaseUF FAULT_LOG_t _
  | FAULT_LOG_RESET => CaseNA
  | DEFAULT_DATA_SET => CaseUF DEFAULT_DATA_SET_t _
  | CURRENT_DATA_SET => CaseUF CURRENT_DATA_SET_t _
  | PARENT_DATA_SET => CaseUF PARENT_DATA_SET_t _
  | TIME_PROPERTIES_DATA_SET => CaseUF TIME_PROPERTIES_DATA_SET_t _
  | PORT_DATA_SET => CaseUF PORT_DATA_SET_t _
  | PRIORITY1 => CaseUF PRIORITY1_t _
  | PRIORITY2 => CaseUF PRIORITY2_t _
  | DOMAIN => CaseUF DOMAIN_t _
  | SLAVE_ONLY => CaseUF SLAVE_ONLY_t _
  | LOG_ANNOUNCE_INTERVAL => CaseUF LOG_ANNOUNCE_INTERVAL_t _
  | ANNOUNCE_RECEIPT_TIMEOUT => CaseUF ANNOUNCE_RECEIPT_TIMEOUT_t _
  | LOG_SYNC_INTERVAL => CaseUF LOG_SYNC_INTERVAL_t _
  | VERSION_NUMBER => CaseUF VERSION_NUMBER_t _
  | ENABLE_PORT => CaseNA
  | DISABLE_PORT => CaseNA
  | TIME => CaseUF TIME_t _
  | CLOCK_ACCURACY => CaseUF CLOCK_ACCURACY_t _
  | UTC_PROPERTIES => CaseUF UTC_PROPERTIES_t _
  | TRACEABILITY_PROPERTIES => CaseUF TRACEABILITY_PROPERTIES_t _
  | TIMESCALE_PROPERTIES => CaseUF TIMESCALE_PROPERTIES_t _
  | UNICAST_NEGOTIATION_ENABLE => CaseUF UNICAST_NEGOTIATION_ENABLE_t _
  | PATH_TRACE_LIST => CaseUF PATH_TRACE_LIST_t _
  | PATH_TRACE_ENABLE => CaseUF PATH_TRACE_ENABLE_t _
  | GRANDMASTER_CLUSTER_TABLE => CaseUF GRANDMASTER_CLUSTER_TABLE_t _
  | UNICAST_MASTER_TABLE => CaseUF UNICAST_MASTER_TABLE_t _
  | UNICAST_MASTER_MAX_TABLE_SIZE => CaseUF UNICAST_MASTER_MAX_TABLE_SIZE_t _
  | ACCEPTABLE_MASTER_TABLE => CaseUF ACCEPTABLE_MASTER_TABLE_t _
  | ACCEPTABLE_MASTER_TABLE_ENABLED => CaseUF ACCEPTABLE_MASTER_TABLE_ENABLED_t _
  | ACCEPTABLE_MASTER_MAX_TABLE_SIZE => CaseUF ACCEPTABLE_MASTER_MAX_TABLE_SIZE_t _
  | ALTERNATE_MASTER => CaseUF ALTERNATE_MASTER_t _
  | ALTERNATE_TIME_OFFSET_ENABLE => CaseUF ALTERNATE_TIME_OFFSET_ENABLE_t _
  | ALTERNATE_TIME_OFFSET_NAME => CaseUF ALTERNATE_TIME_OFFSET_NAME_t _
  | ALTERNATE_TIME_OFFSET_MAX_KEY => CaseUF ALTERNATE_TIME_OFFSET_MAX_KEY_t _
  | ALTERNATE_TIME_OFFSET_PROPERTIES => CaseUF ALTERNATE_TIME_OFFSET_PROPERTIES_t _
  | TRANSPARENT_CLOCK_PORT_DATA_SET => CaseUF TRANSPARENT_CLOCK_PORT_DATA_SET_t _
  | LOG_MIN_PDELAY_REQ_INTERVAL => CaseUF LOG_MIN_PDELAY_REQ_INTERVAL_t _
  | TRANSPARENT_CLOCK_DEFAULT_DATA_SET => CaseUF TRANSPARENT_CLOCK_DEFAULT_DATA_SET_t _
  | PRIMARY_DOMAIN => CaseUF PRIMARY_DOMAIN_t _
  | DELAY_MECHANISM => CaseUF DELAY_MECHANISM_t _
  | EXTERNAL_PORT_CONFIGURATION_ENABLED => CaseUF EXTERNAL_PORT_CONFIGURATION_ENABLED_t _
  | MASTER_ONLY => CaseUF MASTER_ONLY_t _
  | HOLDOVER_UPGRADE_ENABLE => CaseUF HOLDOVER_UPGRADE_ENABLE_t _
  | EXT_PORT_CONFIG_PORT_DATA_SET => CaseUF EXT_PORT_CONFIG_PORT_DATA_SET_t _
  | TIME_STATUS_NP => CaseUF TIME_STATUS_NP_t _
  | GRANDMASTER_SETTINGS_NP => CaseUF GRANDMASTER_SETTINGS_NP_t _
  | PORT_DATA_SET_NP => CaseUF PORT_DATA_SET_NP_t _
  | SUBSCRIBE_EVENTS_NP => CaseUF SUBSCRIBE_EVENTS_NP_t _
  | PORT_PROPERTIES_NP => CaseUF PORT_PROPERTIES_NP_t _
  | PORT_STATS_NP => CaseUF PORT_STATS_NP_t _
  | SYNCHRONIZATION_UNCERTAIN_NP => CaseUF SYNCHRONIZATION_UNCERTAIN_NP_t _
  | PORT_SERVICE_STATS_NP => CaseUF PORT_SERVICE_STATS_NP_t _
  | UNICAST_MASTER_TABLE_NP => CaseUF UNICAST_MASTER_TABLE_NP_t _
  | PORT_HWCLOCK_NP => CaseUF PORT_HWCLOCK_NP_t _
  | POWER_PROFILE_SETTINGS_NP => CaseUF POWER_PROFILE_SETTINGS_NP_t _
  | CMLDS_INFO_NP => CaseUF CMLDS_INFO_NP_t _
  | PORT_CORRECTIONS_NP => CaseUF PORT_CORRECTIONS_NP_t _
  | EXTERNAL_GRANDMASTER_PROPERTIES_NP => CaseUF EXTERNAL_GRANDMASTER_PROPERTIES_NP_t _
  | LAST_MNG_ID | SMPTE_MNG_ID => CaseNone
  end.

(** A [BaseMngTlv *]: not assigned yet (its value is indeterminate), null, or
    the address of an object. *)
Inductive tlv_ptr :=
| Unset
| Null
| Obj (t : BaseMngTlv).

(** [MsgProc::call_tlv_data]: the error, the pointer and the cursor it leaves;
    [None] is an access outside the buffer. *)
Definition call_tlv_data (id : mng_vals_e) (tlv : tlv_ptr) (s : MsgProc)
    : option (MNG_PARSE_ERROR_e * tlv_ptr * MsgProc) :=
  let s := set_m_err MNG_PARSE_ERROR_TOO_SMALL s in
  match tlv_case_of id with
  | CaseNone => Some (MNG_PARSE_ERROR_UNSUPPORT, tlv, s)
  | CaseNA => Some (MNG_PARSE_ERROR_OK, tlv, s)
  | CaseUF D inst =>
      if m_build s then
        match (match tlv with Obj t => tlv_cast t | _ => None end) with
        | None => Some (MNG_PARSE_ERROR_MISMATCH_TLV, tlv, s)
        | Some d =>
            match tlv_f d s with
            | Pass d s => Some (MNG_PARSE_ERROR_OK, Obj (tlv_up d), s)
            | Stop s => Some (m_err s, tlv, s)
            | Fault => None
            end
        end
      else
        match tlv_f tlv_init s with
        | Pass d s => Some (MNG_PARSE_ERROR_OK, Obj (tlv_up d), s)
        | Stop s => Some (m_err s, tlv, s)
        | Fault => None
        end
  end.

(** [Message::verifyTlv]: the pointer is to a structure of the id. *)
Definition verifyTlv (id : mng_vals_e) (tlv : tlv_ptr) : bool :=
  match tlv, tlv_case_of id with
  | Obj t, CaseUF D inst => match tlv_cast t with Some _ => true | None => false end
  | _, _ => false
  end.

(** [Message::dataFieldSize]: the size of a TLV of variable size, of an empty
    one when the structure is missing or of another type. *)
Definition cast_or_init {D} `{MngTlv D} (tlv : tlv_ptr) : D :=
  match tlv with
  | Obj t => match tlv_cast t with Some d => d | None => tlv_init end
  | _ => tlv_init
  end.
Definition dataFieldSize (id : mng_vals_e) (tlv : tlv_ptr) : Z :=
  match id with
  | CLOCK_DESCRIPTION => CLOCK_DESCRIPTION_s (cast_or_init tlv)
  | USER_DESCRIPTION => USER_DESCRIPTION_s (cast_or_init tlv)
  | FAULT_LOG => FAULT_LOG_s (cast_or_init tlv)
  | PATH_TRACE_LIST => PATH_TRACE_LIST_s (cast_or_init tlv)
  | GRANDMASTER_CLUSTER_TABLE => GRANDMASTER_CLUSTER_TABLE_s (cast_or_init tlv)
  | UNICAST_MASTER_TABLE => UNICAST_MASTER_TABLE_s (cast_or_init tlv)
  | ACCEPTABLE_MASTER_TABLE => ACCEPTABLE_MASTER_TABLE_s (cast_or_init tlv)
  | ALTERNATE_TIME_OFFSET_NAME => ALTERNATE_TIME_OFFSET_NAME_s (cast_or_init tlv)
  | PORT_PROPERTIES_NP => PORT_PROPERTIES_NP_s (cast_or_init tlv)
  | UNICAST_MASTER_TABLE_NP => UNICAST_MASTER_TABLE_NP_s (cast_or_init tlv)
  | _ => -2
  end.
