(* ===== verification/MngTlvsSpec.v ===== *)
(** * MngTlvsSpec.v: the management TLVs on the wire

    For every management TLV: the structures that can be built ([wf_*]), the
    structure that building leaves and parsing returns ([norm_*]) and the
    number of octets.  The class [TlvSpec] is the interface through which the
    dispatch and the messages use a TLV function: its round trip, and that
    parsing stays inside the buffer and does not depend on what [new] left in
    the structure.  Each TLV has an instance. *)

From S2P Require Import Prelude Types Ids MsgProc Codec Structs MngTlvs.

Class TlvSpec (D : Type) (inst : MngTlv D) := {
  tlv_wf : D -> Prop;
  tlv_norm : D -> D;
  tlv_len : D -> Z;
  tlv_fresh : D -> Prop;
  tlv_cast_up d : tlv_cast (tlv_up d) = Some d;
  tlv_up_cast t d : tlv_cast t = Some d -> t = tlv_up d;
  tlv_fresh_init : tlv_fresh tlv_init;
  tlv_codec d d' : tlv_wf d -> tlv_fresh d' ->
    codec_end (tlv_f d) (tlv_f d') (tlv_norm d) (tlv_len d);
  tlv_reads d d' : tlv_fresh d -> tlv_fresh d' -> reads 0 (tlv_f d) (tlv_f d')
}.

(** Proof of an instance from the two lemmas of the TLV. *)
Ltac cast_facts := first [done | by intros []; intros; simplify_eq/=].

(** The counts of a list fit their field, and so the conversion to the
    [uint32_t] of [vector_f]. *)
Lemma len_count {A} (l : list A) w :
  w <= 32 -> uint w (len l) -> uwrap 32 (len l) = len l.
Proof.
  intros Hw [? ?]. apply uwrap_small. split; [done|].
  apply Z.lt_le_trans with (2 ^ w); [done|]. apply Z.pow_le_mono_r; lia.
Qed.

Lemma size_FaultRecord_pos r : wf_FaultRecord r -> 1 <= FaultRecord_size r.
Proof.
  intros _. unfold FaultRecord_size, Timestamp_size, PTPText_size.
  pose proof (len_nonneg (textField (faultName r))).
  pose proof (len_nonneg (textField (faultValue r))).
  pose proof (len_nonneg (textField (faultDescription r))). lia.
Qed.
Lemma size_PortAddress_pos r : wf_PortAddress r -> 1 <= PortAddress_size r.
Proof. intros _. unfold PortAddress_size. pose proof (len_nonneg (addressField r)). lia. Qed.
Lemma size_AcceptableMaster_pos r : wf_AcceptableMaster r -> 1 <= AcceptableMaster_size.
Proof. intros _. vm_compute. discriminate. Qed.
Lemma size_LinuxptpUnicastMaster_pos r :
  wf_LinuxptpUnicastMaster r -> 1 <= LinuxptpUnicastMaster_size r.
Proof.
  intros _. unfold LinuxptpUnicastMaster_size, PortAddress_size, PortIdentity_size,
    ClockIdentity_size, ClockQuality_size.
  pose proof (len_nonneg (addressField (lum_portAddress r))). lia.
Qed.

(** Replace the converted count by the length of the list. *)
Lemma sint_uint16 {A} (l : list A) : sint 16 (len l) -> uint 16 (len l).
Proof. unfold sint, uint. pose proof (len_nonneg l). lia. Qed.
Ltac list_count :=
  match goal with
  | H : uint ?w (len ?l) |- context [uwrap ?w (len ?l)] =>
      rewrite (uwrap_small w (len l)) by exact H;
      pose proof (len_count l w ltac:(lia) H)
  | H : sint 16 (len ?l) |- context [swrap 16 (len ?l)] =>
      rewrite (swrap_small 16 (len l)) by (lia || exact H);
      pose proof (len_count l 16 ltac:(lia) (sint_uint16 l H))
  end.

(** A list as the only field. *)
Lemma codec_end_bind_last {A B} (f g : M A) (h : A -> B) a b n :
  codec_end f g a n -> h a = b ->
  codec_end (bind f (fun x => ret (h x))) (bind g (fun x => ret (h x))) b n.
Proof.
  intros (bs & E & C & L) <-. exists bs. split; [|split; [|done]].
  - rewrite <- (app_nil_r bs). eapply emits_bind; [done|apply emits_ret].
  - intros s Hs Hb Hat Hl. unfold bind. by rewrite C.
Qed.

(** ** The TLVs *)

Definition wf_CLOCK_DESCRIPTION (d : CLOCK_DESCRIPTION_t) : Prop :=
  uint 16 (cd_clockType d) /\ wf_PTPText (cd_physicalLayerProtocol d) /\
  uint 16 (len (cd_physicalAddress d)) /\ wf_PortAddress (cd_protocolAddress d) /\
  len (cd_manufacturerIdentity d) = 3 /\ wf_PTPText (cd_productDescription d) /\
  wf_PTPText (cd_revisionData d) /\ wf_PTPText (cd_userDescription d) /\
  len (cd_profileIdentity d) = 6.
Definition norm_CLOCK_DESCRIPTION (d : CLOCK_DESCRIPTION_t) : CLOCK_DESCRIPTION_t :=
  mk_CLOCK_DESCRIPTION (cd_clockType d) (norm_PTPText (cd_physicalLayerProtocol d))
  (len (cd_physicalAddress d)) (cd_physicalAddress d)
  (norm_PortAddress (cd_protocolAddress d)) (cd_manufacturerIdentity d)
  (norm_PTPText (cd_productDescription d)) (norm_PTPText (cd_revisionData d))
  (norm_PTPText (cd_userDescription d)) (cd_profileIdentity d).
Definition len_CLOCK_DESCRIPTION (d : CLOCK_DESCRIPTION_t) : Z :=
  14 + len (cd_physicalAddress d) + PortAddress_size (cd_protocolAddress d) +
  PTPText_size (cd_physicalLayerProtocol d) + PTPText_size (cd_productDescription d) +
  PTPText_size (cd_revisionData d) + PTPText_size (cd_userDescription d).
Definition fresh_CLOCK_DESCRIPTION (d : CLOCK_DESCRIPTION_t) : Prop :=
  fresh_PTPText (cd_physicalLayerProtocol d) /\
  fresh_PTPText (cd_productDescription d) /\ fresh_PTPText (cd_revisionData d) /\
  fresh_PTPText (cd_userDescription d).
Lemma codec_CLOCK_DESCRIPTION d d' :
  wf_CLOCK_DESCRIPTION d -> fresh_CLOCK_DESCRIPTION d' ->
  codec (CLOCK_DESCRIPTION_f d) (CLOCK_DESCRIPTION_f d') (norm_CLOCK_DESCRIPTION d) (len_CLOCK_DESCRIPTION d).
Proof.
  unfold wf_CLOCK_DESCRIPTION, fresh_CLOCK_DESCRIPTION, norm_CLOCK_DESCRIPTION, len_CLOCK_DESCRIPTION, CLOCK_DESCRIPTION_f. intros. wf_split.
  rewrite (uwrap_small 16) by done.
  eapply codec_len;
    [do 3 codec_step; eapply codec_bind; [by apply codec_binary|cbv beta]; codec_auto|lia].
Qed.
Lemma reads_CLOCK_DESCRIPTION d d' :
  fresh_CLOCK_DESCRIPTION d -> fresh_CLOCK_DESCRIPTION d' -> reads 0 (CLOCK_DESCRIPTION_f d) (CLOCK_DESCRIPTION_f d').
Proof.
  unfold fresh_CLOCK_DESCRIPTION, CLOCK_DESCRIPTION_f. intros. wf_split. eapply reads_weaken.
  - do 2 reads_step.
    eapply reads_bind_yields; [reads_prim|apply yields_u16|intros alen [? _]].
    eapply reads_bind; [by apply reads_binary|intros ?]. reads_auto.
  - lia.
Qed.
#[global] Program Instance TlvSpec_CLOCK_DESCRIPTION : TlvSpec CLOCK_DESCRIPTION_t MngTlv_CLOCK_DESCRIPTION := {
  tlv_wf := wf_CLOCK_DESCRIPTION; tlv_norm := norm_CLOCK_DESCRIPTION; tlv_len := len_CLOCK_DESCRIPTION; tlv_fresh := fresh_CLOCK_DESCRIPTION;
  tlv_codec := (fun d d' H H' => codec_weaken _ _ _ _ (codec_CLOCK_DESCRIPTION d d' H H'));
  tlv_reads := reads_CLOCK_DESCRIPTION }.
Solve Obligations with cast_facts.

Definition wf_USER_DESCRIPTION (d : USER_DESCRIPTION_t) : Prop :=
  wf_PTPText (ud_userDescription d).
Definition norm_USER_DESCRIPTION (d : USER_DESCRIPTION_t) : USER_DESCRIPTION_t :=
  mk_USER_DESCRIPTION (norm_PTPText (ud_userDescription d)).
Definition len_USER_DESCRIPTION (d : USER_DESCRIPTION_t) : Z :=
  PTPText_size (ud_userDescription d).
Definition fresh_USER_DESCRIPTION (d : USER_DESCRIPTION_t) : Prop :=
  fresh_PTPText (ud_userDescription d).
Lemma codec_USER_DESCRIPTION d d' :
  wf_USER_DESCRIPTION d -> fresh_USER_DESCRIPTION d' ->
  codec (USER_DESCRIPTION_f d) (USER_DESCRIPTION_f d') (norm_USER_DESCRIPTION d) (len_USER_DESCRIPTION d).
Proof. unfold wf_USER_DESCRIPTION, fresh_USER_DESCRIPTION, norm_USER_DESCRIPTION, len_USER_DESCRIPTION, USER_DESCRIPTION_f. intros. codec_record d. Qed.
Lemma reads_USER_DESCRIPTION d d' :
  fresh_USER_DESCRIPTION d -> fresh_USER_DESCRIPTION d' -> reads 0 (USER_DESCRIPTION_f d) (USER_DESCRIPTION_f d').
Proof. unfold fresh_USER_DESCRIPTION, USER_DESCRIPTION_f. intros. wf_split. eapply reads_weaken; [reads_auto|lia]. Qed.
#[global] Program Instance TlvSpec_USER_DESCRIPTION : TlvSpec USER_DESCRIPTION_t MngTlv_USER_DESCRIPTION := {
  tlv_wf := wf_USER_DESCRIPTION; tlv_norm := norm_USER_DESCRIPTION; tlv_len := len_USER_DESCRIPTION; tlv_fresh := fresh_USER_DESCRIPTION;
  tlv_codec := (fun d d' H H' => codec_weaken _ _ _ _ (codec_USER_DESCRIPTION d d' H H'));
  tlv_reads := reads_USER_DESCRIPTION }.
Solve Obligations with cast_facts.

Definition wf_INITIALIZE (d : INITIALIZE_t) : Prop :=
  uint 16 (ini_initializationKey d).
Definition norm_INITIALIZE (d : INITIALIZE_t) : INITIALIZE_t :=
  mk_INITIALIZE (ini_initializationKey d).
Definition len_INITIALIZE (d : INITIALIZE_t) : Z :=
  2.
Definition fresh_INITIALIZE (d : INITIALIZE_t) : Prop := True.
Lemma codec_INITIALIZE d d' :
  wf_INITIALIZE d -> fresh_INITIALIZE d' ->
  codec (INITIALIZE_f d) (INITIALIZE_f d') (norm_INITIALIZE d) (len_INITIALIZE d).
Proof. unfold wf_INITIALIZE, fresh_INITIALIZE, norm_INITIALIZE, len_INITIALIZE, INITIALIZE_f. intros. codec_record d. Qed.
Lemma reads_INITIALIZE d d' :
  fresh_INITIALIZE d -> fresh_INITIALIZE d' -> reads 0 (INITIALIZE_f d) (INITIALIZE_f d').
Proof. unfold fresh_INITIALIZE, INITIALIZE_f. intros. wf_split. eapply reads_weaken; [reads_auto|lia]. Qed.
#[global] Program Instance TlvSpec_INITIALIZE : TlvSpec INITIALIZE_t MngTlv_INITIALIZE := {
  tlv_wf := wf_INITIALIZE; tlv_norm := norm_INITIALIZE; tlv_len := len_INITIALIZE; tlv_fresh := fresh_INITIALIZE;
  tlv_codec := (fun d d' H H' => codec_weaken _ _ _ _ (codec_INITIALIZE d d' H H'));
  tlv_reads := reads_INITIALIZE }.
Solve Obligations with cast_facts.

Definition wf_FAULT_LOG (d : FAULT_LOG_t) : Prop :=
  Forall wf_FaultRecord (fl_faultRecords d) /\ uint 16 (len (fl_faultRecords d)).
Definition norm_FAULT_LOG (d : FAULT_LOG_t) : FAULT_LOG_t :=
  mk_FAULT_LOG (len (fl_faultRecords d)) (map norm_FaultRecord (fl_faultRecords d)).
Definition len_FAULT_LOG (d : FAULT_LOG_t) : Z :=
  2 + total FaultRecord_size (fl_faultRecords d).
Definition fresh_FAULT_LOG (d : FAULT_LOG_t) : Prop :=
  fl_faultRecords d = [].
Lemma codec_FAULT_LOG d d' :
  wf_FAULT_LOG d -> fresh_FAULT_LOG d' ->
  codec (FAULT_LOG_f d) (FAULT_LOG_f d') (norm_FAULT_LOG d) (len_FAULT_LOG d).
Proof.
  unfold wf_FAULT_LOG, fresh_FAULT_LOG, norm_FAULT_LOG, len_FAULT_LOG, FAULT_LOG_f. destruct d, d'; cbn -[total len] in *. intros. wf_split. subst.
  apply codec_ask. cbv iota. list_count.
  eapply codec_len; [codec_step; eapply codec_bind|].
  - apply (codec_vector_f proc_FaultRecord zero_FaultRecord wf_FaultRecord norm_FaultRecord FaultRecord_size);
      auto using codec_FaultRecord, size_FaultRecord_pos.
  - apply codec_ret.
  - lia.
Qed.
Lemma reads_FAULT_LOG d d' :
  fresh_FAULT_LOG d -> fresh_FAULT_LOG d' -> reads 0 (FAULT_LOG_f d) (FAULT_LOG_f d').
Proof.
  unfold fresh_FAULT_LOG, FAULT_LOG_f. intros -> ->. eapply reads_weaken.
  - apply reads_ask. cbv iota. reads_step.
    eapply reads_bind; [eapply reads_vector_f; [apply reads_FaultRecord|lia]|intros ?].
    apply reads_ret.
  - lia.
Qed.
#[global] Program Instance TlvSpec_FAULT_LOG : TlvSpec FAULT_LOG_t MngTlv_FAULT_LOG := {
  tlv_wf := wf_FAULT_LOG; tlv_norm := norm_FAULT_LOG; tlv_len := len_FAULT_LOG; tlv_fresh := fresh_FAULT_LOG;
  tlv_codec := (fun d d' H H' => codec_weaken _ _ _ _ (codec_FAULT_LOG d d' H H'));
  tlv_reads := reads_FAULT_LOG }.
Solve Obligations with cast_facts.

Definition wf_DEFAULT_DATA_SET (d : DEFAULT_DATA_SET_t) : Prop :=
  uint 8 (dds_flags d) /\ uint 16 (dds_numberPorts d) /\ uint 8 (dds_priority1 d) /\
  wf_ClockQuality (dds_clockQuality d) /\ uint 8 (dds_priority2 d) /\
  wf_ClockIdentity (dds_clockIdentity d) /\ uint 8 (dds_domainNumber d).
Definition norm_DEFAULT_DATA_SET (d : DEFAULT_DATA_SET_t) : DEFAULT_DATA_SET_t :=
  mk_DEFAULT_DATA_SET (normFlags DEFAULT_DATA_SET_flagsMask (dds_flags d))
  (dds_numberPorts d) (dds_priority1 d) (dds_clockQuality d) (dds_priority2 d)
  (dds_clockIdentity d) (dds_domainNumber d).
Definition len_DEFAULT_DATA_SET (d : DEFAULT_DATA_SET_t) : Z :=
  19.
Definition fresh_DEFAULT_DATA_SET (d : DEFAULT_DATA_SET_t) : Prop := True.
Lemma codec_DEFAULT_DATA_SET d d' :
  wf_DEFAULT_DATA_SET d -> fresh_DEFAULT_DATA_SET d' ->
  codec (DEFAULT_DATA_SET_f d) (DEFAULT_DATA_SET_f d') (norm_DEFAULT_DATA_SET d) (len_DEFAULT_DATA_SET d).
Proof. unfold wf_DEFAULT_DATA_SET, fresh_DEFAULT_DATA_SET, norm_DEFAULT_DATA_SET, len_DEFAULT_DATA_SET, DEFAULT_DATA_SET_f. intros. codec_record d. Qed.
Lemma reads_DEFAULT_DATA_SET d d' :
  fresh_DEFAULT_DATA_SET d -> fresh_DEFAULT_DATA_SET d' -> reads 0 (DEFAULT_DATA_SET_f d) (DEFAULT_DATA_SET_f d').
Proof. unfold fresh_DEFAULT_DATA_SET, DEFAULT_DATA_SET_f. intros. wf_split. eapply reads_weaken; [reads_auto|lia]. Qed.
#[global] Program Instance TlvSpec_DEFAULT_DATA_SET : TlvSpec DEFAULT_DATA_SET_t MngTlv_DEFAULT_DATA_SET := {
  tlv_wf := wf_DEFAULT_DATA_SET; tlv_norm := norm_DEFAULT_DATA_SET; tlv_len := len_DEFAULT_DATA_SET; tlv_fresh := fresh_DEFAULT_DATA_SET;
  tlv_codec := (fun d d' H H' => codec_weaken _ _ _ _ (codec_DEFAULT_DATA_SET d d' H H'));
  tlv_reads := reads_DEFAULT_DATA_SET }.
Solve Obligations with cast_facts.

Definition wf_CURRENT_DATA_SET (d : CURRENT_DATA_SET_t) : Prop :=
  uint 16 (cds_stepsRemoved d) /\ wf_TimeInterval (cds_offsetFromMaster d) /\
  wf_TimeInterval (cds_meanPathDelay d).
Definition norm_CURRENT_DATA_SET (d : CURRENT_DATA_SET_t) : CURRENT_DATA_SET_t :=
  mk_CURRENT_DATA_SET (cds_stepsRemoved d) (cds_offsetFromMaster d) (cds_meanPathDelay d).
Definition len_CURRENT_DATA_SET (d : CURRENT_DATA_SET_t) : Z :=
  18.
Definition fresh_CURRENT_DATA_SET (d : CURRENT_DATA_SET_t) : Prop := True.
Lemma codec_CURRENT_DATA_SET d d' :
  wf_CURRENT_DATA_SET d -> fresh_CURRENT_DATA_SET d' ->
  codec (CURRENT_DATA_SET_f d) (CURRENT_DATA_SET_f d') (norm_CURRENT_DATA_SET d) (len_CURRENT_DATA_SET d).
Proof. unfold wf_CURRENT_DATA_SET, fresh_CURRENT_DATA_SET, norm_CURRENT_DATA_SET, len_CURRENT_DATA_SET, CURRENT_DATA_SET_f. intros. codec_record d. Qed.
Lemma reads_CURRENT_DATA_SET d d' :
  fresh_CURRENT_DATA_SET d -> fresh_CURRENT_DATA_SET d' -> reads 0 (CURRENT_DATA_SET_f d) (CURRENT_DATA_SET_f d').
Proof. unfold fresh_CURRENT_DATA_SET, CURRENT_DATA_SET_f. intros. wf_split. eapply reads_weaken; [reads_auto|lia]. Qed.
#[global] Program Instance TlvSpec_CURRENT_DATA_SET : TlvSpec CURRENT_DATA_SET_t MngTlv_CURRENT_DATA_SET := {
  tlv_wf := wf_CURRENT_DATA_SET; tlv_norm := norm_CURRENT_DATA_SET; tlv_len := len_CURRENT_DATA_SET; tlv_fresh := fresh_CURRENT_DATA_SET;
  tlv_codec := (fun d d' H H' => codec_weaken _ _ _ _ (codec_CURRENT_DATA_SET d d' H H'));
  tlv_reads := reads_CURRENT_DATA_SET }.
Solve Obligations with cast_facts.

Definition wf_PARENT_DATA_SET (d : PARENT_DATA_SET_t) : Prop :=
  wf_PortIdentity (pds_parentPortIdentity d) /\ uint 8 (pds_flags d) /\
  uint 16 (pds_observedParentOffsetScaledLogVariance d) /\
  sint 32 (pds_observedParentClockPhaseChangeRate d) /\
  uint 8 (pds_grandmasterPriority1 d) /\
  wf_ClockQuality (pds_grandmasterClockQuality d) /\
  uint 8 (pds_grandmasterPriority2 d) /\ wf_ClockIdentity (pds_grandmasterIdentity d).
Definition norm_PARENT_DATA_SET (d : PARENT_DATA_SET_t) : PARENT_DATA_SET_t :=
  mk_PARENT_DATA_SET (pds_parentPortIdentity d)
  (normFlags PARENT_DATA_SET_flagsMask (pds_flags d))
  (pds_observedParentOffsetScaledLogVariance d)
  (pds_observedParentClockPhaseChangeRate d) (pds_grandmasterPriority1 d)
  (pds_grandmasterClockQuality d) (pds_grandmasterPriority2 d) (pds_grandmasterIdentity d).
Definition len_PARENT_DATA_SET (d : PARENT_DATA_SET_t) : Z :=
  32.
Definition fresh_PARENT_DATA_SET (d : PARENT_DATA_SET_t) : Prop := True.
Lemma codec_PARENT_DATA_SET d d' :
  wf_PARENT_DATA_SET d -> fresh_PARENT_DATA_SET d' ->
  codec (PARENT_DATA_SET_f d) (PARENT_DATA_SET_f d') (norm_PARENT_DATA_SET d) (len_PARENT_DATA_SET d).
Proof. unfold wf_PARENT_DATA_SET, fresh_PARENT_DATA_SET, norm_PARENT_DATA_SET, len_PARENT_DATA_SET, PARENT_DATA_SET_f. intros. codec_record d. Qed.
Lemma reads_PARENT_DATA_SET d d' :
  fresh_PARENT_DATA_SET d -> fresh_PARENT_DATA_SET d' -> reads 0 (PARENT_DATA_SET_f d) (PARENT_DATA_SET_f d').
Proof. unfold fresh_PARENT_DATA_SET, PARENT_DATA_SET_f. intros. wf_split. eapply reads_weaken; [reads_auto|lia]. Qed.
#[global] Program Instance TlvSpec_PARENT_DATA_SET : TlvSpec PARENT_DATA_SET_t MngTlv_PARENT_DATA_SET := {
  tlv_wf := wf_PARENT_DATA_SET; tlv_norm := norm_PARENT_DATA_SET; tlv_len := len_PARENT_DATA_SET; tlv_fresh := fresh_PARENT_DATA_SET;
  tlv_codec := (fun d d' H H' => codec_weaken _ _ _ _ (codec_PARENT_DATA_SET d d' H H'));
  tlv_reads := reads_PARENT_DATA_SET }.
Solve Obligations with cast_facts.

Definition wf_TIME_PROPERTIES_DATA_SET (d : TIME_PROPERTIES_DATA_SET_t) : Prop :=
  sint 16 (tpds_currentUtcOffset d) /\ uint 8 (tpds_flags d) /\ uint 8 (tpds_timeSource d).
Definition norm_TIME_PROPERTIES_DATA_SET (d : TIME_PROPERTIES_DATA_SET_t) : TIME_PROPERTIES_DATA_SET_t :=
  mk_TIME_PROPERTIES_DATA_SET (tpds_currentUtcOffset d)
  (normFlags TIME_PROPERTIES_DATA_SET_flagsMask (tpds_flags d)) (tpds_timeSource d).
Definition len_TIME_PROPERTIES_DATA_SET (d : TIME_PROPERTIES_DATA_SET_t) : Z :=
  4.
Definition fresh_TIME_PROPERTIES_DATA_SET (d : TIME_PROPERTIES_DATA_SET_t) : Prop := True.
Lemma codec_TIME_PROPERTIES_DATA_SET d d' :
  wf_TIME_PROPERTIES_DATA_SET d -> fresh_TIME_PROPERTIES_DATA_SET d' ->
  codec (TIME_PROPERTIES_DATA_SET_f d) (TIME_PROPERTIES_DATA_SET_f d') (norm_TIME_PROPERTIES_DATA_SET d) (len_TIME_PROPERTIES_DATA_SET d).
Proof. unfold wf_TIME_PROPERTIES_DATA_SET, fresh_TIME_PROPERTIES_DATA_SET, norm_TIME_PROPERTIES_DATA_SET, len_TIME_PROPERTIES_DATA_SET, TIME_PROPERTIES_DATA_SET_f. intros. codec_record d. Qed.
Lemma reads_TIME_PROPERTIES_DATA_SET d d' :
  fresh_TIME_PROPERTIES_DATA_SET d -> fresh_TIME_PROPERTIES_DATA_SET d' -> reads 0 (TIME_PROPERTIES_DATA_SET_f d) (TIME_PROPERTIES_DATA_SET_f d').
Proof. unfold fresh_TIME_PROPERTIES_DATA_SET, TIME_PROPERTIES_DATA_SET_f. intros. wf_split. eapply reads_weaken; [reads_auto|lia]. Qed.
#[global] Program Instance TlvSpec_TIME_PROPERTIES_DATA_SET : TlvSpec TIME_PROPERTIES_DATA_SET_t MngTlv_TIME_PROPERTIES_DATA_SET := {
  tlv_wf := wf_TIME_PROPERTIES_DATA_SET; tlv_norm := norm_TIME_PROPERTIES_DATA_SET; tlv_len := len_TIME_PROPERTIES_DATA_SET; tlv_fresh := fresh_TIME_PROPERTIES_DATA_SET;
  tlv_codec := (fun d d' H H' => codec_weaken _ _ _ _ (codec_TIME_PROPERTIES_DATA_SET d d' H H'));
  tlv_reads := reads_TIME_PROPERTIES_DATA_SET }.
Solve Obligations with cast_facts.

Definition wf_PORT_DATA_SET (d : PORT_DATA_SET_t) : Prop :=
  wf_PortIdentity (ptds_portIdentity d) /\ uint 8 (ptds_portState d) /\
  sint 8 (ptds_logMinDelayReqInterval d) /\ wf_TimeInterval (ptds_peerMeanPathDelay d) /\
  sint 8 (ptds_logAnnounceInterval d) /\ uint 8 (ptds_announceReceiptTimeout d) /\
  sint 8 (ptds_logSyncInterval d) /\ uint 8 (ptds_delayMechanism d) /\
  sint 8 (ptds_logMinPdelayReqInterval d) /\ uint 8 (ptds_versionNumber d).
Definition norm_PORT_DATA_SET (d : PORT_DATA_SET_t) : PORT_DATA_SET_t :=
  mk_PORT_DATA_SET (ptds_portIdentity d) (ptds_portState d)
  (ptds_logMinDelayReqInterval d) (ptds_peerMeanPathDelay d) (ptds_logAnnounceInterval d)
  (ptds_announceReceiptTimeout d) (ptds_logSyncInterval d) (ptds_delayMechanism d)
  (ptds_logMinPdelayReqInterval d) (ptds_versionNumber d).
Definition len_PORT_DATA_SET (d : PORT_DATA_SET_t) : Z :=
  26.
Definition fresh_PORT_DATA_SET (d : PORT_DATA_SET_t) : Prop := True.
Lemma codec_PORT_DATA_SET d d' :
  wf_PORT_DATA_SET d -> fresh_PORT_DATA_SET d' ->
  codec (PORT_DATA_SET_f d) (PORT_DATA_SET_f d') (norm_PORT_DATA_SET d) (len_PORT_DATA_SET d).
Proof. unfold wf_PORT_DATA_SET, fresh_PORT_DATA_SET, norm_PORT_DATA_SET, len_PORT_DATA_SET, PORT_DATA_SET_f. intros. codec_record d. Qed.
Lemma reads_PORT_DATA_SET d d' :
  fresh_PORT_DATA_SET d -> fresh_PORT_DATA_SET d' -> reads 0 (PORT_DATA_SET_f d) (PORT_DATA_SET_f d').
Proof. unfold fresh_PORT_DATA_SET, PORT_DATA_SET_f. intros. wf_split. eapply reads_weaken; [reads_auto|lia]. Qed.
#[global] Program Instance TlvSpec_PORT_DATA_SET : TlvSpec PORT_DATA_SET_t MngTlv_PORT_DATA_SET := {
  tlv_wf := wf_PORT_DATA_SET; tlv_norm := norm_PORT_DATA_SET; tlv_len := len_PORT_DATA_SET; tlv_fresh := fresh_PORT_DATA_SET;
  tlv_codec := (fun d d' H H' => codec_weaken _ _ _ _ (codec_PORT_DATA_SET d d' H H'));
  tlv_reads := reads_PORT_DATA_SET }.
Solve Obligations with cast_facts.

Definition wf_PRIORITY1 (d : PRIORITY1_t) : Prop :=
  uint 8 (pr1_priority1 d).
Definition norm_PRIORITY1 (d : PRIORITY1_t) : PRIORITY1_t :=
  mk_PRIORITY1 (pr1_priority1 d).
Definition len_PRIORITY1 (d : PRIORITY1_t) : Z :=
  1.
Definition fresh_PRIORITY1 (d : PRIORITY1_t) : Prop := True.
Lemma codec_PRIORITY1 d d' :
  wf_PRIORITY1 d -> fresh_PRIORITY1 d' ->
  codec (PRIORITY1_f d) (PRIORITY1_f d') (norm_PRIORITY1 d) (len_PRIORITY1 d).
Proof. unfold wf_PRIORITY1, fresh_PRIORITY1, norm_PRIORITY1, len_PRIORITY1, PRIORITY1_f. intros. codec_record d. Qed.
Lemma reads_PRIORITY1 d d' :
  fresh_PRIORITY1 d -> fresh_PRIORITY1 d' -> reads 0 (PRIORITY1_f d) (PRIORITY1_f d').
Proof. unfold fresh_PRIORITY1, PRIORITY1_f. intros. wf_split. eapply reads_weaken; [reads_auto|lia]. Qed.
#[global] Program Instance TlvSpec_PRIORITY1 : TlvSpec PRIORITY1_t MngTlv_PRIORITY1 := {
  tlv_wf := wf_PRIORITY1; tlv_norm := norm_PRIORITY1; tlv_len := len_PRIORITY1; tlv_fresh := fresh_PRIORITY1;
  tlv_codec := (fun d d' H H' => codec_weaken _ _ _ _ (codec_PRIORITY1 d d' H H'));
  tlv_reads := reads_PRIORITY1 }.
Solve Obligations with cast_facts.

Definition wf_PRIORITY2 (d : PRIORITY2_t) : Prop :=
  uint 8 (pr2_priority2 d).
Definition norm_PRIORITY2 (d : PRIORITY2_t) : PRIORITY2_t :=
  mk_PRIORITY2 (pr2_priority2 d).
Definition len_PRIORITY2 (d : PRIORITY2_t) : Z :=
  1.
Definition fresh_PRIORITY2 (d : PRIORITY2_t) : Prop := True.
Lemma codec_PRIORITY2 d d' :
  wf_PRIORITY2 d -> fresh_PRIORITY2 d' ->
  codec (PRIORITY2_f d) (PRIORITY2_f d') (norm_PRIORITY2 d) (len_PRIORITY2 d).
Proof. unfold wf_PRIORITY2, fresh_PRIORITY2, norm_PRIORITY2, len_PRIORITY2, PRIORITY2_f. intros. codec_record d. Qed.
Lemma reads_PRIORITY2 d d' :
  fresh_PRIORITY2 d -> fresh_PRIORITY2 d' -> reads 0 (PRIORITY2_f d) (PRIORITY2_f d').
Proof. unfold fresh_PRIORITY2, PRIORITY2_f. intros. wf_split. eapply reads_weaken; [reads_auto|lia]. Qed.
#[global] Program Instance TlvSpec_PRIORITY2 : TlvSpec PRIORITY2_t MngTlv_PRIORITY2 := {
  tlv_wf := wf_PRIORITY2; tlv_norm := norm_PRIORITY2; tlv_len := len_PRIORITY2; tlv_fresh := fresh_PRIORITY2;
  tlv_codec := (fun d d' H H' => codec_weaken _ _ _ _ (codec_PRIORITY2 d d' H H'));
  tlv_reads := reads_PRIORITY2 }.
Solve Obligations with cast_facts.

Definition wf_DOMAIN (d : DOMAIN_t) : Prop :=
  uint 8 (dom_domainNumber d).
Definition norm_DOMAIN (d : DOMAIN_t) : DOMAIN_t :=
  mk_DOMAIN (dom_domainNumber d).
Definition len_DOMAIN (d : DOMAIN_t) : Z :=
  1.
Definition fresh_DOMAIN (d : DOMAIN_t) : Prop := True.
Lemma codec_DOMAIN d d' :
  wf_DOMAIN d -> fresh_DOMAIN d' ->
  codec (DOMAIN_f d) (DOMAIN_f d') (norm_DOMAIN d) (len_DOMAIN d).
Proof. unfold wf_DOMAIN, fresh_DOMAIN, norm_DOMAIN, len_DOMAIN, DOMAIN_f. intros. codec_record d. Qed.
Lemma reads_DOMAIN d d' :
  fresh_DOMAIN d -> fresh_DOMAIN d' -> reads 0 (DOMAIN_f d) (DOMAIN_f d').
Proof. unfold fresh_DOMAIN, DOMAIN_f. intros. wf_split. eapply reads_weaken; [reads_auto|lia]. Qed.
#[global] Program Instance TlvSpec_DOMAIN : TlvSpec DOMAIN_t MngTlv_DOMAIN := {
  tlv_wf := wf_DOMAIN; tlv_norm := norm_DOMAIN; tlv_len := len_DOMAIN; tlv_fresh := fresh_DOMAIN;
  tlv_codec := (fun d d' H H' => codec_weaken _ _ _ _ (codec_DOMAIN d d' H H'));
  tlv_reads := reads_DOMAIN }.
Solve Obligations with cast_facts.

Definition wf_SLAVE_ONLY (d : SLAVE_ONLY_t) : Prop :=
  uint 8 (so_flags d).
Definition norm_SLAVE_ONLY (d : SLAVE_ONLY_t) : SLAVE_ONLY_t :=
  mk_SLAVE_ONLY (normFlags SLAVE_ONLY_flagsMask (so_flags d)).
Definition len_SLAVE_ONLY (d : SLAVE_ONLY_t) : Z :=
  1.
Definition fresh_SLAVE_ONLY (d : SLAVE_ONLY_t) : Prop := True.
Lemma codec_SLAVE_ONLY d d' :
  wf_SLAVE_ONLY d -> fresh_SLAVE_ONLY d' ->
  codec (SLAVE_ONLY_f d) (SLAVE_ONLY_f d') (norm_SLAVE_ONLY d) (len_SLAVE_ONLY d).
Proof. unfold wf_SLAVE_ONLY, fresh_SLAVE_ONLY, norm_SLAVE_ONLY, len_SLAVE_ONLY, SLAVE_ONLY_f. intros. codec_record d. Qed.
Lemma reads_SLAVE_ONLY d d' :
  fresh_SLAVE_ONLY d -> fresh_SLAVE_ONLY d' -> reads 0 (SLAVE_ONLY_f d) (SLAVE_ONLY_f d').
Proof. unfold fresh_SLAVE_ONLY, SLAVE_ONLY_f. intros. wf_split. eapply reads_weaken; [reads_auto|lia]. Qed.
#[global] Program Instance TlvSpec_SLAVE_ONLY : TlvSpec SLAVE_ONLY_t MngTlv_SLAVE_ONLY := {
  tlv_wf := wf_SLAVE_ONLY; tlv_norm := norm_SLAVE_ONLY; tlv_len := len_SLAVE_ONLY; tlv_fresh := fresh_SLAVE_ONLY;
  tlv_codec := (fun d d' H H' => codec_weaken _ _ _ _ (codec_SLAVE_ONLY d d' H H'));
  tlv_reads := reads_SLAVE_ONLY }.
Solve Obligations with cast_facts.

Definition wf_LOG_ANNOUNCE_INTERVAL (d : LOG_ANNOUNCE_INTERVAL_t) : Prop :=
  sint 8 (lai_logAnnounceInterval d).
Definition norm_LOG_ANNOUNCE_INTERVAL (d : LOG_ANNOUNCE_INTERVAL_t) : LOG_ANNOUNCE_INTERVAL_t :=
  mk_LOG_ANNOUNCE_INTERVAL (lai_logAnnounceInterval d).
Definition len_LOG_ANNOUNCE_INTERVAL (d : LOG_ANNOUNCE_INTERVAL_t) : Z :=
  1.
Definition fresh_LOG_ANNOUNCE_INTERVAL (d : LOG_ANNOUNCE_INTERVAL_t) : Prop := True.
Lemma codec_LOG_ANNOUNCE_INTERVAL d d' :
  wf_LOG_ANNOUNCE_INTERVAL d -> fresh_LOG_ANNOUNCE_INTERVAL d' ->
  codec (LOG_ANNOUNCE_INTERVAL_f d) (LOG_ANNOUNCE_INTERVAL_f d') (norm_LOG_ANNOUNCE_INTERVAL d) (len_LOG_ANNOUNCE_INTERVAL d).
Proof. unfold wf_LOG_ANNOUNCE_INTERVAL, fresh_LOG_ANNOUNCE_INTERVAL, norm_LOG_ANNOUNCE_INTERVAL, len_LOG_ANNOUNCE_INTERVAL, LOG_ANNOUNCE_INTERVAL_f. intros. codec_record d. Qed.
Lemma reads_LOG_ANNOUNCE_INTERVAL d d' :
  fresh_LOG_ANNOUNCE_INTERVAL d -> fresh_LOG_ANNOUNCE_INTERVAL d' -> reads 0 (LOG_ANNOUNCE_INTERVAL_f d) (LOG_ANNOUNCE_INTERVAL_f d').
Proof. unfold fresh_LOG_ANNOUNCE_INTERVAL, LOG_ANNOUNCE_INTERVAL_f. intros. wf_split. eapply reads_weaken; [reads_auto|lia]. Qed.
#[global] Program Instance TlvSpec_LOG_ANNOUNCE_INTERVAL : TlvSpec LOG_ANNOUNCE_INTERVAL_t MngTlv_LOG_ANNOUNCE_INTERVAL := {
  tlv_wf := wf_LOG_ANNOUNCE_INTERVAL; tlv_norm := norm_LOG_ANNOUNCE_INTERVAL; tlv_len := len_LOG_ANNOUNCE_INTERVAL; tlv_fresh := fresh_LOG_ANNOUNCE_INTERVAL;
  tlv_codec := (fun d d' H H' => codec_weaken _ _ _ _ (codec_LOG_ANNOUNCE_INTERVAL d d' H H'));
  tlv_reads := reads_LOG_ANNOUNCE_INTERVAL }.
Solve Obligations with cast_facts.

Definition wf_ANNOUNCE_RECEIPT_TIMEOUT (d : ANNOUNCE_RECEIPT_TIMEOUT_t) : Prop :=
  uint 8 (art_announceReceiptTimeout d).
Definition norm_ANNOUNCE_RECEIPT_TIMEOUT (d : ANNOUNCE_RECEIPT_TIMEOUT_t) : ANNOUNCE_RECEIPT_TIMEOUT_t :=
  mk_ANNOUNCE_RECEIPT_TIMEOUT (art_announceReceiptTimeout d).
Definition len_ANNOUNCE_RECEIPT_TIMEOUT (d : ANNOUNCE_RECEIPT_TIMEOUT_t) : Z :=
  1.
Definition fresh_ANNOUNCE_RECEIPT_TIMEOUT (d : ANNOUNCE_RECEIPT_TIMEOUT_t) : Prop := True.
Lemma codec_ANNOUNCE_RECEIPT_TIMEOUT d d' :
  wf_ANNOUNCE_RECEIPT_TIMEOUT d -> fresh_ANNOUNCE_RECEIPT_TIMEOUT d' ->
  codec (ANNOUNCE_RECEIPT_TIMEOUT_f d) (ANNOUNCE_RECEIPT_TIMEOUT_f d') (norm_ANNOUNCE_RECEIPT_TIMEOUT d) (len_ANNOUNCE_RECEIPT_TIMEOUT d).
Proof. unfold wf_ANNOUNCE_RECEIPT_TIMEOUT, fresh_ANNOUNCE_RECEIPT_TIMEOUT, norm_ANNOUNCE_RECEIPT_TIMEOUT, len_ANNOUNCE_RECEIPT_TIMEOUT, ANNOUNCE_RECEIPT_TIMEOUT_f. intros. codec_record d. Qed.
Lemma reads_ANNOUNCE_RECEIPT_TIMEOUT d d' :
  fresh_ANNOUNCE_RECEIPT_TIMEOUT d -> fresh_ANNOUNCE_RECEIPT_TIMEOUT d' -> reads 0 (ANNOUNCE_RECEIPT_TIMEOUT_f d) (ANNOUNCE_RECEIPT_TIMEOUT_f d').
Proof. unfold fresh_ANNOUNCE_RECEIPT_TIMEOUT, ANNOUNCE_RECEIPT_TIMEOUT_f. intros. wf_split. eapply reads_weaken; [reads_auto|lia]. Qed.
#[global] Program Instance TlvSpec_ANNOUNCE_RECEIPT_TIMEOUT : TlvSpec ANNOUNCE_RECEIPT_TIMEOUT_t MngTlv_ANNOUNCE_RECEIPT_TIMEOUT := {
  tlv_wf := wf_ANNOUNCE_RECEIPT_TIMEOUT; tlv_norm := norm_ANNOUNCE_RECEIPT_TIMEOUT; tlv_len := len_ANNOUNCE_RECEIPT_TIMEOUT; tlv_fresh := fresh_ANNOUNCE_RECEIPT_TIMEOUT;
  tlv_codec := (fun d d' H H' => codec_weaken _ _ _ _ (codec_ANNOUNCE_RECEIPT_TIMEOUT d d' H H'));
  tlv_reads := reads_ANNOUNCE_RECEIPT_TIMEOUT }.
Solve Obligations with cast_facts.

Definition wf_LOG_SYNC_INTERVAL (d : LOG_SYNC_INTERVAL_t) : Prop :=
  sint 8 (lsi_logSyncInterval d).
Definition norm_LOG_SYNC_INTERVAL (d : LOG_SYNC_INTERVAL_t) : LOG_SYNC_INTERVAL_t :=
  mk_LOG_SYNC_INTERVAL (lsi_logSyncInterval d).
Definition len_LOG_SYNC_INTERVAL (d : LOG_SYNC_INTERVAL_t) : Z :=
  1.
Definition fresh_LOG_SYNC_INTERVAL (d : LOG_SYNC_INTERVAL_t) : Prop := True.
Lemma codec_LOG_SYNC_INTERVAL d d' :
  wf_LOG_SYNC_INTERVAL d -> fresh_LOG_SYNC_INTERVAL d' ->
  codec (LOG_SYNC_INTERVAL_f d) (LOG_SYNC_INTERVAL_f d') (norm_LOG_SYNC_INTERVAL d) (len_LOG_SYNC_INTERVAL d).
Proof. unfold wf_LOG_SYNC_INTERVAL, fresh_LOG_SYNC_INTERVAL, norm_LOG_SYNC_INTERVAL, len_LOG_SYNC_INTERVAL, LOG_SYNC_INTERVAL_f. intros. codec_record d. Qed.
Lemma reads_LOG_SYNC_INTERVAL d d' :
  fresh_LOG_SYNC_INTERVAL d -> fresh_LOG_SYNC_INTERVAL d' -> reads 0 (LOG_SYNC_INTERVAL_f d) (LOG_SYNC_INTERVAL_f d').
Proof. unfold fresh_LOG_SYNC_INTERVAL, LOG_SYNC_INTERVAL_f. intros. wf_split. eapply reads_weaken; [reads_auto|lia]. Qed.
#[global] Program Instance TlvSpec_LOG_SYNC_INTERVAL : TlvSpec LOG_SYNC_INTERVAL_t MngTlv_LOG_SYNC_INTERVAL := {
  tlv_wf := wf_LOG_SYNC_INTERVAL; tlv_norm := norm_LOG_SYNC_INTERVAL; tlv_len := len_LOG_SYNC_INTERVAL; tlv_fresh := fresh_LOG_SYNC_INTERVAL;
  tlv_codec := (fun d d' H H' => codec_weaken _ _ _ _ (codec_LOG_SYNC_INTERVAL d d' H H'));
  tlv_reads := reads_LOG_SYNC_INTERVAL }.
Solve Obligations with cast_facts.

Definition wf_VERSION_NUMBER (d : VERSION_NUMBER_t) : Prop :=
  uint 8 (vn_versionNumber d).
Definition norm_VERSION_NUMBER (d : VERSION_NUMBER_t) : VERSION_NUMBER_t :=
  mk_VERSION_NUMBER (vn_versionNumber d).
Definition len_VERSION_NUMBER (d : VERSION_NUMBER_t) : Z :=
  1.
Definition fresh_VERSION_NUMBER (d : VERSION_NUMBER_t) : Prop := True.
Lemma codec_VERSION_NUMBER d d' :
  wf_VERSION_NUMBER d -> fresh_VERSION_NUMBER d' ->
  codec (VERSION_NUMBER_f d) (VERSION_NUMBER_f d') (norm_VERSION_NUMBER d) (len_VERSION_NUMBER d).
Proof. unfold wf_VERSION_NUMBER, fresh_VERSION_NUMBER, norm_VERSION_NUMBER, len_VERSION_NUMBER, VERSION_NUMBER_f. intros. codec_record d. Qed.
Lemma reads_VERSION_NUMBER d d' :
  fresh_VERSION_NUMBER d -> fresh_VERSION_NUMBER d' -> reads 0 (VERSION_NUMBER_f d) (VERSION_NUMBER_f d').
Proof. unfold fresh_VERSION_NUMBER, VERSION_NUMBER_f. intros. wf_split. eapply reads_weaken; [reads_auto|lia]. Qed.
#[global] Program Instance TlvSpec_VERSION_NUMBER : TlvSpec VERSION_NUMBER_t MngTlv_VERSION_NUMBER := {
  tlv_wf := wf_VERSION_NUMBER; tlv_norm := norm_VERSION_NUMBER; tlv_len := len_VERSION_NUMBER; tlv_fresh := fresh_VERSION_NUMBER;
  tlv_codec := (fun d d' H H' => codec_weaken _ _ _ _ (codec_VERSION_NUMBER d d' H H'));
  tlv_reads := reads_VERSION_NUMBER }.
Solve Obligations with cast_facts.

Definition wf_TIME (d : TIME_t) : Prop :=
  wf_Timestamp48 (tm_currentTime d).
Definition norm_TIME (d : TIME_t) : TIME_t :=
  mk_TIME (tm_currentTime d).
Definition len_TIME (d : TIME_t) : Z :=
  10.
Definition fresh_TIME (d : TIME_t) : Prop := True.
Lemma codec_TIME d d' :
  wf_TIME d -> fresh_TIME d' ->
  codec (TIME_f d) (TIME_f d') (norm_TIME d) (len_TIME d).
Proof. unfold wf_TIME, fresh_TIME, norm_TIME, len_TIME, TIME_f. intros. codec_record d. Qed.
Lemma reads_TIME d d' :
  fresh_TIME d -> fresh_TIME d' -> reads 0 (TIME_f d) (TIME_f d').
Proof. unfold fresh_TIME, TIME_f. intros. wf_split. eapply reads_weaken; [reads_auto|lia]. Qed.
#[global] Program Instance TlvSpec_TIME : TlvSpec TIME_t MngTlv_TIME := {
  tlv_wf := wf_TIME; tlv_norm := norm_TIME; tlv_len := len_TIME; tlv_fresh := fresh_TIME;
  tlv_codec := (fun d d' H H' => codec_weaken _ _ _ _ (codec_TIME d d' H H'));
  tlv_reads := reads_TIME }.
Solve Obligations with cast_facts.

Definition wf_CLOCK_ACCURACY (d : CLOCK_ACCURACY_t) : Prop :=
  uint 8 (ca_clockAccuracy d).
Definition norm_CLOCK_ACCURACY (d : CLOCK_ACCURACY_t) : CLOCK_ACCURACY_t :=
  mk_CLOCK_ACCURACY (ca_clockAccuracy d).
Definition len_CLOCK_ACCURACY (d : CLOCK_ACCURACY_t) : Z :=
  1.
Definition fresh_CLOCK_ACCURACY (d : CLOCK_ACCURACY_t) : Prop := True.
Lemma codec_CLOCK_ACCURACY d d' :
  wf_CLOCK_ACCURACY d -> fresh_CLOCK_ACCURACY d' ->
  codec (CLOCK_ACCURACY_f d) (CLOCK_ACCURACY_f d') (norm_CLOCK_ACCURACY d) (len_CLOCK_ACCURACY d).
Proof. unfold wf_CLOCK_ACCURACY, fresh_CLOCK_ACCURACY, norm_CLOCK_ACCURACY, len_CLOCK_ACCURACY, CLOCK_ACCURACY_f. intros. codec_record d. Qed.
Lemma reads_CLOCK_ACCURACY d d' :
  fresh_CLOCK_ACCURACY d -> fresh_CLOCK_ACCURACY d' -> reads 0 (CLOCK_ACCURACY_f d) (CLOCK_ACCURACY_f d').
Proof. unfold fresh_CLOCK_ACCURACY, CLOCK_ACCURACY_f. intros. wf_split. eapply reads_weaken; [reads_auto|lia]. Qed.
#[global] Program Instance TlvSpec_CLOCK_ACCURACY : TlvSpec CLOCK_ACCURACY_t MngTlv_CLOCK_ACCURACY := {
  tlv_wf := wf_CLOCK_ACCURACY; tlv_norm := norm_CLOCK_ACCURACY; tlv_len := len_CLOCK_ACCURACY; tlv_fresh := fresh_CLOCK_ACCURACY;
  tlv_codec := (fun d d' H H' => codec_weaken _ _ _ _ (codec_CLOCK_ACCURACY d d' H H'));
  tlv_reads := reads_CLOCK_ACCURACY }.
Solve Obligations with cast_facts.

Definition wf_UTC_PROPERTIES (d : UTC_PROPERTIES_t) : Prop :=
  sint 16 (up_currentUtcOffset d) /\ uint 8 (up_flags d).
Definition norm_UTC_PROPERTIES (d : UTC_PROPERTIES_t) : UTC_PROPERTIES_t :=
  mk_UTC_PROPERTIES (up_currentUtcOffset d)
  (normFlags UTC_PROPERTIES_flagsMask (up_flags d)).
Definition len_UTC_PROPERTIES (d : UTC_PROPERTIES_t) : Z :=
  3.
Definition fresh_UTC_PROPERTIES (d : UTC_PROPERTIES_t) : Prop := True.
Lemma codec_UTC_PROPERTIES d d' :
  wf_UTC_PROPERTIES d -> fresh_UTC_PROPERTIES d' ->
  codec (UTC_PROPERTIES_f d) (UTC_PROPERTIES_f d') (norm_UTC_PROPERTIES d) (len_UTC_PROPERTIES d).
Proof. unfold wf_UTC_PROPERTIES, fresh_UTC_PROPERTIES, norm_UTC_PROPERTIES, len_UTC_PROPERTIES, UTC_PROPERTIES_f. intros. codec_record d. Qed.
Lemma reads_UTC_PROPERTIES d d' :
  fresh_UTC_PROPERTIES d -> fresh_UTC_PROPERTIES d' -> reads 0 (UTC_PROPERTIES_f d) (UTC_PROPERTIES_f d').
Proof. unfold fresh_UTC_PROPERTIES, UTC_PROPERTIES_f. intros. wf_split. eapply reads_weaken; [reads_auto|lia]. Qed.
#[global] Program Instance TlvSpec_UTC_PROPERTIES : TlvSpec UTC_PROPERTIES_t MngTlv_UTC_PROPERTIES := {
  tlv_wf := wf_UTC_PROPERTIES; tlv_norm := norm_UTC_PROPERTIES; tlv_len := len_UTC_PROPERTIES; tlv_fresh := fresh_UTC_PROPERTIES;
  tlv_codec := (fun d d' H H' => codec_weaken _ _ _ _ (codec_UTC_PROPERTIES d d' H H'));
  tlv_reads := reads_UTC_PROPERTIES }.
Solve Obligations with cast_facts.

Definition wf_TRACEABILITY_PROPERTIES (d : TRACEABILITY_PROPERTIES_t) : Prop :=
  uint 8 (trp_flags d).
Definition norm_TRACEABILITY_PROPERTIES (d : TRACEABILITY_PROPERTIES_t) : TRACEABILITY_PROPERTIES_t :=
  mk_TRACEABILITY_PROPERTIES (normFlags TRACEABILITY_PROPERTIES_flagsMask (trp_flags d)).
Definition len_TRACEABILITY_PROPERTIES (d : TRACEABILITY_PROPERTIES_t) : Z :=
  1.
Definition fresh_TRACEABILITY_PROPERTIES (d : TRACEABILITY_PROPERTIES_t) : Prop := True.
Lemma codec_TRACEABILITY_PROPERTIES d d' :
  wf_TRACEABILITY_PROPERTIES d -> fresh_TRACEABILITY_PROPERTIES d' ->
  codec (TRACEABILITY_PROPERTIES_f d) (TRACEABILITY_PROPERTIES_f d') (norm_TRACEABILITY_PROPERTIES d) (len_TRACEABILITY_PROPERTIES d).
Proof. unfold wf_TRACEABILITY_PROPERTIES, fresh_TRACEABILITY_PROPERTIES, norm_TRACEABILITY_PROPERTIES, len_TRACEABILITY_PROPERTIES, TRACEABILITY_PROPERTIES_f. intros. codec_record d. Qed.
Lemma reads_TRACEABILITY_PROPERTIES d d' :
  fresh_TRACEABILITY_PROPERTIES d -> fresh_TRACEABILITY_PROPERTIES d' -> reads 0 (TRACEABILITY_PROPERTIES_f d) (TRACEABILITY_PROPERTIES_f d').
Proof. unfold fresh_TRACEABILITY_PROPERTIES, TRACEABILITY_PROPERTIES_f. intros. wf_split. eapply reads_weaken; [reads_auto|lia]. Qed.
#[global] Program Instance TlvSpec_TRACEABILITY_PROPERTIES : TlvSpec TRACEABILITY_PROPERTIES_t MngTlv_TRACEABILITY_PROPERTIES := {
  tlv_wf := wf_TRACEABILITY_PROPERTIES; tlv_norm := norm_TRACEABILITY_PROPERTIES; tlv_len := len_TRACEABILITY_PROPERTIES; tlv_fresh := fresh_TRACEABILITY_PROPERTIES;
  tlv_codec := (fun d d' H H' => codec_weaken _ _ _ _ (codec_TRACEABILITY_PROPERTIES d d' H H'));
  tlv_reads := reads_TRACEABILITY_PROPERTIES }.
Solve Obligations with cast_facts.

Definition wf_TIMESCALE_PROPERTIES (d : TIMESCALE_PROPERTIES_t) : Prop :=
  uint 8 (tsp_flags d) /\ uint 8 (tsp_timeSource d).
Definition norm_TIMESCALE_PROPERTIES (d : TIMESCALE_PROPERTIES_t) : TIMESCALE_PROPERTIES_t :=
  mk_TIMESCALE_PROPERTIES (normFlags TIMESCALE_PROPERTIES_flagsMask (tsp_flags d))
  (tsp_timeSource d).
Definition len_TIMESCALE_PROPERTIES (d : TIMESCALE_PROPERTIES_t) : Z :=
  2.
Definition fresh_TIMESCALE_PROPERTIES (d : TIMESCALE_PROPERTIES_t) : Prop := True.
Lemma codec_TIMESCALE_PROPERTIES d d' :
  wf_TIMESCALE_PROPERTIES d -> fresh_TIMESCALE_PROPERTIES d' ->
  codec (TIMESCALE_PROPERTIES_f d) (TIMESCALE_PROPERTIES_f d') (norm_TIMESCALE_PROPERTIES d) (len_TIMESCALE_PROPERTIES d).
Proof. unfold wf_TIMESCALE_PROPERTIES, fresh_TIMESCALE_PROPERTIES, norm_TIMESCALE_PROPERTIES, len_TIMESCALE_PROPERTIES, TIMESCALE_PROPERTIES_f. intros. codec_record d. Qed.
Lemma reads_TIMESCALE_PROPERTIES d d' :
  fresh_TIMESCALE_PROPERTIES d -> fresh_TIMESCALE_PROPERTIES d' -> reads 0 (TIMESCALE_PROPERTIES_f d) (TIMESCALE_PROPERTIES_f d').
Proof. unfold fresh_TIMESCALE_PROPERTIES, TIMESCALE_PROPERTIES_f. intros. wf_split. eapply reads_weaken; [reads_auto|lia]. Qed.
#[global] Program Instance TlvSpec_TIMESCALE_PROPERTIES : TlvSpec TIMESCALE_PROPERTIES_t MngTlv_TIMESCALE_PROPERTIES := {
  tlv_wf := wf_TIMESCALE_PROPERTIES; tlv_norm := norm_TIMESCALE_PROPERTIES; tlv_len := len_TIMESCALE_PROPERTIES; tlv_fresh := fresh_TIMESCALE_PROPERTIES;
  tlv_codec := (fun d d' H H' => codec_weaken _ _ _ _ (codec_TIMESCALE_PROPERTIES d d' H H'));
  tlv_reads := reads_TIMESCALE_PROPERTIES }.
Solve Obligations with cast_facts.

Definition wf_UNICAST_NEGOTIATION_ENABLE (d : UNICAST_NEGOTIATION_ENABLE_t) : Prop :=
  uint 8 (une_flags d).
Definition norm_UNICAST_NEGOTIATION_ENABLE (d : UNICAST_NEGOTIATION_ENABLE_t) : UNICAST_NEGOTIATION_ENABLE_t :=
  mk_UNICAST_NEGOTIATION_ENABLE
  (normFlags UNICAST_NEGOTIATION_ENABLE_flagsMask (une_flags d)).
Definition len_UNICAST_NEGOTIATION_ENABLE (d : UNICAST_NEGOTIATION_ENABLE_t) : Z :=
  1.
Definition fresh_UNICAST_NEGOTIATION_ENABLE (d : UNICAST_NEGOTIATION_ENABLE_t) : Prop := True.
Lemma codec_UNICAST_NEGOTIATION_ENABLE d d' :
  wf_UNICAST_NEGOTIATION_ENABLE d -> fresh_UNICAST_NEGOTIATION_ENABLE d' ->
  codec (UNICAST_NEGOTIATION_ENABLE_f d) (UNICAST_NEGOTIATION_ENABLE_f d') (norm_UNICAST_NEGOTIATION_ENABLE d) (len_UNICAST_NEGOTIATION_ENABLE d).
Proof. unfold wf_UNICAST_NEGOTIATION_ENABLE, fresh_UNICAST_NEGOTIATION_ENABLE, norm_UNICAST_NEGOTIATION_ENABLE, len_UNICAST_NEGOTIATION_ENABLE, UNICAST_NEGOTIATION_ENABLE_f. intros. codec_record d. Qed.
Lemma reads_UNICAST_NEGOTIATION_ENABLE d d' :
  fresh_UNICAST_NEGOTIATION_ENABLE d -> fresh_UNICAST_NEGOTIATION_ENABLE d' -> reads 0 (UNICAST_NEGOTIATION_ENABLE_f d) (UNICAST_NEGOTIATION_ENABLE_f d').
Proof. unfold fresh_UNICAST_NEGOTIATION_ENABLE, UNICAST_NEGOTIATION_ENABLE_f. intros. wf_split. eapply reads_weaken; [reads_auto|lia]. Qed.
#[global] Program Instance TlvSpec_UNICAST_NEGOTIATION_ENABLE : TlvSpec UNICAST_NEGOTIATION_ENABLE_t MngTlv_UNICAST_NEGOTIATION_ENABLE := {
  tlv_wf := wf_UNICAST_NEGOTIATION_ENABLE; tlv_norm := norm_UNICAST_NEGOTIATION_ENABLE; tlv_len := len_UNICAST_NEGOTIATION_ENABLE; tlv_fresh := fresh_UNICAST_NEGOTIATION_ENABLE;
  tlv_codec := (fun d d' H H' => codec_weaken _ _ _ _ (codec_UNICAST_NEGOTIATION_ENABLE d d' H H'));
  tlv_reads := reads_UNICAST_NEGOTIATION_ENABLE }.
Solve Obligations with cast_facts.

Definition wf_PATH_TRACE_LIST (d : PATH_TRACE_LIST_t) : Prop :=
  Forall wf_ClockIdentity (ptl_pathSequence d).
Definition norm_PATH_TRACE_LIST (d : PATH_TRACE_LIST_t) : PATH_TRACE_LIST_t :=
  mk_PATH_TRACE_LIST (ptl_pathSequence d).
Definition len_PATH_TRACE_LIST (d : PATH_TRACE_LIST_t) : Z :=
  total (fun _ => ClockIdentity_size) (ptl_pathSequence d).
Definition fresh_PATH_TRACE_LIST (d : PATH_TRACE_LIST_t) : Prop :=
  ptl_pathSequence d = [].
Lemma codec_PATH_TRACE_LIST d d' :
  wf_PATH_TRACE_LIST d -> fresh_PATH_TRACE_LIST d' ->
  codec_end (PATH_TRACE_LIST_f d) (PATH_TRACE_LIST_f d') (norm_PATH_TRACE_LIST d) (len_PATH_TRACE_LIST d).
Proof.
  unfold wf_PATH_TRACE_LIST, fresh_PATH_TRACE_LIST, norm_PATH_TRACE_LIST, len_PATH_TRACE_LIST, PATH_TRACE_LIST_f. destruct d, d'; cbn -[total len] in *. intros. subst.
  eapply codec_end_len; [eapply (codec_end_bind_last _ _ mk_PATH_TRACE_LIST)|].
  - apply (codec_vector_o proc_ClockIdentity zero_ClockIdentity wf_ClockIdentity
      (fun r => r) (fun _ => ClockIdentity_size));
      [intros; by apply codec_ClockIdentity|by vm_compute|done|done].
  - by rewrite map_id.
  - done.
Qed.
Lemma reads_PATH_TRACE_LIST d d' :
  fresh_PATH_TRACE_LIST d -> fresh_PATH_TRACE_LIST d' -> reads 0 (PATH_TRACE_LIST_f d) (PATH_TRACE_LIST_f d').
Proof.
  unfold fresh_PATH_TRACE_LIST, PATH_TRACE_LIST_f. intros -> ->. eapply reads_weaken.
  - eapply reads_bind; [eapply reads_vector_o; [apply reads_ClockIdentity|lia]|intros ?].
    apply reads_ret.
  - lia.
Qed.
#[global] Program Instance TlvSpec_PATH_TRACE_LIST : TlvSpec PATH_TRACE_LIST_t MngTlv_PATH_TRACE_LIST := {
  tlv_wf := wf_PATH_TRACE_LIST; tlv_norm := norm_PATH_TRACE_LIST; tlv_len := len_PATH_TRACE_LIST; tlv_fresh := fresh_PATH_TRACE_LIST;
  tlv_codec := codec_PATH_TRACE_LIST;
  tlv_reads := reads_PATH_TRACE_LIST }.
Solve Obligations with cast_facts.

Definition wf_PATH_TRACE_ENABLE (d : PATH_TRACE_ENABLE_t) : Prop :=
  uint 8 (pte_flags d).
Definition norm_PATH_TRACE_ENABLE (d : PATH_TRACE_ENABLE_t) : PATH_TRACE_ENABLE_t :=
  mk_PATH_TRACE_ENABLE (normFlags PATH_TRACE_ENABLE_flagsMask (pte_flags d)).
Definition len_PATH_TRACE_ENABLE (d : PATH_TRACE_ENABLE_t) : Z :=
  1.
Definition fresh_PATH_TRACE_ENABLE (d : PATH_TRACE_ENABLE_t) : Prop := True.
Lemma codec_PATH_TRACE_ENABLE d d' :
  wf_PATH_TRACE_ENABLE d -> fresh_PATH_TRACE_ENABLE d' ->
  codec (PATH_TRACE_ENABLE_f d) (PATH_TRACE_ENABLE_f d') (norm_PATH_TRACE_ENABLE d) (len_PATH_TRACE_ENABLE d).
Proof. unfold wf_PATH_TRACE_ENABLE, fresh_PATH_TRACE_ENABLE, norm_PATH_TRACE_ENABLE, len_PATH_TRACE_ENABLE, PATH_TRACE_ENABLE_f. intros. codec_record d. Qed.
Lemma reads_PATH_TRACE_ENABLE d d' :
  fresh_PATH_TRACE_ENABLE d -> fresh_PATH_TRACE_ENABLE d' -> reads 0 (PATH_TRACE_ENABLE_f d) (PATH_TRACE_ENABLE_f d').
Proof. unfold fresh_PATH_TRACE_ENABLE, PATH_TRACE_ENABLE_f. intros. wf_split. eapply reads_weaken; [reads_auto|lia]. Qed.
#[global] Program Instance TlvSpec_PATH_TRACE_ENABLE : TlvSpec PATH_TRACE_ENABLE_t MngTlv_PATH_TRACE_ENABLE := {
  tlv_wf := wf_PATH_TRACE_ENABLE; tlv_norm := norm_PATH_TRACE_ENABLE; tlv_len := len_PATH_TRACE_ENABLE; tlv_fresh := fresh_PATH_TRACE_ENABLE;
  tlv_codec := (fun d d' H H' => codec_weaken _ _ _ _ (codec_PATH_TRACE_ENABLE d d' H H'));
  tlv_reads := reads_PATH_TRACE_ENABLE }.
Solve Obligations with cast_facts.

Definition wf_GRANDMASTER_CLUSTER_TABLE (d : GRANDMASTER_CLUSTER_TABLE_t) : Prop :=
  sint 8 (gct_logQueryInterval d) /\ Forall wf_PortAddress (gct_PortAddress d) /\
  uint 8 (len (gct_PortAddress d)).
Definition norm_GRANDMASTER_CLUSTER_TABLE (d : GRANDMASTER_CLUSTER_TABLE_t) : GRANDMASTER_CLUSTER_TABLE_t :=
  mk_GRANDMASTER_CLUSTER_TABLE (gct_logQueryInterval d) (len (gct_PortAddress d))
  (map norm_PortAddress (gct_PortAddress d)).
Definition len_GRANDMASTER_CLUSTER_TABLE (d : GRANDMASTER_CLUSTER_TABLE_t) : Z :=
  2 + total PortAddress_size (gct_PortAddress d).
Definition fresh_GRANDMASTER_CLUSTER_TABLE (d : GRANDMASTER_CLUSTER_TABLE_t) : Prop :=
  gct_PortAddress d = [].
Lemma codec_GRANDMASTER_CLUSTER_TABLE d d' :
  wf_GRANDMASTER_CLUSTER_TABLE d -> fresh_GRANDMASTER_CLUSTER_TABLE d' ->
  codec (GRANDMASTER_CLUSTER_TABLE_f d) (GRANDMASTER_CLUSTER_TABLE_f d') (norm_GRANDMASTER_CLUSTER_TABLE d) (len_GRANDMASTER_CLUSTER_TABLE d).
Proof.
  unfold wf_GRANDMASTER_CLUSTER_TABLE, fresh_GRANDMASTER_CLUSTER_TABLE, norm_GRANDMASTER_CLUSTER_TABLE, len_GRANDMASTER_CLUSTER_TABLE, GRANDMASTER_CLUSTER_TABLE_f. destruct d, d'; cbn -[total len] in *. intros. wf_split. subst.
  apply codec_ask. cbv iota. list_count.
  eapply codec_len; [codec_step; codec_step; eapply codec_bind|].
  - apply (codec_vector_f proc_PortAddress zero_PortAddress wf_PortAddress norm_PortAddress PortAddress_size);
      auto using codec_PortAddress, size_PortAddress_pos.
  - apply codec_ret.
  - lia.
Qed.
Lemma reads_GRANDMASTER_CLUSTER_TABLE d d' :
  fresh_GRANDMASTER_CLUSTER_TABLE d -> fresh_GRANDMASTER_CLUSTER_TABLE d' -> reads 0 (GRANDMASTER_CLUSTER_TABLE_f d) (GRANDMASTER_CLUSTER_TABLE_f d').
Proof.
  unfold fresh_GRANDMASTER_CLUSTER_TABLE, GRANDMASTER_CLUSTER_TABLE_f. intros -> ->. eapply reads_weaken.
  - apply reads_ask. cbv iota. reads_step. reads_step.
    eapply reads_bind; [eapply reads_vector_f; [apply reads_PortAddress|lia]|intros ?].
    apply reads_ret.
  - lia.
Qed.
#[global] Program Instance TlvSpec_GRANDMASTER_CLUSTER_TABLE : TlvSpec GRANDMASTER_CLUSTER_TABLE_t MngTlv_GRANDMASTER_CLUSTER_TABLE := {
  tlv_wf := wf_GRANDMASTER_CLUSTER_TABLE; tlv_norm := norm_GRANDMASTER_CLUSTER_TABLE; tlv_len := len_GRANDMASTER_CLUSTER_TABLE; tlv_fresh := fresh_GRANDMASTER_CLUSTER_TABLE;
  tlv_codec := (fun d d' H H' => codec_weaken _ _ _ _ (codec_GRANDMASTER_CLUSTER_TABLE d d' H H'));
  tlv_reads := reads_GRANDMASTER_CLUSTER_TABLE }.
Solve Obligations with cast_facts.

Definition wf_UNICAST_MASTER_TABLE (d : UNICAST_MASTER_TABLE_t) : Prop :=
  sint 8 (umt_logQueryInterval d) /\ Forall wf_PortAddress (umt_PortAddress d) /\
  uint 16 (len (umt_PortAddress d)).
Definition norm_UNICAST_MASTER_TABLE (d : UNICAST_MASTER_TABLE_t) : UNICAST_MASTER_TABLE_t :=
  mk_UNICAST_MASTER_TABLE (umt_logQueryInterval d) (len (umt_PortAddress d))
  (map norm_PortAddress (umt_PortAddress d)).
Definition len_UNICAST_MASTER_TABLE (d : UNICAST_MASTER_TABLE_t) : Z :=
  3 + total PortAddress_size (umt_PortAddress d).
Definition fresh_UNICAST_MASTER_TABLE (d : UNICAST_MASTER_TABLE_t) : Prop :=
  umt_PortAddress d = [].
Lemma codec_UNICAST_MASTER_TABLE d d' :
  wf_UNICAST_MASTER_TABLE d -> fresh_UNICAST_MASTER_TABLE d' ->
  codec (UNICAST_MASTER_TABLE_f d) (UNICAST_MASTER_TABLE_f d') (norm_UNICAST_MASTER_TABLE d) (len_UNICAST_MASTER_TABLE d).
Proof.
  unfold wf_UNICAST_MASTER_TABLE, fresh_UNICAST_MASTER_TABLE, norm_UNICAST_MASTER_TABLE, len_UNICAST_MASTER_TABLE, UNICAST_MASTER_TABLE_f. destruct d, d'; cbn -[total len] in *. intros. wf_split. subst.
  apply codec_ask. cbv iota. list_count.
  eapply codec_len; [codec_step; codec_step; eapply codec_bind|].
  - apply (codec_vector_f proc_PortAddress zero_PortAddress wf_PortAddress norm_PortAddress PortAddress_size);
      auto using codec_PortAddress, size_PortAddress_pos.
  - apply codec_ret.
  - lia.
Qed.
Lemma reads_UNICAST_MASTER_TABLE d d' :
  fresh_UNICAST_MASTER_TABLE d -> fresh_UNICAST_MASTER_TABLE d' -> reads 0 (UNICAST_MASTER_TABLE_f d) (UNICAST_MASTER_TABLE_f d').
Proof.
  unfold fresh_UNICAST_MASTER_TABLE, UNICAST_MASTER_TABLE_f. intros -> ->. eapply reads_weaken.
  - apply reads_ask. cbv iota. reads_step. reads_step.
    eapply reads_bind; [eapply reads_vector_f; [apply reads_PortAddress|lia]|intros ?].
    apply reads_ret.
  - lia.
Qed.
#[global] Program Instance TlvSpec_UNICAST_MASTER_TABLE : TlvSpec UNICAST_MASTER_TABLE_t MngTlv_UNICAST_MASTER_TABLE := {
  tlv_wf := wf_UNICAST_MASTER_TABLE; tlv_norm := norm_UNICAST_MASTER_TABLE; tlv_len := len_UNICAST_MASTER_TABLE; tlv_fresh := fresh_UNICAST_MASTER_TABLE;
  tlv_codec := (fun d d' H H' => codec_weaken _ _ _ _ (codec_UNICAST_MASTER_TABLE d d' H H'));
  tlv_reads := reads_UNICAST_MASTER_TABLE }.
Solve Obligations with cast_facts.

Definition wf_UNICAST_MASTER_MAX_TABLE_SIZE (d : UNICAST_MASTER_MAX_TABLE_SIZE_t) : Prop :=
  uint 16 (umm_maxTableSize d).
Definition norm_UNICAST_MASTER_MAX_TABLE_SIZE (d : UNICAST_MASTER_MAX_TABLE_SIZE_t) : UNICAST_MASTER_MAX_TABLE_SIZE_t :=
  mk_UNICAST_MASTER_MAX_TABLE_SIZE (umm_maxTableSize d).
Definition len_UNICAST_MASTER_MAX_TABLE_SIZE (d : UNICAST_MASTER_MAX_TABLE_SIZE_t) : Z :=
  2.
Definition fresh_UNICAST_MASTER_MAX_TABLE_SIZE (d : UNICAST_MASTER_MAX_TABLE_SIZE_t) : Prop := True.
Lemma codec_UNICAST_MASTER_MAX_TABLE_SIZE d d' :
  wf_UNICAST_MASTER_MAX_TABLE_SIZE d -> fresh_UNICAST_MASTER_MAX_TABLE_SIZE d' ->
  codec (UNICAST_MASTER_MAX_TABLE_SIZE_f d) (UNICAST_MASTER_MAX_TABLE_SIZE_f d') (norm_UNICAST_MASTER_MAX_TABLE_SIZE d) (len_UNICAST_MASTER_MAX_TABLE_SIZE d).
Proof. unfold wf_UNICAST_MASTER_MAX_TABLE_SIZE, fresh_UNICAST_MASTER_MAX_TABLE_SIZE, norm_UNICAST_MASTER_MAX_TABLE_SIZE, len_UNICAST_MASTER_MAX_TABLE_SIZE, UNICAST_MASTER_MAX_TABLE_SIZE_f. intros. codec_record d. Qed.
Lemma reads_UNICAST_MASTER_MAX_TABLE_SIZE d d' :
  fresh_UNICAST_MASTER_MAX_TABLE_SIZE d -> fresh_UNICAST_MASTER_MAX_TABLE_SIZE d' -> reads 0 (UNICAST_MASTER_MAX_TABLE_SIZE_f d) (UNICAST_MASTER_MAX_TABLE_SIZE_f d').
Proof. unfold fresh_UNICAST_MASTER_MAX_TABLE_SIZE, UNICAST_MASTER_MAX_TABLE_SIZE_f. intros. wf_split. eapply reads_weaken; [reads_auto|lia]. Qed.
#[global] Program Instance TlvSpec_UNICAST_MASTER_MAX_TABLE_SIZE : TlvSpec UNICAST_MASTER_MAX_TABLE_SIZE_t MngTlv_UNICAST_MASTER_MAX_TABLE_SIZE := {
  tlv_wf := wf_UNICAST_MASTER_MAX_TABLE_SIZE; tlv_norm := norm_UNICAST_MASTER_MAX_TABLE_SIZE; tlv_len := len_UNICAST_MASTER_MAX_TABLE_SIZE; tlv_fresh := fresh_UNICAST_MASTER_MAX_TABLE_SIZE;
  tlv_codec := (fun d d' H H' => codec_weaken _ _ _ _ (codec_UNICAST_MASTER_MAX_TABLE_SIZE d d' H H'));
  tlv_reads := reads_UNICAST_MASTER_MAX_TABLE_SIZE }.
Solve Obligations with cast_facts.

Definition wf_ACCEPTABLE_MASTER_TABLE (d : ACCEPTABLE_MASTER_TABLE_t) : Prop :=
  Forall wf_AcceptableMaster (amt_list d) /\ sint 16 (len (amt_list d)).
Definition norm_ACCEPTABLE_MASTER_TABLE (d : ACCEPTABLE_MASTER_TABLE_t) : ACCEPTABLE_MASTER_TABLE_t :=
  mk_ACCEPTABLE_MASTER_TABLE (len (amt_list d)) (amt_list d).
Definition len_ACCEPTABLE_MASTER_TABLE (d : ACCEPTABLE_MASTER_TABLE_t) : Z :=
  2 + total (fun _ => AcceptableMaster_size) (amt_list d).
Definition fresh_ACCEPTABLE_MASTER_TABLE (d : ACCEPTABLE_MASTER_TABLE_t) : Prop :=
  amt_list d = [].
Lemma codec_ACCEPTABLE_MASTER_TABLE d d' :
  wf_ACCEPTABLE_MASTER_TABLE d -> fresh_ACCEPTABLE_MASTER_TABLE d' ->
  codec (ACCEPTABLE_MASTER_TABLE_f d) (ACCEPTABLE_MASTER_TABLE_f d') (norm_ACCEPTABLE_MASTER_TABLE d) (len_ACCEPTABLE_MASTER_TABLE d).
Proof.
  unfold wf_ACCEPTABLE_MASTER_TABLE, fresh_ACCEPTABLE_MASTER_TABLE, norm_ACCEPTABLE_MASTER_TABLE, len_ACCEPTABLE_MASTER_TABLE, ACCEPTABLE_MASTER_TABLE_f. destruct d, d'; cbn -[total len] in *. intros. wf_split. subst.
  apply codec_ask. cbv iota. list_count.
  eapply codec_len; [codec_step; eapply codec_bind|].
  - apply (codec_vector_f proc_AcceptableMaster zero_AcceptableMaster wf_AcceptableMaster (fun r => r) (fun _ => AcceptableMaster_size));
      [intros; by apply codec_AcceptableMaster|intros; by eapply size_AcceptableMaster_pos
      |done|done].
  - rewrite map_id. apply codec_ret.
  - lia.
Qed.
Lemma reads_ACCEPTABLE_MASTER_TABLE d d' :
  fresh_ACCEPTABLE_MASTER_TABLE d -> fresh_ACCEPTABLE_MASTER_TABLE d' -> reads 0 (ACCEPTABLE_MASTER_TABLE_f d) (ACCEPTABLE_MASTER_TABLE_f d').
Proof.
  unfold fresh_ACCEPTABLE_MASTER_TABLE, ACCEPTABLE_MASTER_TABLE_f. intros -> ->. eapply reads_weaken.
  - apply reads_ask. cbv iota. reads_step.
    eapply reads_bind; [eapply reads_vector_f; [apply reads_AcceptableMaster|lia]|intros ?].
    apply reads_ret.
  - lia.
Qed.
#[global] Program Instance TlvSpec_ACCEPTABLE_MASTER_TABLE : TlvSpec ACCEPTABLE_MASTER_TABLE_t MngTlv_ACCEPTABLE_MASTER_TABLE := {
  tlv_wf := wf_ACCEPTABLE_MASTER_TABLE; tlv_norm := norm_ACCEPTABLE_MASTER_TABLE; tlv_len := len_ACCEPTABLE_MASTER_TABLE; tlv_fresh := fresh_ACCEPTABLE_MASTER_TABLE;
  tlv_codec := (fun d d' H H' => codec_weaken _ _ _ _ (codec_ACCEPTABLE_MASTER_TABLE d d' H H'));
  tlv_reads := reads_ACCEPTABLE_MASTER_TABLE }.
Solve Obligations with cast_facts.

Definition wf_ACCEPTABLE_MASTER_TABLE_ENABLED (d : ACCEPTABLE_MASTER_TABLE_ENABLED_t) : Prop :=
  uint 8 (ame_flags d).
Definition norm_ACCEPTABLE_MASTER_TABLE_ENABLED (d : ACCEPTABLE_MASTER_TABLE_ENABLED_t) : ACCEPTABLE_MASTER_TABLE_ENABLED_t :=
  mk_ACCEPTABLE_MASTER_TABLE_ENABLED
  (normFlags ACCEPTABLE_MASTER_TABLE_ENABLED_flagsMask (ame_flags d)).
Definition len_ACCEPTABLE_MASTER_TABLE_ENABLED (d : ACCEPTABLE_MASTER_TABLE_ENABLED_t) : Z :=
  1.
Definition fresh_ACCEPTABLE_MASTER_TABLE_ENABLED (d : ACCEPTABLE_MASTER_TABLE_ENABLED_t) : Prop := True.
Lemma codec_ACCEPTABLE_MASTER_TABLE_ENABLED d d' :
  wf_ACCEPTABLE_MASTER_TABLE_ENABLED d -> fresh_ACCEPTABLE_MASTER_TABLE_ENABLED d' ->
  codec (ACCEPTABLE_MASTER_TABLE_ENABLED_f d) (ACCEPTABLE_MASTER_TABLE_ENABLED_f d') (norm_ACCEPTABLE_MASTER_TABLE_ENABLED d) (len_ACCEPTABLE_MASTER_TABLE_ENABLED d).
Proof. unfold wf_ACCEPTABLE_MASTER_TABLE_ENABLED, fresh_ACCEPTABLE_MASTER_TABLE_ENABLED, norm_ACCEPTABLE_MASTER_TABLE_ENABLED, len_ACCEPTABLE_MASTER_TABLE_ENABLED, ACCEPTABLE_MASTER_TABLE_ENABLED_f. intros. codec_record d. Qed.
Lemma reads_ACCEPTABLE_MASTER_TABLE_ENABLED d d' :
  fresh_ACCEPTABLE_MASTER_TABLE_ENABLED d -> fresh_ACCEPTABLE_MASTER_TABLE_ENABLED d' -> reads 0 (ACCEPTABLE_MASTER_TABLE_ENABLED_f d) (ACCEPTABLE_MASTER_TABLE_ENABLED_f d').
Proof. unfold fresh_ACCEPTABLE_MASTER_TABLE_ENABLED, ACCEPTABLE_MASTER_TABLE_ENABLED_f. intros. wf_split. eapply reads_weaken; [reads_auto|lia]. Qed.
#[global] Program Instance TlvSpec_ACCEPTABLE_MASTER_TABLE_ENABLED : TlvSpec ACCEPTABLE_MASTER_TABLE_ENABLED_t MngTlv_ACCEPTABLE_MASTER_TABLE_ENABLED := {
  tlv_wf := wf_ACCEPTABLE_MASTER_TABLE_ENABLED; tlv_norm := norm_ACCEPTABLE_MASTER_TABLE_ENABLED; tlv_len := len_ACCEPTABLE_MASTER_TABLE_ENABLED; tlv_fresh := fresh_ACCEPTABLE_MASTER_TABLE_ENABLED;
  tlv_codec := (fun d d' H H' => codec_weaken _ _ _ _ (codec_ACCEPTABLE_MASTER_TABLE_ENABLED d d' H H'));
  tlv_reads := reads_ACCEPTABLE_MASTER_TABLE_ENABLED }.
Solve Obligations with cast_facts.

Definition wf_ACCEPTABLE_MASTER_MAX_TABLE_SIZE (d : ACCEPTABLE_MASTER_MAX_TABLE_SIZE_t) : Prop :=
  uint 16 (amm_maxTableSize d).
Definition norm_ACCEPTABLE_MASTER_MAX_TABLE_SIZE (d : ACCEPTABLE_MASTER_MAX_TABLE_SIZE_t) : ACCEPTABLE_MASTER_MAX_TABLE_SIZE_t :=
  mk_ACCEPTABLE_MASTER_MAX_TABLE_SIZE (amm_maxTableSize d).
Definition len_ACCEPTABLE_MASTER_MAX_TABLE_SIZE (d : ACCEPTABLE_MASTER_MAX_TABLE_SIZE_t) : Z :=
  2.
Definition fresh_ACCEPTABLE_MASTER_MAX_TABLE_SIZE (d : ACCEPTABLE_MASTER_MAX_TABLE_SIZE_t) : Prop := True.
Lemma codec_ACCEPTABLE_MASTER_MAX_TABLE_SIZE d d' :
  wf_ACCEPTABLE_MASTER_MAX_TABLE_SIZE d -> fresh_ACCEPTABLE_MASTER_MAX_TABLE_SIZE d' ->
  codec (ACCEPTABLE_MASTER_MAX_TABLE_SIZE_f d) (ACCEPTABLE_MASTER_MAX_TABLE_SIZE_f d') (norm_ACCEPTABLE_MASTER_MAX_TABLE_SIZE d) (len_ACCEPTABLE_MASTER_MAX_TABLE_SIZE d).
Proof. unfold wf_ACCEPTABLE_MASTER_MAX_TABLE_SIZE, fresh_ACCEPTABLE_MASTER_MAX_TABLE_SIZE, norm_ACCEPTABLE_MASTER_MAX_TABLE_SIZE, len_ACCEPTABLE_MASTER_MAX_TABLE_SIZE, ACCEPTABLE_MASTER_MAX_TABLE_SIZE_f. intros. codec_record d. Qed.
Lemma reads_ACCEPTABLE_MASTER_MAX_TABLE_SIZE d d' :
  fresh_ACCEPTABLE_MASTER_MAX_TABLE_SIZE d -> fresh_ACCEPTABLE_MASTER_MAX_TABLE_SIZE d' -> reads 0 (ACCEPTABLE_MASTER_MAX_TABLE_SIZE_f d) (ACCEPTABLE_MASTER_MAX_TABLE_SIZE_f d').
Proof. unfold fresh_ACCEPTABLE_MASTER_MAX_TABLE_SIZE, ACCEPTABLE_MASTER_MAX_TABLE_SIZE_f. intros. wf_split. eapply reads_weaken; [reads_auto|lia]. Qed.
#[global] Program Instance TlvSpec_ACCEPTABLE_MASTER_MAX_TABLE_SIZE : TlvSpec ACCEPTABLE_MASTER_MAX_TABLE_SIZE_t MngTlv_ACCEPTABLE_MASTER_MAX_TABLE_SIZE := {
  tlv_wf := wf_ACCEPTABLE_MASTER_MAX_TABLE_SIZE; tlv_norm := norm_ACCEPTABLE_MASTER_MAX_TABLE_SIZE; tlv_len := len_ACCEPTABLE_MASTER_MAX_TABLE_SIZE; tlv_fresh := fresh_ACCEPTABLE_MASTER_MAX_TABLE_SIZE;
  tlv_codec := (fun d d' H H' => codec_weaken _ _ _ _ (codec_ACCEPTABLE_MASTER_MAX_TABLE_SIZE d d' H H'));
  tlv_reads := reads_ACCEPTABLE_MASTER_MAX_TABLE_SIZE }.
Solve Obligations with cast_facts.

Definition wf_ALTERNATE_MASTER (d : ALTERNATE_MASTER_t) : Prop :=
  uint 8 (am_flags d) /\ sint 8 (am_logAlternateMulticastSyncInterval d) /\
  uint 8 (am_numberOfAlternateMasters d).
Definition norm_ALTERNATE_MASTER (d : ALTERNATE_MASTER_t) : ALTERNATE_MASTER_t :=
  mk_ALTERNATE_MASTER (normFlags ALTERNATE_MASTER_flagsMask (am_flags d))
  (am_logAlternateMulticastSyncInterval d) (am_numberOfAlternateMasters d).
Definition len_ALTERNATE_MASTER (d : ALTERNATE_MASTER_t) : Z :=
  3.
Definition fresh_ALTERNATE_MASTER (d : ALTERNATE_MASTER_t) : Prop := True.
Lemma codec_ALTERNATE_MASTER d d' :
  wf_ALTERNATE_MASTER d -> fresh_ALTERNATE_MASTER d' ->
  codec (ALTERNATE_MASTER_f d) (ALTERNATE_MASTER_f d') (norm_ALTERNATE_MASTER d) (len_ALTERNATE_MASTER d).
Proof. unfold wf_ALTERNATE_MASTER, fresh_ALTERNATE_MASTER, norm_ALTERNATE_MASTER, len_ALTERNATE_MASTER, ALTERNATE_MASTER_f. intros. codec_record d. Qed.
Lemma reads_ALTERNATE_MASTER d d' :
  fresh_ALTERNATE_MASTER d -> fresh_ALTERNATE_MASTER d' -> reads 0 (ALTERNATE_MASTER_f d) (ALTERNATE_MASTER_f d').
Proof. unfold fresh_ALTERNATE_MASTER, ALTERNATE_MASTER_f. intros. wf_split. eapply reads_weaken; [reads_auto|lia]. Qed.
#[global] Program Instance TlvSpec_ALTERNATE_MASTER : TlvSpec ALTERNATE_MASTER_t MngTlv_ALTERNATE_MASTER := {
  tlv_wf := wf_ALTERNATE_MASTER; tlv_norm := norm_ALTERNATE_MASTER; tlv_len := len_ALTERNATE_MASTER; tlv_fresh := fresh_ALTERNATE_MASTER;
  tlv_codec := (fun d d' H H' => codec_weaken _ _ _ _ (codec_ALTERNATE_MASTER d d' H H'));
  tlv_reads := reads_ALTERNATE_MASTER }.
Solve Obligations with cast_facts.

Definition wf_ALTERNATE_TIME_OFFSET_ENABLE (d : ALTERNATE_TIME_OFFSET_ENABLE_t) : Prop :=
  uint 8 (atoe_keyField d) /\ uint 8 (atoe_flags d).
Definition norm_ALTERNATE_TIME_OFFSET_ENABLE (d : ALTERNATE_TIME_OFFSET_ENABLE_t) : ALTERNATE_TIME_OFFSET_ENABLE_t :=
  mk_ALTERNATE_TIME_OFFSET_ENABLE (atoe_keyField d)
  (normFlags ALTERNATE_TIME_OFFSET_ENABLE_flagsMask (atoe_flags d)).
Definition len_ALTERNATE_TIME_OFFSET_ENABLE (d : ALTERNATE_TIME_OFFSET_ENABLE_t) : Z :=
  2.
Definition fresh_ALTERNATE_TIME_OFFSET_ENABLE (d : ALTERNATE_TIME_OFFSET_ENABLE_t) : Prop := True.
Lemma codec_ALTERNATE_TIME_OFFSET_ENABLE d d' :
  wf_ALTERNATE_TIME_OFFSET_ENABLE d -> fresh_ALTERNATE_TIME_OFFSET_ENABLE d' ->
  codec (ALTERNATE_TIME_OFFSET_ENABLE_f d) (ALTERNATE_TIME_OFFSET_ENABLE_f d') (norm_ALTERNATE_TIME_OFFSET_ENABLE d) (len_ALTERNATE_TIME_OFFSET_ENABLE d).
Proof. unfold wf_ALTERNATE_TIME_OFFSET_ENABLE, fresh_ALTERNATE_TIME_OFFSET_ENABLE, norm_ALTERNATE_TIME_OFFSET_ENABLE, len_ALTERNATE_TIME_OFFSET_ENABLE, ALTERNATE_TIME_OFFSET_ENABLE_f. intros. codec_record d. Qed.
Lemma reads_ALTERNATE_TIME_OFFSET_ENABLE d d' :
  fresh_ALTERNATE_TIME_OFFSET_ENABLE d -> fresh_ALTERNATE_TIME_OFFSET_ENABLE d' -> reads 0 (ALTERNATE_TIME_OFFSET_ENABLE_f d) (ALTERNATE_TIME_OFFSET_ENABLE_f d').
Proof. unfold fresh_ALTERNATE_TIME_OFFSET_ENABLE, ALTERNATE_TIME_OFFSET_ENABLE_f. intros. wf_split. eapply reads_weaken; [reads_auto|lia]. Qed.
#[global] Program Instance TlvSpec_ALTERNATE_TIME_OFFSET_ENABLE : TlvSpec ALTERNATE_TIME_OFFSET_ENABLE_t MngTlv_ALTERNATE_TIME_OFFSET_ENABLE := {
  tlv_wf := wf_ALTERNATE_TIME_OFFSET_ENABLE; tlv_norm := norm_ALTERNATE_TIME_OFFSET_ENABLE; tlv_len := len_ALTERNATE_TIME_OFFSET_ENABLE; tlv_fresh := fresh_ALTERNATE_TIME_OFFSET_ENABLE;
  tlv_codec := (fun d d' H H' => codec_weaken _ _ _ _ (codec_ALTERNATE_TIME_OFFSET_ENABLE d d' H H'));
  tlv_reads := reads_ALTERNATE_TIME_OFFSET_ENABLE }.
Solve Obligations with cast_facts.

Definition wf_ALTERNATE_TIME_OFFSET_NAME (d : ALTERNATE_TIME_OFFSET_NAME_t) : Prop :=
  uint 8 (aton_keyField d) /\ wf_PTPText (aton_displayName d).
Definition norm_ALTERNATE_TIME_OFFSET_NAME (d : ALTERNATE_TIME_OFFSET_NAME_t) : ALTERNATE_TIME_OFFSET_NAME_t :=
  mk_ALTERNATE_TIME_OFFSET_NAME (aton_keyField d) (norm_PTPText (aton_displayName d)).
Definition len_ALTERNATE_TIME_OFFSET_NAME (d : ALTERNATE_TIME_OFFSET_NAME_t) : Z :=
  1 + PTPText_size (aton_displayName d).
Definition fresh_ALTERNATE_TIME_OFFSET_NAME (d : ALTERNATE_TIME_OFFSET_NAME_t) : Prop :=
  fresh_PTPText (aton_displayName d).
Lemma codec_ALTERNATE_TIME_OFFSET_NAME d d' :
  wf_ALTERNATE_TIME_OFFSET_NAME d -> fresh_ALTERNATE_TIME_OFFSET_NAME d' ->
  codec (ALTERNATE_TIME_OFFSET_NAME_f d) (ALTERNATE_TIME_OFFSET_NAME_f d') (norm_ALTERNATE_TIME_OFFSET_NAME d) (len_ALTERNATE_TIME_OFFSET_NAME d).
Proof. unfold wf_ALTERNATE_TIME_OFFSET_NAME, fresh_ALTERNATE_TIME_OFFSET_NAME, norm_ALTERNATE_TIME_OFFSET_NAME, len_ALTERNATE_TIME_OFFSET_NAME, ALTERNATE_TIME_OFFSET_NAME_f. intros. codec_record d. Qed.
Lemma reads_ALTERNATE_TIME_OFFSET_NAME d d' :
  fresh_ALTERNATE_TIME_OFFSET_NAME d -> fresh_ALTERNATE_TIME_OFFSET_NAME d' -> reads 0 (ALTERNATE_TIME_OFFSET_NAME_f d) (ALTERNATE_TIME_OFFSET_NAME_f d').
Proof. unfold fresh_ALTERNATE_TIME_OFFSET_NAME, ALTERNATE_TIME_OFFSET_NAME_f. intros. wf_split. eapply reads_weaken; [reads_auto|lia]. Qed.
#[global] Program Instance TlvSpec_ALTERNATE_TIME_OFFSET_NAME : TlvSpec ALTERNATE_TIME_OFFSET_NAME_t MngTlv_ALTERNATE_TIME_OFFSET_NAME := {
  tlv_wf := wf_ALTERNATE_TIME_OFFSET_NAME; tlv_norm := norm_ALTERNATE_TIME_OFFSET_NAME; tlv_len := len_ALTERNATE_TIME_OFFSET_NAME; tlv_fresh := fresh_ALTERNATE_TIME_OFFSET_NAME;
  tlv_codec := (fun d d' H H' => codec_weaken _ _ _ _ (codec_ALTERNATE_TIME_OFFSET_NAME d d' H H'));
  tlv_reads := reads_ALTERNATE_TIME_OFFSET_NAME }.
Solve Obligations with cast_facts.

Definition wf_ALTERNATE_TIME_OFFSET_MAX_KEY (d : ALTERNATE_TIME_OFFSET_MAX_KEY_t) : Prop :=
  uint 8 (atom_maxKey d).
Definition norm_ALTERNATE_TIME_OFFSET_MAX_KEY (d : ALTERNATE_TIME_OFFSET_MAX_KEY_t) : ALTERNATE_TIME_OFFSET_MAX_KEY_t :=
  mk_ALTERNATE_TIME_OFFSET_MAX_KEY (atom_maxKey d).
Definition len_ALTERNATE_TIME_OFFSET_MAX_KEY (d : ALTERNATE_TIME_OFFSET_MAX_KEY_t) : Z :=
  1.
Definition fresh_ALTERNATE_TIME_OFFSET_MAX_KEY (d : ALTERNATE_TIME_OFFSET_MAX_KEY_t) : Prop := True.
Lemma codec_ALTERNATE_TIME_OFFSET_MAX_KEY d d' :
  wf_ALTERNATE_TIME_OFFSET_MAX_KEY d -> fresh_ALTERNATE_TIME_OFFSET_MAX_KEY d' ->
  codec (ALTERNATE_TIME_OFFSET_MAX_KEY_f d) (ALTERNATE_TIME_OFFSET_MAX_KEY_f d') (norm_ALTERNATE_TIME_OFFSET_MAX_KEY d) (len_ALTERNATE_TIME_OFFSET_MAX_KEY d).
Proof. unfold wf_ALTERNATE_TIME_OFFSET_MAX_KEY, fresh_ALTERNATE_TIME_OFFSET_MAX_KEY, norm_ALTERNATE_TIME_OFFSET_MAX_KEY, len_ALTERNATE_TIME_OFFSET_MAX_KEY, ALTERNATE_TIME_OFFSET_MAX_KEY_f. intros. codec_record d. Qed.
Lemma reads_ALTERNATE_TIME_OFFSET_MAX_KEY d d' :
  fresh_ALTERNATE_TIME_OFFSET_MAX_KEY d -> fresh_ALTERNATE_TIME_OFFSET_MAX_KEY d' -> reads 0 (ALTERNATE_TIME_OFFSET_MAX_KEY_f d) (ALTERNATE_TIME_OFFSET_MAX_KEY_f d').
Proof. unfold fresh_ALTERNATE_TIME_OFFSET_MAX_KEY, ALTERNATE_TIME_OFFSET_MAX_KEY_f. intros. wf_split. eapply reads_weaken; [reads_auto|lia]. Qed.
#[global] Program Instance TlvSpec_ALTERNATE_TIME_OFFSET_MAX_KEY : TlvSpec ALTERNATE_TIME_OFFSET_MAX_KEY_t MngTlv_ALTERNATE_TIME_OFFSET_MAX_KEY := {
  tlv_wf := wf_ALTERNATE_TIME_OFFSET_MAX_KEY; tlv_norm := norm_ALTERNATE_TIME_OFFSET_MAX_KEY; tlv_len := len_ALTERNATE_TIME_OFFSET_MAX_KEY; tlv_fresh := fresh_ALTERNATE_TIME_OFFSET_MAX_KEY;
  tlv_codec := (fun d d' H H' => codec_weaken _ _ _ _ (codec_ALTERNATE_TIME_OFFSET_MAX_KEY d d' H H'));
  tlv_reads := reads_ALTERNATE_TIME_OFFSET_MAX_KEY }.
Solve Obligations with cast_facts.

Definition wf_ALTERNATE_TIME_OFFSET_PROPERTIES (d : ALTERNATE_TIME_OFFSET_PROPERTIES_t) : Prop :=
  uint 8 (atop_keyField d) /\ sint 32 (atop_currentOffset d) /\
  sint 32 (atop_jumpSeconds d) /\ uint 48 (atop_timeOfNextJump d).
Definition norm_ALTERNATE_TIME_OFFSET_PROPERTIES (d : ALTERNATE_TIME_OFFSET_PROPERTIES_t) : ALTERNATE_TIME_OFFSET_PROPERTIES_t :=
  mk_ALTERNATE_TIME_OFFSET_PROPERTIES (atop_keyField d) (atop_currentOffset d)
  (atop_jumpSeconds d) (atop_timeOfNextJump d).
Definition len_ALTERNATE_TIME_OFFSET_PROPERTIES (d : ALTERNATE_TIME_OFFSET_PROPERTIES_t) : Z :=
  15.
Definition fresh_ALTERNATE_TIME_OFFSET_PROPERTIES (d : ALTERNATE_TIME_OFFSET_PROPERTIES_t) : Prop := True.
Lemma codec_ALTERNATE_TIME_OFFSET_PROPERTIES d d' :
  wf_ALTERNATE_TIME_OFFSET_PROPERTIES d -> fresh_ALTERNATE_TIME_OFFSET_PROPERTIES d' ->
  codec (ALTERNATE_TIME_OFFSET_PROPERTIES_f d) (ALTERNATE_TIME_OFFSET_PROPERTIES_f d') (norm_ALTERNATE_TIME_OFFSET_PROPERTIES d) (len_ALTERNATE_TIME_OFFSET_PROPERTIES d).
Proof. unfold wf_ALTERNATE_TIME_OFFSET_PROPERTIES, fresh_ALTERNATE_TIME_OFFSET_PROPERTIES, norm_ALTERNATE_TIME_OFFSET_PROPERTIES, len_ALTERNATE_TIME_OFFSET_PROPERTIES, ALTERNATE_TIME_OFFSET_PROPERTIES_f. intros. codec_record d. Qed.
Lemma reads_ALTERNATE_TIME_OFFSET_PROPERTIES d d' :
  fresh_ALTERNATE_TIME_OFFSET_PROPERTIES d -> fresh_ALTERNATE_TIME_OFFSET_PROPERTIES d' -> reads 0 (ALTERNATE_TIME_OFFSET_PROPERTIES_f d) (ALTERNATE_TIME_OFFSET_PROPERTIES_f d').
Proof. unfold fresh_ALTERNATE_TIME_OFFSET_PROPERTIES, ALTERNATE_TIME_OFFSET_PROPERTIES_f. intros. wf_split. eapply reads_weaken; [reads_auto|lia]. Qed.
#[global] Program Instance TlvSpec_ALTERNATE_TIME_OFFSET_PROPERTIES : TlvSpec ALTERNATE_TIME_OFFSET_PROPERTIES_t MngTlv_ALTERNATE_TIME_OFFSET_PROPERTIES := {
  tlv_wf := wf_ALTERNATE_TIME_OFFSET_PROPERTIES; tlv_norm := norm_ALTERNATE_TIME_OFFSET_PROPERTIES; tlv_len := len_ALTERNATE_TIME_OFFSET_PROPERTIES; tlv_fresh := fresh_ALTERNATE_TIME_OFFSET_PROPERTIES;
  tlv_codec := (fun d d' H H' => codec_weaken _ _ _ _ (codec_ALTERNATE_TIME_OFFSET_PROPERTIES d d' H H'));
  tlv_reads := reads_ALTERNATE_TIME_OFFSET_PROPERTIES }.
Solve Obligations with cast_facts.

Definition wf_TRANSPARENT_CLOCK_PORT_DATA_SET (d : TRANSPARENT_CLOCK_PORT_DATA_SET_t) : Prop :=
  wf_PortIdentity (tcp_portIdentity d) /\ uint 8 (tcp_flags d) /\
  sint 8 (tcp_logMinPdelayReqInterval d) /\ wf_TimeInterval (tcp_peerMeanPathDelay d).
Definition norm_TRANSPARENT_CLOCK_PORT_DATA_SET (d : TRANSPARENT_CLOCK_PORT_DATA_SET_t) : TRANSPARENT_CLOCK_PORT_DATA_SET_t :=
  mk_TRANSPARENT_CLOCK_PORT_DATA_SET (tcp_portIdentity d)
  (normFlags TRANSPARENT_CLOCK_PORT_DATA_SET_flagsMask (tcp_flags d))
  (tcp_logMinPdelayReqInterval d) (tcp_peerMeanPathDelay d).
Definition len_TRANSPARENT_CLOCK_PORT_DATA_SET (d : TRANSPARENT_CLOCK_PORT_DATA_SET_t) : Z :=
  20.
Definition fresh_TRANSPARENT_CLOCK_PORT_DATA_SET (d : TRANSPARENT_CLOCK_PORT_DATA_SET_t) : Prop := True.
Lemma codec_TRANSPARENT_CLOCK_PORT_DATA_SET d d' :
  wf_TRANSPARENT_CLOCK_PORT_DATA_SET d -> fresh_TRANSPARENT_CLOCK_PORT_DATA_SET d' ->
  codec (TRANSPARENT_CLOCK_PORT_DATA_SET_f d) (TRANSPARENT_CLOCK_PORT_DATA_SET_f d') (norm_TRANSPARENT_CLOCK_PORT_DATA_SET d) (len_TRANSPARENT_CLOCK_PORT_DATA_SET d).
Proof. unfold wf_TRANSPARENT_CLOCK_PORT_DATA_SET, fresh_TRANSPARENT_CLOCK_PORT_DATA_SET, norm_TRANSPARENT_CLOCK_PORT_DATA_SET, len_TRANSPARENT_CLOCK_PORT_DATA_SET, TRANSPARENT_CLOCK_PORT_DATA_SET_f. intros. codec_record d. Qed.
Lemma reads_TRANSPARENT_CLOCK_PORT_DATA_SET d d' :
  fresh_TRANSPARENT_CLOCK_PORT_DATA_SET d -> fresh_TRANSPARENT_CLOCK_PORT_DATA_SET d' -> reads 0 (TRANSPARENT_CLOCK_PORT_DATA_SET_f d) (TRANSPARENT_CLOCK_PORT_DATA_SET_f d').
Proof. unfold fresh_TRANSPARENT_CLOCK_PORT_DATA_SET, TRANSPARENT_CLOCK_PORT_DATA_SET_f. intros. wf_split. eapply reads_weaken; [reads_auto|lia]. Qed.
#[global] Program Instance TlvSpec_TRANSPARENT_CLOCK_PORT_DATA_SET : TlvSpec TRANSPARENT_CLOCK_PORT_DATA_SET_t MngTlv_TRANSPARENT_CLOCK_PORT_DATA_SET := {
  tlv_wf := wf_TRANSPARENT_CLOCK_PORT_DATA_SET; tlv_norm := norm_TRANSPARENT_CLOCK_PORT_DATA_SET; tlv_len := len_TRANSPARENT_CLOCK_PORT_DATA_SET; tlv_fresh := fresh_TRANSPARENT_CLOCK_PORT_DATA_SET;
  tlv_codec := (fun d d' H H' => codec_weaken _ _ _ _ (codec_TRANSPARENT_CLOCK_PORT_DATA_SET d d' H H'));
  tlv_reads := reads_TRANSPARENT_CLOCK_PORT_DATA_SET }.
Solve Obligations with cast_facts.

Definition wf_LOG_MIN_PDELAY_REQ_INTERVAL (d : LOG_MIN_PDELAY_REQ_INTERVAL_t) : Prop :=
  sint 8 (lmp_logMinPdelayReqInterval d).
Definition norm_LOG_MIN_PDELAY_REQ_INTERVAL (d : LOG_MIN_PDELAY_REQ_INTERVAL_t) : LOG_MIN_PDELAY_REQ_INTERVAL_t :=
  mk_LOG_MIN_PDELAY_REQ_INTERVAL (lmp_logMinPdelayReqInterval d).
Definition len_LOG_MIN_PDELAY_REQ_INTERVAL (d : LOG_MIN_PDELAY_REQ_INTERVAL_t) : Z :=
  1.
Definition fresh_LOG_MIN_PDELAY_REQ_INTERVAL (d : LOG_MIN_PDELAY_REQ_INTERVAL_t) : Prop := True.
Lemma codec_LOG_MIN_PDELAY_REQ_INTERVAL d d' :
  wf_LOG_MIN_PDELAY_REQ_INTERVAL d -> fresh_LOG_MIN_PDELAY_REQ_INTERVAL d' ->
  codec (LOG_MIN_PDELAY_REQ_INTERVAL_f d) (LOG_MIN_PDELAY_REQ_INTERVAL_f d') (norm_LOG_MIN_PDELAY_REQ_INTERVAL d) (len_LOG_MIN_PDELAY_REQ_INTERVAL d).
Proof. unfold wf_LOG_MIN_PDELAY_REQ_INTERVAL, fresh_LOG_MIN_PDELAY_REQ_INTERVAL, norm_LOG_MIN_PDELAY_REQ_INTERVAL, len_LOG_MIN_PDELAY_REQ_INTERVAL, LOG_MIN_PDELAY_REQ_INTERVAL_f. intros. codec_record d. Qed.
Lemma reads_LOG_MIN_PDELAY_REQ_INTERVAL d d' :
  fresh_LOG_MIN_PDELAY_REQ_INTERVAL d -> fresh_LOG_MIN_PDELAY_REQ_INTERVAL d' -> reads 0 (LOG_MIN_PDELAY_REQ_INTERVAL_f d) (LOG_MIN_PDELAY_REQ_INTERVAL_f d').
Proof. unfold fresh_LOG_MIN_PDELAY_REQ_INTERVAL, LOG_MIN_PDELAY_REQ_INTERVAL_f. intros. wf_split. eapply reads_weaken; [reads_auto|lia]. Qed.
#[global] Program Instance TlvSpec_LOG_MIN_PDELAY_REQ_INTERVAL : TlvSpec LOG_MIN_PDELAY_REQ_INTERVAL_t MngTlv_LOG_MIN_PDELAY_REQ_INTERVAL := {
  tlv_wf := wf_LOG_MIN_PDELAY_REQ_INTERVAL; tlv_norm := norm_LOG_MIN_PDELAY_REQ_INTERVAL; tlv_len := len_LOG_MIN_PDELAY_REQ_INTERVAL; tlv_fresh := fresh_LOG_MIN_PDELAY_REQ_INTERVAL;
  tlv_codec := (fun d d' H H' => codec_weaken _ _ _ _ (codec_LOG_MIN_PDELAY_REQ_INTERVAL d d' H H'));
  tlv_reads := reads_LOG_MIN_PDELAY_REQ_INTERVAL }.
Solve Obligations with cast_facts.

Definition wf_TRANSPARENT_CLOCK_DEFAULT_DATA_SET (d : TRANSPARENT_CLOCK_DEFAULT_DATA_SET_t) : Prop :=
  wf_ClockIdentity (tcd_clockIdentity d) /\ uint 16 (tcd_numberPorts d) /\
  uint 8 (tcd_delayMechanism d) /\ uint 8 (tcd_primaryDomain d).
Definition norm_TRANSPARENT_CLOCK_DEFAULT_DATA_SET (d : TRANSPARENT_CLOCK_DEFAULT_DATA_SET_t) : TRANSPARENT_CLOCK_DEFAULT_DATA_SET_t :=
  mk_TRANSPARENT_CLOCK_DEFAULT_DATA_SET (tcd_clockIdentity d) (tcd_numberPorts d)
  (tcd_delayMechanism d) (tcd_primaryDomain d).
Definition len_TRANSPARENT_CLOCK_DEFAULT_DATA_SET (d : TRANSPARENT_CLOCK_DEFAULT_DATA_SET_t) : Z :=
  12.
Definition fresh_TRANSPARENT_CLOCK_DEFAULT_DATA_SET (d : TRANSPARENT_CLOCK_DEFAULT_DATA_SET_t) : Prop := True.
Lemma codec_TRANSPARENT_CLOCK_DEFAULT_DATA_SET d d' :
  wf_TRANSPARENT_CLOCK_DEFAULT_DATA_SET d -> fresh_TRANSPARENT_CLOCK_DEFAULT_DATA_SET d' ->
  codec (TRANSPARENT_CLOCK_DEFAULT_DATA_SET_f d) (TRANSPARENT_CLOCK_DEFAULT_DATA_SET_f d') (norm_TRANSPARENT_CLOCK_DEFAULT_DATA_SET d) (len_TRANSPARENT_CLOCK_DEFAULT_DATA_SET d).
Proof. unfold wf_TRANSPARENT_CLOCK_DEFAULT_DATA_SET, fresh_TRANSPARENT_CLOCK_DEFAULT_DATA_SET, norm_TRANSPARENT_CLOCK_DEFAULT_DATA_SET, len_TRANSPARENT_CLOCK_DEFAULT_DATA_SET, TRANSPARENT_CLOCK_DEFAULT_DATA_SET_f. intros. codec_record d. Qed.
Lemma reads_TRANSPARENT_CLOCK_DEFAULT_DATA_SET d d' :
  fresh_TRANSPARENT_CLOCK_DEFAULT_DATA_SET d -> fresh_TRANSPARENT_CLOCK_DEFAULT_DATA_SET d' -> reads 0 (TRANSPARENT_CLOCK_DEFAULT_DATA_SET_f d) (TRANSPARENT_CLOCK_DEFAULT_DATA_SET_f d').
Proof. unfold fresh_TRANSPARENT_CLOCK_DEFAULT_DATA_SET, TRANSPARENT_CLOCK_DEFAULT_DATA_SET_f. intros. wf_split. eapply reads_weaken; [reads_auto|lia]. Qed.
#[global] Program Instance TlvSpec_TRANSPARENT_CLOCK_DEFAULT_DATA_SET : TlvSpec TRANSPARENT_CLOCK_DEFAULT_DATA_SET_t MngTlv_TRANSPARENT_CLOCK_DEFAULT_DATA_SET := {
  tlv_wf := wf_TRANSPARENT_CLOCK_DEFAULT_DATA_SET; tlv_norm := norm_TRANSPARENT_CLOCK_DEFAULT_DATA_SET; tlv_len := len_TRANSPARENT_CLOCK_DEFAULT_DATA_SET; tlv_fresh := fresh_TRANSPARENT_CLOCK_DEFAULT_DATA_SET;
  tlv_codec := (fun d d' H H' => codec_weaken _ _ _ _ (codec_TRANSPARENT_CLOCK_DEFAULT_DATA_SET d d' H H'));
  tlv_reads := reads_TRANSPARENT_CLOCK_DEFAULT_DATA_SET }.
Solve Obligations with cast_facts.

Definition wf_PRIMARY_DOMAIN (d : PRIMARY_DOMAIN_t) : Prop :=
  uint 8 (pd_primaryDomain d).
Definition norm_PRIMARY_DOMAIN (d : PRIMARY_DOMAIN_t) : PRIMARY_DOMAIN_t :=
  mk_PRIMARY_DOMAIN (pd_primaryDomain d).
Definition len_PRIMARY_DOMAIN (d : PRIMARY_DOMAIN_t) : Z :=
  1.
Definition fresh_PRIMARY_DOMAIN (d : PRIMARY_DOMAIN_t) : Prop := True.
Lemma codec_PRIMARY_DOMAIN d d' :
  wf_PRIMARY_DOMAIN d -> fresh_PRIMARY_DOMAIN d' ->
  codec (PRIMARY_DOMAIN_f d) (PRIMARY_DOMAIN_f d') (norm_PRIMARY_DOMAIN d) (len_PRIMARY_DOMAIN d).
Proof. unfold wf_PRIMARY_DOMAIN, fresh_PRIMARY_DOMAIN, norm_PRIMARY_DOMAIN, len_PRIMARY_DOMAIN, PRIMARY_DOMAIN_f. intros. codec_record d. Qed.
Lemma reads_PRIMARY_DOMAIN d d' :
  fresh_PRIMARY_DOMAIN d -> fresh_PRIMARY_DOMAIN d' -> reads 0 (PRIMARY_DOMAIN_f d) (PRIMARY_DOMAIN_f d').
Proof. unfold fresh_PRIMARY_DOMAIN, PRIMARY_DOMAIN_f. intros. wf_split. eapply reads_weaken; [reads_auto|lia]. Qed.
#[global] Program Instance TlvSpec_PRIMARY_DOMAIN : TlvSpec PRIMARY_DOMAIN_t MngTlv_PRIMARY_DOMAIN := {
  tlv_wf := wf_PRIMARY_DOMAIN; tlv_norm := norm_PRIMARY_DOMAIN; tlv_len := len_PRIMARY_DOMAIN; tlv_fresh := fresh_PRIMARY_DOMAIN;
  tlv_codec := (fun d d' H H' => codec_weaken _ _ _ _ (codec_PRIMARY_DOMAIN d d' H H'));
  tlv_reads := reads_PRIMARY_DOMAIN }.
Solve Obligations with cast_facts.

Definition wf_DELAY_MECHANISM (d : DELAY_MECHANISM_t) : Prop :=
  uint 8 (dm_delayMechanism d).
Definition norm_DELAY_MECHANISM (d : DELAY_MECHANISM_t) : DELAY_MECHANISM_t :=
  mk_DELAY_MECHANISM (dm_delayMechanism d).
Definition len_DELAY_MECHANISM (d : DELAY_MECHANISM_t) : Z :=
  1.
Definition fresh_DELAY_MECHANISM (d : DELAY_MECHANISM_t) : Prop := True.
Lemma codec_DELAY_MECHANISM d d' :
  wf_DELAY_MECHANISM d -> fresh_DELAY_MECHANISM d' ->
  codec (DELAY_MECHANISM_f d) (DELAY_MECHANISM_f d') (norm_DELAY_MECHANISM d) (len_DELAY_MECHANISM d).
Proof. unfold wf_DELAY_MECHANISM, fresh_DELAY_MECHANISM, norm_DELAY_MECHANISM, len_DELAY_MECHANISM, DELAY_MECHANISM_f. intros. codec_record d. Qed.
Lemma reads_DELAY_MECHANISM d d' :
  fresh_DELAY_MECHANISM d -> fresh_DELAY_MECHANISM d' -> reads 0 (DELAY_MECHANISM_f d) (DELAY_MECHANISM_f d').
Proof. unfold fresh_DELAY_MECHANISM, DELAY_MECHANISM_f. intros. wf_split. eapply reads_weaken; [reads_auto|lia]. Qed.
#[global] Program Instance TlvSpec_DELAY_MECHANISM : TlvSpec DELAY_MECHANISM_t MngTlv_DELAY_MECHANISM := {
  tlv_wf := wf_DELAY_MECHANISM; tlv_norm := norm_DELAY_MECHANISM; tlv_len := len_DELAY_MECHANISM; tlv_fresh := fresh_DELAY_MECHANISM;
  tlv_codec := (fun d d' H H' => codec_weaken _ _ _ _ (codec_DELAY_MECHANISM d d' H H'));
  tlv_reads := reads_DELAY_MECHANISM }.
Solve Obligations with cast_facts.

Definition wf_EXTERNAL_PORT_CONFIGURATION_ENABLED (d : EXTERNAL_PORT_CONFIGURATION_ENABLED_t) : Prop :=
  uint 8 (epc_flags d).
Definition norm_EXTERNAL_PORT_CONFIGURATION_ENABLED (d : EXTERNAL_PORT_CONFIGURATION_ENABLED_t) : EXTERNAL_PORT_CONFIGURATION_ENABLED_t :=
  mk_EXTERNAL_PORT_CONFIGURATION_ENABLED
  (normFlags EXTERNAL_PORT_CONFIGURATION_ENABLED_flagsMask (epc_flags d)).
Definition len_EXTERNAL_PORT_CONFIGURATION_ENABLED (d : EXTERNAL_PORT_CONFIGURATION_ENABLED_t) : Z :=
  1.
Definition fresh_EXTERNAL_PORT_CONFIGURATION_ENABLED (d : EXTERNAL_PORT_CONFIGURATION_ENABLED_t) : Prop := True.
Lemma codec_EXTERNAL_PORT_CONFIGURATION_ENABLED d d' :
  wf_EXTERNAL_PORT_CONFIGURATION_ENABLED d -> fresh_EXTERNAL_PORT_CONFIGURATION_ENABLED d' ->
  codec (EXTERNAL_PORT_CONFIGURATION_ENABLED_f d) (EXTERNAL_PORT_CONFIGURATION_ENABLED_f d') (norm_EXTERNAL_PORT_CONFIGURATION_ENABLED d) (len_EXTERNAL_PORT_CONFIGURATION_ENABLED d).
Proof. unfold wf_EXTERNAL_PORT_CONFIGURATION_ENABLED, fresh_EXTERNAL_PORT_CONFIGURATION_ENABLED, norm_EXTERNAL_PORT_CONFIGURATION_ENABLED, len_EXTERNAL_PORT_CONFIGURATION_ENABLED, EXTERNAL_PORT_CONFIGURATION_ENABLED_f. intros. codec_record d. Qed.
Lemma reads_EXTERNAL_PORT_CONFIGURATION_ENABLED d d' :
  fresh_EXTERNAL_PORT_CONFIGURATION_ENABLED d -> fresh_EXTERNAL_PORT_CONFIGURATION_ENABLED d' -> reads 0 (EXTERNAL_PORT_CONFIGURATION_ENABLED_f d) (EXTERNAL_PORT_CONFIGURATION_ENABLED_f d').
Proof. unfold fresh_EXTERNAL_PORT_CONFIGURATION_ENABLED, EXTERNAL_PORT_CONFIGURATION_ENABLED_f. intros. wf_split. eapply reads_weaken; [reads_auto|lia]. Qed.
#[global] Program Instance TlvSpec_EXTERNAL_PORT_CONFIGURATION_ENABLED : TlvSpec EXTERNAL_PORT_CONFIGURATION_ENABLED_t MngTlv_EXTERNAL_PORT_CONFIGURATION_ENABLED := {
  tlv_wf := wf_EXTERNAL_PORT_CONFIGURATION_ENABLED; tlv_norm := norm_EXTERNAL_PORT_CONFIGURATION_ENABLED; tlv_len := len_EXTERNAL_PORT_CONFIGURATION_ENABLED; tlv_fresh := fresh_EXTERNAL_PORT_CONFIGURATION_ENABLED;
  tlv_codec := (fun d d' H H' => codec_weaken _ _ _ _ (codec_EXTERNAL_PORT_CONFIGURATION_ENABLED d d' H H'));
  tlv_reads := reads_EXTERNAL_PORT_CONFIGURATION_ENABLED }.
Solve Obligations with cast_facts.

Definition wf_MASTER_ONLY (d : MASTER_ONLY_t) : Prop :=
  uint 8 (mo_flags d).
Definition norm_MASTER_ONLY (d : MASTER_ONLY_t) : MASTER_ONLY_t :=
  mk_MASTER_ONLY (normFlags MASTER_ONLY_flagsMask (mo_flags d)).
Definition len_MASTER_ONLY (d : MASTER_ONLY_t) : Z :=
  1.
Definition fresh_MASTER_ONLY (d : MASTER_ONLY_t) : Prop := True.
Lemma codec_MASTER_ONLY d d' :
  wf_MASTER_ONLY d -> fresh_MASTER_ONLY d' ->
  codec (MASTER_ONLY_f d) (MASTER_ONLY_f d') (norm_MASTER_ONLY d) (len_MASTER_ONLY d).
Proof. unfold wf_MASTER_ONLY, fresh_MASTER_ONLY, norm_MASTER_ONLY, len_MASTER_ONLY, MASTER_ONLY_f. intros. codec_record d. Qed.
Lemma reads_MASTER_ONLY d d' :
  fresh_MASTER_ONLY d -> fresh_MASTER_ONLY d' -> reads 0 (MASTER_ONLY_f d) (MASTER_ONLY_f d').
Proof. unfold fresh_MASTER_ONLY, MASTER_ONLY_f. intros. wf_split. eapply reads_weaken; [reads_auto|lia]. Qed.
#[global] Program Instance TlvSpec_MASTER_ONLY : TlvSpec MASTER_ONLY_t MngTlv_MASTER_ONLY := {
  tlv_wf := wf_MASTER_ONLY; tlv_norm := norm_MASTER_ONLY; tlv_len := len_MASTER_ONLY; tlv_fresh := fresh_MASTER_ONLY;
  tlv_codec := (fun d d' H H' => codec_weaken _ _ _ _ (codec_MASTER_ONLY d d' H H'));
  tlv_reads := reads_MASTER_ONLY }.
Solve Obligations with cast_facts.

Definition wf_HOLDOVER_UPGRADE_ENABLE (d : HOLDOVER_UPGRADE_ENABLE_t) : Prop :=
  uint 8 (hue_flags d).
Definition norm_HOLDOVER_UPGRADE_ENABLE (d : HOLDOVER_UPGRADE_ENABLE_t) : HOLDOVER_UPGRADE_ENABLE_t :=
  mk_HOLDOVER_UPGRADE_ENABLE (normFlags HOLDOVER_UPGRADE_ENABLE_flagsMask (hue_flags d)).
Definition len_HOLDOVER_UPGRADE_ENABLE (d : HOLDOVER_UPGRADE_ENABLE_t) : Z :=
  1.
Definition fresh_HOLDOVER_UPGRADE_ENABLE (d : HOLDOVER_UPGRADE_ENABLE_t) : Prop := True.
Lemma codec_HOLDOVER_UPGRADE_ENABLE d d' :
  wf_HOLDOVER_UPGRADE_ENABLE d -> fresh_HOLDOVER_UPGRADE_ENABLE d' ->
  codec (HOLDOVER_UPGRADE_ENABLE_f d) (HOLDOVER_UPGRADE_ENABLE_f d') (norm_HOLDOVER_UPGRADE_ENABLE d) (len_HOLDOVER_UPGRADE_ENABLE d).
Proof. unfold wf_HOLDOVER_UPGRADE_ENABLE, fresh_HOLDOVER_UPGRADE_ENABLE, norm_HOLDOVER_UPGRADE_ENABLE, len_HOLDOVER_UPGRADE_ENABLE, HOLDOVER_UPGRADE_ENABLE_f. intros. codec_record d. Qed.
Lemma reads_HOLDOVER_UPGRADE_ENABLE d d' :
  fresh_HOLDOVER_UPGRADE_ENABLE d -> fresh_HOLDOVER_UPGRADE_ENABLE d' -> reads 0 (HOLDOVER_UPGRADE_ENABLE_f d) (HOLDOVER_UPGRADE_ENABLE_f d').
Proof. unfold fresh_HOLDOVER_UPGRADE_ENABLE, HOLDOVER_UPGRADE_ENABLE_f. intros. wf_split. eapply reads_weaken; [reads_auto|lia]. Qed.
#[global] Program Instance TlvSpec_HOLDOVER_UPGRADE_ENABLE : TlvSpec HOLDOVER_UPGRADE_ENABLE_t MngTlv_HOLDOVER_UPGRADE_ENABLE := {
  tlv_wf := wf_HOLDOVER_UPGRADE_ENABLE; tlv_norm := norm_HOLDOVER_UPGRADE_ENABLE; tlv_len := len_HOLDOVER_UPGRADE_ENABLE; tlv_fresh := fresh_HOLDOVER_UPGRADE_ENABLE;
  tlv_codec := (fun d d' H H' => codec_weaken _ _ _ _ (codec_HOLDOVER_UPGRADE_ENABLE d d' H H'));
  tlv_reads := reads_HOLDOVER_UPGRADE_ENABLE }.
Solve Obligations with cast_facts.

Definition wf_EXT_PORT_CONFIG_PORT_DATA_SET (d : EXT_PORT_CONFIG_PORT_DATA_SET_t) : Prop :=
  uint 8 (epp_flags d) /\ uint 8 (epp_desiredState d).
Definition norm_EXT_PORT_CONFIG_PORT_DATA_SET (d : EXT_PORT_CONFIG_PORT_DATA_SET_t) : EXT_PORT_CONFIG_PORT_DATA_SET_t :=
  mk_EXT_PORT_CONFIG_PORT_DATA_SET
  (normFlags EXT_PORT_CONFIG_PORT_DATA_SET_flagsMask (epp_flags d)) (epp_desiredState d).
Definition len_EXT_PORT_CONFIG_PORT_DATA_SET (d : EXT_PORT_CONFIG_PORT_DATA_SET_t) : Z :=
  2.
Definition fresh_EXT_PORT_CONFIG_PORT_DATA_SET (d : EXT_PORT_CONFIG_PORT_DATA_SET_t) : Prop := True.
Lemma codec_EXT_PORT_CONFIG_PORT_DATA_SET d d' :
  wf_EXT_PORT_CONFIG_PORT_DATA_SET d -> fresh_EXT_PORT_CONFIG_PORT_DATA_SET d' ->
  codec (EXT_PORT_CONFIG_PORT_DATA_SET_f d) (EXT_PORT_CONFIG_PORT_DATA_SET_f d') (norm_EXT_PORT_CONFIG_PORT_DATA_SET d) (len_EXT_PORT_CONFIG_PORT_DATA_SET d).
Proof. unfold wf_EXT_PORT_CONFIG_PORT_DATA_SET, fresh_EXT_PORT_CONFIG_PORT_DATA_SET, norm_EXT_PORT_CONFIG_PORT_DATA_SET, len_EXT_PORT_CONFIG_PORT_DATA_SET, EXT_PORT_CONFIG_PORT_DATA_SET_f. intros. codec_record d. Qed.
Lemma reads_EXT_PORT_CONFIG_PORT_DATA_SET d d' :
  fresh_EXT_PORT_CONFIG_PORT_DATA_SET d -> fresh_EXT_PORT_CONFIG_PORT_DATA_SET d' -> reads 0 (EXT_PORT_CONFIG_PORT_DATA_SET_f d) (EXT_PORT_CONFIG_PORT_DATA_SET_f d').
Proof. unfold fresh_EXT_PORT_CONFIG_PORT_DATA_SET, EXT_PORT_CONFIG_PORT_DATA_SET_f. intros. wf_split. eapply reads_weaken; [reads_auto|lia]. Qed.
#[global] Program Instance TlvSpec_EXT_PORT_CONFIG_PORT_DATA_SET : TlvSpec EXT_PORT_CONFIG_PORT_DATA_SET_t MngTlv_EXT_PORT_CONFIG_PORT_DATA_SET := {
  tlv_wf := wf_EXT_PORT_CONFIG_PORT_DATA_SET; tlv_norm := norm_EXT_PORT_CONFIG_PORT_DATA_SET; tlv_len := len_EXT_PORT_CONFIG_PORT_DATA_SET; tlv_fresh := fresh_EXT_PORT_CONFIG_PORT_DATA_SET;
  tlv_codec := (fun d d' H H' => codec_weaken _ _ _ _ (codec_EXT_PORT_CONFIG_PORT_DATA_SET d d' H H'));
  tlv_reads := reads_EXT_PORT_CONFIG_PORT_DATA_SET }.
Solve Obligations with cast_facts.

Definition wf_TIME_STATUS_NP (d : TIME_STATUS_NP_t) : Prop :=
  sint 64 (tsn_master_offset d) /\ sint 64 (tsn_ingress_time d) /\
  sint 32 (tsn_cumulativeScaledRateOffset d) /\
  sint 32 (tsn_scaledLastGmPhaseChange d) /\ uint 16 (tsn_gmTimeBaseIndicator d) /\
  uint 16 (tsn_nanoseconds_msb d) /\ uint 64 (tsn_nanoseconds_lsb d) /\
  uint 16 (tsn_fractional_nanoseconds d) /\ sint 32 (tsn_gmPresent d) /\
  wf_ClockIdentity (tsn_gmIdentity d).
Definition norm_TIME_STATUS_NP (d : TIME_STATUS_NP_t) : TIME_STATUS_NP_t :=
  mk_TIME_STATUS_NP (tsn_master_offset d) (tsn_ingress_time d)
  (tsn_cumulativeScaledRateOffset d) (tsn_scaledLastGmPhaseChange d)
  (tsn_gmTimeBaseIndicator d) (tsn_nanoseconds_msb d) (tsn_nanoseconds_lsb d)
  (tsn_fractional_nanoseconds d) (tsn_gmPresent d) (tsn_gmIdentity d).
Definition len_TIME_STATUS_NP (d : TIME_STATUS_NP_t) : Z :=
  50.
Definition fresh_TIME_STATUS_NP (d : TIME_STATUS_NP_t) : Prop := True.
Lemma codec_TIME_STATUS_NP d d' :
  wf_TIME_STATUS_NP d -> fresh_TIME_STATUS_NP d' ->
  codec (TIME_STATUS_NP_f d) (TIME_STATUS_NP_f d') (norm_TIME_STATUS_NP d) (len_TIME_STATUS_NP d).
Proof. unfold wf_TIME_STATUS_NP, fresh_TIME_STATUS_NP, norm_TIME_STATUS_NP, len_TIME_STATUS_NP, TIME_STATUS_NP_f. intros. codec_record d. Qed.
Lemma reads_TIME_STATUS_NP d d' :
  fresh_TIME_STATUS_NP d -> fresh_TIME_STATUS_NP d' -> reads 0 (TIME_STATUS_NP_f d) (TIME_STATUS_NP_f d').
Proof. unfold fresh_TIME_STATUS_NP, TIME_STATUS_NP_f. intros. wf_split. eapply reads_weaken; [reads_auto|lia]. Qed.
#[global] Program Instance TlvSpec_TIME_STATUS_NP : TlvSpec TIME_STATUS_NP_t MngTlv_TIME_STATUS_NP := {
  tlv_wf := wf_TIME_STATUS_NP; tlv_norm := norm_TIME_STATUS_NP; tlv_len := len_TIME_STATUS_NP; tlv_fresh := fresh_TIME_STATUS_NP;
  tlv_codec := (fun d d' H H' => codec_weaken _ _ _ _ (codec_TIME_STATUS_NP d d' H H'));
  tlv_reads := reads_TIME_STATUS_NP }.
Solve Obligations with cast_facts.

Definition wf_GRANDMASTER_SETTINGS_NP (d : GRANDMASTER_SETTINGS_NP_t) : Prop :=
  wf_ClockQuality (gsn_clockQuality d) /\ sint 16 (gsn_currentUtcOffset d) /\
  uint 8 (gsn_flags d) /\ uint 8 (gsn_timeSource d).
Definition norm_GRANDMASTER_SETTINGS_NP (d : GRANDMASTER_SETTINGS_NP_t) : GRANDMASTER_SETTINGS_NP_t :=
  mk_GRANDMASTER_SETTINGS_NP (gsn_clockQuality d) (gsn_currentUtcOffset d)
  (normFlags GRANDMASTER_SETTINGS_NP_flagsMask (gsn_flags d)) (gsn_timeSource d).
Definition len_GRANDMASTER_SETTINGS_NP (d : GRANDMASTER_SETTINGS_NP_t) : Z :=
  8.
Definition fresh_GRANDMASTER_SETTINGS_NP (d : GRANDMASTER_SETTINGS_NP_t) : Prop := True.
Lemma codec_GRANDMASTER_SETTINGS_NP d d' :
  wf_GRANDMASTER_SETTINGS_NP d -> fresh_GRANDMASTER_SETTINGS_NP d' ->
  codec (GRANDMASTER_SETTINGS_NP_f d) (GRANDMASTER_SETTINGS_NP_f d') (norm_GRANDMASTER_SETTINGS_NP d) (len_GRANDMASTER_SETTINGS_NP d).
Proof. unfold wf_GRANDMASTER_SETTINGS_NP, fresh_GRANDMASTER_SETTINGS_NP, norm_GRANDMASTER_SETTINGS_NP, len_GRANDMASTER_SETTINGS_NP, GRANDMASTER_SETTINGS_NP_f. intros. codec_record d. Qed.
Lemma reads_GRANDMASTER_SETTINGS_NP d d' :
  fresh_GRANDMASTER_SETTINGS_NP d -> fresh_GRANDMASTER_SETTINGS_NP d' -> reads 0 (GRANDMASTER_SETTINGS_NP_f d) (GRANDMASTER_SETTINGS_NP_f d').
Proof. unfold fresh_GRANDMASTER_SETTINGS_NP, GRANDMASTER_SETTINGS_NP_f. intros. wf_split. eapply reads_weaken; [reads_auto|lia]. Qed.
#[global] Program Instance TlvSpec_GRANDMASTER_SETTINGS_NP : TlvSpec GRANDMASTER_SETTINGS_NP_t MngTlv_GRANDMASTER_SETTINGS_NP := {
  tlv_wf := wf_GRANDMASTER_SETTINGS_NP; tlv_norm := norm_GRANDMASTER_SETTINGS_NP; tlv_len := len_GRANDMASTER_SETTINGS_NP; tlv_fresh := fresh_GRANDMASTER_SETTINGS_NP;
  tlv_codec := (fun d d' H H' => codec_weaken _ _ _ _ (codec_GRANDMASTER_SETTINGS_NP d d' H H'));
  tlv_reads := reads_GRANDMASTER_SETTINGS_NP }.
Solve Obligations with cast_facts.

Definition wf_PORT_DATA_SET_NP (d : PORT_DATA_SET_NP_t) : Prop :=
  uint 32 (pdsn_neighborPropDelayThresh d) /\ sint 32 (pdsn_asCapable d).
Definition norm_PORT_DATA_SET_NP (d : PORT_DATA_SET_NP_t) : PORT_DATA_SET_NP_t :=
  mk_PORT_DATA_SET_NP (pdsn_neighborPropDelayThresh d) (pdsn_asCapable d).
Definition len_PORT_DATA_SET_NP (d : PORT_DATA_SET_NP_t) : Z :=
  8.
Definition fresh_PORT_DATA_SET_NP (d : PORT_DATA_SET_NP_t) : Prop := True.
Lemma codec_PORT_DATA_SET_NP d d' :
  wf_PORT_DATA_SET_NP d -> fresh_PORT_DATA_SET_NP d' ->
  codec (PORT_DATA_SET_NP_f d) (PORT_DATA_SET_NP_f d') (norm_PORT_DATA_SET_NP d) (len_PORT_DATA_SET_NP d).
Proof. unfold wf_PORT_DATA_SET_NP, fresh_PORT_DATA_SET_NP, norm_PORT_DATA_SET_NP, len_PORT_DATA_SET_NP, PORT_DATA_SET_NP_f. intros. codec_record d. Qed.
Lemma reads_PORT_DATA_SET_NP d d' :
  fresh_PORT_DATA_SET_NP d -> fresh_PORT_DATA_SET_NP d' -> reads 0 (PORT_DATA_SET_NP_f d) (PORT_DATA_SET_NP_f d').
Proof. unfold fresh_PORT_DATA_SET_NP, PORT_DATA_SET_NP_f. intros. wf_split. eapply reads_weaken; [reads_auto|lia]. Qed.
#[global] Program Instance TlvSpec_PORT_DATA_SET_NP : TlvSpec PORT_DATA_SET_NP_t MngTlv_PORT_DATA_SET_NP := {
  tlv_wf := wf_PORT_DATA_SET_NP; tlv_norm := norm_PORT_DATA_SET_NP; tlv_len := len_PORT_DATA_SET_NP; tlv_fresh := fresh_PORT_DATA_SET_NP;
  tlv_codec := (fun d d' H H' => codec_weaken _ _ _ _ (codec_PORT_DATA_SET_NP d d' H H'));
  tlv_reads := reads_PORT_DATA_SET_NP }.
Solve Obligations with cast_facts.

Definition wf_SUBSCRIBE_EVENTS_NP (d : SUBSCRIBE_EVENTS_NP_t) : Prop :=
  uint 16 (sen_duration d) /\ len (sen_bitmask d) = 64.
Definition norm_SUBSCRIBE_EVENTS_NP (d : SUBSCRIBE_EVENTS_NP_t) : SUBSCRIBE_EVENTS_NP_t :=
  mk_SUBSCRIBE_EVENTS_NP (sen_duration d) (sen_bitmask d).
Definition len_SUBSCRIBE_EVENTS_NP (d : SUBSCRIBE_EVENTS_NP_t) : Z :=
  66.
Definition fresh_SUBSCRIBE_EVENTS_NP (d : SUBSCRIBE_EVENTS_NP_t) : Prop := True.
Lemma codec_SUBSCRIBE_EVENTS_NP d d' :
  wf_SUBSCRIBE_EVENTS_NP d -> fresh_SUBSCRIBE_EVENTS_NP d' ->
  codec (SUBSCRIBE_EVENTS_NP_f d) (SUBSCRIBE_EVENTS_NP_f d') (norm_SUBSCRIBE_EVENTS_NP d) (len_SUBSCRIBE_EVENTS_NP d).
Proof. unfold wf_SUBSCRIBE_EVENTS_NP, fresh_SUBSCRIBE_EVENTS_NP, norm_SUBSCRIBE_EVENTS_NP, len_SUBSCRIBE_EVENTS_NP, SUBSCRIBE_EVENTS_NP_f. intros. codec_record d. Qed.
Lemma reads_SUBSCRIBE_EVENTS_NP d d' :
  fresh_SUBSCRIBE_EVENTS_NP d -> fresh_SUBSCRIBE_EVENTS_NP d' -> reads 0 (SUBSCRIBE_EVENTS_NP_f d) (SUBSCRIBE_EVENTS_NP_f d').
Proof. unfold fresh_SUBSCRIBE_EVENTS_NP, SUBSCRIBE_EVENTS_NP_f. intros. wf_split. eapply reads_weaken; [reads_auto|lia]. Qed.
#[global] Program Instance TlvSpec_SUBSCRIBE_EVENTS_NP : TlvSpec SUBSCRIBE_EVENTS_NP_t MngTlv_SUBSCRIBE_EVENTS_NP := {
  tlv_wf := wf_SUBSCRIBE_EVENTS_NP; tlv_norm := norm_SUBSCRIBE_EVENTS_NP; tlv_len := len_SUBSCRIBE_EVENTS_NP; tlv_fresh := fresh_SUBSCRIBE_EVENTS_NP;
  tlv_codec := (fun d d' H H' => codec_weaken _ _ _ _ (codec_SUBSCRIBE_EVENTS_NP d d' H H'));
  tlv_reads := reads_SUBSCRIBE_EVENTS_NP }.
Solve Obligations with cast_facts.

Definition wf_PORT_PROPERTIES_NP (d : PORT_PROPERTIES_NP_t) : Prop :=
  wf_PortIdentity (ppn_portIdentity d) /\ uint 8 (ppn_portState d) /\
  uint 8 (ppn_timestamping d) /\ wf_PTPText (ppn_interface d).
Definition norm_PORT_PROPERTIES_NP (d : PORT_PROPERTIES_NP_t) : PORT_PROPERTIES_NP_t :=
  mk_PORT_PROPERTIES_NP (ppn_portIdentity d) (ppn_portState d) (ppn_timestamping d)
  (norm_PTPText (ppn_interface d)).
Definition len_PORT_PROPERTIES_NP (d : PORT_PROPERTIES_NP_t) : Z :=
  12 + PTPText_size (ppn_interface d).
Definition fresh_PORT_PROPERTIES_NP (d : PORT_PROPERTIES_NP_t) : Prop :=
  fresh_PTPText (ppn_interface d).
Lemma codec_PORT_PROPERTIES_NP d d' :
  wf_PORT_PROPERTIES_NP d -> fresh_PORT_PROPERTIES_NP d' ->
  codec (PORT_PROPERTIES_NP_f d) (PORT_PROPERTIES_NP_f d') (norm_PORT_PROPERTIES_NP d) (len_PORT_PROPERTIES_NP d).
Proof. unfold wf_PORT_PROPERTIES_NP, fresh_PORT_PROPERTIES_NP, norm_PORT_PROPERTIES_NP, len_PORT_PROPERTIES_NP, PORT_PROPERTIES_NP_f. intros. codec_record d. Qed.
Lemma reads_PORT_PROPERTIES_NP d d' :
  fresh_PORT_PROPERTIES_NP d -> fresh_PORT_PROPERTIES_NP d' -> reads 0 (PORT_PROPERTIES_NP_f d) (PORT_PROPERTIES_NP_f d').
Proof. unfold fresh_PORT_PROPERTIES_NP, PORT_PROPERTIES_NP_f. intros. wf_split. eapply reads_weaken; [reads_auto|lia]. Qed.
#[global] Program Instance TlvSpec_PORT_PROPERTIES_NP : TlvSpec PORT_PROPERTIES_NP_t MngTlv_PORT_PROPERTIES_NP := {
  tlv_wf := wf_PORT_PROPERTIES_NP; tlv_norm := norm_PORT_PROPERTIES_NP; tlv_len := len_PORT_PROPERTIES_NP; tlv_fresh := fresh_PORT_PROPERTIES_NP;
  tlv_codec := (fun d d' H H' => codec_weaken _ _ _ _ (codec_PORT_PROPERTIES_NP d d' H H'));
  tlv_reads := reads_PORT_PROPERTIES_NP }.
Solve Obligations with cast_facts.

Definition wf_PORT_STATS_NP (d : PORT_STATS_NP_t) : Prop :=
  wf_PortIdentity (psn_portIdentity d) /\
  Forall (uint 64) (psn_rxMsgType d) /\ length (psn_rxMsgType d) = 16%nat /\
  Forall (uint 64) (psn_txMsgType d) /\ length (psn_txMsgType d) = 16%nat.
Definition norm_PORT_STATS_NP (d : PORT_STATS_NP_t) : PORT_STATS_NP_t :=
  mk_PORT_STATS_NP (psn_portIdentity d) (psn_rxMsgType d) (psn_txMsgType d).
Definition len_PORT_STATS_NP (d : PORT_STATS_NP_t) : Z :=
  266.
Definition fresh_PORT_STATS_NP (d : PORT_STATS_NP_t) : Prop :=
  length (psn_rxMsgType d) = 16%nat /\ length (psn_txMsgType d) = 16%nat.
Lemma codec_PORT_STATS_NP d d' :
  wf_PORT_STATS_NP d -> fresh_PORT_STATS_NP d' ->
  codec (PORT_STATS_NP_f d) (PORT_STATS_NP_f d') (norm_PORT_STATS_NP d) (len_PORT_STATS_NP d).
Proof.
  unfold wf_PORT_STATS_NP, fresh_PORT_STATS_NP, norm_PORT_STATS_NP, len_PORT_STATS_NP, PORT_STATS_NP_f. intros. wf_split. destruct d; cbn in *. eapply codec_len.
  - codec_step. do 2 (eapply codec_bind; [apply codec_Le_array; [done|congruence]|cbv beta]).
    apply codec_ret.
  - unfold len, PortIdentity_size, ClockIdentity_size. lia.
Qed.
Lemma reads_PORT_STATS_NP d d' :
  fresh_PORT_STATS_NP d -> fresh_PORT_STATS_NP d' -> reads 0 (PORT_STATS_NP_f d) (PORT_STATS_NP_f d').
Proof.
  unfold fresh_PORT_STATS_NP, PORT_STATS_NP_f. intros. wf_split. eapply reads_weaken.
  - reads_step. do 2 (eapply reads_bind; [apply reads_Le_array; congruence|intros ?]).
    apply reads_ret.
  - unfold len. lia.
Qed.
#[global] Program Instance TlvSpec_PORT_STATS_NP : TlvSpec PORT_STATS_NP_t MngTlv_PORT_STATS_NP := {
  tlv_wf := wf_PORT_STATS_NP; tlv_norm := norm_PORT_STATS_NP; tlv_len := len_PORT_STATS_NP; tlv_fresh := fresh_PORT_STATS_NP;
  tlv_codec := (fun d d' H H' => codec_weaken _ _ _ _ (codec_PORT_STATS_NP d d' H H'));
  tlv_reads := reads_PORT_STATS_NP }.
Solve Obligations with cast_facts.

Definition wf_SYNCHRONIZATION_UNCERTAIN_NP (d : SYNCHRONIZATION_UNCERTAIN_NP_t) : Prop :=
  uint 8 (sun_val d).
Definition norm_SYNCHRONIZATION_UNCERTAIN_NP (d : SYNCHRONIZATION_UNCERTAIN_NP_t) : SYNCHRONIZATION_UNCERTAIN_NP_t :=
  mk_SYNCHRONIZATION_UNCERTAIN_NP (sun_val d).
Definition len_SYNCHRONIZATION_UNCERTAIN_NP (d : SYNCHRONIZATION_UNCERTAIN_NP_t) : Z :=
  1.
Definition fresh_SYNCHRONIZATION_UNCERTAIN_NP (d : SYNCHRONIZATION_UNCERTAIN_NP_t) : Prop := True.
Lemma codec_SYNCHRONIZATION_UNCERTAIN_NP d d' :
  wf_SYNCHRONIZATION_UNCERTAIN_NP d -> fresh_SYNCHRONIZATION_UNCERTAIN_NP d' ->
  codec (SYNCHRONIZATION_UNCERTAIN_NP_f d) (SYNCHRONIZATION_UNCERTAIN_NP_f d') (norm_SYNCHRONIZATION_UNCERTAIN_NP d) (len_SYNCHRONIZATION_UNCERTAIN_NP d).
Proof. unfold wf_SYNCHRONIZATION_UNCERTAIN_NP, fresh_SYNCHRONIZATION_UNCERTAIN_NP, norm_SYNCHRONIZATION_UNCERTAIN_NP, len_SYNCHRONIZATION_UNCERTAIN_NP, SYNCHRONIZATION_UNCERTAIN_NP_f. intros. codec_record d. Qed.
Lemma reads_SYNCHRONIZATION_UNCERTAIN_NP d d' :
  fresh_SYNCHRONIZATION_UNCERTAIN_NP d -> fresh_SYNCHRONIZATION_UNCERTAIN_NP d' -> reads 0 (SYNCHRONIZATION_UNCERTAIN_NP_f d) (SYNCHRONIZATION_UNCERTAIN_NP_f d').
Proof. unfold fresh_SYNCHRONIZATION_UNCERTAIN_NP, SYNCHRONIZATION_UNCERTAIN_NP_f. intros. wf_split. eapply reads_weaken; [reads_auto|lia]. Qed.
#[global] Program Instance TlvSpec_SYNCHRONIZATION_UNCERTAIN_NP : TlvSpec SYNCHRONIZATION_UNCERTAIN_NP_t MngTlv_SYNCHRONIZATION_UNCERTAIN_NP := {
  tlv_wf := wf_SYNCHRONIZATION_UNCERTAIN_NP; tlv_norm := norm_SYNCHRONIZATION_UNCERTAIN_NP; tlv_len := len_SYNCHRONIZATION_UNCERTAIN_NP; tlv_fresh := fresh_SYNCHRONIZATION_UNCERTAIN_NP;
  tlv_codec := (fun d d' H H' => codec_weaken _ _ _ _ (codec_SYNCHRONIZATION_UNCERTAIN_NP d d' H H'));
  tlv_reads := reads_SYNCHRONIZATION_UNCERTAIN_NP }.
Solve Obligations with cast_facts.

Definition wf_PORT_SERVICE_STATS_NP (d : PORT_SERVICE_STATS_NP_t) : Prop :=
  wf_PortIdentity (pss_portIdentity d) /\ uint 64 (pss_announce_timeout d) /\
  uint 64 (pss_sync_timeout d) /\ uint 64 (pss_delay_timeout d) /\
  uint 64 (pss_unicast_service_timeout d) /\ uint 64 (pss_unicast_request_timeout d) /\
  uint 64 (pss_master_announce_timeout d) /\ uint 64 (pss_master_sync_timeout d) /\
  uint 64 (pss_qualification_timeout d) /\ uint 64 (pss_sync_mismatch d) /\
  uint 64 (pss_followup_mismatch d).
Definition norm_PORT_SERVICE_STATS_NP (d : PORT_SERVICE_STATS_NP_t) : PORT_SERVICE_STATS_NP_t :=
  mk_PORT_SERVICE_STATS_NP (pss_portIdentity d) (pss_announce_timeout d)
  (pss_sync_timeout d) (pss_delay_timeout d) (pss_unicast_service_timeout d)
  (pss_unicast_request_timeout d) (pss_master_announce_timeout d)
  (pss_master_sync_timeout d) (pss_qualification_timeout d) (pss_sync_mismatch d)
  (pss_followup_mismatch d).
Definition len_PORT_SERVICE_STATS_NP (d : PORT_SERVICE_STATS_NP_t) : Z :=
  90.
Definition fresh_PORT_SERVICE_STATS_NP (d : PORT_SERVICE_STATS_NP_t) : Prop := True.
Lemma codec_PORT_SERVICE_STATS_NP d d' :
  wf_PORT_SERVICE_STATS_NP d -> fresh_PORT_SERVICE_STATS_NP d' ->
  codec (PORT_SERVICE_STATS_NP_f d) (PORT_SERVICE_STATS_NP_f d') (norm_PORT_SERVICE_STATS_NP d) (len_PORT_SERVICE_STATS_NP d).
Proof. unfold wf_PORT_SERVICE_STATS_NP, fresh_PORT_SERVICE_STATS_NP, norm_PORT_SERVICE_STATS_NP, len_PORT_SERVICE_STATS_NP, PORT_SERVICE_STATS_NP_f. intros. codec_record d. Qed.
Lemma reads_PORT_SERVICE_STATS_NP d d' :
  fresh_PORT_SERVICE_STATS_NP d -> fresh_PORT_SERVICE_STATS_NP d' -> reads 0 (PORT_SERVICE_STATS_NP_f d) (PORT_SERVICE_STATS_NP_f d').
Proof. unfold fresh_PORT_SERVICE_STATS_NP, PORT_SERVICE_STATS_NP_f. intros. wf_split. eapply reads_weaken; [reads_auto|lia]. Qed.
#[global] Program Instance TlvSpec_PORT_SERVICE_STATS_NP : TlvSpec PORT_SERVICE_STATS_NP_t MngTlv_PORT_SERVICE_STATS_NP := {
  tlv_wf := wf_PORT_SERVICE_STATS_NP; tlv_norm := norm_PORT_SERVICE_STATS_NP; tlv_len := len_PORT_SERVICE_STATS_NP; tlv_fresh := fresh_PORT_SERVICE_STATS_NP;
  tlv_codec := (fun d d' H H' => codec_weaken _ _ _ _ (codec_PORT_SERVICE_STATS_NP d d' H H'));
  tlv_reads := reads_PORT_SERVICE_STATS_NP }.
Solve Obligations with cast_facts.

Definition wf_UNICAST_MASTER_TABLE_NP (d : UNICAST_MASTER_TABLE_NP_t) : Prop :=
  Forall wf_LinuxptpUnicastMaster (umn_unicastMasters d) /\
  sint 16 (len (umn_unicastMasters d)).
Definition norm_UNICAST_MASTER_TABLE_NP (d : UNICAST_MASTER_TABLE_NP_t) : UNICAST_MASTER_TABLE_NP_t :=
  mk_UNICAST_MASTER_TABLE_NP (len (umn_unicastMasters d))
  (map norm_LinuxptpUnicastMaster (umn_unicastMasters d)).
Definition len_UNICAST_MASTER_TABLE_NP (d : UNICAST_MASTER_TABLE_NP_t) : Z :=
  2 + total LinuxptpUnicastMaster_size (umn_unicastMasters d).
Definition fresh_UNICAST_MASTER_TABLE_NP (d : UNICAST_MASTER_TABLE_NP_t) : Prop :=
  umn_unicastMasters d = [].
Lemma codec_UNICAST_MASTER_TABLE_NP d d' :
  wf_UNICAST_MASTER_TABLE_NP d -> fresh_UNICAST_MASTER_TABLE_NP d' ->
  codec (UNICAST_MASTER_TABLE_NP_f d) (UNICAST_MASTER_TABLE_NP_f d') (norm_UNICAST_MASTER_TABLE_NP d) (len_UNICAST_MASTER_TABLE_NP d).
Proof.
  unfold wf_UNICAST_MASTER_TABLE_NP, fresh_UNICAST_MASTER_TABLE_NP, norm_UNICAST_MASTER_TABLE_NP, len_UNICAST_MASTER_TABLE_NP, UNICAST_MASTER_TABLE_NP_f. destruct d, d'; cbn -[total len] in *. intros. wf_split. subst.
  apply codec_ask. cbv iota. list_count.
  eapply codec_len; [codec_step; eapply codec_bind|].
  - apply (codec_vector_f proc_LinuxptpUnicastMaster zero_LinuxptpUnicastMaster wf_LinuxptpUnicastMaster norm_LinuxptpUnicastMaster LinuxptpUnicastMaster_size);
      auto using codec_LinuxptpUnicastMaster, size_LinuxptpUnicastMaster_pos.
  - apply codec_ret.
  - lia.
Qed.
Lemma reads_UNICAST_MASTER_TABLE_NP d d' :
  fresh_UNICAST_MASTER_TABLE_NP d -> fresh_UNICAST_MASTER_TABLE_NP d' -> reads 0 (UNICAST_MASTER_TABLE_NP_f d) (UNICAST_MASTER_TABLE_NP_f d').
Proof.
  unfold fresh_UNICAST_MASTER_TABLE_NP, UNICAST_MASTER_TABLE_NP_f. intros -> ->. eapply reads_weaken.
  - apply reads_ask. cbv iota. reads_step.
    eapply reads_bind; [eapply reads_vector_f; [apply reads_LinuxptpUnicastMaster|lia]|intros ?].
    apply reads_ret.
  - lia.
Qed.
#[global] Program Instance TlvSpec_UNICAST_MASTER_TABLE_NP : TlvSpec UNICAST_MASTER_TABLE_NP_t MngTlv_UNICAST_MASTER_TABLE_NP := {
  tlv_wf := wf_UNICAST_MASTER_TABLE_NP; tlv_norm := norm_UNICAST_MASTER_TABLE_NP; tlv_len := len_UNICAST_MASTER_TABLE_NP; tlv_fresh := fresh_UNICAST_MASTER_TABLE_NP;
  tlv_codec := (fun d d' H H' => codec_weaken _ _ _ _ (codec_UNICAST_MASTER_TABLE_NP d d' H H'));
  tlv_reads := reads_UNICAST_MASTER_TABLE_NP }.
Solve Obligations with cast_facts.

Definition wf_PORT_HWCLOCK_NP (d : PORT_HWCLOCK_NP_t) : Prop :=
  wf_PortIdentity (phn_portIdentity d) /\ sint 32 (phn_phc_index d) /\
  uint 8 (phn_flags d).
Definition norm_PORT_HWCLOCK_NP (d : PORT_HWCLOCK_NP_t) : PORT_HWCLOCK_NP_t :=
  mk_PORT_HWCLOCK_NP (phn_portIdentity d) (phn_phc_index d) (phn_flags d).
Definition len_PORT_HWCLOCK_NP (d : PORT_HWCLOCK_NP_t) : Z :=
  15.
Definition fresh_PORT_HWCLOCK_NP (d : PORT_HWCLOCK_NP_t) : Prop := True.
Lemma codec_PORT_HWCLOCK_NP d d' :
  wf_PORT_HWCLOCK_NP d -> fresh_PORT_HWCLOCK_NP d' ->
  codec (PORT_HWCLOCK_NP_f d) (PORT_HWCLOCK_NP_f d') (norm_PORT_HWCLOCK_NP d) (len_PORT_HWCLOCK_NP d).
Proof. unfold wf_PORT_HWCLOCK_NP, fresh_PORT_HWCLOCK_NP, norm_PORT_HWCLOCK_NP, len_PORT_HWCLOCK_NP, PORT_HWCLOCK_NP_f. intros. codec_record d. Qed.
Lemma reads_PORT_HWCLOCK_NP d d' :
  fresh_PORT_HWCLOCK_NP d -> fresh_PORT_HWCLOCK_NP d' -> reads 0 (PORT_HWCLOCK_NP_f d) (PORT_HWCLOCK_NP_f d').
Proof. unfold fresh_PORT_HWCLOCK_NP, PORT_HWCLOCK_NP_f. intros. wf_split. eapply reads_weaken; [reads_auto|lia]. Qed.
#[global] Program Instance TlvSpec_PORT_HWCLOCK_NP : TlvSpec PORT_HWCLOCK_NP_t MngTlv_PORT_HWCLOCK_NP := {
  tlv_wf := wf_PORT_HWCLOCK_NP; tlv_norm := norm_PORT_HWCLOCK_NP; tlv_len := len_PORT_HWCLOCK_NP; tlv_fresh := fresh_PORT_HWCLOCK_NP;
  tlv_codec := (fun d d' H H' => codec_weaken _ _ _ _ (codec_PORT_HWCLOCK_NP d d' H H'));
  tlv_reads := reads_PORT_HWCLOCK_NP }.
Solve Obligations with cast_facts.

Definition wf_POWER_PROFILE_SETTINGS_NP (d : POWER_PROFILE_SETTINGS_NP_t) : Prop :=
  uint 16 (ppsn_version d) /\ uint 16 (ppsn_grandmasterID d) /\
  uint 32 (ppsn_grandmasterTimeInaccuracy d) /\ uint 32 (ppsn_networkTimeInaccuracy d) /\
  uint 32 (ppsn_totalTimeInaccuracy d).
Definition norm_POWER_PROFILE_SETTINGS_NP (d : POWER_PROFILE_SETTINGS_NP_t) : POWER_PROFILE_SETTINGS_NP_t :=
  mk_POWER_PROFILE_SETTINGS_NP (ppsn_version d) (ppsn_grandmasterID d)
  (ppsn_grandmasterTimeInaccuracy d) (ppsn_networkTimeInaccuracy d)
  (ppsn_totalTimeInaccuracy d).
Definition len_POWER_PROFILE_SETTINGS_NP (d : POWER_PROFILE_SETTINGS_NP_t) : Z :=
  16.
Definition fresh_POWER_PROFILE_SETTINGS_NP (d : POWER_PROFILE_SETTINGS_NP_t) : Prop := True.
Lemma codec_POWER_PROFILE_SETTINGS_NP d d' :
  wf_POWER_PROFILE_SETTINGS_NP d -> fresh_POWER_PROFILE_SETTINGS_NP d' ->
  codec (POWER_PROFILE_SETTINGS_NP_f d) (POWER_PROFILE_SETTINGS_NP_f d') (norm_POWER_PROFILE_SETTINGS_NP d) (len_POWER_PROFILE_SETTINGS_NP d).
Proof. unfold wf_POWER_PROFILE_SETTINGS_NP, fresh_POWER_PROFILE_SETTINGS_NP, norm_POWER_PROFILE_SETTINGS_NP, len_POWER_PROFILE_SETTINGS_NP, POWER_PROFILE_SETTINGS_NP_f. intros. codec_record d. Qed.
Lemma reads_POWER_PROFILE_SETTINGS_NP d d' :
  fresh_POWER_PROFILE_SETTINGS_NP d -> fresh_POWER_PROFILE_SETTINGS_NP d' -> reads 0 (POWER_PROFILE_SETTINGS_NP_f d) (POWER_PROFILE_SETTINGS_NP_f d').
Proof. unfold fresh_POWER_PROFILE_SETTINGS_NP, POWER_PROFILE_SETTINGS_NP_f. intros. wf_split. eapply reads_weaken; [reads_auto|lia]. Qed.
#[global] Program Instance TlvSpec_POWER_PROFILE_SETTINGS_NP : TlvSpec POWER_PROFILE_SETTINGS_NP_t MngTlv_POWER_PROFILE_SETTINGS_NP := {
  tlv_wf := wf_POWER_PROFILE_SETTINGS_NP; tlv_norm := norm_POWER_PROFILE_SETTINGS_NP; tlv_len := len_POWER_PROFILE_SETTINGS_NP; tlv_fresh := fresh_POWER_PROFILE_SETTINGS_NP;
  tlv_codec := (fun d d' H H' => codec_weaken _ _ _ _ (codec_POWER_PROFILE_SETTINGS_NP d d' H H'));
  tlv_reads := reads_POWER_PROFILE_SETTINGS_NP }.
Solve Obligations with cast_facts.

Definition wf_CMLDS_INFO_NP (d : CMLDS_INFO_NP_t) : Prop :=
  wf_TimeInterval (cin_meanLinkDelay d) /\ sint 32 (cin_scaledNeighborRateRatio d) /\
  uint 32 (cin_as_capable d).
Definition norm_CMLDS_INFO_NP (d : CMLDS_INFO_NP_t) : CMLDS_INFO_NP_t :=
  mk_CMLDS_INFO_NP (cin_meanLinkDelay d) (cin_scaledNeighborRateRatio d)
  (cin_as_capable d).
Definition len_CMLDS_INFO_NP (d : CMLDS_INFO_NP_t) : Z :=
  16.
Definition fresh_CMLDS_INFO_NP (d : CMLDS_INFO_NP_t) : Prop := True.
Lemma codec_CMLDS_INFO_NP d d' :
  wf_CMLDS_INFO_NP d -> fresh_CMLDS_INFO_NP d' ->
  codec (CMLDS_INFO_NP_f d) (CMLDS_INFO_NP_f d') (norm_CMLDS_INFO_NP d) (len_CMLDS_INFO_NP d).
Proof. unfold wf_CMLDS_INFO_NP, fresh_CMLDS_INFO_NP, norm_CMLDS_INFO_NP, len_CMLDS_INFO_NP, CMLDS_INFO_NP_f. intros. codec_record d. Qed.
Lemma reads_CMLDS_INFO_NP d d' :
  fresh_CMLDS_INFO_NP d -> fresh_CMLDS_INFO_NP d' -> reads 0 (CMLDS_INFO_NP_f d) (CMLDS_INFO_NP_f d').
Proof. unfold fresh_CMLDS_INFO_NP, CMLDS_INFO_NP_f. intros. wf_split. eapply reads_weaken; [reads_auto|lia]. Qed.
#[global] Program Instance TlvSpec_CMLDS_INFO_NP : TlvSpec CMLDS_INFO_NP_t MngTlv_CMLDS_INFO_NP := {
  tlv_wf := wf_CMLDS_INFO_NP; tlv_norm := norm_CMLDS_INFO_NP; tlv_len := len_CMLDS_INFO_NP; tlv_fresh := fresh_CMLDS_INFO_NP;
  tlv_codec := (fun d d' H H' => codec_weaken _ _ _ _ (codec_CMLDS_INFO_NP d d' H H'));
  tlv_reads := reads_CMLDS_INFO_NP }.
Solve Obligations with cast_facts.

Definition wf_PORT_CORRECTIONS_NP (d : PORT_CORRECTIONS_NP_t) : Prop :=
  sint 64 (pcn_egressLatency d) /\ sint 64 (pcn_ingressLatency d) /\
  sint 64 (pcn_delayAsymmetry d).
Definition norm_PORT_CORRECTIONS_NP (d : PORT_CORRECTIONS_NP_t) : PORT_CORRECTIONS_NP_t :=
  mk_PORT_CORRECTIONS_NP (pcn_egressLatency d) (pcn_ingressLatency d)
  (pcn_delayAsymmetry d).
Definition len_PORT_CORRECTIONS_NP (d : PORT_CORRECTIONS_NP_t) : Z :=
  24.
Definition fresh_PORT_CORRECTIONS_NP (d : PORT_CORRECTIONS_NP_t) : Prop := True.
Lemma codec_PORT_CORRECTIONS_NP d d' :
  wf_PORT_CORRECTIONS_NP d -> fresh_PORT_CORRECTIONS_NP d' ->
  codec (PORT_CORRECTIONS_NP_f d) (PORT_CORRECTIONS_NP_f d') (norm_PORT_CORRECTIONS_NP d) (len_PORT_CORRECTIONS_NP d).
Proof. unfold wf_PORT_CORRECTIONS_NP, fresh_PORT_CORRECTIONS_NP, norm_PORT_CORRECTIONS_NP, len_PORT_CORRECTIONS_NP, PORT_CORRECTIONS_NP_f. intros. codec_record d. Qed.
Lemma reads_PORT_CORRECTIONS_NP d d' :
  fresh_PORT_CORRECTIONS_NP d -> fresh_PORT_CORRECTIONS_NP d' -> reads 0 (PORT_CORRECTIONS_NP_f d) (PORT_CORRECTIONS_NP_f d').
Proof. unfold fresh_PORT_CORRECTIONS_NP, PORT_CORRECTIONS_NP_f. intros. wf_split. eapply reads_weaken; [reads_auto|lia]. Qed.
#[global] Program Instance TlvSpec_PORT_CORRECTIONS_NP : TlvSpec PORT_CORRECTIONS_NP_t MngTlv_PORT_CORRECTIONS_NP := {
  tlv_wf := wf_PORT_CORRECTIONS_NP; tlv_norm := norm_PORT_CORRECTIONS_NP; tlv_len := len_PORT_CORRECTIONS_NP; tlv_fresh := fresh_PORT_CORRECTIONS_NP;
  tlv_codec := (fun d d' H H' => codec_weaken _ _ _ _ (codec_PORT_CORRECTIONS_NP d d' H H'));
  tlv_reads := reads_PORT_CORRECTIONS_NP }.
Solve Obligations with cast_facts.

Definition wf_EXTERNAL_GRANDMASTER_PROPERTIES_NP (d : EXTERNAL_GRANDMASTER_PROPERTIES_NP_t) : Prop :=
  wf_ClockIdentity (egp_gmIdentity d) /\ uint 16 (egp_stepsRemoved d).
Definition norm_EXTERNAL_GRANDMASTER_PROPERTIES_NP (d : EXTERNAL_GRANDMASTER_PROPERTIES_NP_t) : EXTERNAL_GRANDMASTER_PROPERTIES_NP_t :=
  mk_EXTERNAL_GRANDMASTER_PROPERTIES_NP (egp_gmIdentity d) (egp_stepsRemoved d).
Definition len_EXTERNAL_GRANDMASTER_PROPERTIES_NP (d : EXTERNAL_GRANDMASTER_PROPERTIES_NP_t) : Z :=
  10.
Definition fresh_EXTERNAL_GRANDMASTER_PROPERTIES_NP (d : EXTERNAL_GRANDMASTER_PROPERTIES_NP_t) : Prop := True.
Lemma codec_EXTERNAL_GRANDMASTER_PROPERTIES_NP d d' :
  wf_EXTERNAL_GRANDMASTER_PROPERTIES_NP d -> fresh_EXTERNAL_GRANDMASTER_PROPERTIES_NP d' ->
  codec (EXTERNAL_GRANDMASTER_PROPERTIES_NP_f d) (EXTERNAL_GRANDMASTER_PROPERTIES_NP_f d') (norm_EXTERNAL_GRANDMASTER_PROPERTIES_NP d) (len_EXTERNAL_GRANDMASTER_PROPERTIES_NP d).
Proof. unfold wf_EXTERNAL_GRANDMASTER_PROPERTIES_NP, fresh_EXTERNAL_GRANDMASTER_PROPERTIES_NP, norm_EXTERNAL_GRANDMASTER_PROPERTIES_NP, len_EXTERNAL_GRANDMASTER_PROPERTIES_NP, EXTERNAL_GRANDMASTER_PROPERTIES_NP_f. intros. codec_record d. Qed.
Lemma reads_EXTERNAL_GRANDMASTER_PROPERTIES_NP d d' :
  fresh_EXTERNAL_GRANDMASTER_PROPERTIES_NP d -> fresh_EXTERNAL_GRANDMASTER_PROPERTIES_NP d' -> reads 0 (EXTERNAL_GRANDMASTER_PROPERTIES_NP_f d) (EXTERNAL_GRANDMASTER_PROPERTIES_NP_f d').
Proof. unfold fresh_EXTERNAL_GRANDMASTER_PROPERTIES_NP, EXTERNAL_GRANDMASTER_PROPERTIES_NP_f. intros. wf_split. eapply reads_weaken; [reads_auto|lia]. Qed.
#[global] Program Instance TlvSpec_EXTERNAL_GRANDMASTER_PROPERTIES_NP : TlvSpec EXTERNAL_GRANDMASTER_PROPERTIES_NP_t MngTlv_EXTERNAL_GRANDMASTER_PROPERTIES_NP := {
  tlv_wf := wf_EXTERNAL_GRANDMASTER_PROPERTIES_NP; tlv_norm := norm_EXTERNAL_GRANDMASTER_PROPERTIES_NP; tlv_len := len_EXTERNAL_GRANDMASTER_PROPERTIES_NP; tlv_fresh := fresh_EXTERNAL_GRANDMASTER_PROPERTIES_NP;
  tlv_codec := (fun d d' H H' => codec_weaken _ _ _ _ (codec_EXTERNAL_GRANDMASTER_PROPERTIES_NP d d' H H'));
  tlv_reads := reads_EXTERNAL_GRANDMASTER_PROPERTIES_NP }.
Solve Obligations with cast_facts.

(** ** Any management TLV *)

Definition wf_tlv (t : BaseMngTlv) : Prop :=
  match t with
  | T_CLOCK_DESCRIPTION d => wf_CLOCK_DESCRIPTION d
  | T_USER_DESCRIPTION d => wf_USER_DESCRIPTION d
  | T_INITIALIZE d => wf_INITIALIZE d
  | T_FAULT_LOG d => wf_FAULT_LOG d
  | T_DEFAULT_DATA_SET d => wf_DEFAULT_DATA_SET d
  | T_CURRENT_DATA_SET d => wf_CURRENT_DATA_SET d
  | T_PARENT_DATA_SET d => wf_PARENT_DATA_SET d
  | T_TIME_PROPERTIES_DATA_SET d => wf_TIME_PROPERTIES_DATA_SET d
  | T_PORT_DATA_SET d => wf_PORT_DATA_SET d
  | T_PRIORITY1 d => wf_PRIORITY1 d
  | T_PRIORITY2 d => wf_PRIORITY2 d
  | T_DOMAIN d => wf_DOMAIN d
  | T_SLAVE_ONLY d => wf_SLAVE_ONLY d
  | T_LOG_ANNOUNCE_INTERVAL d => wf_LOG_ANNOUNCE_INTERVAL d
  | T_ANNOUNCE_RECEIPT_TIMEOUT d => wf_ANNOUNCE_RECEIPT_TIMEOUT d
  | T_LOG_SYNC_INTERVAL d => wf_LOG_SYNC_INTERVAL d
  | T_VERSION_NUMBER d => wf_VERSION_NUMBER d
  | T_TIME d => wf_TIME d
  | T_CLOCK_ACCURACY d => wf_CLOCK_ACCURACY d
  | T_UTC_PROPERTIES d => wf_UTC_PROPERTIES d
  | T_TRACEABILITY_PROPERTIES d => wf_TRACEABILITY_PROPERTIES d
  | T_TIMESCALE_PROPERTIES d => wf_TIMESCALE_PROPERTIES d
  | T_UNICAST_NEGOTIATION_ENABLE d => wf_UNICAST_NEGOTIATION_ENABLE d
  | T_PATH_TRACE_LIST d => wf_PATH_TRACE_LIST d
  | T_PATH_TRACE_ENABLE d => wf_PATH_TRACE_ENABLE d
  | T_GRANDMASTER_CLUSTER_TABLE d => wf_GRANDMASTER_CLUSTER_TABLE d
  | T_UNICAST_MASTER_TABLE d => wf_UNICAST_MASTER_TABLE d
  | T_UNICAST_MASTER_MAX_TABLE_SIZE d => wf_UNICAST_MASTER_MAX_TABLE_SIZE d
  | T_ACCEPTABLE_MASTER_TABLE d => wf_ACCEPTABLE_MASTER_TABLE d
  | T_ACCEPTABLE_MASTER_TABLE_ENABLED d => wf_ACCEPTABLE_MASTER_TABLE_ENABLED d
  | T_ACCEPTABLE_MASTER_MAX_TABLE_SIZE d => wf_ACCEPTABLE_MASTER_MAX_TABLE_SIZE d
  | T_ALTERNATE_MASTER d => wf_ALTERNATE_MASTER d
  | T_ALTERNATE_TIME_OFFSET_ENABLE d => wf_ALTERNATE_TIME_OFFSET_ENABLE d
  | T_ALTERNATE_TIME_OFFSET_NAME d => wf_ALTERNATE_TIME_OFFSET_NAME d
  | T_ALTERNATE_TIME_OFFSET_MAX_KEY d => wf_ALTERNATE_TIME_OFFSET_MAX_KEY d
  | T_ALTERNATE_TIME_OFFSET_PROPERTIES d => wf_ALTERNATE_TIME_OFFSET_PROPERTIES d
  | T_TRANSPARENT_CLOCK_PORT_DATA_SET d => wf_TRANSPARENT_CLOCK_PORT_DATA_SET d
  | T_LOG_MIN_PDELAY_REQ_INTERVAL d => wf_LOG_MIN_PDELAY_REQ_INTERVAL d
  | T_TRANSPARENT_CLOCK_DEFAULT_DATA_SET d => wf_TRANSPARENT_CLOCK_DEFAULT_DATA_SET d
  | T_PRIMARY_DOMAIN d => wf_PRIMARY_DOMAIN d
  | T_DELAY_MECHANISM d => wf_DELAY_MECHANISM d
  | T_EXTERNAL_PORT_CONFIGURATION_ENABLED d => wf_EXTERNAL_PORT_CONFIGURATION_ENABLED d
  | T_MASTER_ONLY d => wf_MASTER_ONLY d
  | T_HOLDOVER_UPGRADE_ENABLE d => wf_HOLDOVER_UPGRADE_ENABLE d
  | T_EXT_PORT_CONFIG_PORT_DATA_SET d => wf_EXT_PORT_CONFIG_PORT_DATA_SET d
  | T_TIME_STATUS_NP d => wf_TIME_STATUS_NP d
  | T_GRANDMASTER_SETTINGS_NP d => wf_GRANDMASTER_SETTINGS_NP d
  | T_PORT_DATA_SET_NP d => wf_PORT_DATA_SET_NP d
  | T_SUBSCRIBE_EVENTS_NP d => wf_SUBSCRIBE_EVENTS_NP d
  | T_PORT_PROPERTIES_NP d => wf_PORT_PROPERTIES_NP d
  | T_PORT_STATS_NP d => wf_PORT_STATS_NP d
  | T_SYNCHRONIZATION_UNCERTAIN_NP d => wf_SYNCHRONIZATION_UNCERTAIN_NP d
  | T_PORT_SERVICE_STATS_NP d => wf_PORT_SERVICE_STATS_NP d
  | T_UNICAST_MASTER_TABLE_NP d => wf_UNICAST_MASTER_TABLE_NP d
  | T_PORT_HWCLOCK_NP d => wf_PORT_HWCLOCK_NP d
  | T_POWER_PROFILE_SETTINGS_NP d => wf_POWER_PROFILE_SETTINGS_NP d
  | T_CMLDS_INFO_NP d => wf_CMLDS_INFO_NP d
  | T_PORT_CORRECTIONS_NP d => wf_PORT_CORRECTIONS_NP d
  | T_EXTERNAL_GRANDMASTER_PROPERTIES_NP d => wf_EXTERNAL_GRANDMASTER_PROPERTIES_NP d
  | T_SMPTE_ORGANIZATION_EXTENSION _ => False
  end.

Definition norm_tlv (t : BaseMngTlv) : BaseMngTlv :=
  match t with
  | T_CLOCK_DESCRIPTION d => T_CLOCK_DESCRIPTION (norm_CLOCK_DESCRIPTION d)
  | T_USER_DESCRIPTION d => T_USER_DESCRIPTION (norm_USER_DESCRIPTION d)
  | T_INITIALIZE d => T_INITIALIZE (norm_INITIALIZE d)
  | T_FAULT_LOG d => T_FAULT_LOG (norm_FAULT_LOG d)
  | T_DEFAULT_DATA_SET d => T_DEFAULT_DATA_SET (norm_DEFAULT_DATA_SET d)
  | T_CURRENT_DATA_SET d => T_CURRENT_DATA_SET (norm_CURRENT_DATA_SET d)
  | T_PARENT_DATA_SET d => T_PARENT_DATA_SET (norm_PARENT_DATA_SET d)
  | T_TIME_PROPERTIES_DATA_SET d => T_TIME_PROPERTIES_DATA_SET (norm_TIME_PROPERTIES_DATA_SET d)
  | T_PORT_DATA_SET d => T_PORT_DATA_SET (norm_PORT_DATA_SET d)
  | T_PRIORITY1 d => T_PRIORITY1 (norm_PRIORITY1 d)
  | T_PRIORITY2 d => T_PRIORITY2 (norm_PRIORITY2 d)
  | T_DOMAIN d => T_DOMAIN (norm_DOMAIN d)
  | T_SLAVE_ONLY d => T_SLAVE_ONLY (norm_SLAVE_ONLY d)
  | T_LOG_ANNOUNCE_INTERVAL d => T_LOG_ANNOUNCE_INTERVAL (norm_LOG_ANNOUNCE_INTERVAL d)
  | T_ANNOUNCE_RECEIPT_TIMEOUT d => T_ANNOUNCE_RECEIPT_TIMEOUT (norm_ANNOUNCE_RECEIPT_TIMEOUT d)
  | T_LOG_SYNC_INTERVAL d => T_LOG_SYNC_INTERVAL (norm_LOG_SYNC_INTERVAL d)
  | T_VERSION_NUMBER d => T_VERSION_NUMBER (norm_VERSION_NUMBER d)
  | T_TIME d => T_TIME (norm_TIME d)
  | T_CLOCK_ACCURACY d => T_CLOCK_ACCURACY (norm_CLOCK_ACCURACY d)
  | T_UTC_PROPERTIES d => T_UTC_PROPERTIES (norm_UTC_PROPERTIES d)
  | T_TRACEABILITY_PROPERTIES d => T_TRACEABILITY_PROPERTIES (norm_TRACEABILITY_PROPERTIES d)
  | T_TIMESCALE_PROPERTIES d => T_TIMESCALE_PROPERTIES (norm_TIMESCALE_PROPERTIES d)
  | T_UNICAST_NEGOTIATION_ENABLE d => T_UNICAST_NEGOTIATION_ENABLE (norm_UNICAST_NEGOTIATION_ENABLE d)
  | T_PATH_TRACE_LIST d => T_PATH_TRACE_LIST (norm_PATH_TRACE_LIST d)
  | T_PATH_TRACE_ENABLE d => T_PATH_TRACE_ENABLE (norm_PATH_TRACE_ENABLE d)
  | T_GRANDMASTER_CLUSTER_TABLE d => T_GRANDMASTER_CLUSTER_TABLE (norm_GRANDMASTER_CLUSTER_TABLE d)
  | T_UNICAST_MASTER_TABLE d => T_UNICAST_MASTER_TABLE (norm_UNICAST_MASTER_TABLE d)
  | T_UNICAST_MASTER_MAX_TABLE_SIZE d => T_UNICAST_MASTER_MAX_TABLE_SIZE (norm_UNICAST_MASTER_MAX_TABLE_SIZE d)
  | T_ACCEPTABLE_MASTER_TABLE d => T_ACCEPTABLE_MASTER_TABLE (norm_ACCEPTABLE_MASTER_TABLE d)
  | T_ACCEPTABLE_MASTER_TABLE_ENABLED d => T_ACCEPTABLE_MASTER_TABLE_ENABLED (norm_ACCEPTABLE_MASTER_TABLE_ENABLED d)
  | T_ACCEPTABLE_MASTER_MAX_TABLE_SIZE d => T_ACCEPTABLE_MASTER_MAX_TABLE_SIZE (norm_ACCEPTABLE_MASTER_MAX_TABLE_SIZE d)
  | T_ALTERNATE_MASTER d => T_ALTERNATE_MASTER (norm_ALTERNATE_MASTER d)
  | T_ALTERNATE_TIME_OFFSET_ENABLE d => T_ALTERNATE_TIME_OFFSET_ENABLE (norm_ALTERNATE_TIME_OFFSET_ENABLE d)
  | T_ALTERNATE_TIME_OFFSET_NAME d => T_ALTERNATE_TIME_OFFSET_NAME (norm_ALTERNATE_TIME_OFFSET_NAME d)
  | T_ALTERNATE_TIME_OFFSET_MAX_KEY d => T_ALTERNATE_TIME_OFFSET_MAX_KEY (norm_ALTERNATE_TIME_OFFSET_MAX_KEY d)
  | T_ALTERNATE_TIME_OFFSET_PROPERTIES d => T_ALTERNATE_TIME_OFFSET_PROPERTIES (norm_ALTERNATE_TIME_OFFSET_PROPERTIES d)
  | T_TRANSPARENT_CLOCK_PORT_DATA_SET d => T_TRANSPARENT_CLOCK_PORT_DATA_SET (norm_TRANSPARENT_CLOCK_PORT_DATA_SET d)
  | T_LOG_MIN_PDELAY_REQ_INTERVAL d => T_LOG_MIN_PDELAY_REQ_INTERVAL (norm_LOG_MIN_PDELAY_REQ_INTERVAL d)
  | T_TRANSPARENT_CLOCK_DEFAULT_DATA_SET d => T_TRANSPARENT_CLOCK_DEFAULT_DATA_SET (norm_TRANSPARENT_CLOCK_DEFAULT_DATA_SET d)
  | T_PRIMARY_DOMAIN d => T_PRIMARY_DOMAIN (norm_PRIMARY_DOMAIN d)
  | T_DELAY_MECHANISM d => T_DELAY_MECHANISM (norm_DELAY_MECHANISM d)
  | T_EXTERNAL_PORT_CONFIGURATION_ENABLED d => T_EXTERNAL_PORT_CONFIGURATION_ENABLED (norm_EXTERNAL_PORT_CONFIGURATION_ENABLED d)
  | T_MASTER_ONLY d => T_MASTER_ONLY (norm_MASTER_ONLY d)
  | T_HOLDOVER_UPGRADE_ENABLE d => T_HOLDOVER_UPGRADE_ENABLE (norm_HOLDOVER_UPGRADE_ENABLE d)
  | T_EXT_PORT_CONFIG_PORT_DATA_SET d => T_EXT_PORT_CONFIG_PORT_DATA_SET (norm_EXT_PORT_CONFIG_PORT_DATA_SET d)
  | T_TIME_STATUS_NP d => T_TIME_STATUS_NP (norm_TIME_STATUS_NP d)
  | T_GRANDMASTER_SETTINGS_NP d => T_GRANDMASTER_SETTINGS_NP (norm_GRANDMASTER_SETTINGS_NP d)
  | T_PORT_DATA_SET_NP d => T_PORT_DATA_SET_NP (norm_PORT_DATA_SET_NP d)
  | T_SUBSCRIBE_EVENTS_NP d => T_SUBSCRIBE_EVENTS_NP (norm_SUBSCRIBE_EVENTS_NP d)
  | T_PORT_PROPERTIES_NP d => T_PORT_PROPERTIES_NP (norm_PORT_PROPERTIES_NP d)
  | T_PORT_STATS_NP d => T_PORT_STATS_NP (norm_PORT_STATS_NP d)
  | T_SYNCHRONIZATION_UNCERTAIN_NP d => T_SYNCHRONIZATION_UNCERTAIN_NP (norm_SYNCHRONIZATION_UNCERTAIN_NP d)
  | T_PORT_SERVICE_STATS_NP d => T_PORT_SERVICE_STATS_NP (norm_PORT_SERVICE_STATS_NP d)
  | T_UNICAST_MASTER_TABLE_NP d => T_UNICAST_MASTER_TABLE_NP (norm_UNICAST_MASTER_TABLE_NP d)
  | T_PORT_HWCLOCK_NP d => T_PORT_HWCLOCK_NP (norm_PORT_HWCLOCK_NP d)
  | T_POWER_PROFILE_SETTINGS_NP d => T_POWER_PROFILE_SETTINGS_NP (norm_POWER_PROFILE_SETTINGS_NP d)
  | T_CMLDS_INFO_NP d => T_CMLDS_INFO_NP (norm_CMLDS_INFO_NP d)
  | T_PORT_CORRECTIONS_NP d => T_PORT_CORRECTIONS_NP (norm_PORT_CORRECTIONS_NP d)
  | T_EXTERNAL_GRANDMASTER_PROPERTIES_NP d => T_EXTERNAL_GRANDMASTER_PROPERTIES_NP (norm_EXTERNAL_GRANDMASTER_PROPERTIES_NP d)
  | T_SMPTE_ORGANIZATION_EXTENSION _ => t
  end.

Definition len_tlv (t : BaseMngTlv) : Z :=
  match t with
  | T_CLOCK_DESCRIPTION d => len_CLOCK_DESCRIPTION d
  | T_USER_DESCRIPTION d => len_USER_DESCRIPTION d
  | T_INITIALIZE d => len_INITIALIZE d
  | T_FAULT_LOG d => len_FAULT_LOG d
  | T_DEFAULT_DATA_SET d => len_DEFAULT_DATA_SET d
  | T_CURRENT_DATA_SET d => len_CURRENT_DATA_SET d
  | T_PARENT_DATA_SET d => len_PARENT_DATA_SET d
  | T_TIME_PROPERTIES_DATA_SET d => len_TIME_PROPERTIES_DATA_SET d
  | T_PORT_DATA_SET d => len_PORT_DATA_SET d
  | T_PRIORITY1 d => len_PRIORITY1 d
  | T_PRIORITY2 d => len_PRIORITY2 d
  | T_DOMAIN d => len_DOMAIN d
  | T_SLAVE_ONLY d => len_SLAVE_ONLY d
  | T_LOG_ANNOUNCE_INTERVAL d => len_LOG_ANNOUNCE_INTERVAL d
  | T_ANNOUNCE_RECEIPT_TIMEOUT d => len_ANNOUNCE_RECEIPT_TIMEOUT d
  | T_LOG_SYNC_INTERVAL d => len_LOG_SYNC_INTERVAL d
  | T_VERSION_NUMBER d => len_VERSION_NUMBER d
  | T_TIME d => len_TIME d
  | T_CLOCK_ACCURACY d => len_CLOCK_ACCURACY d
  | T_UTC_PROPERTIES d => len_UTC_PROPERTIES d
  | T_TRACEABILITY_PROPERTIES d => len_TRACEABILITY_PROPERTIES d
  | T_TIMESCALE_PROPERTIES d => len_TIMESCALE_PROPERTIES d
  | T_UNICAST_NEGOTIATION_ENABLE d => len_UNICAST_NEGOTIATION_ENABLE d
  | T_PATH_TRACE_LIST d => len_PATH_TRACE_LIST d
  | T_PATH_TRACE_ENABLE d => len_PATH_TRACE_ENABLE d
  | T_GRANDMASTER_CLUSTER_TABLE d => len_GRANDMASTER_CLUSTER_TABLE d
  | T_UNICAST_MASTER_TABLE d => len_UNICAST_MASTER_TABLE d
  | T_UNICAST_MASTER_MAX_TABLE_SIZE d => len_UNICAST_MASTER_MAX_TABLE_SIZE d
  | T_ACCEPTABLE_MASTER_TABLE d => len_ACCEPTABLE_MASTER_TABLE d
  | T_ACCEPTABLE_MASTER_TABLE_ENABLED d => len_ACCEPTABLE_MASTER_TABLE_ENABLED d
  | T_ACCEPTABLE_MASTER_MAX_TABLE_SIZE d => len_ACCEPTABLE_MASTER_MAX_TABLE_SIZE d
  | T_ALTERNATE_MASTER d => len_ALTERNATE_MASTER d
  | T_ALTERNATE_TIME_OFFSET_ENABLE d => len_ALTERNATE_TIME_OFFSET_ENABLE d
  | T_ALTERNATE_TIME_OFFSET_NAME d => len_ALTERNATE_TIME_OFFSET_NAME d
  | T_ALTERNATE_TIME_OFFSET_MAX_KEY d => len_ALTERNATE_TIME_OFFSET_MAX_KEY d
  | T_ALTERNATE_TIME_OFFSET_PROPERTIES d => len_ALTERNATE_TIME_OFFSET_PROPERTIES d
  | T_TRANSPARENT_CLOCK_PORT_DATA_SET d => len_TRANSPARENT_CLOCK_PORT_DATA_SET d
  | T_LOG_MIN_PDELAY_REQ_INTERVAL d => len_LOG_MIN_PDELAY_REQ_INTERVAL d
  | T_TRANSPARENT_CLOCK_DEFAULT_DATA_SET d => len_TRANSPARENT_CLOCK_DEFAULT_DATA_SET d
  | T_PRIMARY_DOMAIN d => len_PRIMARY_DOMAIN d
  | T_DELAY_MECHANISM d => len_DELAY_MECHANISM d
  | T_EXTERNAL_PORT_CONFIGURATION_ENABLED d => len_EXTERNAL_PORT_CONFIGURATION_ENABLED d
  | T_MASTER_ONLY d => len_MASTER_ONLY d
  | T_HOLDOVER_UPGRADE_ENABLE d => len_HOLDOVER_UPGRADE_ENABLE d
  | T_EXT_PORT_CONFIG_PORT_DATA_SET d => len_EXT_PORT_CONFIG_PORT_DATA_SET d
  | T_TIME_STATUS_NP d => len_TIME_STATUS_NP d
  | T_GRANDMASTER_SETTINGS_NP d => len_GRANDMASTER_SETTINGS_NP d
  | T_PORT_DATA_SET_NP d => len_PORT_DATA_SET_NP d
  | T_SUBSCRIBE_EVENTS_NP d => len_SUBSCRIBE_EVENTS_NP d
  | T_PORT_PROPERTIES_NP d => len_PORT_PROPERTIES_NP d
  | T_PORT_STATS_NP d => len_PORT_STATS_NP d
  | T_SYNCHRONIZATION_UNCERTAIN_NP d => len_SYNCHRONIZATION_UNCERTAIN_NP d
  | T_PORT_SERVICE_STATS_NP d => len_PORT_SERVICE_STATS_NP d
  | T_UNICAST_MASTER_TABLE_NP d => len_UNICAST_MASTER_TABLE_NP d
  | T_PORT_HWCLOCK_NP d => len_PORT_HWCLOCK_NP d
  | T_POWER_PROFILE_SETTINGS_NP d => len_POWER_PROFILE_SETTINGS_NP d
  | T_CMLDS_INFO_NP d => len_CMLDS_INFO_NP d
  | T_PORT_CORRECTIONS_NP d => len_PORT_CORRECTIONS_NP d
  | T_EXTERNAL_GRANDMASTER_PROPERTIES_NP d => len_EXTERNAL_GRANDMASTER_PROPERTIES_NP d
  | T_SMPTE_ORGANIZATION_EXTENSION _ => 0
  end.
