(* ===== verification/Dispatch.v ===== *)
(** * Dispatch.v: the dispatch on the management id

    Theorems on [call_tlv_data], [verifyTlv] and [dataFieldSize] of MngTlvs.v,
    proved through the interface [TlvSpec]: no proof here looks into the
    function of a TLV.  At the end, the event mask of one TLV. *)

From S2P Require Import Prelude Types Ids MsgProc Codec Structs MngTlvs MngTlvsSpec.

(** ** Every case of the dispatch meets the interface *)

(** The specification of the TLV of an id and its agreement with the
    definitions on [BaseMngTlv]. *)
Record case_spec (D : Type) (inst : MngTlv D) : Type := {
  cs_spec : TlvSpec D inst;
  cs_wf d : wf_tlv (tlv_up d) = tlv_wf d;
  cs_norm d : norm_tlv (tlv_up d) = tlv_up (tlv_norm d);
  cs_len d : len_tlv (tlv_up d) = tlv_len d
}.

Lemma tlv_case_spec id :
  match tlv_case_of id return Type with CaseUF D inst => case_spec D inst | _ => unit end.
Proof.
  destruct id; cbn [tlv_case_of];
    first [exact tt | econstructor; reflexivity].
Defined.

(** The structure is one of the id: [verifyTlv] through the pointer. *)
Lemma verifyTlv_inv id p :
  verifyTlv id p = true ->
  exists D inst (d : D), tlv_case_of id = CaseUF D inst /\
    p = Obj (tlv_up d) /\ tlv_cast (tlv_up d) = Some d.
Proof.
  unfold verifyTlv. pose proof (tlv_case_spec id) as C.
  destruct p as [| |t]; [done..|]. destruct (tlv_case_of id) as [|D inst|]; [done| |done].
  destruct (tlv_cast t) as [d|] eqn:E; [|done]. intros _.
  pose proof (tlv_up_cast (TlvSpec := cs_spec _ _ C) t d E) as ->. eauto 6.
Qed.

Lemma verifyTlv_intro id D (inst : MngTlv D) d :
  tlv_case_of id = CaseUF D inst -> verifyTlv id (Obj (tlv_up d)) = true.
Proof.
  intros E. unfold verifyTlv. pose proof (tlv_case_spec id) as C. rewrite E in *.
  by rewrite (tlv_cast_up (TlvSpec := cs_spec _ _ C)).
Qed.

(** ** Building and parsing a dataField *)

(** The state with the error [call_tlv_data] starts from. *)
Definition start (s : MsgProc) : MsgProc := set_m_err MNG_PARSE_ERROR_TOO_SMALL s.

Lemma follows_start s : follows s (start s).
Proof. unfold follows. cbn. repeat split; done || lia. Qed.

(** [data_octets id t bs]: [bs] is the dataField of [t]: building emits it, or
    stops when there is no room; parsing it, with at most one octet after it,
    gives the normal form of [t]. *)
Definition data_octets (id : mng_vals_e) (t : BaseMngTlv) (bs : list byte) : Prop :=
  (forall s, ok s -> m_build s = true ->
    (len bs <= m_left s ->
       call_tlv_data id (Obj t) s =
         Some (MNG_PARSE_ERROR_OK, Obj (norm_tlv t), put bs (start s))) /\
    (m_left s < len bs ->
       exists s', call_tlv_data id (Obj t) s =
         Some (MNG_PARSE_ERROR_TOO_SMALL, Obj t, s'))) /\
  (forall p s, ok s -> m_build s = false -> at_cur s bs ->
    len bs <= m_left s <= len bs + 1 ->
    call_tlv_data id p s =
      Some (MNG_PARSE_ERROR_OK, Obj (norm_tlv t), move (len bs) (start s))).

Lemma call_tlv_codec id t :
  verifyTlv id (Obj t) = true -> wf_tlv t ->
  exists bs, len bs = len_tlv t /\ data_octets id t bs.
Proof.
  intros V W. apply verifyTlv_inv in V as (D & inst & d & E & Ht & Hc). simplify_eq.
  pose proof (tlv_case_spec id) as C. rewrite E in C. pose proof (cs_spec _ _ C) as S.
  assert (tlv_wf (TlvSpec := cs_spec _ _ C) d) as Wd by (by rewrite <- (cs_wf _ _ C)).
  destruct (tlv_codec (TlvSpec := cs_spec _ _ C) d tlv_init Wd tlv_fresh_init)
    as (bs & Em & Co & L).
  exists bs. rewrite (cs_len _ _ C). split; [done|]. unfold data_octets.
  rewrite (cs_norm _ _ C). split.
  - intros s Hs Hb. unfold call_tlv_data. rewrite E. fold (start s).
    change (m_build (start s)) with (m_build s). rewrite Hb, Hc.
    destruct (Em (start s) Hs Hb) as [Fit Miss]. split; intros Hl.
    + by rewrite (Fit Hl).
    + destruct (Miss Hl) as (s' & -> & He). rewrite He. eauto.
  - intros p s Hs Hb Hat Hl. unfold call_tlv_data. rewrite E. fold (start s).
    change (m_build (start s)) with (m_build s). rewrite Hb.
    by rewrite (Co (start s) Hs Hb Hat Hl).
Qed.

(** ** Parsing any octets *)

(** What parsing can return: never a fault, the cursor stays in its range, and
    success hands out a structure of the id, except for the ids without a
    dataField, which leave the pointer as it was. *)
Lemma call_tlv_parse id p s :
  ok s -> m_build s = false ->
  exists e p' s', call_tlv_data id p s = Some (e, p', s') /\ ok s' /\ follows s s' /\
    (e = MNG_PARSE_ERROR_OK ->
       (tlv_case_of id = CaseNA /\ p' = p) \/ verifyTlv id p' = true) /\
    (e <> MNG_PARSE_ERROR_OK -> p' = p).
Proof.
  intros Hs Hb. unfold call_tlv_data. fold (start s).
  change (m_build (start s)) with (m_build s). rewrite Hb.
  pose proof (tlv_case_spec id) as C.
  destruct (tlv_case_of id) as [|D inst|] eqn:E.
  - eexists _, _, _. split; [done|]. split; [done|]. split; [apply follows_start|].
    split; [by left|done].
  - destruct (tlv_reads (TlvSpec := cs_spec _ _ C) tlv_init tlv_init
      tlv_fresh_init tlv_fresh_init (start s) Hs Hb) as [_ R].
    destruct (tlv_f tlv_init (start s)) as [d s'|s'|]; [| |done].
    + destruct R as (? & F & _). eexists _, _, _. split; [done|]. split; [done|].
      split; [by eapply follows_trans; [apply follows_start|]|]. split; [|done]. intros _. right.
      by eapply verifyTlv_intro.
    + destruct R as (? & F). eexists _, _, _. split; [done|]. split; [done|].
      split; [by eapply follows_trans; [apply follows_start|]|]. split; [|done].
      destruct F as (_&_&_&_&_&F). intros He. by destruct F.
  - eexists _, _, _. split; [done|]. split; [done|]. split; [apply follows_start|done].
Qed.

(** ** Planned sizes *)

Lemma vector_l_total {T} (size : T -> Z) n vec : vector_l size n vec = n + total size vec.
Proof.
  unfold vector_l. revert n. induction vec as [|r vec IH]; intros n; cbn [fold_left total foldr];
    [lia|]. rewrite IH. unfold total. lia.
Qed.

(** The size that the table or [dataFieldSize] gives for a structure against
    the octets its function emits. *)
Definition planned (id : mng_vals_e) (p : tlv_ptr) : Z :=
  let n := mi_size (mng_all_vals id) in
  if n =? -2 then dataFieldSize id p else n.
Definition size_ok (id : mng_vals_e) (t : BaseMngTlv) : Prop :=
  if mi_size (mng_all_vals id) =? -2
  then dataFieldSize id (Obj t) =
    if decide (id = CLOCK_DESCRIPTION) then len_tlv t - 1 else len_tlv t
  else mi_size (mng_all_vals id) = len_tlv t + len_tlv t mod 2.

Ltac size_case :=
  let d := fresh "d" in intros d; first
    [ reflexivity
    | unfold size_ok; cbn -[total vector_l];
      first [rewrite decide_True by done | rewrite decide_False by done];
      unfold FAULT_LOG_s, PATH_TRACE_LIST_s, GRANDMASTER_CLUSTER_TABLE_s,
        UNICAST_MASTER_TABLE_s, ACCEPTABLE_MASTER_TABLE_s, UNICAST_MASTER_TABLE_NP_s,
        CLOCK_DESCRIPTION_s, len_FAULT_LOG, len_PATH_TRACE_LIST,
        len_GRANDMASTER_CLUSTER_TABLE, len_UNICAST_MASTER_TABLE,
        len_ACCEPTABLE_MASTER_TABLE, len_UNICAST_MASTER_TABLE_NP, len_CLOCK_DESCRIPTION;
      rewrite ?vector_l_total, ?total_const; lia ].

Lemma tlv_case_size id :
  match tlv_case_of id return Prop with
  | CaseUF D inst => forall d : D, size_ok id (tlv_up d)
  | _ => True
  end.
Proof. destruct id; cbn [tlv_case_of]; first [exact I | size_case]. Qed.

Lemma planned_size id t : verifyTlv id (Obj t) = true -> size_ok id t.
Proof.
  intros V. apply verifyTlv_inv in V as (D & inst & d & E & Ht & _). simplify_eq.
  pose proof (tlv_case_size id) as H. rewrite E in H. apply H.
Qed.

(** The size of every structure of the table is positive, and an id has a case
    with a function exactly when its dataField is not empty. *)
Lemma case_NA_size id :
  tlv_case_of id = CaseNA <-> in_table id = true /\ mi_size (mng_all_vals id) = 0.
Proof. split; [intros H|intros [H1 H2]]; destruct id; done. Qed.

Lemma case_not_none id : in_table id = true -> tlv_case_of id <> CaseNone.
Proof. destruct id; done. Qed.

(** ** The theorems *)

(** C38: Building the dataField of a well formed structure with enough room
    succeeds, writes [len_tlv t] octets and leaves the structure in normal form
    (masked flags, length fields that follow the contents); parsing these
    octets, also with one octet of padding after them, gives the same
    structure, whatever the pointer was before. *)
Theorem dispatch_roundtrip id t s :
  verifyTlv id (Obj t) = true -> wf_tlv t ->
  ok s -> m_build s = true -> len_tlv t <= m_left s ->
  exists s1,
    call_tlv_data id (Obj t) s = Some (MNG_PARSE_ERROR_OK, Obj (norm_tlv t), s1) /\
    m_size s1 = m_size s + len_tlv t /\ m_left s1 = m_left s - len_tlv t /\
    forall p s2, ok s2 -> m_build s2 = false -> m_buf s2 = m_buf s1 -> m_cur s2 = m_cur s ->
      len_tlv t <= m_left s2 <= len_tlv t + 1 ->
      exists s3,
        call_tlv_data id p s2 = Some (MNG_PARSE_ERROR_OK, Obj (norm_tlv t), s3) /\
        m_left s3 = m_left s2 - len_tlv t.
Proof.
  intros V W Hs Hb Hl. destruct (call_tlv_codec id t V W) as (bs & L & Em & Co).
  rewrite <- L in *. destruct (Em s Hs Hb) as [Fit _].
  exists (put bs (start s)). split; [by apply Fit|]. split; [done|]. split; [done|].
  intros p s2 Hs2 Hb2 Hbuf Hcur Hl2. eexists. split.
  - apply Co; [done..| |done]. apply at_cur_put with s; [done|lia|done|done].
  - done.
Qed.

(** A cursor over a buffer of [n] zero octets. *)
Definition cursor (build : bool) (n : Z) : MsgProc :=
  mk_MsgProc build (repeat x00 (Z.to_nat n)) 0 n 0 MNG_PARSE_ERROR_TOO_SMALL.

Lemma dispatch_roundtrip_witness :
  exists s1,
    call_tlv_data USER_DESCRIPTION
      (Obj (T_USER_DESCRIPTION (mk_USER_DESCRIPTION (mk_PTPText 77 [x61; x62; x63]))))
      (cursor true 5) =
    Some (MNG_PARSE_ERROR_OK,
      Obj (T_USER_DESCRIPTION (mk_USER_DESCRIPTION (mk_PTPText 3 [x61; x62; x63]))), s1).
Proof.
  destruct (dispatch_roundtrip USER_DESCRIPTION
    (T_USER_DESCRIPTION (mk_USER_DESCRIPTION (mk_PTPText 77 [x61; x62; x63])))
    (cursor true 5)) as (s1 & H & _).
  - reflexivity.
  - vm_compute. discriminate.
  - repeat split; vm_compute; discriminate.
  - reflexivity.
  - vm_compute. discriminate.
  - exists s1. exact H.
Defined.

(** Parsing any octets as the dataField of any id never reads outside the
    buffer and keeps the cursor in the range it was given; it fails with an
    error and leaves the pointer alone, or succeeds and hands out a structure of
    that id. *)
Theorem dispatch_parse_safe id p s :
  ok s -> m_build s = false ->
  exists e p' s', call_tlv_data id p s = Some (e, p', s') /\ ok s' /\
    m_buf s' = m_buf s /\ m_cur s <= m_cur s' /\
    m_cur s' + m_left s' = m_cur s + m_left s /\
    (e = MNG_PARSE_ERROR_OK ->
       (isEmpty id = true /\ p' = p) \/ verifyTlv id p' = true) /\
    (e <> MNG_PARSE_ERROR_OK -> p' = p).
Proof.
  intros Hs Hb. destruct (call_tlv_parse id p s Hs Hb) as (e & p' & s' & H & Hok & F & HO & HE).
  destruct F as (_ & Hbuf & Hsum & _ & Hl & _). exists e, p', s'.
  split; [done|]. split; [done|]. split; [done|]. split; [lia|]. split; [done|]. split; [|done].
  intros He. destruct (HO He) as [[Hc Hp]|V]; [left|by right]. split; [|done].
  apply case_NA_size in Hc as [Ht Hz]. unfold isEmpty. by rewrite Ht, Hz.
Qed.

Lemma dispatch_parse_safe_witness :
  exists e p' s',
    call_tlv_data PORT_STATS_NP Unset (cursor false 100) = Some (e, p', s') /\ ok s'.
Proof.
  destruct (dispatch_parse_safe PORT_STATS_NP Unset (cursor false 100))
    as (e & p' & s' & H & Hok & _).
  - repeat split; vm_compute; discriminate.
  - reflexivity.
  - exists e, p', s'. split; [exact H|exact Hok].
Defined.

(** On building, a structure that is missing or of another id is refused
    with [MNG_PARSE_ERROR_MISMATCH_TLV] before anything is written; an id without
    dataField succeeds and writes nothing; the ids outside the table are
    [MNG_PARSE_ERROR_UNSUPPORT]; and a well formed structure that does not fit is
    [MNG_PARSE_ERROR_TOO_SMALL]. *)
Theorem dispatch_build_errors id p s :
  ok s -> m_build s = true ->
  (isEmpty id = true -> call_tlv_data id p s = Some (MNG_PARSE_ERROR_OK, p, start s)) /\
  (in_table id = false ->
     call_tlv_data id p s = Some (MNG_PARSE_ERROR_UNSUPPORT, p, start s)) /\
  (in_table id = true -> isEmpty id = false -> verifyTlv id p = false ->
     call_tlv_data id p s = Some (MNG_PARSE_ERROR_MISMATCH_TLV, p, start s)) /\
  (forall t, p = Obj t -> verifyTlv id p = true -> wf_tlv t -> m_left s < len_tlv t ->
     exists s', call_tlv_data id p s = Some (MNG_PARSE_ERROR_TOO_SMALL, p, s')).
Proof.
  intros Hs Hb. split; [|split; [|split]].
  - unfold isEmpty. intros [Ht Hz%Z.eqb_eq]%andb_prop.
    unfold call_tlv_data. by rewrite (proj2 (case_NA_size id) (conj Ht Hz)).
  - intros Ht. unfold call_tlv_data. by destruct id.
  - intros Ht Hz V. unfold call_tlv_data, verifyTlv in *. fold (start s).
    change (m_build (start s)) with (m_build s). rewrite Hb.
    destruct (tlv_case_of id) as [|D inst|] eqn:E.
    + apply case_NA_size in E as [_ Hn]. unfold isEmpty in Hz. by rewrite Ht, Hn in Hz.
    + by destruct p as [| |t]; [..|destruct (tlv_cast t)].
    + by apply case_not_none in E.
  - intros t -> V W Hl. destruct (call_tlv_codec id t V W) as (bs & L & Em & _).
    destruct (Em s Hs Hb) as [_ Miss]. apply Miss. lia.
Qed.

Lemma dispatch_build_errors_witness :
  call_tlv_data PRIORITY1 (Obj (T_PRIORITY2 (mk_PRIORITY2 1))) (cursor true 4) =
    Some (MNG_PARSE_ERROR_MISMATCH_TLV, Obj (T_PRIORITY2 (mk_PRIORITY2 1)), cursor true 4).
Proof.
  apply (dispatch_build_errors PRIORITY1 (Obj (T_PRIORITY2 (mk_PRIORITY2 1))) (cursor true 4));
    [repeat split; vm_compute; discriminate|reflexivity..].
Defined.

(** The size in the table of a fixed size TLV is the number of octets its
    function emits, rounded up to even; the size that the [_s] function computes
    for a TLV of variable size is the number of octets its function emits, except
    for [CLOCK_DESCRIPTION], where it is one octet short. *)
Theorem dispatch_planned_size id t :
  verifyTlv id (Obj t) = true ->
  if mi_size (mng_all_vals id) =? -2
  then dataFieldSize id (Obj t) =
    (if decide (id = CLOCK_DESCRIPTION) then len_tlv t - 1 else len_tlv t)
  else mi_size (mng_all_vals id) = len_tlv t + len_tlv t mod 2.
Proof. apply planned_size. Qed.

Lemma dispatch_planned_size_witness :
  dataFieldSize CLOCK_DESCRIPTION (Obj (T_CLOCK_DESCRIPTION init_CLOCK_DESCRIPTION)) =
  len_tlv (T_CLOCK_DESCRIPTION init_CLOCK_DESCRIPTION) - 1.
Proof.
  exact (dispatch_planned_size CLOCK_DESCRIPTION (T_CLOCK_DESCRIPTION init_CLOCK_DESCRIPTION)
    eq_refl).
Defined.

(** * The event mask of SUBSCRIBE_EVENTS_NP

    [setEvent], [clearEvent], [clearAll] and [getEvent] of
    [SUBSCRIBE_EVENTS_NP_t] refine a set of the events 0 to 511: [getEvent] is
    membership, and an event out of the range is never a member and changes
    nothing. *)

(** The structure's array has [EVENT_BITMASK_CNT] octets. *)
Definition wf_mask (d : SUBSCRIBE_EVENTS_NP_t) : Prop := length (sen_bitmask d) = 64%nat.

Definition valid_event (e : Z) : bool := (0 <=? e) && (e <? 512).

(** The abstract state: the set of the subscribed events. *)
Definition events (d : SUBSCRIBE_EVENTS_NP_t) : gset Z :=
  list_to_set (List.filter (fun e => getEvent d e) (seqZ 0 512)).

(** ** Bits of the mask *)

Lemma div_event_in e :
  valid_event e = true -> div_event e = Some (e / 8, Z.shiftl 1 (e mod 8)).
Proof.
  unfold valid_event, div_event, div_event_wo, EVENT_BITMASK_CNT. intros H.
  destruct (Z.ltb_spec e 0); [lia|]. destruct (Z.leb_spec (64 * 8) e); [lia|]. cbn [orb].
  by rewrite Z.quot_div_nonneg, Z.rem_mod_nonneg by lia.
Qed.

Lemma div_event_out e : valid_event e = false -> div_event e = None.
Proof.
  unfold valid_event, div_event, EVENT_BITMASK_CNT. intros H.
  destruct (Z.ltb_spec e 0); [done|]. destruct (Z.leb_spec (64 * 8) e); [done|lia].
Qed.

Lemma land_bit m k : 0 <= m -> 0 <= k -> (0 <? Z.land m (Z.shiftl 1 k)) = Z.testbit m k.
Proof.
  intros Hm Hk. rewrite Z.shiftl_1_l. pose proof (Z.land_nonneg m (2 ^ k)).
  destruct (Z.testbit m k) eqn:E.
  - assert (Z.land m (2 ^ k) <> 0).
    { intros H0. apply (f_equal (fun z => Z.testbit z k)) in H0.
      by rewrite Z.land_spec, E, Z.pow2_bits_true, Z.bits_0 in H0 by lia. }
    lia.
  - assert (Z.land m (2 ^ k) = 0) as ->; [|done]. apply Z.bits_inj'. intros j Hj.
    rewrite Z.land_spec, Z.bits_0. destruct (decide (j = k)) as [->|].
    + by rewrite E.
    + by rewrite Z.pow2_bits_false, andb_false_r by lia.
Qed.

Lemma mask_at_range l q : 0 <= mask_at l q < 256.
Proof. unfold mask_at. destruct (l !! _); [apply b2z_range|lia]. Qed.

Lemma getEvent_testbit d e :
  valid_event e = true ->
  getEvent d e = Z.testbit (mask_at (sen_bitmask d) (e / 8)) (e mod 8).
Proof.
  intros H. unfold getEvent. rewrite div_event_in by done.
  apply land_bit; [apply mask_at_range|apply Z.mod_pos_bound; lia].
Qed.

(** Octets stay octets under the two updates. *)
Lemma lor_byte m k : 0 <= m < 256 -> 0 <= k < 8 -> 0 <= Z.lor m (Z.shiftl 1 k) < 256.
Proof.
  intros Hm Hk. rewrite Z.shiftl_1_l.
  assert (0 <= Z.lor m (2 ^ k)) by (apply Z.lor_nonneg; split; [lia|apply Z.pow_nonneg; lia]).
  split; [done|]. destruct (decide (Z.lor m (2 ^ k) = 0)) as [->|]; [lia|].
  change 256 with (2 ^ 8). apply Z.log2_lt_pow2; [lia|].
  rewrite Z.log2_lor, Z.log2_pow2 by (lia || apply Z.pow_nonneg; lia).
  assert (Z.log2 m < 8); [|lia]. destruct (decide (m = 0)) as [->|]; [done|].
  apply Z.log2_lt_pow2; lia.
Qed.

(** Reading the mask after an update of one octet. *)
Lemma mask_at_insert l q q' v :
  length l = 64%nat -> 0 <= q < 64 -> 0 <= q' < 64 -> 0 <= v < 256 ->
  mask_at (<[Z.to_nat q := z2b v]> l) q' = if decide (q = q') then v else mask_at l q'.
Proof.
  intros Hl Hq Hq' Hv. unfold mask_at. destruct (decide (q = q')) as [->|].
  - rewrite list_lookup_insert_eq by lia. rewrite b2z_z2b. apply Z.mod_small; lia.
  - by rewrite list_lookup_insert_ne by lia.
Qed.

(** Two events are the same bit of the same octet or different ones. *)
Lemma event_split e e' :
  e = e' <-> e / 8 = e' / 8 /\ e mod 8 = e' mod 8.
Proof.
  split; [by intros ->|]. intros [H1 H2].
  rewrite (Z.div_mod e 8), (Z.div_mod e' 8) by lia. lia.
Qed.

Lemma wf_setEvent d e : wf_mask d -> wf_mask (setEvent d e).
Proof.
  unfold wf_mask, setEvent. intros H. destruct (div_event e) as [[q r]|]; [|done].
  cbn. by rewrite length_insert.
Qed.
Lemma wf_clearEvent d e : wf_mask d -> wf_mask (clearEvent d e).
Proof.
  unfold wf_mask, clearEvent. intros H. destruct (div_event e) as [[q r]|]; [|done].
  cbn. by rewrite length_insert.
Qed.

Lemma get_set d e e' :
  wf_mask d -> valid_event e = true ->
  getEvent (setEvent d e) e' = bool_decide (e = e') || getEvent d e'.
Proof.
  intros Hw He. destruct (valid_event e') eqn:He'; cycle 1.
  { unfold getEvent. rewrite (div_event_out e') by done. rewrite orb_false_r.
    rewrite bool_decide_eq_false_2; [done|congruence]. }
  rewrite !getEvent_testbit by done. unfold setEvent. rewrite div_event_in by done.
  cbn [sen_bitmask]. unfold valid_event in *.
  pose proof (Z.mod_pos_bound e 8). pose proof (Z.mod_pos_bound e' 8).
  rewrite mask_at_insert; [|done|split; [apply Z.div_pos|apply Z.div_lt_upper_bound]; lia..
    |apply lor_byte; [apply mask_at_range|lia]].
  pose proof (event_split e e') as S. destruct (decide (e / 8 = e' / 8)) as [E|N].
  - rewrite Z.lor_spec, Z.shiftl_1_l, E. rewrite orb_comm. f_equal.
    rewrite Z.pow2_bits_eqb by lia. case_bool_decide as D; [lia|].
    apply Z.eqb_neq. intros ?. apply D, S. lia.
  - rewrite bool_decide_eq_false_2; [done|]. intros ->. done.
Qed.

Lemma get_clear d e e' :
  wf_mask d -> valid_event e = true ->
  getEvent (clearEvent d e) e' = getEvent d e' && negb (bool_decide (e = e')).
Proof.
  intros Hw He. destruct (valid_event e') eqn:He'; cycle 1.
  { unfold getEvent. by rewrite (div_event_out e'). }
  rewrite !getEvent_testbit by done. unfold clearEvent. rewrite div_event_in by done.
  cbn [sen_bitmask]. unfold valid_event in *.
  pose proof (Z.mod_pos_bound e 8). pose proof (Z.mod_pos_bound e' 8).
  rewrite mask_at_insert; [|done|split; [apply Z.div_pos|apply Z.div_lt_upper_bound]; lia..
    |apply land_byte, mask_at_range].
  pose proof (event_split e e') as S. destruct (decide (e / 8 = e' / 8)) as [E|N].
  - rewrite Z.land_spec, Z.lnot_spec, Z.shiftl_1_l, E by lia. f_equal. f_equal.
    rewrite Z.pow2_bits_eqb by lia. case_bool_decide as D; [lia|].
    apply Z.eqb_neq. intros ?. apply D, S. lia.
  - rewrite bool_decide_eq_false_2, andb_true_r; [done|]. intros ->. done.
Qed.

Lemma get_clearAll d e : getEvent (clearAll d) e = false.
Proof.
  destruct (valid_event e) eqn:He.
  - rewrite getEvent_testbit by done. cbn [clearAll sen_bitmask].
    assert (mask_at (repeat x00 64) (e / 8) = 0) as ->; [|apply Z.bits_0].
    unfold mask_at. destruct (repeat x00 64 !! Z.to_nat (e / 8)) as [b|] eqn:E; [|done].
    apply list_elem_of_lookup_2 in E. apply list_elem_of_In, repeat_spec in E. by subst.
  - unfold getEvent. by rewrite div_event_out.
Qed.

Lemma elem_of_events d e : e ∈ events d <-> getEvent d e = true.
Proof.
  unfold events. rewrite elem_of_list_to_set, list_elem_of_In, filter_In, <- list_elem_of_In.
  rewrite elem_of_seqZ. split; [by intros [_ ?]|]. intros H. split; [|done].
  destruct (valid_event e) eqn:He; [unfold valid_event in He; lia|].
  unfold getEvent in H. by rewrite div_event_out in H.
Qed.

(** The operations on the event mask refine the operations on a set of
    events: [getEvent] is membership; [setEvent] adds and [clearEvent] removes
    the one event; [clearAll] empties the set; events outside 0..511 are never
    members and change nothing; the mask keeps its 64 octets. *)
Theorem events_refine_set d e :
  wf_mask d ->
  (forall e', getEvent d e' = bool_decide (e' ∈ events d)) /\
  (valid_event e = true -> events (setEvent d e) = {[ e ]} ∪ events d) /\
  (valid_event e = true -> events (clearEvent d e) = events d ∖ {[ e ]}) /\
  (valid_event e = false -> setEvent d e = d /\ clearEvent d e = d /\ e ∉ events d) /\
  events (clearAll d) = ∅ /\
  wf_mask (setEvent d e) /\ wf_mask (clearEvent d e) /\ wf_mask (clearAll d).
Proof.
  intros Hw. split; [|split; [|split; [|split; [|split]]]].
  - intros e'. destruct (getEvent d e') eqn:E; symmetry.
    + apply bool_decide_eq_true_2. by apply elem_of_events.
    + apply bool_decide_eq_false_2. rewrite elem_of_events. congruence.
  - intros He. apply set_eq. intros x.
    rewrite elem_of_union, elem_of_singleton, !elem_of_events, get_set by done.
    rewrite orb_true_iff, bool_decide_eq_true. intuition congruence.
  - intros He. apply set_eq. intros x.
    rewrite elem_of_difference, elem_of_singleton, !elem_of_events, get_clear by done.
    rewrite andb_true_iff, negb_true_iff, bool_decide_eq_false. intuition congruence.
  - intros He. rewrite elem_of_events. unfold setEvent, clearEvent, getEvent.
    rewrite div_event_out by done. naive_solver.
  - apply set_eq. intros x. rewrite elem_of_events, get_clearAll. set_solver.
  - split; [by apply wf_setEvent|]. split; [by apply wf_clearEvent|done].
Qed.

Lemma events_refine_set_witness :
  events (setEvent init_SUBSCRIBE_EVENTS_NP 11) = {[ 11 ]} ∪ events init_SUBSCRIBE_EVENTS_NP.
Proof. apply (events_refine_set init_SUBSCRIBE_EVENTS_NP 11); reflexivity. Defined.
