(* ===== verification/SigTlvs.v ===== *)
(** * SigTlvs.v: the signalling TLVs

    The structures of [src/src/sigTlvs.m4] (the source of the generated
    [sigTlvs.h]) and the functions of [src/src/sigTlvs.cpp] on them: the [_f]
    function of each TLV, the copy of a [MANAGEMENT_t] and the access to the
    management TLV inside one.  The judgements of Codec.v are proved for each
    function. *)

From S2P Require Import Prelude Types Ids MsgProc Codec Structs MngTlvs MngTlvsSpec Dispatch.

(** ** Flag masks *)

Definition L1_SYNC_flagsMask1 : Z := 0xf.
Definition L1_SYNC_flagsMask2 : Z := 0x7.
Definition L1_SYNC_flagsMask3 : Z := 0x7.
Definition L1_SYNC_optParamsEnabled : Z := 0x8.
Definition PORT_COMMUNICATION_AVAILABILITY_flagsMask1 : Z := 0xf.
Definition PORT_COMMUNICATION_AVAILABILITY_flagsMask2 : Z := 0xf.
Definition SLAVE_RX_SYNC_COMPUTED_DATA_flagsMask : Z := 0x7.

(** ** Structures *)

Record MANAGEMENT_t := mk_MANAGEMENT {
  mng_managementId : mng_vals_e;
  mng_tlvData : tlv_ptr
}.
Record MANAGEMENT_ERROR_STATUS_t := mk_MANAGEMENT_ERROR_STATUS {
  mes_managementId : mng_vals_e;
  mes_managementErrorId : Z;
  mes_displayData : PTPText_t
}.
Record ORGANIZATION_EXTENSION_t := mk_ORGANIZATION_EXTENSION {
  oe_organizationId : list byte;
  oe_organizationSubType : list byte;
  oe_dataField : list byte
}.
Record PATH_TRACE_t := mk_PATH_TRACE { pt_pathSequence : list ClockIdentity_t }.
Record ALTERNATE_TIME_OFFSET_INDICATOR_t := mk_ALTERNATE_TIME_OFFSET_INDICATOR {
  atoi_keyField : Z;
  atoi_currentOffset : Z;
  atoi_jumpSeconds : Z;
  atoi_timeOfNextJump : Z;
  atoi_displayName : PTPText_t
}.
Record ENHANCED_ACCURACY_METRICS_t := mk_ENHANCED_ACCURACY_METRICS {
  eam_bcHopCount : Z;
  eam_tcHopCount : Z;
  eam_maxGmInaccuracy : TimeInterval_t;
  eam_varGmInaccuracy : Z;
  eam_maxTransientInaccuracy : TimeInterval_t;
  eam_varTransientInaccuracy : Z;
  eam_maxDynamicInaccuracy : TimeInterval_t;
  eam_varDynamicInaccuracy : Z;
  eam_maxStaticInstanceInaccuracy : TimeInterval_t;
  eam_varStaticInstanceInaccuracy : Z;
  eam_maxStaticMediumInaccuracy : TimeInterval_t;
  eam_varStaticMediumInaccuracy : Z
}.
Record L1_SYNC_t := mk_L1_SYNC {
  l1_flags1 : Z;
  l1_flags2 : Z;
  l1_flags3 : Z;
  l1_phaseOffsetTx : TimeInterval_t;
  l1_phaseOffsetTxTimestamp : Timestamp_t;
  l1_freqOffsetTx : TimeInterval_t;
  l1_freqOffsetTxTimestamp : Timestamp_t
}.
Record PORT_COMMUNICATION_AVAILABILITY_t := mk_PORT_COMMUNICATION_AVAILABILITY {
  pca_syncMessageAvailability : Z;
  pca_delayRespMessageAvailability : Z
}.
Record PROTOCOL_ADDRESS_t := mk_PROTOCOL_ADDRESS { pa_portProtocolAddress : PortAddress_t }.
Record SLAVE_RX_SYNC_TIMING_DATA_rec_t := mk_SLAVE_RX_SYNC_TIMING_DATA_rec {
  srt_sequenceId : Z;
  srt_syncOriginTimestamp : Timestamp_t;
  srt_totalCorrectionField : TimeInterval_t;
  srt_scaledCumulativeRateOffset : Z;
  srt_syncEventIngressTimestamp : Timestamp_t
}.
Record SLAVE_RX_SYNC_TIMING_DATA_t := mk_SLAVE_RX_SYNC_TIMING_DATA {
  srtd_syncSourcePortIdentity : PortIdentity_t;
  srtd_list : list SLAVE_RX_SYNC_TIMING_DATA_rec_t
}.
Record SLAVE_RX_SYNC_COMPUTED_DATA_rec_t := mk_SLAVE_RX_SYNC_COMPUTED_DATA_rec {
  src_sequenceId : Z;
  src_offsetFromMaster : TimeInterval_t;
  src_meanPathDelay : TimeInterval_t;
  src_scaledNeighborRateRatio : Z
}.
Record SLAVE_RX_SYNC_COMPUTED_DATA_t := mk_SLAVE_RX_SYNC_COMPUTED_DATA {
  srcd_sourcePortIdentity : PortIdentity_t;
  srcd_computedFlags : Z;
  srcd_list : list SLAVE_RX_SYNC_COMPUTED_DATA_rec_t
}.
Record SLAVE_TX_EVENT_TIMESTAMPS_rec_t := mk_SLAVE_TX_EVENT_TIMESTAMPS_rec {
  ste_sequenceId : Z;
  ste_eventEgressTimestamp : Timestamp_t
}.
Record SLAVE_TX_EVENT_TIMESTAMPS_t := mk_SLAVE_TX_EVENT_TIMESTAMPS {
  stet_sourcePortIdentity : PortIdentity_t;
  stet_eventMessageType : Z;
  stet_list : list SLAVE_TX_EVENT_TIMESTAMPS_rec_t
}.
Record CUMULATIVE_RATE_RATIO_t := mk_CUMULATIVE_RATE_RATIO {
  crr_scaledCumulativeRateRatio : Z
}.
Record SLAVE_DELAY_TIMING_DATA_NP_rec_t := mk_SLAVE_DELAY_TIMING_DATA_NP_rec {
  sdt_sequenceId : Z;
  sdt_delayOriginTimestamp : Timestamp_t;
  sdt_totalCorrectionField : TimeInterval_t;
  sdt_delayResponseTimestamp : Timestamp_t
}.
Record SLAVE_DELAY_TIMING_DATA_NP_t := mk_SLAVE_DELAY_TIMING_DATA_NP {
  sdtd_sourcePortIdentity : PortIdentity_t;
  sdtd_list : list SLAVE_DELAY_TIMING_DATA_NP_rec_t
}.

(** The [size()] of the records of a list, and of the SMPTE structure. *)
Definition SLAVE_RX_SYNC_TIMING_DATA_rec_size : Z := 2 + 2 * Timestamp_size + TimeInterval_size + 4.
Definition SLAVE_RX_SYNC_COMPUTED_DATA_rec_size : Z := 2 + 2 * TimeInterval_size + 4.
Definition SLAVE_TX_EVENT_TIMESTAMPS_rec_size : Z := 2 + Timestamp_size.
Definition SLAVE_DELAY_TIMING_DATA_NP_rec_size : Z := 2 + TimeInterval_size + 2 * Timestamp_size.
Definition SMPTE_ORGANIZATION_EXTENSION_size : Z := 3 * 2 + 4 * 2 + 1 * 3 + 4 * 3 + 6 * 3 + 1.

(** ** The functions *)

Definition ORGANIZATION_EXTENSION_f (d : ORGANIZATION_EXTENSION_t) : M ORGANIZATION_EXTENSION_t :=
  organizationId <- proc_octets (oe_organizationId d) 3 ;;
  organizationSubType <- proc_octets (oe_organizationSubType d) 3 ;;
  dataField <- (fun s => proc_binary (oe_dataField d) (uwrap 16 (m_left s)) s) ;;
  ret (mk_ORGANIZATION_EXTENSION organizationId organizationSubType dataField).
Definition PATH_TRACE_f (d : PATH_TRACE_t) : M PATH_TRACE_t :=
  vec <- vector_o proc_ClockIdentity zero_ClockIdentity ClockIdentity_size (pt_pathSequence d) ;;
  ret (mk_PATH_TRACE vec).
Definition ALTERNATE_TIME_OFFSET_INDICATOR_f (d : ALTERNATE_TIME_OFFSET_INDICATOR_t)
    : M ALTERNATE_TIME_OFFSET_INDICATOR_t :=
  keyField <- proc_u8 (atoi_keyField d) ;;
  currentOffset <- proc_i32 (atoi_currentOffset d) ;;
  jumpSeconds <- proc_i32 (atoi_jumpSeconds d) ;;
  timeOfNextJump <- proc48u (atoi_timeOfNextJump d) ;;
  displayName <- proc_PTPText (atoi_displayName d) ;;
  ret (mk_ALTERNATE_TIME_OFFSET_INDICATOR keyField currentOffset jumpSeconds
         timeOfNextJump displayName).
Definition ENHANCED_ACCURACY_METRICS_f (d : ENHANCED_ACCURACY_METRICS_t)
    : M ENHANCED_ACCURACY_METRICS_t :=
  bcHopCount <- proc_u8 (eam_bcHopCount d) ;;
  tcHopCount <- proc_u8 (eam_tcHopCount d) ;;
  procRes ;;;
  procRes ;;;
  maxGmInaccuracy <- proc_TimeInterval (eam_maxGmInaccuracy d) ;;
  varGmInaccuracy <- proc_Float64 (eam_varGmInaccuracy d) ;;
  maxTransientInaccuracy <- proc_TimeInterval (eam_maxTransientInaccuracy d) ;;
  varTransientInaccuracy <- proc_Float64 (eam_varTransientInaccuracy d) ;;
  maxDynamicInaccuracy <- proc_TimeInterval (eam_maxDynamicInaccuracy d) ;;
  varDynamicInaccuracy <- proc_Float64 (eam_varDynamicInaccuracy d) ;;
  maxStaticInstanceInaccuracy <- proc_TimeInterval (eam_maxStaticInstanceInaccuracy d) ;;
  varStaticInstanceInaccuracy <- proc_Float64 (eam_varStaticInstanceInaccuracy d) ;;
  maxStaticMediumInaccuracy <- proc_TimeInterval (eam_maxStaticMediumInaccuracy d) ;;
  varStaticMediumInaccuracy <- proc_Float64 (eam_varStaticMediumInaccuracy d) ;;
  ret (mk_ENHANCED_ACCURACY_METRICS bcHopCount tcHopCount maxGmInaccuracy varGmInaccuracy
         maxTransientInaccuracy varTransientInaccuracy maxDynamicInaccuracy
         varDynamicInaccuracy maxStaticInstanceInaccuracy varStaticInstanceInaccuracy
         maxStaticMediumInaccuracy varStaticMediumInaccuracy).
(** The extended parameters are present when the flag is set and are zeroed
    otherwise. *)
Definition L1_SYNC_f (d : L1_SYNC_t) : M L1_SYNC_t :=
  flags1 <- procFlags (l1_flags1 d) L1_SYNC_flagsMask1 ;;
  flags2 <- procFlags (l1_flags2 d) L1_SYNC_flagsMask2 ;;
  if 0 <? Z.land flags1 L1_SYNC_optParamsEnabled then
    flags3 <- procFlags (l1_flags3 d) L1_SYNC_flagsMask3 ;;
    phaseOffsetTx <- proc_TimeInterval (l1_phaseOffsetTx d) ;;
    phaseOffsetTxTimestamp <- proc_Timestamp (l1_phaseOffsetTxTimestamp d) ;;
    freqOffsetTx <- proc_TimeInterval (l1_freqOffsetTx d) ;;
    freqOffsetTxTimestamp <- proc_Timestamp (l1_freqOffsetTxTimestamp d) ;;
    ret (mk_L1_SYNC flags1 flags2 flags3 phaseOffsetTx phaseOffsetTxTimestamp
           freqOffsetTx freqOffsetTxTimestamp)
  else
    ret (mk_L1_SYNC flags1 flags2 0 zero_TimeInterval zero_Timestamp zero_TimeInterval
           zero_Timestamp).
Definition PORT_COMMUNICATION_AVAILABILITY_f (d : PORT_COMMUNICATION_AVAILABILITY_t)
    : M PORT_COMMUNICATION_AVAILABILITY_t :=
  sync <- procFlags (pca_syncMessageAvailability d) PORT_COMMUNICATION_AVAILABILITY_flagsMask1 ;;
  delay <- procFlags (pca_delayRespMessageAvailability d)
             PORT_COMMUNICATION_AVAILABILITY_flagsMask2 ;;
  ret (mk_PORT_COMMUNICATION_AVAILABILITY sync delay).
Definition PROTOCOL_ADDRESS_f (d : PROTOCOL_ADDRESS_t) : M PROTOCOL_ADDRESS_t :=
  addr <- proc_PortAddress (pa_portProtocolAddress d) ;;
  ret (mk_PROTOCOL_ADDRESS addr).

Definition proc_SLAVE_RX_SYNC_TIMING_DATA_rec (d : SLAVE_RX_SYNC_TIMING_DATA_rec_t)
    : M SLAVE_RX_SYNC_TIMING_DATA_rec_t :=
  sequenceId <- proc_u16 (srt_sequenceId d) ;;
  syncOriginTimestamp <- proc_Timestamp (srt_syncOriginTimestamp d) ;;
  totalCorrectionField <- proc_TimeInterval (srt_totalCorrectionField d) ;;
  scaledCumulativeRateOffset <- proc_i32 (srt_scaledCumulativeRateOffset d) ;;
  syncEventIngressTimestamp <- proc_Timestamp (srt_syncEventIngressTimestamp d) ;;
  ret (mk_SLAVE_RX_SYNC_TIMING_DATA_rec sequenceId syncOriginTimestamp totalCorrectionField
         scaledCumulativeRateOffset syncEventIngressTimestamp).
Definition proc_SLAVE_RX_SYNC_COMPUTED_DATA_rec (d : SLAVE_RX_SYNC_COMPUTED_DATA_rec_t)
    : M SLAVE_RX_SYNC_COMPUTED_DATA_rec_t :=
  sequenceId <- proc_u16 (src_sequenceId d) ;;
  offsetFromMaster <- proc_TimeInterval (src_offsetFromMaster d) ;;
  meanPathDelay <- proc_TimeInterval (src_meanPathDelay d) ;;
  scaledNeighborRateRatio <- proc_i32 (src_scaledNeighborRateRatio d) ;;
  ret (mk_SLAVE_RX_SYNC_COMPUTED_DATA_rec sequenceId offsetFromMaster meanPathDelay
         scaledNeighborRateRatio).
Definition proc_SLAVE_TX_EVENT_TIMESTAMPS_rec (d : SLAVE_TX_EVENT_TIMESTAMPS_rec_t)
    : M SLAVE_TX_EVENT_TIMESTAMPS_rec_t :=
  sequenceId <- proc_u16 (ste_sequenceId d) ;;
  eventEgressTimestamp <- proc_Timestamp (ste_eventEgressTimestamp d) ;;
  ret (mk_SLAVE_TX_EVENT_TIMESTAMPS_rec sequenceId eventEgressTimestamp).
Definition proc_SLAVE_DELAY_TIMING_DATA_NP_rec (d : SLAVE_DELAY_TIMING_DATA_NP_rec_t)
    : M SLAVE_DELAY_TIMING_DATA_NP_rec_t :=
  sequenceId <- proc_u16 (sdt_sequenceId d) ;;
  delayOriginTimestamp <- proc_Timestamp (sdt_delayOriginTimestamp d) ;;
  totalCorrectionField <- proc_TimeInterval (sdt_totalCorrectionField d) ;;
  delayResponseTimestamp <- proc_Timestamp (sdt_delayResponseTimestamp d) ;;
  ret (mk_SLAVE_DELAY_TIMING_DATA_NP_rec sequenceId delayOriginTimestamp
         totalCorrectionField delayResponseTimestamp).

(** [T rec = {}] of the lists. *)
Definition zero_SRT := mk_SLAVE_RX_SYNC_TIMING_DATA_rec 0 zero_Timestamp zero_TimeInterval 0
  zero_Timestamp.
Definition zero_SRC := mk_SLAVE_RX_SYNC_COMPUTED_DATA_rec 0 zero_TimeInterval zero_TimeInterval 0.
Definition zero_STE := mk_SLAVE_TX_EVENT_TIMESTAMPS_rec 0 zero_Timestamp.
Definition zero_SDT := mk_SLAVE_DELAY_TIMING_DATA_NP_rec 0 zero_Timestamp zero_TimeInterval
  zero_Timestamp.

Definition SLAVE_RX_SYNC_TIMING_DATA_f (d : SLAVE_RX_SYNC_TIMING_DATA_t)
    : M SLAVE_RX_SYNC_TIMING_DATA_t :=
  port <- proc_PortIdentity (srtd_syncSourcePortIdentity d) ;;
  vec <- vector_o proc_SLAVE_RX_SYNC_TIMING_DATA_rec zero_SRT
           SLAVE_RX_SYNC_TIMING_DATA_rec_size (srtd_list d) ;;
  ret (mk_SLAVE_RX_SYNC_TIMING_DATA port vec).
Definition SLAVE_RX_SYNC_COMPUTED_DATA_f (d : SLAVE_RX_SYNC_COMPUTED_DATA_t)
    : M SLAVE_RX_SYNC_COMPUTED_DATA_t :=
  port <- proc_PortIdentity (srcd_sourcePortIdentity d) ;;
  flags <- procFlags (srcd_computedFlags d) SLAVE_RX_SYNC_COMPUTED_DATA_flagsMask ;;
  procRes ;;;
  vec <- vector_o proc_SLAVE_RX_SYNC_COMPUTED_DATA_rec zero_SRC
           SLAVE_RX_SYNC_COMPUTED_DATA_rec_size (srcd_list d) ;;
  ret (mk_SLAVE_RX_SYNC_COMPUTED_DATA port flags vec).
Definition SLAVE_TX_EVENT_TIMESTAMPS_f (d : SLAVE_TX_EVENT_TIMESTAMPS_t)
    : M SLAVE_TX_EVENT_TIMESTAMPS_t :=
  port <- proc_PortIdentity (stet_sourcePortIdentity d) ;;
  eventMessageType <- procE8 (stet_eventMessageType d) ;;
  procRes ;;;
  vec <- vector_o proc_SLAVE_TX_EVENT_TIMESTAMPS_rec zero_STE
           SLAVE_TX_EVENT_TIMESTAMPS_rec_size (stet_list d) ;;
  ret (mk_SLAVE_TX_EVENT_TIMESTAMPS port eventMessageType vec).
Definition CUMULATIVE_RATE_RATIO_f (d : CUMULATIVE_RATE_RATIO_t) : M CUMULATIVE_RATE_RATIO_t :=
  ratio <- proc_i32 (crr_scaledCumulativeRateRatio d) ;;
  ret (mk_CUMULATIVE_RATE_RATIO ratio).
Definition SLAVE_DELAY_TIMING_DATA_NP_f (d : SLAVE_DELAY_TIMING_DATA_NP_t)
    : M SLAVE_DELAY_TIMING_DATA_NP_t :=
  port <- proc_PortIdentity (sdtd_sourcePortIdentity d) ;;
  vec <- vector_o proc_SLAVE_DELAY_TIMING_DATA_NP_rec zero_SDT
           SLAVE_DELAY_TIMING_DATA_NP_rec_size (sdtd_list d) ;;
  ret (mk_SLAVE_DELAY_TIMING_DATA_NP port vec).

(** ** Any signalling TLV *)

(** [BaseSigTlv] and the structures derived from it. *)
Inductive BaseSigTlv :=
| S_ORGANIZATION_EXTENSION (d : ORGANIZATION_EXTENSION_t)
| S_PATH_TRACE (d : PATH_TRACE_t)
| S_ALTERNATE_TIME_OFFSET_INDICATOR (d : ALTERNATE_TIME_OFFSET_INDICATOR_t)
| S_ENHANCED_ACCURACY_METRICS (d : ENHANCED_ACCURACY_METRICS_t)
| S_L1_SYNC (d : L1_SYNC_t)
| S_PORT_COMMUNICATION_AVAILABILITY (d : PORT_COMMUNICATION_AVAILABILITY_t)
| S_PROTOCOL_ADDRESS (d : PROTOCOL_ADDRESS_t)
| S_SLAVE_RX_SYNC_TIMING_DATA (d : SLAVE_RX_SYNC_TIMING_DATA_t)
| S_SLAVE_RX_SYNC_COMPUTED_DATA (d : SLAVE_RX_SYNC_COMPUTED_DATA_t)
| S_SLAVE_TX_EVENT_TIMESTAMPS (d : SLAVE_TX_EVENT_TIMESTAMPS_t)
| S_CUMULATIVE_RATE_RATIO (d : CUMULATIVE_RATE_RATIO_t)
| S_MANAGEMENT_ERROR_STATUS (d : MANAGEMENT_ERROR_STATUS_t)
| S_MANAGEMENT (d : MANAGEMENT_t)
| S_SLAVE_DELAY_TIMING_DATA_NP (d : SLAVE_DELAY_TIMING_DATA_NP_t).

(** What [new] leaves in the structures that are parsed. *)
Definition init_ORGANIZATION_EXTENSION := mk_ORGANIZATION_EXTENSION (repeat x00 3) (repeat x00 3) [].
Definition init_PATH_TRACE := mk_PATH_TRACE [].
Definition init_ALTERNATE_TIME_OFFSET_INDICATOR :=
  mk_ALTERNATE_TIME_OFFSET_INDICATOR 0 0 0 0 zero_PTPText.
Definition init_ENHANCED_ACCURACY_METRICS :=
  mk_ENHANCED_ACCURACY_METRICS 0 0 zero_TimeInterval 0 zero_TimeInterval 0 zero_TimeInterval 0
    zero_TimeInterval 0 zero_TimeInterval 0.
Definition init_L1_SYNC :=
  mk_L1_SYNC 0 0 0 zero_TimeInterval zero_Timestamp zero_TimeInterval zero_Timestamp.
Definition init_PORT_COMMUNICATION_AVAILABILITY := mk_PORT_COMMUNICATION_AVAILABILITY 0 0.
Definition init_PROTOCOL_ADDRESS := mk_PROTOCOL_ADDRESS zero_PortAddress.
Definition init_SLAVE_RX_SYNC_TIMING_DATA := mk_SLAVE_RX_SYNC_TIMING_DATA zero_PortIdentity [].
Definition init_SLAVE_RX_SYNC_COMPUTED_DATA :=
  mk_SLAVE_RX_SYNC_COMPUTED_DATA zero_PortIdentity 0 [].
Definition init_SLAVE_TX_EVENT_TIMESTAMPS := mk_SLAVE_TX_EVENT_TIMESTAMPS zero_PortIdentity 0 [].
Definition init_CUMULATIVE_RATE_RATIO := mk_CUMULATIVE_RATE_RATIO 0.
Definition init_SLAVE_DELAY_TIMING_DATA_NP := mk_SLAVE_DELAY_TIMING_DATA_NP zero_PortIdentity [].

(** [caseBuild(n)]: allocate, run the function, keep the structure. *)
Definition caseBuild {D} (up : D -> BaseSigTlv) (f : D -> M D) (init : D) : M BaseSigTlv :=
  d <- f init ;; ret (up d).

(** The [caseBuild] cases of [Message::parseSig]; [None] for the types with a
    case of their own and for the types that are ignored. *)
Definition sig_case (spec : implementSpecific_e) (tlvType : Z) : option (M BaseSigTlv) :=
  if (tlvType =? ORGANIZATION_EXTENSION_PROPAGATE) ||
     (tlvType =? ORGANIZATION_EXTENSION_DO_NOT_PROPAGATE) ||
     (tlvType =? ORGANIZATION_EXTENSION)
  then Some (caseBuild S_ORGANIZATION_EXTENSION ORGANIZATION_EXTENSION_f
               init_ORGANIZATION_EXTENSION)
  else if tlvType =? PATH_TRACE
  then Some (caseBuild S_PATH_TRACE PATH_TRACE_f init_PATH_TRACE)
  else if tlvType =? ALTERNATE_TIME_OFFSET_INDICATOR
  then Some (caseBuild S_ALTERNATE_TIME_OFFSET_INDICATOR ALTERNATE_TIME_OFFSET_INDICATOR_f
               init_ALTERNATE_TIME_OFFSET_INDICATOR)
  else if tlvType =? ENHANCED_ACCURACY_METRICS
  then Some (caseBuild S_ENHANCED_ACCURACY_METRICS ENHANCED_ACCURACY_METRICS_f
               init_ENHANCED_ACCURACY_METRICS)
  else if tlvType =? L1_SYNC
  then Some (caseBuild S_L1_SYNC L1_SYNC_f init_L1_SYNC)
  else if tlvType =? PORT_COMMUNICATION_AVAILABILITY
  then Some (caseBuild S_PORT_COMMUNICATION_AVAILABILITY PORT_COMMUNICATION_AVAILABILITY_f
               init_PORT_COMMUNICATION_AVAILABILITY)
  else if tlvType =? PROTOCOL_ADDRESS
  then Some (caseBuild S_PROTOCOL_ADDRESS PROTOCOL_ADDRESS_f init_PROTOCOL_ADDRESS)
  else if tlvType =? SLAVE_RX_SYNC_TIMING_DATA
  then Some (caseBuild S_SLAVE_RX_SYNC_TIMING_DATA SLAVE_RX_SYNC_TIMING_DATA_f
               init_SLAVE_RX_SYNC_TIMING_DATA)
  else if tlvType =? SLAVE_RX_SYNC_COMPUTED_DATA
  then Some (caseBuild S_SLAVE_RX_SYNC_COMPUTED_DATA SLAVE_RX_SYNC_COMPUTED_DATA_f
               init_SLAVE_RX_SYNC_COMPUTED_DATA)
  else if tlvType =? SLAVE_TX_EVENT_TIMESTAMPS
  then Some (caseBuild S_SLAVE_TX_EVENT_TIMESTAMPS SLAVE_TX_EVENT_TIMESTAMPS_f
               init_SLAVE_TX_EVENT_TIMESTAMPS)
  else if tlvType =? CUMULATIVE_RATE_RATIO
  then Some (caseBuild S_CUMULATIVE_RATE_RATIO CUMULATIVE_RATE_RATIO_f
               init_CUMULATIVE_RATE_RATIO)
  else if (tlvType =? SLAVE_DELAY_TIMING_DATA_NP) && bool_decide (spec = linuxptp)
  then Some (caseBuild S_SLAVE_DELAY_TIMING_DATA_NP SLAVE_DELAY_TIMING_DATA_NP_f
               init_SLAVE_DELAY_TIMING_DATA_NP)
  else None.

(** ** Copies *)

(** [copyMANAGEMENT]: a new structure of the id with the same contents; a
    structure that is missing or not of the id is dropped together with the id.
    [None] is the use of an indeterminate pointer. *)
Definition copyMANAGEMENT (o : MANAGEMENT_t) : option MANAGEMENT_t :=
  match mng_tlvData o with
  | Unset => None
  | Null => Some (mk_MANAGEMENT NULL_PTP_MANAGEMENT Null)
  | Obj t =>
      match tlv_case_of (mng_managementId o) with
      | CaseUF D inst =>
          match tlv_cast t with
          | Some d => Some (mk_MANAGEMENT (mng_managementId o) (Obj (tlv_up d)))
          | None => Some (mk_MANAGEMENT NULL_PTP_MANAGEMENT Null)
          end
      | _ => Some (mk_MANAGEMENT NULL_PTP_MANAGEMENT Null)
      end
  end.

(** The move constructor: the new structure and what is left in the old one. *)
Definition moveMANAGEMENT (o : MANAGEMENT_t) : MANAGEMENT_t * MANAGEMENT_t :=
  (o, mk_MANAGEMENT NULL_PTP_MANAGEMENT Null).

Definition get_BaseMngTlv (tlv : option BaseSigTlv) : tlv_ptr :=
  match tlv with Some (S_MANAGEMENT m) => mng_tlvData m | _ => Null end.
Definition get_MngTlvId (tlv : option BaseSigTlv) : mng_vals_e :=
  match tlv with Some (S_MANAGEMENT m) => mng_managementId m | _ => NULL_PTP_MANAGEMENT end.

(** ** Parsing stays inside the buffer *)

Lemma reads_ORGANIZATION_EXTENSION d d' :
  reads 0 (ORGANIZATION_EXTENSION_f d) (ORGANIZATION_EXTENSION_f d').
Proof.
  unfold ORGANIZATION_EXTENSION_f. eapply reads_weaken.
  - reads_step. reads_step. eapply reads_bind; [|intros ?; apply reads_ret].
    instantiate (1 := 0). intros s Hs Hb.
    apply (reads_binary (oe_dataField d) (oe_dataField d') (uwrap 16 (m_left s))); [|done..].
    apply uint_uwrap. lia.
  - lia.
Qed.
Lemma reads_PATH_TRACE : reads 0 (PATH_TRACE_f init_PATH_TRACE) (PATH_TRACE_f init_PATH_TRACE).
Proof.
  eapply reads_weaken; [eapply reads_bind|].
  - eapply reads_vector_o; [apply reads_ClockIdentity|lia].
  - intros ?. apply reads_ret.
  - lia.
Qed.
Lemma reads_ALTERNATE_TIME_OFFSET_INDICATOR d d' :
  fresh_PTPText (atoi_displayName d) -> fresh_PTPText (atoi_displayName d') ->
  reads 0 (ALTERNATE_TIME_OFFSET_INDICATOR_f d) (ALTERNATE_TIME_OFFSET_INDICATOR_f d').
Proof.
  intros. unfold ALTERNATE_TIME_OFFSET_INDICATOR_f. eapply reads_weaken; [reads_auto|lia].
Qed.
Lemma reads_ENHANCED_ACCURACY_METRICS d d' :
  reads 0 (ENHANCED_ACCURACY_METRICS_f d) (ENHANCED_ACCURACY_METRICS_f d').
Proof. unfold ENHANCED_ACCURACY_METRICS_f. eapply reads_weaken; [reads_auto|lia]. Qed.
Lemma reads_L1_SYNC d d' : reads 0 (L1_SYNC_f d) (L1_SYNC_f d').
Proof.
  unfold L1_SYNC_f. eapply reads_weaken; [reads_step; reads_step|].
  - instantiate (1 := 0). destruct (0 <? _); [|apply reads_ret].
    eapply reads_weaken; [reads_auto|lia].
  - lia.
Qed.
Lemma reads_PORT_COMMUNICATION_AVAILABILITY d d' :
  reads 0 (PORT_COMMUNICATION_AVAILABILITY_f d) (PORT_COMMUNICATION_AVAILABILITY_f d').
Proof. unfold PORT_COMMUNICATION_AVAILABILITY_f. eapply reads_weaken; [reads_auto|lia]. Qed.
Lemma reads_PROTOCOL_ADDRESS d d' : reads 0 (PROTOCOL_ADDRESS_f d) (PROTOCOL_ADDRESS_f d').
Proof. unfold PROTOCOL_ADDRESS_f. eapply reads_weaken; [reads_auto|lia]. Qed.
Lemma reads_CUMULATIVE_RATE_RATIO d d' :
  reads 0 (CUMULATIVE_RATE_RATIO_f d) (CUMULATIVE_RATE_RATIO_f d').
Proof. unfold CUMULATIVE_RATE_RATIO_f. eapply reads_weaken; [reads_auto|lia]. Qed.

Lemma reads_SRT d d' :
  reads 34 (proc_SLAVE_RX_SYNC_TIMING_DATA_rec d) (proc_SLAVE_RX_SYNC_TIMING_DATA_rec d').
Proof. unfold proc_SLAVE_RX_SYNC_TIMING_DATA_rec. eapply reads_weaken; [reads_auto|lia]. Qed.
Lemma reads_SRC d d' :
  reads 22 (proc_SLAVE_RX_SYNC_COMPUTED_DATA_rec d) (proc_SLAVE_RX_SYNC_COMPUTED_DATA_rec d').
Proof. unfold proc_SLAVE_RX_SYNC_COMPUTED_DATA_rec. eapply reads_weaken; [reads_auto|lia]. Qed.
Lemma reads_STE d d' :
  reads 12 (proc_SLAVE_TX_EVENT_TIMESTAMPS_rec d) (proc_SLAVE_TX_EVENT_TIMESTAMPS_rec d').
Proof. unfold proc_SLAVE_TX_EVENT_TIMESTAMPS_rec. eapply reads_weaken; [reads_auto|lia]. Qed.
Lemma reads_SDT d d' :
  reads 30 (proc_SLAVE_DELAY_TIMING_DATA_NP_rec d) (proc_SLAVE_DELAY_TIMING_DATA_NP_rec d').
Proof. unfold proc_SLAVE_DELAY_TIMING_DATA_NP_rec. eapply reads_weaken; [reads_auto|lia]. Qed.

(** The four TLVs with a list of records after fixed fields. *)
Ltac reads_list R :=
  eapply reads_weaken;
    [ repeat reads_step; eapply reads_bind;
        [eapply reads_vector_o; [apply R|lia]|intros ?; apply reads_ret]
    | lia ].

Lemma reads_SLAVE_RX_SYNC_TIMING_DATA :
  reads 0 (SLAVE_RX_SYNC_TIMING_DATA_f init_SLAVE_RX_SYNC_TIMING_DATA)
    (SLAVE_RX_SYNC_TIMING_DATA_f init_SLAVE_RX_SYNC_TIMING_DATA).
Proof. unfold SLAVE_RX_SYNC_TIMING_DATA_f. reads_list reads_SRT. Qed.
Lemma reads_SLAVE_RX_SYNC_COMPUTED_DATA :
  reads 0 (SLAVE_RX_SYNC_COMPUTED_DATA_f init_SLAVE_RX_SYNC_COMPUTED_DATA)
    (SLAVE_RX_SYNC_COMPUTED_DATA_f init_SLAVE_RX_SYNC_COMPUTED_DATA).
Proof. unfold SLAVE_RX_SYNC_COMPUTED_DATA_f. reads_list reads_SRC. Qed.
Lemma reads_SLAVE_TX_EVENT_TIMESTAMPS :
  reads 0 (SLAVE_TX_EVENT_TIMESTAMPS_f init_SLAVE_TX_EVENT_TIMESTAMPS)
    (SLAVE_TX_EVENT_TIMESTAMPS_f init_SLAVE_TX_EVENT_TIMESTAMPS).
Proof. unfold SLAVE_TX_EVENT_TIMESTAMPS_f. reads_list reads_STE. Qed.
Lemma reads_SLAVE_DELAY_TIMING_DATA_NP :
  reads 0 (SLAVE_DELAY_TIMING_DATA_NP_f init_SLAVE_DELAY_TIMING_DATA_NP)
    (SLAVE_DELAY_TIMING_DATA_NP_f init_SLAVE_DELAY_TIMING_DATA_NP).
Proof. unfold SLAVE_DELAY_TIMING_DATA_NP_f. reads_list reads_SDT. Qed.

#[export] Hint Resolve reads_ORGANIZATION_EXTENSION reads_PATH_TRACE
  reads_ALTERNATE_TIME_OFFSET_INDICATOR reads_ENHANCED_ACCURACY_METRICS reads_L1_SYNC
  reads_PORT_COMMUNICATION_AVAILABILITY reads_PROTOCOL_ADDRESS reads_CUMULATIVE_RATE_RATIO
  reads_SLAVE_RX_SYNC_TIMING_DATA reads_SLAVE_RX_SYNC_COMPUTED_DATA
  reads_SLAVE_TX_EVENT_TIMESTAMPS reads_SLAVE_DELAY_TIMING_DATA_NP : reads.

Lemma reads_caseBuild {D} (up : D -> BaseSigTlv) f init :
  reads 0 (f init) (f init) -> reads 0 (caseBuild up f init) (caseBuild up f init).
Proof.
  intros H. eapply reads_weaken; [eapply reads_bind; [exact H|intros ?; apply reads_ret]|lia].
Qed.

Lemma reads_sig_case spec tlvType m : sig_case spec tlvType = Some m -> reads 0 m m.
Proof.
  unfold sig_case. repeat (destruct (_ : bool); [intros [= <-]; apply reads_caseBuild;
    eauto using fresh_zero_PTPText with reads|]). done.
Qed.

Lemma reads_SMPTE d d' :
  reads 0 (SMPTE_ORGANIZATION_EXTENSION_f d) (SMPTE_ORGANIZATION_EXTENSION_f d').
Proof.
  unfold SMPTE_ORGANIZATION_EXTENSION_f. eapply reads_weaken; [reads_step|].
  - instantiate (1 := 0). destruct (negb _); [by apply reads_raise|].
    eapply reads_weaken; [reads_auto|lia].
  - lia.
Qed.

(** ** Round trips *)

(** The last field of a TLV whose octets end with it. *)
Definition codec_last {A} (f g : M A) (a : A) (n : Z) : Prop :=
  exists bs, emits f a bs /\
    (forall s, ok s -> m_build s = false -> at_cur s bs -> m_left s = len bs ->
      g s = Pass a (move (len bs) s)) /\
    len bs = n.

Lemma codec_end_last {A} (f g : M A) a n : codec_end f g a n -> codec_last f g a n.
Proof.
  intros (bs & E & C & L). exists bs. split; [done|]. split; [|done].
  intros s Hs Hb Ha Hl. apply C; done || lia.
Qed.
Lemma codec_to_last {A} (f g : M A) a n n' : codec f g a n -> n = n' -> codec_last f g a n'.
Proof. intros H <-. by apply codec_end_last, codec_weaken. Qed.
Lemma codec_last_len {A} (f g : M A) a n n' : codec_last f g a n -> n = n' -> codec_last f g a n'.
Proof. by intros H <-. Qed.

Lemma codec_last_bind {A B} (f g : M A) (k k' : A -> M B) a b n n' :
  codec f g a n -> codec_last (k a) (k' a) b n' ->
  codec_last (bind f k) (bind g k') b (n + n').
Proof.
  intros (b1 & E1 & C1 & L1) (b2 & E2 & C2 & L2). exists (b1 ++ b2).
  split; [by eapply emits_bind|]. rewrite len_app. split; [|lia].
  intros s Hs Hb Ha Hl. pose proof (len_nonneg b1). pose proof (len_nonneg b2).
  destruct (at_cur_app s b1 b2 ltac:(apply Hs) Ha) as [A1 A2].
  unfold bind. rewrite C1 by (done || lia).
  rewrite C2; [by rewrite move_move|apply ok_move; [done|lia]|done|done|cbn; lia].
Qed.

Lemma codec_last_map {A B} (f g : M A) (h : A -> B) a n :
  codec_last f g a n ->
  codec_last (bind f (fun x => ret (h x))) (bind g (fun x => ret (h x))) (h a) n.
Proof.
  intros (bs & E & C & L). exists bs. split; [|split; [|done]].
  - rewrite <- (app_nil_r bs). eapply emits_bind; [done|apply emits_ret].
  - intros s Hs Hb Ha Hl. unfold bind. by rewrite C.
Qed.

(** Well formed structures and their normal form. *)
Definition wf_SRT (d : SLAVE_RX_SYNC_TIMING_DATA_rec_t) : Prop :=
  uint 16 (srt_sequenceId d) /\ wf_Timestamp48 (srt_syncOriginTimestamp d) /\
  wf_TimeInterval (srt_totalCorrectionField d) /\ sint 32 (srt_scaledCumulativeRateOffset d) /\
  wf_Timestamp48 (srt_syncEventIngressTimestamp d).
Definition wf_SRC (d : SLAVE_RX_SYNC_COMPUTED_DATA_rec_t) : Prop :=
  uint 16 (src_sequenceId d) /\ wf_TimeInterval (src_offsetFromMaster d) /\
  wf_TimeInterval (src_meanPathDelay d) /\ sint 32 (src_scaledNeighborRateRatio d).
Definition wf_STE (d : SLAVE_TX_EVENT_TIMESTAMPS_rec_t) : Prop :=
  uint 16 (ste_sequenceId d) /\ wf_Timestamp48 (ste_eventEgressTimestamp d).
Definition wf_SDT (d : SLAVE_DELAY_TIMING_DATA_NP_rec_t) : Prop :=
  uint 16 (sdt_sequenceId d) /\ wf_Timestamp48 (sdt_delayOriginTimestamp d) /\
  wf_TimeInterval (sdt_totalCorrectionField d) /\ wf_Timestamp48 (sdt_delayResponseTimestamp d).

Definition wf_sig (t : BaseSigTlv) : Prop :=
  match t with
  | S_ORGANIZATION_EXTENSION d =>
      len (oe_organizationId d) = 3 /\ len (oe_organizationSubType d) = 3 /\
      uint 16 (len (oe_dataField d))
  | S_PATH_TRACE d => Forall wf_ClockIdentity (pt_pathSequence d)
  | S_ALTERNATE_TIME_OFFSET_INDICATOR d =>
      uint 8 (atoi_keyField d) /\ sint 32 (atoi_currentOffset d) /\
      sint 32 (atoi_jumpSeconds d) /\ uint 48 (atoi_timeOfNextJump d) /\
      wf_PTPText (atoi_displayName d)
  | S_ENHANCED_ACCURACY_METRICS d =>
      uint 8 (eam_bcHopCount d) /\ uint 8 (eam_tcHopCount d) /\
      wf_TimeInterval (eam_maxGmInaccuracy d) /\ uint 64 (eam_varGmInaccuracy d) /\
      wf_TimeInterval (eam_maxTransientInaccuracy d) /\ uint 64 (eam_varTransientInaccuracy d) /\
      wf_TimeInterval (eam_maxDynamicInaccuracy d) /\ uint 64 (eam_varDynamicInaccuracy d) /\
      wf_TimeInterval (eam_maxStaticInstanceInaccuracy d) /\
      uint 64 (eam_varStaticInstanceInaccuracy d) /\
      wf_TimeInterval (eam_maxStaticMediumInaccuracy d) /\
      uint 64 (eam_varStaticMediumInaccuracy d)
  | S_L1_SYNC d =>
      uint 8 (l1_flags1 d) /\ uint 8 (l1_flags2 d) /\ uint 8 (l1_flags3 d) /\
      wf_TimeInterval (l1_phaseOffsetTx d) /\ wf_Timestamp48 (l1_phaseOffsetTxTimestamp d) /\
      wf_TimeInterval (l1_freqOffsetTx d) /\ wf_Timestamp48 (l1_freqOffsetTxTimestamp d)
  | S_PORT_COMMUNICATION_AVAILABILITY d =>
      uint 8 (pca_syncMessageAvailability d) /\ uint 8 (pca_delayRespMessageAvailability d)
  | S_PROTOCOL_ADDRESS d => wf_PortAddress (pa_portProtocolAddress d)
  | S_SLAVE_RX_SYNC_TIMING_DATA d =>
      wf_PortIdentity (srtd_syncSourcePortIdentity d) /\ Forall wf_SRT (srtd_list d)
  | S_SLAVE_RX_SYNC_COMPUTED_DATA d =>
      wf_PortIdentity (srcd_sourcePortIdentity d) /\ uint 8 (srcd_computedFlags d) /\
      Forall wf_SRC (srcd_list d)
  | S_SLAVE_TX_EVENT_TIMESTAMPS d =>
      wf_PortIdentity (stet_sourcePortIdentity d) /\ uint 8 (stet_eventMessageType d) /\
      Forall wf_STE (stet_list d)
  | S_CUMULATIVE_RATE_RATIO d => sint 32 (crr_scaledCumulativeRateRatio d)
  | S_SLAVE_DELAY_TIMING_DATA_NP d =>
      wf_PortIdentity (sdtd_sourcePortIdentity d) /\ Forall wf_SDT (sdtd_list d)
  | S_MANAGEMENT_ERROR_STATUS _ | S_MANAGEMENT _ => False
  end.

Definition norm_L1_SYNC (d : L1_SYNC_t) : L1_SYNC_t :=
  let f1 := normFlags L1_SYNC_flagsMask1 (l1_flags1 d) in
  let f2 := normFlags L1_SYNC_flagsMask2 (l1_flags2 d) in
  if 0 <? Z.land f1 L1_SYNC_optParamsEnabled then
    mk_L1_SYNC f1 f2 (normFlags L1_SYNC_flagsMask3 (l1_flags3 d)) (l1_phaseOffsetTx d)
      (l1_phaseOffsetTxTimestamp d) (l1_freqOffsetTx d) (l1_freqOffsetTxTimestamp d)
  else mk_L1_SYNC f1 f2 0 zero_TimeInterval zero_Timestamp zero_TimeInterval zero_Timestamp.

Definition norm_sig (t : BaseSigTlv) : BaseSigTlv :=
  match t with
  | S_ALTERNATE_TIME_OFFSET_INDICATOR d =>
      S_ALTERNATE_TIME_OFFSET_INDICATOR (mk_ALTERNATE_TIME_OFFSET_INDICATOR (atoi_keyField d)
        (atoi_currentOffset d) (atoi_jumpSeconds d) (atoi_timeOfNextJump d)
        (norm_PTPText (atoi_displayName d)))
  | S_L1_SYNC d => S_L1_SYNC (norm_L1_SYNC d)
  | S_PORT_COMMUNICATION_AVAILABILITY d =>
      S_PORT_COMMUNICATION_AVAILABILITY (mk_PORT_COMMUNICATION_AVAILABILITY
        (normFlags PORT_COMMUNICATION_AVAILABILITY_flagsMask1 (pca_syncMessageAvailability d))
        (normFlags PORT_COMMUNICATION_AVAILABILITY_flagsMask2
           (pca_delayRespMessageAvailability d)))
  | S_PROTOCOL_ADDRESS d =>
      S_PROTOCOL_ADDRESS (mk_PROTOCOL_ADDRESS (norm_PortAddress (pa_portProtocolAddress d)))
  | S_SLAVE_RX_SYNC_COMPUTED_DATA d =>
      S_SLAVE_RX_SYNC_COMPUTED_DATA (mk_SLAVE_RX_SYNC_COMPUTED_DATA (srcd_sourcePortIdentity d)
        (normFlags SLAVE_RX_SYNC_COMPUTED_DATA_flagsMask (srcd_computedFlags d)) (srcd_list d))
  | _ => t
  end.

(** The number of octets. *)
Definition len_sig (t : BaseSigTlv) : Z :=
  match t with
  | S_ORGANIZATION_EXTENSION d => 6 + len (oe_dataField d)
  | S_PATH_TRACE d => 8 * len (pt_pathSequence d)
  | S_ALTERNATE_TIME_OFFSET_INDICATOR d => 15 + PTPText_size (atoi_displayName d)
  | S_ENHANCED_ACCURACY_METRICS _ => 84
  | S_L1_SYNC d =>
      if 0 <? Z.land (normFlags L1_SYNC_flagsMask1 (l1_flags1 d)) L1_SYNC_optParamsEnabled
      then 39 else 2
  | S_PORT_COMMUNICATION_AVAILABILITY _ => 2
  | S_PROTOCOL_ADDRESS d => PortAddress_size (pa_portProtocolAddress d)
  | S_SLAVE_RX_SYNC_TIMING_DATA d => 10 + 34 * len (srtd_list d)
  | S_SLAVE_RX_SYNC_COMPUTED_DATA d => 12 + 22 * len (srcd_list d)
  | S_SLAVE_TX_EVENT_TIMESTAMPS d => 12 + 12 * len (stet_list d)
  | S_CUMULATIVE_RATE_RATIO _ => 4
  | S_SLAVE_DELAY_TIMING_DATA_NP d => 10 + 30 * len (sdtd_list d)
  | S_MANAGEMENT_ERROR_STATUS _ | S_MANAGEMENT _ => 0
  end.

(** Building a signalling TLV, and the type it is sent with. *)
Definition sig_build (t : BaseSigTlv) : M BaseSigTlv :=
  match t with
  | S_ORGANIZATION_EXTENSION d => caseBuild S_ORGANIZATION_EXTENSION ORGANIZATION_EXTENSION_f d
  | S_PATH_TRACE d => caseBuild S_PATH_TRACE PATH_TRACE_f d
  | S_ALTERNATE_TIME_OFFSET_INDICATOR d =>
      caseBuild S_ALTERNATE_TIME_OFFSET_INDICATOR ALTERNATE_TIME_OFFSET_INDICATOR_f d
  | S_ENHANCED_ACCURACY_METRICS d =>
      caseBuild S_ENHANCED_ACCURACY_METRICS ENHANCED_ACCURACY_METRICS_f d
  | S_L1_SYNC d => caseBuild S_L1_SYNC L1_SYNC_f d
  | S_PORT_COMMUNICATION_AVAILABILITY d =>
      caseBuild S_PORT_COMMUNICATION_AVAILABILITY PORT_COMMUNICATION_AVAILABILITY_f d
  | S_PROTOCOL_ADDRESS d => caseBuild S_PROTOCOL_ADDRESS PROTOCOL_ADDRESS_f d
  | S_SLAVE_RX_SYNC_TIMING_DATA d =>
      caseBuild S_SLAVE_RX_SYNC_TIMING_DATA SLAVE_RX_SYNC_TIMING_DATA_f d
  | S_SLAVE_RX_SYNC_COMPUTED_DATA d =>
      caseBuild S_SLAVE_RX_SYNC_COMPUTED_DATA SLAVE_RX_SYNC_COMPUTED_DATA_f d
  | S_SLAVE_TX_EVENT_TIMESTAMPS d =>
      caseBuild S_SLAVE_TX_EVENT_TIMESTAMPS SLAVE_TX_EVENT_TIMESTAMPS_f d
  | S_CUMULATIVE_RATE_RATIO d => caseBuild S_CUMULATIVE_RATE_RATIO CUMULATIVE_RATE_RATIO_f d
  | S_SLAVE_DELAY_TIMING_DATA_NP d =>
      caseBuild S_SLAVE_DELAY_TIMING_DATA_NP SLAVE_DELAY_TIMING_DATA_NP_f d
  | S_MANAGEMENT_ERROR_STATUS _ | S_MANAGEMENT _ => fail
  end.
Definition sig_type (t : BaseSigTlv) : Z :=
  match t with
  | S_ORGANIZATION_EXTENSION _ => ORGANIZATION_EXTENSION
  | S_PATH_TRACE _ => PATH_TRACE
  | S_ALTERNATE_TIME_OFFSET_INDICATOR _ => ALTERNATE_TIME_OFFSET_INDICATOR
  | S_ENHANCED_ACCURACY_METRICS _ => ENHANCED_ACCURACY_METRICS
  | S_L1_SYNC _ => L1_SYNC
  | S_PORT_COMMUNICATION_AVAILABILITY _ => PORT_COMMUNICATION_AVAILABILITY
  | S_PROTOCOL_ADDRESS _ => PROTOCOL_ADDRESS
  | S_SLAVE_RX_SYNC_TIMING_DATA _ => SLAVE_RX_SYNC_TIMING_DATA
  | S_SLAVE_RX_SYNC_COMPUTED_DATA _ => SLAVE_RX_SYNC_COMPUTED_DATA
  | S_SLAVE_TX_EVENT_TIMESTAMPS _ => SLAVE_TX_EVENT_TIMESTAMPS
  | S_CUMULATIVE_RATE_RATIO _ => CUMULATIVE_RATE_RATIO
  | S_MANAGEMENT_ERROR_STATUS _ => MANAGEMENT_ERROR_STATUS
  | S_MANAGEMENT _ => MANAGEMENT
  | S_SLAVE_DELAY_TIMING_DATA_NP _ => SLAVE_DELAY_TIMING_DATA_NP
  end.

Lemma codec_SRT d d' :
  wf_SRT d -> codec (proc_SLAVE_RX_SYNC_TIMING_DATA_rec d)
    (proc_SLAVE_RX_SYNC_TIMING_DATA_rec d') d SLAVE_RX_SYNC_TIMING_DATA_rec_size.
Proof.
  unfold wf_SRT, proc_SLAVE_RX_SYNC_TIMING_DATA_rec, SLAVE_RX_SYNC_TIMING_DATA_rec_size. intros.
  codec_record d.
Qed.
Lemma codec_SRC d d' :
  wf_SRC d -> codec (proc_SLAVE_RX_SYNC_COMPUTED_DATA_rec d)
    (proc_SLAVE_RX_SYNC_COMPUTED_DATA_rec d') d SLAVE_RX_SYNC_COMPUTED_DATA_rec_size.
Proof.
  unfold wf_SRC, proc_SLAVE_RX_SYNC_COMPUTED_DATA_rec, SLAVE_RX_SYNC_COMPUTED_DATA_rec_size. intros.
  codec_record d.
Qed.
Lemma codec_STE d d' :
  wf_STE d -> codec (proc_SLAVE_TX_EVENT_TIMESTAMPS_rec d)
    (proc_SLAVE_TX_EVENT_TIMESTAMPS_rec d') d SLAVE_TX_EVENT_TIMESTAMPS_rec_size.
Proof.
  unfold wf_STE, proc_SLAVE_TX_EVENT_TIMESTAMPS_rec, SLAVE_TX_EVENT_TIMESTAMPS_rec_size. intros.
  codec_record d.
Qed.
Lemma codec_SDT d d' :
  wf_SDT d -> codec (proc_SLAVE_DELAY_TIMING_DATA_NP_rec d)
    (proc_SLAVE_DELAY_TIMING_DATA_NP_rec d') d SLAVE_DELAY_TIMING_DATA_NP_rec_size.
Proof.
  unfold wf_SDT, proc_SLAVE_DELAY_TIMING_DATA_NP_rec, SLAVE_DELAY_TIMING_DATA_NP_rec_size. intros.
  codec_record d.
Qed.

(** A list of records that fills the rest of the TLV. *)
Lemma codec_last_list {T B} (proc : T -> M T) zero wf sz vec (h : list T -> B) :
  2 <= sz -> (forall r, wf r -> codec (proc r) (proc zero) r sz) -> Forall wf vec ->
  codec_last (bind (vector_o proc zero sz vec) (fun v => ret (h v)))
    (bind (vector_o proc zero sz []) (fun v => ret (h v))) (h vec) (sz * len vec).
Proof.
  intros Hs Hp Hf. apply codec_last_map, codec_end_last.
  rewrite <- total_const. rewrite <- (map_id vec) at 2.
  apply (codec_vector_o proc zero wf (fun r => r) (fun _ => sz)); [exact Hp|done|done|done].
Qed.

Ltac sig_record := wf_split; eapply codec_to_last; [codec_auto|cbn; unfold_sizes; lia].
Ltac sig_list W C :=
  wf_split; eapply codec_last_len;
    [ repeat (eapply codec_last_bind; [codec_prim|cbv beta]);
      apply codec_last_list with (wf := W); [by vm_compute|intros; by apply C|done]
    | unfold SLAVE_RX_SYNC_TIMING_DATA_rec_size, SLAVE_RX_SYNC_COMPUTED_DATA_rec_size,
        SLAVE_TX_EVENT_TIMESTAMPS_rec_size, SLAVE_DELAY_TIMING_DATA_NP_rec_size;
      unfold_sizes; lia ].

Lemma codec_L1_SYNC d d' :
  wf_sig (S_L1_SYNC d) ->
  codec_last (L1_SYNC_f d) (L1_SYNC_f d') (norm_L1_SYNC d) (len_sig (S_L1_SYNC d)).
Proof.
  cbn. intros. wf_split. unfold L1_SYNC_f, norm_L1_SYNC. eapply codec_last_len.
  - do 2 (eapply codec_last_bind; [codec_prim|cbv beta]).
    instantiate (1 := if 0 <? Z.land (normFlags L1_SYNC_flagsMask1 (l1_flags1 d))
      L1_SYNC_optParamsEnabled then 37 else 0).
    destruct (0 <? _); eapply codec_to_last;
      [codec_auto|unfold_sizes; lia|apply codec_ret|done].
  - destruct (0 <? _); lia.
Qed.

Lemma codec_ORGANIZATION_EXTENSION d d' :
  wf_sig (S_ORGANIZATION_EXTENSION d) ->
  codec_last (ORGANIZATION_EXTENSION_f d) (ORGANIZATION_EXTENSION_f d') d
    (len_sig (S_ORGANIZATION_EXTENSION d)).
Proof.
  cbn. intros (H1 & H2 & H3). destruct d as [o1 o2 data]; cbn in *.
  unfold ORGANIZATION_EXTENSION_f; cbn [oe_organizationId oe_organizationSubType oe_dataField].
  eapply codec_last_len; [do 2 (eapply codec_last_bind; [by apply codec_octets|cbv beta])|].
  - apply (codec_last_map _ _ (mk_ORGANIZATION_EXTENSION o1 o2)).
    destruct (codec_binary data (oe_dataField d') 0 H3) as (bs & E & C & L).
    exists bs. split; [|split; [|exact L]].
    + intros s Hs Hb. destruct (E s Hs Hb) as [F G]. unfold proc_binary in *.
      rewrite Hb in *. by split.
    + intros s Hs Hb Ha Hl.
      replace (uwrap 16 (m_left s)) with (len data)
        by (rewrite Hl, L; symmetry; by apply uwrap_small).
      apply C; done || lia.
  - lia.
Qed.

Lemma caseBuild_last {D} (up : D -> BaseSigTlv) f d init a n :
  codec_last (f d) (f init) a n ->
  codec_last (caseBuild up f d) (caseBuild up f init) (up a) n.
Proof. apply codec_last_map. Qed.

Lemma sig_codec t m :
  wf_sig t -> sig_case linuxptp (sig_type t) = Some m ->
  codec_last (sig_build t) m (norm_sig t) (len_sig t).
Proof.
  intros W E. destruct t as [d|d|d|d|d|d|d|d|d|d|d|d|d|d]; try done; cbn in E;
    injection E as <-; cbn [sig_build norm_sig]; apply caseBuild_last; destruct d;
    cbn -[len_sig] in W.
  - by apply codec_ORGANIZATION_EXTENSION.
  - apply (codec_last_list proc_ClockIdentity zero_ClockIdentity wf_ClockIdentity);
      [by vm_compute|intros; by apply codec_ClockIdentity|done].
  - unfold ALTERNATE_TIME_OFFSET_INDICATOR_f. sig_record.
  - unfold ENHANCED_ACCURACY_METRICS_f. sig_record.
  - by apply codec_L1_SYNC.
  - unfold PORT_COMMUNICATION_AVAILABILITY_f. sig_record.
  - unfold PROTOCOL_ADDRESS_f. sig_record.
  - unfold SLAVE_RX_SYNC_TIMING_DATA_f. cbn. sig_list wf_SRT codec_SRT.
  - unfold SLAVE_RX_SYNC_COMPUTED_DATA_f. cbn. sig_list wf_SRC codec_SRC.
  - unfold SLAVE_TX_EVENT_TIMESTAMPS_f. cbn. sig_list wf_STE codec_STE.
  - unfold CUMULATIVE_RATE_RATIO_f. sig_record.
  - unfold SLAVE_DELAY_TIMING_DATA_NP_f. cbn. sig_list wf_SDT codec_SDT.
Qed.

(** The function of a signalling TLV writes a well formed structure in
    [len_sig t] octets when there is room for them and stops otherwise; the
    function that the parser selects for its type reads the octets back as the
    same structure with its flags masked, its length fields set, and the extended
    parameters of [L1_SYNC] zeroed when they are not sent. *)
Theorem sig_roundtrip t m s :
  wf_sig t -> sig_case linuxptp (sig_type t) = Some m ->
  ok s -> m_build s = true ->
  (m_left s < len_sig t -> exists s', sig_build t s = Stop s') /\
  (len_sig t <= m_left s ->
   exists s1, sig_build t s = Pass (norm_sig t) s1 /\ m_cur s1 = m_cur s + len_sig t /\
    forall s2, ok s2 -> m_build s2 = false -> m_buf s2 = m_buf s1 -> m_cur s2 = m_cur s ->
      m_left s2 = len_sig t ->
      exists s3, m s2 = Pass (norm_sig t) s3 /\ m_left s3 = 0).
Proof.
  intros W E Hs Hb. destruct (sig_codec t m W E) as (bs & Em & Co & L).
  destruct (Em s Hs Hb) as [Fit Miss]. rewrite <- L. split.
  - intros Hl. destruct Miss as (s' & H' & _); [lia|]. by exists s'.
  - intros Hl. exists (put bs s). split; [by apply Fit|]. split; [done|].
    intros s2 Hs2 Hb2 Hbuf Hcur Hl2.
    eexists. split; [apply Co; [done..|by apply at_cur_put with s|lia]|cbn; lia].
Qed.

Lemma sig_roundtrip_witness :
  exists s1, sig_build (S_CUMULATIVE_RATE_RATIO (mk_CUMULATIVE_RATE_RATIO (-5)))
     (cursor true 4) =
     Pass (S_CUMULATIVE_RATE_RATIO (mk_CUMULATIVE_RATE_RATIO (-5))) s1.
Proof.
  destruct (sig_roundtrip (S_CUMULATIVE_RATE_RATIO (mk_CUMULATIVE_RATE_RATIO (-5)))
    (caseBuild S_CUMULATIVE_RATE_RATIO CUMULATIVE_RATE_RATIO_f init_CUMULATIVE_RATE_RATIO)
    (cursor true 4)) as [_ H].
  - split; vm_compute; (reflexivity || discriminate).
  - reflexivity.
  - repeat split; vm_compute; discriminate.
  - reflexivity.
  - destruct H as (s1 & H & _).
    + vm_compute. discriminate.
    + exists s1. exact H.
Defined.

(** A management TLV that the dispatch handed out is copied unchanged; a
    structure that does not belong to the id is dropped, with its id. *)
Theorem copyMANAGEMENT_correct id p :
  (verifyTlv id p = true -> copyMANAGEMENT (mk_MANAGEMENT id p) = Some (mk_MANAGEMENT id p)) /\
  (verifyTlv id p = false -> p <> Unset ->
     copyMANAGEMENT (mk_MANAGEMENT id p) = Some (mk_MANAGEMENT NULL_PTP_MANAGEMENT Null)).
Proof.
  split.
  - intros V. apply verifyTlv_inv in V as (D & inst & d & E & -> & Hc).
    unfold copyMANAGEMENT; cbn. by rewrite E, Hc.
  - unfold verifyTlv, copyMANAGEMENT; cbn. destruct p as [| |t]; [done|done|]. intros V _.
    destruct (tlv_case_of id) as [|D inst|]; [done| |done]. by destruct (tlv_cast t).
Qed.

(** ** The SMPTE organization extension *)

Definition wf_SMPTE (d : SMPTE_ORGANIZATION_EXTENSION_t) : Prop :=
  smp_organizationId d = [x68; x97; xe8] /\ len (smp_organizationSubType d) = 3 /\
  uint 32 (smp_defaultSystemFrameRate_numerator d) /\
  uint 32 (smp_defaultSystemFrameRate_denominator d) /\
  uint 8 (smp_masterLockingStatus d) /\ uint 8 (smp_timeAddressFlags d) /\
  sint 32 (smp_currentLocalOffset d) /\ sint 32 (smp_jumpSeconds d) /\
  uint 48 (smp_timeOfNextJump d) /\ uint 48 (smp_timeOfNextJam d) /\
  uint 48 (smp_timeOfPreviousJam d) /\ sint 32 (smp_previousJamLocalOffset d) /\
  uint 8 (smp_daylightSaving d) /\ uint 8 (smp_leapSecondJump d).

Lemma codec_SMPTE d d' :
  wf_SMPTE d ->
  codec (SMPTE_ORGANIZATION_EXTENSION_f d) (SMPTE_ORGANIZATION_EXTENSION_f d') d
    SMPTE_ORGANIZATION_EXTENSION_size.
Proof.
  unfold wf_SMPTE, SMPTE_ORGANIZATION_EXTENSION_f, SMPTE_ORGANIZATION_EXTENSION_size.
  intros [Ho H]. eapply codec_len; [eapply codec_bind; [by apply codec_octets; rewrite Ho|]|].
  - cbv beta. rewrite Ho, bool_decide_eq_true_2 by done. cbn [negb]. destruct d; cbn in *. subst.
    wf_split. codec_auto.
  - lia.
Qed.
