(* ===== verification/Auth.v ===== *)
(** * Auth.v: keys and message authentication codes

    The key pool of [src/src/cfg.cpp] ([Spp] and [SaFile]) and the use of a MAC
    library ([src/src/hmac.cpp] and the wrappers of [src/hmac/], whose [digest]
    and [verify] have the same shape).  The MAC algorithms are a parameter, the
    class [MacLib]; [MacLaws] states the documented size of their output.  The
    log of the last error ([PTPMGMT_ERROR]) is not modelled. *)

From S2P Require Import Prelude Types Codec.

(** ** Key types *)

(** [HMAC_t] is filled from C and script callers, so it is an integer. *)
Definition HMAC_SHA256 : Z := 0.
Definition HMAC_AES128 : Z := 1.
Definition HMAC_AES256 : Z := 2.

Record key_t := mk_key { kt_type : Z; kt_key : list byte; kt_mac_size : Z }.

(** ** Spp: the keys of one security parameter pointer *)

Record Spp := mk_Spp { m_keys : gmap Z key_t; m_own_id : Z }.

(** The constructors and [set]: [m_own_id] is an [int8_t]. *)
Definition Spp_new (id : Z) : Spp := mk_Spp ∅ (swrap 8 id).
Definition Spp_default : Spp := mk_Spp ∅ (-1).
Definition Spp_set (s : Spp) (id : Z) : Spp := mk_Spp ∅ (swrap 8 (uwrap 8 id)).

Definition Spp_have (s : Spp) (key : Z) : bool :=
  (0 <? key) && match m_keys s !! key with Some _ => true | None => false end.
Definition KET_AT {A} (s : Spp) (id : Z) (v : key_t -> A) (d : A) : A :=
  if Spp_have s id
  then match m_keys s !! id with Some k => v k | None => d end
  else d.
Definition mac_size (s : Spp) (id : Z) : Z := KET_AT s id kt_mac_size 0.
Definition Spp_key (s : Spp) (id : Z) : list byte := KET_AT s id kt_key [].
Definition htype (s : Spp) (id : Z) : Z := KET_AT s id kt_type HMAC_SHA256.
Definition keys (s : Spp) : Z := Z.of_nat (size (m_keys s)).
Definition ownID (s : Spp) : Z := uwrap 8 (m_own_id s).

(** The limits of a key type: key size (0 for any) and the maximal digest. *)
Definition key_limit (type : Z) : option (Z * Z) :=
  if type =? HMAC_SHA256 then Some (0, 32)
  else if type =? HMAC_AES128 then Some (16, 16)
  else if type =? HMAC_AES256 then Some (32, 16)
  else None.

Definition addKey (s : Spp) (id type : Z) (value : list byte) (digest : Z)
    (replace : bool) : bool * Spp :=
  if id =? 0 then (false, s)
  else if len value =? 0 then (false, s)
  else if (digest <? 2) || negb (Z.land digest 1 =? 0) then (false, s)
  else if Spp_have s id && negb replace then (false, s)
  else
    match key_limit type with
    | None => (false, s)
    | Some (keySize, maxDigest) =>
        if (0 <? keySize) && negb (keySize =? len value) then (false, s)
        else if maxDigest <? digest then (false, s)
        else (true, mk_Spp (<[id := mk_key type value digest]> (m_keys s)) (m_own_id s))
    end.

(** ** SaFile: the security association pool *)

Definition SaFile : Type := gmap Z Spp.

Definition SaFile_have_spp (sa : SaFile) (spp : Z) : bool :=
  match sa !! spp with Some _ => true | None => false end.
Definition SaFile_have (sa : SaFile) (spp key : Z) : bool :=
  match sa !! spp with Some s => Spp_have s key | None => false end.
Definition SaFile_spp (sa : SaFile) (sppID : Z) : Spp :=
  match sa !! sppID with Some s => s | None => Spp_default end.

(** ** The MAC library *)

(** [mac_alloc]: the library loads and takes a key of the type; [mac_full]: the
    MAC of some data; [mac_residue]: what the array that receives the MAC held
    before. *)
Class MacLib := {
  mac_alloc : Z -> list byte -> bool;
  mac_full : Z -> list byte -> list byte -> option (list byte);
  mac_residue : list byte
}.

Definition HMAC_MAX_MAC_SIZE : Z := 64.
Definition HMAC_MAC_SIZE_16 : Z := 16.
Definition HMAC_MAC_SIZE_32 : Z := 32.
Definition min_digest (type : Z) : Z :=
  if type =? HMAC_SHA256 then HMAC_MAC_SIZE_32 else HMAC_MAC_SIZE_16.

(** HMAC with SHA-256 has 32 octets and CMAC with AES has 16. *)
Class MacLaws (lib : MacLib) : Prop := {
  mac_full_len type key data mac :
    mac_full type key data = Some mac -> len mac = min_digest type;
  mac_residue_len : len mac_residue = HMAC_MAX_MAC_SIZE
}.

Record HMAC_Key := mk_HMAC_Key { hk_type : Z; hk_key : list byte }.

Section Mac.
Context `{lib : MacLib}.

(** [hmac_allocHMAC]. *)
Definition hmac_allocHMAC (type : Z) (key : list byte) : option HMAC_Key :=
  if mac_alloc type key then Some (mk_HMAC_Key type key) else None.

(** [HMAC_Key::digest] into a binary of [n] octets. *)
Definition digest (k : HMAC_Key) (hData : list byte) (n : Z) : option (list byte) :=
  if HMAC_MAX_MAC_SIZE <? Z.max n (min_digest (hk_type k)) then None
  else
    match mac_full (hk_type k) (hk_key k) hData with
    | None => None
    | Some mac => Some (take (Z.to_nat n) (mac ++ drop (length mac) mac_residue))
    end.

(** [HMAC_Key::verify]. *)
Definition verify (k : HMAC_Key) (hData mac : list byte) : bool :=
  match digest k hData (len mac) with
  | Some o => bool_decide (mac = o)
  | None => false
  end.

Lemma min_digest_range type : 16 <= min_digest type <= 32.
Proof. unfold min_digest, HMAC_MAC_SIZE_32, HMAC_MAC_SIZE_16. case_match; lia. Qed.

Context {laws : MacLaws lib}.

Lemma digest_len k hData n mac :
  0 <= n -> digest k hData n = Some mac -> len mac = n.
Proof.
  intros Hn. unfold digest. destruct (Z.ltb_spec HMAC_MAX_MAC_SIZE (Z.max n (min_digest (hk_type k))));
    [done|]. destruct (mac_full _ _ _) as [m|] eqn:E; [|done]. intros [= <-].
  apply mac_full_len in E. pose proof mac_residue_len as R.
  pose proof (min_digest_range (hk_type k)). unfold len, HMAC_MAX_MAC_SIZE in *.
  rewrite length_take, length_app, length_drop. lia.
Qed.

Lemma verify_digest k hData n mac :
  0 <= n -> digest k hData n = Some mac -> verify k hData mac = true.
Proof.
  intros Hn E. unfold verify. rewrite (digest_len k hData n mac Hn E), E.
  by apply bool_decide_eq_true_2.
Qed.

(** Within the limit of its type, the code is a prefix of the full MAC: the
    residue of the array is not used. *)
Lemma digest_prefix k hData n mac m :
  0 <= n <= min_digest (hk_type k) ->
  mac_full (hk_type k) (hk_key k) hData = Some m ->
  digest k hData n = Some mac -> mac = take (Z.to_nat n) m.
Proof.
  intros Hn Em. unfold digest. rewrite Em. case_match; [done|]. intros [= <-].
  apply mac_full_len in Em. apply take_app_le. unfold len in Em. lia.
Qed.
End Mac.

(** ** The key pool: theorems *)

(** What every key of a pool satisfies. *)
Definition wf_key (id : Z) (k : key_t) : Prop :=
  id <> 0 /\ kt_key k <> [] /\ 2 <= kt_mac_size k /\ Z.Even (kt_mac_size k) /\
  exists keySize maxDigest, key_limit (kt_type k) = Some (keySize, maxDigest) /\
    (keySize = 0 \/ keySize = len (kt_key k)) /\ kt_mac_size k <= maxDigest.
Definition wf_Spp (s : Spp) : Prop := map_Forall wf_key (m_keys s).
Definition wf_SaFile (sa : SaFile) : Prop := map_Forall (fun _ => wf_Spp) sa.

(** The conditions under which [addKey] takes a key. *)
Definition key_ok (s : Spp) (id type : Z) (value : list byte) (digest : Z) (replace : bool) : Prop :=
  wf_key id (mk_key type value digest) /\ (Spp_have s id = true -> replace = true).

Lemma land_1_even z : Z.land z 1 = 0 <-> Z.Even z.
Proof.
  change 1 with (Z.ones 1). rewrite Z.land_ones by lia. change (2 ^ 1) with 2.
  rewrite Z.mod_divide by lia. split; intros [q ->]; exists q; lia.
Qed.

Lemma key_limit_pos type a b : key_limit type = Some (a, b) -> 0 <= a.
Proof. unfold key_limit. repeat case_match; intros; simplify_eq; lia. Qed.

Lemma addKey_true s id type value dg rep s' :
  addKey s id type value dg rep = (true, s') ->
  key_ok s id type value dg rep /\
  s' = mk_Spp (<[id := mk_key type value dg]> (m_keys s)) (m_own_id s).
Proof.
  unfold addKey, key_ok, wf_key; cbn [kt_type kt_key kt_mac_size].
  destruct (Z.eqb_spec id 0); [done|]. destruct (Z.eqb_spec (len value) 0); [done|].
  destruct (Z.ltb_spec dg 2); [done|].
  destruct (Z.eqb_spec (Z.land dg 1) 0) as [E%land_1_even|]; [|done]. cbn [orb negb].
  destruct (Spp_have s id && negb rep) eqn:R; [done|].
  destruct (key_limit type) as [[ks md]|] eqn:K; [|done]. apply key_limit_pos in K as Kp.
  destruct ((0 <? ks) && negb (ks =? len value)) eqn:S; [done|].
  destruct (Z.ltb_spec md dg); [done|]. intros [= <-]. split; [|done]. split.
  - split; [done|]. split; [by intros ->|]. split; [done|]. split; [done|].
    exists ks, md. split; [done|]. lia.
  - intros Hh. rewrite Hh in R. by destruct rep.
Qed.

Lemma addKey_ok s id type value dg rep :
  key_ok s id type value dg rep ->
  addKey s id type value dg rep =
    (true, mk_Spp (<[id := mk_key type value dg]> (m_keys s)) (m_own_id s)).
Proof.
  intros [(Hid & Hv & Hd & E%land_1_even & ks & md & K & Hks & Hmd) Hr].
  cbn [kt_type kt_key kt_mac_size] in *. unfold addKey.
  destruct (Z.eqb_spec id 0); [done|].
  destruct (Z.eqb_spec (len value) 0) as [E0|].
  { destruct value; [done|]. rewrite len_cons in E0. pose proof (len_nonneg value). lia. }
  destruct (Z.ltb_spec dg 2); [lia|]. rewrite E. cbn [orb negb Z.eqb].
  destruct (Spp_have s id) eqn:R; [rewrite Hr by done|]; cbn [andb negb]; rewrite K;
    (destruct ((0 <? ks) && negb (ks =? len value)) eqn:S; [lia|]);
    (destruct (Z.ltb_spec md dg); [lia|done]).
Qed.

Lemma addKey_false s id type value dg rep s' :
  addKey s id type value dg rep = (false, s') -> s' = s.
Proof. unfold addKey. repeat case_match; congruence. Qed.

Lemma wf_Spp_addKey s id type value dg rep :
  wf_Spp s -> wf_Spp (snd (addKey s id type value dg rep)).
Proof.
  intros H. destruct (addKey s id type value dg rep) as [[] s'] eqn:E; cbn.
  - apply addKey_true in E as [[Hk _] ->]. by apply map_Forall_insert_2.
  - by apply addKey_false in E as ->.
Qed.

(** [addKey] takes a key exactly when its id is not 0, its value is not
    empty and of the size of its type, its digest is positive, even and within
    the limit of its type, and the id is new or may be replaced.  Then the pool
    has exactly that key more; otherwise it is unchanged.  The pool keeps its
    invariant in both cases. *)
Theorem addKey_correct s id type value dg rep :
  wf_Spp s ->
  let (r, s') := addKey s id type value dg rep in
  (r = true <-> key_ok s id type value dg rep) /\ wf_Spp s' /\
  (r = false -> s' = s) /\
  (r = true -> forall id', m_keys s' !! id' =
     if decide (id' = id) then Some (mk_key type value dg) else m_keys s !! id').
Proof.
  intros Hw. pose proof (wf_Spp_addKey s id type value dg rep Hw) as Hw'.
  destruct (addKey s id type value dg rep) as [r s'] eqn:E. cbn in Hw'.
  split; [|split; [done|split]].
  - split; [intros ->; by apply addKey_true in E as [? _]|].
    intros K. rewrite (addKey_ok _ _ _ _ _ _ K) in E. congruence.
  - intros ->. by apply addKey_false in E.
  - intros ->. apply addKey_true in E as [_ ->]. intros id'. cbn.
    destruct (decide (id' = id)) as [->|N]; [by rewrite lookup_insert_eq|].
    by rewrite lookup_insert_ne.
Qed.

Lemma addKey_correct_witness :
  wf_Spp (snd (addKey (Spp_new 3) 7 HMAC_AES128 (repeat x61 16) 16 false)).
Proof.
  pose proof (addKey_correct (Spp_new 3) 7 HMAC_AES128 (repeat x61 16) 16 false) as H.
  destruct H as (_ & H & _).
  - apply map_Forall_empty.
  - exact H.
Defined.

(** The keys that a pool hands out. *)
Lemma SaFile_have_key sa spp id :
  wf_SaFile sa -> SaFile_have sa spp id = true ->
  exists k, m_keys (SaFile_spp sa spp) !! id = Some k /\ wf_key id k /\ 0 < id /\
    mac_size (SaFile_spp sa spp) id = kt_mac_size k /\
    htype (SaFile_spp sa spp) id = kt_type k /\ Spp_key (SaFile_spp sa spp) id = kt_key k.
Proof.
  unfold SaFile_have, SaFile_spp. intros Hw H. destruct (sa !! spp) as [s|] eqn:E; [|done].
  unfold mac_size, htype, Spp_key, KET_AT. rewrite H. unfold Spp_have in H.
  apply andb_prop in H as [Hp H]. destruct (m_keys s !! id) as [k|] eqn:Ek; [|done].
  exists k. split; [done|]. split; [by apply (Hw spp s E)|]. split; [lia|done].
Qed.

Lemma wf_key_mac id k : wf_key id k -> kt_mac_size k <= min_digest (kt_type k).
Proof.
  intros (_ & _ & _ & _ & ks & md & K & _ & H). unfold key_limit, min_digest in *.
  unfold HMAC_MAC_SIZE_16, HMAC_MAC_SIZE_32, HMAC_SHA256, HMAC_AES128, HMAC_AES256 in *.
  repeat case_match; simplify_eq; lia.
Qed.
