(* ===== verification/Cfg.v ===== *)
(** * Cfg.v: the configuration and key files

    The readers of [src/src/cfg.cpp]: [ConfigFile] and [SaFile], on the content of
    a file.  They work in place on one array of characters, so the model does as
    well: a position outside of the array is [None].  What the array holds before
    the first line is a parameter, as it is never initialised. *)

From S2P Require Import Prelude CStr Types Codec Bin Auth.

Definition lineSize : nat := 512.

(** ** C strings in the array *)

Fixpoint scan (p : byte -> bool) (l : list byte) (i : nat) : option nat :=
  match l with
  | [] => None
  | c :: l => if p c then scan p l (S i) else Some i
  end.
(** The first position from [i] on where [p] fails. *)
Definition scan_at (p : byte -> bool) (buf : list byte) (i : nat) : option nat :=
  scan p (drop i buf) i.

Definition not_nul (c : byte) : bool := negb (bool_decide (c = x00)).
Definition strlen (buf : list byte) (i : nat) : option nat :=
  e ← scan_at not_nul buf i; Some (e - i)%nat.
Definition str_at (buf : list byte) (i : nat) : option (list byte) :=
  n ← strlen buf i; Some (take n (drop i buf)).
Definition put_nul (i : nat) (buf : list byte) : option (list byte) :=
  _ ← buf !! i; Some (<[i := x00]> buf).

Definition skip_spaces (buf : list byte) (cur : nat) : option nat := scan_at isspace buf cur.

Definition next_space_token (buf : list byte) (cur : nat) : option (list byte * nat) :=
  cur ← scan_at (fun c => negb (isspace c)) buf cur;
  let buf := <[cur := x00]> buf in
  cur ← skip_spaces buf (S cur);
  Some (buf, cur).

(** The last position before [end] that is no space. *)
Fixpoint back_spaces (buf : list byte) (end_ : nat) : option nat :=
  match end_ with
  | O => None
  | S e => c ← buf !! e; if isspace c then back_spaces buf e else Some e
  end.
Definition strip_end_spaces (buf : list byte) (end_ : nat) : option (list byte) :=
  e ← back_spaces buf end_; put_nul (S e) buf.

Definition strchr (buf : list byte) (i : nat) (ch : byte) : option (option nat) :=
  e ← scan_at (fun c => not_nul c && negb (bool_decide (c = ch))) buf i;
  c ← buf !! e;
  Some (if bool_decide (c = ch) then Some e else None).

(** [strtok_r]: the token, the array and the position to go on from. *)
Definition strtok_at (sep : list byte) (buf : list byte) (i : nat)
    : option (option nat * list byte * nat) :=
  s ← scan_at (is_sep sep) buf i;
  c ← buf !! s;
  if bool_decide (c = x00) then Some (None, buf, s)
  else
    e ← scan_at (fun c => not_nul c && negb (is_sep sep c)) buf s;
    c ← buf !! e;
    if bool_decide (c = x00) then Some (Some s, buf, e)
    else Some (Some s, <[e := x00]> buf, S e).

(** ** The lines of a file *)

(** [fgets]: up to [n] characters, to the end of the line, and the rest. *)
Fixpoint fgets (n : nat) (f : list byte) : list byte * list byte :=
  match n, f with
  | S n, c :: f => if bool_decide (c = x0a) then ([c], f)
                   else let '(l, r) := fgets n f in (c :: l, r)
  | _, _ => ([], f)
  end.
Fixpoint lines_fuel (fuel : nat) (f : list byte) : list (list byte) :=
  match fuel, f with
  | S fuel, _ :: _ => let '(l, r) := fgets (lineSize - 1) f in l :: lines_fuel fuel r
  | _, _ => []
  end.
Definition lines (f : list byte) : list (list byte) := lines_fuel (length f) f.

(** The array after [fgets] stored a line. *)
Definition store_line (line : list byte) (buf : list byte) : list byte :=
  line ++ x00 :: drop (S (length line)) buf.

(** The loop on the lines: [None] is a fault, [Some None] the end with an error. *)
Fixpoint each_line {St} (f : list byte -> St -> option (option St)) (l : list (list byte))
    (st : St) : option (option St) :=
  match l with
  | [] => Some (Some st)
  | line :: l => r ← f line st;
                 match r with None => Some None | Some st => each_line f l st end
  end.

(** ** Spp: a line with a key *)

Definition key_cfg : list (list byte * Z * Z) :=
  [ (bytes "SHA256-128", HMAC_SHA256, 16); (bytes "SHA256", HMAC_SHA256, 32);
    (bytes "AES128", HMAC_AES128, 16); (bytes "AES256", HMAC_AES256, 16) ].
Fixpoint find_key_cfg (l : list (list byte * Z * Z)) (name : list byte) : option (Z * Z) :=
  match l with
  | [] => None
  | (n, type, digest) :: l => if bool_decide (n = name) then Some (type, digest)
                              else find_key_cfg l name
  end.
Definition UINT32_MAX : Z := 0xffffffff.
Definition spaceToken : list byte := [x20; x09; x0a; x0d].

(** [strncmp(s, p, strlen(p)) == 0] and what follows. *)
Definition after (p s : list byte) : option (list byte) :=
  if bool_decide (take (length p) s = p) then Some (drop (length p) s) else None.

(** The value of a key: an error, or its octets. *)
Definition key_value (cur : list byte) : option (list byte) :=
  match after (bytes "ASCII:") cur with
  | Some v => Some (octets (setBin_string v Binary_new))
  | None =>
  match after (bytes "HEX:") cur with
  | Some v => let '(r, key) := fromHex v Binary_new in if r then Some (octets key) else None
  | None =>
  match after (bytes "B64:") cur with
  | Some v => let '(r, key) := fromBase64 v false Binary_new in
              if r then Some (octets key) else None
  | None => Some (octets (setBin_string cur Binary_new))
  end end end.

(** What follows the tokens: the key id, the type, the optional size and the
    value. *)
Definition key_line (keyID : Z) (match_ : Z * Z) (size : option (list byte)) (value : list byte)
    (s : Spp) : bool * Spp :=
  let '(type, dg) := match_ in
  let keySize := match size with
                 | None => Some 0
                 | Some t => let '(ret, rest) := strtol 0 t in
                             if negb (bool_decide (rest = [])) || (ret <? 1) then None else Some ret
                 end in
  match keySize with
  | None => (false, s)
  | Some keySize =>
      match key_value value with
      | None => (false, s)
      | Some key => if (0 <? keySize) && negb (len key =? keySize) then (false, s)
                    else addKey s keyID type key dg false
      end
  end.

Definition Spp_set_val (buf : list byte) (line : nat) (s : Spp) : option (bool * list byte * Spp) :=
  '(buf, cur) ← next_space_token buf line;
  c ← buf !! line;
  if negb (isdigit c) then Some (true, buf, s)
  else
    id ← str_at buf line;
    let '(ret, rest) := strtol 0 id in
    if negb (bool_decide (rest = [])) || (ret <? 1) || (UINT32_MAX <? ret) then Some (false, buf, s)
    else
      '(t1, buf, save) ← strtok_at spaceToken buf cur;
      match t1 with
      | None => Some (false, buf, s)
      | Some t1 =>
          name ← str_at buf t1;
          match find_key_cfg key_cfg name with
          | None => Some (false, buf, s)
          | Some match_ =>
              '(t2, buf, save) ← strtok_at spaceToken buf save;
              match t2 with
              | None => Some (false, buf, s)
              | Some t2 =>
                  '(t3, buf, save) ← strtok_at spaceToken buf save;
                  '(t4, buf, _) ← strtok_at spaceToken buf save;
                  match t4 with
                  | Some _ => Some (false, buf, s)
                  | None =>
                      v2 ← str_at buf t2;
                      match t3 with
                      | None => let '(r, s) := key_line ret match_ None v2 s in Some (r, buf, s)
                      | Some t3 =>
                          v3 ← str_at buf t3;
                          let '(r, s) := key_line ret match_ (Some v2) v3 s in Some (r, buf, s)
                      end
                  end
              end
          end
      end.

(** ** SaFile *)

Record sa_st := mk_sa_st {
  sa_buf : list byte;
  sa_cspp : Spp;
  sa_spps : SaFile;
  sa_step : Z
}.

(** The keys of the last section go to the pool. *)
Definition sa_flush (cspp : Spp) (spps : SaFile) (step : Z) : option SaFile :=
  if step =? 2 then if keys cspp <? 1 then None else Some (<[ownID cspp := cspp]> spps)
  else Some spps.

Definition sa_section (buf : list byte) (cur : nat) (st : sa_st) : option (option sa_st) :=
  cur ← skip_spaces buf (S cur);
  end_ ← strchr buf cur x5d;
  match end_ with
  | None => Some None
  | Some e =>
      buf ← strip_end_spaces buf e;
      match sa_flush (sa_cspp st) (sa_spps st) (sa_step st) with
      | None => Some None
      | Some spps =>
          name ← str_at buf cur;
          Some (Some (mk_sa_st buf (sa_cspp st) spps
                       (if bool_decide (name = bytes "security_association") then 1 else 0)))
      end
  end.

(** The line that gives the number of the section. *)
Definition sa_spp_line (buf : list byte) (cur : nat) (st : sa_st) : option (option sa_st) :=
  '(buf, val) ← next_space_token buf cur;
  name ← str_at buf cur;
  if negb (bool_decide (name = bytes "spp")) then Some None
  else
    n ← strlen buf val;
    buf ← strip_end_spaces buf (val + n);
    v ← str_at buf val;
    let '(ret, rest) := strtol 0 v in
    if negb (bool_decide (rest = [])) || (ret <? 0) || (0xff <? ret) then Some None
    else Some (Some (mk_sa_st buf (Spp_set (sa_cspp st) ret) (sa_spps st) 2)).

Definition sa_line (line : list byte) (st : sa_st) : option (option sa_st) :=
  let buf := store_line line (sa_buf st) in
  cur ← skip_spaces buf 0;
  c ← buf !! cur;
  if bool_decide (c = x5b) then sa_section buf cur st
  else if bool_decide (c = x00) || bool_decide (c = x23)
  then Some (Some (mk_sa_st buf (sa_cspp st) (sa_spps st) (sa_step st)))
  else if sa_step st =? 1 then sa_spp_line buf cur st
  else if sa_step st =? 2 then
    '(r, buf, cspp) ← Spp_set_val buf cur (sa_cspp st);
    Some (if r : bool then Some (mk_sa_st buf cspp (sa_spps st) 2) else None)
  else Some None.

(** [read_sa] on the content of the file: whether it succeeds, and the pool. *)
Definition read_sa (residue : list byte) (file : list byte) (sa : SaFile) : option (bool * SaFile) :=
  r ← each_line sa_line (lines file) (mk_sa_st residue Spp_default ∅ 0);
  Some match r with
       | None => (false, sa)
       | Some st => match sa_flush (sa_cspp st) (sa_spps st) (sa_step st) with
                    | None => (false, sa)
                    | Some spps => (true, spps)
                    end
       end.

(** ** Positions stay in the array *)

Lemma scan_at_stops p buf i n c :
  buf !! n = Some c -> p c = false -> (i <= n)%nat ->
  exists j c', scan_at p buf i = Some j /\ (i <= j <= n)%nat /\
    buf !! j = Some c' /\ p c' = false /\
    (forall k d, (i <= k < j)%nat -> buf !! k = Some d -> p d = true).
Proof.
  unfold scan_at. intros Hn Pc. remember (n - i)%nat as m eqn:Em. revert i Em.
  induction m as [|m IH]; intros i Em Hi.
  - assert (i = n) as -> by lia. rewrite (drop_S _ c n Hn). cbn. rewrite Pc.
    exists n, c. repeat (split; [done || lia|]). intros k d Hk. lia.
  - destruct (lookup_lt_is_Some_2 buf i) as [x Hx].
    { apply lookup_lt_Some in Hn. lia. }
    rewrite (drop_S _ x i Hx). cbn. destruct (p x) eqn:Px.
    + destruct (IH (S i)) as (j & c' & E & Hj & Hc & Pc' & Before); [lia..|].
      exists j, c'. rewrite E. repeat (split; [done || lia|]). intros k d Hk Hd.
      destruct (decide (k = i)) as [->|]; [congruence|]. apply (Before k d); [lia|done].
    + exists i, x. repeat (split; [done || lia|]). intros k d Hk. lia.
Qed.

Lemma isspace_nul : isspace x00 = false. Proof. done. Qed.

(** The array of a line that ends with a line feed at [n - 1], or what is left
    of it: a NUL at [n], only NULs written. *)
Definition ends_at (buf : list byte) (n : nat) : Prop :=
  length buf = lineSize /\ buf !! n = Some x00.

Lemma ends_at_nul buf n i : ends_at buf n -> ends_at (<[i := x00]> buf) n.
Proof.
  intros [L H]. split; [by rewrite length_insert|].
  destruct (decide (i = n)) as [->|]; [|by rewrite list_lookup_insert_ne].
  apply list_lookup_insert_eq. by eapply lookup_lt_Some.
Qed.

Lemma skip_spaces_ok buf n i :
  ends_at buf n -> (i <= n)%nat ->
  exists j c, skip_spaces buf i = Some j /\ (i <= j <= n)%nat /\ buf !! j = Some c /\
    isspace c = false.
Proof.
  intros [_ H] Hi. destruct (scan_at_stops isspace buf i n x00 H isspace_nul Hi)
    as (j & c & E & ? & ? & ? & _). exists j, c. done.
Qed.

Lemma strlen_ok buf n i :
  ends_at buf n -> (i <= n)%nat -> exists k, strlen buf i = Some k /\ (i + k <= n)%nat.
Proof.
  intros [_ H] Hi. destruct (scan_at_stops not_nul buf i n x00 H eq_refl Hi)
    as (j & c & E & ? & _). exists (j - i)%nat. unfold strlen. rewrite E. split; [done|lia].
Qed.
Lemma str_at_ok buf n i : ends_at buf n -> (i <= n)%nat -> exists v, str_at buf i = Some v.
Proof. intros H Hi. destruct (strlen_ok buf n i H Hi) as (k & E & _). unfold str_at. rewrite E. eauto. Qed.

(** A space before the end keeps [next_space_token] in the line. *)
Lemma next_space_token_ok buf n i c :
  ends_at buf n -> (i < n)%nat -> buf !! (n - 1)%nat = Some c -> isspace c = true ->
  exists buf' j k, next_space_token buf i = Some (buf', k) /\ ends_at buf' n /\
    (i <= j < k)%nat /\ (k <= n)%nat /\ buf' !! j = Some x00.
Proof.
  intros E Hi Hc Sc.
  destruct (scan_at_stops (fun c => negb (isspace c)) buf i (n - 1) c Hc) as (j & c' & Ej & Hj & Hl & _);
    [by rewrite Sc|lia|].
  unfold next_space_token. rewrite Ej. cbn [mbind option_bind].
  pose proof (ends_at_nul buf n j E) as E'.
  destruct (skip_spaces_ok _ n (S j) E') as (k & ? & Ek & Hk & _); [lia|].
  rewrite Ek. cbn [mbind option_bind]. eexists _, j, k. split; [done|]. split; [done|].
  split; [lia|]. split; [lia|]. apply list_lookup_insert_eq. by eapply lookup_lt_Some.
Qed.

Lemma back_spaces_ok buf j c e :
  buf !! j = Some c -> isspace c = false -> (j < e <= length buf)%nat ->
  exists k, back_spaces buf e = Some k /\ (j <= k < e)%nat.
Proof.
  intros Hj Hc. induction e as [|e IH]; intros He; [lia|]. cbn [back_spaces].
  destruct (lookup_lt_is_Some_2 buf e) as [x Hx]; [lia|]. rewrite Hx. cbn [mbind option_bind].
  destruct (isspace x) eqn:Sx; [|exists e; split; [done|lia]].
  destruct IH as (k & Ek & Hk); [|exists k; split; [done|lia]].
  destruct (decide (j = e)) as [->|]; [congruence|lia].
Qed.

Lemma strip_end_spaces_ok buf n j c e :
  ends_at buf n -> buf !! j = Some c -> isspace c = false -> (j < e <= n)%nat ->
  exists buf', strip_end_spaces buf e = Some buf' /\ ends_at buf' n.
Proof.
  intros E Hj Hc He. pose proof E as [L Hn]. apply lookup_lt_Some in Hn as Hlt.
  destruct (back_spaces_ok buf j c e Hj Hc) as (k & Ek & Hk); [lia|].
  unfold strip_end_spaces, put_nul. rewrite Ek. cbn [mbind option_bind].
  destruct (lookup_lt_is_Some_2 buf (S k)) as [x ->]; [lia|]. cbn [mbind option_bind].
  eexists. split; [done|]. by apply ends_at_nul.
Qed.

Lemma strchr_ok buf n i ch :
  ends_at buf n -> (i <= n)%nat -> ch <> x00 ->
  exists r, strchr buf i ch = Some r /\ match r with Some e => (i <= e < n)%nat | None => True end.
Proof.
  intros [_ H] Hi Nc.
  destruct (scan_at_stops (fun c => not_nul c && negb (bool_decide (c = ch))) buf i n x00 H)
    as (j & c & E & Hj & Hc & _ & _); [done|lia|].
  unfold strchr. rewrite E. cbn [mbind option_bind]. rewrite Hc. cbn [mbind option_bind].
  eexists. split; [done|]. case_bool_decide; [|done].
  destruct (decide (j = n)) as [->|]; [congruence|lia].
Qed.

Lemma strtok_at_ok buf n i :
  ends_at buf n -> (i <= n)%nat ->
  exists t buf' save, strtok_at spaceToken buf i = Some (t, buf', save) /\ ends_at buf' n /\
    (save <= n)%nat /\ match t with Some t => (t <= n)%nat | None => True end.
Proof.
  intros E Hi. pose proof E as [_ H]. unfold strtok_at.
  destruct (scan_at_stops (is_sep spaceToken) buf i n x00 H eq_refl Hi) as (s & c & Es & Hs & Hc & _).
  rewrite Es. cbn [mbind option_bind]. rewrite Hc. cbn [mbind option_bind]. case_bool_decide; [eexists _, _, _; split; [done|]; split; [done|]; split; [lia|done]|].
  destruct (scan_at_stops (fun c => not_nul c && negb (is_sep spaceToken c)) buf s n x00 H)
    as (e & d & Ee & He & Hd & _); [done|lia|].
  rewrite Ee. cbn [mbind option_bind]. rewrite Hd. cbn [mbind option_bind]. case_bool_decide.
  - eexists _, _, _. repeat (split; [done || lia|]). lia.
  - assert (e <> n) by congruence. eexists _, _, _. split; [done|].
    split; [by apply ends_at_nul|]. split; lia.
Qed.

(** ** A line of the key file *)

Lemma Spp_set_val_ok buf n i c s :
  ends_at buf n -> (i < n)%nat -> buf !! (n - 1)%nat = Some c -> isspace c = true ->
  exists r buf' s', Spp_set_val buf i s = Some (r, buf', s') /\ length buf' = lineSize.
Proof.
  intros E Hi Hc Sc. destruct (next_space_token_ok buf n i c E Hi Hc Sc)
    as (b1 & j & k & Et & E1 & Hj & Hk & _).
  unfold Spp_set_val. rewrite Et. cbn [mbind option_bind].
  assert (forall b, ends_at b n -> length b = lineSize) as L by (by intros b []).
  destruct (lookup_lt_is_Some_2 b1 i) as [x ->]; [rewrite (L b1 E1); destruct E1 as [L1 H1];
    apply lookup_lt_Some in H1; rewrite L1 in H1; lia|]. cbn [mbind option_bind].
  destruct (negb (isdigit x)); [eauto 6|].
  destruct (str_at_ok b1 n i E1 ltac:(lia)) as [id ->]. cbn [mbind option_bind].
  destruct (strtol 0 id) as [ret rest]. destruct (_ || _); [eauto 6|].
  destruct (strtok_at_ok b1 n k E1 Hk) as (t1 & b2 & s2 & -> & E2 & H2 & T1).
  cbn [mbind option_bind]. destruct t1 as [t1|]; [|eauto 6].
  destruct (str_at_ok b2 n t1 E2 T1) as [nm ->]. cbn [mbind option_bind].
  destruct (find_key_cfg key_cfg nm) as [mt|]; [|eauto 6].
  destruct (strtok_at_ok b2 n s2 E2 H2) as (t2 & b3 & s3 & -> & E3 & H3 & T2).
  cbn [mbind option_bind]. destruct t2 as [t2|]; [|eauto 6].
  destruct (strtok_at_ok b3 n s3 E3 H3) as (t3 & b4 & s4 & -> & E4 & H4 & T3).
  cbn [mbind option_bind].
  destruct (strtok_at_ok b4 n s4 E4 H4) as (t4 & b5 & s5 & -> & E5 & H5 & T4).
  cbn [mbind option_bind]. destruct t4 as [t4|]; [eauto 6|].
  destruct (str_at_ok b5 n t2 E5 T2) as [v2 ->]. cbn [mbind option_bind].
  destruct t3 as [t3|].
  - destruct (str_at_ok b5 n t3 E5 T3) as [v3 ->]. cbn [mbind option_bind].
    destruct (key_line _ _ _ _ _). eauto 6.
  - destruct (key_line _ _ _ _ _). eauto 6.
Qed.

(** What a line can do to the keys: nothing, or [addKey]. *)
Lemma Spp_set_val_keys buf i s r buf' s' :
  Spp_set_val buf i s = Some (r, buf', s') ->
  s' = s \/ exists id type key dg, s' = snd (addKey s id type key dg false).
Proof.
  assert (forall id mt sz v, snd (key_line id mt sz v s) = s \/
    exists id' type key dg, snd (key_line id mt sz v s) = snd (addKey s id' type key dg false)) as K.
  { intros id [type dg] sz v. unfold key_line.
    destruct (match sz with None => _ | Some t => _ end) as [ks|]; [|by left].
    destruct (key_value v) as [key|]; [|by left].
    destruct (_ && _); [by left|]. right. by exists id, type, key, dg. }
  unfold Spp_set_val. intros H.
  repeat match type of H with
  | mbind _ ?e = Some _ => destruct e as [?|] eqn:?; [cbn [mbind option_bind] in H|done]
  | (let '(_, _) := ?e in _) = Some _ => destruct e eqn:?
  | (if ?b then _ else _) = Some _ => destruct b
  | match ?x with _ => _ end = Some _ => destruct x eqn:?
  end; simplify_eq; auto.
  all: match goal with
       | E : key_line ?a ?b ?c ?d _ = _ |- _ => pose proof (K a b c d) as Hk; by rewrite E in Hk
       end.
Qed.

(** What holds between two lines. *)
Definition good_Spp (s : Spp) : Prop := wf_Spp s /\ uint 8 (ownID s).
Definition good_pool (sa : SaFile) : Prop :=
  map_Forall (fun id s => wf_Spp s /\ 1 <= keys s /\ id = ownID s) sa.
Definition sa_inv (st : sa_st) : Prop := wf_Spp (sa_cspp st) /\ good_pool (sa_spps st).

Lemma sa_flush_inv cspp spps step spps' :
  wf_Spp cspp -> good_pool spps -> sa_flush cspp spps step = Some spps' -> good_pool spps'.
Proof.
  unfold sa_flush. intros Wc G. destruct (step =? 2); [|by intros [= <-]].
  destruct (Z.ltb_spec (keys cspp) 1); [done|]. intros [= <-]. by apply map_Forall_insert_2.
Qed.

Lemma sa_line_inv line st st' :
  sa_inv st -> sa_line line st = Some (Some st') -> sa_inv st'.
Proof.
  intros [W G] H. unfold sa_line in H. cbv zeta in H. set (b0 := store_line line (sa_buf st)) in *.
  destruct (skip_spaces b0 0) as [cur|]; [|done]. cbn [mbind option_bind] in H.
  destruct (b0 !! cur) as [c|]; [|done]. cbn [mbind option_bind] in H.
  destruct (bool_decide (c = x5b)).
  { unfold sa_section in H.
    repeat match type of H with
    | mbind _ ?e = Some _ => destruct e as [?|] eqn:?; [cbn [mbind option_bind] in H|done]
    | match ?x with _ => _ end = Some _ => destruct x eqn:?
    end; simplify_eq. split; [exact W|]. by eapply sa_flush_inv. }
  destruct (_ || _); [by simplify_eq|].
  destruct (sa_step st =? 1).
  { unfold sa_spp_line in H.
    repeat match type of H with
    | mbind _ ?e = Some _ => destruct e as [?|] eqn:?; [cbn [mbind option_bind] in H|done]
    | (let '(_, _) := ?e in _) = Some _ => destruct e eqn:?
    | (if ?b then _ else _) = Some _ => destruct b
    end; simplify_eq. split; [apply map_Forall_empty|exact G]. }
  destruct (sa_step st =? 2); [|done].
  destruct (Spp_set_val b0 cur (sa_cspp st)) as [[[r b] s]|] eqn:E; [|done].
  cbn [mbind option_bind] in H. destruct r; [|done]. simplify_eq. split; [|exact G].
  apply Spp_set_val_keys in E as [->|(id & ty & key & dg & ->)]; [done|].
  by apply wf_Spp_addKey.
Qed.

Lemma each_line_inv {St} (f : list byte -> St -> option (option St)) (I : St -> Prop) l st st' :
  (forall line st st', I st -> f line st = Some (Some st') -> I st') ->
  I st -> each_line f l st = Some (Some st') -> I st'.
Proof.
  intros Step. revert st. induction l as [|line l IH]; intros st Hi H; [by simplify_eq/=|].
  cbn in H. destruct (f line st) as [[st1|]|] eqn:E; [|done..]. cbn in H.
  by eapply IH; [eapply Step|].
Qed.

(** ** The files that stay in the array *)

(** Every line ends with a line feed and fits the array. *)
Definition text_file (f : list byte) : Prop := Forall (fun l => last l = Some x0a) (lines f).

Lemma fgets_len n f l r :
  fgets n f = (l, r) -> (length l <= n)%nat /\ f = l ++ r /\
  (n <> 0%nat -> f <> [] -> (length r < length f)%nat).
Proof.
  revert f l r. induction n as [|n IH]; intros f l r E; cbn in E.
  { simplify_eq. split; [done|]. split; [done|]. done. }
  destruct f as [|c f]; [simplify_eq; split; [cbn; lia|done]|].
  case_bool_decide; [simplify_eq; cbn; split; [lia|]; split; [done|lia]|].
  destruct (fgets n f) as [l' r'] eqn:F. simplify_eq. destruct (IH f l' r F) as (H1 & H2 & _).
  cbn. split; [lia|]. split; [by rewrite H2|]. intros _ _. rewrite H2, length_app. lia.
Qed.

(** The lines are the file. *)
Lemma lines_spec f : concat (lines f) = f /\ Forall (fun l => (length l < lineSize)%nat) (lines f).
Proof.
  unfold lines. generalize (Nat.le_refl (length f)). generalize (length f) at 2 3 4 as n.
  intros n. revert f. induction n as [|n IH]; intros [|c f] Hn; cbn in Hn; try lia; try by split.
  cbn [lines_fuel]. destruct (fgets (lineSize - 1) (c :: f)) as [l r] eqn:E.
  destruct (fgets_len _ _ _ _ E) as (H1 & H2 & H3). unfold lineSize in *.
  destruct (IH r) as [IH1 IH2]; [specialize (H3 ltac:(lia) ltac:(done)); cbn in H3; lia|].
  cbn [concat]. split; [by rewrite IH1|]. constructor; [lia|done].
Qed.

Lemma store_line_ends line buf :
  length buf = lineSize -> last line = Some x0a -> (length line < lineSize)%nat ->
  ends_at (store_line line buf) (length line) /\
  store_line line buf !! (length line - 1)%nat = Some x0a /\ (0 < length line)%nat.
Proof.
  intros L La Hl. unfold store_line. assert (0 < length line)%nat as H0 by (destruct line; [done|cbn; lia]).
  split; [split|split; [|done]].
  - rewrite length_app. cbn. rewrite length_drop. lia.
  - by apply list_lookup_middle.
  - rewrite lookup_app_l by lia. rewrite last_lookup in La.
    by replace (length line - 1)%nat with (pred (length line)) by lia.
Qed.

Lemma ends_at_len buf n : ends_at buf n -> length buf = lineSize.
Proof. by intros []. Qed.

Lemma sa_line_ok line st :
  length (sa_buf st) = lineSize -> last line = Some x0a -> (length line < lineSize)%nat ->
  exists r, sa_line line st = Some r /\ forall st', r = Some st' -> length (sa_buf st') = lineSize.
Proof.
  intros L La Hl. destruct (store_line_ends line _ L La Hl) as (E & Elf & H0).
  unfold sa_line. cbv zeta. set (b := store_line line (sa_buf st)) in *.
  destruct (skip_spaces_ok b _ 0 E ltac:(lia)) as (cur & c & -> & Hcur & Hc & Sc).
  cbn [mbind option_bind]. rewrite Hc. cbn [mbind option_bind].
  destruct (decide (c = x00)) as [->|Nz].
  { eexists. split; [done|]. intros st' [= <-]. by eapply ends_at_len. }
  assert (cur < length line)%nat as Hlt by (destruct E; destruct (decide (cur = length line)); [congruence|lia]).
  case_bool_decide as Br.
  - unfold sa_section.
    destruct (skip_spaces_ok b _ (S cur) E ltac:(lia)) as (c2 & ? & -> & H2 & _).
    cbn [mbind option_bind]. destruct (strchr_ok b _ c2 x5d E ltac:(lia) ltac:(done)) as (r & -> & Hr).
    cbn [mbind option_bind]. destruct r as [e|]; [|by eexists].
    destruct (strip_end_spaces_ok b _ cur c e E Hc Sc ltac:(lia)) as (b' & -> & E').
    cbn [mbind option_bind]. destruct (sa_flush _ _ _); [|by eexists].
    destruct (str_at_ok b' _ c2 E' ltac:(lia)) as [nm ->]. cbn [mbind option_bind].
    eexists. split; [done|]. intros st' [= <-]. by eapply ends_at_len.
  - destruct (_ || _).
    { eexists. split; [done|]. intros st' [= <-]. by eapply ends_at_len. }
    assert (isspace x0a = true) as Sl by done.
    destruct (sa_step st =? 1); [|destruct (sa_step st =? 2); [|by eexists]].
    + unfold sa_spp_line.
      destruct (next_space_token_ok b _ cur _ E Hlt Elf Sl) as (b1 & j & k & -> & E1 & Hj & Hk & Hn).
      cbn [mbind option_bind]. destruct (str_at_ok b1 _ cur E1 ltac:(lia)) as [nm ->].
      cbn [mbind option_bind]. destruct (negb _); [by eexists|].
      destruct (strlen_ok b1 _ k E1 Hk) as (m & -> & Hm). cbn [mbind option_bind].
      destruct (strip_end_spaces_ok b1 _ j x00 (k + m) E1 Hn isspace_nul ltac:(lia)) as (b2 & -> & E2).
      cbn [mbind option_bind]. destruct (str_at_ok b2 _ k E2 Hk) as [v ->].
      cbn [mbind option_bind]. destruct (strtol 0 v) as [ret rest]. destruct (_ || _); [by eexists|].
      eexists. split; [done|]. intros st' [= <-]. by eapply ends_at_len.
    + destruct (Spp_set_val_ok b _ cur _ (sa_cspp st) E Hlt Elf Sl) as (r & b' & s' & -> & Lb).
      cbn [mbind option_bind]. eexists. split; [done|]. destruct r; [|done]. by intros st' [= <-].
Qed.

Lemma each_line_ok {St} (f : list byte -> St -> option (option St)) (I : St -> Prop)
    (P : list byte -> Prop) l st :
  (forall line st, I st -> P line -> exists r, f line st = Some r /\ forall st', r = Some st' -> I st') ->
  I st -> Forall P l -> exists r, each_line f l st = Some r.
Proof.
  intros Ok. revert st. induction l as [|line l IH]; intros st Hi HP; [by eexists|].
  inversion_clear HP as [|?? H1 H2]. cbn. destruct (Ok line st Hi H1) as (r & -> & Hr).
  cbn [mbind option_bind]. destruct r as [st'|]; [|by eexists]. apply IH; auto.
Qed.

Lemma read_sa_total residue file sa :
  length residue = lineSize -> text_file file -> exists r, read_sa residue file sa = Some r.
Proof.
  intros Lr T.
  unfold read_sa. destruct (lines_spec file) as [_ Ll].
  edestruct (each_line_ok sa_line (fun st => length (sa_buf st) = lineSize)
    (fun l => last l = Some x0a /\ (length l < lineSize)%nat) (lines file)
    (mk_sa_st residue Spp_default ∅ 0)) as [r ->].
  - intros line st L [La Hl]. by apply sa_line_ok.
  - exact Lr.
  - apply Forall_and. by split.
  - cbn [mbind option_bind]. by eexists.
Qed.

(** ** The theorems *)

(** C40: On a file whose lines all end with a line feed and fit the array, the
    reader of the keys never leaves its array of characters, whatever the
    array held before: it returns, with success or with a refused line. *)
Theorem read_sa_safe (residue file : list byte) (sa : SaFile)
    (Lr : length residue = lineSize) (T : text_file file) :
  exists r, read_sa residue file sa = Some r.
Proof. by apply read_sa_total. Qed.

(** When the reader of the keys succeeds, every entry of the pool is an Spp
    with its own number as the key, that has at least one key, and whose keys
    are all well-formed; when it fails, the pool is the one before. *)
Theorem read_sa_pool (residue file : list byte) (sa sa' : SaFile) (ok : bool)
    (H : read_sa residue file sa = Some (ok, sa')) :
  if ok then good_pool sa' else sa' = sa.
Proof.
  unfold read_sa in H. destruct (each_line _ _ _) as [[st|]|] eqn:E; [|by simplify_eq/=..].
  assert (sa_inv st) as [W G].
  { eapply (each_line_inv sa_line sa_inv); [by apply sa_line_inv| |exact E].
    split; apply map_Forall_empty. }
  cbn in H. destruct (sa_flush _ _ _) as [spps|] eqn:F; simplify_eq; [|done].
  by eapply sa_flush_inv.
Qed.

Definition lf : list byte := [x0a].
Definition demo_sa_file : list byte :=
  bytes "# keys" ++ lf ++ bytes "[security_association]" ++ lf ++ bytes "spp 3" ++ lf ++
  bytes "1 SHA256-128 ASCII:secret" ++ lf ++ bytes "7 AES128 16 HEX:00112233445566778899aabbccddeeff" ++ lf.
Definition zeros_line : list byte := replicate lineSize x00.

Example demo_sa_file_read :
  fmap (fun '(r, sa) => (r, elements (dom sa),
          fmap (fun s => elements (dom (m_keys s))) (sa !! 3))) (read_sa zeros_line demo_sa_file ∅)
  = Some (true, [3], Some [7; 1]).
Proof. vm_compute. reflexivity. Qed.

(** The bound of a line is needed: a section header followed by 511 letters
    and no space makes [next_space_token] look for its separator beyond the
    array. *)
Theorem read_sa_overrun :
  read_sa zeros_line (bytes "[security_association]" ++ lf ++ replicate 511 x61) ∅ = None.
Proof. vm_compute. reflexivity. Qed.

Lemma text_file_demo : text_file demo_sa_file.
Proof. unfold text_file. vm_compute. repeat constructor. Qed.

Lemma read_sa_safe_witness : exists r, read_sa zeros_line demo_sa_file ∅ = Some r.
Proof.
  apply read_sa_safe.
  - reflexivity.
  - exact text_file_demo.
Defined.

Definition demo_pool : SaFile :=
  match read_sa zeros_line demo_sa_file ∅ with Some (_, sa) => sa | None => ∅ end.
Lemma read_sa_pool_witness :
  read_sa zeros_line demo_sa_file ∅ = Some (true, demo_pool) /\ good_pool demo_pool.
Proof.
  assert (read_sa zeros_line demo_sa_file ∅ = Some (true, demo_pool)) as E by (vm_compute; reflexivity).
  split; [exact E|]. exact (read_sa_pool zeros_line demo_sa_file ∅ demo_pool true E).
Defined.
