(* ===== verification/Message.v ===== *)
(** * Message.v: building and parsing messages

    The class [Message] of [src/src/msg.cpp] ([src/pub/msg.h]): its state, the
    operations that prepare a request, [build] and [parse] with the
    authentication TLV, and the list of the signalling TLVs.  The state is
    grouped as in the class declaration: build parameters, parsing parameters,
    the general parameters and the authentication.

    A buffer is its octets; [None] is an access outside of it, or the use of a
    null HMAC object.  A [BaseMngTlv *] that was never assigned is [Unset]
    (MngTlvs.v), so storing one is visible in the state.  Allocations do not
    fail. *)

From S2P Require Import Prelude Types Ids MsgProc Codec Structs MngTlvs.
From S2P Require Import MngTlvsSpec Dispatch SigTlvs Auth.

(** ** Constants *)

Definition ptp_major_ver : Z := 0x2.
Definition controlFieldMng : Z := 0x04.
Definition logMessageIntervalDef : Z := 0x7f.
Definition unicastFlag : Z := Z.shiftl 1 2.
Definition PTPProfileSpecific1 : Z := Z.shiftl 1 5.
Definition PTPProfileSpecific2 : Z := Z.shiftl 1 6.

(** Sizes of the packed structures. *)
Definition managementMessage_size : Z := 48.
Definition managementTLV_size : Z := 6.
Definition managementErrorTLV_size : Z := 8.
Definition authTlvSize : Z := 10.
Definition sigBaseSize : Z := 34 + 10.
Definition tlvSizeHdr : Z := 4.
Definition lengthFieldMngBase : Z := managementTLV_size - tlvSizeHdr.
Definition mngMsgBaseSize : Z := managementMessage_size + managementTLV_size.
Definition mngMsgMinSize : Z := managementMessage_size + tlvSizeHdr.

(** ** State *)

(** [MessageSigTlvs]: the TLVs of the last signalling message with their types. *)
Record MessageSigTlvs := mk_MessageSigTlvs {
  m_tlvs : list (Z * BaseSigTlv);
  m_lastSig : bool
}.

(** Build parameters. *)
Record build_st := mk_build_st {
  m_sendAction : actionField_e;
  m_msgLen : Z;
  m_dataSend : tlv_ptr;
  m_tlv_id : mng_vals_e
}.

(** Parsing parameters; [m_errorDisplay] is the text of the [PTPText_t], the
    only part of it that is ever read. *)
Record parse_st := mk_parse_st {
  m_sequence : Z;
  m_isUnicast : bool;
  m_PTPProfileSpecific : Z;
  m_replyAction : actionField_e;
  m_replayTlv_id : mng_vals_e;
  m_sdoId : Z;
  m_type : Z;
  m_mngType : Z;
  m_domainNumber : Z;
  m_versionPTP : Z;
  m_minorVersionPTP : Z;
  m_sigTlvs : MessageSigTlvs;
  m_dataGet : tlv_ptr;
  m_peer : PortIdentity_t;
  m_target : PortIdentity_t;
  m_errorId : Z;
  m_errorDisplay : list byte
}.

Definition set_m_sequence (v : Z) (p : parse_st) : parse_st :=
  mk_parse_st v (m_isUnicast p) (m_PTPProfileSpecific p) (m_replyAction p)
    (m_replayTlv_id p) (m_sdoId p) (m_type p) (m_mngType p) (m_domainNumber p)
    (m_versionPTP p) (m_minorVersionPTP p) (m_sigTlvs p) (m_dataGet p) (m_peer p)
    (m_target p) (m_errorId p) (m_errorDisplay p).
Definition set_m_isUnicast (v : bool) (p : parse_st) : parse_st :=
  mk_parse_st (m_sequence p) v (m_PTPProfileSpecific p) (m_replyAction p)
    (m_replayTlv_id p) (m_sdoId p) (m_type p) (m_mngType p) (m_domainNumber p)
    (m_versionPTP p) (m_minorVersionPTP p) (m_sigTlvs p) (m_dataGet p) (m_peer p)
    (m_target p) (m_errorId p) (m_errorDisplay p).
Definition set_m_PTPProfileSpecific (v : Z) (p : parse_st) : parse_st :=
  mk_parse_st (m_sequence p) (m_isUnicast p) v (m_replyAction p) (m_replayTlv_id p)
    (m_sdoId p) (m_type p) (m_mngType p) (m_domainNumber p) (m_versionPTP p)
    (m_minorVersionPTP p) (m_sigTlvs p) (m_dataGet p) (m_peer p) (m_target p)
    (m_errorId p) (m_errorDisplay p).
Definition set_m_replyAction (v : actionField_e) (p : parse_st) : parse_st :=
  mk_parse_st (m_sequence p) (m_isUnicast p) (m_PTPProfileSpecific p) v
    (m_replayTlv_id p) (m_sdoId p) (m_type p) (m_mngType p) (m_domainNumber p)
    (m_versionPTP p) (m_minorVersionPTP p) (m_sigTlvs p) (m_dataGet p) (m_peer p)
    (m_target p) (m_errorId p) (m_errorDisplay p).
Definition set_m_replayTlv_id (v : mng_vals_e) (p : parse_st) : parse_st :=
  mk_parse_st (m_sequence p) (m_isUnicast p) (m_PTPProfileSpecific p) (m_replyAction p)
    v (m_sdoId p) (m_type p) (m_mngType p) (m_domainNumber p) (m_versionPTP p)
    (m_minorVersionPTP p) (m_sigTlvs p) (m_dataGet p) (m_peer p) (m_target p)
    (m_errorId p) (m_errorDisplay p).
Definition set_m_sdoId (v : Z) (p : parse_st) : parse_st :=
  mk_parse_st (m_sequence p) (m_isUnicast p) (m_PTPProfileSpecific p) (m_replyAction p)
    (m_replayTlv_id p) v (m_type p) (m_mngType p) (m_domainNumber p) (m_versionPTP p)
    (m_minorVersionPTP p) (m_sigTlvs p) (m_dataGet p) (m_peer p) (m_target p)
    (m_errorId p) (m_errorDisplay p).
Definition set_m_type (v : Z) (p : parse_st) : parse_st :=
  mk_parse_st (m_sequence p) (m_isUnicast p) (m_PTPProfileSpecific p) (m_replyAction p)
    (m_replayTlv_id p) (m_sdoId p) v (m_mngType p) (m_domainNumber p) (m_versionPTP p)
    (m_minorVersionPTP p) (m_sigTlvs p) (m_dataGet p) (m_peer p) (m_target p)
    (m_errorId p) (m_errorDisplay p).
Definition set_m_mngType (v : Z) (p : parse_st) : parse_st :=
  mk_parse_st (m_sequence p) (m_isUnicast p) (m_PTPProfileSpecific p) (m_replyAction p)
    (m_replayTlv_id p) (m_sdoId p) (m_type p) v (m_domainNumber p) (m_versionPTP p)
    (m_minorVersionPTP p) (m_sigTlvs p) (m_dataGet p) (m_peer p) (m_target p)
    (m_errorId p) (m_errorDisplay p).
Definition set_m_domainNumber (v : Z) (p : parse_st) : parse_st :=
  mk_parse_st (m_sequence p) (m_isUnicast p) (m_PTPProfileSpecific p) (m_replyAction p)
    (m_replayTlv_id p) (m_sdoId p) (m_type p) (m_mngType p) v (m_versionPTP p)
    (m_minorVersionPTP p) (m_sigTlvs p) (m_dataGet p) (m_peer p) (m_target p)
    (m_errorId p) (m_errorDisplay p).
Definition set_m_versionPTP (v : Z) (p : parse_st) : parse_st :=
  mk_parse_st (m_sequence p) (m_isUnicast p) (m_PTPProfileSpecific p) (m_replyAction p)
    (m_replayTlv_id p) (m_sdoId p) (m_type p) (m_mngType p) (m_domainNumber p) v
    (m_minorVersionPTP p) (m_sigTlvs p) (m_dataGet p) (m_peer p) (m_target p)
    (m_errorId p) (m_errorDisplay p).
Definition set_m_minorVersionPTP (v : Z) (p : parse_st) : parse_st :=
  mk_parse_st (m_sequence p) (m_isUnicast p) (m_PTPProfileSpecific p) (m_replyAction p)
    (m_replayTlv_id p) (m_sdoId p) (m_type p) (m_mngType p) (m_domainNumber p)
    (m_versionPTP p) v (m_sigTlvs p) (m_dataGet p) (m_peer p) (m_target p) (m_errorId p)
    (m_errorDisplay p).
Definition set_m_sigTlvs (v : MessageSigTlvs) (p : parse_st) : parse_st :=
  mk_parse_st (m_sequence p) (m_isUnicast p) (m_PTPProfileSpecific p) (m_replyAction p)
    (m_replayTlv_id p) (m_sdoId p) (m_type p) (m_mngType p) (m_domainNumber p)
    (m_versionPTP p) (m_minorVersionPTP p) v (m_dataGet p) (m_peer p) (m_target p)
    (m_errorId p) (m_errorDisplay p).
Definition set_m_dataGet (v : tlv_ptr) (p : parse_st) : parse_st :=
  mk_parse_st (m_sequence p) (m_isUnicast p) (m_PTPProfileSpecific p) (m_replyAction p)
    (m_replayTlv_id p) (m_sdoId p) (m_type p) (m_mngType p) (m_domainNumber p)
    (m_versionPTP p) (m_minorVersionPTP p) (m_sigTlvs p) v (m_peer p) (m_target p)
    (m_errorId p) (m_errorDisplay p).
Definition set_m_peer (v : PortIdentity_t) (p : parse_st) : parse_st :=
  mk_parse_st (m_sequence p) (m_isUnicast p) (m_PTPProfileSpecific p) (m_replyAction p)
    (m_replayTlv_id p) (m_sdoId p) (m_type p) (m_mngType p) (m_domainNumber p)
    (m_versionPTP p) (m_minorVersionPTP p) (m_sigTlvs p) (m_dataGet p) v (m_target p)
    (m_errorId p) (m_errorDisplay p).
Definition set_m_target (v : PortIdentity_t) (p : parse_st) : parse_st :=
  mk_parse_st (m_sequence p) (m_isUnicast p) (m_PTPProfileSpecific p) (m_replyAction p)
    (m_replayTlv_id p) (m_sdoId p) (m_type p) (m_mngType p) (m_domainNumber p)
    (m_versionPTP p) (m_minorVersionPTP p) (m_sigTlvs p) (m_dataGet p) (m_peer p) v
    (m_errorId p) (m_errorDisplay p).
Definition set_m_errorId (v : Z) (p : parse_st) : parse_st :=
  mk_parse_st (m_sequence p) (m_isUnicast p) (m_PTPProfileSpecific p) (m_replyAction p)
    (m_replayTlv_id p) (m_sdoId p) (m_type p) (m_mngType p) (m_domainNumber p)
    (m_versionPTP p) (m_minorVersionPTP p) (m_sigTlvs p) (m_dataGet p) (m_peer p)
    (m_target p) v (m_errorDisplay p).
Definition set_m_errorDisplay (v : list byte) (p : parse_st) : parse_st :=
  mk_parse_st (m_sequence p) (m_isUnicast p) (m_PTPProfileSpecific p) (m_replyAction p)
    (m_replayTlv_id p) (m_sdoId p) (m_type p) (m_mngType p) (m_domainNumber p)
    (m_versionPTP p) (m_minorVersionPTP p) (m_sigTlvs p) (m_dataGet p) (m_peer p)
    (m_target p) (m_errorId p) v.

(** Authentication. *)
Record auth_st := mk_auth_st {
  m_keyID : Z;
  m_sppID : Z;
  m_sa : SaFile;
  m_haveAuth : bool;
  m_hmac : option HMAC_Key
}.

Record Message := mk_Message {
  bld : build_st;
  prs : parse_st;
  m_prms : MsgParams;
  auth : auth_st
}.

Definition set_bld (b : build_st) (m : Message) : Message :=
  mk_Message b (prs m) (m_prms m) (auth m).
Definition set_prs (p : parse_st) (m : Message) : Message :=
  mk_Message (bld m) p (m_prms m) (auth m).
Definition set_m_prms (p : MsgParams) (m : Message) : Message :=
  mk_Message (bld m) (prs m) p (auth m).
Definition set_auth (a : auth_st) (m : Message) : Message :=
  mk_Message (bld m) (prs m) (m_prms m) a.

(** ** Constructors and parameters *)

Definition set_transportSpecific (v : Z) (p : MsgParams) : MsgParams :=
  mk_MsgParams v (domainNumber p) (boundaryHops p) (minorVersion p) (isUnicast p)
    (implementSpecific p) (target p) (self_id p) (useZeroGet p) (rcvSignaling p)
    (filterSignaling p) (rcvSMPTEOrg p) (sendAuth p) (rcvAuth p) (allowSigTlvs p).
Definition set_target (v : PortIdentity_t) (p : MsgParams) : MsgParams :=
  mk_MsgParams (transportSpecific p) (domainNumber p) (boundaryHops p) (minorVersion p)
    (isUnicast p) (implementSpecific p) v (self_id p) (useZeroGet p) (rcvSignaling p)
    (filterSignaling p) (rcvSMPTEOrg p) (sendAuth p) (rcvAuth p) (allowSigTlvs p).
Definition set_domainNumber (v : Z) (p : MsgParams) : MsgParams :=
  mk_MsgParams (transportSpecific p) v (boundaryHops p) (minorVersion p) (isUnicast p)
    (implementSpecific p) (target p) (self_id p) (useZeroGet p) (rcvSignaling p)
    (filterSignaling p) (rcvSMPTEOrg p) (sendAuth p) (rcvAuth p) (allowSigTlvs p).

Definition Message_default (prms : MsgParams) : Message :=
  mk_Message (mk_build_st GET 0 Null NULL_PTP_MANAGEMENT)
    (mk_parse_st 0 true 0 RESPONSE NULL_PTP_MANAGEMENT 0 Management MANAGEMENT 0 2 1
       (mk_MessageSigTlvs [] false) Null PortIdentity_clear PortIdentity_clear 0 [])
    prms (mk_auth_st 0 255 ∅ false None).
Definition Message_new : Message := Message_default MsgParams_default.
Definition Message_new_prms (prms : MsgParams) : Message :=
  Message_default (if 0xf <? transportSpecific prms then set_transportSpecific 0 prms else prms).

Definition updateParams (prms : MsgParams) (m : Message) : bool * Message :=
  if 0xf <? transportSpecific prms then (false, m) else (true, set_m_prms prms m).

(** [useConfig] on the two values it takes from the configuration. *)
Definition useConfig (cfg_transportSpecific cfg_domainNumber : Z) (m : Message)
    : bool * Message :=
  if 0xf <? cfg_transportSpecific then (false, m)
  else (true, set_m_prms (set_domainNumber cfg_domainNumber
                 (set_transportSpecific cfg_transportSpecific (m_prms m))) m).

Definition setAllClocks (m : Message) : Message :=
  set_m_prms (set_target (mk_PortIdentity allClocks allPorts) (m_prms m)) m.
Definition isAllClocks (m : Message) : bool :=
  (portNumber (target (m_prms m)) =? allPorts) &&
  ClockIdentity_eq (clockIdentity (target (m_prms m))) allClocks.

(** ** The request *)

Definition setAction (actionField : actionField_e) (tlv_id : mng_vals_e) (dataSend : tlv_ptr)
    (m : Message) : bool * Message :=
  if negb (allowedAction (implementSpecific (m_prms m)) tlv_id actionField) then (false, m)
  else if negb (bool_decide (tlv_id = NULL_PTP_MANAGEMENT)) &&
          negb (bool_decide (actionField = GET)) &&
          negb (mi_size (mng_all_vals tlv_id) =? 0) then
    if negb (verifyTlv tlv_id dataSend) then (false, m)
    else (true, set_bld (mk_build_st actionField (m_msgLen (bld m)) dataSend tlv_id) m)
  else (true, set_bld (mk_build_st actionField (m_msgLen (bld m)) Null tlv_id) m).

Definition clearData (m : Message) : Message :=
  match m_dataSend (bld m) with
  | Null => m
  | _ => set_bld (mk_build_st GET (m_msgLen (bld m)) Null (m_tlv_id (bld m))) m
  end.

Definition useAuthTlv (m : Message) : bool :=
  m_haveAuth (auth m) && sendAuth (m_prms m).
Definition sendMacSize (m : Message) : Z :=
  mac_size (SaFile_spp (m_sa (auth m)) (m_sppID (auth m))) (m_keyID (auth m)).

Definition getMsgPlanedLen (m : Message) : Z :=
  let b := bld m in
  if negb (in_table (m_tlv_id b)) then -1
  else
    let addAuth := if useAuthTlv m then authTlvSize + sendMacSize m else 0 in
    if bool_decide (m_sendAction b = GET) && useZeroGet (m_prms m)
    then mngMsgBaseSize + addAuth
    else
      let tlv := if bool_decide (m_sendAction b = GET) then Null else m_dataSend b in
      let size := mi_size (mng_all_vals (m_tlv_id b)) in
      let noData := match tlv with Null => true | _ => false end in
      if (size =? -2) && noData && negb (bool_decide (m_sendAction b = GET)) then -2
      else
        let ret := if size =? -2 then dataFieldSize (m_tlv_id b) tlv else size in
        if ret <? 0 then ret
        else
          let ret := if Z.odd ret then ret + 1 else ret in
          ret + mngMsgBaseSize + addAuth.

(** ** Authentication *)

Section WithMac.
Context `{lib : MacLib}.

Definition useAuth (sa : SaFile) (sppID keyID : Z) (m : Message) : bool * Message :=
  if SaFile_have sa sppID keyID then
    let s := SaFile_spp sa sppID in
    match hmac_allocHMAC (htype s keyID) (Spp_key s keyID) with
    | None => (false, m)
    | Some hmac => (true, set_auth (mk_auth_st keyID sppID sa true (Some hmac)) m)
    end
  else (false, m).

(** [changeAuth(sppID, keyID)]; [changeAuth(keyID)] keeps the sppID. *)
Definition changeAuth (sppID keyID : Z) (m : Message) : bool * Message :=
  let a := auth m in
  if m_haveAuth a && SaFile_have (m_sa a) sppID keyID then
    let s := SaFile_spp (m_sa a) sppID in
    match hmac_allocHMAC (htype s keyID) (Spp_key s keyID) with
    | None => (false, m)
    | Some hmac => (true, set_auth (mk_auth_st keyID sppID (m_sa a) true (Some hmac)) m)
    end
  else (false, m).
Definition changeAuth_key (keyID : Z) (m : Message) : bool * Message :=
  changeAuth (m_sppID (auth m)) keyID m.

Definition disableAuth (m : Message) : Message :=
  let a := auth m in
  set_auth (mk_auth_st (m_keyID a) (m_sppID a) (m_sa a) false (m_hmac a)) m.
Definition usedAuthSppID (m : Message) : Z :=
  if m_haveAuth (auth m) then m_sppID (auth m) else -1.
Definition usedAuthKeyID (m : Message) : Z :=
  if m_haveAuth (auth m) then m_keyID (auth m) else 0.

(** ** build *)

(** The 48 octets of [managementMessage_p], with a given messageLength. *)
Definition header (m : Message) (sequence messageLength : Z) : list byte :=
  let p := m_prms m in
  [ z2b (Z.land (Z.lor Management (Z.shiftl (transportSpecific p) 4)) 0xff);
    z2b (Z.lor (Z.shiftl (minorVersion p) 4) ptp_major_ver) ] ++
  be_enc 2 messageLength ++
  [ z2b (domainNumber p); x00; z2b (if isUnicast p then unicastFlag else 0); x00 ] ++
  repeat x00 8 ++ repeat x00 4 ++
  ci_v (clockIdentity (self_id p)) ++ be_enc 2 (portNumber (self_id p)) ++
  be_enc 2 sequence ++
  [ z2b controlFieldMng; z2b logMessageIntervalDef ] ++
  ci_v (clockIdentity (target p)) ++ be_enc 2 (portNumber (target p)) ++
  [ z2b (boundaryHops p); z2b (boundaryHops p);
    z2b (actionField_val (m_sendAction (bld m))); x00 ].

(** The dataField: the error, the structure after building and the cursor. *)
Definition build_data (m : Message) (s : MsgProc)
    : option (MNG_PARSE_ERROR_e * tlv_ptr * MsgProc) :=
  let b := bld m in
  let noData := match m_dataSend b with Null => true | _ => false end in
  if negb (bool_decide (m_sendAction b = GET)) && negb noData then
    '(err, p, s) ← call_tlv_data (m_tlv_id b) (m_dataSend b) s;
    if negb (bool_decide (err = MNG_PARSE_ERROR_OK)) then Some (err, p, s)
    else if Z.odd (m_size s) then
      match procRes s with
      | Pass _ s => Some (MNG_PARSE_ERROR_OK, p, s)
      | Stop s => Some (MNG_PARSE_ERROR_TOO_SMALL, p, s)
      | Fault => None
      end
    else Some (MNG_PARSE_ERROR_OK, p, s)
  else if bool_decide (m_sendAction b = GET) && negb (useZeroGet (m_prms m)) &&
          negb (mi_size (mng_all_vals (m_tlv_id b)) =? 0) then
    let tlvSize := mi_size (mng_all_vals (m_tlv_id b)) in
    let tlvSize := if tlvSize =? -2 then dataFieldSize (m_tlv_id b) Null else tlvSize in
    if tlvSize <? 0 then Some (MNG_PARSE_ERROR_INVALID_ID, m_dataSend b, s)
    else
      let tlvSize := if Z.odd tlvSize then tlvSize + 1 else tlvSize in
      if m_left s <? tlvSize then Some (MNG_PARSE_ERROR_TOO_SMALL, m_dataSend b, s)
      else
        buf ← store (m_buf s) (m_cur s) (repeat x00 (Z.to_nat tlvSize));
        Some (MNG_PARSE_ERROR_OK, m_dataSend b, move tlvSize (set_m_buf buf s))
  else Some (MNG_PARSE_ERROR_OK, m_dataSend b, s).

(** The authentication TLV and the messageLength; [size] is the length of the
    message without it, [s] is the cursor after the dataField. *)
Definition build_auth (m : Message) (size : Z) (s : MsgProc)
    : option (MNG_PARSE_ERROR_e * Z * list byte) :=
  if useAuthTlv m then
    let macSize := sendMacSize m in
    if m_left s <? authTlvSize + macSize then Some (MNG_PARSE_ERROR_TOO_SMALL, size, m_buf s)
    else
      buf ← store (m_buf s) (m_cur s)
        (be_enc 2 AUTHENTICATION ++ be_enc 2 (authTlvSize + macSize - tlvSizeHdr) ++
         [z2b (m_sppID (auth m)); x00] ++ be_enc 4 (m_keyID (auth m)));
      let size := size + (authTlvSize + macSize) in
      buf ← store buf 2 (be_enc 2 size);
      hmac ← m_hmac (auth m);
      hData ← load buf 0 (size - macSize);
      match digest hmac hData macSize with
      | None => Some (MNG_PARSE_ERROR_AUTH, size, buf)
      | Some mac =>
          buf ← store buf (m_cur s + authTlvSize) mac;
          Some (MNG_PARSE_ERROR_OK, size, buf)
      end
  else
    buf ← store (m_buf s) 2 (be_enc 2 size);
    Some (MNG_PARSE_ERROR_OK, size, buf).

(** [build]: the error, the message object and the buffer. *)
Definition build (m : Message) (buf : list byte) (bufSize sequence : Z)
    : option (MNG_PARSE_ERROR_e * Message * list byte) :=
  if bufSize <? mngMsgBaseSize then Some (MNG_PARSE_ERROR_TOO_SMALL, m, buf)
  else
    let b := bld m in
    buf ← store buf 0 (header m sequence 0);
    buf ← store buf 48 (be_enc 2 MANAGEMENT);
    buf ← store buf 52 (be_enc 2 (mi_value (mng_all_vals (m_tlv_id b))));
    '(err, p, s) ← build_data m
      (mk_MsgProc true buf mngMsgBaseSize (bufSize - mngMsgBaseSize) 0 MNG_PARSE_ERROR_TOO_SMALL);
    let m := set_bld (mk_build_st (m_sendAction b) (m_msgLen b) p (m_tlv_id b)) m in
    if negb (bool_decide (err = MNG_PARSE_ERROR_OK)) then Some (err, m, m_buf s)
    else
      let size := mngMsgBaseSize + m_size s in
      if Z.odd size then Some (MNG_PARSE_ERROR_SIZE, m, m_buf s)
      else
        buf ← store (m_buf s) 50 (be_enc 2 (lengthFieldMngBase + m_size s));
        '(err, size, buf) ← build_auth m size (set_m_buf buf s);
        if negb (bool_decide (err = MNG_PARSE_ERROR_OK)) then Some (err, m, buf)
        else Some (MNG_PARSE_ERROR_OK,
                   set_bld (mk_build_st (m_sendAction b) size p (m_tlv_id b)) m, buf).

(** ** parse *)

(** Integers in network order at an offset. *)
Definition rd (n : nat) (buf : list byte) (off : Z) : option Z :=
  be_dec <$> load buf off (Z.of_nat n).
Definition rd8 : list byte -> Z -> option Z := rd 1.
Definition rd16 : list byte -> Z -> option Z := rd 2.
Definition rd32 : list byte -> Z -> option Z := rd 4.

(** [parseAuth]: [a] is the offset of the authentication TLV. *)
Definition parseAuth (m : Message) (buf : list byte) (a left : Z) (check : bool)
    : option MNG_PARSE_ERROR_e :=
  if left <? authTlvSize then Some MNG_PARSE_ERROR_AUTH_NONE
  else
    tlvType ← rd16 buf a;
    if check && negb (tlvType =? AUTHENTICATION) then Some MNG_PARSE_ERROR_AUTH_NONE
    else
      spp ← rd8 buf (a + 4);
      keyID ← rd32 buf (a + 6);
      if negb (SaFile_have (m_sa (auth m)) spp keyID) then Some MNG_PARSE_ERROR_AUTH_NOKEY
      else
        lengthField ← rd16 buf (a + 2);
        let n := if check then lengthField + tlvSizeHdr else left in
        if check && (left <? n) then Some MNG_PARSE_ERROR_AUTH
        else if check && (n <? authTlvSize) then Some MNG_PARSE_ERROR_AUTH
        else
          let n := n - authTlvSize in
          secParamIndicator ← rd8 buf (a + 5);
          if negb (secParamIndicator =? 0) then Some MNG_PARSE_ERROR_AUTH
          else if Z.odd n || (n <? 2) then Some MNG_PARSE_ERROR_AUTH
          else
            let s := SaFile_spp (m_sa (auth m)) spp in
            if mac_size s (m_keyID (auth m)) <? n then Some MNG_PARSE_ERROR_AUTH_WRONG
            else
              let same := (m_sppID (auth m) =? spp) && (m_keyID (auth m) =? keyID) in
              match (if same then m_hmac (auth m)
                     else hmac_allocHMAC (htype s keyID) (Spp_key s keyID)) with
              | None => if same then None else Some MNG_PARSE_ERROR_AUTH
              | Some hmac =>
                  hData ← load buf 0 (a + authTlvSize);
                  mac ← load buf (a + authTlvSize) n;
                  if verify hmac hData mac then Some MNG_PARSE_ERROR_OK
                  else Some MNG_PARSE_ERROR_AUTH_WRONG
              end.

(** *** Signalling messages *)

Definition clearToUse (t : MessageSigTlvs) : MessageSigTlvs := mk_MessageSigTlvs [] true.
Definition push (tlvType : Z) (tlv : option BaseSigTlv) (t : MessageSigTlvs) : MessageSigTlvs :=
  match tlv with
  | Some tlv => mk_MessageSigTlvs (m_tlvs t ++ [(tlvType, tlv)]) (m_lastSig t)
  | None => t
  end.

(** [m_cur += n] and [m_left -= n] without counting. *)
Definition skip (n : Z) (s : MsgProc) : MsgProc :=
  mk_MsgProc (m_build s) (m_buf s) (m_cur s + n) (m_left s - n) (m_size s) (m_err s).
Definition set_m_left (n : Z) (s : MsgProc) : MsgProc :=
  mk_MsgProc (m_build s) (m_buf s) (m_cur s) n (m_size s) (m_err s).

(** One TLV of [parseSig]: an error that ends the parsing, or the TLV to push. *)
Definition parseSigTlv (m : Message) (tlvType : Z) (s : MsgProc)
    : option (MNG_PARSE_ERROR_e + option BaseSigTlv * MsgProc) :=
  let spec := implementSpecific (m_prms m) in
  if tlvType =? MANAGEMENT_ERROR_STATUS then
    if m_left s <? managementErrorTLV_size then Some (inl MNG_PARSE_ERROR_TOO_SMALL)
    else
      errorId ← rd16 (m_buf s) (m_cur s);
      value ← rd16 (m_buf s) (m_cur s + 2);
      match findTlvId value spec with
      | None => Some (inr (None, s))
      | Some managementId =>
          let s := skip managementErrorTLV_size s in
          if 1 <? m_left s then
            match proc_PTPText zero_PTPText s with
            | Pass d s => Some (inr (Some (S_MANAGEMENT_ERROR_STATUS
                                 (mk_MANAGEMENT_ERROR_STATUS managementId errorId d)), s))
            | Stop _ => Some (inl MNG_PARSE_ERROR_TOO_SMALL)
            | Fault => None
            end
          else Some (inr (Some (S_MANAGEMENT_ERROR_STATUS
                       (mk_MANAGEMENT_ERROR_STATUS managementId errorId zero_PTPText)), s))
      end
  else if tlvType =? MANAGEMENT then
    if m_left s <? 2 then Some (inl MNG_PARSE_ERROR_TOO_SMALL)
    else
      value ← rd16 (m_buf s) (m_cur s);
      match findTlvId value spec with
      | Some managementId =>
          if 2 <? m_left s then
            '(err, mtlv, s) ← call_tlv_data managementId Unset (skip 2 s);
            if negb (bool_decide (err = MNG_PARSE_ERROR_OK)) then Some (inl err)
            else Some (inr (Some (S_MANAGEMENT (mk_MANAGEMENT managementId mtlv)), s))
          else Some (inr (None, s))
      | None => Some (inr (None, s))
      end
  else
    match sig_case spec tlvType with
    | Some f =>
        match f s with
        | Pass t s => Some (inr (Some t, s))
        | Stop s => Some (inl (m_err s))
        | Fault => None
        end
    | None => Some (inr (None, s))
    end.

(** The variables of the loop of [parseSig]. *)
Record sig_loop := mk_sig_loop {
  sl_tlvs : MessageSigTlvs;
  sl_leftAll : Z;
  sl_lastTlv : Z;
  sl_lastAuth : option (Z * Z); (* offset and length *)
  sl_errAuth : MNG_PARSE_ERROR_e
}.

(** One round of the loop: [inl] returns from [parseSig]. *)
Definition parseSig_round (m : Message) (v : sig_loop) (s : MsgProc)
    : option ((MNG_PARSE_ERROR_e * MessageSigTlvs) + (sig_loop * MsgProc)) :=
  tlvType ← rd16 (m_buf s) (m_cur s);
  lengthField ← rd16 (m_buf s) (m_cur s + 2);
  let a := m_cur s in
  let s := mk_MsgProc (m_build s) (m_buf s) (m_cur s + tlvSizeHdr) (m_left s) (m_size s) (m_err s) in
  let leftAll := sl_leftAll v - tlvSizeHdr in
  if leftAll <? lengthField then Some (inl (MNG_PARSE_ERROR_TOO_SMALL, sl_tlvs v))
  else
    let leftAll := leftAll - lengthField in
    if tlvType =? AUTHENTICATION then
      if m_haveAuth (auth m) then
        let lastAuthLen := uwrap 16 (lengthField + tlvSizeHdr) in
        if negb (Z.land (rcvAuth (m_prms m)) RCV_AUTH_SIG_ALL =? 0) then
          errAuth ← parseAuth m (m_buf s) a lastAuthLen false;
          if negb (bool_decide (errAuth = MNG_PARSE_ERROR_OK)) &&
             (Z.land (rcvAuth (m_prms m)) RCV_AUTH_IGNORE =? 0)
          then Some (inl (errAuth, sl_tlvs v))
          else Some (inr (mk_sig_loop (sl_tlvs v) leftAll tlvType (Some (a, lastAuthLen)) errAuth, s))
        else Some (inr (mk_sig_loop (sl_tlvs v) leftAll tlvType (Some (a, lastAuthLen))
                     (sl_errAuth v), s))
      else Some (inr (mk_sig_loop (sl_tlvs v) leftAll tlvType (sl_lastAuth v) (sl_errAuth v), s))
    else if filterSignaling (m_prms m) && negb (isSigTlv (m_prms m) tlvType) then
      Some (inr (mk_sig_loop (sl_tlvs v) leftAll tlvType (sl_lastAuth v) (sl_errAuth v),
                 mk_MsgProc (m_build s) (m_buf s) (m_cur s + lengthField) (m_left s)
                   (m_size s) (m_err s)))
    else
      r ← parseSigTlv m tlvType (set_m_left lengthField s);
      match r with
      | inl err => Some (inl (err, sl_tlvs v))
      | inr (tlv, s) =>
          let s := if 0 <? m_left s
                   then mk_MsgProc (m_build s) (m_buf s) (m_cur s + m_left s) (m_left s)
                          (m_size s) (m_err s)
                   else s in
          Some (inr (mk_sig_loop (push tlvType tlv (sl_tlvs v)) leftAll tlvType
                       (sl_lastAuth v) (sl_errAuth v), s))
      end.

(** What follows the loop. *)
Definition parseSig_end (m : Message) (buf : list byte) (v : sig_loop)
    : option (MNG_PARSE_ERROR_e * MessageSigTlvs) :=
  if m_haveAuth (auth m) &&
     negb (Z.land (rcvAuth (m_prms m)) (Z.lor RCV_AUTH_SIG_ALL RCV_AUTH_SIG_LAST) =? 0) then
    if negb (sl_lastTlv v =? AUTHENTICATION) then Some (MNG_PARSE_ERROR_AUTH_NONE, sl_tlvs v)
    else
      errAuth ← (if Z.land (rcvAuth (m_prms m)) RCV_AUTH_SIG_ALL =? 0 then
                   '(a, n) ← sl_lastAuth v; parseAuth m buf a n false
                 else Some (sl_errAuth v));
      if negb (bool_decide (errAuth = MNG_PARSE_ERROR_OK)) then Some (errAuth, sl_tlvs v)
      else Some (MNG_PARSE_ERROR_SIG, sl_tlvs v)
  else Some (MNG_PARSE_ERROR_SIG, sl_tlvs v).

(** The loop; every round uses at least [tlvSizeHdr] octets of [leftAll], which
    bounds the fuel. *)
Fixpoint parseSig_loop (fuel : nat) (m : Message) (v : sig_loop) (s : MsgProc)
    : option (MNG_PARSE_ERROR_e * MessageSigTlvs) :=
  if sl_leftAll v <? tlvSizeHdr then parseSig_end m (m_buf s) v
  else
    match fuel with
    | O => None
    | S fuel =>
        r ← parseSig_round m v s;
        match r with
        | inl r => Some r
        | inr (v, s) => parseSig_loop fuel m v s
        end
    end.

Definition parseSig (m : Message) (s : MsgProc) : option (MNG_PARSE_ERROR_e * Message) :=
  let leftAll := m_size s in
  let v := mk_sig_loop (clearToUse (m_sigTlvs (prs m))) leftAll 0 None MNG_PARSE_ERROR_OK in
  '(err, tlvs) ← parseSig_loop (S (Z.to_nat leftAll)) m v s;
  Some (err, set_prs (set_m_sigTlvs tlvs (prs m)) m).

(** *** Management messages *)

(** The TLV of a management message: [size] is its lengthField. *)
Definition parseMngTlv (m : Message) (buf : list byte) (tlvType actionField tlvSize : Z)
    (errAuth : MNG_PARSE_ERROR_e) : option (MNG_PARSE_ERROR_e * Message) :=
  let spec := implementSpecific (m_prms m) in
  let p := prs m in
  let done e p := Some (e, set_prs p m) in
  let reply := (actionField =? actionField_val RESPONSE) ||
               (actionField =? actionField_val ACKNOWLEDGE) in
  let replyAction := if actionField =? actionField_val RESPONSE then RESPONSE else ACKNOWLEDGE in
  if tlvType =? MANAGEMENT_ERROR_STATUS then
    if negb reply then done MNG_PARSE_ERROR_ACTION p
    else
      let p := set_m_replyAction replyAction p in
      if tlvSize <? managementErrorTLV_size then done MNG_PARSE_ERROR_TOO_SMALL p
      else
        errorId ← rd16 buf 52;
        value ← rd16 buf 54;
        match findTlvId value spec with
        | None => done MNG_PARSE_ERROR_INVALID_ID p
        | Some id =>
            let p := set_m_replayTlv_id id p in
            if negb (checkReplyAction id actionField) then done MNG_PARSE_ERROR_ACTION p
            else
              let p := set_m_errorId errorId p in
              let left := tlvSize - managementErrorTLV_size in
              let result e := if bool_decide (e = MNG_PARSE_ERROR_OK)
                              then MNG_PARSE_ERROR_MSG else e in
              if 1 <? left then
                match proc_PTPText (mk_PTPText 0 (m_errorDisplay p))
                        (mk_MsgProc false buf 60 left 0 MNG_PARSE_ERROR_TOO_SMALL) with
                | Pass d _ => done (result errAuth) (set_m_errorDisplay (textField d) p)
                | Stop _ => done MNG_PARSE_ERROR_TOO_SMALL p
                | Fault => None
                end
              else done (result errAuth) p
        end
  else if tlvType =? MANAGEMENT then
    if negb reply then done MNG_PARSE_ERROR_ACTION p
    else
      let p := set_m_replyAction replyAction p in
      if tlvSize <? lengthFieldMngBase then done MNG_PARSE_ERROR_TOO_SMALL p
      else
        value ← rd16 buf 52;
        match findTlvId value spec with
        | None => done MNG_PARSE_ERROR_INVALID_ID p
        | Some id =>
            let p := set_m_replayTlv_id id p in
            if negb (checkReplyAction id actionField) then done MNG_PARSE_ERROR_ACTION p
            else
              let left := tlvSize - lengthFieldMngBase in
              if left =? 0 then done errAuth p
              else
                '(err, tlv, _) ← call_tlv_data id Unset
                  (mk_MsgProc false buf 54 left 0 MNG_PARSE_ERROR_TOO_SMALL);
                if negb (bool_decide (err = MNG_PARSE_ERROR_OK)) then done err p
                else done errAuth (set_m_dataGet tlv p)
        end
  else if (tlvType =? ORGANIZATION_EXTENSION) && rcvSMPTEOrg (m_prms m) then
    if negb (actionField =? actionField_val COMMAND) then done MNG_PARSE_ERROR_ACTION p
    else
      let p := set_m_replyAction COMMAND p in
      match SMPTE_ORGANIZATION_EXTENSION_f init_SMPTE_ORGANIZATION_EXTENSION
              (mk_MsgProc false buf 52 tlvSize 0 MNG_PARSE_ERROR_TOO_SMALL) with
      | Pass d _ =>
          done (if bool_decide (errAuth = MNG_PARSE_ERROR_OK)
                then MNG_PARSE_ERROR_SMPTE else errAuth)
            (set_m_replayTlv_id SMPTE_MNG_ID
               (set_m_dataGet (Obj (T_SMPTE_ORGANIZATION_EXTENSION d)) p))
      | Stop s => done (m_err s) p
      | Fault => None
      end
  else done MNG_PARSE_ERROR_INVALID_TLV p.

(** The management part of [parse]. *)
Definition parseMng (m : Message) (buf : list byte) (msgSize : Z)
    : option (MNG_PARSE_ERROR_e * Message) :=
  let p := prs m in
  let p := set_m_sigTlvs (mk_MessageSigTlvs (m_tlvs (m_sigTlvs p)) false) p in
  action ← rd8 buf 46;
  let actionField := Z.land 0xf action in
  if negb ((actionField =? actionField_val RESPONSE) ||
           (actionField =? actionField_val ACKNOWLEDGE) ||
           (actionField =? actionField_val COMMAND))
  then Some (MNG_PARSE_ERROR_ACTION, set_prs p m)
  else
    tlvType ← rd16 buf 48;
    let p := set_m_mngType tlvType p in
    tlvSize ← rd16 buf 50;
    let msgSize := msgSize - mngMsgMinSize in
    let m := set_prs p m in
    if (msgSize <? tlvSize) || Z.odd tlvSize then Some (MNG_PARSE_ERROR_TOO_SMALL, m)
    else
      let msgSize := msgSize - tlvSize in
      if m_haveAuth (auth m) && negb (Z.land (rcvAuth (m_prms m)) RCV_AUTH_MNG =? 0) then
        errAuth ← parseAuth m buf (52 + tlvSize) msgSize true;
        if negb (bool_decide (errAuth = MNG_PARSE_ERROR_OK)) &&
           (Z.land (rcvAuth (m_prms m)) RCV_AUTH_IGNORE =? 0)
        then Some (errAuth, m)
        else parseMngTlv m buf tlvType actionField tlvSize errAuth
      else parseMngTlv m buf tlvType actionField tlvSize MNG_PARSE_ERROR_OK.

(** The fields of the header, once the type is known. *)
Definition parseHeader (buf : list byte) (p : parse_st) : option (bool * parse_st) :=
  b0 ← rd8 buf 0;
  version ← rd8 buf 1;
  let p := set_m_versionPTP (Z.land version 0xf) p in
  let p := set_m_minorVersionPTP (Z.shiftr version 4) p in
  interval ← rd8 buf 33;
  if negb (m_versionPTP p =? ptp_major_ver) || negb (interval =? logMessageIntervalDef)
  then Some (false, p)
  else
    minorSdoId ← rd8 buf 5;
    let p := set_m_sdoId (Z.lor minorSdoId (Z.shiftl (Z.land b0 0xf0) 4)) p in
    domain ← rd8 buf 4;
    let p := set_m_domainNumber domain p in
    flag ← rd8 buf 6;
    let p := set_m_isUnicast (negb (Z.land flag unicastFlag =? 0)) p in
    let p := set_m_PTPProfileSpecific
               (Z.land flag (Z.lor PTPProfileSpecific1 PTPProfileSpecific2)) p in
    sequenceId ← rd16 buf 30;
    let p := set_m_sequence sequenceId p in
    srcPort ← rd16 buf 28;
    srcClock ← load buf 20 8;
    let p := set_m_peer (mk_PortIdentity (mk_ClockIdentity srcClock) srcPort) p in
    tgtPort ← rd16 buf 42;
    tgtClock ← load buf 34 8;
    let p := set_m_target (mk_PortIdentity (mk_ClockIdentity tgtClock) tgtPort) p in
    Some (true, p).

Definition parse (m : Message) (buf : list byte) (bufSize : Z)
    : option (MNG_PARSE_ERROR_e * Message) :=
  if bufSize <? sigBaseSize then Some (MNG_PARSE_ERROR_TOO_SMALL, m)
  else
    msgSize ← rd16 buf 2;
    if bufSize <? msgSize then Some (MNG_PARSE_ERROR_HEADER, m)
    else
      b0 ← rd8 buf 0;
      let type := Z.land b0 0xf in
      let m := set_prs (set_m_type type (prs m)) m in
      if (type =? Signaling) && negb (rcvSignaling (m_prms m))
      then Some (MNG_PARSE_ERROR_HEADER, m)
      else if (type =? Management) && (msgSize <? mngMsgMinSize)
      then Some (MNG_PARSE_ERROR_TOO_SMALL, m)
      else if negb (type =? Signaling) && negb (type =? Management)
      then Some (MNG_PARSE_ERROR_HEADER, m)
      else
        '(good, p) ← parseHeader buf (prs m);
        let m := set_prs p m in
        if negb good then Some (MNG_PARSE_ERROR_HEADER, m)
        else if type =? Signaling then
          parseSig m (mk_MsgProc false buf sigBaseSize 0 (msgSize - sigBaseSize)
                        MNG_PARSE_ERROR_TOO_SMALL)
        else parseMng m buf msgSize.

(** [parse] on a [Buf]. *)
Definition parse_Buf (m : Message) (buf : list byte) (bufSize : Z)
    : option (MNG_PARSE_ERROR_e * Message) :=
  if len buf <? bufSize then Some (MNG_PARSE_ERROR_TOO_SMALL, m) else parse m buf bufSize.
Definition build_Buf (m : Message) (buf : list byte) (sequence : Z)
    : option (MNG_PARSE_ERROR_e * Message * list byte) :=
  build m buf (len buf) sequence.
End WithMac.

(** ** Results of the last parse *)

Definition isLastMsgSig (m : Message) : bool := m_type (prs m) =? Signaling.
Definition isLastMsgSMPTE (m : Message) : bool :=
  (m_type (prs m) =? Management) && (m_mngType (prs m) =? ORGANIZATION_EXTENSION) &&
  bool_decide (m_replayTlv_id (prs m) = SMPTE_MNG_ID).

(** [MessageSigTlvs]: access by position and traversal. *)
Definition sig_size (t : MessageSigTlvs) : Z := if m_lastSig t then len (m_tlvs t) else 0.
Definition sig_at (t : MessageSigTlvs) (pos : Z) : option (Z * BaseSigTlv) :=
  if m_lastSig t && (0 <=? pos) && (pos <? len (m_tlvs t))
  then m_tlvs t !! Z.to_nat pos else None.
Definition sig_get (t : MessageSigTlvs) (pos : Z) : option BaseSigTlv := snd <$> sig_at t pos.
Definition sig_getType (t : MessageSigTlvs) (pos : Z) : Z :=
  match sig_at t pos with Some (ty, _) => ty | None => 0 end.
Definition sig_getMng (t : MessageSigTlvs) (pos : Z) : option MANAGEMENT_t :=
  match sig_at t pos with
  | Some (ty, S_MANAGEMENT d) => if ty =? MANAGEMENT then Some d else None
  | _ => None
  end.
Definition sig_getTlvId (t : MessageSigTlvs) (pos : Z) : mng_vals_e :=
  match sig_getMng t pos with Some d => mng_managementId d | None => NULL_PTP_MANAGEMENT end.
Definition sig_getMngTlv (t : MessageSigTlvs) (pos : Z) : tlv_ptr :=
  match sig_getMng t pos with Some d => mng_tlvData d | None => Null end.

(** [traverse]: the callback, with its own state, until it returns true. *)
Fixpoint traverse_list {S} (f : S -> Z -> BaseSigTlv -> bool * S)
    (l : list (Z * BaseSigTlv)) (st : S) : bool * S :=
  match l with
  | [] => (false, st)
  | (ty, t) :: l => let '(stop, st) := f st ty t in
                    if stop then (true, st) else traverse_list f l st
  end.
Definition traverse {S} (f : S -> Z -> BaseSigTlv -> bool * S)
    (t : MessageSigTlvs) (st : S) : bool * S :=
  if m_lastSig t then traverse_list f (m_tlvs t) st else (false, st).
