(* ===== verification/ParseSafe.v ===== *)
(** * ParseSafe.v: parsing never leaves the buffer

    [parse] of Message.v always returns: it accesses no octet outside the
    buffer, uses no null HMAC object, and its loop over the signalling TLVs ends.
    The proofs follow the structure of the code, one lemma per function. *)

From S2P Require Import Prelude Types Ids MsgProc Codec Structs MngTlvs.
From S2P Require Import MngTlvsSpec Dispatch SigTlvs Auth Message.

(** ** Reading integers *)

Lemma rd_in n buf off :
  0 <= off -> off + Z.of_nat n <= len buf ->
  exists v, rd n buf off = Some v /\ uint (8 * Z.of_nat n) v.
Proof.
  intros H0 H1. unfold rd. rewrite load_in by lia. eexists. split; [done|].
  unfold uint. rewrite <- pow256.
  match goal with |- context [be_dec ?l] => pose proof (be_dec_range l) as Hr;
    assert (len l = Z.of_nat n) as E end.
  { unfold len in *. rewrite length_take, length_drop. lia. }
  by rewrite E in Hr.
Qed.

Lemma rd8_in buf off : 0 <= off -> off + 1 <= len buf -> exists v, rd8 buf off = Some v /\ uint 8 v.
Proof. intros. apply (rd_in 1); lia. Qed.
Lemma rd16_in buf off : 0 <= off -> off + 2 <= len buf -> exists v, rd16 buf off = Some v /\ uint 16 v.
Proof. intros. apply (rd_in 2); lia. Qed.
Lemma rd32_in buf off : 0 <= off -> off + 4 <= len buf -> exists v, rd32 buf off = Some v /\ uint 32 v.
Proof. intros. apply (rd_in 4); lia. Qed.

(** Do the next read of the goal, which is in range by arithmetic. *)
Ltac do_read v :=
  let H := fresh "R" v in let U := fresh "U" v in
  match goal with
  | |- context [@mbind option _ _ _ _ ?e] =>
      lazymatch e with
      | rd8 ?b ?o => destruct (rd8_in b o) as (v & H & U); [lia..|]
      | rd16 ?b ?o => destruct (rd16_in b o) as (v & H & U); [lia..|]
      | rd32 ?b ?o => destruct (rd32_in b o) as (v & H & U); [lia..|]
      end; rewrite H; cbn [mbind option_bind]
  end.

(** ** Texts that were read *)

Lemma access_build {A} n enc dec (v : A) s a s' :
  access n enc dec v s = Pass a s' -> m_build s' = m_build s.
Proof. unfold access. repeat case_match; intros; simplify_eq; cbn; congruence. Qed.

Lemma yields_PTPText d : yields (proc_PTPText d) (fun d' => len (textField d') <= 255).
Proof.
  intros s d' s' Hb. unfold proc_PTPText. destruct (255 <? _); [done|]. unfold bind.
  destruct (proc_u8 _ s) as [k s1|s1|] eqn:E1; [|done..].
  pose proof (yields_u8 _ _ _ _ Hb E1) as [_ Uk]. apply access_build in E1.
  unfold proc_string. rewrite E1, Hb.
  destruct (access _ _ _ _ s1) as [t s2|s2|] eqn:E2; [|done..]. intros [= <- <-].
  unfold access in E2. rewrite E1, Hb in E2. cbn [textField].
  destruct (m_left s1 <? k); [done|]. destruct (load _ _ _) as [bs|] eqn:L; [|done].
  injection E2 as <- _. unfold load in L. case_bool_decide; [|done]. injection L as <-.
  unfold len. rewrite length_take. lia.
Qed.

(** ** Invariants of the message object *)

Section Safe.
Context `{lib : MacLib}.

(** While authentication is in use, the HMAC object is the one of the key. *)
Definition auth_inv (a : auth_st) : Prop :=
  m_haveAuth a = true ->
  SaFile_have (m_sa a) (m_sppID a) (m_keyID a) = true /\
  m_hmac a = Some (mk_HMAC_Key (htype (SaFile_spp (m_sa a) (m_sppID a)) (m_keyID a))
                     (Spp_key (SaFile_spp (m_sa a) (m_sppID a)) (m_keyID a))).

Definition display_inv (p : parse_st) : Prop := len (m_errorDisplay p) <= 255.

(** Parsing changes only the parsing parameters. *)
Definition parse_result (m : Message) (r : option (MNG_PARSE_ERROR_e * Message)) : Prop :=
  exists e p, r = Some (e, set_prs p m) /\ display_inv p.

Lemma set_prs_prs p p' m : set_prs p (set_prs p' m) = set_prs p m.
Proof. done. Qed.

Lemma parse_result_set p m r : parse_result (set_prs p m) r -> parse_result m r.
Proof. intros (e & p' & -> & H). by exists e, p'. Qed.

(** ** Authentication *)

Lemma parseAuth_total m buf a left check :
  auth_inv (auth m) -> m_haveAuth (auth m) = true -> 0 <= a -> a + left <= len buf ->
  exists e, parseAuth m buf a left check = Some e.
Proof.
  intros Hi Ha H0 Hl. destruct (Hi Ha) as [_ Hh]. unfold parseAuth, authTlvSize, tlvSizeHdr.
  destruct (Z.ltb_spec left 10); [by eexists|].
  do_read ty. destruct (check && _); [by eexists|].
  do_read spp. do_read key. destruct (negb (SaFile_have _ _ _)); [by eexists|].
  do_read lf. set (n := if check then lf + 4 else left).
  destruct (check && (left <? n)) eqn:E1; [by eexists|].
  destruct (check && (n <? 10)) eqn:E2; [by eexists|].
  assert (10 <= n <= left) as Hn by (subst n; destruct check; cbn in *; lia).
  do_read ind. destruct (negb (ind =? 0)); [by eexists|].
  destruct (Z.odd (n - 10) || (n - 10 <? 2)) eqn:E3; [by eexists|].
  destruct (mac_size _ _ <? n - 10); [by eexists|].
  rewrite Hh, !load_in by lia.
  destruct ((m_sppID (auth m) =? spp) && (m_keyID (auth m) =? key)).
  - cbn [mbind option_bind]. destruct (verify _ _ _); by eexists.
  - destruct (hmac_allocHMAC _ _); [|by eexists].
    cbn [mbind option_bind]. destruct (verify _ _ _); by eexists.
Qed.

(** ** One signalling TLV *)

(** The cursor of a TLV after some of it was read. *)
Definition inside (s s' : MsgProc) : Prop :=
  ok s' /\ m_build s' = false /\ m_buf s' = m_buf s /\
  m_cur s' + m_left s' = m_cur s + m_left s /\ m_err s' <> MNG_PARSE_ERROR_OK.

Lemma inside_refl s : ok s -> m_build s = false -> m_err s <> MNG_PARSE_ERROR_OK -> inside s s.
Proof. done. Qed.
Lemma inside_follows s s0 s' :
  inside s s0 -> ok s' -> follows s0 s' -> inside s s'.
Proof.
  intros (_ & Hb & Hbuf & Hs & He) Hok (F1 & F2 & F3 & _ & _ & F6).
  split; [done|]. split; [congruence|]. split; [congruence|]. split; [lia|auto].
Qed.
Lemma inside_skip n s :
  ok s -> m_build s = false -> m_err s <> MNG_PARSE_ERROR_OK -> 0 <= n <= m_left s ->
  inside s (skip n s).
Proof. intros (?&?&?) ? ? ?. unfold inside, ok, skip; cbn. repeat split; done || lia. Qed.

(** What [parseSigTlv] returns. *)
Definition sig_tlv_result (s : MsgProc)
    (r : option (MNG_PARSE_ERROR_e + option BaseSigTlv * MsgProc)) : Prop :=
  exists x, r = Some x /\
    match x with inl e => e <> MNG_PARSE_ERROR_OK | inr (_, s') => inside s s' end.

Lemma parseSigTlv_total m ty s :
  ok s -> m_build s = false -> m_err s <> MNG_PARSE_ERROR_OK ->
  sig_tlv_result s (parseSigTlv m ty s).
Proof.
  intros Hs Hb He. unfold parseSigTlv, managementErrorTLV_size.
  pose proof (inside_refl s Hs Hb He) as I0. destruct (Hs) as (H0 & Hl & Hbuf).
  destruct (ty =? MANAGEMENT_ERROR_STATUS).
  { destruct (Z.ltb_spec (m_left s) 8); [by eexists|].
    do_read e. do_read v. destruct (findTlvId v _) as [id|]; [|by eexists].
    pose proof (inside_skip 8 s Hs Hb He ltac:(lia)) as I.
    destruct (1 <? m_left (skip 8 s)); [|by eexists].
    destruct (reads_PTPText _ _ fresh_zero_PTPText fresh_zero_PTPText (skip 8 s)) as [_ R];
      [apply I|done|].
    destruct (proc_PTPText zero_PTPText (skip 8 s)) as [d s'|s'|]; [|by eexists|done].
    destruct R as (Hok & F & _). eexists. split; [done|]. by eapply inside_follows. }
  destruct (ty =? MANAGEMENT).
  { destruct (Z.ltb_spec (m_left s) 2); [by eexists|].
    do_read v. destruct (findTlvId v _) as [id|]; [|by eexists].
    destruct (Z.ltb_spec 2 (m_left s)); [|by eexists].
    pose proof (inside_skip 2 s Hs Hb He ltac:(lia)) as I.
    destruct (call_tlv_parse id Unset (skip 2 s)) as (e & p & s' & -> & Hok & F & _); [apply I..|].
    cbn [mbind option_bind]. destruct (bool_decide_reflect (e = MNG_PARSE_ERROR_OK)); cbn [negb];
      [|by eexists].
    eexists. split; [done|]. by eapply inside_follows. }
  destruct (sig_case _ ty) as [f|] eqn:E; [|by eexists].
  destruct (reads_sig_case _ _ _ E s Hs Hb) as [_ R].
  destruct (f s) as [t s'|s'|]; [| |done].
  - destruct R as (Hok & F & _). eexists. split; [done|]. by eapply inside_follows.
  - destruct R as (Hok & F). eexists. split; [done|].
    by destruct (inside_follows _ _ _ I0 Hok F) as (_ & _ & _ & _ & ?).
Qed.

(** ** The loop over the signalling TLVs *)

(** The octets still to go are in the buffer, and the last authentication TLV
    that was seen as well. *)
Definition loop_inv (m : Message) (buf : list byte) (v : sig_loop) (s : MsgProc) : Prop :=
  m_build s = false /\ m_buf s = buf /\ m_err s <> MNG_PARSE_ERROR_OK /\ 0 <= m_cur s /\
  m_cur s + sl_leftAll v <= len buf /\ sl_leftAll v <= 0xffff /\
  (forall a n, sl_lastAuth v = Some (a, n) -> 0 <= a /\ a + n <= len buf) /\
  (sl_lastTlv v = AUTHENTICATION -> m_haveAuth (auth m) = true -> sl_lastAuth v <> None).

Lemma parseSig_round_total m buf v s :
  auth_inv (auth m) -> loop_inv m buf v s -> 4 <= sl_leftAll v ->
  exists r, parseSig_round m v s = Some r /\
    match r with
    | inl _ => True
    | inr (v', s') => loop_inv m buf v' s' /\ sl_leftAll v' <= sl_leftAll v - 4
    end.
Proof.
  intros Hi (Hb & Hbuf & He & H0 & Hl & H16 & HA & HT) H4. unfold parseSig_round. rewrite Hbuf.
  do_read ty. do_read lf. unfold uint in Ulf. unfold tlvSizeHdr.
  destruct (Z.ltb_spec (sl_leftAll v - 4) lf); [by eexists|].
  destruct (Z.eqb_spec ty AUTHENTICATION) as [->|N].
  { destruct (m_haveAuth (auth m)) eqn:Ha; cycle 1.
    { eexists. split; [done|]. split; [|cbn; lia]. unfold loop_inv; cbn.
      repeat (split; [done || lia || apply HA|]). congruence. }
    rewrite uwrap_small by (unfold uint; lia).
    assert (forall e t, loop_inv m buf (mk_sig_loop t (sl_leftAll v - 4 - lf) AUTHENTICATION
      (Some (m_cur s, lf + 4)) e)
      (mk_MsgProc (m_build s) buf (m_cur s + 4) (m_left s) (m_size s) (m_err s))) as Inv.
    { intros e t. unfold loop_inv; cbn. repeat (split; [done || lia|]).
      split; [intros ? ? [= <- <-]; lia|done]. }
    destruct (negb (Z.land _ RCV_AUTH_SIG_ALL =? 0)).
    - cbn [m_buf]. destruct (parseAuth_total m buf (m_cur s) (lf + 4) false Hi Ha) as [e ->]; [lia..|].
      cbn [mbind option_bind]. destruct (_ && _); [by eexists|].
      eexists. split; [done|]. split; [apply Inv|cbn; lia].
    - eexists. split; [done|]. split; [apply Inv|cbn; lia]. }
  destruct (filterSignaling (m_prms m) && _).
  { eexists. split; [done|]. split; [|cbn; lia]. unfold loop_inv; cbn.
    repeat (split; [done || lia || apply HA|]). congruence. }
  destruct (parseSigTlv_total m ty (set_m_left lf
    (mk_MsgProc (m_build s) buf (m_cur s + 4) (m_left s) (m_size s) (m_err s))))
    as (x & -> & Hx); [unfold ok; cbn; lia|done|done|].
  cbn [mbind option_bind]. destruct x as [e|[t s']]; [by eexists|].
  destruct Hx as ((K0 & K1 & K2) & I2 & I3 & I4 & I5). cbn in I3, I4. rewrite I3 in K2.
  eexists. split; [done|]. split; [|cbn; lia].
  unfold loop_inv; cbn. destruct (Z.ltb_spec 0 (m_left s')); cbn;
    (repeat (split; [done || lia || apply HA|])); congruence.
Qed.

Lemma parseSig_end_total m buf v s :
  auth_inv (auth m) -> loop_inv m buf v s -> exists r, parseSig_end m buf v = Some r.
Proof.
  intros Hi (_ & _ & _ & _ & _ & _ & HA & HT). unfold parseSig_end.
  destruct (m_haveAuth (auth m)) eqn:Ha; cbn [andb]; [|by eexists].
  destruct (negb (Z.land _ (Z.lor _ _) =? 0)); [|by eexists].
  destruct (Z.eqb_spec (sl_lastTlv v) AUTHENTICATION) as [E|]; cbn [negb]; [|by eexists].
  destruct (Z.land _ RCV_AUTH_SIG_ALL =? 0).
  - destruct (sl_lastAuth v) as [[a n]|] eqn:EA; [|by destruct (HT E eq_refl)].
    destruct (HA a n eq_refl). cbn [mbind option_bind].
    destruct (parseAuth_total m buf a n false Hi Ha) as [e ->]; [lia..|].
    cbn [mbind option_bind]. destruct (negb _); by eexists.
  - cbn [mbind option_bind]. destruct (negb _); by eexists.
Qed.

Lemma parseSig_loop_total fuel m buf v s :
  auth_inv (auth m) -> loop_inv m buf v s -> sl_leftAll v < Z.of_nat fuel ->
  exists r, parseSig_loop fuel m v s = Some r.
Proof.
  intros Hi. revert v s. induction fuel as [|fuel IH]; intros v s Inv Hf;
    cbn [parseSig_loop]; unfold tlvSizeHdr;
    (destruct (Z.ltb_spec (sl_leftAll v) 4);
      [destruct (Inv) as (_ & -> & _); by eapply parseSig_end_total|]); [lia|].
  destruct (parseSig_round_total m buf v s Hi Inv) as (r & -> & Hr); [lia|].
  cbn [mbind option_bind]. destruct r as [r|[v' s']]; [by eexists|].
  destruct Hr as [Inv' Hl]. apply IH; [done|lia].
Qed.

Lemma parseSig_total m buf n :
  auth_inv (auth m) -> display_inv (prs m) -> 44 + n <= len buf -> n <= 0xffff ->
  parse_result m (parseSig m (mk_MsgProc false buf sigBaseSize 0 n MNG_PARSE_ERROR_TOO_SMALL)).
Proof.
  intros Hi Hd Hl Hn. unfold parseSig; cbn [m_size].
  match goal with |- context [parseSig_loop ?f ?m ?v ?s] =>
    destruct (parseSig_loop_total f m buf v s Hi) as [[e t] ->] end.
  - unfold loop_inv, sigBaseSize; cbn. repeat (split; [done || lia|]). done.
  - cbn. lia.
  - cbn [mbind option_bind]. by eexists _, _.
Qed.

(** ** Management messages *)

Lemma parseMngTlv_total m buf ty act n eA :
  display_inv (prs m) -> 0 <= n -> 52 + n <= len buf ->
  parse_result m (parseMngTlv m buf ty act n eA).
Proof.
  intros Hd H0 Hl. unfold parseMngTlv, managementErrorTLV_size, lengthFieldMngBase,
    managementTLV_size, tlvSizeHdr.
  destruct (ty =? MANAGEMENT_ERROR_STATUS).
  { destruct (negb _); [by eexists _, _|]. destruct (Z.ltb_spec n 8); [by eexists _, _|].
    do_read e. do_read v. destruct (findTlvId v _) as [id|]; [|by eexists _, _].
    destruct (negb _); [by eexists _, _|].
    destruct (Z.ltb_spec 1 (n - 8)); [|by eexists _, _].
    match goal with |- context [proc_PTPText ?d ?s] =>
      destruct (reads_PTPText d d Hd Hd s) as [_ R]; [unfold ok; cbn; lia|done|];
      pose proof (yields_PTPText d s) as Y;
      destruct (proc_PTPText d s) as [d' s'|s'|]; [|by eexists _, _|done] end.
    eexists _, _. split; [done|]. by apply (Y d' s'). }
  destruct (ty =? MANAGEMENT).
  { destruct (negb _); [by eexists _, _|]. destruct (Z.ltb_spec n (6 - 4)); [by eexists _, _|].
    do_read v. destruct (findTlvId v _) as [id|]; [|by eexists _, _].
    destruct (negb _); [by eexists _, _|].
    destruct (Z.eqb_spec (n - (6 - 4)) 0); [by eexists _, _|].
    match goal with |- context [call_tlv_data id Unset ?s] =>
      destruct (call_tlv_parse id Unset s) as (e & p & s' & -> & _);
      [unfold ok; cbn; lia|done|] end.
    cbn [mbind option_bind]. destruct (negb _); by eexists _, _. }
  destruct (_ && _); [|by eexists _, _]. destruct (negb _); [by eexists _, _|].
  match goal with |- context [SMPTE_ORGANIZATION_EXTENSION_f ?d ?s] =>
    destruct (reads_SMPTE d d s) as [_ R]; [unfold ok; cbn; lia|done|];
    destruct (SMPTE_ORGANIZATION_EXTENSION_f d s) end; [by eexists _, _..|done].
Qed.

Lemma parseMng_total m buf n :
  auth_inv (auth m) -> display_inv (prs m) -> 52 <= n -> n <= len buf ->
  parse_result m (parseMng m buf n).
Proof.
  intros Hi Hd H0 Hl. unfold parseMng, mngMsgMinSize, managementMessage_size, tlvSizeHdr.
  do_read act. destruct (negb _); [by eexists _, _|].
  do_read ty. do_read tn. unfold uint in Utn.
  destruct ((n - (48 + 4) <? tn) || Z.odd tn) eqn:E; [by eexists _, _|].
  assert (tn <= n - 52) by lia.
  match goal with |- context [set_prs ?p m] => set (m1 := set_prs p m) end.
  assert (forall r, parse_result m1 r -> parse_result m r) as Lift by apply parse_result_set.
  change (auth m) with (auth m1) in *. change (m_prms m) with (m_prms m1).
  destruct (m_haveAuth (auth m1)) eqn:Ha; cbn [andb]; [destruct (negb _)|];
    [|by apply Lift, parseMngTlv_total; (done || lia)..].
  destruct (parseAuth_total m1 buf (52 + tn) (n - (48 + 4) - tn) true Hi Ha) as [e ->]; [lia..|].
  cbn [mbind option_bind]. destruct (_ && _); [by eexists _, _|].
  apply Lift, parseMngTlv_total; (done || lia).
Qed.

Lemma parseHeader_total buf p :
  44 <= len buf ->
  exists g p', parseHeader buf p = Some (g, p') /\ m_errorDisplay p' = m_errorDisplay p.
Proof.
  intros H. unfold parseHeader. do_read b0. do_read ve. do_read iv.
  destruct (negb _ || _); [by eexists _, _|].
  do_read sd. do_read dn. do_read fl. do_read sq. do_read sp.
  rewrite !load_in by lia. cbn [mbind option_bind]. do_read tp. by eexists _, _.
Qed.

Lemma parse_total m buf bufSize :
  auth_inv (auth m) -> display_inv (prs m) -> bufSize <= len buf ->
  parse_result m (parse m buf bufSize).
Proof.
  intros Hi Hd Hl. unfold parse. change sigBaseSize with 44.
  change mngMsgMinSize with 52.
  destruct (Z.ltb_spec bufSize 44); [exists MNG_PARSE_ERROR_TOO_SMALL, (prs m); by destruct m|].
  do_read n. unfold uint in Un.
  destruct (Z.ltb_spec bufSize n); [exists MNG_PARSE_ERROR_HEADER, (prs m); by destruct m|].
  do_read b0. set (ty := Z.land b0 0xf).
  match goal with |- context [set_prs ?p m] => set (m1 := set_prs p m) end.
  destruct ((ty =? Signaling) && _); [by eexists _, _|].
  destruct ((ty =? Management) && (n <? 52)) eqn:E1; [by eexists _, _|].
  destruct (negb (ty =? Signaling) && negb (ty =? Management)) eqn:E2; [by eexists _, _|].
  destruct (parseHeader_total buf (prs m1)) as (g & p & -> & Hp); [lia|].
  cbn [mbind option_bind]. assert (display_inv p) by (unfold display_inv; by rewrite Hp).
  destruct g; cbn [negb]; [|by eexists _, _].
  apply (parse_result_set (prs m1)), (parse_result_set p).
  destruct (ty =? Signaling) eqn:E3.
  - apply parseSig_total; [done..|lia|lia].
  - apply parseMng_total; [done..|cbn in E2; lia|lia].
Qed.

End Safe.

(** ** The theorem *)


(** A MAC for the examples: the sum of the octets of the key and of the data,
    in every octet. *)
Definition sum_octets (l : list byte) : Z := fold_right (fun b acc => b2z b + acc) 0 l.
#[global] Instance demo_mac : MacLib := {
  mac_alloc type key := true;
  mac_full type key data :=
    Some (repeat (z2b (sum_octets key + sum_octets data)) (Z.to_nat (min_digest type)));
  mac_residue := repeat x00 64
}.
#[global] Instance demo_laws : MacLaws demo_mac.
Proof.
  split.
  - intros type key data mac [= <-]. unfold len. rewrite repeat_length.
    pose proof (min_digest_range type). lia.
  - reflexivity.
Qed.

(** A pool with one key for the security parameters 1, and a message object that
    uses it. *)
Definition demo_sa : SaFile :=
  {[ 1 := snd (addKey (Spp_new 1) 5 HMAC_SHA256 [x61; x62; x63] 16 true) ]}.
Definition demo_auth : Message := snd (useAuth demo_sa 1 5 Message_new).

