(* ===== verification/MessageInv.v ===== *)
(** * MessageInv.v: the state machine of a message object

    The operations of [Message] as a step relation and the invariant of every
    reachable object; what [setAction] accepts; and what a successful parse
    leaves in the object. *)

From S2P Require Import Prelude Types Ids MsgProc Codec Structs MngTlvs.
From S2P Require Import MngTlvsSpec Dispatch SigTlvs Auth Message ParseSafe.

(** ** Preparing a request *)

(** The id allows the action, unless it is GET (see [clearData_forbidden_get]);
    the data to send belongs to the id, and is there when it is needed. *)
Definition action_bit (a : actionField_e) : Z := Z.shiftl 1 (actionField_val a).
Definition send_inv (b : build_st) : Prop :=
  in_table (m_tlv_id b) = true /\
  (m_sendAction b <> GET -> allowed_bit (m_tlv_id b) (action_bit (m_sendAction b)) = true) /\
  match m_dataSend b with
  | Null => m_sendAction b = GET \/ isEmpty (m_tlv_id b) = true
  | p => verifyTlv (m_tlv_id b) p = true /\ m_sendAction b <> GET
  end.

Lemma verifyTlv_nonempty id p : verifyTlv id p = true -> isEmpty id = false.
Proof.
  intros V. apply verifyTlv_inv in V as (D & inst & d & E & _). unfold isEmpty.
  destruct (in_table id) eqn:T; [|done]. destruct (Z.eqb_spec (mi_size (mng_all_vals id)) 0); [|done].
  by rewrite (proj2 (case_NA_size id) (conj T e)) in E.
Qed.

Lemma verifyTlv_in_table id p : verifyTlv id p = true -> in_table id = true.
Proof.
  intros V. apply verifyTlv_inv in V as (D & inst & d & E & _). by destruct id.
Qed.

Lemma allowed_in_table spec id a : allowedAction spec id a = true -> in_table id = true.
Proof. unfold allowedAction. destruct a; try done; by destruct (in_table id). Qed.

Lemma allowed_action_bit spec id a :
  allowedAction spec id a = true -> allowed_bit id (action_bit a) = true.
Proof.
  unfold allowedAction. destruct a; try done; (destruct (in_table id); [|done]);
    by destruct (blocked spec id).
Qed.

Lemma setAction_cases a id d m :
  setAction a id d m =
    let spec := implementSpecific (m_prms m) in
    let need := negb (bool_decide (a = GET)) && negb (isEmpty id) in
    let accept := allowedAction spec id a && (negb need || verifyTlv id d) in
    if accept
    then (true, set_bld (mk_build_st a (m_msgLen (bld m)) (if need then d else Null) id) m)
    else (false, m).
Proof.
  unfold setAction. destruct (allowedAction _ id a) eqn:A; [|done]. cbn [negb andb].
  apply allowed_in_table in A. unfold isEmpty. rewrite A. cbn [andb].
  destruct (bool_decide_reflect (id = NULL_PTP_MANAGEMENT)) as [->|]; cbn [negb andb].
  - rewrite andb_false_r. done.
  - destruct (negb (bool_decide (a = GET)) && _); [|done]. cbn [negb orb].
    by destruct (verifyTlv id d).
Qed.

(** The request that [setAction] stores meets the invariant. *)
Lemma setAction_send spec id a d n :
  let need := negb (bool_decide (a = GET)) && negb (isEmpty id) in
  allowedAction spec id a = true -> negb need || verifyTlv id d = true ->
  send_inv (mk_build_st a n (if need then d else Null) id).
Proof.
  cbv zeta. set (need := negb (bool_decide (a = GET)) && negb (isEmpty id)). intros A V.
  pose proof (allowed_action_bit _ _ _ A). apply allowed_in_table in A.
  split; [done|]. split; [done|]. cbn. destruct need eqn:N; subst need.
  - apply andb_prop in N as [N%negb_true_iff _]. apply bool_decide_eq_false in N.
    cbn in V. by destruct d.
  - destruct (bool_decide_reflect (a = GET)); [by left|right]. by destruct (isEmpty id).
Qed.

(** [setAction] accepts a request exactly when the action is GET, SET or
    COMMAND and allowed for the id, and, for a SET or a COMMAND of an id with a
    dataField, the data is a structure of the id; it then stores the request,
    keeping the data only when it is sent.  A refused request changes nothing. *)
Theorem setAction_correct a id d m :
  let need := negb (bool_decide (a = GET)) && negb (isEmpty id) in
  let (r, m') := setAction a id d m in
  (r = true <-> allowedAction (implementSpecific (m_prms m)) id a = true /\
     (need = true -> verifyTlv id d = true)) /\
  (r = true -> m_sendAction (bld m') = a /\ m_tlv_id (bld m') = id /\
     m_dataSend (bld m') = (if need then d else Null) /\ send_inv (bld m')) /\
  (r = false -> m' = m) /\
  prs m' = prs m /\ m_prms m' = m_prms m /\ auth m' = auth m.
Proof.
  cbv zeta. rewrite setAction_cases. cbv zeta.
  set (need := negb (bool_decide (a = GET)) && negb (isEmpty id)).
  destruct (allowedAction _ id a) eqn:A; cbn [andb]; [|by intuition].
  destruct (negb need || verifyTlv id d) eqn:V; cycle 1.
  { destruct need, (verifyTlv id d); try done. intuition congruence. }
  split; [|split; [|done]].
  - split; [intros _|done]. split; [done|]. intros ->. by destruct (verifyTlv id d).
  - intros _. cbn. do 3 (split; [done|]). by eapply setAction_send.
Qed.

(** [clearData] can leave a request that [setAction] refuses: it replaces the
    action by GET whatever the id allows. *)
Theorem clearData_forbidden_get :
  exists m, fst (setAction COMMAND INITIALIZE (Obj (T_INITIALIZE (mk_INITIALIZE 1))) Message_new)
              = true /\
    m = clearData (snd (setAction COMMAND INITIALIZE (Obj (T_INITIALIZE (mk_INITIALIZE 1)))
                          Message_new)) /\
    m_sendAction (bld m) = GET /\ m_tlv_id (bld m) = INITIALIZE /\
    fst (setAction GET INITIALIZE Null m) = false.
Proof. eexists. split; [reflexivity|]. split; [reflexivity|]. by vm_compute. Qed.

(** ** The operations as steps *)

Section Steps.
Context `{lib : MacLib}.

Inductive msg_step : Message -> Message -> Prop :=
| step_setAction a id d m : d <> Unset -> msg_step m (snd (setAction a id d m))
| step_clearData m : msg_step m (clearData m)
| step_updateParams prms m : msg_step m (snd (updateParams prms m))
| step_useConfig ts dn m : msg_step m (snd (useConfig ts dn m))
| step_setAllClocks m : msg_step m (setAllClocks m)
| step_useAuth sa spp key m : msg_step m (snd (useAuth sa spp key m))
| step_changeAuth spp key m : msg_step m (snd (changeAuth spp key m))
| step_changeAuth_key key m : msg_step m (snd (changeAuth_key key m))
| step_disableAuth m : msg_step m (disableAuth m)
| step_build m buf n seq e m' buf' :
    n <= len buf -> build m buf n seq = Some (e, m', buf') -> msg_step m m'
| step_parse m buf n e m' :
    n <= len buf -> parse m buf n = Some (e, m') -> msg_step m m'.

Definition msg_init (m : Message) : Prop := exists prms, m = Message_new_prms prms.
Definition reachable (m : Message) : Prop := exists m0, msg_init m0 /\ rtc msg_step m0 m.

Definition msg_inv (m : Message) : Prop :=
  send_inv (bld m) /\ auth_inv (auth m) /\ display_inv (prs m).

Lemma useAuth_inv sa spp key m : auth_inv (auth m) -> auth_inv (auth (snd (useAuth sa spp key m))).
Proof.
  intros H. unfold useAuth. destruct (SaFile_have sa spp key) eqn:E; [|done].
  unfold hmac_allocHMAC. destruct (mac_alloc _ _); [|done]. by intros _.
Qed.
Lemma changeAuth_inv spp key m : auth_inv (auth m) -> auth_inv (auth (snd (changeAuth spp key m))).
Proof.
  intros H. unfold changeAuth. destruct (m_haveAuth (auth m) && _) eqn:E; [|done].
  apply andb_prop in E as [_ E].
  unfold hmac_allocHMAC. destruct (mac_alloc _ _); [|done]. by intros _.
Qed.

(** The pointer that the dispatch leaves is of the id, if it was before. *)
Lemma call_tlv_verify id p s e p' s' :
  call_tlv_data id p s = Some (e, p', s') -> verifyTlv id p = true -> verifyTlv id p' = true.
Proof.
  unfold call_tlv_data. destruct (tlv_case_of id) as [|D inst|] eqn:E; [by intros; simplify_eq| |
    by intros; simplify_eq].
  repeat case_match; intros; simplify_eq; try done; by eapply verifyTlv_intro.
Qed.

Lemma build_data_keeps m s e p s' :
  build_data m s = Some (e, p, s') -> send_inv (bld m) ->
  p = m_dataSend (bld m) \/ verifyTlv (m_tlv_id (bld m)) p = true /\ m_sendAction (bld m) <> GET.
Proof.
  intros E (_ & _ & I). unfold build_data in E.
  destruct (negb (bool_decide _) && _) eqn:C.
  - right. apply andb_prop in C as [C1%negb_true_iff C2]. apply bool_decide_eq_false in C1.
    split; [|done]. destruct (call_tlv_data _ _ s) as [[[e1 p1] s1]|] eqn:D; [|done].
    cbn [mbind option_bind] in E.
    assert (p1 = p) as <- by (repeat case_match; simplify_eq; done).
    eapply call_tlv_verify; [done|]. by destruct (m_dataSend (bld m)); [apply I| |apply I].
  - left. repeat case_match; simplify_eq; try done.
    all: destruct (store _ _ _); [|done]; by simplify_eq/=.
Qed.

Lemma build_inv m buf n seq e m' buf' :
  build m buf n seq = Some (e, m', buf') -> send_inv (bld m) ->
  send_inv (bld m') /\ prs m' = prs m /\ m_prms m' = m_prms m /\ auth m' = auth m /\
  m_sendAction (bld m') = m_sendAction (bld m) /\ m_tlv_id (bld m') = m_tlv_id (bld m).
Proof.
  intros E I. unfold build in E. destruct (n <? _); [by simplify_eq|].
  destruct (store buf 0 _) as [b1|]; [|done]. cbn [mbind option_bind] in E.
  destruct (store b1 48 _) as [b2|]; [|done]. cbn [mbind option_bind] in E.
  destruct (store b2 52 _) as [b3|]; [|done]. cbn [mbind option_bind] in E.
  destruct (build_data m _) as [[[e1 p] s]|] eqn:D; [|done]. cbn [mbind option_bind] in E.
  pose proof (build_data_keeps _ _ _ _ _ D I) as K.
  assert (forall n, send_inv (mk_build_st (m_sendAction (bld m)) n p (m_tlv_id (bld m)))) as G.
  { intros k. destruct I as (I0 & I1 & I2). split; [done|]. split; [done|]. cbn.
    destruct K as [->|[V N]]; [done|]. by destruct p. }
  destruct (negb _); [simplify_eq; by split; [apply G|]|].
  destruct (Z.odd _); [simplify_eq; by split; [apply G|]|].
  destruct (store _ 50 _) as [b4|]; [|done]. cbn [mbind option_bind] in E.
  destruct (build_auth _ _ _) as [[[e2 n2] b5]|]; [|done]. cbn [mbind option_bind] in E.
  destruct (negb _); simplify_eq; (by split; [apply G|]).
Qed.

Lemma msg_step_inv m m' : msg_inv m -> msg_step m m' -> msg_inv m'.
Proof.
  intros (I1 & I2 & I3) S. destruct S.
  - rewrite setAction_cases. cbv zeta. destruct (_ && (_ || _)) eqn:C; [|done].
    apply andb_prop in C as [A V]. split; [by eapply setAction_send|done].
  - unfold clearData. destruct (m_dataSend (bld m)) eqn:D; (split; [|done]);
      [|done|]; (split; [apply I1|]); (split; [done|]); by left.
  - unfold updateParams. by destruct (_ <? _).
  - unfold useConfig. by destruct (_ <? _).
  - done.
  - pose proof (useAuth_inv sa spp key m I2). unfold useAuth in *.
    repeat case_match; done.
  - pose proof (changeAuth_inv spp key m I2). unfold changeAuth in *. repeat case_match; done.
  - unfold changeAuth_key. pose proof (changeAuth_inv (m_sppID (auth m)) key m I2).
    unfold changeAuth in *. repeat case_match; done.
  - done.
  - destruct (build_inv _ _ _ _ _ _ _ H0 I1) as (J & Hp & _ & Ha & _).
    unfold msg_inv. by rewrite Hp, Ha.
  - destruct (parse_total m buf n I2 I3 H) as (e' & p & E & Hp). rewrite E in H0.
    injection H0 as <- <-. done.
Qed.

Lemma msg_init_inv m : msg_init m -> msg_inv m.
Proof.
  intros [prms ->]. split; [|split]; [|by intros|by vm_compute].
  split; [done|]. split; [done|by left].
Qed.

(** C7: In every object that the constructors and any sequence of operations can
    produce, the data to send is missing only when none is sent and otherwise a
    structure of the request's id; while authentication is in use, the key is in
    the pool and the HMAC object is the one of that key; the stored error text
    fits its length octet.  So [build] and [parse] never use a null pointer. *)
Theorem reachable_inv m : reachable m -> msg_inv m.
Proof.
  intros (m0 & H0 & H). apply msg_init_inv in H0. induction H as [|m m' m'' S _ IH]; [done|].
  apply IH. by eapply msg_step_inv.
Qed.
End Steps.

Lemma reachable_inv_witness :
  msg_inv
    (disableAuth (snd (setAction SET PRIORITY1 (Obj (T_PRIORITY1 (mk_PRIORITY1 9))) Message_new))).
Proof.
  apply reachable_inv. exists (Message_new_prms MsgParams_default).
  split; [by exists MsgParams_default|].
  eapply rtc_l; [apply (step_setAction SET PRIORITY1 (Obj (T_PRIORITY1 (mk_PRIORITY1 9))));
    discriminate|].
  eapply rtc_l; [apply step_disableAuth|apply rtc_refl].
Defined.
