(* ===== verification/ParseFacts.v ===== *)
(** * ParseFacts.v: what parsing a management message leaves behind

    The fields that an early return leaves alone, the data that a successful
    parse hands out, and that with authentication required nothing is taken
    from a message whose code does not verify. *)

From S2P Require Import Prelude Types Ids MsgProc Codec Structs MngTlvs.
From S2P Require Import MngTlvsSpec Dispatch SigTlvs Auth Message ParseSafe.

Section Facts.
Context `{lib : MacLib}.

(** The part of the state that carries the content of a reply. *)
Definition reply (p : parse_st) :=
  (m_replyAction p, m_replayTlv_id p, m_dataGet p, m_errorId p, m_errorDisplay p).

Lemma parseHeader_reply buf p g p' :
  parseHeader buf p = Some (g, p') -> reply p' = reply p /\ m_type p' = m_type p.
Proof.
  unfold parseHeader. intros E.
  repeat match type of E with
    | mbind _ ?e = Some _ => destruct e; [cbn [mbind option_bind] in E|done]
    | (if ?b then _ else _) = Some _ => destruct b
    end; injection E as <- <-; done.
Qed.

(** An error that [parse] returns before it looks at the TLV. *)
Definition is_result (e : MNG_PARSE_ERROR_e) : Prop :=
  e = MNG_PARSE_ERROR_OK \/ e = MNG_PARSE_ERROR_MSG \/ e = MNG_PARSE_ERROR_SMPTE.

Lemma parse_mng_inv m buf n e m' :
  parse m buf n = Some (e, m') -> m_type (prs m') = Management ->
  (reply (prs m') = reply (prs m) /\ ~ is_result e) \/
  exists p size, parseMng (set_prs p m) buf size = Some (e, m') /\ reply p = reply (prs m) /\
    52 <= size <= n.
Proof.
  unfold parse. change sigBaseSize with 44. change mngMsgMinSize with 52. intros E T.
  assert (forall p e0, Some (e0, set_prs p m) = Some (e, m') ->
    reply p = reply (prs m) -> ~ is_result e0 ->
    reply (prs m') = reply (prs m) /\ ~ is_result e) as Early.
  { intros p e0 [= <- <-] Hp He. done. }
  assert (~ is_result MNG_PARSE_ERROR_HEADER /\ ~ is_result MNG_PARSE_ERROR_TOO_SMALL) as [NH NT]
    by (unfold is_result; intuition discriminate).
  destruct (n <? 44); [left; simplify_eq; by split|].
  destruct (rd16 buf 2) as [size|] eqn:R; [|done]. cbn [mbind option_bind] in E.
  destruct (Z.ltb_spec n size); [left; simplify_eq; by split|].
  destruct (rd8 buf 0) as [b0|]; [|done]. cbn [mbind option_bind] in E.
  cbv zeta in E. set (ty := Z.land b0 0xf) in *.
  destruct (_ && negb (rcvSignaling _)); [left; by apply (Early _ _ E)|].
  destruct ((ty =? Management) && (size <? 52)) eqn:E1; [left; by apply (Early _ _ E)|].
  destruct (negb (ty =? Signaling) && _) eqn:E2; [left; by apply (Early _ _ E)|].
  destruct (parseHeader _ _) as [[g p]|] eqn:H1; [|done]. cbn [mbind option_bind] in E.
  apply parseHeader_reply in H1 as [H1 Hty]. cbn in Hty.
  destruct (negb g); [left; by apply (Early _ _ E)|].
  destruct (ty =? Signaling) eqn:E3.
  - exfalso. apply Z.eqb_eq in E3. unfold parseSig in E.
    destruct (parseSig_loop _ _ _ _) as [[e1 t]|]; [|done]. cbn [mbind option_bind] in E.
    injection E as <- <-. cbn in T. rewrite Hty, E3 in T. discriminate.
  - right. exists p, size. split; [exact E|]. split; [done|].
    destruct (Z.eqb_spec ty Signaling); [done|]. destruct (Z.eqb_spec ty Management); [|done].
    cbn in E1. lia.
Qed.
(** ** Authentication *)

(** The authentication TLV at [a] names a key of the pool, and the code after it
    verifies, with that key, for all the octets before it. *)
Definition authentic (m : Message) (buf : list byte) (a : Z) : Prop :=
  exists spp keyID n data mac,
    rd8 buf (a + 4) = Some spp /\ rd32 buf (a + 6) = Some keyID /\
    SaFile_have (m_sa (auth m)) spp keyID = true /\ 2 <= n /\
    load buf 0 (a + 10) = Some data /\ load buf (a + 10) n = Some mac /\
    verify (mk_HMAC_Key (htype (SaFile_spp (m_sa (auth m)) spp) keyID)
              (Spp_key (SaFile_spp (m_sa (auth m)) spp) keyID)) data mac = true.

Lemma hmac_allocHMAC_key type key k :
  hmac_allocHMAC type key = Some k -> k = mk_HMAC_Key type key.
Proof. unfold hmac_allocHMAC. destruct (mac_alloc _ _); congruence. Qed.

Lemma parseAuth_inv m buf a left check e :
  auth_inv (auth m) -> m_haveAuth (auth m) = true ->
  parseAuth m buf a left check = Some e ->
  (e = MNG_PARSE_ERROR_OK -> authentic m buf a) /\
  e <> MNG_PARSE_ERROR_MSG /\ e <> MNG_PARSE_ERROR_SMPTE.
Proof.
  intros Hi Ha E. destruct (Hi Ha) as [_ Hh]. unfold parseAuth in E.
  destruct (left <? authTlvSize); [by simplify_eq|].
  destruct (rd16 buf a) as [ty|]; [|done]. cbn [mbind option_bind] in E.
  destruct (check && negb _); [by simplify_eq|].
  destruct (rd8 buf (a + 4)) as [spp|] eqn:R4; [|done]. cbn [mbind option_bind] in E.
  destruct (rd32 buf (a + 6)) as [key|] eqn:R6; [|done]. cbn [mbind option_bind] in E.
  destruct (SaFile_have _ spp key) eqn:Hk; cbn [negb] in E; [|by simplify_eq].
  destruct (rd16 buf (a + 2)) as [lf|]; [|done]. cbn [mbind option_bind] in E.
  cbv zeta in E. set (n := if check then lf + tlvSizeHdr else left) in *.
  destruct (check && _); [by simplify_eq|]. destruct (check && _); [by simplify_eq|].
  destruct (rd8 buf (a + 5)) as [ind|]; [|done]. cbn [mbind option_bind] in E.
  destruct (negb _); [by simplify_eq|].
  destruct (Z.odd _ || _) eqn:N; [by simplify_eq|].
  destruct (_ <? n - authTlvSize); [by simplify_eq|].
  rewrite Hh in E.
  assert (forall k, k = mk_HMAC_Key (htype (SaFile_spp (m_sa (auth m)) spp) key)
      (Spp_key (SaFile_spp (m_sa (auth m)) spp) key) ->
    (hData ← load buf 0 (a + authTlvSize); mac ← load buf (a + authTlvSize) (n - authTlvSize);
     if verify k hData mac then Some MNG_PARSE_ERROR_OK else Some MNG_PARSE_ERROR_AUTH_WRONG)
    = Some e ->
    (e = MNG_PARSE_ERROR_OK -> authentic m buf a) /\
    e <> MNG_PARSE_ERROR_MSG /\ e <> MNG_PARSE_ERROR_SMPTE) as V.
  { intros k -> F. unfold authTlvSize in *.
    destruct (load buf 0 _) as [data|] eqn:L1; [|done]. cbn [mbind option_bind] in F.
    destruct (load buf (a + 10) _) as [mac|] eqn:L2; [|done]. cbn [mbind option_bind] in F.
    destruct (verify _ _ _) eqn:W; [|by simplify_eq]. simplify_eq. split; [|done]. intros _.
    exists spp, key, (n - 10), data, mac. repeat (split; [done || lia|]). done. }
  destruct ((m_sppID (auth m) =? spp) && (m_keyID (auth m) =? key)) eqn:Sm.
  - apply andb_prop in Sm as [<-%Z.eqb_eq <-%Z.eqb_eq]. by eapply V.
  - destruct (hmac_allocHMAC _ _) as [k|] eqn:K; [|by simplify_eq].
    apply hmac_allocHMAC_key in K. by eapply V.
Qed.

Definition auth_required (m : Message) : Prop :=
  m_haveAuth (auth m) = true /\ Z.land (rcvAuth (m_prms m)) RCV_AUTH_MNG <> 0 /\
  Z.land (rcvAuth (m_prms m)) RCV_AUTH_IGNORE = 0.

Lemma parseMng_inv m buf size e m' :
  auth_inv (auth m) -> parseMng m buf size = Some (e, m') ->
  (reply (prs m') = reply (prs m) /\ ~ is_result e) \/
  exists p ty act tn eA, rd16 buf 48 = Some ty /\ rd16 buf 50 = Some tn /\
    reply p = reply (prs m) /\ m_mngType p = ty /\ tn <= size - 52 /\ Z.odd tn = false /\
    parseMngTlv (set_prs p m) buf ty act tn eA = Some (e, m') /\
    (auth_required m -> authentic m buf (52 + tn)).
Proof.
  intros Hi E. unfold parseMng in E. cbv zeta in E.
  assert (forall p e0, Some (e0, set_prs p m) = Some (e, m') ->
    reply p = reply (prs m) -> ~ is_result e0 ->
    reply (prs m') = reply (prs m) /\ ~ is_result e) as Early.
  { intros p e0 [= <- <-] Hp He. done. }
  assert (~ is_result MNG_PARSE_ERROR_ACTION /\ ~ is_result MNG_PARSE_ERROR_TOO_SMALL) as [NA NT]
    by (unfold is_result; intuition discriminate).
  destruct (rd8 buf 46) as [act|]; [|done]. cbn [mbind option_bind] in E.
  destruct (negb _); [left; by apply (Early _ _ E)|].
  destruct (rd16 buf 48) as [ty|]; [|done]. cbn [mbind option_bind] in E.
  destruct (rd16 buf 50) as [tn|] eqn:Rn; [|done]. cbn [mbind option_bind] in E.
  change mngMsgMinSize with 52 in E.
  destruct ((size - 52 <? tn) || Z.odd tn) eqn:B; [left; by apply (Early _ _ E)|].
  match type of E with context [set_prs ?p m] => set (p1 := p) in * end.
  change (m_haveAuth (auth (set_prs p1 m))) with (m_haveAuth (auth m)) in E.
  change (m_prms (set_prs p1 m)) with (m_prms m) in E.
  assert (forall eA, parseMngTlv (set_prs p1 m) buf ty (Z.land 0xf act) tn eA = Some (e, m') ->
    (auth_required m -> authentic m buf (52 + tn)) ->
    exists p ty' act tn' eA, Some ty = Some ty' /\ Some tn = Some tn' /\
      reply p = reply (prs m) /\ m_mngType p = ty' /\ tn' <= size - 52 /\ Z.odd tn' = false /\
      parseMngTlv (set_prs p m) buf ty' act tn' eA = Some (e, m') /\
      (auth_required m -> authentic m buf (52 + tn'))) as Go.
  { intros eA F A. exists p1, ty, (Z.land 0xf act), tn, eA.
    repeat (split; [done || lia|]). split; [by destruct (Z.odd tn); [lia|]|done]. }
  destruct (m_haveAuth (auth m)) eqn:Ha; cbn [andb] in E; cycle 1.
  { right. apply (Go _ E). intros [? _]. congruence. }
  destruct (Z.eqb_spec (Z.land (rcvAuth (m_prms m)) RCV_AUTH_MNG) 0); cbn [negb] in E.
  { right. apply (Go _ E). by intros (_ & ? & _). }
  destruct (parseAuth _ _ _ _ _) as [eA|] eqn:PA; [|done]. cbn [mbind option_bind] in E.
  apply parseAuth_inv in PA as (Ok & N1 & N2); [|done..].
  destruct (bool_decide_reflect (eA = MNG_PARSE_ERROR_OK)) as [->|N]; cbn [negb andb] in E.
  { right. apply (Go _ E). intros _. by apply Ok. }
  destruct (Z.eqb_spec (Z.land (rcvAuth (m_prms m)) RCV_AUTH_IGNORE) 0).
  - left. apply (Early _ _ E); [done|]. unfold is_result. tauto.
  - right. apply (Go _ E). by intros (_ & _ & ?).
Qed.

(** ** A reply with success *)

Lemma parseMngTlv_ok m buf ty act tn eA m' :
  0 <= tn -> 52 + tn <= len buf ->
  parseMngTlv m buf ty act tn eA = Some (MNG_PARSE_ERROR_OK, m') ->
  let p := prs m' in let id := m_replayTlv_id p in
  ty = MANAGEMENT /\ m_mngType p = m_mngType (prs m) /\
  isValidId (implementSpecific (m_prms m)) id = true /\ m_prms m' = m_prms m /\
  in_table id = true /\ rd16 buf 52 = Some (mi_value (mng_all_vals id)) /\
  ((tn = 2 /\ m_dataGet p = m_dataGet (prs m)) \/
   (2 < tn /\ isEmpty id = false /\ verifyTlv id (m_dataGet p) = true) \/
   (2 < tn /\ isEmpty id = true /\ m_dataGet p = Unset)).
Proof.
  cbv zeta. intros H0 Hl E. unfold parseMngTlv, managementErrorTLV_size in E. cbv zeta in E.
  change lengthFieldMngBase with 2 in E.
  destruct (ty =? MANAGEMENT_ERROR_STATUS).
  { repeat match type of E with
    | (if ?b then _ else _) = Some _ => destruct b eqn:?
    | mbind _ ?e = Some _ => destruct e eqn:?; [cbn [mbind option_bind] in E|done]
    | match ?x with _ => _ end = Some _ => destruct x eqn:?
    end; simplify_eq; case_bool_decide; congruence. }
  destruct (Z.eqb_spec ty MANAGEMENT) as [->|]; cycle 1.
  { repeat match type of E with
    | (if ?b then _ else _) = Some _ => destruct b eqn:?
    | match ?x with _ => _ end = Some _ => destruct x eqn:?
    end; simplify_eq; try (case_bool_decide; congruence).
    destruct (reads_SMPTE init_SMPTE_ORGANIZATION_EXTENSION init_SMPTE_ORGANIZATION_EXTENSION
      (mk_MsgProc false buf 52 tn 0 MNG_PARSE_ERROR_TOO_SMALL)) as [_ R];
      [unfold ok; cbn; lia|done|].
    match goal with H : SMPTE_ORGANIZATION_EXTENSION_f _ _ = Stop _ |- _ => rewrite H in R end.
    destruct R as (_ & _ & _ & _ & _ & _ & R). exfalso. apply R; done. }
  split; [done|]. destruct (negb _); [by simplify_eq|].
  destruct (Z.ltb_spec tn 2); [by simplify_eq|].
  destruct (rd16 buf 52) as [v|] eqn:Rv; [|done]. cbn [mbind option_bind] in E.
  destruct (findTlvId v _) as [id|] eqn:F; [|by simplify_eq].
  assert (in_table id = true /\ mi_value (mng_all_vals id) = v /\
          isValidId (implementSpecific (m_prms m)) id = true) as (Ht & Hv & Hb).
  { unfold findTlvId in F. destruct (List.find _ _) eqn:G; [|done].
    destruct (blocked _ _) eqn:B; [done|]. simplify_eq. apply find_value_inv in G as [G1 G2].
    unfold isValidId. by rewrite B, G1. }
  destruct (negb _); [by simplify_eq|].
  destruct (Z.eqb_spec (tn - 2) 0).
  { simplify_eq. cbn. rewrite Ht, Hb. repeat (split; [done|]). left. split; [lia|done]. }
  destruct (call_tlv_parse id Unset (mk_MsgProc false buf 54 (tn - 2) 0 MNG_PARSE_ERROR_TOO_SMALL))
    as (e & p & s' & C & _ & _ & HO & _); [unfold ok; cbn; lia|done|].
  rewrite C in E. cbn [mbind option_bind] in E.
  destruct (bool_decide_reflect (e = MNG_PARSE_ERROR_OK)) as [He|]; cbn [negb] in E; [|by simplify_eq].
  simplify_eq. cbn. rewrite Ht, Hb. repeat (split; [done|]). right.
  destruct (HO eq_refl) as [[Hc ->]|V].
  - right. split; [lia|]. split; [|done]. apply case_NA_size in Hc as [_ Hz].
    unfold isEmpty. by rewrite Ht, Hz.
  - left. split; [lia|]. split; [|done]. apply verifyTlv_inv in V as (D & inst & d & Ed & _).
    unfold isEmpty. rewrite Ht. destruct (Z.eqb_spec (mi_size (mng_all_vals id)) 0); [|done].
    by rewrite (proj2 (case_NA_size id) (conj Ht e)) in Ed.
Qed.
End Facts.

(** ** The theorems *)

(** C5: While authentication of management messages is required, parsing takes
    nothing from a management message whose authentication TLV does not name a
    key of the pool or whose code does not verify with that key over all the
    octets before the code: the reply fields stay as they were and the result is
    an error. *)
Theorem parse_unauthenticated `{lib : MacLib} m buf n e m' :
  auth_inv (auth m) -> auth_required m -> parse m buf n = Some (e, m') ->
  m_type (prs m') = Management ->
  (reply (prs m') = reply (prs m) /\
   e <> MNG_PARSE_ERROR_OK /\ e <> MNG_PARSE_ERROR_MSG /\ e <> MNG_PARSE_ERROR_SMPTE) \/
  exists tn, rd16 buf 50 = Some tn /\ authentic m buf (52 + tn).
Proof.
  intros Hi Hr E T.
  assert (forall p e, ~ is_result e -> reply p = reply (prs m) ->
    reply p = reply (prs m) /\ e <> MNG_PARSE_ERROR_OK /\ e <> MNG_PARSE_ERROR_MSG /\
    e <> MNG_PARSE_ERROR_SMPTE) as Out by (unfold is_result; intuition).
  destruct (parse_mng_inv m buf n e m' E T) as [[Hp He]|(p & size & F & Hp & _)];
    [left; by apply Out|].
  destruct (parseMng_inv (set_prs p m) buf size e m' Hi F)
    as [[Hq He]|(q & ty & act & tn & eA & _ & Rn & _ & _ & _ & _ & _ & A)].
  - left. apply Out; [done|]. by rewrite Hq.
  - right. exists tn. split; [done|]. by apply A.
Qed.

(** A message in a buffer: [Message_new]'s header with a length and an action,
    then the octets of a TLV. *)
Definition demo_msg (action : Z) (tlv : list byte) : list byte :=
  <[46%nat := z2b action]> (header Message_new 7 (48 + len tlv)) ++ tlv.

Definition demo_unsigned : list byte :=
  demo_msg 2 (be_enc 2 1 ++ be_enc 2 4 ++ be_enc 2 0x2005 ++ [x2a; x00] ++ repeat x00 26).

Lemma parse_unauthenticated_witness :
  exists m', parse demo_auth demo_unsigned 82 = Some (MNG_PARSE_ERROR_AUTH_NONE, m') /\
    reply (prs m') = reply (prs demo_auth).
Proof.
  eexists. split; [vm_compute; reflexivity|].
  destruct (parse_unauthenticated demo_auth demo_unsigned 82 MNG_PARSE_ERROR_AUTH_NONE
    (match parse demo_auth demo_unsigned 82 with Some (_, m') => m' | None => demo_auth end))
    as [[H _]|(tn & Rn & spp & key & n & data & mac & R4 & R6 & Hs & _)].
  - intros _. split; vm_compute; reflexivity.
  - split; [reflexivity|]. split; [vm_compute; discriminate|reflexivity].
  - vm_compute. reflexivity.
  - vm_compute. reflexivity.
  - exact H.
  - vm_compute in Rn. injection Rn as <-. vm_compute in R4. injection R4 as <-.
    vm_compute in Hs. discriminate Hs.
Defined.

(** What [parse] leaves when it returns success for a management message: the
    id of the reply can be used, and the data is of the id, or what was there. *)
Lemma parse_reply `{lib : MacLib} m buf n m' :
  auth_inv (auth m) -> n <= len buf ->
  parse m buf n = Some (MNG_PARSE_ERROR_OK, m') -> m_type (prs m') = Management ->
  let p := prs m' in let id := m_replayTlv_id p in
  m_mngType p = MANAGEMENT /\ isValidId (implementSpecific (m_prms m')) id = true /\
  in_table id = true /\ rd16 buf 52 = Some (mi_value (mng_all_vals id)) /\
  exists tn, rd16 buf 50 = Some tn /\
   ((tn = 2 /\ m_dataGet p = m_dataGet (prs m)) \/
    (2 < tn /\ isEmpty id = false /\ verifyTlv id (m_dataGet p) = true) \/
    (2 < tn /\ isEmpty id = true /\ m_dataGet p = Unset)).
Proof.
  intros Hi Hn E T.
  destruct (parse_mng_inv m buf n _ m' E T) as [[_ He]|(p & size & F & Hp & Hs)];
    [by destruct He; left|].
  destruct (parseMng_inv (set_prs p m) buf size _ m' Hi F)
    as [[_ He]|(q & ty & act & tn & eA & _ & Rn & Hq & Hty & Htn & _ & G & _)];
    [by destruct He; left|].
  assert (0 <= tn).
  { unfold rd16, rd in Rn. destruct (load buf 50 _) as [bs|]; [|done]. injection Rn as <-.
    pose proof (be_dec_range bs). lia. }
  apply parseMngTlv_ok in G; [|lia..]. cbv zeta in *. cbn [prs set_prs] in G.
  destruct G as (-> & Hm & Hb & Hp' & Ht & Rv & D).
  assert (m_dataGet q = m_dataGet (prs m)) as Eq.
  { assert (reply q = reply (prs m)) as Er by (rewrite Hq; exact Hp).
    unfold reply in Er. by injection Er. }
  split; [by rewrite Hm|]. split; [by rewrite Hp'|]. do 2 (split; [done|]). exists tn.
  by rewrite <- Eq.
Qed.

(** C8: When [parse] returns success for a management message, the message had a
    MANAGEMENT TLV, its managementId is the one of [getTlvId], and [getData] is:
    the data of the previous message, when the dataField is empty; a structure of
    that id, when the id has a dataField; or an indeterminate pointer, when the
    id has none but the message carries one. *)
Theorem parse_ok_data `{lib : MacLib} m buf n m' :
  auth_inv (auth m) -> n <= len buf ->
  parse m buf n = Some (MNG_PARSE_ERROR_OK, m') -> m_type (prs m') = Management ->
  let p := prs m' in let id := m_replayTlv_id p in
  in_table id = true /\ m_mngType p = MANAGEMENT /\
  rd16 buf 52 = Some (mi_value (mng_all_vals id)) /\
  exists tn, rd16 buf 50 = Some tn /\
   ((tn = 2 /\ m_dataGet p = m_dataGet (prs m)) \/
    (2 < tn /\ isEmpty id = false /\ verifyTlv id (m_dataGet p) = true) \/
    (2 < tn /\ isEmpty id = true /\ m_dataGet p = Unset)).
Proof.
  intros Hi Hn E T. pose proof (parse_reply m buf n m' Hi Hn E T) as (H1 & _ & H2 & H3 & H4).
  by cbv zeta.
Qed.

Lemma parse_ok_data_witness :
  exists m', parse Message_new (demo_msg 2 (be_enc 2 1 ++ be_enc 2 4 ++ be_enc 2 0x2005 ++
                                  [x2a; x00])) 56 = Some (MNG_PARSE_ERROR_OK, m') /\
    rd16 (demo_msg 2 (be_enc 2 1 ++ be_enc 2 4 ++ be_enc 2 0x2005 ++ [x2a; x00])) 52 =
      Some (mi_value (mng_all_vals (m_replayTlv_id (prs m')))).
Proof.
  eexists. split; [vm_compute; reflexivity|].
  eapply (parse_ok_data Message_new (demo_msg 2 (be_enc 2 1 ++ be_enc 2 4 ++ be_enc 2 0x2005 ++
    [x2a; x00])) 56).
  - intros [=].
  - vm_compute. discriminate.
  - vm_compute. reflexivity.
  - vm_compute. reflexivity.
Defined.

(** A reply for an id without a dataField that carries two octets is accepted
    with success and leaves an indeterminate pointer as the received data. *)
Theorem parse_wild_pointer :
  exists m', parse (lib := demo_mac) Message_new
      (demo_msg 2 (be_enc 2 1 ++ be_enc 2 4 ++ be_enc 2 0x0000 ++ [x00; x00])) 56 =
      Some (MNG_PARSE_ERROR_OK, m') /\ m_dataGet (prs m') = Unset.
Proof. eexists. split; vm_compute; reflexivity. Qed.
