(* ===== verification/BuildFacts.v ===== *)
(** * BuildFacts.v: the octets of a built message

    [build] writes one string of octets at the start of the buffer: header, TLV
    header, dataField, padding and authentication TLV.  Its length is the one
    that [getMsgPlanedLen] announces. *)

From S2P Require Import Prelude Types Ids MsgProc Codec Structs MngTlvs.
From S2P Require Import MngTlvsSpec Dispatch SigTlvs Auth Message ParseSafe MessageInv.

(** ** Writing into a buffer *)

Lemma splice_at pre x rest :
  len x <= len rest -> splice (pre ++ rest) (len pre) x = pre ++ x ++ drop (length x) rest.
Proof.
  intros H. unfold splice. rewrite to_nat_len, take_app_length.
  rewrite Z2Nat.inj_add by apply len_nonneg. rewrite !to_nat_len.
  rewrite <- drop_drop, drop_app_length. done.
Qed.

Lemma store_at pre x rest off :
  off = len pre -> len x <= len rest ->
  store (pre ++ rest) off x = Some (pre ++ x ++ drop (length x) rest).
Proof.
  intros -> H. rewrite store_splice by (rewrite ?len_app; pose proof (len_nonneg pre); lia).
  by rewrite splice_at.
Qed.

(** Replacing octets by as many. *)
Lemma store_over pre x y rest off :
  off = len pre -> length x = length y ->
  store (pre ++ y ++ rest) off x = Some (pre ++ x ++ rest).
Proof.
  intros -> H. rewrite store_at; [|done|rewrite len_app; unfold len; lia].
  rewrite H. by rewrite drop_app_length.
Qed.

Lemma store_over_0 x y rest :
  length x = length y -> store (y ++ rest) 0 x = Some (x ++ rest).
Proof. intros H. by apply (store_over [] x y rest 0). Qed.

Lemma load_at pre x rest off n :
  off = len pre -> n = len x -> load (pre ++ x ++ rest) off n = Some x.
Proof.
  intros -> ->. rewrite load_in; [|apply len_nonneg..|rewrite !len_app; pose proof (len_nonneg rest); lia].
  by rewrite !to_nat_len, drop_app_length, take_app_length.
Qed.

Lemma rd_at n pre v rest off :
  off = len pre -> uint (8 * Z.of_nat n) v -> rd n (pre ++ be_enc n v ++ rest) off = Some v.
Proof.
  intros E U. unfold rd. rewrite (load_at pre); [|done|by rewrite len_be_enc].
  cbn. f_equal. by apply be_dec_enc_u.
Qed.

Lemma load_prefix x rest n : n = len x -> load (x ++ rest) 0 n = Some x.
Proof. intros ->. apply (load_at [] x rest); done. Qed.

(** ** The header *)

(** The first 46 octets; [header] appends the action and a reserved octet. *)
Definition header46 (m : Message) (sequence messageLength : Z) : list byte :=
  let p := m_prms m in
  [ z2b (Z.land (Z.lor Management (Z.shiftl (transportSpecific p) 4)) 0xff);
    z2b (Z.lor (Z.shiftl (minorVersion p) 4) ptp_major_ver) ] ++
  be_enc 2 messageLength ++
  [ z2b (domainNumber p); x00; z2b (if isUnicast p then unicastFlag else 0); x00 ] ++
  repeat x00 8 ++ repeat x00 4 ++
  ci_v (clockIdentity (self_id p)) ++ be_enc 2 (portNumber (self_id p)) ++
  be_enc 2 sequence ++
  [ z2b controlFieldMng; z2b logMessageIntervalDef ] ++
  ci_v (clockIdentity (target p)) ++ be_enc 2 (portNumber (target p)) ++
  [ z2b (boundaryHops p); z2b (boundaryHops p) ].

Lemma header_46 m sq n :
  header m sq n = header46 m sq n ++ [z2b (actionField_val (m_sendAction (bld m))); x00].
Proof. unfold header, header46. rewrite <- !app_assoc. reflexivity. Qed.

Lemma header_split m sq :
  exists pre post, len pre = 2 /\ forall n, header m sq n = pre ++ be_enc 2 n ++ post.
Proof. eexists [_; _], _. split; [done|]. intros k. unfold header. reflexivity. Qed.

Lemma len_header46 m sq n : wf_MsgParams (m_prms m) -> len (header46 m sq n) = 46.
Proof.
  intros (_ & _ & _ & _ & [Ht _] & [Hs _] & _). unfold wf_ClockIdentity in *.
  unfold header46, len. rewrite !length_app, !length_be_enc, !repeat_length. cbn [length]. lia.
Qed.
Lemma len_header m sq n : wf_MsgParams (m_prms m) -> len (header m sq n) = 48.
Proof. intros H. rewrite header_46, len_app, len_header46 by done. reflexivity. Qed.

(** ** The dataField *)

(** The number of octets of the dataField, with its padding. *)
Definition data_len (m : Message) : Z :=
  match m_dataSend (bld m) with
  | Obj t => len_tlv t + len_tlv t mod 2
  | _ =>
      if bool_decide (m_sendAction (bld m) = GET) && negb (useZeroGet (m_prms m))
      then let n := planned (m_tlv_id (bld m)) Null in n + n mod 2
      else 0
  end.

(** What the data to send must satisfy: its fields are in the range of their C++
    types and within the limits that building checks. *)
Definition wf_send (m : Message) : Prop :=
  match m_dataSend (bld m) with Obj t => wf_tlv t | _ => True end.

Lemma odd_pad z : (if Z.odd z then z + 1 else z) = z + z mod 2.
Proof.
  rewrite Zmod_odd. destruct (Z.odd z); lia.
Qed.

Lemma planned_nonneg id : in_table id = true -> 0 <= planned id Null.
Proof. destruct id; intros; try discriminate; vm_compute; discriminate. Qed.

Lemma even_mod_pad z : (z + z mod 2) mod 2 = 0.
Proof.
  pose proof (Z.div_mod z 2 ltac:(lia)).
  replace (z + z mod 2) with ((z / 2 + z mod 2) * 2) by lia. by apply Z.mod_mul.
Qed.

(** The data that the dispatch can be asked to build has the size of the table:
    [CLOCK_DESCRIPTION], whose size function is one short, cannot be sent. *)
Lemma send_size b t :
  send_inv b -> m_dataSend b = Obj t ->
  let n := planned (m_tlv_id b) (Obj t) in
  n + n mod 2 = len_tlv t + len_tlv t mod 2 /\ (0 <= len_tlv t -> 0 <= n).
Proof.
  intros (_ & A & I) E. rewrite E in I. destruct I as [V N].
  pose proof (planned_size _ _ V) as P. unfold size_ok, planned in *. cbv zeta.
  destruct (mi_size (mng_all_vals (m_tlv_id b)) =? -2).
  - destruct (decide (m_tlv_id b = CLOCK_DESCRIPTION)) as [Ec|]; [|by rewrite P].
    specialize (A N). rewrite Ec in A. by destruct (m_sendAction b).
  - rewrite P. pose proof (even_mod_pad (len_tlv t)).
    pose proof (Z.mod_pos_bound (len_tlv t) 2). lia.
Qed.

Lemma len_tlv_nonneg id t : verifyTlv id (Obj t) = true -> wf_tlv t -> 0 <= len_tlv t.
Proof.
  intros V W. destruct (call_tlv_codec id t V W) as (bs & <- & _). apply len_nonneg.
Qed.

Lemma send_planned m :
  send_inv (bld m) -> wf_send m ->
  getMsgPlanedLen m = mngMsgBaseSize + data_len m +
    (if useAuthTlv m then authTlvSize + sendMacSize m else 0).
Proof.
  intros I W. pose proof (fun t => send_size (bld m) t I) as P. unfold getMsgPlanedLen, data_len, wf_send in *.
  destruct I as (Ht & A & I).
  rewrite Ht. cbn [negb]. set (addAuth := if useAuthTlv m then _ else _).
  set (size := mi_size (mng_all_vals (m_tlv_id (bld m)))).
  destruct (m_dataSend (bld m)) as [| |t] eqn:D.
  - by destruct I as [I _].
  - destruct (bool_decide_reflect (m_sendAction (bld m) = GET)) as [G|G]; cbn [andb negb].
    + destruct (useZeroGet (m_prms m)); cbn [negb]; [lia|]. rewrite andb_false_r.
      pose proof (planned_nonneg _ Ht) as P'. unfold planned in *. cbv zeta in *. fold size in P' |- *.
      destruct (Z.ltb_spec (if size =? -2 then dataFieldSize (m_tlv_id (bld m)) Null else size) 0);
        [lia|]. rewrite odd_pad. lia.
    + destruct I as [?|I]; [done|]. unfold isEmpty in I. rewrite Ht in I. cbn [andb] in I.
      fold size in I. apply Z.eqb_eq in I. rewrite I. cbn. lia.
  - destruct I as [V N]. rewrite bool_decide_eq_false_2 by done. cbn [andb negb].
    specialize (P t eq_refl). cbv zeta in P.
    destruct P as [P Pos]. specialize (Pos (len_tlv_nonneg _ _ V W)).
    rewrite andb_false_r. cbn [andb]. rewrite odd_pad. unfold planned in *. fold size in P, Pos |- *.
    destruct (Z.ltb_spec (if size =? -2 then dataFieldSize (m_tlv_id (bld m)) (Obj t) else size) 0);
      lia.
Qed.

(** *** The octets *)

Definition sent (m : Message) : tlv_ptr :=
  match m_dataSend (bld m) with Obj t => Obj (norm_tlv t) | p => p end.

(** [bs] is the dataField of the message: that of the structure, padded to an
    even length, or zeros. *)
Definition data_field (m : Message) (bs : list byte) : Prop :=
  len bs = data_len m /\
  match m_dataSend (bld m) with
  | Obj t => exists b, len b = len_tlv t /\ data_octets (m_tlv_id (bld m)) t b /\
               bs = b ++ repeat x00 (Z.to_nat (len_tlv t mod 2))
  | _ => bs = repeat x00 (Z.to_nat (data_len m))
  end.

Definition data_builds (m : Message) (bs : list byte) : Prop :=
  forall s, ok s -> m_build s = true -> m_size s = 0 ->
    (len bs <= m_left s -> exists e, build_data m s =
       Some (MNG_PARSE_ERROR_OK, sent m, put bs (set_m_err e s))) /\
    (m_left s < len bs -> exists p s', build_data m s = Some (MNG_PARSE_ERROR_TOO_SMALL, p, s')).

Lemma len_zero_octets n : 0 <= n -> len (repeat x00 (Z.to_nat n)) = n.
Proof. intros. unfold len. rewrite repeat_length. lia. Qed.

Lemma put_nil s : ok s -> put [] (set_m_err (m_err s) s) = s.
Proof.
  intros (? & ? & ?). unfold put, splice. cbn -[Z.add]. change (len []) with 0. rewrite Z.add_0_r.
  rewrite take_drop. destruct s. unfold move, set_m_buf, set_m_err; cbn. f_equal; lia.
Qed.

(** A structure to send. *)
Lemma build_data_obj m t :
  send_inv (bld m) -> wf_send m -> m_dataSend (bld m) = Obj t ->
  exists bs, data_field m bs /\ data_builds m bs.
Proof.
  intros (Ht & _ & I) W D. unfold wf_send, data_field, data_builds, data_len, sent, build_data in *.
  rewrite D in *. destruct I as [V N]. rewrite bool_decide_eq_false_2 by done. cbn [andb negb].
  destruct (call_tlv_codec _ t V W) as (b & Lb & DO).
  pose proof (Z.mod_pos_bound (len_tlv t) 2 ltac:(lia)). pose proof (len_nonneg b).
  exists (b ++ repeat x00 (Z.to_nat (len_tlv t mod 2))).
  rewrite len_app, len_zero_octets by lia. split; [split; [lia|eauto]|].
  intros s Hs Hb Hz. destruct (proj1 DO s Hs Hb) as [Fit Miss].
  destruct (Z.lt_ge_cases (m_left s) (len b)) as [L|L].
  { split; [lia|]. intros _. destruct (Miss L) as [s' ->]. eauto. }
  rewrite (Fit L). cbn [mbind option_bind]. rewrite bool_decide_eq_true_2 by done. cbn [negb].
  change (m_size (put b (start s))) with (m_size s + len b). rewrite Hz, Lb.
  rewrite Z.add_0_l, !Zmod_odd. assert (ok (start s)) as Ok by done.
  assert (ok (put b (start s))) as Okb by (apply ok_put; [done|exact L]).
  destruct (Z.odd (len_tlv t)); cycle 1.
  { change (repeat x00 (Z.to_nat 0)) with (@nil byte). rewrite app_nil_r. split; [|lia].
    intros _. by exists MNG_PARSE_ERROR_TOO_SMALL. }
  change (repeat x00 (Z.to_nat 1)) with [x00].
  destruct (emits_Res (put b (start s)) Okb Hb) as [Fz Mz].
  change (m_left (put b (start s))) with (m_left s - len b) in *.
  change (len [x00]) with 1 in *.
  split; intros Hl.
  - rewrite Fz by lia. exists MNG_PARSE_ERROR_TOO_SMALL. do 2 f_equal.
    rewrite put_app; [done|done|].
    rewrite len_app. change (len [x00]) with 1. cbn. lia.
  - destruct Mz as (s' & -> & _); [lia|]. eauto.
Qed.

(** No structure: a GET with the size of the id, or nothing at all. *)
Lemma build_data_zeros m :
  send_inv (bld m) -> m_dataSend (bld m) = Null ->
  exists bs, data_field m bs /\ data_builds m bs.
Proof.
  intros (Ht & _ & _) D. unfold data_field, data_builds, data_len, sent, build_data.
  rewrite D. rewrite andb_false_r.
  assert (forall n, 0 <= n -> len (repeat x00 (Z.to_nat n)) = n) as Lz by (intros; by apply len_zero_octets).
  destruct (bool_decide (m_sendAction (bld m) = GET) && negb (useZeroGet (m_prms m))) eqn:C;
    cbn [andb]; cycle 1.
  { exists []. split; [done|]. intros s Hs Hb Hz. change (len []) with 0. destruct Hs as (? & ? & ?).
    split; [|lia]. intros _. exists (m_err s). by rewrite put_nil. }
  pose proof (planned_nonneg _ Ht) as P. unfold planned in *. cbv zeta in *.
  set (k := mi_size (mng_all_vals (m_tlv_id (bld m)))) in *.
  set (n := if k =? -2 then dataFieldSize (m_tlv_id (bld m)) Null else k) in *.
  pose proof (Z.mod_pos_bound n 2 ltac:(lia)). rewrite odd_pad.
  eexists. split; [split; [|reflexivity]; apply Lz; lia|]. intros s Hs Hb Hz.
  rewrite Lz by lia. destruct Hs as (? & ? & ?).
  destruct (Z.eqb_spec k 0) as [E|]; cbn [negb].
  { assert (n = 0) as -> by (subst n; by rewrite E).
    change (0 + 0 mod 2) with 0. split; [|lia]. intros _.
    exists (m_err s). rewrite put_nil; done. }
  destruct (Z.ltb_spec n 0); [lia|]. destruct (Z.ltb_spec (m_left s) (n + n mod 2)).
  - split; [lia|eauto].
  - split; [|lia]. intros _. exists (m_err s). rewrite store_splice by (rewrite ?Lz; lia).
    cbn [mbind option_bind]. unfold put; cbn [m_buf m_cur set_m_err]. rewrite Lz by lia.
    by destruct s.
Qed.

Lemma build_data_octets m :
  send_inv (bld m) -> wf_send m -> exists bs, data_field m bs /\ data_builds m bs.
Proof.
  intros I W. destruct (m_dataSend (bld m)) as [| |t] eqn:D.
  - destruct I as (_ & _ & I). by rewrite D in I; destruct I as [I _].
  - by apply build_data_zeros.
  - by eapply build_data_obj.
Qed.

(** *** The whole message *)

Definition tlv_part (m : Message) (data : list byte) : list byte :=
  be_enc 2 MANAGEMENT ++ be_enc 2 (lengthFieldMngBase + len data) ++
  be_enc 2 (mi_value (mng_all_vals (m_tlv_id (bld m)))) ++ data.
Definition auth_head (m : Message) : list byte :=
  be_enc 2 AUTHENTICATION ++ be_enc 2 (authTlvSize + sendMacSize m - tlvSizeHdr) ++
  [z2b (m_sppID (auth m)); x00] ++ be_enc 4 (m_keyID (auth m)).

Lemma len_tlv_part m data : len (tlv_part m data) = 6 + len data.
Proof. unfold tlv_part. rewrite !len_app, !len_be_enc. lia. Qed.
Lemma len_auth_head m : len (auth_head m) = 10.
Proof. unfold auth_head. rewrite !len_app, !len_be_enc. reflexivity. Qed.

Lemma split_buf {A} n (l : list A) :
  0 <= n <= len l -> exists a r, l = a ++ r /\ len a = n /\ len r = len l - n.
Proof.
  intros H. exists (take (Z.to_nat n) l), (drop (Z.to_nat n) l).
  split; [by rewrite take_drop|]. unfold len in *. rewrite length_take, length_drop. lia.
Qed.
Lemma len_length {A B} (l : list A) (l' : list B) : len l = len l' -> length l = length l'.
Proof. unfold len. lia. Qed.

(** The object after building [n] octets. *)
Definition built (m : Message) (n : Z) : Message :=
  set_bld (mk_build_st (m_sendAction (bld m)) n (sent m) (m_tlv_id (bld m))) m.

Section Build.
Context `{lib : MacLib}.

(** Up to the authentication TLV. *)
Lemma build_steps m buf n sq data :
  wf_MsgParams (m_prms m) -> data_builds m data -> Z.odd (len data) = false ->
  54 <= n <= len buf ->
  exists rest, len rest = len buf - 54 /\ drop 54 buf = rest /\
    (n - 54 < len data -> exists m' buf',
       build m buf n sq = Some (MNG_PARSE_ERROR_TOO_SMALL, m', buf')) /\
    (len data <= n - 54 -> exists e,
       build m buf n sq =
       '(err, size, buf) ← build_auth m (54 + len data)
          (mk_MsgProc true (header m sq 0 ++ tlv_part m data ++ drop (length data) rest)
             (54 + len data) (n - 54 - len data) (len data) e);
       if negb (bool_decide (err = MNG_PARSE_ERROR_OK))
       then Some (err, built m (m_msgLen (bld m)), buf)
       else Some (MNG_PARSE_ERROR_OK, built m size, buf)).
Proof.
  intros W B Ev Hn. pose proof (len_header m sq 0 W) as LH. unfold build.
  change mngMsgBaseSize with 54. destruct (Z.ltb_spec n 54); [lia|].
  destruct (split_buf 54 buf) as (b54 & rest & -> & L54 & Lr); [lia|]. exists rest.
  split; [lia|]. split; [by rewrite drop_app_length' by (unfold len in L54; lia)|].
  destruct (split_buf 48 b54) as (b48 & b6 & -> & L48 & L6); [lia|].
  destruct (split_buf 2 b6) as (b2 & b4 & -> & L2 & L4); [lia|].
  destruct (split_buf 2 b4) as (g & i & -> & Lg & Li); [lia|].
  rewrite <- !app_assoc. rewrite store_over_0 by (apply len_length; lia).
  cbn [mbind option_bind]. rewrite store_over;
    [|lia|apply len_length; rewrite len_be_enc; lia]. cbn [mbind option_bind].
  rewrite (app_assoc (be_enc 2 MANAGEMENT)), (app_assoc (header m sq 0)).
  rewrite store_over; [|rewrite !len_app, len_be_enc; lia|
    apply len_length; rewrite len_be_enc; lia]. cbn [mbind option_bind].
  set (s0 := mk_MsgProc _ _ _ _ _ _).
  set (P := (header m sq 0 ++ be_enc 2 MANAGEMENT ++ g) ++
    be_enc 2 (mi_value (mng_all_vals (m_tlv_id (bld m))))).
  assert (len P = 54) as LP by (unfold P; rewrite !len_app, !len_be_enc; lia).
  assert (m_buf s0 = P ++ rest) as Es by (unfold P; cbn; by rewrite <- !app_assoc).
  assert (ok s0) as Ok by (unfold ok; rewrite Es, len_app;
    change (m_cur s0) with 54; change (m_left s0) with (n - 54); lia).
  destruct (B s0 Ok eq_refl eq_refl) as [Fit Miss]. change (m_left s0) with (n - 54) in *.
  split; intros Hl.
  { destruct (Miss Hl) as (p & s' & ->). cbn [mbind option_bind].
    rewrite bool_decide_eq_false_2 by done. cbn [negb]. eauto. }
  destruct (Fit Hl) as [e ->]. exists e. cbn [mbind option_bind].
  rewrite bool_decide_eq_true_2 by done. cbn [negb].
  change (m_size (put data (set_m_err e s0))) with (0 + len data). rewrite Z.add_0_l.
  rewrite Z.odd_add, Ev. cbn [Z.odd xorb].
  change (m_buf (put data (set_m_err e s0))) with (splice (m_buf s0) 54 data).
  pose proof (splice_at P data rest ltac:(lia)) as Sp. rewrite LP in Sp.
  rewrite Es, Sp. unfold P. rewrite <- !app_assoc.
  rewrite (app_assoc (header m sq 0)). rewrite store_over;
    [|rewrite len_app, len_be_enc; lia|apply len_length; rewrite len_be_enc; lia].
  cbn [mbind option_bind]. unfold tlv_part. rewrite <- !app_assoc.
  unfold put, move, set_m_buf; cbn [m_cur m_left m_size m_build m_err set_m_err].
  reflexivity.
Qed.

(** The octets of the message with the dataField [data]: [n] is its length. *)
Definition message (m : Message) (sq n : Z) (data out : list byte) : Prop :=
  let unsigned := header m sq n ++ tlv_part m data in
  if useAuthTlv m then
    exists k mac, m_hmac (auth m) = Some k /\ len mac = sendMacSize m /\
      digest k (unsigned ++ auth_head m) (sendMacSize m) = Some mac /\
      out = unsigned ++ auth_head m ++ mac
  else out = unsigned.

(** The MAC library computes a code for every data with the key in use. *)
Definition signs (m : Message) : Prop :=
  useAuthTlv m = true ->
  exists k, m_hmac (auth m) = Some k /\
    forall data, exists mac, digest k data (sendMacSize m) = Some mac.

Context {laws : MacLaws lib}.

Lemma store_length m sq tl n :
  store (header m sq 0 ++ tl) 2 (be_enc 2 n) = Some (header m sq n ++ tl).
Proof.
  destruct (header_split m sq) as (pre & post & L & H). rewrite !H, <- !app_assoc.
  apply store_over; [done|]. by rewrite !length_be_enc.
Qed.

Lemma build_auth_octets m sq data rest k e :
  wf_MsgParams (m_prms m) -> signs m -> 0 <= sendMacSize m -> 0 <= k ->
  let add := if useAuthTlv m then authTlvSize + sendMacSize m else 0 in
  let n := 54 + len data in
  let s := mk_MsgProc true (header m sq 0 ++ tlv_part m data ++ rest) n k (len data) e in
  (k < add -> exists b, build_auth m n s = Some (MNG_PARSE_ERROR_TOO_SMALL, n, b)) /\
  (add <= k <= len rest -> exists out,
     message m sq (n + add) data out /\ len out = n + add /\
     build_auth m n s =
       Some (MNG_PARSE_ERROR_OK, n + add, out ++ drop (Z.to_nat add) rest)).
Proof.
  intros W G H0 Hk. cbv zeta. unfold message, build_auth, authTlvSize; cbn [m_left m_buf m_cur].
  pose proof (len_header m sq 0 W) as LH. pose proof (len_nonneg data).
  pose proof (len_tlv_part m data) as LT. pose proof (len_auth_head m) as LA.
  assert (forall j, len (header m sq j) = 48) as LHj by (intros; by apply len_header).
  unfold signs in G. destruct (useAuthTlv m); cycle 1.
  { rewrite store_length. cbn [mbind option_bind]. rewrite Z.add_0_r. split; [lia|]. intros _.
    eexists. split; [done|]. rewrite len_app, LHj, LT, drop_0, <- app_assoc. split; [lia|done]. }
  destruct (G eq_refl) as (h & Eh & Dg). split; intros Hl.
  { destruct (Z.ltb_spec k (10 + sendMacSize m)); [eauto|lia]. }
  destruct (Z.ltb_spec k (10 + sendMacSize m)); [lia|].
  change (be_enc 2 AUTHENTICATION ++ be_enc 2 (10 + sendMacSize m - tlvSizeHdr) ++ _)
    with (auth_head m).
  rewrite (app_assoc (header m sq 0)), store_at by (rewrite ?len_app; lia).
  cbn [mbind option_bind]. rewrite <- !app_assoc, store_length. cbn [mbind option_bind].
  rewrite Eh. cbn [mbind option_bind]. set (n := 54 + len data + (10 + sendMacSize m)).
  set (r := drop (length (auth_head m)) rest).
  assert (len r = len rest - 10) as Lr.
  { unfold r. pose proof LA as LA'. unfold len in *. rewrite length_drop. lia. }
  rewrite (app_assoc (header m sq n) (tlv_part m data) (auth_head m ++ r)).
  rewrite (app_assoc (header m sq n ++ tlv_part m data) (auth_head m) r).
  rewrite load_prefix by (rewrite !len_app, LHj; unfold n; lia). cbn [mbind option_bind].
  destruct (Dg ((header m sq n ++ tlv_part m data) ++ auth_head m)) as [mac Em]. rewrite Em.
  pose proof (digest_len _ _ _ _ H0 Em) as Lm. rewrite <- app_assoc in Em.
  rewrite store_at by (rewrite ?len_app, ?LHj; lia). cbn [mbind option_bind].
  eexists. split; [exists h, mac; split; [done|]; split; [done|]; split; [exact Em|]; reflexivity|].
  rewrite !len_app, LHj. split; [unfold n; lia|]. rewrite <- !app_assoc. do 6 f_equal.
  unfold r. rewrite drop_drop. f_equal. unfold len in *. lia.
Qed.
End Build.

(** ** The theorems *)

Lemma mac_size_nonneg sa spp key :
  wf_SaFile sa -> 0 <= mac_size (SaFile_spp sa spp) key.
Proof.
  intros Hw. destruct (SaFile_have sa spp key) eqn:E.
  - apply SaFile_have_key in E as (k & _ & (_ & _ & H & _) & _ & -> & _); [lia|done].
  - unfold mac_size, KET_AT, SaFile_have, SaFile_spp in *.
    destruct (sa !! spp) as [s|]; [by rewrite E|].
    unfold Spp_have, Spp_default; cbn [m_keys]. by rewrite lookup_empty, andb_false_r.
Qed.

Lemma data_field_even m data : data_field m data -> Z.odd (len data) = false.
Proof.
  intros [L _]. rewrite Zodd_mod, L. unfold data_len. cbv zeta.
  destruct (m_dataSend (bld m)); [..|by rewrite even_mod_pad];
    by destruct (_ && _); rewrite ?even_mod_pad.
Qed.

(** What [build] needs besides the invariant of the object. *)
Definition can_build `{lib : MacLib} (m : Message) : Prop :=
  send_inv (bld m) /\ wf_send m /\ wf_MsgParams (m_prms m) /\ wf_SaFile (m_sa (auth m)) /\ signs m.

Lemma build_octets `{lib : MacLib} {laws : MacLaws lib} m buf n sq :
  can_build m -> n <= len buf ->
  (n < getMsgPlanedLen m -> exists m' buf',
     build m buf n sq = Some (MNG_PARSE_ERROR_TOO_SMALL, m', buf')) /\
  (getMsgPlanedLen m <= n -> exists data out,
     data_field m data /\ message m sq (getMsgPlanedLen m) data out /\
     len out = getMsgPlanedLen m /\
     build m buf n sq = Some (MNG_PARSE_ERROR_OK, built m (len out), out ++ drop (length out) buf)).
Proof.
  intros (I & W & Wp & Ws & G) Hn. rewrite (send_planned m I W).
  destruct (build_data_octets m I W) as (data & DF & B). pose proof DF as [<- _].
  pose proof (mac_size_nonneg _ (m_sppID (auth m)) (m_keyID (auth m)) Ws) as M0.
  fold (sendMacSize m) in M0. pose proof (len_nonneg data). change mngMsgBaseSize with 54.
  set (add := if useAuthTlv m then authTlvSize + sendMacSize m else 0).
  assert (0 <= add) by (unfold add, authTlvSize; case_match; lia).
  destruct (Z.lt_ge_cases n 54) as [L|L].
  { split; [|lia]. intros _. unfold build. change mngMsgBaseSize with 54.
    destruct (Z.ltb_spec n 54); [eauto|lia]. }
  destruct (build_steps m buf n sq data Wp B (data_field_even _ _ DF)) as (rest & Lr & Er & S1 & S2);
    [lia|].
  destruct (Z.lt_ge_cases (n - 54) (len data)) as [L'|L']; [split; [by intros _; apply S1|lia]|].
  destruct (S2 L') as [e ->].
  assert (len (drop (length data) rest) = len rest - len data) as Ld.
  { unfold len in *. rewrite length_drop. lia. }
  destruct (build_auth_octets m sq data (drop (length data) rest) (n - 54 - len data) e)
    as [A1 A2]; [done..|lia|]. fold add in A1, A2. split; intros Hl.
  - destruct A1 as [b ->]; [lia|]. cbn [mbind option_bind].
    rewrite bool_decide_eq_false_2 by done. cbn [negb]. eauto.
  - destruct A2 as (out & Ms & Lo & ->); [lia|]. cbn [mbind option_bind].
    rewrite bool_decide_eq_true_2 by done. cbn [negb]. exists data, out.
    rewrite Lo. split; [done|]. split; [done|]. split; [done|]. do 3 f_equal.
    rewrite drop_drop, <- Er, drop_drop. f_equal. unfold len in *. lia.
Qed.

(** C2: For an object with data it may send, [build] in a buffer of at least the
    octets that [getMsgPlanedLen] announces succeeds.  It writes exactly that
    many octets at the start of the buffer and none after them: the header with
    that messageLength, the MANAGEMENT TLV whose dataField is that of the
    structure padded to an even length (or zeros), and, with authentication, the
    AUTHENTICATION TLV with the code of all the octets before it; and
    [getMsgLen] gives that length. *)
Theorem build_correct `{lib : MacLib} {laws : MacLaws lib} m buf n sq :
  can_build m -> getMsgPlanedLen m <= n <= len buf ->
  exists data out m',
    build m buf n sq = Some (MNG_PARSE_ERROR_OK, m', out ++ drop (length out) buf) /\
    len out = getMsgPlanedLen m /\ m_msgLen (bld m') = getMsgPlanedLen m /\
    data_field m data /\ message m sq (getMsgPlanedLen m) data out.
Proof.
  intros C Hn. destruct (build_octets m buf n sq C) as [_ B]; [lia|].
  destruct B as (data & out & DF & Ms & L & E); [lia|]. exists data, out, (built m (len out)).
  by rewrite E, L.
Qed.

(** In a smaller buffer [build] reports [MNG_PARSE_ERROR_TOO_SMALL], whichever
    part does not fit, and never writes outside the buffer. *)
Theorem build_too_small `{lib : MacLib} {laws : MacLaws lib} m buf n sq :
  can_build m -> n < getMsgPlanedLen m -> n <= len buf ->
  exists m' buf', build m buf n sq = Some (MNG_PARSE_ERROR_TOO_SMALL, m', buf').
Proof. intros C L Hn. by apply (build_octets m buf n sq C Hn). Qed.

(** A SET request with an authentication TLV. *)
Definition demo_set : Message :=
  snd (setAction SET PRIORITY1 (Obj (T_PRIORITY1 (mk_PRIORITY1 200))) demo_auth).

Lemma wf_demo_sa : wf_SaFile demo_sa.
Proof.
  apply map_Forall_singleton. apply (wf_Spp_addKey (Spp_new 1) 5 HMAC_SHA256).
  apply map_Forall_empty.
Qed.

Lemma demo_can_build : can_build demo_set.
Proof.
  split; [split; [done|split; [done|split; done]]|].
  split; [by vm_compute|]. split; [repeat split; by vm_compute|].
  split; [exact wf_demo_sa|]. intros _. eexists. split; [vm_compute; reflexivity|].
  intros data. eexists. unfold digest. cbn [hk_type hk_key].
  change (sendMacSize demo_set) with 16. reflexivity.
Qed.

Lemma build_correct_witness :
  exists out m', build demo_set (repeat x2a 100) 100 9 =
      Some (MNG_PARSE_ERROR_OK, m', out ++ drop (length out) (repeat x2a 100)) /\ len out = 82.
Proof.
  destruct (build_correct demo_set (repeat x2a 100) 100 9 demo_can_build)
    as (data & out & m' & E & L & _); [by vm_compute|].
  exists out, m'. split; [exact E|exact L].
Defined.

Lemma build_too_small_witness :
  exists m' buf', build demo_set (repeat x2a 100) 81 9 = Some (MNG_PARSE_ERROR_TOO_SMALL, m', buf').
Proof.
  apply (build_too_small demo_set (repeat x2a 100) 81 9 demo_can_build); by vm_compute.
Defined.
