(* ===== verification/RoundTrip.v ===== *)
(** * RoundTrip.v: what is built can be parsed

    A reply laid out as [build] lays out messages (BuildFacts.v) is parsed to the
    fields of its header and to the normal form of its structure; with
    authentication, an object that uses the same key accepts it. *)

From S2P Require Import Prelude Types Ids MsgProc Codec Structs MngTlvs.
From S2P Require Import MngTlvsSpec Dispatch SigTlvs Auth Message ParseSafe MessageInv BuildFacts.

(** ** Reading fields *)

Lemma load_skip (a b : list byte) off n :
  len a <= off -> load (a ++ b) off n = load b (off - len a) n.
Proof.
  intros H. unfold load. pose proof (len_nonneg a).
  assert (bool_decide (0 <= off /\ 0 <= n /\ off + n <= len (a ++ b)) =
    bool_decide (0 <= off - len a /\ 0 <= n /\ off - len a + n <= len b)) as ->.
  { apply bool_decide_ext. rewrite len_app. lia. }
  destruct (bool_decide _); [|done]. do 2 f_equal.
  rewrite drop_app_ge by (unfold len in *; lia). f_equal. unfold len in *. lia.
Qed.

Lemma load_here (x rest : list byte) off n :
  off = 0 -> n = len x -> load (x ++ rest) off n = Some x.
Proof. intros -> ->. by apply load_prefix. Qed.

Lemma rd_skip k a b off : len a <= off -> rd k (a ++ b) off = rd k b (off - len a).
Proof. intros H. unfold rd. by rewrite load_skip. Qed.

Lemma rd_here n v rest off :
  off = 0 -> rd n (be_enc n v ++ rest) off = Some (uwrap (8 * Z.of_nat n) v).
Proof.
  intros ->. unfold rd. rewrite load_prefix by (by rewrite len_be_enc).
  cbn. f_equal. rewrite be_dec_enc. unfold uwrap. f_equal. apply pow256.
Qed.

Ltac lens := rewrite ?len_be_enc; lia.
Ltac field := unfold rd8, rd16, rd32;
  repeat first [rewrite rd_skip by lens | rewrite load_skip by lens];
  first [rewrite rd_here by lens | rewrite load_here by lens].

(** A property of every octet. *)
Lemma byte_forall (P : Z -> bool) :
  forallb P (seqZ 0 256) = true -> forall z, uint 8 z -> P z = true.
Proof.
  intros H z Hz. apply (proj1 (forallb_forall P (seqZ 0 256)) H).
  apply list_elem_of_In, elem_of_seqZ. exact Hz.
Qed.

Lemma first_octet ts :
  uint 8 ts -> let b := uwrap 8 (Z.land (Z.lor Management (Z.shiftl ts 4)) 0xff) in
  Z.land b 0xf = Management /\
  Z.lor 0 (Z.shiftl (Z.land b 0xf0) 4) = Z.shiftl (Z.land ts 0xf) 8.
Proof.
  intros H. cbv zeta. revert ts H.
  assert (forall ts, uint 8 ts -> (fun ts =>
    let b := uwrap 8 (Z.land (Z.lor Management (Z.shiftl ts 4)) 0xff) in
    (Z.land b 0xf =? Management) &&
    (Z.lor 0 (Z.shiftl (Z.land b 0xf0) 4) =? Z.shiftl (Z.land ts 0xf) 8)) ts = true) as F
    by (apply byte_forall; vm_compute; reflexivity).
  intros ts H. specialize (F ts H). cbv beta zeta in F. lia.
Qed.

Lemma second_octet v :
  uint 8 v -> let b := uwrap 8 (Z.lor (Z.shiftl v 4) ptp_major_ver) in
  Z.land b 0xf = ptp_major_ver /\ Z.shiftr b 4 = Z.land v 0xf.
Proof.
  intros H. cbv zeta. revert v H.
  assert (forall v, uint 8 v -> (fun v =>
    let b := uwrap 8 (Z.lor (Z.shiftl v 4) ptp_major_ver) in
    (Z.land b 0xf =? ptp_major_ver) && (Z.shiftr b 4 =? Z.land v 0xf)) v = true) as F
    by (apply byte_forall; vm_compute; reflexivity).
  intros v H. specialize (F v H). cbv beta zeta in F. lia.
Qed.

(** ** The header *)

(** [header] as a sequence of fields. *)
Lemma header_fields m sq n :
  let p := m_prms m in
  header m sq n =
    be_enc 1 (Z.land (Z.lor Management (Z.shiftl (transportSpecific p) 4)) 0xff) ++
    be_enc 1 (Z.lor (Z.shiftl (minorVersion p) 4) ptp_major_ver) ++ be_enc 2 n ++
    be_enc 1 (domainNumber p) ++ be_enc 1 0 ++
    be_enc 1 (if isUnicast p then unicastFlag else 0) ++ be_enc 13 0 ++
    ci_v (clockIdentity (self_id p)) ++ be_enc 2 (portNumber (self_id p)) ++ be_enc 2 sq ++
    be_enc 1 controlFieldMng ++ be_enc 1 logMessageIntervalDef ++
    ci_v (clockIdentity (target p)) ++ be_enc 2 (portNumber (target p)) ++
    be_enc 1 (boundaryHops p) ++ be_enc 1 (boundaryHops p) ++
    be_enc 1 (actionField_val (m_sendAction (bld m))) ++ be_enc 1 0.
Proof. reflexivity. Qed.

(** What [parse] stores of the header of a message from [m]. *)
Definition header_of (m : Message) (sq : Z) (p : parse_st) : parse_st :=
  let q := m_prms m in
  set_m_target (target q) (set_m_peer (self_id q) (set_m_sequence (uwrap 16 sq)
    (set_m_PTPProfileSpecific 0 (set_m_isUnicast (isUnicast q)
    (set_m_domainNumber (domainNumber q)
    (set_m_sdoId (Z.shiftl (Z.land (transportSpecific q) 0xf) 8)
    (set_m_minorVersionPTP (Z.land (minorVersion q) 0xf)
    (set_m_versionPTP ptp_major_ver p)))))))).

Section Header.
Context (m : Message) (sq n : Z) (W : wf_MsgParams (m_prms m)).

Lemma header_reads tail :
  let p := m_prms m in let buf := header m sq n ++ tail in
  (rd8 buf 0 = Some (uwrap 8 (Z.land (Z.lor Management (Z.shiftl (transportSpecific p) 4)) 0xff)) /\
   rd8 buf 1 = Some (uwrap 8 (Z.lor (Z.shiftl (minorVersion p) 4) ptp_major_ver)) /\
   rd16 buf 2 = Some (uwrap 16 n) /\ rd8 buf 4 = Some (domainNumber p) /\
   rd8 buf 5 = Some 0 /\ rd8 buf 6 = Some (if isUnicast p then unicastFlag else 0)) /\
  (load buf 20 8 = Some (ci_v (clockIdentity (self_id p))) /\
   rd16 buf 28 = Some (portNumber (self_id p)) /\ rd16 buf 30 = Some (uwrap 16 sq) /\
   rd8 buf 33 = Some logMessageIntervalDef) /\
  (load buf 34 8 = Some (ci_v (clockIdentity (target p))) /\
   rd16 buf 42 = Some (portNumber (target p)) /\
   rd8 buf 46 = Some (actionField_val (m_sendAction (bld m)))).
Proof using W.
  destruct W as (_ & Hd & _ & _ & [Ht Htp] & [Hs Hsp] & _). unfold wf_ClockIdentity in *.
  assert (len (ci_v (clockIdentity (self_id (m_prms m)))) = 8) as Ls by (unfold len; lia).
  assert (len (ci_v (clockIdentity (target (m_prms m)))) = 8) as Lt by (unfold len; lia).
  rewrite header_fields. cbv zeta. rewrite <- !app_assoc.
  repeat split; field; try reflexivity; f_equal; try (by apply uwrap_small).
  - by destruct (isUnicast (m_prms m)).
  - by destruct (m_sendAction (bld m)).
Qed.

Lemma parseHeader_header tail p :
  parseHeader (header m sq n ++ tail) p = Some (true, header_of m sq p).
Proof using W.
  destruct (header_reads tail) as ((E0 & E1 & _ & E4 & E5 & E6) & (E20 & E28 & E30 & E33) &
    E34 & E42 & _).
  destruct W as (Hts & _ & _ & Hv & _).
  destruct (first_octet _ Hts) as [_ F1]. destruct (second_octet _ Hv) as [F2 F3].
  unfold parseHeader.
  rewrite E0, E1, E33, E5, E4, E6, E30, E28, E20, E42, E34. cbn [mbind option_bind].
  rewrite F1, F2, F3. unfold header_of. cbn [negb orb].
  destruct (clockIdentity (self_id _)) eqn:A1, (clockIdentity (target _)) eqn:A2.
  destruct (self_id _) eqn:B1, (target _) eqn:B2. cbn in A1, A2. subst.
  by destruct (isUnicast (m_prms m)).
Qed.
End Header.

(** ** The authentication TLV *)

Section Accept.
Context `{lib : MacLib} {laws : MacLaws lib}.

(** Both objects use the same key, from pools that agree on it. *)
Definition same_key (a b : auth_st) : Prop :=
  m_sppID a = m_sppID b /\ m_keyID a = m_keyID b /\
  SaFile_spp (m_sa a) (m_sppID a) = SaFile_spp (m_sa b) (m_sppID b).

Definition wf_auth (a : auth_st) : Prop :=
  uint 8 (m_sppID a) /\ uint 32 (m_keyID a) /\ wf_SaFile (m_sa a) /\ auth_inv a.

Lemma parseAuth_accepts m m2 k pre mac rest left :
  wf_auth (auth m) -> wf_auth (auth m2) -> same_key (auth m) (auth m2) ->
  m_haveAuth (auth m) = true -> m_haveAuth (auth m2) = true ->
  m_hmac (auth m) = Some k -> len mac = sendMacSize m ->
  digest k (pre ++ auth_head m) (sendMacSize m) = Some mac -> 10 + len mac <= left ->
  parseAuth m2 (pre ++ auth_head m ++ mac ++ rest) (len pre) left true =
    Some MNG_PARSE_ERROR_OK.
Proof.
  intros (U8 & U32 & _ & I1) (_ & _ & W2 & I2) (E1 & E2 & E3) A1 A2 Hk Lm D Hl.
  destruct (I1 A1) as [_ K1]. destruct (I2 A2) as [S2 K2].
  rewrite <- E1, <- E2 in S2, K2. unfold sendMacSize in *.
  assert (SaFile_spp (m_sa (auth m2)) (m_sppID (auth m)) =
    SaFile_spp (m_sa (auth m)) (m_sppID (auth m))) as E3' by (rewrite E3; by rewrite E1).
  rewrite E3' in K2. rewrite K1 in Hk. injection Hk as Hk. rewrite Hk in K2.
  destruct (SaFile_have_key _ _ _ W2 S2) as (key & _ & Wk & _ & Ms & _).
  pose proof (wf_key_mac _ _ Wk) as Mm. pose proof (min_digest_range (kt_type key)).
  destruct Wk as (_ & _ & Md & [h Hh] & _). rewrite E3' in Ms. rewrite Ms in *.
  unfold parseAuth. destruct (Z.ltb_spec left authTlvSize); [unfold authTlvSize in *; lia|].
  assert (auth_head m = be_enc 2 AUTHENTICATION ++ be_enc 2 (6 + kt_mac_size key) ++
    be_enc 1 (m_sppID (auth m)) ++ be_enc 1 0 ++ be_enc 4 (m_keyID (auth m))) as Eh.
  { unfold auth_head, sendMacSize. rewrite Ms. unfold authTlvSize, tlvSizeHdr.
    replace (10 + kt_mac_size key - 4) with (6 + kt_mac_size key) by lia. reflexivity. }
  set (buf := pre ++ auth_head m ++ mac ++ rest).
  assert (rd16 buf (len pre) = Some AUTHENTICATION /\
    rd16 buf (len pre + 2) = Some (6 + kt_mac_size key) /\
    rd8 buf (len pre + 4) = Some (m_sppID (auth m)) /\ rd8 buf (len pre + 5) = Some 0 /\
    rd32 buf (len pre + 6) = Some (m_keyID (auth m))) as (R0 & R2 & R4 & R5 & R6).
  { unfold buf. rewrite Eh, <- !app_assoc. repeat split; field; try reflexivity; f_equal;
      apply uwrap_small; [unfold uint; lia|done|done]. }
  pose proof (len_auth_head m) as LA.
  assert (load buf 0 (len pre + 10) = Some (pre ++ auth_head m) /\
    load buf (len pre + 10) (kt_mac_size key) = Some mac) as [L1 L2].
  { unfold buf. split; [rewrite app_assoc; apply load_prefix; rewrite len_app; lia|].
    repeat rewrite load_skip by lia. apply load_here; lia. }
  rewrite R0, R2, R4, R5, R6. cbn [mbind option_bind andb negb Z.eqb].
  rewrite S2, E3', <- E2, <- E1, !Z.eqb_refl, Ms, K2. cbn [negb andb].
  unfold authTlvSize, tlvSizeHdr.
  replace (6 + kt_mac_size key + 4 - 10) with (kt_mac_size key) by lia.
  destruct (Z.ltb_spec left (6 + kt_mac_size key + 4)); [lia|].
  destruct (Z.ltb_spec (6 + kt_mac_size key + 4) 10); [lia|].
  rewrite Hh at 1. rewrite Z.odd_mul. cbn [Z.odd andb orb].
  destruct (Z.ltb_spec (kt_mac_size key) 2); [lia|]. rewrite Z.ltb_irrefl.
  rewrite L1, L2. cbn [mbind option_bind].
  by rewrite (verify_digest k _ (kt_mac_size key) mac) by (done || lia).
Qed.
End Accept.

(** ** A reply *)

(** [m], seen as the sender of a reply with the structure [t]. *)
Definition replies (m : Message) (t : BaseMngTlv) : Prop :=
  m_dataSend (bld m) = Obj t /\ verifyTlv (m_tlv_id (bld m)) (Obj t) = true /\ wf_tlv t /\
  0 < len_tlv t /\
  checkReplyAction (m_tlv_id (bld m)) (actionField_val (m_sendAction (bld m))) = true.

Definition checks (m2 : Message) : bool :=
  m_haveAuth (auth m2) && negb (Z.land (rcvAuth (m_prms m2)) RCV_AUTH_MNG =? 0).

(** What [parse] leaves of such a reply. *)
Definition received (m : Message) (sq : Z) (t : BaseMngTlv) (p : parse_st) : parse_st :=
  let p := header_of m sq (set_m_type Management p) in
  set_m_dataGet (Obj (norm_tlv t)) (set_m_replayTlv_id (m_tlv_id (bld m))
    (set_m_replyAction (m_sendAction (bld m)) (set_m_mngType MANAGEMENT
      (set_m_sigTlvs (mk_MessageSigTlvs (m_tlvs (m_sigTlvs p)) false) p)))).

Lemma tlv_reads m hd data tail :
  len hd = 48 -> len data < 0xfffe -> let buf := hd ++ tlv_part m data ++ tail in
  rd16 buf 48 = Some MANAGEMENT /\ rd16 buf 50 = Some (2 + len data) /\
  rd16 buf 52 = Some (mi_value (mng_all_vals (m_tlv_id (bld m)))).
Proof.
  intros Lh Ld. unfold tlv_part, lengthFieldMngBase, managementTLV_size, tlvSizeHdr.
  change (6 - 4) with 2. cbv zeta. rewrite <- !app_assoc. pose proof (len_nonneg data).
  repeat split; field; try reflexivity; f_equal; apply uwrap_small; [unfold uint; lia|].
  apply mng_value_uint.
Qed.

Lemma tlv_at m hd data tail e :
  len hd = 48 ->
  at_cur (mk_MsgProc false (hd ++ tlv_part m data ++ tail) 54 (len data) 0 e) data.
Proof.
  intros Lh. unfold at_cur, tlv_part; cbn [m_cur m_buf].
  rewrite <- !app_assoc, !app_assoc, <- app_assoc.
  rewrite drop_app_length', take_app_length; [done|].
  rewrite !length_app, !length_be_enc. unfold len in Lh. lia.
Qed.

Lemma reply_action id a :
  checkReplyAction id (actionField_val a) = true -> a = RESPONSE \/ a = ACKNOWLEDGE.
Proof. unfold checkReplyAction. destruct a; cbn; auto; discriminate. Qed.

Section Reply.
Context `{lib : MacLib} {laws : MacLaws lib}.

Lemma parseMngTlv_reply m m2 t data hd tail :
  replies m t -> data_field m data -> len hd = 48 -> len data < 0xfffe ->
  blocked (implementSpecific (m_prms m2)) (m_tlv_id (bld m)) = false ->
  parseMngTlv m2 (hd ++ tlv_part m data ++ tail) MANAGEMENT
    (actionField_val (m_sendAction (bld m))) (2 + len data) MNG_PARSE_ERROR_OK =
  Some (MNG_PARSE_ERROR_OK,
    set_prs (set_m_dataGet (Obj (norm_tlv t)) (set_m_replayTlv_id (m_tlv_id (bld m))
      (set_m_replyAction (m_sendAction (bld m)) (prs m2)))) m2).
Proof.
  intros (D & V & Wt & L0 & Ck) [Ld F] Lh Hd B.
  destruct (tlv_reads m hd data tail Lh Hd) as (_ & _ & R52).
  pose proof (tlv_at m hd data tail MNG_PARSE_ERROR_TOO_SMALL Lh) as At.
  set (buf := hd ++ tlv_part m data ++ tail) in *. rewrite D in F.
  destruct F as (b & Lb & DO & Eb).
  assert (len data = len_tlv t + len_tlv t mod 2) as Ld' by (unfold data_len in Ld; by rewrite D in Ld).
  pose proof (Z.mod_pos_bound (len_tlv t) 2 ltac:(lia)).
  unfold parseMngTlv. change (MANAGEMENT =? MANAGEMENT_ERROR_STATUS) with false.
  change (MANAGEMENT =? MANAGEMENT) with true. cbn match.
  assert (let a := actionField_val (m_sendAction (bld m)) in
    (a =? actionField_val RESPONSE) || (a =? actionField_val ACKNOWLEDGE) = true /\
    (if a =? actionField_val RESPONSE then RESPONSE else ACKNOWLEDGE) = m_sendAction (bld m))
    as [-> ->] by (by destruct (reply_action _ _ Ck) as [-> | ->]).
  cbn [negb]. change lengthFieldMngBase with 2. destruct (Z.ltb_spec (2 + len data) 2); [lia|].
  rewrite R52. cbn [mbind option_bind]. unfold findTlvId.
  rewrite find_value by (by eapply verifyTlv_in_table). rewrite B, Ck. cbn [negb].
  replace (2 + len data - 2) with (len data) by lia. destruct (Z.eqb_spec (len data) 0); [lia|].
  rewrite (proj2 DO Unset); [|..|reflexivity| |cbn; lia]; cycle 1.
  - unfold ok, buf; cbn [m_cur m_left m_buf]. rewrite !len_app, len_tlv_part.
    pose proof (len_nonneg tail). lia.
  - rewrite Eb in At. apply at_cur_app in At as [At _]; [|cbn; lia].
    rewrite Eb. exact At.
  - cbn [mbind option_bind]. rewrite bool_decide_eq_true_2 by done. done.
Qed.

Definition accepts (m m2 : Message) : Prop :=
  checks m2 = true ->
  useAuthTlv m = true /\ wf_auth (auth m) /\ wf_auth (auth m2) /\ same_key (auth m) (auth m2).

Lemma parseMng_reply m m2 t sq n data out tail :
  replies m t -> data_field m data -> wf_MsgParams (m_prms m) ->
  blocked (implementSpecific (m_prms m2)) (m_tlv_id (bld m)) = false -> accepts m m2 ->
  message m sq n data out -> len out < 0xffff ->
  parseMng m2 (out ++ tail) (len out) =
  Some (MNG_PARSE_ERROR_OK,
    set_prs (set_m_dataGet (Obj (norm_tlv t)) (set_m_replayTlv_id (m_tlv_id (bld m))
      (set_m_replyAction (m_sendAction (bld m)) (set_m_mngType MANAGEMENT
        (set_m_sigTlvs (mk_MessageSigTlvs (m_tlvs (m_sigTlvs (prs m2))) false) (prs m2)))))) m2).
Proof.
  intros Rp DF W B Acc Ms Lo. pose proof (len_header m sq n W) as LH.
  assert (exists A, out = header m sq n ++ tlv_part m data ++ A /\
    (useAuthTlv m = true -> exists k mac, m_hmac (auth m) = Some k /\ len mac = sendMacSize m /\
      digest k ((header m sq n ++ tlv_part m data) ++ auth_head m) (sendMacSize m) = Some mac /\
      A = auth_head m ++ mac)) as (A & -> & HA).
  { unfold message in Ms. destruct (useAuthTlv m).
    - destruct Ms as (k & mac & ? & ? & ? & ->). eexists. rewrite <- !app_assoc. split; [done|].
      intros _. exists k, mac. do 2 (split; [done|]). split; [|done]. by rewrite <- ?app_assoc in *.
    - exists []. by rewrite app_nil_r. }
  rewrite !len_app, len_tlv_part in *. pose proof (len_nonneg A). pose proof (len_nonneg data).
  destruct (header_reads m sq n W ((tlv_part m data ++ A) ++ tail)) as (_ & _ & _ & _ & R46).
  rewrite app_assoc in R46. rewrite <- !app_assoc.
  destruct (tlv_reads m (header m sq n) data (A ++ tail) LH ltac:(lia)) as (R48 & R50 & _).
  unfold parseMng. rewrite <- !app_assoc in R46. rewrite R46. cbn [mbind option_bind].
  assert (let a := actionField_val (m_sendAction (bld m)) in Z.land 0xf a = a /\
    (a =? actionField_val RESPONSE) || (a =? actionField_val ACKNOWLEDGE) = true) as [-> ->]
    by (by destruct Rp as (_ & _ & _ & _ & Ck); destruct (reply_action _ _ Ck) as [-> | ->]).
  cbn [negb orb]. rewrite R48, R50. cbn [mbind option_bind]. change mngMsgMinSize with 52.
  destruct (Z.ltb_spec (len (header m sq n) + (6 + len data + len A) - 52) (2 + len data)); [lia|].
  rewrite Z.odd_add, (data_field_even m data DF). cbn [orb Z.odd xorb].
  set (p := set_m_mngType _ _).
  change (m_haveAuth (auth (set_prs p m2)) &&
    negb (Z.land (rcvAuth (m_prms (set_prs p m2))) RCV_AUTH_MNG =? 0)) with (checks m2).
  destruct (checks m2) eqn:C; cycle 1.
  { by apply (parseMngTlv_reply m (set_prs p m2) t data (header m sq n) (A ++ tail)); try lia. }
  destruct (Acc C) as (Ua & W1 & W2 & Sk). destruct (HA Ua) as (k & mac & Hk & Lm & Dg & ->).
  apply andb_prop in C as [Ha2 _]. apply andb_prop in Ua as [Ha1 _].
  assert (parseAuth (set_prs p m2) (header m sq n ++ tlv_part m data ++ (auth_head m ++ mac) ++ tail)
    (52 + (2 + len data)) (len (header m sq n) + (6 + len data + len (auth_head m ++ mac)) - 52 -
      (2 + len data)) true = Some MNG_PARSE_ERROR_OK) as ->.
  { rewrite <- !app_assoc, (app_assoc (header m sq n)).
    replace (52 + (2 + len data)) with (len (header m sq n ++ tlv_part m data))
      by (rewrite len_app, len_tlv_part; lia).
    apply (parseAuth_accepts m (set_prs p m2) k); try done.
    rewrite len_app, len_auth_head. lia. }
  cbn [mbind option_bind]. rewrite bool_decide_eq_true_2 by done. cbn [negb andb].
  by apply (parseMngTlv_reply m (set_prs p m2) t data (header m sq n)); try lia.
Qed.
End Reply.

Lemma message_prefix `{lib : MacLib} m sq n data out :
  message m sq n data out -> exists r, out = header m sq n ++ tlv_part m data ++ r.
Proof.
  unfold message. destruct (useAuthTlv m).
  - intros (k & mac & _ & _ & _ & ->). eexists. by rewrite <- !app_assoc.
  - intros ->. exists []. by rewrite app_nil_r.
Qed.

(** C3: A reply laid out as [build] lays out messages, with a structure of at
    least one octet, is parsed with success by an object that knows its id and,
    when it checks authentication, uses the same key as the sender: [parse]
    stores the action, the id, the sequence, the sender, the target and the other
    fields of the header, and [getData] is the normal form of the structure.
    Octets after the message do not matter. *)
Theorem reply_roundtrip `{lib : MacLib} {laws : MacLaws lib} m m2 t sq data out tail n :
  replies m t -> data_field m data -> wf_MsgParams (m_prms m) ->
  blocked (implementSpecific (m_prms m2)) (m_tlv_id (bld m)) = false -> accepts m m2 ->
  message m sq (len out) data out -> len out < 0xffff -> len out <= n <= len (out ++ tail) ->
  parse m2 (out ++ tail) n = Some (MNG_PARSE_ERROR_OK, set_prs (received m sq t (prs m2)) m2).
Proof.
  intros Rp DF W B Acc Ms Lo Hn.
  assert (exists r, out = header m sq (len out) ++ tlv_part m data ++ r) as [r Er].
  { by eapply message_prefix. }
  assert (54 <= len out) as L54.
  { rewrite Er, !len_app, len_header, len_tlv_part by done.
    pose proof (len_nonneg data). pose proof (len_nonneg r). lia. }
  destruct (header_reads m sq (len out) W ((tlv_part m data ++ r) ++ tail)) as ((R0 & _ & R2 & _) & _).
  pose proof (parseHeader_header m sq (len out) W ((tlv_part m data ++ r) ++ tail)
    (set_m_type Management (prs m2))) as PH.
  rewrite app_assoc, <- Er in R0, R2, PH.
  destruct (first_octet _ (proj1 W)) as [Ty _].
  unfold parse. change sigBaseSize with 44. destruct (Z.ltb_spec n 44); [lia|].
  rewrite R2. cbn [mbind option_bind]. rewrite uwrap_small by (unfold uint; lia).
  destruct (Z.ltb_spec n (len out)); [lia|]. rewrite R0. cbn [mbind option_bind]. rewrite Ty.
  change (Management =? Signaling) with false. change (Management =? Management) with true.
  change mngMsgMinSize with 52. cbn [andb negb].
  destruct (Z.ltb_spec (len out) 52); [lia|]. cbn [prs set_prs]. rewrite PH.
  cbn [mbind option_bind negb].
  match goal with |- context [set_prs ?p _] => set (p1 := p) end.
  by rewrite (parseMng_reply m (set_prs p1 (set_prs (set_m_type Management (prs m2)) m2))
    t sq (len out) data out tail Rp DF W B Acc Ms Lo).
Qed.

(** The reply of the demonstration object: its key, a structure of an odd
    number of octets, and a receiver that requires authentication. *)
Definition demo_reply : Message :=
  set_bld (mk_build_st RESPONSE 0 (Obj (T_PRIORITY1 (mk_PRIORITY1 200))) PRIORITY1) demo_auth.

Lemma demo_replies : replies demo_reply (T_PRIORITY1 (mk_PRIORITY1 200)).
Proof. repeat split; by vm_compute. Qed.

(** It has a dataField, and a message that carries it. *)
Lemma demo_data : exists data, data_field demo_reply data.
Proof.
  destruct (call_tlv_codec PRIORITY1 (T_PRIORITY1 (mk_PRIORITY1 200))) as (b & L & DO);
    [done|by vm_compute|].
  exists (b ++ [x00]). split; [rewrite len_app, L; done|]. by exists b.
Qed.

Lemma demo_message data : exists out, message demo_reply 9 (len out) data out.
Proof.
  set (n := 58 + len (tlv_part demo_reply data) + 16).
  set (u := (header demo_reply 9 n ++ tlv_part demo_reply data) ++ auth_head demo_reply).
  destruct (digest (mk_HMAC_Key HMAC_SHA256 [x61; x62; x63]) u 16) as [mac|] eqn:D; [|done].
  assert (len mac = 16) as L by (by apply digest_len in D).
  exists ((header demo_reply 9 n ++ tlv_part demo_reply data) ++ auth_head demo_reply ++ mac).
  unfold message. change (useAuthTlv demo_reply) with true. cbn match.
  assert (len ((header demo_reply 9 n ++ tlv_part demo_reply data) ++ auth_head demo_reply ++ mac)
    = n) as ->.
  { rewrite !len_app, len_header, len_auth_head, L; [unfold n; lia|by vm_compute]. }
  eexists _, mac. split; [vm_compute; reflexivity|]. done.
Qed.

Lemma wf_demo_auth : wf_auth (auth demo_auth).
Proof.
  split; [by vm_compute|]. split; [by vm_compute|]. split; [exact wf_demo_sa|].
  intros _. split; vm_compute; reflexivity.
Qed.

Lemma reply_roundtrip_witness :
  exists out m', parse demo_auth out (len out) = Some (MNG_PARSE_ERROR_OK, m') /\
    m_dataGet (prs m') = Obj (T_PRIORITY1 (mk_PRIORITY1 200)) /\ m_sequence (prs m') = 9.
Proof.
  destruct demo_data as [data DF]. destruct (demo_message data) as [out Ms].
  exists out. eexists. split.
  - rewrite <- (app_nil_r out) at 1.
    apply (reply_roundtrip demo_reply demo_auth (T_PRIORITY1 (mk_PRIORITY1 200)) 9 data out []
      (len out) demo_replies DF).
    + by vm_compute.
    + reflexivity.
    + intros _. split; [reflexivity|]. split; [exact wf_demo_auth|].
      split; [exact wf_demo_auth|done].
    + exact Ms.
    + unfold message in Ms. change (useAuthTlv demo_reply) with true in Ms. cbn match in Ms.
      destruct Ms as (k & mac & _ & L & _ & ->).
      rewrite !len_app, len_header, len_auth_head, len_tlv_part, L, (proj1 DF);
        by vm_compute.
    + rewrite app_nil_r. lia.
  - split; reflexivity.
Defined.
