(* ===== verification/SigFacts.v ===== *)
(** * SigFacts.v: signalling messages

    The copy constructors of [MessageSigTlv] and [MessageSigTlvs] in
    [src/src/msg.cpp]; the TLVs that [parse] stores always have the type they are
    listed with, so that copies are faithful; and the parsing of a signalling
    message laid out from a list of TLVs. *)

From S2P Require Import Prelude Types Ids MsgProc Codec Structs MngTlvs.
From S2P Require Import MngTlvsSpec Dispatch SigTlvs Auth Message ParseSafe MessageInv.
From S2P Require Import BuildFacts RoundTrip.

(** ** Copies *)

(** The case of one type: [None] is the copy of an indeterminate pointer, the
    inner option the null pointer when the dynamic cast fails. *)
Definition copySigTlv (n : Z) (ot : BaseSigTlv) : option (option BaseSigTlv) :=
  if sig_type ot =? n then
    match ot with
    | S_MANAGEMENT d => d ← copyMANAGEMENT d; Some (Some (S_MANAGEMENT d))
    | _ => Some (Some ot)
    end
  else Some None.

Definition copy_types : list Z :=
  [ PATH_TRACE; ALTERNATE_TIME_OFFSET_INDICATOR; ENHANCED_ACCURACY_METRICS; L1_SYNC;
    PORT_COMMUNICATION_AVAILABILITY; PROTOCOL_ADDRESS; SLAVE_RX_SYNC_TIMING_DATA;
    SLAVE_RX_SYNC_COMPUTED_DATA; SLAVE_TX_EVENT_TIMESTAMPS; CUMULATIVE_RATE_RATIO;
    MANAGEMENT_ERROR_STATUS; MANAGEMENT; SLAVE_DELAY_TIMING_DATA_NP ].

(** The copy constructor: the type and the pointer. *)
Definition MessageSigTlv_copy (o : Z * option BaseSigTlv) : option (Z * option BaseSigTlv) :=
  let '(m_tlvType, m_tlv) := o in
  tlv ← match m_tlv with
        | None => Some None
        | Some ot =>
            if (m_tlvType =? ORGANIZATION_EXTENSION_PROPAGATE) ||
               (m_tlvType =? ORGANIZATION_EXTENSION_DO_NOT_PROPAGATE) ||
               (m_tlvType =? ORGANIZATION_EXTENSION)
            then copySigTlv ORGANIZATION_EXTENSION ot
            else if existsb (Z.eqb m_tlvType) copy_types then copySigTlv m_tlvType ot
            else Some None
        end;
  Some match tlv with
       | Some tlv => (m_tlvType, Some tlv)
       | None => (0, None)
       end.

(** The move constructor: the new object and what is left of the old one. *)
Definition MessageSigTlv_move (o : Z * option BaseSigTlv)
    : (Z * option BaseSigTlv) * (Z * option BaseSigTlv) :=
  (o, (0, None)).

Definition tlv_objects (t : MessageSigTlvs) : list (Z * option BaseSigTlv) :=
  map (fun '(ty, t) => (ty, Some t)) (m_tlvs t).

(** The copy constructor of the list; the flag is [m_lastSig]. *)
Definition MessageSigTlvs_copy (o : MessageSigTlvs)
    : option (list (Z * option BaseSigTlv) * bool) :=
  let lastSig := m_lastSig o && negb (bool_decide (m_tlvs o = [])) in
  if lastSig then l ← mapM MessageSigTlv_copy (tlv_objects o); Some (l, true)
  else Some ([], false).

(** The move constructor of the list: the new one and the old one. *)
Definition MessageSigTlvs_move (o : MessageSigTlvs) : MessageSigTlvs * MessageSigTlvs :=
  if negb (bool_decide (m_tlvs o = [])) && m_lastSig o
  then (mk_MessageSigTlvs (m_tlvs o) true, mk_MessageSigTlvs [] false)
  else (mk_MessageSigTlvs [] false, mk_MessageSigTlvs [] false).

(** ** The types of the stored TLVs *)

Definition sig_typed (e : Z * BaseSigTlv) : Prop :=
  match e.2 with
  | S_ORGANIZATION_EXTENSION _ =>
      e.1 = ORGANIZATION_EXTENSION \/ e.1 = ORGANIZATION_EXTENSION_PROPAGATE \/
      e.1 = ORGANIZATION_EXTENSION_DO_NOT_PROPAGATE
  | S_MANAGEMENT d =>
      e.1 = MANAGEMENT /\
      (verifyTlv (mng_managementId d) (mng_tlvData d) = true \/ mng_tlvData d = Unset)
  | t => e.1 = sig_type t
  end.
Definition typed (t : MessageSigTlvs) : Prop := Forall sig_typed (m_tlvs t).

Lemma caseBuild_up {D} (up : D -> BaseSigTlv) f init s t s' :
  caseBuild up f init s = Pass t s' -> exists d, t = up d.
Proof.
  unfold caseBuild, bind. destruct (f init s) as [d s1|s1|]; [|done..]. intros [= <- <-]. eauto.
Qed.

Lemma sig_case_typed spec ty f s t s' :
  sig_case spec ty = Some f -> f s = Pass t s' -> sig_typed (ty, t).
Proof.
  unfold sig_case. intros E F.
  destruct ((ty =? _) || (ty =? _) || (ty =? _)) eqn:C.
  { injection E as <-. apply caseBuild_up in F as [d ->]. cbn. lia. }
  repeat match type of E with
  | (if ?b then _ else _) = _ => destruct b eqn:?
  end; try done; injection E as <-; apply caseBuild_up in F as [d ->]; cbn; lia.
Qed.

Lemma call_tlv_parsed id s e p s' :
  call_tlv_data id Unset s = Some (e, p, s') -> e = MNG_PARSE_ERROR_OK ->
  verifyTlv id p = true \/ p = Unset.
Proof.
  unfold call_tlv_data. intros H ->. destruct (tlv_case_of id) as [|D inst|] eqn:E.
  - simplify_eq. by right.
  - cbn zeta in H. repeat case_match; simplify_eq; try (by right); left; by eapply verifyTlv_intro.
  - simplify_eq.
Qed.

Section Typed.
Context `{lib : MacLib}.

Lemma parseSigTlv_typed m ty s t s' :
  parseSigTlv m ty s = Some (inr (Some t, s')) -> sig_typed (ty, t).
Proof.
  unfold parseSigTlv. destruct (Z.eqb_spec ty MANAGEMENT_ERROR_STATUS) as [->|].
  { intros H. repeat match type of H with
    | mbind _ ?e = Some _ => destruct e; [cbn [mbind option_bind] in H|done]
    | (if ?b then _ else _) = Some _ => destruct b
    | match ?x with _ => _ end = Some _ => destruct x
    end; try done; by simplify_eq. }
  destruct (Z.eqb_spec ty MANAGEMENT) as [->|].
  { destruct (m_left s <? 2); [done|]. destruct (rd16 _ _) as [v|]; [|done]. cbn [mbind option_bind].
    destruct (findTlvId v _) as [id|]; [|done]. destruct (2 <? m_left s); [|done].
    destruct (call_tlv_data id Unset _) as [[[e p] s1]|] eqn:E; [|done]. cbn [mbind option_bind].
    case_bool_decide as Ok; [|done]. intros [= <- <-]. split; [done|]. by eapply call_tlv_parsed. }
  destruct (sig_case _ ty) as [f|] eqn:E; [|done].
  destruct (f s) as [t1 s1|s1|] eqn:F; [|done..]. intros [= -> ->]. by eapply sig_case_typed.
Qed.

Lemma parseSig_round_typed m v s r :
  parseSig_round m v s = Some r -> typed (sl_tlvs v) ->
  match r with inl (_, t) => typed t | inr (v', _) => typed (sl_tlvs v') end.
Proof.
  unfold parseSig_round. intros H T.
  repeat match type of H with
  | mbind _ ?e = Some _ =>
      lazymatch e with
      | parseSigTlv _ _ _ => fail
      | _ => destruct e; [cbn [mbind option_bind] in H|done]
      end
  | (if ?b then _ else _) = Some _ => destruct b; [by simplify_eq/=|]
  | (if ?b then _ else _) = Some _ => destruct b
  end; try by simplify_eq/=.
  destruct (parseSigTlv _ _ _) as [[e|[o s1]]|] eqn:P; [by simplify_eq/=| |done].
  cbn [mbind option_bind] in H. simplify_eq. cbn. destruct o as [t|]; [|done].
  apply parseSigTlv_typed in P. unfold typed, push; cbn. apply Forall_app. by split; [|constructor].
Qed.

Lemma parseSig_end_tlvs m buf v e t : parseSig_end m buf v = Some (e, t) -> t = sl_tlvs v.
Proof.
  unfold parseSig_end. intros H.
  repeat match type of H with
  | mbind _ ?e = Some _ => destruct e; [cbn [mbind option_bind] in H|done]
  | (if ?b then _ else _) = Some _ => destruct b
  end; by simplify_eq.
Qed.

Lemma parseSig_loop_typed fuel m v s e t :
  parseSig_loop fuel m v s = Some (e, t) -> typed (sl_tlvs v) -> typed t.
Proof.
  revert v s. induction fuel as [|fuel IH]; intros v s H T; cbn in H;
    (destruct (_ <? _); [apply parseSig_end_tlvs in H; by subst|]); [done|].
  destruct (parseSig_round m v s) as [r|] eqn:E; [|done]. cbn [mbind option_bind] in H.
  apply parseSig_round_typed in E; [|done]. destruct r as [[]|[v' s']]; [by simplify_eq|].
  by eapply IH.
Qed.

Lemma parseMngTlv_sig m buf ty act n eA e m' :
  parseMngTlv m buf ty act n eA = Some (e, m') -> m_sigTlvs (prs m') = m_sigTlvs (prs m).
Proof.
  unfold parseMngTlv. intros H.
  repeat match type of H with
  | mbind _ ?e = Some _ => destruct e as [?|]; [cbn [mbind option_bind] in H|done]
  | (if ?b then _ else _) = Some _ => destruct b
  | (let '(_, _) := ?e in _) = Some _ => destruct e
  | match ?x with _ => _ end = Some _ => destruct x
  end; by simplify_eq.
Qed.

Lemma parseHeader_sig buf p g p' :
  parseHeader buf p = Some (g, p') -> m_sigTlvs p' = m_sigTlvs p.
Proof.
  unfold parseHeader. intros H.
  repeat match type of H with
  | mbind _ ?e = Some _ => destruct e as [?|]; [cbn [mbind option_bind] in H|done]
  | (if ?b then _ else _) = Some _ => destruct b
  end; by simplify_eq.
Qed.

Lemma parseMng_typed m buf n e m' :
  parseMng m buf n = Some (e, m') -> typed (m_sigTlvs (prs m)) -> typed (m_sigTlvs (prs m')).
Proof.
  unfold parseMng. intros H T.
  repeat match type of H with
  | mbind _ ?e = Some _ => destruct e as [?|]; [cbn [mbind option_bind] in H|done]
  | (if ?b then _ else _) = Some _ => destruct b
  end; try (by simplify_eq/=); apply parseMngTlv_sig in H; by rewrite H.
Qed.

Lemma parse_typed m buf n e m' :
  parse m buf n = Some (e, m') -> typed (m_sigTlvs (prs m)) -> typed (m_sigTlvs (prs m')).
Proof.
  unfold parse. intros H T. destruct (n <? _); [by simplify_eq|].
  destruct (rd16 buf 2); [|done]. cbn [mbind option_bind] in H.
  destruct (n <? _); [by simplify_eq|]. destruct (rd8 buf 0); [|done]. cbn [mbind option_bind] in H.
  destruct (_ && _); [by simplify_eq|]. destruct (_ && _); [by simplify_eq|].
  destruct (_ && _); [by simplify_eq|].
  destruct (parseHeader buf _) as [[g p]|] eqn:E; [|done]. cbn [mbind option_bind] in H.
  apply parseHeader_sig in E. cbn in E.
  destruct (negb g); [simplify_eq; cbn; by rewrite E|].
  destruct (_ =? Signaling); [|eapply parseMng_typed; [exact H|cbn; by rewrite E]].
  unfold parseSig in H. destruct (parseSig_loop _ _ _ _) as [[e1 t]|] eqn:L; [|done].
  cbn [mbind option_bind] in H. simplify_eq. cbn. eapply parseSig_loop_typed; [exact L|].
  by constructor.
Qed.

Lemma build_prs m buf n seq e m' buf' :
  build m buf n seq = Some (e, m', buf') -> prs m' = prs m.
Proof.
  unfold build. intros H.
  repeat match type of H with
  | mbind _ ?e = Some _ => destruct e as [?|]; [cbn [mbind option_bind] in H|done]
  | (if ?b then _ else _) = Some _ => destruct b
  | (let '(_, _) := ?e in _) = Some _ => destruct e
  | match ?x with _ => _ end = Some _ => destruct x
  end; by simplify_eq.
Qed.

(** In every object, the TLVs of the last signalling message have the type they
    are listed with, and management TLVs the structure of their id. *)
Lemma reachable_typed m : reachable m -> typed (m_sigTlvs (prs m)).
Proof.
  intros (m0 & [prms ->] & H).
  assert (typed (m_sigTlvs (prs (Message_new_prms prms)))) as T by constructor.
  revert T. generalize (Message_new_prms prms) H. clear. intros m0.
  induction 1 as [m|m m1 m2 S _ IH]; [done|]. intros T. apply IH. destruct S.
  - rewrite setAction_cases. cbv zeta. by destruct (_ && (_ || _)).
  - unfold clearData. by destruct (m_dataSend (bld m)).
  - unfold updateParams. by destruct (_ <? _).
  - unfold useConfig. by destruct (_ <? _).
  - done.
  - unfold useAuth. repeat case_match; done.
  - unfold changeAuth. repeat case_match; done.
  - unfold changeAuth_key, changeAuth. repeat case_match; done.
  - done.
  - erewrite build_prs by done. done.
  - by eapply parse_typed.
Qed.
End Typed.

(** ** Copies are faithful *)

(** A stored TLV without an indeterminate pointer is copied as it is. *)
Lemma copy_typed e :
  sig_typed e -> match e.2 with S_MANAGEMENT d => mng_tlvData d <> Unset | _ => True end ->
  MessageSigTlv_copy (e.1, Some e.2) = Some (e.1, Some e.2).
Proof.
  destruct e as [ty t]. cbn [fst snd]. destruct t as [d|d|d|d|d|d|d|d|d|d|d|d|d|d]; intros T W;
    unfold sig_typed in T; cbn [fst snd sig_type] in T;
    try (subst ty; reflexivity); [by destruct T as [->|[->| ->]]|].
  destruct T as [-> [V|]]; [|done]. unfold MessageSigTlv_copy. cbn -[copyMANAGEMENT].
  unfold copySigTlv. cbn -[copyMANAGEMENT]. destruct d as [id p]. cbn in V.
  apply verifyTlv_inv in V as (D & inst & d & E & -> & Hc).
  unfold copyMANAGEMENT; cbn. by rewrite E, Hc.
Qed.

(** No management TLV with an indeterminate pointer. *)
Definition sig_set (t : MessageSigTlvs) : Prop :=
  Forall (fun e => match e.2 with S_MANAGEMENT d => mng_tlvData d <> Unset | _ => True end)
    (m_tlvs t).

(** In every object that operations can produce, the copy of the list of
    signalling TLVs has the same types and structures, in the same order, when
    the last message was a signalling message; otherwise it is empty.  No copy
    loses a structure, since each is of the type it is listed with. *)
Theorem sig_copy_correct `{lib : MacLib} m (R : reachable m) (W : sig_set (m_sigTlvs (prs m))) :
  MessageSigTlvs_copy (m_sigTlvs (prs m)) =
    Some (if m_lastSig (m_sigTlvs (prs m)) && negb (bool_decide (m_tlvs (m_sigTlvs (prs m)) = []))
          then (tlv_objects (m_sigTlvs (prs m)), true) else ([], false)).
Proof.
  apply reachable_typed in R. revert R W. generalize (m_sigTlvs (prs m)). intros [l last] T W.
  unfold MessageSigTlvs_copy. destruct (_ && _); [|done].
  unfold typed, sig_set, tlv_objects in *. cbn [m_tlvs] in *.
  assert (mapM MessageSigTlv_copy (map (fun '(ty, t) => (ty, Some t)) l) =
    Some (map (fun '(ty, t) => (ty, Some t)) l)) as ->; [|done].
  induction l as [|e l IH]; [done|]. inversion_clear T as [|?? T1 T2].
  inversion_clear W as [|?? W1 W2]. cbn [map mapM]. pose proof (copy_typed e T1 W1) as C.
  destruct e as [ty t]. cbn [fst snd] in C. rewrite C. cbn [mbind option_bind]. by rewrite (IH T2 W2).
Qed.

(** ** A signalling message *)

(** A TLV of a signalling message. *)
Inductive sig_item :=
| Sig (t : BaseSigTlv)
| Mng (id : mng_vals_e) (t : BaseMngTlv).

(** The octets a builder leaves in a buffer of their number. *)
Definition sig_octets (t : BaseSigTlv) : list byte :=
  match sig_build t (cursor true (len_sig t)) with Pass _ s => m_buf s | _ => [] end.
Definition mng_octets (id : mng_vals_e) (t : BaseMngTlv) : list byte :=
  match call_tlv_data id (Obj t) (cursor true (len_tlv t)) with
  | Some (_, _, s) => m_buf s
  | None => []
  end.

Definition item_type (i : sig_item) : Z :=
  match i with Sig t => sig_type t | Mng _ _ => MANAGEMENT end.
(** The octets after the header of the TLV; a dataField is padded. *)
Definition item_octets (i : sig_item) : list byte :=
  match i with
  | Sig t => sig_octets t
  | Mng id t => be_enc 2 (mi_value (mng_all_vals id)) ++ mng_octets id t ++
                repeat x00 (Z.to_nat (len_tlv t mod 2))
  end.
Definition item_tlv (i : sig_item) : list byte :=
  be_enc 2 (item_type i) ++ be_enc 2 (len (item_octets i)) ++ item_octets i.
(** What the parser stores. *)
Definition item_value (i : sig_item) : Z * BaseSigTlv :=
  (item_type i,
   match i with
   | Sig t => norm_sig t
   | Mng id t => S_MANAGEMENT (mk_MANAGEMENT id (Obj (norm_tlv t)))
   end).

Definition wf_item (spec : implementSpecific_e) (i : sig_item) : Prop :=
  match i with
  | Sig t => wf_sig t /\ is_Some (sig_case spec (sig_type t)) /\ len_sig t < 0x10000
  | Mng id t => verifyTlv id (Obj t) = true /\ wf_tlv t /\ 0 < len_tlv t < 0xfffd /\
                blocked spec id = false
  end.

Lemma splice_all buf bs : len buf = len bs -> splice buf 0 bs = bs.
Proof.
  intros H. unfold splice. rewrite take_0, drop_ge by (unfold len in *; lia). by rewrite app_nil_r.
Qed.

Lemma cursor_ok n : 0 <= n -> ok (cursor true n) /\ len (m_buf (cursor true n)) = n.
Proof. intros H. unfold ok, cursor, len; cbn. rewrite repeat_length. lia. Qed.

Lemma sig_octets_spec spec t f :
  wf_sig t -> sig_case spec (sig_type t) = Some f ->
  len (sig_octets t) = len_sig t /\
  forall s, ok s -> m_build s = false -> at_cur s (sig_octets t) -> m_left s = len_sig t ->
    f s = Pass (norm_sig t) (move (len_sig t) s).
Proof.
  intros W E. assert (sig_case linuxptp (sig_type t) = Some f) as E'.
  { by destruct spec, t. }
  destruct (sig_codec t f W E') as (bs & Em & Co & L).
  destruct (cursor_ok (len_sig t)) as [Ok Lb]; [rewrite <- L; apply len_nonneg|].
  assert (sig_octets t = bs) as ->.
  { unfold sig_octets. destruct (Em _ Ok eq_refl) as [Fit _].
    rewrite Fit by (rewrite L; cbn; lia). apply splice_all. by rewrite L, Lb. }
  split; [done|]. rewrite <- L. by apply Co.
Qed.

Lemma mng_octets_spec id t :
  verifyTlv id (Obj t) = true -> wf_tlv t -> 0 <= len_tlv t ->
  len (mng_octets id t) = len_tlv t /\
  forall p s, ok s -> m_build s = false -> at_cur s (mng_octets id t) ->
    len_tlv t <= m_left s <= len_tlv t + 1 ->
    call_tlv_data id p s =
      Some (MNG_PARSE_ERROR_OK, Obj (norm_tlv t), move (len_tlv t) (start s)).
Proof.
  intros V W H0. destruct (call_tlv_codec id t V W) as (bs & L & [Em Co]).
  destruct (cursor_ok (len_tlv t) H0) as [Ok Lb].
  assert (mng_octets id t = bs) as ->.
  { unfold mng_octets. destruct (Em _ Ok eq_refl) as [Fit _].
    rewrite Fit by (rewrite L; cbn; lia). apply splice_all. cbn in Lb |- *. by rewrite L, Lb. }
  split; [done|]. rewrite <- L. intros p s Hs Hb Ha Hl. by apply Co.
Qed.

(** An item is parsed to its value; at most a padding octet is left. *)
Lemma parse_item `{lib : MacLib} m i buf pre rest size err :
  wf_item (implementSpecific (m_prms m)) i -> buf = pre ++ item_octets i ++ rest ->
  exists s', parseSigTlv m (item_type i)
      (mk_MsgProc false buf (len pre) (len (item_octets i)) size err) =
      Some (inr (Some (item_value i).2, s')) /\
    m_build s' = false /\ m_buf s' = buf /\ 0 <= m_left s' /\
    m_cur s' + m_left s' = len pre + len (item_octets i).
Proof.
  intros W ->. assert (forall x, x = pre ++ item_octets i ++ rest ->
    take (length (item_octets i)) (drop (Z.to_nat (len pre)) x) = item_octets i) as At.
  { intros x ->. rewrite drop_app_length', take_app_length'; [done|done|unfold len; lia]. }
  specialize (At _ eq_refl). pose proof (len_nonneg pre). pose proof (len_nonneg rest).
  pose proof (len_nonneg (item_octets i)).
  assert (len (pre ++ item_octets i ++ rest) = len pre + (len (item_octets i) + len rest)) as LB
    by (by rewrite !len_app).
  destruct i as [t|id t].
  - destruct W as (Wt & [f E] & _). destruct (sig_octets_spec _ t f Wt E) as [L C].
    cbn [item_type item_octets item_value snd] in *. revert L C At LB.
    generalize (sig_octets t). intros bs L C At LB. rewrite <- L in C.
    pose proof (len_nonneg bs).
    specialize (C (mk_MsgProc false (pre ++ bs ++ rest) (len pre) (len bs) size err)).
    unfold parseSigTlv. assert ((sig_type t =? MANAGEMENT_ERROR_STATUS) = false /\
      (sig_type t =? MANAGEMENT) = false) as [-> ->] by (by destruct t).
    rewrite E, C; [|unfold ok; cbn [m_cur m_left m_buf]; lia|reflexivity|exact At|reflexivity].
    eexists. split; [reflexivity|]. cbn [move m_build m_buf m_left m_cur].
    repeat (split; [reflexivity || lia|]). lia.
  - destruct W as (V & Wt & Hl & B). destruct (mng_octets_spec id t V Wt ltac:(lia)) as [L C].
    pose proof (Z.mod_pos_bound (len_tlv t) 2 ltac:(lia)).
    cbn [item_type item_octets item_value snd] in *. revert L C At LB.
    assert (len (repeat x00 (Z.to_nat (len_tlv t mod 2))) = len_tlv t mod 2) as LP
      by (unfold len; rewrite repeat_length; lia). revert LP.
    generalize (mng_octets id t) (repeat x00 (Z.to_nat (len_tlv t mod 2))).
    intros bs pad LP L C At LB. rewrite <- L in *.
    assert (len (be_enc 2 (mi_value (mng_all_vals id)) ++ bs ++ pad) = 2 + len bs + len pad) as LV
      by (rewrite !len_app, len_be_enc; lia).
    set (buf := pre ++ (be_enc 2 (mi_value (mng_all_vals id)) ++ bs ++ pad) ++ rest) in *.
    assert (rd16 buf (len pre) = Some (mi_value (mng_all_vals id))) as R.
    { unfold buf. rewrite <- !app_assoc. field. f_equal. apply uwrap_small, mng_value_uint. }
    rewrite LV in *. unfold parseSigTlv. cbn [m_left m_buf m_cur].
    change (MANAGEMENT =? MANAGEMENT_ERROR_STATUS) with false.
    change (MANAGEMENT =? MANAGEMENT) with true. cbn match.
    destruct (Z.ltb_spec (2 + len bs + len pad) 2); [lia|]. rewrite R.
    cbn [mbind option_bind]. unfold findTlvId.
    rewrite find_value by (by eapply verifyTlv_in_table). rewrite B.
    destruct (Z.ltb_spec 2 (2 + len bs + len pad)); [|lia].
    rewrite C; unfold skip, ok; cbn [m_cur m_left m_buf m_build]; [|lia|done| |lia].
    + cbn [mbind option_bind]. rewrite bool_decide_eq_true_2 by done. cbn [negb].
      eexists. split; [reflexivity|]. cbn [move start set_m_err m_build m_buf m_left m_cur].
      repeat (split; [reflexivity || lia|]). lia.
    + unfold at_cur, buf; cbn [m_cur m_buf]. rewrite <- !app_assoc, app_assoc, drop_app_length',
        take_app_length'; [done|done|]. rewrite length_app, length_be_enc. unfold len. lia.
Qed.

(** The filter of the object, and whether it asks for authentication. *)
Definition wanted (m : Message) (i : sig_item) : bool :=
  negb (filterSignaling (m_prms m)) || isSigTlv (m_prms m) (item_type i).
Definition sig_auth (m : Message) : bool :=
  m_haveAuth (auth m) &&
  negb (Z.land (rcvAuth (m_prms m)) (Z.lor RCV_AUTH_SIG_ALL RCV_AUTH_SIG_LAST) =? 0).

Lemma item_len spec i : wf_item spec i -> len (item_octets i) < 0x10000.
Proof.
  destruct i as [t|id t].
  - intros (W & [f E] & L). cbn [item_octets]. by rewrite (proj1 (sig_octets_spec _ t f W E)).
  - intros (V & W & L & _). cbn [item_octets]. rewrite !len_app, len_be_enc.
    rewrite (proj1 (mng_octets_spec id t V W ltac:(lia))).
    pose proof (Z.mod_pos_bound (len_tlv t) 2 ltac:(lia)). unfold len. rewrite repeat_length. lia.
Qed.

Lemma item_type_uint i : uint 16 (item_type i).
Proof. by destruct i as [[]|]. Qed.
Lemma item_type_auth i : (item_type i =? AUTHENTICATION) = false.
Proof. by destruct i as [[]|]. Qed.

Lemma len_item_tlv i : len (item_tlv i) = 4 + len (item_octets i).
Proof. unfold item_tlv. rewrite !len_app, !len_be_enc. lia. Qed.

(** One round of the loop on the TLV of an item. *)
Lemma round_item `{lib : MacLib} m i pre rest v left size err :
  wf_item (implementSpecific (m_prms m)) i -> len (item_tlv i) <= sl_leftAll v ->
  exists s', parseSig_round m v (mk_MsgProc false (pre ++ item_tlv i ++ rest) (len pre) left size err) =
      Some (inr (mk_sig_loop (if wanted m i then push (item_type i) (Some (item_value i).2) (sl_tlvs v)
                              else sl_tlvs v)
                   (sl_leftAll v - len (item_tlv i)) (item_type i) (sl_lastAuth v) (sl_errAuth v), s')) /\
    m_build s' = false /\ m_buf s' = pre ++ item_tlv i ++ rest /\
    m_cur s' = len (pre ++ item_tlv i).
Proof.
  intros W Hl. pose proof (item_len _ i W). pose proof (len_nonneg (item_octets i)).
  pose proof (item_type_uint i) as Ut. rewrite len_app, len_item_tlv in *.
  assert (rd16 (pre ++ item_tlv i ++ rest) (len pre) = Some (item_type i) /\
    rd16 (pre ++ item_tlv i ++ rest) (len pre + 2) = Some (len (item_octets i))) as [R0 R2].
  { unfold item_tlv. rewrite <- !app_assoc. split; field; f_equal; apply uwrap_small; [done|].
    unfold uint; lia. }
  unfold parseSig_round. cbn [m_buf m_cur m_build m_left m_size m_err]. rewrite R0, R2.
  cbn [mbind option_bind]. unfold tlvSizeHdr. rewrite item_type_auth.
  destruct (Z.ltb_spec (sl_leftAll v - 4) (len (item_octets i))); [lia|].
  replace (sl_leftAll v - 4 - len (item_octets i)) with (sl_leftAll v - (4 + len (item_octets i))) by lia.
  assert (wanted m i = negb (filterSignaling (m_prms m) && negb (isSigTlv (m_prms m) (item_type i))))
    as -> by (unfold wanted; by destruct (filterSignaling _), (isSigTlv _ _)).
  destruct (filterSignaling (m_prms m) && _); cbn [negb].
  - eexists. split; [done|]. cbn. repeat (split; [done|]). lia.
  - destruct (parse_item m i (pre ++ item_tlv i ++ rest) (pre ++ be_enc 2 (item_type i) ++
        be_enc 2 (len (item_octets i))) rest size err W) as (s' & P & B1 & B2 & B3 & B4);
      [unfold item_tlv; by rewrite <- !app_assoc|].
    rewrite !len_app, !len_be_enc in *. unfold set_m_left; cbn [m_build m_buf m_cur m_size m_err].
    change (Z.of_nat 2 + Z.of_nat 2) with 4 in *. rewrite P. cbn [mbind option_bind].
    eexists. split; [done|].
    destruct (Z.ltb_spec 0 (m_left s')); cbn; (split; [done|]); (split; [done|lia]).
Qed.

Definition item_list (m : Message) (items : list sig_item) : list (Z * BaseSigTlv) :=
  map item_value (filter (fun i => wanted m i = true) items).
Definition sig_tlvs (items : list sig_item) : list byte := concat (map item_tlv items).

Lemma loop_items `{lib : MacLib} m items : forall pre tail v s fuel,
  Forall (wf_item (implementSpecific (m_prms m))) items -> sig_auth m = false ->
  m_build s = false -> m_buf s = pre ++ sig_tlvs items ++ tail -> m_cur s = len pre ->
  sl_leftAll v = len (sig_tlvs items) -> sl_leftAll v < Z.of_nat fuel ->
  parseSig_loop fuel m v s = Some (MNG_PARSE_ERROR_SIG,
    mk_MessageSigTlvs (m_tlvs (sl_tlvs v) ++ item_list m items) (m_lastSig (sl_tlvs v))).
Proof.
  unfold sig_tlvs, item_list. induction items as [|i items IH];
    intros pre tail v s fuel W A Hb Hbuf Hc Hl Hf; cbn [map concat] in *.
  { assert (parseSig_end m (m_buf s) v = Some (MNG_PARSE_ERROR_SIG, sl_tlvs v)) as E.
    { unfold parseSig_end, sig_auth in *. by rewrite A. }
    destruct fuel as [|fuel]; cbn [parseSig_loop]; rewrite Hl; cbn; rewrite E, app_nil_r;
      by destruct (sl_tlvs v). }
  inversion_clear W as [|?? W1 W2]. rewrite len_app in Hl. pose proof (len_item_tlv i).
  pose proof (len_nonneg (item_octets i)). pose proof (len_nonneg (concat (map item_tlv items))).
  destruct fuel as [|fuel]; [lia|]. cbn [parseSig_loop]. unfold tlvSizeHdr.
  destruct (Z.ltb_spec (sl_leftAll v) 4); [lia|].
  destruct s as [bd buf cur left size err]. cbn [m_build m_buf m_cur] in *. subst bd buf cur.
  rewrite <- app_assoc.
  destruct (round_item m i pre (concat (map item_tlv items) ++ tail) v left size err W1)
    as (s' & -> & B1 & B2 & B3); [lia|]. cbn [mbind option_bind].
  rewrite app_assoc in B2.
  rewrite (IH (pre ++ item_tlv i) tail _ s' fuel W2 A B1 B2 B3); cbn [sl_leftAll sl_tlvs]; [|lia..].
  rewrite filter_cons. destruct (wanted m i); cbn; [|done].
  by rewrite <- app_assoc.
Qed.

(** ** The whole message *)

Lemma load_before a b off n : off + n <= len a -> load (a ++ b) off n = load a off n.
Proof.
  intros H. pose proof (len_nonneg b). unfold load.
  assert (bool_decide (0 <= off /\ 0 <= n /\ off + n <= len (a ++ b)) =
    bool_decide (0 <= off /\ 0 <= n /\ off + n <= len a)) as ->
    by (apply bool_decide_ext; rewrite len_app; lia).
  case_bool_decide; [|done]. f_equal. unfold len in *.
  rewrite drop_app_le by lia. rewrite take_app_le; [done|]. rewrite length_drop. lia.
Qed.
Lemma rd_before k a b off : off + Z.of_nat k <= len a -> rd k (a ++ b) off = rd k a off.
Proof. intros H. unfold rd. by rewrite load_before. Qed.

Lemma parseHeader_before a b p : len a = 44 -> parseHeader (a ++ b) p = parseHeader a p.
Proof.
  intros L. unfold parseHeader, rd8, rd16.
  by rewrite !rd_before, !load_before by (rewrite L; lia).
Qed.

(** C4: A signalling message, whose header [parse] accepts and whose TLVs are
    built from well-formed structures, is parsed to the list of the normal forms
    of these structures with their types, in their order, without the TLVs that
    the filter excludes; octets after the message do not matter. *)
Theorem parse_signalling `{lib : MacLib} m hd items tail n b0 p
    (Lh : len hd = 44) (B0 : rd8 hd 0 = Some b0) (Ty : Z.land b0 0xf = Signaling)
    (Hn : rd16 hd 2 = Some (44 + len (sig_tlvs items)))
    (Hp : parseHeader hd (set_m_type Signaling (prs m)) = Some (true, p))
    (Rcv : rcvSignaling (m_prms m) = true) (NoAuth : sig_auth m = false)
    (W : Forall (wf_item (implementSpecific (m_prms m))) items)
    (Ln : 44 + len (sig_tlvs items) <= n) :
  parse m (hd ++ sig_tlvs items ++ tail) n =
    Some (MNG_PARSE_ERROR_SIG,
      set_prs (set_m_sigTlvs (mk_MessageSigTlvs (item_list m items) true) p) m).
Proof.
  pose proof (len_nonneg (sig_tlvs items)). unfold parse. change sigBaseSize with 44.
  destruct (Z.ltb_spec n 44); [lia|]. unfold rd16, rd8 in *.
  rewrite !(rd_before _ hd) by lia. rewrite Hn. cbn [mbind option_bind].
  destruct (Z.ltb_spec n (44 + len (sig_tlvs items))); [lia|].
  rewrite B0. cbn [mbind option_bind]. cbv zeta. rewrite Ty.
  cbn [prs set_prs m_prms]. rewrite Rcv. change (Signaling =? Signaling) with true.
  change (Signaling =? Management) with false. cbn [negb andb].
  rewrite parseHeader_before, Hp by done. cbn [mbind option_bind negb].
  unfold parseSig. cbn [m_size].
  replace (44 + len (sig_tlvs items) - 44) with (len (sig_tlvs items)) by lia.
  rewrite (loop_items _ items hd tail); [..|cbn [sl_leftAll]; lia]; try done.
Qed.

(** ** Witnesses *)

(** The object filters and keeps two of the types. *)
Definition demo_sig_prms : MsgParams :=
  let p := MsgParams_default in
  mk_MsgParams (transportSpecific p) (domainNumber p) (boundaryHops p) (minorVersion p)
    (isUnicast p) (implementSpecific p) (target p) (self_id p) (useZeroGet p) true
    (filterSignaling p) (rcvSMPTEOrg p) (sendAuth p) (rcvAuth p)
    {[ MANAGEMENT := true; PATH_TRACE := true ]}.
Definition demo_receiver : Message := Message_new_prms demo_sig_prms.
Definition demo_items : list sig_item :=
  [ Sig (S_CUMULATIVE_RATE_RATIO (mk_CUMULATIVE_RATE_RATIO (-5)));
    Mng PRIORITY1 (T_PRIORITY1 (mk_PRIORITY1 200));
    Sig (S_PATH_TRACE (mk_PATH_TRACE [allClocks; allClocks])) ].
Definition demo_sig_header : list byte :=
  [x0c; x12] ++ be_enc 2 (44 + len (sig_tlvs demo_items)) ++ repeat x00 29 ++ [x7f] ++ repeat x01 10.
Definition demo_sig : list byte := demo_sig_header ++ sig_tlvs demo_items ++ [x55].

Lemma demo_items_wf : Forall (wf_item (implementSpecific demo_sig_prms)) demo_items.
Proof.
  repeat constructor; try by eexists.
  all: try (vm_compute; (reflexivity || discriminate)).
Qed.

Definition demo_header_prs : parse_st :=
  match parseHeader demo_sig_header (set_m_type Signaling (prs demo_receiver)) with
  | Some (_, p) => p
  | None => prs demo_receiver
  end.
Definition demo_parsed : Message :=
  set_prs (set_m_sigTlvs (mk_MessageSigTlvs (item_list demo_receiver demo_items) true)
    demo_header_prs) demo_receiver.

Lemma parse_signalling_witness :
  @parse demo_mac demo_receiver demo_sig (len demo_sig) =
    Some (MNG_PARSE_ERROR_SIG, demo_parsed).
Proof.
  refine (@parse_signalling demo_mac demo_receiver demo_sig_header demo_items [x55] (len demo_sig)
    0x0c demo_header_prs _ _ _ _ _ _ _ demo_items_wf _); try (vm_compute; reflexivity).
  vm_compute. discriminate.
Defined.

(** The parsed message can be copied: the copy has the two TLVs that pass
    the filter. *)
Lemma sig_copy_correct_witness :
  MessageSigTlvs_copy (m_sigTlvs (prs demo_parsed)) =
    Some (map (fun i => ((item_value i).1, Some (item_value i).2)) (drop 1 demo_items), true).
Proof.
  assert (@parse demo_mac demo_receiver demo_sig (len demo_sig) =
    Some (MNG_PARSE_ERROR_SIG, demo_parsed)) as P by (vm_compute; reflexivity).
  rewrite (@sig_copy_correct demo_mac demo_parsed).
  - vm_compute. reflexivity.
  - exists demo_receiver. split; [by exists demo_sig_prms|].
    eapply rtc_l; [|apply rtc_refl]. eapply step_parse; [|exact P]. done.
  - repeat constructor; discriminate.
Defined.
