(* ===== verification/Config.v ===== *)
(** * Config.v: the configuration file

    [ConfigFile] of [src/pub/cfg.h] and [src/src/cfg.cpp]: the sections of a
    configuration in the format of linuxptp, the ranges of its values and the
    getters, and the two methods of [Message] that use it.  An array of the
    program that is never initialised as a whole is a finite map, in which a
    value that was never stored is missing; reading it is [None]. *)

From S2P Require Import Prelude CStr Types Codec Bin Auth Cfg Message ParseSafe.
From stdpp Require Import gmap.

Open Scope string_scope.
Open Scope nat_scope.
Open Scope Z_scope.

(** ** The values of a section *)

Definition transportSpecific_val : nat := 0.
Definition domainNumber_val : nat := 1.
Definition udp6_scope_val : nat := 2.
Definition udp_ttl_val : nat := 3.
Definition socket_priority_val : nat := 4.
Definition network_transport_val : nat := 5.
Definition active_key_id_val : nat := 6.
Definition spp_val : nat := 7.
Definition allow_unauth_val : nat := 8.
Definition str_base_val : nat := 9.
Definition uds_address_val : nat := 9.
Definition sa_file_val : nat := 10.
Definition bin_base_val : nat := 11.
Definition ptp_dst_mac_val : nat := 11.
Definition p2p_dst_mac_val : nat := 12.
Definition last_val : nat := 13.

Definition UINT8_MAX : Z := 0xff.

Record range_t := mk_range {
  r_name : list byte;
  r_defStr : list byte;
  r_defVal : Z;
  r_min : Z;
  r_max : Z
}.
Definition rang_val (name : string) (dVal minVal maxVal : Z) : range_t :=
  mk_range (bytes name) [] dVal minVal maxVal.
Definition rang_str (name dStr : string) : range_t := mk_range (bytes name) (bytes dStr) 0 0 0.

Definition ranges : list range_t :=
  [ rang_val "transportSpecific" 0 0 0xf;
    rang_val "domainNumber" 0 0 UINT8_MAX;
    rang_val "udp6_scope" 0xe 0 0xf;
    rang_val "udp_ttl" 1 1 UINT8_MAX;
    rang_val "socket_priority" 0 0 15;
    rang_val "network_transport" 52 50 54;
    rang_val "active_key_id" 0 0 UINT32_MAX;
    rang_val "spp" 0 0 UINT8_MAX;
    rang_val "allow_unauth" 0 0 2;
    rang_str "uds_address" "/var/run/ptp/ptp4l";
    rang_str "sa_file" "";
    rang_str "ptp_dst_mac" "1:1b:19:0:0:0";
    rang_str "p2p_dst_mac" "1:80:c2:0:0:e" ].

Record ConfigSection := mk_section {
  m_str_vals : list (list byte);
  m_bin_vals : list Binary;
  m_vals : gmap nat Z;
  m_set : gset nat
}.
(** A section as the map makes it: the numbers are not initialised. *)
Definition ConfigSection_new : ConfigSection :=
  mk_section [[]; []] [Binary_new; Binary_new] ∅ ∅.

Definition setGlobal (c : ConfigSection) : ConfigSection :=
  mk_section
    (map r_defStr (take 2 (drop str_base_val ranges)))
    (zip_with (fun r b => snd (fromMac (r_defStr r) b)) (drop bin_base_val ranges) (m_bin_vals c))
    (foldr (fun i vals => match ranges !! i with
                          | Some r => <[i := r_defVal r]> vals
                          | None => vals
                          end) (m_vals c) (seq 0 str_base_val))
    (m_set c).

Definition set_str (idx : nat) (v : list byte) (c : ConfigSection) : ConfigSection :=
  mk_section (<[(idx - str_base_val)%nat := v]> (m_str_vals c)) (m_bin_vals c) (m_vals c)
    ({[idx]} ∪ m_set c).
Definition set_bin (idx : nat) (v : Binary) (c : ConfigSection) : ConfigSection :=
  mk_section (m_str_vals c) (<[(idx - bin_base_val)%nat := v]> (m_bin_vals c)) (m_vals c)
    ({[idx]} ∪ m_set c).
Definition set_num (idx : nat) (v : Z) (c : ConfigSection) : ConfigSection :=
  mk_section (m_str_vals c) (m_bin_vals c) (<[idx := v]> (m_vals c)) ({[idx]} ∪ m_set c).

(** The value [val] that is not empty for the name of index [idx]. *)
Definition store_val (idx : nat) (val : list byte) (c : ConfigSection) : bool * ConfigSection :=
  if (idx =? uds_address_val)%nat || (idx =? sa_file_val)%nat then (true, set_str idx val c)
  else if (idx =? ptp_dst_mac_val)%nat || (idx =? p2p_dst_mac_val)%nat then
    let '(r, id) := fromMac val Binary_new in
    if r then (true, set_bin idx id c) else (false, c)
  else if (idx =? network_transport_val)%nat then
    if bool_decide (val = bytes "UDPv4") then (true, set_num idx 52 c)
    else if bool_decide (val = bytes "UDPv6") then (true, set_num idx 54 c)
    else if bool_decide (val = bytes "L2") then (true, set_num idx 50 c)
    else (false, c)
  else match ranges !! idx with
       | None => (false, c)
       | Some r =>
           let '(ret, rest) := strtol 0 val in
           if (ret <? r_min r) || (r_max r <? ret) || negb (bool_decide (rest = [])) then (false, c)
           else (true, set_num idx ret c)
       end.

Fixpoint find_range (name : list byte) (l : list range_t) (i : nat) : option nat :=
  match l with
  | [] => None
  | r :: l => if bool_decide (name = r_name r) then Some i else find_range name l (S i)
  end.

Definition ConfigSection_set_val (buf : list byte) (line : nat) (c : ConfigSection)
    : option (bool * list byte * ConfigSection) :=
  '(buf, val) ← next_space_token buf line;
  name ← str_at buf line;
  match find_range name ranges 0 with
  | None => Some (true, buf, c)
  | Some idx =>
      n ← strlen buf val;
      buf ← strip_end_spaces buf (val + n);
      v ← str_at buf val;
      if bool_decide (v = []) then Some (false, buf, c)
      else let '(r, c) := store_val idx v c in Some (r, buf, c)
  end.

(** ** The sections *)

(** [std::map<std::string, ConfigSection>]; [cfgGlobal] points to the entry of
    the section "global". *)
Abbreviation ConfigFile := (gmap string ConfigSection).
Definition globalSection : string := "global".

(** [cfgSec[section]] makes a missing section. *)
Definition at_section (cfgSec : ConfigFile) (section : string) : ConfigSection :=
  default ConfigSection_new (cfgSec !! section).

(** [clear_sections], and the constructor. *)
Definition clear_sections : ConfigFile := {[ globalSection := setGlobal ConfigSection_new ]}.

Record cfg_st := mk_cfg_st {
  c_buf : list byte;
  c_cur : string;
  c_sec : ConfigFile
}.

(** A line: [None] is a fault, [false] a wrong line. *)
Definition cfg_line (line : list byte) (st : cfg_st) : option (bool * cfg_st) :=
  let buf := store_line line (c_buf st) in
  cur ← skip_spaces buf 0;
  c ← buf !! cur;
  if bool_decide (c = x5b) then
    cur ← skip_spaces buf (S cur);
    end_ ← strchr buf cur x5d;
    match end_ with
    | None => Some (false, mk_cfg_st buf (c_cur st) (c_sec st))
    | Some e =>
        buf ← strip_end_spaces buf e;
        name ← str_at buf cur;
        Some (true, mk_cfg_st buf (String.string_of_list_byte name) (c_sec st))
    end
  else if bool_decide (c = x00) || bool_decide (c = x23)
  then Some (true, mk_cfg_st buf (c_cur st) (c_sec st))
  else
    '(r, buf, sec) ← ConfigSection_set_val buf cur (at_section (c_sec st) (c_cur st));
    Some (r, mk_cfg_st buf (c_cur st) (<[c_cur st := sec]> (c_sec st))).

Fixpoint cfg_lines (l : list (list byte)) (st : cfg_st) : option (bool * cfg_st) :=
  match l with
  | [] => Some (true, st)
  | line :: l => '(r, st) ← cfg_line line st;
                 if r : bool then cfg_lines l st else Some (false, st)
  end.

(** [read_cfg] of a file with a name: [file] is the content, [None] when it can
    not be opened. *)
Definition read_cfg (residue : list byte) (file : option (list byte)) (cfg : ConfigFile)
    : option (bool * ConfigFile) :=
  match file with
  | None => Some (false, cfg)
  | Some file =>
      '(r, st) ← cfg_lines (lines file) (mk_cfg_st residue globalSection clear_sections);
      Some (r, c_sec st)
  end.

(** ** The getters *)

Definition is_global (cfg : ConfigFile) (idx : nat) (section : string) : bool :=
  bool_decide (section = "") ||
  match cfg !! section with None => true | Some c => negb (bool_decide (idx ∈ m_set c)) end.
Definition holder (cfg : ConfigFile) (idx : nat) (section : string) : option ConfigSection :=
  if is_global cfg idx section then cfg !! globalSection else cfg !! section.

Definition get_num (cfg : ConfigFile) (idx : nat) (section : string) : option Z :=
  c ← holder cfg idx section; m_vals c !! idx.
Definition get_str (cfg : ConfigFile) (idx : nat) (section : string) : option (list byte) :=
  c ← holder cfg idx section; m_str_vals c !! (idx - str_base_val)%nat.
Definition get_bin (cfg : ConfigFile) (idx : nat) (section : string) : option Binary :=
  c ← holder cfg idx section; m_bin_vals c !! (idx - bin_base_val)%nat.

(** The getters of octets. *)
Definition get_func (idx : nat) (cfg : ConfigFile) (section : string) : option Z :=
  v ← get_num cfg idx section; Some (uwrap 8 v).
Definition transportSpecific := get_func transportSpecific_val.
Definition domainNumber := get_func domainNumber_val.
Definition udp6_scope := get_func udp6_scope_val.
Definition udp_ttl := get_func udp_ttl_val.
Definition socket_priority := get_func socket_priority_val.
Definition network_transport := get_func network_transport_val.
Definition active_key_id (cfg : ConfigFile) := get_num cfg active_key_id_val.
Definition spp := get_func spp_val.
Definition allow_unauth := get_func allow_unauth_val.
Definition uds_address (cfg : ConfigFile) := get_str cfg uds_address_val.
Definition sa_file (cfg : ConfigFile) := get_str cfg sa_file_val.
Definition ptp_dst_mac (cfg : ConfigFile) := get_bin cfg ptp_dst_mac_val.
Definition p2p_dst_mac (cfg : ConfigFile) := get_bin cfg p2p_dst_mac_val.

(** [None] is the exception of [std::map::at]. *)
Definition haveSpp (cfg : ConfigFile) (section : string) : option bool :=
  g ← cfg !! globalSection;
  if bool_decide (spp_val ∈ m_set g) then Some true
  else if bool_decide (section = "") then Some false
  else c ← cfg !! section; Some (bool_decide (spp_val ∈ m_set c)).

(** ** The use of a configuration by a message *)

Definition Message_useConfig (cfg : ConfigFile) (section : string) (m : Message)
    : option (bool * Message) :=
  t ← transportSpecific cfg section;
  d ← domainNumber cfg section;
  Some (useConfig t d m).

(** [SaFile::read_sa] by the name of a file; [fs] gives the files that can be
    opened. *)
Definition read_sa_name (fs : list byte -> option (list byte)) (residue name : list byte)
    (sa : SaFile) : option (bool * SaFile) :=
  if bool_decide (name = []) then Some (false, sa)
  else match fs name with
       | None => Some (false, sa)
       | Some file => read_sa residue file sa
       end.
Definition read_sa_cfg (fs : list byte -> option (list byte)) (residue : list byte)
    (cfg : ConfigFile) (section : string) (sa : SaFile) : option (bool * SaFile) :=
  file ← sa_file cfg section;
  if bool_decide (file = []) then Some (false, sa) else read_sa_name fs residue file sa.

Definition useAuth_cfg `{lib : MacLib} (fs : list byte -> option (list byte)) (residue : list byte)
    (cfg : ConfigFile) (section : string) (m : Message) : option (bool * Message) :=
  keyID ← active_key_id cfg section;
  h ← haveSpp cfg section;
  if h && (0 <? keyID) then
    '(r, sa) ← read_sa_cfg fs residue cfg section ∅;
    if r : bool then
      sppID ← spp cfg section;
      Some (useAuth sa sppID keyID m)
    else Some (false, m)
  else Some (false, m).

(** ** What holds of every section *)

Definition in_range (idx : nat) (v : Z) : Prop :=
  exists r, ranges !! idx = Some r /\ r_min r <= v <= r_max r.

Record sec_inv (c : ConfigSection) : Prop := {
  si_num : forall idx v, m_vals c !! idx = Some v -> in_range idx v;
  si_set : forall idx, (idx < str_base_val)%nat -> idx ∈ m_set c -> is_Some (m_vals c !! idx);
  si_str : length (m_str_vals c) = 2%nat;
  si_len : length (m_bin_vals c) = 2%nat;
  si_bin : forall i b, m_bin_vals c !! i = Some b -> (bin_base_val + i)%nat ∈ m_set c ->
    isMacLen b = true
}.
(** A section that has every value. *)
Record full (c : ConfigSection) : Prop := {
  fu_num : forall idx, (idx < str_base_val)%nat -> is_Some (m_vals c !! idx);
  fu_bin : Forall (fun b => isMacLen b = true) (m_bin_vals c)
}.
Definition cfg_inv (cfg : ConfigFile) : Prop :=
  (exists g, cfg !! globalSection = Some g /\ full g) /\ map_Forall (fun _ c => sec_inv c) cfg.

Lemma sec_inv_new : sec_inv ConfigSection_new.
Proof.
  split; [intros idx v H; cbn [m_vals ConfigSection_new] in H; by rewrite lookup_empty in H|intros idx _ H; set_solver|done..|].
  intros i b _ H. set_solver.
Qed.

Lemma global_inv : sec_inv (setGlobal ConfigSection_new) /\ full (setGlobal ConfigSection_new).
Proof.
  assert (map_Forall (fun idx v => in_range idx v) (m_vals (setGlobal ConfigSection_new))) as R.
  { apply map_Forall_to_list.
    let l := eval vm_compute in (map_to_list (m_vals (setGlobal ConfigSection_new))) in
    change (Forall (uncurry in_range) l).
    repeat (apply Forall_cons_2;
      [eexists; split; [reflexivity|cbn; unfold UINT32_MAX, UINT8_MAX; lia]|]).
    apply Forall_nil_2. }
  split; split.
  - exact R.
  - intros idx _ H. set_solver.
  - done.
  - done.
  - intros i b _ H. set_solver.
  - intros idx H. unfold str_base_val in H.
    do 9 (destruct idx as [|idx]; [by vm_compute; eexists|]). lia.
  - vm_compute. repeat constructor.
Qed.

Lemma sec_inv_set_num idx v c :
  (idx < str_base_val)%nat -> in_range idx v -> sec_inv c -> sec_inv (set_num idx v c).
Proof.
  intros Hi R [H1 H2 H3 H4 H5]. split; cbn; try done.
  - intros j w Hj. destruct (decide (j = idx)) as [->|].
    + rewrite lookup_insert_eq in Hj. by simplify_eq.
    + rewrite lookup_insert_ne in Hj by done. by apply H1.
  - intros j Lj Hj. destruct (decide (j = idx)) as [->|]; [rewrite lookup_insert_eq; eauto|].
    rewrite lookup_insert_ne by done. apply H2; [done|].
    apply elem_of_union in Hj as [Hj|]; [by apply elem_of_singleton in Hj|done].
  - intros i b Hb Hs. apply (H5 i b Hb). unfold bin_base_val, str_base_val in *.
    apply elem_of_union in Hs as [Hs|]; [|done].
    apply elem_of_singleton in Hs. unfold str_base_val, bin_base_val in *. lia.
Qed.

Lemma sec_inv_set_str idx v c :
  (str_base_val <= idx < bin_base_val)%nat -> sec_inv c -> sec_inv (set_str idx v c).
Proof.
  intros Hi [H1 H2 H3 H4 H5]. split; cbn; try done.
  - intros j Lj Hj. apply H2; [done|]. apply elem_of_union in Hj as [Hj|]; [|done].
    apply elem_of_singleton in Hj. unfold str_base_val, bin_base_val in *. lia.
  - by rewrite length_insert.
  - intros i b Hb Hs. apply (H5 i b Hb).
    apply elem_of_union in Hs as [Hs|]; [|done].
    apply elem_of_singleton in Hs. unfold str_base_val, bin_base_val in *. lia.
Qed.

Lemma sec_inv_set_bin idx b c :
  (bin_base_val <= idx < last_val)%nat -> isMacLen b = true -> sec_inv c -> sec_inv (set_bin idx b c).
Proof.
  unfold last_val. intros Hi Hb [H1 H2 H3 H4 H5]. split; cbn; try done.
  - intros j Lj Hj. apply H2; [done|]. apply elem_of_union in Hj as [Hj|]; [|done].
    apply elem_of_singleton in Hj. unfold str_base_val, bin_base_val in *. lia.
  - by rewrite length_insert.
  - intros i b' Hb' Hs. destruct (decide (i = idx - bin_base_val)%nat) as [->|].
    + rewrite list_lookup_insert_eq in Hb' by (rewrite H4; unfold bin_base_val in *; lia). by simplify_eq.
    + rewrite list_lookup_insert_ne in Hb' by done. apply (H5 i b' Hb').
      apply elem_of_union in Hs as [Hs|]; [|done].
      apply elem_of_singleton in Hs. unfold str_base_val, bin_base_val in *. lia.
Qed.

Lemma full_set_num idx v c : full c -> full (set_num idx v c).
Proof.
  intros [H1 H2]. split; [|done]. intros j Hj. cbn. destruct (decide (j = idx)) as [->|].
  - rewrite lookup_insert_eq; eauto.
  - rewrite lookup_insert_ne by done. by apply H1.
Qed.
Lemma full_set_bin idx b c : isMacLen b = true -> full c -> full (set_bin idx b c).
Proof. intros Hb [H1 H2]. split; [done|]. cbn. by apply Forall_insert. Qed.

Lemma full_set_str idx v c : full c -> full (set_str idx v c).
Proof. by intros []. Qed.

(** A string that [fromMac] accepts is a hardware address. *)
Lemma fromMac_len s b id : fromMac s b = (true, id) -> isMacLen id = true.
Proof. unfold fromMac. destruct (fromId s b) as [[] b']; cbn; intros [=]; by simplify_eq. Qed.

Lemma store_val_inv idx v c r c' :
  (idx < last_val)%nat -> sec_inv c -> store_val idx v c = (r, c') ->
  sec_inv c' /\ (full c -> full c').
Proof.
  unfold store_val, last_val. intros Li W H.
  destruct ((idx =? uds_address_val)%nat || (idx =? sa_file_val)%nat) eqn:E1.
  { apply orb_true_iff in E1. rewrite !Nat.eqb_eq in E1. simplify_eq.
    split; [|apply full_set_str]. apply sec_inv_set_str; [|done].
    unfold str_base_val, bin_base_val, uds_address_val, sa_file_val in *. lia. }
  destruct ((idx =? ptp_dst_mac_val)%nat || (idx =? p2p_dst_mac_val)%nat) eqn:E2.
  { apply orb_true_iff in E2. rewrite !Nat.eqb_eq in E2.
    destruct (fromMac v Binary_new) as [[] id] eqn:F; simplify_eq; [|by split].
    apply fromMac_len in F. split; [|by apply full_set_bin]. apply sec_inv_set_bin; [|done..].
    unfold bin_base_val, ptp_dst_mac_val, p2p_dst_mac_val, last_val in *. lia. }
  assert (idx < str_base_val)%nat as Lb.
  { apply orb_false_iff in E1 as [? ?], E2 as [? ?]. rewrite !Nat.eqb_neq in *.
    unfold str_base_val, uds_address_val, sa_file_val, ptp_dst_mac_val, p2p_dst_mac_val in *. lia. }
  assert (forall n, in_range idx n -> sec_inv (set_num idx n c) /\ (full c -> full (set_num idx n c))) as K.
  { intros n R. split; [by apply sec_inv_set_num|by apply full_set_num]. }
  destruct (Nat.eqb_spec idx network_transport_val) as [->|].
  { repeat case_bool_decide; simplify_eq; try by split.
    all: apply K; eexists; split; [reflexivity|cbn; lia]. }
  destruct (ranges !! idx) as [rg|] eqn:Er; [|by simplify_eq].
  destruct (strtol 0 v) as [ret rest].
  destruct (Z.ltb_spec ret (r_min rg)); [cbn in H; by simplify_eq|].
  destruct (Z.ltb_spec (r_max rg) ret); [cbn in H; by simplify_eq|].
  destruct (negb _); simplify_eq/=; [by split|]. apply K. exists rg. split; [done|lia].
Qed.

Lemma find_range_lt name l i j : find_range name l i = Some j -> (i <= j < i + length l)%nat.
Proof.
  revert i. induction l as [|r l IH]; intros i H; cbn in *; [done|].
  case_bool_decide; [simplify_eq; lia|]. apply IH in H. lia.
Qed.

Lemma set_val_inv buf line c r buf' c' :
  sec_inv c -> ConfigSection_set_val buf line c = Some (r, buf', c') ->
  sec_inv c' /\ (full c -> full c').
Proof.
  intros W H. unfold ConfigSection_set_val in H.
  destruct (next_space_token buf line) as [[b v]|]; [|done]. cbn [mbind option_bind] in H.
  destruct (str_at b line) as [nm|]; [|done]. cbn [mbind option_bind] in H.
  destruct (find_range nm ranges 0) as [idx|] eqn:F; [|by simplify_eq].
  destruct (strlen b v); [|done]. cbn [mbind option_bind] in H.
  destruct (strip_end_spaces b _) as [b1|]; [|done]. cbn [mbind option_bind] in H.
  destruct (str_at b1 v) as [s|]; [|done]. cbn [mbind option_bind] in H.
  case_bool_decide; [by simplify_eq|].
  destruct (store_val idx s c) as [r0 c0] eqn:E. simplify_eq.
  apply find_range_lt in F. eapply (store_val_inv idx); [|exact W|exact E].
  unfold last_val. cbn in F. lia.
Qed.

Lemma cfg_inv_insert (cfg : ConfigFile) s c :
  cfg_inv cfg -> sec_inv c -> (full (at_section cfg s) -> full c) -> cfg_inv (<[s := c]> cfg).
Proof.
  intros [(g & Hg & Fg) All] W Fu. split; [|by apply map_Forall_insert_2].
  destruct (decide (s = globalSection)) as [->|].
  - exists c. rewrite lookup_insert_eq. split; [done|]. apply Fu. unfold at_section. by rewrite Hg.
  - exists g. by rewrite lookup_insert_ne.
Qed.

Lemma cfg_line_inv line st r st' :
  cfg_inv (c_sec st) -> cfg_line line st = Some (r, st') -> cfg_inv (c_sec st').
Proof.
  intros W H. unfold cfg_line in H. cbv zeta in H. set (b0 := store_line line (c_buf st)) in *.
  destruct (skip_spaces b0 0) as [cur|]; [|done]. cbn [mbind option_bind] in H.
  destruct (b0 !! cur) as [c|]; [|done]. cbn [mbind option_bind] in H.
  destruct (bool_decide (c = x5b)).
  { repeat match type of H with
    | mbind _ ?e = Some _ => destruct e as [?|] eqn:?; [cbn [mbind option_bind] in H|done]
    | match ?x with _ => _ end = Some _ => destruct x eqn:?
    end; by simplify_eq. }
  destruct (_ || _); [by simplify_eq|].
  destruct (ConfigSection_set_val _ _ _) as [[[r0 b1] sec]|] eqn:E; [|done].
  cbn [mbind option_bind] in H. simplify_eq. cbn [c_sec].
  eapply set_val_inv in E as [Ws Fs]; [by apply cfg_inv_insert|].
  unfold at_section. destruct (c_sec st !! c_cur st) as [c0|] eqn:L; cbn; [|apply sec_inv_new].
  by apply (proj2 W) in L.
Qed.

Lemma cfg_lines_inv l st r st' :
  cfg_inv (c_sec st) -> cfg_lines l st = Some (r, st') -> cfg_inv (c_sec st').
Proof.
  revert st. induction l as [|line l IH]; intros st W H; [by simplify_eq/=|]. cbn in H.
  destruct (cfg_line line st) as [[r0 st1]|] eqn:E; [|done]. cbn in H.
  apply cfg_line_inv in E; [|done]. destruct r0; [by eapply IH|by simplify_eq].
Qed.

Lemma clear_sections_inv : cfg_inv clear_sections.
Proof.
  destruct global_inv as [S F]. split.
  - eexists. split; [apply lookup_singleton_eq|done].
  - unfold clear_sections. by apply map_Forall_singleton.
Qed.

(** ** The objects of the program *)

Inductive cfg_reach : ConfigFile -> Prop :=
  | reach_new : cfg_reach clear_sections
  | reach_read residue file cfg r cfg' :
      cfg_reach cfg -> read_cfg residue file cfg = Some (r, cfg') -> cfg_reach cfg'.

Lemma cfg_reach_inv cfg : cfg_reach cfg -> cfg_inv cfg.
Proof.
  induction 1 as [|residue [file|] cfg r cfg' _ IH H]; [apply clear_sections_inv| |].
  - unfold read_cfg in H. destruct (cfg_lines _ _) as [[r0 st]|] eqn:E; [|done].
    cbn in H. simplify_eq. eapply cfg_lines_inv; [|exact E]. apply clear_sections_inv.
  - cbn in H. by simplify_eq.
Qed.

(** ** Lines stay in the array *)

Lemma set_val_ok buf n i c s :
  ends_at buf n -> (i < n)%nat -> buf !! (n - 1)%nat = Some c -> isspace c = true ->
  exists r buf' s', ConfigSection_set_val buf i s = Some (r, buf', s') /\ length buf' = lineSize.
Proof.
  intros E Hi Hc Sc. destruct (next_space_token_ok buf n i c E Hi Hc Sc)
    as (b1 & j & k & Et & E1 & Hj & Hk & Hn).
  unfold ConfigSection_set_val. rewrite Et. cbn [mbind option_bind].
  destruct (str_at_ok b1 n i E1 ltac:(lia)) as [nm ->]. cbn [mbind option_bind].
  destruct (find_range nm ranges 0) as [idx|].
  2:{ exists true, b1, s. split; [done|by eapply ends_at_len]. }
  destruct (strlen_ok b1 n k E1 Hk) as (m & -> & Hm). cbn [mbind option_bind].
  destruct (strip_end_spaces_ok b1 n j x00 (k + m) E1 Hn isspace_nul ltac:(lia)) as (b2 & -> & E2).
  cbn [mbind option_bind]. destruct (str_at_ok b2 n k E2 Hk) as [v ->]. cbn [mbind option_bind].
  case_bool_decide; [exists false, b2, s; split; [done|by eapply ends_at_len]|].
  destruct (store_val idx v s) as [r s']. exists r, b2, s'. split; [done|by eapply ends_at_len].
Qed.

Lemma cfg_line_ok line st :
  length (c_buf st) = lineSize -> last line = Some x0a -> (length line < lineSize)%nat ->
  exists r st', cfg_line line st = Some (r, st') /\ length (c_buf st') = lineSize.
Proof.
  intros L La Hl. destruct (store_line_ends line _ L La Hl) as (E & Elf & H0).
  unfold cfg_line. cbv zeta. set (b := store_line line (c_buf st)) in *.
  assert (forall b', ends_at b' (length line) -> length b' = lineSize) as Len
    by (intros b'; eapply ends_at_len).
  destruct (skip_spaces_ok b _ 0 E ltac:(lia)) as (cur & c & -> & Hcur & Hc & Sc).
  cbn [mbind option_bind]. rewrite Hc. cbn [mbind option_bind].
  destruct (decide (c = x00)) as [->|Nz]; [eexists _, _; split; [done|by apply Len]|].
  assert (cur < length line)%nat as Hlt by (destruct E; destruct (decide (cur = length line)); [congruence|lia]).
  case_bool_decide as Br.
  - destruct (skip_spaces_ok b _ (S cur) E ltac:(lia)) as (c2 & ? & -> & H2 & _).
    cbn [mbind option_bind]. destruct (strchr_ok b _ c2 x5d E ltac:(lia) ltac:(done)) as (r & -> & Hr).
    cbn [mbind option_bind]. destruct r as [e|]; [|eexists _, _; split; [done|by apply Len]].
    destruct (strip_end_spaces_ok b _ cur c e E Hc Sc ltac:(lia)) as (b' & -> & E').
    cbn [mbind option_bind]. destruct (str_at_ok b' _ c2 E' ltac:(lia)) as [nm ->].
    cbn [mbind option_bind]. eexists _, _. split; [done|by apply Len].
  - destruct (_ || _); [eexists _, _; split; [done|by apply Len]|].
    destruct (set_val_ok b _ cur x0a (at_section (c_sec st) (c_cur st)) E Hlt Elf eq_refl)
      as (r & b' & s' & -> & Lb).
    cbn [mbind option_bind]. eexists _, _. by split.
Qed.

Lemma cfg_lines_ok l st :
  length (c_buf st) = lineSize ->
  Forall (fun l => last l = Some x0a /\ (length l < lineSize)%nat) l ->
  exists r st', cfg_lines l st = Some (r, st').
Proof.
  revert st. induction l as [|line l IH]; intros st Hi HP; [by eexists _, _|].
  inversion_clear HP as [|?? [H1 H1'] H2]. cbn.
  destruct (cfg_line_ok line st Hi H1 H1') as (r & st' & -> & Hr).
  cbn [mbind option_bind]. destruct r; [by apply IH|by eexists _, _].
Qed.

(** ** Lookups that hold of every object *)

Lemma holder_ok cfg idx section :
  cfg_inv cfg ->
  exists c, holder cfg idx section = Some c /\ sec_inv c /\ (full c \/ idx ∈ m_set c).
Proof.
  intros [(g & Hg & Fg) All]. unfold holder. destruct (is_global cfg idx section) eqn:G.
  - exists g. split; [done|]. split; [by apply All in Hg|by left].
  - unfold is_global in G. apply orb_false_iff in G as [_ G].
    destruct (cfg !! section) as [c|] eqn:E; [|done]. exists c. split; [done|].
    split; [by apply All in E|]. right. by case_bool_decide.
Qed.

Lemma get_num_ok cfg idx section :
  cfg_inv cfg -> (idx < str_base_val)%nat ->
  exists v, get_num cfg idx section = Some v /\ in_range idx v.
Proof.
  intros W Hi. destruct (holder_ok cfg idx section W) as (c & Hc & I & F).
  unfold get_num. rewrite Hc. cbn.
  assert (is_Some (m_vals c !! idx)) as [v Hv] by (destruct F as [F|]; [by apply F|by apply I]).
  exists v. split; [done|]. by eapply si_num.
Qed.

Lemma get_bin_ok cfg idx section :
  cfg_inv cfg -> (bin_base_val <= idx < last_val)%nat ->
  exists b, get_bin cfg idx section = Some b /\ isMacLen b = true.
Proof.
  unfold bin_base_val, last_val. intros W Hi. destruct (holder_ok cfg idx section W) as (c & Hc & I & F).
  unfold get_bin, bin_base_val. rewrite Hc. cbn.
  destruct (lookup_lt_is_Some_2 (m_bin_vals c) (idx - 11)) as [b Hb]; [rewrite (si_len _ I); lia|].
  exists b. split; [done|]. destruct F as [F|F].
  - exact (Forall_lookup_1 _ _ _ _ (fu_bin _ F) Hb).
  - eapply (si_bin _ I); [exact Hb|]. by replace (bin_base_val + (idx - 11))%nat with idx by (unfold bin_base_val; lia).
Qed.

Lemma get_str_ok cfg idx section :
  cfg_inv cfg -> (str_base_val <= idx < bin_base_val)%nat -> is_Some (get_str cfg idx section).
Proof.
  unfold str_base_val, bin_base_val. intros W Hi. destruct (holder_ok cfg idx section W) as (c & Hc & I & _).
  unfold get_str, str_base_val. rewrite Hc. cbn. apply lookup_lt_is_Some_2. rewrite (si_str _ I). lia.
Qed.

(** A getter of an octet gives the stored value. *)
Lemma get_func_ok cfg idx section :
  cfg_inv cfg -> (idx < str_base_val)%nat -> idx <> active_key_id_val ->
  exists v, get_func idx cfg section = Some v /\ in_range idx v /\ get_num cfg idx section = Some v.
Proof.
  intros W Hi Ne. destruct (get_num_ok cfg idx section W Hi) as (v & Hv & R).
  exists v. unfold get_func. rewrite Hv. cbn. split; [|done]. f_equal. apply uwrap_small.
  destruct R as (r & Er & Hr). unfold uint, str_base_val, active_key_id_val in *.
  do 9 (destruct idx as [|idx]; [try lia; injection Er as <-; cbn in Hr; unfold UINT8_MAX in Hr; lia|]). lia.
Qed.

(** ** The theorems *)

(** C39: Whatever files an object has read, with success or not, every number of
    every section, known or not, can be read, is in the range of the table, and
    is not changed by the octet its getter returns; the hardware addresses have
    6 or 8 octets. *)
Theorem config_values (cfg : ConfigFile) (section : string) (R : cfg_reach cfg) :
  (forall idx, (idx < str_base_val)%nat -> exists v r,
     get_num cfg idx section = Some v /\ ranges !! idx = Some r /\ r_min r <= v <= r_max r /\
     (idx <> active_key_id_val -> get_func idx cfg section = Some v)) /\
  (exists s, uds_address cfg section = Some s) /\ (exists s, sa_file cfg section = Some s) /\
  (exists b, ptp_dst_mac cfg section = Some b /\ isMacLen b = true) /\
  (exists b, p2p_dst_mac cfg section = Some b /\ isMacLen b = true).
Proof.
  apply cfg_reach_inv in R. split.
  - intros idx Hi. destruct (get_num_ok cfg idx section R Hi) as (v & Hv & r & Hr & B).
    exists v, r. repeat (split; [done|]). intros Ne.
    destruct (get_func_ok cfg idx section R Hi Ne) as (w & Hw & _ & E). congruence.
  - split; [|split]; [| |split].
    + apply get_str_ok; [done|]. unfold uds_address_val, str_base_val, bin_base_val. lia.
    + apply get_str_ok; [done|]. unfold sa_file_val, str_base_val, bin_base_val. lia.
    + apply get_bin_ok; [done|]. unfold ptp_dst_mac_val, last_val, bin_base_val. lia.
    + apply get_bin_ok; [done|]. unfold p2p_dst_mac_val, last_val, bin_base_val. lia.
Qed.

(** [Message::useConfig] with a configuration an object can hold always
    succeeds, and stores a transportSpecific of 4 bits and a domainNumber of 8
    bits, the values of the section. *)
Theorem useConfig_total (cfg : ConfigFile) (section : string) (m : Message) (R : cfg_reach cfg) :
  exists m', Message_useConfig cfg section m = Some (true, m') /\
    get_num cfg transportSpecific_val section = Some (Types.transportSpecific (m_prms m')) /\
    get_num cfg domainNumber_val section = Some (Types.domainNumber (m_prms m')) /\
    uint 4 (Types.transportSpecific (m_prms m')) /\ uint 8 (Types.domainNumber (m_prms m')).
Proof.
  apply cfg_reach_inv in R.
  destruct (get_func_ok cfg transportSpecific_val section R) as (t & Ht & (rt & Ert & Rt) & Nt);
    [unfold transportSpecific_val, str_base_val; lia|done|].
  destruct (get_func_ok cfg domainNumber_val section R) as (d & Hd & (rd & Erd & Rd) & Nd);
    [unfold domainNumber_val, str_base_val; lia|done|].
  unfold Message_useConfig, transportSpecific, domainNumber. rewrite Ht, Hd. cbn [mbind option_bind].
  unfold useConfig. injection Ert as <-. injection Erd as <-. cbn in Rt, Rd. unfold UINT8_MAX in Rd.
  destruct (Z.ltb_spec 0xf t); [lia|]. eexists. split; [done|].
  cbn. unfold uint. repeat (split; [done|]). split; lia.
Qed.

(** On a file whose lines all end with a line feed and fit the array, the
    reader of the configuration never leaves its array of characters. *)
Theorem read_cfg_safe (residue file : list byte) (cfg : ConfigFile)
    (Lr : length residue = lineSize) (T : text_file file) :
  exists r, read_cfg residue (Some file) cfg = Some r.
Proof.
  destruct (lines_spec file) as [_ Ll]. unfold read_cfg.
  destruct (cfg_lines_ok (lines file) (mk_cfg_st residue globalSection clear_sections)) as (r & st & ->).
  - exact Lr.
  - apply Forall_and. by split.
  - by eexists.
Qed.

Lemma read_sa_cfg_total fs residue cfg section sa :
  cfg_inv cfg -> length residue = lineSize ->
  (forall name file, fs name = Some file -> text_file file) ->
  exists r, read_sa_cfg fs residue cfg section sa = Some r.
Proof.
  intros I Lr T. destruct (get_str_ok cfg sa_file_val section I) as [f Hf];
    [unfold sa_file_val, str_base_val, bin_base_val; lia|].
  unfold read_sa_cfg, sa_file, read_sa_name. rewrite Hf. cbn [mbind option_bind].
  case_bool_decide; [by eexists|].
  destruct (fs f) as [file|] eqn:Ef; [|by eexists]. apply read_sa_total; [done|by eapply T].
Qed.

Lemma haveSpp_none cfg section :
  cfg_inv cfg ->
  haveSpp cfg section = None <->
  section <> "" /\ cfg !! section = None /\ haveSpp cfg "" = Some false.
Proof.
  intros [(g & Hg & _) _]. unfold haveSpp. rewrite Hg. cbn [mbind option_bind].
  case_bool_decide as G; [by split; [|intros (_ & _ & [=])]|].
  rewrite (bool_decide_true ("" = "")) by done.
  case_bool_decide as E; [split; [done|by intros [? _]]|].
  destruct (cfg !! section); cbn; [split; [done|by intros (_ & ? & _)]|done].
Qed.

(** [Message::useAuth] with a configuration an object can hold and a key
    file of text lines throws exactly when the section is unknown and the
    global section has no spp; when it succeeds, the message uses the
    active_key_id of the section, which is not 0, and has that key. *)
Theorem useAuth_cfg_correct `{lib : MacLib} fs residue (cfg : ConfigFile) section m
    (R : cfg_reach cfg) (Lr : length residue = lineSize)
    (T : forall name file, fs name = Some file -> text_file file) :
  (useAuth_cfg fs residue cfg section m = None <->
     section <> "" /\ cfg !! section = None /\ haveSpp cfg "" = Some false) /\
  (forall m', useAuth_cfg fs residue cfg section m = Some (true, m') ->
     haveSpp cfg section = Some true /\
     active_key_id cfg section = Some (m_keyID (auth m')) /\ 0 < m_keyID (auth m') /\
     SaFile_have (m_sa (auth m')) (m_sppID (auth m')) (m_keyID (auth m')) = true).
Proof.
  apply cfg_reach_inv in R as I.
  destruct (get_num_ok cfg active_key_id_val section I) as (k & Hk & _);
    [unfold active_key_id_val, str_base_val; lia|].
  destruct (get_func_ok cfg spp_val section I) as (p & Hp & _ & _);
    [unfold spp_val, str_base_val; lia|done|].
  destruct (get_str_ok cfg sa_file_val section I) as [f Hf];
    [unfold sa_file_val, str_base_val, bin_base_val; lia|].
  pose proof (read_sa_cfg_total fs residue cfg section ∅ I Lr T) as [[r sa] Hr].
  pose proof (haveSpp_none cfg section I) as Hn.
  unfold useAuth_cfg, active_key_id, spp. rewrite Hk. cbn [mbind option_bind].
  destruct (haveSpp cfg section) as [h|]; cbn [mbind option_bind].
  2:{ split; [by rewrite <-Hn|done]. }
  rewrite Hr. cbn [mbind option_bind]. rewrite Hp. cbn [mbind option_bind].
  split.
  { rewrite <-Hn. destruct (h && (0 <? k)); [destruct r|]; by split. }
  intros m'. destruct h; [|done]. destruct (Z.ltb_spec 0 k); [|done]. destruct r; [|done].
  cbn [andb]. unfold useAuth. destruct (SaFile_have sa p k) eqn:Hs; [|done].
  destruct (hmac_allocHMAC _ _); [|done]. intros [= <-]. by repeat split.
Qed.

(** ** Witnesses *)

Definition demo_cfg_file : list byte :=
  bytes "# linuxptp" ++ lf ++ bytes "[global]" ++ lf ++ bytes "domainNumber 12" ++ lf ++
  bytes "  spp  3 " ++ lf ++ bytes "sa_file /etc/sa" ++ lf ++ bytes "network_transport L2" ++ lf ++
  bytes "[ eth0 ]" ++ lf ++ bytes "transportSpecific 0x1" ++ lf ++ bytes "active_key_id 7" ++ lf ++
  bytes "ptp_dst_mac 01:1b:19:00:00:01" ++ lf ++ bytes "unknown value" ++ lf.
Definition demo_cfg : ConfigFile :=
  match read_cfg zeros_line (Some demo_cfg_file) clear_sections with
  | Some (_, cfg) => cfg
  | None => ∅
  end.
Definition demo_fs (name : list byte) : option (list byte) :=
  if bool_decide (name = bytes "/etc/sa") then Some demo_sa_file else None.

Example demo_cfg_values :
  (transportSpecific demo_cfg "eth0", transportSpecific demo_cfg "eth1",
   domainNumber demo_cfg "eth0", network_transport demo_cfg "", udp_ttl demo_cfg "eth0",
   active_key_id demo_cfg "eth0", active_key_id demo_cfg "")
  = (Some 1, Some 0, Some 12, Some 50, Some 1, Some 7, Some 0).
Proof. vm_compute. reflexivity. Qed.

Lemma demo_cfg_reach : cfg_reach demo_cfg.
Proof.
  apply (reach_read zeros_line (Some demo_cfg_file) clear_sections true demo_cfg reach_new).
  vm_compute. reflexivity.
Qed.
Lemma text_file_cfg : text_file demo_cfg_file.
Proof. unfold text_file. vm_compute. repeat constructor. Qed.
Lemma demo_fs_text name file : demo_fs name = Some file -> text_file file.
Proof. unfold demo_fs. case_bool_decide; [|done]. intros [= <-]. exact text_file_demo. Qed.

Lemma config_values_witness :
  exists v r, get_num demo_cfg udp_ttl_val "eth0" = Some v /\ ranges !! udp_ttl_val = Some r /\
    r_min r <= v <= r_max r.
Proof.
  destruct (config_values demo_cfg "eth0" demo_cfg_reach) as [H _].
  destruct (H udp_ttl_val) as (v & r & ? & ? & ? & _); [unfold udp_ttl_val, str_base_val; lia|].
  exists v, r. auto.
Defined.
Lemma useConfig_total_witness :
  exists m', Message_useConfig demo_cfg "eth0" Message_new = Some (true, m') /\
    Types.transportSpecific (m_prms m') = 1 /\ Types.domainNumber (m_prms m') = 12.
Proof.
  destruct (useConfig_total demo_cfg "eth0" Message_new demo_cfg_reach) as (m' & H & Ht & Hd & _).
  exists m'. split; [exact H|]. split; [|].
  - assert (get_num demo_cfg transportSpecific_val "eth0" = Some 1) as E by (vm_compute; reflexivity).
    rewrite E in Ht. by injection Ht.
  - assert (get_num demo_cfg domainNumber_val "eth0" = Some 12) as E by (vm_compute; reflexivity).
    rewrite E in Hd. by injection Hd.
Defined.
Lemma read_cfg_safe_witness : exists r, read_cfg zeros_line (Some demo_cfg_file) ∅ = Some r.
Proof. apply read_cfg_safe; [reflexivity|exact text_file_cfg]. Defined.
Lemma useAuth_cfg_correct_witness :
  useAuth_cfg (lib := demo_mac) demo_fs zeros_line demo_cfg "eth0" Message_new <> None /\
  (forall m', useAuth_cfg (lib := demo_mac) demo_fs zeros_line demo_cfg "eth0" Message_new = Some (true, m') ->
     0 < m_keyID (auth m')).
Proof.
  destruct (useAuth_cfg_correct (lib := demo_mac) demo_fs zeros_line demo_cfg "eth0" Message_new
    demo_cfg_reach eq_refl demo_fs_text) as [H1 H2].
  split.
  - intros E. destruct (proj1 H1 E) as (_ & _ & F). vm_compute in F. discriminate F.
  - intros m' E. by destruct (H2 m' E) as (_ & _ & ? & _).
Defined.
Example demo_useAuth :
  match useAuth_cfg (lib := demo_mac) demo_fs zeros_line demo_cfg "eth0" Message_new with
  | Some (r, m) => (r, m_sppID (auth m), m_keyID (auth m))
  | None => (false, -1, -1)
  end = (true, 3, 7).
Proof. vm_compute. reflexivity. Qed.
