(* ===== verification/Json.v ===== *)
(** * Json.v: the JSON parser

    The classes of [src/src/jsonParser.cpp].  A parser reads a string or a file;
    the two differ in the virtual method [isEOF], which is the class [Reader]
    here: a string ends at its NUL, a file loads its next line into an array of
    [lineSize] characters.  A method is a program of a monad with the state of
    the parser, where [None] is a read outside of the array or a loop that does
    not end.  Loops and the recursion on nested values run on fuel, taken from
    the number of characters that are left. *)

From S2P Require Import Prelude CStr Cfg.

(** ** Characters *)

Definition eqc (c d : byte) : bool := bool_decide (c = d).
Definition NUL : byte := x00.
Definition LF : byte := x0a.
Definition QUOTE : byte := x22.
Definition isxdigit (c : byte) : bool := digit_val c <? 16.
Definition islower (c : byte) : bool := (97 <=? b2z c) && (b2z c <=? 122).
(** [strchr(set, c) != nullptr], which also finds the NUL at the end of the set. *)
Definition in_set (set : list byte) (c : byte) : bool := existsb (eqc c) (set ++ [NUL]).
Definition value_end : list byte := bytes "]}, " ++ [LF; x0d; x09].

Definition is_ws (c : byte) : bool := eqc c LF || eqc c x0d || eqc c x09 || eqc c x20.

Inductive e_token :=
| JSON_OBJ_STA | JSON_OBJ_END | JSON_ARR_STA | JSON_ARR_END | JSON_VAL_SEP | JSON_NAM_SEP
| JSON_STR | JSON_NUM | JSON_TRUE | JSON_FALSE | JSON_NULL | JSON_EOF | JSON_INV.

#[global] Instance e_token_eq_dec : EqDecision e_token.
Proof. solve_decision. Defined.

(** ** The parser and its methods *)

(** [self] is the part of the derived class; [cur] is what the array holds from
    the cursor on. *)
Record jsonParser (X : Type) := mk_jsonParser {
  cur : list byte;
  lineNum : Z;
  useComments : bool;
  self : X
}.
Arguments mk_jsonParser {X} cur lineNum useComments self.
Arguments cur {X} _.
Arguments lineNum {X} _.
Arguments useComments {X} _.
Arguments self {X} _.

Definition set_cur {X} (c : list byte) (p : jsonParser X) : jsonParser X :=
  mk_jsonParser c (lineNum p) (useComments p) (self p).

Definition P (X A : Type) : Type := jsonParser X -> option (A * jsonParser X).
Definition pret {X A} (a : A) : P X A := fun p => Some (a, p).
Definition pbind {X A B} (m : P X A) (k : A -> P X B) : P X B := fun p =>
  match m p with
  | Some (a, p) => k a p
  | None => None
  end.

Declare Scope json_scope.
Delimit Scope json_scope with json.
Notation "x <- m ;; k" := (pbind m (fun x => k))
  (at level 100, m at next level, right associativity) : json_scope.
Notation "m ;;; k" := (pbind m (fun _ => k))
  (at level 100, right associativity) : json_scope.
#[local] Open Scope json_scope.

(** [*cur] and [cur++]. *)
Definition chr {X} : P X byte := fun p =>
  match cur p with c :: _ => Some (c, p) | [] => None end.
Definition inc {X} : P X unit := fun p =>
  match cur p with _ :: r => Some (tt, set_cur r p) | [] => None end.
Definition newline {X} : P X unit := fun p =>
  Some (tt, mk_jsonParser (cur p) (uwrap 64 (lineNum p + 1)) (useComments p) (self p)).
Definition ask_comments {X} : P X bool := fun p => Some (useComments p, p).
(** [*cur++] *)
Definition next {X} : P X byte := c <- chr ;; inc ;;; pret c.

(** The virtual method, and how many characters are left to read. *)
Class Reader (X : Type) := {
  isEOF : P X bool;
  chars : jsonParser X -> nat
}.

(** A loop over [V] whose body goes on ([inl]) or ends ([inr]). *)
Fixpoint iter {X V A} (fuel : nat) (body : V -> P X (V + A)) (v : V) : P X A :=
  match fuel with
  | O => fun _ => None
  | S fuel => r <- body v ;; match r with inl v => iter fuel body v | inr a => pret a end
  end.
Definition loop `{Reader X} {V A} (body : V -> P X (V + A)) (v : V) : P X A := fun p =>
  iter (S (chars p)) body v p.
Definition continue {X V A} (v : V) : P X (V + A) := pret (inl v).
Definition break {X V A} (a : A) : P X (V + A) := pret (inr a).

(** ** The two kinds of parser *)

#[global] Instance string_reader : Reader unit := {
  isEOF := c <- chr ;; pret (eqc c NUL);
  chars p := length (cur p)
}.

(** [buf] and the lines that [fgets] has not read yet. *)
Record file := mk_file { buf : list byte; f_lines : list (list byte) }.

Definition fgets_line : P file bool := fun p =>
  match f_lines (self p) with
  | [] => Some (false, p)
  | l :: ls =>
      let b := store_line l (buf (self p)) in
      Some (true, mk_jsonParser b (uwrap 64 (lineNum p + 1)) (useComments p) (mk_file b ls))
  end.
#[global] Instance file_reader : Reader file := {
  isEOF := c <- chr ;;
           if eqc c NUL then r <- fgets_line ;; pret (negb r) else pret false;
  chars p := (length (cur p) + S lineSize * length (f_lines (self p)))%nat
}.

Definition skipBOM (c : list byte) : list byte :=
  match c with
  | xef :: xbb :: xbf :: r => r
  | _ => c
  end.
Definition parser_init (head : list byte) (comments : bool) : option (jsonParser unit) :=
  match head with
  | [] => None
  | _ => Some (mk_jsonParser (skipBOM (head ++ [NUL])) 0 comments tt)
  end.
(** [open]: no content is a file that cannot be opened. *)
Definition parser_open (content : option (list byte)) (comments : bool)
    : option (jsonParser file) :=
  match content with
  | None => None
  | Some c => match lines c with
              | [] => None
              | l :: ls => let b := store_line l (repeat NUL lineSize) in
                           Some (mk_jsonParser (skipBOM b) 0 comments (mk_file b ls))
              end
  end.

(** ** Tokens *)

Section Parser.
Context `{Reader X}.

Definition skip_ws : P X bool :=
  loop (fun _ : unit =>
    eof <- isEOF ;;
    if eof then break true
    else c <- chr ;;
         if eqc c LF then newline ;;; inc ;;; continue tt
         else if is_ws c then inc ;;; continue tt
         else break false) tt.

(** [true] on a comment that is not one or does not end. *)
Definition skip_line : P X bool :=
  loop (fun _ : unit =>
    inc ;;; c <- chr ;;
    if eqc c NUL || eqc c LF then break false else continue tt) tt.
Definition skip_block : P X bool :=
  loop (fun haveCloseStar : bool =>
    inc ;;; c <- chr ;;
    if eqc c NUL then eof <- isEOF ;; if eof then break true else continue false
    else if eqc c "*"%byte then continue true
    else if eqc c "/"%byte then
      if haveCloseStar then inc ;;; break false else continue haveCloseStar
    else if eqc c LF then newline ;;; continue false
    else continue false) false.
Definition skipComments : P X bool :=
  inc ;;; c <- chr ;;
  if eqc c NUL then pret true
  else if eqc c "/"%byte then skip_line
  else if eqc c "*"%byte then skip_block
  else pret true.

(** The keyword that the letters spell. *)
Definition key_token (key : list byte) : e_token :=
  if bool_decide (key = bytes "true") then JSON_TRUE
  else if bool_decide (key = bytes "false") then JSON_FALSE
  else if bool_decide (key = bytes "null") then JSON_NULL
  else JSON_INV.
Definition getKey : P X e_token :=
  loop (fun key : list byte =>
    eof <- isEOF ;; c <- chr ;;
    if eof || in_set value_end c then
      break (key_token key)
    else if negb (islower c) then break JSON_INV
    else inc ;;; continue (key ++ [c])) [].

(** The characters that are a token, other than words and comments. *)
Definition punctuation (c : byte) : option e_token :=
  if eqc c "{"%byte then Some JSON_OBJ_STA
  else if eqc c "}"%byte then Some JSON_OBJ_END
  else if eqc c "["%byte then Some JSON_ARR_STA
  else if eqc c "]"%byte then Some JSON_ARR_END
  else if eqc c ","%byte then Some JSON_VAL_SEP
  else if eqc c ":"%byte then Some JSON_NAM_SEP
  else if eqc c QUOTE then Some JSON_STR
  else if eqc c "-"%byte then Some JSON_NUM
  else None.

Definition getToken : P X e_token :=
  loop (fun _ : unit =>
    eof <- skip_ws ;;
    if eof then break JSON_EOF
    else
      c <- chr ;;
      match punctuation c with
      | Some tk => break tk
      | None =>
          if eqc c "/"%byte then
            comments <- ask_comments ;;
            if negb comments then break JSON_INV
            else bad <- skipComments ;; if bad then break JSON_INV else continue tt
          else if isdigit c then break JSON_NUM
          else if islower c then tk <- getKey ;; break tk
          else break JSON_INV
      end) tt.

Definition closeTk : P X unit := inc.

(** ** Strings *)

(** [uToVal]: four hexadecimal digits; [None] when there are not. *)
Definition uToVal : P X (option Z) :=
  loop (fun hex : list byte =>
    if (4 <=? length hex)%nat then
      let '(v, rest) := strtol 16 hex in
      break (if bool_decide (rest = []) then Some (uwrap 16 v) else None)
    else
      c <- chr ;;
      if negb (isxdigit c) then break None
      else eof <- isEOF ;;
           if eof then break None
           else c <- next ;; continue (hex ++ [c])) [].

(** The octets that [uProc] adds for a code. *)
Definition utf8_tail (val : Z) (bytes : Z) : list byte :=
  map (fun i => z2b (Z.lor 0x80 (Z.land 0x3f (Z.shiftr val ((i - 2) * 6)))))
    (rev (seqZ 2 (bytes - 1))).
Definition utf8 (val : Z) : list byte :=
  if val <? 0x80 then [z2b (Z.land val 0x7f)]
  else if val <? 0x800 then z2b (Z.lor 0xc0 (Z.land 0x1f (Z.shiftr val 6))) :: utf8_tail val 2
  else if val <? 0x10000 then z2b (Z.lor 0xe0 (Z.land 0xf (Z.shiftr val 12))) :: utf8_tail val 3
  else z2b (Z.lor 0xf0 (Z.land 0x7 (Z.shiftr val 18))) :: utf8_tail val 4.

(** The state of a string: the octets, and the first surrogate when the second
    must follow. *)
Record str := mk_str { s_ret : list byte; useSur : bool; W1 : Z }.
Definition add_str (s : str) (l : list byte) : str := mk_str (s_ret s ++ l) (useSur s) (W1 s).

(** What [uProc] does with the value of an escape. *)
Definition uVal (s : str) (val16 : Z) : option str :=
  if useSur s then
    if (0xe000 <=? val16) || (val16 <? 0xdc00) then None
    else let W2 := Z.land (val16 - 0xdc00) 0x3ff in
         let val := uwrap 32 (Z.lor (Z.shiftl (W1 s) 10) W2 + 0x10000) in
         Some (mk_str (s_ret s ++ utf8 val) false (W1 s))
  else if (val16 <? 0xd800) || (0xe000 <=? val16) then Some (add_str s (utf8 val16))
  else if val16 <? 0xdc00 then Some (mk_str (s_ret s) true (Z.land (val16 - 0xd800) 0x3ff))
  else None.
Definition uProc (s : str) : P X (option str) :=
  v <- uToVal ;; pret (v ← v; uVal s v).

(** The octets that must follow a first octet. *)
Definition utf8_extra (val8 : Z) : nat :=
  if 0xc0 <=? val8 then
    if 0xe0 <=? val8 then if 0xf0 <=? val8 then 3%nat else 2%nat else 1%nat
  else 0%nat.
Fixpoint utf8_rest (e : nat) (ret : list byte) : P X (option (list byte)) :=
  match e with
  | O => pret (Some ret)
  | S e =>
      a <- chr ;; eof <- isEOF ;;
      if eof || (b2z a <? 0x80) || (0xc0 <=? b2z a) then pret None
      else c <- next ;; utf8_rest e (ret ++ [c])
  end.
Definition checkUTF8 (ret : list byte) : P X (option (list byte)) :=
  c <- chr ;;
  let val8 := b2z c in
  if (0x80 <=? val8) && (val8 <? 0xc0) then pret None
  else c <- next ;; utf8_rest (utf8_extra val8) (ret ++ [c]).

(** The character of an escape of one letter. *)
Definition escape (c : byte) : option byte :=
  if eqc c QUOTE || eqc c "\"%byte || eqc c "/"%byte then Some c
  else if eqc c "b"%byte then Some x08
  else if eqc c "f"%byte then Some x0c
  else if eqc c "n"%byte then Some x0a
  else if eqc c "r"%byte then Some x0d
  else if eqc c "t"%byte then Some x09
  else None.

Definition str_round (s : str) : P X (str + option (list byte)) :=
  eof <- isEOF ;;
  if eof then break None
  else
    c <- chr ;;
    if useSur s && negb (eqc c "\"%byte) then break None
    else if eqc c QUOTE then inc ;;; break (Some (s_ret s))
    else if eqc c "\"%byte then
      inc ;;; eof <- isEOF ;;
      if eof then break None
      else
        c <- chr ;;
        if useSur s && negb (eqc c "u"%byte) then break None
        else
          match escape c with
          | Some e => inc ;;; continue (add_str s [e])
          | None =>
              if eqc c "u"%byte then
                inc ;;; r <- uProc s ;;
                match r with Some s => continue s | None => break None end
              else break None
          end
    else
      r <- checkUTF8 (s_ret s) ;;
      match r with
      | Some l => continue (mk_str l (useSur s) (W1 s))
      | None => break None
      end.
Definition getStr : P X (option (list byte)) :=
  inc ;;; loop str_round (mk_str [] false 0).

(** ** Numbers *)

(** The variables of [getNum]. *)
Record num := mk_num {
  n_ret : list byte; dot_loc : Z; e_loc : Z; loc : Z;
  haveZero : bool; locZero : Z; lastNotDigit : bool; zeroProhib : bool
}.

(** The effect of one character; [None] refuses it. *)
Definition num_char (c : byte) (n : num) : option num :=
  let next haveZero zeroProhib notDigit dot e :=
    let add := negb (eqc c "+"%byte) in
    Some (mk_num (if add then n_ret n ++ [c] else n_ret n) dot e
            (if add then uwrap 64 (loc n + 1) else loc n)
            haveZero (locZero n) notDigit zeroProhib) in
  if eqc c "e"%byte || eqc c "E"%byte then
    if (0 <? e_loc n) || lastNotDigit n then None
    else next false true true (dot_loc n) (loc n)
  else if eqc c "."%byte then
    if (0 <? e_loc n) || (0 <? dot_loc n) || lastNotDigit n then None
    else next false false true (loc n) (e_loc n)
  else if eqc c "+"%byte || eqc c "-"%byte then
    if (e_loc n =? 0) || negb (loc n =? uwrap 64 (e_loc n + 1)) then None
    else next (haveZero n) true true (dot_loc n) (e_loc n)
  else
    if negb (isdigit c) || (haveZero n && (locZero n <? loc n)) ||
       (eqc c "0"%byte && zeroProhib n) then None
    else next (haveZero n) false false (dot_loc n) (e_loc n).

Definition num_round (n : num) : P X (num + option (list byte * Z * Z)) :=
  eof <- isEOF ;; c <- chr ;;
  if eof || in_set value_end c then
    break (if lastNotDigit n then None else Some (n_ret n, dot_loc n, e_loc n))
  else
    match num_char c n with
    | Some n => inc ;;; continue n
    | None => break None
    end.

(** The text without plus signs, and where its dot and its exponent are. *)
Definition getNum : P X (option (list byte * Z * Z)) :=
  eof <- isEOF ;;
  if eof then pret None
  else
    first <- next ;;
    let start haveZero locZero notDigit zeroProhib :=
      loop num_round (mk_num [first] 0 0 1 haveZero locZero notDigit zeroProhib) in
    if eqc first "0"%byte then start true 0 false true
    else if eqc first "-"%byte then
      eof <- isEOF ;;
      if eof then pret None
      else c <- chr ;;
           if eqc c "0"%byte then start true 1 true false else start false 0 true false
    else if negb (isdigit first) then pret None
    else start false 0 false false.
End Parser.

(** ** Values *)

Inductive e_type := t_non | t_string | t_number | t_boolean | t_null | t_object | t_array.

#[global] Instance e_type_eq_dec : EqDecision e_type.
Proof. solve_decision. Defined.

(** [jsonValue] by its type, [jsonObject] with its multimap in the order of the
    keys, [jsonArray]. *)
#[local] Unset Elimination Schemes.
Inductive json :=
| J_string (val : list byte)
| J_number (val : list byte) (dot_loc e_loc : Z)
| J_boolean (valBool : bool)
| J_null
| J_object (members : list (list byte * json))
| J_array (elements : list json).
#[local] Set Elimination Schemes.

Section JsonInd.
Context (Q : json -> Prop).
Context (Hstring : forall v, Q (J_string v)) (Hnumber : forall v d e, Q (J_number v d e)).
Context (Hboolean : forall b, Q (J_boolean b)) (Hnull : Q J_null).
Context (Hobject : forall l, Forall (fun m => Q m.2) l -> Q (J_object l)).
Context (Harray : forall l, Forall Q l -> Q (J_array l)).

(** Induction with the members and the elements. *)
Fixpoint json_ind (j : json) : Q j :=
  match j with
  | J_string v => Hstring v
  | J_number v d e => Hnumber v d e
  | J_boolean b => Hboolean b
  | J_null => Hnull
  | J_object l => Hobject l
      ((fix go (l : list (list byte * json)) : Forall (fun m => Q m.2) l :=
        match l with
        | [] => List.Forall_nil _
        | m :: l => @List.Forall_cons _ _ m l (json_ind m.2) (go l)
        end) l)
  | J_array l => Harray l
      ((fix go (l : list json) : Forall Q l :=
        match l with
        | [] => List.Forall_nil _
        | j :: l => @List.Forall_cons _ _ j l (json_ind j) (go l)
        end) l)
  end.
End JsonInd.

Definition getType (j : json) : e_type :=
  match j with
  | J_string _ => t_string
  | J_number _ _ _ => t_number
  | J_boolean _ => t_boolean
  | J_null => t_null
  | J_object _ => t_object
  | J_array _ => t_array
  end.

(** The order of [std::string], and [multimap::insert]: after equal keys. *)
Fixpoint key_lt (a b : list byte) : bool :=
  match a, b with
  | [], _ :: _ => true
  | x :: a, y :: b => (b2z x <? b2z y) || ((b2z x =? b2z y) && key_lt a b)
  | _, [] => false
  end.
Fixpoint insert_member {A} (key : list byte) (v : A) (l : list (list byte * A))
    : list (list byte * A) :=
  match l with
  | [] => [(key, v)]
  | (k, w) :: r => if key_lt key k then (key, v) :: l else (k, w) :: insert_member key v r
  end.

Section Values.
Context `{Reader X}.

(** The loops of [jsonObject::parserVal] and [jsonArray::parserVal], where [value]
    is [ParserCreate] and [parserVal] of a nested value. *)
Section Nested.
Context (value : e_token -> P X (option json)).

Definition object_round (members : list (list byte * json))
    : P X (list (list byte * json) + option json) :=
  tk <- getToken ;;
  if negb (bool_decide (tk = JSON_STR)) then break None
  else
    key <- getStr ;;
    match key with
    | None => break None
    | Some key =>
        tk <- getToken ;;
        if negb (bool_decide (tk = JSON_NAM_SEP)) then break None
        else
          closeTk ;;; tk <- getToken ;; e <- value tk ;;
          match e with
          | None => break None
          | Some e =>
              let members := insert_member key e members in
              tk <- getToken ;;
              match tk with
              | JSON_OBJ_END => closeTk ;;; break (Some (J_object members))
              | JSON_VAL_SEP => closeTk ;;; continue members
              | _ => break None
              end
          end
    end.
Definition parse_object : P X (option json) :=
  tk <- getToken ;;
  if bool_decide (tk = JSON_OBJ_END) then closeTk ;;; pret (Some (J_object []))
  else loop object_round [].

Definition array_round (s : e_token * list json)
    : P X ((e_token * list json) + option json) :=
  let '(tk, elements) := s in
  e <- value tk ;;
  match e with
  | None => break None
  | Some e =>
      let elements := elements ++ [e] in
      tk <- getToken ;;
      match tk with
      | JSON_ARR_END => closeTk ;;; break (Some (J_array elements))
      | JSON_VAL_SEP => closeTk ;;; tk <- getToken ;; continue (tk, elements)
      | _ => break None
      end
  end.
Definition parse_array : P X (option json) :=
  tk <- getToken ;;
  if bool_decide (tk = JSON_ARR_END) then closeTk ;;; pret (Some (J_array []))
  else loop array_round (tk, []).
End Nested.

(** [ParserCreate], then [parserVal] of the new value. *)
Fixpoint value (fuel : nat) (tk : e_token) : P X (option json) :=
  match fuel with
  | O => fun _ => None
  | S fuel =>
      match tk with
      | JSON_OBJ_STA => inc ;;; parse_object (value fuel)
      | JSON_ARR_STA => inc ;;; parse_array (value fuel)
      | JSON_STR => v <- getStr ;; pret (v ← v; Some (J_string v))
      | JSON_NUM => v <- getNum ;; pret ('(v, dot, e) ← v; Some (J_number v dot e))
      | JSON_TRUE => pret (Some (J_boolean true))
      | JSON_FALSE => pret (Some (J_boolean false))
      | JSON_NULL => pret (Some J_null)
      | _ => pret None
      end
  end.

(** [jsonMain::paresJson] on the value of the object. *)
Definition paresJson (main : option json) : P X (bool * option json) :=
  tk <- getToken ;;
  if bool_decide (tk = JSON_EOF) then pret (true, main)
  else
    m <- (fun p => value (S (chars p)) tk p) ;;
    match m with
    | None => pret (false, main)
    | Some m => tk <- getToken ;;
                if bool_decide (tk = JSON_EOF) then pret (true, Some m) else pret (false, main)
    end.
End Values.

Definition parseBuffer (main : option json) (buffer : list byte) (comments : bool)
    : option (bool * option json) :=
  match parser_init buffer comments with
  | None => Some (false, main)
  | Some p => fst <$> paresJson main p
  end.
Definition parseFile (main : option json) (content : option (list byte)) (comments : bool)
    : option (bool * option json) :=
  match parser_open content comments with
  | None => Some (false, main)
  | Some p => fst <$> paresJson main p
  end.
