(* ===== verification/JsonVal.v ===== *)
(** * JsonVal.v: JSON values

    The methods of [jsonValue], [jsonObject], [jsonArray] and [jsonMain] in
    [src/src/jsonParser.cpp] that read a parsed value or print it.  A null
    pointer is [None]. *)

From S2P Require Import Prelude CStr Json.

(** ** Printing *)

Definition hex_digit (z : Z) : byte := z2b (if z <? 10 then 48 + z else 87 + z).
(** [jUtf16]: the format ["\u%.4x"]. *)
Definition jUtf16 (val : Z) : list byte :=
  bytes "\u" ++ map (fun i => hex_digit (Z.land (Z.shiftr val (4 * i)) 0xf)) [3; 2; 1; 0].

(** What follows the reverse solidus in the escape of one character. *)
Definition short_escape (c : byte) : option byte :=
  if eqc c "\"%byte || eqc c QUOTE || eqc c "/"%byte then Some c
  else if eqc c x08 then Some "b"%byte
  else if eqc c x0c then Some "f"%byte
  else if eqc c x0a then Some "n"%byte
  else if eqc c x0d then Some "r"%byte
  else if eqc c x09 then Some "t"%byte
  else None.

(** The number of extra octets of a first octet, and its bits of the code. *)
Definition utf8_lead (v : Z) : option (nat * Z) :=
  if v <=? 0x7f then Some (0%nat, v)
  else if Z.land v 0xe0 =? 0xc0 then Some (1%nat, Z.land v 0x1f)
  else if Z.land v 0xf0 =? 0xe0 then Some (2%nat, Z.land v 0xf)
  else if Z.land v 0xf8 =? 0xf0 then Some (3%nat, Z.land v 7)
  else None.
Definition code_step (val : Z) (c : byte) : Z :=
  uwrap 32 (Z.lor (Z.shiftl val 6) (Z.land 0x3f (b2z c))).
Definition escape_code (val : Z) : list byte :=
  if val <=? 0xffff then jUtf16 val
  else
    let val := val - 0x10000 in
    let val2 := Z.lor (Z.land val 0xbff) 0xdc00 in
    let val1 := Z.lor (Z.land (Z.shiftr val 10) 0xbff) 0xd800 in
    jUtf16 val1 ++ jUtf16 val2.

Definition is_cont (c : byte) : bool := Z.land (b2z c) 0xc0 =? 0x80.

(** The loop of [strToStr]: [skip] octets belong to the last code; [None] when
    the string is no proper UTF-8. *)
Fixpoint strToStr_loop (skip : nat) (str : list byte) : option (list byte) :=
  match str with
  | [] => Some []
  | c :: r =>
      match skip with
      | S skip => strToStr_loop skip r
      | O =>
          match short_escape c with
          | Some e => l ← strToStr_loop 0 r; Some ("\"%byte :: e :: l)
          | None =>
              let v := b2z c in
              if (0x20 <=? v) && (v <? 0x7f) then l ← strToStr_loop 0 r; Some (c :: l)
              else
                '(b, val) ← utf8_lead v;
                if negb (forallb is_cont (take b (r ++ [NUL]))) || (length str <? b)%nat
                then None
                else l ← strToStr_loop b r;
                     Some (escape_code (fold_left code_step (take b r) val) ++ l)
          end
      end
  end.
Definition strToStr (str : list byte) : list byte :=
  QUOTE :: match strToStr_loop 0 str with Some l => l | None => str end ++ [QUOTE].

(** [ret.erase(ret.size() - 2, 1)] *)
Definition erase_comma (ret : list byte) : list byte :=
  take (length ret - 2) ret ++ drop (length ret - 1) ret.

Definition spaces (n : nat) : list byte := repeat x20 n.

Fixpoint toString (ident : nat) (j : json) : list byte :=
  let it1 := spaces (2 * ident) in
  match j with
  | J_string val => strToStr val
  | J_number val _ _ => val
  | J_boolean valBool => bytes (if valBool then "true" else "false")
  | J_null => bytes "null"
  | J_object members =>
      let ret := it1 ++ bytes "{" ++ [LF] ++
        concat (map (fun m => it1 ++ bytes "  " ++ strToStr m.1 ++ bytes " : " ++
                      toString (ident + 2) m.2 ++ bytes "," ++ [LF]) members) in
      (if bool_decide (members = []) then ret else erase_comma ret) ++ it1 ++ bytes "}"
  | J_array elements =>
      let ret := it1 ++ bytes "[" ++ [LF] ++
        concat (map (fun e => it1 ++ bytes "  " ++ toString (ident + 2) e ++ bytes "," ++ [LF])
                  elements) in
      (if bool_decide (elements = []) then ret else erase_comma ret) ++ it1 ++ bytes "]"
  end.
Definition main_toString (ident : nat) (main : option json) : list byte :=
  match main with Some j => toString ident j | None => [] end.

(** ** Access *)

Definition main_getType (main : option json) : e_type :=
  match main with Some j => getType j | None => t_non end.
Definition isJsonValue (type : e_type) : bool :=
  match type with t_string | t_number | t_boolean | t_null => true | _ => false end.
Definition getVal (j : json) : option json := if isJsonValue (getType j) then Some j else None.
(** The members and the elements stand for the object and the array. *)
Definition getObj (j : json) : option (list (list byte * json)) :=
  match j with J_object members => Some members | _ => None end.
Definition getArr (j : json) : option (list json) :=
  match j with J_array elements => Some elements | _ => None end.

Definition count {A} (key : list byte) (members : list (list byte * A)) : Z :=
  len (filter (fun m => m.1 = key) members).
Definition equal_range {A} (key : list byte) (members : list (list byte * A)) : list A :=
  map snd (filter (fun m => m.1 = key) members).
Definition find {A} (key : list byte) (members : list (list byte * A)) : option A :=
  head (equal_range key members).
(** The value of a key that occurs once. *)
Definition single {A} (key : list byte) (members : list (list byte * A)) : option A :=
  if count key members =? 1 then find key members else None.
Definition obj_getType (key : list byte) (members : list (list byte * json)) : e_type :=
  match single key members with Some j => getType j | None => t_non end.
Definition obj_getVal (key : list byte) (members : list (list byte * json)) : option json :=
  j ← single key members; getVal j.
Definition obj_getObj (key : list byte) (members : list (list byte * json))
    : option (list (list byte * json)) := j ← single key members; getObj j.
Definition obj_getArr (key : list byte) (members : list (list byte * json))
    : option (list json) := j ← single key members; getArr j.
Definition arr_getVal (index : nat) (elements : list json) : option json :=
  j ← elements !! index; getVal j.
Definition arr_getObj (index : nat) (elements : list json) : option (list (list byte * json)) :=
  j ← elements !! index; getObj j.
Definition arr_getArr (index : nat) (elements : list json) : option (list json) :=
  j ← elements !! index; getArr j.

(** ** Numbers *)

Definition UINT64_MAX : Z := 2 ^ 64 - 1.
(** [strtoumax]: the value is negated in its type after a minus sign. *)
Definition strtoumax (base : Z) (s : list byte) : Z * list byte :=
  let s1 := skip_space s in
  let '(neg, s2) := match s1 with
                    | c :: r => if eqc c x2d then (true, r)
                                else if eqc c x2b then (false, r) else (false, s1)
                    | [] => (false, s1)
                    end in
  let '(b, s3) := radix base s2 in
  let '(some, v, rest) := digits b 0 false s3 in
  if some then
    (if UINT64_MAX <? v then UINT64_MAX else if neg then uwrap 64 (- v) else v, rest)
  else (0, s).

(** [*endptr == 0 || (flexible && strchr(" \n\r\t", *endptr) != nullptr)] *)
Definition ends_well (flexible : bool) (rest : list byte) : bool :=
  match rest with
  | [] => true
  | c :: _ => flexible && is_ws c
  end.
(** The common part of [getInt64] and [getUint64] with the conversion of the text:
    the result and the value of the variable, which keeps [old] when it is not
    set. *)
Definition get_int (signed flexible : bool) (convert : Z -> list byte -> Z * list byte)
    (old : Z) (j : json) : bool * Z :=
  let text base val :=
    let '(v, rest) := convert base (cstr val) in (ends_well flexible rest, v) in
  match j with
  | J_number val dot_loc e_loc =>
      let first := default NUL (head val) in
      if (0 <? dot_loc) || (0 <? e_loc) || (negb signed && eqc first "-"%byte) then (false, old)
      else if eqc first "0"%byte then (true, 0)
      else text 10 val
  | J_string val => if flexible then text 0 val else (false, old)
  | J_boolean valBool => if flexible then (true, if valBool then 1 else 0) else (false, old)
  | J_null => if flexible then (true, 0) else (false, old)
  | _ => (false, old)
  end.
Definition getInt64 (j : json) (old : Z) (flexible : bool) : bool * Z :=
  get_int true flexible strtol old j.
Definition getUint64 (j : json) (old : Z) (flexible : bool) : bool * Z :=
  get_int false flexible strtoumax old j.

(** The integer and the fraction in units of [10 ^ - fracSize]; on [false] they
    can be set or not, which callers do not use.  [None] is a power of ten that
    does not fit the unsigned type. *)
Definition getFrac (j : json) (fracSize : Z) : option (option (Z * Z)) :=
  match j with
  | J_number val dot_loc e_loc =>
      if negb (e_loc =? 0) then Some None
      else if dot_loc =? 0 then
        let '(r, integer) := getInt64 j 0 false in Some (if r then Some (integer, 0) else None)
      else
        let aDot := len val - dot_loc - 1 in
        if fracSize <? aDot then Some None
        else
          let '(integer, r1) := strtol 10 (cstr (take (Z.to_nat dot_loc) val)) in
          let '(fraction, r2) := strtoumax 10 (cstr (drop (Z.to_nat (dot_loc + 1)) val)) in
          if negb (bool_decide (r1 = [])) || negb (bool_decide (r2 = [])) then Some None
          else
            let pow10 := fracSize - aDot in
            if 19 <? pow10 then None
            else Some (Some (integer, uwrap 64 (fraction * 10 ^ pow10)))
  | _ => Some None
  end.

Definition jsonType2str (type : e_type) : list byte :=
  bytes match type with
        | t_string => "string"
        | t_number => "number"
        | t_boolean => "boolean"
        | t_null => "null"
        | t_object => "object"
        | t_array => "array"
        | t_non => "unkown"
        end.
