(* ===== verification/JsonSafe.v ===== *)
(** * JsonSafe.v: the JSON parser always returns

    A total-correctness calculus for the programs of Json.v: [wp m Q p] says that
    [m] returns from [p] with [Q].  The class [ReaderLaws] states what the parser
    needs of [isEOF]; both readers have it, so parsing any string and any file
    returns and never reads outside of the array. *)

From S2P Require Import Prelude CStr Cfg Json.
From Stdlib Require Import Sorted.

#[local] Open Scope json_scope.

Definition wp {X A} (m : P X A) (Q : A -> jsonParser X -> Prop) (p : jsonParser X) : Prop :=
  exists a p', m p = Some (a, p') /\ Q a p'.

Section Rules.
Context {X : Type}.
Implicit Types p : jsonParser X.

Lemma wp_ret {A} (a : A) Q p : Q a p -> wp (pret a) Q p.
Proof. intros H. by exists a, p. Qed.
Lemma wp_bind {A B} (m : P X A) (k : A -> P X B) Q p :
  wp m (fun a => wp (k a) Q) p -> wp (pbind m k) Q p.
Proof. intros (a & p' & E & b & p'' & E' & H). exists b, p''. unfold pbind. by rewrite E. Qed.
Lemma wp_mono {A} (m : P X A) (Q R : A -> jsonParser X -> Prop) p :
  wp m Q p -> (forall a p', Q a p' -> R a p') -> wp m R p.
Proof. intros (a & p' & E & H) I. exists a, p'. auto. Qed.
Lemma wp_continue {V A} (v : V) (Q : V + A -> _) p : Q (inl v) p -> wp (continue v) Q p.
Proof. apply wp_ret. Qed.
Lemma wp_break {V A} (a : A) (Q : V + A -> _) p : Q (inr a) p -> wp (break a) Q p.
Proof. apply wp_ret. Qed.
Lemma wp_comments Q p : Q (useComments p) p -> wp ask_comments Q p.
Proof. intros H. by exists (useComments p), p. Qed.
End Rules.

(** What the parser needs of the virtual method: [good] positions are inside the
    array; a character that is not NUL can be passed, and so can the one at which
    [isEOF] says that there is more. *)
Class ReaderLaws (X : Type) `{Reader X} := {
  good : list byte -> X -> Prop;
  chars_same p p' : cur p = cur p' -> self p = self p' -> chars p = chars p';
  chars_inc p c r : cur p = c :: r -> chars p = S (chars (set_cur r p));
  isEOF_char p c r : cur p = c :: r -> c <> NUL -> isEOF p = Some (false, p);
  good_chr l x : good l x -> exists c r, l = c :: r /\ (c <> NUL -> good r x);
  good_isEOF p : good (cur p) (self p) ->
    wp isEOF (fun b p' => good (cur p') (self p') /\ (chars p' <= chars p)%nat /\
                (b = false -> exists c r, cur p' = c :: r /\ good r (self p'))) p
}.

Section Total.
Context `{ReaderLaws X}.
Implicit Types p : jsonParser X.

(** The position is inside the array; the cursor can also be moved. *)
Definition inside p : Prop := good (cur p) (self p).
Definition ready p : Prop := exists c r, cur p = c :: r /\ good r (self p).

(** The progress from [p0]. *)
Definition upto (n : nat) p : Prop := inside p /\ (chars p <= n)%nat.

Lemma wp_chr Q p : inside p -> (forall c r, cur p = c :: r -> (c <> NUL -> ready p) -> Q c p) ->
  wp chr Q p.
Proof.
  intros G K. destruct (good_chr _ _ G) as (c & r & E & N). exists c, p. unfold chr. rewrite E.
  split; [done|]. apply (K c r E). intros D. exists c, r. by auto.
Qed.
Lemma wp_inc Q p : ready p ->
  (forall p', inside p' -> S (chars p') = chars p -> Q tt p') -> wp inc Q p.
Proof.
  intros (c & r & E & G) K. exists tt, (set_cur r p). unfold inc. rewrite E. split; [done|].
  apply K; [exact G|]. symmetry. by eapply chars_inc.
Qed.
Lemma wp_next Q p : ready p ->
  (forall c p', inside p' -> S (chars p') = chars p -> Q c p') -> wp next Q p.
Proof.
  intros R K. pose proof R as (c & r & E & G). exists c, (set_cur r p).
  split; [unfold next, pbind, chr, inc, pret; by repeat (rewrite E; cbn beta iota)|]. apply K; [done|].
  symmetry. by eapply chars_inc.
Qed.
Lemma wp_newline Q p :
  (forall p', (inside p -> inside p') -> (ready p -> ready p') -> chars p' = chars p -> Q tt p') ->
  wp newline Q p.
Proof.
  intros K. eexists tt, _. split; [reflexivity|].
  apply K; [exact id|exact id|by apply chars_same].
Qed.
Lemma wp_isEOF Q p : inside p ->
  (forall b p', inside p' -> (chars p' <= chars p)%nat -> (b = false -> ready p') -> Q b p') ->
  wp isEOF Q p.
Proof. intros G K. eapply wp_mono; [by apply good_isEOF|]. intros b p' (? & ? & ?). by apply K. Qed.

(** A loop with an invariant whose rounds use up characters. *)
Lemma wp_loop {V A} (I : V -> jsonParser X -> Prop) (body : V -> P X (V + A)) Q v p :
  I v p ->
  (forall v p, I v p ->
     wp (body v) (fun r p' => match r with
                              | inl v' => I v' p' /\ (chars p' < chars p)%nat
                              | inr a => Q a p'
                              end) p) ->
  wp (loop body v) Q p.
Proof.
  intros I0 Body. unfold loop, wp. assert (chars p < S (chars p))%nat as Hn by lia.
  revert Hn I0. generalize (S (chars p)) as n. intros n. revert v p.
  induction n as [|n IH]; intros v p Hn I0; [lia|].
  destruct (Body v p I0) as (r & p1 & E & K). cbn [iter]. unfold pbind. rewrite E.
  destruct r as [v'|a]; [|by exists a, p1]. destruct K as [I1 D]. apply IH; [lia|done].
Qed.
End Total.

(** The character under the cursor is not NUL. *)
Ltac not_end :=
  match goal with
  | H : ?c <> NUL -> ready ?p |- ready ?p => apply H; intros ->; discriminate
  | H : ready ?p -> ready ?q |- ready ?q => apply H; not_end
  | H : ?b = false -> ready ?p |- ready ?p => apply H; by destruct b
  end.
(** Decompose a program; the leaves are closed by the invariants. *)
Ltac wp_step :=
  lazymatch goal with
  | |- wp (pbind _ _) _ _ => apply wp_bind
  | |- wp (pret _) _ _ => apply wp_ret
  | |- wp (continue _) _ _ => apply wp_continue
  | |- wp (break _) _ _ => apply wp_break
  | |- wp ask_comments _ _ => apply wp_comments
  | |- wp chr _ _ => apply wp_chr; [auto|intros ? ? ? ?]
  | |- wp inc _ _ => apply wp_inc; [auto; try not_end|intros ? ? ?]
  | |- wp closeTk _ _ => apply wp_inc; [auto; try not_end|intros ? ? ?]
  | |- wp next _ _ => apply wp_next; [auto; try not_end|intros ? ? ? ?]
  | |- wp newline _ _ => apply wp_newline; intros ? ? ? ?
  | |- wp isEOF _ _ => apply wp_isEOF; [auto|intros ? ? ? ? ?]
  | |- wp (if ?b then _ else _) _ _ => destruct b eqn:?
  | |- wp (match ?x with _ => _ end) _ _ => destruct x eqn:?
  end.
Ltac wp_leaf :=
  repeat match goal with
  | H : ?a = ?b -> ready _ |- _ => specialize (H ltac:(first [assumption | reflexivity]))
  | H : Some _ <> None -> _ |- _ => specialize (H ltac:(discriminate))
  end;
  intros; unfold upto in *; destruct_and?;
  repeat (split || intro); try done; try lia; auto; try not_end.
(** Use the lemma [L] on a method. *)
Ltac wp_call L :=
  eapply wp_mono; [apply L; auto; try not_end|cbv beta; unfold upto; intros; destruct_and?].
Ltac wp_auto := repeat (wp_step; try done); try (by wp_leaf).

(** ** The tokens *)

Section Tokens.
Context `{ReaderLaws X}.
Implicit Types p : jsonParser X.

Lemma not_nul c d : d <> NUL -> eqc c d = true -> c <> NUL.
Proof. unfold eqc. intros D E ->. apply bool_decide_eq_true in E. by subst. Qed.
Lemma ws_nul c : is_ws c = true -> c <> NUL.
Proof. by intros E ->. Qed.

Lemma wp_skip_ws p : inside p ->
  wp skip_ws (fun b p' => upto (chars p) p' /\ (b = false -> ready p')) p.
Proof.
  intros G. apply (wp_loop (fun _ => upto (chars p))); [by split|].
  intros [] q [G1 L1]. wp_auto.
Qed.

Lemma wp_skip_line p : ready p -> wp skip_line (fun _ p' => inside p' /\ (chars p' < chars p)%nat) p.
Proof.
  intros R. apply (wp_loop (fun _ q => ready q /\ (chars q <= chars p)%nat)); [done|].
  intros [] q [R1 L1]. wp_auto.
Qed.
Lemma wp_skip_block p : ready p ->
  wp skip_block (fun _ p' => inside p' /\ (chars p' < chars p)%nat) p.
Proof.
  intros R. apply (wp_loop (fun _ q => ready q /\ (chars q <= chars p)%nat)); [done|].
  intros star q [R1 L1]. wp_auto.
Qed.
Lemma wp_skipComments p : ready p ->
  wp skipComments (fun _ p' => inside p' /\ (chars p' < chars p)%nat) p.
Proof.
  intros R. unfold skipComments.
  wp_auto; [wp_call wp_skip_line|wp_call wp_skip_block]; by wp_leaf.
Qed.

(** Only a token of at least one character leaves the cursor on it. *)
Definition at_char (tk : e_token) : bool :=
  match tk with
  | JSON_TRUE | JSON_FALSE | JSON_NULL | JSON_EOF | JSON_INV => false
  | _ => true
  end.
Lemma wp_getKey p : inside p ->
  wp getKey (fun tk p' => upto (chars p) p' /\ at_char tk = false) p.
Proof.
  intros G. apply (wp_loop (fun _ => upto (chars p))); [by split|].
  intros key q [G1 L1]. wp_auto.
  split; [by wp_leaf|]. unfold key_token. by repeat case_match.
Qed.
Lemma punctuation_char c tk : punctuation c = Some tk -> c <> NUL /\ at_char tk = true.
Proof.
  unfold punctuation. intros E. repeat case_match; simplify_eq; by split; [intros ->|].
Qed.
Lemma wp_getToken p : inside p ->
  wp getToken (fun tk p' => upto (chars p) p' /\ (at_char tk = true -> ready p')) p.
Proof.
  intros G. apply (wp_loop (fun _ => upto (chars p))); [by split|].
  intros [] q [G1 L1]. apply wp_bind. wp_call wp_skip_ws. wp_auto.
  - wp_call wp_skipComments. wp_auto.
  - wp_call wp_getKey. wp_auto. wp_leaf. congruence.
Qed.
End Tokens.

(** ** Strings and numbers *)

Section Texts.
Context `{ReaderLaws X}.
Implicit Types p : jsonParser X.

Lemma wp_uToVal p : inside p -> wp uToVal (fun _ => upto (chars p)) p.
Proof.
  intros G. apply (wp_loop (fun _ => upto (chars p))); [by split|].
  intros hex q [G1 L1]. wp_auto.
Qed.
Lemma wp_uProc s p : inside p -> wp (uProc s) (fun _ => upto (chars p)) p.
Proof. intros G. unfold uProc. apply wp_bind. wp_call wp_uToVal. wp_auto. Qed.
Lemma wp_utf8_rest e p ret : inside p -> wp (utf8_rest e ret) (fun _ => upto (chars p)) p.
Proof.
  revert p ret. induction e as [|e IH]; intros p ret G; cbn [utf8_rest]; wp_auto.
  wp_call IH. by wp_leaf.
Qed.
Lemma wp_checkUTF8 ret p : ready p -> inside p ->
  wp (checkUTF8 ret) (fun r p' => upto (chars p) p' /\ (r <> None -> (chars p' < chars p)%nat)) p.
Proof.
  intros R G. unfold checkUTF8. wp_auto.
  wp_call wp_utf8_rest. by wp_leaf.
Qed.

Lemma wp_str_round s p : inside p ->
  wp (str_round s) (fun r p' => upto (chars p) p' /\
    match r with inl _ => (chars p' < chars p)%nat | _ => True end) p.
Proof.
  intros G. unfold str_round. wp_auto.
  - wp_call wp_uProc. wp_auto.
  - wp_call wp_checkUTF8. wp_auto.
Qed.
Lemma wp_getStr p : ready p -> wp getStr (fun _ p' => inside p' /\ (chars p' < chars p)%nat) p.
Proof.
  intros R. unfold getStr. wp_step. wp_step.
  eapply wp_mono; [apply (wp_loop (fun _ => upto (chars p')) _
    (fun _ => upto (chars p')))|]; [by split| |by wp_leaf].
  intros s q [G1 L1]. wp_call wp_str_round. case_match; wp_leaf.
Qed.

Lemma wp_num_round n p : inside p ->
  wp (num_round n) (fun r p' => upto (chars p) p' /\
    match r with inl _ => (chars p' < chars p)%nat | _ => True end) p.
Proof. intros G. unfold num_round. wp_auto. Qed.
Lemma wp_num_loop n p : inside p -> wp (loop num_round n) (fun _ => upto (chars p)) p.
Proof.
  intros G. apply (wp_loop (fun _ => upto (chars p))); [by split|].
  intros m q [G1 L1]. wp_call wp_num_round. case_match; wp_leaf.
Qed.
Lemma wp_getNum p : inside p -> wp getNum (fun _ => upto (chars p)) p.
Proof.
  intros G. unfold getNum. cbv zeta. wp_auto; wp_call wp_num_loop; by wp_leaf.
Qed.
End Texts.

(** ** Values *)

(** Members in the order of their keys, the ones with the same key as they came. *)
Definition in_order {A} (l : list (list byte * A)) : Prop :=
  StronglySorted (fun a b => key_lt b.1 a.1 = false) l.

Lemma key_lt_trans a : forall b c, key_lt a b = true -> key_lt b c = true -> key_lt a c = true.
Proof.
  induction a as [|x a IH]; intros [|y b] [|z c]; cbn; try done. intros A B.
  destruct (Z.ltb_spec (b2z x) (b2z y)), (Z.eqb_spec (b2z x) (b2z y)),
    (Z.ltb_spec (b2z y) (b2z z)), (Z.eqb_spec (b2z y) (b2z z)), (Z.ltb_spec (b2z x) (b2z z)),
    (Z.eqb_spec (b2z x) (b2z z)); cbn in *; try done; try lia. by apply (IH b c).
Qed.
Lemma key_lt_irrefl a : key_lt a a = false.
Proof. induction a as [|x a IH]; [done|]. cbn. by rewrite Z.ltb_irrefl, Z.eqb_refl, IH. Qed.
Lemma Forall_insert_member {A} (Q : list byte * A -> Prop) k v l :
  Q (k, v) -> Forall Q l -> Forall Q (insert_member k v l).
Proof.
  intros H F. induction F as [|[k' v'] l Hm F IH]; [by repeat constructor|]. cbn.
  destruct (key_lt k k'); by repeat constructor.
Qed.
Lemma insert_member_in_order {A} k (v : A) l : in_order l -> in_order (insert_member k v l).
Proof.
  induction 1 as [|[k' v'] l O IH F]; [by repeat constructor|]. cbn.
  destruct (key_lt k k') eqn:E; constructor; try done; [by constructor| |by apply Forall_insert_member].
  assert (forall x, key_lt x k' = false -> key_lt x k = false) as T.
  { intros x N. destruct (key_lt x k) eqn:Ex; [|done]. by rewrite (key_lt_trans x k k') in N. }
  constructor; [by apply T, key_lt_irrefl|]. eapply Forall_impl; [exact F|]. intros m. apply T.
Qed.

(** A value whose strings and numbers are as told, and whose members are in order. *)
#[local] Unset Elimination Schemes.
Inductive shape (strok : list byte -> Prop) (numok : list byte -> Z -> Z -> Prop) : json -> Prop :=
| shape_string s : strok s -> shape strok numok (J_string s)
| shape_number v d e : numok v d e -> shape strok numok (J_number v d e)
| shape_boolean b : shape strok numok (J_boolean b)
| shape_null : shape strok numok J_null
| shape_object l : Forall (fun m => strok m.1 /\ shape strok numok m.2) l -> in_order l ->
    shape strok numok (J_object l)
| shape_array l : Forall (shape strok numok) l -> shape strok numok (J_array l).
#[local] Set Elimination Schemes.

Section Values.
Context `{ReaderLaws X}.
Implicit Types p : jsonParser X.

(** The strings and the numbers of a text of less than [bound] characters. *)
Context (strok : list byte -> Prop) (numok : list byte -> Z -> Z -> Prop) (bound : nat).
Context (wp_str : forall p, ready p -> (chars p < bound)%nat ->
  wp getStr (fun r p' => (inside p' /\ (chars p' < chars p)%nat) /\ forall s, r = Some s -> strok s) p).
Context (wp_num : forall p, inside p -> (chars p < bound)%nat ->
  wp getNum (fun r p' => upto (chars p) p' /\ forall v d e, r = Some (v, d, e) -> numok v d e) p).
#[local] Abbreviation shape := (shape strok numok).

(** What [value] promises for the token under the cursor. *)
Definition reads_value (fuel : nat) (v : e_token -> P X (option json)) : Prop :=
  forall tk p, inside p -> (at_char tk = true -> ready p) -> (chars p < fuel)%nat ->
    (chars p < bound)%nat ->
    wp (v tk) (fun r p' => upto (chars p) p' /\ forall j, r = Some j -> shape j) p.

Lemma wp_closeTk p : ready p -> wp closeTk (fun _ p' => inside p' /\ S (chars p') = chars p) p.
Proof. intros R. by apply wp_inc. Qed.

Definition members_ok (l : list (list byte * json)) : Prop :=
  Forall (fun m => strok m.1 /\ shape m.2) l /\ in_order l.
Lemma members_insert k j l : members_ok l -> strok k -> shape j -> members_ok (insert_member k j l).
Proof.
  intros [F O] K J. split; [by apply Forall_insert_member|by apply insert_member_in_order].
Qed.
Lemma members_object l : members_ok l -> shape (J_object l).
Proof. intros [F O]. by constructor. Qed.

Lemma wp_object_round v fuel m p : reads_value fuel v -> inside p -> (chars p < fuel)%nat ->
  (chars p < bound)%nat -> members_ok m ->
  wp (object_round v m) (fun r p' => upto (chars p) p' /\
    match r with
    | inl m => (chars p' < chars p)%nat /\ members_ok m
    | inr r => forall j, r = Some j -> shape j
    end) p.
Proof.
  intros V G L B M. unfold object_round. wp_step. wp_call wp_getToken. wp_step; [wp_auto|].
  wp_step. wp_call wp_str; [|lia|].
  { apply negb_false_iff, bool_decide_eq_true in Heqb. subst a. auto. }
  wp_step; [|wp_auto]. wp_step. wp_call wp_getToken. wp_step; [wp_auto|].
  apply negb_false_iff, bool_decide_eq_true in Heqb0. subst.
  wp_step. wp_call wp_closeTk. wp_step. wp_call wp_getToken. wp_step. wp_call V; [lia..|].
  wp_step; [|wp_auto]. cbv zeta.
  assert (members_ok (insert_member l j m)) as M' by (apply members_insert; auto).
  pose proof (members_object _ M'). destruct M'.
  wp_step. wp_call wp_getToken. wp_auto; wp_leaf; congruence.
Qed.
Lemma wp_parse_object v fuel p : reads_value fuel v -> inside p -> (chars p < fuel)%nat ->
  (chars p < bound)%nat ->
  wp (parse_object v) (fun r p' => upto (chars p) p' /\ forall j, r = Some j -> shape j) p.
Proof.
  intros V G L B. assert (members_ok []) as M by (split; constructor).
  unfold parse_object. wp_step. wp_call wp_getToken. wp_step.
  { apply bool_decide_eq_true in Heqb. subst. pose proof (members_object _ M).
    wp_step. wp_call wp_closeTk. wp_auto. wp_leaf. congruence. }
  apply (wp_loop (fun m q => upto (chars p) q /\ members_ok m)); [by split; [split; [|lia]|]|].
  intros m q [[G1 L1] Mm]. wp_call (wp_object_round v fuel); [lia..|].
  case_match; unfold members_ok in *; by wp_leaf.
Qed.

Lemma wp_array_round v fuel tk l p : reads_value fuel v -> inside p ->
  (at_char tk = true -> ready p) -> (chars p < fuel)%nat -> (chars p < bound)%nat ->
  Forall shape l ->
  wp (array_round v (tk, l)) (fun r p' => upto (chars p) p' /\
    match r with
    | inl (tk, l) => (chars p' < chars p)%nat /\ (at_char tk = true -> ready p') /\ Forall shape l
    | inr r => forall j, r = Some j -> shape j
    end) p.
Proof.
  intros V G R L B F. unfold array_round. wp_step. wp_call V. wp_step; [|wp_auto]. cbv zeta.
  assert (Forall shape (l ++ [j])) as F' by (apply Forall_app; auto).
  pose proof (shape_array strok numok _ F').
  wp_step. wp_call wp_getToken. wp_step; wp_auto; [wp_leaf; congruence|].
  wp_call wp_getToken. wp_auto.
Qed.
Lemma wp_parse_array v fuel p : reads_value fuel v -> inside p -> (chars p < fuel)%nat ->
  (chars p < bound)%nat ->
  wp (parse_array v) (fun r p' => upto (chars p) p' /\ forall j, r = Some j -> shape j) p.
Proof.
  intros V G L B. unfold parse_array. wp_step. wp_call wp_getToken. wp_step.
  { apply bool_decide_eq_true in Heqb. subst.
    pose proof (shape_array strok numok [] (List.Forall_nil _)).
    wp_step. wp_call wp_closeTk. wp_auto. wp_leaf. congruence. }
  apply (wp_loop (fun s q => upto (chars p) q /\ (at_char s.1 = true -> ready q) /\ Forall shape s.2));
    [by repeat (split; [try done; lia|])|].
  intros [tk l] q ([G1 L1] & R1 & F1). wp_call (wp_array_round v fuel); [lia..|].
  repeat case_match; wp_leaf; destruct_and?; auto; lia.
Qed.

Lemma wp_value fuel : reads_value fuel (value fuel).
Proof.
  induction fuel as [|fuel IH]; intros tk p G R L B; [lia|].
  destruct tk; cbn [value]; try (wp_auto; wp_leaf; simplify_eq; by constructor).
  - wp_auto. wp_call (wp_parse_object (value fuel) fuel); [lia..|by wp_leaf].
  - wp_auto. wp_call (wp_parse_array (value fuel) fuel); [lia..|by wp_leaf].
  - wp_step. wp_call wp_str. destruct a; wp_auto; wp_leaf; simplify_eq/=. constructor. auto.
  - wp_step. wp_call wp_num. destruct a as [[[v dot] e]|]; wp_auto; wp_leaf; simplify_eq/=. constructor. auto.
Qed.

Lemma wp_paresJson main p : inside p -> (chars p < bound)%nat ->
  wp (paresJson main) (fun r _ => r.1 = true -> r.2 = main \/ exists j, r.2 = Some j /\ shape j) p.
Proof.
  intros G B. unfold paresJson. wp_step. wp_call wp_getToken. wp_step; [by wp_auto; left|].
  wp_step. destruct (wp_value (S (chars p')) a p') as (m & q & E & [[G1 _] S]); [auto..|lia|lia|].
  exists m, q. split; [exact E|]. wp_step; [|by wp_auto]. wp_step. wp_call wp_getToken. wp_auto.
  right. eauto.
Qed.
End Values.

(** ** The two readers *)

#[global, program] Instance string_laws : ReaderLaws unit := {
  good l _ := last l = Some NUL
}.
Next Obligation. intros p p' E _. by cbn; rewrite E. Qed.
Next Obligation. intros p c r E. cbn. by rewrite E. Qed.
Next Obligation.
  intros p c r E N. cbn. unfold pbind, chr. rewrite E. unfold eqc. by rewrite bool_decide_eq_false_2.
Qed.
Next Obligation.
  intros l [] G. destruct l as [|c r]; [done|]. exists c, r. split; [done|]. intros N.
  destruct r; [cbn in G; congruence|done].
Qed.
Next Obligation.
  intros p G. destruct (cur p) as [|c r] eqn:E; [done|]. exists (eqc c NUL), p.
  split; [unfold isEOF; cbn; unfold pbind, chr; by rewrite E|]. rewrite E. split; [done|].
  split; [done|]. intros N. exists c, r. split; [done|].
  destruct r; [cbn in G; injection G as ->; done|done].
Qed.

(** The array of a file ends with a NUL, and lines leave room for theirs. *)
Definition file_good (l : list byte) (f : file) : Prop :=
  last l = Some NUL /\ (length l <= lineSize)%nat /\
  length (buf f) = lineSize /\ last (buf f) = Some NUL /\
  Forall (fun l => (length l < lineSize)%nat) (f_lines f).

Lemma store_line_good l b : length b = lineSize -> last b = Some NUL -> (length l < lineSize)%nat ->
  length (store_line l b) = lineSize /\ last (store_line l b) = Some NUL.
Proof.
  intros L E H. unfold store_line. split.
  - rewrite length_app. cbn [length]. rewrite length_drop. lia.
  - apply last_Some in E as [b' ->]. rewrite length_app in L. cbn in L.
    rewrite last_app_cons, last_cons. destruct (decide (S (length l) <= length b')%nat).
    + by rewrite drop_app_le, last_snoc by done.
    + by rewrite drop_ge by (rewrite length_app; cbn; lia).
Qed.

(** The position of the file after [isEOF] loaded a line. *)
Definition loaded (l : list byte) (ls : list (list byte)) (p : jsonParser file)
    : jsonParser file :=
  let b := store_line l (buf (self p)) in
  mk_jsonParser b (uwrap 64 (lineNum p + 1)) (useComments p) (mk_file b ls).
Lemma file_isEOF (p : jsonParser file) c r : cur p = c :: r ->
  isEOF p = Some (if eqc c NUL
                  then match f_lines (self p) with
                       | [] => (true, p)
                       | l :: ls => (false, loaded l ls p)
                       end
                  else (false, p)).
Proof.
  intros E. cbn [isEOF file_reader]. unfold pbind, chr. rewrite E.
  destruct (eqc c NUL); [|done]. unfold fgets_line. by destruct (f_lines (self p)).
Qed.
Lemma file_chars (p : jsonParser file) :
  chars p = (length (cur p) + S lineSize * length (f_lines (self p)))%nat.
Proof. done. Qed.

Lemma file_good_ready c r f : file_good (c :: r) f -> c <> NUL -> file_good r f.
Proof.
  intros (G & L & R) N. split; [|split; [cbn in L; lia|done]].
  destruct r; [cbn in G; congruence|done].
Qed.
Lemma loaded_good p l ls : file_good (cur p) (self p) -> f_lines (self p) = l :: ls ->
  file_good (cur (loaded l ls p)) (self (loaded l ls p)) /\
  exists c r, cur (loaded l ls p) = c :: r /\ file_good r (self (loaded l ls p)).
Proof.
  intros (G & L & B & N & F) Ls. rewrite Ls in F. inversion_clear F as [|?? F1 F2].
  destruct (store_line_good l (buf (self p)) B N F1) as [B' N'].
  unfold loaded, file_good; cbn [cur self buf f_lines]. split.
  { split; [done|]. split; [by rewrite B'|done]. }
  destruct (store_line l (buf (self p))) as [|c [|d r]]; [done..|].
  exists c, (d :: r). split; [done|]. cbn in B'. split; [done|]. split; [cbn; lia|done].
Qed.

#[global, program] Instance file_laws : ReaderLaws file := { good := file_good }.
Next Obligation. intros p p' E F. by rewrite !file_chars, E, F. Qed.
Next Obligation. intros p c r E. by rewrite !file_chars, E. Qed.
Next Obligation.
  intros p c r E N. rewrite (file_isEOF p c r E). unfold eqc. by rewrite bool_decide_eq_false_2.
Qed.
Next Obligation.
  intros l f G. destruct l as [|c r]; [by destruct G|]. exists c, r. split; [done|].
  by apply file_good_ready.
Qed.
Next Obligation.
  intros p G. destruct (cur p) as [|c r] eqn:E; [by destruct G|]. unfold wp.
  rewrite (file_isEOF p c r E). unfold eqc. case_bool_decide as C.
  - destruct (f_lines (self p)) as [|l ls] eqn:Ls; [exists true, p; by rewrite E|].
    exists false, (loaded l ls p). split; [done|]. rewrite <- E in G.
    destruct (loaded_good p l ls G Ls) as [G' R]. split; [done|]. split; [|done].
    destruct G' as (_ & L' & _). rewrite !file_chars, Ls. cbn [length]. rewrite Nat.mul_succ_r.
    cbn [f_lines loaded self]. lia.
  - exists false, p. rewrite E. split; [done|]. split; [done|]. split; [done|]. intros _.
    exists c, r. split; [done|]. by eapply file_good_ready.
Qed.

Lemma skipBOM_last l x : last l = Some x -> x <> xbf -> last (skipBOM l) = Some x.
Proof.
  intros G N. unfold skipBOM. repeat case_match; try done. subst.
  match goal with |- last ?r = _ => destruct r; [cbn in G; congruence|exact G] end.
Qed.
Lemma skipBOM_length l : (length (skipBOM l) <= length l)%nat.
Proof. unfold skipBOM. repeat case_match; cbn; lia. Qed.

Lemma parser_init_inside head comments p : parser_init head comments = Some p -> inside p.
Proof.
  destruct head as [|c r]; [done|]. intros [= <-].
  change (last (skipBOM ((c :: r) ++ [NUL])) = Some NUL).
  by apply skipBOM_last; [rewrite last_snoc|].
Qed.
Lemma parser_open_inside content comments p : parser_open content comments = Some p -> inside p.
Proof.
  unfold parser_open. destruct content as [c|]; [|done]. destruct (lines_spec c) as [_ F].
  destruct (lines c) as [|l ls]; [done|]. intros [= <-]. inversion_clear F as [|?? F1 F2].
  destruct (store_line_good l (repeat NUL lineSize) (repeat_length _ _) eq_refl F1) as [B N].
  pose proof (skipBOM_length (store_line l (repeat NUL lineSize))).
  unfold inside; cbn [self cur]. split; [by apply skipBOM_last|]. split; [by rewrite <- B|done].
Qed.

Lemma wp_total `{ReaderLaws X} main (p : jsonParser X) :
  inside p -> exists r p', paresJson main p = Some (r, p').
Proof.
  intros G. edestruct (wp_paresJson (fun _ => True) (fun _ _ _ => True) (S (chars p))) as (r & q & E & _);
    [..|done|lia|eauto].
  - intros q R _. wp_call wp_getStr. by wp_leaf.
  - intros q I _. wp_call wp_getNum. by wp_leaf.
Qed.
Lemma paresJson_returns `{ReaderLaws X} main (p : jsonParser X) :
  inside p -> exists r, fst <$> paresJson main p = Some r.
Proof. intros G. destruct (wp_total main p G) as (r & q & E). exists r. by rewrite E. Qed.

Lemma parseBuffer_returns main buffer comments : exists r, parseBuffer main buffer comments = Some r.
Proof.
  unfold parseBuffer. destruct (parser_init _ _) as [p|] eqn:I; [|by exists (false, main)].
  apply paresJson_returns. by eapply parser_init_inside.
Qed.

(** C22: Parsing returns for every string and every file, with or without
    comments: no loop and no nesting goes on for ever, and no character outside
    of the string or of the array of a line is read.  A parser that fails leaves
    the value of the object as it was. *)
Theorem json_parse_total main buffer content comments :
  (exists r, parseBuffer main buffer comments = Some r /\ (r.1 = false -> r.2 = main)) /\
  (exists r, parseFile main content comments = Some r /\ (r.1 = false -> r.2 = main)).
Proof.
  assert (forall X (R : Reader X) main (p : jsonParser X) r,
    fst <$> paresJson main p = Some r -> r.1 = false -> r.2 = main) as Keep.
  { clear. intros X R main p r E F. unfold paresJson, pbind in E.
    repeat case_match; simplify_eq/=; try done; by apply fmap_Some in E as ([] & ? & ->); simplify_eq/=. }
  split.
  - unfold parseBuffer. destruct (parser_init _ _) as [p|] eqn:I; [|by exists (false, main)].
    destruct (paresJson_returns main p) as [r E]; [by eapply parser_init_inside|].
    exists r. split; [done|]. by apply (Keep _ _ main p r E).
  - unfold parseFile. destruct (parser_open _ _) as [p|] eqn:I; [|by exists (false, main)].
    destruct (paresJson_returns main p) as [r E]; [by eapply parser_open_inside|].
    exists r. split; [done|]. by apply (Keep _ _ main p r E).
Qed.
