(* ===== verification/JsonRound.v ===== *)
(** * JsonRound.v: printed JSON is parsed back

    [toString] of a value is text that [parseBuffer] reads as the same value.  The
    proofs use a calculus of runs on a string: [runs m l a l'] says that [m] reads
    [l] up to [l'] and returns [a], whatever the number of the line. *)

From S2P Require Import Prelude CStr Cfg Json JsonVal.

#[local] Open Scope json_scope.

Section Runs.
Context (comments : bool).

Definition st (l : list byte) (n : Z) : jsonParser unit := mk_jsonParser l n comments tt.
Definition runs {A} (m : P unit A) (l : list byte) (a : A) (l' : list byte) : Prop :=
  forall n, exists n', m (st l n) = Some (a, st l' n').

Lemma runs_ret {A} (a : A) l : runs (pret a) l a l.
Proof. intros n. by exists n. Qed.
Lemma runs_bind {A B} (m : P unit A) (k : A -> P unit B) l a l1 b l2 :
  runs m l a l1 -> runs (k a) l1 b l2 -> runs (pbind m k) l b l2.
Proof.
  intros M K n. destruct (M n) as [n1 E]. destruct (K n1) as [n2 F]. exists n2.
  unfold pbind. by rewrite E.
Qed.
Lemma runs_chr c r : runs chr (c :: r) c (c :: r).
Proof. intros n. by exists n. Qed.
Lemma runs_inc c r : runs inc (c :: r) tt r.
Proof. intros n. by exists n. Qed.
Lemma runs_next c r : runs next (c :: r) c r.
Proof. intros n. by exists n. Qed.
Lemma runs_newline l : runs newline l tt l.
Proof. intros n. by eexists. Qed.
Lemma runs_isEOF c r : runs isEOF (c :: r) (eqc c NUL) (c :: r).
Proof. intros n. by exists n. Qed.

(** The rounds of a loop. *)
Inductive rounds {V A} (body : V -> P unit (V + A)) : V -> list byte -> A -> list byte -> Prop :=
| round_last v l a l' : runs (body v) l (inr a) l' -> rounds body v l a l'
| round_next v l v' l1 a l' :
    runs (body v) l (inl v') l1 -> (length l1 < length l)%nat ->
    rounds body v' l1 a l' -> rounds body v l a l'.

Lemma runs_loop {V A} (body : V -> P unit (V + A)) v l a l' :
  rounds body v l a l' -> runs (loop body v) l a l'.
Proof.
  intros R n. unfold loop.
  assert (length l < S (chars (st l n)))%nat as Hf by (cbn; lia). revert Hf.
  generalize (S (chars (st l n))) as fuel. intros fuel. revert n fuel.
  induction R as [v l a l' B|v l v' l1 a l' B D _ IH]; intros n [|fuel] Hf; [lia| |lia|].
  - destruct (B n) as [n' E]. exists n'. cbn [iter]. unfold pbind. by rewrite E.
  - destruct (B n) as [n1 E]. destruct (IH n1 fuel ltac:(lia)) as [n' F]. exists n'.
    cbn [iter]. unfold pbind. by rewrite E.
Qed.
End Runs.

(** Run the first operation of a program. *)
Ltac runs_step :=
  lazymatch goal with
  | |- runs _ (pbind chr _) _ _ _ => eapply runs_bind; [apply runs_chr|cbv beta]
  | |- runs _ (pbind inc _) _ _ _ => eapply runs_bind; [apply runs_inc|cbv beta]
  | |- runs _ (pbind closeTk _) _ _ _ => eapply runs_bind; [apply runs_inc|cbv beta]
  | |- runs _ (pbind next _) _ _ _ => eapply runs_bind; [apply runs_next|cbv beta]
  | |- runs _ (pbind newline _) _ _ _ => eapply runs_bind; [apply runs_newline|cbv beta]
  | |- runs _ (pbind isEOF _) _ _ _ => eapply runs_bind; [apply runs_isEOF|cbv beta]
  | |- runs _ (pret _) _ _ _ => apply runs_ret
  | |- runs _ (continue _) _ _ _ => apply runs_ret
  | |- runs _ (break _) _ _ _ => apply runs_ret
  end.

(** Compute the comparisons of constant characters. *)
Ltac eqc_const :=
  repeat match goal with
  | |- context [eqc ?a ?b] =>
      let v := eval vm_compute in (eqc a b) in
      lazymatch v with
      | true => change (eqc a b) with true
      | false => change (eqc a b) with false
      end
  end; cbn [negb]; cbn match.

(** ** White space and tokens *)

Section Tokens.
Context (comments : bool).
#[local] Abbreviation runs := (runs comments).

Lemma eqc_refl c : eqc c c = true.
Proof. unfold eqc. by rewrite bool_decide_eq_true_2. Qed.
Lemma eqc_ne c d : c <> d -> eqc c d = false.
Proof. intros. unfold eqc. by rewrite bool_decide_eq_false_2. Qed.

Lemma runs_skip_ws ws c r :
  forallb is_ws ws = true -> is_ws c = false -> runs skip_ws (ws ++ c :: r) (eqc c NUL) (c :: r).
Proof.
  intros W C. apply runs_loop. induction ws as [|w ws IH]; cbn [app forallb] in *.
  { apply round_last. runs_step. destruct (eqc c NUL) eqn:N; [runs_step|]. runs_step.
    assert (eqc c LF = false) as -> by (apply eqc_ne; by intros ->). rewrite C. runs_step. }
  apply andb_prop in W as [W1 W2].
  assert (eqc w NUL = false) as N by (apply eqc_ne; by intros ->).
  apply round_next with tt (ws ++ c :: r); [|cbn; lia|by apply IH].
  runs_step. rewrite N. runs_step. destruct (eqc w LF); [by repeat runs_step|].
  rewrite W1. cbn [negb]. by repeat runs_step.
Qed.

Lemma runs_getToken_with ws c r (k : bool -> P unit (unit + e_token)) tk l :
  forallb is_ws ws = true -> is_ws c = false ->
  runs (k (eqc c NUL)) (c :: r) (inr tk) l ->
  rounds comments (fun _ : unit => pbind skip_ws k) tt (ws ++ c :: r) tk l.
Proof.
  intros W C K. apply round_last. eapply runs_bind; [by apply runs_skip_ws|done].
Qed.

(** The tokens that are characters. *)
Lemma runs_getToken_char ws c r tk :
  forallb is_ws ws = true -> punctuation c = Some tk ->
  runs getToken (ws ++ c :: r) tk (c :: r).
Proof.
  intros W Pc. apply runs_loop, runs_getToken_with; [done|..].
  { destruct (is_ws c) eqn:E; [|done]. unfold is_ws in E. exfalso. revert Pc.
    apply orb_prop in E as [E|E]; [apply orb_prop in E as [E|E]; [apply orb_prop in E as [E|E]|]|];
      apply bool_decide_eq_true in E; by subst. }
  rewrite eqc_ne by (by intros ->). runs_step. rewrite Pc. runs_step.
Qed.
Lemma runs_getToken_digit ws c r :
  forallb is_ws ws = true -> isdigit c = true ->
  runs getToken (ws ++ c :: r) JSON_NUM (c :: r).
Proof.
  intros W D. apply runs_loop, runs_getToken_with; [done|by destruct c|].
  rewrite eqc_ne by (by intros ->). runs_step.
  assert (punctuation c = None /\ eqc c "/"%byte = false) as [-> ->] by (by destruct c).
  rewrite D. runs_step.
Qed.
Lemma runs_getToken_eof ws r :
  forallb is_ws ws = true -> runs getToken (ws ++ NUL :: r) JSON_EOF (NUL :: r).
Proof.
  intros W. apply runs_loop, runs_getToken_with; [done..|]. rewrite eqc_refl. runs_step.
Qed.

(** The characters that can follow a value. *)
Definition follow (d : byte) : bool := in_set value_end d.

Lemma runs_getKey word d r :
  forallb islower word = true -> follow d = true ->
  runs getKey (word ++ d :: r) (key_token word) (d :: r).
Proof.
  intros W D. unfold getKey. lazymatch goal with |- context [loop ?b] => set (body := b) end.
  apply runs_loop. change (key_token word) with (key_token ([] ++ word)). revert W.
  generalize (@nil byte) as key. induction word as [|c word IH]; intros key W; cbn [app forallb] in *.
  { apply round_last. unfold body. runs_step. runs_step. unfold follow in D. rewrite D, orb_true_r, app_nil_r.
    runs_step. }
  apply andb_prop in W as [W1 W2]. replace (key ++ c :: word) with ((key ++ [c]) ++ word)
    by (by rewrite <- app_assoc).
  apply round_next with (key ++ [c]) (word ++ d :: r); [|cbn; lia|by apply IH].
  unfold body. runs_step. runs_step. assert (eqc c NUL || in_set value_end c = false) as -> by (by destruct c).
  rewrite W1. cbn [negb]. by repeat runs_step.
Qed.
Lemma runs_getToken_word ws c word d r tk :
  forallb is_ws ws = true -> forallb islower (c :: word) = true -> follow d = true ->
  key_token (c :: word) = tk ->
  runs getToken (ws ++ (c :: word) ++ d :: r) tk (d :: r).
Proof.
  intros W L D <-. apply runs_loop. pose proof L as L'. cbn [forallb] in L'. apply andb_prop in L' as [L1 _].
  apply runs_getToken_with; [done|by destruct c|]. rewrite eqc_ne by (by intros ->). runs_step.
  assert (punctuation c = None /\ eqc c "/"%byte = false /\ isdigit c = false) as (-> & -> & ->)
    by (by destruct c).
  rewrite L1. eapply runs_bind; [by apply (runs_getKey (c :: word))|]. runs_step.
Qed.
End Tokens.

(** ** Codes and their octets *)

(** The Unicode scalar values. *)
Definition scalar (v : Z) : Prop := 0 <= v < 0xd800 \/ 0xe000 <= v < 0x110000.

Lemma lor_add a b k : 0 <= k -> 0 <= b < 2 ^ k -> Z.lor (a * 2 ^ k) b = a * 2 ^ k + b.
Proof.
  intros K B. symmetry. apply Z.add_nocarry_lor. apply Z.bits_inj'. intros n Hn.
  rewrite Z.land_spec, Z.bits_0. destruct (Z.lt_ge_cases n k).
  - by rewrite Z.mul_pow2_bits_low.
  - rewrite andb_comm. destruct (Z.eq_dec b 0) as [->|]; [by rewrite Z.bits_0|].
    rewrite (Z.bits_above_log2 b n); [done|lia|]. apply Z.log2_lt_pow2; [lia|].
    pose proof (Z.pow_le_mono_r 2 k n). lia.
Qed.
Lemma land_ones v k m : 0 <= k -> m = 2 ^ k - 1 -> Z.land v m = v mod 2 ^ k.
Proof. intros K ->. rewrite Z.sub_1_r, <- Z.ones_equiv. by apply Z.land_ones. Qed.

(** An octet of a code: [k] bits under a mark. *)
Lemma mark_octet hi k v :
  0 <= k -> 0 <= hi -> (hi + 1) * 2 ^ k <= 256 ->
  b2z (z2b (Z.lor (hi * 2 ^ k) (v mod 2 ^ k))) = hi * 2 ^ k + v mod 2 ^ k.
Proof.
  intros K H B. pose proof (Z.mod_pos_bound v (2 ^ k) ltac:(lia)).
  rewrite lor_add by done. rewrite b2z_z2b. apply Z.mod_small. nia.
Qed.
Lemma cont_octet v i : 0 <= i ->
  b2z (z2b (Z.lor 0x80 (Z.land 0x3f (Z.shiftr v i)))) = 0x80 + (v / 2 ^ i) mod 64.
Proof.
  intros I. rewrite Z.shiftr_div_pow2, Z.land_comm, (land_ones _ 6) by done.
  apply (mark_octet 2 6); lia.
Qed.
Lemma lead_octet m k v i mask : 0 <= i -> 0 <= k -> 0 <= m -> (m + 1) * 2 ^ k <= 256 ->
  mask = 2 ^ k - 1 ->
  b2z (z2b (Z.lor (m * 2 ^ k) (Z.land mask (Z.shiftr v i)))) = m * 2 ^ k + (v / 2 ^ i) mod 2 ^ k.
Proof.
  intros I K M B ->. rewrite Z.shiftr_div_pow2, Z.land_comm, (land_ones _ k) by done.
  by apply mark_octet.
Qed.
Lemma utf8_octets v : scalar v ->
  map b2z (utf8 v) =
    if v <? 0x80 then [v]
    else if v <? 0x800 then [0xc0 + v / 64; 0x80 + v mod 64]
    else if v <? 0x10000 then [0xe0 + v / 4096; 0x80 + (v / 64) mod 64; 0x80 + v mod 64]
    else [0xf0 + v / 262144; 0x80 + (v / 4096) mod 64; 0x80 + (v / 64) mod 64; 0x80 + v mod 64].
Proof.
  intros S. unfold utf8. destruct (Z.ltb_spec v 0x80).
  { cbn [map]. rewrite (land_ones _ 7), b2z_z2b by done. unfold scalar in S. f_equal.
    rewrite (Z.mod_small v); [apply Z.mod_small; lia|]. change (2 ^ 7) with 128. lia. }
  unfold scalar in S.
  assert (v / 2 ^ 0 = v) as E0 by (by rewrite Z.div_1_r).
  destruct (Z.ltb_spec v 0x800); [|destruct (Z.ltb_spec v 0x10000)];
    unfold utf8_tail; cbn [map rev seqZ Z.to_nat]; vm_compute (seqZ _ _);
    cbn [map rev app]; rewrite !cont_octet by lia.
  all: try change 0xc0 with (6 * 2 ^ 5); try change 0xe0 with (14 * 2 ^ 4);
    try change 0xf0 with (30 * 2 ^ 3).
  all: rewrite lead_octet by (done || lia).
  all: repeat f_equal; try done; apply Z.mod_small; split;
    [apply Z.div_pos; lia|apply Z.div_lt_upper_bound; lia].
Qed.

(** A decidable fact about the numbers below [n]. *)
Lemma enum (q : Z -> bool) n z : forallb q (seqZ 0 n) = true -> 0 <= z < n -> q z = true.
Proof.
  intros F H. rewrite forallb_forall in F. apply F. apply list_elem_of_In, elem_of_seqZ. lia.
Qed.
Lemma cont_spec c x : b2z c = 0x80 + x -> 0 <= x < 64 ->
  is_cont c = true /\ forall val, 0 <= val < 2 ^ 20 -> code_step val c = val * 64 + x.
Proof.
  intros E X. unfold is_cont, code_step. rewrite E.
  pose proof (enum (fun x => (Z.land (0x80 + x) 0xc0 =? 0x80) && (Z.land 0x3f (0x80 + x) =? x))
    64 x eq_refl X) as H. apply andb_prop in H as [-> H]. apply Z.eqb_eq in H. rewrite H.
  split; [done|]. intros val V. rewrite Z.shiftl_mul_pow2, (lor_add val x 6) by lia.
  change (2 ^ 6) with 64. apply uwrap_small. unfold uint. lia.
Qed.
Lemma lead_spec a :
  (0 <= a < 32 -> utf8_lead (0xc0 + a) = Some (1%nat, a)) /\
  (0 <= a < 16 -> utf8_lead (0xe0 + a) = Some (2%nat, a)) /\
  (0 <= a < 8 -> utf8_lead (0xf0 + a) = Some (3%nat, a)).
Proof.
  split; [|split]; intros A.
  - refine (bool_decide_eq_true_1 _
      (enum (fun a => bool_decide (utf8_lead (0xc0 + a) = Some (1%nat, a))) 32 a _ A)); reflexivity.
  - refine (bool_decide_eq_true_1 _
      (enum (fun a => bool_decide (utf8_lead (0xe0 + a) = Some (2%nat, a))) 16 a _ A)); reflexivity.
  - refine (bool_decide_eq_true_1 _
      (enum (fun a => bool_decide (utf8_lead (0xf0 + a) = Some (3%nat, a))) 8 a _ A)); reflexivity.
Qed.

(** The text of one code. *)
Definition code_text (v : Z) : list byte :=
  match short_escape (z2b v) with
  | Some e => if v <? 0x80 then ["\"%byte; e] else escape_code v
  | None => if (0x20 <=? v) && (v <? 0x7f) then [z2b v] else escape_code v
  end.

Lemma high_octet c : 0x80 <= b2z c -> short_escape c = None.
Proof. intros H. by destruct c. Qed.

(** [lia] with quotients and remainders. *)
Ltac dlia := Z.to_euclidean_division_equations; lia.

(** The octets of a code above 0x7f: the first one, then its continuation. *)
Lemma utf8_high v : scalar v -> 0x80 <= v ->
  exists c cs lead, utf8 v = c :: cs /\ 0x80 <= b2z c /\
    utf8_lead (b2z c) = Some (length cs, lead) /\ forallb is_cont cs = true /\
    fold_left code_step cs lead = v.
Proof.
  intros S H. pose proof (utf8_octets v S) as O. unfold scalar in S.
  destruct (Z.ltb_spec v 0x80); [lia|].
  destruct (Z.ltb_spec v 0x800); [|destruct (Z.ltb_spec v 0x10000)].
  - destruct (utf8 v) as [|c [|c1 [|]]]; try done. injection O as Ec E1.
    destruct (cont_spec c1 (v mod 64) E1 ltac:(dlia)) as [C1 F1].
    exists c, [c1], (v / 64). rewrite Ec, (proj1 (lead_spec _)) by dlia. cbn [forallb fold_left].
    rewrite C1, F1 by dlia. repeat split; try done; dlia.
  - destruct (utf8 v) as [|c [|c1 [|c2 [|]]]]; try done. injection O as Ec E1 E2.
    destruct (cont_spec c1 ((v / 64) mod 64) E1 ltac:(dlia)) as [C1 F1].
    destruct (cont_spec c2 (v mod 64) E2 ltac:(dlia)) as [C2 F2].
    exists c, [c1; c2], (v / 4096). rewrite Ec, (proj1 (proj2 (lead_spec _))) by dlia.
    cbn [forallb fold_left]. rewrite C1, C2, F1, F2 by dlia. repeat split; try done; dlia.
  - destruct (utf8 v) as [|c [|c1 [|c2 [|c3 [|]]]]]; try done. injection O as Ec E1 E2 E3.
    destruct (cont_spec c1 ((v / 4096) mod 64) E1 ltac:(dlia)) as [C1 F1].
    destruct (cont_spec c2 ((v / 64) mod 64) E2 ltac:(dlia)) as [C2 F2].
    destruct (cont_spec c3 (v mod 64) E3 ltac:(dlia)) as [C3 F3].
    exists c, [c1; c2; c3], (v / 262144). rewrite Ec, (proj2 (proj2 (lead_spec _))) by dlia.
    cbn [forallb fold_left]. rewrite C1, C2, C3, F1, F2, F3 by dlia. repeat split; try done; dlia.
Qed.

Lemma strToStr_skip cs r : strToStr_loop (length cs) (cs ++ r) = strToStr_loop 0 r.
Proof. by induction cs. Qed.
Lemma utf8_low v : scalar v -> v < 0x80 -> utf8 v = [z2b v] /\ b2z (z2b v) = v.
Proof.
  intros S H. unfold scalar in S. split; [|rewrite b2z_z2b; apply Z.mod_small; lia].
  unfold utf8. destruct (Z.ltb_spec v 0x80); [|lia].
  by rewrite (land_ones _ 7), Z.mod_small by (done || change (2 ^ 7) with 128; lia).
Qed.

Lemma strToStr_code v r : scalar v ->
  strToStr_loop 0 (utf8 v ++ r) = l ← strToStr_loop 0 r; Some (code_text v ++ l).
Proof.
  intros S. unfold code_text. destruct (Z.lt_ge_cases v 0x80) as [H|H].
  - destruct (utf8_low v S H) as [-> E]. cbn [app strToStr_loop]. rewrite E.
    destruct (short_escape (z2b v)) as [e|]; [by destruct (Z.ltb_spec v 0x80); [|lia]|].
    destruct ((0x20 <=? v) && (v <? 0x7f)); [done|]. unfold utf8_lead.
    destruct (Z.leb_spec v 0x7f); [|lia]. done.
  - destruct (utf8_high v S H) as (c & cs & lead & E & Hc & L & C & F). rewrite E.
    cbn [app strToStr_loop]. rewrite high_octet by done.
    assert ((0x20 <=? b2z c) && (b2z c <? 0x7f) = false) as ->
      by (apply andb_false_iff; right; apply Z.ltb_ge; lia).
    rewrite L. cbn [mbind option_bind]. rewrite <- app_assoc, !take_app_length, C. cbn [negb orb].
    assert ((length (c :: cs ++ r) <? length cs)%nat = false) as ->
      by (apply Nat.ltb_ge; cbn; rewrite length_app; lia).
    rewrite strToStr_skip, F. destruct (Z.ltb_spec v 0x80); [lia|].
    assert ((0x20 <=? v) && (v <? 0x7f) = false) as -> by lia.
    by destruct (strToStr_loop 0 r), (short_escape (z2b v)).
Qed.

(** Proper UTF-8: the octets of a list of codes. *)
Definition proper (s : list byte) : Prop :=
  exists codes, Forall scalar codes /\ s = concat (map utf8 codes).

Lemma strToStr_codes codes : Forall scalar codes ->
  strToStr_loop 0 (concat (map utf8 codes)) = Some (concat (map code_text codes)).
Proof.
  induction 1 as [|v codes S _ IH]; [done|]. cbn [map concat].
  by rewrite strToStr_code, IH.
Qed.

(** ** Reading the escapes *)

Lemma hex_digit_spec z : 0 <= z < 16 ->
  digit_val (hex_digit z) = z /\ isxdigit (hex_digit z) = true /\ isspace (hex_digit z) = false /\
  hex_digit z <> NUL /\ hex_digit z <> x2d /\ hex_digit z <> x2b /\ hex_digit z <> x78 /\
  hex_digit z <> x58.
Proof.
  intros H. pose proof (enum (fun z => bool_decide (digit_val (hex_digit z) = z /\
    isxdigit (hex_digit z) = true /\ isspace (hex_digit z) = false /\
    hex_digit z <> NUL /\ hex_digit z <> x2d /\ hex_digit z <> x2b /\ hex_digit z <> x78 /\
    hex_digit z <> x58)) 16 z eq_refl H) as E. by apply bool_decide_eq_true in E.
Qed.

Lemma strtol_hex a b c d :
  0 <= a < 16 -> 0 <= b < 16 -> 0 <= c < 16 -> 0 <= d < 16 ->
  strtol 16 [hex_digit a; hex_digit b; hex_digit c; hex_digit d] =
    (4096 * a + 256 * b + 16 * c + d, []).
Proof.
  intros A B C D.
  destruct (hex_digit_spec a A) as (Va & _ & Sa & _ & Ma & Pa & _).
  destruct (hex_digit_spec b B) as (Vb & _ & _ & _ & _ & _ & Xb & Yb).
  destruct (hex_digit_spec c C) as (Vc & _). destruct (hex_digit_spec d D) as (Vd & _).
  unfold strtol. cbn [skip_space]. rewrite Sa. rewrite !bool_decide_eq_false_2 by done.
  unfold radix. rewrite !(bool_decide_eq_false_2 (hex_digit b = _)) by done.
  rewrite andb_false_r. cbn [orb andb]. change (16 =? 0) with false. cbn match.
  cbn [digits]. rewrite Va, Vb, Vc, Vd.
  repeat match goal with |- context [?x <? 16] => rewrite (proj2 (Z.ltb_lt x 16)) by lia end.
  f_equal. unfold LONG_MIN, LONG_MAX. lia.
Qed.

(** The nibbles of a value of 16 bits. *)
Lemma nibble v i : 0 <= i -> Z.land (Z.shiftr v (4 * i)) 0xf = (v / 2 ^ (4 * i)) mod 16.
Proof. intros. rewrite Z.shiftr_div_pow2, (land_ones _ 4) by (done || lia). done. Qed.
Definition hex4 (v : Z) : list byte :=
  map (fun i => hex_digit (Z.land (Z.shiftr v (4 * i)) 0xf)) [3; 2; 1; 0].
Lemma jUtf16_hex v : jUtf16 v = "\"%byte :: "u"%byte :: hex4 v.
Proof. done. Qed.

Section Escapes.
Context (comments : bool).
#[local] Abbreviation runs := (runs comments).
#[local] Abbreviation rounds := (rounds comments).

Lemma runs_uToVal v r : 0 <= v < 0x10000 -> runs uToVal (hex4 v ++ r) (Some v) r.
Proof.
  intros V. unfold hex4. cbn [map]. rewrite !nibble by lia.
  assert (forall n, 0 <= n mod 16 < 16) as B by (intros; apply Z.mod_pos_bound; lia).
  pose proof (fun n => hex_digit_spec (n mod 16) (B n)) as Hx.
  assert (forall hex n r, (length hex < 4)%nat ->
    runs ((fun hex => if (4 <=? length hex)%nat then
             let '(v, rest) := strtol 16 hex in
             break (if bool_decide (rest = []) then Some (uwrap 16 v) else None)
           else c <- chr ;; if negb (isxdigit c) then break None
                else eof <- isEOF ;; if eof then break None
                     else c <- next ;; continue (hex ++ [c])) hex)
      (hex_digit (n mod 16) :: r) (inl (hex ++ [hex_digit (n mod 16)])) r) as Step.
  { intros hex n r' L. cbv beta. destruct (Nat.leb_spec 4 (length hex)); [lia|].
    runs_step. destruct (Hx n) as (_ & X & _ & N & _). rewrite X. cbn [negb]. runs_step.
    rewrite eqc_ne by done. by repeat runs_step. }
  apply runs_loop. cbn [app].
  do 4 (eapply round_next; [apply Step; cbn; lia|cbn; lia|cbn [app]]).
  apply round_last. cbn [length Nat.leb]. rewrite strtol_hex by apply B.
  rewrite bool_decide_eq_true_2 by done.
  replace (uwrap 16 _) with v; [runs_step|].
  rewrite uwrap_small; [|unfold uint]; repeat (rewrite ?Z.mul_0_r; change (2 ^ (4 * 3)) with 4096;
    change (2 ^ (4 * 2)) with 256; change (2 ^ (4 * 1)) with 16; change (2 ^ 0) with 1;
    change (2 ^ 16) with 65536); dlia.
Qed.

(** The escape of a value of 16 bits. *)
Lemma runs_u s s' v r : 0 <= v < 0x10000 -> uVal s v = Some s' ->
  runs (str_round s) (jUtf16 v ++ r) (inl s') r.
Proof.
  intros V U. rewrite jUtf16_hex. unfold str_round. cbn [app].
  do 2 (runs_step; eqc_const). rewrite andb_false_r.
  do 3 (runs_step; eqc_const). rewrite andb_false_r. change (escape "u") with (@None byte).
  cbn match. runs_step.
  eapply runs_bind; [unfold uProc; eapply runs_bind; [by apply runs_uToVal|]; apply runs_ret|].
  cbn [mbind option_bind]. rewrite U. runs_step.
Qed.
Lemma short_escape_inv c e : short_escape c = Some e -> escape e = Some c /\ e <> NUL.
Proof. by destruct c; intros [= <-]. Qed.

Lemma short_lt v r : (length r < length (jUtf16 v ++ r))%nat.
Proof. rewrite jUtf16_hex. cbn. lia. Qed.

(** The masks of [strToStr] also cover a bit of the mark. *)
Lemma low_surrogate w : Z.lor (Z.land w 0xbff) 0xdc00 = 0xdc00 + w mod 1024.
Proof.
  change 0xbff with (Z.land 0xfff 0xbff). rewrite Z.land_assoc, (land_ones w 12) by done.
  change (2 ^ 12) with 4096. pose proof (Z.mod_pos_bound w 4096 eq_refl) as B.
  replace (w mod 1024) with ((w mod 4096) mod 1024) by dlia. apply Z.eqb_eq.
  apply (enum (fun x => Z.lor (Z.land x 0xbff) 0xdc00 =? 0xdc00 + x mod 1024) 4096); [|done].
  by vm_compute.
Qed.
Lemma high_surrogate x : 0 <= x < 1024 -> Z.lor (Z.land x 0xbff) 0xd800 = 0xd800 + x.
Proof.
  intros X. apply Z.eqb_eq.
  apply (enum (fun x => Z.lor (Z.land x 0xbff) 0xd800 =? 0xd800 + x) 1024); [|done].
  by vm_compute.
Qed.

Lemma round_escape s v r a l : useSur s = false -> scalar v ->
  rounds str_round (mk_str (s_ret s ++ utf8 v) false (W1 s)) r a l ->
  (forall w, rounds str_round (mk_str (s_ret s ++ utf8 v) false w) r a l) ->
  rounds str_round s (escape_code v ++ r) a l.
Proof.
  intros N S K K'. unfold escape_code. unfold scalar in S. destruct (Z.leb_spec v 0xffff).
  { eapply round_next; [apply runs_u; [lia|]|apply short_lt|exact K].
    unfold uVal. rewrite N.
    assert ((v <? 0xd800) || (0xe000 <=? v) = true) as -> by lia. unfold add_str. by rewrite N. }
  cbv zeta. rewrite Z.shiftr_div_pow2 by lia. set (w := v - 0x10000) in *.
  assert (0 <= w / 2 ^ 10 < 1024 /\ 0 <= w mod 1024 < 1024) as [W1' W2] by (split; dlia).
  rewrite low_surrogate, (high_surrogate _ W1'), <- app_assoc.
  eapply round_next; [apply runs_u; [lia|]|apply short_lt|].
  { unfold uVal. rewrite N.
    assert ((0xd800 + w / 2 ^ 10 <? 0xd800) || (0xe000 <=? 0xd800 + w / 2 ^ 10) = false) as -> by lia.
    assert ((0xd800 + w / 2 ^ 10 <? 0xdc00) = true) as -> by lia. done. }
  eapply round_next; [apply runs_u; [lia|]|apply short_lt|apply K'].
  unfold uVal; cbn [useSur s_ret W1].
  assert ((0xe000 <=? 0xdc00 + w mod 1024) || (0xdc00 + w mod 1024 <? 0xdc00) = false) as -> by lia.
  repeat f_equal. rewrite !(land_ones _ 10) by done. change (2 ^ 10) with 1024 in *.
  rewrite Z.shiftl_mul_pow2, lor_add by (try lia; apply Z.mod_pos_bound; lia).
  change (2 ^ 10) with 1024. rewrite uwrap_small; [|unfold uint]; subst w; dlia.
Qed.

Lemma round_code s v r a l : useSur s = false -> scalar v ->
  (forall w, rounds str_round (mk_str (s_ret s ++ utf8 v) false w) r a l) ->
  rounds str_round s (code_text v ++ r) a l.
Proof.
  intros N S K. unfold code_text. destruct (short_escape (z2b v)) as [e|] eqn:E.
  - destruct (Z.ltb_spec v 0x80) as [H|H]; [|by apply round_escape].
    destruct (utf8_low v S H) as [U _]. destruct (short_escape_inv _ _ E) as [E' Ne].
    apply round_next with (mk_str (s_ret s ++ utf8 v) false (W1 s)) r; [|cbn; lia|apply K]. cbn [app].
    unfold str_round. do 2 (runs_step; eqc_const). rewrite andb_false_r.
    do 2 runs_step. rewrite (eqc_ne e NUL) by done. runs_step. rewrite N. cbn [andb]. rewrite E'.
    runs_step. unfold add_str. rewrite U, N. runs_step.
  - destruct ((0x20 <=? v) && (v <? 0x7f)) eqn:R; [|by apply round_escape].
    assert (0x20 <= v < 0x7f) as R' by lia.
    destruct (utf8_low v S ltac:(lia)) as [U B].
    apply round_next with (mk_str (s_ret s ++ utf8 v) false (W1 s)) r; [|cbn; lia|apply K]. cbn [app].
    unfold str_round. runs_step. rewrite eqc_ne by (intros C; rewrite C in B; cbn in B; lia).
    runs_step. rewrite N. cbn [andb].
    rewrite !eqc_ne by (intros C; rewrite C in E; discriminate).
    apply runs_bind with (Some (s_ret s ++ [z2b v])) r; [|rewrite U; runs_step].
    unfold checkUTF8. runs_step. cbv zeta. rewrite B.
    assert ((0x80 <=? v) && (v <? 0xc0) = false) as -> by lia. runs_step.
    assert (utf8_extra v = 0%nat) as -> by (unfold utf8_extra; by destruct (Z.leb_spec 0xc0 v); [lia|]).
    apply runs_ret.
Qed.

(** [getStr] reads what [strToStr] prints. *)
Lemma runs_getStr str r : proper str -> runs getStr (strToStr str ++ r) (Some str) r.
Proof.
  intros (codes & S & ->). unfold strToStr. rewrite strToStr_codes by done.
  cbn [app]. unfold getStr. runs_step. apply runs_loop. rewrite <- app_assoc. cbn [app].
  generalize 0 as w. change (concat (map utf8 codes)) with ([] ++ concat (map utf8 codes)).
  generalize (@nil byte) as ret. induction S as [|v codes Sv _ IH]; intros ret w; cbn [map concat].
  { apply round_last. unfold str_round. cbn [app]. do 2 (runs_step; eqc_const). cbn [useSur andb].
    runs_step. rewrite app_nil_r. runs_step. }
  rewrite <- app_assoc. apply round_code; [done..|]. intros w'. cbn [s_ret].
  rewrite app_assoc. apply IH.
Qed.
End Escapes.
