(* ===== verification/JsonNum.v ===== *)
(** * JsonNum.v: numbers of JSON

    The grammar of the texts that [getNum] stores, without the plus signs that it
    drops: both directions of its correctness, and the integers that [getInt64]
    and [getUint64] make of them. *)

From S2P Require Import Prelude CStr Cfg Json JsonVal JsonRound.

#[local] Open Scope json_scope.

(** A sign, an integer without leading zeros, a fraction, an exponent that does
    not start with a zero. *)
Record number := mk_number {
  nb_neg : bool;
  nb_int : list byte;
  nb_frac : option (list byte);
  nb_exp : option (byte * bool * list byte)
}.

Definition minus (b : bool) : list byte := if b then ["-"%byte] else [].
Definition frac_text (f : option (list byte)) : list byte :=
  match f with Some ds => "."%byte :: ds | None => [] end.
Definition exp_text (e : option (byte * bool * list byte)) : list byte :=
  match e with Some (c, neg, ds) => c :: minus neg ++ ds | None => [] end.
Definition number_text (n : number) : list byte :=
  minus (nb_neg n) ++ nb_int n ++ frac_text (nb_frac n) ++ exp_text (nb_exp n).
Definition number_dot (n : number) : Z :=
  match nb_frac n with Some _ => len (minus (nb_neg n) ++ nb_int n) | None => 0 end.
Definition number_e (n : number) : Z :=
  match nb_exp n with
  | Some _ => len (minus (nb_neg n) ++ nb_int n ++ frac_text (nb_frac n))
  | None => 0
  end.

Definition all_digits (l : list byte) : Prop := forallb isdigit l = true.
(** Digits without a zero in front. *)
Definition no_zero (l : list byte) : Prop :=
  match l with c :: ds => isdigit c = true /\ c <> "0"%byte /\ all_digits ds | [] => False end.

Definition wf_int (l : list byte) : Prop := l = ["0"%byte] \/ no_zero l.
Definition wf_number (n : number) : Prop :=
  wf_int (nb_int n) /\
  match nb_frac n with Some ds => ds <> [] /\ all_digits ds | None => True end /\
  match nb_exp n with Some (c, _, ds) => (c = "e"%byte \/ c = "E"%byte) /\ no_zero ds | None => True end /\
  len (number_text n) < 2 ^ 64 - 1.

(** ** Texts of the grammar are read *)

(** The effect of several characters. *)
Fixpoint num_chars (l : list byte) (n : num) : option num :=
  match l with
  | [] => Some n
  | c :: l => n ← num_char c n; num_chars l n
  end.
Lemma num_chars_app l1 l2 n : num_chars (l1 ++ l2) n = n' ← num_chars l1 n; num_chars l2 n'.
Proof.
  revert n. induction l1 as [|c l IH]; intros n; [done|]. cbn. by destruct (num_char c n); cbn.
Qed.

Lemma num_char_follow c n n' : num_char c n = Some n' -> eqc c NUL || in_set value_end c = false.
Proof.
  intros E. destruct (eqc c NUL || in_set value_end c) eqn:F; [|done]. exfalso.
  assert (num_char c n = None) as E'; [|congruence].
  unfold num_char. assert (eqc c "e"%byte || eqc c "E"%byte = false /\ eqc c "."%byte = false /\
    eqc c "+"%byte || eqc c "-"%byte = false /\ isdigit c = false) as (-> & -> & -> & ->)
    by (by destruct c). done.
Qed.

Section Run.
Context (comments : bool).
#[local] Abbreviation rounds := (rounds comments).

(** [num_round] reads accepted characters and ends at one that can follow. *)
Lemma rounds_num l n n' d r :
  num_chars l n = Some n' -> lastNotDigit n' = false -> follow d = true ->
  rounds num_round n (l ++ d :: r) (Some (n_ret n', dot_loc n', e_loc n')) (d :: r).
Proof.
  intros E N D. revert n E. induction l as [|c l IH]; intros n E.
  { injection E as ->. apply round_last. unfold num_round. cbn [app]. do 2 runs_step.
    unfold follow in D. rewrite D, orb_true_r, N. runs_step. }
  cbn in E. destruct (num_char c n) as [n1|] eqn:C; [|done]. cbn in E.
  apply round_next with n1 (l ++ d :: r); [|cbn; lia|by apply IH].
  unfold num_round. cbn [app]. do 2 runs_step. rewrite (num_char_follow _ _ _ C), C.
  by repeat runs_step.
Qed.
End Run.

(** Digits after a start that allows them. *)
Definition add_digits (l : list byte) (n : num) : num :=
  mk_num (n_ret n ++ l) (dot_loc n) (e_loc n) (loc n + len l) (haveZero n) (locZero n)
    (if bool_decide (l = []) then lastNotDigit n else false)
    (if bool_decide (l = []) then zeroProhib n else false).

Lemma digit_not c : isdigit c = true ->
  eqc c "e"%byte || eqc c "E"%byte = false /\ eqc c "."%byte = false /\
  eqc c "+"%byte || eqc c "-"%byte = false /\ eqc c "+"%byte = false.
Proof. intros D. by destruct c. Qed.
Lemma num_digit c n : isdigit c = true -> haveZero n && (locZero n <? loc n) = false ->
  eqc c "0"%byte && zeroProhib n = false -> 0 <= loc n < 2 ^ 64 - 1 ->
  num_char c n = Some (add_digits [c] n).
Proof.
  intros D Z0 Zp L. unfold num_char. destruct (digit_not c D) as (-> & -> & -> & ->).
  rewrite D, Z0, Zp. cbn [negb orb]. rewrite uwrap_small by (unfold uint; lia). done.
Qed.
Lemma add_digits_cons c l n : add_digits l (add_digits [c] n) = add_digits (c :: l) n.
Proof.
  unfold add_digits, len; cbn [n_ret dot_loc e_loc loc haveZero locZero lastNotDigit zeroProhib length].
  rewrite <- app_assoc, (bool_decide_eq_false_2 (c :: l = [])) by done.
  f_equal; [lia|by case_bool_decide..].
Qed.
Lemma num_digits l n : all_digits l -> haveZero n = false -> zeroProhib n = false ->
  0 <= loc n -> loc n + len l < 2 ^ 64 -> num_chars l n = Some (add_digits l n).
Proof.
  revert n. induction l as [|c l IH]; intros n D Z0 Zp L H.
  { unfold add_digits, len. cbn. rewrite app_nil_r, Z.add_0_r. by destruct n. }
  apply andb_prop in D as [D1 D2]. unfold len in *. cbn [length] in *. cbn [num_chars].
  rewrite num_digit by (rewrite ?Z0, ?Zp, ?andb_false_r; done || lia). cbn [mbind option_bind].
  rewrite IH; cbn [add_digits haveZero zeroProhib loc]; try done; unfold len; cbn [length]; try lia.
  by rewrite add_digits_cons.
Qed.
Lemma num_no_zero l n : no_zero l -> haveZero n = false ->
  0 <= loc n -> loc n + len l < 2 ^ 64 -> num_chars l n = Some (add_digits l n).
Proof.
  destruct l as [|c l]; [done|]. intros (D & N0 & Ds) Z0 L H. unfold len in *. cbn [length] in *.
  cbn [num_chars]. rewrite num_digit; [|done|by rewrite Z0|by rewrite eqc_ne|lia].
  cbn [mbind option_bind].
  rewrite num_digits; cbn [add_digits haveZero zeroProhib loc]; try done; unfold len; cbn [length]; try lia.
  by rewrite add_digits_cons.
Qed.

(** The state after a text that could be a number by itself. *)
Definition stands (n : num) (t : list byte) (dot e : Z) : Prop :=
  n_ret n = t /\ dot_loc n = dot /\ e_loc n = e /\ loc n = len t /\ lastNotDigit n = false.

Lemma frac_phase n t f : stands n t 0 0 -> t <> [] ->
  match f with Some ds => ds <> [] /\ all_digits ds | None => True end ->
  len (t ++ frac_text f) < 2 ^ 64 ->
  exists n', num_chars (frac_text f) n = Some n' /\
    stands n' (t ++ frac_text f) (match f with Some _ => len t | None => 0 end) 0.
Proof.
  intros (<- & D & E & L & Ld) T F H. pose proof (len_nonneg (n_ret n)).
  destruct f as [ds|]; cbn [frac_text] in *; [|exists n; rewrite app_nil_r; by repeat split].
  destruct F as [N Ds]. rewrite len_app in H. unfold len in H at 2. cbn [length] in H.
  cbn [num_chars]. unfold num_char at 1. eqc_const. rewrite D, E, Ld. change (0 <? 0) with false.
  cbn [orb mbind option_bind]. rewrite uwrap_small by (unfold uint; lia).
  rewrite num_digits; cbn [haveZero zeroProhib loc]; try done; [|lia|unfold len; lia].
  eexists. split; [done|]. unfold stands, add_digits; cbn [n_ret dot_loc e_loc loc lastNotDigit].
  rewrite bool_decide_eq_false_2 by done. rewrite <- app_assoc. repeat split; try done.
  rewrite len_app, L. unfold len. cbn [length app]. lia.
Qed.

Lemma exp_phase n t dot x : stands n t dot 0 -> t <> [] ->
  match x with Some (c, _, ds) => (c = "e"%byte \/ c = "E"%byte) /\ no_zero ds | None => True end ->
  len (t ++ exp_text x) < 2 ^ 64 - 1 ->
  exists n', num_chars (exp_text x) n = Some n' /\
    stands n' (t ++ exp_text x) dot (match x with Some _ => len t | None => 0 end).
Proof.
  intros (<- & D & E & L & Ld) T F H. pose proof (len_nonneg (n_ret n)).
  destruct x as [[[c neg] ds]|]; cbn [exp_text] in *; [|exists n; rewrite app_nil_r; by repeat split].
  destruct F as [C Ds]. assert (0 < len (n_ret n)) by (destruct (n_ret n); [done|unfold len; cbn; lia]).
  rewrite len_app in H. unfold len in H at 2. cbn [length] in H. rewrite length_app in H.
  cbn [num_chars]. unfold num_char at 1.
  assert (eqc c "e"%byte || eqc c "E"%byte = true /\ eqc c "+"%byte = false) as [-> ->]
    by (by destruct C as [-> | ->]).
  rewrite E, Ld. change (0 <? 0) with false. cbn [orb negb mbind option_bind].
  assert (len ds <> 0) by (destruct ds; [done|unfold len; cbn; lia]).
  rewrite num_chars_app. unfold len in * |-. destruct neg; cbn [minus num_chars length] in *.
  - unfold num_char at 1. eqc_const. cbn [e_loc loc orb]. rewrite L.
    unfold len in *. rewrite !uwrap_small by (unfold uint; lia).
    destruct (Z.eqb_spec (Z.of_nat (length (n_ret n))) 0); [lia|]. rewrite Z.eqb_refl. cbn [orb negb].
    cbn [mbind option_bind n_ret dot_loc haveZero locZero].
    rewrite num_no_zero; cbn [haveZero loc]; try done; unfold len; try lia.
    eexists. split; [done|]. unfold stands, add_digits; cbn [n_ret dot_loc e_loc loc lastNotDigit].
    rewrite bool_decide_eq_false_2 by (by intros ->). rewrite <- !app_assoc. repeat split; try done.
    unfold len. rewrite length_app. cbn [length app]. lia.
  - cbn [mbind option_bind]. unfold len in *.
    rewrite num_no_zero; cbn [haveZero loc]; rewrite ?L; try done;
      rewrite ?uwrap_small by (unfold uint, len; lia); unfold len; try lia.
    eexists. split; [done|]. unfold stands, add_digits; cbn [n_ret dot_loc e_loc loc lastNotDigit].
    rewrite bool_decide_eq_false_2 by (by intros ->). rewrite <- !app_assoc. repeat split; try done.
    unfold len. rewrite length_app. cbn [length app]. lia.
Qed.

(** The start states of [getNum] and the characters of the integer after the
    first one. *)
Definition num_start (first : byte) (z : bool) (lz : Z) (nd zp : bool) : num :=
  mk_num [first] 0 0 1 z lz nd zp.

Lemma int_phase ds n t : wf_int ds -> n_ret n = t -> dot_loc n = 0 -> e_loc n = 0 -> loc n = len t ->
  zeroProhib n = false ->
  (haveZero n = true -> locZero n = loc n /\ ds = ["0"%byte]) -> len (t ++ ds) < 2 ^ 64 ->
  exists n', num_chars ds n = Some n' /\ stands n' (t ++ ds) 0 0.
Proof.
  intros W <- D E L Zp Hz H. rewrite len_app in H. pose proof (len_nonneg (n_ret n)).
  exists (add_digits ds n). split.
  - destruct W as [-> |W].
    + cbn [num_chars]. rewrite num_digit; [done|done| |by rewrite Zp, andb_false_r|].
      * destruct (haveZero n); [|done]. destruct (Hz eq_refl) as [-> _]. cbn. apply Z.ltb_irrefl.
      * unfold len in *. cbn in H. lia.
    + destruct (haveZero n) eqn:Z.
      * destruct (Hz eq_refl) as [_ ->]. by destruct W as (_ & ? & _).
      * apply num_no_zero; [done..|lia|lia].
  - unfold stands, add_digits; cbn [n_ret dot_loc e_loc loc lastNotDigit].
    rewrite bool_decide_eq_false_2 by (by destruct W as [-> |W]; [|intros ->]).
    rewrite len_app, L. done.
Qed.

Lemma isdigit_first c : isdigit c = true -> eqc c NUL = false /\ eqc c "-"%byte = false.
Proof. intros D. by destruct c. Qed.

Section GetNum.
Context (comments : bool).
#[local] Abbreviation runs := (runs comments).

(** The characters after the integer. *)
Lemma rest_phases n n1 : wf_number n -> stands n1 (minus (nb_neg n) ++ nb_int n) 0 0 ->
  exists n', num_chars (frac_text (nb_frac n) ++ exp_text (nb_exp n)) n1 = Some n' /\
    stands n' (number_text n) (number_dot n) (number_e n).
Proof.
  intros (Wi & Wf & We & L) S. unfold number_text in *. rewrite !(app_assoc (minus _)) in *.
  set (t := minus (nb_neg n) ++ nb_int n) in *.
  assert (t <> []) as T by (subst t; destruct Wi as [-> |W]; [|destruct (nb_int n); [done|]];
    by destruct (nb_neg n)).
  rewrite (app_assoc t) in L |- *. pose proof (len_nonneg (exp_text (nb_exp n))).
  destruct (frac_phase n1 t (nb_frac n) S T Wf) as (n2 & E2 & S2); [rewrite len_app in L; lia|].
  destruct (exp_phase n2 _ _ (nb_exp n) S2) as (n3 & E3 & S3); [by destruct t|done|done|].
  exists n3. rewrite num_chars_app, E2. split; [done|]. unfold number_dot, number_e.
  rewrite (app_assoc (minus _)). done.
Qed.

Lemma runs_num_loop n n0 l d r : wf_number n -> follow d = true ->
  (exists n1, num_chars l n0 = Some n1 /\ stands n1 (minus (nb_neg n) ++ nb_int n) 0 0) ->
  runs (loop num_round n0) ((l ++ frac_text (nb_frac n) ++ exp_text (nb_exp n)) ++ d :: r)
    (Some (number_text n, number_dot n, number_e n)) (d :: r).
Proof.
  intros W D (n1 & E1 & S1). destruct (rest_phases n n1 W S1) as (n2 & E2 & (<- & <- & <- & _ & N)).
  apply runs_loop, rounds_num; [|done|done]. by rewrite num_chars_app, E1.
Qed.

Lemma runs_getNum n d r : wf_number n -> follow d = true ->
  runs getNum (number_text n ++ d :: r) (Some (number_text n, number_dot n, number_e n)) (d :: r).
Proof.
  intros W D. pose proof W as (Wi & _ & _ & L). unfold number_text at 1. unfold number_text in L.
  rewrite !len_app in L. pose proof (len_nonneg (frac_text (nb_frac n))).
  pose proof (len_nonneg (exp_text (nb_exp n))).
  unfold getNum. destruct (nb_neg n) eqn:Ng; cbn [minus] in *; cbn [app].
  - runs_step. eqc_const. runs_step. cbv zeta. eqc_const.
    assert (exists c ds, nb_int n = c :: ds /\ eqc c NUL = false /\
      (eqc c "0"%byte = true -> nb_int n = ["0"%byte])) as (c & ds & E & N & Z).
    { destruct Wi as [-> |Wn]; [by exists "0"%byte, []|]. destruct (nb_int n) as [|c ds]; [done|].
      exists c, ds. destruct Wn as (Dc & Nz & _). split; [done|]. split; [by apply isdigit_first|].
      by rewrite eqc_ne. }
    rewrite E at 1. cbn [app]. runs_step. rewrite N. runs_step.
    change (c :: (ds ++ frac_text (nb_frac n) ++ exp_text (nb_exp n)) ++ d :: r)
      with (((c :: ds) ++ frac_text (nb_frac n) ++ exp_text (nb_exp n)) ++ d :: r).
    rewrite <- E. destruct (eqc c "0"%byte) eqn:C0; (apply runs_num_loop; [done..|]); rewrite Ng;
      apply int_phase; try done; rewrite ?len_app; try (unfold len in *; cbn in *; lia).
    intros _. split; [done|]. by apply Z.
  - destruct Wi as [E|Wn].
    + rewrite E at 1. cbn [app]. runs_step. eqc_const. runs_step. cbv zeta. eqc_const.
      apply (runs_num_loop n (num_start "0"%byte true 0 false true) []); [done..|].
      rewrite Ng, E. by eexists.
    + destruct (nb_int n) as [|c ds] eqn:E; [done|]. destruct Wn as (Dc & Nz & Ds). cbn [app].
      destruct (isdigit_first c Dc) as [N M]. runs_step. rewrite N. runs_step. cbv zeta.
      rewrite M, (eqc_ne c "0"%byte) by done. rewrite Dc. cbn [negb].
      apply (runs_num_loop n (num_start c false 0 false false) ds); [done..|]. rewrite Ng, E.
      unfold len in L. cbn [minus app length] in *.
      rewrite num_digits; [|done|done|done|cbn; lia|unfold len; cbn; lia]. eexists. split; [done|].
      unfold stands, add_digits, len; cbn. repeat split; [lia|by case_bool_decide].
Qed.
End GetNum.

(** ** Only texts of the grammar are stored *)

Definition wf_parts (n : number) : Prop :=
  wf_int (nb_int n) /\
  match nb_frac n with Some ds => ds <> [] /\ all_digits ds | None => True end /\
  match nb_exp n with Some (c, _, ds) => (c = "e"%byte \/ c = "E"%byte) /\ no_zero ds | None => True end.

(** Where [getNum] is in the grammar: after a number, after the dot, in the
    exponent before its digits. *)
Inductive phase (n : num) : Prop :=
| ph_num nb : wf_parts nb -> stands n (number_text nb) (number_dot nb) (number_e nb) ->
    (nb_frac nb = None -> nb_exp nb = None -> nb_int nb = ["0"%byte] ->
       haveZero n = true /\ locZero n < loc n) -> phase n
| ph_dot nb : wf_parts nb -> nb_frac nb = None -> nb_exp nb = None ->
    n_ret n = number_text nb ++ ["."%byte] -> dot_loc n = len (number_text nb) ->
    e_loc n = 0 -> loc n = len (n_ret n) -> lastNotDigit n = true -> phase n
| ph_exp nb c neg : wf_parts nb -> nb_exp nb = None -> c = "e"%byte \/ c = "E"%byte ->
    n_ret n = number_text nb ++ c :: minus neg -> dot_loc n = number_dot nb ->
    e_loc n = len (number_text nb) -> loc n = len (n_ret n) -> lastNotDigit n = true ->
    zeroProhib n = true -> phase n.

Lemma number_text_pos n : wf_parts n -> 0 < len (number_text n).
Proof.
  intros (W & _). unfold number_text. rewrite !len_app. pose proof (len_nonneg (minus (nb_neg n))).
  pose proof (len_nonneg (frac_text (nb_frac n))). pose proof (len_nonneg (exp_text (nb_exp n))).
  assert (0 < len (nb_int n)); [|lia].
  destruct W as [-> |W]; [done|]. destruct (nb_int n); [done|]. unfold len; cbn. lia.
Qed.

(** What an accepted character does to the text, by its kind. *)
Definition added (c : byte) (n n' : num) (d e : Z) (nd : bool) : Prop :=
  n_ret n' = n_ret n ++ [c] /\ loc n' = loc n + 1 /\ dot_loc n' = d /\ e_loc n' = e /\
  lastNotDigit n' = nd.
Inductive num_step (c : byte) (n n' : num) : Prop :=
| step_e : c = "e"%byte \/ c = "E"%byte -> e_loc n <= 0 -> lastNotDigit n = false ->
    added c n n' (dot_loc n) (loc n) true -> zeroProhib n' = true -> num_step c n n'
| step_dot : c = "."%byte -> e_loc n <= 0 -> dot_loc n <= 0 -> lastNotDigit n = false ->
    added c n n' (loc n) (e_loc n) true -> num_step c n n'
| step_minus : c = "-"%byte -> e_loc n <> 0 -> loc n = uwrap 64 (e_loc n + 1) ->
    added c n n' (dot_loc n) (e_loc n) true -> zeroProhib n' = true -> num_step c n n'
| step_plus : e_loc n <> 0 -> loc n = uwrap 64 (e_loc n + 1) -> n_ret n' = n_ret n ->
    loc n' = loc n -> dot_loc n' = dot_loc n -> e_loc n' = e_loc n -> lastNotDigit n' = true ->
    zeroProhib n' = true -> num_step c n n'
| step_digit : isdigit c = true -> (haveZero n = true -> loc n <= locZero n) ->
    (zeroProhib n = true -> c <> "0"%byte) -> added c n n' (dot_loc n) (e_loc n) false ->
    haveZero n' = haveZero n -> locZero n' = locZero n -> num_step c n n'.

Lemma num_char_step c n n' : num_char c n = Some n' -> 0 <= loc n < 2 ^ 64 - 1 -> num_step c n n'.
Proof.
  intros E L. unfold num_char in E. rewrite (uwrap_small 64 (loc n + 1)) in E by (unfold uint; lia).
  destruct (eqc c "e"%byte || eqc c "E"%byte) eqn:Ce.
  { assert (c = "e"%byte \/ c = "E"%byte) as C
      by (apply orb_prop in Ce as [C%bool_decide_eq_true|C%bool_decide_eq_true]; auto).
    destruct ((0 <? e_loc n) || lastNotDigit n) eqn:B; [done|].
    apply orb_false_elim in B as [B1%Z.ltb_ge B2].
    assert (eqc c "+"%byte = false) as F by (by destruct C as [-> | ->]). rewrite F in E.
    injection E as <-. by apply step_e. }
  destruct (eqc c "."%byte) eqn:Cd.
  { apply bool_decide_eq_true in Cd. subst c. destruct (_ || _) eqn:B in E; [done|].
    apply orb_false_elim in B as [[B1%Z.ltb_ge B2%Z.ltb_ge]%orb_false_elim B3].
    injection E as <-. by apply step_dot. }
  destruct (eqc c "+"%byte || eqc c "-"%byte) eqn:Cs.
  { destruct (_ || _) eqn:B in E; [done|].
    apply orb_false_elim in B as [B1%Z.eqb_neq B2%negb_false_iff%Z.eqb_eq].
    apply orb_prop in Cs as [C%bool_decide_eq_true|C%bool_decide_eq_true]; subst c;
      injection E as <-; [by apply step_plus|by apply step_minus]. }
  destruct (negb (isdigit c) || _ || _) eqn:B; [done|].
  apply orb_false_elim in B as [[B1%negb_false_iff B2]%orb_false_elim B3].
  apply orb_false_elim in Cs as [Cp _]. rewrite Cp in E. injection E as <-.
  apply step_digit; try done; cbn.
  - intros Hz. rewrite Hz in B2. by apply Z.ltb_ge in B2.
  - intros Zp ->. by rewrite Zp in B3.
Qed.

(** ** The phases *)

Lemma all_digits_snoc ds c : all_digits ds -> isdigit c = true -> all_digits (ds ++ [c]).
Proof. unfold all_digits. intros D C. by rewrite forallb_app, D; cbn; rewrite C. Qed.
Lemma no_zero_snoc ds c : no_zero ds -> isdigit c = true -> no_zero (ds ++ [c]).
Proof.
  destruct ds as [|d ds]; [done|]. intros (D & N & A) C. by repeat split; [..|apply all_digits_snoc].
Qed.

Lemma stands_add n n' c t d e : stands n t d e -> added c n n' (dot_loc n) (e_loc n) false ->
  stands n' (t ++ [c]) d e.
Proof.
  intros (<- & <- & <- & L & _) (R & L' & D & E & N). unfold stands.
  by rewrite R, L', D, E, N, len_app, L.
Qed.

(** A digit after a number. *)
Lemma digit_after n n' c nb : wf_parts nb -> stands n (number_text nb) (number_dot nb) (number_e nb) ->
  (nb_frac nb = None -> nb_exp nb = None -> nb_int nb = ["0"%byte] ->
     haveZero n = true /\ locZero n < loc n) ->
  isdigit c = true -> (haveZero n = true -> loc n <= locZero n) ->
  added c n n' (dot_loc n) (e_loc n) false -> phase n'.
Proof.
  intros (Wi & Wf & We) S Z D Hz A. apply (stands_add _ _ _ _ _ _ S) in A.
  destruct nb as [neg ds f x]. unfold number_text, number_dot, number_e in A.
  cbn [nb_neg nb_int nb_frac nb_exp] in *. destruct x as [[[e en] es]|]; [|destruct f as [fs|]].
  - destruct We as [We1 We2].
    apply (ph_num _ (mk_number neg ds f (Some (e, en, es ++ [c])))); [|unfold number_text|done].
    + split; [done|]. split; [done|]. split; [done|]. by apply no_zero_snoc.
    + cbn [nb_neg nb_int nb_frac nb_exp exp_text] in *. rewrite <- !app_assoc in A. cbn [app] in A.
      by rewrite <- !app_assoc in A.
  - destruct Wf as [Wf1 Wf2].
    apply (ph_num _ (mk_number neg ds (Some (fs ++ [c])) None)); [|unfold number_text|done].
    + split; [done|]. split; [|done]. split; [by destruct fs|]. by apply all_digits_snoc.
    + cbn [nb_neg nb_int nb_frac nb_exp exp_text frac_text] in *. rewrite app_nil_r in *.
      by rewrite <- !app_assoc in A.
  - cbn [exp_text frac_text] in A. rewrite !app_nil_r, <- app_assoc in A.
    destruct Wi as [-> |Wi]; [destruct (Z eq_refl eq_refl eq_refl) as [H1 H2]; specialize (Hz H1); lia|].
    apply (ph_num _ (mk_number neg (ds ++ [c]) None None)).
    + split; [|done]. right. by apply no_zero_snoc.
    + unfold number_text. cbn [nb_neg nb_int nb_frac nb_exp exp_text frac_text]. by rewrite !app_nil_r.
    + intros _ _ E. cbn in E. destruct ds as [|d [|]]; done.
Qed.

Lemma len_snoc {A} (l : list A) x : len (l ++ [x]) = len l + 1.
Proof. rewrite len_app. done. Qed.

(** The exponent of a number has digits after its letter. *)
Lemma number_exp_loc nb : wf_parts nb ->
  0 <= number_e nb /\ (nb_exp nb = None \/ number_e nb + 2 <= len (number_text nb)) /\
  (nb_exp nb <> None -> 0 < number_e nb) /\ (nb_frac nb <> None -> 0 < number_dot nb).
Proof.
  intros W. pose proof W as (Wi & Wf & We). unfold number_e, number_dot, number_text.
  assert (0 < len (minus (nb_neg nb) ++ nb_int nb)) as Hp.
  { rewrite len_app. pose proof (len_nonneg (minus (nb_neg nb))).
    destruct Wi as [-> |Wi]; [unfold len; cbn; lia|].
    destruct (nb_int nb); [done|]. unfold len in *; cbn. lia. }
  rewrite !app_assoc. rewrite !len_app in *. pose proof (len_nonneg (frac_text (nb_frac nb))).
  destruct (nb_exp nb) as [[[c neg] ds]|].
  - destruct We as [_ We]. assert (2 <= len (exp_text (Some (c, neg, ds)))).
    { destruct ds; [done|]. unfold len; cbn. rewrite length_app. cbn. lia. }
    destruct (nb_frac nb); repeat split; try (right; lia); try lia; done.
  - destruct (nb_frac nb); repeat split; try (by left); try lia; done.
Qed.

Lemma phase_step c n n' : phase n -> num_step c n n' -> 0 <= loc n < 2 ^ 64 - 1 -> phase n'.
Proof.
  intros Ph St B. destruct Ph as [nb W S Z|nb W F X R D E L N|nb c0 neg W X C R D E L N Zp].
  - pose proof S as (R & D & E & L & _). pose proof (number_exp_loc nb W) as (E0 & E1 & E2 & E3).
    destruct St as [C Le Ln A Zn| -> Le Ld Ln A| -> En El A Zn|En El|Dg Hz Zp A Hz' Lz'].
    + assert (nb_exp nb = None) as X by (destruct (nb_exp nb); [specialize (E2 ltac:(done)); lia|done]).
      destruct A as (Ar & Al & Ad & Ae & An). apply (ph_exp _ nb c false); try done; try congruence.
      * by rewrite Ar, R.
      * rewrite Ar, len_snoc, R. lia.
    + assert (nb_exp nb = None) as X by (destruct (nb_exp nb); [specialize (E2 ltac:(done)); lia|done]).
      assert (nb_frac nb = None) as F by (destruct (nb_frac nb); [specialize (E3 ltac:(done)); lia|done]).
      destruct A as (Ar & Al & Ad & Ae & An). apply (ph_dot _ nb); try done; try congruence.
      * rewrite Ae, E. unfold number_e. by rewrite X.
      * rewrite Ar, len_snoc, R. lia.
    + exfalso. destruct E1 as [X|E1]; [apply En; rewrite E; unfold number_e; by rewrite X|].
      rewrite uwrap_small in El by (unfold uint; lia). lia.
    + exfalso. destruct E1 as [X|E1]; [apply En; rewrite E; unfold number_e; by rewrite X|].
      rewrite uwrap_small in El by (unfold uint; lia). lia.
    + by eapply digit_after.
  - destruct St as [C Le Ln A Zn| -> Le Ld Ln A| -> En El A Zn|En El|Dg Hz Zp A Hz' Lz'];
      try congruence.
    destruct A as (Ar & Al & Ad & Ae & An). destruct nb as [neg ds f x]; cbn in F, X; subst.
    apply (ph_num _ (mk_number neg ds (Some [c]) None)); [|unfold stands|done].
    + destruct W as (Wi & _). split; [done|]. split; [|done]. split; [done|].
      unfold all_digits. cbn [forallb]. by rewrite Dg.
    + rewrite Ar, Al, Ad, Ae, An, L, R, D, E. unfold number_text, number_dot, number_e in *.
      cbn [nb_neg nb_int nb_frac nb_exp exp_text frac_text]. rewrite !app_nil_r, <- !app_assoc.
      repeat split; try done. rewrite !len_app. unfold len; cbn. lia.
  - pose proof (number_text_pos nb W) as Hp. rewrite R, len_app in L.
    destruct St as [C' Le Ln A Zn| -> Le Ld Ln A| -> En El A Zn|En El Pr Pl Pd Pe Pn Pz|Dg Hz Zd A Hz' Lz'];
      try congruence.
    + rewrite uwrap_small in El by (unfold uint, len in *; cbn in *; lia).
      destruct neg; [unfold len in *; cbn in *; lia|]. destruct A as (Ar & Al & Ad & Ae & An).
      apply (ph_exp _ nb c0 true); try done; try congruence.
      * by rewrite Ar, R, <- app_assoc.
      * rewrite Ar, len_snoc, R, len_app. lia.
    + apply (ph_exp _ nb c0 neg); try done; try congruence. rewrite Pr, Pl, R, len_app. done.
    + destruct A as (Ar & Al & Ad & Ae & An). destruct nb as [ng ds f x]; cbn in X; subst x.
      apply (ph_num _ (mk_number ng ds f (Some (c0, neg, [c])))); [|unfold stands|done].
      * destruct W as (Wi & Wf & _). split; [done|]. split; [done|]. split; [done|].
        split; [done|]. split; [by apply Zd|done].
      * rewrite Ar, Al, Ad, Ae, An, L, R, D, E. unfold number_text, number_dot, number_e in *.
        cbn [nb_neg nb_int nb_frac nb_exp exp_text]. rewrite !app_nil_r, <- !app_assoc.
        repeat split; try done. rewrite !len_app. unfold len; cbn. rewrite ?length_app. cbn. lia.
Qed.

Lemma phase_chars l n n' : phase n -> num_chars l n = Some n' -> 0 <= loc n ->
  loc n + len l < 2 ^ 64 - 1 -> phase n' /\ loc n' <= loc n + len l.
Proof.
  revert n. induction l as [|c l IH]; intros n Ph E L B; [injection E as <-; split; [done|unfold len; lia]|].
  cbn in E. destruct (num_char c n) as [n1|] eqn:C; [|done]. cbn in E. unfold len in *.
  cbn [length] in B. apply num_char_step in C; [|lia].
  assert (loc n <= loc n1 <= loc n + 1) by (destruct C as [??? A|???? A|??? A|?|??? A];
    try (destruct A as (_ & -> & _)); lia).
  destruct (IH n1) as [Ph' L']; [eapply phase_step; [done|done|lia]|done|lia|lia|].
  split; [done|]. cbn [length]. lia.
Qed.

(** ** The parser of a string *)

Lemma num_round_string n (p : jsonParser unit) :
  num_round n p =
    match cur p with
    | [] => None
    | c :: r =>
        if eqc c NUL || in_set value_end c
        then Some (inr (if lastNotDigit n then None else Some (n_ret n, dot_loc n, e_loc n)), p)
        else match num_char c n with
             | Some n => Some (inl n, set_cur r p)
             | None => Some (inr None, p)
             end
    end.
Proof.
  destruct p as [[|c r] ln cm []]; [done|].
  unfold num_round, pbind; cbn -[num_char value_end in_set eqc].
  destruct (eqc c NUL || _); [done|]. by destruct (num_char c n).
Qed.

(** The characters that the rounds accepted. *)
Lemma num_rounds fuel n (p : jsonParser unit) r p' :
  iter fuel num_round n p = Some (Some r, p') ->
  exists l n', num_chars l n = Some n' /\ (length l <= length (cur p))%nat /\
    lastNotDigit n' = false /\ r = (n_ret n', dot_loc n', e_loc n') /\
    (l = [] \/ head (cur p) = head l).
Proof.
  revert n p. induction fuel as [|fuel IH]; intros n p E; [done|].
  cbn [iter] in E. unfold pbind in E. rewrite num_round_string in E.
  destruct (cur p) as [|c rest] eqn:Ec; [done|].
  destruct (eqc c NUL || in_set value_end c) eqn:F.
  { destruct (lastNotDigit n) eqn:N; [done|]. injection E as <- _.
    exists [], n. split; [done|]. split; [cbn; lia|]. split; [done|]. split; [done|]. by left. }
  destruct (num_char c n) as [n1|] eqn:C; [|done].
  apply IH in E as (l & n' & E & L & N & R & _). exists (c :: l), n'. cbn [num_chars].
  rewrite C. split; [done|]. cbn in L |- *. split; [lia|]. split; [done|]. split; [done|]. auto.
Qed.

(** What [getNum] stores is a number of the grammar with its positions. *)
Definition num_ok (v : list byte) (dot e : Z) : Prop :=
  exists n, wf_number n /\ v = number_text n /\ dot = number_dot n /\ e = number_e n.

Lemma phase_ok n : phase n -> lastNotDigit n = false -> loc n < 2 ^ 64 - 1 ->
  num_ok (n_ret n) (dot_loc n) (e_loc n).
Proof.
  intros [nb W (R & D & E & L & _) _|nb ? ? ? ? ? ? ? N|nb ? ? ? ? ? ? ? ? ? N] Ld B; try congruence.
  exists nb. split; [|done]. destruct W as (Wi & Wf & We). repeat split; try done. lia.
Qed.

Lemma getNum_string (p : jsonParser unit) v dot e p' :
  getNum p = Some (Some (v, dot, e), p') -> len (cur p) < 2 ^ 64 - 2 -> num_ok v dot e.
Proof.
  intros E B. destruct p as [[|c r] ln cm []]; [done|]. unfold getNum, pbind, next in E.
  unfold isEOF, chr, inc, pret in E. cbn -[num_round eqc isdigit loop] in E.
  destruct (eqc c NUL); [done|]. cbn -[num_round eqc isdigit loop] in E.
  unfold len in B. cbn [cur length] in B.
  assert (forall n l n', phase n -> loc n <= 2 -> 0 <= loc n -> num_chars l n = Some n' ->
    (length l <= length r)%nat -> lastNotDigit n' = false ->
    num_ok (n_ret n') (dot_loc n') (e_loc n')) as Fin.
  { intros n l n' Ph L L0 Ec Hl N.
    destruct (phase_chars l n n' Ph Ec) as [Ph' L']; [done|unfold len; lia|].
    apply phase_ok; [done..|unfold len in L'; lia]. }
  assert (forall n q, loop num_round n (set_cur q (mk_jsonParser (c :: r) ln cm tt)) = Some (Some (v, dot, e), p') ->
    q = r -> exists l n', num_chars l n = Some n' /\ (length l <= length r)%nat /\
      lastNotDigit n' = false /\ (v, dot, e) = (n_ret n', dot_loc n', e_loc n') /\
      (l = [] \/ head r = head l)) as Lp.
  { intros n q El ->. by apply num_rounds in El. }
  destruct (eqc c "0"%byte) eqn:C0; [|destruct (eqc c "-"%byte) eqn:Cm; [|destruct (isdigit c) eqn:Cd; [|done]]].
  - apply bool_decide_eq_true in C0. subst c.
    apply Lp in E as (l & n' & Ec & Hl & N & [= -> -> ->] & _); [|done].
    refine (Fin _ l n' _ _ _ Ec Hl N); [|cbn; lia|cbn; lia].
    by apply (ph_num _ (mk_number false ["0"%byte] None None)); [split; [left|]| |].
  - apply bool_decide_eq_true in Cm. subst c. destruct r as [|c r]; [done|].
    cbn -[num_round eqc loop] in E. destruct (eqc c NUL); [done|].
    set (n0 := fun z lz => num_start "-"%byte z lz true false).
    assert (exists z lz, loop num_round (n0 z lz) (set_cur (c :: r) (mk_jsonParser ("-"%byte :: c :: r) ln cm tt))
      = Some (Some (v, dot, e), p') /\ (z = true -> lz = 1) /\ z = eqc c "0"%byte) as (z & lz & E' & Hz & Hc).
    { cbn -[num_round eqc loop] in E. destruct (eqc c "0"%byte); [by exists true, 1|by exists false, 0]. }
    apply Lp in E' as (l & n' & Ec & Hl & N & [= -> -> ->] & Hd); [|done].
    destruct l as [|c' l]; [by injection Ec as <-|]. destruct Hd as [|[= <-]]; [done|].
    cbn in Ec. destruct (num_char c (n0 z lz)) as [n1|] eqn:C1; [|done]. cbn in Ec.
    apply num_char_step in C1; [|cbn; lia].
    destruct C1 as [? ? ? A|? ? ? ? A|? ? ? A|? ? ?|Dg Hz' Zd (Ar & Al & Ad & Ae & An) Z1 Z2];
      try done. cbn in *.
    refine (Fin n1 l n' _ _ _ Ec _ N); [|lia|lia|cbn in Hl |- *; lia].
    apply (ph_num _ (mk_number true [c] None None)).
    + split; [|done]. destruct z; [left|right].
      * symmetry in Hc. apply bool_decide_eq_true in Hc. by subst.
      * split; [done|]. split; [|done]. intros ->. done.
    + unfold stands. by rewrite Ar, Al, Ad, Ae, An.
    + intros _ _ [= ->]. rewrite Z1, Z2, Al. destruct z; [|done]. rewrite Hz by done. split; [done|lia].
  - apply Lp in E as (l & n' & Ec & Hl & N & [= -> -> ->] & _); [|done].
    refine (Fin _ l n' _ _ _ Ec Hl N); [|cbn; lia|cbn; lia].
    apply (ph_num _ (mk_number false [c] None None)); [split; [right|done]|done|].
    + split; [done|]. split; [|done]. intros ->. done.
    + intros _ _ [= ->]. done.
Qed.

(** ** Integers *)

Definition decimal (ds : list byte) : Z := fold_left (fun acc c => acc * 10 + digit_val c) ds 0.

Lemma digits_all ds acc b : all_digits ds ->
  digits 10 acc b ds =
    (b || negb (bool_decide (ds = [])), fold_left (fun acc c => acc * 10 + digit_val c) ds acc, []).
Proof.
  revert acc b. induction ds as [|c ds IH]; intros acc b D; cbn [digits fold_left].
  { by rewrite orb_false_r. }
  apply andb_prop in D as [D1 D2].
  assert ((digit_val c <? 10) = true) as -> by (by destruct c). rewrite IH by done.
  by rewrite orb_true_r.
Qed.
Lemma cstr_plain l : forallb (fun c => negb (eqc c NUL)) l = true -> cstr l = l.
Proof.
  induction l as [|c l IH]; [done|]. cbn. intros E. apply andb_prop in E as [E1 E2].
  unfold eqc, NUL in E1. destruct (bool_decide (c = x00)); [done|]. by rewrite IH.
Qed.
Lemma digits_plain ds : all_digits ds -> forallb (fun c => negb (eqc c NUL)) ds = true.
Proof.
  induction ds as [|c ds IH]; [done|]. unfold all_digits. cbn. intros [D1 D2]%andb_prop.
  rewrite (proj1 (isdigit_first c D1)). by apply IH.
Qed.
Lemma wf_int_digits ds : wf_int ds -> all_digits ds /\ ds <> [].
Proof.
  intros [-> |W]; [done|]. destruct ds as [|c ds]; [done|]. destruct W as (D & _ & A).
  split; [unfold all_digits in *; cbn; by rewrite D|done].
Qed.

(** The text of an integer. *)
Definition int_text (neg : bool) (ds : list byte) : list byte := minus neg ++ ds.
Lemma strtol_int neg ds : wf_int ds ->
  strtol 10 (cstr (int_text neg ds)) =
    (Z.max LONG_MIN (Z.min LONG_MAX (if neg then - decimal ds else decimal ds)), []).
Proof.
  intros W. destruct (wf_int_digits ds W) as [A N]. unfold int_text.
  rewrite cstr_plain by (rewrite forallb_app, (digits_plain ds A); by destruct neg).
  destruct ds as [|c ds]; [done|]. pose proof A as A'. apply andb_prop in A' as [Dc _].
  assert (isspace c = false /\ c <> x2d /\ c <> x2b) as (Sp & N1 & N2) by (by destruct c).
  unfold strtol. destruct neg; cbn [minus app skip_space isspace].
  - change (isspace "-"%byte) with false. cbn match. rewrite bool_decide_eq_true_2 by done.
    assert (radix 10 (c :: ds) = (10, c :: ds)) as ->
      by (unfold radix; destruct ds as [|? [|]]; by rewrite ?andb_false_r).
    rewrite digits_all by done. done.
  - rewrite Sp, !bool_decide_eq_false_2 by done.
    assert (radix 10 (c :: ds) = (10, c :: ds)) as ->
      by (unfold radix; destruct ds as [|? [|]]; by rewrite ?andb_false_r).
    rewrite digits_all by done. done.
Qed.
Lemma strtoumax_int ds : wf_int ds ->
  strtoumax 10 (cstr (int_text false ds)) =
    (if UINT64_MAX <? decimal ds then UINT64_MAX else decimal ds, []).
Proof.
  intros W. destruct (wf_int_digits ds W) as [A N]. unfold int_text. cbn [minus app].
  rewrite cstr_plain by (by apply digits_plain).
  destruct ds as [|c ds]; [done|]. pose proof A as A'. apply andb_prop in A' as [Dc _].
  assert (isspace c = false /\ c <> x2d /\ c <> x2b) as (Sp & N1 & N2) by (by destruct c).
  unfold strtoumax. cbn [skip_space]. rewrite Sp, !eqc_ne by done.
  assert (radix 10 (c :: ds) = (10, c :: ds)) as ->
    by (unfold radix; destruct ds as [|? [|]]; by rewrite ?andb_false_r).
  rewrite digits_all by done. done.
Qed.

Definition J_num (n : number) : json := J_number (number_text n) (number_dot n) (number_e n).

(** The integers of JSON.  Of the numbers that the parser stores, [getInt64]
    accepts exactly those without fraction and exponent, and [getUint64] those
    that in addition have no minus sign; the value is the decimal number, or the
    nearest one of the 64 bits type when it is out of its range (no error is
    reported then); a refused number leaves the variable as it was. *)
Theorem json_integers n old :
  wf_number n ->
  let plain := bool_decide (nb_frac n = None /\ nb_exp n = None) in
  let v := if nb_neg n then - decimal (nb_int n) else decimal (nb_int n) in
  getInt64 (J_num n) old false =
    (if plain then (true, Z.max LONG_MIN (Z.min LONG_MAX v)) else (false, old)) /\
  getUint64 (J_num n) old false =
    (if plain && negb (nb_neg n) then (true, Z.min UINT64_MAX v) else (false, old)).
Proof.
  intros W. cbv zeta. pose proof W as (Wi & Wf & We & _).
  assert (wf_parts n) as Wp by done. pose proof (number_exp_loc n Wp) as (_ & _ & E2 & E3).
  unfold getInt64, getUint64, get_int, J_num.
  case_bool_decide as Pl.
  - destruct Pl as [F X]. unfold number_dot, number_e, number_text. rewrite F, X.
    cbn [frac_text exp_text]. rewrite !app_nil_r. change (0 <? 0) with false. cbn [orb negb andb].
    change (minus (nb_neg n) ++ nb_int n) with (int_text (nb_neg n) (nb_int n)).
    assert (exists c ds, nb_int n = c :: ds /\ eqc c "-"%byte = false /\
      (eqc c "0"%byte = true -> nb_int n = ["0"%byte])) as (c & ds & E & M & Z).
    { destruct Wi as [-> |Wn]; [by exists "0"%byte, []|]. destruct (nb_int n) as [|c ds]; [done|].
      exists c, ds. destruct Wn as (Dc & Nz & _). split; [done|]. split; [by apply isdigit_first|].
      by rewrite eqc_ne. }
    destruct (nb_neg n) eqn:Ng.
    + cbn [int_text minus app head default]. eqc_const. split; [|done].
      change ("-"%byte :: nb_int n) with (int_text true (nb_int n)). by rewrite strtol_int.
    + rewrite strtol_int, strtoumax_int by done.
      assert (default NUL (head (int_text false (nb_int n))) = c) as -> by (by rewrite E).
      rewrite M. destruct (eqc c "0"%byte); [by rewrite Z|]. split; [done|].
      cbn [negb ends_well]. f_equal.
      destruct (Z.ltb_spec UINT64_MAX (decimal (nb_int n))); lia.
  - assert ((0 <? number_dot n) || (0 <? number_e n) = true) as ->; [|done].
    destruct (nb_frac n), (nb_exp n); try (by contradict Pl);
      try (specialize (E3 ltac:(done))); try (specialize (E2 ltac:(done))); lia.
Qed.

Lemma json_integers_witness :
  getInt64 (J_num (mk_number true (bytes "42") None None)) 7 false = (true, -42) /\
  getUint64 (J_num (mk_number true (bytes "42") None None)) 7 false = (false, 7).
Proof.
  apply (json_integers (mk_number true (bytes "42") None None) 7).
  split; [right; by vm_compute|]. by vm_compute.
Defined.
