(* ===== verification/JsonFacts.v ===== *)
(** * JsonFacts.v: whole JSON values

    A value of well-formed parts is printed by [toString] to a text that
    [parseBuffer] reads as the same value. *)

From S2P Require Import Prelude CStr Cfg Json JsonVal JsonSafe JsonRound JsonNum.

#[local] Open Scope json_scope.

(** ** Well-formed values *)

Definition wf_json : json -> Prop := shape proper num_ok.

Lemma insert_member_end {A} k (v : A) l :
  Forall (fun m => key_lt k m.1 = false) l -> insert_member k v l = l ++ [(k, v)].
Proof. induction 1 as [|[k' v'] l E _ IH]; [done|]. cbn in *. by rewrite E, IH. Qed.

Lemma in_order_before {A} (a b : list (list byte * A)) m :
  in_order (a ++ m :: b) -> Forall (fun k => key_lt m.1 k.1 = false) a.
Proof.
  induction a as [|k a IH]; intros O; [done|]. inversion_clear O as [|?? O' F]. constructor; [|by apply IH].
  rewrite Forall_app in F. destruct F as [_ F]. by inversion_clear F.
Qed.

(** ** The text of a value *)

Definition member_text (i : nat) (m : list byte * json) : list byte :=
  strToStr m.1 ++ bytes " : " ++ toString (i + 2) m.2.
Definition comma : list byte := [","%byte; LF].

Lemma erase_comma_end l : erase_comma (l ++ comma) = l ++ [LF].
Proof.
  unfold erase_comma, comma. rewrite length_app. cbn [length].
  replace (length l + 2 - 2)%nat with (length l) by lia.
  replace (length l + 2 - 1)%nat with (length l + 1)%nat by lia.
  rewrite take_app_length. rewrite drop_app_ge by lia.
  by replace (length l + 1 - length l)%nat with 1%nat by lia.
Qed.
(** The items of a list, each after [w]: with a comma but the last one. *)
Definition items (w : list byte) (l : list (list byte)) (x : list byte) : list byte :=
  concat (map (fun t => w ++ t ++ comma) l) ++ w ++ x ++ [LF].

Lemma toString_object i l x :
  toString i (J_object (l ++ [x])) =
    spaces (2 * i) ++ "{"%byte :: LF :: items (spaces (2 * i) ++ bytes "  ")
      (map (member_text i) l) (member_text i x) ++ spaces (2 * i) ++ ["}"%byte].
Proof.
  cbn [toString]. rewrite bool_decide_eq_false_2 by (by destruct l).
  set (it1 := spaces (2 * i)).
  set (f := fun m : list byte * json => it1 ++ _).
  assert (forall m, f m = (it1 ++ bytes "  ") ++ member_text i m ++ comma) as F.
  { intros m. unfold f, member_text, comma. by rewrite <- !app_assoc. }
  rewrite map_app, concat_app. cbn [map concat]. rewrite app_nil_r, F, !app_assoc, erase_comma_end.
  unfold items. rewrite map_map, (map_ext _ _ F), <- !app_assoc. cbn [app]. done.
Qed.
Lemma toString_array i l x :
  toString i (J_array (l ++ [x])) =
    spaces (2 * i) ++ "["%byte :: LF :: items (spaces (2 * i) ++ bytes "  ")
      (map (toString (i + 2)) l) (toString (i + 2) x) ++ spaces (2 * i) ++ ["]"%byte].
Proof.
  cbn [toString]. rewrite bool_decide_eq_false_2 by (by destruct l).
  set (it1 := spaces (2 * i)).
  set (f := fun e : json => it1 ++ _).
  assert (forall e, f e = (it1 ++ bytes "  ") ++ toString (i + 2) e ++ comma) as F.
  { intros m. unfold f, comma. by rewrite <- !app_assoc. }
  rewrite map_app, concat_app. cbn [map concat]. rewrite app_nil_r, F, !app_assoc, erase_comma_end.
  unfold items. rewrite map_map, (map_ext _ _ F), <- !app_assoc. cbn [app]. done.
Qed.

Lemma toString_empty_object i :
  toString i (J_object []) = spaces (2 * i) ++ "{"%byte :: LF :: spaces (2 * i) ++ ["}"%byte].
Proof. cbn [toString map concat]. rewrite bool_decide_eq_true_2 by done. by rewrite <- !app_assoc. Qed.
Lemma toString_empty_array i :
  toString i (J_array []) = spaces (2 * i) ++ "["%byte :: LF :: spaces (2 * i) ++ ["]"%byte].
Proof. cbn [toString map concat]. rewrite bool_decide_eq_true_2 by done. by rewrite <- !app_assoc. Qed.

(** ** Reading it back *)

Section Read.
Context (comments : bool).
#[local] Abbreviation runs := (runs comments).
#[local] Abbreviation rounds := (rounds comments).

(** The text of a value, after white space and before a character that can
    follow, is read as the value. *)
Definition reads_text (j : json) (t ws : list byte) (d : byte) (r : list byte) : Prop :=
  exists tk l1, runs getToken (ws ++ t ++ d :: r) tk l1 /\
    tk <> JSON_OBJ_END /\ tk <> JSON_ARR_END /\ tk <> JSON_EOF /\
    (length (d :: r) <= length l1 <= length (t ++ d :: r))%nat /\
    forall fuel, (length l1 < fuel)%nat -> runs (value fuel tk) l1 (Some j) (d :: r).
Definition reads (j : json) : Prop := forall i ws d r,
  forallb is_ws ws = true -> follow d = true -> reads_text j (toString i j) ws d r.

Lemma spaces_ws n : forallb is_ws (spaces n) = true.
Proof. by induction n. Qed.
Lemma ws_app a b : forallb is_ws a = true -> forallb is_ws b = true -> forallb is_ws (a ++ b) = true.
Proof. intros A B. by rewrite forallb_app, A. Qed.

Lemma reads_json_string s : proper s -> reads (J_string s).
Proof.
  intros S i ws d r W D. exists JSON_STR, (strToStr s ++ d :: r).
  split; [by apply runs_getToken_char|]. do 3 (split; [done|]).
  split; [cbn [toString]; rewrite length_app; lia|]. intros [|fuel] L; [lia|]. cbn [value].
  eapply runs_bind; [by apply runs_getStr|]. runs_step.
Qed.
Lemma reads_number v dot e : num_ok v dot e -> reads (J_number v dot e).
Proof.
  intros (n & Wn & -> & -> & ->) i ws d r W D.
  exists JSON_NUM, (number_text n ++ d :: r). cbn [toString]. split.
  - pose proof Wn as (Wi & _). unfold number_text.
    destruct (nb_neg n); [by apply runs_getToken_char|]. cbn [minus app].
    destruct Wi as [-> |Wi]; [by apply runs_getToken_digit|].
    destruct (nb_int n); [done|]. destruct Wi as [Dc _]. by apply runs_getToken_digit.
  - do 3 (split; [done|]). split; [rewrite length_app; lia|]. intros [|fuel] L; [lia|]. cbn [value].
    eapply runs_bind; [by apply runs_getNum|]. runs_step.
Qed.
Lemma reads_word j c word tk : (forall i, toString i j = c :: word) -> key_token (c :: word) = tk ->
  forallb islower (c :: word) = true -> tk <> JSON_INV ->
  (forall fuel, value (X := unit) (S fuel) tk = pret (Some j)) -> reads j.
Proof.
  intros T K L N V i ws d r W D. rewrite T. exists tk, (d :: r).
  split; [by apply runs_getToken_word|].
  assert (tk <> JSON_OBJ_END /\ tk <> JSON_ARR_END /\ tk <> JSON_EOF) as (? & ? & ?)
    by (subst tk; unfold key_token; repeat case_bool_decide; done).
  do 3 (split; [done|]). split; [rewrite length_app; lia|].
  intros [|fuel] Lf; [lia|]. rewrite V. runs_step.
Qed.

(** A member: up to what follows its value. *)
Lemma runs_member fuel acc ws i m d r tk l :
  forallb is_ws ws = true -> proper m.1 -> reads m.2 -> follow d = true ->
  (length (member_text i m ++ d :: r) < fuel)%nat ->
  runs getToken (d :: r) tk l ->
  forall res l', runs (match tk with
                 | JSON_OBJ_END => closeTk ;;; break (Some (J_object (insert_member m.1 m.2 acc)))
                 | JSON_VAL_SEP => closeTk ;;; continue (insert_member m.1 m.2 acc)
                 | _ => break None
                 end) l res l' ->
  runs (object_round (value fuel) acc) (ws ++ member_text i m ++ d :: r) res l'.
Proof.
  intros W Pr R D L T res l' K. unfold member_text in *. rewrite <- !app_assoc in *.
  unfold object_round. eapply runs_bind; [by apply runs_getToken_char|].
  rewrite bool_decide_eq_true_2 by done. cbn [negb].
  eapply runs_bind; [by apply runs_getStr|]. cbn match.
  eapply runs_bind; [by apply (runs_getToken_char comments (bytes " ") ":"%byte)|].
  rewrite bool_decide_eq_true_2 by done. cbn [negb]. runs_step.
  rewrite !length_app in L. cbn [length] in L.
  destruct (R (i + 2)%nat (bytes " ") d r eq_refl D) as (tk1 & l1 & T1 & _ & _ & _ & L1 & V1).
  rewrite length_app in L1. cbn [length] in L1.
  eapply runs_bind; [exact T1|]. eapply runs_bind; [apply V1; lia|]. cbn match zeta.
  eapply runs_bind; [exact T|]. exact K.
Qed.

(** The items of a list from the first one on, whatever white space is before. *)
Definition items_from (ws0 w : list byte) (l : list (list byte)) (x : list byte) : list byte :=
  match l with
  | [] => ws0 ++ x ++ [LF]
  | t :: l => ws0 ++ t ++ comma ++ items w l x
  end.
Lemma items_items w l x : items w l x = items_from w w l x.
Proof. destruct l; [done|]. unfold items. cbn. by rewrite <- !app_assoc. Qed.

Lemma rounds_object fuel i l x r : forall acc ws0,
  forallb is_ws ws0 = true ->
  Forall (fun m => proper m.1 /\ reads m.2) (l ++ [x]) -> in_order (acc ++ l ++ [x]) ->
  let w := spaces (2 * i) ++ bytes "  " in
  let t := items_from ws0 w (map (member_text i) l) (member_text i x) ++
           spaces (2 * i) ++ "}"%byte :: r in
  (length t < fuel)%nat ->
  rounds (object_round (value fuel)) acc t (Some (J_object (acc ++ l ++ [x]))) r.
Proof.
  induction l as [|m l IH]; intros acc ws0 W F O; cbv zeta; cbn [map items_from app].
  - intros L. inversion_clear F as [|?? [Px Rx] _]. rewrite <- !app_assoc in *. cbn [app] in *.
    apply round_last. eapply (runs_member fuel acc ws0 i x LF); [done..| | |].
    + rewrite !length_app in *. cbn [length] in *. lia.
    + apply (runs_getToken_char comments (LF :: spaces (2 * i)) "}"%byte r JSON_OBJ_END);
        [cbn; apply spaces_ws|done].
    + cbn match. runs_step. rewrite insert_member_end; [destruct x; runs_step|].
      by eapply in_order_before.
  - intros L. inversion_clear F as [|?? [Pm Rm] F']. rewrite <- !app_assoc in *.
    set (rest := items _ (map (member_text i) l) (member_text i x) ++ spaces (2 * i) ++ "}"%byte :: r) in *.
    apply round_next with (acc ++ [m]) (LF :: rest).
    + eapply (runs_member fuel acc ws0 i m ","%byte (LF :: rest)); [done..| | |].
      * rewrite !length_app in *. unfold comma in L. cbn [length] in *. lia.
      * by apply (runs_getToken_char comments []).
      * cbn match. runs_step. rewrite insert_member_end; [destruct m; runs_step|].
        by eapply in_order_before.
    + rewrite !length_app. cbn. lia.
    + assert (acc ++ m :: l ++ [x] = (acc ++ [m]) ++ l ++ [x]) as E by (by rewrite <- app_assoc).
      rewrite E. change (in_order (acc ++ m :: l ++ [x])) in O. rewrite E in O.
      replace (LF :: rest) with (items_from (LF :: spaces (2 * i) ++ bytes "  ")
        (spaces (2 * i) ++ bytes "  ") (map (member_text i) l) (member_text i x) ++
        spaces (2 * i) ++ "}"%byte :: r) in * by (unfold rest; rewrite items_items; by destruct l).
      apply IH; [cbn; apply ws_app; [apply spaces_ws|done]|done|done|].
      unfold rest in L. rewrite items_items in L. unfold comma in L. rewrite !length_app in *.
      destruct l; cbn [map items_from app length] in *; rewrite !length_app in *; cbn [length] in *;
        rewrite ?length_app in *; lia.
Qed.

Lemma rounds_array fuel i l x r : forall acc ws0,
  forallb is_ws ws0 = true -> Forall reads (l ++ [x]) ->
  let w := spaces (2 * i) ++ bytes "  " in
  let t := items_from ws0 w (map (toString (i + 2)) l) (toString (i + 2) x) ++
           spaces (2 * i) ++ "]"%byte :: r in
  (length t < fuel)%nat ->
  exists tk l1, runs getToken t tk l1 /\ tk <> JSON_ARR_END /\ (length l1 <= length t)%nat /\
    rounds (array_round (value fuel)) (tk, acc) l1 (Some (J_array (acc ++ l ++ [x]))) r.
Proof.
  induction l as [|e l IH]; intros acc ws0 W F; cbv zeta; cbn [map items_from app].
  - intros L. inversion_clear F as [|?? Rx _]. rewrite <- !app_assoc in *. cbn [app] in *.
    destruct (Rx (i + 2)%nat ws0 LF (spaces (2 * i) ++ "]"%byte :: r) W eq_refl)
      as (tk & l1 & T & _ & Na & _ & L1 & V).
    exists tk, l1. split; [done|]. split; [done|]. split; [rewrite length_app; lia|].
    apply round_last. unfold array_round.
    eapply runs_bind; [apply V; rewrite length_app in L; lia|]. cbn match zeta.
    eapply runs_bind; [apply (runs_getToken_char comments (LF :: spaces (2 * i)) "]"%byte r JSON_ARR_END);
      [cbn; apply spaces_ws|done]|]. cbn match. runs_step. runs_step.
  - intros L. inversion_clear F as [|?? Re F']. rewrite <- !app_assoc in *.
    set (rest := items _ (map (toString (i + 2)) l) (toString (i + 2) x) ++
      spaces (2 * i) ++ "]"%byte :: r) in *. unfold comma in *. cbn [app] in *.
    rewrite !length_app in L. cbn [length] in L.
    destruct (Re (i + 2)%nat ws0 ","%byte (LF :: rest) W eq_refl)
      as (tk & l1 & T & _ & Na & _ & L1 & V).
    destruct (IH (acc ++ [e]) (LF :: spaces (2 * i) ++ bytes "  ")) as (tk2 & l2 & T2 & _ & L2 & R2);
      [cbn; apply ws_app; [apply spaces_ws|done]|done| |].
    { unfold rest in L. rewrite items_items in L. rewrite !length_app in *.
      destruct l; cbn [map items_from app length] in *; rewrite !length_app in *; cbn [length] in *;
        rewrite ?length_app in *; lia. }
    replace (items_from (LF :: spaces (2 * i) ++ bytes "  ") (spaces (2 * i) ++ bytes "  ")
      (map (toString (i + 2)) l) (toString (i + 2) x) ++ spaces (2 * i) ++ "]"%byte :: r)
      with (LF :: rest) in * by (unfold rest; rewrite items_items; by destruct l).
    exists tk, l1. split; [done|]. split; [done|]. split; [rewrite !(length_app ws0); lia|].
    apply round_next with (tk2, acc ++ [e]) l2; [|cbn [length] in *; lia|].
    + unfold array_round. eapply runs_bind; [apply V; rewrite length_app in L1; cbn [length] in L1; lia|]. cbn match zeta.
      eapply runs_bind; [by apply (runs_getToken_char comments [])|]. cbn match. runs_step.
      eapply runs_bind; [exact T2|]. runs_step.
    + by rewrite <- app_assoc in R2.
Qed.

(** ** Nested values *)

(** From the text after the opening character. *)
Lemma reads_body j t i tk c (parse : nat -> P unit (option json)) body ws d r :
  t = spaces (2 * i) ++ c :: body -> punctuation c = Some tk ->
  tk <> JSON_OBJ_END -> tk <> JSON_ARR_END -> tk <> JSON_EOF ->
  (forall fuel, value (S fuel) tk = (inc ;;; parse fuel)) ->
  forallb is_ws ws = true ->
  (forall fuel, (length (body ++ d :: r) < fuel)%nat ->
     runs (parse fuel) (body ++ d :: r) (Some j) (d :: r)) ->
  reads_text j t ws d r.
Proof.
  intros -> C N1 N2 N3 V W K. exists tk, (c :: body ++ d :: r).
  rewrite <- app_assoc in *. cbn [app] in *. rewrite !length_app in *. cbn [length] in *.
  rewrite !length_app in *. cbn [length] in *. split.
  { rewrite app_assoc. apply runs_getToken_char; [|done]. apply ws_app; [done|apply spaces_ws]. }
  do 3 (split; [done|]). split; [lia|]. intros [|fuel] L; [lia|]. rewrite V. runs_step.
  apply K. rewrite ?length_app. cbn [length]. lia.
Qed.

Lemma runs_first_member i m r :
  runs getToken (LF :: spaces (2 * i) ++ bytes "  " ++ member_text i m ++ r) JSON_STR
    ([] ++ member_text i m ++ r).
Proof.
  unfold member_text, strToStr. rewrite <- !app_assoc, (app_assoc (spaces _)). cbn [app].
  apply (runs_getToken_char comments (LF :: spaces (2 * i) ++ bytes "  ") QUOTE); [|done].
  cbn. apply ws_app; [apply spaces_ws|done].
Qed.
Lemma reads_object l : Forall (fun m => proper m.1 /\ reads m.2) l -> in_order l -> reads (J_object l).
Proof.
  intros F O i ws d r W D. destruct l as [|x l _] using rev_ind.
  { eapply (reads_body _ _ i JSON_OBJ_STA "{"%byte (fun fuel => parse_object (value fuel))); try done;
      [apply toString_empty_object|]. intros fuel' _. cbn [app]. rewrite <- app_assoc. unfold parse_object.
    eapply runs_bind; [apply (runs_getToken_char comments (LF :: spaces (2 * i)) "}"%byte (d :: r));
      [cbn; apply spaces_ws|done]|]. rewrite bool_decide_eq_true_2 by done. runs_step. runs_step. }
  eapply (reads_body _ _ i JSON_OBJ_STA "{"%byte (fun fuel => parse_object (value fuel))); try done;
    [apply toString_object|].
  intros fuel' L'. rewrite items_items in *. cbn [app] in *. rewrite <- !app_assoc in *. cbn [app] in *.
  unfold parse_object. eapply runs_bind.
  - instantiate (2 := JSON_STR).
    instantiate (1 := items_from [] (spaces (2 * i) ++ bytes "  ") (map (member_text i) l)
      (member_text i x) ++ spaces (2 * i) ++ "}"%byte :: d :: r).
    destruct l as [|m l]; cbn [map items_from]; rewrite <- !app_assoc; apply runs_first_member.
  - cbn match. rewrite bool_decide_eq_false_2 by done. apply runs_loop.
    apply (rounds_object fuel' i l x (d :: r) []); [done..|].
    cbn [length] in L'. rewrite !length_app in *. destruct l; cbn [map items_from app length] in *;
      rewrite !length_app in *; cbn [length] in *; rewrite ?length_app in *; lia.
Qed.

Lemma reads_array l : Forall reads l -> reads (J_array l).
Proof.
  intros F i ws d r W D. destruct l as [|x l _] using rev_ind.
  { eapply (reads_body _ _ i JSON_ARR_STA "["%byte (fun fuel => parse_array (value fuel))); try done;
      [apply toString_empty_array|]. intros fuel' _. cbn [app]. rewrite <- app_assoc. unfold parse_array.
    eapply runs_bind; [apply (runs_getToken_char comments (LF :: spaces (2 * i)) "]"%byte (d :: r));
      [cbn; apply spaces_ws|done]|]. rewrite bool_decide_eq_true_2 by done. runs_step. runs_step. }
  eapply (reads_body _ _ i JSON_ARR_STA "["%byte (fun fuel => parse_array (value fuel))); try done;
    [apply toString_array|].
  intros fuel' L'. rewrite items_items in *. cbn [app] in *. rewrite <- !app_assoc in *. cbn [app] in *.
  destruct (rounds_array fuel' i l x (d :: r) [] (LF :: spaces (2 * i) ++ bytes "  "))
    as (tk & l1 & T & N & _ & R); [cbn; apply ws_app; [apply spaces_ws|done]|done| |].
  { cbn [length] in L'. rewrite !length_app in *. destruct l; cbn [map items_from app length] in *;
      rewrite !length_app in *; cbn [length] in *; rewrite ?length_app in *; lia. }
  unfold parse_array. eapply runs_bind; [|rewrite bool_decide_eq_false_2 by exact N; by apply runs_loop].
  destruct l; exact T.
Qed.

Lemma wf_reads j : wf_json j -> reads j.
Proof.
  unfold wf_json.
  induction j as [s|v dot e|b| |l IH|l IH] using json_ind; intros W; inversion W as [? Ps|? ? ? Pn| | |? F O|? F]; subst.
  - by apply reads_json_string.
  - by apply reads_number.
  - destruct b; [apply (reads_word _ "t"%byte (bytes "rue") JSON_TRUE)|
      apply (reads_word _ "f"%byte (bytes "alse") JSON_FALSE)]; done.
  - by apply (reads_word _ "n"%byte (bytes "ull") JSON_NULL).
  - apply reads_object; [|done]. rewrite Forall_forall in *. intros m Hm. destruct (F m Hm). auto.
  - apply reads_array. rewrite Forall_forall in *. auto.
Qed.
End Read.

Lemma toString_cons i j : wf_json j -> exists c t, toString i j = c :: t /\ c <> xef.
Proof.
  intros W. destruct j.
  - by exists QUOTE, (match strToStr_loop 0 val with Some l => l | None => val end ++ [QUOTE]).
  - inversion W as [|? ? ? (n & (Wi & _) & -> & _)| | | |]; subst. cbn [toString]. unfold number_text.
    destruct (nb_neg n); [by eexists "-"%byte, _|]. cbn [minus app].
    destruct Wi as [-> |Wi]; [by eexists _, _|]. destruct (nb_int n) as [|c ds]; [done|].
    destruct Wi as [Dc _]. eexists _, _. split; [done|]. by intros ->.
  - destruct valBool; by eexists _, _.
  - by eexists _, _.
  - destruct members as [|x l _] using rev_ind; [rewrite toString_empty_object|rewrite toString_object]; destruct i; by eexists _, _.
  - destruct elements as [|x l _] using rev_ind; [rewrite toString_empty_array|rewrite toString_array]; destruct i; by eexists _, _.
Qed.

Lemma skipBOM_other c t : c <> xef -> skipBOM (c :: t) = c :: t.
Proof. intros N. unfold skipBOM. by destruct c. Qed.

Lemma parseBuffer_toString main i j comments :
  wf_json j -> parseBuffer main (toString i j) comments = Some (true, Some j).
Proof.
  intros W. destruct (toString_cons i j W) as (c & t & E & N).
  unfold parseBuffer, parser_init. rewrite E at 1.
  assert (skipBOM (toString i j ++ [NUL]) = toString i j ++ [NUL]) as ->
    by (rewrite E; by apply skipBOM_other).
  change (mk_jsonParser (toString i j ++ [NUL]) 0 comments tt) with (st comments (toString i j ++ [NUL]) 0).
  assert (runs comments (paresJson main) (toString i j ++ [NUL]) (true, Some j) [NUL]) as R;
    [|destruct (R 0) as [n ->]; done].
  unfold paresJson.
  destruct (wf_reads comments j W i [] NUL [] eq_refl eq_refl)
    as (tk & l1 & T & _ & _ & Ne & L & V). cbn [app] in T.
  eapply runs_bind; [exact T|]. rewrite bool_decide_eq_false_2 by done.
  eapply runs_bind; [intros n; apply (V (S (length l1))); lia|]. cbn match.
  eapply runs_bind; [by apply (runs_getToken_eof comments [])|].
  rewrite bool_decide_eq_true_2 by done. runs_step.
Qed.

(** C21: A JSON value of proper strings, numbers of the grammar and members in the
    order of their keys, at any depth, is printed by [toString] with any
    indentation to a text that [parseBuffer] reads as the same value, with and
    without comments. *)
Theorem json_roundtrip main i j comments :
  wf_json j -> parseBuffer main (toString i j) comments = Some (true, Some j).
Proof. apply parseBuffer_toString. Qed.

Definition sample_number : number :=
  mk_number true (bytes "12") (Some (bytes "05")) (Some ("e"%byte, true, bytes "7")).
Definition sample_value : json :=
  J_object [(bytes "a", J_array [J_number (number_text sample_number) 3 6; J_null; J_object []]);
            (bytes "b", J_string (utf8 0x1f600 ++ [QUOTE]))].

Lemma sample_value_wf : wf_json sample_value.
Proof.
  assert (proper (bytes "a") /\ proper (bytes "b") /\ proper (utf8 0x1f600 ++ [QUOTE])) as (Pa & Pb & Ps).
  { repeat split; [exists [97]|exists [98]|exists [0x1f600; 34]];
      (split; [repeat constructor; unfold scalar; lia|by vm_compute]). }
  assert (num_ok (number_text sample_number) 3 6) as N.
  { exists sample_number. split; [|by vm_compute].
    split; [right; by vm_compute|]. split; [by vm_compute|]. split; [|by vm_compute].
    split; [by left|by vm_compute]. }
  constructor; [|repeat constructor]. repeat constructor; done.
Qed.

Lemma json_roundtrip_witness :
  parseBuffer None (toString 1 sample_value) false = Some (true, Some sample_value).
Proof. apply (json_roundtrip None 1 sample_value false). apply sample_value_wf. Defined.
