(* ===== verification/JsonType.v ===== *)
(** * JsonType.v: what the JSON parser stores

    The values that [parseBuffer] and [parseFile] store: their strings are built
    of a first octet and the octets that it announces, the numbers of a string
    are of the grammar of numbers, the members of an object are in the order of
    their keys.  A text in ASCII gives proper strings, so its value is printed
    and parsed again to itself. *)

From S2P Require Import Prelude CStr Cfg Json JsonVal JsonSafe JsonRound JsonNum JsonFacts.

#[local] Open Scope json_scope.

(** ** Strings *)

Lemma escape_ascii c e : escape c = Some e -> scalar (b2z e) /\ [e] = utf8 (b2z e).
Proof. intros E. destruct c; try done; injection E as <-; split; try done; left; cbn; lia. Qed.

Section Strings.
Context `{ReaderLaws X}.
Implicit Types p : jsonParser X.

(** A property of octets that codes keep, and that [checkUTF8] keeps. *)
Context (Q : list byte -> Prop) (Q_nil : Q []).
Context (Q_code : forall l v, Q l -> scalar v -> Q (l ++ utf8 v)).
Context (Q_check : forall ret p, Q ret -> inside p -> ready p ->
  wp (checkUTF8 ret) (fun r p' => forall l, r = Some l -> Q l) p).

Definition str_ok (s : str) : Prop := Q (s_ret s) /\ 0 <= W1 s < 1024.

Lemma uVal_ok s v s' : str_ok s -> 0 <= v < 65536 -> uVal s v = Some s' -> str_ok s'.
Proof.
  intros [Qs W] V. unfold uVal. destruct (useSur s).
  - destruct (_ || _) eqn:R; [done|]. intros [= <-]. split; [|done]. cbn [s_ret]. apply Q_code; [done|].
    right. rewrite (land_ones _ 10), Z.shiftl_mul_pow2 by done.
    rewrite lor_add by (try lia; apply Z.mod_pos_bound; lia).
    pose proof (Z.mod_pos_bound (v - 0xdc00) (2 ^ 10) ltac:(lia)). change (2 ^ 10) with 1024 in *.
    rewrite uwrap_small; unfold uint; lia.
  - destruct (_ || _) eqn:R.
    { intros [= <-]. split; [|done]. apply Q_code; [done|]. unfold scalar. lia. }
    destruct (v <? 0xdc00); [|done]. intros [= <-]. split; [done|]. cbn [W1].
    rewrite (land_ones _ 10) by done. apply Z.mod_pos_bound. lia.
Qed.

(** Two facts about a program that returns. *)
Lemma wp_and {A} (m : P X A) (R S : A -> jsonParser X -> Prop) p :
  wp m R p -> wp m S p -> wp m (fun a p' => R a p' /\ S a p') p.
Proof. intros (a & q & E & Ha) (b & q' & E' & Hb). exists a, q. rewrite E in E'. by simplify_eq. Qed.

Lemma wp_uToVal_range p : inside p ->
  wp uToVal (fun r p' => upto (chars p) p' /\ forall v, r = Some v -> 0 <= v < 65536) p.
Proof.
  intros G. apply (wp_loop (fun _ => upto (chars p))); [by split|].
  intros hex q [G1 L1]. wp_auto. split; [by wp_leaf|]. intros v. case_bool_decide; [|done].
  intros [= <-]. by apply (uint_uwrap 16).
Qed.

Lemma wp_str_round_ok s p : inside p -> str_ok s ->
  wp (str_round s) (fun r p' => upto (chars p) p' /\
    match r with
    | inl s => (chars p' < chars p)%nat /\ str_ok s
    | inr r => forall l, r = Some l -> Q l
    end) p.
Proof.
  intros G S. pose proof S as [Qs W]. unfold str_round. wp_auto.
  - wp_leaf. congruence.
  - destruct (escape_ascii _ _ Heqo) as [Sc E]. wp_leaf. cbn. rewrite E. auto.
  - unfold uProc. wp_step. wp_call wp_uToVal_range. wp_step. destruct a as [v|]; cbn; [|wp_auto].
    destruct (uVal s v) eqn:U; wp_auto.
    assert (str_ok s0) as [] by (eapply uVal_ok; eauto). by wp_leaf.
  - eapply wp_mono; [apply wp_and; [apply wp_checkUTF8|apply Q_check]; auto; not_end|].
    cbv beta. unfold upto. intros a q ((? & ?) & K). wp_auto.
Qed.
Lemma wp_getStr_ok p : ready p ->
  wp getStr (fun r p' => (inside p' /\ (chars p' < chars p)%nat) /\ forall s, r = Some s -> Q s) p.
Proof.
  intros R. unfold getStr. wp_step. wp_step.
  eapply wp_mono; [apply (wp_loop (fun s q => upto (chars p') q /\ str_ok s) _
    (fun r q => upto (chars p') q /\ forall s, r = Some s -> Q s))|].
  - split; [by split|]. by split.
  - intros s q [[G1 L1] S]. wp_call wp_str_round_ok. case_match; unfold str_ok in *; by wp_leaf.
  - intros r q [[G1 L1] S]. by wp_leaf.
Qed.
End Strings.

(** ** Strings of marked octets *)

(** A first octet and as many octets of continuation as it announces. *)
Definition cont_octets : list byte -> Prop := Forall (fun c => 0x80 <= b2z c < 0xc0).
Definition marked_code (t : list byte) : Prop :=
  exists c cs, t = c :: cs /\ ~ (0x80 <= b2z c < 0xc0) /\ length cs = utf8_extra (b2z c) /\
    cont_octets cs.
Definition marked (s : list byte) : Prop :=
  exists parts, Forall marked_code parts /\ s = concat parts.

Lemma marked_app l t : marked l -> marked_code t -> marked (l ++ t).
Proof.
  intros (parts & F & ->) T. exists (parts ++ [t]). split; [apply Forall_app; auto|].
  by rewrite concat_app, concat_cons, app_nil_r.
Qed.
Lemma utf8_extra_of a k lo hi n :
  b2z a = k -> lo <= k < hi -> (hi <= 0x80 \/ 0xc0 <= lo) ->
  utf8_extra lo = n -> utf8_extra (hi - 1) = n ->
  (hi <= 0xc0 \/ (0xc0 <= lo /\ hi <= 0xe0) \/ (0xe0 <= lo /\ hi <= 0xf0) \/ 0xf0 <= lo) ->
  ~ (0x80 <= b2z a < 0xc0) /\ n = utf8_extra (b2z a).
Proof.
  intros -> R M A B I. split; [lia|]. unfold utf8_extra in *.
  destruct (Z.leb_spec 0xc0 lo), (Z.leb_spec 0xe0 lo), (Z.leb_spec 0xf0 lo),
    (Z.leb_spec 0xc0 k), (Z.leb_spec 0xe0 k), (Z.leb_spec 0xf0 k); lia.
Qed.
Lemma marked_utf8 v : scalar v -> marked_code (utf8 v).
Proof.
  intros S. pose proof (utf8_octets v S) as O. unfold scalar in S.
  destruct (Z.ltb_spec v 0x80); [|destruct (Z.ltb_spec v 0x800); [|destruct (Z.ltb_spec v 0x10000)]].
  - destruct (utf8 v) as [|c [|]]; try done. injection O as Ec. exists c, []. split; [done|].
    destruct (utf8_extra_of c _ 0 0x80 0%nat Ec) as [? X]; try done; [lia..|].
    by repeat constructor.
  - destruct (utf8 v) as [|c [|c1 [|]]]; try done. injection O as Ec E1. exists c, [c1]. split; [done|].
    destruct (utf8_extra_of c _ 0xc0 0xe0 1%nat Ec) as [? X]; try done; [dlia|lia..|].
    repeat split; try done. repeat constructor; rewrite ?E1; dlia.
  - destruct (utf8 v) as [|c [|c1 [|c2 [|]]]]; try done. injection O as Ec E1 E2.
    exists c, [c1; c2]. split; [done|].
    destruct (utf8_extra_of c _ 0xe0 0xf0 2%nat Ec) as [? X]; try done; [dlia|lia..|].
    repeat split; try done. repeat constructor; rewrite ?E1, ?E2; dlia.
  - destruct (utf8 v) as [|c [|c1 [|c2 [|c3 [|]]]]]; try done. injection O as Ec E1 E2 E3.
    exists c, [c1; c2; c3]. split; [done|].
    destruct (utf8_extra_of c _ 0xf0 0xf8 3%nat Ec) as [? X]; try done; [dlia|lia..|].
    repeat split; try done. repeat constructor; rewrite ?E1, ?E2, ?E3; dlia.
Qed.

Section Marked.
Context `{ReaderLaws X}.
Implicit Types p : jsonParser X.

Lemma utf8_rest_marked e : forall ret p l p', utf8_rest e ret p = Some (Some l, p') ->
  exists cs, l = ret ++ cs /\ length cs = e /\ cont_octets cs.
Proof.
  induction e as [|e IH]; intros ret p l p' E; cbn [utf8_rest] in E.
  { injection E as <- _. exists []. rewrite app_nil_r. by repeat constructor. }
  destruct (cur p) as [|c r] eqn:C; unfold pbind in E; unfold chr in E at 1; rewrite C in E; [done|].
  destruct (isEOF p) as [[b q]|] eqn:I; [|done].
  destruct (_ || _) eqn:G; [done|]. apply orb_false_elim in G as [G G2].
  apply orb_false_elim in G as [-> G1].
  rewrite (isEOF_char p c r C) in I by (intros ->; cbn in G1; lia). simplify_eq.
  unfold next, pbind, chr, inc, pret in E. rewrite C in E. cbn beta iota in E. rewrite C in E.
  apply IH in E as (cs & -> & <- & F). exists (c :: cs). rewrite <- app_assoc. repeat split.
  constructor; [lia|done].
Qed.
Lemma checkUTF8_marked ret p : marked ret -> inside p -> ready p ->
  wp (checkUTF8 ret) (fun r _ => forall l, r = Some l -> marked l) p.
Proof.
  intros M I R. destruct (wp_checkUTF8 ret p R I) as (r & q & E & _). exists r, q.
  split; [exact E|]. intros l ->. unfold checkUTF8, next, pbind, chr, inc, pret in E.
  destruct (cur p) as [|c rest] eqn:C; [done|]. destruct (_ && _) eqn:B; [done|].
  cbn beta iota in E. rewrite C in E. cbn beta iota in E. rewrite C in E.
  apply utf8_rest_marked in E as (cs & -> & L & F). rewrite <- app_assoc. apply marked_app; [done|].
  exists c, cs. repeat split; try done. lia.
Qed.
Lemma wp_getStr_marked p : ready p ->
  wp getStr (fun r p' => (inside p' /\ (chars p' < chars p)%nat) /\
                         forall s, r = Some s -> marked s) p.
Proof.
  apply wp_getStr_ok.
  - exists []. by repeat constructor.
  - intros l v M S. apply marked_app; [done|by apply marked_utf8].
  - apply checkUTF8_marked.
Qed.
End Marked.

(** ** Numbers of a string *)

Lemma wp_getNum_ok (L : ReaderLaws unit) (p : jsonParser unit) : inside p -> (chars p < Z.to_nat (2 ^ 64 - 2))%nat ->
  wp getNum (fun r p' => upto (chars p) p' /\ forall v d e, r = Some (v, d, e) -> num_ok v d e) p.
Proof.
  intros I B. destruct (wp_getNum p I) as (r & q & E & U). exists r, q. split; [done|].
  split; [done|]. intros v d e ->. apply (getNum_string p v d e q E).
  change (chars p) with (length (cur p)) in B. unfold len. lia.
Qed.

Lemma parser_init_chars c r comments p : parser_init (c :: r) comments = Some p ->
  (chars p <= length (c :: r) + 1)%nat.
Proof.
  intros [= <-]. change (length (skipBOM ((c :: r) ++ [NUL])) <= length (c :: r) + 1)%nat.
  etransitivity; [apply skipBOM_length|]. by rewrite length_app.
Qed.

(** The value of a string, for a predicate on strings that [getStr] grants. *)
Lemma parseBuffer_shape (L : ReaderLaws unit) (strok : list byte -> Prop) main buffer comments j :
  (forall p : jsonParser unit, ready p -> wp getStr (fun r p' =>
     (inside p' /\ (chars p' < chars p)%nat) /\ forall s, r = Some s -> strok s) p) ->
  (forall p : jsonParser unit, parser_init buffer comments = Some p -> inside p) ->
  len buffer < 2 ^ 64 - 3 -> parseBuffer main buffer comments = Some (true, j) ->
  j = main \/ exists v, j = Some v /\ shape strok num_ok v.
Proof.
  intros S I B E. unfold parseBuffer in E. destruct buffer as [|c r]; [done|].
  pose proof (fun p => parser_init_chars c r comments p) as C.
  destruct (parser_init (c :: r) comments) as [p|]; [|done]. specialize (I p eq_refl).
  specialize (C p eq_refl).
  destruct (wp_paresJson strok num_ok (Z.to_nat (2 ^ 64 - 2)) (fun p R _ => S p R)
    (wp_getNum_ok L) main p I) as (res & q & E' & K); [unfold len in B; lia|].
  rewrite E' in E. injection E as ->. by apply K.
Qed.

(** What [parseBuffer] stores from any text of less than 2^64 - 3 characters
    is well formed at every depth: strings and keys are sequences of a first octet
    and the octets of continuation that it announces, numbers are of the grammar
    of JSON numbers with the positions of their dot and their exponent, and the
    members of an object are in the order of their keys. *)
Theorem parsed_type main buffer comments j :
  len buffer < 2 ^ 64 - 3 -> parseBuffer main buffer comments = Some (true, Some j) ->
  main = Some j \/ shape marked num_ok j.
Proof.
  intros B E. destruct (parseBuffer_shape string_laws marked main buffer comments (Some j))
    as [H|(v & [= ->] & H)]; auto.
  - intros p. apply wp_getStr_marked.
  - intros p. apply parser_init_inside.
Qed.

(** ** Text in ASCII *)

Definition ascii : list byte -> Prop := Forall (fun c => b2z c < 0x80).

#[local, program] Instance ascii_laws : ReaderLaws unit := {
  good l _ := last l = Some NUL /\ ascii l
}.
Next Obligation. intros. by apply (chars_same (ReaderLaws := string_laws)). Qed.
Next Obligation. intros p c r. by apply (chars_inc (ReaderLaws := string_laws)). Qed.
Next Obligation. intros p c r. by apply (isEOF_char (ReaderLaws := string_laws)). Qed.
Next Obligation.
  intros l [] [G F]. destruct (good_chr (ReaderLaws := string_laws) l tt G) as (c & r & -> & K).
  exists c, r. split; [done|]. intros N. split; [by apply K|]. by inversion_clear F.
Qed.
Next Obligation.
  intros p [G F]. destruct (good_isEOF (ReaderLaws := string_laws) p G) as (b & q & E & G' & L & K).
  assert (q = p) as -> by
    (unfold isEOF in E; cbn in E; unfold pbind, chr, pret in E; destruct (cur p); by simplify_eq).
  exists b, p. split; [done|]. split; [done|]. split; [done|]. intros B.
  destruct (K B) as (c & r & C & Gr). exists c, r. split; [done|]. split; [done|].
  rewrite C in F. by inversion_clear F.
Qed.

Lemma proper_app l v : proper l -> scalar v -> proper (l ++ utf8 v).
Proof.
  intros (codes & F & ->) S. exists (codes ++ [v]). split; [apply Forall_app; auto|].
  rewrite map_app, concat_app. cbn. by rewrite app_nil_r.
Qed.
Lemma checkUTF8_ascii ret (p : jsonParser unit) :
  proper ret -> inside (X := unit) p -> ready p ->
  wp (checkUTF8 ret) (fun r _ => forall l, r = Some l -> proper l) p.
Proof.
  intros Pr [G F] R. unfold checkUTF8, wp, next, pbind, chr, inc, pret.
  destruct (cur p) as [|c r] eqn:C; [done|]. inversion_clear F as [|?? Fc Fr].
  pose proof (b2z_range c) as Bc. assert ((0x80 <=? b2z c) && (b2z c <? 0xc0) = false) as -> by lia.
  assert (utf8_extra (b2z c) = 0%nat) as -> by (unfold utf8_extra; destruct (Z.leb_spec 0xc0 (b2z c)); lia).
  cbn beta iota. rewrite C. cbn beta iota. rewrite C. eexists _, _. split; [reflexivity|].
  intros l [= <-]. assert (scalar (b2z c)) as S by (left; lia).
  destruct (utf8_low (b2z c) S ltac:(lia)) as [U _]. rewrite z2b_b2z in U. rewrite <- U.
  by apply proper_app.
Qed.

Lemma skipBOM_ascii l : ascii l -> skipBOM l = l.
Proof.
  intros F. destruct l as [|c r]; [done|]. inversion_clear F as [|?? Fc _].
  apply skipBOM_other. intros ->. cbn in Fc. lia.
Qed.

(** A text in ASCII that [parseBuffer] accepts gives a value whose text is
    accepted too, with the same value, whatever the indentation: printing a
    parsed value and parsing it again changes nothing. *)
Theorem parse_print_parse buffer comments i comments' main j :
  ascii buffer -> len buffer < 2 ^ 64 - 3 ->
  parseBuffer None buffer comments = Some (true, Some j) ->
  parseBuffer main (toString i j) comments' = Some (true, Some j).
Proof.
  intros A B E. apply parseBuffer_toString.
  destruct (parseBuffer_shape ascii_laws proper None buffer comments (Some j)) as [H|(v & [= ->] & H)]; auto.
  - intros p. apply wp_getStr_ok; [by exists []|apply proper_app|apply checkUTF8_ascii].
  - intros p Ip. assert (good (ReaderLaws := string_laws) (cur p) tt) as G by (by apply parser_init_inside in Ip).
    split; [exact G|]. destruct buffer as [|c r]; [done|].
    assert (cur p = skipBOM ((c :: r) ++ [NUL])) as -> by (by injection Ip as <-).
    assert (ascii ((c :: r) ++ [NUL])) as F by (apply Forall_app; split; [done|by repeat constructor]).
    by rewrite skipBOM_ascii.
  - done.
Qed.

(** A text with white space, a plus sign, a key twice and an escape. *)
Definition sample_text : list byte :=
  bytes "{ " ++ [QUOTE] ++ bytes "b" ++ [QUOTE] ++ bytes " : [1, 2.50e+3, -0],"
  ++ [LF; QUOTE] ++ bytes "a" ++ [QUOTE] ++ bytes ":true ,"
  ++ [QUOTE] ++ bytes "a" ++ [QUOTE] ++ bytes ":" ++ [QUOTE] ++ bytes "\uD83D\uDE00" ++ [QUOTE] ++ bytes "}".
Definition sample_parsed : json :=
  J_object [(bytes "a", J_boolean true); (bytes "a", J_string (utf8 0x1f600));
            (bytes "b", J_array [J_number (bytes "1") 0 0; J_number (bytes "2.50e3") 1 4;
                                 J_number (bytes "-0") 0 0])].

Lemma parsed_type_witness :
  parseBuffer None sample_text false = Some (true, Some sample_parsed) /\
  (None = Some sample_parsed \/ shape marked num_ok sample_parsed).
Proof.
  assert (parseBuffer None sample_text false = Some (true, Some sample_parsed)) as E by (by vm_compute).
  split; [exact E|]. apply (parsed_type None sample_text false sample_parsed); [by vm_compute|exact E].
Defined.
Lemma parse_print_parse_witness :
  parseBuffer None (toString 0 sample_parsed) true = Some (true, Some sample_parsed).
Proof.
  apply (parse_print_parse sample_text false 0 true None sample_parsed).
  - unfold ascii. apply (bool_decide_eq_true_1 (Forall _ _)). by vm_compute.
  - by vm_compute.
  - by vm_compute.
Defined.

(** ** Where the parser and the grammar part *)

(** A keyword after the brace of an object is read and dropped: [getToken] is
    called once to look for the end and again for the first key. *)
Lemma keyword_before_key :
  parseBuffer None (bytes "{true " ++ [QUOTE] ++ bytes "b" ++ [QUOTE] ++ bytes ":1}") false =
    Some (true, Some (J_object [(bytes "b", J_number (bytes "1") 0 0)])).
Proof. by vm_compute. Qed.

(** Signs of an exponent can be repeated, since plus signs are not counted. *)
Lemma repeated_signs :
  parseBuffer None (bytes "1e++5") false = Some (true, Some (J_number (bytes "1e5") 0 1)) /\
  parseBuffer None (bytes "1e+-5") false = Some (true, Some (J_number (bytes "1e-5") 0 1)).
Proof. split; by vm_compute. Qed.

(** An exponent cannot begin with a zero. *)
Lemma zero_exponent main :
  parseBuffer main (bytes "1e0") false = Some (false, main) /\
  parseBuffer main (bytes "1e05") false = Some (false, main).
Proof. split; by vm_compute. Qed.

(** A comment of a file whose end is the first thing of a line does not end
    there; in a string it does. *)
Definition comment_text : list byte := bytes "/* c" ++ [LF] ++ bytes "*/ 1" ++ [LF].
Lemma comment_of_file main :
  parseFile main (Some comment_text) true = Some (false, main) /\
  parseBuffer main comment_text true = Some (true, Some (J_number (bytes "1") 0 0)).
Proof. split; by vm_compute. Qed.

(** Octets that only look like UTF-8 are stored, and printed without escapes, so
    that a quote ends the printed string. *)
Definition loose_string : list byte := [xff; x80; x80; x80; QUOTE].
Lemma loose_string_text main :
  parseBuffer main ([QUOTE; xff; x80; x80; x80; "\"%byte; QUOTE; QUOTE]) false =
    Some (true, Some (J_string loose_string)) /\
  toString 0 (J_string loose_string) = QUOTE :: loose_string ++ [QUOTE] /\
  parseBuffer main (toString 0 (J_string loose_string)) false = Some (false, main).
Proof. split; [|split]; by vm_compute. Qed.
