(* ===== verification/JsonFile.v ===== *)
(** * JsonFile.v: a file is parsed as its text

    [parseFile] and [parseBuffer] run the same methods on two readers.  A
    simulation relates a file, of which the array holds one line, with the string
    of its whole text: without comments, a file whose lines fit in the array gives
    the result of its text. *)

From S2P Require Import Prelude CStr Cfg Json JsonSafe.

#[local] Open Scope json_scope.

(** ** The two positions *)

Definition no_nul : list byte -> Prop := Forall (fun c => c <> NUL).

(** Every line but the last one ends with LF. *)
Fixpoint whole_lines (ls : list (list byte)) : Prop :=
  match ls with
  | l :: (_ :: _) as ls' => last l = Some LF /\ whole_lines ls'
  | _ => True
  end.
Definition lines_ok (ls : list (list byte)) : Prop :=
  whole_lines ls /\ Forall (fun l => l <> [] /\ no_nul l) ls.

(** The rest of the line is [a], and the lines to come are [ls]. *)
Inductive near_at (a : list byte) (ls : list (list byte)) : jsonParser file -> jsonParser unit -> Prop :=
| near_intro junk n n' b : no_nul a -> lines_ok ls -> (ls <> [] -> a = [] \/ last a = Some LF) ->
    near_at a ls (mk_jsonParser (a ++ NUL :: junk) n false (mk_file b ls))
                 (mk_jsonParser (a ++ concat ls ++ [NUL]) n' false tt).
Definition near (p : jsonParser file) (q : jsonParser unit) : Prop := exists a ls, near_at a ls p q.
(** Both are at the character [c], which is NUL at the end only. *)
Definition at_ (c : byte) (p : jsonParser file) (q : jsonParser unit) : Prop :=
  exists a ls, near_at a ls p q /\
    match a with [] => ls = [] /\ c = NUL | d :: _ => c = d end.

Lemma at_near c p q : at_ c p q -> near p q.
Proof. intros (a & ls & N & _). by exists a, ls. Qed.

(** ** Programs that return the same *)

Definition sim {A} (m : P file A) (m' : P unit A) (Q : A -> jsonParser file -> jsonParser unit -> Prop)
    (p : jsonParser file) (q : jsonParser unit) : Prop :=
  forall a p' b q', m p = Some (a, p') -> m' q = Some (b, q') -> a = b /\ Q a p' q'.

Section Rules.
Implicit Types (p : jsonParser file) (q : jsonParser unit).

Lemma sim_ret {A} (a : A) (Q : A -> _ -> _ -> Prop) p q : Q a p q -> sim (pret a) (pret a) Q p q.
Proof. intros H a' p' b q' [= <- <-] [= <- <-]. done. Qed.
Lemma sim_bind {A B} (m : P file A) (k : A -> P file B) m' k' Q p q :
  sim m m' (fun a => sim (k a) (k' a) Q) p q -> sim (pbind m k) (pbind m' k') Q p q.
Proof.
  intros M b p2 b' q2 E E'. unfold pbind in *. destruct (m p) as [[a p1]|] eqn:E1; [|done].
  destruct (m' q) as [[a' q1]|] eqn:E2; [|done]. destruct (M _ _ _ _ E1 E2) as [<- K]. by apply K.
Qed.
Lemma sim_mono {A} (m : P file A) m' (Q R : A -> _ -> _ -> Prop) p q :
  sim m m' Q p q -> (forall a p' q', Q a p' q' -> R a p' q') -> sim m m' R p q.
Proof. intros M I a p' b q' E E'. destruct (M _ _ _ _ E E'). auto. Qed.
Lemma sim_iter {V A} (I : V -> jsonParser file -> jsonParser unit -> Prop)
    (f : V -> P file (V + A)) (f' : V -> P unit (V + A)) Q :
  (forall v p q, I v p q ->
     sim (f v) (f' v) (fun r p' q' => match r with inl v => I v p' q' | inr a => Q a p' q' end) p q) ->
  forall n n' v p q, I v p q -> sim (iter n f v) (iter n' f' v) Q p q.
Proof.
  intros B n. induction n as [|n IH]; intros [|n'] v p q H a p' b q' E E'; try done.
  cbn [iter] in *. revert E E'. apply sim_bind. eapply sim_mono; [by apply B|].
  intros [v'|a'] p1 q1 K; [by apply IH|by apply sim_ret].
Qed.
Lemma sim_loop {V A} (I : V -> jsonParser file -> jsonParser unit -> Prop)
    (f : V -> P file (V + A)) (f' : V -> P unit (V + A)) Q v p q :
  I v p q ->
  (forall v p q, I v p q ->
     sim (f v) (f' v) (fun r p' q' => match r with inl v => I v p' q' | inr a => Q a p' q' end) p q) ->
  sim (loop f v) (loop f' v) Q p q.
Proof. intros H B. by apply (sim_iter I). Qed.

Lemma sim_chr c (Q : byte -> _ -> _ -> Prop) p q : at_ c p q -> Q c p q -> sim chr chr Q p q.
Proof.
  intros (a & ls & [junk n n' b F L E] & Hc) K a' p' b' q'. unfold chr; cbn [cur].
  destruct a as [|d a]; [destruct Hc as [-> ->]|subst d]; cbn; intros [= <- <-] [= <- <-]; done.
Qed.
Lemma sim_inc c (Q : unit -> _ -> _ -> Prop) p q : at_ c p q -> c <> NUL ->
  (forall p' q', near p' q' -> (c <> LF -> exists d, at_ d p' q') -> Q tt p' q') ->
  sim inc inc Q p q.
Proof.
  intros (a & ls & [junk n n' b F L E] & Hc) N K a' p' b' q'. unfold inc; cbn [cur].
  destruct a as [|d a]; [by destruct Hc|subst d]. cbn. intros [= <- <-] [= <- <-]. split; [done|].
  inversion_clear F as [|?? _ Fa].
  assert (ls <> [] -> a = [] \/ last a = Some LF) as E'.
  { intros Ls. destruct (E Ls) as [|E1]; [done|]. destruct a; [by left|by right]. }
  assert (near_at a ls (set_cur (a ++ NUL :: junk) (mk_jsonParser (c :: a ++ NUL :: junk) n false (mk_file b ls)))
    (set_cur (a ++ concat ls ++ [NUL]) (mk_jsonParser (c :: a ++ concat ls ++ [NUL]) n' false tt))) as Na
    by (by constructor).
  apply K; [by exists a, ls|]. intros NL. destruct a as [|d a]; [|by exists d, (d :: a), ls].
  destruct ls as [|l ls]; [by exists NUL, [], []|]. destruct (E ltac:(done)) as [|E1]; [done|].
  cbn in E1. congruence.
Qed.
Lemma sim_next c (Q : byte -> _ -> _ -> Prop) p q : at_ c p q -> c <> NUL ->
  (forall p' q', near p' q' -> (c <> LF -> exists d, at_ d p' q') -> Q c p' q') ->
  sim next next Q p q.
Proof.
  intros A N K. apply sim_bind. apply (sim_chr c); [done|]. apply sim_bind.
  apply (sim_inc c); [done..|]. intros. apply sim_ret. auto.
Qed.
Lemma sim_newline c (Q : unit -> _ -> _ -> Prop) p q : at_ c p q ->
  (forall p' q', at_ c p' q' -> Q tt p' q') -> sim newline newline Q p q.
Proof.
  intros (a & ls & [junk n n' b F L E] & Hc) K a' p' b' q' [= <- <-] [= <- <-]. split; [done|].
  apply K. exists a, ls. split; [by constructor|done].
Qed.
Lemma sim_comments (Q : bool -> _ -> _ -> Prop) p q : near p q -> Q false p q ->
  sim ask_comments ask_comments Q p q.
Proof. intros (a & ls & [junk n n' b F L E]) K a' p' b' q' [= <- <-] [= <- <-]. done. Qed.

Lemma lines_ok_tail l ls : lines_ok (l :: ls) ->
  l <> [] /\ no_nul l /\ lines_ok ls /\ (ls <> [] -> l = [] \/ last l = Some LF).
Proof.
  intros [W F]. inversion_clear F as [|?? [Ne N] F']. split; [done|]. split; [done|].
  destruct ls; [by repeat split|]. destruct W as [La W]. split; [by split|]. intros _. by right.
Qed.
Lemma sim_isEOF (Q : bool -> _ -> _ -> Prop) p q : near p q ->
  (forall c p' q', at_ c p' q' -> Q (eqc c NUL) p' q') -> sim isEOF isEOF Q p q.
Proof.
  intros (a & ls & Na) K a' p' b' q' E1 E2. pose proof Na as Na'.
  destruct Na' as [junk n n' b F L E].
  assert (forall d a1, no_nul (d :: a1) -> eqc d NUL = false) as Nn.
  { intros d a1 G. inversion_clear G. unfold eqc. by rewrite bool_decide_eq_false_2. }
  destruct a as [|d a].
  - rewrite (file_isEOF _ NUL junk) in E1 by done. cbn [f_lines self] in E1.
    change (eqc NUL NUL) with true in E1. cbn match in E1. destruct ls as [|l ls]; simplify_eq.
    + cbn in E2. injection E2 as <- <-. split; [done|]. change true with (eqc NUL NUL).
      apply (K NUL). by exists [], [].
    + destruct (lines_ok_tail _ _ L) as (Ne & Nl & L' & E'). destruct l as [|d l]; [done|].
      cbn in E2. injection E2 as <- <-. rewrite (Nn d l Nl). split; [done|].
      specialize (K d). rewrite (Nn d l Nl) in K. apply K. exists (d :: l), ls. split; [|done].
      unfold loaded, store_line. cbn [buf self lineNum useComments].
      replace (d :: (l ++ concat ls) ++ [NUL]) with ((d :: l) ++ concat ls ++ [NUL])
        by (cbn; by rewrite <- app_assoc). by constructor.
  - rewrite (file_isEOF _ d (a ++ NUL :: junk)), (Nn d a F) in E1 by done. cbn in E2.
    injection E1 as <- <-. injection E2 as <- <-. rewrite (Nn d a F). split; [done|]. specialize (K d).
    rewrite (Nn d a F) in K. apply K. by exists (d :: a), ls.
Qed.
Lemma sim_isEOF_at c (Q : bool -> _ -> _ -> Prop) p q : at_ c p q -> Q (eqc c NUL) p q ->
  sim isEOF isEOF Q p q.
Proof.
  intros (a & ls & [junk n n' b F L E] & Hc) K a' p' b' q' E1 E2. destruct a as [|d a].
  - destruct Hc as [-> ->]. injection E1 as <- <-. injection E2 as <- <-. done.
  - subst d. inversion_clear F as [|?? Nc _].
    assert (eqc c NUL = false) as Ec by (unfold eqc; by rewrite bool_decide_eq_false_2).
    rewrite (file_isEOF _ c (a ++ NUL :: junk)), Ec in E1 by done. injection E1 as <- <-.
    injection E2 as <- <-. by rewrite Ec in *.
Qed.
End Rules.

(** The character is neither of the constants that the tests exclude. *)
Ltac not_char := let E := fresh in intros E; rewrite E in *; discriminate.
Ltac sim_step :=
  lazymatch goal with
  | |- sim (pbind _ _) _ _ _ _ => apply sim_bind
  | |- sim (pret _) _ _ _ _ => apply sim_ret
  | |- sim (continue _) _ _ _ _ => apply sim_ret
  | |- sim (break _) _ _ _ _ => apply sim_ret
  | |- sim ask_comments _ _ _ _ => apply sim_comments; [eauto using at_near|]
  | |- sim chr _ _ _ _ => eapply sim_chr; [eassumption|]
  | |- sim inc _ _ _ _ => eapply sim_inc; [eassumption|first [assumption|not_char]|intros ? ? ? ?]
  | |- sim closeTk _ _ _ _ => eapply sim_inc; [eassumption|first [assumption|not_char]|intros ? ? ? ?]
  | |- sim next _ _ _ _ => eapply sim_next; [eassumption|first [assumption|not_char]|intros ? ? ? ?]
  | |- sim newline _ _ _ _ => eapply sim_newline; [eassumption|intros ? ? ?]
  | H : at_ _ ?p ?q |- sim isEOF _ _ ?p ?q => eapply sim_isEOF_at; [exact H|]
  | |- sim isEOF _ _ _ _ => apply sim_isEOF; [eauto using at_near|intros ? ? ? ?]
  | |- sim (if ?b then _ else _) _ _ _ _ => destruct b eqn:?
  | |- sim (match ?x with _ => _ end) _ _ _ _ => destruct x eqn:?
  end.
Tactic Notation "sim_auto" := repeat (sim_step; try done); eauto using at_near.
Tactic Notation "sim_auto" "using" constr(L) := repeat (sim_step; try done); eauto using at_near, L.
(** After a character that does not end a line. *)
Ltac at_next :=
  match goal with
  | H : _ <> LF -> exists d, at_ d ?p ?q |- sim _ _ _ ?p ?q => destruct H as [? ?]; [not_char|]
  end.
Ltac sim_call L := eapply sim_mono; [eapply L; eauto using at_near|cbv beta; intros].

Section Methods.
Implicit Types (p : jsonParser file) (q : jsonParser unit).

Lemma sim_skip_ws p q : near p q ->
  sim skip_ws skip_ws (fun b p' q' => exists c, at_ c p' q' /\ b = eqc c NUL) p q.
Proof.
  intros N. apply (sim_loop (fun _ => near)); [done|]. intros [] p1 q1 N1. sim_auto.
Qed.
Lemma key_token_char key : at_char (key_token key) = false.
Proof. unfold key_token. by repeat case_match. Qed.
Lemma sim_getKey p q : near p q -> sim getKey getKey (fun tk p' q' => near p' q' /\ at_char tk = false) p q.
Proof.
  intros N. apply (sim_loop (fun _ => near)); [done|]. intros key p1 q1 N1.
  sim_auto using key_token_char.
Qed.
(** The position of a token. *)
Definition token_at (tk : e_token) p q : Prop :=
  near p q /\ (at_char tk = true -> exists c, at_ c p q /\ c <> NUL).
Lemma token_near tk p q : near p q -> at_char tk = false -> token_at tk p q.
Proof. intros N T. split; [done|congruence]. Qed.
Lemma token_char tk c p q : at_ c p q -> c <> NUL -> token_at tk p q.
Proof. intros A N. split; [by eapply at_near|eauto]. Qed.
Lemma sim_getToken p q : near p q -> sim getToken getToken token_at p q.
Proof.
  intros N. apply (sim_loop (fun _ => near)); [done|]. intros [] p1 q1 N1.
  sim_step. sim_call sim_skip_ws. destruct H as (c & A & ->). sim_step.
  { sim_step. by apply token_near; [eauto using at_near|]. }
  assert (c <> NUL) as Nc by not_char. sim_auto using token_char.
  sim_call sim_getKey. destruct H. sim_step. by apply token_near.
Qed.

Lemma sim_uToVal c p q : at_ c p q -> sim uToVal uToVal (fun _ => near) p q.
Proof.
  intros A. apply (sim_loop (fun _ p q => exists c, at_ c p q)); [eauto|].
  intros hex p1 q1 [c1 A1]. sim_auto.
  apply H0. not_char.
Qed.
Lemma sim_uProc s c p q : at_ c p q -> sim (uProc s) (uProc s) (fun _ => near) p q.
Proof. intros A. unfold uProc. sim_step. sim_call sim_uToVal. sim_auto. Qed.
Lemma sim_utf8_rest e : forall ret p q, near p q -> (e <> 0%nat -> exists c, at_ c p q) ->
  sim (utf8_rest e ret) (utf8_rest e ret) (fun _ => near) p q.
Proof.
  induction e as [|e IH]; intros ret p q N A; cbn [utf8_rest]; [sim_auto|].
  destruct (A ltac:(done)) as [c Ac]. sim_auto.
  apply IH; [done|]. intros _. apply H0. not_char.
Qed.
Lemma sim_checkUTF8 ret c p q : at_ c p q -> c <> NUL ->
  sim (checkUTF8 ret) (checkUTF8 ret) (fun _ => near) p q.
Proof.
  intros A N. unfold checkUTF8. sim_auto. apply sim_utf8_rest; [done|].
  intros E. apply H0. intros ->. by apply E.
Qed.
Lemma sim_getStr p q : token_at JSON_STR p q -> sim getStr getStr (fun _ => near) p q.
Proof.
  intros [_ A]. destruct (A eq_refl) as (c & Ac & Nc). unfold getStr. sim_step. sim_step. apply (sim_loop (fun _ => near)); [done|].
  intros s p1 q1 N1. unfold str_round. sim_auto.
  - at_next. sim_call sim_uProc. sim_auto.
  - sim_call sim_checkUTF8; [not_char|]. sim_auto.
Qed.
Lemma sim_num_loop n p q : near p q -> sim (loop num_round n) (loop num_round n) (fun _ => near) p q.
Proof.
  intros N. apply (sim_loop (fun _ => near)); [done|]. intros m p1 q1 N1. unfold num_round. sim_auto.
Qed.
Lemma sim_getNum p q : near p q -> sim getNum getNum (fun _ => near) p q.
Proof. intros N. unfold getNum. cbv zeta. sim_auto using sim_num_loop. Qed.
End Methods.

Section Values.
Implicit Types (p : jsonParser file) (q : jsonParser unit).

(** What nested values promise. *)
Definition sim_value (v : e_token -> P file (option json)) (v' : e_token -> P unit (option json)) : Prop :=
  forall tk p q, token_at tk p q -> sim (v tk) (v' tk) (fun _ => near) p q.

Lemma sim_closeTk tk p q : token_at tk p q -> at_char tk = true ->
  sim closeTk closeTk (fun _ => near) p q.
Proof. intros [N A] T. destruct (A T) as (c & Ac & Nc). sim_auto. Qed.

Lemma sim_loop_near {V A} (f : V -> P file (V + A)) (f' : V -> P unit (V + A)) v p q :
  near p q -> (forall v p q, near p q -> sim (f v) (f' v) (fun _ => near) p q) ->
  sim (loop f v) (loop f' v) (fun _ => near) p q.
Proof.
  intros N B. apply (sim_loop (fun _ => near)); [done|]. intros. eapply sim_mono; [by apply B|].
  by intros [].
Qed.
Lemma token_at_near tk p q : token_at tk p q -> near p q.
Proof. by intros [? _]. Qed.
Hint Resolve token_at_near : core.

Lemma sim_object_round v v' m p q : sim_value v v' -> near p q ->
  sim (object_round v m) (object_round v' m) (fun _ => near) p q.
Proof.
  intros V N. unfold object_round. sim_step. sim_call sim_getToken. sim_step; [sim_auto|].
  apply negb_false_iff, bool_decide_eq_true in Heqb. subst a.
  sim_step. sim_call sim_getStr. sim_step; [|sim_auto]. sim_step. sim_call sim_getToken.
  sim_step; [sim_auto|]. apply negb_false_iff, bool_decide_eq_true in Heqb. subst.
  sim_step. sim_call (sim_closeTk JSON_NAM_SEP). sim_step. sim_call sim_getToken.
  sim_step. sim_call V. sim_step; [|sim_auto]. cbv zeta. sim_step. sim_call sim_getToken.
  sim_step; try by sim_auto.
  - sim_step. sim_call (sim_closeTk JSON_OBJ_END). sim_auto.
  - sim_step. sim_call (sim_closeTk JSON_VAL_SEP). sim_auto.
Qed.
Lemma sim_parse_object v v' p q : sim_value v v' -> near p q ->
  sim (parse_object v) (parse_object v') (fun _ => near) p q.
Proof.
  intros V N. unfold parse_object. sim_step. sim_call sim_getToken. sim_step.
  - apply bool_decide_eq_true in Heqb. subst. sim_step. sim_call (sim_closeTk JSON_OBJ_END). sim_auto.
  - apply sim_loop_near; [eauto|]. intros. by apply sim_object_round.
Qed.
Lemma sim_array_round v v' tk l p q : sim_value v v' -> token_at tk p q ->
  sim (array_round v (tk, l)) (array_round v' (tk, l)) (fun r p' q' => match r with
    | inl s => token_at s.1 p' q' | inr _ => near p' q' end) p q.
Proof.
  intros V T. unfold array_round. sim_step. sim_call V. sim_step; [|sim_auto]. cbv zeta.
  sim_step. sim_call sim_getToken. sim_step; try by sim_auto.
  - sim_step. sim_call (sim_closeTk JSON_ARR_END). sim_auto.
  - sim_step. sim_call (sim_closeTk JSON_VAL_SEP). sim_step. sim_call sim_getToken. sim_auto.
Qed.
Lemma sim_parse_array v v' p q : sim_value v v' -> near p q ->
  sim (parse_array v) (parse_array v') (fun _ => near) p q.
Proof.
  intros V N. unfold parse_array. sim_step. sim_call sim_getToken. sim_step.
  - apply bool_decide_eq_true in Heqb. subst. sim_step. sim_call (sim_closeTk JSON_ARR_END). sim_auto.
  - apply (sim_loop (fun s => token_at s.1)); [done|]. intros [tk l] p1 q1 T. by apply sim_array_round.
Qed.

Lemma sim_value_value n : forall n', sim_value (value n) (value n').
Proof.
  induction n as [|n IH]; intros [|n'] tk p q T; try (intros ? ? ? ? E E'; done).
  destruct tk; cbn [value]; try by sim_auto.
  - sim_step. sim_call (sim_closeTk JSON_OBJ_STA). by apply sim_parse_object.
  - sim_step. sim_call (sim_closeTk JSON_ARR_STA). by apply sim_parse_array.
  - sim_step. sim_call sim_getStr. sim_auto.
  - sim_step. sim_call sim_getNum. sim_auto.
Qed.
Lemma sim_paresJson main p q : near p q -> sim (paresJson main) (paresJson main) (fun _ => near) p q.
Proof.
  intros N. unfold paresJson. sim_step. sim_call sim_getToken. sim_step; [sim_auto|].
  sim_step. eapply sim_mono; [intros ? ? ? ?; by apply sim_value_value|]. intros m p1 q1 N1.
  sim_step; [|sim_auto]. sim_step. sim_call sim_getToken. sim_auto.
Qed.
End Values.

(** ** From the beginning *)

Lemma skipBOM_spec l : skipBOM l = if bool_decide (take 3 l = [xef; xbb; xbf]) then drop 3 l else l.
Proof.
  destruct l as [|a [|b [|c r]]]; [done|by destruct a|destruct a; try done; by destruct b|].
  destruct a; try done; destruct b; try done; by destruct c.
Qed.
(** The mark is in the first line or it is not there. *)
Definition without_bom (l : list byte) : list byte :=
  if bool_decide (take 3 l = [xef; xbb; xbf]) then drop 3 l else l.
Lemma skipBOM_line l c x : c = NUL \/ last l = Some LF ->
  skipBOM (l ++ c :: x) = without_bom l ++ c :: x.
Proof.
  intros C. rewrite skipBOM_spec. unfold without_bom. destruct l as [|a1 [|a2 [|a3 r]]].
  - destruct C as [->|C]; [|done]. by rewrite !bool_decide_eq_false_2.
  - rewrite !bool_decide_eq_false_2; [done|done|]. cbn. destruct C as [->|[= ->]]; [by destruct x|done].
  - rewrite !bool_decide_eq_false_2; [done|done|]. cbn. by destruct C as [->|[= ->]].
  - change (take 3 ((a1 :: a2 :: a3 :: r) ++ c :: x)) with [a1; a2; a3].
    change (take 3 (a1 :: a2 :: a3 :: r)) with [a1; a2; a3]. by case_bool_decide.
Qed.
Lemma without_bom_line l : no_nul l -> (last l = Some LF -> without_bom l = [] \/ last (without_bom l) = Some LF) /\
  no_nul (without_bom l).
Proof.
  intros N. unfold without_bom. case_bool_decide as E; [|split; [by right|done]].
  split; [|by apply Forall_drop]. destruct l as [|a1 [|a2 [|a3 [|a4 r]]]]; try done; [by left|].
  intros La. right. exact La.
Qed.

Lemma lines_nonempty f : Forall (fun l => l <> []) (lines f).
Proof.
  unfold lines. generalize (length f) as n. intros n. revert f.
  induction n as [|n IH]; intros [|c f]; try by constructor.
  cbn [lines_fuel]. destruct (fgets (lineSize - 1) (c :: f)) as [l r] eqn:E. constructor; [|apply IH].
  destruct (fgets_len _ _ _ _ E) as (_ & H2 & H3).
  intros ->. cbn in H2. subst r. specialize (H3 ltac:(done) ltac:(done)). lia.
Qed.

Lemma near_start content l ls b : lines content = l :: ls -> no_nul content -> whole_lines (l :: ls) ->
  near (mk_jsonParser (skipBOM (store_line l b)) 0 false (mk_file (store_line l b) ls))
       (mk_jsonParser (skipBOM (content ++ [NUL])) 0 false tt).
Proof.
  intros E N W. destruct (lines_spec content) as [C _]. pose proof (lines_nonempty content) as Ne.
  rewrite E in C, Ne. rewrite <- C in *. unfold no_nul in N. apply Forall_app in N as [Nl Ns].
  inversion_clear Ne as [|?? _ Ne'].
  assert (lines_ok ls) as L.
  { split; [by destruct ls; [|destruct W]|]. apply Forall_forall. intros x Hx.
    rewrite Forall_forall in Ne'. split; [by apply Ne'|]. rewrite Forall_concat in Ns.
    rewrite Forall_forall in Ns. by apply Ns. }
  assert (ls = [] \/ last l = Some LF) as D by (destruct ls; [by left|right; apply W]).
  destruct (without_bom_line l Nl) as [Wl Wn]. exists (without_bom l), ls.
  unfold store_line. rewrite skipBOM_line by (by left).
  replace (skipBOM (concat (l :: ls) ++ [NUL])) with (without_bom l ++ concat ls ++ [NUL]).
  - constructor; [done..|]. intros Ls. destruct D; [done|auto].
  - cbn [concat]. rewrite <- app_assoc. destruct (concat ls ++ [NUL]) as [|c x] eqn:Ex; [by destruct (concat ls)|].
    symmetry. apply skipBOM_line. destruct D as [->|D]; [left; by injection Ex|by right].
Qed.

(** Without comments, a file without NUL characters whose lines fit in the
    array of the parser gives what its text gives as a string: the same values,
    the same refusals. *)
Theorem file_as_buffer main content :
  no_nul content -> whole_lines (lines content) ->
  parseFile main (Some content) false = parseBuffer main content false.
Proof.
  intros N W. destruct content as [|c0 r0]; [done|]. set (content := c0 :: r0) in *.
  unfold parseFile, parseBuffer, parser_open. destruct (lines content) as [|l ls] eqn:E.
  { destruct (lines_spec content) as [C _]. by rewrite E in C. }
  pose proof (near_start content l ls (repeat NUL lineSize) E N W) as S.
  set (p := mk_jsonParser _ _ _ (mk_file _ _)) in *. unfold parser_init, content. fold content.
  set (q := mk_jsonParser _ _ _ tt) in *.
  destruct (wp_total main p) as (a & p' & Ea); [by apply (parser_open_inside (Some content) false); unfold parser_open; rewrite E|].
  destruct (wp_total main q) as (b & q' & Eb); [by apply (parser_init_inside content false)|].
  rewrite Ea, Eb. cbn. by destruct (sim_paresJson main p q S _ _ _ _ Ea Eb) as [-> _].
Qed.

(** The string of a file: two lines with an object. *)
Definition two_lines : list byte :=
  bytes "{ " ++ [QUOTE] ++ bytes "b" ++ [QUOTE] ++ bytes " :" ++ [LF] ++ bytes " 1 }".
Lemma file_as_buffer_witness :
  parseFile None (Some two_lines) false = parseBuffer None two_lines false /\
  parseBuffer None two_lines false = Some (true, Some (J_object [(bytes "b", J_number (bytes "1") 0 0)])).
Proof.
  split; [|by vm_compute]. apply (file_as_buffer None two_lines).
  - unfold no_nul. apply (bool_decide_eq_true_1 (Forall _ _)). by vm_compute.
  - by vm_compute.
Defined.

(** An escape across two pieces of a long line is refused: the digits are checked
    before the next piece is loaded. *)
Definition long_line : list byte :=
  repeat " "%byte 507 ++ [QUOTE] ++ bytes "\u0041" ++ [QUOTE].
Lemma escape_of_long_line main :
  parseFile main (Some long_line) false = Some (false, main) /\
  parseBuffer main long_line false = Some (true, Some (J_string (bytes "A"))).
Proof. split; by vm_compute. Qed.
