(* ===== verification/CTlvs.v ===== *)
(** * CTlvs.v: the C structures of the management TLVs

    The C interface has a structure of its own for each management TLV
    (generated, as the C++ one, from [src/src/mngTlvs.m4] and
    [src/src/types.m4]), and [src/src/mngTlvs.cpp] converts between the two: an
    [_c1] function from C++ to C and a [_c2] function from C to C++ per TLV,
    [cpp2cMngTlv] and [c2cppMngTlv] for the dispatch on the id.

    A C structure that has only integers, enumerators and fixed arrays has the
    fields of the C++ one and is modelled by the same record; one with a pointer
    has a record of its own.  A C enumerator is a C [int]: a conversion to the
    C++ enumeration wraps to its width.  [None] is an access through a pointer
    that may not be used: null, never set, of another structure, or to fewer
    elements than are read.  Memory is never exhausted, and the [x] table that
    [_c1] allocates and the strings of the C++ structure it points to live as
    long as the C structure is used. *)

From S2P Require Import Prelude Types Ids MsgProc Codec Structs MngTlvs.

(** ** Pointers *)

(** A pointer member of a C structure: not set, null, or the address of
    elements that can be read. *)
Inductive c_ptr (A : Type) :=
| P_unset
| P_null
| P_to (l : list A).
Arguments P_unset {A}.
Arguments P_null {A}.
Arguments P_to {A} l.

(** [memcpy] of the first [n] elements of an array. *)
Definition memcpy {A} (n : Z) (l : list A) : list A := take (Z.to_nat n) l.
Definition memcpy_ClockIdentity (d : ClockIdentity_t) : ClockIdentity_t :=
  mk_ClockIdentity (memcpy ClockIdentity_size (ci_v d)).

(** The first [n] elements behind a pointer that is not null. *)
Definition read_n {A} (n : Z) (l : list A) : option (list A) :=
  if n <=? len l then Some (take (Z.to_nat n) l) else None.

(** [for(i = 0; i < n; i++)] over a table of the C structure. *)
Definition c_table {A} (n : Z) (p : c_ptr A) : option (list A) :=
  if n <=? 0 then Some []
  else match p with P_to l => read_n n l | _ => None end.

(** [C1_tbl]: the table of [n] elements; [None] is the error [e], set when the
    count is not the size of the vector; a table of no element is not set. *)
Definition C1_tbl {A B} (f : A -> B) (n : Z) (l : list A) : option (c_ptr B) :=
  if negb (n =? len l) then None
  else if n =? 0 then Some P_unset
  else Some (P_to (map f l)).

(** ** Structures *)

Record C_PTPText := mk_C_PTPText {
  c_lengthField : Z;
  c_textField : c_ptr byte
}.
Record C_PortAddress := mk_C_PortAddress {
  c_networkProtocol : Z;
  c_addressLength : Z;
  c_addressField : c_ptr byte
}.
Record C_FaultRecord := mk_C_FaultRecord {
  c_faultRecordLength : Z;
  c_faultTime : Timestamp_t;
  c_severityCode : Z;
  c_faultName : C_PTPText;
  c_faultValue : C_PTPText;
  c_faultDescription : C_PTPText
}.
Record C_LinuxptpUnicastMaster := mk_C_LinuxptpUnicastMaster {
  c_lum_portIdentity : PortIdentity_t;
  c_lum_clockQuality : ClockQuality_t;
  c_lum_selected : Z;
  c_lum_portState : Z;
  c_lum_priority1 : Z;
  c_lum_priority2 : Z;
  c_lum_portAddress : C_PortAddress
}.

(** The conversions [c_st] of the basic structures. *)

(** The text of the C structure is the [c_str()] of the C++ string, with its
    terminating octet. *)
Definition c1_st_PTPText (d : PTPText_t) : C_PTPText :=
  let sz := len (textField d) in
  mk_C_PTPText (Z.min sz 255)
    (if 0 <? sz then P_to (textField d ++ [x00]) else P_null).
Definition c2_st_PTPText (d : C_PTPText) : option PTPText_t :=
  match c_textField d with
  | P_unset => None
  | P_null => Some (mk_PTPText 0 [])
  | P_to s =>
      let l := c_lengthField d in
      if 0 <? l then (fun t => mk_PTPText l t) <$> read_n l s
      else Some (mk_PTPText l [])
  end.

Definition c1_st_Binary (d : list byte) : Z * c_ptr byte :=
  let n := uwrap 16 (len d) in
  (n, if 0 <? n then P_to d else P_null).
Definition c2_st_Binary (m : Z) (d : c_ptr byte) : option (Z * list byte) :=
  match d with
  | P_unset => None
  | P_null => Some (0, [])
  | P_to s => if 0 <? m then (fun b => (m, b)) <$> read_n m s else Some (m, [])
  end.

Definition c1_st_PortAddress (d : PortAddress_t) : C_PortAddress :=
  let (n, p) := c1_st_Binary (addressField d) in
  mk_C_PortAddress (networkProtocol d) n p.
Definition c2_st_PortAddress (d : C_PortAddress) : option PortAddress_t :=
  match c2_st_Binary (c_addressLength d) (c_addressField d) with
  | None => None
  | Some (n, b) => Some (mk_PortAddress (uwrap 16 (c_networkProtocol d)) n b)
  end.

Definition c1_st_ClockQuality (d : ClockQuality_t) : ClockQuality_t :=
  mk_ClockQuality (clockClass d) (clockAccuracy d) (offsetScaledLogVariance d).
Definition c2_st_ClockQuality (d : ClockQuality_t) : ClockQuality_t :=
  mk_ClockQuality (clockClass d) (uwrap 8 (clockAccuracy d)) (offsetScaledLogVariance d).

Definition c1_st_PortIdentity (d : PortIdentity_t) : PortIdentity_t :=
  mk_PortIdentity (memcpy_ClockIdentity (clockIdentity d)) (portNumber d).
Definition c2_st_PortIdentity (d : PortIdentity_t) : PortIdentity_t :=
  mk_PortIdentity (memcpy_ClockIdentity (clockIdentity d)) (portNumber d).

(** The elements of the tables. *)

Definition c1_FaultRecord (f : FaultRecord_t) : C_FaultRecord :=
  mk_C_FaultRecord (faultRecordLength f)
    (mk_Timestamp (secondsField (faultTime f)) (nanosecondsField (faultTime f)))
    (severityCode f) (c1_st_PTPText (faultName f)) (c1_st_PTPText (faultValue f))
    (c1_st_PTPText (faultDescription f)).
Definition c2_FaultRecord (f : C_FaultRecord) : option FaultRecord_t :=
  name ← c2_st_PTPText (c_faultName f);
  value ← c2_st_PTPText (c_faultValue f);
  description ← c2_st_PTPText (c_faultDescription f);
  Some (mk_FaultRecord (c_faultRecordLength f)
    (mk_Timestamp (secondsField (c_faultTime f)) (nanosecondsField (c_faultTime f)))
    (uwrap 8 (c_severityCode f)) name value description).

Definition c1_AcceptableMaster (f : AcceptableMaster_t) : AcceptableMaster_t :=
  mk_AcceptableMaster (c1_st_PortIdentity (acceptablePortIdentity f)) (alternatePriority1 f).
Definition c2_AcceptableMaster (f : AcceptableMaster_t) : AcceptableMaster_t :=
  mk_AcceptableMaster (c2_st_PortIdentity (acceptablePortIdentity f)) (alternatePriority1 f).

Definition c1_LinuxptpUnicastMaster (f : LinuxptpUnicastMaster_t) : C_LinuxptpUnicastMaster :=
  mk_C_LinuxptpUnicastMaster (c1_st_PortIdentity (lum_portIdentity f))
    (c1_st_ClockQuality (lum_clockQuality f)) (lum_selected f) (lum_portState f)
    (lum_priority1 f) (lum_priority2 f) (c1_st_PortAddress (lum_portAddress f)).
Definition c2_LinuxptpUnicastMaster (f : C_LinuxptpUnicastMaster)
    : option LinuxptpUnicastMaster_t :=
  address ← c2_st_PortAddress (c_lum_portAddress f);
  Some (mk_LinuxptpUnicastMaster (c2_st_PortIdentity (c_lum_portIdentity f))
    (c2_st_ClockQuality (c_lum_clockQuality f)) (c_lum_selected f)
    (uwrap 8 (c_lum_portState f)) (c_lum_priority1 f) (c_lum_priority2 f) address).

(** ** Structures with a pointer *)

Record C_CLOCK_DESCRIPTION := mk_C_CLOCK_DESCRIPTION {
  c_cd_clockType : Z;
  c_cd_physicalLayerProtocol : C_PTPText;
  c_cd_physicalAddressLength : Z;
  c_cd_physicalAddress : c_ptr byte;
  c_cd_protocolAddress : C_PortAddress;
  c_cd_manufacturerIdentity : list byte;
  c_cd_productDescription : C_PTPText;
  c_cd_revisionData : C_PTPText;
  c_cd_userDescription : C_PTPText;
  c_cd_profileIdentity : list byte
}.
Definition CLOCK_DESCRIPTION_c1 (d : CLOCK_DESCRIPTION_t) : C_CLOCK_DESCRIPTION :=
  let (n, p) := c1_st_Binary (cd_physicalAddress d) in
  mk_C_CLOCK_DESCRIPTION (cd_clockType d) (c1_st_PTPText (cd_physicalLayerProtocol d)) n p
    (c1_st_PortAddress (cd_protocolAddress d)) (memcpy 3 (cd_manufacturerIdentity d))
    (c1_st_PTPText (cd_productDescription d)) (c1_st_PTPText (cd_revisionData d))
    (c1_st_PTPText (cd_userDescription d)) (memcpy 6 (cd_profileIdentity d)).
Definition CLOCK_DESCRIPTION_c2 (d : C_CLOCK_DESCRIPTION) : option CLOCK_DESCRIPTION_t :=
  layer ← c2_st_PTPText (c_cd_physicalLayerProtocol d);
  physical ← c2_st_Binary (c_cd_physicalAddressLength d) (c_cd_physicalAddress d);
  protocol ← c2_st_PortAddress (c_cd_protocolAddress d);
  product ← c2_st_PTPText (c_cd_productDescription d);
  revision ← c2_st_PTPText (c_cd_revisionData d);
  user ← c2_st_PTPText (c_cd_userDescription d);
  Some (mk_CLOCK_DESCRIPTION (c_cd_clockType d) layer physical.1 physical.2 protocol
    (memcpy 3 (c_cd_manufacturerIdentity d)) product revision user
    (memcpy 6 (c_cd_profileIdentity d))).

Record C_USER_DESCRIPTION := mk_C_USER_DESCRIPTION { c_ud_userDescription : C_PTPText }.
Definition USER_DESCRIPTION_c1 (d : USER_DESCRIPTION_t) : C_USER_DESCRIPTION :=
  mk_C_USER_DESCRIPTION (c1_st_PTPText (ud_userDescription d)).
Definition USER_DESCRIPTION_c2 (d : C_USER_DESCRIPTION) : option USER_DESCRIPTION_t :=
  mk_USER_DESCRIPTION <$> c2_st_PTPText (c_ud_userDescription d).

Record C_FAULT_LOG := mk_C_FAULT_LOG {
  c_fl_numberOfFaultRecords : Z;
  c_fl_faultRecords : c_ptr C_FaultRecord
}.
Definition FAULT_LOG_c1 (d : FAULT_LOG_t) : option C_FAULT_LOG :=
  m ← C1_tbl c1_FaultRecord (fl_numberOfFaultRecords d) (fl_faultRecords d);
  Some (mk_C_FAULT_LOG (fl_numberOfFaultRecords d) m).
Definition FAULT_LOG_c2 (d : C_FAULT_LOG) : option FAULT_LOG_t :=
  l ← c_table (c_fl_numberOfFaultRecords d) (c_fl_faultRecords d);
  r ← mapM c2_FaultRecord l;
  Some (mk_FAULT_LOG (c_fl_numberOfFaultRecords d) r).

(** The list of the C structure ends with a zero identity; the loop of [_c2]
    has no other end. *)
Record C_PATH_TRACE_LIST := mk_C_PATH_TRACE_LIST {
  c_ptl_pathSequence : c_ptr ClockIdentity_t;
  c_ptl_actualTableSize : Z
}.
Definition zero_identity (v : ClockIdentity_t) : bool :=
  forallb (fun b => b2z b =? 0) (memcpy ClockIdentity_size (ci_v v)).
Definition PATH_TRACE_LIST_c1 (d : PATH_TRACE_LIST_t) : C_PATH_TRACE_LIST :=
  mk_C_PATH_TRACE_LIST (P_to (ptl_pathSequence d ++ [zero_ClockIdentity]))
    (len (ptl_pathSequence d)).
Fixpoint path_loop (l : list ClockIdentity_t) : option (list ClockIdentity_t) :=
  match l with
  | [] => None
  | v :: l =>
      if zero_identity v then Some []
      else (fun r => memcpy_ClockIdentity v :: r) <$> path_loop l
  end.
Definition PATH_TRACE_LIST_c2 (d : C_PATH_TRACE_LIST) : option PATH_TRACE_LIST_t :=
  match c_ptl_pathSequence d with
  | P_unset => None
  | P_null => Some (mk_PATH_TRACE_LIST [])
  | P_to l => mk_PATH_TRACE_LIST <$> path_loop l
  end.

Record C_GRANDMASTER_CLUSTER_TABLE := mk_C_GRANDMASTER_CLUSTER_TABLE {
  c_gct_logQueryInterval : Z;
  c_gct_actualTableSize : Z;
  c_gct_PortAddress : c_ptr C_PortAddress
}.
Definition GRANDMASTER_CLUSTER_TABLE_c1 (d : GRANDMASTER_CLUSTER_TABLE_t)
    : option C_GRANDMASTER_CLUSTER_TABLE :=
  m ← C1_tbl c1_st_PortAddress (gct_actualTableSize d) (gct_PortAddress d);
  Some (mk_C_GRANDMASTER_CLUSTER_TABLE (gct_logQueryInterval d) (gct_actualTableSize d) m).
Definition GRANDMASTER_CLUSTER_TABLE_c2 (d : C_GRANDMASTER_CLUSTER_TABLE)
    : option GRANDMASTER_CLUSTER_TABLE_t :=
  l ← c_table (c_gct_actualTableSize d) (c_gct_PortAddress d);
  r ← mapM c2_st_PortAddress l;
  Some (mk_GRANDMASTER_CLUSTER_TABLE (c_gct_logQueryInterval d) (c_gct_actualTableSize d) r).

Record C_UNICAST_MASTER_TABLE := mk_C_UNICAST_MASTER_TABLE {
  c_umt_logQueryInterval : Z;
  c_umt_actualTableSize : Z;
  c_umt_PortAddress : c_ptr C_PortAddress
}.
Definition UNICAST_MASTER_TABLE_c1 (d : UNICAST_MASTER_TABLE_t)
    : option C_UNICAST_MASTER_TABLE :=
  m ← C1_tbl c1_st_PortAddress (umt_actualTableSize d) (umt_PortAddress d);
  Some (mk_C_UNICAST_MASTER_TABLE (umt_logQueryInterval d) (umt_actualTableSize d) m).
Definition UNICAST_MASTER_TABLE_c2 (d : C_UNICAST_MASTER_TABLE)
    : option UNICAST_MASTER_TABLE_t :=
  l ← c_table (c_umt_actualTableSize d) (c_umt_PortAddress d);
  r ← mapM c2_st_PortAddress l;
  Some (mk_UNICAST_MASTER_TABLE (c_umt_logQueryInterval d) (c_umt_actualTableSize d) r).

Record C_ACCEPTABLE_MASTER_TABLE := mk_C_ACCEPTABLE_MASTER_TABLE {
  c_amt_actualTableSize : Z;
  c_amt_list : c_ptr AcceptableMaster_t
}.
Definition ACCEPTABLE_MASTER_TABLE_c1 (d : ACCEPTABLE_MASTER_TABLE_t)
    : option C_ACCEPTABLE_MASTER_TABLE :=
  m ← C1_tbl c1_AcceptableMaster (amt_actualTableSize d) (amt_list d);
  Some (mk_C_ACCEPTABLE_MASTER_TABLE (amt_actualTableSize d) m).
Definition ACCEPTABLE_MASTER_TABLE_c2 (d : C_ACCEPTABLE_MASTER_TABLE)
    : option ACCEPTABLE_MASTER_TABLE_t :=
  l ← c_table (c_amt_actualTableSize d) (c_amt_list d);
  Some (mk_ACCEPTABLE_MASTER_TABLE (c_amt_actualTableSize d) (map c2_AcceptableMaster l)).

Record C_ALTERNATE_TIME_OFFSET_NAME := mk_C_ALTERNATE_TIME_OFFSET_NAME {
  c_aton_keyField : Z;
  c_aton_displayName : C_PTPText
}.
Definition ALTERNATE_TIME_OFFSET_NAME_c1 (d : ALTERNATE_TIME_OFFSET_NAME_t)
    : C_ALTERNATE_TIME_OFFSET_NAME :=
  mk_C_ALTERNATE_TIME_OFFSET_NAME (aton_keyField d) (c1_st_PTPText (aton_displayName d)).
Definition ALTERNATE_TIME_OFFSET_NAME_c2 (d : C_ALTERNATE_TIME_OFFSET_NAME)
    : option ALTERNATE_TIME_OFFSET_NAME_t :=
  mk_ALTERNATE_TIME_OFFSET_NAME (c_aton_keyField d) <$> c2_st_PTPText (c_aton_displayName d).

Record C_PORT_PROPERTIES_NP := mk_C_PORT_PROPERTIES_NP {
  c_ppn_portIdentity : PortIdentity_t;
  c_ppn_portState : Z;
  c_ppn_timestamping : Z;
  c_ppn_interface : C_PTPText
}.
Definition PORT_PROPERTIES_NP_c1 (d : PORT_PROPERTIES_NP_t) : C_PORT_PROPERTIES_NP :=
  mk_C_PORT_PROPERTIES_NP (c1_st_PortIdentity (ppn_portIdentity d)) (ppn_portState d)
    (ppn_timestamping d) (c1_st_PTPText (ppn_interface d)).
Definition PORT_PROPERTIES_NP_c2 (d : C_PORT_PROPERTIES_NP) : option PORT_PROPERTIES_NP_t :=
  mk_PORT_PROPERTIES_NP (c2_st_PortIdentity (c_ppn_portIdentity d))
    (uwrap 8 (c_ppn_portState d)) (uwrap 8 (c_ppn_timestamping d))
    <$> c2_st_PTPText (c_ppn_interface d).

Record C_UNICAST_MASTER_TABLE_NP := mk_C_UNICAST_MASTER_TABLE_NP {
  c_umn_actualTableSize : Z;
  c_umn_unicastMasters : c_ptr C_LinuxptpUnicastMaster
}.
Definition UNICAST_MASTER_TABLE_NP_c1 (d : UNICAST_MASTER_TABLE_NP_t)
    : option C_UNICAST_MASTER_TABLE_NP :=
  m ← C1_tbl c1_LinuxptpUnicastMaster (umn_actualTableSize d) (umn_unicastMasters d);
  Some (mk_C_UNICAST_MASTER_TABLE_NP (umn_actualTableSize d) m).
Definition UNICAST_MASTER_TABLE_NP_c2 (d : C_UNICAST_MASTER_TABLE_NP)
    : option UNICAST_MASTER_TABLE_NP_t :=
  l ← c_table (c_umn_actualTableSize d) (c_umn_unicastMasters d);
  r ← mapM c2_LinuxptpUnicastMaster l;
  Some (mk_UNICAST_MASTER_TABLE_NP (c_umn_actualTableSize d) r).

(** ** Structures without a pointer *)

Definition MAX_MESSAGE_TYPES : Z := 16.

Definition INITIALIZE_c1 (d : INITIALIZE_t) : INITIALIZE_t :=
  mk_INITIALIZE (ini_initializationKey d).
Definition INITIALIZE_c2 (d : INITIALIZE_t) : INITIALIZE_t :=
  mk_INITIALIZE (ini_initializationKey d).
Definition DEFAULT_DATA_SET_c1 (d : DEFAULT_DATA_SET_t) : DEFAULT_DATA_SET_t :=
  mk_DEFAULT_DATA_SET (dds_flags d) (dds_numberPorts d) (dds_priority1 d)
    (c1_st_ClockQuality (dds_clockQuality d)) (dds_priority2 d)
    (memcpy_ClockIdentity (dds_clockIdentity d)) (dds_domainNumber d).
Definition DEFAULT_DATA_SET_c2 (d : DEFAULT_DATA_SET_t) : DEFAULT_DATA_SET_t :=
  mk_DEFAULT_DATA_SET (dds_flags d) (dds_numberPorts d) (dds_priority1 d)
    (c2_st_ClockQuality (dds_clockQuality d)) (dds_priority2 d)
    (memcpy_ClockIdentity (dds_clockIdentity d)) (dds_domainNumber d).
Definition CURRENT_DATA_SET_c1 (d : CURRENT_DATA_SET_t) : CURRENT_DATA_SET_t :=
  mk_CURRENT_DATA_SET (cds_stepsRemoved d)
    (mk_TimeInterval (scaledNanoseconds (cds_offsetFromMaster d)))
    (mk_TimeInterval (scaledNanoseconds (cds_meanPathDelay d))).
Definition CURRENT_DATA_SET_c2 (d : CURRENT_DATA_SET_t) : CURRENT_DATA_SET_t :=
  mk_CURRENT_DATA_SET (cds_stepsRemoved d)
    (mk_TimeInterval (scaledNanoseconds (cds_offsetFromMaster d)))
    (mk_TimeInterval (scaledNanoseconds (cds_meanPathDelay d))).
Definition PARENT_DATA_SET_c1 (d : PARENT_DATA_SET_t) : PARENT_DATA_SET_t :=
  mk_PARENT_DATA_SET (c1_st_PortIdentity (pds_parentPortIdentity d)) (pds_flags d)
    (pds_observedParentOffsetScaledLogVariance d) (pds_observedParentClockPhaseChangeRate d)
    (pds_grandmasterPriority1 d) (c1_st_ClockQuality (pds_grandmasterClockQuality d))
    (pds_grandmasterPriority2 d) (memcpy_ClockIdentity (pds_grandmasterIdentity d)).
Definition PARENT_DATA_SET_c2 (d : PARENT_DATA_SET_t) : PARENT_DATA_SET_t :=
  mk_PARENT_DATA_SET (c2_st_PortIdentity (pds_parentPortIdentity d)) (pds_flags d)
    (pds_observedParentOffsetScaledLogVariance d) (pds_observedParentClockPhaseChangeRate d)
    (pds_grandmasterPriority1 d) (c2_st_ClockQuality (pds_grandmasterClockQuality d))
    (pds_grandmasterPriority2 d) (memcpy_ClockIdentity (pds_grandmasterIdentity d)).
Definition TIME_PROPERTIES_DATA_SET_c1 (d : TIME_PROPERTIES_DATA_SET_t) : TIME_PROPERTIES_DATA_SET_t :=
  mk_TIME_PROPERTIES_DATA_SET (tpds_currentUtcOffset d) (tpds_flags d) (tpds_timeSource d).
Definition TIME_PROPERTIES_DATA_SET_c2 (d : TIME_PROPERTIES_DATA_SET_t) : TIME_PROPERTIES_DATA_SET_t :=
  mk_TIME_PROPERTIES_DATA_SET (tpds_currentUtcOffset d) (tpds_flags d)
    (uwrap 8 (tpds_timeSource d)).
Definition PORT_DATA_SET_c1 (d : PORT_DATA_SET_t) : PORT_DATA_SET_t :=
  mk_PORT_DATA_SET (c1_st_PortIdentity (ptds_portIdentity d)) (ptds_portState d)
    (ptds_logMinDelayReqInterval d)
    (mk_TimeInterval (scaledNanoseconds (ptds_peerMeanPathDelay d)))
    (ptds_logAnnounceInterval d) (ptds_announceReceiptTimeout d) (ptds_logSyncInterval d)
    (ptds_delayMechanism d) (ptds_logMinPdelayReqInterval d) (ptds_versionNumber d).
Definition PORT_DATA_SET_c2 (d : PORT_DATA_SET_t) : PORT_DATA_SET_t :=
  mk_PORT_DATA_SET (c2_st_PortIdentity (ptds_portIdentity d)) (uwrap 8 (ptds_portState d))
    (ptds_logMinDelayReqInterval d)
    (mk_TimeInterval (scaledNanoseconds (ptds_peerMeanPathDelay d)))
    (ptds_logAnnounceInterval d) (ptds_announceReceiptTimeout d) (ptds_logSyncInterval d)
    (uwrap 8 (ptds_delayMechanism d)) (ptds_logMinPdelayReqInterval d) (ptds_versionNumber d).
Definition PRIORITY1_c1 (d : PRIORITY1_t) : PRIORITY1_t :=
  mk_PRIORITY1 (pr1_priority1 d).
Definition PRIORITY1_c2 (d : PRIORITY1_t) : PRIORITY1_t :=
  mk_PRIORITY1 (pr1_priority1 d).
Definition PRIORITY2_c1 (d : PRIORITY2_t) : PRIORITY2_t :=
  mk_PRIORITY2 (pr2_priority2 d).
Definition PRIORITY2_c2 (d : PRIORITY2_t) : PRIORITY2_t :=
  mk_PRIORITY2 (pr2_priority2 d).
Definition DOMAIN_c1 (d : DOMAIN_t) : DOMAIN_t :=
  mk_DOMAIN (dom_domainNumber d).
Definition DOMAIN_c2 (d : DOMAIN_t) : DOMAIN_t :=
  mk_DOMAIN (dom_domainNumber d).
Definition SLAVE_ONLY_c1 (d : SLAVE_ONLY_t) : SLAVE_ONLY_t :=
  mk_SLAVE_ONLY (so_flags d).
Definition SLAVE_ONLY_c2 (d : SLAVE_ONLY_t) : SLAVE_ONLY_t :=
  mk_SLAVE_ONLY (so_flags d).
Definition LOG_ANNOUNCE_INTERVAL_c1 (d : LOG_ANNOUNCE_INTERVAL_t) : LOG_ANNOUNCE_INTERVAL_t :=
  mk_LOG_ANNOUNCE_INTERVAL (lai_logAnnounceInterval d).
Definition LOG_ANNOUNCE_INTERVAL_c2 (d : LOG_ANNOUNCE_INTERVAL_t) : LOG_ANNOUNCE_INTERVAL_t :=
  mk_LOG_ANNOUNCE_INTERVAL (lai_logAnnounceInterval d).
Definition ANNOUNCE_RECEIPT_TIMEOUT_c1 (d : ANNOUNCE_RECEIPT_TIMEOUT_t) : ANNOUNCE_RECEIPT_TIMEOUT_t :=
  mk_ANNOUNCE_RECEIPT_TIMEOUT (art_announceReceiptTimeout d).
Definition ANNOUNCE_RECEIPT_TIMEOUT_c2 (d : ANNOUNCE_RECEIPT_TIMEOUT_t) : ANNOUNCE_RECEIPT_TIMEOUT_t :=
  mk_ANNOUNCE_RECEIPT_TIMEOUT (art_announceReceiptTimeout d).
Definition LOG_SYNC_INTERVAL_c1 (d : LOG_SYNC_INTERVAL_t) : LOG_SYNC_INTERVAL_t :=
  mk_LOG_SYNC_INTERVAL (lsi_logSyncInterval d).
Definition LOG_SYNC_INTERVAL_c2 (d : LOG_SYNC_INTERVAL_t) : LOG_SYNC_INTERVAL_t :=
  mk_LOG_SYNC_INTERVAL (lsi_logSyncInterval d).
Definition VERSION_NUMBER_c1 (d : VERSION_NUMBER_t) : VERSION_NUMBER_t :=
  mk_VERSION_NUMBER (vn_versionNumber d).
Definition VERSION_NUMBER_c2 (d : VERSION_NUMBER_t) : VERSION_NUMBER_t :=
  mk_VERSION_NUMBER (vn_versionNumber d).
Definition TIME_c1 (d : TIME_t) : TIME_t :=
  mk_TIME
    (mk_Timestamp (secondsField (tm_currentTime d)) (nanosecondsField (tm_currentTime d))).
Definition TIME_c2 (d : TIME_t) : TIME_t :=
  mk_TIME
    (mk_Timestamp (secondsField (tm_currentTime d)) (nanosecondsField (tm_currentTime d))).
Definition CLOCK_ACCURACY_c1 (d : CLOCK_ACCURACY_t) : CLOCK_ACCURACY_t :=
  mk_CLOCK_ACCURACY (ca_clockAccuracy d).
Definition CLOCK_ACCURACY_c2 (d : CLOCK_ACCURACY_t) : CLOCK_ACCURACY_t :=
  mk_CLOCK_ACCURACY (uwrap 8 (ca_clockAccuracy d)).
Definition UTC_PROPERTIES_c1 (d : UTC_PROPERTIES_t) : UTC_PROPERTIES_t :=
  mk_UTC_PROPERTIES (up_currentUtcOffset d) (up_flags d).
Definition UTC_PROPERTIES_c2 (d : UTC_PROPERTIES_t) : UTC_PROPERTIES_t :=
  mk_UTC_PROPERTIES (up_currentUtcOffset d) (up_flags d).
Definition TRACEABILITY_PROPERTIES_c1 (d : TRACEABILITY_PROPERTIES_t) : TRACEABILITY_PROPERTIES_t :=
  mk_TRACEABILITY_PROPERTIES (trp_flags d).
Definition TRACEABILITY_PROPERTIES_c2 (d : TRACEABILITY_PROPERTIES_t) : TRACEABILITY_PROPERTIES_t :=
  mk_TRACEABILITY_PROPERTIES (trp_flags d).
Definition TIMESCALE_PROPERTIES_c1 (d : TIMESCALE_PROPERTIES_t) : TIMESCALE_PROPERTIES_t :=
  mk_TIMESCALE_PROPERTIES (tsp_flags d) (tsp_timeSource d).
Definition TIMESCALE_PROPERTIES_c2 (d : TIMESCALE_PROPERTIES_t) : TIMESCALE_PROPERTIES_t :=
  mk_TIMESCALE_PROPERTIES (tsp_flags d) (uwrap 8 (tsp_timeSource d)).
Definition UNICAST_NEGOTIATION_ENABLE_c1 (d : UNICAST_NEGOTIATION_ENABLE_t) : UNICAST_NEGOTIATION_ENABLE_t :=
  mk_UNICAST_NEGOTIATION_ENABLE (une_flags d).
Definition UNICAST_NEGOTIATION_ENABLE_c2 (d : UNICAST_NEGOTIATION_ENABLE_t) : UNICAST_NEGOTIATION_ENABLE_t :=
  mk_UNICAST_NEGOTIATION_ENABLE (une_flags d).
Definition PATH_TRACE_ENABLE_c1 (d : PATH_TRACE_ENABLE_t) : PATH_TRACE_ENABLE_t :=
  mk_PATH_TRACE_ENABLE (pte_flags d).
Definition PATH_TRACE_ENABLE_c2 (d : PATH_TRACE_ENABLE_t) : PATH_TRACE_ENABLE_t :=
  mk_PATH_TRACE_ENABLE (pte_flags d).
Definition UNICAST_MASTER_MAX_TABLE_SIZE_c1 (d : UNICAST_MASTER_MAX_TABLE_SIZE_t) : UNICAST_MASTER_MAX_TABLE_SIZE_t :=
  mk_UNICAST_MASTER_MAX_TABLE_SIZE (umm_maxTableSize d).
Definition UNICAST_MASTER_MAX_TABLE_SIZE_c2 (d : UNICAST_MASTER_MAX_TABLE_SIZE_t) : UNICAST_MASTER_MAX_TABLE_SIZE_t :=
  mk_UNICAST_MASTER_MAX_TABLE_SIZE (umm_maxTableSize d).
Definition ACCEPTABLE_MASTER_TABLE_ENABLED_c1 (d : ACCEPTABLE_MASTER_TABLE_ENABLED_t) : ACCEPTABLE_MASTER_TABLE_ENABLED_t :=
  mk_ACCEPTABLE_MASTER_TABLE_ENABLED (ame_flags d).
Definition ACCEPTABLE_MASTER_TABLE_ENABLED_c2 (d : ACCEPTABLE_MASTER_TABLE_ENABLED_t) : ACCEPTABLE_MASTER_TABLE_ENABLED_t :=
  mk_ACCEPTABLE_MASTER_TABLE_ENABLED (ame_flags d).
Definition ACCEPTABLE_MASTER_MAX_TABLE_SIZE_c1 (d : ACCEPTABLE_MASTER_MAX_TABLE_SIZE_t) : ACCEPTABLE_MASTER_MAX_TABLE_SIZE_t :=
  mk_ACCEPTABLE_MASTER_MAX_TABLE_SIZE (amm_maxTableSize d).
Definition ACCEPTABLE_MASTER_MAX_TABLE_SIZE_c2 (d : ACCEPTABLE_MASTER_MAX_TABLE_SIZE_t) : ACCEPTABLE_MASTER_MAX_TABLE_SIZE_t :=
  mk_ACCEPTABLE_MASTER_MAX_TABLE_SIZE (amm_maxTableSize d).
Definition ALTERNATE_MASTER_c1 (d : ALTERNATE_MASTER_t) : ALTERNATE_MASTER_t :=
  mk_ALTERNATE_MASTER (am_flags d) (am_logAlternateMulticastSyncInterval d)
    (am_numberOfAlternateMasters d).
Definition ALTERNATE_MASTER_c2 (d : ALTERNATE_MASTER_t) : ALTERNATE_MASTER_t :=
  mk_ALTERNATE_MASTER (am_flags d) (am_logAlternateMulticastSyncInterval d)
    (am_numberOfAlternateMasters d).
Definition ALTERNATE_TIME_OFFSET_ENABLE_c1 (d : ALTERNATE_TIME_OFFSET_ENABLE_t) : ALTERNATE_TIME_OFFSET_ENABLE_t :=
  mk_ALTERNATE_TIME_OFFSET_ENABLE (atoe_keyField d) (atoe_flags d).
Definition ALTERNATE_TIME_OFFSET_ENABLE_c2 (d : ALTERNATE_TIME_OFFSET_ENABLE_t) : ALTERNATE_TIME_OFFSET_ENABLE_t :=
  mk_ALTERNATE_TIME_OFFSET_ENABLE (atoe_keyField d) (atoe_flags d).
Definition ALTERNATE_TIME_OFFSET_MAX_KEY_c1 (d : ALTERNATE_TIME_OFFSET_MAX_KEY_t) : ALTERNATE_TIME_OFFSET_MAX_KEY_t :=
  mk_ALTERNATE_TIME_OFFSET_MAX_KEY (atom_maxKey d).
Definition ALTERNATE_TIME_OFFSET_MAX_KEY_c2 (d : ALTERNATE_TIME_OFFSET_MAX_KEY_t) : ALTERNATE_TIME_OFFSET_MAX_KEY_t :=
  mk_ALTERNATE_TIME_OFFSET_MAX_KEY (atom_maxKey d).
Definition ALTERNATE_TIME_OFFSET_PROPERTIES_c1 (d : ALTERNATE_TIME_OFFSET_PROPERTIES_t) : ALTERNATE_TIME_OFFSET_PROPERTIES_t :=
  mk_ALTERNATE_TIME_OFFSET_PROPERTIES (atop_keyField d) (atop_currentOffset d)
    (atop_jumpSeconds d) (atop_timeOfNextJump d).
Definition ALTERNATE_TIME_OFFSET_PROPERTIES_c2 (d : ALTERNATE_TIME_OFFSET_PROPERTIES_t) : ALTERNATE_TIME_OFFSET_PROPERTIES_t :=
  mk_ALTERNATE_TIME_OFFSET_PROPERTIES (atop_keyField d) (atop_currentOffset d)
    (atop_jumpSeconds d) (atop_timeOfNextJump d).
Definition TRANSPARENT_CLOCK_PORT_DATA_SET_c1 (d : TRANSPARENT_CLOCK_PORT_DATA_SET_t) : TRANSPARENT_CLOCK_PORT_DATA_SET_t :=
  mk_TRANSPARENT_CLOCK_PORT_DATA_SET (c1_st_PortIdentity (tcp_portIdentity d)) (tcp_flags d)
    (tcp_logMinPdelayReqInterval d)
    (mk_TimeInterval (scaledNanoseconds (tcp_peerMeanPathDelay d))).
Definition TRANSPARENT_CLOCK_PORT_DATA_SET_c2 (d : TRANSPARENT_CLOCK_PORT_DATA_SET_t) : TRANSPARENT_CLOCK_PORT_DATA_SET_t :=
  mk_TRANSPARENT_CLOCK_PORT_DATA_SET (c2_st_PortIdentity (tcp_portIdentity d)) (tcp_flags d)
    (tcp_logMinPdelayReqInterval d)
    (mk_TimeInterval (scaledNanoseconds (tcp_peerMeanPathDelay d))).
Definition LOG_MIN_PDELAY_REQ_INTERVAL_c1 (d : LOG_MIN_PDELAY_REQ_INTERVAL_t) : LOG_MIN_PDELAY_REQ_INTERVAL_t :=
  mk_LOG_MIN_PDELAY_REQ_INTERVAL (lmp_logMinPdelayReqInterval d).
Definition LOG_MIN_PDELAY_REQ_INTERVAL_c2 (d : LOG_MIN_PDELAY_REQ_INTERVAL_t) : LOG_MIN_PDELAY_REQ_INTERVAL_t :=
  mk_LOG_MIN_PDELAY_REQ_INTERVAL (lmp_logMinPdelayReqInterval d).
Definition TRANSPARENT_CLOCK_DEFAULT_DATA_SET_c1 (d : TRANSPARENT_CLOCK_DEFAULT_DATA_SET_t) : TRANSPARENT_CLOCK_DEFAULT_DATA_SET_t :=
  mk_TRANSPARENT_CLOCK_DEFAULT_DATA_SET (memcpy_ClockIdentity (tcd_clockIdentity d))
    (tcd_numberPorts d) (tcd_delayMechanism d) (tcd_primaryDomain d).
Definition TRANSPARENT_CLOCK_DEFAULT_DATA_SET_c2 (d : TRANSPARENT_CLOCK_DEFAULT_DATA_SET_t) : TRANSPARENT_CLOCK_DEFAULT_DATA_SET_t :=
  mk_TRANSPARENT_CLOCK_DEFAULT_DATA_SET (memcpy_ClockIdentity (tcd_clockIdentity d))
    (tcd_numberPorts d) (uwrap 8 (tcd_delayMechanism d)) (tcd_primaryDomain d).
Definition PRIMARY_DOMAIN_c1 (d : PRIMARY_DOMAIN_t) : PRIMARY_DOMAIN_t :=
  mk_PRIMARY_DOMAIN (pd_primaryDomain d).
Definition PRIMARY_DOMAIN_c2 (d : PRIMARY_DOMAIN_t) : PRIMARY_DOMAIN_t :=
  mk_PRIMARY_DOMAIN (pd_primaryDomain d).
Definition DELAY_MECHANISM_c1 (d : DELAY_MECHANISM_t) : DELAY_MECHANISM_t :=
  mk_DELAY_MECHANISM (dm_delayMechanism d).
Definition DELAY_MECHANISM_c2 (d : DELAY_MECHANISM_t) : DELAY_MECHANISM_t :=
  mk_DELAY_MECHANISM (uwrap 8 (dm_delayMechanism d)).
Definition EXTERNAL_PORT_CONFIGURATION_ENABLED_c1 (d : EXTERNAL_PORT_CONFIGURATION_ENABLED_t) : EXTERNAL_PORT_CONFIGURATION_ENABLED_t :=
  mk_EXTERNAL_PORT_CONFIGURATION_ENABLED (epc_flags d).
Definition EXTERNAL_PORT_CONFIGURATION_ENABLED_c2 (d : EXTERNAL_PORT_CONFIGURATION_ENABLED_t) : EXTERNAL_PORT_CONFIGURATION_ENABLED_t :=
  mk_EXTERNAL_PORT_CONFIGURATION_ENABLED (epc_flags d).
Definition MASTER_ONLY_c1 (d : MASTER_ONLY_t) : MASTER_ONLY_t :=
  mk_MASTER_ONLY (mo_flags d).
Definition MASTER_ONLY_c2 (d : MASTER_ONLY_t) : MASTER_ONLY_t :=
  mk_MASTER_ONLY (mo_flags d).
Definition HOLDOVER_UPGRADE_ENABLE_c1 (d : HOLDOVER_UPGRADE_ENABLE_t) : HOLDOVER_UPGRADE_ENABLE_t :=
  mk_HOLDOVER_UPGRADE_ENABLE (hue_flags d).
Definition HOLDOVER_UPGRADE_ENABLE_c2 (d : HOLDOVER_UPGRADE_ENABLE_t) : HOLDOVER_UPGRADE_ENABLE_t :=
  mk_HOLDOVER_UPGRADE_ENABLE (hue_flags d).
Definition EXT_PORT_CONFIG_PORT_DATA_SET_c1 (d : EXT_PORT_CONFIG_PORT_DATA_SET_t) : EXT_PORT_CONFIG_PORT_DATA_SET_t :=
  mk_EXT_PORT_CONFIG_PORT_DATA_SET (epp_flags d) (epp_desiredState d).
Definition EXT_PORT_CONFIG_PORT_DATA_SET_c2 (d : EXT_PORT_CONFIG_PORT_DATA_SET_t) : EXT_PORT_CONFIG_PORT_DATA_SET_t :=
  mk_EXT_PORT_CONFIG_PORT_DATA_SET (epp_flags d) (uwrap 8 (epp_desiredState d)).
Definition TIME_STATUS_NP_c1 (d : TIME_STATUS_NP_t) : TIME_STATUS_NP_t :=
  mk_TIME_STATUS_NP (tsn_master_offset d) (tsn_ingress_time d)
    (tsn_cumulativeScaledRateOffset d) (tsn_scaledLastGmPhaseChange d)
    (tsn_gmTimeBaseIndicator d) (tsn_nanoseconds_msb d) (tsn_nanoseconds_lsb d)
    (tsn_fractional_nanoseconds d) (tsn_gmPresent d) (memcpy_ClockIdentity (tsn_gmIdentity d)).
Definition TIME_STATUS_NP_c2 (d : TIME_STATUS_NP_t) : TIME_STATUS_NP_t :=
  mk_TIME_STATUS_NP (tsn_master_offset d) (tsn_ingress_time d)
    (tsn_cumulativeScaledRateOffset d) (tsn_scaledLastGmPhaseChange d)
    (tsn_gmTimeBaseIndicator d) (tsn_nanoseconds_msb d) (tsn_nanoseconds_lsb d)
    (tsn_fractional_nanoseconds d) (tsn_gmPresent d) (memcpy_ClockIdentity (tsn_gmIdentity d)).
Definition GRANDMASTER_SETTINGS_NP_c1 (d : GRANDMASTER_SETTINGS_NP_t) : GRANDMASTER_SETTINGS_NP_t :=
  mk_GRANDMASTER_SETTINGS_NP (c1_st_ClockQuality (gsn_clockQuality d))
    (gsn_currentUtcOffset d) (gsn_flags d) (gsn_timeSource d).
Definition GRANDMASTER_SETTINGS_NP_c2 (d : GRANDMASTER_SETTINGS_NP_t) : GRANDMASTER_SETTINGS_NP_t :=
  mk_GRANDMASTER_SETTINGS_NP (c2_st_ClockQuality (gsn_clockQuality d))
    (gsn_currentUtcOffset d) (gsn_flags d) (uwrap 8 (gsn_timeSource d)).
Definition PORT_DATA_SET_NP_c1 (d : PORT_DATA_SET_NP_t) : PORT_DATA_SET_NP_t :=
  mk_PORT_DATA_SET_NP (pdsn_neighborPropDelayThresh d) (pdsn_asCapable d).
Definition PORT_DATA_SET_NP_c2 (d : PORT_DATA_SET_NP_t) : PORT_DATA_SET_NP_t :=
  mk_PORT_DATA_SET_NP (pdsn_neighborPropDelayThresh d) (pdsn_asCapable d).
Definition SUBSCRIBE_EVENTS_NP_c1 (d : SUBSCRIBE_EVENTS_NP_t) : SUBSCRIBE_EVENTS_NP_t :=
  mk_SUBSCRIBE_EVENTS_NP (sen_duration d) (memcpy EVENT_BITMASK_CNT (sen_bitmask d)).
Definition SUBSCRIBE_EVENTS_NP_c2 (d : SUBSCRIBE_EVENTS_NP_t) : SUBSCRIBE_EVENTS_NP_t :=
  mk_SUBSCRIBE_EVENTS_NP (sen_duration d) (memcpy EVENT_BITMASK_CNT (sen_bitmask d)).
Definition PORT_STATS_NP_c1 (d : PORT_STATS_NP_t) : PORT_STATS_NP_t :=
  mk_PORT_STATS_NP (c1_st_PortIdentity (psn_portIdentity d))
    (memcpy MAX_MESSAGE_TYPES (psn_rxMsgType d)) (memcpy MAX_MESSAGE_TYPES (psn_txMsgType d)).
Definition PORT_STATS_NP_c2 (d : PORT_STATS_NP_t) : PORT_STATS_NP_t :=
  mk_PORT_STATS_NP (c2_st_PortIdentity (psn_portIdentity d))
    (memcpy MAX_MESSAGE_TYPES (psn_rxMsgType d)) (memcpy MAX_MESSAGE_TYPES (psn_txMsgType d)).
Definition SYNCHRONIZATION_UNCERTAIN_NP_c1 (d : SYNCHRONIZATION_UNCERTAIN_NP_t) : SYNCHRONIZATION_UNCERTAIN_NP_t :=
  mk_SYNCHRONIZATION_UNCERTAIN_NP (sun_val d).
Definition SYNCHRONIZATION_UNCERTAIN_NP_c2 (d : SYNCHRONIZATION_UNCERTAIN_NP_t) : SYNCHRONIZATION_UNCERTAIN_NP_t :=
  mk_SYNCHRONIZATION_UNCERTAIN_NP (sun_val d).
Definition PORT_SERVICE_STATS_NP_c1 (d : PORT_SERVICE_STATS_NP_t) : PORT_SERVICE_STATS_NP_t :=
  mk_PORT_SERVICE_STATS_NP (c1_st_PortIdentity (pss_portIdentity d)) (pss_announce_timeout d)
    (pss_sync_timeout d) (pss_delay_timeout d) (pss_unicast_service_timeout d)
    (pss_unicast_request_timeout d) (pss_master_announce_timeout d)
    (pss_master_sync_timeout d) (pss_qualification_timeout d) (pss_sync_mismatch d)
    (pss_followup_mismatch d).
Definition PORT_SERVICE_STATS_NP_c2 (d : PORT_SERVICE_STATS_NP_t) : PORT_SERVICE_STATS_NP_t :=
  mk_PORT_SERVICE_STATS_NP (c2_st_PortIdentity (pss_portIdentity d)) (pss_announce_timeout d)
    (pss_sync_timeout d) (pss_delay_timeout d) (pss_unicast_service_timeout d)
    (pss_unicast_request_timeout d) (pss_master_announce_timeout d)
    (pss_master_sync_timeout d) (pss_qualification_timeout d) (pss_sync_mismatch d)
    (pss_followup_mismatch d).
Definition PORT_HWCLOCK_NP_c1 (d : PORT_HWCLOCK_NP_t) : PORT_HWCLOCK_NP_t :=
  mk_PORT_HWCLOCK_NP (c1_st_PortIdentity (phn_portIdentity d)) (phn_phc_index d) (phn_flags d).
Definition PORT_HWCLOCK_NP_c2 (d : PORT_HWCLOCK_NP_t) : PORT_HWCLOCK_NP_t :=
  mk_PORT_HWCLOCK_NP (c2_st_PortIdentity (phn_portIdentity d)) (phn_phc_index d) (phn_flags d).
Definition POWER_PROFILE_SETTINGS_NP_c1 (d : POWER_PROFILE_SETTINGS_NP_t) : POWER_PROFILE_SETTINGS_NP_t :=
  mk_POWER_PROFILE_SETTINGS_NP (ppsn_version d) (ppsn_grandmasterID d)
    (ppsn_grandmasterTimeInaccuracy d) (ppsn_networkTimeInaccuracy d)
    (ppsn_totalTimeInaccuracy d).
Definition POWER_PROFILE_SETTINGS_NP_c2 (d : POWER_PROFILE_SETTINGS_NP_t) : POWER_PROFILE_SETTINGS_NP_t :=
  mk_POWER_PROFILE_SETTINGS_NP (uwrap 16 (ppsn_version d)) (ppsn_grandmasterID d)
    (ppsn_grandmasterTimeInaccuracy d) (ppsn_networkTimeInaccuracy d)
    (ppsn_totalTimeInaccuracy d).
Definition CMLDS_INFO_NP_c1 (d : CMLDS_INFO_NP_t) : CMLDS_INFO_NP_t :=
  mk_CMLDS_INFO_NP (mk_TimeInterval (scaledNanoseconds (cin_meanLinkDelay d)))
    (cin_scaledNeighborRateRatio d) (cin_as_capable d).
Definition CMLDS_INFO_NP_c2 (d : CMLDS_INFO_NP_t) : CMLDS_INFO_NP_t :=
  mk_CMLDS_INFO_NP (mk_TimeInterval (scaledNanoseconds (cin_meanLinkDelay d)))
    (cin_scaledNeighborRateRatio d) (cin_as_capable d).
Definition PORT_CORRECTIONS_NP_c1 (d : PORT_CORRECTIONS_NP_t) : PORT_CORRECTIONS_NP_t :=
  mk_PORT_CORRECTIONS_NP (pcn_egressLatency d) (pcn_ingressLatency d) (pcn_delayAsymmetry d).
Definition PORT_CORRECTIONS_NP_c2 (d : PORT_CORRECTIONS_NP_t) : PORT_CORRECTIONS_NP_t :=
  mk_PORT_CORRECTIONS_NP (pcn_egressLatency d) (pcn_ingressLatency d) (pcn_delayAsymmetry d).
Definition EXTERNAL_GRANDMASTER_PROPERTIES_NP_c1 (d : EXTERNAL_GRANDMASTER_PROPERTIES_NP_t) : EXTERNAL_GRANDMASTER_PROPERTIES_NP_t :=
  mk_EXTERNAL_GRANDMASTER_PROPERTIES_NP (memcpy_ClockIdentity (egp_gmIdentity d))
    (egp_stepsRemoved d).
Definition EXTERNAL_GRANDMASTER_PROPERTIES_NP_c2 (d : EXTERNAL_GRANDMASTER_PROPERTIES_NP_t) : EXTERNAL_GRANDMASTER_PROPERTIES_NP_t :=
  mk_EXTERNAL_GRANDMASTER_PROPERTIES_NP (memcpy_ClockIdentity (egp_gmIdentity d))
    (egp_stepsRemoved d).

(** The extension of the SMPTE organization has a conversion to C only, in
    [src/src/sigTlvs.cpp]. *)
Definition cpp2cSmpte_c1 (d : SMPTE_ORGANIZATION_EXTENSION_t) : SMPTE_ORGANIZATION_EXTENSION_t :=
  mk_SMPTE_ORGANIZATION_EXTENSION (memcpy 3 (smp_organizationId d))
    (memcpy 3 (smp_organizationSubType d)) (smp_defaultSystemFrameRate_numerator d)
    (smp_defaultSystemFrameRate_denominator d) (smp_masterLockingStatus d)
    (smp_timeAddressFlags d) (smp_currentLocalOffset d) (smp_jumpSeconds d)
    (smp_timeOfNextJump d) (smp_timeOfNextJam d) (smp_timeOfPreviousJam d)
    (smp_previousJamLocalOffset d) (smp_daylightSaving d) (smp_leapSecondJump d).

(** ** The dispatch on the id *)

(** What a [void *] to a C structure points to. *)
Inductive CMngTlv :=
| C_T_CLOCK_DESCRIPTION (d : C_CLOCK_DESCRIPTION)
| C_T_USER_DESCRIPTION (d : C_USER_DESCRIPTION)
| C_T_INITIALIZE (d : INITIALIZE_t)
| C_T_FAULT_LOG (d : C_FAULT_LOG)
| C_T_DEFAULT_DATA_SET (d : DEFAULT_DATA_SET_t)
| C_T_CURRENT_DATA_SET (d : CURRENT_DATA_SET_t)
| C_T_PARENT_DATA_SET (d : PARENT_DATA_SET_t)
| C_T_TIME_PROPERTIES_DATA_SET (d : TIME_PROPERTIES_DATA_SET_t)
| C_T_PORT_DATA_SET (d : PORT_DATA_SET_t)
| C_T_PRIORITY1 (d : PRIORITY1_t)
| C_T_PRIORITY2 (d : PRIORITY2_t)
| C_T_DOMAIN (d : DOMAIN_t)
| C_T_SLAVE_ONLY (d : SLAVE_ONLY_t)
| C_T_LOG_ANNOUNCE_INTERVAL (d : LOG_ANNOUNCE_INTERVAL_t)
| C_T_ANNOUNCE_RECEIPT_TIMEOUT (d : ANNOUNCE_RECEIPT_TIMEOUT_t)
| C_T_LOG_SYNC_INTERVAL (d : LOG_SYNC_INTERVAL_t)
| C_T_VERSION_NUMBER (d : VERSION_NUMBER_t)
| C_T_TIME (d : TIME_t)
| C_T_CLOCK_ACCURACY (d : CLOCK_ACCURACY_t)
| C_T_UTC_PROPERTIES (d : UTC_PROPERTIES_t)
| C_T_TRACEABILITY_PROPERTIES (d : TRACEABILITY_PROPERTIES_t)
| C_T_TIMESCALE_PROPERTIES (d : TIMESCALE_PROPERTIES_t)
| C_T_UNICAST_NEGOTIATION_ENABLE (d : UNICAST_NEGOTIATION_ENABLE_t)
| C_T_PATH_TRACE_LIST (d : C_PATH_TRACE_LIST)
| C_T_PATH_TRACE_ENABLE (d : PATH_TRACE_ENABLE_t)
| C_T_GRANDMASTER_CLUSTER_TABLE (d : C_GRANDMASTER_CLUSTER_TABLE)
| C_T_UNICAST_MASTER_TABLE (d : C_UNICAST_MASTER_TABLE)
| C_T_UNICAST_MASTER_MAX_TABLE_SIZE (d : UNICAST_MASTER_MAX_TABLE_SIZE_t)
| C_T_ACCEPTABLE_MASTER_TABLE (d : C_ACCEPTABLE_MASTER_TABLE)
| C_T_ACCEPTABLE_MASTER_TABLE_ENABLED (d : ACCEPTABLE_MASTER_TABLE_ENABLED_t)
| C_T_ACCEPTABLE_MASTER_MAX_TABLE_SIZE (d : ACCEPTABLE_MASTER_MAX_TABLE_SIZE_t)
| C_T_ALTERNATE_MASTER (d : ALTERNATE_MASTER_t)
| C_T_ALTERNATE_TIME_OFFSET_ENABLE (d : ALTERNATE_TIME_OFFSET_ENABLE_t)
| C_T_ALTERNATE_TIME_OFFSET_NAME (d : C_ALTERNATE_TIME_OFFSET_NAME)
| C_T_ALTERNATE_TIME_OFFSET_MAX_KEY (d : ALTERNATE_TIME_OFFSET_MAX_KEY_t)
| C_T_ALTERNATE_TIME_OFFSET_PROPERTIES (d : ALTERNATE_TIME_OFFSET_PROPERTIES_t)
| C_T_TRANSPARENT_CLOCK_PORT_DATA_SET (d : TRANSPARENT_CLOCK_PORT_DATA_SET_t)
| C_T_LOG_MIN_PDELAY_REQ_INTERVAL (d : LOG_MIN_PDELAY_REQ_INTERVAL_t)
| C_T_TRANSPARENT_CLOCK_DEFAULT_DATA_SET (d : TRANSPARENT_CLOCK_DEFAULT_DATA_SET_t)
| C_T_PRIMARY_DOMAIN (d : PRIMARY_DOMAIN_t)
| C_T_DELAY_MECHANISM (d : DELAY_MECHANISM_t)
| C_T_EXTERNAL_PORT_CONFIGURATION_ENABLED (d : EXTERNAL_PORT_CONFIGURATION_ENABLED_t)
| C_T_MASTER_ONLY (d : MASTER_ONLY_t)
| C_T_HOLDOVER_UPGRADE_ENABLE (d : HOLDOVER_UPGRADE_ENABLE_t)
| C_T_EXT_PORT_CONFIG_PORT_DATA_SET (d : EXT_PORT_CONFIG_PORT_DATA_SET_t)
| C_T_TIME_STATUS_NP (d : TIME_STATUS_NP_t)
| C_T_GRANDMASTER_SETTINGS_NP (d : GRANDMASTER_SETTINGS_NP_t)
| C_T_PORT_DATA_SET_NP (d : PORT_DATA_SET_NP_t)
| C_T_SUBSCRIBE_EVENTS_NP (d : SUBSCRIBE_EVENTS_NP_t)
| C_T_PORT_PROPERTIES_NP (d : C_PORT_PROPERTIES_NP)
| C_T_PORT_STATS_NP (d : PORT_STATS_NP_t)
| C_T_SYNCHRONIZATION_UNCERTAIN_NP (d : SYNCHRONIZATION_UNCERTAIN_NP_t)
| C_T_PORT_SERVICE_STATS_NP (d : PORT_SERVICE_STATS_NP_t)
| C_T_UNICAST_MASTER_TABLE_NP (d : C_UNICAST_MASTER_TABLE_NP)
| C_T_PORT_HWCLOCK_NP (d : PORT_HWCLOCK_NP_t)
| C_T_POWER_PROFILE_SETTINGS_NP (d : POWER_PROFILE_SETTINGS_NP_t)
| C_T_CMLDS_INFO_NP (d : CMLDS_INFO_NP_t)
| C_T_PORT_CORRECTIONS_NP (d : PORT_CORRECTIONS_NP_t)
| C_T_EXTERNAL_GRANDMASTER_PROPERTIES_NP (d : EXTERNAL_GRANDMASTER_PROPERTIES_NP_t)
| C_T_SMPTE_ORGANIZATION_EXTENSION (d : SMPTE_ORGANIZATION_EXTENSION_t).

(** The conversions of a TLV structure [D] to and from its C structure [C]. *)
Class CConv (D C : Type) := {
  tlv_c1 : D -> option C;
  tlv_c2 : C -> option D;
  c_up : C -> CMngTlv;
  c_cast : CMngTlv -> option C;
  c_zero : C (* after [memset] *)
}.

Definition zero_C_PTPText : C_PTPText := mk_C_PTPText 0 P_null.
Definition zero_C_PortAddress : C_PortAddress := mk_C_PortAddress 0 0 P_null.

#[global] Instance CConv_CLOCK_DESCRIPTION : CConv CLOCK_DESCRIPTION_t C_CLOCK_DESCRIPTION := {
  tlv_c1 := (fun d => Some (CLOCK_DESCRIPTION_c1 d)); tlv_c2 := CLOCK_DESCRIPTION_c2;
  c_up := C_T_CLOCK_DESCRIPTION; c_cast c := match c with C_T_CLOCK_DESCRIPTION d => Some d | _ => None end;
  c_zero := mk_C_CLOCK_DESCRIPTION 0 zero_C_PTPText 0 P_null zero_C_PortAddress (repeat x00 3)
    zero_C_PTPText zero_C_PTPText zero_C_PTPText (repeat x00 6) }.
#[global] Instance CConv_USER_DESCRIPTION : CConv USER_DESCRIPTION_t C_USER_DESCRIPTION := {
  tlv_c1 := (fun d => Some (USER_DESCRIPTION_c1 d)); tlv_c2 := USER_DESCRIPTION_c2;
  c_up := C_T_USER_DESCRIPTION; c_cast c := match c with C_T_USER_DESCRIPTION d => Some d | _ => None end;
  c_zero := mk_C_USER_DESCRIPTION zero_C_PTPText }.
#[global] Instance CConv_INITIALIZE : CConv INITIALIZE_t INITIALIZE_t := {
  tlv_c1 := (fun d => Some (INITIALIZE_c1 d)); tlv_c2 := (fun c => Some (INITIALIZE_c2 c));
  c_up := C_T_INITIALIZE; c_cast c := match c with C_T_INITIALIZE d => Some d | _ => None end;
  c_zero := init_INITIALIZE }.
#[global] Instance CConv_FAULT_LOG : CConv FAULT_LOG_t C_FAULT_LOG := {
  tlv_c1 := FAULT_LOG_c1; tlv_c2 := FAULT_LOG_c2;
  c_up := C_T_FAULT_LOG; c_cast c := match c with C_T_FAULT_LOG d => Some d | _ => None end;
  c_zero := mk_C_FAULT_LOG 0 P_null }.
#[global] Instance CConv_DEFAULT_DATA_SET : CConv DEFAULT_DATA_SET_t DEFAULT_DATA_SET_t := {
  tlv_c1 := (fun d => Some (DEFAULT_DATA_SET_c1 d)); tlv_c2 := (fun c => Some (DEFAULT_DATA_SET_c2 c));
  c_up := C_T_DEFAULT_DATA_SET; c_cast c := match c with C_T_DEFAULT_DATA_SET d => Some d | _ => None end;
  c_zero := init_DEFAULT_DATA_SET }.
#[global] Instance CConv_CURRENT_DATA_SET : CConv CURRENT_DATA_SET_t CURRENT_DATA_SET_t := {
  tlv_c1 := (fun d => Some (CURRENT_DATA_SET_c1 d)); tlv_c2 := (fun c => Some (CURRENT_DATA_SET_c2 c));
  c_up := C_T_CURRENT_DATA_SET; c_cast c := match c with C_T_CURRENT_DATA_SET d => Some d | _ => None end;
  c_zero := init_CURRENT_DATA_SET }.
#[global] Instance CConv_PARENT_DATA_SET : CConv PARENT_DATA_SET_t PARENT_DATA_SET_t := {
  tlv_c1 := (fun d => Some (PARENT_DATA_SET_c1 d)); tlv_c2 := (fun c => Some (PARENT_DATA_SET_c2 c));
  c_up := C_T_PARENT_DATA_SET; c_cast c := match c with C_T_PARENT_DATA_SET d => Some d | _ => None end;
  c_zero := init_PARENT_DATA_SET }.
#[global] Instance CConv_TIME_PROPERTIES_DATA_SET : CConv TIME_PROPERTIES_DATA_SET_t TIME_PROPERTIES_DATA_SET_t := {
  tlv_c1 := (fun d => Some (TIME_PROPERTIES_DATA_SET_c1 d)); tlv_c2 := (fun c => Some (TIME_PROPERTIES_DATA_SET_c2 c));
  c_up := C_T_TIME_PROPERTIES_DATA_SET; c_cast c := match c with C_T_TIME_PROPERTIES_DATA_SET d => Some d | _ => None end;
  c_zero := init_TIME_PROPERTIES_DATA_SET }.
#[global] Instance CConv_PORT_DATA_SET : CConv PORT_DATA_SET_t PORT_DATA_SET_t := {
  tlv_c1 := (fun d => Some (PORT_DATA_SET_c1 d)); tlv_c2 := (fun c => Some (PORT_DATA_SET_c2 c));
  c_up := C_T_PORT_DATA_SET; c_cast c := match c with C_T_PORT_DATA_SET d => Some d | _ => None end;
  c_zero := init_PORT_DATA_SET }.
#[global] Instance CConv_PRIORITY1 : CConv PRIORITY1_t PRIORITY1_t := {
  tlv_c1 := (fun d => Some (PRIORITY1_c1 d)); tlv_c2 := (fun c => Some (PRIORITY1_c2 c));
  c_up := C_T_PRIORITY1; c_cast c := match c with C_T_PRIORITY1 d => Some d | _ => None end;
  c_zero := init_PRIORITY1 }.
#[global] Instance CConv_PRIORITY2 : CConv PRIORITY2_t PRIORITY2_t := {
  tlv_c1 := (fun d => Some (PRIORITY2_c1 d)); tlv_c2 := (fun c => Some (PRIORITY2_c2 c));
  c_up := C_T_PRIORITY2; c_cast c := match c with C_T_PRIORITY2 d => Some d | _ => None end;
  c_zero := init_PRIORITY2 }.
#[global] Instance CConv_DOMAIN : CConv DOMAIN_t DOMAIN_t := {
  tlv_c1 := (fun d => Some (DOMAIN_c1 d)); tlv_c2 := (fun c => Some (DOMAIN_c2 c));
  c_up := C_T_DOMAIN; c_cast c := match c with C_T_DOMAIN d => Some d | _ => None end;
  c_zero := init_DOMAIN }.
#[global] Instance CConv_SLAVE_ONLY : CConv SLAVE_ONLY_t SLAVE_ONLY_t := {
  tlv_c1 := (fun d => Some (SLAVE_ONLY_c1 d)); tlv_c2 := (fun c => Some (SLAVE_ONLY_c2 c));
  c_up := C_T_SLAVE_ONLY; c_cast c := match c with C_T_SLAVE_ONLY d => Some d | _ => None end;
  c_zero := init_SLAVE_ONLY }.
#[global] Instance CConv_LOG_ANNOUNCE_INTERVAL : CConv LOG_ANNOUNCE_INTERVAL_t LOG_ANNOUNCE_INTERVAL_t := {
  tlv_c1 := (fun d => Some (LOG_ANNOUNCE_INTERVAL_c1 d)); tlv_c2 := (fun c => Some (LOG_ANNOUNCE_INTERVAL_c2 c));
  c_up := C_T_LOG_ANNOUNCE_INTERVAL; c_cast c := match c with C_T_LOG_ANNOUNCE_INTERVAL d => Some d | _ => None end;
  c_zero := init_LOG_ANNOUNCE_INTERVAL }.
#[global] Instance CConv_ANNOUNCE_RECEIPT_TIMEOUT : CConv ANNOUNCE_RECEIPT_TIMEOUT_t ANNOUNCE_RECEIPT_TIMEOUT_t := {
  tlv_c1 := (fun d => Some (ANNOUNCE_RECEIPT_TIMEOUT_c1 d)); tlv_c2 := (fun c => Some (ANNOUNCE_RECEIPT_TIMEOUT_c2 c));
  c_up := C_T_ANNOUNCE_RECEIPT_TIMEOUT; c_cast c := match c with C_T_ANNOUNCE_RECEIPT_TIMEOUT d => Some d | _ => None end;
  c_zero := init_ANNOUNCE_RECEIPT_TIMEOUT }.
#[global] Instance CConv_LOG_SYNC_INTERVAL : CConv LOG_SYNC_INTERVAL_t LOG_SYNC_INTERVAL_t := {
  tlv_c1 := (fun d => Some (LOG_SYNC_INTERVAL_c1 d)); tlv_c2 := (fun c => Some (LOG_SYNC_INTERVAL_c2 c));
  c_up := C_T_LOG_SYNC_INTERVAL; c_cast c := match c with C_T_LOG_SYNC_INTERVAL d => Some d | _ => None end;
  c_zero := init_LOG_SYNC_INTERVAL }.
#[global] Instance CConv_VERSION_NUMBER : CConv VERSION_NUMBER_t VERSION_NUMBER_t := {
  tlv_c1 := (fun d => Some (VERSION_NUMBER_c1 d)); tlv_c2 := (fun c => Some (VERSION_NUMBER_c2 c));
  c_up := C_T_VERSION_NUMBER; c_cast c := match c with C_T_VERSION_NUMBER d => Some d | _ => None end;
  c_zero := init_VERSION_NUMBER }.
#[global] Instance CConv_TIME : CConv TIME_t TIME_t := {
  tlv_c1 := (fun d => Some (TIME_c1 d)); tlv_c2 := (fun c => Some (TIME_c2 c));
  c_up := C_T_TIME; c_cast c := match c with C_T_TIME d => Some d | _ => None end;
  c_zero := init_TIME }.
#[global] Instance CConv_CLOCK_ACCURACY : CConv CLOCK_ACCURACY_t CLOCK_ACCURACY_t := {
  tlv_c1 := (fun d => Some (CLOCK_ACCURACY_c1 d)); tlv_c2 := (fun c => Some (CLOCK_ACCURACY_c2 c));
  c_up := C_T_CLOCK_ACCURACY; c_cast c := match c with C_T_CLOCK_ACCURACY d => Some d | _ => None end;
  c_zero := init_CLOCK_ACCURACY }.
#[global] Instance CConv_UTC_PROPERTIES : CConv UTC_PROPERTIES_t UTC_PROPERTIES_t := {
  tlv_c1 := (fun d => Some (UTC_PROPERTIES_c1 d)); tlv_c2 := (fun c => Some (UTC_PROPERTIES_c2 c));
  c_up := C_T_UTC_PROPERTIES; c_cast c := match c with C_T_UTC_PROPERTIES d => Some d | _ => None end;
  c_zero := init_UTC_PROPERTIES }.
#[global] Instance CConv_TRACEABILITY_PROPERTIES : CConv TRACEABILITY_PROPERTIES_t TRACEABILITY_PROPERTIES_t := {
  tlv_c1 := (fun d => Some (TRACEABILITY_PROPERTIES_c1 d)); tlv_c2 := (fun c => Some (TRACEABILITY_PROPERTIES_c2 c));
  c_up := C_T_TRACEABILITY_PROPERTIES; c_cast c := match c with C_T_TRACEABILITY_PROPERTIES d => Some d | _ => None end;
  c_zero := init_TRACEABILITY_PROPERTIES }.
#[global] Instance CConv_TIMESCALE_PROPERTIES : CConv TIMESCALE_PROPERTIES_t TIMESCALE_PROPERTIES_t := {
  tlv_c1 := (fun d => Some (TIMESCALE_PROPERTIES_c1 d)); tlv_c2 := (fun c => Some (TIMESCALE_PROPERTIES_c2 c));
  c_up := C_T_TIMESCALE_PROPERTIES; c_cast c := match c with C_T_TIMESCALE_PROPERTIES d => Some d | _ => None end;
  c_zero := init_TIMESCALE_PROPERTIES }.
#[global] Instance CConv_UNICAST_NEGOTIATION_ENABLE : CConv UNICAST_NEGOTIATION_ENABLE_t UNICAST_NEGOTIATION_ENABLE_t := {
  tlv_c1 := (fun d => Some (UNICAST_NEGOTIATION_ENABLE_c1 d)); tlv_c2 := (fun c => Some (UNICAST_NEGOTIATION_ENABLE_c2 c));
  c_up := C_T_UNICAST_NEGOTIATION_ENABLE; c_cast c := match c with C_T_UNICAST_NEGOTIATION_ENABLE d => Some d | _ => None end;
  c_zero := init_UNICAST_NEGOTIATION_ENABLE }.
#[global] Instance CConv_PATH_TRACE_LIST : CConv PATH_TRACE_LIST_t C_PATH_TRACE_LIST := {
  tlv_c1 := (fun d => Some (PATH_TRACE_LIST_c1 d)); tlv_c2 := PATH_TRACE_LIST_c2;
  c_up := C_T_PATH_TRACE_LIST; c_cast c := match c with C_T_PATH_TRACE_LIST d => Some d | _ => None end;
  c_zero := mk_C_PATH_TRACE_LIST P_null 0 }.
#[global] Instance CConv_PATH_TRACE_ENABLE : CConv PATH_TRACE_ENABLE_t PATH_TRACE_ENABLE_t := {
  tlv_c1 := (fun d => Some (PATH_TRACE_ENABLE_c1 d)); tlv_c2 := (fun c => Some (PATH_TRACE_ENABLE_c2 c));
  c_up := C_T_PATH_TRACE_ENABLE; c_cast c := match c with C_T_PATH_TRACE_ENABLE d => Some d | _ => None end;
  c_zero := init_PATH_TRACE_ENABLE }.
#[global] Instance CConv_GRANDMASTER_CLUSTER_TABLE : CConv GRANDMASTER_CLUSTER_TABLE_t C_GRANDMASTER_CLUSTER_TABLE := {
  tlv_c1 := GRANDMASTER_CLUSTER_TABLE_c1; tlv_c2 := GRANDMASTER_CLUSTER_TABLE_c2;
  c_up := C_T_GRANDMASTER_CLUSTER_TABLE; c_cast c := match c with C_T_GRANDMASTER_CLUSTER_TABLE d => Some d | _ => None end;
  c_zero := mk_C_GRANDMASTER_CLUSTER_TABLE 0 0 P_null }.
#[global] Instance CConv_UNICAST_MASTER_TABLE : CConv UNICAST_MASTER_TABLE_t C_UNICAST_MASTER_TABLE := {
  tlv_c1 := UNICAST_MASTER_TABLE_c1; tlv_c2 := UNICAST_MASTER_TABLE_c2;
  c_up := C_T_UNICAST_MASTER_TABLE; c_cast c := match c with C_T_UNICAST_MASTER_TABLE d => Some d | _ => None end;
  c_zero := mk_C_UNICAST_MASTER_TABLE 0 0 P_null }.
#[global] Instance CConv_UNICAST_MASTER_MAX_TABLE_SIZE : CConv UNICAST_MASTER_MAX_TABLE_SIZE_t UNICAST_MASTER_MAX_TABLE_SIZE_t := {
  tlv_c1 := (fun d => Some (UNICAST_MASTER_MAX_TABLE_SIZE_c1 d)); tlv_c2 := (fun c => Some (UNICAST_MASTER_MAX_TABLE_SIZE_c2 c));
  c_up := C_T_UNICAST_MASTER_MAX_TABLE_SIZE; c_cast c := match c with C_T_UNICAST_MASTER_MAX_TABLE_SIZE d => Some d | _ => None end;
  c_zero := init_UNICAST_MASTER_MAX_TABLE_SIZE }.
#[global] Instance CConv_ACCEPTABLE_MASTER_TABLE : CConv ACCEPTABLE_MASTER_TABLE_t C_ACCEPTABLE_MASTER_TABLE := {
  tlv_c1 := ACCEPTABLE_MASTER_TABLE_c1; tlv_c2 := ACCEPTABLE_MASTER_TABLE_c2;
  c_up := C_T_ACCEPTABLE_MASTER_TABLE; c_cast c := match c with C_T_ACCEPTABLE_MASTER_TABLE d => Some d | _ => None end;
  c_zero := mk_C_ACCEPTABLE_MASTER_TABLE 0 P_null }.
#[global] Instance CConv_ACCEPTABLE_MASTER_TABLE_ENABLED : CConv ACCEPTABLE_MASTER_TABLE_ENABLED_t ACCEPTABLE_MASTER_TABLE_ENABLED_t := {
  tlv_c1 := (fun d => Some (ACCEPTABLE_MASTER_TABLE_ENABLED_c1 d)); tlv_c2 := (fun c => Some (ACCEPTABLE_MASTER_TABLE_ENABLED_c2 c));
  c_up := C_T_ACCEPTABLE_MASTER_TABLE_ENABLED; c_cast c := match c with C_T_ACCEPTABLE_MASTER_TABLE_ENABLED d => Some d | _ => None end;
  c_zero := init_ACCEPTABLE_MASTER_TABLE_ENABLED }.
#[global] Instance CConv_ACCEPTABLE_MASTER_MAX_TABLE_SIZE : CConv ACCEPTABLE_MASTER_MAX_TABLE_SIZE_t ACCEPTABLE_MASTER_MAX_TABLE_SIZE_t := {
  tlv_c1 := (fun d => Some (ACCEPTABLE_MASTER_MAX_TABLE_SIZE_c1 d)); tlv_c2 := (fun c => Some (ACCEPTABLE_MASTER_MAX_TABLE_SIZE_c2 c));
  c_up := C_T_ACCEPTABLE_MASTER_MAX_TABLE_SIZE; c_cast c := match c with C_T_ACCEPTABLE_MASTER_MAX_TABLE_SIZE d => Some d | _ => None end;
  c_zero := init_ACCEPTABLE_MASTER_MAX_TABLE_SIZE }.
#[global] Instance CConv_ALTERNATE_MASTER : CConv ALTERNATE_MASTER_t ALTERNATE_MASTER_t := {
  tlv_c1 := (fun d => Some (ALTERNATE_MASTER_c1 d)); tlv_c2 := (fun c => Some (ALTERNATE_MASTER_c2 c));
  c_up := C_T_ALTERNATE_MASTER; c_cast c := match c with C_T_ALTERNATE_MASTER d => Some d | _ => None end;
  c_zero := init_ALTERNATE_MASTER }.
#[global] Instance CConv_ALTERNATE_TIME_OFFSET_ENABLE : CConv ALTERNATE_TIME_OFFSET_ENABLE_t ALTERNATE_TIME_OFFSET_ENABLE_t := {
  tlv_c1 := (fun d => Some (ALTERNATE_TIME_OFFSET_ENABLE_c1 d)); tlv_c2 := (fun c => Some (ALTERNATE_TIME_OFFSET_ENABLE_c2 c));
  c_up := C_T_ALTERNATE_TIME_OFFSET_ENABLE; c_cast c := match c with C_T_ALTERNATE_TIME_OFFSET_ENABLE d => Some d | _ => None end;
  c_zero := init_ALTERNATE_TIME_OFFSET_ENABLE }.
#[global] Instance CConv_ALTERNATE_TIME_OFFSET_NAME : CConv ALTERNATE_TIME_OFFSET_NAME_t C_ALTERNATE_TIME_OFFSET_NAME := {
  tlv_c1 := (fun d => Some (ALTERNATE_TIME_OFFSET_NAME_c1 d)); tlv_c2 := ALTERNATE_TIME_OFFSET_NAME_c2;
  c_up := C_T_ALTERNATE_TIME_OFFSET_NAME; c_cast c := match c with C_T_ALTERNATE_TIME_OFFSET_NAME d => Some d | _ => None end;
  c_zero := mk_C_ALTERNATE_TIME_OFFSET_NAME 0 zero_C_PTPText }.
#[global] Instance CConv_ALTERNATE_TIME_OFFSET_MAX_KEY : CConv ALTERNATE_TIME_OFFSET_MAX_KEY_t ALTERNATE_TIME_OFFSET_MAX_KEY_t := {
  tlv_c1 := (fun d => Some (ALTERNATE_TIME_OFFSET_MAX_KEY_c1 d)); tlv_c2 := (fun c => Some (ALTERNATE_TIME_OFFSET_MAX_KEY_c2 c));
  c_up := C_T_ALTERNATE_TIME_OFFSET_MAX_KEY; c_cast c := match c with C_T_ALTERNATE_TIME_OFFSET_MAX_KEY d => Some d | _ => None end;
  c_zero := init_ALTERNATE_TIME_OFFSET_MAX_KEY }.
#[global] Instance CConv_ALTERNATE_TIME_OFFSET_PROPERTIES : CConv ALTERNATE_TIME_OFFSET_PROPERTIES_t ALTERNATE_TIME_OFFSET_PROPERTIES_t := {
  tlv_c1 := (fun d => Some (ALTERNATE_TIME_OFFSET_PROPERTIES_c1 d)); tlv_c2 := (fun c => Some (ALTERNATE_TIME_OFFSET_PROPERTIES_c2 c));
  c_up := C_T_ALTERNATE_TIME_OFFSET_PROPERTIES; c_cast c := match c with C_T_ALTERNATE_TIME_OFFSET_PROPERTIES d => Some d | _ => None end;
  c_zero := init_ALTERNATE_TIME_OFFSET_PROPERTIES }.
#[global] Instance CConv_TRANSPARENT_CLOCK_PORT_DATA_SET : CConv TRANSPARENT_CLOCK_PORT_DATA_SET_t TRANSPARENT_CLOCK_PORT_DATA_SET_t := {
  tlv_c1 := (fun d => Some (TRANSPARENT_CLOCK_PORT_DATA_SET_c1 d)); tlv_c2 := (fun c => Some (TRANSPARENT_CLOCK_PORT_DATA_SET_c2 c));
  c_up := C_T_TRANSPARENT_CLOCK_PORT_DATA_SET; c_cast c := match c with C_T_TRANSPARENT_CLOCK_PORT_DATA_SET d => Some d | _ => None end;
  c_zero := init_TRANSPARENT_CLOCK_PORT_DATA_SET }.
#[global] Instance CConv_LOG_MIN_PDELAY_REQ_INTERVAL : CConv LOG_MIN_PDELAY_REQ_INTERVAL_t LOG_MIN_PDELAY_REQ_INTERVAL_t := {
  tlv_c1 := (fun d => Some (LOG_MIN_PDELAY_REQ_INTERVAL_c1 d)); tlv_c2 := (fun c => Some (LOG_MIN_PDELAY_REQ_INTERVAL_c2 c));
  c_up := C_T_LOG_MIN_PDELAY_REQ_INTERVAL; c_cast c := match c with C_T_LOG_MIN_PDELAY_REQ_INTERVAL d => Some d | _ => None end;
  c_zero := init_LOG_MIN_PDELAY_REQ_INTERVAL }.
#[global] Instance CConv_TRANSPARENT_CLOCK_DEFAULT_DATA_SET : CConv TRANSPARENT_CLOCK_DEFAULT_DATA_SET_t TRANSPARENT_CLOCK_DEFAULT_DATA_SET_t := {
  tlv_c1 := (fun d => Some (TRANSPARENT_CLOCK_DEFAULT_DATA_SET_c1 d)); tlv_c2 := (fun c => Some (TRANSPARENT_CLOCK_DEFAULT_DATA_SET_c2 c));
  c_up := C_T_TRANSPARENT_CLOCK_DEFAULT_DATA_SET; c_cast c := match c with C_T_TRANSPARENT_CLOCK_DEFAULT_DATA_SET d => Some d | _ => None end;
  c_zero := init_TRANSPARENT_CLOCK_DEFAULT_DATA_SET }.
#[global] Instance CConv_PRIMARY_DOMAIN : CConv PRIMARY_DOMAIN_t PRIMARY_DOMAIN_t := {
  tlv_c1 := (fun d => Some (PRIMARY_DOMAIN_c1 d)); tlv_c2 := (fun c => Some (PRIMARY_DOMAIN_c2 c));
  c_up := C_T_PRIMARY_DOMAIN; c_cast c := match c with C_T_PRIMARY_DOMAIN d => Some d | _ => None end;
  c_zero := init_PRIMARY_DOMAIN }.
#[global] Instance CConv_DELAY_MECHANISM : CConv DELAY_MECHANISM_t DELAY_MECHANISM_t := {
  tlv_c1 := (fun d => Some (DELAY_MECHANISM_c1 d)); tlv_c2 := (fun c => Some (DELAY_MECHANISM_c2 c));
  c_up := C_T_DELAY_MECHANISM; c_cast c := match c with C_T_DELAY_MECHANISM d => Some d | _ => None end;
  c_zero := init_DELAY_MECHANISM }.
#[global] Instance CConv_EXTERNAL_PORT_CONFIGURATION_ENABLED : CConv EXTERNAL_PORT_CONFIGURATION_ENABLED_t EXTERNAL_PORT_CONFIGURATION_ENABLED_t := {
  tlv_c1 := (fun d => Some (EXTERNAL_PORT_CONFIGURATION_ENABLED_c1 d)); tlv_c2 := (fun c => Some (EXTERNAL_PORT_CONFIGURATION_ENABLED_c2 c));
  c_up := C_T_EXTERNAL_PORT_CONFIGURATION_ENABLED; c_cast c := match c with C_T_EXTERNAL_PORT_CONFIGURATION_ENABLED d => Some d | _ => None end;
  c_zero := init_EXTERNAL_PORT_CONFIGURATION_ENABLED }.
#[global] Instance CConv_MASTER_ONLY : CConv MASTER_ONLY_t MASTER_ONLY_t := {
  tlv_c1 := (fun d => Some (MASTER_ONLY_c1 d)); tlv_c2 := (fun c => Some (MASTER_ONLY_c2 c));
  c_up := C_T_MASTER_ONLY; c_cast c := match c with C_T_MASTER_ONLY d => Some d | _ => None end;
  c_zero := init_MASTER_ONLY }.
#[global] Instance CConv_HOLDOVER_UPGRADE_ENABLE : CConv HOLDOVER_UPGRADE_ENABLE_t HOLDOVER_UPGRADE_ENABLE_t := {
  tlv_c1 := (fun d => Some (HOLDOVER_UPGRADE_ENABLE_c1 d)); tlv_c2 := (fun c => Some (HOLDOVER_UPGRADE_ENABLE_c2 c));
  c_up := C_T_HOLDOVER_UPGRADE_ENABLE; c_cast c := match c with C_T_HOLDOVER_UPGRADE_ENABLE d => Some d | _ => None end;
  c_zero := init_HOLDOVER_UPGRADE_ENABLE }.
#[global] Instance CConv_EXT_PORT_CONFIG_PORT_DATA_SET : CConv EXT_PORT_CONFIG_PORT_DATA_SET_t EXT_PORT_CONFIG_PORT_DATA_SET_t := {
  tlv_c1 := (fun d => Some (EXT_PORT_CONFIG_PORT_DATA_SET_c1 d)); tlv_c2 := (fun c => Some (EXT_PORT_CONFIG_PORT_DATA_SET_c2 c));
  c_up := C_T_EXT_PORT_CONFIG_PORT_DATA_SET; c_cast c := match c with C_T_EXT_PORT_CONFIG_PORT_DATA_SET d => Some d | _ => None end;
  c_zero := init_EXT_PORT_CONFIG_PORT_DATA_SET }.
#[global] Instance CConv_TIME_STATUS_NP : CConv TIME_STATUS_NP_t TIME_STATUS_NP_t := {
  tlv_c1 := (fun d => Some (TIME_STATUS_NP_c1 d)); tlv_c2 := (fun c => Some (TIME_STATUS_NP_c2 c));
  c_up := C_T_TIME_STATUS_NP; c_cast c := match c with C_T_TIME_STATUS_NP d => Some d | _ => None end;
  c_zero := init_TIME_STATUS_NP }.
#[global] Instance CConv_GRANDMASTER_SETTINGS_NP : CConv GRANDMASTER_SETTINGS_NP_t GRANDMASTER_SETTINGS_NP_t := {
  tlv_c1 := (fun d => Some (GRANDMASTER_SETTINGS_NP_c1 d)); tlv_c2 := (fun c => Some (GRANDMASTER_SETTINGS_NP_c2 c));
  c_up := C_T_GRANDMASTER_SETTINGS_NP; c_cast c := match c with C_T_GRANDMASTER_SETTINGS_NP d => Some d | _ => None end;
  c_zero := init_GRANDMASTER_SETTINGS_NP }.
#[global] Instance CConv_PORT_DATA_SET_NP : CConv PORT_DATA_SET_NP_t PORT_DATA_SET_NP_t := {
  tlv_c1 := (fun d => Some (PORT_DATA_SET_NP_c1 d)); tlv_c2 := (fun c => Some (PORT_DATA_SET_NP_c2 c));
  c_up := C_T_PORT_DATA_SET_NP; c_cast c := match c with C_T_PORT_DATA_SET_NP d => Some d | _ => None end;
  c_zero := init_PORT_DATA_SET_NP }.
#[global] Instance CConv_SUBSCRIBE_EVENTS_NP : CConv SUBSCRIBE_EVENTS_NP_t SUBSCRIBE_EVENTS_NP_t := {
  tlv_c1 := (fun d => Some (SUBSCRIBE_EVENTS_NP_c1 d)); tlv_c2 := (fun c => Some (SUBSCRIBE_EVENTS_NP_c2 c));
  c_up := C_T_SUBSCRIBE_EVENTS_NP; c_cast c := match c with C_T_SUBSCRIBE_EVENTS_NP d => Some d | _ => None end;
  c_zero := init_SUBSCRIBE_EVENTS_NP }.
#[global] Instance CConv_PORT_PROPERTIES_NP : CConv PORT_PROPERTIES_NP_t C_PORT_PROPERTIES_NP := {
  tlv_c1 := (fun d => Some (PORT_PROPERTIES_NP_c1 d)); tlv_c2 := PORT_PROPERTIES_NP_c2;
  c_up := C_T_PORT_PROPERTIES_NP; c_cast c := match c with C_T_PORT_PROPERTIES_NP d => Some d | _ => None end;
  c_zero := mk_C_PORT_PROPERTIES_NP zero_PortIdentity 0 0 zero_C_PTPText }.
#[global] Instance CConv_PORT_STATS_NP : CConv PORT_STATS_NP_t PORT_STATS_NP_t := {
  tlv_c1 := (fun d => Some (PORT_STATS_NP_c1 d)); tlv_c2 := (fun c => Some (PORT_STATS_NP_c2 c));
  c_up := C_T_PORT_STATS_NP; c_cast c := match c with C_T_PORT_STATS_NP d => Some d | _ => None end;
  c_zero := init_PORT_STATS_NP }.
#[global] Instance CConv_SYNCHRONIZATION_UNCERTAIN_NP : CConv SYNCHRONIZATION_UNCERTAIN_NP_t SYNCHRONIZATION_UNCERTAIN_NP_t := {
  tlv_c1 := (fun d => Some (SYNCHRONIZATION_UNCERTAIN_NP_c1 d)); tlv_c2 := (fun c => Some (SYNCHRONIZATION_UNCERTAIN_NP_c2 c));
  c_up := C_T_SYNCHRONIZATION_UNCERTAIN_NP; c_cast c := match c with C_T_SYNCHRONIZATION_UNCERTAIN_NP d => Some d | _ => None end;
  c_zero := init_SYNCHRONIZATION_UNCERTAIN_NP }.
#[global] Instance CConv_PORT_SERVICE_STATS_NP : CConv PORT_SERVICE_STATS_NP_t PORT_SERVICE_STATS_NP_t := {
  tlv_c1 := (fun d => Some (PORT_SERVICE_STATS_NP_c1 d)); tlv_c2 := (fun c => Some (PORT_SERVICE_STATS_NP_c2 c));
  c_up := C_T_PORT_SERVICE_STATS_NP; c_cast c := match c with C_T_PORT_SERVICE_STATS_NP d => Some d | _ => None end;
  c_zero := init_PORT_SERVICE_STATS_NP }.
#[global] Instance CConv_UNICAST_MASTER_TABLE_NP : CConv UNICAST_MASTER_TABLE_NP_t C_UNICAST_MASTER_TABLE_NP := {
  tlv_c1 := UNICAST_MASTER_TABLE_NP_c1; tlv_c2 := UNICAST_MASTER_TABLE_NP_c2;
  c_up := C_T_UNICAST_MASTER_TABLE_NP; c_cast c := match c with C_T_UNICAST_MASTER_TABLE_NP d => Some d | _ => None end;
  c_zero := mk_C_UNICAST_MASTER_TABLE_NP 0 P_null }.
#[global] Instance CConv_PORT_HWCLOCK_NP : CConv PORT_HWCLOCK_NP_t PORT_HWCLOCK_NP_t := {
  tlv_c1 := (fun d => Some (PORT_HWCLOCK_NP_c1 d)); tlv_c2 := (fun c => Some (PORT_HWCLOCK_NP_c2 c));
  c_up := C_T_PORT_HWCLOCK_NP; c_cast c := match c with C_T_PORT_HWCLOCK_NP d => Some d | _ => None end;
  c_zero := init_PORT_HWCLOCK_NP }.
#[global] Instance CConv_POWER_PROFILE_SETTINGS_NP : CConv POWER_PROFILE_SETTINGS_NP_t POWER_PROFILE_SETTINGS_NP_t := {
  tlv_c1 := (fun d => Some (POWER_PROFILE_SETTINGS_NP_c1 d)); tlv_c2 := (fun c => Some (POWER_PROFILE_SETTINGS_NP_c2 c));
  c_up := C_T_POWER_PROFILE_SETTINGS_NP; c_cast c := match c with C_T_POWER_PROFILE_SETTINGS_NP d => Some d | _ => None end;
  c_zero := init_POWER_PROFILE_SETTINGS_NP }.
#[global] Instance CConv_CMLDS_INFO_NP : CConv CMLDS_INFO_NP_t CMLDS_INFO_NP_t := {
  tlv_c1 := (fun d => Some (CMLDS_INFO_NP_c1 d)); tlv_c2 := (fun c => Some (CMLDS_INFO_NP_c2 c));
  c_up := C_T_CMLDS_INFO_NP; c_cast c := match c with C_T_CMLDS_INFO_NP d => Some d | _ => None end;
  c_zero := init_CMLDS_INFO_NP }.
#[global] Instance CConv_PORT_CORRECTIONS_NP : CConv PORT_CORRECTIONS_NP_t PORT_CORRECTIONS_NP_t := {
  tlv_c1 := (fun d => Some (PORT_CORRECTIONS_NP_c1 d)); tlv_c2 := (fun c => Some (PORT_CORRECTIONS_NP_c2 c));
  c_up := C_T_PORT_CORRECTIONS_NP; c_cast c := match c with C_T_PORT_CORRECTIONS_NP d => Some d | _ => None end;
  c_zero := init_PORT_CORRECTIONS_NP }.
#[global] Instance CConv_EXTERNAL_GRANDMASTER_PROPERTIES_NP : CConv EXTERNAL_GRANDMASTER_PROPERTIES_NP_t EXTERNAL_GRANDMASTER_PROPERTIES_NP_t := {
  tlv_c1 := (fun d => Some (EXTERNAL_GRANDMASTER_PROPERTIES_NP_c1 d)); tlv_c2 := (fun c => Some (EXTERNAL_GRANDMASTER_PROPERTIES_NP_c2 c));
  c_up := C_T_EXTERNAL_GRANDMASTER_PROPERTIES_NP; c_cast c := match c with C_T_EXTERNAL_GRANDMASTER_PROPERTIES_NP d => Some d | _ => None end;
  c_zero := init_EXTERNAL_GRANDMASTER_PROPERTIES_NP }.

Inductive ctlv_case :=
| CCaseNA
| CCaseUF (D C : Type) (inst : MngTlv D) (conv : CConv D C).

Definition ctlv_case_of (id : mng_vals_e) : ctlv_case :=
  match id with
  | CLOCK_DESCRIPTION => CCaseUF CLOCK_DESCRIPTION_t C_CLOCK_DESCRIPTION _ _
  | USER_DESCRIPTION => CCaseUF USER_DESCRIPTION_t C_USER_DESCRIPTION _ _
  | INITIALIZE => CCaseUF INITIALIZE_t INITIALIZE_t _ _
  | FAULT_LOG => CCaseUF FAULT_LOG_t C_FAULT_LOG _ _
  | DEFAULT_DATA_SET => CCaseUF DEFAULT_DATA_SET_t DEFAULT_DATA_SET_t _ _
  | CURRENT_DATA_SET => CCaseUF CURRENT_DATA_SET_t CURRENT_DATA_SET_t _ _
  | PARENT_DATA_SET => CCaseUF PARENT_DATA_SET_t PARENT_DATA_SET_t _ _
  | TIME_PROPERTIES_DATA_SET => CCaseUF TIME_PROPERTIES_DATA_SET_t TIME_PROPERTIES_DATA_SET_t _ _
  | PORT_DATA_SET => CCaseUF PORT_DATA_SET_t PORT_DATA_SET_t _ _
  | PRIORITY1 => CCaseUF PRIORITY1_t PRIORITY1_t _ _
  | PRIORITY2 => CCaseUF PRIORITY2_t PRIORITY2_t _ _
  | DOMAIN => CCaseUF DOMAIN_t DOMAIN_t _ _
  | SLAVE_ONLY => CCaseUF SLAVE_ONLY_t SLAVE_ONLY_t _ _
  | LOG_ANNOUNCE_INTERVAL => CCaseUF LOG_ANNOUNCE_INTERVAL_t LOG_ANNOUNCE_INTERVAL_t _ _
  | ANNOUNCE_RECEIPT_TIMEOUT => CCaseUF ANNOUNCE_RECEIPT_TIMEOUT_t ANNOUNCE_RECEIPT_TIMEOUT_t _ _
  | LOG_SYNC_INTERVAL => CCaseUF LOG_SYNC_INTERVAL_t LOG_SYNC_INTERVAL_t _ _
  | VERSION_NUMBER => CCaseUF VERSION_NUMBER_t VERSION_NUMBER_t _ _
  | TIME => CCaseUF TIME_t TIME_t _ _
  | CLOCK_ACCURACY => CCaseUF CLOCK_ACCURACY_t CLOCK_ACCURACY_t _ _
  | UTC_PROPERTIES => CCaseUF UTC_PROPERTIES_t UTC_PROPERTIES_t _ _
  | TRACEABILITY_PROPERTIES => CCaseUF TRACEABILITY_PROPERTIES_t TRACEABILITY_PROPERTIES_t _ _
  | TIMESCALE_PROPERTIES => CCaseUF TIMESCALE_PROPERTIES_t TIMESCALE_PROPERTIES_t _ _
  | UNICAST_NEGOTIATION_ENABLE => CCaseUF UNICAST_NEGOTIATION_ENABLE_t UNICAST_NEGOTIATION_ENABLE_t _ _
  | PATH_TRACE_LIST => CCaseUF PATH_TRACE_LIST_t C_PATH_TRACE_LIST _ _
  | PATH_TRACE_ENABLE => CCaseUF PATH_TRACE_ENABLE_t PATH_TRACE_ENABLE_t _ _
  | GRANDMASTER_CLUSTER_TABLE => CCaseUF GRANDMASTER_CLUSTER_TABLE_t C_GRANDMASTER_CLUSTER_TABLE _ _
  | UNICAST_MASTER_TABLE => CCaseUF UNICAST_MASTER_TABLE_t C_UNICAST_MASTER_TABLE _ _
  | UNICAST_MASTER_MAX_TABLE_SIZE => CCaseUF UNICAST_MASTER_MAX_TABLE_SIZE_t UNICAST_MASTER_MAX_TABLE_SIZE_t _ _
  | ACCEPTABLE_MASTER_TABLE => CCaseUF ACCEPTABLE_MASTER_TABLE_t C_ACCEPTABLE_MASTER_TABLE _ _
  | ACCEPTABLE_MASTER_TABLE_ENABLED => CCaseUF ACCEPTABLE_MASTER_TABLE_ENABLED_t ACCEPTABLE_MASTER_TABLE_ENABLED_t _ _
  | ACCEPTABLE_MASTER_MAX_TABLE_SIZE => CCaseUF ACCEPTABLE_MASTER_MAX_TABLE_SIZE_t ACCEPTABLE_MASTER_MAX_TABLE_SIZE_t _ _
  | ALTERNATE_MASTER => CCaseUF ALTERNATE_MASTER_t ALTERNATE_MASTER_t _ _
  | ALTERNATE_TIME_OFFSET_ENABLE => CCaseUF ALTERNATE_TIME_OFFSET_ENABLE_t ALTERNATE_TIME_OFFSET_ENABLE_t _ _
  | ALTERNATE_TIME_OFFSET_NAME => CCaseUF ALTERNATE_TIME_OFFSET_NAME_t C_ALTERNATE_TIME_OFFSET_NAME _ _
  | ALTERNATE_TIME_OFFSET_MAX_KEY => CCaseUF ALTERNATE_TIME_OFFSET_MAX_KEY_t ALTERNATE_TIME_OFFSET_MAX_KEY_t _ _
  | ALTERNATE_TIME_OFFSET_PROPERTIES => CCaseUF ALTERNATE_TIME_OFFSET_PROPERTIES_t ALTERNATE_TIME_OFFSET_PROPERTIES_t _ _
  | TRANSPARENT_CLOCK_PORT_DATA_SET => CCaseUF TRANSPARENT_CLOCK_PORT_DATA_SET_t TRANSPARENT_CLOCK_PORT_DATA_SET_t _ _
  | LOG_MIN_PDELAY_REQ_INTERVAL => CCaseUF LOG_MIN_PDELAY_REQ_INTERVAL_t LOG_MIN_PDELAY_REQ_INTERVAL_t _ _
  | TRANSPARENT_CLOCK_DEFAULT_DATA_SET => CCaseUF TRANSPARENT_CLOCK_DEFAULT_DATA_SET_t TRANSPARENT_CLOCK_DEFAULT_DATA_SET_t _ _
  | PRIMARY_DOMAIN => CCaseUF PRIMARY_DOMAIN_t PRIMARY_DOMAIN_t _ _
  | DELAY_MECHANISM => CCaseUF DELAY_MECHANISM_t DELAY_MECHANISM_t _ _
  | EXTERNAL_PORT_CONFIGURATION_ENABLED => CCaseUF EXTERNAL_PORT_CONFIGURATION_ENABLED_t EXTERNAL_PORT_CONFIGURATION_ENABLED_t _ _
  | MASTER_ONLY => CCaseUF MASTER_ONLY_t MASTER_ONLY_t _ _
  | HOLDOVER_UPGRADE_ENABLE => CCaseUF HOLDOVER_UPGRADE_ENABLE_t HOLDOVER_UPGRADE_ENABLE_t _ _
  | EXT_PORT_CONFIG_PORT_DATA_SET => CCaseUF EXT_PORT_CONFIG_PORT_DATA_SET_t EXT_PORT_CONFIG_PORT_DATA_SET_t _ _
  | TIME_STATUS_NP => CCaseUF TIME_STATUS_NP_t TIME_STATUS_NP_t _ _
  | GRANDMASTER_SETTINGS_NP => CCaseUF GRANDMASTER_SETTINGS_NP_t GRANDMASTER_SETTINGS_NP_t _ _
  | PORT_DATA_SET_NP => CCaseUF PORT_DATA_SET_NP_t PORT_DATA_SET_NP_t _ _
  | SUBSCRIBE_EVENTS_NP => CCaseUF SUBSCRIBE_EVENTS_NP_t SUBSCRIBE_EVENTS_NP_t _ _
  | PORT_PROPERTIES_NP => CCaseUF PORT_PROPERTIES_NP_t C_PORT_PROPERTIES_NP _ _
  | PORT_STATS_NP => CCaseUF PORT_STATS_NP_t PORT_STATS_NP_t _ _
  | SYNCHRONIZATION_UNCERTAIN_NP => CCaseUF SYNCHRONIZATION_UNCERTAIN_NP_t SYNCHRONIZATION_UNCERTAIN_NP_t _ _
  | PORT_SERVICE_STATS_NP => CCaseUF PORT_SERVICE_STATS_NP_t PORT_SERVICE_STATS_NP_t _ _
  | UNICAST_MASTER_TABLE_NP => CCaseUF UNICAST_MASTER_TABLE_NP_t C_UNICAST_MASTER_TABLE_NP _ _
  | PORT_HWCLOCK_NP => CCaseUF PORT_HWCLOCK_NP_t PORT_HWCLOCK_NP_t _ _
  | POWER_PROFILE_SETTINGS_NP => CCaseUF POWER_PROFILE_SETTINGS_NP_t POWER_PROFILE_SETTINGS_NP_t _ _
  | CMLDS_INFO_NP => CCaseUF CMLDS_INFO_NP_t CMLDS_INFO_NP_t _ _
  | PORT_CORRECTIONS_NP => CCaseUF PORT_CORRECTIONS_NP_t PORT_CORRECTIONS_NP_t _ _
  | EXTERNAL_GRANDMASTER_PROPERTIES_NP => CCaseUF EXTERNAL_GRANDMASTER_PROPERTIES_NP_t EXTERNAL_GRANDMASTER_PROPERTIES_NP_t _ _
  | _ => CCaseNA
  end.

(** [cpp2cSmpte]. *)
Definition cpp2cSmpte (t : BaseMngTlv) : option CMngTlv :=
  match t with
  | T_SMPTE_ORGANIZATION_EXTENSION d => Some (C_T_SMPTE_ORGANIZATION_EXTENSION (cpp2cSmpte_c1 d))
  | _ => None
  end.

(** [cpp2cMngTlv] of an object: [None] is the null pointer. *)
Definition cpp2cMngTlv (id : mng_vals_e) (t : BaseMngTlv) : option CMngTlv :=
  match ctlv_case_of id with
  | CCaseUF D C inst conv => d ← tlv_cast t; c_up <$> tlv_c1 d
  | CCaseNA => if bool_decide (id = SMPTE_MNG_ID) then cpp2cSmpte t else None
  end.

(** [c2cppMngTlv]: [Some None] is the null pointer. *)
Definition c2cppMngTlv (id : mng_vals_e) (tlv : option CMngTlv) : option (option BaseMngTlv) :=
  match ctlv_case_of id with
  | CCaseNA => Some None
  | CCaseUF D C inst conv =>
      match tlv with
      | None => Some None
      | Some t => c ← c_cast t; d ← tlv_c2 c; Some (Some (tlv_up d))
      end
  end.
