(* ===== verification/CTlvsFacts.v ===== *)
(** * CTlvsFacts.v: a TLV converted to its C structure and back

    The two conversions of a TLV are inverse, up to the fields that building
    recomputes.  The property of one TLV is the interface [CConvSpec], beside
    [TlvSpec]; the theorem on the dispatch is proved against it. *)

From S2P Require Import Prelude Types Ids MsgProc Codec Structs MngTlvs MngTlvsSpec Dispatch CTlvs.

(** ** Arrays and pointers *)

Lemma memcpy_all {A} n (l : list A) : len l = n -> memcpy n l = l.
Proof. intros H. unfold memcpy, len in *. apply take_ge. lia. Qed.
Lemma memcpy_ClockIdentity_all d : wf_ClockIdentity d -> memcpy_ClockIdentity d = d.
Proof.
  destruct d as [v]. unfold wf_ClockIdentity, memcpy_ClockIdentity. cbn. intros H.
  rewrite memcpy_all; [done|]. unfold len. by rewrite H.
Qed.
Lemma memcpy_length {A} n (l : list A) : length l = Z.to_nat n -> memcpy n l = l.
Proof. intros H. unfold memcpy. apply take_ge. lia. Qed.
(** A copy of a copy. *)
Lemma memcpy_twice {A} n (l : list A) : memcpy n (memcpy n l) = memcpy n l.
Proof. unfold memcpy. rewrite take_take. by rewrite Nat.min_id. Qed.
Lemma memcpy_ClockIdentity_twice d :
  memcpy_ClockIdentity (memcpy_ClockIdentity d) = memcpy_ClockIdentity d.
Proof. unfold memcpy_ClockIdentity. cbn. by rewrite memcpy_twice. Qed.
Lemma read_n_app {A} n (l r : list A) : len l = n -> read_n n (l ++ r) = Some l.
Proof.
  intros H. unfold read_n. rewrite len_app. pose proof (len_nonneg r).
  destruct (Z.leb_spec n (len l + len r)); [|lia]. f_equal. apply take_app_length'.
  unfold len in H. lia.
Qed.
Lemma read_n_all {A} n (l : list A) : len l = n -> read_n n l = Some l.
Proof. intros H. pose proof (read_n_app n l [] H) as E. by rewrite app_nil_r in E. Qed.

Lemma len_map {A B} (f : A -> B) l : len (map f l) = len l.
Proof. unfold len. by rewrite length_map. Qed.

(** ** A conversion and its inverse *)

(** [c2] after [c1] gives a value with the same normal form, and the value
    itself when that is normal. *)
Definition back {A C} (c1 : A -> C) (c2 : C -> option A) (norm : A -> A) (a : A) : Prop :=
  exists a', c2 (c1 a) = Some a' /\ norm a' = norm a /\ (norm a = a -> a' = a).

Lemma back_exact {A C} (c1 : A -> C) c2 norm a : c2 (c1 a) = Some a -> back c1 c2 norm a.
Proof. intros H. by exists a. Qed.

Lemma back_norm {A C} (c1 : A -> C) c2 norm a :
  c2 (c1 a) = Some (norm a) -> norm (norm a) = norm a -> back c1 c2 norm a.
Proof. intros H N. by exists (norm a). Qed.

Lemma back_list {A C} (c1 : A -> C) c2 norm l :
  Forall (back c1 c2 norm) l -> back (map c1) (mapM c2) (map norm) l.
Proof.
  induction 1 as [|a l (a' & E & N & S) _ (l' & El & Nl & Sl)]; [by exists []|].
  exists (a' :: l'). cbn. rewrite E. cbn. rewrite El. cbn. rewrite N, Nl.
  split; [done|]. split; [done|]. intros [= Ha Hl]. by rewrite S, Sl.
Qed.

(** A table: the count that [C1_tbl] checks is the one that [_c2] reads. *)
Lemma C1_tbl_table {A C} (f : A -> C) n l :
  n = len l -> exists m, C1_tbl f n l = Some m /\ c_table n m = Some (map f l).
Proof.
  intros ->. unfold C1_tbl. rewrite Z.eqb_refl. cbn [negb]. pose proof (len_nonneg l).
  destruct (Z.eqb_spec (len l) 0) as [E|E].
  - exists P_unset. split; [done|]. unfold c_table. rewrite E.
    destruct l; [done|unfold len in E; cbn in E; lia].
  - exists (P_to (map f l)). split; [done|]. unfold c_table.
    destruct (Z.leb_spec (len l) 0); [lia|]. apply read_n_all. apply len_map.
Qed.

Lemma C1_tbl_error {A C} (f : A -> C) n l : n <> len l -> C1_tbl f n l = None.
Proof. intros H. unfold C1_tbl. by destruct (Z.eqb_spec n (len l)). Qed.

Lemma back_table {A C} (c1 : A -> C) c2 norm n l :
  Forall (back c1 c2 norm) l -> n = len l ->
  exists m r l', C1_tbl c1 n l = Some m /\ c_table n m = Some r /\ mapM c2 r = Some l' /\
    len l' = len l /\ map norm l' = map norm l /\ (map norm l = l -> l' = l).
Proof.
  intros F H. destruct (back_list _ _ _ _ F) as (l' & E & N & S).
  destruct (C1_tbl_table c1 n l H) as (m & E1 & E2). exists m, (map c1 l), l'.
  do 3 (split; [done|]). split; [|done].
  rewrite <- (len_map norm l'), N. apply len_map.
Qed.

(** ** The basic structures *)

Lemma PTPText_back d :
  wf_PTPText d -> c2_st_PTPText (c1_st_PTPText d) = Some (norm_PTPText d).
Proof.
  destruct d as [n t]. unfold wf_PTPText, c1_st_PTPText, c2_st_PTPText, norm_PTPText. cbn. intros H.
  pose proof (len_nonneg t). destruct (Z.ltb_spec 0 (len t)).
  - rewrite Z.min_l by lia. destruct (Z.ltb_spec 0 (len t)); [|lia]. by rewrite read_n_app.
  - destruct t; [done|]. unfold len in *. cbn in *. lia.
Qed.

Lemma Binary_back l :
  uint 16 (len l) ->
  c2_st_Binary (fst (c1_st_Binary l)) (snd (c1_st_Binary l)) = Some (len l, l).
Proof.
  intros H. unfold c1_st_Binary, c2_st_Binary. rewrite uwrap_small by done. cbn.
  destruct (Z.ltb_spec 0 (len l)) as [L|L].
  - destruct (Z.ltb_spec 0 (len l)); [|lia]. by rewrite read_n_all.
  - destruct l; [done|]. unfold len in *. cbn in *. lia.
Qed.

Lemma PortAddress_back d :
  wf_PortAddress d -> c2_st_PortAddress (c1_st_PortAddress d) = Some (norm_PortAddress d).
Proof.
  intros [H1 H2]. pose proof (Binary_back _ H2) as B. unfold c1_st_PortAddress, c2_st_PortAddress.
  destruct (c1_st_Binary (addressField d)) as [n p]. cbn in *. rewrite B.
  by rewrite uwrap_small.
Qed.

Lemma ClockQuality_back d :
  wf_ClockQuality d -> c2_st_ClockQuality (c1_st_ClockQuality d) = d.
Proof.
  destruct d. unfold wf_ClockQuality, c2_st_ClockQuality, c1_st_ClockQuality. cbn.
  intros (? & ? & ?). by rewrite uwrap_small.
Qed.

Lemma PortIdentity_back d :
  wf_PortIdentity d -> c2_st_PortIdentity (c1_st_PortIdentity d) = d.
Proof.
  destruct d. intros [? _]. unfold c2_st_PortIdentity, c1_st_PortIdentity. cbn in *.
  by rewrite !memcpy_ClockIdentity_all by (rewrite ?memcpy_ClockIdentity_all; done).
Qed.

Lemma TimeInterval_eta d : mk_TimeInterval (scaledNanoseconds d) = d.
Proof. by destruct d. Qed.
Lemma Timestamp_eta d : mk_Timestamp (secondsField d) (nanosecondsField d) = d.
Proof. by destruct d. Qed.

(** Rewriting with the lemmas of the basic structures, under their ranges. *)
Create Rewrite HintDb cconv.
#[export] Hint Rewrite @memcpy_twice memcpy_ClockIdentity_twice @memcpy_all @memcpy_length memcpy_ClockIdentity_all uwrap_small PTPText_back
  PortAddress_back TimeInterval_eta Timestamp_eta ClockQuality_back PortIdentity_back using (first [done|lia]) : cconv.

Ltac conv_fields :=
  wf_split; cbn -[len memcpy uwrap c1_st_PTPText c2_st_PTPText c1_st_PortAddress
    c2_st_PortAddress c1_st_ClockQuality c2_st_ClockQuality c1_st_PortIdentity
    c2_st_PortIdentity memcpy_ClockIdentity] in *;
  autorewrite with cconv; cbn -[len].

Lemma FaultRecord_back d :
  wf_FaultRecord d -> back c1_FaultRecord c2_FaultRecord norm_FaultRecord d.
Proof.
  intros H. exists (mk_FaultRecord (faultRecordLength d) (faultTime d) (severityCode d)
    (norm_PTPText (faultName d)) (norm_PTPText (faultValue d))
    (norm_PTPText (faultDescription d))).
  split; [|split; [done|]].
  - destruct d as [n [t1 t2] s f1 f2 f3]. unfold wf_FaultRecord in H. cbn in H.
    unfold c2_FaultRecord, c1_FaultRecord. by conv_fields.
  - intros E. pose proof E as E2. unfold norm_FaultRecord in E2. rewrite <- E2 at 2.
    f_equal. by rewrite <- E.
Qed.

Lemma AcceptableMaster_back d :
  wf_AcceptableMaster d -> c2_AcceptableMaster (c1_AcceptableMaster d) = d.
Proof.
  destruct d. unfold wf_AcceptableMaster, c2_AcceptableMaster, c1_AcceptableMaster. cbn. intros.
  by conv_fields.
Qed.

Lemma LinuxptpUnicastMaster_back d :
  wf_LinuxptpUnicastMaster d ->
  back c1_LinuxptpUnicastMaster c2_LinuxptpUnicastMaster norm_LinuxptpUnicastMaster d.
Proof.
  destruct d. intros H. apply back_norm; [|done].
  unfold wf_LinuxptpUnicastMaster, c2_LinuxptpUnicastMaster, c1_LinuxptpUnicastMaster,
    norm_LinuxptpUnicastMaster in *. cbn in H. by conv_fields.
Qed.

(** ** The identities of a path *)

(** [PATH_TRACE_LIST_c2] stops at the first zero identity. *)
Fixpoint before_zero (l : list ClockIdentity_t) : list ClockIdentity_t :=
  match l with
  | [] => []
  | v :: l => if zero_identity v then [] else v :: before_zero l
  end.

Lemma path_loop_before l :
  Forall wf_ClockIdentity l -> path_loop (l ++ [zero_ClockIdentity]) = Some (before_zero l).
Proof.
  induction 1 as [|v l H _ IH]; [done|]. cbn [app path_loop before_zero].
  destruct (zero_identity v); [done|]. rewrite IH. cbn. by rewrite memcpy_ClockIdentity_all.
Qed.

Lemma before_zero_all l : Forall (fun v => zero_identity v = false) l -> before_zero l = l.
Proof. induction 1 as [|v l H _ IH]; [done|]. cbn. by rewrite H, IH. Qed.

Lemma path_trace_back d :
  wf_PATH_TRACE_LIST d ->
  PATH_TRACE_LIST_c2 (PATH_TRACE_LIST_c1 d) =
    Some (mk_PATH_TRACE_LIST (before_zero (ptl_pathSequence d))).
Proof.
  intros H. unfold PATH_TRACE_LIST_c2, PATH_TRACE_LIST_c1. cbn [c_ptl_pathSequence].
  by rewrite path_loop_before.
Qed.

(** ** The interface *)

(** What the C structure can hold: the counts of the tables are the sizes of
    the lists, and no identity of a path is zero. *)
Definition c_able (t : BaseMngTlv) : Prop :=
  match t with
  | T_FAULT_LOG d => fl_numberOfFaultRecords d = len (fl_faultRecords d)
  | T_GRANDMASTER_CLUSTER_TABLE d => gct_actualTableSize d = len (gct_PortAddress d)
  | T_UNICAST_MASTER_TABLE d => umt_actualTableSize d = len (umt_PortAddress d)
  | T_ACCEPTABLE_MASTER_TABLE d => amt_actualTableSize d = len (amt_list d)
  | T_UNICAST_MASTER_TABLE_NP d => umn_actualTableSize d = len (umn_unicastMasters d)
  | T_PATH_TRACE_LIST d => Forall (fun v => zero_identity v = false) (ptl_pathSequence d)
  | _ => True
  end.

Class CConvSpec (D C : Type) (inst : MngTlv D) (conv : CConv D C) (spec : TlvSpec D inst) := {
  c_cast_up c : c_cast (c_up c) = Some c;
  conv_back d : tlv_wf d -> c_able (tlv_up d) ->
    exists c d', tlv_c1 d = Some c /\ tlv_c2 c = Some d' /\ tlv_norm d' = tlv_norm d /\
      (tlv_norm d = d -> d' = d)
}.

(** A TLV whose [_c1] cannot fail. *)
Lemma conv_back_simple {D C} (c1 : D -> C) (c2 : C -> option D) (norm : D -> D) d :
  back c1 c2 norm d ->
  exists c d', Some (c1 d) = Some c /\ c2 c = Some d' /\ norm d' = norm d /\ (norm d = d -> d' = d).
Proof. intros (d' & ?). by exists (c1 d), d'. Qed.

(** A structure without a pointer comes back unchanged, one with a text or an
    address comes back in its normal form. *)
Ltac conv_exact d :=
  destruct d; cbn in *; intros;
  first [apply back_exact; by conv_fields | apply back_norm; [by conv_fields|done]].

Lemma USER_DESCRIPTION_back d :
  wf_USER_DESCRIPTION d -> back USER_DESCRIPTION_c1 USER_DESCRIPTION_c2 norm_USER_DESCRIPTION d.
Proof. unfold wf_USER_DESCRIPTION, USER_DESCRIPTION_c1, USER_DESCRIPTION_c2, norm_USER_DESCRIPTION. conv_exact d. Qed.
#[global] Instance CConvSpec_USER_DESCRIPTION : CConvSpec USER_DESCRIPTION_t C_USER_DESCRIPTION _ _ TlvSpec_USER_DESCRIPTION := {
  c_cast_up c := eq_refl;
  conv_back d H _ := conv_back_simple _ _ _ d (USER_DESCRIPTION_back d H) }.
Lemma INITIALIZE_back d :
  wf_INITIALIZE d -> back INITIALIZE_c1 (fun c => Some (INITIALIZE_c2 c)) norm_INITIALIZE d.
Proof. unfold wf_INITIALIZE, INITIALIZE_c1, INITIALIZE_c2, norm_INITIALIZE. conv_exact d. Qed.
#[global] Instance CConvSpec_INITIALIZE : CConvSpec INITIALIZE_t INITIALIZE_t _ _ TlvSpec_INITIALIZE := {
  c_cast_up c := eq_refl;
  conv_back d H _ := conv_back_simple _ _ _ d (INITIALIZE_back d H) }.
Lemma DEFAULT_DATA_SET_back d :
  wf_DEFAULT_DATA_SET d -> back DEFAULT_DATA_SET_c1 (fun c => Some (DEFAULT_DATA_SET_c2 c)) norm_DEFAULT_DATA_SET d.
Proof. unfold wf_DEFAULT_DATA_SET, DEFAULT_DATA_SET_c1, DEFAULT_DATA_SET_c2, norm_DEFAULT_DATA_SET. conv_exact d. Qed.
#[global] Instance CConvSpec_DEFAULT_DATA_SET : CConvSpec DEFAULT_DATA_SET_t DEFAULT_DATA_SET_t _ _ TlvSpec_DEFAULT_DATA_SET := {
  c_cast_up c := eq_refl;
  conv_back d H _ := conv_back_simple _ _ _ d (DEFAULT_DATA_SET_back d H) }.
Lemma CURRENT_DATA_SET_back d :
  wf_CURRENT_DATA_SET d -> back CURRENT_DATA_SET_c1 (fun c => Some (CURRENT_DATA_SET_c2 c)) norm_CURRENT_DATA_SET d.
Proof. unfold wf_CURRENT_DATA_SET, CURRENT_DATA_SET_c1, CURRENT_DATA_SET_c2, norm_CURRENT_DATA_SET. conv_exact d. Qed.
#[global] Instance CConvSpec_CURRENT_DATA_SET : CConvSpec CURRENT_DATA_SET_t CURRENT_DATA_SET_t _ _ TlvSpec_CURRENT_DATA_SET := {
  c_cast_up c := eq_refl;
  conv_back d H _ := conv_back_simple _ _ _ d (CURRENT_DATA_SET_back d H) }.
Lemma PARENT_DATA_SET_back d :
  wf_PARENT_DATA_SET d -> back PARENT_DATA_SET_c1 (fun c => Some (PARENT_DATA_SET_c2 c)) norm_PARENT_DATA_SET d.
Proof. unfold wf_PARENT_DATA_SET, PARENT_DATA_SET_c1, PARENT_DATA_SET_c2, norm_PARENT_DATA_SET. conv_exact d. Qed.
#[global] Instance CConvSpec_PARENT_DATA_SET : CConvSpec PARENT_DATA_SET_t PARENT_DATA_SET_t _ _ TlvSpec_PARENT_DATA_SET := {
  c_cast_up c := eq_refl;
  conv_back d H _ := conv_back_simple _ _ _ d (PARENT_DATA_SET_back d H) }.
Lemma TIME_PROPERTIES_DATA_SET_back d :
  wf_TIME_PROPERTIES_DATA_SET d -> back TIME_PROPERTIES_DATA_SET_c1 (fun c => Some (TIME_PROPERTIES_DATA_SET_c2 c)) norm_TIME_PROPERTIES_DATA_SET d.
Proof. unfold wf_TIME_PROPERTIES_DATA_SET, TIME_PROPERTIES_DATA_SET_c1, TIME_PROPERTIES_DATA_SET_c2, norm_TIME_PROPERTIES_DATA_SET. conv_exact d. Qed.
#[global] Instance CConvSpec_TIME_PROPERTIES_DATA_SET : CConvSpec TIME_PROPERTIES_DATA_SET_t TIME_PROPERTIES_DATA_SET_t _ _ TlvSpec_TIME_PROPERTIES_DATA_SET := {
  c_cast_up c := eq_refl;
  conv_back d H _ := conv_back_simple _ _ _ d (TIME_PROPERTIES_DATA_SET_back d H) }.
Lemma PORT_DATA_SET_back d :
  wf_PORT_DATA_SET d -> back PORT_DATA_SET_c1 (fun c => Some (PORT_DATA_SET_c2 c)) norm_PORT_DATA_SET d.
Proof. unfold wf_PORT_DATA_SET, PORT_DATA_SET_c1, PORT_DATA_SET_c2, norm_PORT_DATA_SET. conv_exact d. Qed.
#[global] Instance CConvSpec_PORT_DATA_SET : CConvSpec PORT_DATA_SET_t PORT_DATA_SET_t _ _ TlvSpec_PORT_DATA_SET := {
  c_cast_up c := eq_refl;
  conv_back d H _ := conv_back_simple _ _ _ d (PORT_DATA_SET_back d H) }.
Lemma PRIORITY1_back d :
  wf_PRIORITY1 d -> back PRIORITY1_c1 (fun c => Some (PRIORITY1_c2 c)) norm_PRIORITY1 d.
Proof. unfold wf_PRIORITY1, PRIORITY1_c1, PRIORITY1_c2, norm_PRIORITY1. conv_exact d. Qed.
#[global] Instance CConvSpec_PRIORITY1 : CConvSpec PRIORITY1_t PRIORITY1_t _ _ TlvSpec_PRIORITY1 := {
  c_cast_up c := eq_refl;
  conv_back d H _ := conv_back_simple _ _ _ d (PRIORITY1_back d H) }.
Lemma PRIORITY2_back d :
  wf_PRIORITY2 d -> back PRIORITY2_c1 (fun c => Some (PRIORITY2_c2 c)) norm_PRIORITY2 d.
Proof. unfold wf_PRIORITY2, PRIORITY2_c1, PRIORITY2_c2, norm_PRIORITY2. conv_exact d. Qed.
#[global] Instance CConvSpec_PRIORITY2 : CConvSpec PRIORITY2_t PRIORITY2_t _ _ TlvSpec_PRIORITY2 := {
  c_cast_up c := eq_refl;
  conv_back d H _ := conv_back_simple _ _ _ d (PRIORITY2_back d H) }.
Lemma DOMAIN_back d :
  wf_DOMAIN d -> back DOMAIN_c1 (fun c => Some (DOMAIN_c2 c)) norm_DOMAIN d.
Proof. unfold wf_DOMAIN, DOMAIN_c1, DOMAIN_c2, norm_DOMAIN. conv_exact d. Qed.
#[global] Instance CConvSpec_DOMAIN : CConvSpec DOMAIN_t DOMAIN_t _ _ TlvSpec_DOMAIN := {
  c_cast_up c := eq_refl;
  conv_back d H _ := conv_back_simple _ _ _ d (DOMAIN_back d H) }.
Lemma SLAVE_ONLY_back d :
  wf_SLAVE_ONLY d -> back SLAVE_ONLY_c1 (fun c => Some (SLAVE_ONLY_c2 c)) norm_SLAVE_ONLY d.
Proof. unfold wf_SLAVE_ONLY, SLAVE_ONLY_c1, SLAVE_ONLY_c2, norm_SLAVE_ONLY. conv_exact d. Qed.
#[global] Instance CConvSpec_SLAVE_ONLY : CConvSpec SLAVE_ONLY_t SLAVE_ONLY_t _ _ TlvSpec_SLAVE_ONLY := {
  c_cast_up c := eq_refl;
  conv_back d H _ := conv_back_simple _ _ _ d (SLAVE_ONLY_back d H) }.
Lemma LOG_ANNOUNCE_INTERVAL_back d :
  wf_LOG_ANNOUNCE_INTERVAL d -> back LOG_ANNOUNCE_INTERVAL_c1 (fun c => Some (LOG_ANNOUNCE_INTERVAL_c2 c)) norm_LOG_ANNOUNCE_INTERVAL d.
Proof. unfold wf_LOG_ANNOUNCE_INTERVAL, LOG_ANNOUNCE_INTERVAL_c1, LOG_ANNOUNCE_INTERVAL_c2, norm_LOG_ANNOUNCE_INTERVAL. conv_exact d. Qed.
#[global] Instance CConvSpec_LOG_ANNOUNCE_INTERVAL : CConvSpec LOG_ANNOUNCE_INTERVAL_t LOG_ANNOUNCE_INTERVAL_t _ _ TlvSpec_LOG_ANNOUNCE_INTERVAL := {
  c_cast_up c := eq_refl;
  conv_back d H _ := conv_back_simple _ _ _ d (LOG_ANNOUNCE_INTERVAL_back d H) }.
Lemma ANNOUNCE_RECEIPT_TIMEOUT_back d :
  wf_ANNOUNCE_RECEIPT_TIMEOUT d -> back ANNOUNCE_RECEIPT_TIMEOUT_c1 (fun c => Some (ANNOUNCE_RECEIPT_TIMEOUT_c2 c)) norm_ANNOUNCE_RECEIPT_TIMEOUT d.
Proof. unfold wf_ANNOUNCE_RECEIPT_TIMEOUT, ANNOUNCE_RECEIPT_TIMEOUT_c1, ANNOUNCE_RECEIPT_TIMEOUT_c2, norm_ANNOUNCE_RECEIPT_TIMEOUT. conv_exact d. Qed.
#[global] Instance CConvSpec_ANNOUNCE_RECEIPT_TIMEOUT : CConvSpec ANNOUNCE_RECEIPT_TIMEOUT_t ANNOUNCE_RECEIPT_TIMEOUT_t _ _ TlvSpec_ANNOUNCE_RECEIPT_TIMEOUT := {
  c_cast_up c := eq_refl;
  conv_back d H _ := conv_back_simple _ _ _ d (ANNOUNCE_RECEIPT_TIMEOUT_back d H) }.
Lemma LOG_SYNC_INTERVAL_back d :
  wf_LOG_SYNC_INTERVAL d -> back LOG_SYNC_INTERVAL_c1 (fun c => Some (LOG_SYNC_INTERVAL_c2 c)) norm_LOG_SYNC_INTERVAL d.
Proof. unfold wf_LOG_SYNC_INTERVAL, LOG_SYNC_INTERVAL_c1, LOG_SYNC_INTERVAL_c2, norm_LOG_SYNC_INTERVAL. conv_exact d. Qed.
#[global] Instance CConvSpec_LOG_SYNC_INTERVAL : CConvSpec LOG_SYNC_INTERVAL_t LOG_SYNC_INTERVAL_t _ _ TlvSpec_LOG_SYNC_INTERVAL := {
  c_cast_up c := eq_refl;
  conv_back d H _ := conv_back_simple _ _ _ d (LOG_SYNC_INTERVAL_back d H) }.
Lemma VERSION_NUMBER_back d :
  wf_VERSION_NUMBER d -> back VERSION_NUMBER_c1 (fun c => Some (VERSION_NUMBER_c2 c)) norm_VERSION_NUMBER d.
Proof. unfold wf_VERSION_NUMBER, VERSION_NUMBER_c1, VERSION_NUMBER_c2, norm_VERSION_NUMBER. conv_exact d. Qed.
#[global] Instance CConvSpec_VERSION_NUMBER : CConvSpec VERSION_NUMBER_t VERSION_NUMBER_t _ _ TlvSpec_VERSION_NUMBER := {
  c_cast_up c := eq_refl;
  conv_back d H _ := conv_back_simple _ _ _ d (VERSION_NUMBER_back d H) }.
Lemma TIME_back d :
  wf_TIME d -> back TIME_c1 (fun c => Some (TIME_c2 c)) norm_TIME d.
Proof. unfold wf_TIME, TIME_c1, TIME_c2, norm_TIME. conv_exact d. Qed.
#[global] Instance CConvSpec_TIME : CConvSpec TIME_t TIME_t _ _ TlvSpec_TIME := {
  c_cast_up c := eq_refl;
  conv_back d H _ := conv_back_simple _ _ _ d (TIME_back d H) }.
Lemma CLOCK_ACCURACY_back d :
  wf_CLOCK_ACCURACY d -> back CLOCK_ACCURACY_c1 (fun c => Some (CLOCK_ACCURACY_c2 c)) norm_CLOCK_ACCURACY d.
Proof. unfold wf_CLOCK_ACCURACY, CLOCK_ACCURACY_c1, CLOCK_ACCURACY_c2, norm_CLOCK_ACCURACY. conv_exact d. Qed.
#[global] Instance CConvSpec_CLOCK_ACCURACY : CConvSpec CLOCK_ACCURACY_t CLOCK_ACCURACY_t _ _ TlvSpec_CLOCK_ACCURACY := {
  c_cast_up c := eq_refl;
  conv_back d H _ := conv_back_simple _ _ _ d (CLOCK_ACCURACY_back d H) }.
Lemma UTC_PROPERTIES_back d :
  wf_UTC_PROPERTIES d -> back UTC_PROPERTIES_c1 (fun c => Some (UTC_PROPERTIES_c2 c)) norm_UTC_PROPERTIES d.
Proof. unfold wf_UTC_PROPERTIES, UTC_PROPERTIES_c1, UTC_PROPERTIES_c2, norm_UTC_PROPERTIES. conv_exact d. Qed.
#[global] Instance CConvSpec_UTC_PROPERTIES : CConvSpec UTC_PROPERTIES_t UTC_PROPERTIES_t _ _ TlvSpec_UTC_PROPERTIES := {
  c_cast_up c := eq_refl;
  conv_back d H _ := conv_back_simple _ _ _ d (UTC_PROPERTIES_back d H) }.
Lemma TRACEABILITY_PROPERTIES_back d :
  wf_TRACEABILITY_PROPERTIES d -> back TRACEABILITY_PROPERTIES_c1 (fun c => Some (TRACEABILITY_PROPERTIES_c2 c)) norm_TRACEABILITY_PROPERTIES d.
Proof. unfold wf_TRACEABILITY_PROPERTIES, TRACEABILITY_PROPERTIES_c1, TRACEABILITY_PROPERTIES_c2, norm_TRACEABILITY_PROPERTIES. conv_exact d. Qed.
#[global] Instance CConvSpec_TRACEABILITY_PROPERTIES : CConvSpec TRACEABILITY_PROPERTIES_t TRACEABILITY_PROPERTIES_t _ _ TlvSpec_TRACEABILITY_PROPERTIES := {
  c_cast_up c := eq_refl;
  conv_back d H _ := conv_back_simple _ _ _ d (TRACEABILITY_PROPERTIES_back d H) }.
Lemma TIMESCALE_PROPERTIES_back d :
  wf_TIMESCALE_PROPERTIES d -> back TIMESCALE_PROPERTIES_c1 (fun c => Some (TIMESCALE_PROPERTIES_c2 c)) norm_TIMESCALE_PROPERTIES d.
Proof. unfold wf_TIMESCALE_PROPERTIES, TIMESCALE_PROPERTIES_c1, TIMESCALE_PROPERTIES_c2, norm_TIMESCALE_PROPERTIES. conv_exact d. Qed.
#[global] Instance CConvSpec_TIMESCALE_PROPERTIES : CConvSpec TIMESCALE_PROPERTIES_t TIMESCALE_PROPERTIES_t _ _ TlvSpec_TIMESCALE_PROPERTIES := {
  c_cast_up c := eq_refl;
  conv_back d H _ := conv_back_simple _ _ _ d (TIMESCALE_PROPERTIES_back d H) }.
Lemma UNICAST_NEGOTIATION_ENABLE_back d :
  wf_UNICAST_NEGOTIATION_ENABLE d -> back UNICAST_NEGOTIATION_ENABLE_c1 (fun c => Some (UNICAST_NEGOTIATION_ENABLE_c2 c)) norm_UNICAST_NEGOTIATION_ENABLE d.
Proof. unfold wf_UNICAST_NEGOTIATION_ENABLE, UNICAST_NEGOTIATION_ENABLE_c1, UNICAST_NEGOTIATION_ENABLE_c2, norm_UNICAST_NEGOTIATION_ENABLE. conv_exact d. Qed.
#[global] Instance CConvSpec_UNICAST_NEGOTIATION_ENABLE : CConvSpec UNICAST_NEGOTIATION_ENABLE_t UNICAST_NEGOTIATION_ENABLE_t _ _ TlvSpec_UNICAST_NEGOTIATION_ENABLE := {
  c_cast_up c := eq_refl;
  conv_back d H _ := conv_back_simple _ _ _ d (UNICAST_NEGOTIATION_ENABLE_back d H) }.
Lemma PATH_TRACE_ENABLE_back d :
  wf_PATH_TRACE_ENABLE d -> back PATH_TRACE_ENABLE_c1 (fun c => Some (PATH_TRACE_ENABLE_c2 c)) norm_PATH_TRACE_ENABLE d.
Proof. unfold wf_PATH_TRACE_ENABLE, PATH_TRACE_ENABLE_c1, PATH_TRACE_ENABLE_c2, norm_PATH_TRACE_ENABLE. conv_exact d. Qed.
#[global] Instance CConvSpec_PATH_TRACE_ENABLE : CConvSpec PATH_TRACE_ENABLE_t PATH_TRACE_ENABLE_t _ _ TlvSpec_PATH_TRACE_ENABLE := {
  c_cast_up c := eq_refl;
  conv_back d H _ := conv_back_simple _ _ _ d (PATH_TRACE_ENABLE_back d H) }.
Lemma UNICAST_MASTER_MAX_TABLE_SIZE_back d :
  wf_UNICAST_MASTER_MAX_TABLE_SIZE d -> back UNICAST_MASTER_MAX_TABLE_SIZE_c1 (fun c => Some (UNICAST_MASTER_MAX_TABLE_SIZE_c2 c)) norm_UNICAST_MASTER_MAX_TABLE_SIZE d.
Proof. unfold wf_UNICAST_MASTER_MAX_TABLE_SIZE, UNICAST_MASTER_MAX_TABLE_SIZE_c1, UNICAST_MASTER_MAX_TABLE_SIZE_c2, norm_UNICAST_MASTER_MAX_TABLE_SIZE. conv_exact d. Qed.
#[global] Instance CConvSpec_UNICAST_MASTER_MAX_TABLE_SIZE : CConvSpec UNICAST_MASTER_MAX_TABLE_SIZE_t UNICAST_MASTER_MAX_TABLE_SIZE_t _ _ TlvSpec_UNICAST_MASTER_MAX_TABLE_SIZE := {
  c_cast_up c := eq_refl;
  conv_back d H _ := conv_back_simple _ _ _ d (UNICAST_MASTER_MAX_TABLE_SIZE_back d H) }.
Lemma ACCEPTABLE_MASTER_TABLE_ENABLED_back d :
  wf_ACCEPTABLE_MASTER_TABLE_ENABLED d -> back ACCEPTABLE_MASTER_TABLE_ENABLED_c1 (fun c => Some (ACCEPTABLE_MASTER_TABLE_ENABLED_c2 c)) norm_ACCEPTABLE_MASTER_TABLE_ENABLED d.
Proof. unfold wf_ACCEPTABLE_MASTER_TABLE_ENABLED, ACCEPTABLE_MASTER_TABLE_ENABLED_c1, ACCEPTABLE_MASTER_TABLE_ENABLED_c2, norm_ACCEPTABLE_MASTER_TABLE_ENABLED. conv_exact d. Qed.
#[global] Instance CConvSpec_ACCEPTABLE_MASTER_TABLE_ENABLED : CConvSpec ACCEPTABLE_MASTER_TABLE_ENABLED_t ACCEPTABLE_MASTER_TABLE_ENABLED_t _ _ TlvSpec_ACCEPTABLE_MASTER_TABLE_ENABLED := {
  c_cast_up c := eq_refl;
  conv_back d H _ := conv_back_simple _ _ _ d (ACCEPTABLE_MASTER_TABLE_ENABLED_back d H) }.
Lemma ACCEPTABLE_MASTER_MAX_TABLE_SIZE_back d :
  wf_ACCEPTABLE_MASTER_MAX_TABLE_SIZE d -> back ACCEPTABLE_MASTER_MAX_TABLE_SIZE_c1 (fun c => Some (ACCEPTABLE_MASTER_MAX_TABLE_SIZE_c2 c)) norm_ACCEPTABLE_MASTER_MAX_TABLE_SIZE d.
Proof. unfold wf_ACCEPTABLE_MASTER_MAX_TABLE_SIZE, ACCEPTABLE_MASTER_MAX_TABLE_SIZE_c1, ACCEPTABLE_MASTER_MAX_TABLE_SIZE_c2, norm_ACCEPTABLE_MASTER_MAX_TABLE_SIZE. conv_exact d. Qed.
#[global] Instance CConvSpec_ACCEPTABLE_MASTER_MAX_TABLE_SIZE : CConvSpec ACCEPTABLE_MASTER_MAX_TABLE_SIZE_t ACCEPTABLE_MASTER_MAX_TABLE_SIZE_t _ _ TlvSpec_ACCEPTABLE_MASTER_MAX_TABLE_SIZE := {
  c_cast_up c := eq_refl;
  conv_back d H _ := conv_back_simple _ _ _ d (ACCEPTABLE_MASTER_MAX_TABLE_SIZE_back d H) }.
Lemma ALTERNATE_MASTER_back d :
  wf_ALTERNATE_MASTER d -> back ALTERNATE_MASTER_c1 (fun c => Some (ALTERNATE_MASTER_c2 c)) norm_ALTERNATE_MASTER d.
Proof. unfold wf_ALTERNATE_MASTER, ALTERNATE_MASTER_c1, ALTERNATE_MASTER_c2, norm_ALTERNATE_MASTER. conv_exact d. Qed.
#[global] Instance CConvSpec_ALTERNATE_MASTER : CConvSpec ALTERNATE_MASTER_t ALTERNATE_MASTER_t _ _ TlvSpec_ALTERNATE_MASTER := {
  c_cast_up c := eq_refl;
  conv_back d H _ := conv_back_simple _ _ _ d (ALTERNATE_MASTER_back d H) }.
Lemma ALTERNATE_TIME_OFFSET_ENABLE_back d :
  wf_ALTERNATE_TIME_OFFSET_ENABLE d -> back ALTERNATE_TIME_OFFSET_ENABLE_c1 (fun c => Some (ALTERNATE_TIME_OFFSET_ENABLE_c2 c)) norm_ALTERNATE_TIME_OFFSET_ENABLE d.
Proof. unfold wf_ALTERNATE_TIME_OFFSET_ENABLE, ALTERNATE_TIME_OFFSET_ENABLE_c1, ALTERNATE_TIME_OFFSET_ENABLE_c2, norm_ALTERNATE_TIME_OFFSET_ENABLE. conv_exact d. Qed.
#[global] Instance CConvSpec_ALTERNATE_TIME_OFFSET_ENABLE : CConvSpec ALTERNATE_TIME_OFFSET_ENABLE_t ALTERNATE_TIME_OFFSET_ENABLE_t _ _ TlvSpec_ALTERNATE_TIME_OFFSET_ENABLE := {
  c_cast_up c := eq_refl;
  conv_back d H _ := conv_back_simple _ _ _ d (ALTERNATE_TIME_OFFSET_ENABLE_back d H) }.
Lemma ALTERNATE_TIME_OFFSET_NAME_back d :
  wf_ALTERNATE_TIME_OFFSET_NAME d -> back ALTERNATE_TIME_OFFSET_NAME_c1 ALTERNATE_TIME_OFFSET_NAME_c2 norm_ALTERNATE_TIME_OFFSET_NAME d.
Proof. unfold wf_ALTERNATE_TIME_OFFSET_NAME, ALTERNATE_TIME_OFFSET_NAME_c1, ALTERNATE_TIME_OFFSET_NAME_c2, norm_ALTERNATE_TIME_OFFSET_NAME. conv_exact d. Qed.
#[global] Instance CConvSpec_ALTERNATE_TIME_OFFSET_NAME : CConvSpec ALTERNATE_TIME_OFFSET_NAME_t C_ALTERNATE_TIME_OFFSET_NAME _ _ TlvSpec_ALTERNATE_TIME_OFFSET_NAME := {
  c_cast_up c := eq_refl;
  conv_back d H _ := conv_back_simple _ _ _ d (ALTERNATE_TIME_OFFSET_NAME_back d H) }.
Lemma ALTERNATE_TIME_OFFSET_MAX_KEY_back d :
  wf_ALTERNATE_TIME_OFFSET_MAX_KEY d -> back ALTERNATE_TIME_OFFSET_MAX_KEY_c1 (fun c => Some (ALTERNATE_TIME_OFFSET_MAX_KEY_c2 c)) norm_ALTERNATE_TIME_OFFSET_MAX_KEY d.
Proof. unfold wf_ALTERNATE_TIME_OFFSET_MAX_KEY, ALTERNATE_TIME_OFFSET_MAX_KEY_c1, ALTERNATE_TIME_OFFSET_MAX_KEY_c2, norm_ALTERNATE_TIME_OFFSET_MAX_KEY. conv_exact d. Qed.
#[global] Instance CConvSpec_ALTERNATE_TIME_OFFSET_MAX_KEY : CConvSpec ALTERNATE_TIME_OFFSET_MAX_KEY_t ALTERNATE_TIME_OFFSET_MAX_KEY_t _ _ TlvSpec_ALTERNATE_TIME_OFFSET_MAX_KEY := {
  c_cast_up c := eq_refl;
  conv_back d H _ := conv_back_simple _ _ _ d (ALTERNATE_TIME_OFFSET_MAX_KEY_back d H) }.
Lemma ALTERNATE_TIME_OFFSET_PROPERTIES_back d :
  wf_ALTERNATE_TIME_OFFSET_PROPERTIES d -> back ALTERNATE_TIME_OFFSET_PROPERTIES_c1 (fun c => Some (ALTERNATE_TIME_OFFSET_PROPERTIES_c2 c)) norm_ALTERNATE_TIME_OFFSET_PROPERTIES d.
Proof. unfold wf_ALTERNATE_TIME_OFFSET_PROPERTIES, ALTERNATE_TIME_OFFSET_PROPERTIES_c1, ALTERNATE_TIME_OFFSET_PROPERTIES_c2, norm_ALTERNATE_TIME_OFFSET_PROPERTIES. conv_exact d. Qed.
#[global] Instance CConvSpec_ALTERNATE_TIME_OFFSET_PROPERTIES : CConvSpec ALTERNATE_TIME_OFFSET_PROPERTIES_t ALTERNATE_TIME_OFFSET_PROPERTIES_t _ _ TlvSpec_ALTERNATE_TIME_OFFSET_PROPERTIES := {
  c_cast_up c := eq_refl;
  conv_back d H _ := conv_back_simple _ _ _ d (ALTERNATE_TIME_OFFSET_PROPERTIES_back d H) }.
Lemma TRANSPARENT_CLOCK_PORT_DATA_SET_back d :
  wf_TRANSPARENT_CLOCK_PORT_DATA_SET d -> back TRANSPARENT_CLOCK_PORT_DATA_SET_c1 (fun c => Some (TRANSPARENT_CLOCK_PORT_DATA_SET_c2 c)) norm_TRANSPARENT_CLOCK_PORT_DATA_SET d.
Proof. unfold wf_TRANSPARENT_CLOCK_PORT_DATA_SET, TRANSPARENT_CLOCK_PORT_DATA_SET_c1, TRANSPARENT_CLOCK_PORT_DATA_SET_c2, norm_TRANSPARENT_CLOCK_PORT_DATA_SET. conv_exact d. Qed.
#[global] Instance CConvSpec_TRANSPARENT_CLOCK_PORT_DATA_SET : CConvSpec TRANSPARENT_CLOCK_PORT_DATA_SET_t TRANSPARENT_CLOCK_PORT_DATA_SET_t _ _ TlvSpec_TRANSPARENT_CLOCK_PORT_DATA_SET := {
  c_cast_up c := eq_refl;
  conv_back d H _ := conv_back_simple _ _ _ d (TRANSPARENT_CLOCK_PORT_DATA_SET_back d H) }.
Lemma LOG_MIN_PDELAY_REQ_INTERVAL_back d :
  wf_LOG_MIN_PDELAY_REQ_INTERVAL d -> back LOG_MIN_PDELAY_REQ_INTERVAL_c1 (fun c => Some (LOG_MIN_PDELAY_REQ_INTERVAL_c2 c)) norm_LOG_MIN_PDELAY_REQ_INTERVAL d.
Proof. unfold wf_LOG_MIN_PDELAY_REQ_INTERVAL, LOG_MIN_PDELAY_REQ_INTERVAL_c1, LOG_MIN_PDELAY_REQ_INTERVAL_c2, norm_LOG_MIN_PDELAY_REQ_INTERVAL. conv_exact d. Qed.
#[global] Instance CConvSpec_LOG_MIN_PDELAY_REQ_INTERVAL : CConvSpec LOG_MIN_PDELAY_REQ_INTERVAL_t LOG_MIN_PDELAY_REQ_INTERVAL_t _ _ TlvSpec_LOG_MIN_PDELAY_REQ_INTERVAL := {
  c_cast_up c := eq_refl;
  conv_back d H _ := conv_back_simple _ _ _ d (LOG_MIN_PDELAY_REQ_INTERVAL_back d H) }.
Lemma TRANSPARENT_CLOCK_DEFAULT_DATA_SET_back d :
  wf_TRANSPARENT_CLOCK_DEFAULT_DATA_SET d -> back TRANSPARENT_CLOCK_DEFAULT_DATA_SET_c1 (fun c => Some (TRANSPARENT_CLOCK_DEFAULT_DATA_SET_c2 c)) norm_TRANSPARENT_CLOCK_DEFAULT_DATA_SET d.
Proof. unfold wf_TRANSPARENT_CLOCK_DEFAULT_DATA_SET, TRANSPARENT_CLOCK_DEFAULT_DATA_SET_c1, TRANSPARENT_CLOCK_DEFAULT_DATA_SET_c2, norm_TRANSPARENT_CLOCK_DEFAULT_DATA_SET. conv_exact d. Qed.
#[global] Instance CConvSpec_TRANSPARENT_CLOCK_DEFAULT_DATA_SET : CConvSpec TRANSPARENT_CLOCK_DEFAULT_DATA_SET_t TRANSPARENT_CLOCK_DEFAULT_DATA_SET_t _ _ TlvSpec_TRANSPARENT_CLOCK_DEFAULT_DATA_SET := {
  c_cast_up c := eq_refl;
  conv_back d H _ := conv_back_simple _ _ _ d (TRANSPARENT_CLOCK_DEFAULT_DATA_SET_back d H) }.
Lemma PRIMARY_DOMAIN_back d :
  wf_PRIMARY_DOMAIN d -> back PRIMARY_DOMAIN_c1 (fun c => Some (PRIMARY_DOMAIN_c2 c)) norm_PRIMARY_DOMAIN d.
Proof. unfold wf_PRIMARY_DOMAIN, PRIMARY_DOMAIN_c1, PRIMARY_DOMAIN_c2, norm_PRIMARY_DOMAIN. conv_exact d. Qed.
#[global] Instance CConvSpec_PRIMARY_DOMAIN : CConvSpec PRIMARY_DOMAIN_t PRIMARY_DOMAIN_t _ _ TlvSpec_PRIMARY_DOMAIN := {
  c_cast_up c := eq_refl;
  conv_back d H _ := conv_back_simple _ _ _ d (PRIMARY_DOMAIN_back d H) }.
Lemma DELAY_MECHANISM_back d :
  wf_DELAY_MECHANISM d -> back DELAY_MECHANISM_c1 (fun c => Some (DELAY_MECHANISM_c2 c)) norm_DELAY_MECHANISM d.
Proof. unfold wf_DELAY_MECHANISM, DELAY_MECHANISM_c1, DELAY_MECHANISM_c2, norm_DELAY_MECHANISM. conv_exact d. Qed.
#[global] Instance CConvSpec_DELAY_MECHANISM : CConvSpec DELAY_MECHANISM_t DELAY_MECHANISM_t _ _ TlvSpec_DELAY_MECHANISM := {
  c_cast_up c := eq_refl;
  conv_back d H _ := conv_back_simple _ _ _ d (DELAY_MECHANISM_back d H) }.
Lemma EXTERNAL_PORT_CONFIGURATION_ENABLED_back d :
  wf_EXTERNAL_PORT_CONFIGURATION_ENABLED d -> back EXTERNAL_PORT_CONFIGURATION_ENABLED_c1 (fun c => Some (EXTERNAL_PORT_CONFIGURATION_ENABLED_c2 c)) norm_EXTERNAL_PORT_CONFIGURATION_ENABLED d.
Proof. unfold wf_EXTERNAL_PORT_CONFIGURATION_ENABLED, EXTERNAL_PORT_CONFIGURATION_ENABLED_c1, EXTERNAL_PORT_CONFIGURATION_ENABLED_c2, norm_EXTERNAL_PORT_CONFIGURATION_ENABLED. conv_exact d. Qed.
#[global] Instance CConvSpec_EXTERNAL_PORT_CONFIGURATION_ENABLED : CConvSpec EXTERNAL_PORT_CONFIGURATION_ENABLED_t EXTERNAL_PORT_CONFIGURATION_ENABLED_t _ _ TlvSpec_EXTERNAL_PORT_CONFIGURATION_ENABLED := {
  c_cast_up c := eq_refl;
  conv_back d H _ := conv_back_simple _ _ _ d (EXTERNAL_PORT_CONFIGURATION_ENABLED_back d H) }.
Lemma MASTER_ONLY_back d :
  wf_MASTER_ONLY d -> back MASTER_ONLY_c1 (fun c => Some (MASTER_ONLY_c2 c)) norm_MASTER_ONLY d.
Proof. unfold wf_MASTER_ONLY, MASTER_ONLY_c1, MASTER_ONLY_c2, norm_MASTER_ONLY. conv_exact d. Qed.
#[global] Instance CConvSpec_MASTER_ONLY : CConvSpec MASTER_ONLY_t MASTER_ONLY_t _ _ TlvSpec_MASTER_ONLY := {
  c_cast_up c := eq_refl;
  conv_back d H _ := conv_back_simple _ _ _ d (MASTER_ONLY_back d H) }.
Lemma HOLDOVER_UPGRADE_ENABLE_back d :
  wf_HOLDOVER_UPGRADE_ENABLE d -> back HOLDOVER_UPGRADE_ENABLE_c1 (fun c => Some (HOLDOVER_UPGRADE_ENABLE_c2 c)) norm_HOLDOVER_UPGRADE_ENABLE d.
Proof. unfold wf_HOLDOVER_UPGRADE_ENABLE, HOLDOVER_UPGRADE_ENABLE_c1, HOLDOVER_UPGRADE_ENABLE_c2, norm_HOLDOVER_UPGRADE_ENABLE. conv_exact d. Qed.
#[global] Instance CConvSpec_HOLDOVER_UPGRADE_ENABLE : CConvSpec HOLDOVER_UPGRADE_ENABLE_t HOLDOVER_UPGRADE_ENABLE_t _ _ TlvSpec_HOLDOVER_UPGRADE_ENABLE := {
  c_cast_up c := eq_refl;
  conv_back d H _ := conv_back_simple _ _ _ d (HOLDOVER_UPGRADE_ENABLE_back d H) }.
Lemma EXT_PORT_CONFIG_PORT_DATA_SET_back d :
  wf_EXT_PORT_CONFIG_PORT_DATA_SET d -> back EXT_PORT_CONFIG_PORT_DATA_SET_c1 (fun c => Some (EXT_PORT_CONFIG_PORT_DATA_SET_c2 c)) norm_EXT_PORT_CONFIG_PORT_DATA_SET d.
Proof. unfold wf_EXT_PORT_CONFIG_PORT_DATA_SET, EXT_PORT_CONFIG_PORT_DATA_SET_c1, EXT_PORT_CONFIG_PORT_DATA_SET_c2, norm_EXT_PORT_CONFIG_PORT_DATA_SET. conv_exact d. Qed.
#[global] Instance CConvSpec_EXT_PORT_CONFIG_PORT_DATA_SET : CConvSpec EXT_PORT_CONFIG_PORT_DATA_SET_t EXT_PORT_CONFIG_PORT_DATA_SET_t _ _ TlvSpec_EXT_PORT_CONFIG_PORT_DATA_SET := {
  c_cast_up c := eq_refl;
  conv_back d H _ := conv_back_simple _ _ _ d (EXT_PORT_CONFIG_PORT_DATA_SET_back d H) }.
Lemma TIME_STATUS_NP_back d :
  wf_TIME_STATUS_NP d -> back TIME_STATUS_NP_c1 (fun c => Some (TIME_STATUS_NP_c2 c)) norm_TIME_STATUS_NP d.
Proof. unfold wf_TIME_STATUS_NP, TIME_STATUS_NP_c1, TIME_STATUS_NP_c2, norm_TIME_STATUS_NP. conv_exact d. Qed.
#[global] Instance CConvSpec_TIME_STATUS_NP : CConvSpec TIME_STATUS_NP_t TIME_STATUS_NP_t _ _ TlvSpec_TIME_STATUS_NP := {
  c_cast_up c := eq_refl;
  conv_back d H _ := conv_back_simple _ _ _ d (TIME_STATUS_NP_back d H) }.
Lemma GRANDMASTER_SETTINGS_NP_back d :
  wf_GRANDMASTER_SETTINGS_NP d -> back GRANDMASTER_SETTINGS_NP_c1 (fun c => Some (GRANDMASTER_SETTINGS_NP_c2 c)) norm_GRANDMASTER_SETTINGS_NP d.
Proof. unfold wf_GRANDMASTER_SETTINGS_NP, GRANDMASTER_SETTINGS_NP_c1, GRANDMASTER_SETTINGS_NP_c2, norm_GRANDMASTER_SETTINGS_NP. conv_exact d. Qed.
#[global] Instance CConvSpec_GRANDMASTER_SETTINGS_NP : CConvSpec GRANDMASTER_SETTINGS_NP_t GRANDMASTER_SETTINGS_NP_t _ _ TlvSpec_GRANDMASTER_SETTINGS_NP := {
  c_cast_up c := eq_refl;
  conv_back d H _ := conv_back_simple _ _ _ d (GRANDMASTER_SETTINGS_NP_back d H) }.
Lemma PORT_DATA_SET_NP_back d :
  wf_PORT_DATA_SET_NP d -> back PORT_DATA_SET_NP_c1 (fun c => Some (PORT_DATA_SET_NP_c2 c)) norm_PORT_DATA_SET_NP d.
Proof. unfold wf_PORT_DATA_SET_NP, PORT_DATA_SET_NP_c1, PORT_DATA_SET_NP_c2, norm_PORT_DATA_SET_NP. conv_exact d. Qed.
#[global] Instance CConvSpec_PORT_DATA_SET_NP : CConvSpec PORT_DATA_SET_NP_t PORT_DATA_SET_NP_t _ _ TlvSpec_PORT_DATA_SET_NP := {
  c_cast_up c := eq_refl;
  conv_back d H _ := conv_back_simple _ _ _ d (PORT_DATA_SET_NP_back d H) }.
Lemma SUBSCRIBE_EVENTS_NP_back d :
  wf_SUBSCRIBE_EVENTS_NP d -> back SUBSCRIBE_EVENTS_NP_c1 (fun c => Some (SUBSCRIBE_EVENTS_NP_c2 c)) norm_SUBSCRIBE_EVENTS_NP d.
Proof. unfold wf_SUBSCRIBE_EVENTS_NP, SUBSCRIBE_EVENTS_NP_c1, SUBSCRIBE_EVENTS_NP_c2, norm_SUBSCRIBE_EVENTS_NP. conv_exact d. Qed.
#[global] Instance CConvSpec_SUBSCRIBE_EVENTS_NP : CConvSpec SUBSCRIBE_EVENTS_NP_t SUBSCRIBE_EVENTS_NP_t _ _ TlvSpec_SUBSCRIBE_EVENTS_NP := {
  c_cast_up c := eq_refl;
  conv_back d H _ := conv_back_simple _ _ _ d (SUBSCRIBE_EVENTS_NP_back d H) }.
Lemma PORT_PROPERTIES_NP_back d :
  wf_PORT_PROPERTIES_NP d -> back PORT_PROPERTIES_NP_c1 PORT_PROPERTIES_NP_c2 norm_PORT_PROPERTIES_NP d.
Proof. unfold wf_PORT_PROPERTIES_NP, PORT_PROPERTIES_NP_c1, PORT_PROPERTIES_NP_c2, norm_PORT_PROPERTIES_NP. conv_exact d. Qed.
#[global] Instance CConvSpec_PORT_PROPERTIES_NP : CConvSpec PORT_PROPERTIES_NP_t C_PORT_PROPERTIES_NP _ _ TlvSpec_PORT_PROPERTIES_NP := {
  c_cast_up c := eq_refl;
  conv_back d H _ := conv_back_simple _ _ _ d (PORT_PROPERTIES_NP_back d H) }.
Lemma PORT_STATS_NP_back d :
  wf_PORT_STATS_NP d -> back PORT_STATS_NP_c1 (fun c => Some (PORT_STATS_NP_c2 c)) norm_PORT_STATS_NP d.
Proof. unfold wf_PORT_STATS_NP, PORT_STATS_NP_c1, PORT_STATS_NP_c2, norm_PORT_STATS_NP. conv_exact d. Qed.
#[global] Instance CConvSpec_PORT_STATS_NP : CConvSpec PORT_STATS_NP_t PORT_STATS_NP_t _ _ TlvSpec_PORT_STATS_NP := {
  c_cast_up c := eq_refl;
  conv_back d H _ := conv_back_simple _ _ _ d (PORT_STATS_NP_back d H) }.
Lemma SYNCHRONIZATION_UNCERTAIN_NP_back d :
  wf_SYNCHRONIZATION_UNCERTAIN_NP d -> back SYNCHRONIZATION_UNCERTAIN_NP_c1 (fun c => Some (SYNCHRONIZATION_UNCERTAIN_NP_c2 c)) norm_SYNCHRONIZATION_UNCERTAIN_NP d.
Proof. unfold wf_SYNCHRONIZATION_UNCERTAIN_NP, SYNCHRONIZATION_UNCERTAIN_NP_c1, SYNCHRONIZATION_UNCERTAIN_NP_c2, norm_SYNCHRONIZATION_UNCERTAIN_NP. conv_exact d. Qed.
#[global] Instance CConvSpec_SYNCHRONIZATION_UNCERTAIN_NP : CConvSpec SYNCHRONIZATION_UNCERTAIN_NP_t SYNCHRONIZATION_UNCERTAIN_NP_t _ _ TlvSpec_SYNCHRONIZATION_UNCERTAIN_NP := {
  c_cast_up c := eq_refl;
  conv_back d H _ := conv_back_simple _ _ _ d (SYNCHRONIZATION_UNCERTAIN_NP_back d H) }.
Lemma PORT_SERVICE_STATS_NP_back d :
  wf_PORT_SERVICE_STATS_NP d -> back PORT_SERVICE_STATS_NP_c1 (fun c => Some (PORT_SERVICE_STATS_NP_c2 c)) norm_PORT_SERVICE_STATS_NP d.
Proof. unfold wf_PORT_SERVICE_STATS_NP, PORT_SERVICE_STATS_NP_c1, PORT_SERVICE_STATS_NP_c2, norm_PORT_SERVICE_STATS_NP. conv_exact d. Qed.
#[global] Instance CConvSpec_PORT_SERVICE_STATS_NP : CConvSpec PORT_SERVICE_STATS_NP_t PORT_SERVICE_STATS_NP_t _ _ TlvSpec_PORT_SERVICE_STATS_NP := {
  c_cast_up c := eq_refl;
  conv_back d H _ := conv_back_simple _ _ _ d (PORT_SERVICE_STATS_NP_back d H) }.
Lemma PORT_HWCLOCK_NP_back d :
  wf_PORT_HWCLOCK_NP d -> back PORT_HWCLOCK_NP_c1 (fun c => Some (PORT_HWCLOCK_NP_c2 c)) norm_PORT_HWCLOCK_NP d.
Proof. unfold wf_PORT_HWCLOCK_NP, PORT_HWCLOCK_NP_c1, PORT_HWCLOCK_NP_c2, norm_PORT_HWCLOCK_NP. conv_exact d. Qed.
#[global] Instance CConvSpec_PORT_HWCLOCK_NP : CConvSpec PORT_HWCLOCK_NP_t PORT_HWCLOCK_NP_t _ _ TlvSpec_PORT_HWCLOCK_NP := {
  c_cast_up c := eq_refl;
  conv_back d H _ := conv_back_simple _ _ _ d (PORT_HWCLOCK_NP_back d H) }.
Lemma POWER_PROFILE_SETTINGS_NP_back d :
  wf_POWER_PROFILE_SETTINGS_NP d -> back POWER_PROFILE_SETTINGS_NP_c1 (fun c => Some (POWER_PROFILE_SETTINGS_NP_c2 c)) norm_POWER_PROFILE_SETTINGS_NP d.
Proof. unfold wf_POWER_PROFILE_SETTINGS_NP, POWER_PROFILE_SETTINGS_NP_c1, POWER_PROFILE_SETTINGS_NP_c2, norm_POWER_PROFILE_SETTINGS_NP. conv_exact d. Qed.
#[global] Instance CConvSpec_POWER_PROFILE_SETTINGS_NP : CConvSpec POWER_PROFILE_SETTINGS_NP_t POWER_PROFILE_SETTINGS_NP_t _ _ TlvSpec_POWER_PROFILE_SETTINGS_NP := {
  c_cast_up c := eq_refl;
  conv_back d H _ := conv_back_simple _ _ _ d (POWER_PROFILE_SETTINGS_NP_back d H) }.
Lemma CMLDS_INFO_NP_back d :
  wf_CMLDS_INFO_NP d -> back CMLDS_INFO_NP_c1 (fun c => Some (CMLDS_INFO_NP_c2 c)) norm_CMLDS_INFO_NP d.
Proof. unfold wf_CMLDS_INFO_NP, CMLDS_INFO_NP_c1, CMLDS_INFO_NP_c2, norm_CMLDS_INFO_NP. conv_exact d. Qed.
#[global] Instance CConvSpec_CMLDS_INFO_NP : CConvSpec CMLDS_INFO_NP_t CMLDS_INFO_NP_t _ _ TlvSpec_CMLDS_INFO_NP := {
  c_cast_up c := eq_refl;
  conv_back d H _ := conv_back_simple _ _ _ d (CMLDS_INFO_NP_back d H) }.
Lemma PORT_CORRECTIONS_NP_back d :
  wf_PORT_CORRECTIONS_NP d -> back PORT_CORRECTIONS_NP_c1 (fun c => Some (PORT_CORRECTIONS_NP_c2 c)) norm_PORT_CORRECTIONS_NP d.
Proof. unfold wf_PORT_CORRECTIONS_NP, PORT_CORRECTIONS_NP_c1, PORT_CORRECTIONS_NP_c2, norm_PORT_CORRECTIONS_NP. conv_exact d. Qed.
#[global] Instance CConvSpec_PORT_CORRECTIONS_NP : CConvSpec PORT_CORRECTIONS_NP_t PORT_CORRECTIONS_NP_t _ _ TlvSpec_PORT_CORRECTIONS_NP := {
  c_cast_up c := eq_refl;
  conv_back d H _ := conv_back_simple _ _ _ d (PORT_CORRECTIONS_NP_back d H) }.
Lemma EXTERNAL_GRANDMASTER_PROPERTIES_NP_back d :
  wf_EXTERNAL_GRANDMASTER_PROPERTIES_NP d -> back EXTERNAL_GRANDMASTER_PROPERTIES_NP_c1 (fun c => Some (EXTERNAL_GRANDMASTER_PROPERTIES_NP_c2 c)) norm_EXTERNAL_GRANDMASTER_PROPERTIES_NP d.
Proof. unfold wf_EXTERNAL_GRANDMASTER_PROPERTIES_NP, EXTERNAL_GRANDMASTER_PROPERTIES_NP_c1, EXTERNAL_GRANDMASTER_PROPERTIES_NP_c2, norm_EXTERNAL_GRANDMASTER_PROPERTIES_NP. conv_exact d. Qed.
#[global] Instance CConvSpec_EXTERNAL_GRANDMASTER_PROPERTIES_NP : CConvSpec EXTERNAL_GRANDMASTER_PROPERTIES_NP_t EXTERNAL_GRANDMASTER_PROPERTIES_NP_t _ _ TlvSpec_EXTERNAL_GRANDMASTER_PROPERTIES_NP := {
  c_cast_up c := eq_refl;
  conv_back d H _ := conv_back_simple _ _ _ d (EXTERNAL_GRANDMASTER_PROPERTIES_NP_back d H) }.

Lemma CLOCK_DESCRIPTION_back d :
  wf_CLOCK_DESCRIPTION d ->
  CLOCK_DESCRIPTION_c2 (CLOCK_DESCRIPTION_c1 d) = Some (norm_CLOCK_DESCRIPTION d).
Proof.
  unfold wf_CLOCK_DESCRIPTION. intros. wf_split.
  pose proof (Binary_back (cd_physicalAddress d) ltac:(done)) as B.
  unfold CLOCK_DESCRIPTION_c1. destruct (c1_st_Binary (cd_physicalAddress d)) as [n p].
  cbn [fst snd] in B. unfold CLOCK_DESCRIPTION_c2. conv_fields. by rewrite B.
Qed.
#[global] Instance CConvSpec_CLOCK_DESCRIPTION :
  CConvSpec CLOCK_DESCRIPTION_t C_CLOCK_DESCRIPTION _ _ TlvSpec_CLOCK_DESCRIPTION := {
  c_cast_up c := eq_refl;
  conv_back d H _ :=
    conv_back_simple _ _ _ d
      (back_norm _ _ norm_CLOCK_DESCRIPTION d (CLOCK_DESCRIPTION_back d H) eq_refl) }.

(** A list of records of a table comes back. *)
Lemma Forall_back {A C} (c1 : A -> C) c2 norm (wf : A -> Prop) l :
  (forall a, wf a -> back c1 c2 norm a) -> Forall wf l -> Forall (back c1 c2 norm) l.
Proof. intros H F. by eapply Forall_impl. Qed.
Lemma PortAddress_back' d :
  wf_PortAddress d -> back c1_st_PortAddress c2_st_PortAddress norm_PortAddress d.
Proof. intros H. apply back_norm; [by apply PortAddress_back|done]. Qed.

(** The table of a TLV: the two conversions, the normal form, the equality. *)
Ltac conv_table F :=
  let m := fresh "m" in let r := fresh "r" in let l' := fresh "l'" in
  let E1 := fresh "E" in let E2 := fresh "E" in let E3 := fresh "E" in
  let L := fresh "L" in let N := fresh "N" in let S := fresh "S" in
  intros; wf_split;
  match goal with H : Forall _ ?l, Hn : ?n = len ?l |- _ =>
    destruct (back_table _ _ _ n l (Forall_back _ _ _ _ l F H) Hn)
      as (m & r & l' & E1 & E2 & E3 & L & N & S)
  end;
  do 2 eexists; rewrite E1; cbn -[len];
  split; [done|]; cbn -[len]; rewrite E2; cbn -[len]; rewrite E3; cbn -[len];
  split; [done|]; cbn -[len]; rewrite L, N; split; [done|];
  intros [=]; f_equal; by apply S.

#[global] Program Instance CConvSpec_FAULT_LOG :
  CConvSpec FAULT_LOG_t C_FAULT_LOG _ _ TlvSpec_FAULT_LOG := {}.
Next Obligation. done. Qed.
Next Obligation.
  intros [n l]. cbn -[len]. unfold wf_FAULT_LOG, norm_FAULT_LOG, FAULT_LOG_c1, FAULT_LOG_c2.
  cbn -[len]. conv_table FaultRecord_back.
Qed.
#[global] Program Instance CConvSpec_GRANDMASTER_CLUSTER_TABLE :
  CConvSpec GRANDMASTER_CLUSTER_TABLE_t C_GRANDMASTER_CLUSTER_TABLE _ _
    TlvSpec_GRANDMASTER_CLUSTER_TABLE := {}.
Next Obligation. done. Qed.
Next Obligation.
  intros [q n l]. cbn -[len]. unfold wf_GRANDMASTER_CLUSTER_TABLE, norm_GRANDMASTER_CLUSTER_TABLE,
    GRANDMASTER_CLUSTER_TABLE_c1, GRANDMASTER_CLUSTER_TABLE_c2.
  cbn -[len]. conv_table PortAddress_back'.
Qed.
#[global] Program Instance CConvSpec_UNICAST_MASTER_TABLE :
  CConvSpec UNICAST_MASTER_TABLE_t C_UNICAST_MASTER_TABLE _ _ TlvSpec_UNICAST_MASTER_TABLE := {}.
Next Obligation. done. Qed.
Next Obligation.
  intros [q n l]. cbn -[len]. unfold wf_UNICAST_MASTER_TABLE, norm_UNICAST_MASTER_TABLE,
    UNICAST_MASTER_TABLE_c1, UNICAST_MASTER_TABLE_c2.
  cbn -[len]. conv_table PortAddress_back'.
Qed.
#[global] Program Instance CConvSpec_UNICAST_MASTER_TABLE_NP :
  CConvSpec UNICAST_MASTER_TABLE_NP_t C_UNICAST_MASTER_TABLE_NP _ _
    TlvSpec_UNICAST_MASTER_TABLE_NP := {}.
Next Obligation. done. Qed.
Next Obligation.
  intros [n l]. cbn -[len]. unfold wf_UNICAST_MASTER_TABLE_NP, norm_UNICAST_MASTER_TABLE_NP,
    UNICAST_MASTER_TABLE_NP_c1, UNICAST_MASTER_TABLE_NP_c2.
  cbn -[len]. conv_table LinuxptpUnicastMaster_back.
Qed.

Lemma AcceptableMaster_list l :
  Forall wf_AcceptableMaster l -> map c2_AcceptableMaster (map c1_AcceptableMaster l) = l.
Proof.
  induction 1 as [|d l H _ IH]; [done|]. cbn. by rewrite IH, AcceptableMaster_back.
Qed.
#[global] Program Instance CConvSpec_ACCEPTABLE_MASTER_TABLE :
  CConvSpec ACCEPTABLE_MASTER_TABLE_t C_ACCEPTABLE_MASTER_TABLE _ _
    TlvSpec_ACCEPTABLE_MASTER_TABLE := {}.
Next Obligation. done. Qed.
Next Obligation.
  intros [n l]. cbn -[len]. unfold wf_ACCEPTABLE_MASTER_TABLE, ACCEPTABLE_MASTER_TABLE_c1,
    ACCEPTABLE_MASTER_TABLE_c2. cbn -[len]. intros W Hn. wf_split.
  destruct (C1_tbl_table c1_AcceptableMaster n l Hn) as (m & E1 & E2).
  do 2 eexists. rewrite E1. split; [done|]. cbn -[len]. rewrite E2. cbn -[len].
  by rewrite AcceptableMaster_list.
Qed.

#[global] Program Instance CConvSpec_PATH_TRACE_LIST :
  CConvSpec PATH_TRACE_LIST_t C_PATH_TRACE_LIST _ _ TlvSpec_PATH_TRACE_LIST := {}.
Next Obligation. done. Qed.
Next Obligation.
  intros d H Z. apply (conv_back_simple PATH_TRACE_LIST_c1 PATH_TRACE_LIST_c2), back_exact.
  rewrite path_trace_back by done. rewrite before_zero_all by done. by destruct d.
Qed.

(** ** The dispatch *)

(** A case of the dispatch to C is the case of the id, and meets the interfaces. *)
Record conv_spec (id : mng_vals_e) (D C : Type) (inst : MngTlv D) (conv : CConv D C) : Type := {
  cv_case : tlv_case_of id = CaseUF D inst;
  cv_spec : case_spec D inst;
  cv_conv : CConvSpec D C inst conv (cs_spec D inst cv_spec)
}.

Lemma ctlv_case_spec id :
  match ctlv_case_of id return Type with
  | CCaseUF D C inst conv => conv_spec id D C inst conv
  | CCaseNA => forall t, verifyTlv id (Obj t) = false
  end.
Proof.
  destruct id; cbn [ctlv_case_of];
    first [exact (fun t => eq_refl)
          |unshelve econstructor; [econstructor; reflexivity|reflexivity|cbn; exact _]].
Defined.

(** The object of the dispatch and its copy. *)
Lemma c_tlv_back id t :
  verifyTlv id (Obj t) = true -> wf_tlv t -> c_able t ->
  exists c t', cpp2cMngTlv id t = Some c /\
    c2cppMngTlv id (Some c) = Some (Some t') /\ verifyTlv id (Obj t') = true /\
    norm_tlv t' = norm_tlv t /\ (norm_tlv t = t -> t' = t).
Proof.
  intros V W A. pose proof (ctlv_case_spec id) as P. unfold cpp2cMngTlv, c2cppMngTlv.
  destruct (ctlv_case_of id) as [|D C inst conv] eqn:E; [by rewrite P in V|].
  destruct P as [K S Q].
  destruct (verifyTlv_inv id _ V) as (D0 & inst0 & d0 & K0 & _).
  unfold verifyTlv in V. rewrite K in V. destruct (tlv_cast t) as [d|] eqn:T; [|done].
  apply (tlv_up_cast (TlvSpec := cs_spec D inst S)) in T as Et. subst t.
  rewrite (cs_wf D inst S) in W.
  destruct (conv_back (CConvSpec := Q) d W A) as (c & d' & E1 & E2 & N & U).
  exists (c_up c), (tlv_up d').
  cbn. rewrite E1. cbn.
  split; [done|]. rewrite (c_cast_up (CConvSpec := Q)). cbn. rewrite E2. cbn. split; [done|].
  split; [by eapply verifyTlv_intro|]. rewrite !(cs_norm D inst S), N. split; [done|].
  intros H. f_equal. apply U.
  apply (f_equal (@tlv_cast D inst)) in H. rewrite !(tlv_cast_up (TlvSpec := cs_spec D inst S)) in H.
  by injection H.
Qed.

(** C12: Converting a TLV to its C structure and back: for a structure of the id
    whose fields are in their ranges, whose counts are the sizes of its lists and
    whose path has no zero identity, both conversions succeed, no access is
    outside the C structure, and the copy is a structure of the same TLV that
    builds the same octets; it is equal to the original when the original is
    normal, as every structure that [parse] returns is. *)
Theorem c_tlv_roundtrip id t :
  verifyTlv id (Obj t) = true -> wf_tlv t -> c_able t ->
  exists c t', cpp2cMngTlv id t = Some c /\
    c2cppMngTlv id (Some c) = Some (Some t') /\ verifyTlv id (Obj t') = true /\
    norm_tlv t' = norm_tlv t /\ (norm_tlv t = t -> t' = t).
Proof. apply c_tlv_back. Qed.

Definition demo_path : PATH_TRACE_LIST_t :=
  mk_PATH_TRACE_LIST [mk_ClockIdentity (repeat x01 8); zero_ClockIdentity;
                      mk_ClockIdentity (repeat x02 8)].
Definition demo_log : FAULT_LOG_t :=
  mk_FAULT_LOG 1 [mk_FaultRecord 0 (mk_Timestamp 7 8) 5 (mk_PTPText 2 [x41; x42])
                    (mk_PTPText 0 []) (mk_PTPText 9 [x43])].

Lemma c_tlv_roundtrip_witness :
  exists c t', cpp2cMngTlv FAULT_LOG (T_FAULT_LOG demo_log) = Some c /\
    c2cppMngTlv FAULT_LOG (Some c) = Some (Some t') /\
    verifyTlv FAULT_LOG (Obj t') = true /\
    norm_tlv t' = norm_tlv (T_FAULT_LOG demo_log) /\
    (norm_tlv (T_FAULT_LOG demo_log) = T_FAULT_LOG demo_log -> t' = T_FAULT_LOG demo_log).
Proof.
  apply (c_tlv_roundtrip FAULT_LOG (T_FAULT_LOG demo_log)); [reflexivity| |reflexivity].
  split; [|split; by vm_compute].
  constructor; [|constructor]. repeat split; by vm_compute.
Defined.

(** What [c_able] excludes: a table whose count is not the size of its list has
    no C structure, and the path of the C structure ends before the first zero
    identity. *)
Lemma c_table_error d :
  fl_numberOfFaultRecords d <> len (fl_faultRecords d) ->
  cpp2cMngTlv FAULT_LOG (T_FAULT_LOG d) = None.
Proof. intros H. cbn. unfold FAULT_LOG_c1. by rewrite C1_tbl_error. Qed.

Lemma c_path_truncated d :
  wf_PATH_TRACE_LIST d ->
  exists c, cpp2cMngTlv PATH_TRACE_LIST (T_PATH_TRACE_LIST d) = Some c /\
    c2cppMngTlv PATH_TRACE_LIST (Some c) =
      Some (Some (T_PATH_TRACE_LIST (mk_PATH_TRACE_LIST (before_zero (ptl_pathSequence d))))).
Proof.
  intros H. eexists. split; [reflexivity|]. unfold c2cppMngTlv. cbn.
  by rewrite path_loop_before.
Qed.

(** A structure that the C interface makes is one of the id. *)
Lemma c2cpp_type id p t : c2cppMngTlv id p = Some (Some t) -> verifyTlv id (Obj t) = true.
Proof.
  unfold c2cppMngTlv. pose proof (ctlv_case_spec id) as P.
  destruct (ctlv_case_of id) as [|D C inst conv]; [done|]. destruct P as [K _ _].
  destruct p as [p|]; [|done]. destruct (c_cast p) as [c|]; [|done]. cbn.
  destruct (tlv_c2 c) as [d|]; [|done]. cbn. intros [= <-]. by eapply verifyTlv_intro.
Qed.
