(* ===== verification/MsgCall.v ===== *)
(** * MsgCall.v: the message dispatcher and the message builder

    [MessageDispatcher] and [MessageBuilder] of [src/src/msgCall.cpp] and
    [src/pub/msgCall.h], with the classes of call-backs they inherit, which
    [src/src/callDef.m4] generates, one virtual method per TLV.

    An application inherits the class and overrides some of the methods: a
    method that is not overridden is [None].  The methods of the dispatcher run
    on the state of the object, its [_nc] flag and the state [S] of the
    application; a method of the builder fills a new structure.

    The builder owns the structure it builds and the message keeps its address:
    the objects are in a heap, and an address that is not in it is dangling. *)

From S2P Require Import Prelude Types Ids Names MsgProc Codec Structs MngTlvs MngTlvsSpec Dispatch.
From S2P Require Import SigTlvs Auth Message ParseSafe MessageInv ParseFacts.

(** ** The dispatcher *)

Section Dispatcher.
Context {S : Type}.

(** The object: [_nc], and the rest of the object of the application. *)
Record disp := mk_disp { nc : bool; app : S }.
Definition set_nc (b : bool) (o : disp) : disp := mk_disp b (app o).

(** The method of the TLV of a case, with its typed reference. *)
Definition handler_t (c : tlv_case) : Type :=
  match c with
  | CaseUF D _ => option (Message -> D -> string -> disp -> disp)
  | _ => unit
  end.

Record MessageDispatcher := mk_MessageDispatcher {
  on_tlv : forall id, handler_t (tlv_case_of id);
  noTlv : Message -> disp -> disp;
  noTlvCallBack : Message -> string -> disp -> disp
}.

(** [BaseMngDispatchCallback::iCallHandler]: the name of the id, null without a
    case.  The method that is not overridden sets [_nc]; when the object is not
    of the type of the id no method is called. *)
Definition iCallHandler (d : MessageDispatcher) (msg : Message) (id : mng_vals_e)
    (tlv : BaseMngTlv) (o : disp) : option string * disp :=
  let o := set_nc false o in
  match tlv_case_of id as c return handler_t c -> option string * disp with
  | CaseUF D inst => fun h =>
      (Some (mng2str_c id),
       match tlv_cast tlv with
       | Some t => match h with
                   | Some f => f msg t (mng2str_c id) o
                   | None => set_nc true o
                   end
       | None => o
       end)
  | _ => fun _ => (None, o)
  end (on_tlv d id).

(** [callHadler] with an id and a pointer; [None] is the use of a pointer that
    is not set. *)
Definition callHadler_tlv (d : MessageDispatcher) (msg : Message) (id : mng_vals_e)
    (tlv : tlv_ptr) (o : disp) : option disp :=
  if negb (isValidId (implementSpecific (m_prms msg)) id) || isEmpty id
  then Some (noTlv d msg o)
  else
    match tlv with
    | Unset => None
    | Null => Some (noTlv d msg o)
    | Obj t =>
        let (idStr, o) := iCallHandler d msg id t o in
        match idStr with
        | None => Some (noTlv d msg o)
        | Some idStr => Some (if nc o then noTlvCallBack d msg idStr o else o)
        end
    end.

(** [callHadler] of a message: the last one it received. *)
Definition callHadler (d : MessageDispatcher) (msg : Message) (o : disp) : option disp :=
  callHadler_tlv d msg (m_replayTlv_id (prs msg)) (m_dataGet (prs msg)) o.

End Dispatcher.
Arguments disp : clear implicits.
Arguments MessageDispatcher : clear implicits.

(** ** A message and the object it points to *)

Definition addr := positive.

(** A message, the objects, the address in its [m_dataSend], and the address
    that the owner of the structure keeps: [m_tlv] of a [MessageBuilder],
    [sendTlv] of the C structure of a message. *)
Record Owned := mk_Owned {
  o_msg : Message;
  o_heap : gmap addr BaseMngTlv;
  o_send : option addr;
  o_own : option addr
}.

Definition deref (h : gmap addr BaseMngTlv) (p : option addr) : tlv_ptr :=
  match p with
  | None => Null
  | Some a => match h !! a with Some t => Obj t | None => Unset end
  end.

Definition set_dataSend (p : tlv_ptr) (m : Message) : Message :=
  let b := bld m in set_bld (mk_build_st (m_sendAction b) (m_msgLen b) p (m_tlv_id b)) m.
(** The message as its methods see it. *)
Definition view (s : Owned) : Message := set_dataSend (deref (o_heap s) (o_send s)) (o_msg s).

(** [Message::setAction] with an address, [Message::clearData]. *)
Definition setAction_at (a : actionField_e) (id : mng_vals_e) (p : option addr) (s : Owned)
    : bool * Owned :=
  let (r, m) := setAction a id (deref (o_heap s) p) (view s) in
  if r then
    (true, mk_Owned m (o_heap s) (match m_dataSend (bld m) with Null => None | _ => p end)
             (o_own s))
  else (false, s).
Definition clearData_at (s : Owned) : Owned :=
  match o_send s with
  | None => s
  | Some _ => mk_Owned (clearData (view s)) (o_heap s) None (o_own s)
  end.

(** [new] and [delete]. *)
Definition alloc (t : BaseMngTlv) (h : gmap addr BaseMngTlv) : addr * gmap addr BaseMngTlv :=
  let a := fresh (dom h) in (a, <[a := t]> h).
Definition dealloc (p : option addr) (h : gmap addr BaseMngTlv) : gmap addr BaseMngTlv :=
  match p with Some a => delete a h | None => h end.

(** The owner takes [p] instead of the object it has, which is deleted:
    [unique_ptr::reset], and the two statements of the C interface. *)
Definition reset (p : option addr) (s : Owned) : Owned :=
  mk_Owned (o_msg s) (dealloc (o_own s) (o_heap s)) (o_send s) p.

(** ** The builder *)

(** The method of the TLV of a case: fill the structure and tell if it is used. *)
Definition build_cb (c : tlv_case) : Type :=
  match c with
  | CaseUF D _ => option (Message -> D -> bool * D)
  | _ => unit
  end.
Definition MessageBuilder := forall id, build_cb (tlv_case_of id).

(** The ids of [callDef.m4] with a method for building. *)
Definition have_build (id : mng_vals_e) : bool :=
  match mi_func (mng_all_vals id) with UFB | UFBS => true | _ => false end.

(** [BaseMngBuildCallback::iBuild]: the new structure, null when there is no
    method or it returns false. *)
Definition iBuild (cbs : MessageBuilder) (msg : Message) (id : mng_vals_e) : option BaseMngTlv :=
  if have_build id then
    match tlv_case_of id as c return build_cb c -> option BaseMngTlv with
    | CaseUF D inst => fun cb =>
        match cb with
        | Some f => let (r, d) := f msg tlv_init in if r then Some (tlv_up d) else None
        | None => None
        end
    | _ => fun _ => None
    end (cbs id)
  else None.

Definition builder_clear (s : Owned) : Owned := reset None (clearData_at s).

Definition buildTlv (cbs : MessageBuilder) (a : actionField_e) (id : mng_vals_e) (s : Owned)
    : bool * Owned :=
  if negb (isValidId (implementSpecific (m_prms (o_msg s))) id) then (false, s)
  else if bool_decide (a = GET) || isEmpty id then setAction_at a id None s
  else
    match a with
    | SET | COMMAND =>
        match iBuild cbs (view s) id with
        | None => (false, s)
        | Some t =>
            let (p, h) := alloc t (o_heap s) in
            let s := mk_Owned (o_msg s) h (o_send s) (o_own s) in
            let (r, s) := setAction_at a id (Some p) s in
            if r then (true, reset (Some p) s)
            else (false, mk_Owned (o_msg s) (dealloc (Some p) (o_heap s)) (o_send s) (o_own s))
        end
    | _ => (false, s)
    end.

(** A new builder on a message that does not point to an object. *)
Definition builder_new (m : Message) : Owned := mk_Owned m ∅ None None.

(** ** What an application does with a builder *)

(** The message after one of its own methods: it may have changed the fields of
    the structure, through the address it keeps. *)
Definition put_msg (m : Message) (s : Owned) : Owned :=
  mk_Owned m
    (match o_send s, m_dataSend (bld m) with
     | Some a, Obj t => <[a := t]> (o_heap s)
     | _, _ => o_heap s
     end) (o_send s) (o_own s).

Section Steps.
Context `{lib : MacLib}.

Inductive builder_step : Owned -> Owned -> Prop :=
| bs_buildTlv cbs a id s : builder_step s (snd (buildTlv cbs a id s))
| bs_clear s : builder_step s (builder_clear s)
| bs_clearData s : builder_step s (clearData_at s)
| bs_updateParams prms s : builder_step s (put_msg (snd (updateParams prms (view s))) s)
| bs_build s buf n seq e m' buf' :
    n <= len buf -> build (view s) buf n seq = Some (e, m', buf') ->
    builder_step s (put_msg m' s)
| bs_parse s buf n e m' :
    n <= len buf -> parse (view s) buf n = Some (e, m') -> builder_step s (put_msg m' s).
End Steps.

(** * What the dispatcher and the builder do

    A parsed reply reaches the method of its id with its data; [buildTlv] sets
    the request with the structure of the method; and the address that the
    message keeps is always of the structure that the builder owns. *)

(** ** The dispatcher *)

Section Dispatcher.
Context {S : Type}.

(** The methods of the application leave the flag [_nc] alone: it is private,
    and only a dispatch from inside a method writes it. *)
Definition quiet (d : MessageDispatcher S) : Prop :=
  forall id,
    match tlv_case_of id as c return handler_t c -> Prop with
    | CaseUF D _ => fun h =>
        forall f msg t name o, h = Some f -> nc (f msg t name o) = nc o
    | _ => fun _ => True
    end (on_tlv d id).

(** One call-back is called: the method of the id when it is overridden, with
    the structure, or [noTlvCallBack], with the name of the id. *)
Definition deliver (d : MessageDispatcher S) (id : mng_vals_e) (t : BaseMngTlv) (msg : Message)
    (o : disp S) : disp S :=
  match tlv_case_of id as c return handler_t c -> disp S with
  | CaseUF D inst => fun h =>
      match h, tlv_cast t with
      | Some f, Some x => f msg x (mng2str_c id) (set_nc false o)
      | None, _ => noTlvCallBack d msg (mng2str_c id) (set_nc true o)
      | _, None => set_nc false o
      end
  | _ => fun _ => noTlv d msg o
  end (on_tlv d id).

Lemma callHadler_deliver d msg id t o :
  quiet d -> isValidId (implementSpecific (m_prms msg)) id = true ->
  verifyTlv id (Obj t) = true ->
  callHadler_tlv d msg id (Obj t) o = Some (deliver d id t msg o).
Proof.
  intros Q V T. unfold callHadler_tlv. rewrite V, (verifyTlv_nonempty _ _ T). cbn [negb orb].
  unfold iCallHandler, deliver. specialize (Q id). unfold verifyTlv in T.
  revert Q T.
  generalize (on_tlv d id); destruct (tlv_case_of id) as [|D inst|]; try done.
  intros h Q T. destruct (tlv_cast t) as [x|]; [|done]. destruct h as [f|]; [|done].
  by rewrite (Q f) by done.
Qed.

(** A structure of another id: no method is called, neither [noTlv]. *)
Lemma callHadler_mismatch (d : MessageDispatcher S) msg id t o :
  isValidId (implementSpecific (m_prms msg)) id = true -> isEmpty id = false ->
  verifyTlv id (Obj t) = false ->
  callHadler_tlv d msg id (Obj t) o = Some (set_nc false o).
Proof.
  intros V N T. unfold callHadler_tlv. rewrite V, N. cbn [negb orb].
  unfold isValidId in V. apply andb_prop in V as [V _].
  pose proof (case_not_none id V). unfold isEmpty in N. rewrite V in N. cbn [andb] in N.
  apply Z.eqb_neq in N. pose proof (case_NA_size id) as C. unfold iCallHandler.
  unfold verifyTlv in T. generalize (on_tlv d id).
  destruct (tlv_case_of id) as [|D inst|]; [exfalso; apply N; by apply C| |done].
  intros h. by destruct (tlv_cast t).
Qed.

Lemma callHadler_empty (d : MessageDispatcher S) msg id p o :
  isEmpty id = true -> callHadler_tlv d msg id p o = Some (noTlv d msg o).
Proof. intros E. unfold callHadler_tlv. by rewrite E, orb_true_r. Qed.
Lemma callHadler_null (d : MessageDispatcher S) msg id o : callHadler_tlv d msg id Null o = Some (noTlv d msg o).
Proof. unfold callHadler_tlv. by case_match. Qed.

(** C9: What the dispatcher calls for a management message that [parse]
    returned with success, [tn] being the length of its TLV: an id without a
    dataField goes to [noTlv]; a dataField goes to the method of its id, with the
    structure that was parsed and the name of the id, or to [noTlvCallBack] when
    the method is not overridden; a TLV with an empty dataField is dispatched
    with the structure of the message before, when that is of the same id, to no
    method at all when it is of another id, and to [noTlv] when there is none. *)
Theorem callHadler_reply `{lib : MacLib} (d : MessageDispatcher S) m buf n m' o :
  quiet d -> auth_inv (auth m) -> n <= len buf ->
  parse m buf n = Some (MNG_PARSE_ERROR_OK, m') -> m_type (prs m') = Management ->
  exists tn, rd16 buf 50 = Some tn /\
  let id := m_replayTlv_id (prs m') in
  if isEmpty id then callHadler d m' o = Some (noTlv d m' o)
  else if 2 <? tn then
    exists t, m_dataGet (prs m') = Obj t /\ verifyTlv id (Obj t) = true /\
      callHadler d m' o = Some (deliver d id t m' o)
  else
    match m_dataGet (prs m) with
    | Obj t => callHadler d m' o =
        Some (if verifyTlv id (Obj t) then deliver d id t m' o else set_nc false o)
    | Null => callHadler d m' o = Some (noTlv d m' o)
    | Unset => callHadler d m' o = None
    end.
Proof.
  intros Q I Hn E T. destruct (parse_reply m buf n m' I Hn E T) as (_ & V & _ & _ & tn & R & C).
  exists tn. split; [done|]. cbv zeta in *. unfold callHadler.
  destruct (isEmpty (m_replayTlv_id (prs m'))) eqn:Em; [by apply callHadler_empty|].
  destruct C as [(-> & ->)|[(L & _ & K)|(_ & ? & _)]]; [| |done].
  - change (2 <? 2) with false. cbv iota. destruct (m_dataGet (prs m)) as [| |t].
    + unfold callHadler_tlv. by rewrite V, Em.
    + apply callHadler_null.
    + destruct (verifyTlv _ (Obj t)) eqn:K; [by apply callHadler_deliver|].
      by apply callHadler_mismatch.
  - destruct (Z.ltb_spec 2 tn); [|lia]. destruct (m_dataGet (prs m')) as [| |t]; [done..|].
    exists t. split; [done|]. split; [done|]. by apply callHadler_deliver.
Qed.
End Dispatcher.

(** A dispatcher that keeps the values of PRIORITY1, and the message of a reply. *)
Definition no_handler {S} (c : tlv_case) : @handler_t S c :=
  match c with CaseUF _ _ => None | _ => tt end.
Definition demo_dispatcher : MessageDispatcher (list Z) :=
  mk_MessageDispatcher
    (fun id => match id as i return handler_t (tlv_case_of i) with
               | PRIORITY1 => Some (fun _ t _ o => mk_disp (nc o) (pr1_priority1 t :: app o))
               | i => no_handler (tlv_case_of i)
               end)
    (fun _ o => mk_disp (nc o) (-1 :: app o)) (fun _ _ o => mk_disp (nc o) (-2 :: app o)).
Definition demo_octets : list byte :=
  demo_msg 2 (be_enc 2 1 ++ be_enc 2 4 ++ be_enc 2 0x2005 ++ [x2a; x00]).

Lemma demo_quiet : quiet demo_dispatcher.
Proof. intros id. destruct id; cbn; try done; by intros; simplify_eq. Qed.

Lemma callHadler_reply_witness :
  exists m', parse Message_new demo_octets 56 = Some (MNG_PARSE_ERROR_OK, m') /\
    callHadler demo_dispatcher m' (mk_disp true []) = Some (mk_disp false [42]) /\
    exists tn, rd16 demo_octets 50 = Some tn.
Proof.
  eexists. split; [vm_compute; reflexivity|]. split; [vm_compute; reflexivity|].
  destruct (callHadler_reply demo_dispatcher Message_new demo_octets 56 _ (mk_disp true [])
    demo_quiet (fun H => match diff_false_true H with end) ltac:(vm_compute; discriminate)
    ltac:(vm_compute; reflexivity) ltac:(vm_compute; reflexivity)) as (tn & R & _).
  by exists tn.
Defined.

(** ** The owner of the structure *)

Lemma set_dataSend_same m p : m_dataSend (bld m) = p -> set_dataSend p m = m.
Proof. destruct m as [[]]; cbn. by intros ->. Qed.
Lemma bld_set_dataSend p m :
  bld (set_dataSend p m) =
    mk_build_st (m_sendAction (bld m)) (m_msgLen (bld m)) p (m_tlv_id (bld m)).
Proof. done. Qed.
Lemma view_send s : m_dataSend (bld (view s)) = deref (o_heap s) (o_send s).
Proof. done. Qed.

(** The heap has the structure of the owner and no other, and the message points
    to it or to nothing. *)
Inductive owned : Owned -> Prop :=
| owned_none m : owned (mk_Owned m ∅ None None)
| owned_some m a t p : p = None \/ p = Some a -> owned (mk_Owned m {[a := t]} p (Some a)).

Lemma owned_deref s : owned s -> m_dataSend (bld (view s)) <> Unset.
Proof.
  destruct 1 as [|m a t p [->| ->]]; rewrite view_send; [done..|]. cbn.
  by rewrite lookup_singleton_eq.
Qed.

Lemma alloc_fresh t h : h !! fst (alloc t h) = None.
Proof. cbn. apply not_elem_of_dom, is_fresh. Qed.

(** The owner takes a new structure: only it is left. *)
Lemma reset_new s t m p :
  owned s -> let (a, h) := alloc t (o_heap s) in
  p = None \/ p = Some a ->
  owned (reset (Some a) (mk_Owned m h p (o_own s))).
Proof.
  intros O. pose proof (alloc_fresh t (o_heap s)) as F. unfold alloc in *. cbv zeta in F. cbn [fst] in F.
  set (a := fresh (dom (o_heap s))) in *. clearbody a. intros Hp. unfold reset. cbn [o_msg o_heap o_send o_own].
  enough (dealloc (o_own s) (<[a := t]> (o_heap s)) = {[a := t]}) as -> by by constructor.
  destruct O as [m0|m0 b u q _]; cbn in *; [done|].
  assert (b <> a) by (intros E; rewrite E, lookup_singleton_eq in F; done).
  rewrite delete_insert_ne by done. by rewrite delete_singleton_eq.
Qed.

(** Deleting the new structure leaves what there was. *)
Lemma dealloc_new t h : let (a, h') := alloc t h in dealloc (Some a) h' = h.
Proof.
  pose proof (alloc_fresh t h) as F. unfold alloc in *. cbn in *. by apply delete_insert_id.
Qed.

(** ** [setAction] and [buildTlv] on the owner *)

Definition needs_data (a : actionField_e) (id : mng_vals_e) : bool :=
  negb (bool_decide (a = GET)) && negb (isEmpty id).
Definition spec_of (s : Owned) : implementSpecific_e := implementSpecific (m_prms (o_msg s)).
(** The message with another request. *)
Definition with_request (a : actionField_e) (id : mng_vals_e) (p : tlv_ptr) (s : Owned) : Message :=
  set_bld (mk_build_st a (m_msgLen (bld (o_msg s))) p id) (o_msg s).

Lemma setAction_at_cases a id p s :
  setAction_at a id p s =
    if allowedAction (spec_of s) id a &&
       (negb (needs_data a id) || verifyTlv id (deref (o_heap s) p))
    then (true, mk_Owned (with_request a id
                   (if needs_data a id then deref (o_heap s) p else Null) s)
                 (o_heap s) (if needs_data a id then p else None) (o_own s))
    else (false, s).
Proof.
  unfold setAction_at. rewrite setAction_cases. cbv zeta.
  change (implementSpecific (m_prms (view s))) with (spec_of s).
  change (negb (bool_decide (a = GET)) && negb (isEmpty id)) with (needs_data a id).
  destruct (allowedAction _ id a && _) eqn:C; [|done]. apply andb_prop in C as [_ C].
  destruct (needs_data a id); [|done]. cbn [negb orb] in C.
  destruct (deref (o_heap s) p) eqn:D; [done..|]. cbn [m_dataSend bld set_bld]. done.
Qed.

Lemma iBuild_type cbs m id t : iBuild cbs m id = Some t -> verifyTlv id (Obj t) = true.
Proof.
  unfold iBuild. destruct (have_build id); [|done]. generalize (cbs id).
  pose proof (fun D inst => verifyTlv_intro id D inst) as V.
  destruct (tlv_case_of id) as [|D inst|]; try done. intros [f|]; [|done].
  destruct (f m tlv_init) as [[] d]; [|done]. intros [= <-]. by eapply V.
Qed.

Lemma allowed_valid spec id a : allowedAction spec id a = true -> isValidId spec id = true.
Proof.
  unfold allowedAction, isValidId. destruct a; try done; (destruct (in_table id); [|done]);
    by destruct (blocked spec id).
Qed.

(** Everything [buildTlv] does. *)
Lemma buildTlv_cases cbs a id s :
  buildTlv cbs a id s =
    if negb (allowedAction (spec_of s) id a) then (false, s)
    else if needs_data a id then
      match iBuild cbs (view s) id with
      | None => (false, s)
      | Some t =>
          let (p, h) := alloc t (o_heap s) in
          (true, reset (Some p) (mk_Owned (with_request a id (Obj t) s) h (Some p) (o_own s)))
      end
    else (true, mk_Owned (with_request a id Null s) (o_heap s) None (o_own s)).
Proof.
  unfold buildTlv. change (implementSpecific (m_prms (o_msg s))) with (spec_of s).
  destruct (allowedAction (spec_of s) id a) eqn:A; cbn [negb].
  - rewrite (allowed_valid _ _ _ A). cbn [negb].
    assert (bool_decide (a = GET) || isEmpty id = negb (needs_data a id)) as ->.
    { unfold needs_data. by destruct (bool_decide _), (isEmpty id). }
    destruct (needs_data a id) eqn:N; cbn [negb].
    + assert (a = SET \/ a = COMMAND) as Ha.
      { destruct a; first [by left|by right|done]. }
      destruct (iBuild cbs (view s) id) as [t|] eqn:B; [|by destruct Ha; subst a].
      unfold alloc. cbv zeta. rewrite setAction_at_cases. cbn [spec_of o_msg o_heap].
      unfold spec_of in *. cbn [o_msg]. rewrite A, N. cbn [andb negb orb deref].
      rewrite lookup_insert_eq, (iBuild_type _ _ _ _ B). by destruct Ha; subst a.
    + rewrite setAction_at_cases, A, N. done.
  - destruct (isValidId (spec_of s) id); [|done]. cbn [negb].
    destruct (bool_decide (a = GET) || isEmpty id); [by rewrite setAction_at_cases, A|].
    pose proof (dealloc_new) as D. destruct a; try done.
    all: destruct (iBuild cbs (view s) id) as [t|] eqn:B; [|done].
    all: specialize (D t (o_heap s)); destruct (alloc t (o_heap s)) as [p h]; rewrite setAction_at_cases;
      unfold spec_of in *; cbn [o_msg o_heap]; rewrite A; cbn [andb o_heap o_msg o_send o_own];
      rewrite D; by destruct s.
Qed.

(** What [view] shows after the owner took a new structure. *)
Lemma view_new t h m own :
  own <> Some (fst (alloc t h)) ->
  m_dataSend (bld (view (reset (Some (fst (alloc t h)))
    (mk_Owned m (snd (alloc t h)) (Some (fst (alloc t h))) own)))) = Obj t.
Proof.
  intros N. rewrite view_send. cbn [reset o_send o_heap o_own]. unfold deref.
  assert (dealloc own (snd (alloc t h)) !! fst (alloc t h) = Some t) as ->; [|done].
  cbn. destruct own as [b|]; cbn; [|apply lookup_insert_eq].
  rewrite lookup_delete_ne by (intros ->; by apply N). apply lookup_insert_eq.
Qed.

(** The owner never has the address of a new object. *)
Lemma owned_not_fresh s t : owned s -> o_own s <> Some (fst (alloc t (o_heap s))).
Proof.
  intros O E. pose proof (alloc_fresh t (o_heap s)) as F.
  destruct O as [|m a u p _]; [done|]. cbn [o_own o_heap] in *. apply (inj Some) in E.
  rewrite <- E in F. by rewrite lookup_singleton_eq in F.
Qed.

(** C14: On a message whose structure the builder owns, [buildTlv] returns true
    exactly when the action is allowed for the id and, for a SET or a COMMAND of
    an id with a dataField, the method of the application returned true; it then
    leaves a message that asks for the action of the id, with the structure that
    the method filled.  Otherwise the builder and the message are as they were. *)
Theorem buildTlv_correct cbs a id s :
  owned s ->
  let need := negb (bool_decide (a = GET)) && negb (isEmpty id) in
  let built := iBuild cbs (view s) id in
  let (r, s') := buildTlv cbs a id s in
  (r = true <-> allowedAction (implementSpecific (m_prms (o_msg s))) id a = true /\
     (need = true -> is_Some built)) /\
  (r = true ->
     m_sendAction (bld (view s')) = a /\ m_tlv_id (bld (view s')) = id /\
     m_dataSend (bld (view s')) =
       (if need then match built with Some t => Obj t | None => Null end else Null)) /\
  (r = false -> s' = s).
Proof.
  intros O. cbv zeta.
  change (negb (bool_decide (a = GET)) && negb (isEmpty id)) with (needs_data a id).
  rewrite buildTlv_cases. change (implementSpecific (m_prms (o_msg s))) with (spec_of s).
  destruct (allowedAction (spec_of s) id a); cbn [negb]; [|by intuition].
  destruct (needs_data a id).
  - destruct (iBuild cbs (view s) id) as [t|]; [|by intuition (discriminate || by destruct H0)].
    pose proof (view_new t (o_heap s) (with_request a id (Obj t) s) _ (owned_not_fresh s t O)) as V.
    destruct (alloc t (o_heap s)) as [p h]. cbn [fst snd] in V. rewrite V.
    split; [by intuition|]. by intuition.
  - by intuition.
Qed.

(** ** Every sequence of operations *)

Section Steps.
Context `{lib : MacLib}.

Definition builder_inv (s : Owned) : Prop := owned s /\ msg_inv (view s).

(** Whether a message has data to send. *)
Definition sends (m : Message) : bool :=
  match m_dataSend (bld m) with Null => false | _ => true end.

Lemma put_msg_inv s m :
  owned s -> msg_inv m -> sends m = sends (view s) -> builder_inv (put_msg m s).
Proof.
  intros O I H. enough (view (put_msg m s) = m /\ owned (put_msg m s)) as [V ?].
  { split; [done|by rewrite V]. }
  assert (m_dataSend (bld m) <> Unset) as U.
  { destruct I as [(_ & _ & I) _]. intros E. rewrite E in I. by destruct I. }
  unfold sends in H. destruct O as [m0|m0 a t p [->| ->]]; rewrite view_send in H; cbn in H.
  - destruct (m_dataSend (bld m)) eqn:E; try done. split; [|by constructor].
    by apply set_dataSend_same.
  - destruct (m_dataSend (bld m)) eqn:E; try done. unfold put_msg. cbn. rewrite ?E.
    split; [by apply set_dataSend_same|]. constructor. by left.
  - rewrite lookup_singleton_eq in H. destruct (m_dataSend (bld m)) as [| |u] eqn:E; try done.
    unfold put_msg. cbn. rewrite E, insert_singleton_eq. split; [|constructor; by right].
    apply set_dataSend_same. cbn. by rewrite lookup_singleton_eq.
Qed.

Lemma buildTlv_inv cbs a id s : builder_inv s -> builder_inv (snd (buildTlv cbs a id s)).
Proof.
  intros [O I]. rewrite buildTlv_cases.
  destruct (allowedAction (spec_of s) id a) eqn:A; cbn [negb]; [|done].
  destruct (needs_data a id) eqn:N.
  - destruct (iBuild cbs (view s) id) as [t|] eqn:B; [|done].
    pose proof (view_new t (o_heap s) (with_request a id (Obj t) s) _ (owned_not_fresh s t O)) as V.
    pose proof (reset_new s t (with_request a id (Obj t) s) (Some (fst (alloc t (o_heap s)))) O) as R.
    destruct (alloc t (o_heap s)) as [p h]. cbn [fst snd] in *.
    split; [apply R; by right|]. destruct I as (_ & I). split; [|exact I].
    pose proof (setAction_send (spec_of s) id a (Obj t) (m_msgLen (bld (o_msg s))) A) as G.
    cbv zeta in G. fold (needs_data a id) in G. rewrite N in G.
    specialize (G (iBuild_type _ _ _ _ B)). unfold view. rewrite bld_set_dataSend.
    rewrite view_send in V. cbn [reset o_send o_heap o_own o_msg] in *. by rewrite V.
  - cbn [snd]. destruct I as (_ & I). split.
    + destruct O; constructor; by left.
    + split; [|exact I]. unfold view. rewrite bld_set_dataSend. cbn.
      pose proof (setAction_send (spec_of s) id a Null (m_msgLen (bld (o_msg s))) A) as G.
      cbv zeta in G. fold (needs_data a id) in G. rewrite N in G. by apply G.
Qed.

Lemma clearData_at_inv s : builder_inv s -> builder_inv (clearData_at s).
Proof.
  intros [O I]. unfold clearData_at. destruct (o_send s) as [a|] eqn:E; [|done].
  pose proof (msg_step_inv _ _ I (step_clearData _)) as J.
  assert (m_dataSend (bld (clearData (view s))) = Null) as V.
  { unfold clearData. by destruct (m_dataSend (bld (view s))) eqn:V. }
  split; [destruct O; constructor; by left|]. unfold view. cbn [o_heap o_send o_msg deref].
  by rewrite set_dataSend_same.
Qed.

Lemma builder_clear_inv s : builder_inv s -> builder_inv (builder_clear s).
Proof.
  intros H. apply clearData_at_inv in H as [O I]. unfold builder_clear.
  assert (o_send (clearData_at s) = None) as E.
  { unfold clearData_at. by destruct (o_send s) eqn:E. }
  destruct O as [m|m a t p _]; cbn in E; subst; [by split; [constructor|]|].
  unfold reset. cbn. rewrite delete_singleton_eq. by split; [constructor|].
Qed.

(** The request says if there is data. *)
Lemma send_inv_sends m :
  send_inv (bld m) -> sends m = needs_data (m_sendAction (bld m)) (m_tlv_id (bld m)).
Proof.
  intros (_ & _ & I). unfold sends, needs_data.
  destruct (m_dataSend (bld m)) as [| |t]; [by destruct I| |].
  - destruct (bool_decide_reflect (m_sendAction (bld m) = GET)); [done|].
    destruct I as [|I]; [done|by rewrite I].
  - destruct I as [V N]. by rewrite bool_decide_eq_false_2, (verifyTlv_nonempty _ _ V) by done.
Qed.

Lemma builder_step_inv s s' : builder_step s s' -> builder_inv s -> builder_inv s'.
Proof.
  intros S H. destruct S.
  - by apply buildTlv_inv.
  - by apply builder_clear_inv.
  - by apply clearData_at_inv.
  - destruct H as [O I].
    apply put_msg_inv; [done|by eapply msg_step_inv; [|apply step_updateParams]|].
    unfold updateParams. by destruct (_ <? _).
  - destruct H as [O I].
    apply put_msg_inv; [done|by eapply msg_step_inv; [|eapply step_build]|].
    destruct (build_inv _ _ _ _ _ _ _ H1 (proj1 I)) as (J & _ & _ & _ & Ea & Ei).
    rewrite (send_inv_sends _ J), (send_inv_sends _ (proj1 I)). by rewrite Ea, Ei.
  - destruct H as [O I]. pose proof I as (I1 & I2 & I3).
    apply put_msg_inv; [done|by eapply msg_step_inv; [|eapply step_parse]|].
    destruct (parse_total (view s) buf n I2 I3 ltac:(done)) as (e' & p & E & _).
    rewrite E in H1. by simplify_eq.
Qed.

End Steps.

(** A builder whose method of PRIORITY1 asks for 200. *)
Definition no_build (c : tlv_case) : build_cb c :=
  match c with CaseUF _ _ => None | _ => tt end.
Definition demo_builder : MessageBuilder := fun id =>
  match id as i return build_cb (tlv_case_of i) with
  | PRIORITY1 => Some (fun _ _ => (true, mk_PRIORITY1 200))
  | i => no_build (tlv_case_of i)
  end.
Definition demo_built : Owned := snd (buildTlv demo_builder SET PRIORITY1 (builder_new Message_new)).

Lemma Message_new_inv : msg_inv Message_new.
Proof. apply msg_init_inv. by exists MsgParams_default. Qed.

Lemma buildTlv_correct_witness :
  let (r, s') := buildTlv demo_builder SET PRIORITY1 (builder_new Message_new) in
  r = true /\ m_dataSend (bld (view s')) = Obj (T_PRIORITY1 (mk_PRIORITY1 200)).
Proof.
  pose proof (buildTlv_correct demo_builder SET PRIORITY1 (builder_new Message_new)
    (owned_none _)) as H.
  cbv zeta in H. destruct (buildTlv _ _ _ _) as [r s'] eqn:E.
  assert (r = true) as -> by (apply H; split; [reflexivity|intros _; by eexists]).
  split; [reflexivity|]. apply H. reflexivity.
Defined.


(** A refusal after the method returned true: the case that the source says
    should not happen. *)
Example refused_after_build :
  is_Some (iBuild demo_builder Message_new PRIORITY1) /\
  fst (buildTlv demo_builder COMMAND PRIORITY1 (builder_new Message_new)) = false.
Proof. split; [by eexists|reflexivity]. Qed.
