(* ===== verification/TlvMem.v ===== *)
(** * TlvMem.v: the memory of a TLV of the C interface

    [ptpmgmt_tlv_mem] of [src/src/msg.cpp]: an object that owns the C structure
    of a TLV and the blocks its pointers use.  The blocks are the live
    allocations, an address with its size; [_memHndl] is the vector of the
    addresses to release.  [malloc] and [realloc] succeed and give an address
    that is not in use.  A copy of a structure is by value: its blocks are
    the sizes of the allocations it makes, in order.

    The sizes of the C structures are those of a platform with pointers of 8
    octets and enumerations of 4. *)

From S2P Require Import Prelude Types Ids MsgProc Codec Structs MngTlvs CTlvs.

Definition addr := positive.

(** ** Results *)

(** An access that is not allowed, a failure, a value. *)
Inductive res (A : Type) :=
| Ub
| No
| Yes (a : A).
Arguments Ub {A}.
Arguments No {A}.
Arguments Yes {A} a.

(** A copy and the sizes of the blocks it allocates. *)
Definition copied (A : Type) : Type := res (A * list Z).
Definition cret {A} (a : A) : copied A := Yes (a, []).
Definition cbind {A B} (x : copied A) (k : A -> copied B) : copied B :=
  match x with
  | Yes (a, bs) => match k a with Yes (b, bs') => Yes (b, bs ++ bs') | No => No | Ub => Ub end
  | No => No
  | Ub => Ub
  end.

Declare Scope copied_scope.
Delimit Scope copied_scope with copied.
Notation "x <~ a ;; k" := (cbind a (fun x => k))
  (at level 100, a at next level, right associativity) : copied_scope.
Local Open Scope copied_scope.

(** The [for] loop over a table, which stops at a failure. *)
Fixpoint cmap {A B} (f : A -> copied B) (l : list A) : copied (list B) :=
  match l with
  | [] => cret []
  | a :: l => b <~ f a ;; r <~ cmap f l ;; cret (b :: r)
  end.

(** ** Copying a structure *)

Definition sizeof_PortAddress : Z := 16.
Definition sizeof_FaultRecord : Z := 80.
Definition sizeof_AcceptableMaster : Z := 12.
Definition sizeof_LinuxptpUnicastMaster : Z := 56.
Definition sizeof_PATH_TRACE_LIST : Z := 16.

(** [_tlv_mem_copyText]: a text that is empty is a failure. *)
Definition copyText (t : C_PTPText) : copied C_PTPText :=
  if 0 <? c_lengthField t then
    match c_textField t with
    | P_unset => Ub
    | P_null => No
    | P_to s =>
        match read_n (c_lengthField t) s with
        | None => Ub
        | Some b => Yes (mk_C_PTPText (c_lengthField t) (P_to (b ++ [x00])), [c_lengthField t + 1])
        end
    end
  else No.

(** [_tlv_mem_copyBloc] of [n] elements of [size] octets: an empty block is a
    failure. *)
Definition copyBloc {A} (size n : Z) (p : c_ptr A) : copied (c_ptr A) :=
  if 0 <? n * size then
    match p with
    | P_unset => Ub
    | P_null => No
    | P_to l => match read_n n l with None => Ub | Some b => Yes (P_to b, [n * size]) end
    end
  else No.

(** The elements of a block that was copied. *)
Definition elements {A} (p : c_ptr A) : list A := match p with P_to l => l | _ => [] end.

Definition copy_PortAddress (p : C_PortAddress) : copied C_PortAddress :=
  f <~ copyBloc 1 (c_addressLength p) (c_addressField p) ;;
  cret (mk_C_PortAddress (c_networkProtocol p) (c_addressLength p) f).
Definition copy_FaultRecord (r : C_FaultRecord) : copied C_FaultRecord :=
  name <~ copyText (c_faultName r) ;;
  value <~ copyText (c_faultValue r) ;;
  description <~ copyText (c_faultDescription r) ;;
  cret (mk_C_FaultRecord (c_faultRecordLength r) (c_faultTime r) (c_severityCode r)
          name value description).
Definition copy_UnicastMaster (m : C_LinuxptpUnicastMaster) : copied C_LinuxptpUnicastMaster :=
  a <~ copy_PortAddress (c_lum_portAddress m) ;;
  cret (mk_C_LinuxptpUnicastMaster (c_lum_portIdentity m) (c_lum_clockQuality m)
          (c_lum_selected m) (c_lum_portState m) (c_lum_priority1 m) (c_lum_priority2 m) a).

Definition copy_CLOCK_DESCRIPTION (a : C_CLOCK_DESCRIPTION) : copied C_CLOCK_DESCRIPTION :=
  layer <~ copyText (c_cd_physicalLayerProtocol a) ;;
  product <~ copyText (c_cd_productDescription a) ;;
  revision <~ copyText (c_cd_revisionData a) ;;
  user <~ copyText (c_cd_userDescription a) ;;
  n1 <~ copyBloc 1 (c_cd_physicalAddressLength a) (c_cd_physicalAddress a) ;;
  protocol <~ copy_PortAddress (c_cd_protocolAddress a) ;;
  cret (mk_C_CLOCK_DESCRIPTION (c_cd_clockType a) layer (c_cd_physicalAddressLength a) n1
          protocol (c_cd_manufacturerIdentity a) product revision user (c_cd_profileIdentity a)).
Definition copy_FAULT_LOG (a : C_FAULT_LOG) : copied C_FAULT_LOG :=
  n1 <~ copyBloc sizeof_FaultRecord (c_fl_numberOfFaultRecords a) (c_fl_faultRecords a) ;;
  l <~ cmap copy_FaultRecord (elements n1) ;;
  cret (mk_C_FAULT_LOG (c_fl_numberOfFaultRecords a) (P_to l)).

(** The loop looks for the zero identity but its counter is a variable of its
    own: the size of the block uses the size of the structure. *)
Definition has_zero (l : list ClockIdentity_t) : bool := existsb zero_identity l.
Definition copy_PATH_TRACE_LIST (a : C_PATH_TRACE_LIST) : copied C_PATH_TRACE_LIST :=
  match c_ptl_pathSequence a with
  | P_to l =>
      if has_zero l then
        n1 <~ copyBloc ClockIdentity_size sizeof_PATH_TRACE_LIST (P_to l) ;;
        cret (mk_C_PATH_TRACE_LIST n1 (c_ptl_actualTableSize a))
      else Ub
  | _ => Ub
  end.
Definition copy_GRANDMASTER_CLUSTER_TABLE (a : C_GRANDMASTER_CLUSTER_TABLE)
    : copied C_GRANDMASTER_CLUSTER_TABLE :=
  n1 <~ copyBloc sizeof_PortAddress (c_gct_actualTableSize a) (c_gct_PortAddress a) ;;
  l <~ cmap copy_PortAddress (elements n1) ;;
  cret (mk_C_GRANDMASTER_CLUSTER_TABLE (c_gct_logQueryInterval a) (c_gct_actualTableSize a) (P_to l)).
Definition copy_UNICAST_MASTER_TABLE (a : C_UNICAST_MASTER_TABLE)
    : copied C_UNICAST_MASTER_TABLE :=
  n1 <~ copyBloc sizeof_PortAddress (c_umt_actualTableSize a) (c_umt_PortAddress a) ;;
  l <~ cmap copy_PortAddress (elements n1) ;;
  cret (mk_C_UNICAST_MASTER_TABLE (c_umt_logQueryInterval a) (c_umt_actualTableSize a) (P_to l)).
Definition copy_ACCEPTABLE_MASTER_TABLE (a : C_ACCEPTABLE_MASTER_TABLE)
    : copied C_ACCEPTABLE_MASTER_TABLE :=
  n1 <~ copyBloc sizeof_AcceptableMaster (c_amt_actualTableSize a) (c_amt_list a) ;;
  cret (mk_C_ACCEPTABLE_MASTER_TABLE (c_amt_actualTableSize a) n1).
Definition copy_UNICAST_MASTER_TABLE_NP (a : C_UNICAST_MASTER_TABLE_NP)
    : copied C_UNICAST_MASTER_TABLE_NP :=
  n1 <~ copyBloc sizeof_LinuxptpUnicastMaster (c_umn_actualTableSize a) (c_umn_unicastMasters a) ;;
  l <~ cmap copy_UnicastMaster (elements n1) ;;
  cret (mk_C_UNICAST_MASTER_TABLE_NP (c_umn_actualTableSize a) (P_to l)).

(** The structure [ntlv] of [ptpmgmt_tlv_mem_copyTlv]: a copy of the octets, and
    of the blocks of the TLVs that have some.  The [void *] must be to a
    structure of the id; an id without a structure is a failure. *)
Definition copy_struct (id : mng_vals_e) (tlv : CMngTlv) : copied CMngTlv :=
  match id, tlv with
  | CLOCK_DESCRIPTION, C_T_CLOCK_DESCRIPTION a =>
      x <~ copy_CLOCK_DESCRIPTION a ;; cret (C_T_CLOCK_DESCRIPTION x)
  | USER_DESCRIPTION, C_T_USER_DESCRIPTION a =>
      x <~ copyText (c_ud_userDescription a) ;;
      cret (C_T_USER_DESCRIPTION (mk_C_USER_DESCRIPTION x))
  | ALTERNATE_TIME_OFFSET_NAME, C_T_ALTERNATE_TIME_OFFSET_NAME a =>
      x <~ copyText (c_aton_displayName a) ;;
      cret (C_T_ALTERNATE_TIME_OFFSET_NAME (mk_C_ALTERNATE_TIME_OFFSET_NAME (c_aton_keyField a) x))
  | PORT_PROPERTIES_NP, C_T_PORT_PROPERTIES_NP a =>
      x <~ copyText (c_ppn_interface a) ;;
      cret (C_T_PORT_PROPERTIES_NP (mk_C_PORT_PROPERTIES_NP (c_ppn_portIdentity a)
              (c_ppn_portState a) (c_ppn_timestamping a) x))
  | FAULT_LOG, C_T_FAULT_LOG a => x <~ copy_FAULT_LOG a ;; cret (C_T_FAULT_LOG x)
  | PATH_TRACE_LIST, C_T_PATH_TRACE_LIST a =>
      x <~ copy_PATH_TRACE_LIST a ;; cret (C_T_PATH_TRACE_LIST x)
  | GRANDMASTER_CLUSTER_TABLE, C_T_GRANDMASTER_CLUSTER_TABLE a =>
      x <~ copy_GRANDMASTER_CLUSTER_TABLE a ;; cret (C_T_GRANDMASTER_CLUSTER_TABLE x)
  | UNICAST_MASTER_TABLE, C_T_UNICAST_MASTER_TABLE a =>
      x <~ copy_UNICAST_MASTER_TABLE a ;; cret (C_T_UNICAST_MASTER_TABLE x)
  | ACCEPTABLE_MASTER_TABLE, C_T_ACCEPTABLE_MASTER_TABLE a =>
      x <~ copy_ACCEPTABLE_MASTER_TABLE a ;; cret (C_T_ACCEPTABLE_MASTER_TABLE x)
  | UNICAST_MASTER_TABLE_NP, C_T_UNICAST_MASTER_TABLE_NP a =>
      x <~ copy_UNICAST_MASTER_TABLE_NP a ;; cret (C_T_UNICAST_MASTER_TABLE_NP x)
  | _, _ =>
      match ctlv_case_of id with
      | CCaseNA => No
      | CCaseUF D C inst conv =>
          match c_cast tlv with Some _ => cret tlv | None => Ub end
      end
  end.

(** ** The object *)

Record TlvMem := mk_TlvMem {
  tm_id : mng_vals_e;
  tm_tlv : option CMngTlv;
  tm_nalc : list addr;
  tm_blocks : gmap addr Z
}.
(** [ptpmgmt_tlv_mem_alloc]. *)
Definition TlvMem_new : TlvMem := mk_TlvMem NULL_PTP_MANAGEMENT None [] ∅.

(** [_tlv_mem_allocTLV] of an id: is there a structure, and the zeros in it. *)
Definition zero_struct (id : mng_vals_e) : option CMngTlv :=
  match ctlv_case_of id with
  | CCaseNA => None
  | CCaseUF D C inst conv => Some (c_up c_zero)
  end.

Definition free_all (l : list addr) (h : gmap addr Z) : gmap addr Z := foldr delete h l.

(** A block for [push_back]. *)
Definition push_block (size : Z) (m : TlvMem) : addr * TlvMem :=
  let a := fresh (dom (tm_blocks m)) in
  (a, mk_TlvMem (tm_id m) (tm_tlv m) (tm_nalc m ++ [a]) (<[a := size]> (tm_blocks m))).
Fixpoint push_blocks (sizes : list Z) (m : TlvMem) : TlvMem :=
  match sizes with
  | [] => m
  | n :: sizes => push_blocks sizes (snd (push_block n m))
  end.

Definition tlv_mem_clear (m : TlvMem) : TlvMem :=
  mk_TlvMem NULL_PTP_MANAGEMENT None [] (free_all (tm_nalc m) (tm_blocks m)).
Definition tlv_mem_newTlv (id : mng_vals_e) (m : TlvMem) : bool * TlvMem :=
  match zero_struct id with
  | None => (false, m)
  | Some t => (true, mk_TlvMem id (Some t) [] (free_all (tm_nalc m) (tm_blocks m)))
  end.
Definition tlv_mem_copyTlv (id : mng_vals_e) (tlv : option CMngTlv) (m : TlvMem)
    : option (bool * TlvMem) :=
  match tlv with
  | None => Some (false, m)
  | Some t =>
      match copy_struct id t with
      | Ub => None
      | No => Some (false, m)
      | Yes (t, sizes) =>
          Some (true, push_blocks sizes
                  (mk_TlvMem id (Some t) [] (free_all (tm_nalc m) (tm_blocks m))))
      end
  end.
Definition tlv_mem_copy (other : TlvMem) (m : TlvMem) : option (bool * TlvMem) :=
  tlv_mem_copyTlv (tm_id other) (tm_tlv other) m.

(** A null pointer is [None]. *)
Definition tlv_mem_allocMem (size : Z) (m : TlvMem) : option addr * TlvMem :=
  if (0 <? size) && bool_decide (is_Some (tm_tlv m))
  then let (a, m) := push_block size m in (Some a, m)
  else (None, m).
(** The size of the block is a product of [size_t]. *)
Definition tlv_mem_callocMem (number size : Z) (m : TlvMem) : option addr * TlvMem :=
  if (0 <? number) && (0 <? size) && bool_decide (is_Some (tm_tlv m))
  then tlv_mem_allocMem (uwrap 64 (number * size)) m else (None, m).

(** [_tlv_mem_reallocMem]: [realloc] of a block of the vector. *)
Definition realloc_block (mem : addr) (size : Z) (m : TlvMem) : option addr * TlvMem :=
  match list_find (fun a => a = mem) (tm_nalc m) with
  | None => (None, m)
  | Some (i, _) =>
      let a := fresh (dom (tm_blocks m)) in
      (Some a, mk_TlvMem (tm_id m) (tm_tlv m) (<[i := a]> (tm_nalc m))
                 (<[a := size]> (delete mem (tm_blocks m))))
  end.
Definition tlv_mem_reallocMem (mem : option addr) (size : Z) (m : TlvMem) : option addr * TlvMem :=
  if (0 <? size) && bool_decide (is_Some (tm_tlv m)) then
    match mem with
    | None => tlv_mem_allocMem size m
    | Some a => realloc_block a size m
    end
  else (None, m).
Definition tlv_mem_recallocMem (mem : option addr) (number size : Z) (m : TlvMem)
    : option addr * TlvMem :=
  if (0 <? number) && (0 <? size) && bool_decide (is_Some (tm_tlv m))
  then tlv_mem_reallocMem mem (uwrap 64 (number * size)) m else (None, m).

(** [vector<unq_cptr>::erase] of a position: the elements after it are assigned
    one place down, by an [operator=] that does nothing, and the last element is
    destroyed, which frees its block. *)
Definition erase (i : nat) (m : TlvMem) : TlvMem :=
  mk_TlvMem (tm_id m) (tm_tlv m) (take (length (tm_nalc m) - 1) (tm_nalc m))
    (match last (tm_nalc m) with Some a => delete a (tm_blocks m) | None => tm_blocks m end).
(** [_tlv_mem_freeMem], [ptpmgmt_tlv_mem_freeMem]. *)
Definition tlv_mem_freeMem (mem : option addr) (m : TlvMem) : bool * TlvMem :=
  match mem with
  | None => (false, m)
  | Some mem =>
      match list_find (fun a => a = mem) (tm_nalc m) with
      | None => (false, m)
      | Some (i, _) => (true, erase i m)
      end
  end.

(** A [ptpmgmt_PTPText_t] of the object: the length and the address. *)
Record mtext := mk_mtext { mt_len : Z; mt_text : option addr }.

Definition tlv_mem_allocStringLen (n : Z) (m : TlvMem) : mtext * TlvMem :=
  if bool_decide (is_Some (tm_tlv m)) && (0 <? n) && (n <=? 255)
  then let (a, m) := push_block (n + 1) m in (mk_mtext n (Some a), m)
  else (mk_mtext 0 None, m).

(** [_tlv_mem_reallocStringLen]; [None] is a write outside a block: of a string
    of [n] octets and its end, in the block of the text. *)
Definition tlv_mem_reallocStringLen (text : mtext) (n : Z) (m : TlvMem)
    : option (bool * mtext * TlvMem) :=
  match mt_text text with
  | Some p =>
      if mt_len text =? 0 then
        let (t, m) := tlv_mem_allocStringLen n m in
        Some ((0 <? mt_len t) && bool_decide (is_Some (mt_text t)), t, m)
      else if bool_decide (is_Some (tm_tlv m)) && (0 <? n) && (n <=? 255) then
        let '(tgt, m) := if mt_len text <? n then realloc_block p (n + 1) m else (Some p, m) in
        match tgt with
        | None => Some (false, text, m)
        | Some a =>
            match tm_blocks m !! a with
            | Some size => if n + 1 <=? size then Some (true, mk_mtext n (Some a), m) else None
            | None => None
            end
        end
      else Some (false, text, m)
  | None =>
      let (t, m) := tlv_mem_allocStringLen n m in
      Some ((0 <? mt_len t) && bool_decide (is_Some (mt_text t)), t, m)
  end.

Definition tlv_mem_freeString (text : mtext) (m : TlvMem) : bool * mtext * TlvMem :=
  match mt_text text with
  | None => (false, text, m)
  | Some a =>
      let (r, m) := tlv_mem_freeMem (Some a) m in
      if r then (true, mk_mtext 0 None, m) else (false, text, m)
  end.

(** ** The operations as steps *)

Inductive mem_step : TlvMem -> TlvMem -> Prop :=
| ms_clear m : mem_step m (tlv_mem_clear m)
| ms_newTlv id m : mem_step m (snd (tlv_mem_newTlv id m))
| ms_copyTlv id tlv r m m' : tlv_mem_copyTlv id tlv m = Some (r, m') -> mem_step m m'
| ms_allocMem size m : mem_step m (snd (tlv_mem_allocMem size m))
| ms_callocMem k size m : mem_step m (snd (tlv_mem_callocMem k size m))
| ms_reallocMem mem size m : mem_step m (snd (tlv_mem_reallocMem mem size m))
| ms_recallocMem mem k size m : mem_step m (snd (tlv_mem_recallocMem mem k size m))
| ms_freeMem mem m : mem_step m (snd (tlv_mem_freeMem mem m))
| ms_allocString n m : mem_step m (snd (tlv_mem_allocStringLen n m))
| ms_reallocString t n r t' m m' :
    tlv_mem_reallocStringLen t n m = Some (r, t', m') -> mem_step m m'
| ms_freeString t m : mem_step m (snd (tlv_mem_freeString t m)).
