(* ===== verification/TlvMemFacts.v ===== *)
(** * TlvMemFacts.v: what the memory of a TLV keeps

    The vector of an object has exactly the live blocks; releasing one block
    releases another one; the strings stay in their blocks; a copy of a structure
    converts to the same TLV. *)

From S2P Require Import Prelude Types Ids MsgProc Codec Structs MngTlvs MngTlvsSpec Dispatch.
From S2P Require Import CTlvs CTlvsFacts TlvMem.

(** ** The blocks *)

(** Every block that is live is in the vector, once, and the vector has nothing
    else. *)
Definition mem_ok (m : TlvMem) : Prop :=
  NoDup (tm_nalc m) /\ forall a, a ∈ tm_nalc m <-> is_Some (tm_blocks m !! a).

Lemma fresh_block m : tm_blocks m !! fresh (dom (tm_blocks m)) = None.
Proof. apply not_elem_of_dom, is_fresh. Qed.

Lemma fresh_not_in m : mem_ok m -> fresh (dom (tm_blocks m)) ∉ tm_nalc m.
Proof. intros [_ H] E. apply H in E as [x E]. by rewrite fresh_block in E. Qed.

Lemma push_block_ok size m : mem_ok m -> mem_ok (snd (push_block size m)).
Proof.
  intros H. pose proof (fresh_not_in m H) as F. destruct H as [N H]. split; cbn.
  - apply NoDup_app. split; [done|]. split; [|apply NoDup_singleton].
    intros a Ha ->%list_elem_of_singleton. done.
  - intros a. rewrite elem_of_app, list_elem_of_singleton, H.
    destruct (decide (a = fresh (dom (tm_blocks m)))) as [->|D].
    + rewrite lookup_insert_eq. split; [by eexists|by right].
    + rewrite lookup_insert_ne by done. tauto.
Qed.

Lemma push_blocks_ok sizes m : mem_ok m -> mem_ok (push_blocks sizes m).
Proof.
  revert m. induction sizes as [|n sizes IH]; intros m H; [done|].
  by apply IH, push_block_ok.
Qed.

Lemma free_all_lookup l h a : free_all l h !! a = if decide (a ∈ l) then None else h !! a.
Proof.
  unfold free_all. induction l as [|b l IH]; cbn; [done|]. destruct (decide (b = a)) as [->|D].
  - rewrite lookup_delete_eq. by rewrite decide_True by set_solver.
  - rewrite lookup_delete_ne by done. rewrite IH. destruct (decide (a ∈ l)).
    + by rewrite decide_True by set_solver.
    + rewrite decide_False; [done|]. rewrite elem_of_cons. intros [->|?]; done.
Qed.

Lemma free_all_empty m : mem_ok m -> free_all (tm_nalc m) (tm_blocks m) = ∅.
Proof.
  intros [_ H]. apply map_eq. intros a. rewrite free_all_lookup, lookup_empty. case_decide as D; [done|].
  rewrite H in D. by apply eq_None_not_Some.
Qed.

Lemma emptied_ok id t m : mem_ok m -> mem_ok (mk_TlvMem id t [] (free_all (tm_nalc m) (tm_blocks m))).
Proof.
  intros H. rewrite free_all_empty by done. split; cbn; [constructor|].
  intros a. rewrite lookup_empty. split; [by intros ?%not_elem_of_nil|by intros [? ?]].
Qed.

(** The place of an address in the vector. *)
Lemma find_split (mem : addr) (l : list addr) i b :
  list_find (fun a => a = mem) l = Some (i, b) ->
  b = mem /\ l = take i l ++ mem :: drop (S i) l /\ (i < length l)%nat.
Proof.
  intros (E & -> & _)%list_find_Some. split; [done|].
  split; [by rewrite take_drop_middle|by eapply lookup_lt_Some].
Qed.

Lemma realloc_block_ok mem size m : mem_ok m -> mem_ok (snd (realloc_block mem size m)).
Proof.
  intros H. unfold realloc_block. destruct (list_find _ _) as [[i b]|] eqn:E; [|done].
  apply find_split in E as (_ & E & L). pose proof (fresh_not_in m H) as F.
  destruct H as [N H]. set (a := fresh (dom (tm_blocks m))) in *. clearbody a.
  set (l1 := take i (tm_nalc m)) in *. set (l2 := drop (S i) (tm_nalc m)) in *.
  assert (<[i:=a]> (tm_nalc m) = l1 ++ a :: l2) as I by by apply insert_take_drop.
  assert (forall x, x ∈ tm_nalc m <-> x = mem \/ x ∈ l1 ++ l2) as M.
  { intros x. rewrite E at 1. rewrite elem_of_app, elem_of_cons, elem_of_app. tauto. }
  rewrite E in N. rewrite <- Permutation_middle in N. apply NoDup_cons in N as [N1 N2].
  split; cbn; rewrite I.
  - rewrite <- Permutation_middle. apply NoDup_cons. split; [|done].
    intros K. apply F, M. by right.
  - intros x. rewrite elem_of_app, elem_of_cons.
    destruct (decide (x = a)) as [->|D]; [rewrite lookup_insert_eq; split; [by eexists|tauto]|].
    rewrite lookup_insert_ne by done. destruct (decide (x = mem)) as [->|D'].
    + rewrite lookup_delete_eq. rewrite elem_of_app in N1. split; [tauto|by intros [? ?]].
    + rewrite lookup_delete_ne by done. rewrite <- H, M, elem_of_app. tauto.
Qed.

(** [erase] takes the last element, whatever the position. *)
Lemma erase_last i m l a :
  tm_nalc m = l ++ [a] ->
  erase i m = mk_TlvMem (tm_id m) (tm_tlv m) l (delete a (tm_blocks m)).
Proof.
  intros E. unfold erase. rewrite E, last_snoc, length_app. cbn [length].
  by rewrite Nat.add_sub, take_app_length.
Qed.

Lemma erase_ok i m : mem_ok m -> tm_nalc m <> [] -> mem_ok (erase i m).
Proof.
  intros [N H] Z. destruct (exists_last Z) as (l & a & E). rewrite (erase_last _ _ _ _ E).
  rewrite E in *. apply NoDup_app in N as (N & D & _). split; cbn; [done|].
  intros x. specialize (H x). rewrite elem_of_app, list_elem_of_singleton in H.
  destruct (decide (x = a)) as [->|].
  - rewrite lookup_delete_eq. split; [|by intros [? ?]]. intros K. exfalso. eapply D; [done|].
    by apply list_elem_of_singleton.
  - rewrite lookup_delete_ne by done. rewrite <- H. tauto.
Qed.

Lemma freeMem_ok mem m : mem_ok m -> mem_ok (snd (tlv_mem_freeMem mem m)).
Proof.
  intros H. unfold tlv_mem_freeMem. destruct mem as [a|]; [|done].
  destruct (list_find _ _) as [[i b]|] eqn:E; [|done]. cbn. apply erase_ok; [done|].
  apply find_split in E as (_ & _ & L). intros Z. rewrite Z in L. cbn in L. lia.
Qed.

Lemma allocMem_ok size m : mem_ok m -> mem_ok (snd (tlv_mem_allocMem size m)).
Proof. intros H. unfold tlv_mem_allocMem. case_match; [by apply push_block_ok|done]. Qed.
Lemma allocString_ok n m : mem_ok m -> mem_ok (snd (tlv_mem_allocStringLen n m)).
Proof. intros H. unfold tlv_mem_allocStringLen. case_match; [by apply push_block_ok|done]. Qed.
Lemma reallocMem_ok mem size m : mem_ok m -> mem_ok (snd (tlv_mem_reallocMem mem size m)).
Proof.
  intros H. unfold tlv_mem_reallocMem. case_match; [|done].
  destruct mem; [by apply realloc_block_ok|by apply allocMem_ok].
Qed.
Lemma allocString_snd n m t m' : tlv_mem_allocStringLen n m = (t, m') -> mem_ok m -> mem_ok m'.
Proof. intros E H. pose proof (allocString_ok n m H) as K. by rewrite E in K. Qed.

Lemma mem_step_ok m m' : mem_step m m' -> mem_ok m -> mem_ok m'.
Proof.
  intros S H. destruct S.
  - by apply emptied_ok.
  - unfold tlv_mem_newTlv. destruct (zero_struct id); [by apply emptied_ok|done].
  - unfold tlv_mem_copyTlv in *. destruct tlv as [t|]; [|by simplify_eq].
    destruct (copy_struct id t) as [| |[t' sizes]]; [done|by simplify_eq|]. simplify_eq.
    by apply push_blocks_ok, emptied_ok.
  - by apply allocMem_ok.
  - unfold tlv_mem_callocMem. case_match; [by apply allocMem_ok|done].
  - by apply reallocMem_ok.
  - unfold tlv_mem_recallocMem. case_match; [by apply reallocMem_ok|done].
  - by apply freeMem_ok.
  - by apply allocString_ok.
  - unfold tlv_mem_reallocStringLen in *.
    repeat case_match; simplify_eq; try done; try (by eapply allocString_snd).
    all: match goal with K : realloc_block ?p ?n ?m = _ |- _ =>
      pose proof (realloc_block_ok p n m H) as R; rewrite K in R; exact R end.
  - unfold tlv_mem_freeString. destruct (mt_text t); [|done].
    pose proof (freeMem_ok (Some a) m H) as K. destruct (tlv_mem_freeMem (Some a) m) as [[] ?]; exact K.
Qed.

(** C20: After any sequence of operations on a new object, the addresses that it
    releases when it is freed are exactly the live blocks, each once: no block is
    lost and none is released twice, even by [freeMem]. *)
Theorem mem_no_leak m :
  rtc mem_step TlvMem_new m ->
  NoDup (tm_nalc m) /\ forall a, a ∈ tm_nalc m <-> is_Some (tm_blocks m !! a).
Proof.
  intros R. change (mem_ok m). assert (mem_ok TlvMem_new) as H.
  { split; cbn; [constructor|]. intros a. rewrite lookup_empty.
    split; [by intros ?%not_elem_of_nil|by intros [? ?]]. }
  induction R as [|x y z S _ IH]; [done|]. apply IH. by eapply mem_step_ok.
Qed.

(** [freeMem] of a block of the object releases the block that was allocated
    last, not the block it is asked for: it returns true, and unless the block is
    the last one, it is still live, while the last block is released although a
    pointer of the TLV may use it. *)
Theorem freeMem_frees_last m l a b :
  mem_ok m -> tm_nalc m = l ++ [b] -> a ∈ tm_nalc m ->
  tlv_mem_freeMem (Some a) m =
    (true, mk_TlvMem (tm_id m) (tm_tlv m) l (delete b (tm_blocks m))) /\
  (a <> b -> is_Some (tm_blocks (snd (tlv_mem_freeMem (Some a) m)) !! a)) /\
  tm_blocks (snd (tlv_mem_freeMem (Some a) m)) !! b = None.
Proof.
  intros [N H] E A. enough (tlv_mem_freeMem (Some a) m =
    (true, mk_TlvMem (tm_id m) (tm_tlv m) l (delete b (tm_blocks m)))) as K.
  { split; [done|]. rewrite K. cbn. split; [|apply lookup_delete_eq]. intros D.
    rewrite lookup_delete_ne by done. by apply H. }
  unfold tlv_mem_freeMem. destruct (list_find _ _) as [[i x]|] eqn:F.
  - by rewrite (erase_last _ _ _ _ E).
  - apply list_find_None in F. rewrite Forall_forall in F. by destruct (F a A).
Qed.

Definition demo_mem : TlvMem :=
  snd (tlv_mem_allocMem 20 (snd (tlv_mem_allocMem 10 (snd (tlv_mem_newTlv PRIORITY1 TlvMem_new))))).

Lemma demo_mem_steps : rtc mem_step TlvMem_new demo_mem.
Proof.
  eapply rtc_l; [apply (ms_newTlv PRIORITY1)|]. eapply rtc_l; [apply (ms_allocMem 10)|].
  eapply rtc_l; [apply (ms_allocMem 20)|]. apply rtc_refl.
Qed.
Lemma mem_no_leak_witness : NoDup (tm_nalc demo_mem).
Proof. apply (mem_no_leak demo_mem demo_mem_steps). Defined.

Lemma demo_mem_ok : mem_ok demo_mem.
Proof.
  unfold demo_mem. apply allocMem_ok, allocMem_ok. change (mem_ok (mk_TlvMem PRIORITY1
    (Some (C_T_PRIORITY1 (mk_PRIORITY1 0))) [] (free_all (tm_nalc TlvMem_new) (tm_blocks TlvMem_new)))).
  apply emptied_ok. split; cbn; [constructor|]. intros a. rewrite lookup_empty.
  split; [by intros ?%not_elem_of_nil|by intros [? ?]].
Qed.
Lemma freeMem_frees_last_witness :
  exists a b, a <> b /\ tm_nalc demo_mem = [a; b] /\
    is_Some (tm_blocks (snd (tlv_mem_freeMem (Some a) demo_mem)) !! a).
Proof.
  destruct (tm_nalc demo_mem) as [|a [|b [|]]] eqn:E; try (vm_compute in E; discriminate).
  exists a, b. pose proof demo_mem_ok as [N _]. rewrite E in N.
  assert (a <> b) as D by (apply NoDup_cons in N as [N _]; set_solver).
  split; [exact D|]. split; [reflexivity|].
  apply (freeMem_frees_last demo_mem [a] a b demo_mem_ok E); [rewrite E; set_solver|exact D].
Defined.

(** ** Strings *)

(** The text fits its block: the octets and the terminating one. *)
Definition text_ok (t : mtext) (m : TlvMem) : Prop :=
  match mt_text t with
  | None => True
  | Some a => mt_len t = 0 \/ exists size, tm_blocks m !! a = Some size /\ mt_len t + 1 <= size
  end.

Lemma allocString_text n m t m' :
  tlv_mem_allocStringLen n m = (t, m') -> text_ok t m'.
Proof.
  unfold tlv_mem_allocStringLen. case_match; [|by intros [= <- <-]].
  intros [= <- <-]. right. exists (n + 1). cbn. split; [apply lookup_insert_eq|lia].
Qed.

(** Changing the string of a text that fits its block, of any length, writes
    only inside a live block, and the text fits its block again; on success the
    text has the new length. *)
Theorem reallocString_in_bounds t n m :
  text_ok t m ->
  exists r t' m', tlv_mem_reallocStringLen t n m = Some (r, t', m') /\ text_ok t' m' /\
    (r = true -> mt_len t' = n /\ 0 < n <= 255).
Proof.
  intros T. unfold tlv_mem_reallocStringLen.
  assert (forall t' m', tlv_mem_allocStringLen n m = (t', m') ->
    exists r t0 m0, Some ((0 <? mt_len t') && bool_decide (is_Some (mt_text t')), t', m') =
        Some (r, t0, m0) /\ text_ok t0 m0 /\ (r = true -> mt_len t0 = n /\ 0 < n <= 255)) as A.
  { intros t' m' E. eexists _, t', m'. split; [done|]. split; [by eapply allocString_text|].
    unfold tlv_mem_allocStringLen in E. case_match eqn:C; [|by injection E as <- <-].
    apply andb_prop in C as [C C1%Z.leb_le]. apply andb_prop in C as [_ C2%Z.ltb_lt].
    injection E as <- <-. cbn. intros _. split; [done|lia]. }
  unfold text_ok in T. destruct (mt_text t) as [p|] eqn:Ep.
  2: { destruct (tlv_mem_allocStringLen n m) as [t' m']. by apply A. }
  destruct (Z.eqb_spec (mt_len t) 0).
  { destruct (tlv_mem_allocStringLen n m) as [t' m']. by apply A. }
  destruct T as [|(size & S & L)]; [done|].
  assert (text_ok t m) as T by (unfold text_ok; rewrite Ep; right; by exists size).
  case_match eqn:C; [|by eexists false, t, m].
  apply andb_prop in C as [C C1%Z.leb_le]. apply andb_prop in C as [_ C2%Z.ltb_lt].
  assert (forall a m' size', tm_blocks m' !! a = Some size' -> n + 1 <= size' ->
    text_ok (mk_mtext n (Some a)) m') as K.
  { intros a m' size' E Hs. right. by exists size'. }
  destruct (Z.ltb_spec (mt_len t) n).
  - unfold realloc_block. destruct (list_find _ _) as [[i x]|]; [|by eexists false, t, m].
    cbn [tm_blocks]. rewrite lookup_insert_eq. rewrite Z.leb_refl.
    eexists true, _, _. split; [done|]. split; [|done].
    eapply K; [cbn; apply lookup_insert_eq|lia].
  - rewrite S. destruct (Z.leb_spec (n + 1) size); [|lia].
    eexists true, _, _. split; [done|]. split; [by eapply K|done].
Qed.

Lemma reallocString_in_bounds_witness :
  exists r t' m', tlv_mem_reallocStringLen (mk_mtext 0 None) 7 demo_mem = Some (r, t', m') /\
    text_ok t' m' /\ (r = true -> mt_len t' = 7 /\ 0 < 7 <= 255).
Proof. apply (reallocString_in_bounds (mk_mtext 0 None) 7 demo_mem I). Defined.

(** ** The copy of a structure *)

Lemma cbind_inv {A B} (x : copied A) (k : A -> copied B) b bs :
  cbind x k = Yes (b, bs) -> exists a bs1 bs2, x = Yes (a, bs1) /\ k a = Yes (b, bs2).
Proof.
  unfold cbind. destruct x as [| |[a bs1]]; try done.
  destruct (k a) as [| |[b' bs2]] eqn:K; try done. intros [= -> _]. by exists a, bs1, bs2.
Qed.
Ltac copied_inv :=
  repeat match goal with
  | H : cbind _ _ = Yes _ |- _ =>
      let a := fresh "x" in let E := fresh "E" in
      apply cbind_inv in H as (a & ? & ? & E & H)
  | H : cret _ = Yes _ |- _ => injection H as <- <-
  end.

Lemma copyText_same t t' bs :
  copyText t = Yes (t', bs) -> c2_st_PTPText t' = c2_st_PTPText t.
Proof.
  unfold copyText, c2_st_PTPText. destruct (Z.ltb_spec 0 (c_lengthField t)) as [L|]; [|done].
  destruct (c_textField t) as [| |s]; try done. destruct (read_n _ s) as [b|] eqn:R; [|done].
  intros [= <- _]. cbn. destruct (Z.ltb_spec 0 (c_lengthField t)); [|lia]. cbn.
  unfold read_n in R. destruct (Z.leb_spec (c_lengthField t) (len s)) as [L1|]; [|done].
  injection R as <-. rewrite read_n_app; [done|]. unfold len in *. rewrite length_take. lia.
Qed.

(** What a block that was copied holds. *)
Lemma copyBloc_table {A} size n (p p' : c_ptr A) bs :
  0 < size -> copyBloc size n p = Yes (p', bs) ->
  0 < n /\ exists l, p = P_to l /\ n <= len l /\ p' = P_to (take (Z.to_nat n) l) /\
    c_table n p = Some (take (Z.to_nat n) l) /\ len (take (Z.to_nat n) l) = n.
Proof.
  intros Hs. unfold copyBloc, c_table. destruct (Z.ltb_spec 0 (n * size)) as [L|]; [|done].
  assert (0 < n) by nia. destruct p as [| |l]; try done. unfold read_n.
  destruct (Z.leb_spec n (len l)) as [K|]; [|done]. intros [= <- _]. split; [done|].
  destruct (Z.leb_spec n 0); [lia|]. exists l. do 4 (split; [done|]).
  unfold len in *. rewrite length_take. lia.
Qed.

Lemma c_table_all {A} n (l : list A) : 0 < n -> len l = n -> c_table n (P_to l) = Some l.
Proof. intros H1 H2. unfold c_table. destruct (Z.leb_spec n 0); [lia|]. by apply read_n_all. Qed.

Lemma copy_PortAddress_same p p' bs :
  copy_PortAddress p = Yes (p', bs) -> c2_st_PortAddress p' = c2_st_PortAddress p.
Proof.
  unfold copy_PortAddress. intros H. copied_inv.
  apply copyBloc_table in E as (Hn & l & E & Hl & -> & _ & L); [|done].
  unfold c2_st_PortAddress. cbn [c_addressLength c_addressField c_networkProtocol]. rewrite E.
  unfold c2_st_Binary. destruct (Z.ltb_spec 0 (c_addressLength p)); [|lia].
  rewrite (read_n_all _ _ L). unfold read_n. by destruct (Z.leb_spec (c_addressLength p) (len l)); [|lia].
Qed.

Lemma copy_FaultRecord_same r r' bs :
  copy_FaultRecord r = Yes (r', bs) -> c2_FaultRecord r' = c2_FaultRecord r.
Proof.
  unfold copy_FaultRecord. intros H. copied_inv. unfold c2_FaultRecord.
  cbn [c_faultName c_faultValue c_faultDescription c_faultRecordLength c_faultTime c_severityCode].
  by rewrite (copyText_same _ _ _ E), (copyText_same _ _ _ E0), (copyText_same _ _ _ E1).
Qed.
Lemma copy_UnicastMaster_same m m' bs :
  copy_UnicastMaster m = Yes (m', bs) -> c2_LinuxptpUnicastMaster m' = c2_LinuxptpUnicastMaster m.
Proof.
  unfold copy_UnicastMaster. intros H. copied_inv. unfold c2_LinuxptpUnicastMaster.
  cbn [c_lum_portAddress c_lum_portIdentity c_lum_clockQuality c_lum_selected c_lum_portState
       c_lum_priority1 c_lum_priority2].
  by rewrite (copy_PortAddress_same _ _ _ E).
Qed.

Lemma cmap_same {A B} (f : A -> copied A) (c2 : A -> option B) l l' bs :
  (forall a a' bs, f a = Yes (a', bs) -> c2 a' = c2 a) ->
  cmap f l = Yes (l', bs) -> mapM c2 l' = mapM c2 l /\ len l' = len l.
Proof.
  intros F. revert l' bs. induction l as [|a l IH]; cbn [cmap]; intros l' bs H.
  - by copied_inv.
  - copied_inv. apply IH in E0 as [M L]. cbn. rewrite (F _ _ _ E), M. split; [done|].
    unfold len in *. cbn. lia.
Qed.

(** A table: the block, then its elements. *)
Lemma table_same {A B D} (f : A -> copied A) (c2 : A -> option B) size n p p' l' bs bs'
    (k : list B -> option D) :
  (forall a a' bs, f a = Yes (a', bs) -> c2 a' = c2 a) -> 0 < size ->
  copyBloc size n p = Yes (p', bs) -> cmap f (elements p') = Yes (l', bs') ->
  (r ← c_table n (P_to l'); l ← mapM c2 r; k l) = (r ← c_table n p; l ← mapM c2 r; k l).
Proof.
  intros F Hs E C. apply copyBloc_table in E as (Hn & l & -> & Hl & -> & T & L); [|done].
  apply (cmap_same f c2) in C as [M N]; [|done]. cbn [elements] in *.
  rewrite T, (c_table_all n l') by lia. cbn. by rewrite M.
Qed.

(** ** The copy of every TLV *)

(** The copy of a path takes a fixed number of identities. *)
Definition path_fits (c : CMngTlv) : Prop :=
  match c with
  | C_T_PATH_TRACE_LIST a =>
      has_zero (take (Z.to_nat sizeof_PATH_TRACE_LIST) (elements (c_ptl_pathSequence a))) = true
  | _ => True
  end.

Lemma path_loop_zero l l' : has_zero l = true -> path_loop (l ++ l') = path_loop l.
Proof.
  induction l as [|v l IH]; [done|]. cbn [has_zero existsb app path_loop].
  destruct (zero_identity v); [done|]. cbn [orb]. intros H. by rewrite IH.
Qed.

Lemma copy_path_same a a' bs :
  path_fits (C_T_PATH_TRACE_LIST a) -> copy_PATH_TRACE_LIST a = Yes (a', bs) ->
  PATH_TRACE_LIST_c2 a' = PATH_TRACE_LIST_c2 a.
Proof.
  unfold copy_PATH_TRACE_LIST, path_fits, PATH_TRACE_LIST_c2.
  destruct (c_ptl_pathSequence a) as [| |l] eqn:P; try done. cbn [elements]. intros Z.
  destruct (has_zero l); [|done]. intros H. copied_inv.
  apply copyBloc_table in E as (_ & l0 & [= <-] & _ & -> & _); [|done].
  cbn [c_ptl_pathSequence].
  rewrite <- (take_drop (Z.to_nat sizeof_PATH_TRACE_LIST) l) at 2. by rewrite path_loop_zero.
Qed.

Lemma copy_CLOCK_DESCRIPTION_same a a' bs :
  copy_CLOCK_DESCRIPTION a = Yes (a', bs) -> CLOCK_DESCRIPTION_c2 a' = CLOCK_DESCRIPTION_c2 a.
Proof.
  unfold copy_CLOCK_DESCRIPTION. intros H. copied_inv. unfold CLOCK_DESCRIPTION_c2.
  cbn [c_cd_clockType c_cd_physicalLayerProtocol c_cd_physicalAddressLength c_cd_physicalAddress
    c_cd_protocolAddress c_cd_manufacturerIdentity c_cd_productDescription c_cd_revisionData
    c_cd_userDescription c_cd_profileIdentity].
  rewrite (copyText_same _ _ _ E), (copyText_same _ _ _ E0), (copyText_same _ _ _ E1),
    (copyText_same _ _ _ E2), (copy_PortAddress_same _ _ _ E4).
  apply copyBloc_table in E3 as (Hn & l & -> & Hl & -> & _ & L); [|done].
  unfold c2_st_Binary. destruct (Z.ltb_spec 0 (c_cd_physicalAddressLength a)); [|lia].
  rewrite (read_n_all _ _ L). unfold read_n.
  by destruct (Z.leb_spec (c_cd_physicalAddressLength a) (len l)); [|lia].
Qed.

(** The tables: the conversions of the copy and of the structure agree. *)
Ltac table_copy F :=
  let H := fresh "H" in intros H; copied_inv;
  match goal with
  | E : copyBloc ?size _ _ = Yes _, E0 : cmap _ _ = Yes _ |- _ =>
      eapply (table_same _ _ size _ _ _ _ _ _ _ F); [done|exact E|exact E0]
  end.
Lemma copy_FAULT_LOG_same a a' bs :
  copy_FAULT_LOG a = Yes (a', bs) -> FAULT_LOG_c2 a' = FAULT_LOG_c2 a.
Proof. unfold copy_FAULT_LOG. table_copy copy_FaultRecord_same. Qed.
Lemma copy_GRANDMASTER_CLUSTER_TABLE_same a a' bs :
  copy_GRANDMASTER_CLUSTER_TABLE a = Yes (a', bs) ->
  GRANDMASTER_CLUSTER_TABLE_c2 a' = GRANDMASTER_CLUSTER_TABLE_c2 a.
Proof. unfold copy_GRANDMASTER_CLUSTER_TABLE. table_copy copy_PortAddress_same. Qed.
Lemma copy_UNICAST_MASTER_TABLE_same a a' bs :
  copy_UNICAST_MASTER_TABLE a = Yes (a', bs) ->
  UNICAST_MASTER_TABLE_c2 a' = UNICAST_MASTER_TABLE_c2 a.
Proof. unfold copy_UNICAST_MASTER_TABLE. table_copy copy_PortAddress_same. Qed.
Lemma copy_UNICAST_MASTER_TABLE_NP_same a a' bs :
  copy_UNICAST_MASTER_TABLE_NP a = Yes (a', bs) ->
  UNICAST_MASTER_TABLE_NP_c2 a' = UNICAST_MASTER_TABLE_NP_c2 a.
Proof. unfold copy_UNICAST_MASTER_TABLE_NP. table_copy copy_UnicastMaster_same. Qed.
Lemma copy_ACCEPTABLE_MASTER_TABLE_same a a' bs :
  copy_ACCEPTABLE_MASTER_TABLE a = Yes (a', bs) ->
  ACCEPTABLE_MASTER_TABLE_c2 a' = ACCEPTABLE_MASTER_TABLE_c2 a.
Proof.
  unfold copy_ACCEPTABLE_MASTER_TABLE. intros H. copied_inv.
  apply copyBloc_table in E as (Hn & l & _ & _ & -> & T & L); [|done].
  unfold ACCEPTABLE_MASTER_TABLE_c2. cbn [c_amt_actualTableSize c_amt_list].
  by rewrite T, (c_table_all _ _ Hn L).
Qed.

(** A structure without blocks. *)
Lemma copy_plain id c c' bs :
  match ctlv_case_of id with
  | CCaseNA => No
  | CCaseUF D C inst conv => match c_cast c with Some _ => cret c | None => Ub end
  end = Yes (c', bs) -> c' = c.
Proof.
  destruct (ctlv_case_of id) as [|D C inst conv]; [done|]. destruct (c_cast c); [|done].
  by intros [=].
Qed.

(** C15: When [copyTlv] succeeds, the structure it keeps converts to the same TLV
    as the one that was copied, with blocks of its own: the texts, addresses and
    tables are whole, provided the path of a PATH_TRACE_LIST ends within the
    fixed number of identities that the copy takes. *)
Theorem copy_struct_same id c c' bs :
  copy_struct id c = Yes (c', bs) -> path_fits c ->
  c2cppMngTlv id (Some c') = c2cppMngTlv id (Some c).
Proof.
  intros H P. destruct id;
    try (lazymatch goal with |- c2cppMngTlv ?id _ = _ => apply (copy_plain id) in H end;
         by rewrite H).
  all: destruct c; try (cbn in H; discriminate).
  all: cbn [copy_struct] in H; copied_inv; unfold c2cppMngTlv;
    cbn -[c2_st_PTPText copyText c2_st_PortIdentity uwrap];
    match goal with |- mbind ?k ?a = mbind ?k ?b => apply (f_equal (mbind k)) end.
  1: by eapply copy_CLOCK_DESCRIPTION_same.
  2: by eapply copy_FAULT_LOG_same.
  2: by eapply copy_path_same.
  2: by eapply copy_GRANDMASTER_CLUSTER_TABLE_same.
  2: by eapply copy_UNICAST_MASTER_TABLE_same.
  2: by eapply copy_ACCEPTABLE_MASTER_TABLE_same.
  4: by eapply copy_UNICAST_MASTER_TABLE_NP_same.
  all: unfold USER_DESCRIPTION_c2, ALTERNATE_TIME_OFFSET_NAME_c2, PORT_PROPERTIES_NP_c2;
    cbn [c_ud_userDescription c_aton_keyField c_aton_displayName c_ppn_interface
      c_ppn_portIdentity c_ppn_portState c_ppn_timestamping];
    by rewrite (copyText_same _ _ _ E).
Qed.

Definition demo_struct : CMngTlv :=
  C_T_FAULT_LOG (mk_C_FAULT_LOG 1 (P_to [mk_C_FaultRecord 9 (mk_Timestamp 1 2) 3
    (mk_C_PTPText 1 (P_to [x41; x00])) (mk_C_PTPText 2 (P_to [x42; x43; x00]))
    (mk_C_PTPText 1 (P_to [x44; x00]))])).
Lemma copy_struct_same_witness :
  exists c' bs, copy_struct FAULT_LOG demo_struct = Yes (c', bs) /\ bs = [80; 2; 3; 2] /\
    c2cppMngTlv FAULT_LOG (Some c') = c2cppMngTlv FAULT_LOG (Some demo_struct).
Proof.
  do 2 eexists. split; [vm_compute; reflexivity|]. split; [reflexivity|].
  eapply (copy_struct_same FAULT_LOG demo_struct); [vm_compute; reflexivity|exact I].
Defined.

(** What the copy refuses, although the TLV is legal: an empty text, and an empty
    table. *)
Example copy_empty_text :
  copy_struct USER_DESCRIPTION (C_T_USER_DESCRIPTION (mk_C_USER_DESCRIPTION (mk_C_PTPText 0 P_null))) = No.
Proof. reflexivity. Qed.
Example copy_empty_table : copy_struct FAULT_LOG (C_T_FAULT_LOG (mk_C_FAULT_LOG 0 P_null)) = No.
Proof. reflexivity. Qed.

(** The path of one identity, which ends where it should, is read past its end. *)
Example copy_path_overrun :
  copy_struct PATH_TRACE_LIST
    (C_T_PATH_TRACE_LIST (PATH_TRACE_LIST_c1 (mk_PATH_TRACE_LIST [mk_ClockIdentity (repeat x01 8)]))) = Ub.
Proof. reflexivity. Qed.
