(* ===== verification/CApi.v ===== *)
(** * CApi.v: messages, dispatcher and builder of the C interface

    The C structure of a message ([ptpmgmt_msg], [src/src/msg.cpp]) holds the C++
    object, the copy of the structure it sends ([sendTlv]) and the pointer that
    the application gave ([dataSend]); the C dispatcher and builder of
    [src/src/msgCall.cpp] hold a call-back per TLV, null when it is not assigned,
    and run on the cookie [S] of the application.

    The owner of [sendTlv] and the address in the C++ object are those of
    [MsgCall.Owned].  [None] is an access that is not allowed. *)

From S2P Require Import Prelude Types Ids Names MsgProc Codec Structs MngTlvs MngTlvsSpec Dispatch.
From S2P Require Import Auth Message MessageInv CTlvs CTlvsFacts MsgCall TlvMem.

(** ** Messages *)

Record CMsg := mk_CMsg {
  cm : Owned;
  cm_dataSend : option CMngTlv
}.
Definition CMsg_new (m : Message) : CMsg := mk_CMsg (builder_new m) None.

Definition ptpmgmt_msg_isValidId (id : mng_vals_e) (m : CMsg) : bool :=
  isValidId (implementSpecific (m_prms (o_msg (cm m)))) id.

(** [ptpmgmt_msg_setAction]: the converted structure replaces the one that was
    sent before [setAction] accepts it. *)
Definition ptpmgmt_msg_setAction (a : actionField_e) (id : mng_vals_e) (data : option CMngTlv)
    (m : CMsg) : option (bool * CMsg) :=
  match data with
  | Some d =>
      if bool_decide (a = GET) then
        let (r, s) := setAction_at a id None (cm m) in Some (r, mk_CMsg s (cm_dataSend m))
      else
        match c2cppMngTlv id (Some d) with
        | None => None
        | Some None =>
            let (r, s) := setAction_at a id None (cm m) in Some (r, mk_CMsg s (Some d))
        | Some (Some t) =>
            let (p, h) := alloc t (o_heap (cm m)) in
            let s := reset (Some p) (mk_Owned (o_msg (cm m)) h (o_send (cm m)) (o_own (cm m))) in
            let (r, s) := setAction_at a id (Some p) s in Some (r, mk_CMsg s (Some d))
        end
  | None => let (r, s) := setAction_at a id None (cm m) in Some (r, mk_CMsg s (cm_dataSend m))
  end.
Definition ptpmgmt_msg_clearData (m : CMsg) : CMsg :=
  mk_CMsg (clearData_at (cm m)) (cm_dataSend m).
Definition ptpmgmt_msg_getSendData (m : CMsg) : option CMngTlv := cm_dataSend m.

(** [ptpmgmt_msg_getData] of the C++ object: the C structure of the data, null
    without data or when there is no conversion; a pointer that is not set is not
    used for an id without a structure. *)
Definition ptpmgmt_msg_getData (m : Message) : option (option CMngTlv) :=
  let id := m_replayTlv_id (prs m) in
  match m_dataGet (prs m) with
  | Null => Some None
  | Obj t => Some (cpp2cMngTlv id t)
  | Unset =>
      match ctlv_case_of id with
      | CCaseNA => if bool_decide (id = SMPTE_MNG_ID) then None else Some None
      | _ => None
      end
  end.

(** ** The dispatcher *)

Section CDispatcher.
Context {S : Type}.

(** The call-backs: of a TLV, [noTlv] and [noTlvCallBack].  The message is a
    pointer. *)
Definition tlv_callback := S -> option Message -> CMngTlv -> string -> S.
Record CDispatcher := mk_CDispatcher {
  cbs : mng_vals_e -> option tlv_callback;
  d_noTlv : option (S -> option Message -> S);
  d_noTlvCallBack : option (S -> option Message -> string -> S)
}.
Definition dispatcher_alloc : CDispatcher := mk_CDispatcher (fun _ => None) None None.

(** The ids with a case, [_ptpmCaseUF]. *)
Definition has_case (id : mng_vals_e) : bool :=
  match tlv_case_of id with CaseUF _ _ => true | _ => false end.

Definition dispatcher_assign (id : mng_vals_e) (callback : option tlv_callback)
    (d : CDispatcher) : bool * CDispatcher :=
  match callback with
  | None => (false, d)
  | Some f =>
      if has_case id then
        (true, mk_CDispatcher (fun i => if bool_decide (i = id) then Some f else cbs d i)
                 (d_noTlv d) (d_noTlvCallBack d))
      else (false, d)
  end.
Definition dispatcher_assign_noTlv (callback : option (S -> option Message -> S))
    (d : CDispatcher) : bool * CDispatcher :=
  match callback with
  | None => (false, d)
  | Some _ => (true, mk_CDispatcher (cbs d) callback (d_noTlvCallBack d))
  end.
Definition dispatcher_assign_noTlvCallBack
    (callback : option (S -> option Message -> string -> S)) (d : CDispatcher)
    : bool * CDispatcher :=
  match callback with
  | None => (false, d)
  | Some _ => (true, mk_CDispatcher (cbs d) (d_noTlv d) callback)
  end.

Definition call_noTlv (d : CDispatcher) (msg : option Message) (cookie : S) : S :=
  match d_noTlv d with Some f => f cookie msg | None => cookie end.
Definition dispatcher_callHadler_tlv (d : CDispatcher) (msg : option Message) (id : mng_vals_e)
    (tlv : option CMngTlv) (cookie : S) : S :=
  let invalid := match msg with
                 | Some m => negb (isValidId (implementSpecific (m_prms m)) id)
                 | None => false
                 end in
  match tlv with
  | None => call_noTlv d msg cookie
  | Some t =>
      if invalid || isEmpty id then call_noTlv d msg cookie
      else if has_case id then
        match cbs d id with
        | Some f => f cookie msg t (mng2str_c id)
        | None => match d_noTlvCallBack d with
                  | Some f => f cookie msg (mng2str_c id)
                  | None => cookie
                  end
        end
      else call_noTlv d msg cookie
  end.
Definition dispatcher_callHadler (d : CDispatcher) (msg : option Message) (cookie : S) : option S :=
  match msg with
  | None => Some cookie
  | Some m =>
      tlv ← ptpmgmt_msg_getData m;
      Some (dispatcher_callHadler_tlv d msg (m_replayTlv_id (prs m)) tlv cookie)
  end.

(** ** The builder *)

(** A call-back of a TLV fills the structure, which is all zeros; it can use the
    memory of the TLV for what the structure points to. *)
Definition build_callback :=
  S -> CMsg -> CMngTlv -> TlvMem -> bool * CMngTlv * TlvMem.
Record CBuilder := mk_CBuilder {
  b_msg : CMsg;
  b_mem : TlvMem;
  b_cbs : mng_vals_e -> option build_callback
}.
Definition builder_alloc (m : CMsg) : CBuilder := mk_CBuilder m TlvMem_new (fun _ => None).
Definition ptpmgmt_builder_clear (b : CBuilder) : CBuilder :=
  mk_CBuilder (ptpmgmt_msg_clearData (b_msg b)) (tlv_mem_clear (b_mem b)) (b_cbs b).
Definition builder_assign (id : mng_vals_e) (callback : option build_callback) (b : CBuilder)
    : bool * CBuilder :=
  match callback with
  | None => (false, b)
  | Some f =>
      if have_build id then
        (true, mk_CBuilder (b_msg b) (b_mem b)
                 (fun i => if bool_decide (i = id) then Some f else b_cbs b i))
      else (false, b)
  end.

Definition with_mem (tlv : CMngTlv) (m : TlvMem) : TlvMem :=
  mk_TlvMem (tm_id m) (Some tlv) (tm_nalc m) (tm_blocks m).

(** [ptpmgmt_builder_buildTlv]; the structure of the call-back is the one of the
    memory object. *)
Definition ptpmgmt_builder_buildTlv (cookie : S) (a : actionField_e) (id : mng_vals_e)
    (b : CBuilder) : option (bool * CBuilder) :=
  if negb (ptpmgmt_msg_isValidId id (b_msg b)) then Some (false, b)
  else if bool_decide (a = GET) || isEmpty id then
    '(r, m) ← ptpmgmt_msg_setAction a id None (b_msg b);
    Some (r, mk_CBuilder m (b_mem b) (b_cbs b))
  else
    match a with
    | SET | COMMAND =>
        let (ok, mem) := tlv_mem_newTlv id (b_mem b) in
        if negb ok then Some (false, b)
        else
          match tm_tlv mem with
          | None => Some (false, mk_CBuilder (b_msg b) mem (b_cbs b))
          | Some tlv =>
              let '(ret, tlv, mem) :=
                match (if have_build id then b_cbs b id else None) with
                | Some f => f cookie (b_msg b) tlv mem
                | None => (false, tlv, mem)
                end in
              let mem := with_mem tlv mem in
              if ret then
                '(r, m) ← ptpmgmt_msg_setAction a id (Some tlv) (b_msg b);
                Some (r, mk_CBuilder m mem (b_cbs b))
              else Some (false, mk_CBuilder (b_msg b) mem (b_cbs b))
          end
    | _ => Some (false, b)
    end.

End CDispatcher.
Arguments CDispatcher : clear implicits.
Arguments CBuilder : clear implicits.

(** * The C interface against the C++ one

    A request that the C message refuses leaves it with the address of a freed
    structure; the C dispatcher calls what the C++ one calls. *)

(** ** The structure of a request *)

(** A structure of the id: the id has a dataField. *)
Lemma c2cpp_needs a id d t :
  a <> GET -> c2cppMngTlv id d = Some (Some t) -> needs_data a id = true.
Proof.
  intros N E. apply c2cpp_type in E. apply verifyTlv_nonempty in E. unfold needs_data.
  by rewrite bool_decide_eq_false_2, E.
Qed.

(** Everything [setAction] does with the structure of the C interface: [p] is the
    address of the new copy. *)
Lemma c_setAction_cases a id d t m :
  a <> GET -> c2cppMngTlv id (Some d) = Some (Some t) -> owned (cm m) ->
  let (p, h) := alloc t (o_heap (cm m)) in
  ptpmgmt_msg_setAction a id (Some d) m =
    Some (allowedAction (spec_of (cm m)) id a,
      mk_CMsg
        (if allowedAction (spec_of (cm m)) id a
         then reset (Some p) (mk_Owned (with_request a id (Obj t) (cm m)) h (Some p) (o_own (cm m)))
         else reset (Some p) (mk_Owned (o_msg (cm m)) h (o_send (cm m)) (o_own (cm m))))
        (Some d)).
Proof.
  intros N E O. unfold ptpmgmt_msg_setAction. rewrite bool_decide_eq_false_2, E by done.
  pose proof (view_new t (o_heap (cm m)) (o_msg (cm m)) _ (owned_not_fresh (cm m) t O)) as V.
  destruct (alloc t (o_heap (cm m))) as [p h]. cbn [fst snd] in V. rewrite view_send in V.
  cbn [reset o_send o_heap o_own o_msg] in V. rewrite setAction_at_cases. unfold spec_of, with_request.
  cbn [reset o_send o_heap o_own o_msg] in *.
  rewrite (c2cpp_needs a id _ _ N E), V. cbn [negb orb].
  rewrite (c2cpp_type _ _ _ E), andb_true_r. by destruct (allowedAction _ id a).
Qed.

(** C11: The C [setAction] of a SET or a COMMAND with a structure, when the message
    points to its own copy of the last one: it is accepted exactly when the action
    is allowed for the id, and then the message points to the new copy, the only
    one in memory.  When it is refused the message still asks for the request
    before, but its structure was freed: the address it keeps, if there was one,
    is dangling, and building the message uses it. *)
Theorem c_setAction_refused a id d t m :
  owned (cm m) -> a <> GET -> c2cppMngTlv id (Some d) = Some (Some t) ->
  exists r m', ptpmgmt_msg_setAction a id (Some d) m = Some (r, m') /\
    r = allowedAction (implementSpecific (m_prms (o_msg (cm m)))) id a /\
    (r = true -> owned (cm m') /\ m_dataSend (bld (view (cm m'))) = Obj t /\
       m_tlv_id (bld (view (cm m'))) = id) /\
    (r = false ->
       m_tlv_id (bld (view (cm m'))) = m_tlv_id (bld (view (cm m))) /\
       m_sendAction (bld (view (cm m'))) = m_sendAction (bld (view (cm m))) /\
       m_dataSend (bld (view (cm m'))) =
         match m_dataSend (bld (view (cm m))) with Null => Null | _ => Unset end).
Proof.
  intros O N E. pose proof (c_setAction_cases a id d t m N E O) as C.
  pose proof (owned_not_fresh (cm m) t O) as F.
  pose proof (view_new t (o_heap (cm m)) (with_request a id (Obj t) (cm m)) _ F) as V.
  pose proof (reset_new (cm m) t (with_request a id (Obj t) (cm m))
    (Some (fst (alloc t (o_heap (cm m))))) O) as R.
  pose proof (alloc_fresh t (o_heap (cm m))) as L.
  destruct (alloc t (o_heap (cm m))) as [p h] eqn:A. cbn [fst snd] in *.
  unfold spec_of in C. exists (allowedAction (implementSpecific (m_prms (o_msg (cm m)))) id a).
  eexists. split; [exact C|]. split; [done|]. cbn [cm]. split; intros ->.
  - split; [apply R; by right|]. by split.
  - split; [done|]. split; [done|]. rewrite !view_send. cbn [reset o_heap o_send o_own].
    destruct O as [|m0 b u q [->| ->]]; cbn; [done..|].
    by rewrite lookup_singleton_eq, lookup_delete_eq.
Qed.

Definition demo_cmsg : CMsg :=
  match ptpmgmt_msg_setAction SET PRIORITY1 (Some (C_T_PRIORITY1 (mk_PRIORITY1 7)))
          (CMsg_new Message_new) with
  | Some (_, m) => m
  | None => CMsg_new Message_new
  end.
Lemma demo_cmsg_owned : owned (cm demo_cmsg).
Proof.
  destruct (c_setAction_refused SET PRIORITY1 (C_T_PRIORITY1 (mk_PRIORITY1 7))
    (T_PRIORITY1 (mk_PRIORITY1 7)) (CMsg_new Message_new) (owned_none _) ltac:(done) eq_refl)
    as (r & m' & E & R & O & _).
  unfold demo_cmsg. rewrite E. apply O. by rewrite R.
Qed.
Lemma c_setAction_refused_witness :
  exists m', ptpmgmt_msg_setAction COMMAND PRIORITY1 (Some (C_T_PRIORITY1 (mk_PRIORITY1 8)))
      demo_cmsg = Some (false, m') /\
    m_tlv_id (bld (view (cm m'))) = PRIORITY1 /\ m_dataSend (bld (view (cm m'))) = Unset.
Proof.
  destruct (c_setAction_refused COMMAND PRIORITY1 (C_T_PRIORITY1 (mk_PRIORITY1 8))
    (T_PRIORITY1 (mk_PRIORITY1 8)) demo_cmsg demo_cmsg_owned ltac:(done) eq_refl)
    as (r & m' & E & R & _ & F).
  exists m'. assert (r = false) as Hr by (rewrite R; vm_compute; reflexivity).
  rewrite Hr in E. split; [exact E|]. destruct (F Hr) as (F1 & _ & F3).
  rewrite F1, F3. split; vm_compute; reflexivity.
Defined.

(** ** The dispatchers *)

Section Dispatchers.
Context {S : Type}.

(** A C dispatcher and a C++ one with the same call-backs, on the cookie of the
    one and the application of the other; the C call-back of a TLV takes the C
    structure of what the C++ method takes. *)
Definition same_handlers (dc : CDispatcher S) (d : MessageDispatcher S) : Prop :=
  forall id,
    match tlv_case_of id as c return handler_t c -> Prop with
    | CaseUF D _ => fun h =>
        match h, cbs dc id with
        | None, None => True
        | Some f, Some g =>
            forall msg x o c, cpp2cMngTlv id (tlv_up x) = Some c ->
              app (f msg x (mng2str_c id) o) = g (app o) (Some msg) c (mng2str_c id)
        | _, _ => False
        end
    | _ => fun _ => True
    end (on_tlv d id).
Definition same_noTlv (dc : CDispatcher S) (d : MessageDispatcher S) : Prop :=
  (forall msg o, app (noTlv d msg o) = call_noTlv dc (Some msg) (app o)) /\
  (forall msg name o, app (noTlvCallBack d msg name o) =
     match d_noTlvCallBack dc with Some f => f (app o) (Some msg) name | None => app o end).

Lemma cpp2c_type id t c :
  isValidId linuxptp id = true -> cpp2cMngTlv id t = Some c -> verifyTlv id (Obj t) = true.
Proof.
  intros V. unfold cpp2cMngTlv. pose proof (ctlv_case_spec id) as P.
  destruct (ctlv_case_of id) as [|D C inst conv].
  - case_bool_decide; [by subst id|done].
  - destruct P as [K _ _]. unfold verifyTlv. rewrite K. by destruct (tlv_cast t).
Qed.

Lemma valid_linuxptp spec id : isValidId spec id = true -> isValidId linuxptp id = true.
Proof. unfold isValidId. intros [H _]%andb_prop. by rewrite H. Qed.

(** A valid id has a conversion exactly when it has a dataField. *)
Lemma valid_cases id :
  isValidId linuxptp id = true ->
  if isEmpty id then ctlv_case_of id = CCaseNA /\ id <> SMPTE_MNG_ID
  else has_case id = true /\ match ctlv_case_of id with CCaseUF _ _ _ _ => True | CCaseNA => False end.
Proof.
  intros V. destruct (isEmpty id) eqn:E; destruct id;
    first [vm_compute in V; discriminate V | vm_compute in E; discriminate E
          |split; [reflexivity|discriminate]
          |split; [reflexivity|exact I]].
Qed.

(** C13: For a message whose id it may use and whose data, if any, can be converted
    to C, the C dispatcher calls the same call-back as the C++ one, with the C
    structure of the data: the cookie and the application end alike, and one
    uses a pointer that is not set exactly when the other does. *)
Theorem dispatchers_agree dc d m o :
  quiet d -> same_handlers dc d -> same_noTlv dc d ->
  let id := m_replayTlv_id (prs m) in
  isValidId (implementSpecific (m_prms m)) id = true ->
  (forall t, m_dataGet (prs m) = Obj t -> isEmpty id = false -> is_Some (cpp2cMngTlv id t)) ->
  dispatcher_callHadler dc (Some m) (app o) = app <$> callHadler d m o.
Proof.
  cbv zeta. intros Q H [HN HC] V K. set (id := m_replayTlv_id (prs m)) in *.
  pose proof (valid_cases id (valid_linuxptp _ _ V)) as C.
  unfold dispatcher_callHadler, callHadler, ptpmgmt_msg_getData. fold id.
  destruct (isEmpty id) eqn:Em.
  - destruct C as [C D]. rewrite callHadler_empty by done. unfold cpp2cMngTlv. rewrite C.
    rewrite bool_decide_eq_false_2 by done.
    destruct (m_dataGet (prs m)); cbn; by rewrite HN.
  - destruct C as [Hc C].
    destruct (m_dataGet (prs m)) as [| |t] eqn:G.
    + destruct (ctlv_case_of id); [done|]. cbn. unfold callHadler_tlv. by rewrite V, Em.
    + rewrite callHadler_null. cbn. by rewrite HN.
    + destruct (K t eq_refl eq_refl) as [c E].
      pose proof (cpp2c_type id t c (valid_linuxptp _ _ V) E) as T.
      rewrite callHadler_deliver by done. rewrite E. cbn. unfold dispatcher_callHadler_tlv.
      rewrite V, Em, Hc. cbn. f_equal. specialize (H id). unfold deliver.
      unfold verifyTlv in T.
      pose proof (tlv_case_spec id) as S0. revert H S0 T. generalize (on_tlv d id).
      destruct (tlv_case_of id) as [|D0 inst0|]; try done. intros h H S0 T.
      destruct (tlv_cast t) as [x|] eqn:X; [|done].
      pose proof (tlv_up_cast (TlvSpec := cs_spec _ _ S0) t x X) as ->.
      destruct h as [f|], (cbs dc id) as [g|]; try done; [by erewrite H|by rewrite HC].
Qed.
End Dispatchers.

Definition demo_cdispatcher : CDispatcher (list Z) :=
  snd (dispatcher_assign_noTlvCallBack (Some (fun o _ _ => -2 :: o))
    (snd (dispatcher_assign_noTlv (Some (fun o _ => -1 :: o))
      (snd (dispatcher_assign PRIORITY1
        (Some (fun o _ t _ => match t with C_T_PRIORITY1 x => pr1_priority1 x :: o | _ => o end))
        dispatcher_alloc))))).
(** A message that received a PRIORITY1 of 42. *)
Definition demo_received : Message :=
  set_prs (set_m_replayTlv_id PRIORITY1
    (set_m_dataGet (Obj (T_PRIORITY1 (mk_PRIORITY1 42))) (prs Message_new))) Message_new.

Lemma demo_same_handlers : same_handlers demo_cdispatcher demo_dispatcher.
Proof. intros id. destruct id; try exact I. intros msg x o c [=]. by subst c. Qed.

Lemma dispatchers_agree_witness :
  dispatcher_callHadler demo_cdispatcher (Some demo_received) [] =
    app <$> callHadler demo_dispatcher demo_received (mk_disp true []) /\
  app <$> callHadler demo_dispatcher demo_received (mk_disp true []) = Some [42].
Proof.
  split; [|reflexivity].
  apply (dispatchers_agree demo_cdispatcher demo_dispatcher demo_received (mk_disp true [])).
  - exact demo_quiet.
  - exact demo_same_handlers.
  - split; reflexivity.
  - reflexivity.
  - intros t [= <-] _. eexists. reflexivity.
Defined.

(** They differ on data of another id, left by a TLV with an empty dataField: the
    C dispatcher calls [noTlv], the C++ one no call-back. *)
Example dispatchers_differ :
  let m := set_prs (set_m_replayTlv_id PRIORITY2 (prs demo_received)) demo_received in
  dispatcher_callHadler demo_cdispatcher (Some m) [] = Some [-1] /\
  app <$> callHadler demo_dispatcher m (mk_disp true []) = Some [].
Proof. split; reflexivity. Qed.
