(* ===== verification/ClkEvent.v ===== *)
(** * ClkEvent.v: subscriptions and events of the clock manager

    The client library of the clock manager keeps a [TimeBaseState] for each time
    base: what the program subscribed to, and the last known events of the PTP
    clock and of the system clock with their counters.  Notifications of the proxy
    update it ([setTimeBaseStatePtp], [setTimeBaseStateSys]); the program reads it
    and resets the counters ([getTimeBaseState]).
    Sources: [src/clkmgr/client/subscription.cpp], [timebase_state.cpp],
    [clock_event.cpp] and [clock_event_handler.hpp].

    The time of [clock_gettime] is an argument, [None] when it fails.  The result
    [None] of an operation is an overflow of a signed integer. *)

From S2P Require Import Prelude Types.

(** ** Masks and types *)

Definition EventOffsetInRange : Z := 1.
Definition EventSyncedWithGm : Z := 2.
Definition EventAsCapable : Z := 4.
Definition EventGmChanged : Z := 8.
Definition PTP_EVENT_ALL : Z := 15.
Definition SYS_EVENT_ALL : Z := 1.
Definition PTP_COMPOSITE_EVENT_ALL : Z := 7.

Inductive ClockType := PTPClock | SysClock.
Definition ClockType_val (t : ClockType) : Z := match t with PTPClock => 1 | SysClock => 2 end.

(** [mask & event] as a condition. *)
Definition has (mask event : Z) : bool := negb (Z.land mask event =? 0).

(** ** Subscriptions *)

Record ClockSubscriptionBase := mk_sub { clockOffsetThreshold : Z; eventMask : Z }.
Record PTPClockSubscription := mk_ptpsub {
  ptp_base : ClockSubscriptionBase;
  m_composite_event_mask : Z
}.
Definition sub_default : ClockSubscriptionBase := mk_sub 0 0.
Definition ptpsub_default : PTPClockSubscription := mk_ptpsub sub_default 0.

Definition setClockOffsetThreshold (v : Z) (s : ClockSubscriptionBase) : ClockSubscriptionBase :=
  mk_sub v (eventMask s).
Definition modifyEventMask (v : Z) (s : ClockSubscriptionBase) : ClockSubscriptionBase :=
  mk_sub (clockOffsetThreshold s) v.
Definition ptp_setClockOffsetThreshold (v : Z) (s : PTPClockSubscription) : PTPClockSubscription :=
  mk_ptpsub (setClockOffsetThreshold v (ptp_base s)) (m_composite_event_mask s).
Definition ptp_setEventMask (v : Z) (s : PTPClockSubscription) : bool * PTPClockSubscription :=
  if PTP_EVENT_ALL <? v then (false, s)
  else (true, mk_ptpsub (modifyEventMask v (ptp_base s)) (m_composite_event_mask s)).
Definition setCompositeEventMask (v : Z) (s : PTPClockSubscription) : bool * PTPClockSubscription :=
  if has v (uwrap 32 (Z.lnot PTP_COMPOSITE_EVENT_ALL)) then (false, s)
  else (true, mk_ptpsub (ptp_base s) v).
Definition sys_setEventMask (v : Z) (s : ClockSubscriptionBase) : bool * ClockSubscriptionBase :=
  if SYS_EVENT_ALL <? v then (false, s) else (true, modifyEventMask v s).

Record ClockSyncSubscription := mk_syncsub {
  ptpSubscription : PTPClockSubscription; ptpSubscribed : bool;
  sysSubscription : ClockSubscriptionBase; sysSubscribed : bool
}.
Definition syncsub_default : ClockSyncSubscription :=
  mk_syncsub ptpsub_default false sub_default false.
Definition enablePtpSubscription (on : bool) (s : ClockSyncSubscription) : ClockSyncSubscription :=
  mk_syncsub (ptpSubscription s) on (sysSubscription s) (sysSubscribed s).
Definition enableSysSubscription (on : bool) (s : ClockSyncSubscription) : ClockSyncSubscription :=
  mk_syncsub (ptpSubscription s) (ptpSubscribed s) (sysSubscription s) on.
Definition setPtpSubscription (o : PTPClockSubscription) (s : ClockSyncSubscription) : ClockSyncSubscription :=
  mk_syncsub o true (sysSubscription s) (sysSubscribed s).
Definition setSysSubscription (o : ClockSubscriptionBase) (s : ClockSyncSubscription) : ClockSyncSubscription :=
  mk_syncsub (ptpSubscription s) (ptpSubscribed s) o true.

(** *** The C interface, which keeps one object of each kind *)

Record Clkmgr_Subscription := mk_csub {
  c_ptp : PTPClockSubscription; c_sys : ClockSubscriptionBase; c_sub : ClockSyncSubscription
}.
Definition clkmgr_constructSubscriptionInstance : Clkmgr_Subscription :=
  mk_csub ptpsub_default sub_default syncsub_default.
Definition clkmgr_setEventMask (t : ClockType) (mask : Z) (c : Clkmgr_Subscription)
    : bool * Clkmgr_Subscription :=
  match t with
  | PTPClock => let '(ok, s) := ptp_setEventMask mask (c_ptp c) in
                if ok then (true, mk_csub s (c_sys c) (setPtpSubscription s (c_sub c))) else (false, c)
  | SysClock => let '(ok, s) := sys_setEventMask mask (c_sys c) in
                if ok then (true, mk_csub (c_ptp c) s (setSysSubscription s (c_sub c))) else (false, c)
  end.
Definition clkmgr_getEventMask (t : ClockType) (c : Clkmgr_Subscription) : Z :=
  match t with
  | PTPClock => eventMask (ptp_base (ptpSubscription (c_sub c)))
  | SysClock => eventMask (sysSubscription (c_sub c))
  end.
Definition clkmgr_setPtpCompositeEventMask (mask : Z) (c : Clkmgr_Subscription)
    : bool * Clkmgr_Subscription :=
  let '(ok, s) := setCompositeEventMask mask (c_ptp c) in
  if ok then (true, mk_csub s (c_sys c) (setPtpSubscription s (c_sub c))) else (false, c).
Definition clkmgr_getPtpCompositeEventMask (c : Clkmgr_Subscription) : Z :=
  m_composite_event_mask (ptpSubscription (c_sub c)).
Definition clkmgr_setClockOffsetThreshold (t : ClockType) (v : Z) (c : Clkmgr_Subscription)
    : bool * Clkmgr_Subscription :=
  match t with
  | PTPClock => let s := ptp_setClockOffsetThreshold v (c_ptp c) in
                (true, mk_csub s (c_sys c) (setPtpSubscription s (c_sub c)))
  | SysClock => let s := setClockOffsetThreshold v (c_sys c) in
                (true, mk_csub (c_ptp c) s (setSysSubscription s (c_sub c)))
  end.
Definition clkmgr_getClockOffsetThreshold (t : ClockType) (c : Clkmgr_Subscription) : Z :=
  match t with
  | PTPClock => clockOffsetThreshold (ptp_base (ptpSubscription (c_sub c)))
  | SysClock => clockOffsetThreshold (sysSubscription (c_sub c))
  end.
Definition clkmgr_enableSubscription (t : ClockType) (c : Clkmgr_Subscription) : bool * Clkmgr_Subscription :=
  (true, mk_csub (c_ptp c) (c_sys c)
    (match t with PTPClock => enablePtpSubscription | SysClock => enableSysSubscription end true (c_sub c))).
Definition clkmgr_disableSubscription (t : ClockType) (c : Clkmgr_Subscription) : bool * Clkmgr_Subscription :=
  (true, mk_csub (c_ptp c) (c_sys c)
    (match t with PTPClock => enablePtpSubscription | SysClock => enableSysSubscription end false (c_sub c))).
Definition clkmgr_isSubscriptionEnabled (t : ClockType) (c : Clkmgr_Subscription) : bool :=
  match t with PTPClock => ptpSubscribed (c_sub c) | SysClock => sysSubscribed (c_sub c) end.

(** ** Events *)

Record ptp_event := mk_ptp_event {
  pe_clockOffset : Z; pe_gmClockUUID : Z; pe_syncInterval : Z; pe_asCapable : bool; pe_syncedWithGm : bool
}.
Record chrony_event := mk_chrony_event {
  ce_clockOffset : Z; ce_gmClockUUID : Z; ce_syncInterval : Z
}.

Record ClockEventBase := mk_event {
  clockOffset : Z; syncInterval : Z; gmClockUUID : Z; notificationTimestamp : Z;
  offsetInRangeCount : Z; gmChangedCount : Z; offsetInRange : bool; gmChanged : bool
}.
Record PTPClockEvent := mk_ptpev {
  ev : ClockEventBase;
  syncedWithGmCount : Z; asCapableCount : Z; compositeEventCount : Z;
  syncedWithGm : bool; asCapable : bool; compositeEvent : bool
}.
Definition event_default : ClockEventBase := mk_event 0 0 0 0 0 0 true false.
Definition ptpev_default : PTPClockEvent := mk_ptpev event_default 0 0 0 false false false.

(** The setters of [ClockEventHandler]. *)
Definition setNotificationTimestamp (v : Z) (e : ClockEventBase) : ClockEventBase :=
  mk_event (clockOffset e) (syncInterval e) (gmClockUUID e) v (offsetInRangeCount e)
    (gmChangedCount e) (offsetInRange e) (gmChanged e).
Definition setClockOffset (v : Z) (e : ClockEventBase) : ClockEventBase :=
  mk_event v (syncInterval e) (gmClockUUID e) (notificationTimestamp e) (offsetInRangeCount e)
    (gmChangedCount e) (offsetInRange e) (gmChanged e).
Definition setGmIdentity (v : Z) (e : ClockEventBase) : ClockEventBase :=
  mk_event (clockOffset e) (syncInterval e) v (notificationTimestamp e) (offsetInRangeCount e)
    (gmChangedCount e) (offsetInRange e) (gmChanged e).
Definition setOffsetInRange (v : bool) (e : ClockEventBase) : ClockEventBase :=
  mk_event (clockOffset e) (syncInterval e) (gmClockUUID e) (notificationTimestamp e)
    (offsetInRangeCount e) (gmChangedCount e) v (gmChanged e).
Definition setGmChanged (v : bool) (e : ClockEventBase) : ClockEventBase :=
  mk_event (clockOffset e) (syncInterval e) (gmClockUUID e) (notificationTimestamp e)
    (offsetInRangeCount e) (gmChangedCount e) (offsetInRange e) v.
(** The argument is an [int64_t]: the [uint64_t] that it is given survives the two
    conversions. *)
Definition setSyncInterval (v : Z) (e : ClockEventBase) : ClockEventBase :=
  mk_event (clockOffset e) (uwrap 64 (swrap 64 v)) (gmClockUUID e) (notificationTimestamp e)
    (offsetInRangeCount e) (gmChangedCount e) (offsetInRange e) (gmChanged e).
Definition setOffsetInRangeEventCount (v : Z) (e : ClockEventBase) : ClockEventBase :=
  mk_event (clockOffset e) (syncInterval e) (gmClockUUID e) (notificationTimestamp e)
    (uwrap 32 v) (gmChangedCount e) (offsetInRange e) (gmChanged e).
Definition setGmChangedEventCount (v : Z) (e : ClockEventBase) : ClockEventBase :=
  mk_event (clockOffset e) (syncInterval e) (gmClockUUID e) (notificationTimestamp e)
    (offsetInRangeCount e) (uwrap 32 v) (offsetInRange e) (gmChanged e).
Definition on_base (f : ClockEventBase -> ClockEventBase) (e : PTPClockEvent) : PTPClockEvent :=
  mk_ptpev (f (ev e)) (syncedWithGmCount e) (asCapableCount e) (compositeEventCount e)
    (syncedWithGm e) (asCapable e) (compositeEvent e).
Definition setSyncedWithGmEventCount (v : Z) (e : PTPClockEvent) : PTPClockEvent :=
  mk_ptpev (ev e) (uwrap 32 v) (asCapableCount e) (compositeEventCount e)
    (syncedWithGm e) (asCapable e) (compositeEvent e).
Definition setAsCapableEventCount (v : Z) (e : PTPClockEvent) : PTPClockEvent :=
  mk_ptpev (ev e) (syncedWithGmCount e) (uwrap 32 v) (compositeEventCount e)
    (syncedWithGm e) (asCapable e) (compositeEvent e).
Definition setCompositeEventCount (v : Z) (e : PTPClockEvent) : PTPClockEvent :=
  mk_ptpev (ev e) (syncedWithGmCount e) (asCapableCount e) (uwrap 32 v)
    (syncedWithGm e) (asCapable e) (compositeEvent e).
Definition setSyncedWithGm (v : bool) (e : PTPClockEvent) : PTPClockEvent :=
  mk_ptpev (ev e) (syncedWithGmCount e) (asCapableCount e) (compositeEventCount e)
    v (asCapable e) (compositeEvent e).
Definition setAsCapable (v : bool) (e : PTPClockEvent) : PTPClockEvent :=
  mk_ptpev (ev e) (syncedWithGmCount e) (asCapableCount e) (compositeEventCount e)
    (syncedWithGm e) v (compositeEvent e).
Definition setCompositeEvent (v : bool) (e : PTPClockEvent) : PTPClockEvent :=
  mk_ptpev (ev e) (syncedWithGmCount e) (asCapableCount e) (compositeEventCount e)
    (syncedWithGm e) (asCapable e) v.

(** ** The state of a time base *)

Record TimeBaseState := mk_tbs {
  subscribed : bool; event_changed : bool;
  ptpEventState : PTPClockEvent; sysEventState : ClockEventBase;
  ptpEventSub : PTPClockSubscription; sysEventSub : ClockSubscriptionBase;
  last_notification_time : timespec; havePtPData : bool; haveSysData : bool
}.
Definition tbs_default : TimeBaseState :=
  mk_tbs false false ptpev_default event_default ptpsub_default sub_default
    (mk_timespec 0 0) false false.

Definition set_subscribed (v : bool) (s : TimeBaseState) : TimeBaseState :=
  mk_tbs v (event_changed s) (ptpEventState s) (sysEventState s) (ptpEventSub s) (sysEventSub s)
    (last_notification_time s) (havePtPData s) (haveSysData s).
Definition set_event_changed (v : bool) (s : TimeBaseState) : TimeBaseState :=
  mk_tbs (subscribed s) v (ptpEventState s) (sysEventState s) (ptpEventSub s) (sysEventSub s)
    (last_notification_time s) (havePtPData s) (haveSysData s).
Definition set_ptpEventState (v : PTPClockEvent) (s : TimeBaseState) : TimeBaseState :=
  mk_tbs (subscribed s) (event_changed s) v (sysEventState s) (ptpEventSub s) (sysEventSub s)
    (last_notification_time s) (havePtPData s) (haveSysData s).
Definition set_sysEventState (v : ClockEventBase) (s : TimeBaseState) : TimeBaseState :=
  mk_tbs (subscribed s) (event_changed s) (ptpEventState s) v (ptpEventSub s) (sysEventSub s)
    (last_notification_time s) (havePtPData s) (haveSysData s).
Definition set_last_notification_time (v : timespec) (s : TimeBaseState) : TimeBaseState :=
  mk_tbs (subscribed s) (event_changed s) (ptpEventState s) (sysEventState s) (ptpEventSub s)
    (sysEventSub s) v (havePtPData s) (haveSysData s).
Definition set_ptpAvailability (v : bool) (s : TimeBaseState) : TimeBaseState :=
  mk_tbs (subscribed s) (event_changed s) (ptpEventState s) (sysEventState s) (ptpEventSub s)
    (sysEventSub s) (last_notification_time s) v (haveSysData s).
Definition set_sysAvailability (v : bool) (s : TimeBaseState) : TimeBaseState :=
  mk_tbs (subscribed s) (event_changed s) (ptpEventState s) (sysEventState s) (ptpEventSub s)
    (sysEventSub s) (last_notification_time s) (havePtPData s) v.
Definition set_ptpEventSub (eSub : PTPClockSubscription) (s : TimeBaseState) : bool * TimeBaseState :=
  let put sub := mk_tbs (subscribed s) (event_changed s) (ptpEventState s) (sysEventState s) sub
    (sysEventSub s) (last_notification_time s) (havePtPData s) (haveSysData s) in
  let sub := ptp_setClockOffsetThreshold (clockOffsetThreshold (ptp_base eSub)) (ptpEventSub s) in
  let '(ok, sub) := ptp_setEventMask (eventMask (ptp_base eSub)) sub in
  if negb ok then (false, put sub)
  else let '(ok, sub) := setCompositeEventMask (m_composite_event_mask eSub) sub in (ok, put sub).
Definition set_sysEventSub (eSub : ClockSubscriptionBase) (s : TimeBaseState) : bool * TimeBaseState :=
  let sub := setClockOffsetThreshold (clockOffsetThreshold eSub) (sysEventSub s) in
  let '(ok, sub) := sys_setEventMask (eventMask eSub) sub in
  (ok, mk_tbs (subscribed s) (event_changed s) (ptpEventState s) (sysEventState s) (ptpEventSub s) sub
         (last_notification_time s) (havePtPData s) (haveSysData s)).

(** ** Updates by notifications *)

(** [offset >= -threshold && offset <= threshold] after the conversion of the
    threshold to [int32_t]. *)
Definition inRange (threshold offset : Z) : option bool :=
  let t := swrap 32 threshold in
  if t =? - 2 ^ 31 then None else Some ((- t <=? offset) && (offset <=? t)).

(** The event of the offset, which both clocks handle the same way; the flag is
    [event_changed]. *)
Definition offset_event (sub : ClockSubscriptionBase) (offset : Z) (s : ClockEventBase * bool)
    : option (ClockEventBase * bool) :=
  let '(e, changed) := s in
  if has (eventMask sub) EventOffsetInRange && negb (offset =? clockOffset e) then
    let e := setClockOffset offset e in
    r ← inRange (clockOffsetThreshold sub) (clockOffset e);
    if bool_decide (r = offsetInRange e) then Some (e, changed)
    else
      let e := setOffsetInRange r e in
      Some (setOffsetInRangeEventCount (offsetInRangeCount e + 1) e, true)
  else Some (e, changed).
Definition synced_event (mask : Z) (synced : bool) (s : PTPClockEvent * bool) : PTPClockEvent * bool :=
  let '(e, changed) := s in
  if has mask EventSyncedWithGm && negb (eqb synced (syncedWithGm e)) then
    let e := setSyncedWithGm synced e in
    (setSyncedWithGmEventCount (syncedWithGmCount e + 1) e, true)
  else (e, changed).
Definition gm_event (mask : Z) (uuid : Z) (s : PTPClockEvent * bool) : PTPClockEvent * bool :=
  let '(e, changed) := s in
  if has mask EventGmChanged && negb (gmClockUUID (ev e) =? uuid) then
    let e := on_base (setGmIdentity uuid) e in
    let e := on_base (setGmChanged true) e in
    (on_base (setGmChangedEventCount (gmChangedCount (ev e) + 1)) e, true)
  else (e, changed).
Definition as_event (mask : Z) (capable : bool) (s : PTPClockEvent * bool) : PTPClockEvent * bool :=
  let '(e, changed) := s in
  if has mask EventAsCapable && negb (eqb capable (asCapable e)) then
    let e := setAsCapable capable e in
    (setAsCapableEventCount (asCapableCount e + 1) e, true)
  else (e, changed).
Definition composite_met (mask : Z) (e : PTPClockEvent) : bool :=
  (negb (has mask EventOffsetInRange) || offsetInRange (ev e)) &&
  (negb (has mask EventSyncedWithGm) || syncedWithGm e) &&
  (negb (has mask EventAsCapable) || asCapable e).
Definition composite_event (mask : Z) (s : PTPClockEvent * bool) : PTPClockEvent * bool :=
  let '(e, changed) := s in
  let met := composite_met mask e in
  if negb (mask =? 0) && negb (eqb met (compositeEvent e)) then
    let e := setCompositeEvent met e in
    (setCompositeEventCount (compositeEventCount e + 1) e, true)
  else (e, changed).

(** The time of the notification, zero when the clock cannot be read. *)
Definition notification_time (now : option timespec) : timespec := default (mk_timespec 0 0) now.
Definition notification_timestamp (now : option timespec) : Z :=
  let t := notification_time now in uwrap 64 (uwrap 64 (tv_sec t) * NSEC_PER_SEC + tv_nsec t).
Definition set_time (now : option timespec) (s : TimeBaseState) : TimeBaseState :=
  match now with Some t => set_last_notification_time t s | None => s end.

Definition ptp_update (now : option timespec) (newEvent : ptp_event) (state : TimeBaseState)
    : option TimeBaseState :=
  let state := set_time now state in
  let sub := ptpEventSub state in
  let mask := eventMask (ptp_base sub) in
  let e := ptpEventState state in
  '(b, changed) ← offset_event (ptp_base sub) (pe_clockOffset newEvent) (ev e, event_changed state);
  let s := (on_base (fun _ => b) e, changed) in
  let s := synced_event mask (pe_syncedWithGm newEvent) s in
  let s := gm_event mask (pe_gmClockUUID newEvent) s in
  let s := as_event mask (pe_asCapable newEvent) s in
  let '(e, changed) := composite_event (m_composite_event_mask sub) s in
  let e := on_base (setNotificationTimestamp (notification_timestamp now)) e in
  let e := on_base (setSyncInterval (pe_syncInterval newEvent)) e in
  Some (set_ptpAvailability true (set_ptpEventState e (set_event_changed changed state))).

Definition sys_update (now : option timespec) (newEvent : chrony_event) (state : TimeBaseState)
    : option TimeBaseState :=
  let state := set_time now state in
  '(e, changed) ← offset_event (sysEventSub state) (ce_clockOffset newEvent)
                    (sysEventState state, event_changed state);
  let e := setGmIdentity (ce_gmClockUUID newEvent) e in
  let e := setSyncInterval (ce_syncInterval newEvent) e in
  let e := setNotificationTimestamp (notification_timestamp now) e in
  Some (set_sysAvailability true (set_sysEventState e (set_event_changed changed state))).

(** What reading leaves: the counters and the changes are taken. *)
Definition after_read (s : TimeBaseState) : TimeBaseState :=
  let p := ptpEventState s in
  let p := on_base (setOffsetInRangeEventCount 0) p in
  let p := setSyncedWithGmEventCount 0 p in
  let p := on_base (setGmChangedEventCount 0) p in
  let p := setAsCapableEventCount 0 p in
  let p := setCompositeEventCount 0 p in
  let p := on_base (setGmChanged false) p in
  let s := set_ptpEventState p s in
  let s := set_sysEventState (setOffsetInRangeEventCount 0 (sysEventState s)) s in
  set_event_changed false s.

(** ** All time bases *)

(** [std::map<int, TimeBaseState>]; [operator[]] adds a state. *)
Definition TimeBaseStates : Type := gmap Z TimeBaseState.
Definition index (timeBaseIndex : Z) : Z := swrap 32 timeBaseIndex.
Definition state_of (m : TimeBaseStates) (i : Z) : TimeBaseState := default tbs_default (m !! index i).

Definition getTimeBaseState (i : Z) (m : TimeBaseStates) : option (TimeBaseState * TimeBaseStates) :=
  s ← m !! index i; Some (s, <[index i := after_read s]> m).
Definition setTimeBaseStatePtp (now : option timespec) (i : Z) (newEvent : ptp_event)
    (m : TimeBaseStates) : option TimeBaseStates :=
  s ← ptp_update now newEvent (state_of m i); Some (<[index i := s]> m).
Definition setTimeBaseStateSys (now : option timespec) (i : Z) (newEvent : chrony_event)
    (m : TimeBaseStates) : option TimeBaseStates :=
  s ← sys_update now newEvent (state_of m i); Some (<[index i := s]> m).
Definition setPtpEventSubscription (i : Z) (sub : PTPClockSubscription) (m : TimeBaseStates)
    : bool * TimeBaseStates :=
  let '(ok, s) := set_ptpEventSub sub (state_of m i) in (ok, <[index i := s]> m).
Definition setSysEventSubscription (i : Z) (sub : ClockSubscriptionBase) (m : TimeBaseStates)
    : bool * TimeBaseStates :=
  let '(ok, s) := set_sysEventSub sub (state_of m i) in (ok, <[index i := s]> m).
Definition getSubscribed (i : Z) (m : TimeBaseStates) : bool :=
  match m !! index i with Some s => subscribed s | None => false end.
Definition setSubscribed (i : Z) (v : bool) (m : TimeBaseStates) : TimeBaseStates :=
  <[index i := set_subscribed v (state_of m i)]> m.
Definition getLastNotificationTime (i : Z) (m : TimeBaseStates) : option timespec :=
  last_notification_time <$> m !! index i.

Definition isPTPDataEmpty (e : ptp_event) : bool :=
  (pe_clockOffset e =? 0) && (pe_gmClockUUID e =? 0) && (pe_syncInterval e =? 0) &&
  negb (pe_asCapable e) && negb (pe_syncedWithGm e).
Definition isChronyDataEmpty (e : chrony_event) : bool :=
  (ce_clockOffset e =? 0) && (ce_gmClockUUID e =? 0) && (ce_syncInterval e =? 0).
Definition subscribeReply (now now' : option timespec) (i : Z) (ptpData : ptp_event)
    (chronyData : chrony_event) (m : TimeBaseStates) : option TimeBaseStates :=
  m ← (if isPTPDataEmpty ptpData then Some m else setTimeBaseStatePtp now i ptpData m);
  m ← (if isChronyDataEmpty chronyData then Some m else setTimeBaseStateSys now' i chronyData m);
  Some (setSubscribed i true m).

(** [ClockSyncData] and [ClockSyncBaseHandler::updateAll]. *)
Record ClockSyncData := mk_csd {
  ptpClockSync : PTPClockEvent; sysClockSync : ClockEventBase; ptpAvailable : bool; sysAvailable : bool
}.
Definition updateAll (state : TimeBaseState) (d : ClockSyncData) : ClockSyncData :=
  mk_csd (if havePtPData state then ptpEventState state else ptpClockSync d)
    (if haveSysData state then sysEventState state else sysClockSync d)
    (havePtPData state) (haveSysData state).
