(* ===== verification/ClkEventFacts.v ===== *)
(** * ClkEventFacts.v: events are counted and none is lost

    The subscriptions that programs can make are valid and are stored as they are;
    the flags of an event state follow the notifications, and the counters count
    the changes of the flags since the last reading. *)

From S2P Require Import Prelude Types ClkEvent.

(** ** Subscriptions *)

Definition valid_ptpsub (s : PTPClockSubscription) : Prop :=
  0 <= eventMask (ptp_base s) <= PTP_EVENT_ALL /\
  0 <= m_composite_event_mask s <= PTP_COMPOSITE_EVENT_ALL.
Definition valid_syssub (s : ClockSubscriptionBase) : Prop := 0 <= eventMask s <= SYS_EVENT_ALL.

(** The complement of the low three bits. *)
Lemma composite_bits v : uint 32 v ->
  has v (uwrap 32 (Z.lnot PTP_COMPOSITE_EVENT_ALL)) = (PTP_COMPOSITE_EVENT_ALL <? v).
Proof.
  intros [L H]. change (uwrap 32 (Z.lnot PTP_COMPOSITE_EVENT_ALL)) with (Z.ldiff (Z.ones 32) (Z.ones 3)).
  unfold has. rewrite Z.land_comm.
  assert (Z.land (Z.ldiff (Z.ones 32) (Z.ones 3)) v = Z.ldiff v (Z.ones 3)) as ->.
  { apply Z.bits_inj'. intros n Hn. rewrite Z.land_spec, !Z.ldiff_spec.
    destruct (decide (n < 32)).
    - rewrite (Z.ones_spec_low 32) by lia. by rewrite andb_true_l, andb_comm.
    - rewrite (Z.ones_spec_high 32) by lia. rewrite andb_false_l.
      destruct (decide (v = 0)) as [->|]; [by rewrite Z.bits_0|].
      rewrite (Z.bits_above_log2 v n); [done|lia|]. apply Z.log2_lt_pow2; [lia|].
      apply Z.lt_le_trans with (2 ^ 32); [done|]. apply Z.pow_le_mono_r; lia. }
  rewrite Z.ldiff_ones_r, Z.shiftl_mul_pow2, Z.shiftr_div_pow2 by lia. unfold PTP_COMPOSITE_EVENT_ALL.
  change (2 ^ 3) with 8. destruct (Z.eqb_spec (v / 8 * 8) 0), (Z.ltb_spec 7 v); try done;
    Z.to_euclidean_division_equations; lia.
Qed.

(** The operations of programs on a subscription of the C interface. *)
Inductive csub_step : Clkmgr_Subscription -> Clkmgr_Subscription -> Prop :=
| step_mask t v c : uint 32 v -> csub_step c (clkmgr_setEventMask t v c).2
| step_composite v c : uint 32 v -> csub_step c (clkmgr_setPtpCompositeEventMask v c).2
| step_threshold t v c : uint 32 v -> csub_step c (clkmgr_setClockOffsetThreshold t v c).2
| step_enable t c : csub_step c (clkmgr_enableSubscription t c).2
| step_disable t c : csub_step c (clkmgr_disableSubscription t c).2.
Definition csub_reachable : Clkmgr_Subscription -> Prop :=
  rtc csub_step clkmgr_constructSubscriptionInstance.

(** The object for each clock is the one that is part of the subscription. *)
Definition csub_inv (c : Clkmgr_Subscription) : Prop :=
  c_ptp c = ptpSubscription (c_sub c) /\ c_sys c = sysSubscription (c_sub c) /\
  valid_ptpsub (c_ptp c) /\ valid_syssub (c_sys c).

Lemma csub_step_inv c c' : csub_step c c' -> csub_inv c -> csub_inv c'.
Proof.
  unfold csub_inv, valid_ptpsub, valid_syssub, uint. intros S I. destruct_and? I.
  destruct S as [[] v c V|v c V|[] v c V|[] c|[] c];
    unfold clkmgr_setEventMask, ptp_setEventMask, sys_setEventMask, clkmgr_setPtpCompositeEventMask,
      setCompositeEventMask; rewrite ?composite_bits by done; try match goal with |- context [?a <? ?b] => destruct (Z.ltb_spec a b) end; cbn;
    repeat split; try done; unfold uint in V; lia.
Qed.
Lemma csub_reachable_inv c : csub_reachable c -> csub_inv c.
Proof.
  intros R. assert (csub_inv clkmgr_constructSubscriptionInstance) as I by done.
  revert I. induction R; eauto using csub_step_inv.
Qed.

Lemma valid_composite v : 0 <= v <= PTP_COMPOSITE_EVENT_ALL ->
  has v (uwrap 32 (Z.lnot PTP_COMPOSITE_EVENT_ALL)) = false.
Proof.
  intros V. unfold PTP_COMPOSITE_EVENT_ALL in V. rewrite composite_bits by (unfold uint; lia).
  unfold PTP_COMPOSITE_EVENT_ALL. lia.
Qed.
Lemma set_ptpEventSub_valid sub s : valid_ptpsub sub ->
  set_ptpEventSub sub s = (true, mk_tbs (subscribed s) (event_changed s) (ptpEventState s)
    (sysEventState s) sub (sysEventSub s) (last_notification_time s) (havePtPData s) (haveSysData s)).
Proof.
  intros [V1 V2]. unfold set_ptpEventSub, ptp_setEventMask. cbv zeta.
  destruct (Z.ltb_spec PTP_EVENT_ALL (eventMask (ptp_base sub))); [lia|]. cbn [negb].
  unfold setCompositeEventMask. rewrite valid_composite by done. by destruct sub as [[] ?].
Qed.
Lemma set_sysEventSub_valid sub s : valid_syssub sub ->
  set_sysEventSub sub s = (true, mk_tbs (subscribed s) (event_changed s) (ptpEventState s)
    (sysEventState s) (ptpEventSub s) sub (last_notification_time s) (havePtPData s) (haveSysData s)).
Proof.
  intros V. unfold set_sysEventSub, sys_setEventMask. cbv zeta.
  destruct (Z.ltb_spec SYS_EVENT_ALL (eventMask sub)); [unfold valid_syssub in V; lia|]. by destruct sub.
Qed.

(** C37: Whatever a program does with a subscription of the C interface, its masks
    have only the bits of events, what the getters return is what the library
    subscribes to, and a time base takes both subscriptions as they are. *)
Theorem subscription_taken c s :
  csub_reachable c ->
  (let p := ptpSubscription (c_sub c) in let y := sysSubscription (c_sub c) in
   p = c_ptp c /\ y = c_sys c /\
   clkmgr_getEventMask PTPClock c = eventMask (ptp_base p) /\
   clkmgr_getPtpCompositeEventMask c = m_composite_event_mask p /\
   clkmgr_getEventMask SysClock c = eventMask y /\
   0 <= eventMask (ptp_base p) <= PTP_EVENT_ALL /\
   0 <= m_composite_event_mask p <= PTP_COMPOSITE_EVENT_ALL /\ 0 <= eventMask y <= SYS_EVENT_ALL /\
   (set_ptpEventSub p s).1 = true /\ ptpEventSub (set_ptpEventSub p s).2 = p /\
   (set_sysEventSub y s).1 = true /\ sysEventSub (set_sysEventSub y s).2 = y).
Proof.
  intros R. destruct (csub_reachable_inv c R) as (P & Y & Vp & Vs). cbv zeta.
  rewrite <- P, <- Y, set_ptpEventSub_valid, set_sysEventSub_valid by done.
  unfold clkmgr_getEventMask, clkmgr_getPtpCompositeEventMask. rewrite <- P, <- Y.
  unfold valid_ptpsub, valid_syssub in *. destruct_and?. repeat split; done || lia.
Qed.

Definition sample_csub : Clkmgr_Subscription :=
  (clkmgr_setEventMask PTPClock 16 (clkmgr_setClockOffsetThreshold PTPClock 100
    (clkmgr_setEventMask PTPClock 7 clkmgr_constructSubscriptionInstance).2).2).2.
Lemma subscription_taken_witness :
  eventMask (ptp_base (ptpSubscription (c_sub sample_csub))) = 7 /\
  ptpSubscription (c_sub sample_csub) = c_ptp sample_csub.
Proof.
  split; [reflexivity|]. refine (proj1 (subscription_taken sample_csub tbs_default _)).
  eapply rtc_l; [apply (step_mask PTPClock 7); unfold uint; lia|].
  eapply rtc_l; [apply (step_threshold PTPClock 100); unfold uint; lia|].
  apply rtc_once. apply (step_mask PTPClock 16). unfold uint. lia.
Defined.

(** ** Counters *)

(** How often the value changes along a list. *)
Fixpoint changes {A} `{EqDecision A} (a : A) (l : list A) : Z :=
  match l with
  | [] => 0
  | b :: r => (if decide (a = b) then 0 else 1) + changes b r
  end.
Lemma changes_nonneg {A} `{EqDecision A} (l : list A) : forall a, 0 <= changes a l.
Proof. induction l as [|b l IH]; intros a; cbn; [done|]. specialize (IH b). destruct (decide _); lia. Qed.

(** The values that programs see, and their counters. *)
Record observed := mk_observed {
  o_offset : bool; o_synced : bool; o_gm : Z; o_capable : bool; o_composite : bool; o_sys : bool
}.
#[global] Instance observed_eq_dec : EqDecision observed.
Proof. solve_decision. Defined.
Definition observe (s : TimeBaseState) : observed :=
  let e := ptpEventState s in
  mk_observed (offsetInRange (ev e)) (syncedWithGm e) (gmClockUUID (ev e)) (asCapable e) (compositeEvent e)
    (offsetInRange (sysEventState s)).
Record counters := mk_counters {
  n_offset : Z; n_synced : Z; n_gm : Z; n_capable : Z; n_composite : Z; n_sys : Z
}.
Definition counts (s : TimeBaseState) : counters :=
  let e := ptpEventState s in
  mk_counters (offsetInRangeCount (ev e)) (syncedWithGmCount e) (gmChangedCount (ev e))
    (asCapableCount e) (compositeEventCount e) (offsetInRangeCount (sysEventState s)).
Definition counts_ok (c : counters) : Prop :=
  uint 32 (n_offset c) /\ uint 32 (n_synced c) /\ uint 32 (n_gm c) /\ uint 32 (n_capable c) /\
  uint 32 (n_composite c) /\ uint 32 (n_sys c).

(** The counters after the values of [tr]. *)
Definition add_changes (c : counters) (o : observed) (tr : list observed) : counters :=
  mk_counters (uwrap 32 (n_offset c + changes (o_offset o) (map o_offset tr)))
    (uwrap 32 (n_synced c + changes (o_synced o) (map o_synced tr)))
    (uwrap 32 (n_gm c + changes (o_gm o) (map o_gm tr)))
    (uwrap 32 (n_capable c + changes (o_capable o) (map o_capable tr)))
    (uwrap 32 (n_composite c + changes (o_composite o) (map o_composite tr)))
    (uwrap 32 (n_sys c + changes (o_sys o) (map o_sys tr))).

(** One notification. *)
Ltac event_cases :=
  repeat match goal with
  | |- context [if ?b then _ else _] =>
      lazymatch b with
      | context [if _ then _ else _] => fail
      | _ => destruct b eqn:?
      end
  end.

Lemma inRange_some t o : uint 32 t -> t < 2 ^ 31 ->
  inRange t o = Some (bool_decide (- t <= o <= t)).
Proof.
  intros [T0 _] T. unfold inRange. rewrite swrap_small by (unfold sint; lia).
  destruct (Z.eqb_spec t (- 2 ^ 31)); [lia|]. f_equal. case_bool_decide; lia.
Qed.

(** A counter with the values before and after. *)
Definition bump {A} `{EqDecision A} (c : Z) (a b : A) : Z := uwrap 32 (c + if decide (a = b) then 0 else 1).
Lemma bump_same {A} `{EqDecision A} c (a : A) : uint 32 c -> bump c a a = c.
Proof. intros C. unfold bump. rewrite decide_True by done. rewrite Z.add_0_r. by apply uwrap_small. Qed.
Lemma bump_diff {A} `{EqDecision A} c (a b : A) : a <> b -> bump c a b = uwrap 32 (c + 1).
Proof. intros N. unfold bump. by rewrite decide_False. Qed.
Lemma uint_bump {A} `{EqDecision A} c (a b : A) : uint 32 (bump c a b).
Proof. by apply uint_uwrap. Qed.

Lemma offset_event_bump sub o e ch e' ch' : uint 32 (offsetInRangeCount e) ->
  offset_event sub o (e, ch) = Some (e', ch') ->
  offsetInRangeCount e' = bump (offsetInRangeCount e) (offsetInRange e) (offsetInRange e') /\
  ch' = ch || negb (bool_decide (offsetInRange e = offsetInRange e')) /\
  gmClockUUID e' = gmClockUUID e /\ gmChangedCount e' = gmChangedCount e.
Proof.
  intros U. unfold offset_event. destruct (_ && _).
  - cbv zeta. destruct (inRange _ _) as [r|]; [|done]. cbn [mbind option_bind offsetInRange setClockOffset].
    case_bool_decide as D; intros [= <- <-]; cbn.
    + rewrite bump_same, bool_decide_eq_true_2 by done. by rewrite orb_false_r.
    + rewrite bump_diff, bool_decide_eq_false_2 by done. by rewrite orb_true_r.
  - intros [= <- <-]. rewrite bump_same, bool_decide_eq_true_2 by done. by rewrite orb_false_r.
Qed.
Lemma synced_event_bump mask v e ch : uint 32 (syncedWithGmCount e) ->
  let '(e', ch') := synced_event mask v (e, ch) in
  e' = mk_ptpev (ev e) (bump (syncedWithGmCount e) (syncedWithGm e) (syncedWithGm e'))
         (asCapableCount e) (compositeEventCount e) (syncedWithGm e') (asCapable e) (compositeEvent e) /\
  ch' = ch || negb (bool_decide (syncedWithGm e = syncedWithGm e')).
Proof.
  intros U. unfold synced_event. destruct (_ && _) eqn:B; cbn.
  - apply andb_prop in B as [_ B]. rewrite bump_diff, bool_decide_eq_false_2, orb_true_r
      by (intros E; rewrite E, eqb_reflx in B; done). done.
  - rewrite bump_same, bool_decide_eq_true_2, orb_false_r by done. by destruct e.
Qed.
Lemma as_event_bump mask v e ch : uint 32 (asCapableCount e) ->
  let '(e', ch') := as_event mask v (e, ch) in
  e' = mk_ptpev (ev e) (syncedWithGmCount e) (bump (asCapableCount e) (asCapable e) (asCapable e'))
         (compositeEventCount e) (syncedWithGm e) (asCapable e') (compositeEvent e) /\
  ch' = ch || negb (bool_decide (asCapable e = asCapable e')).
Proof.
  intros U. unfold as_event. destruct (_ && _) eqn:B; cbn.
  - apply andb_prop in B as [_ B]. rewrite bump_diff, bool_decide_eq_false_2, orb_true_r
      by (intros E; rewrite E, eqb_reflx in B; done). done.
  - rewrite bump_same, bool_decide_eq_true_2, orb_false_r by done. by destruct e.
Qed.
Lemma composite_event_bump mask e ch : uint 32 (compositeEventCount e) ->
  let '(e', ch') := composite_event mask (e, ch) in
  e' = mk_ptpev (ev e) (syncedWithGmCount e) (asCapableCount e)
         (bump (compositeEventCount e) (compositeEvent e) (compositeEvent e'))
         (syncedWithGm e) (asCapable e) (compositeEvent e') /\
  ch' = ch || negb (bool_decide (compositeEvent e = compositeEvent e')).
Proof.
  intros U. unfold composite_event. destruct (_ && _) eqn:B; cbn.
  - apply andb_prop in B as [_ B]. rewrite bump_diff, bool_decide_eq_false_2, orb_true_r
      by (intros E; rewrite E, eqb_reflx in B; done). done.
  - rewrite bump_same, bool_decide_eq_true_2, orb_false_r by done. by destruct e.
Qed.
Lemma gm_event_bump mask v e ch : uint 32 (gmChangedCount (ev e)) ->
  let '(e', ch') := gm_event mask v (e, ch) in
  e' = on_base (fun _ => ev e') e /\
  gmChangedCount (ev e') = bump (gmChangedCount (ev e)) (gmClockUUID (ev e)) (gmClockUUID (ev e')) /\
  offsetInRangeCount (ev e') = offsetInRangeCount (ev e) /\ offsetInRange (ev e') = offsetInRange (ev e) /\
  ch' = ch || negb (bool_decide (gmClockUUID (ev e) = gmClockUUID (ev e'))).
Proof.
  intros U. unfold gm_event. destruct (_ && _) eqn:B; cbn.
  - apply andb_prop in B as [_ B]. rewrite bump_diff, bool_decide_eq_false_2, orb_true_r
      by (intros E; rewrite E, Z.eqb_refl in B; done). done.
  - rewrite bump_same, bool_decide_eq_true_2, orb_false_r by done. by destruct e.
Qed.

Lemma bump_changes {A} `{EqDecision A} c (a b : A) : uwrap 32 (c + changes a [b]) = bump c a b.
Proof. unfold bump. cbn. by rewrite Z.add_0_r. Qed.
Lemma observed_eqb a b : bool_decide (a = b) =
  bool_decide (o_offset a = o_offset b) && bool_decide (o_synced a = o_synced b) &&
  bool_decide (o_gm a = o_gm b) && bool_decide (o_capable a = o_capable b) &&
  bool_decide (o_composite a = o_composite b) && bool_decide (o_sys a = o_sys b).
Proof.
  destruct a, b. cbn. apply eq_bool_prop_intro. rewrite !andb_True, !bool_decide_spec.
  split; [by intros [= -> -> -> -> -> ->]|by intros (((((-> & ->) & ->) & ->) & ->) & ->)].
Qed.
Lemma set_time_keeps now s : ptpEventState (set_time now s) = ptpEventState s /\
  sysEventState (set_time now s) = sysEventState s /\ event_changed (set_time now s) = event_changed s.
Proof. by destruct now. Qed.
Lemma ptp_update_counts now ne s s' : counts_ok (counts s) -> ptp_update now ne s = Some s' ->
  counts s' = add_changes (counts s) (observe s) [observe s'] /\
  event_changed s' = event_changed s || negb (bool_decide (observe s = observe s')).
Proof.
  intros (U1 & U2 & U3 & U4 & U5 & U6). unfold ptp_update. cbv zeta.
  destruct (set_time_keeps now s) as (-> & _ & ->). set (e := ptpEventState s) in *.
  destruct (offset_event _ _ _) as [[b ch]|] eqn:O; [|done]. cbn [mbind option_bind].
  apply offset_event_bump in O as (O1 & O2 & O3 & O4); [|done].
  set (e1 := on_base (fun _ => b) e).
  pose proof (synced_event_bump (eventMask (ptp_base (ptpEventSub (set_time now s)))) (pe_syncedWithGm ne) e1 ch U2) as S.
  destruct (synced_event _ _ (e1, ch)) as [e2 ch2]. destruct S as [S1 S2].
  pose proof (gm_event_bump (eventMask (ptp_base (ptpEventSub (set_time now s)))) (pe_gmClockUUID ne) e2 ch2) as G.
  destruct (gm_event _ _ (e2, ch2)) as [e3 ch3].
  destruct G as (G1 & G2 & G3 & G4 & G5); [rewrite S1; cbn; by rewrite O4|].
  pose proof (as_event_bump (eventMask (ptp_base (ptpEventSub (set_time now s)))) (pe_asCapable ne) e3 ch3) as A.
  destruct (as_event _ _ (e3, ch3)) as [e4 ch4]. destruct A as [A1 A2]; [by rewrite G1, S1|].
  pose proof (composite_event_bump (m_composite_event_mask (ptpEventSub (set_time now s))) e4 ch4) as C.
  destruct (composite_event _ (e4, ch4)) as [e5 ch5]. destruct C as [C1 C2]; [by rewrite A1, G1, S1|].
  intros [= <-]. destruct e2, e3, e4, e5. unfold e1, on_base in *. cbn in *.
  injection C1 as -> -> -> -> -> ->. injection A1 as -> -> -> -> -> ->. injection S1 as -> -> -> -> -> ->.
  injection G1 as -> -> -> -> -> ->. subst.
  unfold add_changes. cbn [map]. rewrite !bump_changes. unfold counts, observe. cbn.
  assert (sysEventState (set_time now s) = sysEventState s) as -> by (by destruct now).
  rewrite G2, G3, G4, O1, O3, O4, (bump_same _ _ U6). split; [done|]. rewrite observed_eqb. cbn.
  by rewrite (bool_decide_eq_true_2 (offsetInRange (sysEventState s) = _)), andb_true_r,
    !negb_andb, !orb_assoc.
Qed.

Lemma sys_update_counts now ne s s' : counts_ok (counts s) -> sys_update now ne s = Some s' ->
  counts s' = add_changes (counts s) (observe s) [observe s'] /\
  event_changed s' = event_changed s || negb (bool_decide (observe s = observe s')).
Proof.
  intros (U1 & U2 & U3 & U4 & U5 & U6). unfold sys_update. cbv zeta.
  destruct (set_time_keeps now s) as (_ & -> & ->).
  destruct (offset_event _ _ _) as [[b ch]|] eqn:O; [|done]. cbn [mbind option_bind].
  apply offset_event_bump in O as (O1 & O2 & _); [|done]. intros [= <-].
  unfold add_changes. cbn [map]. rewrite !bump_changes. unfold counts, observe. cbn.
  destruct (set_time_keeps now s) as (-> & _ & _).
  rewrite !bump_same, O1, O2 by done. split; [done|]. rewrite observed_eqb. cbn.
  by repeat match goal with
  | |- context [bool_decide (?x = ?x)] => rewrite (bool_decide_eq_true_2 (x = x)) by done
  end.
Qed.

(** *** A run of notifications *)

Inductive notification :=
| N_ptp (now : option timespec) (e : ptp_event)
| N_sys (now : option timespec) (e : chrony_event).
Definition notify (n : notification) (s : TimeBaseState) : option TimeBaseState :=
  match n with N_ptp now e => ptp_update now e s | N_sys now e => sys_update now e s end.
(** The states after each notification. *)
Fixpoint notify_all (l : list notification) (s : TimeBaseState) : option (list TimeBaseState) :=
  match l with
  | [] => Some []
  | n :: l => s ← notify n s; r ← notify_all l s; Some (s :: r)
  end.
Definition final (s : TimeBaseState) (tr : list TimeBaseState) : TimeBaseState := default s (last tr).

Lemma notify_counts n s s' : counts_ok (counts s) -> notify n s = Some s' ->
  counts s' = add_changes (counts s) (observe s) [observe s'] /\
  event_changed s' = event_changed s || negb (bool_decide (observe s = observe s')).
Proof. destruct n; [apply ptp_update_counts|apply sys_update_counts]. Qed.

Lemma add_changes_ok c o tr : counts_ok (add_changes c o tr).
Proof. repeat split; apply uint_uwrap; lia. Qed.
Lemma uwrap_add_l a b : uwrap 32 (uwrap 32 a + b) = uwrap 32 (a + b).
Proof. unfold uwrap. by rewrite Zplus_mod_idemp_l. Qed.
Lemma add_changes_cons c o o' tr :
  add_changes c o (o' :: tr) = add_changes (add_changes c o [o']) o' tr.
Proof. unfold add_changes. cbn. rewrite !uwrap_add_l. f_equal; f_equal; lia. Qed.
Lemma add_changes_nil c o : counts_ok c -> add_changes c o [] = c.
Proof.
  intros (U1 & U2 & U3 & U4 & U5 & U6). destruct c. unfold add_changes. cbn in *.
  rewrite !Z.add_0_r. by rewrite !uwrap_small.
Qed.

Lemma notify_all_counts l : forall s tr, counts_ok (counts s) -> notify_all l s = Some tr ->
  counts (final s tr) = add_changes (counts s) (observe s) (map observe tr) /\
  event_changed (final s tr) = event_changed s || negb (changes (observe s) (map observe tr) =? 0).
Proof.
  induction l as [|n l IH]; intros s tr U E; cbn in E.
  { injection E as <-. cbn. by rewrite add_changes_nil, orb_false_r. }
  destruct (notify n s) as [s1|] eqn:N; [|done]. cbn in E. destruct (notify_all l s1) as [r|] eqn:R; [|done].
  injection E as <-. destruct (notify_counts n s s1 U N) as [C1 H1].
  destruct (IH s1 r) as [C2 H2]; [rewrite C1; apply add_changes_ok|done|].
  assert (final s (s1 :: r) = final s1 r) as -> by (unfold final; rewrite last_cons; by destruct (last r)).
  cbn [map]. rewrite add_changes_cons, C2, C1, H2, H1. split; [done|].
  cbn [changes]. pose proof (changes_nonneg (map observe r) (observe s1)). rewrite <- orb_assoc. f_equal.
  case_bool_decide; [rewrite decide_True by done|rewrite decide_False by done]; cbn; [done|]. lia.
Qed.

(** *** Thresholds *)

(** Thresholds that an [int32_t] holds: the others become negative. *)
Definition thresholds_ok (s : TimeBaseState) : Prop :=
  0 <= clockOffsetThreshold (ptp_base (ptpEventSub s)) < 2 ^ 31 /\
  0 <= clockOffsetThreshold (sysEventSub s) < 2 ^ 31.

Lemma inRange_ok t o : 0 <= t < 2 ^ 31 -> inRange t o = Some (bool_decide (- t <= o <= t)).
Proof. intros T. apply inRange_some; unfold uint; lia. Qed.
Lemma offset_event_ok sub o e ch : 0 <= clockOffsetThreshold sub < 2 ^ 31 ->
  exists e' ch', offset_event sub o (e, ch) = Some (e', ch').
Proof.
  intros T. unfold offset_event. destruct (_ && _); [|eauto]. cbv zeta.
  rewrite inRange_ok by done. cbn [mbind option_bind]. case_bool_decide; eauto.
Qed.
Lemma notify_ok n s : thresholds_ok s -> exists s', notify n s = Some s' /\
  ptpEventSub s' = ptpEventSub s /\ sysEventSub s' = sysEventSub s.
Proof.
  intros [T1 T2]. assert (forall t, ptpEventSub (set_time t s) = ptpEventSub s /\
    sysEventSub (set_time t s) = sysEventSub s) as K by (by intros []).
  destruct n as [now e|now e]; cbn [notify]; unfold ptp_update, sys_update; cbv zeta;
    destruct (K now) as [K1 K2]; rewrite ?K1, ?K2; edestruct offset_event_ok as (b & ch & ->); try done;
    cbn [mbind option_bind]; [|by eexists].
  destruct (composite_event _ _) as [e' ch']. by eexists.
Qed.
Lemma notify_all_ok l : forall s, thresholds_ok s -> exists tr, notify_all l s = Some tr.
Proof.
  induction l as [|n l IH]; intros s T; cbn; [eauto|]. destruct (notify_ok n s T) as (s' & -> & E1 & E2).
  cbn. destruct (IH s') as [r ->]; [unfold thresholds_ok; by rewrite E1, E2|]. cbn. eauto.
Qed.

Lemma changes_zero {A} `{EqDecision A} (l : list A) : forall a,
  changes a l = 0 <-> Forall (fun b => b = a) l.
Proof.
  induction l as [|b l IH]; intros a; cbn; [by split|]. pose proof (changes_nonneg l b).
  destruct (decide (a = b)) as [->|N].
  - rewrite Z.add_0_l, IH, Forall_cons. tauto.
  - split; [lia|]. rewrite Forall_cons. intros [-> _]. done.
Qed.


Definition sample_state : TimeBaseState :=
  mk_tbs true false ptpev_default event_default (mk_ptpsub (mk_sub 100 15) 7) (mk_sub 10 1)
    (mk_timespec 0 0) false false.
Definition sample_notifications : list notification :=
  [N_ptp (Some (mk_timespec 1 0)) (mk_ptp_event 50 7 125 true true);
   N_sys None (mk_chrony_event 11 1 1); N_ptp None (mk_ptp_event 500 7 125 true true);
   N_ptp (Some (mk_timespec 2 5)) (mk_ptp_event 20 8 125 true true)].

(** ** Flags *)

Lemma offset_flag sub o e ch : 0 <= clockOffsetThreshold sub < 2 ^ 31 ->
  exists e' ch', offset_event sub o (e, ch) = Some (e', ch') /\
    clockOffset e' = (if has (eventMask sub) EventOffsetInRange then o else clockOffset e) /\
    offsetInRange e' =
      (if has (eventMask sub) EventOffsetInRange && negb (o =? clockOffset e)
       then bool_decide (- clockOffsetThreshold sub <= o <= clockOffsetThreshold sub)
       else offsetInRange e) /\
    gmClockUUID e' = gmClockUUID e.
Proof.
  intros T. unfold offset_event. destruct (has _ _); cbn [andb]; [|by eexists _, _].
  destruct (Z.eqb_spec o (clockOffset e)) as [->|N]; cbn [negb]; [by eexists _, _|]. cbv zeta.
  rewrite inRange_ok by done. cbn [mbind option_bind]. case_bool_decide as D; by eexists _, _.
Qed.
(** The parts of a state that the other events leave alone. *)
Lemma synced_flag mask v s : let e := (synced_event mask v s).1 in
  syncedWithGm e = (if has mask EventSyncedWithGm then v else syncedWithGm s.1) /\
  ev e = ev s.1 /\ asCapable e = asCapable s.1 /\ compositeEvent e = compositeEvent s.1.
Proof.
  destruct s as [e ch]. unfold synced_event. destruct (has _ _); cbn [andb]; [|done].
  by destruct (eqb v (syncedWithGm e)) eqn:E; [apply eqb_prop in E|].
Qed.
Lemma as_flag mask v s : let e := (as_event mask v s).1 in
  asCapable e = (if has mask EventAsCapable then v else asCapable s.1) /\
  ev e = ev s.1 /\ syncedWithGm e = syncedWithGm s.1 /\ compositeEvent e = compositeEvent s.1.
Proof.
  destruct s as [e ch]. unfold as_event. destruct (has _ _); cbn [andb]; [|done].
  by destruct (eqb v (asCapable e)) eqn:E; [apply eqb_prop in E|].
Qed.
Lemma gm_flag mask v s : let e := (gm_event mask v s).1 in
  gmClockUUID (ev e) = (if has mask EventGmChanged then v else gmClockUUID (ev s.1)) /\
  clockOffset (ev e) = clockOffset (ev s.1) /\ offsetInRange (ev e) = offsetInRange (ev s.1) /\
  asCapable e = asCapable s.1 /\ syncedWithGm e = syncedWithGm s.1 /\ compositeEvent e = compositeEvent s.1.
Proof.
  destruct s as [e ch]. unfold gm_event. destruct (has _ _); cbn [andb]; [|done].
  by destruct (Z.eqb_spec (gmClockUUID (ev e)) v).
Qed.
Lemma composite_flag mask s : let e := (composite_event mask s).1 in
  compositeEvent e = (if mask =? 0 then compositeEvent s.1 else composite_met mask s.1) /\
  ev e = ev s.1 /\ asCapable e = asCapable s.1 /\ syncedWithGm e = syncedWithGm s.1.
Proof.
  destruct s as [e ch]. unfold composite_event. destruct (mask =? 0); cbn [andb negb]; [done|].
  by destruct (eqb _ _) eqn:E; [apply eqb_prop in E|].
Qed.

(** A notification of the PTP clock leaves the subscriptions as they are and
    makes the values of the subscribed events those of the notification: the
    state of synchronisation, of 802.1AS and the grandmaster are taken, a new
    offset is in range exactly when it is within the threshold on both sides, the
    composite event holds exactly when all its events hold; events that are not
    subscribed keep their values. *)
Theorem ptp_update_flags now ne s :
  thresholds_ok s ->
  exists s', ptp_update now ne s = Some s' /\ ptpEventSub s' = ptpEventSub s /\
    let mask := eventMask (ptp_base (ptpEventSub s)) in
    let t := clockOffsetThreshold (ptp_base (ptpEventSub s)) in
    let e := ptpEventState s in let e' := ptpEventState s' in
    syncedWithGm e' = (if has mask EventSyncedWithGm then pe_syncedWithGm ne else syncedWithGm e) /\
    asCapable e' = (if has mask EventAsCapable then pe_asCapable ne else asCapable e) /\
    gmClockUUID (ev e') = (if has mask EventGmChanged then pe_gmClockUUID ne else gmClockUUID (ev e)) /\
    clockOffset (ev e') = (if has mask EventOffsetInRange then pe_clockOffset ne else clockOffset (ev e)) /\
    offsetInRange (ev e') =
      (if has mask EventOffsetInRange && negb (pe_clockOffset ne =? clockOffset (ev e))
       then bool_decide (- t <= pe_clockOffset ne <= t) else offsetInRange (ev e)) /\
    compositeEvent e' = (if m_composite_event_mask (ptpEventSub s) =? 0 then compositeEvent e
                         else composite_met (m_composite_event_mask (ptpEventSub s)) e') /\
    havePtPData s' = true /\ sysEventState s' = sysEventState s.
Proof.
  intros [T _]. unfold ptp_update. cbv zeta.
  assert (ptpEventSub (set_time now s) = ptpEventSub s) as -> by (by destruct now).
  destruct (set_time_keeps now s) as (-> & Es & ->).
  destruct (offset_flag (ptp_base (ptpEventSub s)) (pe_clockOffset ne) (ev (ptpEventState s)) (event_changed s) T)
    as (b & ch & -> & Ob & Rb & Gb). cbn [mbind option_bind].
  set (s1 := (on_base (fun _ => b) (ptpEventState s), ch)).
  set (s2 := synced_event _ _ s1). set (s3 := gm_event _ _ s2). set (s4 := as_event _ _ s3).
  destruct (synced_flag (eventMask (ptp_base (ptpEventSub s))) (pe_syncedWithGm ne) s1) as (S1 & S2 & S3 & S4).
  destruct (gm_flag (eventMask (ptp_base (ptpEventSub s))) (pe_gmClockUUID ne) s2) as (G1 & G2 & G3 & G4 & G5 & G6).
  destruct (as_flag (eventMask (ptp_base (ptpEventSub s))) (pe_asCapable ne) s3) as (A1 & A2 & A3 & A4).
  destruct (composite_flag (m_composite_event_mask (ptpEventSub s)) s4) as (C1 & C2 & C3 & C4).
  destruct (composite_event _ s4) as [e5 ch5]. change (synced_event _ _ s1) with s2 in S1, S2, S3, S4.
  change (gm_event _ _ s2) with s3 in G1, G2, G3, G4, G5, G6. change (as_event _ _ s3) with s4 in A1, A2, A3, A4.
  cbn [fst] in *.
  eexists. split; [done|]. split; [by destruct now|]. cbn.
  rewrite C2, C3, C4, A1, A2, A3, G1, G2, G3, G4, G5, S1, S2, S3. cbn. rewrite Ob, Rb, Gb.
  repeat split; try done. rewrite C1, A4, G6, S4. cbn. destruct (_ =? 0); [done|].
  unfold composite_met. cbn. by rewrite C2, C3, C4, A1, A2, A3.
Qed.

Lemma ptp_update_flags_witness :
  exists s', ptp_update None (mk_ptp_event 50 7 125 true true) sample_state = Some s' /\
    offsetInRange (ev (ptpEventState s')) = true /\ compositeEvent (ptpEventState s') = true.
Proof.
  destruct (ptp_update_flags None (mk_ptp_event 50 7 125 true true) sample_state)
    as (s' & E & _ & _ & _ & _ & _ & O & C & _); [by vm_compute|].
  exists s'. split; [exact E|]. split; [exact O|]. vm_compute in E. by injection E as <-.
Defined.

(** A threshold above the range of [int32_t] becomes negative: no offset is in
    range, not even zero. *)
Lemma large_threshold t o : 2 ^ 31 < t < 2 ^ 32 -> inRange t o = Some false.
Proof.
  intros T. unfold inRange, swrap. rewrite uwrap_small by (unfold uint; lia).
  destruct (Z.ltb_spec t (2 ^ (32 - 1))) as [H|H]; [change (2 ^ (32 - 1)) with (2 ^ 31) in H; lia|].
  destruct (Z.eqb_spec (t - 2 ^ 32) (- 2 ^ 31)); [lia|]. f_equal. lia.
Qed.
(** The offset counts as in range until an event of it is subscribed: a composite
    event with the offset is met with any offset. *)
Lemma composite_any_offset :
  exists s', ptp_update None (mk_ptp_event 100000 7 125 true true)
    (mk_tbs true false ptpev_default event_default (mk_ptpsub (mk_sub 100 6) 7) (mk_sub 0 0)
      (mk_timespec 0 0) false false) = Some s' /\ compositeEvent (ptpEventState s') = true.
Proof. eexists. split; [by vm_compute|]. done. Qed.
(** A composite event needs its events to be subscribed as well. *)
Lemma composite_alone :
  exists s', ptp_update None (mk_ptp_event 50 7 125 true true)
    (mk_tbs true false ptpev_default event_default (mk_ptpsub (mk_sub 100 0) 7) (mk_sub 0 0)
      (mk_timespec 0 0) false false) = Some s' /\ compositeEvent (ptpEventState s') = false.
Proof. eexists. split; [by vm_compute|]. done. Qed.
