(* ===== verification/ClkConfig.v ===== *)
(** * ClkConfig.v: the time bases of the clock manager

    The proxy of the clock manager reads its time bases from a JSON file
    ([JsonConfigParser::process_json] of [src/clkmgr/proxy/config_parser.cpp]),
    with the parser of Json.v; the client library keeps those that the proxy sends
    ([TimeBaseConfigurations] of [src/clkmgr/client/timebase_configs.cpp]).  The
    result [None] is the use of a null pointer. *)

From Stdlib Require Import Sorted.
From S2P Require Import Prelude CStr Cfg Json JsonVal.

(** ** [std::map] with integer keys

    The clock manager keeps its sessions, its time bases and its subscribers in
    [std::map]s and goes through them in the order of the keys.  A map is the list
    of its elements in that order. *)

Section Maps.
Context {A : Type}.
Implicit Types (m : list (Z * A)) (k : Z) (v : A).

(** [find] and [count], [operator[]] on the left of an assignment, [erase]. *)
Fixpoint get k m : option A :=
  match m with
  | [] => None
  | (k', v) :: r => if k =? k' then Some v else get k r
  end.
Definition mem k m : bool := match get k m with Some _ => true | None => false end.
Fixpoint set k v m : list (Z * A) :=
  match m with
  | [] => [(k, v)]
  | (k', v') :: r => if k <? k' then (k, v) :: m else if k =? k' then (k, v) :: r else (k', v') :: set k v r
  end.
Fixpoint erase k m : list (Z * A) :=
  match m with
  | [] => []
  | (k', v) :: r => if k =? k' then r else (k', v) :: erase k r
  end.
Definition keys m : list Z := map fst m.

(** The keys are strictly increasing. *)
Definition ordered m : Prop := StronglySorted (fun a b => a.1 < b.1) m.

Lemma get_set_key k v m k' : ordered m -> get k' (set k v m) = if k' =? k then Some v else get k' m.
Proof.
  induction 1 as [|[j w] r O IH F]; [done|]. cbn [set].
  destruct (Z.ltb_spec k j); [done|]. destruct (Z.eqb_spec k j) as [->|].
  - cbn. by destruct (k' =? j).
  - cbn. rewrite IH. destruct (Z.eqb_spec k' j), (Z.eqb_spec k' k); try done. lia.
Qed.
Lemma get_above k m : Forall (fun a => k < a.1) m -> get k m = None.
Proof.
  induction 1 as [|[j w] r H F IH]; [done|]. cbn in *. destruct (Z.eqb_spec k j); [lia|done].
Qed.
Lemma get_erase k m k' : ordered m -> get k' (erase k m) = if k' =? k then None else get k' m.
Proof.
  induction 1 as [|[j w] r O IH F]; [by destruct (_ =? _)|]. cbn [erase].
  destruct (Z.eqb_spec k j) as [->|].
  - cbn. destruct (Z.eqb_spec k' j) as [->|]; [by apply get_above|done].
  - cbn. rewrite IH. destruct (Z.eqb_spec k' j), (Z.eqb_spec k' k); try done. lia.
Qed.
Lemma get_In k m v : get k m = Some v -> (k, v) ∈ m.
Proof.
  induction m as [|[j w] r IH]; [done|]. cbn. destruct (Z.eqb_spec k j) as [->|].
  - intros [= ->]. apply list_elem_of_here.
  - intros G. apply list_elem_of_further. auto.
Qed.
Lemma In_get k v m : ordered m -> (k, v) ∈ m -> get k m = Some v.
Proof.
  induction 1 as [|[j w] r O IH F]; intros I; [by apply not_elem_of_nil in I|].
  apply elem_of_cons in I as [[= -> ->]|I]; cbn; [by rewrite Z.eqb_refl|].
  rewrite Forall_forall in F. specialize (F _ I). cbn in F. destruct (Z.eqb_spec k j); [lia|auto].
Qed.
Lemma get_Forall (Q : Z * A -> Prop) m k v : Forall Q m -> get k m = Some v -> Q (k, v).
Proof. intros F G. apply get_In in G. rewrite Forall_forall in F. by apply F. Qed.
Lemma mem_keys k m : mem k m = true <-> k ∈ keys m.
Proof.
  unfold mem, keys. induction m as [|[j w] r IH]; cbn; [by rewrite elem_of_nil|].
  rewrite elem_of_cons. destruct (Z.eqb_spec k j) as [->|N]; [by split; [left|]|].
  rewrite IH. tauto.
Qed.

Lemma Forall_set (Q : Z * A -> Prop) k v m : Q (k, v) -> Forall Q m -> Forall Q (set k v m).
Proof.
  intros H F. induction F as [|[j w] r Hj F IH]; [by repeat constructor|]. cbn.
  destruct (k <? j); [by repeat constructor|]. by destruct (k =? j); repeat constructor.
Qed.
Lemma Forall_erase (Q : Z * A -> Prop) k m : Forall Q m -> Forall Q (erase k m).
Proof. induction 1 as [|[j w] r Hj F IH]; [done|]. cbn. destruct (k =? j); [done|by constructor]. Qed.
Lemma ordered_set k v m : ordered m -> ordered (set k v m).
Proof.
  induction 1 as [|[j w] r O IH F]; [by repeat constructor|]. cbn.
  destruct (Z.ltb_spec k j).
  - constructor; [by constructor|]. constructor; [done|]. eapply Forall_impl; [exact F|]. cbn. lia.
  - destruct (Z.eqb_spec k j) as [->|]; [by constructor|]. constructor; [done|].
    apply Forall_set; [cbn; lia|done].
Qed.
Lemma ordered_erase k m : ordered m -> ordered (erase k m).
Proof.
  induction 1 as [|[j w] r O IH F]; [constructor|]. cbn. destruct (k =? j); [done|].
  constructor; [done|by apply Forall_erase].
Qed.
Lemma length_set k v m : (length (set k v m) <= S (length m))%nat.
Proof. induction m as [|[j w] r IH]; [done|]. cbn. destruct (k <? j); [done|]. destruct (k =? j); cbn; lia. Qed.
Lemma keys_NoDup m : ordered m -> NoDup (keys m).
Proof.
  induction 1 as [|[j w] r O IH F]; [constructor|]. cbn. constructor; [|done].
  unfold keys. rewrite list_elem_of_fmap. intros ([j' w'] & -> & I). rewrite Forall_forall in F.
  specialize (F _ I). cbn in F. lia.
Qed.
End Maps.

(** Maps with the same keys. *)
Lemma keys_map {A B} (f : Z * A -> B) (l : list (Z * A)) : keys (map (fun it => (it.1, f it)) l) = keys l.
Proof. induction l as [|[j a] l IH]; [done|]. cbn. by f_equal. Qed.
Lemma mem_map {A B} (f : Z * A -> B) k (l : list (Z * A)) :
  mem k (map (fun it => (it.1, f it)) l) = mem k l.
Proof.
  unfold mem. induction l as [|[j a] l IH]; [done|]. cbn. by destruct (k =? j).
Qed.
Lemma mem_same_keys {A B} (l : list (Z * A)) (l' : list (Z * B)) k : keys l = keys l' -> mem k l = mem k l'.
Proof.
  intros E. destruct (mem k l) eqn:M; symmetry.
  - apply mem_keys. rewrite <- E. by apply mem_keys.
  - apply not_true_iff_false. intros M'. apply mem_keys in M'. rewrite <- E in M'. apply mem_keys in M'. congruence.
Qed.
Lemma ordered_same_keys {A B} (l : list (Z * A)) (l' : list (Z * B)) : keys l = keys l' -> ordered l -> ordered l'.
Proof.
  intros E O. revert l' E. induction O as [|[k a] l O IH F]; intros [|[k' b] l'] E; try done; [constructor|].
  injection E as -> E. constructor; [by apply IH|]. change (Forall (fun b => k' < b.1) l').
  assert (Forall (fun k => k' < k) (map fst l)) as Fk by (apply Forall_map; exact F).
  change (map fst l) with (keys l) in Fk. rewrite E in Fk. unfold keys in Fk. by rewrite Forall_map in Fk.
Qed.
#[global] Hint Resolve ordered_set ordered_erase : core.

(** ** The configuration of a time base *)

Definition STRING_SIZE_MAX : nat := 64.

(** The two names are arrays of [STRING_SIZE_MAX] characters. *)
Record TimeBaseCfg := mk_cfg {
  timeBaseIndex : Z;
  timeBaseName : list byte;
  interfaceName : list byte;
  transportSpecific : Z;
  domainNumber : Z;
  haveSys : bool;
  havePtp : bool
}.
Record TimeBaseCfgFull := mk_cfg_full { base : TimeBaseCfg; udsAddrChrony : list byte; udsAddrPtp4l : list byte }.

(** ** Reading the file *)

(** [jsonValue::getStr]: the text of strings and numbers. *)
Definition json_getStr (j : json) : list byte :=
  match j with J_string v => v | J_number v _ _ => v | _ => [] end.

Definition get_Int_Val (obj : list (list byte * json)) (key : list byte) (defaultVal : option Z) : option Z :=
  match obj_getVal key obj with
  | None => defaultVal
  | Some val =>
      let '(ok, i) := getInt64 val 0 false in
      if negb ok || negb (bool_decide (getType val = t_number)) || (i <? 0) || (255 <? i) then None
      else Some i
  end.
Definition get_Str_Val (obj : list (list byte * json)) (key : list byte) (defaultVal : option (list byte))
    : option (list byte) :=
  match obj_getVal key obj with
  | None => defaultVal
  | Some val =>
      let res := json_getStr val in
      if negb (bool_decide (getType val = t_string)) || bool_decide (res = []) then None else Some res
  end.
(** [strncpy] to an array of zeros, up to its last character. *)
Definition name_array (s : list byte) : list byte :=
  let t := take (STRING_SIZE_MAX - 1) (cstr s) in t ++ repeat x00 (STRING_SIZE_MAX - length t).
Definition get_Name_Val (obj : list (list byte * json)) (key : list byte) (defaultVal : option (list byte))
    : option (list byte) :=
  r ← get_Str_Val obj key defaultVal;
  if (STRING_SIZE_MAX <=? length r)%nat then None else Some (name_array r).

Definition defaultUdsPtp4l : list byte := bytes "/var/run/ptp/ptp4l".
Definition defaultUdsChrony : list byte := bytes "/var/run/chrony/chronyd.sock".
Definition no_name : list byte := repeat x00 STRING_SIZE_MAX.

(** The row of one element of the array. *)
Definition process_row (currentIndex : Z) (it : json) : option TimeBaseCfgFull :=
  timeBaseObj ← getObj it;
  name ← get_Name_Val timeBaseObj (bytes "timeBaseName") None;
  '(iface, uds, domain, transport, have) ←
     match obj_getObj (bytes "ptp4l") timeBaseObj with
     | None => Some (no_name, [], 0, 0, false)
     | Some o =>
         iface ← get_Name_Val o (bytes "interfaceName") None;
         uds ← get_Str_Val o (bytes "udsAddr") (Some defaultUdsPtp4l);
         domain ← get_Int_Val o (bytes "domainNumber") (Some 0);
         transport ← get_Int_Val o (bytes "transportSpecific") (Some 0);
         Some (iface, uds, domain, transport, true)
     end;
  '(udsC, sys) ←
     match obj_getObj (bytes "chrony") timeBaseObj with
     | None => Some ([], false)
     | Some o => uds ← get_Str_Val o (bytes "udsAddr") (Some defaultUdsChrony); Some (uds, true)
     end;
  Some (mk_cfg_full (mk_cfg currentIndex name iface transport domain sys have) udsC uds).

(** The loop: a failure keeps the rows before it. *)
Fixpoint process_rows (currentIndex : Z) (l : list json) (timeBaseCfgs : list TimeBaseCfgFull)
    : bool * list TimeBaseCfgFull :=
  match l with
  | [] => (true, timeBaseCfgs)
  | it :: l =>
      match process_row currentIndex it with
      | None => (false, timeBaseCfgs)
      | Some row => process_rows (uwrap 64 (currentIndex + 1)) l (timeBaseCfgs ++ [row])
      end
  end.

Definition process_json (content : option (list byte)) : option (bool * list TimeBaseCfgFull) :=
  '(ok, main) ← parseFile None content true;
  if negb ok then Some (false, [])
  else
    obj ← (main ← main; getObj main);
    Some (match obj_getArr (bytes "timeBases") obj with
          | None => (false, [])
          | Some timeBaseArray => process_rows 1 timeBaseArray []
          end).

(** ** The client side *)

Record PTPCfg := mk_ptpcfg {
  m_ifName : list byte; m_transportSpecific : Z; m_domainNumber : Z; m_ifIndex : Z; m_ptpIndex : Z
}.
Record TimeBaseRecord := mk_record {
  m_index : Z; m_name : list byte; m_ptp : PTPCfg; m_have_ptp : bool; m_have_sys : bool
}.
Definition PTPCfg_default : PTPCfg := mk_ptpcfg [] 1 0 (-1) (-1).
Definition TimeBaseConfigurations : Type := list (Z * TimeBaseRecord).

Definition setPtp (ptp : PTPCfg) (r : TimeBaseRecord) : TimeBaseRecord :=
  mk_record (m_index r) (m_name r) ptp true (m_have_sys r).
Definition addTimeBaseCfg (cfg : TimeBaseCfg) (m : TimeBaseConfigurations) : TimeBaseConfigurations :=
  let r := mk_record (timeBaseIndex cfg) (cstr (timeBaseName cfg)) PTPCfg_default false false in
  let r := if bool_decide (head (interfaceName cfg) = Some x00) then r
           else setPtp (mk_ptpcfg (cstr (interfaceName cfg)) (transportSpecific cfg) (domainNumber cfg) (-1) (-1)) r in
  let r := mk_record (m_index r) (m_name r) (m_ptp r) (havePtp cfg || m_have_ptp r) (haveSys cfg || m_have_sys r) in
  set (timeBaseIndex cfg) r m.
Definition isTimeBaseIndexPresent (i : Z) (m : TimeBaseConfigurations) : bool := mem i m.
Definition dummy_record : TimeBaseRecord := mk_record 0 [] PTPCfg_default false false.
Definition getRecord (i : Z) (m : TimeBaseConfigurations) : TimeBaseRecord := default dummy_record (get i m).
Fixpoint BaseNameToBaseIndex (name : list byte) (m : TimeBaseConfigurations) : option Z :=
  match m with
  | [] => None
  | (i, r) :: m => if bool_decide (m_name r = name) then Some i else BaseNameToBaseIndex name m
  end.

(** The C interface: the defaults are for an index that is not there, or without
    PTP. *)
Definition getPtp {A} (f : PTPCfg -> A) (d : A) (i : Z) (m : TimeBaseConfigurations) : A :=
  if isTimeBaseIndexPresent i m then
    let r := getRecord i m in if m_have_ptp r then f (m_ptp r) else d
  else d.
Definition clkmgr_ifName : Z -> TimeBaseConfigurations -> option (list byte) :=
  getPtp (fun p => Some (m_ifName p)) None.
Definition clkmgr_ifIndex : Z -> TimeBaseConfigurations -> Z := getPtp m_ifIndex (-1).
Definition clkmgr_ptpIndex : Z -> TimeBaseConfigurations -> Z := getPtp m_ptpIndex (-1).
Definition clkmgr_transportSpecific : Z -> TimeBaseConfigurations -> Z := getPtp m_transportSpecific 1.
Definition clkmgr_domainNumber : Z -> TimeBaseConfigurations -> Z := getPtp m_domainNumber 0.
Definition clkmgr_timeBaseName (i : Z) (m : TimeBaseConfigurations) : option (list byte) :=
  if isTimeBaseIndexPresent i m then Some (m_name (getRecord i m)) else None.
Definition clkmgr_havePtp (i : Z) (m : TimeBaseConfigurations) : bool :=
  if isTimeBaseIndexPresent i m then m_have_ptp (getRecord i m) else false.
Definition clkmgr_haveSysClock (i : Z) (m : TimeBaseConfigurations) : bool :=
  if isTimeBaseIndexPresent i m then m_have_sys (getRecord i m) else false.

(** ** What the file gives *)

(** A name in its array: at most 63 characters and the NULs after them. *)
Definition name_ok (a : list byte) : Prop :=
  length a = STRING_SIZE_MAX /\ exists s, Forall (fun c => c <> x00) s /\ (length s < STRING_SIZE_MAX)%nat /\
    a = s ++ repeat x00 (STRING_SIZE_MAX - length s).
Definition cfg_ok (c : TimeBaseCfg) : Prop :=
  name_ok (timeBaseName c) /\ name_ok (interfaceName c) /\
  0 <= transportSpecific c <= 255 /\ 0 <= domainNumber c <= 255 /\
  (havePtp c = false -> interfaceName c = no_name /\ transportSpecific c = 0 /\ domainNumber c = 0).
Definition row_ok (r : TimeBaseCfgFull) : Prop :=
  cfg_ok (base r) /\ (havePtp (base r) = true <-> udsAddrPtp4l r <> []) /\
  (haveSys (base r) = true <-> udsAddrChrony r <> []).

Lemma cstr_chars s : Forall (fun c => c <> x00) (cstr s).
Proof.
  induction s as [|c s IH]; [constructor|]. cbn. case_bool_decide; by constructor.
Qed.
Lemma name_array_ok s : name_ok (name_array s).
Proof.
  unfold name_ok, name_array. set (t := take _ _).
  assert (length t <= STRING_SIZE_MAX - 1)%nat as L by (subst t; rewrite length_take; apply Nat.le_min_l).
  unfold STRING_SIZE_MAX in *. split.
  - rewrite length_app, repeat_length. lia.
  - exists t. split; [apply Forall_take, cstr_chars|]. split; [lia|done].
Qed.
Lemma no_name_ok : name_ok no_name.
Proof. split; [done|]. exists []. split; [constructor|]. split; [unfold STRING_SIZE_MAX; cbn; lia|done]. Qed.
Lemma get_Str_Val_some o k d s : get_Str_Val o k d = Some s -> d = Some s \/ s <> [].
Proof.
  unfold get_Str_Val. destruct (obj_getVal k o) as [v|]; [|by left].
  destruct (_ || bool_decide (json_getStr v = [])) eqn:B; [done|]. intros [= <-]. right.
  apply orb_false_elim in B as [_ B]. by apply bool_decide_eq_false in B.
Qed.
Lemma get_Name_Val_some o k s : get_Name_Val o k None = Some s -> name_ok s.
Proof.
  unfold get_Name_Val. destruct (get_Str_Val o k None) as [r|]; [|done]. cbn [mbind option_bind].
  destruct (STRING_SIZE_MAX <=? length r)%nat; [done|]. intros [= <-]. apply name_array_ok.
Qed.
Lemma get_Int_Val_some o k i : get_Int_Val o k (Some 0) = Some i -> 0 <= i <= 255.
Proof.
  unfold get_Int_Val. destruct (obj_getVal k o) as [v|]; [|intros [= <-]; lia].
  destruct (getInt64 v 0 false) as [ok n]. destruct (_ || (255 <? n)) eqn:B; [done|].
  intros [= <-]. lia.
Qed.

Lemma process_row_ok i it row : process_row i it = Some row -> row_ok row /\ timeBaseIndex (base row) = i.
Proof.
  unfold process_row. destruct (getObj it) as [o|]; [|done]. cbn [mbind option_bind].
  destruct (get_Name_Val o _ None) as [name|] eqn:N; [|done]. cbn [mbind option_bind].
  apply get_Name_Val_some in N.
  destruct (match obj_getObj (bytes "ptp4l") o with Some _ => _ | None => _ end)
    as [[[[[iface uds] domain] transport] have]|] eqn:Pt; [|done]. cbn [mbind option_bind].
  destruct (match obj_getObj (bytes "chrony") o with Some _ => _ | None => _ end)
    as [[udsC sys]|] eqn:Ch; [|done]. cbn [mbind option_bind]. intros [= <-]. split; [|done].
  assert (sys = true <-> udsC <> []) as S.
  { destruct (obj_getObj (bytes "chrony") o) as [c|]; [|by simplify_eq].
    destruct (get_Str_Val c _ _) as [u|] eqn:U; [|done]. cbn in Ch. simplify_eq.
    apply get_Str_Val_some in U as [[= <-]|U]; done. }
  assert (name_ok iface /\ 0 <= transport <= 255 /\ 0 <= domain <= 255 /\ (have = true <-> uds <> []) /\
    (have = false -> iface = no_name /\ transport = 0 /\ domain = 0)) as (? & ? & ? & ? & ?).
  { destruct (obj_getObj (bytes "ptp4l") o) as [c|];
      [|simplify_eq; split; [apply no_name_ok|]; split; [lia|]; split; [lia|]; by split].
    destruct (get_Name_Val c _ None) as [n|] eqn:I; [|done]. cbn [mbind option_bind] in Pt.
    destruct (get_Str_Val c _ _) as [u|] eqn:U; [|done]. cbn [mbind option_bind] in Pt.
    destruct (get_Int_Val c (bytes "domainNumber") _) as [dn|] eqn:Dn; [|done]. cbn [mbind option_bind] in Pt.
    destruct (get_Int_Val c (bytes "transportSpecific") _) as [tr|] eqn:Tr; [|done]. cbn in Pt. simplify_eq.
    split; [by eapply get_Name_Val_some|]. split; [by eapply get_Int_Val_some|].
    split; [by eapply get_Int_Val_some|]. split; [|done].
    apply get_Str_Val_some in U as [[= <-]|U]; done. }
  unfold row_ok, cfg_ok. cbn -[no_name]. split_and!; done || lia.
Qed.
Lemma process_rows_ok l : forall i acc ok rows, process_rows i l acc = (ok, rows) ->
  exists more, rows = acc ++ more /\ Forall row_ok more /\ (length more <= length l)%nat /\
    (ok = true -> length more = length l) /\
    forall k r, more !! k = Some r -> 0 <= i -> timeBaseIndex (base r) = if decide (k = 0%nat) then i else uwrap 64 (i + Z.of_nat k).
Proof.
  induction l as [|it l IH]; intros i acc ok rows E; cbn in E.
  { simplify_eq. exists []. rewrite app_nil_r. by repeat split. }
  destruct (process_row i it) as [row|] eqn:R; [|simplify_eq; exists []; rewrite app_nil_r; split_and!; try done; cbn; lia].
  apply process_row_ok in R as [Ro Ri].
  apply IH in E as (more & -> & F & L & K & Ix). exists (row :: more). rewrite <- app_assoc.
  split; [done|]. split; [by constructor|]. cbn. split; [lia|]. split; [intros H; by rewrite K|].
  intros [|k] r; cbn; [by intros [= <-]|]. intros Hr H0. rewrite (Ix k r Hr) by (by apply uint_uwrap).
  destruct (decide (k = 0%nat)) as [->|].
  - done.
  - unfold uwrap. rewrite Zplus_mod_idemp_l. f_equal. lia.
Qed.

(** The time bases that [process_json] reads from any file, also before it
    fails, are numbered from 1 in the order of the file, and each is well formed:
    names fit in their arrays with a NUL at the end, the numbers of ptp4l fit in
    an octet, and there is the address of a service exactly when its flag is
    set. *)
Theorem process_json_rows content ok rows :
  process_json content = Some (ok, rows) ->
  Forall row_ok rows /\
  forall k r, rows !! k = Some r -> timeBaseIndex (base r) = uwrap 64 (1 + Z.of_nat k).
Proof.
  unfold process_json. destruct (parseFile None content true) as [[b main]|]; [|done].
  cbn [mbind option_bind]. destruct b; cbn [negb]; [|by intros [= <- <-]].
  destruct (main ≫= getObj) as [o|]; [|done]. cbn [mbind option_bind].
  destruct (obj_getArr (bytes "timeBases") o) as [l|]; [|by intros [= <- <-]].
  intros [= E]. apply process_rows_ok in E as (more & -> & F & _ & _ & Ix). split; [done|].
  intros k r Hr. rewrite (Ix k r Hr) by done. by destruct (decide (k = 0%nat)) as [->|].
Qed.

Definition quoted (s : list byte) : list byte := [QUOTE] ++ s ++ [QUOTE].
(** Two time bases, with a comment. *)
Definition sample_cfg_file : list byte :=
  bytes "{ // clocks" ++ [LF] ++ quoted (bytes "timeBases") ++ bytes ": [ {" ++ quoted (bytes "timeBaseName") ++
  bytes ":" ++ quoted (bytes "G") ++ bytes ", " ++ quoted (bytes "ptp4l") ++ bytes ": {" ++
  quoted (bytes "interfaceName") ++ bytes ":" ++ quoted (bytes "eth0") ++ bytes "," ++
  quoted (bytes "domainNumber") ++ bytes ": 5 } }, {" ++ quoted (bytes "timeBaseName") ++ bytes ":" ++
  quoted (bytes "S") ++ bytes "," ++ quoted (bytes "chrony") ++ bytes ": {} } ] }".
Definition sample_rows : list TimeBaseCfgFull :=
  [mk_cfg_full (mk_cfg 1 (name_array (bytes "G")) (name_array (bytes "eth0")) 0 5 false true)
     [] defaultUdsPtp4l;
   mk_cfg_full (mk_cfg 2 (name_array (bytes "S")) no_name 0 0 true false) defaultUdsChrony []].
Lemma process_json_rows_witness :
  process_json (Some sample_cfg_file) = Some (true, sample_rows) /\ Forall row_ok sample_rows.
Proof.
  assert (process_json (Some sample_cfg_file) = Some (true, sample_rows)) as E by (by vm_compute).
  split; [exact E|]. exact (proj1 (process_json_rows _ _ _ E)).
Defined.

(** An empty file, or one whose value is not an object, makes [process_json] use a
    null pointer. *)
Lemma process_json_null : process_json (Some (bytes " ")) = None /\ process_json (Some (bytes "[]")) = None.
Proof. split; by vm_compute. Qed.
(** Names need not differ: the first time base is found by the name of both. *)
Lemma same_names :
  BaseNameToBaseIndex (bytes "G")
    (addTimeBaseCfg (mk_cfg 2 (name_array (bytes "G")) no_name 0 0 true false)
      (addTimeBaseCfg (mk_cfg 1 (name_array (bytes "G")) no_name 0 0 true false) [])) = Some 1.
Proof. by vm_compute. Qed.
