(* ===== verification/ClkMsg.v ===== *)
(** * ClkMsg.v: the messages between the proxy and the clients

    The proxy and the clients of the clock manager exchange messages through
    queues.  A message is built and parsed in a [Buffer] of 8192 octets, field by
    field in the order of the host ([src/clkmgr/common/msgq_tport.hpp],
    [serialize.hpp], [message.cpp] and the [_msg] files); handlers of received
    messages change the state of their process, [St] here.  A program of the monad
    [Io] returns a value, or fails ([None] inside, the C++ [false]), or accesses an
    octet outside of the buffer or does what C++ leaves undefined ([None] outside).

    The padding of structures has no specified value: it is the parameter
    [Padding]. *)

From S2P Require Import Prelude Types ClkEvent ClkConfig.

(** ** The buffer *)

Definition MAX_BUFFER_LENGTH : nat := Z.to_nat 8192.
Record Buffer := mk_Buffer { m_offset : nat; m_rcvSize : nat; m_buffer : list byte }.

Definition setLen (n : nat) (b : Buffer) : Buffer := mk_Buffer 0 n (m_buffer b).
Definition resetOffset (b : Buffer) : Buffer := mk_Buffer 0 (m_rcvSize b) (m_buffer b).
Definition addOffset (n : nat) (b : Buffer) : Buffer := mk_Buffer (m_offset b + n) (m_rcvSize b) (m_buffer b).
(** Differences of [size_t]. *)
Definition sizeLeft (b : Buffer) : Z := uwrap 64 (Z.of_nat MAX_BUFFER_LENGTH - Z.of_nat (m_offset b)).
Definition lenLeft (b : Buffer) : Z := uwrap 64 (Z.of_nat (m_rcvSize b) - Z.of_nat (m_offset b)).
(** What [data] and [getOffset] give to send. *)
Definition sent (b : Buffer) : list byte := take (m_offset b) (m_buffer b).

(** ** Programs *)

Definition Io (St A : Type) : Type := St * Buffer -> option (option A * (St * Buffer)).
Definition ioret {St A} (a : A) : Io St A := fun s => Some (Some a, s).
Definition iofail {St A} : Io St A := fun s => Some (None, s).
Definition iobind {St A B} (m : Io St A) (k : A -> Io St B) : Io St B := fun s =>
  match m s with
  | Some (Some a, s) => k a s
  | Some (None, s) => Some (None, s)
  | None => None
  end.
Declare Scope clk_scope.
Delimit Scope clk_scope with clk.
Notation "x <- m ;; k" := (iobind m (fun x => k)) (at level 100, m at next level, right associativity) : clk_scope.
Notation "m ;;; k" := (iobind m (fun _ => k)) (at level 100, right associativity) : clk_scope.
#[local] Open Scope clk_scope.

Definition get_state {St} : Io St St := fun s => Some (Some s.1, s).
Definition put_state {St} (st : St) : Io St unit := fun s => Some (Some tt, (st, s.2)).
(** An operation of the process that can be undefined. *)
Definition lift {St} (o : option St) : Io St unit := fun s =>
  match o with Some st => Some (Some tt, (st, s.2)) | None => None end.
Definition on_buffer {St} (f : Buffer -> Buffer) : Io St unit := fun s => Some (Some tt, (s.1, f s.2)).

(** [PARSE_RX] of [n] octets and [WRITE_TX]. *)
Definition PARSE_RX {St} (n : nat) : Io St (list byte) := fun s =>
  let b := s.2 in
  if lenLeft b <? Z.of_nat n then Some (None, s)
  else if (m_offset b + n <=? MAX_BUFFER_LENGTH)%nat
       then Some (Some (take n (drop (m_offset b) (m_buffer b))), (s.1, addOffset n b))
       else None.
Definition WRITE_TX {St} (l : list byte) : Io St unit := fun s =>
  let b := s.2 in
  if sizeLeft b <? len l then Some (None, s)
  else if (m_offset b + length l <=? MAX_BUFFER_LENGTH)%nat
       then Some (Some tt, (s.1, mk_Buffer (m_offset b + length l) (m_rcvSize b)
              (take (m_offset b) (m_buffer b) ++ l ++ drop (m_offset b + length l) (m_buffer b))))
       else None.
Fixpoint write_all {St} (ls : list (list byte)) : Io St unit :=
  match ls with
  | [] => ioret tt
  | l :: ls => WRITE_TX l ;;; write_all ls
  end.

(** ** Structures *)

Class Padding := { pad : nat -> list byte; pad_length : forall n, length (pad n) = n }.

Definition b2o (b : bool) : byte := if b then x01 else x00.
Definition o2b (c : byte) : bool := negb (bool_decide (c = x00)).
(** A field of [n] octets at a position. *)
Definition field (off n : nat) (l : list byte) : list byte := take n (drop off l).

Section Layout.
Context `{Padding}.

Definition ptp_event_octets (e : ptp_event) : list byte :=
  le_enc 8 (pe_clockOffset e) ++ le_enc 8 (pe_gmClockUUID e) ++ le_enc 8 (pe_syncInterval e) ++
  [b2o (pe_asCapable e); b2o (pe_syncedWithGm e)] ++ pad 6.
Definition chrony_event_octets (e : chrony_event) : list byte :=
  le_enc 8 (ce_clockOffset e) ++ le_enc 8 (ce_gmClockUUID e) ++ le_enc 8 (ce_syncInterval e).
Definition cfg_octets (c : TimeBaseCfg) : list byte :=
  le_enc 8 (timeBaseIndex c) ++ timeBaseName c ++ interfaceName c ++
  [z2b (transportSpecific c); z2b (domainNumber c); b2o (haveSys c); b2o (havePtp c)] ++ pad 4.
End Layout.

Definition PTP_EVENT_SIZE : nat := 32.
Definition CHRONY_EVENT_SIZE : nat := 24.
Definition CFG_SIZE : nat := 144.
Definition octet_at (off : nat) (l : list byte) : byte := default x00 (l !! off).
Definition ptp_event_of (l : list byte) : ptp_event :=
  mk_ptp_event (swrap 64 (le_dec (field 0 8 l))) (le_dec (field 8 8 l)) (le_dec (field 16 8 l))
    (o2b (octet_at 24 l)) (o2b (octet_at 25 l)).
Definition chrony_event_of (l : list byte) : chrony_event :=
  mk_chrony_event (swrap 64 (le_dec (field 0 8 l))) (le_dec (field 8 8 l)) (le_dec (field 16 8 l)).
Definition cfg_of (l : list byte) : TimeBaseCfg :=
  mk_cfg (le_dec (field 0 8 l)) (field 8 64 l) (field 72 64 l)
    (b2z (octet_at 136 l)) (b2z (octet_at 137 l)) (o2b (octet_at 138 l)) (o2b (octet_at 139 l)).

(** ** Messages *)

Definition CLIENTID_LENGTH : nat := 512.
Definition InvalidSessionId : Z := 65535.
Definition ValidMaskSessionId : Z := 32767.

Inductive msgId_t := CONNECT_MSG | SUBSCRIBE_MSG | NOTIFY_MESSAGE | DISCONNECT_MSG.
Definition msgId_val (i : msgId_t) : Z :=
  match i with CONNECT_MSG => 0 | SUBSCRIBE_MSG => 1 | NOTIFY_MESSAGE => 2 | DISCONNECT_MSG => 3 end.
Definition msgId_of (z : Z) : option msgId_t :=
  if z =? 0 then Some CONNECT_MSG else if z =? 1 then Some SUBSCRIBE_MSG
  else if z =? 2 then Some NOTIFY_MESSAGE else if z =? 3 then Some DISCONNECT_MSG else None.
#[global] Instance msgId_eq_dec : EqDecision msgId_t.
Proof. solve_decision. Defined.
Definition ACK_NONE : Z := 0.
Definition ACK_SUCCESS : Z := 1.

(** The fields of all classes: the client id of connect, the index of subscribe
    and of notify, the type of clock of notify on the proxy. *)
Record Message := mk_Message {
  msgId : msgId_t; m_msgAck : Z; m_sessionId : Z; clientId : list byte; msg_index : Z;
  clockType : ClockType
}.
Definition new_message (i : msgId_t) : Message := mk_Message i ACK_NONE InvalidSessionId [] 0 PTPClock.
Definition set_msgAck (v : Z) (m : Message) : Message :=
  mk_Message (msgId m) v (m_sessionId m) (clientId m) (msg_index m) (clockType m).
Definition set_sessionId (v : Z) (m : Message) : Message :=
  mk_Message (msgId m) (m_msgAck m) v (clientId m) (msg_index m) (clockType m).
Definition setClientId (v : list byte) (m : Message) : Message :=
  mk_Message (msgId m) (m_msgAck m) (m_sessionId m) v (msg_index m) (clockType m).
(** The argument of the setters is an [int]. *)
Definition set_timeBaseIndex (v : Z) (m : Message) : Message :=
  mk_Message (msgId m) (m_msgAck m) (m_sessionId m) (clientId m) (uwrap 64 (swrap 32 v)) (clockType m).
Definition setClockType (v : ClockType) (m : Message) : Message :=
  mk_Message (msgId m) (m_msgAck m) (m_sessionId m) (clientId m) (msg_index m) v.

Definition client_id_octets (id : list byte) : list byte :=
  let t := take CLIENTID_LENGTH id in t ++ repeat x00 (CLIENTID_LENGTH - length t).
(** [makeBufferComm] of the four classes. *)
Definition ConnectMessage_octets (m : Message) : list (list byte) :=
  [le_enc 2 (m_sessionId m); client_id_octets (clientId m)].
Definition SubscribeMessage_octets (m : Message) : list (list byte) :=
  [le_enc 2 (m_sessionId m); le_enc 8 (msg_index m)].
Definition NotificationMessage_octets (m : Message) : list (list byte) := [le_enc 8 (msg_index m)].
Definition DisconnectMessage_octets (m : Message) : list (list byte) := [le_enc 2 (m_sessionId m)].
Definition comm_octets (m : Message) : list (list byte) :=
  match msgId m with
  | CONNECT_MSG => ConnectMessage_octets m
  | SUBSCRIBE_MSG => SubscribeMessage_octets m
  | NOTIFY_MESSAGE => NotificationMessage_octets m
  | DISCONNECT_MSG => DisconnectMessage_octets m
  end.
(** [parseBufferComm] of the four classes. *)
Definition ConnectMessage_parse {St} (m : Message) : Io St Message :=
  s <- PARSE_RX 2 ;; id <- PARSE_RX CLIENTID_LENGTH ;;
  ioret (set_sessionId (le_dec s) (setClientId id m)).
Definition SubscribeMessage_parse {St} (m : Message) : Io St Message :=
  s <- PARSE_RX 2 ;; i <- PARSE_RX 8 ;;
  ioret (mk_Message (msgId m) (m_msgAck m) (le_dec s) (clientId m) (le_dec i) (clockType m)).
Definition NotificationMessage_parse {St} (m : Message) : Io St Message :=
  i <- PARSE_RX 8 ;;
  ioret (mk_Message (msgId m) (m_msgAck m) (m_sessionId m) (clientId m) (le_dec i) (clockType m)).
Definition DisconnectMessage_parse {St} (m : Message) : Io St Message :=
  s <- PARSE_RX 2 ;; ioret (set_sessionId (le_dec s) m).
Definition parseBufferComm {St} (m : Message) : Io St Message :=
  match msgId m with
  | CONNECT_MSG => ConnectMessage_parse m
  | SUBSCRIBE_MSG => SubscribeMessage_parse m
  | NOTIFY_MESSAGE => NotificationMessage_parse m
  | DISCONNECT_MSG => DisconnectMessage_parse m
  end.

(** The queues of the system: those that can be opened, and those that take a
    message. *)
Class Queues := { open_ok : list byte -> bool; send_ok : Z -> bool }.

(** One side: the classes that it registers, and the last part of its messages. *)
Class Side (St : Type) := {
  registered : msgId_t -> bool;
  makeBufferTail : Message -> Io St unit;
  parseBufferTail : Message -> Io St Message;
  hasTransmitter : Z -> St -> bool
}.

Definition makeBuffer `{Side St} (m : Message) : Io St unit :=
  on_buffer resetOffset ;;;
  WRITE_TX [z2b (msgId_val (msgId m))] ;;; WRITE_TX [z2b (m_msgAck m)] ;;;
  write_all (comm_octets m) ;;; makeBufferTail m.
Definition parseBuffer `{Side St} : Io St Message :=
  id <- PARSE_RX 1 ;;
  match msgId_of (le_dec id) with
  | Some i =>
      if registered i then
        ack <- PARSE_RX 1 ;;
        m <- parseBufferComm (set_msgAck (le_dec ack) (new_message i)) ;;
        parseBufferTail m
      else iofail
  | None => iofail
  end.

(** [MqListenerWork] from the received octets on: the octets of the answer and its
    session.  A failure ends the thread of the listener. *)
Definition store_rx (msg : list byte) (b : Buffer) : Buffer :=
  setLen (length msg) (mk_Buffer (m_offset b) (m_rcvSize b) (msg ++ drop (length msg) (m_buffer b))).
Definition MqListenerWork `{Side St} `{Queues} (msg : list byte) : Io St (option (Z * list byte)) :=
  if bool_decide (msg = []) then ioret None else
  on_buffer (store_rx msg) ;;;
  m <- parseBuffer ;;
  if m_msgAck m =? ACK_NONE then ioret None
  else
    makeBuffer m ;;;
    st <- get_state ;;
    if hasTransmitter (m_sessionId m) st && send_ok (m_sessionId m)
    then (fun s => Some (Some (Some (m_sessionId m, sent s.2)), s))
    else iofail.

(** * Rules for the programs on buffers

    [okio I B m]: from a process state with [I] and a buffer with [B] the program
    returns, with both again.  [writes] and [parses] give the octets of programs
    that build and that parse. *)

#[local] Open Scope clk_scope.

(** ** Buffers *)

Definition tx_ok (b : Buffer) : Prop :=
  length (m_buffer b) = MAX_BUFFER_LENGTH /\ (m_offset b <= MAX_BUFFER_LENGTH)%nat /\
  (m_rcvSize b <= MAX_BUFFER_LENGTH)%nat.
Definition rx_ok (b : Buffer) : Prop := tx_ok b /\ (m_offset b <= m_rcvSize b)%nat.

Lemma MAX_val : MAX_BUFFER_LENGTH = Z.to_nat 8192.
Proof. done. Qed.
Lemma lenLeft_ok b : rx_ok b -> lenLeft b = Z.of_nat (m_rcvSize b - m_offset b).
Proof.
  intros [(_ & _ & R) O]. unfold lenLeft. rewrite MAX_val in *. rewrite uwrap_small by (unfold uint; lia). lia.
Qed.
Lemma sizeLeft_ok b : tx_ok b -> sizeLeft b = Z.of_nat (MAX_BUFFER_LENGTH - m_offset b).
Proof.
  intros (_ & O & _). unfold sizeLeft. rewrite MAX_val in *. rewrite uwrap_small by (unfold uint; lia). lia.
Qed.

(** ** Programs that return *)

Definition okio {St A} (I : St -> Prop) (B : Buffer -> Prop) (m : Io St A) : Prop :=
  forall st b, I st -> B b -> exists r st' b', m (st, b) = Some (r, (st', b')) /\ I st' /\ B b'.

Section Rules.
Context {St : Type} (I : St -> Prop) (B : Buffer -> Prop).

Lemma okio_ret {A} (a : A) : okio I B (ioret a).
Proof. intros st b. by eexists _, st, b. Qed.
Lemma okio_fail {A} : okio I B (@iofail St A).
Proof. intros st b. by eexists _, st, b. Qed.
Lemma okio_bind {A C} (m : Io St A) (k : A -> Io St C) :
  okio I B m -> (forall a, okio I B (k a)) -> okio I B (iobind m k).
Proof.
  intros M K st b Hs Hb. destruct (M st b Hs Hb) as ([a|] & st1 & b1 & E & Hs1 & Hb1).
  - destruct (K a st1 b1 Hs1 Hb1) as (r & st2 & b2 & E2 & H2). exists r, st2, b2. unfold iobind. by rewrite E.
  - exists None, st1, b1. unfold iobind. by rewrite E.
Qed.
(** The state that [get_state] returns satisfies [I]. *)
Lemma okio_get {C} (k : St -> Io St C) : (forall st, I st -> okio I B (k st)) -> okio I B (iobind get_state k).
Proof. intros K st b Hs Hb. by apply (K st Hs st b). Qed.
Lemma okio_put st : I st -> okio I B (put_state st).
Proof. intros H st' b _ Hb. by eexists _, st, b. Qed.
Lemma okio_lift o : (exists st, o = Some st /\ I st) -> okio I B (lift o).
Proof. intros (st & -> & H) st' b _ Hb. by eexists _, st, b. Qed.
Lemma okio_buffer f : (forall b, B b -> B (f b)) -> okio I B (on_buffer f).
Proof. intros F st b Hs Hb. eexists _, st, (f b). auto. Qed.
End Rules.

Lemma okio_weaken {St A} (I : St -> Prop) (B B' : Buffer -> Prop) (m : Io St A) :
  okio I B m -> (forall b, B b -> B' b) -> forall st b, I st -> B b ->
  exists r st' b', m (st, b) = Some (r, (st', b')) /\ I st' /\ B' b'.
Proof. intros M W st b Hs Hb. destruct (M st b Hs Hb) as (r & st' & b' & E & ? & ?). exists r, st', b'. auto. Qed.

Lemma okio_PARSE {St} (I : St -> Prop) n : okio I rx_ok (PARSE_RX n).
Proof.
  intros st b Hs Hb. unfold PARSE_RX. cbn [fst snd]. rewrite lenLeft_ok by done.
  destruct (Z.ltb_spec (Z.of_nat (m_rcvSize b - m_offset b)) (Z.of_nat n)); [by eexists _, st, b|].
  destruct Hb as [(L & O & R) OR]. destruct (Nat.leb_spec (m_offset b + n) MAX_BUFFER_LENGTH); [|lia].
  eexists _, st, (addOffset n b). split; [done|]. split; [done|]. unfold rx_ok, tx_ok, addOffset. cbn. lia.
Qed.
Lemma okio_WRITE {St} (I : St -> Prop) l : okio I tx_ok (WRITE_TX l).
Proof.
  intros st b Hs Hb. unfold WRITE_TX. cbn [fst snd]. rewrite sizeLeft_ok by done.
  destruct (Z.ltb_spec (Z.of_nat (MAX_BUFFER_LENGTH - m_offset b)) (len l)) as [|G]; [by eexists _, st, b|].
  destruct Hb as (L & O & R). unfold len in G.
  destruct (Nat.leb_spec (m_offset b + length l) MAX_BUFFER_LENGTH); [|lia].
  eexists _, st, _. split; [done|]. split; [done|]. unfold tx_ok. cbn.
  rewrite !length_app, length_take, length_drop. lia.
Qed.
Lemma okio_write_all {St} (I : St -> Prop) ls : okio I tx_ok (write_all ls).
Proof.
  induction ls as [|l ls IH]; cbn; [apply okio_ret|]. apply okio_bind; [apply okio_WRITE|]. done.
Qed.
Lemma tx_reset b : tx_ok b -> tx_ok (resetOffset b).
Proof. intros (? & ? & ?). unfold tx_ok. cbn. lia. Qed.
Lemma store_rx_ok msg b : tx_ok b -> (length msg <= MAX_BUFFER_LENGTH)%nat -> rx_ok (store_rx msg b).
Proof.
  intros (L & O & R) M. unfold rx_ok, tx_ok, store_rx, setLen. cbn. rewrite length_app, length_drop. lia.
Qed.

Create HintDb okio.
#[export] Hint Resolve okio_ret okio_fail okio_bind okio_get okio_put okio_PARSE okio_WRITE okio_write_all
  okio_buffer tx_reset : okio.

(** ** Octets *)

(** What is left to parse. *)
Definition rest (b : Buffer) : list byte := drop (m_offset b) (take (m_rcvSize b) (m_buffer b)).
Definition parses {St A} (m : Io St A) (st : St) (l : list byte) (a : A) (st' : St) (l' : list byte) : Prop :=
  forall b, rx_ok b -> rest b = l -> exists b', m (st, b) = Some (Some a, (st', b')) /\ rx_ok b' /\ rest b' = l'.

Lemma length_rest b : rx_ok b -> length (rest b) = (m_rcvSize b - m_offset b)%nat.
Proof. intros [(L & O & R) OR]. unfold rest. rewrite length_drop, length_take. lia. Qed.
Lemma parses_ret {St A} (a : A) (st : St) l : parses (ioret a) st l a st l.
Proof. intros b Hb E. by exists b. Qed.
Lemma parses_bind {St A C} (m : Io St A) (k : A -> Io St C) st l a st1 l1 c st2 l2 :
  parses m st l a st1 l1 -> parses (k a) st1 l1 c st2 l2 -> parses (iobind m k) st l c st2 l2.
Proof.
  intros M K b Hb E. destruct (M b Hb E) as (b1 & E1 & Hb1 & R1). destruct (K b1 Hb1 R1) as (b2 & E2 & H2).
  exists b2. unfold iobind. by rewrite E1.
Qed.
Lemma parses_get {St} (st : St) l : parses get_state st l st st l.
Proof. intros b Hb E. by exists b. Qed.
Lemma parses_put {St} (st st' : St) l : parses (put_state st') st l tt st' l.
Proof. intros b Hb E. by exists b. Qed.
Lemma parses_lift {St} (o : option St) st st' l : o = Some st' -> parses (lift o) st l tt st' l.
Proof. intros -> b Hb E. by exists b. Qed.
Lemma parses_rx {St} n (st : St) x l : length x = n -> parses (PARSE_RX n) st (x ++ l) x st l.
Proof.
  intros Lx b Hb E. pose proof (length_rest b Hb) as Lr. rewrite E, length_app in Lr.
  exists (addOffset n b). unfold PARSE_RX. cbn [fst snd]. rewrite lenLeft_ok by done.
  destruct (Z.ltb_spec (Z.of_nat (m_rcvSize b - m_offset b)) (Z.of_nat n)); [lia|].
  destruct Hb as [(L & O & R) OR]. destruct (Nat.leb_spec (m_offset b + n) MAX_BUFFER_LENGTH); [|lia].
  assert (take n (drop (m_offset b) (m_buffer b)) = x) as ->.
  { transitivity (take n (x ++ l)); [|by apply take_app_length']. rewrite <- E. unfold rest.
    rewrite skipn_firstn_comm, take_take. f_equal. lia. }
  split; [done|]. split; [unfold rx_ok, tx_ok, addOffset; cbn; lia|].
  unfold rest, addOffset. cbn. rewrite <- drop_drop. fold (rest b). rewrite E. by apply drop_app_length'.
Qed.

(** The buffer after octets were written. *)
Definition writes {St} (m : Io St unit) (st : St) (l : list byte) : Prop :=
  forall b, tx_ok b -> (m_offset b + length l <= MAX_BUFFER_LENGTH)%nat ->
  exists b', m (st, b) = Some (Some tt, (st, b')) /\ tx_ok b' /\ sent b' = sent b ++ l.

Lemma length_sent b : tx_ok b -> length (sent b) = m_offset b.
Proof. intros (L & O & R). unfold sent. rewrite length_take. lia. Qed.
Lemma writes_ret {St} (st : St) : writes (ioret tt) st [].
Proof. intros b Hb _. exists b. by rewrite app_nil_r. Qed.
Lemma writes_bind {St} (m : Io St unit) (k : Io St unit) st l1 l2 :
  writes m st l1 -> writes k st l2 -> writes (m ;;; k) st (l1 ++ l2).
Proof.
  intros M K b Hb O. rewrite length_app in O. destruct (M b Hb ltac:(lia)) as (b1 & E1 & Hb1 & S1).
  pose proof (length_sent b1 Hb1) as L1. rewrite S1, length_app, (length_sent b Hb) in L1.
  destruct (K b1 Hb1 ltac:(lia)) as (b2 & E2 & Hb2 & S2). exists b2. unfold iobind. rewrite E1.
  split; [done|]. split; [done|]. by rewrite S2, S1, app_assoc.
Qed.
Lemma writes_tx {St} l (st : St) : writes (WRITE_TX l) st l.
Proof.
  intros b Hb O. unfold WRITE_TX. cbn [fst snd]. rewrite sizeLeft_ok by done. unfold len.
  destruct (Z.ltb_spec (Z.of_nat (MAX_BUFFER_LENGTH - m_offset b)) (Z.of_nat (length l))); [lia|].
  destruct (Nat.leb_spec (m_offset b + length l) MAX_BUFFER_LENGTH); [|lia].
  eexists. split; [done|]. destruct Hb as (L & Ob & R). split.
  - unfold tx_ok. cbn. rewrite !length_app, length_take, length_drop. lia.
  - unfold sent. cbn. rewrite app_assoc, take_app_le by (rewrite length_app, length_take; lia).
    apply take_ge. rewrite length_app, length_take. lia.
Qed.
Lemma writes_all {St} ls (st : St) : writes (write_all ls) st (concat ls).
Proof.
  induction ls as [|l ls IH]; cbn; [apply writes_ret|]. apply writes_bind; [apply writes_tx|done].
Qed.
(** A program whose octets do not fit fails. *)
Definition refuses {St} (m : Io St unit) (st : St) (l : list byte) : Prop :=
  forall b, tx_ok b -> (MAX_BUFFER_LENGTH < m_offset b + length l)%nat ->
  exists b', m (st, b) = Some (None, (st, b')) /\ tx_ok b'.
Lemma refuses_tx {St} l (st : St) : refuses (WRITE_TX l) st l.
Proof.
  intros b Hb O. unfold WRITE_TX. cbn [fst snd]. rewrite sizeLeft_ok by done. unfold len.
  destruct (Z.ltb_spec (Z.of_nat (MAX_BUFFER_LENGTH - m_offset b)) (Z.of_nat (length l))); [by eexists|].
  destruct Hb as (_ & Ob & _). lia.
Qed.
Lemma refuses_bind {St} (m : Io St unit) (k : Io St unit) st l1 l2 :
  writes m st l1 -> refuses m st l1 -> refuses k st l2 -> refuses (m ;;; k) st (l1 ++ l2).
Proof.
  intros M Mr K b Hb O. rewrite length_app in O.
  destruct (decide (m_offset b + length l1 <= MAX_BUFFER_LENGTH)%nat) as [F|F].
  - destruct (M b Hb F) as (b1 & E1 & Hb1 & S1).
    pose proof (length_sent b1 Hb1) as L1. rewrite S1, length_app, (length_sent b Hb) in L1.
    destruct (K b1 Hb1 ltac:(lia)) as (b2 & E2 & Hb2). exists b2. unfold iobind. by rewrite E1.
  - destruct (Mr b Hb ltac:(lia)) as (b1 & E1 & Hb1). exists b1. unfold iobind. by rewrite E1.
Qed.
Lemma refuses_all {St} ls (st : St) : refuses (write_all ls) st (concat ls).
Proof.
  induction ls as [|l ls IH]; cbn.
  - intros b (_ & O & _) H. cbn in H. lia.
  - apply refuses_bind; [apply writes_tx|apply refuses_tx|done].
Qed.
