(* ===== verification/ClkProxy.v ===== *)
(** * ClkProxy.v: the proxy of the clock manager

    The proxy keeps a session for each client that connected and, for each time
    base, the last events and the sessions that subscribed
    ([src/clkmgr/proxy/client.cpp] and the [_msg] files of [src/clkmgr/proxy]).
    The operations are those of the threads of the proxy between two locks of its
    maps. *)

From S2P Require Import Prelude CStr Types ClkEvent ClkConfig ClkMsg.

#[local] Open Scope clk_scope.

(** ** State *)

Record Client := mk_Client { c_sessionId : Z; c_queue : list byte }.
Record TimeBaseData := mk_data {
  subscribedClients : list (Z * bool); d_ptpEvent : ptp_event; d_chronyEvent : chrony_event
}.
Record Proxy := mk_Proxy {
  nextSession : Z;
  sessionMap : list (Z * Client);
  timeBaseDataMap : list (Z * TimeBaseData);
  timeBaseCfgs : list TimeBaseCfgFull
}.
Definition zero_ptp_event : ptp_event := mk_ptp_event 0 0 0 false false.
Definition zero_chrony_event : chrony_event := mk_chrony_event 0 0 0.
Definition data_default : TimeBaseData := mk_data [] zero_ptp_event zero_chrony_event.
Definition Proxy_new (cfgs : list TimeBaseCfgFull) : Proxy := mk_Proxy 0 [] [] cfgs.

Definition set_sessions (n : Z) (m : list (Z * Client)) (p : Proxy) : Proxy :=
  mk_Proxy n m (timeBaseDataMap p) (timeBaseCfgs p).
Definition set_data (m : list (Z * TimeBaseData)) (p : Proxy) : Proxy :=
  mk_Proxy (nextSession p) (sessionMap p) m (timeBaseCfgs p).
Definition set_subscribedClients (l : list (Z * bool)) (d : TimeBaseData) : TimeBaseData :=
  mk_data l (d_ptpEvent d) (d_chronyEvent d).

(** ** Events *)

Definition getPTPEvent (i : Z) (p : Proxy) : ptp_event :=
  match get i (timeBaseDataMap p) with Some d => d_ptpEvent d | None => zero_ptp_event end.
Definition getChronyEvent (i : Z) (p : Proxy) : chrony_event :=
  match get i (timeBaseDataMap p) with Some d => d_chronyEvent d | None => zero_chrony_event end.
(** [timeBaseDataMap[i]] adds a time base that is not there. *)
Definition data_of (i : Z) (p : Proxy) : TimeBaseData := default data_default (get i (timeBaseDataMap p)).
(** [ptpEvent::copy] and [chronyEvent::copy], which their constructors call with
    zeros. *)
Definition ptpEvent_copy (i : Z) (e : ptp_event) (p : Proxy) : Proxy :=
  let d := data_of i p in set_data (set i (mk_data (subscribedClients d) e (d_chronyEvent d)) (timeBaseDataMap p)) p.
Definition chronyEvent_copy (i : Z) (e : chrony_event) (p : Proxy) : Proxy :=
  let d := data_of i p in set_data (set i (mk_data (subscribedClients d) (d_ptpEvent d) e) (timeBaseDataMap p)) p.
(** [portDataClear] of the PTP events. *)
Definition portDataClear (e : ptp_event) : ptp_event :=
  mk_ptp_event 0 (pe_gmClockUUID e) 0 (pe_asCapable e) false.

(** ** Sessions *)

Definition existClient (s : Z) (p : Proxy) : bool := mem s (sessionMap p).
Definition next_id (n : Z) : Z := Z.land (uwrap 16 (n + 1)) ValidMaskSessionId.
(** The loop of [CreateClientSession]. *)
Fixpoint free_session (fuel : nat) (next : Z) (m : list (Z * Client)) : option Z :=
  match fuel with
  | O => None
  | S fuel => if mem next m then free_session fuel (next_id next) m else Some next
  end.

Section Operations.
Context `{Queues}.

(** The result [None] is a loop that does not end. *)
Definition CreateClientSession (id : list byte) (p : Proxy) : option (Z * Proxy) :=
  cur ← free_session (S (length (sessionMap p))) (nextSession p) (sessionMap p);
  if negb (open_ok (cstr id)) then Some (InvalidSessionId, set_sessions cur (sessionMap p) p)
  else Some (cur, set_sessions (next_id cur) (set cur (mk_Client cur id) (sessionMap p)) p).
Definition connect (sessionId : Z) (id : list byte) (p : Proxy) : option (Z * Proxy) :=
  if negb (sessionId =? InvalidSessionId) then
    Some (if existClient sessionId p then sessionId else InvalidSessionId, p)
  else CreateClientSession id p.

Definition subscribe (i sessionId : Z) (p : Proxy) : bool * Proxy :=
  match get i (timeBaseDataMap p) with
  | None => (false, p)
  | Some d =>
      if (sessionId =? InvalidSessionId) || negb (existClient sessionId p) then (false, p)
      else if mem sessionId (subscribedClients d) then (true, p)
      else (true, set_data (set i (set_subscribedClients (set sessionId true (subscribedClients d)) d)
                              (timeBaseDataMap p)) p)
  end.
Definition unsubscribe (sessionId : Z) (d : TimeBaseData) : TimeBaseData :=
  set_subscribedClients (erase sessionId (subscribedClients d)) d.
Definition removeClient (sessionId : Z) (p : Proxy) : Proxy :=
  mk_Proxy (nextSession p) (erase sessionId (sessionMap p))
    (map (fun b => (b.1, unsubscribe sessionId b.2)) (timeBaseDataMap p)) (timeBaseCfgs p).
Definition getTransmitter (sessionId : Z) (p : Proxy) : bool :=
  negb (sessionId =? InvalidSessionId) && existClient sessionId p.

(** ** Messages *)

Context `{Padding}.

Definition clock_event_octets (t : ClockType) (i : Z) (p : Proxy) : list byte :=
  match t with
  | PTPClock => ptp_event_octets (getPTPEvent i p)
  | SysClock => chrony_event_octets (getChronyEvent i p)
  end.
Definition ProxyConnectMessage_make (p : Proxy) : Io Proxy unit :=
  WRITE_TX (le_enc 8 (len (timeBaseCfgs p))) ;;;
  write_all (map (fun row => cfg_octets (base row)) (timeBaseCfgs p)).
Definition ProxySubscribeMessage_make (m : Message) (p : Proxy) : Io Proxy unit :=
  WRITE_TX (ptp_event_octets (getPTPEvent (msg_index m) p)) ;;;
  WRITE_TX (chrony_event_octets (getChronyEvent (msg_index m) p)).
Definition ProxyNotificationMessage_make (m : Message) (p : Proxy) : Io Proxy unit :=
  WRITE_TX [z2b (ClockType_val (clockType m))] ;;;
  WRITE_TX (clock_event_octets (clockType m) (msg_index m) p).
Definition proxy_makeBufferTail (m : Message) : Io Proxy unit :=
  p <- get_state ;;
  match msgId m with
  | CONNECT_MSG => ProxyConnectMessage_make p
  | SUBSCRIBE_MSG => ProxySubscribeMessage_make m p
  | NOTIFY_MESSAGE => ProxyNotificationMessage_make m p
  | DISCONNECT_MSG => ioret tt
  end.
Definition ProxyConnectMessage_parse (m : Message) (p : Proxy) : Io Proxy Message :=
  match connect (m_sessionId m) (clientId m) p with
  | None => fun _ => None
  | Some (s, p) =>
      put_state p ;;;
      if s =? InvalidSessionId then iofail else ioret (set_msgAck ACK_SUCCESS (set_sessionId s m))
  end.
Definition ProxySubscribeMessage_parse (m : Message) (p : Proxy) : Io Proxy Message :=
  let '(ok, p) := subscribe (msg_index m) (m_sessionId m) p in
  put_state p ;;; if ok then ioret (set_msgAck ACK_SUCCESS m) else iofail.
Definition ProxyDisconnectMessage_parse (m : Message) (p : Proxy) : Io Proxy Message :=
  put_state (removeClient (m_sessionId m) p) ;;; ioret m.
Definition proxy_parseBufferTail (m : Message) : Io Proxy Message :=
  p <- get_state ;;
  match msgId m with
  | CONNECT_MSG => ProxyConnectMessage_parse m p
  | SUBSCRIBE_MSG => ProxySubscribeMessage_parse m p
  | DISCONNECT_MSG => ProxyDisconnectMessage_parse m p
  | NOTIFY_MESSAGE => ioret m
  end.
#[global] Instance proxy_side : Side Proxy := {
  registered i := negb (bool_decide (i = NOTIFY_MESSAGE));
  makeBufferTail := proxy_makeBufferTail;
  parseBufferTail := proxy_parseBufferTail;
  hasTransmitter := getTransmitter
}.

(** [notifyClients] and [notifyDisconnect]: the octets and the sessions that got
    them. *)
Definition delivered (p : Proxy) (s : Z) : bool := getTransmitter s p && send_ok s.
Definition notifyClients (i : Z) (type : ClockType) : Io Proxy (list byte * list Z) :=
  p <- get_state ;;
  match get i (timeBaseDataMap p) with
  | None => ioret ([], [])
  | Some d =>
      makeBuffer (setClockType type (set_timeBaseIndex i (new_message NOTIFY_MESSAGE))) ;;;
      let subs := keys (subscribedClients d) in
      put_state (foldl (fun p s => removeClient s p) p (filter (fun s => delivered p s = false) subs)) ;;;
      (fun s => Some (Some (sent s.2, filter (fun s => delivered p s = true) subs), s))
  end.
Definition notifyDisconnect : Io Proxy (list byte * list Z) :=
  makeBuffer (new_message DISCONNECT_MSG) ;;;
  p <- get_state ;;
  let all := keys (sessionMap p) in
  put_state (foldl (fun p s => removeClient s p) p all) ;;;
  (fun s => Some (Some (sent s.2, filter (fun s => send_ok s = true) all), s)).
End Operations.

(** [ClientRemoveAll::finalize] *)
Definition remove_all (p : Proxy) : Proxy := set_sessions (nextSession p) [] p.

(** * Sessions and subscribers of the proxy

    The invariant of the proxy: session ids are valid and every subscriber is a
    session.  It holds whatever octets the listener receives and whatever the
    queues do; the listener never leaves its buffer. *)

#[local] Open Scope clk_scope.

(** ** Free sessions *)

Definition valid_id (s : Z) : Prop := 0 <= s <= ValidMaskSessionId.

Lemma next_id_mod n : valid_id n -> next_id n = (n + 1) mod 32768.
Proof.
  unfold valid_id, next_id, ValidMaskSessionId. intros H. rewrite uwrap_small by (unfold uint; lia).
  change 32767 with (Z.ones 15). by rewrite Z.land_ones.
Qed.
Lemma next_id_valid n : valid_id n -> valid_id (next_id n).
Proof.
  intros H. rewrite next_id_mod by done. unfold valid_id, ValidMaskSessionId.
  pose proof (Z.mod_pos_bound (n + 1) 32768 ltac:(lia)). lia.
Qed.
Lemma free_session_some m : forall fuel next id, valid_id next -> free_session fuel next m = Some id ->
  valid_id id /\ mem id m = false.
Proof.
  intros fuel. induction fuel as [|fuel IH]; intros next id V; [done|]. cbn.
  destruct (mem next m) eqn:M; [apply IH, next_id_valid, V|]. by intros [= <-].
Qed.
Lemma free_session_none m : forall fuel next, valid_id next -> free_session fuel next m = None ->
  forall j, (j < fuel)%nat -> mem ((next + Z.of_nat j) mod 32768) m = true.
Proof.
  intros fuel. induction fuel as [|fuel IH]; intros next V; [lia|]. cbn.
  destruct (mem next m) eqn:M; [|done]. intros N [|j] Hj.
  - rewrite Z.add_0_r, Z.mod_small by (unfold valid_id, ValidMaskSessionId in V; lia). done.
  - specialize (IH (next_id next) (next_id_valid _ V) N j ltac:(lia)).
    rewrite next_id_mod, Zplus_mod_idemp_l in IH by done. rewrite <- IH. do 2 f_equal. lia.
Qed.
(** With a free id the loop ends; it needs at most one round for each session. *)
Lemma free_session_enough m next : valid_id next -> Z.of_nat (length m) < 32768 ->
  free_session (S (length m)) next m <> None.
Proof.
  intros V L N. pose proof (free_session_none m _ next V N) as A.
  set (ids := map (fun j => (next + Z.of_nat j) mod 32768) (seq 0 (S (length m)))).
  assert (NoDup ids) as Nd.
  { apply NoDup_fmap_2_strong; [|apply NoDup_seq]. intros x y Hx Hy E.
    apply elem_of_seq in Hx, Hy.
    assert ((Z.of_nat x - Z.of_nat y) mod 32768 = 0) as D.
    { replace (Z.of_nat x - Z.of_nat y) with ((next + Z.of_nat x) - (next + Z.of_nat y)) by lia.
      by rewrite Zminus_mod, E, Z.sub_diag. }
    apply Z.mod_divide in D as [q D]; [|lia]. nia. }
  assert (ids ⊆+ keys m) as S.
  { apply NoDup_submseteq; [done|]. intros x Hx. apply list_elem_of_fmap in Hx as (j & -> & Hj).
    apply elem_of_seq in Hj. apply mem_keys, A. lia. }
  apply submseteq_length in S. unfold ids, keys in S. rewrite !length_map, length_seq in S. lia.
Qed.
(** Without one it goes on for ever. *)
Lemma free_session_full m : (forall s, valid_id s -> mem s m = true) ->
  forall fuel next, valid_id next -> free_session fuel next m = None.
Proof.
  intros F fuel. induction fuel as [|fuel IH]; intros next V; [done|]. cbn.
  rewrite F by done. by apply IH, next_id_valid.
Qed.

(** ** The invariant *)

Definition data_inv (m : list (Z * Client)) (d : TimeBaseData) : Prop :=
  ordered (subscribedClients d) /\ Forall (fun s => mem s.1 m = true) (subscribedClients d).
Record proxy_inv (p : Proxy) : Prop := mk_proxy_inv {
  inv_next : valid_id (nextSession p);
  inv_sessions : ordered (sessionMap p);
  inv_ids : Forall (fun c => valid_id c.1 /\ c_sessionId c.2 = c.1) (sessionMap p);
  inv_data : ordered (timeBaseDataMap p);
  inv_subs : Forall (fun b => data_inv (sessionMap p) b.2) (timeBaseDataMap p)
}.

Lemma proxy_new_inv cfgs : proxy_inv (Proxy_new cfgs).
Proof. split; try constructor; try done; unfold valid_id, ValidMaskSessionId; cbn; lia. Qed.

Lemma mem_set {A} k (v : A) m k' : ordered m -> mem k' (set k v m) = (k' =? k) || mem k' m.
Proof. intros O. unfold mem. rewrite get_set_key by done. by destruct (k' =? k). Qed.
Lemma mem_erase {A} k (m : list (Z * A)) k' : ordered m -> mem k' (erase k m) = negb (k' =? k) && mem k' m.
Proof. intros O. unfold mem. rewrite get_erase by done. by destruct (k' =? k). Qed.
Lemma mem_elem {A} (m : list (Z * A)) x : ordered m -> x ∈ m -> mem x.1 m = true.
Proof. intros O H. unfold mem. destruct x as [k v]. cbn. by rewrite (In_get k v m). Qed.

Section Operations.
Context `{Queues}.

Lemma CreateClientSession_inv id p s p' : proxy_inv p -> CreateClientSession id p = Some (s, p') ->
  proxy_inv p' /\ (s = InvalidSessionId \/ (valid_id s /\ mem s (sessionMap p) = false /\
    get s (sessionMap p') = Some (mk_Client s id))).
Proof.
  intros [V O F D S]. unfold CreateClientSession.
  destruct (free_session _ _ _) as [cur|] eqn:E; [|done]. cbn [mbind option_bind].
  apply free_session_some in E as [Vc Mc]; [|done]. destruct (negb _); intros [= <- <-].
  - split; [|by left]. by split.
  - split; [|right; split; [done|]; split; [done|]; cbn; by rewrite get_set_key, Z.eqb_refl].
    split; cbn; [by apply next_id_valid|auto|by apply Forall_set|done|].
    eapply Forall_impl; [exact S|]. intros [i d] [Od Fd]. split; [done|].
    eapply Forall_impl; [exact Fd|]. intros x Hx. cbn. rewrite mem_set by done. by rewrite Hx, orb_true_r.
Qed.
Lemma connect_inv s id p r p' : proxy_inv p -> connect s id p = Some (r, p') -> proxy_inv p'.
Proof.
  intros I. unfold connect. destruct (negb _); [intros [= _ <-]; done|].
  intros E. by apply CreateClientSession_inv in E as [? _].
Qed.
(** It ends when a session is free. *)
Lemma connect_returns s id p : proxy_inv p -> Z.of_nat (length (sessionMap p)) < 32768 ->
  connect s id p <> None.
Proof.
  intros I L. unfold connect. destruct (negb _); [done|]. unfold CreateClientSession.
  destruct (free_session _ _ _) as [cur|] eqn:E; [|by apply free_session_enough in E; [|apply I|]].
  cbn. by destruct (negb _).
Qed.
End Operations.

Lemma subscribe_inv i s p : proxy_inv p -> proxy_inv (subscribe i s p).2.
Proof.
  intros I. pose proof I as [V O F D S]. unfold subscribe. destruct (get i (timeBaseDataMap p)) as [d|] eqn:G; [|done].
  destruct (_ || _) eqn:B; [done|]. destruct (mem s (subscribedClients d)); [done|].
  apply orb_false_elim in B as [_ B]. apply negb_false_iff in B.
  destruct (get_Forall _ _ _ _ S G) as [Od Fd].
  split; cbn; [done..|auto|]. apply Forall_set; [|done]. split; cbn; [auto|]. by apply Forall_set.
Qed.
Lemma ordered_map {A} (f : Z * A -> A) m : ordered m -> ordered (map (fun b => (b.1, f b)) m).
Proof.
  induction 1 as [|[k v] r O IH F]; [constructor|]. cbn. constructor; [done|].
  rewrite Forall_map. eapply Forall_impl; [exact F|]. done.
Qed.
Lemma removeClient_inv s p : proxy_inv p -> proxy_inv (removeClient s p).
Proof.
  intros [V O F D S]. unfold removeClient. split; cbn; [done|auto|by apply Forall_erase| |].
  - by apply (ordered_map (fun b => unsubscribe s b.2)).
  - rewrite Forall_map. eapply Forall_impl; [exact S|]. intros [i d] [Od Fd]. split; cbn in *; [auto|].
    rewrite Forall_forall in *. intros x Hx. rewrite mem_erase by done.
    assert (mem x.1 (erase s (subscribedClients d)) = true) as M by (apply mem_elem; auto).
    rewrite mem_erase in M by done. apply andb_prop in M as [M1 M2]. rewrite M1. cbn.
    unfold mem in M2. destruct (get x.1 (subscribedClients d)) as [v|] eqn:G; [|done].
    apply get_In in G. by apply (Fd _ G).
Qed.
Lemma data_of_inv i p : proxy_inv p -> data_inv (sessionMap p) (data_of i p).
Proof.
  intros [V O F D S]. unfold data_of. destruct (get i (timeBaseDataMap p)) as [d|] eqn:G; cbn.
  - by apply (get_Forall _ _ _ _ S G).
  - split; constructor.
Qed.
Lemma copy_inv i d p : proxy_inv p -> data_inv (sessionMap p) d ->
  proxy_inv (set_data (set i d (timeBaseDataMap p)) p).
Proof. intros [V O F D S] Hd. split; cbn; [done..|auto|by apply Forall_set]. Qed.
Lemma events_inv i e e' p : proxy_inv p -> proxy_inv (ptpEvent_copy i e p) /\ proxy_inv (chronyEvent_copy i e' p).
Proof. intros I. split; apply copy_inv; try done; by apply data_of_inv. Qed.
Lemma removes_inv l : forall p, proxy_inv p -> proxy_inv (foldl (fun p s => removeClient s p) p l).
Proof. induction l as [|s l IH]; intros p I; cbn; [done|]. by apply IH, removeClient_inv. Qed.

(** ** The listener *)

Section Listener.
Context `{Queues} `{Padding}.

(** A session is free. *)
Definition room (p : Proxy) : Prop := Z.of_nat (length (sessionMap p)) < 32768.

(** Programs that need a free session to return. *)
Definition once {A} (B : Buffer -> Prop) (m : Io Proxy A) : Prop := forall p b, proxy_inv p -> B b ->
  match m (p, b) with Some (r, (p', b')) => proxy_inv p' /\ B b' | None => ~ room p end.
Lemma once_bind {A C} B (m : Io Proxy A) (k : A -> Io Proxy C) :
  (forall p, okio (eq p) B m) -> (forall a, once B (k a)) -> once B (iobind m k).
Proof.
  intros M K p b Hp Hb. destruct (M p p b eq_refl Hb) as (r & p1 & b1 & E & <- & Hb1).
  unfold iobind. rewrite E. destruct r as [a|]; [|done]. by apply (K a p b1).
Qed.
Lemma once_fail {A} B : once B (@iofail Proxy A).
Proof. by intros p b. Qed.

Lemma parseBufferComm_ok {St} (I : St -> Prop) m : okio I rx_ok (parseBufferComm m).
Proof. unfold parseBufferComm, ConnectMessage_parse, SubscribeMessage_parse, NotificationMessage_parse, DisconnectMessage_parse.
  destruct (msgId m); auto 6 with okio. Qed.

Lemma proxy_tail_ok m B : once B (proxy_parseBufferTail m).
Proof.
  intros p b I Hb. unfold proxy_parseBufferTail, ProxyConnectMessage_parse, ProxySubscribeMessage_parse,
    ProxyDisconnectMessage_parse, iobind, get_state. cbn [fst]. destruct (msgId m).
  - pose proof (connect_returns (m_sessionId m) (clientId m) p I) as C.
    destruct (connect _ _ p) as [[s p']|] eqn:E; [|intros R; by apply (C R)]. apply connect_inv in E; [|done].
    cbn. by destruct (_ =? _).
  - pose proof (subscribe_inv (msg_index m) (m_sessionId m) p I) as I'.
    destruct (subscribe _ _ p) as [ok p']. cbn in *. by destruct ok.
  - done.
  - cbn. split; [by apply removeClient_inv|done].
Qed.
Lemma proxy_parse_ok : once rx_ok parseBuffer.
Proof.
  unfold parseBuffer. apply once_bind; [intros; apply okio_PARSE|]. intros id.
  destruct (msgId_of _) as [i|]; [|apply once_fail]. destruct (registered i); [|apply once_fail].
  apply once_bind; [intros; apply okio_PARSE|]. intros ack.
  apply once_bind; [intros; apply parseBufferComm_ok|]. intros m. apply proxy_tail_ok.
Qed.
Lemma proxy_make_ok m : okio proxy_inv tx_ok (makeBuffer m).
Proof.
  unfold makeBuffer. apply okio_bind; [auto with okio|]. intros _.
  apply okio_bind; [apply okio_WRITE|]. intros _. apply okio_bind; [apply okio_WRITE|]. intros _.
  apply okio_bind; [apply okio_write_all|]. intros _. cbn [makeBufferTail proxy_side].
  unfold proxy_makeBufferTail, ProxyConnectMessage_make, ProxySubscribeMessage_make,
    ProxyNotificationMessage_make. apply okio_get. intros p I. destruct (msgId m); auto with okio.
Qed.

Lemma proxy_listener_ok msg p b : proxy_inv p -> (length msg <= MAX_BUFFER_LENGTH)%nat -> tx_ok b ->
  match MqListenerWork msg (p, b) with
  | Some (r, (p', b')) => proxy_inv p' /\ tx_ok b'
  | None => ~ room p
  end.
Proof.
  intros I Lm Hb. unfold MqListenerWork. case_bool_decide as E; [done|].
  unfold iobind at 1, on_buffer. cbn [fst snd]. unfold iobind at 1.
  pose proof (proxy_parse_ok p (store_rx msg b) I (store_rx_ok msg b Hb Lm)) as Ps.
  destruct (parseBuffer _) as [[[m|] [p1 b1]]|]; [|by destruct Ps as [? [? _]]|done].
  destruct Ps as [I1 [T1 _]]. destruct (_ =? ACK_NONE); [done|].
  assert (okio proxy_inv tx_ok (makeBuffer m ;;; st <- get_state ;;
    if hasTransmitter (m_sessionId m) st && send_ok (m_sessionId m)
    then (fun s => Some (Some (Some (m_sessionId m, sent s.2)), s)) else iofail)) as Ok.
  { apply okio_bind; [apply proxy_make_ok|]. intros _. apply okio_get. intros q Iq.
    destruct (_ && _); [|apply okio_fail]. intros q' b' Iq' Hb'. by eexists _, q', b'. }
  by destruct (Ok p1 b1 I1 T1) as (r & p2 & b2 & -> & ?).
Qed.
Lemma notifyClients_ok i t : okio proxy_inv tx_ok (notifyClients i t).
Proof.
  unfold notifyClients. apply okio_get. intros p I. destruct (get _ _) as [d|]; [|apply okio_ret].
  apply okio_bind; [apply proxy_make_ok|]. intros _.
  apply okio_bind; [apply okio_put, removes_inv, I|]. intros _ q b Iq Hb. by eexists _, q, b.
Qed.
Lemma notifyDisconnect_ok : okio proxy_inv tx_ok notifyDisconnect.
Proof.
  unfold notifyDisconnect. apply okio_bind; [apply proxy_make_ok|]. intros _. apply okio_get. intros p I.
  apply okio_bind; [apply okio_put, removes_inv, I|]. intros _ q b Iq Hb. by eexists _, q, b.
Qed.
End Listener.

(** ** All states of the proxy *)

(** The threads of the proxy: the listener on any octets, notifications, the
    events of ptp4l and chrony; the queues behave differently each time. *)
Inductive proxy_step `{Padding} : Proxy * Buffer -> Proxy * Buffer -> Prop :=
| step_listener (Q : Queues) msg s r s' : (length msg <= MAX_BUFFER_LENGTH)%nat ->
    MqListenerWork msg s = Some (r, s') -> proxy_step s s'
| step_notify (Q : Queues) i t p b b' r s' : tx_ok b' ->
    notifyClients i t (p, b') = Some (r, s') -> proxy_step (p, b) (s'.1, b)
| step_disconnect (Q : Queues) p b b' r s' : tx_ok b' ->
    notifyDisconnect (p, b') = Some (r, s') -> proxy_step (p, b) (s'.1, b)
| step_ptp i e p b : proxy_step (p, b) (ptpEvent_copy i e p, b)
| step_chrony i e p b : proxy_step (p, b) (chronyEvent_copy i e p, b).

Lemma proxy_step_inv `{Padding} s s' : proxy_step s s' -> proxy_inv s.1 -> tx_ok s.2 ->
  proxy_inv s'.1 /\ tx_ok s'.2.
Proof.
  intros St I T. destruct St as [Q msg [p b] r [p' b'] L E|Q i t p b b' r s' Hb E|Q p b b' r s' Hb E|i e p b|i e p b].
  - pose proof (proxy_listener_ok msg p b I L T) as K. by rewrite E in K.
  - destruct (notifyClients_ok i t p b' I Hb) as (r1 & p1 & b1 & E1 & I1 & _). rewrite E1 in E. injection E as <- <-. exact (conj I1 T).
  - destruct (notifyDisconnect_ok p b' I Hb) as (r1 & p1 & b1 & E1 & I1 & _). rewrite E1 in E. injection E as <- <-. exact (conj I1 T).
  - split; [|done]. apply (events_inv i e zero_chrony_event p I).
  - split; [|done]. apply (events_inv i zero_ptp_event e p I).
Qed.
Lemma proxy_reach_inv `{Padding} cfgs b s : tx_ok b -> rtc proxy_step (Proxy_new cfgs, b) s ->
  proxy_inv s.1 /\ tx_ok s.2.
Proof.
  intros T R. assert (proxy_inv (Proxy_new cfgs, b).1 /\ tx_ok (Proxy_new cfgs, b).2) as I
    by (split; [apply proxy_new_inv|done]).
  revert I. induction R as [|s1 s2 s3 S _ IH]; [done|]. intros [I1 T1]. apply IH. by eapply proxy_step_inv.
Qed.


(** A proxy with a time base, to which a client connects and subscribes. *)
#[local] Instance zeros : Padding := { pad n := repeat x00 n; pad_length n := repeat_length x00 n }.
#[local] Instance all_queues : Queues := {| open_ok _ := true; send_ok _ := true |}.
Definition empty_buffer : Buffer := mk_Buffer 0 0 (repeat x00 MAX_BUFFER_LENGTH).
Definition connect_octets (session : Z) (id : list byte) : list byte :=
  [x00; x00] ++ le_enc 2 session ++ client_id_octets id.
Definition subscribe_octets (session i : Z) : list byte := [x01; x00] ++ le_enc 2 session ++ le_enc 8 i.
Definition listen (s : Proxy * Buffer) (msg : list byte) : Proxy * Buffer :=
  match MqListenerWork msg s with Some (_, s') => s' | None => s end.
Lemma listen_step s msg : (length msg <= MAX_BUFFER_LENGTH)%nat ->
  (if MqListenerWork msg s is Some _ then true else false) = true -> proxy_step s (listen s msg).
Proof.
  intros L. unfold listen. destruct (MqListenerWork _ _) as [[r s']|] eqn:E; [|done]. intros _.
  by eapply (step_listener all_queues).
Qed.
Definition started : Proxy * Buffer :=
  (ptpEvent_copy 1 (mk_ptp_event 5 6 7 true true) (Proxy_new []), empty_buffer).
Definition with_client : Proxy * Buffer := listen started (connect_octets InvalidSessionId [x2f; x41; x00]).
Definition with_subscriber : Proxy * Buffer := listen with_client (subscribe_octets 0 1).

Lemma step_connect : proxy_step started with_client.
Proof. apply listen_step; [apply Nat.leb_le|]; vm_compute; reflexivity. Qed.
Lemma step_subscribe : proxy_step with_client with_subscriber.
Proof. apply listen_step; [apply Nat.leb_le|]; vm_compute; reflexivity. Qed.

