(* ===== verification/ClkClient.v ===== *)
(** * ClkClient.v: the client library of the clock manager

    The state of a client process: its session, the time bases of the proxy and
    the states of the time bases.  The listener thread handles the messages of the
    proxy; the functions of [ClockManager] send requests and wait
    ([src/clkmgr/client]: [client_state.cpp], the [_msg] files, [timebase_state.cpp],
    [clockmanager.cpp]).  A function that waits is its request, and its loop over
    what it sees each time it wakes up. *)

From S2P Require Import Prelude Types ClkEvent ClkEventFacts ClkConfig ClkMsg.

#[local] Open Scope clk_scope.

(** ** State *)

Record ClientState := mk_ClientState {
  m_clientID : list byte; cl_sessionId : Z; m_connected : bool;
  cl_cfgs : TimeBaseConfigurations; cl_states : TimeBaseStates
}.
Definition ClientState_new (id : list byte) : ClientState :=
  mk_ClientState id InvalidSessionId false [] ∅.
Definition set_connected (v : bool) (c : ClientState) : ClientState :=
  mk_ClientState (m_clientID c) (cl_sessionId c) v (cl_cfgs c) (cl_states c).
Definition set_cfgs (v : TimeBaseConfigurations) (c : ClientState) : ClientState :=
  mk_ClientState (m_clientID c) (cl_sessionId c) (m_connected c) v (cl_states c).
Definition set_states (v : TimeBaseStates) (c : ClientState) : ClientState :=
  mk_ClientState (m_clientID c) (cl_sessionId c) (m_connected c) (cl_cfgs c) v.
Definition connectReply (sessionId : Z) (c : ClientState) : ClientState :=
  mk_ClientState (m_clientID c) sessionId true (cl_cfgs c) (cl_states c).

(** The readings of the real time clock during an operation. *)
Class Clock := { reading : nat -> option timespec }.

(** ** Messages of the proxy *)

(** The loop on the configurations: each takes octets of the buffer. *)
Fixpoint parse_cfgs (fuel : nat) (n : Z) : Io ClientState unit :=
  if n =? 0 then ioret tt
  else match fuel with
       | O => fun _ => None
       | S fuel =>
           l <- PARSE_RX CFG_SIZE ;; c <- get_state ;;
           put_state (set_cfgs (addTimeBaseCfg (cfg_of l) (cl_cfgs c)) c) ;;;
           parse_cfgs fuel (n - 1)
       end.

Section Handlers.
Context `{Clock}.

Definition ClientConnectMessage_parse (m : Message) : Io ClientState Message :=
  n <- PARSE_RX 8 ;; parse_cfgs MAX_BUFFER_LENGTH (le_dec n) ;;;
  c <- get_state ;; put_state (connectReply (m_sessionId m) c) ;;;
  ioret (set_msgAck ACK_NONE m).
Definition ClientSubscribeMessage_parse (m : Message) : Io ClientState Message :=
  a <- PARSE_RX PTP_EVENT_SIZE ;; b <- PARSE_RX CHRONY_EVENT_SIZE ;; c <- get_state ;;
  lift (s ← subscribeReply (reading 0) (reading 1) (msg_index m) (ptp_event_of a) (chrony_event_of b)
             (cl_states c); Some (set_states s c)) ;;;
  ioret (set_msgAck ACK_NONE m).
Definition ClientNotificationMessage_parse (m : Message) : Io ClientState Message :=
  t <- PARSE_RX 1 ;;
  if le_dec t =? ClockType_val PTPClock then
    a <- PARSE_RX PTP_EVENT_SIZE ;; c <- get_state ;;
    lift (s ← setTimeBaseStatePtp (reading 0) (msg_index m) (ptp_event_of a) (cl_states c);
          Some (set_states s c)) ;;; ioret m
  else if le_dec t =? ClockType_val SysClock then
    b <- PARSE_RX CHRONY_EVENT_SIZE ;; c <- get_state ;;
    lift (s ← setTimeBaseStateSys (reading 0) (msg_index m) (chrony_event_of b) (cl_states c);
          Some (set_states s c)) ;;; ioret m
  else ioret m.
Definition ClientDisconnectMessage_parse (m : Message) : Io ClientState Message :=
  c <- get_state ;; put_state (set_connected false c) ;;; ioret m.
Definition client_parseBufferTail (m : Message) : Io ClientState Message :=
  match msgId m with
  | CONNECT_MSG => ClientConnectMessage_parse m
  | SUBSCRIBE_MSG => ClientSubscribeMessage_parse m
  | NOTIFY_MESSAGE => ClientNotificationMessage_parse m
  | DISCONNECT_MSG => ClientDisconnectMessage_parse m
  end.
#[global] Instance client_side : Side ClientState := {
  registered _ := true;
  makeBufferTail _ := ioret tt;
  parseBufferTail := client_parseBufferTail;
  hasTransmitter _ _ := true
}.
End Handlers.

(** ** Requests *)

(** [ClientState::connect] up to its wait: the message to send. *)
Definition connect_request (c : ClientState) : Message * ClientState :=
  (set_sessionId (cl_sessionId c) (setClientId (m_clientID c) (new_message CONNECT_MSG)), set_connected false c).
Definition disconnect_request (c : ClientState) : Message :=
  set_sessionId (cl_sessionId c) (new_message DISCONNECT_MSG).
(** [TimeBaseStates::subscribe] up to its wait; [None] inside is a refusal, which
    keeps what was stored before it. *)
Definition subscribe_request (i : Z) (newSub : ClockSyncSubscription) (c : ClientState)
    : option Message * ClientState :=
  if negb (m_connected c) || negb (isTimeBaseIndexPresent i (cl_cfgs c)) then (None, c)
  else
    let '(ok, s) := if ptpSubscribed newSub then setPtpEventSubscription i (ptpSubscription newSub) (cl_states c)
                    else (true, cl_states c) in
    if negb ok then (None, set_states s c)
    else
      let '(ok, s) := if sysSubscribed newSub then setSysEventSubscription i (sysSubscription newSub) s
                      else (true, s) in
      if negb ok then (None, set_states s c)
      else (Some (set_sessionId (cl_sessionId c) (set_timeBaseIndex i (new_message SUBSCRIBE_MSG))),
            set_states s c).

(** The loops that wait for a flag: [wakes] tells each time whether it was the
    timeout, and the flag then.  [None] is a loop that still waits. *)
Fixpoint wait_flag (flag : bool) (wakes : list (bool * bool)) : option bool :=
  if flag then Some true
  else match wakes with
       | [] => None
       | (timeout, flag) :: wakes => if timeout && negb flag then Some false else wait_flag flag wakes
       end.

(** ** Waiting for events *)

Inductive StatusWaitResult := SWRLostConnection | SWRInvalidArgument | SWRNoEventDetected | SWREventDetected.
Definition MSEC_PER_SEC : Z := 1000.
Definition NSEC_PER_MSEC : Z := 1000000.
Definition DEFAULT_LIVENESS_TIMEOUT_IN_MS : Z := 200.
(** The division of C++ rounds to zero. *)
Definition timespec_delta (last cur : timespec) : Z :=
  (tv_sec cur - tv_sec last) * MSEC_PER_SEC + Z.quot (tv_nsec cur - tv_nsec last) NSEC_PER_MSEC.
(** [check_proxy_liveness], where [reconnected] is the result of its [connect]: the
    result and whether a connect message was sent. *)
Definition check_proxy_liveness (now : option timespec) (lastConnectTime : timespec) (reconnected : bool)
    (i : Z) (c : ClientState) : bool * bool :=
  match now, getLastNotificationTime i (cl_states c) with
  | Some cur, Some last =>
      if (timespec_delta last cur <? DEFAULT_LIVENESS_TIMEOUT_IN_MS) ||
         (timespec_delta lastConnectTime cur <? DEFAULT_LIVENESS_TIMEOUT_IN_MS)
      then (true, false) else (reconnected, true)
  | _, _ => (reconnected, true)
  end.

(** One round of [_statusWait]: it ends with a result, or goes on with the state
    that it read. *)
Definition statusWait_round (now : option timespec) (lastConnectTime : timespec) (reconnected : bool)
    (i : Z) (c : ClientState) : (StatusWaitResult * option TimeBaseState + TimeBaseState) * ClientState :=
  if negb (m_connected c) then (inl (SWRLostConnection, None), c)
  else
    match getTimeBaseState i (cl_states c) with
    | None => (inl (SWRInvalidArgument, None), c)
    | Some (state, states) =>
        let c := set_states states c in
        if event_changed state then (inl (SWREventDetected, Some state), c)
        else if (check_proxy_liveness now lastConnectTime reconnected i c).1
             then (inr state, c) else (inl (SWRLostConnection, None), c)
    end.
(** What happens between two rounds: the time, the result of a connect, whether
    the time of the caller is over, and what the listener did to the state. *)
Record between := mk_between {
  bw_now : option timespec; bw_lastConnect : timespec; bw_reconnected : bool; bw_over : bool;
  bw_listener : ClientState -> ClientState
}.
(** [None] is a caller that still waits. *)
Fixpoint statusWait_loop (i : Z) (rounds : list between) (c : ClientState) (data : ClockSyncData)
    : option (StatusWaitResult * ClockSyncData * ClientState) :=
  match rounds with
  | [] => None
  | r :: rounds =>
      match statusWait_round (bw_now r) (bw_lastConnect r) (bw_reconnected r) i c with
      | (inl (res, state), c) =>
          Some (res, match state with Some state => updateAll state data | None => data end, c)
      | (inr state, c) =>
          if bw_over r then Some (SWRNoEventDetected, updateAll state data, c)
          else statusWait_loop i rounds (bw_listener r c) data
      end
  end.
Definition statusWait (i : Z) (rounds : list between) (c : ClientState) (data : ClockSyncData)
    : option (StatusWaitResult * ClockSyncData * ClientState) :=
  if negb (m_connected c) then Some (SWRLostConnection, data, c)
  else if negb (getSubscribed i (cl_states c)) then Some (SWRInvalidArgument, data, c)
  else statusWait_loop i rounds c data.
Definition statusWaitByName (name : list byte) (rounds : list between) (c : ClientState) (data : ClockSyncData)
    : option (StatusWaitResult * ClockSyncData * ClientState) :=
  if negb (m_connected c) then Some (SWRLostConnection, data, c)
  else match BaseNameToBaseIndex name (cl_cfgs c) with
       | None => Some (SWRInvalidArgument, data, c)
       | Some i => if negb (getSubscribed i (cl_states c)) then Some (SWRInvalidArgument, data, c)
                   else statusWait_loop i rounds c data
       end.

(** * The listener of a client

    The listener thread of a client returns from every message, and never touches
    what the program subscribed to. *)

#[local] Open Scope clk_scope.

(** ** The states of the time bases *)

Definition states_ok (m : TimeBaseStates) : Prop := map_Forall (fun _ s => thresholds_ok s) (m : gmap Z TimeBaseState).
(** All states are still there with their subscriptions. *)
Definition subscriptions_kept (m m' : TimeBaseStates) : Prop := forall j s, m !! j = Some s ->
  exists s', m' !! j = Some s' /\ ptpEventSub s' = ptpEventSub s /\ sysEventSub s' = sysEventSub s.
(** What an operation of the listener does to them. *)
Definition states_step (m m' : TimeBaseStates) : Prop := states_ok m' /\ subscriptions_kept m m'.

Lemma kept_refl m : subscriptions_kept m m.
Proof. intros j s G. by exists s. Qed.
Lemma kept_trans m1 m2 m3 : subscriptions_kept m1 m2 -> subscriptions_kept m2 m3 -> subscriptions_kept m1 m3.
Proof.
  intros A B j s G. destruct (A j s G) as (s1 & G1 & E1 & E2). destruct (B j s1 G1) as (s2 & G2 & E3 & E4).
  exists s2. by rewrite E3, E4.
Qed.
Lemma default_thresholds : thresholds_ok tbs_default.
Proof. split; cbn; lia. Qed.
Lemma state_of_ok m i : states_ok m -> thresholds_ok (state_of m i).
Proof.
  intros M. unfold state_of. destruct (m !! index i) as [s|] eqn:G; [by apply (M _ _ G)|apply default_thresholds].
Qed.
(** A state replaced by one with its subscriptions. *)
Lemma insert_step m i s' : states_ok m -> ptpEventSub s' = ptpEventSub (state_of m i) ->
  sysEventSub s' = sysEventSub (state_of m i) -> states_step m (<[index i := s']> m).
Proof.
  intros M E1 E2. split.
  - apply (map_Forall_insert_2 (M := gmap Z)); [|done]. unfold thresholds_ok. rewrite E1, E2. by apply state_of_ok.
  - intros j s G. destruct (decide (j = index i)) as [->|N].
    + exists s'. split; [apply (lookup_insert_eq (M := gmap Z))|].
      assert (state_of m i = s) as <- by (unfold state_of; by rewrite G). done.
    + exists s. split; [|done]. rewrite <- G. apply (lookup_insert_ne (M := gmap Z)). congruence.
Qed.
Lemma notify_step (n : notification) m i : states_ok m -> exists s, notify n (state_of m i) = Some s /\
  states_step m (<[index i := s]> m).
Proof.
  intros M. destruct (notify_ok n (state_of m i) (state_of_ok m i M)) as (s & E & E1 & E2).
  exists s. split; [done|]. by apply insert_step.
Qed.
Lemma setPtp_step now i e m : states_ok m -> exists m', setTimeBaseStatePtp now i e m = Some m' /\ states_step m m'.
Proof.
  intros M. destruct (notify_step (N_ptp now e) m i M) as (s & E & St). eexists. split; [|exact St].
  unfold setTimeBaseStatePtp. cbn [notify] in E. by rewrite E.
Qed.
Lemma setSys_step now i e m : states_ok m -> exists m', setTimeBaseStateSys now i e m = Some m' /\ states_step m m'.
Proof.
  intros M. destruct (notify_step (N_sys now e) m i M) as (s & E & St). eexists. split; [|exact St].
  unfold setTimeBaseStateSys. cbn [notify] in E. by rewrite E.
Qed.
Lemma reply_step now now' i e e' m : states_ok m ->
  exists m', subscribeReply now now' i e e' m = Some m' /\ states_step m m'.
Proof.
  intros M. unfold subscribeReply.
  assert (exists m1, (if isPTPDataEmpty e then Some m else setTimeBaseStatePtp now i e m) = Some m1 /\ states_step m m1)
    as (m1 & -> & M1 & K1).
  { destruct (isPTPDataEmpty e); [|by apply setPtp_step]. exists m. split; [done|]. split; [done|apply kept_refl]. }
  cbn [mbind option_bind].
  assert (exists m2, (if isChronyDataEmpty e' then Some m1 else setTimeBaseStateSys now' i e' m1) = Some m2 /\
    states_step m1 m2) as (m2 & -> & M2 & K2).
  { destruct (isChronyDataEmpty e'); [|by apply setSys_step]. exists m1. split; [done|]. split; [done|apply kept_refl]. }
  cbn [mbind option_bind]. eexists. split; [done|].
  assert (states_step m2 (setSubscribed i true m2)) as [M3 K3] by (by apply insert_step).
  split; [done|]. eapply kept_trans; [exact K1|]. by eapply kept_trans.
Qed.

(** ** The listener *)

Section Listener.
Context `{Clock} (c0 : ClientState).

(** The states of the client since [c0]. *)
Definition client_inv (c : ClientState) : Prop := states_ok (cl_states c) /\
  subscriptions_kept (cl_states c0) (cl_states c) /\ m_clientID c = m_clientID c0.

Lemma client_inv_step c m : client_inv c -> states_step (cl_states c) m -> client_inv (set_states m c).
Proof.
  intros (M & K & E) [M' K']. split; [done|]. split; [|done]. cbn. by eapply kept_trans.
Qed.
Lemma lift_ok (c : ClientState) (o : option TimeBaseStates) :
  client_inv c -> (exists m, o = Some m /\ states_step (cl_states c) m) ->
  okio client_inv rx_ok (lift (s ← o; Some (set_states s c))).
Proof.
  intros I (m & -> & St). apply okio_lift. eexists. split; [done|]. by apply client_inv_step.
Qed.

(** The loop of the configurations ends before its fuel: each takes 144 octets of
    at most 8192. *)
Lemma parse_cfgs_ok fuel : forall n c b, client_inv c -> rx_ok b ->
  (m_rcvSize b - m_offset b < CFG_SIZE * fuel)%nat ->
  exists r c' b', parse_cfgs fuel n (c, b) = Some (r, (c', b')) /\ client_inv c' /\ rx_ok b'.
Proof.
  unfold CFG_SIZE. induction fuel as [|fuel IH]; intros n c b I B L; [lia|]. cbn [parse_cfgs].
  destruct (n =? 0); [by eexists _, c, b|]. unfold iobind at 1, PARSE_RX. cbn [fst snd].
  rewrite lenLeft_ok by done.
  destruct (Z.ltb_spec (Z.of_nat (m_rcvSize b - m_offset b)) (Z.of_nat CFG_SIZE)); [by eexists _, c, b|].
  destruct B as [(Lb & Ob & Rb) OR]. unfold CFG_SIZE in *.
  destruct (Nat.leb_spec (m_offset b + 144) MAX_BUFFER_LENGTH); [|lia].
  unfold iobind at 1, get_state. cbn [fst]. unfold iobind at 1, put_state. cbn [snd].
  apply IH; [done|unfold rx_ok, tx_ok, addOffset; cbn; lia|cbn; lia].
Qed.
Lemma parse_cfgs_okio n : okio client_inv rx_ok (parse_cfgs MAX_BUFFER_LENGTH n).
Proof.
  intros c b I B. apply parse_cfgs_ok; [done..|]. destruct B as [(_ & _ & R) _]. rewrite MAX_val in *.
  unfold CFG_SIZE. lia.
Qed.

Lemma client_tail_ok m : okio client_inv rx_ok (client_parseBufferTail m).
Proof.
  unfold client_parseBufferTail, ClientConnectMessage_parse, ClientSubscribeMessage_parse, ClientNotificationMessage_parse,
    ClientDisconnectMessage_parse. destruct (msgId m).
  - apply okio_bind; [apply okio_PARSE|]. intros n. apply okio_bind; [apply parse_cfgs_okio|]. intros _.
    apply okio_get. intros c I. apply okio_bind; [by apply okio_put|]. intros _. apply okio_ret.
  - apply okio_bind; [apply okio_PARSE|]. intros a. apply okio_bind; [apply okio_PARSE|]. intros b.
    apply okio_get. intros c I. apply okio_bind; [|intros _; apply okio_ret].
    apply lift_ok; [done|]. apply reply_step, I.
  - apply okio_bind; [apply okio_PARSE|]. intros t. destruct (_ =? _); [|destruct (_ =? _); [|apply okio_ret]].
    + apply okio_bind; [apply okio_PARSE|]. intros a. apply okio_get. intros c I.
      apply okio_bind; [|intros _; apply okio_ret]. apply lift_ok; [done|]. apply setPtp_step, I.
    + apply okio_bind; [apply okio_PARSE|]. intros a. apply okio_get. intros c I.
      apply okio_bind; [|intros _; apply okio_ret]. apply lift_ok; [done|]. apply setSys_step, I.
  - apply okio_get. intros c I. apply okio_bind; [by apply okio_put|]. intros _. apply okio_ret.
Qed.
Lemma client_parse_ok : okio client_inv rx_ok parseBuffer.
Proof.
  unfold parseBuffer. apply okio_bind; [apply okio_PARSE|]. intros id.
  destruct (msgId_of _) as [i|]; [|apply okio_fail]. cbn [registered client_side].
  apply okio_bind; [apply okio_PARSE|]. intros ack. apply okio_bind; [|intros m; apply client_tail_ok].
  unfold parseBufferComm, ConnectMessage_parse, SubscribeMessage_parse, NotificationMessage_parse, DisconnectMessage_parse.
  destruct (msgId _); auto 6 with okio.
Qed.
Lemma client_make_ok m : okio client_inv tx_ok (makeBuffer m).
Proof.
  unfold makeBuffer. apply okio_bind; [auto with okio|]. intros _. apply okio_bind; [apply okio_WRITE|]. intros _.
  apply okio_bind; [apply okio_WRITE|]. intros _. apply okio_bind; [apply okio_write_all|]. intros _. apply okio_ret.
Qed.
End Listener.

(** The listener of a client whose thresholds an [int32_t] holds returns from
    any octets that fit in its buffer, without leaving the buffer: it loses no time
    base, does not change any subscription of the program, and again all thresholds
    fit. *)
Theorem client_listener_safe `{Clock} `{Queues} msg c b :
  states_ok (cl_states c) -> (length msg <= MAX_BUFFER_LENGTH)%nat -> tx_ok b ->
  exists r c' b', MqListenerWork msg (c, b) = Some (r, (c', b')) /\ tx_ok b' /\
    states_ok (cl_states c') /\ subscriptions_kept (cl_states c) (cl_states c') /\ m_clientID c' = m_clientID c.
Proof.
  intros M L B. assert (client_inv c c) as I by (split; [done|split; [apply kept_refl|done]]).
  unfold MqListenerWork. case_bool_decide as N.
  { exists (Some None), c, b. split; [done|]. split; [exact B|]. exact I. }
  unfold iobind at 1, on_buffer. cbn [fst snd]. unfold iobind at 1.
  destruct (client_parse_ok c c (store_rx msg b) I (store_rx_ok msg b B L)) as ([m|] & c1 & b1 & E & I1 & T1 & _);
    rewrite E; [|by eexists _, c1, b1].
  destruct (_ =? ACK_NONE); [by eexists _, c1, b1|].
  destruct (client_make_ok c m c1 b1 I1 T1) as (r2 & c2 & b2 & E2 & I2 & T2). unfold iobind at 1. rewrite E2.
  destruct r2 as [u|]; [|exists None, c2, b2; exact (conj eq_refl (conj T2 I2))]. unfold iobind, get_state. cbn [fst].
  destruct (_ && _); eexists _, c2, b2; exact (conj eq_refl (conj T2 I2)).
Qed.

#[local] Instance no_time : Clock := {| reading _ := None |}.
#[local] Instance open_queues : Queues := {| open_ok _ := true; send_ok _ := true |}.
(** A notification, with garbage after it. *)
Definition some_octets : list byte := [x02; x00] ++ le_enc 8 3 ++ [x01] ++ repeat x07 40.
Definition some_client : ClientState :=
  set_states (<[3 := set_subscribed true tbs_default]> ∅) (connectReply 0 (ClientState_new [x2f; x41])).
Lemma client_listener_safe_witness : exists r c' b',
  MqListenerWork some_octets (some_client, mk_Buffer 0 0 (repeat x00 MAX_BUFFER_LENGTH)) = Some (r, (c', b')) /\
  subscriptions_kept (cl_states some_client) (cl_states c').
Proof.
  destruct (client_listener_safe some_octets some_client (mk_Buffer 0 0 (repeat x00 MAX_BUFFER_LENGTH)))
    as (r & c' & b' & E & _ & _ & K & _).
  - apply (map_Forall_insert_2 (M := gmap Z)); [apply default_thresholds|apply (map_Forall_empty (M := gmap Z))].
  - apply Nat.leb_le. vm_compute. reflexivity.
  - split; [apply repeat_length|split; apply Nat.le_0_l].
  - exists r, c', b'. exact (conj E K).
Defined.
