(* ===== verification/ClkRound.v ===== *)
(** * ClkRound.v: the proxy and a client together

    A message that one side builds is what the other side parses.  The theorems
    follow a connect request to the proxy and its reply back, a notification from
    the event of ptp4l to the state of a client, and a call of [statusWait] to its
    end. *)

From S2P Require Import Prelude CStr Types ClkEvent ClkConfig ClkMsg ClkProxy ClkClient.

#[local] Open Scope clk_scope.

(** ** Messages on both sides *)

(** The octets of a message before those of the tail. *)
Definition head_octets (m : Message) : list byte :=
  z2b (msgId_val (msgId m)) :: z2b (m_msgAck m) :: concat (comm_octets m).
(** The fields have their widths. *)
Definition wire_ok (m : Message) : Prop :=
  uint 8 (m_msgAck m) /\ uint 16 (m_sessionId m) /\ uint 64 (msg_index m).
(** What the other side gets: the fields that the class sends. *)
Definition received (m : Message) : Message :=
  match msgId m with
  | CONNECT_MSG => mk_Message CONNECT_MSG (m_msgAck m) (m_sessionId m) (client_id_octets (clientId m)) 0 PTPClock
  | SUBSCRIBE_MSG => mk_Message SUBSCRIBE_MSG (m_msgAck m) (m_sessionId m) [] (msg_index m) PTPClock
  | NOTIFY_MESSAGE => mk_Message NOTIFY_MESSAGE (m_msgAck m) InvalidSessionId [] (msg_index m) PTPClock
  | DISCONNECT_MSG => mk_Message DISCONNECT_MSG (m_msgAck m) (m_sessionId m) [] 0 PTPClock
  end.

Lemma length_client_id id : length (client_id_octets id) = CLIENTID_LENGTH.
Proof.
  unfold client_id_octets. rewrite length_app, repeat_length, length_take. unfold CLIENTID_LENGTH. lia.
Qed.
Lemma le_dec_byte z : uint 8 z -> le_dec [z2b z] = z.
Proof. intros H. change [z2b z] with (le_enc 1 z). rewrite le_dec_enc. by apply Z.mod_small. Qed.
Lemma le_dec_enc_small n z : uint (8 * Z.of_nat n) z -> le_dec (le_enc n z) = z.
Proof.
  intros H. rewrite le_dec_enc. apply Z.mod_small. change 256 with (2 ^ 8). rewrite <- Z.pow_mul_r by lia. done.
Qed.
Lemma msgId_of_val i : msgId_of (msgId_val i) = Some i.
Proof. by destruct i. Qed.

Lemma parses_one {St} z (st : St) l : parses (PARSE_RX 1) st (z2b z :: l) [z2b z] st l.
Proof. by apply (parses_rx 1 st [z2b z] l). Qed.

Lemma parses_comm {St} m (st : St) l : wire_ok m ->
  parses (parseBufferComm (set_msgAck (m_msgAck m) (new_message (msgId m)))) st (concat (comm_octets m) ++ l)
    (received m) st l.
Proof.
  intros (A & S & X). unfold parseBufferComm, comm_octets, received, ConnectMessage_parse, SubscribeMessage_parse, NotificationMessage_parse, DisconnectMessage_parse,
    ConnectMessage_octets, SubscribeMessage_octets, NotificationMessage_octets, DisconnectMessage_octets. cbn [msgId set_msgAck new_message].
  destruct (msgId m); cbn [concat]; rewrite ?app_nil_r, <- ?app_assoc.
  - eapply parses_bind; [apply parses_rx, length_le_enc|].
    eapply parses_bind; [apply parses_rx, length_client_id|].
    rewrite le_dec_enc_small by done. apply parses_ret.
  - eapply parses_bind; [apply parses_rx, length_le_enc|].
    eapply parses_bind; [apply parses_rx, length_le_enc|].
    rewrite !le_dec_enc_small by done. apply parses_ret.
  - eapply parses_bind; [apply parses_rx, length_le_enc|].
    rewrite !le_dec_enc_small by done. apply parses_ret.
  - eapply parses_bind; [apply parses_rx, length_le_enc|].
    rewrite !le_dec_enc_small by done. apply parses_ret.
Qed.

Section Sides.
Context `{Side St}.

Lemma parses_message m st t m' st' l' : wire_ok m -> registered (msgId m) = true ->
  parses (parseBufferTail (received m)) st t m' st' l' ->
  parses parseBuffer st (head_octets m ++ t) m' st' l'.
Proof.
  intros W R T. unfold parseBuffer, head_octets. cbn [app].
  eapply parses_bind; [apply parses_one|]. rewrite le_dec_byte by (destruct (msgId m); by vm_compute).
  rewrite msgId_of_val, R. eapply parses_bind; [apply parses_one|]. rewrite le_dec_byte by apply W.
  eapply parses_bind; [by apply parses_comm|]. exact T.
Qed.

Lemma built m st t b : writes (makeBufferTail m) st t -> tx_ok b ->
  (length (head_octets m ++ t) <= MAX_BUFFER_LENGTH)%nat ->
  exists b', makeBuffer m (st, b) = Some (Some tt, (st, b')) /\ tx_ok b' /\ sent b' = head_octets m ++ t.
Proof.
  intros T B L.
  assert (writes (WRITE_TX [z2b (msgId_val (msgId m))] ;;; WRITE_TX [z2b (m_msgAck m)] ;;;
    write_all (comm_octets m) ;;; makeBufferTail m) st (head_octets m ++ t)) as W.
  { apply (writes_bind _ _ _ [_]); [apply writes_tx|]. apply (writes_bind _ _ _ [_]); [apply writes_tx|].
    apply writes_bind; [apply writes_all|done]. }
  destruct (W (resetOffset b) (tx_reset _ B) L) as (b' & E & B' & S). exists b'. split; [exact E|]. split; [done|exact S].
Qed.

Lemma rest_store msg b : tx_ok b -> (length msg <= MAX_BUFFER_LENGTH)%nat -> rest (store_rx msg b) = msg.
Proof. intros (L & _) M. unfold rest, store_rx, setLen. cbn. by rewrite drop_0, take_app_length. Qed.

Context `{Queues}.

(** A message without an answer. *)
Lemma listens msg st m st' l' b : parses parseBuffer st msg m st' l' -> msg <> [] ->
  (length msg <= MAX_BUFFER_LENGTH)%nat -> tx_ok b -> m_msgAck m = ACK_NONE ->
  exists b', MqListenerWork msg (st, b) = Some (Some None, (st', b')) /\ tx_ok b'.
Proof.
  intros P N L B A. unfold MqListenerWork. rewrite bool_decide_eq_false_2 by done.
  destruct (P (store_rx msg b)) as (b' & E & B' & _); [by apply store_rx_ok|by apply rest_store|].
  exists b'. unfold iobind, on_buffer. cbn [fst snd]. rewrite E, A. split; [done|apply B'].
Qed.
(** A message with an answer that fits. *)
Lemma answers msg st m st' l' t b : parses parseBuffer st msg m st' l' -> msg <> [] ->
  (length msg <= MAX_BUFFER_LENGTH)%nat -> tx_ok b -> m_msgAck m <> ACK_NONE ->
  writes (makeBufferTail m) st' t -> (length (head_octets m ++ t) <= MAX_BUFFER_LENGTH)%nat ->
  hasTransmitter (m_sessionId m) st' = true -> send_ok (m_sessionId m) = true ->
  exists b', MqListenerWork msg (st, b) = Some (Some (Some (m_sessionId m, head_octets m ++ t)), (st', b')) /\
    tx_ok b'.
Proof.
  intros P N L B A W F T S. unfold MqListenerWork. rewrite bool_decide_eq_false_2 by done.
  destruct (P (store_rx msg b)) as (b1 & E & [B1 _] & _); [by apply store_rx_ok|by apply rest_store|].
  destruct (built m st' t b1 W B1 F) as (b2 & E2 & B2 & S2).
  exists b2. unfold iobind, on_buffer, get_state. cbn [fst snd]. rewrite E.
  rewrite (proj2 (Z.eqb_neq _ _) A). rewrite E2. cbn [fst]. rewrite T, S. cbn. rewrite S2. split; [reflexivity|exact B2].
Qed.
(** One with an answer that does not fit: the listener fails. *)
Lemma answer_refused msg st m st' l' t b : parses parseBuffer st msg m st' l' -> msg <> [] ->
  (length msg <= MAX_BUFFER_LENGTH)%nat -> tx_ok b -> m_msgAck m <> ACK_NONE ->
  refuses (makeBufferTail m) st' t -> (MAX_BUFFER_LENGTH < length (head_octets m ++ t))%nat ->
  exists b', MqListenerWork msg (st, b) = Some (None, (st', b')).
Proof.
  intros P N L B A W F. unfold MqListenerWork. rewrite bool_decide_eq_false_2 by done.
  destruct (P (store_rx msg b)) as (b1 & E & [B1 _] & _); [by apply store_rx_ok|by apply rest_store|].
  assert (refuses (WRITE_TX [z2b (msgId_val (msgId m))] ;;; WRITE_TX [z2b (m_msgAck m)] ;;;
    write_all (comm_octets m) ;;; makeBufferTail m) st' (head_octets m ++ t)) as R.
  { apply (refuses_bind _ _ _ [_]); [apply writes_tx|apply refuses_tx|].
    apply (refuses_bind _ _ _ [_]); [apply writes_tx|apply refuses_tx|].
    apply refuses_bind; [apply writes_all|apply refuses_all|done]. }
  destruct (R (resetOffset b1) (tx_reset _ B1) F) as (b2 & E2 & B2). exists b2.
  unfold iobind at 1, on_buffer. cbn [fst snd]. unfold iobind at 1. rewrite E.
  rewrite (proj2 (Z.eqb_neq _ _) A). unfold iobind at 1.
  assert (makeBuffer m (st', b1) = Some (None, (st', b2))) as -> by exact E2. done.
Qed.
End Sides.

(** ** Structures *)

(** A configuration of the fields' widths. *)
Definition cfg_wf (c : TimeBaseCfg) : Prop :=
  uint 64 (timeBaseIndex c) /\ length (timeBaseName c) = STRING_SIZE_MAX /\
  length (interfaceName c) = STRING_SIZE_MAX /\ uint 8 (transportSpecific c) /\ uint 8 (domainNumber c).
Definition ptp_event_wf (e : ptp_event) : Prop :=
  sint 64 (pe_clockOffset e) /\ uint 64 (pe_gmClockUUID e) /\ uint 64 (pe_syncInterval e).
Definition chrony_event_wf (e : chrony_event) : Prop :=
  sint 64 (ce_clockOffset e) /\ uint 64 (ce_gmClockUUID e) /\ uint 64 (ce_syncInterval e).

Lemma field_at {off n} (x l r : list byte) : length x = off -> length l = n -> field off n (x ++ l ++ r) = l.
Proof. intros <- <-. unfold field. by rewrite drop_app_length, take_app_length. Qed.
Lemma field_0 {n} (l r : list byte) : length l = n -> field 0 n (l ++ r) = l.
Proof. apply (field_at []). done. Qed.
Lemma octet_at_app off (x l : list byte) : (length x <= off)%nat -> octet_at off (x ++ l) = octet_at (off - length x) l.
Proof. intros L. unfold octet_at. by rewrite lookup_app_r. Qed.
Lemma o2b_b2o b : o2b (b2o b) = b.
Proof. by destruct b. Qed.
Lemma b2z_z2b_small z : uint 8 z -> b2z (z2b z) = z.
Proof. intros U. rewrite b2z_z2b. by apply Z.mod_small. Qed.
Lemma le_dec_enc_signed z : sint 64 z -> swrap 64 (le_dec (le_enc 8 z)) = z.
Proof.
  intros S. rewrite le_dec_enc. change (256 ^ Z.of_nat 8) with (2 ^ 64). fold (uwrap 64 z).
  rewrite swrap_uwrap. by apply swrap_small.
Qed.

Section Octets.
Context `{Padding}.

Lemma length_cfg_octets c : cfg_wf c -> length (cfg_octets c) = CFG_SIZE.
Proof.
  intros (_ & N & I & _). unfold cfg_octets. rewrite !length_app, length_le_enc, N, I, pad_length. done.
Qed.
Lemma cfg_of_octets c : cfg_wf c -> cfg_of (cfg_octets c) = c.
Proof.
  intros (X & N & I & T & D). unfold cfg_of, cfg_octets.
  rewrite (field_0 (le_enc 8 _)) by apply length_le_enc.
  rewrite (field_at (le_enc 8 _) (timeBaseName c)) by (apply N || apply length_le_enc).
  rewrite (app_assoc (le_enc 8 _)), (field_at _ (interfaceName c))
    by (done || (rewrite length_app, length_le_enc, N; done)).
  rewrite (app_assoc _ (interfaceName c)).
  set (x := (le_enc 8 _ ++ _) ++ _). assert (length x = 136%nat) as Lx.
  { subst x. rewrite !length_app, length_le_enc, N, I. done. } clearbody x.
  rewrite !(octet_at_app _ x), !Lx by lia. rewrite le_dec_enc_small by done. unfold octet_at. cbn -[o2b b2o z2b b2z].
  rewrite !b2z_z2b_small, !o2b_b2o by done. by destruct c.
Qed.
Lemma length_event_octets e : length (ptp_event_octets e) = PTP_EVENT_SIZE.
Proof. unfold ptp_event_octets. rewrite !length_app, !length_le_enc. cbn. by rewrite pad_length. Qed.
Lemma length_chrony_octets e : length (chrony_event_octets e) = CHRONY_EVENT_SIZE.
Proof. unfold chrony_event_octets. by rewrite !length_app, !length_le_enc. Qed.
Lemma ptp_event_of_octets e : ptp_event_wf e -> ptp_event_of (ptp_event_octets e) = e.
Proof.
  intros (O & U & S). unfold ptp_event_of, ptp_event_octets.
  rewrite (field_0 (le_enc 8 _)) by apply length_le_enc.
  rewrite (field_at (le_enc 8 _) (le_enc 8 _)) by apply length_le_enc.
  rewrite (app_assoc (le_enc 8 _)), (field_at _ (le_enc 8 _)) by (rewrite ?length_app, ?length_le_enc; done).
  rewrite (app_assoc _ (le_enc 8 (pe_syncInterval e))).
  set (x := (le_enc 8 _ ++ _) ++ _). assert (length x = 24%nat) as Lx.
  { subst x. by rewrite !length_app, !length_le_enc. } clearbody x.
  rewrite !(octet_at_app _ x), !Lx by lia. rewrite le_dec_enc_signed, !le_dec_enc_small by done. unfold octet_at. cbn -[o2b b2o z2b b2z].
  rewrite !o2b_b2o. by destruct e.
Qed.
Lemma chrony_event_of_octets e : chrony_event_wf e -> chrony_event_of (chrony_event_octets e) = e.
Proof.
  intros (O & U & S). unfold chrony_event_of, chrony_event_octets.
  rewrite (field_0 (le_enc 8 _)) by apply length_le_enc.
  rewrite (field_at (le_enc 8 _) (le_enc 8 _)) by apply length_le_enc.
  rewrite <- (app_nil_r (le_enc 8 (ce_syncInterval e))).
  rewrite (app_assoc (le_enc 8 _)), (field_at _ (le_enc 8 _)) by (rewrite ?length_app, ?length_le_enc; done).
  rewrite le_dec_enc_signed, !le_dec_enc_small by done. by destruct e.
Qed.
End Octets.

(** ** Connecting *)

(** The time bases that the client has after the reply. *)
Definition add_cfgs (l : list TimeBaseCfg) (m : TimeBaseConfigurations) : TimeBaseConfigurations :=
  foldl (fun m c => addTimeBaseCfg c m) m l.
Lemma set_cfgs_id c : set_cfgs (cl_cfgs c) c = c.
Proof. by destruct c. Qed.

Lemma parses_cfgs `{Padding} rest : forall l fuel c, (length l <= fuel)%nat -> Forall cfg_wf l ->
  parses (parse_cfgs fuel (len l)) c (concat (map cfg_octets l) ++ rest) tt (set_cfgs (add_cfgs l (cl_cfgs c)) c) rest.
Proof.
  induction l as [|x l IH]; intros fuel c L F.
  - unfold len. cbn. rewrite set_cfgs_id. destruct fuel; apply parses_ret.
  - apply Forall_cons in F as [Fx F]. cbn [length] in L. destruct fuel as [|fuel]; [lia|].
    cbn [parse_cfgs concat map]. rewrite (proj2 (Z.eqb_neq _ 0)) by (unfold len; cbn [length]; lia).
    rewrite <- app_assoc. eapply parses_bind; [by apply parses_rx, length_cfg_octets|].
    eapply parses_bind; [apply parses_get|]. eapply parses_bind; [apply parses_put|].
    rewrite cfg_of_octets by done. replace (len (x :: l) - 1) with (len l) by (unfold len; cbn [length]; lia).
    apply (IH fuel (set_cfgs (addTimeBaseCfg x (cl_cfgs c)) c)); [lia|done].
Qed.
Lemma get_add_cfgs i l : forall m, ordered m -> ordered (add_cfgs l m) /\
  (mem i (add_cfgs l m) = true <-> mem i m = true \/ exists c, c ∈ l /\ timeBaseIndex c = i).
Proof.
  induction l as [|x l IH]; intros m O; cbn.
  - split; [done|]. split; [by left|]. intros [?|(c & Hc & _)]; [done|]. by apply elem_of_nil in Hc.
  - destruct (IH (addTimeBaseCfg x m)) as [O' M]; [by apply ordered_set|]. split; [done|].
    rewrite M. unfold addTimeBaseCfg at 1. rewrite mem_set by done. split.
    + intros [E|(c & Hc & E)]; [|right; exists c; split; [by right|done]].
      apply orb_true_iff in E as [E|E]; [|by left]. right. exists x. split; [by left|]. by apply Z.eqb_eq in E.
    + intros [E|(c & Hc & E)]; [left; by rewrite E, orb_true_r|]. apply elem_of_cons in Hc as [->|Hc].
      * left. by rewrite E, Z.eqb_refl.
      * right. by exists c.
Qed.

Section Connect.
Context `{Padding} `{Clock}.

Lemma client_request c st b : tx_ok b ->
  exists b', makeBuffer (connect_request c).1 (st : ClientState, b) = Some (Some tt, (st, b')) /\ tx_ok b' /\
    sent b' = head_octets (connect_request c).1.
Proof.
  intros B. destruct (built (connect_request c).1 st [] b) as (b' & E & T & S); [apply writes_ret|done| |].
  - rewrite app_nil_r. unfold head_octets, comm_octets, ConnectMessage_octets. cbn [msgId connect_request concat set_sessionId setClientId
      new_message fst length]. rewrite !length_app, length_le_enc, length_client_id, MAX_val. cbn [length].
    unfold CLIENTID_LENGTH. lia.
  - exists b'. rewrite app_nil_r in S. exact (conj E (conj T S)).
Qed.

Context `{Queues}.

(** The answer of the proxy. *)
Definition reply (s : Z) (c : ClientState) : Message :=
  mk_Message CONNECT_MSG ACK_SUCCESS s (client_id_octets (m_clientID c)) 0 PTPClock.
Definition reply_tail (p : Proxy) : list byte :=
  le_enc 8 (len (timeBaseCfgs p)) ++ concat (map cfg_octets (map base (timeBaseCfgs p))).
Definition reply_octets (s : Z) (c : ClientState) (p : Proxy) : list byte := head_octets (reply s c) ++ reply_tail p.

Lemma length_request c : length (head_octets (connect_request c).1) = 516%nat.
Proof.
  unfold head_octets, comm_octets, ConnectMessage_octets. cbn [msgId connect_request concat set_sessionId setClientId new_message fst length].
  by rewrite !length_app, length_le_enc, length_client_id.
Qed.
Lemma length_cfgs l : Forall cfg_wf l -> length (concat (map cfg_octets l)) = (CFG_SIZE * length l)%nat.
Proof.
  unfold CFG_SIZE. induction 1 as [|x l Hx F IH]; [done|]. cbn [map concat]. rewrite length_app, IH, length_cfg_octets by done.
  unfold CFG_SIZE. cbn [length]. lia.
Qed.
Lemma length_reply s c p : Forall cfg_wf (map base (timeBaseCfgs p)) ->
  length (reply_octets s c p) = (524 + CFG_SIZE * length (timeBaseCfgs p))%nat.
Proof.
  intros F. unfold reply_octets, reply_tail. rewrite !length_app, (length_cfgs _ F), length_map, length_le_enc.
  unfold head_octets, comm_octets, ConnectMessage_octets. cbn [msgId reply concat length].
  rewrite !length_app, length_le_enc, length_client_id. unfold CLIENTID_LENGTH. cbn [length]. lia.
Qed.
Lemma reply_writes s c p : writes (proxy_makeBufferTail (reply s c)) p (reply_tail p).
Proof.
  assert (writes (WRITE_TX (le_enc 8 (len (timeBaseCfgs p))) ;;;
    write_all (map (fun row => cfg_octets (base row)) (timeBaseCfgs p))) p (reply_tail p)) as W; [|exact W].
  unfold reply_tail. rewrite map_map. apply writes_bind; [apply writes_tx|apply writes_all].
Qed.
Lemma reply_refuses s c p : refuses (proxy_makeBufferTail (reply s c)) p (reply_tail p).
Proof.
  assert (refuses (WRITE_TX (le_enc 8 (len (timeBaseCfgs p))) ;;;
    write_all (map (fun row => cfg_octets (base row)) (timeBaseCfgs p))) p (reply_tail p)) as W; [|exact W].
  unfold reply_tail. rewrite map_map. apply refuses_bind; [apply writes_tx|apply refuses_tx|apply refuses_all].
Qed.

(** The proxy parses the request. *)
Lemma request_parses c p s p' : uint 16 (cl_sessionId c) ->
  connect (cl_sessionId c) (client_id_octets (m_clientID c)) p = Some (s, p') -> s <> InvalidSessionId ->
  parses parseBuffer p (head_octets (connect_request c).1) (reply s c) p' [].
Proof.
  intros U E N. rewrite <- (app_nil_r (head_octets _)). apply parses_message; [|done|].
  - split; [by vm_compute|]. split; [done|by vm_compute].
  - eapply parses_bind; [apply parses_get|]. unfold ProxyConnectMessage_parse.
    cbn [received connect_request fst msgId new_message setClientId
      set_sessionId clientId m_sessionId]. rewrite E.
    eapply parses_bind; [apply parses_put|]. rewrite (proj2 (Z.eqb_neq _ _) N). apply parses_ret.
Qed.
(** The client parses the reply. *)
Lemma reply_parses s c p st : uint 16 s -> Forall cfg_wf (map base (timeBaseCfgs p)) ->
  (length (timeBaseCfgs p) <= MAX_BUFFER_LENGTH)%nat ->
  parses parseBuffer st (reply_octets s c p) (set_msgAck ACK_NONE (received (reply s c)))
    (connectReply s (set_cfgs (add_cfgs (map base (timeBaseCfgs p)) (cl_cfgs st)) st)) [].
Proof.
  intros U F L. apply parses_message; [split; [by vm_compute|split; [done|by vm_compute]]|done|].
  unfold parseBufferTail, client_side, client_parseBufferTail, ClientConnectMessage_parse, reply_tail. cbn [msgId received reply].
  eapply parses_bind; [apply parses_rx, length_le_enc|].
  rewrite le_dec_enc_small by (unfold uint, len; rewrite MAX_val in L; lia).
  rewrite <- (app_nil_r (concat _)). replace (len (timeBaseCfgs p)) with (len (map base (timeBaseCfgs p)))
    by (unfold len; by rewrite length_map).
  eapply parses_bind; [apply parses_cfgs; [by rewrite length_map|done]|].
  eapply parses_bind; [apply parses_get|]. eapply parses_bind; [apply parses_put|]. apply parses_ret.
Qed.

(** The session that the proxy gives: that of the request if it is one, a new one
    for a request without. *)
Lemma connect_gives c p : proxy_inv p -> room p -> open_ok (cstr (client_id_octets (m_clientID c))) = true ->
  cl_sessionId c = InvalidSessionId \/ existClient (cl_sessionId c) p = true ->
  exists s p', connect (cl_sessionId c) (client_id_octets (m_clientID c)) p = Some (s, p') /\
    valid_id s /\ existClient s p' = true /\ timeBaseCfgs p' = timeBaseCfgs p /\ proxy_inv p' /\
    (if cl_sessionId c =? InvalidSessionId
     then existClient s p = false /\ get s (sessionMap p') = Some (mk_Client s (client_id_octets (m_clientID c)))
     else s = cl_sessionId c /\ p' = p).
Proof.
  intros I R O [E|E].
  - pose proof (connect_returns (cl_sessionId c) (client_id_octets (m_clientID c)) p I R) as Rt.
    destruct (connect _ _ p) as [[s p']|] eqn:C; [|done]. exists s, p'. split; [done|].
    pose proof (connect_inv _ _ _ _ _ I C) as I'. unfold connect in C. rewrite E in C |- *. rewrite Z.eqb_refl in C |- *. cbn [negb] in C.
    pose proof (CreateClientSession_inv _ _ _ _ I C) as [_ [S|(V & M & G)]]; [exfalso|].
    + unfold CreateClientSession in C. destruct (free_session _ _ _) as [cur|] eqn:Fr; [|discriminate C]. cbn [mbind option_bind] in C.
      rewrite O in C. cbn [negb] in C. injection C as Cs _. apply free_session_some in Fr as [V _]; [|by apply I].
      unfold valid_id, ValidMaskSessionId in V. unfold InvalidSessionId in S. lia.
    + split; [done|]. split; [by unfold existClient, mem; rewrite G|]. split; [|exact (conj I' (conj M G))].
      unfold CreateClientSession in C. destruct (free_session _ _ _) as [cur|]; [|discriminate C]. cbn [mbind option_bind] in C.
      rewrite O in C. cbn [negb] in C. by injection C as _ <-.
  - assert (valid_id (cl_sessionId c)) as V.
    { unfold existClient, mem in E. destruct (get _ _) as [x|] eqn:G; [|done].
      by apply (get_Forall _ _ _ _ (inv_ids p I) G). }
    assert ((cl_sessionId c =? InvalidSessionId) = false) as N.
    { apply Z.eqb_neq. unfold valid_id, ValidMaskSessionId in V. unfold InvalidSessionId. lia. }
    exists (cl_sessionId c), p. unfold connect. rewrite N, E. cbn [negb]. do 5 (split; [done|]). done.
Qed.

Lemma valid_session s : valid_id s -> uint 16 s /\ s <> InvalidSessionId.
Proof. unfold valid_id, ValidMaskSessionId, uint, InvalidSessionId. lia. Qed.
Lemma session_uint c p : proxy_inv p ->
  cl_sessionId c = InvalidSessionId \/ existClient (cl_sessionId c) p = true -> uint 16 (cl_sessionId c).
Proof.
  intros I [->|E]; [done|]. unfold existClient, mem in E. destruct (get _ _) as [x|] eqn:G; [|done].
  by apply valid_session, (get_Forall _ _ _ _ (inv_ids p I) G).
Qed.
Lemma request_len c : head_octets (connect_request c).1 <> [] /\
  (length (head_octets (connect_request c).1) <= MAX_BUFFER_LENGTH)%nat.
Proof. split; [done|]. rewrite length_request. apply Nat.leb_le. by vm_compute. Qed.


(** With more time bases the answer does not fit, and the listener of the proxy
    fails on every request. *)
Lemma connect_too_many p c bp : proxy_inv p -> room p -> Forall cfg_wf (map base (timeBaseCfgs p)) ->
  (54 <= length (timeBaseCfgs p))%nat ->
  cl_sessionId c = InvalidSessionId \/ existClient (cl_sessionId c) p = true ->
  open_ok (cstr (client_id_octets (m_clientID c))) = true -> tx_ok bp ->
  exists p' bp', MqListenerWork (head_octets (connect_request c).1) (p, bp) = Some (None, (p', bp')).
Proof.
  intros I R F L S Op Tp.
  destruct (connect_gives c p I R Op S) as (s & p' & C & V & X & P & I' & G).
  apply valid_session in V as V'. destruct V' as [U N]. destruct (request_len c) as [Rn Rl].
  pose proof (request_parses c p s p' (session_uint c p I S) C N) as Pr.
  destruct (answer_refused _ p (reply s c) p' [] (reply_tail p') bp Pr Rn Rl Tp) as (bp' & E);
    [done|apply reply_refuses| |exists p', bp'; exact E].
  fold (reply_octets s c p'). rewrite length_reply, P by (by rewrite P). rewrite MAX_val. unfold CFG_SIZE. lia.
Qed.
End Connect.

Definition no_clock : Clock := {| reading _ := None |}.
Definition one_row : TimeBaseCfgFull :=
  mk_cfg_full (mk_cfg 7 (name_array [x47]) (name_array [x65]) 1 2 false true) [] [].
Definition a_client : ClientState := ClientState_new [x2f; x41].
Lemma empty_buffer_ok : tx_ok empty_buffer.
Proof. split; [apply repeat_length|split; apply Nat.le_0_l]. Qed.


(** ** Notifications *)

(** What the client does with the event of the proxy. *)
Definition notified (now : option timespec) (t : ClockType) (i : Z) (p : Proxy) (m : TimeBaseStates)
    : option TimeBaseStates :=
  match t with
  | PTPClock => setTimeBaseStatePtp now i (getPTPEvent i p) m
  | SysClock => setTimeBaseStateSys now i (getChronyEvent i p) m
  end.
Definition notification (i : Z) (t : ClockType) : Message :=
  setClockType t (set_timeBaseIndex i (new_message NOTIFY_MESSAGE)).
Definition notification_octets `{Padding} (i : Z) (t : ClockType) (p : Proxy) : list byte :=
  head_octets (notification i t) ++ [z2b (ClockType_val t)] ++ clock_event_octets t i p.

Lemma existClient_removes s l : forall p, proxy_inv p ->
  existClient s (foldl (fun p s => removeClient s p) p l) = negb (bool_decide (s ∈ l)) && existClient s p.
Proof.
  induction l as [|x l IH]; intros p I; cbn [foldl].
  - by rewrite bool_decide_eq_false_2 by apply not_elem_of_nil.
  - rewrite IH by by apply removeClient_inv. unfold existClient at 1, removeClient. cbn [sessionMap].
    rewrite mem_erase by apply I. unfold existClient. destruct (Z.eqb_spec s x) as [->|N]; cbn [negb andb].
    + rewrite andb_false_r. symmetry. rewrite bool_decide_eq_true_2 by constructor. done.
    + f_equal. f_equal. apply bool_decide_ext. rewrite elem_of_cons. tauto.
Qed.
Lemma length_notification `{Padding} i t p : (length (notification_octets i t p) <= 43)%nat.
Proof.
  unfold notification_octets, head_octets, comm_octets, NotificationMessage_octets, notification.
  cbn [msgId setClockType set_timeBaseIndex new_message concat].
  rewrite !length_app. cbn [length]. rewrite !length_app, length_le_enc.
  destruct t; cbn [clock_event_octets length];
    rewrite ?length_event_octets, ?length_chrony_octets; unfold PTP_EVENT_SIZE, CHRONY_EVENT_SIZE; lia.
Qed.
Lemma small_index i : 0 <= i < 2 ^ 31 -> uwrap 64 (swrap 32 i) = i.
Proof.
  intros U. rewrite swrap_small by (unfold sint; lia). apply uwrap_small. unfold uint. lia.
Qed.
Lemma notification_writes `{Padding} `{Queues} i t p : 0 <= i < 2 ^ 31 ->
  writes (makeBufferTail (notification i t)) p ([z2b (ClockType_val t)] ++ clock_event_octets t i p).
Proof.
  intros U.
  assert (writes (WRITE_TX [z2b (ClockType_val t)] ;;;
    WRITE_TX (clock_event_octets t (uwrap 64 (swrap 32 i)) p)) p
    ([z2b (ClockType_val t)] ++ clock_event_octets t (uwrap 64 (swrap 32 i)) p)) as W.
  { apply writes_bind; apply writes_tx. }
  rewrite <- (small_index i U) at 2. exact W.
Qed.
Lemma notification_parses `{Padding} `{Clock} i t p c m : 0 <= i < 2 ^ 31 ->
  ptp_event_wf (getPTPEvent i p) -> chrony_event_wf (getChronyEvent i p) ->
  notified (reading 0) t i p (cl_states c) = Some m ->
  parses parseBuffer c (notification_octets i t p) (received (notification i t)) (set_states m c) [].
Proof.
  intros U Wp Wc N. pose proof (small_index i U) as X.
  apply parses_message; [|done|].
  { split; [by vm_compute|]. split; [by vm_compute|]. cbn [msg_index notification setClockType set_timeBaseIndex].
    rewrite X. unfold uint. lia. }
  unfold parseBufferTail, client_side, client_parseBufferTail, ClientNotificationMessage_parse.
  cbn [received notification msgId setClockType set_timeBaseIndex new_message msg_index]. rewrite X.
  eapply parses_bind; [apply parses_one|]. rewrite le_dec_byte by (by destruct t).
  rewrite <- (app_nil_r (clock_event_octets t i p)). destruct t; cbn [ClockType_val Z.eqb Pos.eqb clock_event_octets].
  - eapply parses_bind; [apply parses_rx, length_event_octets|]. rewrite ptp_event_of_octets by done.
    eapply parses_bind; [apply parses_get|]. eapply parses_bind; [|apply parses_ret].
    apply parses_lift. cbn [notified] in N. by rewrite N.
  - eapply parses_bind; [apply parses_rx, length_chrony_octets|]. rewrite chrony_event_of_octets by done.
    eapply parses_bind; [apply parses_get|]. eapply parses_bind; [|apply parses_ret].
    apply parses_lift. cbn [notified] in N. by rewrite N.
Qed.

Section Notify.
Context `{Padding} `{Queues} `{Clock}.

(** A notification of a time base is one message with its type of clock and
    the last event that the proxy copied; it goes to the subscribers whose queue
    takes it, and exactly the sessions of the other subscribers end.  A client that
    gets it updates the state of that time base with that event, and nothing else. *)
Theorem notification_round p i d t c m b br :
  proxy_inv p -> get i (timeBaseDataMap p) = Some d -> 0 <= i < 2 ^ 31 ->
  ptp_event_wf (d_ptpEvent d) -> chrony_event_wf (d_chronyEvent d) ->
  notified (reading 0) t i p (cl_states c) = Some m -> tx_ok b -> tx_ok br ->
  exists l reached p' b' br',
    notifyClients i t (p, b) = Some (Some (l, reached), (p', b')) /\
    (forall s, s ∈ reached <-> s ∈ keys (subscribedClients d) /\ send_ok s = true) /\
    (forall s, existClient s p' = true <->
       existClient s p = true /\ ~ (s ∈ keys (subscribedClients d) /\ send_ok s = false)) /\
    MqListenerWork l (c, br) = Some (Some None, (set_states m c, br')) /\
    (forall j, index j <> index i -> m !! index j = cl_states c !! index j).
Proof.
  intros I G U Wp Wc N Tb Tr.
  assert (getPTPEvent i p = d_ptpEvent d /\ getChronyEvent i p = d_chronyEvent d) as [Ep Ec].
  { unfold getPTPEvent, getChronyEvent. by rewrite G. }
  assert (forall s, s ∈ keys (subscribedClients d) -> delivered p s = send_ok s) as Dl.
  { intros s K. apply mem_keys in K. unfold mem in K. destruct (get s (subscribedClients d)) as [v|] eqn:Gs; [|done].
    destruct (get_Forall _ _ _ _ (inv_subs p I) G) as [Od Fd].
    pose proof (get_Forall _ _ _ _ Fd Gs) as M. cbn [fst] in M. unfold delivered, getTransmitter, existClient.
    rewrite M, andb_true_r. unfold mem in M. destruct (get s (sessionMap p)) as [x|] eqn:Gx; [|done].
    destruct (get_Forall _ _ _ _ (inv_ids p I) Gx) as [V _]. by rewrite (proj2 (Z.eqb_neq _ _) (proj2 (valid_session s V))). }
  pose proof (length_notification i t p) as Ln.
  assert (length (notification_octets i t p) <= MAX_BUFFER_LENGTH)%nat as Lm by (rewrite MAX_val; lia).
  destruct (built (notification i t) p _ b (notification_writes i t p U) Tb Lm) as (b' & E & Tb' & S).
  rewrite <- Ep in Wp. rewrite <- Ec in Wc.
  destruct (listens _ _ _ _ _ br (notification_parses i t p c m U Wp Wc N)) as (br' & E2 & _); [done|done|done|done|].
  set (p' := foldl (fun p s => removeClient s p) p
    (filter (fun s => delivered p s = false) (keys (subscribedClients d)))).
  exists (notification_octets i t p), (filter (fun s => delivered p s = true) (keys (subscribedClients d))), p', b', br'.
  split; [|split; [|split; [|split; [exact E2|]]]].
  - unfold notifyClients. unfold iobind at 1, get_state. cbn [fst]. rewrite G. unfold iobind at 1.
    fold (notification i t). rewrite E. cbn. rewrite S. reflexivity.
  - intros s. rewrite list_elem_of_filter. split.
    + intros [D K]. rewrite Dl in D by done. exact (conj K D).
    + intros [K D]. rewrite Dl by done. exact (conj D K).
  - intros s. subst p'. rewrite existClient_removes, andb_true_iff, negb_true_iff, bool_decide_eq_false by done.
    rewrite list_elem_of_filter. split.
    + intros [NK X]. refine (conj X _). intros [K D]. apply NK. rewrite Dl by done. exact (conj D K).
    + intros [X NK]. refine (conj _ X). intros [D K]. apply NK. rewrite Dl in D by done. exact (conj K D).
  - intros j Ne. destruct t; cbn [notified] in N; unfold setTimeBaseStatePtp, setTimeBaseStateSys in N.
    + destruct (ptp_update _ _ _) as [st|]; [|discriminate N]. injection N as <-. apply (lookup_insert_ne (M := gmap Z)). congruence.
    + destruct (sys_update _ _ _) as [st|]; [|discriminate N]. injection N as <-. apply (lookup_insert_ne (M := gmap Z)). congruence.
Qed.
End Notify.

#[local] Existing Instance zeros.
Lemma with_subscriber_inv : proxy_inv with_subscriber.1.
Proof.
  assert (rtc proxy_step (Proxy_new [], empty_buffer) with_subscriber) as R.
  { eapply rtc_l; [apply (step_ptp 1 (mk_ptp_event 5 6 7 true true))|].
    exact (rtc_l _ _ _ _ step_connect (rtc_once _ _ step_subscribe)). }
  exact (proj1 (proxy_reach_inv [] empty_buffer with_subscriber empty_buffer_ok R)).
Qed.
Lemma notification_round_witness :
  exists l reached p' b' c' br',
    notifyClients (H := all_queues) (H0 := zeros) 1 PTPClock (with_subscriber.1, empty_buffer) =
      Some (Some (l, reached), (p', b')) /\
    0 ∈ reached /\
    MqListenerWork (H := @client_side no_clock) (H0 := all_queues) l (a_client, empty_buffer) =
      Some (Some None, (c', br')) /\
    (syncInterval ∘ ev ∘ ptpEventState <$> cl_states c' !! index 1) = Some 7.
Proof.
  destruct (get 1 (timeBaseDataMap with_subscriber.1)) as [d|] eqn:G; [|exfalso; vm_compute in G; discriminate G].
  assert ((keys (subscribedClients d), d_ptpEvent d, d_chronyEvent d) =
    ([0], mk_ptp_event 5 6 7 true true, zero_chrony_event)) as D.
  { transitivity (match get 1 (timeBaseDataMap with_subscriber.1) with
      | Some d => (keys (subscribedClients d), d_ptpEvent d, d_chronyEvent d) | None => ([], zero_ptp_event, zero_chrony_event)
      end); [rewrite G; reflexivity|vm_compute; reflexivity]. }
  injection D as K Ep Ec.
  assert (exists s, ptp_update None (mk_ptp_event 5 6 7 true true) tbs_default = Some s /\
    syncInterval (ev (ptpEventState s)) = 7) as (s & Us & Sy) by (eexists; split; vm_compute; reflexivity).
  destruct (@notification_round zeros all_queues no_clock with_subscriber.1 1 d PTPClock a_client
    (<[index 1 := s]> ∅) empty_buffer empty_buffer with_subscriber_inv G) as (l & reached & p' & b' & br' & N & R & _ & L & _).
  - lia.
  - rewrite Ep. repeat split; vm_compute; congruence.
  - rewrite Ec. repeat split; vm_compute; congruence.
  - cbn [notified]. unfold getPTPEvent. rewrite G, Ep. unfold setTimeBaseStatePtp.
    change (state_of (cl_states a_client) 1) with tbs_default. change (@reading no_clock 0) with (@None timespec). rewrite Us. reflexivity.
  - apply empty_buffer_ok.
  - apply empty_buffer_ok.
  - eexists l, reached, p', b', _, br'. split; [exact N|]. split; [apply R; rewrite K; split; [constructor|reflexivity]|].
    split; [exact L|]. cbn [cl_states set_states].
    refine (eq_trans (f_equal _ (lookup_insert_eq (M := gmap Z) ∅ (index 1) s)) _). cbn. rewrite Sy. reflexivity.
Defined.

(** ** Waiting *)

(** The rounds of [statusWait] that go on. *)
Inductive waits (i : Z) : list between -> ClientState -> list between -> ClientState -> Prop :=
| waits_here rs c : waits i rs c rs c
| waits_next r rs c state c1 rs' c' :
    statusWait_round (bw_now r) (bw_lastConnect r) (bw_reconnected r) i c = (inr state, c1) -> bw_over r = false ->
    waits i rs (bw_listener r c1) rs' c' -> waits i (r :: rs) c rs' c'.
(** What a round sees. *)
Definition sees (i : Z) (c : ClientState) (s : TimeBaseState) : Prop :=
  m_connected c = true /\ cl_states c !! index i = Some s.

Lemma loop_waits i data rs c rs' c' : waits i rs c rs' c' ->
  statusWait_loop i rs c data = statusWait_loop i rs' c' data.
Proof.
  induction 1 as [|r rs c state c1 rs' c' E O _ IH]; [done|]. cbn. by rewrite E, O.
Qed.
Lemma round_event now last re i c s : sees i c s -> event_changed s = true ->
  statusWait_round now last re i c =
    (inl (SWREventDetected, Some s), set_states (<[index i := after_read s]> (cl_states c)) c).
Proof.
  intros [C G] E. unfold statusWait_round. rewrite C. unfold getTimeBaseState. rewrite G. cbn. by rewrite E.
Qed.
Lemma round_lookup i (c : ClientState) s :
  cl_states (set_states (<[index i := s]> (cl_states c)) c) !! index i = Some s.
Proof. apply (lookup_insert_eq (M := gmap Z)). Qed.

(** The three ends of a round without an event, and going on. *)
Lemma round_cases now last re i c :
  (m_connected c = false /\ statusWait_round now last re i c = (inl (SWRLostConnection, None), c)) \/
  (m_connected c = true /\ cl_states c !! index i = None /\
     statusWait_round now last re i c = (inl (SWRInvalidArgument, None), c)) \/
  exists s, sees i c s /\
    let c1 := set_states (<[index i := after_read s]> (cl_states c)) c in
    statusWait_round now last re i c =
      (if event_changed s then inl (SWREventDetected, Some s)
       else if (check_proxy_liveness now last re i c1).1 then inr s else inl (SWRLostConnection, None), c1).
Proof.
  unfold statusWait_round, sees, getTimeBaseState. destruct (m_connected c); [right|by left].
  destruct (cl_states c !! index i) as [s|]; [right|by left]. exists s. split; [done|]. cbn.
  destruct (event_changed s); [done|]. by destruct (check_proxy_liveness _ _ _ _ _).1.
Qed.

(** What a result tells; [over] is the round that ends the wait. *)
Definition result_ok (i : Z) (rounds : list between) (c : ClientState) (data : ClockSyncData)
    (res : StatusWaitResult) (data' : ClockSyncData) (c' : ClientState) : Prop :=
  match res with
  | SWREventDetected => exists rs c1 s, waits i rounds c rs c1 /\ sees i c1 s /\ event_changed s = true /\
      data' = updateAll s data /\ cl_states c' !! index i = Some (after_read s)
  | SWRNoEventDetected => exists r rs c1 s, waits i rounds c (r :: rs) c1 /\ bw_over r = true /\ sees i c1 s /\
      event_changed s = false /\ data' = updateAll s data /\ cl_states c' !! index i = Some (after_read s)
  | SWRLostConnection => data' = data /\ exists r rs c1, waits i rounds c (r :: rs) c1 /\
      (m_connected c1 = false \/ bw_reconnected r = false)
  | SWRInvalidArgument => data' = data /\ exists rs c1, waits i rounds c rs c1 /\ cl_states c1 !! index i = None
  end.
Lemma liveness_false now last re i c : (check_proxy_liveness now last re i c).1 = false -> re = false.
Proof.
  unfold check_proxy_liveness. destruct now as [cur|]; [|done]. destruct (getLastNotificationTime _ _) as [t|]; [|done].
  by destruct (_ || _).
Qed.
Lemma result_next i r rs c s c1 data res data' c' :
  statusWait_round (bw_now r) (bw_lastConnect r) (bw_reconnected r) i c = (inr s, c1) -> bw_over r = false ->
  result_ok i rs (bw_listener r c1) data res data' c' -> result_ok i (r :: rs) c data res data' c'.
Proof.
  intros E O. assert (forall rs' c2, waits i rs (bw_listener r c1) rs' c2 -> waits i (r :: rs) c rs' c2) as W
    by (intros rs' c2 K; exact (waits_next _ _ _ _ _ _ _ _ E O K)).
  destruct res; cbn.
  - intros (-> & r' & rs' & c2 & Wa & D). split; [done|]. exists r', rs', c2. auto.
  - intros (-> & rs' & c2 & Wa & D). split; [done|]. exists rs', c2. auto.
  - intros (r' & rs' & c2 & s' & Wa & D). exists r', rs', c2, s'. auto.
  - intros (rs' & c2 & s' & Wa & D). exists rs', c2, s'. auto.
Qed.
Lemma loop_result i data : forall rounds c, Exists (fun r => bw_over r = true) rounds ->
  exists res data' c', statusWait_loop i rounds c data = Some (res, data', c') /\ result_ok i rounds c data res data' c'.
Proof.
  induction rounds as [|r rs IH]; intros c X; [by apply Exists_nil in X|]. cbn [statusWait_loop].
  destruct (round_cases (bw_now r) (bw_lastConnect r) (bw_reconnected r) i c) as [(C & E)|[(C & G & E)|(s & S & E)]].
  - rewrite E. eexists _, _, _. split; [done|]. cbn. split; [done|]. exists r, rs, c. split; [constructor|by left].
  - rewrite E. eexists _, _, _. split; [done|]. cbn. split; [done|]. exists (r :: rs), c. split; [constructor|done].
  - cbn in E. rewrite E. destruct (event_changed s) eqn:Ev.
    + eexists _, _, _. split; [done|]. cbn. exists (r :: rs), c, s. do 4 (split; [apply waits_here || done|]). apply round_lookup.
    + destruct (check_proxy_liveness _ _ _ _ _).1 eqn:Lv.
      * destruct (bw_over r) eqn:O.
        -- eexists _, _, _. split; [done|]. cbn. exists r, rs, c, s.
           do 5 (split; [apply waits_here || done|]). apply round_lookup.
        -- apply Exists_cons in X as [X|X]; [by rewrite X in O|].
           destruct (IH (bw_listener r (set_states (<[index i:=after_read s]> (cl_states c)) c)) X)
             as (res & data' & c' & L & K). exists res, data', c'. split; [exact L|]. exact (result_next _ _ _ _ _ _ _ _ _ _ E O K).
      * eexists _, _, _. split; [done|]. cbn. split; [done|]. exists r, rs, c.
        split; [constructor|]. right. by eapply liveness_false.
Qed.


(** A client whose event comes after its first look. *)
Definition subscribed_state : TimeBaseState := set_subscribed true tbs_default.
Definition a_subscriber : ClientState :=
  set_states (<[index 1 := subscribed_state]> ∅) (connectReply 0 a_client).
Definition event_comes (c : ClientState) : ClientState :=
  set_states (<[index 1 := set_event_changed true subscribed_state]> (cl_states c)) c.
Definition two_rounds : list between :=
  [mk_between None (mk_timespec 0 0) true false event_comes; mk_between None (mk_timespec 0 0) true true (fun c => c)].
Definition no_data : ClockSyncData := mk_csd ptpev_default event_default false false.
