(* ===== verification/Text.v ===== *)
(** * Text.v: numbers and identities as text

    The texts that the JSON of messages is made of: [std::to_string], the formats
    of [snprintf] that the library uses, and the [string] methods of
    [src/src/types.cpp].  Each is read back by the functions that the other
    direction uses: [getInt64], [getUint64] and [getFrac] of
    [src/src/jsonParser.cpp], [Binary::fromHex] and [Binary::fromId]. *)

From S2P Require Import Prelude CStr Types Bin Json JsonVal JsonRound JsonNum.

(** ** Definitions *)

Definition digit (v : Z) : byte := z2b (48 + v).
(** The decimal digits of a number that is not negative; 64 bits have at most 20. *)
Fixpoint udec (fuel : nat) (z : Z) : list byte :=
  match fuel with
  | O => []
  | S fuel => (if z <? 10 then [] else udec fuel (z / 10)) ++ [digit (z mod 10)]
  end.
Definition MAX_DIGITS : nat := 20.
(** [std::to_string] of an integer. *)
Definition to_string (z : Z) : list byte :=
  if z <? 0 then "-"%byte :: udec MAX_DIGITS (- z) else udec MAX_DIGITS z.
(** The format ["%.9u"]. *)
Definition pad9 (z : Z) : list byte :=
  let t := udec MAX_DIGITS z in repeat "0"%byte (9 - length t) ++ t.
(** The format ["0x%x"] of a value of one octet. *)
Definition hex_text (z : Z) : list byte :=
  bytes "0x" ++ (if z <? 16 then [] else [hex_digit (z / 16)]) ++ [hex_digit (z mod 16)].

(** [Timestamp_t::string] *)
Definition Timestamp_string (d : Timestamp_t) : list byte :=
  udec MAX_DIGITS (secondsField d) ++ bytes "." ++ pad9 (nanosecondsField d).
(** [ClockIdentity_t::string] *)
Definition ClockIdentity_string (d : ClockIdentity_t) : list byte :=
  let v i := hex_octet (nth i (ci_v d) x00) in
  v 0%nat ++ v 1%nat ++ v 2%nat ++ bytes "." ++ v 3%nat ++ v 4%nat ++ bytes "." ++
  v 5%nat ++ v 6%nat ++ v 7%nat.
(** [PortIdentity_t::string] *)
Definition PortIdentity_string (d : PortIdentity_t) : list byte :=
  ClockIdentity_string (clockIdentity d) ++ bytes "-" ++ to_string (portNumber d).

(** ** Decimal digits *)

Lemma digit_spec v : 0 <= v < 10 ->
  isdigit (digit v) = true /\ digit_val (digit v) = v /\ (digit v = "0"%byte <-> v = 0).
Proof.
  intros H. pose proof (enum (fun v => isdigit (digit v) && (digit_val (digit v) =? v) &&
    Bool.eqb (eqc (digit v) "0"%byte) (v =? 0)) 10 v eq_refl H) as E.
  apply andb_prop in E as [[E1 E2]%andb_prop E3]. split; [done|]. split; [lia|].
  apply Bool.eqb_prop in E3. unfold eqc in E3. destruct (Z.eqb_spec v 0);
    case_bool_decide; split; intros; done || lia.
Qed.

Lemma decimal_snoc ds c : decimal (ds ++ [c]) = decimal ds * 10 + digit_val c.
Proof. unfold decimal. by rewrite fold_left_app. Qed.
Lemma pow10_succ n : 10 ^ Z.of_nat (S n) = 10 * 10 ^ Z.of_nat n.
Proof. rewrite Nat2Z.inj_succ, Z.pow_succ_r by lia. done. Qed.

Lemma udec_spec fuel z : 0 <= z < 10 ^ Z.of_nat fuel ->
  decimal (udec fuel z) = z /\ all_digits (udec fuel z) /\ (z = 0 \/ no_zero (udec fuel z)).
Proof.
  revert z. induction fuel as [|fuel IH]; intros z H; [cbn in H; assert (z = 0) as -> by lia; by repeat split; try left|].
  rewrite pow10_succ in H. pose proof (Z.mod_pos_bound z 10 eq_refl) as B.
  destruct (digit_spec (z mod 10) B) as (D1 & D2 & D3). cbn [udec].
  destruct (Z.ltb_spec z 10).
  - rewrite Z.mod_small in * by lia. cbn [app]. unfold decimal, all_digits. cbn [fold_left forallb no_zero].
    rewrite D1, D2. split; [lia|]. split; [done|]. destruct (decide (z = 0)); [by left|].
    right. split; [done|]. split; [|done]. intros E%D3. done.
  - assert (0 <= z / 10 < 10 ^ Z.of_nat fuel) as Q by dlia.
    destruct (IH _ Q) as (I1 & I2 & I3). rewrite decimal_snoc, I1, D2.
    split; [dlia|]. split; [unfold all_digits in *; rewrite forallb_app, I2; cbn; by rewrite D1|].
    right. destruct I3 as [?|I3]; [dlia|].
    destruct (udec fuel (z / 10)) as [|c ds]; [done|]. destruct I3 as (? & ? & I4). cbn [app no_zero].
    split; [done|]. split; [done|]. unfold all_digits in *. rewrite forallb_app, I4. cbn. by rewrite D1.
Qed.

Lemma udec_zero fuel : udec (S fuel) 0 = ["0"%byte].
Proof. done. Qed.
Lemma udec_int z : 0 <= z < 2 ^ 64 -> wf_int (udec MAX_DIGITS z) /\ decimal (udec MAX_DIGITS z) = z.
Proof.
  intros H. destruct (udec_spec MAX_DIGITS z) as (D & _ & [->|N]).
  - unfold MAX_DIGITS. split; [lia|]. apply Z.lt_trans with (2 ^ 64); [lia|]. by vm_compute.
  - split; [by left|done].
  - split; [by right|done].
Qed.

Lemma udec_length fuel n z : 0 <= z < 10 ^ Z.of_nat (S n) -> (length (udec fuel z) <= S n)%nat.
Proof.
  revert n z. induction fuel as [|fuel IH]; intros n z H; [cbn; lia|].
  cbn [udec]. rewrite length_app. cbn [length]. destruct (Z.ltb_spec z 10); [cbn; lia|].
  destruct n as [|n]; [change (10 ^ Z.of_nat 1) with 10 in H; lia|].
  rewrite pow10_succ in H. specialize (IH n (z / 10) ltac:(dlia)). lia.
Qed.

(** The text of an integer is a number of the grammar. *)
Definition int_number (z : Z) : number :=
  mk_number (z <? 0) (udec MAX_DIGITS (Z.abs z)) None None.
Lemma to_string_number z : to_string z = number_text (int_number z).
Proof.
  unfold to_string, number_text, int_number. cbn [nb_neg nb_int nb_frac nb_exp frac_text exp_text].
  rewrite !app_nil_r. destruct (Z.ltb_spec z 0); cbn [minus app].
  - by rewrite Z.abs_neq by lia.
  - by rewrite Z.abs_eq by lia.
Qed.
Lemma int_number_wf z : Z.abs z < 2 ^ 64 -> wf_number (int_number z).
Proof.
  intros H. destruct (udec_int (Z.abs z)) as [W _]; [lia|]. split; [done|]. split; [done|]. split; [done|].
  unfold number_text, int_number. cbn [nb_neg nb_int nb_frac nb_exp frac_text exp_text].
  rewrite !app_nil_r, len_app. unfold len.
  assert (length (udec MAX_DIGITS (Z.abs z)) <= 20)%nat.
  { apply (udec_length _ 19). split; [lia|]. apply Z.lt_trans with (2 ^ 64); [lia|]. by vm_compute. }
  assert (length (minus (z <? 0)%Z) <= 1)%nat by (destruct (z <? 0); cbn; lia). lia.
Qed.
Definition J_int (z : Z) : json := J_number (to_string z) 0 0.
Lemma J_int_num z : J_int z = J_num (int_number z).
Proof. unfold J_int, J_num. by rewrite to_string_number. Qed.

Lemma getInt64_int z old : sint 64 z -> getInt64 (J_int z) old false = (true, z).
Proof.
  intros H. unfold sint in H. rewrite J_int_num.
  destruct (json_integers (int_number z) old) as [E _]; [apply int_number_wf; lia|]. rewrite E.
  rewrite bool_decide_eq_true_2 by done. cbn [int_number nb_neg nb_int].
  destruct (udec_int (Z.abs z)) as [_ ->]; [lia|]. unfold LONG_MIN, LONG_MAX.
  destruct (Z.ltb_spec z 0); f_equal; lia.
Qed.
(** [flexible] makes no difference for a number that is read without it. *)
Lemma getUint64_flexible val d e old v :
  getUint64 (J_number val d e) old false = (true, v) -> getUint64 (J_number val d e) old true = (true, v).
Proof.
  unfold getUint64, get_int. destruct (_ || _); [done|]. destruct (eqc _ _); [done|].
  by destruct (strtoumax 10 (cstr val)) as [w [|c r]].
Qed.
Lemma getUint64_int z old : uint 64 z -> getUint64 (J_int z) old true = (true, z).
Proof.
  intros H. unfold uint in H. unfold J_int. apply getUint64_flexible.
  change (J_number _ 0 0) with (J_int z). rewrite J_int_num.
  destruct (json_integers (int_number z) old) as [_ ->]; [apply int_number_wf; lia|].
  rewrite bool_decide_eq_true_2 by done. cbn [int_number nb_neg nb_int].
  destruct (udec_int (Z.abs z)) as [_ ->]; [lia|].
  destruct (Z.ltb_spec z 0); [lia|]. cbn [andb negb]. f_equal. unfold UINT64_MAX. lia.
Qed.

(** ** Time stamps *)

Lemma fold_zeros n ds acc : fold_left (fun acc c => acc * 10 + digit_val c) (repeat "0"%byte n ++ ds) acc =
  fold_left (fun acc c => acc * 10 + digit_val c) ds (acc * 10 ^ Z.of_nat n).
Proof.
  revert acc. induction n as [|n IH]; intros acc; [cbn; f_equal; lia|].
  cbn [repeat app fold_left]. rewrite IH, pow10_succ. change (digit_val "0"%byte) with 0. f_equal. lia.
Qed.
Lemma pad9_spec z : 0 <= z < 10 ^ 9 ->
  length (pad9 z) = 9%nat /\ all_digits (pad9 z) /\ decimal (pad9 z) = z.
Proof.
  intros H. destruct (udec_spec MAX_DIGITS z) as (D & A & _).
  { split; [lia|]. apply Z.lt_trans with (10 ^ 9); [lia|]. by vm_compute. }
  pose proof (udec_length MAX_DIGITS 8 z ltac:(change (Z.of_nat 9) with 9; lia)) as L.
  unfold pad9. split; [rewrite length_app, repeat_length; lia|]. split.
  - unfold all_digits in *. rewrite forallb_app, A, andb_true_r. by induction (9 - _)%nat.
  - unfold decimal in *. by rewrite fold_zeros, Z.mul_0_l.
Qed.

(** A time stamp that its text can give back. *)
Definition json_Timestamp (d : Timestamp_t) : bool :=
  (0 <? secondsField d) && (secondsField d <? 2 ^ 63) &&
  (0 <=? nanosecondsField d) && (nanosecondsField d <? NSEC_PER_SEC).
Definition stamp_number (d : Timestamp_t) : number :=
  mk_number false (udec MAX_DIGITS (secondsField d)) (Some (pad9 (nanosecondsField d))) None.
Definition J_stamp (d : Timestamp_t) : json :=
  J_number (Timestamp_string d) (len (udec MAX_DIGITS (secondsField d))) 0.
Lemma J_stamp_num d : J_stamp d = J_num (stamp_number d).
Proof. unfold J_stamp, J_num, number_text. cbn. by rewrite app_nil_r. Qed.
Lemma stamp_number_wf d : json_Timestamp d = true -> wf_number (stamp_number d).
Proof.
  unfold json_Timestamp. intros H. destruct (udec_int (secondsField d)) as [W _]; [lia|].
  destruct (pad9_spec (nanosecondsField d)) as (L & A & _); [unfold NSEC_PER_SEC in H; lia|].
  split; [done|]. split; [split; [by intros E; rewrite E in L|done]|]. split; [done|].
  unfold number_text. cbn [stamp_number nb_neg nb_int nb_frac nb_exp frac_text exp_text minus app].
  rewrite app_nil_r, len_app. unfold len. cbn [length]. rewrite L.
  pose proof (udec_length MAX_DIGITS 19 (secondsField d)) as L2.
  specialize (L2 ltac:(split; [lia|]; apply Z.lt_trans with (2 ^ 63); [lia|by vm_compute])). lia.
Qed.
Lemma digits_take (a : list byte) c b : take (Z.to_nat (len a)) (a ++ c :: b) = a /\
  drop (Z.to_nat (len a + 1)) (a ++ c :: b) = b.
Proof.
  unfold len. rewrite Nat2Z.id. split; [apply take_app_length|].
  replace (Z.to_nat (Z.of_nat (length a) + 1)) with (length a + 1)%nat by lia.
  rewrite drop_app_add. done.
Qed.
Lemma strtoumax_digits ds : all_digits ds -> ds <> [] ->
  strtoumax 10 (cstr ds) = (if UINT64_MAX <? decimal ds then UINT64_MAX else decimal ds, []).
Proof.
  intros A N. rewrite cstr_plain by (by apply digits_plain).
  destruct ds as [|c ds]; [done|]. pose proof A as A'. apply andb_prop in A' as [Dc _].
  assert (isspace c = false /\ c <> x2d /\ c <> x2b) as (Sp & N1 & N2) by (by destruct c).
  unfold strtoumax. cbn [skip_space]. rewrite Sp, !eqc_ne by done.
  assert (radix 10 (c :: ds) = (10, c :: ds)) as ->
    by (unfold radix; destruct ds as [|? [|]]; by rewrite ?andb_false_r).
  rewrite digits_all by done. done.
Qed.
Lemma getFrac_stamp d : json_Timestamp d = true ->
  getFrac (J_stamp d) 9 = Some (Some (secondsField d, nanosecondsField d)).
Proof.
  intros H. pose proof H as H'. unfold json_Timestamp, NSEC_PER_SEC in H'.
  destruct (udec_int (secondsField d)) as [W D]; [lia|].
  destruct (pad9_spec (nanosecondsField d)) as (L & A & Dn); [lia|].
  destruct (wf_int_digits _ W) as [As Ns]. unfold getFrac, J_stamp, Timestamp_string.
  set (ds := udec MAX_DIGITS (secondsField d)) in *. set (ns := pad9 _) in *.
  change (bytes "." ++ ns) with ("."%byte :: ns).
  destruct (Z.eqb_spec (len ds) 0) as [E|_]; [destruct ds; [done|unfold len in E; cbn in E; lia]|].
  change (negb (0 =? 0)) with false. cbn match zeta. rewrite len_app.
  assert (len ("."%byte :: ns) = 10) as -> by (unfold len; cbn [length]; rewrite L; done).
  replace (len ds + 10 - len ds - 1) with 9 by lia. change (9 <? 9) with false. cbn match.
  destruct (digits_take ds "."%byte ns) as [-> ->].
  pose proof (strtol_int false ds W) as E1. unfold int_text in E1. cbn [minus app] in E1. rewrite E1.
  rewrite strtoumax_digits by (try done; by intros E; rewrite E in L). cbn match.
  rewrite D, Dn. cbn [bool_decide]. unfold LONG_MIN, LONG_MAX, UINT64_MAX.
  destruct (Z.ltb_spec (2 ^ 64 - 1) (nanosecondsField d)); [lia|].
  change (19 <? 9 - 9) with false. rewrite !bool_decide_eq_true_2 by done. cbn [negb orb].
  change (10 ^ (9 - 9)) with 1. rewrite Z.mul_1_r, uwrap_small by (unfold uint; lia).
  repeat f_equal. lia.
Qed.

(** ** Identities and hexadecimal *)

(** What [fromHex] and [fromId] leave. *)
Lemma collected_wf l b : wf_Binary b ->
  wf_Binary (assign (append_all l Binary_new) b) /\ octets (assign (append_all l Binary_new) b) = l.
Proof.
  intros W. split; [|by apply assign_collected]. unfold assign. by apply setBin_spec.
Qed.
Lemma fromHex_ClockIdentity d b : wf_ClockIdentity d -> wf_Binary b ->
  exists b', fromHex (ClockIdentity_string d) b = (true, b') /\ wf_Binary b' /\ octets b' = ci_v d.
Proof.
  intros L W. destruct d as [v]. unfold wf_ClockIdentity in L. cbn [ci_v] in L.
  destruct v as [|o0 [|o1 [|o2 [|o3 [|o4 [|o5 [|o6 [|o7 [|]]]]]]]]]; try done.
  assert (ClockIdentity_string (mk_ClockIdentity [o0; o1; o2; o3; o4; o5; o6; o7]) =
    bufToHex [o0; o1; o2] ++ bytes "." ++ bufToHex [o3; o4] ++ bytes "." ++ bufToHex [o5; o6; o7]) as E.
  { unfold ClockIdentity_string. cbn [ci_v nth bufToHex]. by rewrite !app_nil_r, <- !app_assoc. }
  exists (assign (append_all [o0; o1; o2; o3; o4; o5; o6; o7] Binary_new) b).
  split; [|by apply collected_wf]. rewrite E. unfold fromHex. rewrite cstr_no_nul; cycle 1.
  { rewrite !Forall_app. repeat match goal with |- _ /\ _ => split end;
    first [apply Forall_plain_nul, bufToHex_plain|by apply Forall_singleton]. }
  rewrite !tokens_cons, tokens_last;
    try (apply Forall_plain_sep, bufToHex_plain); try (by repeat constructor); try done.
  cbn [parse_tokens]. rewrite !hex_token_all. cbn [mbind option_bind]. rewrite !hex_token_all.
  cbn [mbind option_bind]. by rewrite hex_token_all.
Qed.
Lemma fromId_bufToId l b : wf_Binary b -> l <> [] ->
  exists b', fromId (bufToId (bytes ":") l) b = (true, b') /\ wf_Binary b' /\ octets b' = l.
Proof.
  intros W N. destruct l as [|o l]; [done|]. rewrite fromId_text by (try done; by repeat constructor).
  eexists. split; [done|]. by apply collected_wf.
Qed.
Lemma getUint64_hex z old : 0 <= z < 256 -> getUint64 (J_string (hex_text z)) old true = (true, z).
Proof.
  intros H. unfold getUint64, get_int.
  pose proof (enum (fun z => bool_decide (strtoumax 0 (cstr (hex_text z)) = (z, []))) 256 z
    ltac:(by vm_compute) H) as E%bool_decide_eq_true. by rewrite E.
Qed.
