(* ===== verification/JsonProc.v ===== *)
(** * JsonProc.v: the fields of management TLVs in JSON

    [struct JsonProc] of [src/src/comp.h], the base of the classes that print a
    structure as JSON and that read it, and the functions of [src/src/json.cpp]
    that go through the fields of each structure.  The class [JsonProc] has the
    virtual methods; its monad is what the derived class does with them, where a
    method that returns false ends the [&&] of its caller.  The overloads of
    [procValue] and [procArray] are one method with the type of the value. *)

From S2P Require Import Prelude CStr Types Ids MngTlvs.

(** ** The virtual methods *)

(** The types of [procValue]. *)
Inductive vtype : Type -> Type :=
| V_u8 : vtype Z
| V_u16 : vtype Z
| V_u32 : vtype Z
| V_u64 : vtype Z
| V_i8 : vtype Z
| V_i16 : vtype Z
| V_i32 : vtype Z
| V_i64 : vtype Z
| V_networkProtocol : vtype Z
| V_clockAccuracy : vtype Z
| V_faultRecord : vtype Z
| V_timeSource : vtype Z
| V_portState : vtype Z
| V_delayMechanism : vtype Z
| V_linuxptpTimeStamp : vtype Z
| V_linuxptpPowerProfileVersion : vtype Z
| V_linuxptpUnicastState : vtype Z
| V_TimeInterval : vtype TimeInterval_t
| V_Timestamp : vtype Timestamp_t
| V_ClockIdentity : vtype ClockIdentity_t
| V_PortIdentity : vtype PortIdentity_t
| V_PortAddress : vtype PortAddress_t
| V_ClockQuality : vtype ClockQuality_t
| V_PTPText : vtype PTPText_t
| V_FaultRecord : vtype FaultRecord_t
| V_AcceptableMaster : vtype AcceptableMaster_t
| V_LinuxptpUnicastMaster : vtype LinuxptpUnicastMaster_t.
(** The types of the elements of [procArray]. *)
Inductive atype : Type -> Type :=
| A_ClockIdentity : atype ClockIdentity_t
| A_PortAddress : atype PortAddress_t
| A_FaultRecord : atype FaultRecord_t
| A_AcceptableMaster : atype AcceptableMaster_t
| A_LinuxptpUnicastMaster : atype LinuxptpUnicastMaster_t.

(** A method takes what its reference parameter holds and returns what it leaves
    there.  The first three operations are the return of true, [&&] and the
    return of false. *)
Class JsonProc (m : Type -> Type) := {
  jret {A : Type} : A -> m A;
  jand {A B : Type} : m A -> (A -> m B) -> m B;
  jfail {A : Type} : m A;
  procValue {T : Type} : vtype T -> string -> T -> m T;
  procBinary : string -> list byte -> Z -> m (list byte * Z)%type;
  procOctets : string -> list byte -> Z -> m (list byte);
  procFlag : string -> Z -> Z -> m Z;
  procZeroFlag : Z -> m Z;
  procArray {T : Type} : atype T -> string -> list T -> m (list T)
}.

Declare Scope jsonproc_scope.
Delimit Scope jsonproc_scope with jsonproc.
Notation "x <- p ;; k" := (jand p (fun x => k))
  (at level 100, p at next level, right associativity) : jsonproc_scope.

Definition NOTIFY_PORT_STATE : Z := 0.
Definition NOTIFY_TIME_SYNC : Z := 1.
Definition NOTIFY_PARENT_DATA_SET : Z := 2.
Definition NOTIFY_CMLDS : Z := 3.
Definition STAT_SYNC : nat := 0.
Definition STAT_DELAY_REQ : nat := 1.
Definition STAT_PDELAY_REQ : nat := 2.
Definition STAT_PDELAY_RESP : nat := 3.
Definition STAT_FOLLOW_UP : nat := 8.
Definition STAT_DELAY_RESP : nat := 9.
Definition STAT_PDELAY_RESP_FOLLOW_UP : nat := 10.
Definition STAT_ANNOUNCE : nat := 11.
Definition STAT_SIGNALING : nat := 12.
Definition STAT_MANAGEMENT : nat := 13.

Section Fields.
Context {m : Type -> Type} `{JsonProc m}.
#[local] Open Scope jsonproc_scope.

(** [PROC_EVENT_FLG]: one bit of the events. *)
Definition proc_event (name : string) (event : Z) (bitmask : list byte) : m (list byte) :=
  let quot := Z.to_nat (div_event_wo event).1 in
  octet <- procFlag name (b2z (nth quot bitmask x00)) (div_event_wo event).2 ;;
  jret (<[quot := z2b octet]> bitmask).
(** [PROC_FLD]: one counter of messages. *)
Definition proc_stat (name : string) (stat : nat) (MsgType : list Z) : m (list Z) :=
  count <- procValue V_u64 name (nth stat MsgType 0) ;;
  jret (<[stat := count]> MsgType).

Definition proc_CLOCK_DESCRIPTION (d : CLOCK_DESCRIPTION_t) : m CLOCK_DESCRIPTION_t :=
  clockType <- procValue V_u16 "clockType" (cd_clockType d) ;;
  physicalLayerProtocol <- procValue V_PTPText "physicalLayerProtocol"
      (cd_physicalLayerProtocol d) ;;
  bin <- procBinary "physicalAddress" (cd_physicalAddress d) (cd_physicalAddressLength d) ;;
  protocolAddress <- procValue V_PortAddress "protocolAddress" (cd_protocolAddress d) ;;
  manufacturerIdentity <- procOctets "manufacturerIdentity" (cd_manufacturerIdentity d) 3 ;;
  productDescription <- procValue V_PTPText "productDescription" (cd_productDescription d) ;;
  revisionData <- procValue V_PTPText "revisionData" (cd_revisionData d) ;;
  userDescription <- procValue V_PTPText "userDescription" (cd_userDescription d) ;;
  profileIdentity <- procOctets "profileIdentity" (cd_profileIdentity d) 6 ;;
  jret (mk_CLOCK_DESCRIPTION clockType physicalLayerProtocol bin.2 bin.1 protocolAddress
         manufacturerIdentity productDescription revisionData userDescription
         profileIdentity).
Definition proc_USER_DESCRIPTION (d : USER_DESCRIPTION_t) : m USER_DESCRIPTION_t :=
  userDescription <- procValue V_PTPText "userDescription" (ud_userDescription d) ;;
  jret (mk_USER_DESCRIPTION userDescription).
Definition proc_INITIALIZE (d : INITIALIZE_t) : m INITIALIZE_t :=
  initializationKey <- procValue V_u16 "initializationKey" (ini_initializationKey d) ;;
  jret (mk_INITIALIZE initializationKey).
Definition proc_FAULT_LOG (d : FAULT_LOG_t) : m FAULT_LOG_t :=
  numberOfFaultRecords <- procValue V_u16 "numberOfFaultRecords" (fl_numberOfFaultRecords d) ;;
  faultRecords <- procArray A_FaultRecord "faultRecords" (fl_faultRecords d) ;;
  jret (mk_FAULT_LOG numberOfFaultRecords faultRecords).
Definition proc_DEFAULT_DATA_SET (d : DEFAULT_DATA_SET_t) : m DEFAULT_DATA_SET_t :=
  flags <- procZeroFlag (dds_flags d) ;;
  flags <- procFlag "twoStepFlag" flags 1 ;;
  flags <- procFlag "slaveOnly" flags 2 ;;
  numberPorts <- procValue V_u16 "numberPorts" (dds_numberPorts d) ;;
  priority1 <- procValue V_u8 "priority1" (dds_priority1 d) ;;
  clockQuality <- procValue V_ClockQuality "clockQuality" (dds_clockQuality d) ;;
  priority2 <- procValue V_u8 "priority2" (dds_priority2 d) ;;
  clockIdentity <- procValue V_ClockIdentity "clockIdentity" (dds_clockIdentity d) ;;
  domainNumber <- procValue V_u8 "domainNumber" (dds_domainNumber d) ;;
  jret (mk_DEFAULT_DATA_SET flags numberPorts priority1 clockQuality priority2
         clockIdentity domainNumber).
Definition proc_CURRENT_DATA_SET (d : CURRENT_DATA_SET_t) : m CURRENT_DATA_SET_t :=
  stepsRemoved <- procValue V_u16 "stepsRemoved" (cds_stepsRemoved d) ;;
  offsetFromMaster <- procValue V_TimeInterval "offsetFromMaster" (cds_offsetFromMaster d) ;;
  meanPathDelay <- procValue V_TimeInterval "meanPathDelay" (cds_meanPathDelay d) ;;
  jret (mk_CURRENT_DATA_SET stepsRemoved offsetFromMaster meanPathDelay).
Definition proc_PARENT_DATA_SET (d : PARENT_DATA_SET_t) : m PARENT_DATA_SET_t :=
  flags <- procZeroFlag (pds_flags d) ;;
  parentPortIdentity <- procValue V_PortIdentity "parentPortIdentity"
      (pds_parentPortIdentity d) ;;
  flags <- procFlag "parentStats" flags 1 ;;
  observedParentOffsetScaledLogVariance <- procValue V_u16
      "observedParentOffsetScaledLogVariance" (pds_observedParentOffsetScaledLogVariance d) ;;
  observedParentClockPhaseChangeRate <- procValue V_i32 "observedParentClockPhaseChangeRate"
      (pds_observedParentClockPhaseChangeRate d) ;;
  grandmasterPriority1 <- procValue V_u8 "grandmasterPriority1" (pds_grandmasterPriority1 d) ;;
  grandmasterClockQuality <- procValue V_ClockQuality "grandmasterClockQuality"
      (pds_grandmasterClockQuality d) ;;
  grandmasterPriority2 <- procValue V_u8 "grandmasterPriority2" (pds_grandmasterPriority2 d) ;;
  grandmasterIdentity <- procValue V_ClockIdentity "grandmasterIdentity"
      (pds_grandmasterIdentity d) ;;
  jret (mk_PARENT_DATA_SET parentPortIdentity flags observedParentOffsetScaledLogVariance
         observedParentClockPhaseChangeRate grandmasterPriority1 grandmasterClockQuality
         grandmasterPriority2 grandmasterIdentity).
Definition proc_TIME_PROPERTIES_DATA_SET
    (d : TIME_PROPERTIES_DATA_SET_t) : m TIME_PROPERTIES_DATA_SET_t :=
  flags <- procZeroFlag (tpds_flags d) ;;
  currentUtcOffset <- procValue V_i16 "currentUtcOffset" (tpds_currentUtcOffset d) ;;
  flags <- procFlag "leap61" flags 0x01 ;;
  flags <- procFlag "leap59" flags 0x02 ;;
  flags <- procFlag "currentUtcOffsetValid" flags 0x04 ;;
  flags <- procFlag "ptpTimescale" flags 0x08 ;;
  flags <- procFlag "timeTraceable" flags 0x10 ;;
  flags <- procFlag "frequencyTraceable" flags 0x20 ;;
  timeSource <- procValue V_timeSource "timeSource" (tpds_timeSource d) ;;
  jret (mk_TIME_PROPERTIES_DATA_SET currentUtcOffset flags timeSource).
Definition proc_PORT_DATA_SET (d : PORT_DATA_SET_t) : m PORT_DATA_SET_t :=
  portIdentity <- procValue V_PortIdentity "portIdentity" (ptds_portIdentity d) ;;
  portState <- procValue V_portState "portState" (ptds_portState d) ;;
  logMinDelayReqInterval <- procValue V_i8 "logMinDelayReqInterval"
      (ptds_logMinDelayReqInterval d) ;;
  peerMeanPathDelay <- procValue V_TimeInterval "peerMeanPathDelay" (ptds_peerMeanPathDelay d) ;;
  logAnnounceInterval <- procValue V_i8 "logAnnounceInterval" (ptds_logAnnounceInterval d) ;;
  announceReceiptTimeout <- procValue V_u8 "announceReceiptTimeout"
      (ptds_announceReceiptTimeout d) ;;
  logSyncInterval <- procValue V_i8 "logSyncInterval" (ptds_logSyncInterval d) ;;
  delayMechanism <- procValue V_delayMechanism "delayMechanism" (ptds_delayMechanism d) ;;
  logMinPdelayReqInterval <- procValue V_i8 "logMinPdelayReqInterval"
      (ptds_logMinPdelayReqInterval d) ;;
  versionNumber <- procValue V_u8 "versionNumber" (ptds_versionNumber d) ;;
  jret (mk_PORT_DATA_SET portIdentity portState logMinDelayReqInterval peerMeanPathDelay
         logAnnounceInterval announceReceiptTimeout logSyncInterval delayMechanism
         logMinPdelayReqInterval versionNumber).
Definition proc_PRIORITY1 (d : PRIORITY1_t) : m PRIORITY1_t :=
  priority1 <- procValue V_u8 "priority1" (pr1_priority1 d) ;;
  jret (mk_PRIORITY1 priority1).
Definition proc_PRIORITY2 (d : PRIORITY2_t) : m PRIORITY2_t :=
  priority2 <- procValue V_u8 "priority2" (pr2_priority2 d) ;;
  jret (mk_PRIORITY2 priority2).
Definition proc_DOMAIN (d : DOMAIN_t) : m DOMAIN_t :=
  domainNumber <- procValue V_u8 "domainNumber" (dom_domainNumber d) ;;
  jret (mk_DOMAIN domainNumber).
Definition proc_SLAVE_ONLY (d : SLAVE_ONLY_t) : m SLAVE_ONLY_t :=
  flags <- procZeroFlag (so_flags d) ;;
  flags <- procFlag "slaveOnly" flags 1 ;;
  jret (mk_SLAVE_ONLY flags).
Definition proc_LOG_ANNOUNCE_INTERVAL (d : LOG_ANNOUNCE_INTERVAL_t) : m LOG_ANNOUNCE_INTERVAL_t :=
  logAnnounceInterval <- procValue V_i8 "logAnnounceInterval" (lai_logAnnounceInterval d) ;;
  jret (mk_LOG_ANNOUNCE_INTERVAL logAnnounceInterval).
Definition proc_ANNOUNCE_RECEIPT_TIMEOUT
    (d : ANNOUNCE_RECEIPT_TIMEOUT_t) : m ANNOUNCE_RECEIPT_TIMEOUT_t :=
  announceReceiptTimeout <- procValue V_u8 "announceReceiptTimeout"
      (art_announceReceiptTimeout d) ;;
  jret (mk_ANNOUNCE_RECEIPT_TIMEOUT announceReceiptTimeout).
Definition proc_LOG_SYNC_INTERVAL (d : LOG_SYNC_INTERVAL_t) : m LOG_SYNC_INTERVAL_t :=
  logSyncInterval <- procValue V_i8 "logSyncInterval" (lsi_logSyncInterval d) ;;
  jret (mk_LOG_SYNC_INTERVAL logSyncInterval).
Definition proc_VERSION_NUMBER (d : VERSION_NUMBER_t) : m VERSION_NUMBER_t :=
  versionNumber <- procValue V_u8 "versionNumber" (vn_versionNumber d) ;;
  jret (mk_VERSION_NUMBER versionNumber).
Definition proc_TIME (d : TIME_t) : m TIME_t :=
  currentTime <- procValue V_Timestamp "currentTime" (tm_currentTime d) ;;
  jret (mk_TIME currentTime).
Definition proc_CLOCK_ACCURACY (d : CLOCK_ACCURACY_t) : m CLOCK_ACCURACY_t :=
  clockAccuracy <- procValue V_clockAccuracy "clockAccuracy" (ca_clockAccuracy d) ;;
  jret (mk_CLOCK_ACCURACY clockAccuracy).
Definition proc_UTC_PROPERTIES (d : UTC_PROPERTIES_t) : m UTC_PROPERTIES_t :=
  flags <- procZeroFlag (up_flags d) ;;
  currentUtcOffset <- procValue V_i16 "currentUtcOffset" (up_currentUtcOffset d) ;;
  flags <- procFlag "leap61" flags 0x01 ;;
  flags <- procFlag "leap59" flags 0x02 ;;
  flags <- procFlag "currentUtcOffsetValid" flags 0x04 ;;
  jret (mk_UTC_PROPERTIES currentUtcOffset flags).
Definition proc_TRACEABILITY_PROPERTIES
    (d : TRACEABILITY_PROPERTIES_t) : m TRACEABILITY_PROPERTIES_t :=
  flags <- procZeroFlag (trp_flags d) ;;
  flags <- procFlag "timeTraceable" flags 0x10 ;;
  flags <- procFlag "frequencyTraceable" flags 0x20 ;;
  jret (mk_TRACEABILITY_PROPERTIES flags).
Definition proc_TIMESCALE_PROPERTIES (d : TIMESCALE_PROPERTIES_t) : m TIMESCALE_PROPERTIES_t :=
  flags <- procZeroFlag (tsp_flags d) ;;
  flags <- procFlag "ptpTimescale" flags 0x08 ;;
  timeSource <- procValue V_timeSource "timeSource" (tsp_timeSource d) ;;
  jret (mk_TIMESCALE_PROPERTIES flags timeSource).
Definition proc_UNICAST_NEGOTIATION_ENABLE
    (d : UNICAST_NEGOTIATION_ENABLE_t) : m UNICAST_NEGOTIATION_ENABLE_t :=
  flags <- procZeroFlag (une_flags d) ;;
  flags <- procFlag "unicastNegotiationPortDS" flags 1 ;;
  jret (mk_UNICAST_NEGOTIATION_ENABLE flags).
Definition proc_PATH_TRACE_LIST (d : PATH_TRACE_LIST_t) : m PATH_TRACE_LIST_t :=
  pathSequence <- procArray A_ClockIdentity "pathSequence" (ptl_pathSequence d) ;;
  jret (mk_PATH_TRACE_LIST pathSequence).
Definition proc_PATH_TRACE_ENABLE (d : PATH_TRACE_ENABLE_t) : m PATH_TRACE_ENABLE_t :=
  flags <- procZeroFlag (pte_flags d) ;;
  flags <- procFlag "pathTraceDS" flags 1 ;;
  jret (mk_PATH_TRACE_ENABLE flags).
Definition proc_GRANDMASTER_CLUSTER_TABLE
    (d : GRANDMASTER_CLUSTER_TABLE_t) : m GRANDMASTER_CLUSTER_TABLE_t :=
  logQueryInterval <- procValue V_i8 "logQueryInterval" (gct_logQueryInterval d) ;;
  actualTableSize <- procValue V_u8 "actualTableSize" (gct_actualTableSize d) ;;
  PortAddress_ <- procArray A_PortAddress "PortAddress" (gct_PortAddress d) ;;
  jret (mk_GRANDMASTER_CLUSTER_TABLE logQueryInterval actualTableSize PortAddress_).
Definition proc_UNICAST_MASTER_TABLE (d : UNICAST_MASTER_TABLE_t) : m UNICAST_MASTER_TABLE_t :=
  logQueryInterval <- procValue V_i8 "logQueryInterval" (umt_logQueryInterval d) ;;
  actualTableSize <- procValue V_u16 "actualTableSize" (umt_actualTableSize d) ;;
  PortAddress_ <- procArray A_PortAddress "PortAddress" (umt_PortAddress d) ;;
  jret (mk_UNICAST_MASTER_TABLE logQueryInterval actualTableSize PortAddress_).
Definition proc_UNICAST_MASTER_MAX_TABLE_SIZE
    (d : UNICAST_MASTER_MAX_TABLE_SIZE_t) : m UNICAST_MASTER_MAX_TABLE_SIZE_t :=
  maxTableSize <- procValue V_u16 "maxTableSize" (umm_maxTableSize d) ;;
  jret (mk_UNICAST_MASTER_MAX_TABLE_SIZE maxTableSize).
Definition proc_ACCEPTABLE_MASTER_TABLE
    (d : ACCEPTABLE_MASTER_TABLE_t) : m ACCEPTABLE_MASTER_TABLE_t :=
  actualTableSize <- procValue V_i16 "actualTableSize" (amt_actualTableSize d) ;;
  list_ <- procArray A_AcceptableMaster "list" (amt_list d) ;;
  jret (mk_ACCEPTABLE_MASTER_TABLE actualTableSize list_).
Definition proc_ACCEPTABLE_MASTER_TABLE_ENABLED
    (d : ACCEPTABLE_MASTER_TABLE_ENABLED_t) : m ACCEPTABLE_MASTER_TABLE_ENABLED_t :=
  flags <- procZeroFlag (ame_flags d) ;;
  flags <- procFlag "acceptableMasterPortDS" flags 1 ;;
  jret (mk_ACCEPTABLE_MASTER_TABLE_ENABLED flags).
Definition proc_ACCEPTABLE_MASTER_MAX_TABLE_SIZE
    (d : ACCEPTABLE_MASTER_MAX_TABLE_SIZE_t) : m ACCEPTABLE_MASTER_MAX_TABLE_SIZE_t :=
  maxTableSize <- procValue V_u16 "maxTableSize" (amm_maxTableSize d) ;;
  jret (mk_ACCEPTABLE_MASTER_MAX_TABLE_SIZE maxTableSize).
Definition proc_ALTERNATE_MASTER (d : ALTERNATE_MASTER_t) : m ALTERNATE_MASTER_t :=
  flags <- procZeroFlag (am_flags d) ;;
  flags <- procFlag "transmitAlternateMulticastSync" flags 1 ;;
  logAlternateMulticastSyncInterval <- procValue V_i8 "logAlternateMulticastSyncInterval"
      (am_logAlternateMulticastSyncInterval d) ;;
  numberOfAlternateMasters <- procValue V_u8 "numberOfAlternateMasters"
      (am_numberOfAlternateMasters d) ;;
  jret (mk_ALTERNATE_MASTER flags logAlternateMulticastSyncInterval
         numberOfAlternateMasters).
Definition proc_ALTERNATE_TIME_OFFSET_ENABLE
    (d : ALTERNATE_TIME_OFFSET_ENABLE_t) : m ALTERNATE_TIME_OFFSET_ENABLE_t :=
  flags <- procZeroFlag (atoe_flags d) ;;
  keyField <- procValue V_u8 "keyField" (atoe_keyField d) ;;
  flags <- procFlag "alternateTimescaleOffsetsDS" flags 1 ;;
  jret (mk_ALTERNATE_TIME_OFFSET_ENABLE keyField flags).
Definition proc_ALTERNATE_TIME_OFFSET_NAME
    (d : ALTERNATE_TIME_OFFSET_NAME_t) : m ALTERNATE_TIME_OFFSET_NAME_t :=
  keyField <- procValue V_u8 "keyField" (aton_keyField d) ;;
  displayName <- procValue V_PTPText "displayName" (aton_displayName d) ;;
  jret (mk_ALTERNATE_TIME_OFFSET_NAME keyField displayName).
Definition proc_ALTERNATE_TIME_OFFSET_MAX_KEY
    (d : ALTERNATE_TIME_OFFSET_MAX_KEY_t) : m ALTERNATE_TIME_OFFSET_MAX_KEY_t :=
  maxKey <- procValue V_u8 "maxKey" (atom_maxKey d) ;;
  jret (mk_ALTERNATE_TIME_OFFSET_MAX_KEY maxKey).
Definition proc_ALTERNATE_TIME_OFFSET_PROPERTIES
    (d : ALTERNATE_TIME_OFFSET_PROPERTIES_t) : m ALTERNATE_TIME_OFFSET_PROPERTIES_t :=
  keyField <- procValue V_u8 "keyField" (atop_keyField d) ;;
  currentOffset <- procValue V_i32 "currentOffset" (atop_currentOffset d) ;;
  jumpSeconds <- procValue V_i32 "jumpSeconds" (atop_jumpSeconds d) ;;
  timeOfNextJump <- procValue V_u64 "timeOfNextJump" (atop_timeOfNextJump d) ;;
  jret (mk_ALTERNATE_TIME_OFFSET_PROPERTIES keyField currentOffset jumpSeconds
         timeOfNextJump).
Definition proc_TRANSPARENT_CLOCK_PORT_DATA_SET
    (d : TRANSPARENT_CLOCK_PORT_DATA_SET_t) : m TRANSPARENT_CLOCK_PORT_DATA_SET_t :=
  flags <- procZeroFlag (tcp_flags d) ;;
  portIdentity <- procValue V_PortIdentity "portIdentity" (tcp_portIdentity d) ;;
  flags <- procFlag "transparentClockPortDS" flags 1 ;;
  logMinPdelayReqInterval <- procValue V_i8 "logMinPdelayReqInterval"
      (tcp_logMinPdelayReqInterval d) ;;
  peerMeanPathDelay <- procValue V_TimeInterval "peerMeanPathDelay" (tcp_peerMeanPathDelay d) ;;
  jret (mk_TRANSPARENT_CLOCK_PORT_DATA_SET portIdentity flags logMinPdelayReqInterval
         peerMeanPathDelay).
Definition proc_LOG_MIN_PDELAY_REQ_INTERVAL
    (d : LOG_MIN_PDELAY_REQ_INTERVAL_t) : m LOG_MIN_PDELAY_REQ_INTERVAL_t :=
  logMinPdelayReqInterval <- procValue V_i8 "logMinPdelayReqInterval"
      (lmp_logMinPdelayReqInterval d) ;;
  jret (mk_LOG_MIN_PDELAY_REQ_INTERVAL logMinPdelayReqInterval).
Definition proc_TRANSPARENT_CLOCK_DEFAULT_DATA_SET
    (d : TRANSPARENT_CLOCK_DEFAULT_DATA_SET_t) : m TRANSPARENT_CLOCK_DEFAULT_DATA_SET_t :=
  clockIdentity <- procValue V_ClockIdentity "clockIdentity" (tcd_clockIdentity d) ;;
  numberPorts <- procValue V_u16 "numberPorts" (tcd_numberPorts d) ;;
  delayMechanism <- procValue V_delayMechanism "delayMechanism" (tcd_delayMechanism d) ;;
  primaryDomain <- procValue V_u8 "primaryDomain" (tcd_primaryDomain d) ;;
  jret (mk_TRANSPARENT_CLOCK_DEFAULT_DATA_SET clockIdentity numberPorts delayMechanism
         primaryDomain).
Definition proc_PRIMARY_DOMAIN (d : PRIMARY_DOMAIN_t) : m PRIMARY_DOMAIN_t :=
  primaryDomain <- procValue V_u8 "primaryDomain" (pd_primaryDomain d) ;;
  jret (mk_PRIMARY_DOMAIN primaryDomain).
Definition proc_DELAY_MECHANISM (d : DELAY_MECHANISM_t) : m DELAY_MECHANISM_t :=
  delayMechanism <- procValue V_delayMechanism "delayMechanism" (dm_delayMechanism d) ;;
  jret (mk_DELAY_MECHANISM delayMechanism).
Definition proc_EXTERNAL_PORT_CONFIGURATION_ENABLED
    (d : EXTERNAL_PORT_CONFIGURATION_ENABLED_t) : m EXTERNAL_PORT_CONFIGURATION_ENABLED_t :=
  flags <- procZeroFlag (epc_flags d) ;;
  flags <- procFlag "externalPortConfiguration" flags 1 ;;
  jret (mk_EXTERNAL_PORT_CONFIGURATION_ENABLED flags).
Definition proc_MASTER_ONLY (d : MASTER_ONLY_t) : m MASTER_ONLY_t :=
  flags <- procZeroFlag (mo_flags d) ;;
  flags <- procFlag "masterOnly" flags 1 ;;
  jret (mk_MASTER_ONLY flags).
Definition proc_HOLDOVER_UPGRADE_ENABLE
    (d : HOLDOVER_UPGRADE_ENABLE_t) : m HOLDOVER_UPGRADE_ENABLE_t :=
  flags <- procZeroFlag (hue_flags d) ;;
  flags <- procFlag "holdoverUpgradeDS" flags 1 ;;
  jret (mk_HOLDOVER_UPGRADE_ENABLE flags).
Definition proc_EXT_PORT_CONFIG_PORT_DATA_SET
    (d : EXT_PORT_CONFIG_PORT_DATA_SET_t) : m EXT_PORT_CONFIG_PORT_DATA_SET_t :=
  flags <- procZeroFlag (epp_flags d) ;;
  flags <- procFlag "acceptableMasterPortDS" flags 1 ;;
  desiredState <- procValue V_portState "desiredState" (epp_desiredState d) ;;
  jret (mk_EXT_PORT_CONFIG_PORT_DATA_SET flags desiredState).
Definition proc_TIME_STATUS_NP (d : TIME_STATUS_NP_t) : m TIME_STATUS_NP_t :=
  master_offset <- procValue V_i64 "master_offset" (tsn_master_offset d) ;;
  ingress_time <- procValue V_i64 "ingress_time" (tsn_ingress_time d) ;;
  cumulativeScaledRateOffset <- procValue V_i32 "cumulativeScaledRateOffset"
      (tsn_cumulativeScaledRateOffset d) ;;
  scaledLastGmPhaseChange <- procValue V_i32 "scaledLastGmPhaseChange"
      (tsn_scaledLastGmPhaseChange d) ;;
  gmTimeBaseIndicator <- procValue V_u16 "gmTimeBaseIndicator" (tsn_gmTimeBaseIndicator d) ;;
  nanoseconds_msb <- procValue V_u16 "nanoseconds_msb" (tsn_nanoseconds_msb d) ;;
  nanoseconds_lsb <- procValue V_u64 "nanoseconds_lsb" (tsn_nanoseconds_lsb d) ;;
  fractional_nanoseconds <- procValue V_u16 "fractional_nanoseconds"
      (tsn_fractional_nanoseconds d) ;;
  gmPresent <- procValue V_i32 "gmPresent" (tsn_gmPresent d) ;;
  gmIdentity <- procValue V_ClockIdentity "gmIdentity" (tsn_gmIdentity d) ;;
  jret (mk_TIME_STATUS_NP master_offset ingress_time cumulativeScaledRateOffset
         scaledLastGmPhaseChange gmTimeBaseIndicator nanoseconds_msb nanoseconds_lsb
         fractional_nanoseconds gmPresent gmIdentity).
Definition proc_GRANDMASTER_SETTINGS_NP
    (d : GRANDMASTER_SETTINGS_NP_t) : m GRANDMASTER_SETTINGS_NP_t :=
  flags <- procZeroFlag (gsn_flags d) ;;
  clockQuality <- procValue V_ClockQuality "clockQuality" (gsn_clockQuality d) ;;
  currentUtcOffset <- procValue V_i16 "currentUtcOffset" (gsn_currentUtcOffset d) ;;
  flags <- procFlag "leap61" flags 0x01 ;;
  flags <- procFlag "leap59" flags 0x02 ;;
  flags <- procFlag "currentUtcOffsetValid" flags 0x04 ;;
  flags <- procFlag "ptpTimescale" flags 0x08 ;;
  flags <- procFlag "timeTraceable" flags 0x10 ;;
  flags <- procFlag "frequencyTraceable" flags 0x20 ;;
  timeSource <- procValue V_timeSource "timeSource" (gsn_timeSource d) ;;
  jret (mk_GRANDMASTER_SETTINGS_NP clockQuality currentUtcOffset flags timeSource).
Definition proc_PORT_DATA_SET_NP (d : PORT_DATA_SET_NP_t) : m PORT_DATA_SET_NP_t :=
  neighborPropDelayThresh <- procValue V_u32 "neighborPropDelayThresh"
      (pdsn_neighborPropDelayThresh d) ;;
  asCapable <- procValue V_i32 "asCapable" (pdsn_asCapable d) ;;
  jret (mk_PORT_DATA_SET_NP neighborPropDelayThresh asCapable).
Definition proc_SUBSCRIBE_EVENTS_NP (d : SUBSCRIBE_EVENTS_NP_t) : m SUBSCRIBE_EVENTS_NP_t :=
  duration <- procValue V_u16 "duration" (sen_duration d) ;;
  bitmask <- proc_event "NOTIFY_PORT_STATE" NOTIFY_PORT_STATE (sen_bitmask d) ;;
  bitmask <- proc_event "NOTIFY_TIME_SYNC" NOTIFY_TIME_SYNC bitmask ;;
  bitmask <- proc_event "NOTIFY_PARENT_DATA_SET" NOTIFY_PARENT_DATA_SET bitmask ;;
  bitmask <- proc_event "NOTIFY_CMLDS" NOTIFY_CMLDS bitmask ;;
  jret (mk_SUBSCRIBE_EVENTS_NP duration bitmask).
Definition proc_PORT_PROPERTIES_NP (d : PORT_PROPERTIES_NP_t) : m PORT_PROPERTIES_NP_t :=
  portIdentity <- procValue V_PortIdentity "portIdentity" (ppn_portIdentity d) ;;
  portState <- procValue V_portState "portState" (ppn_portState d) ;;
  timestamping <- procValue V_linuxptpTimeStamp "timestamping" (ppn_timestamping d) ;;
  interface_ <- procValue V_PTPText "interface" (ppn_interface d) ;;
  jret (mk_PORT_PROPERTIES_NP portIdentity portState timestamping interface_).
Definition proc_PORT_STATS_NP (d : PORT_STATS_NP_t) : m PORT_STATS_NP_t :=
  portIdentity <- procValue V_PortIdentity "portIdentity" (psn_portIdentity d) ;;
  rx <- proc_stat "rx_Sync" STAT_SYNC (psn_rxMsgType d) ;;
  rx <- proc_stat "rx_Delay_Req" STAT_DELAY_REQ rx ;;
  rx <- proc_stat "rx_Pdelay_Req" STAT_PDELAY_REQ rx ;;
  rx <- proc_stat "rx_Pdelay_Resp" STAT_PDELAY_RESP rx ;;
  rx <- proc_stat "rx_Follow_Up" STAT_FOLLOW_UP rx ;;
  rx <- proc_stat "rx_Delay_Resp" STAT_DELAY_RESP rx ;;
  rx <- proc_stat "rx_Pdelay_Resp_Follow_Up" STAT_PDELAY_RESP_FOLLOW_UP rx ;;
  rx <- proc_stat "rx_Announce" STAT_ANNOUNCE rx ;;
  rx <- proc_stat "rx_Signaling" STAT_SIGNALING rx ;;
  rx <- proc_stat "rx_Management" STAT_MANAGEMENT rx ;;
  tx <- proc_stat "tx_Sync" STAT_SYNC (psn_txMsgType d) ;;
  tx <- proc_stat "tx_Delay_Req" STAT_DELAY_REQ tx ;;
  tx <- proc_stat "tx_Pdelay_Req" STAT_PDELAY_REQ tx ;;
  tx <- proc_stat "tx_Pdelay_Resp" STAT_PDELAY_RESP tx ;;
  tx <- proc_stat "tx_Follow_Up" STAT_FOLLOW_UP tx ;;
  tx <- proc_stat "tx_Delay_Resp" STAT_DELAY_RESP tx ;;
  tx <- proc_stat "tx_Pdelay_Resp_Follow_Up" STAT_PDELAY_RESP_FOLLOW_UP tx ;;
  tx <- proc_stat "tx_Announce" STAT_ANNOUNCE tx ;;
  tx <- proc_stat "tx_Signaling" STAT_SIGNALING tx ;;
  tx <- proc_stat "tx_Management" STAT_MANAGEMENT tx ;;
  jret (mk_PORT_STATS_NP portIdentity rx tx).
Definition proc_SYNCHRONIZATION_UNCERTAIN_NP
    (d : SYNCHRONIZATION_UNCERTAIN_NP_t) : m SYNCHRONIZATION_UNCERTAIN_NP_t :=
  val_ <- procValue V_u8 "val" (sun_val d) ;;
  jret (mk_SYNCHRONIZATION_UNCERTAIN_NP val_).
Definition proc_PORT_SERVICE_STATS_NP (d : PORT_SERVICE_STATS_NP_t) : m PORT_SERVICE_STATS_NP_t :=
  portIdentity <- procValue V_PortIdentity "portIdentity" (pss_portIdentity d) ;;
  announce_timeout <- procValue V_u64 "announce_timeout" (pss_announce_timeout d) ;;
  sync_timeout <- procValue V_u64 "sync_timeout" (pss_sync_timeout d) ;;
  delay_timeout <- procValue V_u64 "delay_timeout" (pss_delay_timeout d) ;;
  unicast_service_timeout <- procValue V_u64 "unicast_service_timeout"
      (pss_unicast_service_timeout d) ;;
  unicast_request_timeout <- procValue V_u64 "unicast_request_timeout"
      (pss_unicast_request_timeout d) ;;
  master_announce_timeout <- procValue V_u64 "master_announce_timeout"
      (pss_master_announce_timeout d) ;;
  master_sync_timeout <- procValue V_u64 "master_sync_timeout" (pss_master_sync_timeout d) ;;
  qualification_timeout <- procValue V_u64 "qualification_timeout"
      (pss_qualification_timeout d) ;;
  sync_mismatch <- procValue V_u64 "sync_mismatch" (pss_sync_mismatch d) ;;
  followup_mismatch <- procValue V_u64 "followup_mismatch" (pss_followup_mismatch d) ;;
  jret (mk_PORT_SERVICE_STATS_NP portIdentity announce_timeout sync_timeout delay_timeout
         unicast_service_timeout unicast_request_timeout master_announce_timeout
         master_sync_timeout qualification_timeout sync_mismatch followup_mismatch).
Definition proc_UNICAST_MASTER_TABLE_NP
    (d : UNICAST_MASTER_TABLE_NP_t) : m UNICAST_MASTER_TABLE_NP_t :=
  actualTableSize <- procValue V_i16 "actualTableSize" (umn_actualTableSize d) ;;
  unicastMasters <- procArray A_LinuxptpUnicastMaster "unicastMasters" (umn_unicastMasters d) ;;
  jret (mk_UNICAST_MASTER_TABLE_NP actualTableSize unicastMasters).
Definition proc_PORT_HWCLOCK_NP (d : PORT_HWCLOCK_NP_t) : m PORT_HWCLOCK_NP_t :=
  portIdentity <- procValue V_PortIdentity "portIdentity" (phn_portIdentity d) ;;
  phc_index <- procValue V_i32 "phc_index" (phn_phc_index d) ;;
  flags <- procValue V_u8 "flags" (phn_flags d) ;;
  jret (mk_PORT_HWCLOCK_NP portIdentity phc_index flags).
Definition proc_POWER_PROFILE_SETTINGS_NP
    (d : POWER_PROFILE_SETTINGS_NP_t) : m POWER_PROFILE_SETTINGS_NP_t :=
  version_ <- procValue V_linuxptpPowerProfileVersion "version" (ppsn_version d) ;;
  grandmasterID <- procValue V_u16 "grandmasterID" (ppsn_grandmasterID d) ;;
  grandmasterTimeInaccuracy <- procValue V_u32 "grandmasterTimeInaccuracy"
      (ppsn_grandmasterTimeInaccuracy d) ;;
  networkTimeInaccuracy <- procValue V_u32 "networkTimeInaccuracy"
      (ppsn_networkTimeInaccuracy d) ;;
  totalTimeInaccuracy <- procValue V_u32 "totalTimeInaccuracy" (ppsn_totalTimeInaccuracy d) ;;
  jret (mk_POWER_PROFILE_SETTINGS_NP version_ grandmasterID grandmasterTimeInaccuracy
         networkTimeInaccuracy totalTimeInaccuracy).
Definition proc_CMLDS_INFO_NP (d : CMLDS_INFO_NP_t) : m CMLDS_INFO_NP_t :=
  meanLinkDelay <- procValue V_TimeInterval "meanLinkDelay" (cin_meanLinkDelay d) ;;
  scaledNeighborRateRatio <- procValue V_i32 "scaledNeighborRateRatio"
      (cin_scaledNeighborRateRatio d) ;;
  as_capable <- procValue V_u32 "as_capable" (cin_as_capable d) ;;
  jret (mk_CMLDS_INFO_NP meanLinkDelay scaledNeighborRateRatio as_capable).
Definition proc_PORT_CORRECTIONS_NP (d : PORT_CORRECTIONS_NP_t) : m PORT_CORRECTIONS_NP_t :=
  egressLatency <- procValue V_i64 "egressLatency" (pcn_egressLatency d) ;;
  ingressLatency <- procValue V_i64 "ingressLatency" (pcn_ingressLatency d) ;;
  delayAsymmetry <- procValue V_i64 "delayAsymmetry" (pcn_delayAsymmetry d) ;;
  jret (mk_PORT_CORRECTIONS_NP egressLatency ingressLatency delayAsymmetry).
Definition proc_EXTERNAL_GRANDMASTER_PROPERTIES_NP
    (d : EXTERNAL_GRANDMASTER_PROPERTIES_NP_t) : m EXTERNAL_GRANDMASTER_PROPERTIES_NP_t :=
  gmIdentity <- procValue V_ClockIdentity "gmIdentity" (egp_gmIdentity d) ;;
  stepsRemoved <- procValue V_u16 "stepsRemoved" (egp_stepsRemoved d) ;;
  jret (mk_EXTERNAL_GRANDMASTER_PROPERTIES_NP gmIdentity stepsRemoved).

(** One case of [procData]: a null pointer stands for a new structure. *)
Definition proc_case {D} `{MngTlv D} (proc : D -> m D) (tlv : option BaseMngTlv) : m BaseMngTlv :=
  match (match tlv with None => Some tlv_init | Some t => tlv_cast t end) with
  | None => jfail
  | Some d => d <- proc d ;; jret (tlv_up d)
  end.
Definition procData (managementId : mng_vals_e) (tlv : option BaseMngTlv) : m BaseMngTlv :=
  match managementId with
  | CLOCK_DESCRIPTION => proc_case proc_CLOCK_DESCRIPTION tlv
  | USER_DESCRIPTION => proc_case proc_USER_DESCRIPTION tlv
  | INITIALIZE => proc_case proc_INITIALIZE tlv
  | FAULT_LOG => proc_case proc_FAULT_LOG tlv
  | DEFAULT_DATA_SET => proc_case proc_DEFAULT_DATA_SET tlv
  | CURRENT_DATA_SET => proc_case proc_CURRENT_DATA_SET tlv
  | PARENT_DATA_SET => proc_case proc_PARENT_DATA_SET tlv
  | TIME_PROPERTIES_DATA_SET => proc_case proc_TIME_PROPERTIES_DATA_SET tlv
  | PORT_DATA_SET => proc_case proc_PORT_DATA_SET tlv
  | PRIORITY1 => proc_case proc_PRIORITY1 tlv
  | PRIORITY2 => proc_case proc_PRIORITY2 tlv
  | DOMAIN => proc_case proc_DOMAIN tlv
  | SLAVE_ONLY => proc_case proc_SLAVE_ONLY tlv
  | LOG_ANNOUNCE_INTERVAL => proc_case proc_LOG_ANNOUNCE_INTERVAL tlv
  | ANNOUNCE_RECEIPT_TIMEOUT => proc_case proc_ANNOUNCE_RECEIPT_TIMEOUT tlv
  | LOG_SYNC_INTERVAL => proc_case proc_LOG_SYNC_INTERVAL tlv
  | VERSION_NUMBER => proc_case proc_VERSION_NUMBER tlv
  | TIME => proc_case proc_TIME tlv
  | CLOCK_ACCURACY => proc_case proc_CLOCK_ACCURACY tlv
  | UTC_PROPERTIES => proc_case proc_UTC_PROPERTIES tlv
  | TRACEABILITY_PROPERTIES => proc_case proc_TRACEABILITY_PROPERTIES tlv
  | TIMESCALE_PROPERTIES => proc_case proc_TIMESCALE_PROPERTIES tlv
  | UNICAST_NEGOTIATION_ENABLE => proc_case proc_UNICAST_NEGOTIATION_ENABLE tlv
  | PATH_TRACE_LIST => proc_case proc_PATH_TRACE_LIST tlv
  | PATH_TRACE_ENABLE => proc_case proc_PATH_TRACE_ENABLE tlv
  | GRANDMASTER_CLUSTER_TABLE => proc_case proc_GRANDMASTER_CLUSTER_TABLE tlv
  | UNICAST_MASTER_TABLE => proc_case proc_UNICAST_MASTER_TABLE tlv
  | UNICAST_MASTER_MAX_TABLE_SIZE => proc_case proc_UNICAST_MASTER_MAX_TABLE_SIZE tlv
  | ACCEPTABLE_MASTER_TABLE => proc_case proc_ACCEPTABLE_MASTER_TABLE tlv
  | ACCEPTABLE_MASTER_TABLE_ENABLED => proc_case proc_ACCEPTABLE_MASTER_TABLE_ENABLED tlv
  | ACCEPTABLE_MASTER_MAX_TABLE_SIZE => proc_case proc_ACCEPTABLE_MASTER_MAX_TABLE_SIZE tlv
  | ALTERNATE_MASTER => proc_case proc_ALTERNATE_MASTER tlv
  | ALTERNATE_TIME_OFFSET_ENABLE => proc_case proc_ALTERNATE_TIME_OFFSET_ENABLE tlv
  | ALTERNATE_TIME_OFFSET_NAME => proc_case proc_ALTERNATE_TIME_OFFSET_NAME tlv
  | ALTERNATE_TIME_OFFSET_MAX_KEY => proc_case proc_ALTERNATE_TIME_OFFSET_MAX_KEY tlv
  | ALTERNATE_TIME_OFFSET_PROPERTIES => proc_case proc_ALTERNATE_TIME_OFFSET_PROPERTIES tlv
  | TRANSPARENT_CLOCK_PORT_DATA_SET => proc_case proc_TRANSPARENT_CLOCK_PORT_DATA_SET tlv
  | LOG_MIN_PDELAY_REQ_INTERVAL => proc_case proc_LOG_MIN_PDELAY_REQ_INTERVAL tlv
  | TRANSPARENT_CLOCK_DEFAULT_DATA_SET => proc_case proc_TRANSPARENT_CLOCK_DEFAULT_DATA_SET tlv
  | PRIMARY_DOMAIN => proc_case proc_PRIMARY_DOMAIN tlv
  | DELAY_MECHANISM => proc_case proc_DELAY_MECHANISM tlv
  | EXTERNAL_PORT_CONFIGURATION_ENABLED => proc_case proc_EXTERNAL_PORT_CONFIGURATION_ENABLED tlv
  | MASTER_ONLY => proc_case proc_MASTER_ONLY tlv
  | HOLDOVER_UPGRADE_ENABLE => proc_case proc_HOLDOVER_UPGRADE_ENABLE tlv
  | EXT_PORT_CONFIG_PORT_DATA_SET => proc_case proc_EXT_PORT_CONFIG_PORT_DATA_SET tlv
  | TIME_STATUS_NP => proc_case proc_TIME_STATUS_NP tlv
  | GRANDMASTER_SETTINGS_NP => proc_case proc_GRANDMASTER_SETTINGS_NP tlv
  | PORT_DATA_SET_NP => proc_case proc_PORT_DATA_SET_NP tlv
  | SUBSCRIBE_EVENTS_NP => proc_case proc_SUBSCRIBE_EVENTS_NP tlv
  | PORT_PROPERTIES_NP => proc_case proc_PORT_PROPERTIES_NP tlv
  | PORT_STATS_NP => proc_case proc_PORT_STATS_NP tlv
  | SYNCHRONIZATION_UNCERTAIN_NP => proc_case proc_SYNCHRONIZATION_UNCERTAIN_NP tlv
  | PORT_SERVICE_STATS_NP => proc_case proc_PORT_SERVICE_STATS_NP tlv
  | UNICAST_MASTER_TABLE_NP => proc_case proc_UNICAST_MASTER_TABLE_NP tlv
  | PORT_HWCLOCK_NP => proc_case proc_PORT_HWCLOCK_NP tlv
  | POWER_PROFILE_SETTINGS_NP => proc_case proc_POWER_PROFILE_SETTINGS_NP tlv
  | CMLDS_INFO_NP => proc_case proc_CMLDS_INFO_NP tlv
  | PORT_CORRECTIONS_NP => proc_case proc_PORT_CORRECTIONS_NP tlv
  | EXTERNAL_GRANDMASTER_PROPERTIES_NP => proc_case proc_EXTERNAL_GRANDMASTER_PROPERTIES_NP tlv
  | _ => jfail
  end.
End Fields.
