(* ===== verification/JsonTo.v ===== *)
(** * JsonTo.v: messages printed as JSON

    [struct JsonProcToJson] of [src/src/json.cpp], [msg2json] and [tlv2json].  The
    state of the object is its result, the stack of its open objects and arrays,
    and whether the next item is the first one; a method is a function on it.
    [double_text] stands for [std::to_string(double)]: floating point is not
    modelled.  The indentation is not negative. *)

From S2P Require Import Prelude CStr Types Ids Names MsgProc MngTlvs SigTlvs Message.
From S2P Require Import Bin Json JsonVal Text JsonProc.

Record JsonProcToJson := mk_JsonProcToJson {
  m_result : list byte;
  m_first_vals : list bool;
  m_base_indent : nat;
  m_first : bool
}.
#[local] Abbreviation J := JsonProcToJson.

(** One step after another. *)
Definition andthen (f g : J -> J) : J -> J := fun s => g (f s).
Declare Scope jsonto_scope.
Delimit Scope jsonto_scope with jsonto.
Infix ">>" := andthen (at level 100, right associativity) : jsonto_scope.
#[local] Open Scope jsonto_scope.

(** ** Layout *)

(** [m_result += t] *)
Definition add (t : list byte) (s : J) : J :=
  mk_JsonProcToJson (m_result s ++ t) (m_first_vals s) (m_base_indent s) (m_first s).
Definition set_first (f : bool) (s : J) : J :=
  mk_JsonProcToJson (m_result s) (m_first_vals s) (m_base_indent s) f.

Definition close (s : J) : J :=
  set_first false (add [LF] (if m_first s then s else add (bytes ",") s)).
Definition indent (s : J) : J :=
  add (spaces (length (m_first_vals s) * 2 + m_base_indent s)) s.
Definition startName (name end_ : list byte) : J -> J :=
  close >> indent >> add [QUOTE] >> add name >> add (QUOTE :: bytes " :") >> add end_.

(** [m_first_vals.push(m_first)], and [top] with [pop]; what is closed was
    started. *)
Definition push_first (s : J) : J :=
  mk_JsonProcToJson (m_result s) (m_first s :: m_first_vals s) (m_base_indent s) true.
Definition pop_first (s : J) : J :=
  mk_JsonProcToJson (m_result s) (tail (m_first_vals s)) (m_base_indent s)
    (hd false (m_first_vals s)).
Definition startObject : J -> J := indent >> add (bytes "{") >> push_first.
Definition closeObject : J -> J := add [LF] >> pop_first >> indent >> add (bytes "}").
Definition startArray : J -> J := indent >> add (bytes "[") >> push_first.
Definition closeArray : J -> J := add [LF] >> pop_first >> indent >> add (bytes "]").

Definition SP : list byte := [x20].
Definition to_procObject (name : string) : J -> J := startName (bytes name) [LF] >> startObject.
Definition to_procArray (name : string) : J -> J := startName (bytes name) [LF] >> startArray.
Definition procString (name : string) (val : list byte) : J -> J :=
  startName (bytes name) (SP ++ [QUOTE]) >> add val >> add [QUOTE].
(** [procValue] of a text that is printed as it is. *)
Definition procText (name : string) (val : list byte) : J -> J :=
  startName (bytes name) SP >> add val.
Definition procBool (name : string) (val : bool) : J -> J :=
  startName (bytes name) SP >> add (bytes (if val then "true" else "false")).
Definition procInt (name : string) (val : Z) : J -> J := procText name (to_string val).
Definition procEnum (name : string) (text : string) : J -> J := procString name (bytes text).
Definition procId (name : string) (id : list byte) : J -> J :=
  procString name (bufToId (bytes ":") id).

(** ** Values *)

Definition clockAccuracy_text (val : Z) : list byte :=
  if val <? 0x17 then hex_text val else bytes (clockAcc2str_c val).
Definition to_ClockQuality (name : string) (val : ClockQuality_t) : J -> J :=
  to_procObject name >>
  procInt "clockClass" (clockClass val) >>
  procString "clockAccuracy" (clockAccuracy_text (clockAccuracy val)) >>
  procInt "offsetScaledLogVariance" (offsetScaledLogVariance val) >>
  closeObject.
Definition to_PortIdentity (name : string) (val : PortIdentity_t) : J -> J :=
  to_procObject name >>
  procString "clockIdentity" (ClockIdentity_string (clockIdentity val)) >>
  procInt "portNumber" (portNumber val) >>
  closeObject.

(** The values without a name, as elements of arrays. *)
Definition el_ClockIdentity (val : ClockIdentity_t) : J -> J :=
  indent >> add [QUOTE] >> add (ClockIdentity_string val) >> add [QUOTE].
Definition el_PortAddress (val : PortAddress_t) : J -> J :=
  startObject >>
  procEnum "networkProtocol" (netProt2str_c (networkProtocol val)) >>
  procId "addressField" (addressField val) >>
  closeObject.
Definition el_FaultRecord (val : FaultRecord_t) : J -> J :=
  startObject >>
  procInt "faultRecordLength" (faultRecordLength val) >>
  procText "faultTime" (Timestamp_string (faultTime val)) >>
  procEnum "severityCode" (faultRec2str_c (severityCode val)) >>
  procString "faultName" (textField (faultName val)) >>
  procString "faultValue" (textField (faultValue val)) >>
  procString "faultDescription" (textField (faultDescription val)) >>
  closeObject.
Definition el_AcceptableMaster (val : AcceptableMaster_t) : J -> J :=
  startObject >>
  to_PortIdentity "acceptablePortIdentity" (acceptablePortIdentity val) >>
  procInt "alternatePriority1" (alternatePriority1 val) >>
  closeObject.
Definition el_LinuxptpUnicastMaster (val : LinuxptpUnicastMaster_t) : J -> J :=
  startObject >>
  to_PortIdentity "portIdentity" (lum_portIdentity val) >>
  to_ClockQuality "clockQuality" (lum_clockQuality val) >>
  procBool "selected" (negb (lum_selected val =? 0)) >>
  procEnum "portState" (us2str_c (lum_portState val)) >>
  procInt "priority1" (lum_priority1 val) >>
  procInt "priority2" (lum_priority2 val) >>
  startName (bytes "portAddress") [LF] >> el_PortAddress (lum_portAddress val) >>
  closeObject.

Definition to_value {T} (t : vtype T) (name : string) : T -> J -> J :=
  match t in vtype T return T -> J -> J with
  | V_u8 | V_u16 | V_u32 | V_u64 | V_i8 | V_i16 | V_i32 | V_i64 => procInt name
  | V_networkProtocol => fun val => procEnum name (netProt2str_c val)
  | V_clockAccuracy => fun val => procString name (clockAccuracy_text val)
  | V_faultRecord => fun val => procEnum name (faultRec2str_c val)
  | V_timeSource => fun val => procEnum name (timeSrc2str_c val)
  | V_portState => fun val => procEnum name (portState2str_c val)
  | V_delayMechanism => fun val => procEnum name (delayMech2str_c val)
  | V_linuxptpTimeStamp => fun val => procEnum name (ts2str_c val)
  | V_linuxptpPowerProfileVersion => fun val => procEnum name (pwr2str_c val)
  | V_linuxptpUnicastState => fun val => procEnum name (us2str_c val)
  | V_TimeInterval => fun val => procInt name (scaledNanoseconds val)
  | V_Timestamp => fun val => procText name (Timestamp_string val)
  | V_ClockIdentity => fun val => procString name (ClockIdentity_string val)
  | V_PortIdentity => to_PortIdentity name
  | V_PortAddress => fun val => startName (bytes name) [LF] >> el_PortAddress val
  | V_ClockQuality => to_ClockQuality name
  | V_PTPText => fun val => procString name (textField val)
  | V_FaultRecord => fun val => startName (bytes name) [LF] >> el_FaultRecord val
  | V_AcceptableMaster => fun val => startName (bytes name) [LF] >> el_AcceptableMaster val
  | V_LinuxptpUnicastMaster =>
      fun val => startName (bytes name) [LF] >> el_LinuxptpUnicastMaster val
  end.
Definition to_element {T} (t : atype T) : T -> J -> J :=
  match t in atype T return T -> J -> J with
  | A_ClockIdentity => el_ClockIdentity
  | A_PortAddress => el_PortAddress
  | A_FaultRecord => el_FaultRecord
  | A_AcceptableMaster => el_AcceptableMaster
  | A_LinuxptpUnicastMaster => el_LinuxptpUnicastMaster
  end.
Fixpoint to_elements {T} (el : T -> J -> J) (val : list T) (s : J) : J :=
  match val with
  | [] => s
  | rec :: val => to_elements el val (el rec (close s))
  end.
Definition to_array {T} (el : T -> J -> J) (name : string) (val : list T) : J -> J :=
  to_procArray name >> to_elements el val >> closeArray.
Definition to_flag (name : string) (flags mask : Z) : J -> J :=
  procBool name (0 <? Z.land flags mask).

(** ** Management TLVs *)

(** A method that prints, and returns true with the value as it was. *)
Definition To (A : Type) : Type := J -> option A * J.
Definition printing {A} (f : J -> J) (a : A) : To A := fun s => (Some a, f s).
#[global] Instance JsonProcToJson_proc : JsonProc To := {
  jret A a := fun s => (Some a, s);
  jand A B p k := fun s => match p s with
                           | (Some a, s) => k a s
                           | (None, s) => (None, s)
                           end;
  jfail A := fun s => (None, s);
  procValue T t name val := printing (to_value t name val) val;
  procBinary name val len := printing (procId name val) (val, len);
  procOctets name val len := printing (procId name val) val;
  procFlag name flags mask := printing (to_flag name flags mask) flags;
  procZeroFlag flags := fun s => (Some flags, s);
  procArray T t name val := printing (to_array (to_element t) name val) val
}.

(** The result of [procData] is not used. *)
Definition data2json (managementId : mng_vals_e) (tlv : option BaseMngTlv) (header : bool)
    (s : J) : J :=
  match tlv with
  | None => s
  | Some _ =>
      let s := if header then to_procObject "dataField" s else startObject s in
      closeObject (procData (m := To) managementId tlv s).2
  end.

(** ** Signalling TLVs *)

(** The named bit of an octet of flags. *)
Definition FLGB (name : string) (flag bit : Z) : J -> J := to_flag name flag (Z.shiftl 1 bit).
Definition V {T} (t : vtype T) (name : string) : T -> J -> J := to_value t name.
Definition procMngId (name : string) (val : mng_vals_e) : J -> J :=
  procEnum name (if bool_decide (val = SMPTE_MNG_ID) then "SMPTE_MNG_ID" else mng2str_c val).

(** A [BaseMngTlv *] that is printed: [None] is a pointer that was never set. *)
Definition ptr_data (tlv : tlv_ptr) : option (option BaseMngTlv) :=
  match tlv with
  | Unset => None
  | Null => Some None
  | Obj t => Some (Some t)
  end.

Definition parse_MANAGEMENT (d : MANAGEMENT_t) (s : J) : option J :=
  t ← ptr_data (mng_tlvData d);
  Some ((procMngId "managementId" (mng_managementId d) >> data2json (mng_managementId d) t true) s).
Definition parse_MANAGEMENT_ERROR_STATUS (d : MANAGEMENT_ERROR_STATUS_t) : J -> J :=
  procMngId "managementId" (mes_managementId d) >>
  procEnum "managementErrorId" (errId2str_c (mes_managementErrorId d)) >>
  V V_PTPText "displayData" (mes_displayData d).
Definition parse_ORGANIZATION_EXTENSION (d : ORGANIZATION_EXTENSION_t) : J -> J :=
  procId "organizationId" (oe_organizationId d) >>
  procId "organizationSubType" (oe_organizationSubType d) >>
  procId "dataField" (oe_dataField d).
Definition parse_PATH_TRACE (d : PATH_TRACE_t) : J -> J :=
  to_array el_ClockIdentity "pathSequence" (pt_pathSequence d).
Definition parse_ALTERNATE_TIME_OFFSET_INDICATOR (d : ALTERNATE_TIME_OFFSET_INDICATOR_t) : J -> J :=
  V V_u8 "keyField" (atoi_keyField d) >>
  V V_i32 "currentOffset" (atoi_currentOffset d) >>
  V V_i32 "jumpSeconds" (atoi_jumpSeconds d) >>
  V V_u64 "timeOfNextJump" (atoi_timeOfNextJump d) >>
  V V_PTPText "displayName" (atoi_displayName d).
Definition parse_L1_SYNC (d : L1_SYNC_t) : J -> J :=
  FLGB "txCoherentIsRequired" (l1_flags1 d) 0 >>
  FLGB "rxCoherentIsRequired" (l1_flags1 d) 1 >>
  FLGB "congruentIsRequired" (l1_flags1 d) 2 >>
  FLGB "optParamsEnabled" (l1_flags1 d) 3 >>
  FLGB "isTxCoherent" (l1_flags2 d) 0 >>
  FLGB "isRxCoherent" (l1_flags2 d) 1 >>
  FLGB "isCongruent" (l1_flags2 d) 2 >>
  if 0 <? Z.land (l1_flags1 d) L1_SYNC_optParamsEnabled then
    FLGB "timestampsCorrectedTx" (l1_flags3 d) 0 >>
    FLGB "phaseOffsetTxValid" (l1_flags3 d) 1 >>
    FLGB "frequencyOffsetTxValid" (l1_flags3 d) 2 >>
    V V_TimeInterval "phaseOffsetTx" (l1_phaseOffsetTx d) >>
    V V_Timestamp "phaseOffsetTxTimestamp" (l1_phaseOffsetTxTimestamp d) >>
    V V_TimeInterval "freqOffsetTx" (l1_freqOffsetTx d) >>
    V V_Timestamp "freqOffsetTxTimestamp" (l1_freqOffsetTxTimestamp d)
  else fun s => s.
Definition availability (name : string) (flags : Z) : J -> J :=
  to_procObject name >>
  FLGB "multicastCapable" flags 0 >>
  FLGB "unicastCapable" flags 1 >>
  FLGB "unicastNegotiationCapableEnable" flags 2 >>
  FLGB "unicastNegotiationCapable" flags 3 >>
  closeObject.
Definition parse_PORT_COMMUNICATION_AVAILABILITY (d : PORT_COMMUNICATION_AVAILABILITY_t) : J -> J :=
  availability "syncMessageAvailability" (pca_syncMessageAvailability d) >>
  availability "delayRespMessageAvailability" (pca_delayRespMessageAvailability d).
Definition parse_PROTOCOL_ADDRESS (d : PROTOCOL_ADDRESS_t) : J -> J :=
  V V_PortAddress "portProtocolAddress" (pa_portProtocolAddress d).

Definition el_SLAVE_RX_SYNC_TIMING_DATA (val : SLAVE_RX_SYNC_TIMING_DATA_rec_t) : J -> J :=
  startObject >>
  V V_u16 "sequenceId" (srt_sequenceId val) >>
  V V_Timestamp "syncOriginTimestamp" (srt_syncOriginTimestamp val) >>
  V V_TimeInterval "totalCorrectionField" (srt_totalCorrectionField val) >>
  V V_i32 "scaledCumulativeRateOffset" (srt_scaledCumulativeRateOffset val) >>
  V V_Timestamp "syncEventIngressTimestamp" (srt_syncEventIngressTimestamp val) >>
  closeObject.
Definition el_SLAVE_RX_SYNC_COMPUTED_DATA (val : SLAVE_RX_SYNC_COMPUTED_DATA_rec_t) : J -> J :=
  startObject >>
  V V_u16 "sequenceId" (src_sequenceId val) >>
  V V_TimeInterval "offsetFromMaster" (src_offsetFromMaster val) >>
  V V_TimeInterval "meanPathDelay" (src_meanPathDelay val) >>
  V V_i32 "scaledNeighborRateRatio" (src_scaledNeighborRateRatio val) >>
  closeObject.
Definition el_SLAVE_TX_EVENT_TIMESTAMPS (val : SLAVE_TX_EVENT_TIMESTAMPS_rec_t) : J -> J :=
  startObject >>
  V V_u16 "sequenceId" (ste_sequenceId val) >>
  V V_Timestamp "eventEgressTimestamp" (ste_eventEgressTimestamp val) >>
  closeObject.
Definition el_SLAVE_DELAY_TIMING_DATA_NP (val : SLAVE_DELAY_TIMING_DATA_NP_rec_t) : J -> J :=
  startObject >>
  V V_u16 "sequenceId" (sdt_sequenceId val) >>
  V V_Timestamp "delayOriginTimestamp" (sdt_delayOriginTimestamp val) >>
  V V_TimeInterval "totalCorrectionField" (sdt_totalCorrectionField val) >>
  V V_Timestamp "delayResponseTimestamp" (sdt_delayResponseTimestamp val) >>
  closeObject.

Definition parse_SLAVE_RX_SYNC_TIMING_DATA (d : SLAVE_RX_SYNC_TIMING_DATA_t) : J -> J :=
  V V_PortIdentity "syncSourcePortIdentity" (srtd_syncSourcePortIdentity d) >>
  to_array el_SLAVE_RX_SYNC_TIMING_DATA "list" (srtd_list d).
Definition parse_SLAVE_RX_SYNC_COMPUTED_DATA (d : SLAVE_RX_SYNC_COMPUTED_DATA_t) : J -> J :=
  V V_PortIdentity "sourcePortIdentity" (srcd_sourcePortIdentity d) >>
  FLGB "scaledNeighborRateRatioValid" (srcd_computedFlags d) 0 >>
  FLGB "meanPathDelayValid" (srcd_computedFlags d) 1 >>
  FLGB "offsetFromMasterValid" (srcd_computedFlags d) 2 >>
  to_array el_SLAVE_RX_SYNC_COMPUTED_DATA "list" (srcd_list d).
Definition parse_SLAVE_TX_EVENT_TIMESTAMPS (d : SLAVE_TX_EVENT_TIMESTAMPS_t) : J -> J :=
  V V_PortIdentity "sourcePortIdentity" (stet_sourcePortIdentity d) >>
  procEnum "eventMessageType" (type2str_c (stet_eventMessageType d)) >>
  to_array el_SLAVE_TX_EVENT_TIMESTAMPS "list" (stet_list d).
Definition parse_CUMULATIVE_RATE_RATIO (d : CUMULATIVE_RATE_RATIO_t) : J -> J :=
  V V_i32 "scaledCumulativeRateRatio" (crr_scaledCumulativeRateRatio d).
Definition parse_SLAVE_DELAY_TIMING_DATA_NP (d : SLAVE_DELAY_TIMING_DATA_NP_t) : J -> J :=
  V V_PortIdentity "sourcePortIdentity" (sdtd_sourcePortIdentity d) >>
  to_array el_SLAVE_DELAY_TIMING_DATA_NP "list" (sdtd_list d).
Definition parse_SMPTE_ORGANIZATION_EXTENSION (d : SMPTE_ORGANIZATION_EXTENSION_t) : J -> J :=
  procId "organizationId" (smp_organizationId d) >>
  procId "organizationSubType" (smp_organizationSubType d) >>
  V V_u32 "defaultSystemFrameRate_numerator" (smp_defaultSystemFrameRate_numerator d) >>
  V V_u32 "defaultSystemFrameRate_denominator" (smp_defaultSystemFrameRate_denominator d) >>
  procEnum "masterLockingStatus" (smpteLck2str_c (smp_masterLockingStatus d)) >>
  V V_u8 "timeAddressFlags" (smp_timeAddressFlags d) >>
  V V_i32 "currentLocalOffset" (smp_currentLocalOffset d) >>
  V V_i32 "jumpSeconds" (smp_jumpSeconds d) >>
  V V_u64 "timeOfNextJump" (smp_timeOfNextJump d) >>
  V V_u64 "timeOfNextJam" (smp_timeOfNextJam d) >>
  V V_u64 "timeOfPreviousJam" (smp_timeOfPreviousJam d) >>
  V V_i32 "previousJamLocalOffset" (smp_previousJamLocalOffset d) >>
  V V_u8 "daylightSaving" (smp_daylightSaving d) >>
  V V_u8 "leapSecondJump" (smp_leapSecondJump d).

Section Double.
Context (double_text : Z -> list byte).

Definition parse_ENHANCED_ACCURACY_METRICS (d : ENHANCED_ACCURACY_METRICS_t) : J -> J :=
  V V_u8 "bcHopCount" (eam_bcHopCount d) >>
  V V_u8 "tcHopCount" (eam_tcHopCount d) >>
  V V_TimeInterval "maxGmInaccuracy" (eam_maxGmInaccuracy d) >>
  procText "varGmInaccuracy" (double_text (eam_varGmInaccuracy d)) >>
  V V_TimeInterval "maxTransientInaccuracy" (eam_maxTransientInaccuracy d) >>
  procText "varTransientInaccuracy" (double_text (eam_varTransientInaccuracy d)) >>
  V V_TimeInterval "maxDynamicInaccuracy" (eam_maxDynamicInaccuracy d) >>
  procText "varDynamicInaccuracy" (double_text (eam_varDynamicInaccuracy d)) >>
  V V_TimeInterval "maxStaticInstanceInaccuracy" (eam_maxStaticInstanceInaccuracy d) >>
  procText "varStaticInstanceInaccuracy" (double_text (eam_varStaticInstanceInaccuracy d)) >>
  V V_TimeInterval "maxStaticMediumInaccuracy" (eam_maxStaticMediumInaccuracy d) >>
  procText "varStaticMediumInaccuracy" (double_text (eam_varStaticMediumInaccuracy d)).

(** The cast of [parseTlv] is not checked: [None] is a structure of another
    type than the one of the TLV. *)
Definition sig_fields (tlvType : Z) (tlv : BaseSigTlv) (s : J) : option J :=
  let on ty f := if tlvType =? ty then Some (f s) else None in
  if negb (existsb (Z.eqb tlvType)
             [MANAGEMENT; MANAGEMENT_ERROR_STATUS; ORGANIZATION_EXTENSION_PROPAGATE;
              ORGANIZATION_EXTENSION_DO_NOT_PROPAGATE; ORGANIZATION_EXTENSION; PATH_TRACE;
              ALTERNATE_TIME_OFFSET_INDICATOR; ENHANCED_ACCURACY_METRICS; L1_SYNC;
              PORT_COMMUNICATION_AVAILABILITY; PROTOCOL_ADDRESS; SLAVE_RX_SYNC_TIMING_DATA;
              SLAVE_RX_SYNC_COMPUTED_DATA; SLAVE_TX_EVENT_TIMESTAMPS; CUMULATIVE_RATE_RATIO;
              SLAVE_DELAY_TIMING_DATA_NP]) then Some s
  else
    match tlv with
    | S_MANAGEMENT d => if tlvType =? MANAGEMENT then parse_MANAGEMENT d s else None
    | S_MANAGEMENT_ERROR_STATUS d => on MANAGEMENT_ERROR_STATUS (parse_MANAGEMENT_ERROR_STATUS d)
    | S_ORGANIZATION_EXTENSION d =>
        if (tlvType =? ORGANIZATION_EXTENSION_PROPAGATE) ||
           (tlvType =? ORGANIZATION_EXTENSION_DO_NOT_PROPAGATE) ||
           (tlvType =? ORGANIZATION_EXTENSION)
        then Some (parse_ORGANIZATION_EXTENSION d s) else None
    | S_PATH_TRACE d => on PATH_TRACE (parse_PATH_TRACE d)
    | S_ALTERNATE_TIME_OFFSET_INDICATOR d =>
        on ALTERNATE_TIME_OFFSET_INDICATOR (parse_ALTERNATE_TIME_OFFSET_INDICATOR d)
    | S_ENHANCED_ACCURACY_METRICS d =>
        on ENHANCED_ACCURACY_METRICS (parse_ENHANCED_ACCURACY_METRICS d)
    | S_L1_SYNC d => on L1_SYNC (parse_L1_SYNC d)
    | S_PORT_COMMUNICATION_AVAILABILITY d =>
        on PORT_COMMUNICATION_AVAILABILITY (parse_PORT_COMMUNICATION_AVAILABILITY d)
    | S_PROTOCOL_ADDRESS d => on PROTOCOL_ADDRESS (parse_PROTOCOL_ADDRESS d)
    | S_SLAVE_RX_SYNC_TIMING_DATA d =>
        on SLAVE_RX_SYNC_TIMING_DATA (parse_SLAVE_RX_SYNC_TIMING_DATA d)
    | S_SLAVE_RX_SYNC_COMPUTED_DATA d =>
        on SLAVE_RX_SYNC_COMPUTED_DATA (parse_SLAVE_RX_SYNC_COMPUTED_DATA d)
    | S_SLAVE_TX_EVENT_TIMESTAMPS d =>
        on SLAVE_TX_EVENT_TIMESTAMPS (parse_SLAVE_TX_EVENT_TIMESTAMPS d)
    | S_CUMULATIVE_RATE_RATIO d => on CUMULATIVE_RATE_RATIO (parse_CUMULATIVE_RATE_RATIO d)
    | S_SLAVE_DELAY_TIMING_DATA_NP d =>
        on SLAVE_DELAY_TIMING_DATA_NP (parse_SLAVE_DELAY_TIMING_DATA_NP d)
    end.
Definition sig2json (tlvType : Z) (tlv : BaseSigTlv) (s : J) : option J :=
  s ← sig_fields tlvType tlv ((close >> startObject >> procEnum "tlvType" (tlv2str_c tlvType)) s);
  Some (closeObject s).

(** ** Messages *)

Definition smpte2json (tlv : option BaseMngTlv) (s : J) : option J :=
  match tlv with
  | None => Some s
  | Some (T_SMPTE_ORGANIZATION_EXTENSION d) => Some (parse_SMPTE_ORGANIZATION_EXTENSION d s)
  | Some _ => None
  end.

Definition mng2json (p : parse_st) (s : J) : option J :=
  let s := (procEnum "actionField" (act2str_c (actionField_val (m_replyAction p))) >>
            procEnum "tlvType" (tlv2str_c (m_mngType p)) >>
            procMngId "managementId" (m_replayTlv_id p)) s in
  if m_mngType p =? MANAGEMENT then
    t ← ptr_data (m_dataGet p); Some (data2json (m_replayTlv_id p) t true s)
  else if m_mngType p =? MANAGEMENT_ERROR_STATUS then
    Some ((procEnum "managementErrorId" (errId2str_c (m_errorId p)) >>
           procString "displayData" (m_errorDisplay p)) s)
  else if (m_mngType p =? ORGANIZATION_EXTENSION) && bool_decide (m_replayTlv_id p = SMPTE_MNG_ID)
  then t ← ptr_data (m_dataGet p); smpte2json t s
  else Some s.

(** The callback returns false, so that all TLVs are printed. *)
Definition sigs2json (p : parse_st) (s : J) : option J :=
  let '(_, s) := traverse (fun s tlvType tlv => (false, s ← s; sig2json tlvType tlv s))
                   (m_sigTlvs p) (Some (to_procArray "TLVs" s)) in
  s ← s; Some (closeArray s).

Definition header2json (p : parse_st) : J -> J :=
  procInt "sequenceId" (m_sequence p) >>
  procInt "sdoId" (m_sdoId p) >>
  procInt "domainNumber" (m_domainNumber p) >>
  procInt "versionPTP" (m_versionPTP p) >>
  procInt "minorVersionPTP" (m_minorVersionPTP p) >>
  procBool "unicastFlag" (m_isUnicast p) >>
  procInt "PTPProfileSpecific" (m_PTPProfileSpecific p) >>
  procEnum "messageType" (type2str_c (m_type p)) >>
  to_PortIdentity "sourcePortIdentity" (m_peer p) >>
  to_PortIdentity "targetPortIdentity" (m_target p).

Definition J_start (indent : nat) : J := mk_JsonProcToJson [] [] indent false.
Definition msg2json (msg : Message) (indent : nat) : option (list byte) :=
  let p := prs msg in
  let s := (startObject >> header2json p) (J_start indent) in
  s ← (if m_type p =? Management then mng2json p s
       else if m_type p =? Signaling then sigs2json p s
       else Some s);
  Some (m_result (closeObject s)).
End Double.

Definition tlv2json (managementId : mng_vals_e) (tlv : option BaseMngTlv) (indent : nat)
    : list byte :=
  match tlv with
  | None => bytes "{}"
  | Some _ => if isEmpty managementId then bytes "{}"
              else m_result (data2json managementId tlv false (J_start indent))
  end.
