(* ===== verification/JsonFrom.v ===== *)
(** * JsonFrom.v: requests read from JSON

    [struct JsonProcFrom] and the class [Json2msg] of [src/src/jsonDef.cpp].  The
    methods of [JsonProc] look up the members of an object, [m_obj]; the object is
    restored after a nested one, so that a method is a function of it.
    [float_stamp] stands for the floating point branch of the time stamps: the
    seconds and the nanoseconds of a number, when [getFloat] takes it. *)

From S2P Require Import Prelude CStr Types Ids Names Structs MngTlvs Message.
From S2P Require Import Bin Json JsonVal Text JsonProc.

(** The members of an object. *)
Definition object : Type := list (list byte * json).
Definition From (A : Type) : Type := object -> option A.

(** ** Values *)

(** [EMPTY_KEY] *)
Definition key_of (name : string) : option (list byte) :=
  if String.eqb name "" then None else Some (bytes name).
(** [GET_STR] *)
Definition get_str (name : string) : From (list byte) := fun m_obj =>
  key ← key_of name; jval ← obj_getVal key m_obj;
  match jval with J_string str => Some str | _ => None end.
(** [GET_NUM_CNV] with [getUint64] and [GET_NUM] with [getInt64]. *)
Definition get_uint (name : string) : From Z := fun m_obj =>
  key ← key_of name; jval ← obj_getVal key m_obj;
  let '(r, num) := getUint64 jval 0 true in if r then Some num else None.
Definition get_int64 (name : string) : From Z := fun m_obj =>
  key ← key_of name; jval ← obj_getVal key m_obj;
  let '(r, num) := getInt64 jval 0 false in if r then Some num else None.
Definition from_uint (width : Z) (name : string) : From Z := fun m_obj =>
  num ← get_uint name m_obj; Some (uwrap width num).
Definition from_int (width : Z) (name : string) : From Z := fun m_obj =>
  num ← get_int64 name m_obj; Some (swrap width num).

(** The enumerator whose name is the text, in the order of the loop. *)
Definition find_name (name : Z -> string) (values : list Z) (str : list byte) : option Z :=
  List.find (fun v => bool_decide (str = bytes (name v))) values.
Definition from_names (names : Z -> string) (values : list Z) (name : string) : From Z :=
  fun m_obj => str ← get_str name m_obj; find_name names values str.
(** The functions [findTimeSrc], [findPortState] and [findDelayMech], which take
    whole names. *)
Definition from_find (find : string -> Z -> bool -> bool * Z) (name : string) : From Z :=
  fun m_obj =>
  str ← get_str name m_obj;
  let '(r, v) := find (String.string_of_list_byte str) 0 true in if r then Some v else None.

Definition Accurate_within_1ps : Z := 0x17.
Definition Accurate_more_10s : Z := 0x31.
Definition Accurate_Unknown : Z := 0xfe.
Definition accuracies : list Z := seqZ Accurate_within_1ps (Accurate_more_10s - Accurate_within_1ps + 1).
Definition accuracy_number (jval : json) : option Z :=
  let '(r, u64) := getUint64 jval 0 true in
  if r && ((u64 =? Accurate_Unknown) || (u64 <=? Accurate_more_10s)) then Some u64 else None.
Definition from_clockAccuracy (name : string) : From Z := fun m_obj =>
  jval ← obj_getVal (bytes name) m_obj;
  match jval with
  | J_string str =>
      if bool_decide (str = []) then None
      else if bool_decide (str = bytes "Unknown") then Some Accurate_Unknown
      else match find_name clockAcc2str_c accuracies str with
           | Some v => Some v
           | None => accuracy_number jval
           end
  | J_number _ _ _ => accuracy_number jval
  | _ => None
  end.

(** [fromHex] and [fromId] of a new [Binary], of a given size. *)
Definition hex_of (size : Z) (str : list byte) : option (list byte) :=
  let '(r, b) := fromHex str Binary_new in
  if negb r || negb (m_size b =? size) then None else Some (octets b).
Definition id_of (size : Z) (str : list byte) : option (list byte) :=
  let '(r, b) := fromId str Binary_new in
  if negb r || negb (m_size b =? size) then None else Some (octets b).

Definition from_ClockIdentity (name : string) : From ClockIdentity_t := fun m_obj =>
  str ← get_str name m_obj; v ← hex_of ClockIdentity_size str; Some (mk_ClockIdentity v).
(** [procBinary] of a [Binary]: the octets and the length. *)
Definition from_binary (name : string) (d : list byte) : From (list byte * Z) := fun m_obj =>
  str ← get_str name m_obj;
  let '(r, b) := fromId str (Binary_of d) in
  if negb r || (m_size b =? 0) then None else Some (octets b, uwrap 16 (m_size b)).
Definition from_octets (name : string) (len : Z) : From (list byte) := fun m_obj =>
  str ← get_str name m_obj; id_of len str.
Definition from_PTPText (name : string) (d : PTPText_t) : From PTPText_t := fun m_obj =>
  str ← get_str name m_obj; Some (mk_PTPText (lengthField d) str).

(** [GET_OBJ]: a method on a nested object. *)
Definition in_obj {A} (name : string) (f : From A) : From A := fun m_obj =>
  obj ← obj_getObj (bytes name) m_obj; f obj.

Definition fields_PortIdentity : From PortIdentity_t := fun m_obj =>
  clockIdentity ← from_ClockIdentity "clockIdentity" m_obj;
  portNumber ← from_uint 16 "portNumber" m_obj;
  Some (mk_PortIdentity clockIdentity portNumber).
Definition from_PortIdentity (name : string) : From PortIdentity_t :=
  in_obj name fields_PortIdentity.
Definition net_protocols : list Z := seqZ 1 6.
Definition el_from_PortAddress (d : PortAddress_t) : From PortAddress_t := fun m_obj =>
  networkProtocol ← from_names netProt2str_c net_protocols "networkProtocol" m_obj;
  bin ← from_binary "addressField" (addressField d) m_obj;
  Some (mk_PortAddress networkProtocol bin.2 bin.1).
Definition fields_ClockQuality : From ClockQuality_t := fun m_obj =>
  clockClass ← from_uint 8 "clockClass" m_obj;
  clockAccuracy ← from_clockAccuracy "clockAccuracy" m_obj;
  offsetScaledLogVariance ← from_uint 16 "offsetScaledLogVariance" m_obj;
  Some (mk_ClockQuality clockClass clockAccuracy offsetScaledLogVariance).
Definition fault_records : list Z := seqZ 0 8.
Definition unicast_states : list Z := seqZ 0 4.
Definition time_stampings : list Z := seqZ 0 5.
Definition power_versions : list Z := seqZ 0 3.

Section FloatStamp.
Context (float_stamp : json -> option Timestamp_t).

(** A fraction that does not fit its type does not occur with nine digits. *)
Definition from_Timestamp (name : string) : From Timestamp_t := fun m_obj =>
  key ← key_of name; jval ← obj_getVal key m_obj;
  match getFrac jval 9 with
  | Some (Some (integer, fraction)) =>
      if 0 <? integer then Some (mk_Timestamp (uwrap 64 integer) (uwrap 32 fraction)) else None
  | _ => float_stamp jval
  end.
Definition el_from_FaultRecord (d : FaultRecord_t) : From FaultRecord_t := fun m_obj =>
  faultRecordLength ← from_uint 16 "faultRecordLength" m_obj;
  faultTime ← from_Timestamp "faultTime" m_obj;
  severityCode ← from_names faultRec2str_c fault_records "severityCode" m_obj;
  name ← from_PTPText "faultName" (faultName d) m_obj;
  value ← from_PTPText "faultValue" (faultValue d) m_obj;
  description ← from_PTPText "faultDescription" (faultDescription d) m_obj;
  Some (mk_FaultRecord faultRecordLength faultTime severityCode name value description).
Definition el_from_AcceptableMaster : From AcceptableMaster_t := fun m_obj =>
  alternatePriority1 ← from_uint 8 "alternatePriority1" m_obj;
  acceptablePortIdentity ← from_PortIdentity "acceptablePortIdentity" m_obj;
  Some (mk_AcceptableMaster acceptablePortIdentity alternatePriority1).
Definition el_from_LinuxptpUnicastMaster (d : LinuxptpUnicastMaster_t)
    : From LinuxptpUnicastMaster_t := fun m_obj =>
  portIdentity ← from_PortIdentity "portIdentity" m_obj;
  clockQuality ← in_obj "clockQuality" fields_ClockQuality m_obj;
  selected ← from_uint 8 "selected" m_obj;
  portState ← from_names us2str_c unicast_states "portState" m_obj;
  priority1 ← from_uint 8 "priority1" m_obj;
  priority2 ← from_uint 8 "priority2" m_obj;
  portAddress ← in_obj "portAddress" (el_from_PortAddress (lum_portAddress d)) m_obj;
  Some (mk_LinuxptpUnicastMaster portIdentity clockQuality selected portState priority1
          priority2 portAddress).

Definition from_value {T} (t : vtype T) (name : string) : T -> From T :=
  match t in vtype T return T -> From T with
  | V_u8 => fun _ => from_uint 8 name
  | V_u16 => fun _ => from_uint 16 name
  | V_u32 => fun _ => from_uint 32 name
  | V_u64 => fun _ => from_uint 64 name
  | V_i8 => fun _ => from_int 8 name
  | V_i16 => fun _ => from_int 16 name
  | V_i32 => fun _ => from_int 32 name
  | V_i64 => fun _ => from_int 64 name
  | V_networkProtocol => fun _ => from_names netProt2str_c net_protocols name
  | V_clockAccuracy => fun _ => from_clockAccuracy name
  | V_faultRecord => fun _ => from_names faultRec2str_c fault_records name
  | V_timeSource => fun _ => from_find findTimeSrc name
  | V_portState => fun _ => from_find findPortState name
  | V_delayMechanism => fun _ => from_find findDelayMech name
  | V_linuxptpTimeStamp => fun _ => from_names ts2str_c time_stampings name
  | V_linuxptpPowerProfileVersion => fun _ => from_names pwr2str_c power_versions name
  | V_linuxptpUnicastState => fun _ => from_names us2str_c unicast_states name
  | V_TimeInterval => fun _ m_obj => num ← get_int64 name m_obj; Some (mk_TimeInterval num)
  | V_Timestamp => fun _ => from_Timestamp name
  | V_ClockIdentity => fun _ => from_ClockIdentity name
  | V_PortIdentity => fun _ => from_PortIdentity name
  | V_PortAddress => fun d => in_obj name (el_from_PortAddress d)
  | V_ClockQuality => fun _ => in_obj name fields_ClockQuality
  | V_PTPText => from_PTPText name
  | V_FaultRecord => fun d => in_obj name (el_from_FaultRecord d)
  | V_AcceptableMaster => fun _ => in_obj name el_from_AcceptableMaster
  | V_LinuxptpUnicastMaster => fun d => in_obj name (el_from_LinuxptpUnicastMaster d)
  end.

(** The elements of an array, each read into a new structure and added to the
    vector. *)
Definition el_ClockIdentity_of (jval : json) : option ClockIdentity_t :=
  jval ← getVal jval;
  match jval with
  | J_string str => v ← hex_of ClockIdentity_size str; Some (mk_ClockIdentity v)
  | _ => None
  end.
Definition el_obj {A} (f : From A) (jval : json) : option A := obj ← getObj jval; f obj.
Definition from_element {T} (t : atype T) : json -> option T :=
  match t in atype T return json -> option T with
  | A_ClockIdentity => el_ClockIdentity_of
  | A_PortAddress => el_obj (el_from_PortAddress zero_PortAddress)
  | A_FaultRecord => el_obj (el_from_FaultRecord zero_FaultRecord)
  | A_AcceptableMaster => el_obj el_from_AcceptableMaster
  | A_LinuxptpUnicastMaster => el_obj (el_from_LinuxptpUnicastMaster zero_LinuxptpUnicastMaster)
  end.
Definition from_array {T} (t : atype T) (name : string) (d : list T) : From (list T) := fun m_obj =>
  arr ← obj_getArr (bytes name) m_obj;
  recs ← mapM (from_element t) arr;
  Some (d ++ recs)%list.
Definition from_flag (name : string) (flags mask : Z) : From Z := fun m_obj =>
  key ← key_of name; jval ← obj_getVal key m_obj;
  match jval with
  | J_boolean valBool => Some (if valBool then Z.lor flags mask else flags)
  | _ => None
  end.

#[global] Instance JsonProcFrom_proc : JsonProc From := {
  jret A a := fun _ => Some a;
  jand A B p k := fun m_obj => a ← p m_obj; k a m_obj;
  jfail A := fun _ => None;
  procValue T t name d := from_value t name d;
  procBinary name d len := from_binary name d;
  procOctets name d len := from_octets name len;
  procFlag name flags mask := from_flag name flags mask;
  procZeroFlag flags := fun _ => Some 0;
  procArray T t name d := from_array t name d
}.

(** ** Json2msg *)

(** The flags of [m_have]. *)
Inductive have_e :=
| have_isUnicast | have_PTPProfileSpecific | have_domainNumber | have_versionPTP
| have_minorVersionPTP | have_sequenceId | have_sdoId | have_srcPort | have_dstPort.
#[global] Instance have_e_eq_dec : EqDecision have_e.
Proof. solve_decision. Defined.
(** The optional members that hold a number: the width of their type, their name
    and what they hold before they are read. *)
Definition have_width (k : have_e) : Z :=
  match k with
  | have_sequenceId => 16
  | have_sdoId => 32
  | _ => 8
  end.
Definition have_name (k : have_e) : string :=
  match k with
  | have_sequenceId => "sequenceId"
  | have_sdoId => "sdoId"
  | have_domainNumber => "domainNumber"
  | have_versionPTP => "versionPTP"
  | have_minorVersionPTP => "minorVersionPTP"
  | have_PTPProfileSpecific => "PTPProfileSpecific"
  | have_isUnicast => "unicastFlag"
  | have_srcPort => "sourcePortIdentity"
  | have_dstPort => "targetPortIdentity"
  end.
Definition have_default (k : have_e) : Z :=
  match k with have_versionPTP => 2 | have_minorVersionPTP => 1 | _ => 0 end.

(** [m_number] has the six numbers. *)
Record Json2msg := mk_Json2msg {
  m_tlvData : option BaseMngTlv;
  m_managementId : mng_vals_e;
  m_action : actionField_e;
  m_have : have_e -> bool;
  m_isUnicast : bool;
  m_number : have_e -> Z;
  m_srcPort : PortIdentity_t;
  m_dstPort : PortIdentity_t
}.
Definition Json2msg_new : Json2msg :=
  mk_Json2msg None NULL_PTP_MANAGEMENT GET (fun _ => false) false have_default zero_PortIdentity
    zero_PortIdentity.
Definition set_m_tlvData (v : option BaseMngTlv) (j : Json2msg) : Json2msg :=
  mk_Json2msg v (m_managementId j) (m_action j) (m_have j) (m_isUnicast j) (m_number j) (m_srcPort j) (m_dstPort j).
Definition set_m_managementId (v : mng_vals_e) (j : Json2msg) : Json2msg :=
  mk_Json2msg (m_tlvData j) v (m_action j) (m_have j) (m_isUnicast j) (m_number j) (m_srcPort j) (m_dstPort j).
Definition set_m_action (v : actionField_e) (j : Json2msg) : Json2msg :=
  mk_Json2msg (m_tlvData j) (m_managementId j) v (m_have j) (m_isUnicast j) (m_number j) (m_srcPort j) (m_dstPort j).
Definition set_have (k : have_e) (j : Json2msg) : Json2msg :=
  mk_Json2msg (m_tlvData j) (m_managementId j) (m_action j)
    (fun k' => if decide (k' = k) then true else m_have j k') (m_isUnicast j) (m_number j) (m_srcPort j) (m_dstPort j).
Definition set_m_isUnicast (v : bool) (j : Json2msg) : Json2msg :=
  mk_Json2msg (m_tlvData j) (m_managementId j) (m_action j) (m_have j) v (m_number j) (m_srcPort j) (m_dstPort j).
Definition set_number (k : have_e) (v : Z) (j : Json2msg) : Json2msg :=
  mk_Json2msg (m_tlvData j) (m_managementId j) (m_action j) (m_have j) (m_isUnicast j)
    (fun k' => if decide (k' = k) then v else m_number j k') (m_srcPort j) (m_dstPort j).
Definition set_m_srcPort (v : PortIdentity_t) (j : Json2msg) : Json2msg :=
  mk_Json2msg (m_tlvData j) (m_managementId j) (m_action j) (m_have j) (m_isUnicast j) (m_number j) v (m_dstPort j).
Definition set_m_dstPort (v : PortIdentity_t) (j : Json2msg) : Json2msg :=
  mk_Json2msg (m_tlvData j) (m_managementId j) (m_action j) (m_have j) (m_isUnicast j) (m_number j) (m_srcPort j) v.

(** A part of [fromJson]: [false] is an early return.  What a part writes before
    it fails stays. *)
Definition Part : Type := object -> Json2msg -> bool * Json2msg.
Fixpoint parts (l : list Part) (mobj : object) (j : Json2msg) : bool * Json2msg :=
  match l with
  | [] => (true, j)
  | f :: l => let '(r, j) := f mobj j in if r then parts l mobj j else (false, j)
  end.

(** [testOpt] and [testMand]. *)
Definition testOpt (key result : string) : Part := fun mobj j =>
  (negb ((0 <? count (bytes key) mobj) &&
         negb (match obj_getVal (bytes key) mobj with
               | Some (J_string str) => bool_decide (str = bytes result)
               | _ => false
               end)), j).
Definition testMand (key : string) (use : list byte -> Json2msg -> bool * Json2msg) : Part :=
  fun mobj j =>
  match obj_getVal (bytes key) mobj with
  | Some (J_string str) => if bool_decide (str = []) then (false, j) else use str j
  | _ => (false, j)
  end.
Definition use_action (str : list byte) (j : Json2msg) : bool * Json2msg :=
  if bool_decide (str = bytes "GET") then (true, set_m_action GET j)
  else if bool_decide (str = bytes "SET") then (true, set_m_action SET j)
  else if bool_decide (str = bytes "COMMAND") then (true, set_m_action COMMAND j)
  else (false, j).
Definition use_id (str : list byte) (j : Json2msg) : bool * Json2msg :=
  let '(r, id) := findMngID (String.string_of_list_byte str) (m_managementId j) true in
  (r, set_m_managementId id j).
Definition optProc (k : have_e) : Part := fun mobj j =>
  if 0 <? count (bytes (have_name k)) mobj then
    match obj_getVal (bytes (have_name k)) mobj with
    | None => (false, j)
    | Some val =>
        let '(r, i64) := getInt64 val 0 false in
        if r then (true, set_number k (uwrap (have_width k) i64) (set_have k j)) else (false, j)
    end
  else (true, j).
Definition unicastProc : Part := fun mobj j =>
  if 0 <? count (bytes "unicastFlag") mobj then
    match obj_getVal (bytes "unicastFlag") mobj with
    | Some (J_boolean valBool) => (true, set_m_isUnicast valBool (set_have have_isUnicast j))
    | _ => (false, j)
    end
  else (true, j).
(** The port after [procValue] fails: the clock identity is written first. *)
Definition port_in_part (key : string) (mobj : object) (d : PortIdentity_t) : PortIdentity_t :=
  match in_obj key (from_ClockIdentity "clockIdentity") mobj with
  | Some v => mk_PortIdentity v (portNumber d)
  | None => d
  end.
Definition portProc (k : have_e) (get : Json2msg -> PortIdentity_t)
    (set : PortIdentity_t -> Json2msg -> Json2msg) : Part := fun mobj j =>
  let key := have_name k in
  if 0 <? count (bytes key) mobj then
    match from_PortIdentity key mobj with
    | Some v => (true, set v (set_have k j))
    | None => (false, set (port_in_part key mobj (get j)) j)
    end
  else (true, j).

(** Whether there is an object in dataField; [None] is a wrong value. *)
Definition have_dataField (mobj : object) : option bool :=
  if 0 <? count (bytes "dataField") mobj then
    match obj_getType (bytes "dataField") mobj with
    | t_object => Some true
    | t_null => Some false
    | _ => None
    end
  else Some false.
Definition dataProc : Part := fun mobj j =>
  match have_dataField mobj with
  | None => (false, j)
  | Some have_data =>
      if bool_decide (m_action j = GET) then (negb have_data, j)
      else if isEmpty (m_managementId j) then (negb have_data, j)
      else if negb have_data then (false, j)
      else
        match obj_getObj (bytes "dataField") mobj with
        | None => (false, j)
        | Some obj =>
            match procData (m := From) (m_managementId j) None obj with
            | None => (false, j)
            | Some tlv => (true, set_m_tlvData (Some tlv) j)
            end
        end
  end.

Definition fromJson_parts : list Part :=
  [testOpt "messageType" "Management"; testOpt "tlvType" "MANAGEMENT";
   testMand "actionField" use_action; testMand "managementId" use_id;
   optProc have_sequenceId; optProc have_sdoId; optProc have_domainNumber;
   optProc have_versionPTP; optProc have_minorVersionPTP; optProc have_PTPProfileSpecific;
   unicastProc;
   portProc have_srcPort m_srcPort set_m_srcPort; portProc have_dstPort m_dstPort set_m_dstPort;
   dataProc].
(** [Json2msg::fromJson]; [None] is a fault of the parser. *)
Definition fromJson (text : list byte) (j : Json2msg) : option (bool * Json2msg) :=
  match parseBuffer None text false with
  | None => None
  | Some (true, Some (J_object mobj)) => Some (parts fromJson_parts mobj j)
  | Some _ => Some (false, j)
  end.

(** [Json2msg::setAction] *)
Definition dataField (j : Json2msg) : tlv_ptr :=
  match m_tlvData j with Some t => Obj t | None => Null end.
Definition json_setAction (j : Json2msg) (message : Message) : bool * Message :=
  setAction (m_action j) (m_managementId j) (dataField j) message.
End FloatStamp.
