(* ===== verification/JsonLayout.v ===== *)
(** * JsonLayout.v: the layout of printed messages

    [JsonProcToJson] of [src/src/json.cpp] prints a value with its members in the
    order of the calls, strings without escapes, and a layout of its own.
    [core] is the text of a value; the parser of [src/src/jsonParser.cpp] reads it
    as the value with its members in the order of the keys, [canon]. *)

From S2P Require Import Prelude CStr Cfg Json JsonVal JsonRound JsonNum JsonSafe JsonFacts.

#[local] Open Scope json_scope.

(** ** Strings that need no escape *)

(** The octets of proper or loose UTF-8 as [checkUTF8] takes them, without quote,
    reverse solidus and NUL; [cont] octets belong to the last code. *)
Fixpoint plain_from (cont : nat) (s : list byte) : bool :=
  match s with
  | [] => (cont =? 0)%nat
  | c :: s =>
      match cont with
      | S cont => (0x80 <=? b2z c) && (b2z c <? 0xc0) && plain_from cont s
      | O => negb (eqc c QUOTE) && negb (eqc c "\"%byte) && negb (eqc c NUL) &&
             negb ((0x80 <=? b2z c) && (b2z c <? 0xc0)) && plain_from (utf8_extra (b2z c)) s
      end
  end.
Definition plain_str (s : list byte) : bool := plain_from 0 s.

(** ** The text of a value *)

Fixpoint items (first : bool) (w : list byte) (l : list (list byte)) : list byte :=
  match l with
  | [] => []
  | t :: l => (if first then [] else bytes ",") ++ w ++ t ++ items false w l
  end.
Definition nested (j : json) : bool :=
  match j with J_object _ | J_array _ => true | _ => false end.
(** What is between the name of a member and its value. *)
Definition lead (k : nat) (j : json) : list byte :=
  if nested j then LF :: spaces k else [x20].
Fixpoint core (k : nat) (j : json) : list byte :=
  match j with
  | J_string s => QUOTE :: s ++ [QUOTE]
  | J_number v _ _ => v
  | J_boolean b => bytes (if b then "true" else "false")
  | J_null => bytes "null"
  | J_object ms =>
      "{"%byte :: items true (LF :: spaces (k + 2))
        (map (fun m => QUOTE :: m.1 ++ QUOTE :: bytes " :" ++ lead (k + 2) m.2 ++ core (k + 2) m.2) ms) ++
      LF :: spaces k ++ bytes "}"
  | J_array es =>
      "["%byte :: items true (LF :: spaces (k + 2)) (map (core (k + 2)) es) ++
      LF :: spaces k ++ bytes "]"
  end.
Definition member (k : nat) (m : list byte * json) : list byte :=
  QUOTE :: m.1 ++ QUOTE :: bytes " :" ++ lead k m.2 ++ core k m.2.

Lemma core_object k ms : core k (J_object ms) =
  "{"%byte :: items true (LF :: spaces (k + 2)) (map (member (k + 2)) ms) ++ LF :: spaces k ++ bytes "}".
Proof. done. Qed.
Lemma core_array k es : core k (J_array es) =
  "["%byte :: items true (LF :: spaces (k + 2)) (map (core (k + 2)) es) ++ LF :: spaces k ++ bytes "]".
Proof. done. Qed.

(** The members in the order of the parser. *)
Definition insert_all {A} (l ms : list (list byte * A)) : list (list byte * A) :=
  fold_left (fun acc m => insert_member m.1 m.2 acc) ms l.
Fixpoint canon (j : json) : json :=
  match j with
  | J_object ms => J_object (insert_all [] (map (fun m => (m.1, canon m.2)) ms))
  | J_array es => J_array (map canon es)
  | _ => j
  end.
Definition canon_members (ms : list (list byte * json)) : list (list byte * json) :=
  map (fun m => (m.1, canon m.2)) ms.

(** The values that are printed as they are read. *)
Fixpoint printable (j : json) : Prop :=
  match j with
  | J_string s => plain_str s = true
  | J_number v dot e => num_ok v dot e
  | J_boolean _ | J_null => True
  | J_object ms => (fix all (l : list (list byte * json)) : Prop :=
      match l with [] => True | m :: l => (plain_str m.1 = true /\ printable m.2) /\ all l end) ms
  | J_array es => (fix all (l : list json) : Prop :=
      match l with [] => True | e :: l => printable e /\ all l end) es
  end.
Lemma printable_object ms : printable (J_object ms) <->
  Forall (fun m => plain_str m.1 = true /\ printable m.2) ms.
Proof.
  induction ms as [|m ms IH]; [by split|]. cbn [printable] in *. rewrite Forall_cons, <- IH. done.
Qed.
Lemma printable_array es : printable (J_array es) <-> Forall printable es.
Proof. induction es as [|e es IH]; [by split|]. cbn [printable] in *. rewrite Forall_cons, <- IH. done. Qed.

Section Layout.
Context (comments : bool).
#[local] Abbreviation runs := (runs comments).
#[local] Abbreviation rounds := (rounds comments).

(** ** Strings *)

Lemma runs_utf8_rest e : forall s ret r, plain_from e s = true ->
  exists t u, s = t ++ u /\ length t = e /\ plain_from 0 u = true /\
    runs (utf8_rest e ret) (t ++ u ++ r) (Some (ret ++ t)) (u ++ r).
Proof.
  induction e as [|e IH]; intros s ret r P.
  { exists [], s. cbn [utf8_rest app]. rewrite app_nil_r. by repeat split; try apply runs_ret. }
  destruct s as [|c s]; [done|]. cbn [plain_from] in P. apply andb_prop in P as [C P].
  destruct (IH s (ret ++ [c]) r P) as (t & u & -> & L & Pu & R). exists (c :: t), u.
  split; [done|]. split; [cbn; lia|]. split; [done|]. cbn [utf8_rest app].
  runs_step. runs_step. assert (eqc c NUL = false) as -> by (apply eqc_ne; by intros ->).
  assert ((b2z c <? 0x80) = false /\ (0xc0 <=? b2z c) = false) as [-> ->] by lia. cbn [orb].
  runs_step. rewrite <- app_assoc in R. exact R.
Qed.
Lemma rounds_plain n : forall s ret w r, (length s <= n)%nat -> plain_str s = true ->
  rounds str_round (mk_str ret false w) (s ++ QUOTE :: r) (Some (ret ++ s)) r.
Proof.
  induction n as [|n IH]; intros s ret w r L P.
  all: destruct s as [|c s];
    [apply round_last; unfold str_round; cbn [app]; do 2 (runs_step; eqc_const);
     cbn [useSur andb s_ret]; rewrite app_nil_r; runs_step; runs_step|].
  { cbn in L. lia. }
  unfold plain_str in P. cbn [plain_from] in P.
  apply andb_prop in P as [[[[P1 P2]%andb_prop P3]%andb_prop P4]%andb_prop P5].
  destruct (runs_utf8_rest _ s (ret ++ [c]) (QUOTE :: r) P5) as (t & u & -> & Lt & Pu & R).
  rewrite <- app_assoc in R.
  replace (ret ++ c :: t ++ u) with ((ret ++ c :: t) ++ u) by (by rewrite <- app_assoc).
  cbn [app]. rewrite <- app_assoc.
  apply round_next with (mk_str (ret ++ c :: t) false w) (u ++ QUOTE :: r).
  - unfold str_round. runs_step. apply negb_true_iff in P1, P2, P3. rewrite P3. runs_step.
    cbn [useSur andb]. rewrite P1, P2. cbn [s_ret].
    apply runs_bind with (Some (ret ++ c :: t)) (u ++ QUOTE :: r); [|cbn match; cbn [useSur W1]; runs_step].
    unfold checkUTF8. runs_step. cbv zeta.
    apply negb_true_iff in P4. rewrite P4. runs_step. exact R.
  - cbn [length]. rewrite !length_app. lia.
  - apply IH; [cbn [length] in L; rewrite length_app in L; lia|done].
Qed.
Lemma runs_plain s r : plain_str s = true -> runs getStr (QUOTE :: s ++ QUOTE :: r) (Some s) r.
Proof.
  intros P. unfold getStr. runs_step. apply runs_loop. by apply (rounds_plain (length s) s []).
Qed.

(** ** Values *)

#[local] Abbreviation reads_text := (reads_text comments).

(** The text of a value is read after any white space. *)
Definition reads_core (j : json) : Prop := forall k ws d r,
  forallb is_ws ws = true -> follow d = true -> reads_text (canon j) (core k j) ws d r.

Lemma reads_core_string s : plain_str s = true -> reads_core (J_string s).
Proof.
  intros S k ws d r W D. exists JSON_STR, ((QUOTE :: s ++ [QUOTE]) ++ d :: r).
  split; [by apply runs_getToken_char|]. do 3 (split; [done|]).
  split; [cbn [core]; rewrite length_app; lia|]. intros [|fuel] L; [lia|]. cbn [value canon].
  apply runs_bind with (Some s) (d :: r); [|runs_step].
  cbn [app]. rewrite <- app_assoc. by apply runs_plain.
Qed.

Lemma lead_ws k j : forallb is_ws (lead k j) = true.
Proof. unfold lead. destruct (nested j); [cbn; apply spaces_ws|done]. Qed.

Lemma runs_core_member fuel acc ws k m d r tk l :
  forallb is_ws ws = true -> plain_str m.1 = true -> reads_core m.2 -> follow d = true ->
  (length (member k m ++ d :: r) < fuel)%nat ->
  runs getToken (d :: r) tk l ->
  forall res l', runs (match tk with
                 | JSON_OBJ_END => closeTk ;;; break (Some (J_object (insert_member m.1 (canon m.2) acc)))
                 | JSON_VAL_SEP => closeTk ;;; continue (insert_member m.1 (canon m.2) acc)
                 | _ => break None
                 end) l res l' ->
  runs (object_round (value fuel) acc) (ws ++ member k m ++ d :: r) res l'.
Proof.
  intros W Pr R D L T res l' K. unfold member in *. cbn [app] in *. rewrite <- !app_assoc in *.
  cbn [app] in *. rewrite <- !app_assoc in *.
  unfold object_round. eapply runs_bind; [by apply runs_getToken_char|].
  rewrite bool_decide_eq_true_2 by done. cbn [negb].
  eapply runs_bind; [by apply runs_plain|]. cbn match.
  eapply runs_bind; [by apply (runs_getToken_char comments (bytes " ") ":"%byte)|].
  rewrite bool_decide_eq_true_2 by done. cbn [negb]. runs_step.
  cbn [length] in L. rewrite !length_app in L. cbn [length] in L. rewrite !length_app in L. cbn [length] in L.
  destruct (R k (lead k m.2) d r (lead_ws _ _) D) as (tk1 & l1 & T1 & _ & _ & _ & L1 & V1).
  rewrite length_app in L1. cbn [length] in L1.
  eapply runs_bind; [exact T1|]. eapply runs_bind; [apply V1; lia|]. cbn match zeta.
  eapply runs_bind; [exact T|]. exact K.
Qed.

Lemma rounds_core_object fuel k r ms : forall m acc ws0,
  forallb is_ws ws0 = true ->
  Forall (fun m => plain_str m.1 = true /\ reads_core m.2) (m :: ms) ->
  let t := ws0 ++ member (k + 2) m ++ items false (LF :: spaces (k + 2)) (map (member (k + 2)) ms) ++
           LF :: spaces k ++ "}"%byte :: r in
  (length t < fuel)%nat ->
  rounds (object_round (value fuel)) acc t
    (Some (J_object (insert_all acc (canon_members (m :: ms))))) r.
Proof.
  induction ms as [|m2 ms IH]; intros m acc ws0 W F; cbv zeta; cbn [map items app].
  - intros L. inversion_clear F as [|?? [Px Rx] _].
    apply round_last. eapply (runs_core_member fuel acc ws0 (k + 2) m LF); [done..| | |].
    + rewrite !length_app in *. cbn [length] in *. lia.
    + apply (runs_getToken_char comments (LF :: spaces k) "}"%byte r JSON_OBJ_END);
        [cbn; apply spaces_ws|done].
    + cbn match. runs_step. runs_step.
  - intros L. inversion_clear F as [|?? [Pm Rm] F'].
    set (rest := LF :: spaces (k + 2) ++ member (k + 2) m2 ++
      items false (LF :: spaces (k + 2)) (map (member (k + 2)) ms) ++ LF :: spaces k ++ "}"%byte :: r).
    assert (bytes "," ++ ((LF :: spaces (k + 2)) ++ member (k + 2) m2 ++
      items false (LF :: spaces (k + 2)) (map (member (k + 2)) ms)) ++
      LF :: spaces k ++ "}"%byte :: r = ","%byte :: rest) as E.
    { unfold rest. cbn [app]. by rewrite <- !app_assoc. }
    cbn [app] in E. rewrite <- !app_assoc in *. cbn [app] in *. 
    change (bytes ",") with [","%byte] in *. cbn [app] in *. rewrite <- !app_assoc in *.
    apply round_next with (insert_member m.1 (canon m.2) acc) rest.
    + eapply (runs_core_member fuel acc ws0 (k + 2) m ","%byte rest); [done..| | |].
      * subst rest. rewrite !length_app in *. cbn [length] in *. rewrite !length_app in *. lia.
      * by apply (runs_getToken_char comments []).
      * cbn match. runs_step. runs_step.
    + subst rest. rewrite !length_app. cbn [length]. lia.
    + apply (IH m2 _ (LF :: spaces (k + 2))); [cbn; apply spaces_ws|done|].
      cbn [app]. fold rest. subst rest. rewrite !length_app in *. cbn [length] in *. lia.
Qed.

Lemma rounds_core_array fuel k r es : forall e acc ws0,
  forallb is_ws ws0 = true -> Forall reads_core (e :: es) ->
  let t := ws0 ++ core (k + 2) e ++ items false (LF :: spaces (k + 2)) (map (core (k + 2)) es) ++
           LF :: spaces k ++ "]"%byte :: r in
  (length t < fuel)%nat ->
  exists tk l1, runs getToken t tk l1 /\ tk <> JSON_ARR_END /\ (length l1 <= length t)%nat /\
    rounds (array_round (value fuel)) (tk, acc) l1 (Some (J_array (acc ++ map canon (e :: es)))) r.
Proof.
  induction es as [|e2 es IH]; intros e acc ws0 W F; cbv zeta; cbn [map items app].
  - intros L. inversion_clear F as [|?? Re _].
    destruct (Re (k + 2)%nat ws0 LF (spaces k ++ "]"%byte :: r) W eq_refl)
      as (tk & l1 & T & _ & Na & _ & L1 & V).
    exists tk, l1. split; [done|]. split; [done|]. split; [rewrite length_app; lia|].
    apply round_last. unfold array_round.
    eapply runs_bind; [apply V; rewrite length_app in L; lia|]. cbn match zeta.
    eapply runs_bind; [apply (runs_getToken_char comments (LF :: spaces k) "]"%byte r JSON_ARR_END);
      [cbn; apply spaces_ws|done]|]. cbn match. runs_step. runs_step.
  - intros L. inversion_clear F as [|?? Re F'].
    set (rest := LF :: spaces (k + 2) ++ core (k + 2) e2 ++
      items false (LF :: spaces (k + 2)) (map (core (k + 2)) es) ++ LF :: spaces k ++ "]"%byte :: r).
    change (bytes ",") with [","%byte] in *. cbn [app] in L |- *. rewrite <- !app_assoc in L |- *.
    change (LF :: spaces (k + 2) ++ _) with rest in L |- *.
    destruct (Re (k + 2)%nat ws0 ","%byte rest W eq_refl) as (tk & l1 & T & _ & Na & _ & L1 & V).
    rewrite !length_app in L. cbn [length] in L.
    destruct (IH e2 (acc ++ [canon e]) (LF :: spaces (k + 2))) as (tk2 & l2 & T2 & _ & L2 & R2);
      [cbn; apply spaces_ws|done|cbn [app]; fold rest; lia|].
    cbn [app] in T2, L2. fold rest in T2, L2.
    exists tk, l1. split; [done|]. split; [done|]. split; [rewrite !(length_app ws0); lia|].
    apply round_next with (tk2, acc ++ [canon e]) l2; [|cbn [length] in *; lia|].
    + unfold array_round. eapply runs_bind; [apply V; rewrite length_app in L1; cbn [length] in L1; lia|].
      cbn match zeta. eapply runs_bind; [by apply (runs_getToken_char comments [])|]. cbn match. runs_step.
      eapply runs_bind; [exact T2|]. runs_step.
    + by rewrite <- app_assoc in R2.
Qed.

Lemma reads_core_object ms :
  Forall (fun m => plain_str m.1 = true /\ reads_core m.2) ms -> reads_core (J_object ms).
Proof.
  intros F k ws d r W D. rewrite core_object. destruct ms as [|m ms].
  { eapply (reads_body comments _ _ 0 JSON_OBJ_STA "{"%byte (fun fuel => parse_object (value fuel))); try done.
    intros fuel _. cbn [app map items]. unfold parse_object. rewrite <- app_assoc.
    eapply runs_bind; [apply (runs_getToken_char comments (LF :: spaces k) "}"%byte (d :: r));
      [cbn; apply spaces_ws|done]|]. rewrite bool_decide_eq_true_2 by done. runs_step. runs_step. }
  eapply (reads_body comments _ _ 0 JSON_OBJ_STA "{"%byte (fun fuel => parse_object (value fuel))); try done.
  intros fuel L. cbn [map items app] in *. rewrite <- !app_assoc in *. cbn [app] in *. rewrite <- !app_assoc in *.
  unfold parse_object. eapply runs_bind.
  - apply (runs_getToken_char comments (LF :: spaces (k + 2)) QUOTE _ JSON_STR);
      [cbn; apply spaces_ws|done].
  - rewrite bool_decide_eq_false_2 by done. apply runs_loop.
    apply (rounds_core_object fuel k (d :: r) ms m [] []); [done..|].
    change (bytes "}") with ["}"%byte] in L.
    do 5 (cbn [app length] in L |- *; rewrite ?length_app in L; rewrite ?length_app). lia.
Qed.
Lemma reads_core_array es : Forall reads_core es -> reads_core (J_array es).
Proof.
  intros F k ws d r W D. rewrite core_array. destruct es as [|e es].
  { eapply (reads_body comments _ _ 0 JSON_ARR_STA "["%byte (fun fuel => parse_array (value fuel))); try done.
    intros fuel _. cbn [app map items]. unfold parse_array. rewrite <- app_assoc.
    eapply runs_bind; [apply (runs_getToken_char comments (LF :: spaces k) "]"%byte (d :: r));
      [cbn; apply spaces_ws|done]|]. rewrite bool_decide_eq_true_2 by done. runs_step. runs_step. }
  eapply (reads_body comments _ _ 0 JSON_ARR_STA "["%byte (fun fuel => parse_array (value fuel))); try done.
  intros fuel L. cbn [map items app] in *. rewrite <- !app_assoc in *. cbn [app] in *. rewrite <- !app_assoc in *.
  destruct (rounds_core_array fuel k (d :: r) es e [] (LF :: spaces (k + 2))) as (tk & l1 & T & N & _ & R);
    [cbn; apply spaces_ws|done|exact L|].
  unfold parse_array. eapply runs_bind; [exact T|].
  rewrite bool_decide_eq_false_2 by exact N. by apply runs_loop.
Qed.

Lemma printable_reads j : printable j -> reads_core j.
Proof.
  induction j as [s|v dot e|b| |l IH|l IH] using json_ind; intros P.
  - by apply reads_core_string.
  - intros k ws d r W D. by apply (reads_number comments v dot e P O).
  - intros k ws d r W D. destruct b.
    + by apply (reads_word comments (J_boolean true) "t"%byte (bytes "rue") JSON_TRUE) with (i := 0%nat).
    + by apply (reads_word comments (J_boolean false) "f"%byte (bytes "alse") JSON_FALSE) with (i := 0%nat).
  - intros k ws d r W D. by apply (reads_word comments J_null "n"%byte (bytes "ull") JSON_NULL) with (i := 0%nat).
  - apply reads_core_object. apply printable_object in P. rewrite Forall_forall in *. intros m Hm.
    destruct (P m Hm). auto.
  - apply reads_core_array. apply printable_array in P. rewrite Forall_forall in *. auto.
Qed.
End Layout.

(** A printed object is parsed, whatever its indentation. *)
Lemma parseBuffer_core main k ms comments : printable (J_object ms) ->
  parseBuffer main (spaces k ++ core k (J_object ms)) comments =
    Some (true, Some (J_object (insert_all [] (canon_members ms)))).
Proof.
  intros P. set (t := spaces k ++ core k (J_object ms)).
  assert (exists c u, t = c :: u /\ c <> xef) as (c & u & E & N).
  { unfold t. destruct k; cbn [spaces repeat app core]; by eexists _, _. }
  unfold parseBuffer, parser_init. rewrite E at 1.
  assert (skipBOM (t ++ [NUL]) = t ++ [NUL]) as -> by (rewrite E; by apply skipBOM_other).
  change (mk_jsonParser (t ++ [NUL]) 0 comments tt) with (st comments (t ++ [NUL]) 0).
  assert (runs comments (paresJson main) (t ++ [NUL]) (true, Some (canon (J_object ms))) [NUL]) as R;
    [|destruct (R 0) as [n ->]; done].
  unfold paresJson, t. rewrite <- app_assoc.
  destruct (printable_reads comments _ P k (spaces k) NUL [] (spaces_ws k) eq_refl)
    as (tk & l1 & T & _ & _ & Ne & L & V).
  eapply runs_bind; [exact T|]. rewrite bool_decide_eq_false_2 by done.
  eapply runs_bind; [intros n; apply (V (S (length l1))); lia|]. cbn match.
  eapply runs_bind; [by apply (runs_getToken_eof comments [])|].
  rewrite bool_decide_eq_true_2 by done. runs_step.
Qed.
