(* ===== verification/JsonDoc.v ===== *)
(** * JsonDoc.v: what a structure is in JSON

    The document of a management structure: the members that [proc_*] names, in
    their order, with their values; [None] when the texts of [JsonProcToJson] do
    not give the value back.  It is the third instance of [JsonProc]; printing
    writes the text of the document, and reading takes any object that has its
    members. *)

From S2P Require Import Prelude CStr Types Ids Names Bin Structs MngTlvs Json JsonVal JsonRound.
From S2P Require Import JsonNum JsonFacts Text JsonProc JsonTo JsonFrom JsonLayout.

#[local] Open Scope list_scope.

(** ** Documents *)

Definition guard_json (b : bool) (j : json) : option json := if b then Some j else None.
Definition in_uint (w z : Z) : bool := bool_decide (uint w z).
Definition in_sint (w z : Z) : bool := bool_decide (sint w z).
Definition doc_names (name : Z -> string) (values : list Z) (v : Z) : option json :=
  guard_json (bool_decide (v ∈ values)) (J_string (bytes (name v))).
Definition doc_accuracy (v : Z) : option json :=
  guard_json (((0 <=? v) && (v <=? Accurate_more_10s)) || (v =? Accurate_Unknown))
    (J_string (clockAccuracy_text v)).
Definition doc_id (id : list byte) : option json :=
  guard_json (negb (bool_decide (id = [])) && in_uint 16 (len id))
    (J_string (bufToId (bytes ":") id)).
Definition doc_text (t : PTPText_t) : option json :=
  guard_json (plain_str (textField t)) (J_string (textField t)).
Definition doc_clockId (d : ClockIdentity_t) : option json :=
  guard_json (length (ci_v d) =? 8)%nat (J_string (ClockIdentity_string d)).
Definition doc_object (l : list (string * option json)) : option json :=
  ms ← mapM (fun m => j ← m.2; Some (bytes m.1, j)) l; Some (J_object ms).
Definition doc_uint (w z : Z) : option json := guard_json (in_uint w z) (J_int z).
Definition doc_sint (w z : Z) : option json := guard_json (in_sint w z) (J_int z).

Definition doc_PortIdentity (d : PortIdentity_t) : option json :=
  doc_object [("clockIdentity", doc_clockId (clockIdentity d));
              ("portNumber", doc_uint 16 (portNumber d))].
Definition doc_PortAddress (d : PortAddress_t) : option json :=
  doc_object [("networkProtocol", doc_names netProt2str_c net_protocols (networkProtocol d));
              ("addressField", doc_id (addressField d))].
Definition doc_ClockQuality (d : ClockQuality_t) : option json :=
  doc_object [("clockClass", doc_uint 8 (clockClass d));
              ("clockAccuracy", doc_accuracy (clockAccuracy d));
              ("offsetScaledLogVariance", doc_uint 16 (offsetScaledLogVariance d))].
Definition doc_stamp (d : Timestamp_t) : option json := guard_json (json_Timestamp d) (J_stamp d).
Definition doc_FaultRecord (d : FaultRecord_t) : option json :=
  doc_object [("faultRecordLength", doc_uint 16 (faultRecordLength d));
              ("faultTime", doc_stamp (faultTime d));
              ("severityCode", doc_names faultRec2str_c fault_records (severityCode d));
              ("faultName", doc_text (faultName d)); ("faultValue", doc_text (faultValue d));
              ("faultDescription", doc_text (faultDescription d))].
Definition doc_AcceptableMaster (d : AcceptableMaster_t) : option json :=
  doc_object [("acceptablePortIdentity", doc_PortIdentity (acceptablePortIdentity d));
              ("alternatePriority1", doc_uint 8 (alternatePriority1 d))].
Definition doc_LinuxptpUnicastMaster (d : LinuxptpUnicastMaster_t) : option json :=
  doc_object [("portIdentity", doc_PortIdentity (lum_portIdentity d));
              ("clockQuality", doc_ClockQuality (lum_clockQuality d));
              ("selected", guard_json ((lum_selected d =? 0) || (lum_selected d =? 1))
                             (J_boolean (negb (lum_selected d =? 0))));
              ("portState", doc_names us2str_c unicast_states (lum_portState d));
              ("priority1", doc_uint 8 (lum_priority1 d));
              ("priority2", doc_uint 8 (lum_priority2 d));
              ("portAddress", doc_PortAddress (lum_portAddress d))].

Definition time_source_values : list Z := [0x10; 0x20; 0x30; 0x39; 0x40; 0x50; 0x60; 0x90; 0xa0].
Definition delay_mech_values : list Z := [0; 1; 2; 3; 4; 0xfe].
Definition doc_value {T} (t : vtype T) : T -> option json :=
  match t in vtype T return T -> option json with
  | V_u8 => doc_uint 8
  | V_u16 => doc_uint 16
  | V_u32 => doc_uint 32
  | V_u64 => doc_uint 64
  | V_i8 => doc_sint 8
  | V_i16 => doc_sint 16
  | V_i32 => doc_sint 32
  | V_i64 => doc_sint 64
  | V_networkProtocol => doc_names netProt2str_c net_protocols
  | V_clockAccuracy => doc_accuracy
  | V_faultRecord => doc_names faultRec2str_c fault_records
  | V_timeSource => doc_names timeSrc2str_c time_source_values
  | V_portState => doc_names portState2str_c port_states
  | V_delayMechanism => doc_names delayMech2str_c delay_mech_values
  | V_linuxptpTimeStamp => doc_names ts2str_c time_stampings
  | V_linuxptpPowerProfileVersion => doc_names pwr2str_c power_versions
  | V_linuxptpUnicastState => doc_names us2str_c unicast_states
  | V_TimeInterval => fun d => doc_sint 64 (scaledNanoseconds d)
  | V_Timestamp => doc_stamp
  | V_ClockIdentity => doc_clockId
  | V_PortIdentity => doc_PortIdentity
  | V_PortAddress => doc_PortAddress
  | V_ClockQuality => doc_ClockQuality
  | V_PTPText => doc_text
  | V_FaultRecord => doc_FaultRecord
  | V_AcceptableMaster => doc_AcceptableMaster
  | V_LinuxptpUnicastMaster => doc_LinuxptpUnicastMaster
  end.
Definition doc_element {T} (t : atype T) : T -> option json :=
  match t in atype T return T -> option json with
  | A_ClockIdentity => doc_clockId
  | A_PortAddress => doc_PortAddress
  | A_FaultRecord => doc_FaultRecord
  | A_AcceptableMaster => doc_AcceptableMaster
  | A_LinuxptpUnicastMaster => doc_LinuxptpUnicastMaster
  end.

Definition Doc (A : Type) : Type := option (A * list (list byte * json)).
Definition one {A} (name : string) (a : A) (j : option json) : Doc A :=
  j ← j; Some (a, [(bytes name, j)]).
#[global] Instance JsonProcDoc : JsonProc Doc := {
  jret A a := Some (a, []);
  jand A B p k := match p with
                  | Some (a, ms) => match k a with
                                    | Some (b, ms') => Some (b, ms ++ ms')
                                    | None => None
                                    end
                  | None => None
                  end;
  jfail A := None;
  procValue T t name v := one name v (doc_value t v);
  procBinary name val len := one name (val, len) (doc_id val);
  procOctets name val n := one name val (if len val =? n then doc_id val else None);
  procFlag name flags mask := one name flags (Some (J_boolean (0 <? Z.land flags mask)));
  procZeroFlag flags := Some (flags, []);
  procArray T t name l := one name l (js ← mapM (doc_element t) l; Some (J_array js))
}.

(** The members of a management structure. *)
Definition tlv_doc (id : mng_vals_e) (t : BaseMngTlv) : option (list (list byte * json)) :=
  snd <$> procData (m := Doc) id (Some t).

(** ** Objects with the members of a document *)

Definition has (obj ms : list (list byte * json)) : Prop :=
  Forall (fun m => single m.1 obj = Some (canon m.2)) ms.

Lemma insert_member_perm {A} k (v : A) l : insert_member k v l ≡ₚ (k, v) :: l.
Proof.
  induction l as [|[k' v'] l IH]; [done|]. cbn. destruct (key_lt k k'); [done|].
  rewrite IH. apply perm_swap.
Qed.
Lemma insert_all_perm {A} (ms l : list (list byte * A)) : insert_all l ms ≡ₚ l ++ ms.
Proof.
  revert l. induction ms as [|[k v] ms IH]; intros l; [by rewrite app_nil_r|].
  change (insert_all l ((k, v) :: ms)) with (insert_all (insert_member k v l) ms).
  rewrite IH, insert_member_perm. cbn. apply Permutation_middle.
Qed.
Lemma single_perm {A} (l l' : list (list byte * A)) k v :
  l ≡ₚ l' -> NoDup l'.*1 -> (k, v) ∈ l' -> single k l = Some v.
Proof.
  intros P N I.
  assert (filter (fun m => m.1 = k) l' = [(k, v)]) as E'.
  { clear P. induction l' as [|[k' v'] l' IH]; [by apply elem_of_nil in I|]. cbn in N.
    apply NoDup_cons in N as [Ni N]. apply elem_of_cons in I as [I|I].
    - injection I as <- <-. rewrite filter_cons_True by done. f_equal.
      clear IH N. induction l' as [|[k2 v2] l' IH]; [done|]. cbn in Ni. apply not_elem_of_cons in Ni as [N1 N2].
      rewrite filter_cons_False by (cbn; congruence). by apply IH.
    - rewrite filter_cons_False; [by apply IH|]. cbn. intros ->. apply Ni.
      by apply (list_elem_of_fmap_2 fst _ (k, v)) in I. }
  assert (filter (fun m => m.1 = k) l = [(k, v)]) as E.
  { apply Permutation_singleton_r. rewrite <- E'. by apply filter_Permutation. }
  unfold single, count, find, equal_range. rewrite E. done.
Qed.
Lemma has_canon ms : NoDup ms.*1 -> has (insert_all [] (canon_members ms)) ms.
Proof.
  intros N. apply Forall_forall. intros [k j] I. cbn [fst snd].
  apply (single_perm _ (canon_members ms)).
  - apply (insert_all_perm (canon_members ms) []).
  - unfold canon_members. rewrite <- list_fmap_compose. exact N.
  - unfold canon_members. by apply (list_elem_of_fmap_2 (fun m => (m.1, canon m.2)) _ (k, j)) in I.
Qed.

Lemma has_app obj ms ms' : has obj (ms ++ ms') <-> has obj ms /\ has obj ms'.
Proof. apply Forall_app. Qed.

(** * The methods of [JsonProcToJson] print documents

    [prints f ms]: [f] adds the members [ms] to the open object, in the layout of
    JsonLayout.v.  Every overload of [procValue] prints the value of JsonDoc.v. *)

#[local] Open Scope jsonto_scope.

Definition depth (s : JsonProcToJson) : nat := (length (m_first_vals s) * 2 + m_base_indent s)%nat.
Definition null {A} (l : list A) : bool := match l with [] => true | _ => false end.
Definition with_items (l : nat -> list (list byte)) (s : JsonProcToJson) : JsonProcToJson :=
  mk_JsonProcToJson
    (m_result s ++ items (m_first s) (LF :: spaces (depth s)) (l (depth s)))
    (m_first_vals s) (m_base_indent s) (m_first s && null (l (depth s))).
Definition after (ms : list (list byte * json)) : JsonProcToJson -> JsonProcToJson :=
  with_items (fun k => map (member k) ms).
Definition prints (f : JsonProcToJson -> JsonProcToJson) (ms : list (list byte * json)) : Prop :=
  forall s, f s = after ms s.

Lemma items_app first w l l' :
  items first w (l ++ l') = items first w l ++ items (first && null l) w l'.
Proof.
  revert first. induction l as [|t l IH]; intros first; [cbn; by rewrite andb_true_r|].
  cbn [app items null]. rewrite IH, andb_false_r, <- !app_assoc. done.
Qed.
Lemma null_app {A} (l l' : list A) : null (l ++ l') = null l && null l'.
Proof. by destruct l. Qed.
Lemma null_map {A B} (f : A -> B) l : null (map f l) = null l.
Proof. by destruct l. Qed.

Lemma after_nil s : after [] s = s.
Proof. destruct s. unfold after, with_items. cbn. by rewrite app_nil_r, andb_true_r. Qed.
Lemma after_app ms ms' s : after (ms ++ ms') s = after ms' (after ms s).
Proof.
  unfold after, with_items. cbn. unfold depth. cbn.
  by rewrite map_app, items_app, null_app, <- app_assoc, andb_assoc.
Qed.
Lemma prints_nil : prints (fun s => s) [].
Proof. intros s. by rewrite after_nil. Qed.
Lemma prints_seq f g ms ms' : prints f ms -> prints g ms' -> prints (f >> g) (ms ++ ms').
Proof. intros F G s. unfold andthen. by rewrite F, G, after_app. Qed.

(** ** Single members *)

Ltac state_eq :=
  repeat (cbn; unfold andthen, startName, close, indent, add, set_first, push_first, pop_first,
            startObject, closeObject, startArray, closeArray, after, with_items, depth);
  cbn [map items null app m_result m_first_vals m_base_indent m_first];
  f_equal; rewrite ?andb_false_r, ?app_nil_r, <- ?app_assoc; try done.

Lemma prints_string name t : prints (procString name t) [(bytes name, J_string t)].
Proof.
  intros [r v b f]. unfold procString. destruct f; state_eq; unfold member; cbn;
    rewrite <- ?app_assoc; cbn; rewrite <- ?app_assoc; done.
Qed.
Lemma prints_text name t d e : prints (procText name t) [(bytes name, J_number t d e)].
Proof.
  intros [r v b f]. unfold procText. destruct f; state_eq; unfold member; cbn;
    rewrite <- ?app_assoc; cbn; rewrite <- ?app_assoc; done.
Qed.
Lemma prints_bool name b : prints (procBool name b) [(bytes name, J_boolean b)].
Proof.
  intros [r v base f]. unfold procBool. destruct f; state_eq; unfold member; cbn;
    rewrite <- ?app_assoc; cbn; rewrite <- ?app_assoc; done.
Qed.
Lemma prints_int name z : prints (procInt name z) [(bytes name, J_int z)].
Proof. apply prints_text. Qed.

(** ** Objects and arrays *)

(** [f] adds the members and closes the object. *)
Definition closes (f : JsonProcToJson -> JsonProcToJson) (ms : list (list byte * json)) : Prop :=
  forall s, f s = closeObject (after ms s).
Lemma closes_end : closes closeObject [].
Proof. intros s. by rewrite after_nil. Qed.
Lemma closes_seq f g ms ms' : prints f ms -> closes g ms' -> closes (f >> g) (ms ++ ms').
Proof. intros F G s. unfold andthen. by rewrite F, G, after_app. Qed.

(** [f] adds the text of a value on a new line. *)
Definition prints_element (f : JsonProcToJson -> JsonProcToJson) (j : json) : Prop :=
  forall s, f s = add (spaces (depth s) ++ core (depth s) j) s.

Lemma element_object f ms : closes f ms -> prints_element (startObject >> f) (J_object ms).
Proof.
  intros F [r v b first]. unfold andthen at 1. rewrite F, core_object. unfold closeObject, startObject.
  state_eq. by replace (length v * 2 + b + 2)%nat with (S (S (length v * 2 + b))) by lia.
Qed.
Lemma element_clockId d : prints_element (el_ClockIdentity d) (J_string (ClockIdentity_string d)).
Proof. intros [r v b first]. unfold el_ClockIdentity. state_eq. Qed.

Lemma prints_named name f j : nested j = true -> prints_element f j ->
  prints (startName (bytes name) [LF] >> f) [(bytes name, j)].
Proof.
  intros N F [r v b first]. unfold andthen at 1. rewrite F. unfold member, lead. 
  destruct first; state_eq; unfold member, lead; rewrite N; cbn; rewrite <- ?app_assoc; cbn;
    rewrite <- ?app_assoc; done.
Qed.
Lemma prints_object name f ms : closes f ms ->
  prints (to_procObject name >> f) [(bytes name, J_object ms)].
Proof.
  intros F. apply (prints_named name (startObject >> f)); [done|]. by apply element_object.
Qed.

Lemma prints_elements {T} (el : T -> JsonProcToJson -> JsonProcToJson) val js :
  Forall2 (fun v j => prints_element (el v) j) val js ->
  forall s, to_elements el val s = with_items (fun k => map (core k) js) s.
Proof.
  induction 1 as [|v j val js P _ IH]; intros [r vs b f]; cbn [to_elements].
  - unfold with_items. cbn. by rewrite app_nil_r, andb_true_r.
  - rewrite P, IH. destruct f; state_eq.
Qed.
Lemma prints_array {T} (el : T -> JsonProcToJson -> JsonProcToJson) name val js :
  Forall2 (fun v j => prints_element (el v) j) val js ->
  prints (to_array el name val) [(bytes name, J_array js)].
Proof.
  intros F. unfold to_array, to_procArray.
  enough (prints_element (startArray >> to_elements el val >> closeArray) (J_array js)) as E
    by (exact (prints_named name _ (J_array js) eq_refl E)).
  intros [r v b first]. unfold andthen. rewrite (prints_elements el val js F), core_array.
  state_eq. by replace (length v * 2 + b + 2)%nat with (S (S (length v * 2 + b))) by lia.
Qed.

(** ** The methods *)

Lemma doc_object_inv l j : doc_object l = Some j ->
  exists ms, j = J_object ms /\
    Forall2 (fun m m' => bytes m.1 = m'.1 /\ m.2 = Some m'.2) l ms.
Proof.
  unfold doc_object. intros H. destruct (mapM _ l) as [ms|] eqn:E; [|done]. injection H as <-.
  exists ms. split; [done|]. apply mapM_Some in E. eapply Forall2_impl; [exact E|].
  intros [n o] [n' j] H. cbn in *. destruct o; [|done]. by injection H as <- <-.
Qed.

Ltac forall2_cons H :=
  let E := fresh "E" in let E' := fresh "E" in let F := fresh "F" in
  apply Forall2_cons_inv_l in H; destruct H as ([? ?] & ? & [E E'] & F & ->).
(** Split a document into the documents of its members. *)
Ltac doc_inv :=
  repeat match goal with
  | H : guard_json ?b ?j = Some _ |- _ =>
      unfold guard_json in H; destruct b eqn:?; [injection H as <-|discriminate]
  | H : doc_object _ = Some _ |- _ => apply doc_object_inv in H as (? & -> & H)
  | H : Forall2 _ (_ :: _) _ |- _ => forall2_cons H
  | H : Forall2 _ [] _ |- _ => apply Forall2_nil_inv_l in H as ->
  end; cbn [fst snd] in *; subst.

Create HintDb prints discriminated.
#[export] Hint Constants Opaque : prints.
#[export] Hint Resolve prints_nil prints_string prints_text prints_bool prints_int closes_end : prints.

Ltac prints_tac :=
  repeat match goal with
  | |- prints (to_procObject _ >> _) _ => apply prints_object
  | |- prints (startName _ _ >> _) _ => apply prints_named; [done|]
  | |- prints_element (startObject >> _) _ => apply element_object
  | |- closes closeObject _ => apply closes_end
  | |- closes (_ >> _) (?m :: ?ms) => apply (closes_seq _ _ [m] ms)
  | |- prints _ _ => solve [eauto with prints]
  end.

Lemma prints_names name values n v j : doc_names name values v = Some j ->
  prints (procEnum n (name v)) [(bytes n, j)].
Proof. unfold doc_names. intros H. doc_inv. apply prints_string. Qed.
Lemma prints_uint w n z j : doc_uint w z = Some j -> prints (procInt n z) [(bytes n, j)].
Proof. unfold doc_uint. intros H. doc_inv. apply prints_int. Qed.
Lemma prints_sint w n z j : doc_sint w z = Some j -> prints (procInt n z) [(bytes n, j)].
Proof. unfold doc_sint. intros H. doc_inv. apply prints_int. Qed.
Lemma prints_id n l j : doc_id l = Some j -> prints (procId n l) [(bytes n, j)].
Proof. unfold doc_id. intros H. doc_inv. apply prints_string. Qed.
Lemma prints_ptp n t j : doc_text t = Some j -> prints (procString n (textField t)) [(bytes n, j)].
Proof. unfold doc_text. intros H. doc_inv. apply prints_string. Qed.
Lemma prints_clockId n d j : doc_clockId d = Some j ->
  prints (procString n (ClockIdentity_string d)) [(bytes n, j)].
Proof. unfold doc_clockId. intros H. doc_inv. apply prints_string. Qed.
Lemma prints_accuracy n v j : doc_accuracy v = Some j ->
  prints (procString n (clockAccuracy_text v)) [(bytes n, j)].
Proof. unfold doc_accuracy. intros H. doc_inv. apply prints_string. Qed.
Lemma prints_stamp n d j : doc_stamp d = Some j ->
  prints (procText n (Timestamp_string d)) [(bytes n, j)].
Proof. unfold doc_stamp. intros H. doc_inv. apply prints_text. Qed.
Lemma prints_selected n b v j : guard_json b (J_boolean v) = Some j -> prints (procBool n v) [(bytes n, j)].
Proof. intros H. doc_inv. apply prints_bool. Qed.
#[export] Hint Resolve prints_names prints_uint prints_sint prints_id prints_ptp prints_clockId
  prints_accuracy prints_stamp prints_selected : prints.

Lemma prints_PortIdentity n d j : doc_PortIdentity d = Some j ->
  prints (to_PortIdentity n d) [(bytes n, j)].
Proof. unfold doc_PortIdentity, to_PortIdentity. intros H. doc_inv. prints_tac. Qed.
Lemma prints_ClockQuality n d j : doc_ClockQuality d = Some j ->
  prints (to_ClockQuality n d) [(bytes n, j)].
Proof. unfold doc_ClockQuality, to_ClockQuality. intros H. doc_inv. prints_tac. Qed.
Lemma element_PortAddress d j : doc_PortAddress d = Some j ->
  nested j = true /\ prints_element (el_PortAddress d) j.
Proof. unfold doc_PortAddress, el_PortAddress. intros H. doc_inv. split; [done|]. prints_tac. Qed.
Lemma prints_PortAddress n d j : doc_PortAddress d = Some j ->
  prints (startName (bytes n) [LF] >> el_PortAddress d) [(bytes n, j)].
Proof. intros H. apply element_PortAddress in H as [N H]. by apply prints_named. Qed.
#[export] Hint Resolve prints_PortIdentity prints_ClockQuality prints_PortAddress : prints.

Lemma element_FaultRecord d j : doc_FaultRecord d = Some j ->
  nested j = true /\ prints_element (el_FaultRecord d) j.
Proof. unfold doc_FaultRecord, el_FaultRecord. intros H. doc_inv. split; [done|]. prints_tac. Qed.
Lemma element_AcceptableMaster d j : doc_AcceptableMaster d = Some j ->
  nested j = true /\ prints_element (el_AcceptableMaster d) j.
Proof. unfold doc_AcceptableMaster, el_AcceptableMaster. intros H. doc_inv. split; [done|]. prints_tac. Qed.
Lemma closes_named n el g ms j : prints (startName (bytes n) [LF] >> el) [(bytes n, j)] ->
  closes g ms -> closes (startName (bytes n) [LF] >> el >> g) ((bytes n, j) :: ms).
Proof. intros P G. exact (closes_seq (startName (bytes n) [LF] >> el) g [(bytes n, j)] ms P G). Qed.
Lemma element_LinuxptpUnicastMaster d j : doc_LinuxptpUnicastMaster d = Some j ->
  nested j = true /\ prints_element (el_LinuxptpUnicastMaster d) j.
Proof.
  unfold doc_LinuxptpUnicastMaster, el_LinuxptpUnicastMaster. intros H.
  apply doc_object_inv in H as (ms & -> & H).
  repeat match goal with H : Forall2 _ (_ :: _) _ |- _ => forall2_cons H end.
  lazymatch goal with H : Forall2 _ [] _ |- _ => apply Forall2_nil_inv_l in H as -> end.
  cbn [fst snd] in *. subst. split; [done|]. apply element_object.
  do 6 (lazymatch goal with |- closes (_ >> _) (?m :: ?ms) => apply (closes_seq _ _ [m] ms) end;
    [solve [eauto with prints]|]).
  apply closes_named; [eauto with prints|apply closes_end].
Qed.

Lemma prints_element_of {T} (t : atype T) v j :
  doc_element t v = Some j -> prints_element (to_element t v) j.
Proof.
  destruct t; cbn [doc_element to_element]; intros H.
  - unfold doc_clockId in H. doc_inv. apply element_clockId.
  - by apply element_PortAddress in H as [].
  - by apply element_FaultRecord in H as [].
  - by apply element_AcceptableMaster in H as [].
  - by apply element_LinuxptpUnicastMaster in H as [].
Qed.
Lemma prints_value {T} (t : vtype T) n v j : doc_value t v = Some j ->
  prints (to_value t n v) [(bytes n, j)].
Proof.
  destruct t; cbn [doc_value to_value]; intros H; eauto with prints.
  - apply element_FaultRecord in H as [N H]. by apply prints_named.
  - apply element_AcceptableMaster in H as [N H]. by apply prints_named.
  - apply element_LinuxptpUnicastMaster in H as [N H]. by apply prints_named.
Qed.
