(* ===== verification/JsonTake.v ===== *)
(** * JsonTake.v: the methods of [JsonProcFrom] read documents

    Every overload of [procValue], [procBinary], [procFlag] and [procArray] reads
    the value of JsonDoc.v from any object that has it as a member, up to the
    length fields of texts and addresses, which follow from their contents
    ([vnorm]). *)

From S2P Require Import Prelude CStr Types Ids Names Structs MngTlvs Bin Json JsonVal JsonRound.
From S2P Require Import JsonNum JsonSafe Text JsonLayout JsonProc JsonTo JsonFrom JsonDoc.

#[local] Open Scope list_scope.

(** What is compared of a value: the structure in normal form. *)
Definition vnorm {T} (t : vtype T) : T -> T :=
  match t in vtype T return T -> T with
  | V_PTPText => norm_PTPText
  | V_PortAddress => norm_PortAddress
  | V_FaultRecord => norm_FaultRecord
  | V_LinuxptpUnicastMaster => norm_LinuxptpUnicastMaster
  | _ => fun v => v
  end.
Definition enorm {T} (t : atype T) : T -> T :=
  match t in atype T return T -> T with
  | A_PortAddress => norm_PortAddress
  | A_FaultRecord => norm_FaultRecord
  | A_LinuxptpUnicastMaster => norm_LinuxptpUnicastMaster
  | _ => fun v => v
  end.

(** The member [n] of the object is the document [j]. *)
Definition at_ (obj : object) (n : string) (j : json) : Prop :=
  String.eqb n "" = false /\ single (bytes n) obj = Some (canon j).

Lemma key_of_at obj n j : at_ obj n j -> key_of n = Some (bytes n).
Proof. intros [N _]. unfold key_of. by rewrite N. Qed.
Lemma getVal_at obj n j : at_ obj n j -> nested j = false -> j <> J_null ->
  obj_getVal (bytes n) obj = Some j.
Proof. intros [_ E] N _. unfold obj_getVal. rewrite E. by destruct j. Qed.

Ltac at_get H :=
  rewrite ?(key_of_at _ _ _ H); cbn [mbind option_bind];
  rewrite (getVal_at _ _ _ H) by done; cbn [mbind option_bind].

Lemma take_str obj n s : at_ obj n (J_string s) -> get_str n obj = Some s.
Proof. intros H. unfold get_str. by at_get H. Qed.
Lemma take_uint obj w n z j : 0 <= w <= 64 -> doc_uint w z = Some j -> at_ obj n j ->
  from_uint w n obj = Some z.
Proof.
  unfold doc_uint, in_uint. intros Hw D H. doc_inv. rewrite bool_decide_eq_true in *.
  unfold from_uint, get_uint. at_get H. rewrite getUint64_int.
  - cbn. by rewrite uwrap_small.
  - unfold uint in *. pose proof (Z.pow_le_mono_r 2 w 64). lia.
Qed.
Lemma sint_le w z : 0 < w <= 64 -> sint w z -> sint 64 z.
Proof. unfold sint. intros. pose proof (Z.pow_le_mono_r 2 (w - 1) (64 - 1)). lia. Qed.
Lemma take_int64 obj w n z j : 0 < w <= 64 -> doc_sint w z = Some j -> at_ obj n j ->
  get_int64 n obj = Some z /\ sint w z.
Proof.
  unfold doc_sint, in_sint. intros Hw D H. doc_inv. rewrite bool_decide_eq_true in *.
  unfold get_int64. at_get H. rewrite getInt64_int; [done|]. by apply (sint_le w).
Qed.
Lemma take_sint obj w n z j : 0 < w <= 64 -> doc_sint w z = Some j -> at_ obj n j ->
  from_int w n obj = Some z.
Proof.
  intros Hw D H. destruct (take_int64 obj w n z j Hw D H) as [E S]. unfold from_int. rewrite E. cbn.
  rewrite swrap_small; [done|lia|done].
Qed.

(** ** Enumerators *)

Definition distinct_names (name : Z -> string) (values : list Z) : bool :=
  forallb (fun v => bool_decide (find_name name values (bytes (name v)) = Some v)) values.
Lemma take_names obj name values n v j : distinct_names name values = true ->
  doc_names name values v = Some j -> at_ obj n j -> from_names name values n obj = Some v.
Proof.
  unfold doc_names. intros Dn D H. doc_inv. rewrite bool_decide_eq_true in *.
  unfold from_names. rewrite (take_str _ _ _ H). cbn.
  unfold distinct_names in Dn. rewrite forallb_forall in Dn.
  specialize (Dn v). rewrite <- list_elem_of_In, bool_decide_eq_true in Dn. auto.
Qed.
Lemma bytes_string s : String.string_of_list_byte (bytes s) = s.
Proof. apply String.string_of_list_byte_of_string. Qed.
Lemma take_find obj name values find n v j :
  forallb (fun v => bool_decide (find (name v) 0 true = (true, v))) values = true ->
  doc_names name values v = Some j -> at_ obj n j -> from_find find n obj = Some v.
Proof.
  unfold doc_names. intros Dn D H. doc_inv. rewrite bool_decide_eq_true in *.
  unfold from_find. rewrite (take_str _ _ _ H). cbn. rewrite bytes_string.
  rewrite forallb_forall in Dn. specialize (Dn v). rewrite <- list_elem_of_In, bool_decide_eq_true in Dn.
  by rewrite Dn.
Qed.

(** The texts of the values of accuracy are told apart. *)
Definition accuracy_read (v : Z) : option Z :=
  from_clockAccuracy "a" [(bytes "a", J_string (clockAccuracy_text v))].
Lemma take_accuracy obj n v j : doc_accuracy v = Some j -> at_ obj n j ->
  from_clockAccuracy n obj = Some v.
Proof.
  unfold doc_accuracy. intros D H. doc_inv.
  assert (accuracy_read v = Some v) as E.
  { apply orb_prop in Heqb as [B| ->%Z.eqb_eq]; [|by vm_compute].
    unfold Accurate_more_10s in B. assert (0 <= v < 0x32) as R by lia.
    pose proof (enum (fun v => bool_decide (accuracy_read v = Some v)) 0x32 v ltac:(by vm_compute) R) as E.
    by apply bool_decide_eq_true in E. }
  rewrite <- E. unfold accuracy_read, from_clockAccuracy. at_get H. done.
Qed.

(** ** Texts and octets *)

Lemma octets_size b : wf_Binary b -> m_size b = len (octets b).
Proof. intros W. by rewrite len_octets. Qed.

Lemma take_ClockIdentity obj n d j : doc_clockId d = Some j -> at_ obj n j ->
  from_ClockIdentity n obj = Some d.
Proof.
  unfold doc_clockId. intros D H. doc_inv. apply Nat.eqb_eq in Heqb.
  unfold from_ClockIdentity. rewrite (take_str _ _ _ H). cbn [mbind option_bind].
  destruct (fromHex_ClockIdentity d Binary_new Heqb (proj1 Binary_new_spec)) as (b & E & W & O).
  unfold hex_of. rewrite E, octets_size, O by done. unfold len. rewrite Heqb. cbn. by destruct d.
Qed.
Lemma Binary_of_wf l : wf_Binary (Binary_of l).
Proof.
  unfold Binary_of. destruct (setBin_spec l Binary_null) as [W _]; [split; vm_compute; intuition discriminate|].
  by apply (iResize_spec 1 _ W).
Qed.
Lemma take_binary obj n l d j : doc_id l = Some j -> at_ obj n j ->
  from_binary n d obj = Some (l, len l).
Proof.
  unfold doc_id. intros D H. doc_inv. apply andb_prop in Heqb as [Ne U].
  apply negb_true_iff, bool_decide_eq_false in Ne. apply bool_decide_eq_true in U.
  unfold from_binary. rewrite (take_str _ _ _ H). cbn [mbind option_bind].
  destruct (fromId_bufToId l (Binary_of d) (Binary_of_wf d) Ne) as (b & E & W & O).
  rewrite E, octets_size, O by done. destruct (Z.eqb_spec (len l) 0) as [Z|]; [by destruct l|].
  cbn. by rewrite uwrap_small.
Qed.
Lemma take_octets obj n l sz j : len l = sz -> doc_id l = Some j -> at_ obj n j ->
  from_octets n sz obj = Some l.
Proof.
  unfold doc_id. intros L D H. doc_inv. apply andb_prop in Heqb as [Ne U].
  apply negb_true_iff, bool_decide_eq_false in Ne.
  unfold from_octets, id_of. rewrite (take_str _ _ _ H). cbn [mbind option_bind].
  destruct (fromId_bufToId l Binary_new (proj1 Binary_new_spec) Ne) as (b & E & W & O).
  rewrite E, octets_size, O by done. by rewrite Z.eqb_refl.
Qed.
Lemma take_text obj n t d j : doc_text t = Some j -> at_ obj n j ->
  from_PTPText n d obj = Some (mk_PTPText (lengthField d) (textField t)).
Proof.
  unfold doc_text. intros D H. doc_inv. unfold from_PTPText. by rewrite (take_str _ _ _ H).
Qed.
Lemma take_flag obj n flags mask b : at_ obj n (J_boolean b) ->
  from_flag n flags mask obj = Some (if b then Z.lor flags mask else flags).
Proof. intros H. unfold from_flag. by at_get H. Qed.

(** ** Nested objects *)

Lemma take_obj {A} obj n ms (f : From A) r : at_ obj n (J_object ms) ->
  f (insert_all [] (canon_members ms)) = r -> in_obj n f obj = r.
Proof. intros [_ E] <-. unfold in_obj, obj_getObj. by rewrite E. Qed.
Lemma at_inner ms n j : NoDup ms.*1 -> (bytes n, j) ∈ ms -> String.eqb n "" = false ->
  at_ (insert_all [] (canon_members ms)) n j.
Proof.
  intros N I E. split; [done|]. pose proof (has_canon ms N) as H. unfold has in H.
  rewrite Forall_forall in H. apply (H _ I).
Qed.

Create HintDb take discriminated.
#[export] Hint Constants Opaque : take.
#[export] Hint Resolve take_str take_ClockIdentity take_binary take_octets take_text take_accuracy : take.
#[export] Hint Extern 1 (from_uint _ _ _ = _) => eapply take_uint; [lia| |] : take.
#[export] Hint Extern 1 (from_int _ _ _ = _) => eapply take_sint; [lia| |] : take.
#[export] Hint Extern 1 (from_names _ _ _ _ = _) => eapply take_names; [reflexivity| |] : take.

Ltac nodup_names := apply (bool_decide_unpack _); vm_compute; exact I.
(** Members of the object with the members [ms]. *)
Ltac in_members :=
  apply at_inner; [nodup_names|apply list_elem_of_In; cbn; tauto|done].
#[export] Hint Extern 0 (at_ (insert_all [] (canon_members _)) _ _) => in_members : take.

(** Run the first reading of a chain. *)
Ltac take_step :=
  lazymatch goal with
  | |- context [mbind _ ?m] =>
      let E := fresh "E" in eassert (m = Some _) as E by (eauto with take);
      rewrite E; clear E; cbn [mbind option_bind]
  end.

Lemma take_PortIdentity obj n d j : doc_PortIdentity d = Some j -> at_ obj n j ->
  from_PortIdentity n obj = Some d.
Proof.
  unfold doc_PortIdentity. intros D H. doc_inv. eapply take_obj; [exact H|].
  unfold fields_PortIdentity. do 2 take_step. by destruct d.
Qed.
#[export] Hint Resolve take_PortIdentity : take.
Lemma take_ClockQuality obj n d j : doc_ClockQuality d = Some j -> at_ obj n j ->
  in_obj n fields_ClockQuality obj = Some d.
Proof.
  unfold doc_ClockQuality. intros D H. doc_inv. eapply take_obj; [exact H|].
  unfold fields_ClockQuality. do 3 take_step. by destruct d.
Qed.
#[export] Hint Resolve take_ClockQuality : take.

(** The readers of elements on the members of an object. *)
Definition reads_members {A} (f : From A) (j : json) (r : A) : Prop :=
  exists ms, j = J_object ms /\ f (insert_all [] (canon_members ms)) = Some r.
Lemma take_reads {A} obj n (f : From A) j r : reads_members f j r -> at_ obj n j ->
  in_obj n f obj = Some r.
Proof. intros (ms & -> & E) H. by eapply take_obj. Qed.
Ltac reads_record H := doc_inv; eexists; split; [reflexivity|].

Lemma members_PortAddress d d0 j : doc_PortAddress d = Some j ->
  reads_members (el_from_PortAddress d0) j (norm_PortAddress d).
Proof.
  unfold doc_PortAddress. intros D. reads_record D. unfold el_from_PortAddress. by do 2 take_step.
Qed.
Lemma members_AcceptableMaster d j : doc_AcceptableMaster d = Some j ->
  reads_members el_from_AcceptableMaster j d.
Proof.
  unfold doc_AcceptableMaster. intros D. reads_record D. unfold el_from_AcceptableMaster.
  do 2 take_step. by destruct d.
Qed.
Lemma members_LinuxptpUnicastMaster d d0 j : doc_LinuxptpUnicastMaster d = Some j ->
  reads_members (el_from_LinuxptpUnicastMaster d0) j (norm_LinuxptpUnicastMaster d).
Proof.
  unfold doc_LinuxptpUnicastMaster. intros D. apply doc_object_inv in D as (ms & -> & H).
  repeat match goal with H : Forall2 _ (_ :: _) _ |- _ => forall2_cons H end.
  lazymatch goal with H : Forall2 _ [] _ |- _ => apply Forall2_nil_inv_l in H as -> end.
  cbn [fst snd] in *. subst. eexists. split; [reflexivity|]. unfold el_from_LinuxptpUnicastMaster.
  do 2 take_step.
  lazymatch goal with E : guard_json _ _ = Some _ |- _ => unfold guard_json in E end.
  destruct ((lum_selected d =? 0) || (lum_selected d =? 1)) eqn:Sel; [|done].
  lazymatch goal with E : Some _ = Some _ |- _ => injection E as <- end.
  eassert (from_uint 8 "selected" _ = Some (lum_selected d)) as ->.
  { unfold from_uint, get_uint.
    set (o := insert_all _ _). assert (at_ o "selected" (J_boolean (negb (lum_selected d =? 0)))) as H by in_members.
    at_get H. unfold getUint64, get_int. cbn. apply orb_prop in Sel as [->%Z.eqb_eq| ->%Z.eqb_eq]; done. }
  cbn [mbind option_bind]. do 3 take_step.
  erewrite take_reads; [|by apply members_PortAddress|in_members]. done.
Qed.

Section Stamps.
Context (float_stamp : json -> option Timestamp_t).

Lemma take_stamp obj n d j : doc_stamp d = Some j -> at_ obj n j ->
  from_Timestamp float_stamp n obj = Some d.
Proof.
  unfold doc_stamp. intros D H. doc_inv. unfold from_Timestamp. at_get H.
  rewrite getFrac_stamp by done. unfold json_Timestamp, NSEC_PER_SEC in Heqb.
  destruct (Z.ltb_spec 0 (secondsField d)); [|lia].
  rewrite !uwrap_small by (unfold uint; lia). by destruct d.
Qed.
Lemma members_FaultRecord d d0 j : doc_FaultRecord d = Some j ->
  exists r, reads_members (el_from_FaultRecord float_stamp d0) j r /\
    norm_FaultRecord r = norm_FaultRecord d.
Proof.
  unfold doc_FaultRecord. intros D. apply doc_object_inv in D as (ms & -> & H).
  repeat match goal with H : Forall2 _ (_ :: _) _ |- _ => forall2_cons H end.
  lazymatch goal with H : Forall2 _ [] _ |- _ => apply Forall2_nil_inv_l in H as -> end.
  cbn [fst snd] in *. subst. eexists. split.
  - eexists. split; [reflexivity|]. unfold el_from_FaultRecord. take_step.
    erewrite take_stamp by (eauto with take). cbn [mbind option_bind]. do 4 take_step. reflexivity.
  - done.
Qed.

(** ** The methods *)

Lemma take_value {T} (t : vtype T) obj n v v0 j :
  doc_value t v = Some j -> at_ obj n j ->
  exists v', from_value float_stamp t n v0 obj = Some v' /\ vnorm t v' = vnorm t v.
Proof.
  destruct t; cbn [doc_value from_value vnorm]; intros D H;
    try (eexists; split; [by eauto with take|done]).
  - exists v. split; [|done]. eapply take_find; [|exact D|exact H]. by vm_compute.
  - exists v. split; [|done]. eapply take_find; [|exact D|exact H]. by vm_compute.
  - exists v. split; [|done]. eapply take_find; [|exact D|exact H]. by vm_compute.
  - exists v. split; [|done]. destruct (take_int64 obj 64 n _ j ltac:(lia) D H) as [-> _]. by destruct v.
  - exists v. split; [|done]. by eapply take_stamp.
  - eexists. split; [eapply take_reads; [by apply members_PortAddress|done]|done].
  - destruct (members_FaultRecord v v0 j D) as (r & R & E). exists r. split; [|done]. by eapply take_reads.
  - exists v. split; [|done]. eapply take_reads; [by apply members_AcceptableMaster|done].
  - eexists. split; [eapply take_reads; [by apply members_LinuxptpUnicastMaster|done]|done].
Qed.

Lemma el_obj_reads {A} (f : From A) j r : reads_members f j r -> el_obj f (canon j) = Some r.
Proof. by intros (ms & -> & E). Qed.
Lemma take_element {T} (t : atype T) v j : doc_element t v = Some j ->
  exists v', from_element float_stamp t (canon j) = Some v' /\ enorm t v' = enorm t v.
Proof.
  destruct t; cbn [doc_element from_element enorm]; intros D.
  - exists v. split; [|done]. unfold doc_clockId in D. doc_inv. apply Nat.eqb_eq in Heqb.
    cbn [canon]. unfold el_ClockIdentity_of. cbn [getVal getType isJsonValue mbind option_bind].
    destruct (fromHex_ClockIdentity v Binary_new Heqb (proj1 Binary_new_spec)) as (b & E & W & O).
    unfold hex_of. rewrite E, octets_size, O by done. unfold len. rewrite Heqb. cbn. by destruct v.
  - eexists. split; [apply el_obj_reads; by apply members_PortAddress|done].
  - destruct (members_FaultRecord v zero_FaultRecord j D) as (r & R & E). exists r.
    split; [by apply el_obj_reads|done].
  - eexists. split; [apply el_obj_reads; by apply members_AcceptableMaster|done].
  - eexists. split; [apply el_obj_reads; by apply members_LinuxptpUnicastMaster|done].
Qed.
Lemma take_array {T} (t : atype T) obj n l js : mapM (doc_element t) l = Some js ->
  at_ obj n (J_array js) ->
  exists l', from_array float_stamp t n [] obj = Some l' /\ map (enorm t) l' = map (enorm t) l.
Proof.
  intros D [_ E]. unfold from_array, obj_getArr. rewrite E. cbn [mbind option_bind canon getArr].
  apply mapM_Some in D. clear E. revert js D. induction l as [|v l IH]; intros js D.
  - apply Forall2_nil_inv_l in D as ->. by exists [].
  - apply Forall2_cons_inv_l in D as (j & js' & D & D' & ->). cbn [map].
    destruct (take_element t v j D) as (v' & E & N). destruct (IH js' D') as (l' & E' & N').
    cbn [mapM]. rewrite E. cbn [mbind option_bind].
    destruct (mapM (from_element float_stamp t) (map canon js')) as [r|]; [|done].
    injection E' as <-. exists (v' :: r). cbn in *. by rewrite N, N'.
Qed.
End Stamps.
