(* ===== verification/JsonAgree.v ===== *)
(** * JsonAgree.v: printing and reading a structure agree

    The three instances of [JsonProc] on one program.  [agrees_print] says that
    printing adds the members of the document, [agrees_read] that reading takes,
    from any object with these members, a value related to the one that was
    printed.  Both hold for every structure; what is read has the normal form of
    what was printed. *)

From S2P Require Import Prelude CStr Types Ids Names MsgProc Codec Structs MngTlvs MngTlvsSpec Bin.
From S2P Require Import Json JsonVal JsonRound JsonNum Text JsonLayout JsonProc JsonTo JsonFrom.
From S2P Require Import JsonDoc JsonTake.

#[local] Open Scope list_scope.

(** ** Documents are printable *)

Definition plain_char (c : byte) : bool :=
  (b2z c <? 0x80) && negb (eqc c QUOTE) && negb (eqc c "\"%byte) && negb (eqc c NUL).
Lemma plain_chars s : forallb plain_char s = true -> plain_str s = true.
Proof.
  unfold plain_str. induction s as [|c s IH]; [done|]. cbn [forallb plain_from].
  unfold plain_char at 1. intros [[[[H1 H2]%andb_prop H3]%andb_prop H4]%andb_prop H]%andb_prop.
  rewrite H2, H3, H4. assert (utf8_extra (b2z c) = 0%nat) as ->.
  { unfold utf8_extra. by destruct (Z.leb_spec 0xc0 (b2z c)); [lia|]. }
  rewrite (IH H), andb_true_r. destruct (Z.leb_spec 0x80 (b2z c)); [lia|done].
Qed.
Lemma hex_octet_chars o : forallb plain_char (hex_octet o) = true.
Proof. revert o. apply byte_check. by vm_compute. Qed.
Lemma bufToId_chars l : forallb plain_char (bufToId (bytes ":") l) = true.
Proof.
  destruct l as [|o l]; [done|]. cbn [bufToId]. rewrite forallb_app, hex_octet_chars. cbn [andb].
  induction l as [|o' l IH]; [done|]. cbn [bufToId_more]. rewrite !forallb_app, hex_octet_chars, IH. done.
Qed.
Lemma clockId_chars d : forallb plain_char (ClockIdentity_string d) = true.
Proof. unfold ClockIdentity_string. by rewrite !forallb_app, !hex_octet_chars. Qed.
Lemma names_chars (name : Z -> string) values v :
  forallb (fun v => forallb plain_char (bytes (name v))) values = true -> v ∈ values ->
  plain_str (bytes (name v)) = true.
Proof. intros F I. rewrite forallb_forall in F. apply plain_chars, F. by apply list_elem_of_In. Qed.
Lemma num_ok_int z : Z.abs z < 2 ^ 64 -> num_ok (to_string z) 0 0.
Proof.
  intros H. exists (int_number z). split; [by apply int_number_wf|]. by rewrite to_string_number.
Qed.

(** A member that can be printed and read. *)
Definition member_ok (m : list byte * json) : Prop := plain_str m.1 = true /\ printable m.2.

Lemma printable_uint w z j : 0 <= w <= 64 -> doc_uint w z = Some j -> printable j.
Proof.
  unfold doc_uint, in_uint. intros Hw D. doc_inv. rewrite bool_decide_eq_true in *.
  apply num_ok_int. unfold uint in *. pose proof (Z.pow_le_mono_r 2 w 64). lia.
Qed.
Lemma printable_sint w z j : 0 < w <= 64 -> doc_sint w z = Some j -> printable j.
Proof.
  unfold doc_sint, in_sint. intros Hw D. doc_inv. rewrite bool_decide_eq_true in *.
  apply num_ok_int. apply sint_le in Heqb; [|done]. unfold sint in *. lia.
Qed.
Lemma printable_names name values v j :
  forallb (fun v => forallb plain_char (bytes (name v))) values = true ->
  doc_names name values v = Some j -> printable j.
Proof.
  unfold doc_names. intros F D. doc_inv. rewrite bool_decide_eq_true in *. by eapply names_chars.
Qed.
Lemma printable_accuracy v j : doc_accuracy v = Some j -> printable j.
Proof.
  unfold doc_accuracy. intros D. doc_inv. apply plain_chars.
  apply orb_prop in Heqb as [B| ->%Z.eqb_eq]; [|by vm_compute].
  unfold Accurate_more_10s in B.
  apply (enum (fun v => forallb plain_char (clockAccuracy_text v)) 0x32); [by vm_compute|lia].
Qed.
Lemma printable_id l j : doc_id l = Some j -> printable j.
Proof. unfold doc_id. intros D. doc_inv. apply plain_chars, bufToId_chars. Qed.
Lemma printable_text t j : doc_text t = Some j -> printable j.
Proof. unfold doc_text. intros D. by doc_inv. Qed.
Lemma printable_clockId d j : doc_clockId d = Some j -> printable j.
Proof. unfold doc_clockId. intros D. doc_inv. apply plain_chars, clockId_chars. Qed.
Lemma printable_stamp d j : doc_stamp d = Some j -> printable j.
Proof.
  unfold doc_stamp. intros D. doc_inv. exists (stamp_number d). split; [by apply stamp_number_wf|].
  pose proof (J_stamp_num d) as E. injection E as E. split; [exact E|done].
Qed.
Lemma printable_guard b v j : guard_json b (J_boolean v) = Some j -> printable j.
Proof. intros D. by doc_inv. Qed.

Create HintDb printable discriminated.
#[export] Hint Constants Opaque : printable.
#[export] Hint Resolve printable_accuracy printable_id printable_text printable_clockId
  printable_stamp printable_guard : printable.
#[export] Hint Extern 1 (printable _) => eapply printable_uint; [|eassumption]; lia : printable.
#[export] Hint Extern 1 (printable _) => eapply printable_sint; [|eassumption]; lia : printable.
#[export] Hint Extern 2 (printable _) =>
  eapply printable_names; [|eassumption]; vm_compute; reflexivity : printable.

Lemma printable_doc l j : doc_object l = Some j ->
  (forall m, m ∈ l -> plain_str (bytes m.1) = true /\ forall j, m.2 = Some j -> printable j) -> printable j.
Proof.
  intros (ms & -> & F)%doc_object_inv H. apply printable_object.
  induction F as [|m m' l ms [E D] _ IH]; constructor.
  - destruct (H m ltac:(by left)) as [P Q]. rewrite <- E. auto.
  - apply IH. intros m2 I. apply H. by right.
Qed.
Ltac printable_members :=
  intros m I; repeat (apply elem_of_cons in I as [-> |I]; [split; [reflexivity|cbn; intros; eauto with printable]|]);
  by apply elem_of_nil in I.
Lemma printable_PortIdentity d j : doc_PortIdentity d = Some j -> printable j.
Proof. intros D. eapply printable_doc; [exact D|]. printable_members. Qed.
Lemma printable_PortAddress d j : doc_PortAddress d = Some j -> printable j.
Proof. intros D. eapply printable_doc; [exact D|]. printable_members. Qed.
Lemma printable_ClockQuality d j : doc_ClockQuality d = Some j -> printable j.
Proof. intros D. eapply printable_doc; [exact D|]. printable_members. Qed.
#[export] Hint Resolve printable_PortIdentity printable_PortAddress printable_ClockQuality : printable.
Lemma printable_FaultRecord d j : doc_FaultRecord d = Some j -> printable j.
Proof. intros D. eapply printable_doc; [exact D|]. printable_members. Qed.
Lemma printable_AcceptableMaster d j : doc_AcceptableMaster d = Some j -> printable j.
Proof. intros D. eapply printable_doc; [exact D|]. printable_members. Qed.
Lemma printable_LinuxptpUnicastMaster d j : doc_LinuxptpUnicastMaster d = Some j -> printable j.
Proof. intros D. eapply printable_doc; [exact D|]. printable_members. Qed.
#[export] Hint Resolve printable_FaultRecord printable_AcceptableMaster
  printable_LinuxptpUnicastMaster : printable.

Lemma printable_value {T} (t : vtype T) v j : doc_value t v = Some j -> printable j.
Proof. destruct t; cbn [doc_value]; intros D; eauto with printable. Qed.
Lemma printable_element {T} (t : atype T) v j : doc_element t v = Some j -> printable j.
Proof. destruct t; cbn [doc_element]; intros D; eauto with printable. Qed.
Lemma printable_elements {T} (t : atype T) l js : mapM (doc_element t) l = Some js ->
  printable (J_array js).
Proof.
  intros D. apply mapM_Some in D. apply printable_array.
  induction D; constructor; [by eapply printable_element|done].
Qed.

(** ** Printing *)

(** [ns] are the names of the members. *)
Definition agrees_print {A} (ns : list string) (pd : Doc A) (pt : To A) : Prop :=
  forall a ms, pd = Some (a, ms) ->
    ms.*1 = map bytes ns /\ Forall member_ok ms /\ forall s, pt s = (Some a, after ms s).

Lemma agrees_print_ret {A} (a : A) : agrees_print [] (jret (m := Doc) a) (jret (m := To) a).
Proof.
  intros b ms [= <- <-]. split; [done|]. split; [constructor|]. intros s. by rewrite after_nil.
Qed.
Lemma agrees_print_and {A B} ns ns' (pd : Doc A) (kd : A -> Doc B) pt kt :
  agrees_print ns pd pt -> (forall a, agrees_print ns' (kd a) (kt a)) ->
  agrees_print (ns ++ ns') (jand (m := Doc) pd kd) (jand (m := To) pt kt).
Proof.
  intros H K b ms E. cbn in E. destruct pd as [[a m1]|]; [|done].
  destruct (H a m1 eq_refl) as (N1 & O1 & P1).
  destruct (kd a) as [[b' m2]|] eqn:Ek; [|done]. injection E as <- <-.
  destruct (K a b' m2 Ek) as (N2 & O2 & P2). split; [by rewrite fmap_app, map_app, N1, N2|].
  split; [by apply Forall_app|]. intros s. cbn. by rewrite P1, P2, after_app.
Qed.
Lemma agrees_print_one {A} n (a : A) oj f : plain_str (bytes n) = true ->
  (forall j, oj = Some j -> printable j /\ prints f [(bytes n, j)]) ->
  agrees_print [n] (one n a oj) (printing f a).
Proof.
  intros Pn H b ms E. unfold one in E. destruct oj as [j|]; [|done]. injection E as <- <-.
  destruct (H j eq_refl) as [Pj Pf]. split; [done|]. split; [by repeat constructor|].
  intros s. unfold printing. by rewrite Pf.
Qed.
Lemma agrees_print_value {T} (t : vtype T) n v : plain_str (bytes n) = true ->
  agrees_print [n] (procValue (m := Doc) t n v) (procValue (m := To) t n v).
Proof.
  intros P. apply agrees_print_one; [done|]. intros j D.
  split; [by eapply printable_value|by apply prints_value].
Qed.
Lemma agrees_print_binary n v len : plain_str (bytes n) = true ->
  agrees_print [n] (procBinary (m := Doc) n v len) (procBinary (m := To) n v len).
Proof.
  intros P. apply agrees_print_one; [done|]. intros j D.
  split; [by eapply printable_id|by apply prints_id].
Qed.
Lemma agrees_print_octets n v sz : plain_str (bytes n) = true ->
  agrees_print [n] (procOctets (m := Doc) n v sz) (procOctets (m := To) n v sz).
Proof.
  intros P. apply agrees_print_one; [done|]. intros j D. destruct (len v =? sz); [|done].
  split; [by eapply printable_id|by apply prints_id].
Qed.
Lemma agrees_print_flag n flags mask : plain_str (bytes n) = true ->
  agrees_print [n] (procFlag (m := Doc) n flags mask) (procFlag (m := To) n flags mask).
Proof.
  intros P. apply agrees_print_one; [done|]. intros j [= <-]. split; [done|]. apply prints_bool.
Qed.
Lemma agrees_print_zero flags :
  agrees_print [] (procZeroFlag (m := Doc) flags) (procZeroFlag (m := To) flags).
Proof. apply (agrees_print_ret flags). Qed.
Lemma agrees_print_array {T} (t : atype T) n l : plain_str (bytes n) = true ->
  agrees_print [n] (procArray (m := Doc) t n l) (procArray (m := To) t n l).
Proof.
  intros P. apply agrees_print_one; [done|]. intros j D. destruct (mapM _ l) as [js|] eqn:E; [|done].
  injection D as <-. split; [by eapply printable_elements|]. apply prints_array.
  apply mapM_Some in E. eapply Forall2_impl; [exact E|]. intros v j. apply prints_element_of.
Qed.
Lemma agrees_print_event n ev l : plain_str (bytes n) = true ->
  agrees_print [n] (proc_event (m := Doc) n ev l) (proc_event (m := To) n ev l).
Proof.
  intros P. unfold proc_event. apply (agrees_print_and [n] []); [by apply agrees_print_flag|].
  intros a. apply agrees_print_ret.
Qed.
Lemma agrees_print_stat n i l : plain_str (bytes n) = true ->
  agrees_print [n] (proc_stat (m := Doc) n i l) (proc_stat (m := To) n i l).
Proof.
  intros P. unfold proc_stat. apply (agrees_print_and [n] []); [by apply agrees_print_value|].
  intros a. apply agrees_print_ret.
Qed.

(** The members of a structure, whose names differ. *)
Definition printed {A} (pd : Doc A) (pt : To A) : Prop :=
  exists ns, bool_decide (NoDup (map bytes ns)) = true /\ agrees_print ns pd pt.

Ltac print_step :=
  lazymatch goal with
  | |- agrees_print _ (jret _) _ => apply agrees_print_ret
  | |- agrees_print _ (jand ?p _) _ =>
      eapply agrees_print_and;
        [lazymatch p with
         | procValue _ _ _ => apply agrees_print_value; vm_compute; reflexivity
         | procBinary _ _ _ => apply agrees_print_binary; vm_compute; reflexivity
         | procOctets _ _ _ => apply agrees_print_octets; vm_compute; reflexivity
         | procFlag _ _ _ => apply agrees_print_flag; vm_compute; reflexivity
         | procZeroFlag _ => apply agrees_print_zero
         | procArray _ _ _ => apply agrees_print_array; vm_compute; reflexivity
         | proc_event _ _ _ => apply agrees_print_event; vm_compute; reflexivity
         | proc_stat _ _ _ => apply agrees_print_stat; vm_compute; reflexivity
         end
        |intros ?; cbv beta zeta]
  end.
Ltac printed_tac := eexists; split; [|cbv zeta; repeat print_step]; vm_compute; reflexivity.

(** ** Reading *)

Definition single_bit (m : Z) : bool := (0 <? m) && (m =? 2 ^ Z.log2 m).
Lemma land_single f m : single_bit m = true -> Z.land f m = if 0 <? Z.land f m then m else 0.
Proof.
  unfold single_bit. intros [H1 H2]%andb_prop. apply Z.eqb_eq in H2. rewrite H2.
  set (k := Z.log2 m). assert (0 <= k) as K by apply Z.log2_nonneg.
  assert (Z.land f (2 ^ k) = if Z.testbit f k then 2 ^ k else 0) as E.
  { apply Z.bits_inj'. intros n Hn. rewrite Z.land_spec, Z.pow2_bits_eqb by done.
    destruct (Z.eqb_spec k n) as [->|N].
    - destruct (Z.testbit f n); [by rewrite Z.pow2_bits_true|by rewrite Z.bits_0].
    - rewrite andb_false_r. destruct (Z.testbit f k); [by rewrite Z.pow2_bits_false|by rewrite Z.bits_0]. }
  rewrite E. destruct (Z.testbit f k); [|done]. destruct (Z.ltb_spec 0 (2 ^ k)); [done|].
  pose proof (Z.pow_pos_nonneg 2 k). lia.
Qed.
Lemma lor_single f M m : single_bit m = true ->
  (if 0 <? Z.land f m then Z.lor (Z.land f M) m else Z.land f M) = Z.land f (Z.lor M m).
Proof.
  intros H. rewrite Z.land_lor_distr_r. pose proof (land_single f m H) as E.
  destruct (0 <? Z.land f m); rewrite E; [done|]. by rewrite Z.lor_0_r.
Qed.

Section Read.
Context (float_stamp : json -> option Timestamp_t).
#[local] Abbreviation FromP := (JsonProcFrom_proc float_stamp).

Definition agrees_read {A} (pd : Doc A) (pf : From A) (R : A -> A -> Prop) : Prop :=
  forall a ms obj, pd = Some (a, ms) -> has obj ms -> exists a', pf obj = Some a' /\ R a a'.

Lemma agrees_read_ret {A} (a a' : A) (R : A -> A -> Prop) :
  R a a' -> agrees_read (jret (m := Doc) a) (jret (JsonProc := FromP) a') R.
Proof. intros H b ms obj [= <- <-] _. by exists a'. Qed.
Lemma agrees_read_and {A B} (pd : Doc A) (kd : A -> Doc B) pf kf (R : A -> A -> Prop) (R' : B -> B -> Prop) :
  agrees_read pd pf R ->
  (forall a a', R a a' -> agrees_read (kd a) (kf a') R') ->
  agrees_read (jand (m := Doc) pd kd) (jand (JsonProc := FromP) pf kf) R'.
Proof.
  intros H K b ms obj E Ho. cbn in E. destruct pd as [[a m1]|]; [|done].
  destruct (kd a) as [[b' m2]|] eqn:Ek; [|done]. injection E as <- <-.
  apply has_app in Ho as [Ho1 Ho2]. destruct (H a m1 obj eq_refl Ho1) as (a' & E1 & Ra).
  destruct (K a a' Ra b' m2 obj Ek Ho2) as (b2 & E2 & Rb). exists b2. split; [|done]. cbn.
  by rewrite E1.
Qed.
Lemma agrees_read_one {A} n (a : A) oj (pf : From A) (R : A -> Prop) : String.eqb n "" = false ->
  (forall j obj, oj = Some j -> at_ obj n j -> exists a', pf obj = Some a' /\ R a') ->
  agrees_read (one n a oj) pf (fun b a' => b = a /\ R a').
Proof.
  intros N H b ms obj E Ho. unfold one in E. destruct oj as [j|]; [|done]. injection E as <- <-.
  unfold has in Ho. apply Forall_cons in Ho as [Ho _].
  destruct (H j obj eq_refl (conj N Ho)) as (a' & E & Ra). by exists a'.
Qed.
Lemma agrees_read_value {T} (t : vtype T) n v v0 : String.eqb n "" = false ->
  agrees_read (procValue (m := Doc) t n v) (procValue (JsonProc := FromP) t n v0)
    (fun a v' => a = v /\ vnorm t v' = vnorm t v).
Proof. intros N. apply agrees_read_one; [done|]. intros j obj D H. by eapply take_value. Qed.
Lemma agrees_read_binary n v len v0 len0 : String.eqb n "" = false ->
  agrees_read (procBinary (m := Doc) n v len) (procBinary (JsonProc := FromP) n v0 len0)
    (fun a v' => a = (v, len) /\ v'.1 = v).
Proof.
  intros N. apply (agrees_read_one n (v, len) _ _ (fun v' => v'.1 = v)); [done|]. intros j obj D H. eexists. cbn.
  split; [by eapply take_binary|done].
Qed.
Lemma agrees_read_octets n v sz v0 : String.eqb n "" = false ->
  agrees_read (procOctets (m := Doc) n v sz) (procOctets (JsonProc := FromP) n v0 sz)
    (fun a v' => a = v /\ v' = v).
Proof.
  intros N. apply agrees_read_one; [done|]. intros j obj D H.
  destruct (Z.eqb_spec (len v) sz); [|done]. exists v. split; [by eapply take_octets|done].
Qed.
Lemma agrees_read_zero flags flags0 :
  agrees_read (procZeroFlag (m := Doc) flags) (procZeroFlag (JsonProc := FromP) flags0)
    (fun a f' => a = flags /\ f' = Z.land flags 0).
Proof. intros a ms obj [= <- <-] _. exists 0. by rewrite Z.land_0_r. Qed.
Lemma agrees_read_flag n f mask M : String.eqb n "" = false -> single_bit mask = true ->
  agrees_read (procFlag (m := Doc) n f mask) (procFlag (JsonProc := FromP) n (Z.land f M) mask)
    (fun a f' => a = f /\ f' = Z.land f (Z.lor M mask)).
Proof.
  intros N S. apply agrees_read_one; [done|]. intros j obj [= <-] H. eexists.
  split; [by apply take_flag|]. by apply lor_single.
Qed.
Lemma agrees_read_array {T} (t : atype T) n l : String.eqb n "" = false ->
  agrees_read (procArray (m := Doc) t n l) (procArray (JsonProc := FromP) t n [])
    (fun a l' => a = l /\ map (enorm t) l' = map (enorm t) l).
Proof.
  intros N. apply agrees_read_one; [done|]. intros j obj D H.
  destruct (mapM _ l) as [js|] eqn:E; [|done]. injection D as <-. by eapply take_array.
Qed.
Lemma agrees_read_stat n i l l0 : String.eqb n "" = false ->
  agrees_read (proc_stat (m := Doc) n i l) (proc_stat (H := FromP) n i l0)
    (fun a l' => a = <[i := nth i l 0]> l /\ l' = <[i := nth i l 0]> l0).
Proof.
  intros N. unfold proc_stat. eapply agrees_read_and; [by apply agrees_read_value|].
  intros a a' [-> E]. apply agrees_read_ret. cbn in E. by subst.
Qed.
(** The events of the first octet. *)
Lemma agrees_read_event n ev c r r' M : String.eqb n "" = false ->
  (div_event_wo ev).1 = 0 -> single_bit (div_event_wo ev).2 = true ->
  agrees_read (proc_event (m := Doc) n ev (c :: r))
    (proc_event (H := FromP) n ev (z2b (Z.land (b2z c) M) :: r'))
    (fun a l' => a = c :: r /\ l' = z2b (Z.land (b2z c) (Z.lor M (div_event_wo ev).2)) :: r').
Proof.
  intros N Q S. unfold proc_event. cbv zeta. rewrite Q. change (Z.to_nat 0) with 0%nat. cbn [nth].
  rewrite b2z_z2b, Z.mod_small by apply land_byte, b2z_range.
  eapply agrees_read_and; [by apply agrees_read_flag|].
  intros a a' [-> ->]. apply agrees_read_ret. cbn. by rewrite z2b_b2z.
Qed.
End Read.


Ltac read_rule p :=
  lazymatch p with
  | procValue _ _ _ => apply agrees_read_value; reflexivity
  | procBinary _ _ _ => apply agrees_read_binary; reflexivity
  | procOctets _ _ _ => apply agrees_read_octets; reflexivity
  | procFlag _ _ _ => apply agrees_read_flag; reflexivity
  | procZeroFlag _ => apply agrees_read_zero
  | procArray _ _ _ => apply agrees_read_array; reflexivity
  | proc_event _ _ _ => apply agrees_read_event; reflexivity
  | proc_stat _ _ _ => apply agrees_read_stat; reflexivity
  end.
Ltac read_step :=
  lazymatch goal with
  | |- agrees_read (jand ?p _) _ _ =>
      eapply agrees_read_and;
        [read_rule p|intros ? ? [-> ?]; cbn [vnorm enorm fst snd] in *; subst; cbv beta]
  end.
Ltac read_tac := cbv zeta; repeat read_step; apply agrees_read_ret.
