(* ===== verification/JsonMsgFacts.v ===== *)
(** * JsonMsgFacts.v: management data in JSON and back

    Structures, requests and whole messages: what is printed is read as the same,
    and what a request in JSON makes a message send. *)

From S2P Require Import Prelude CStr Types Ids Names MsgProc Codec Bin Structs MngTlvs MngTlvsSpec.
From S2P Require Import Json JsonVal JsonSafe JsonRound JsonNum Text JsonProc.
From S2P Require Import JsonTo JsonFrom JsonLayout JsonDoc JsonTake JsonAgree.
From S2P Require Import Message MessageInv.

#[local] Open Scope list_scope.

(** ** Every structure is printed as its document *)

Lemma printed_fail {A} (pt : To A) : printed (jfail (m := Doc)) pt.
Proof. exists []. split; [by vm_compute|]. by intros a ms. Qed.
Lemma printed_case {D} {inst : MngTlv D} (pd : D -> Doc D) (pt : D -> To D) tlv :
  (forall d, printed (pd d) (pt d)) -> printed (proc_case pd tlv) (proc_case pt tlv).
Proof.
  intros H. unfold proc_case. destruct (match tlv with None => _ | _ => _ end) as [d|]; [|apply printed_fail].
  destruct (H d) as (ns & N & P). exists (ns ++ []). split; [by rewrite app_nil_r|].
  apply agrees_print_and; [done|]. intros a. apply agrees_print_ret.
Qed.
Ltac proc_unfold :=
  lazymatch goal with
  | |- printed (?f _ _ ?d) _ => unfold f
  | |- agrees_read (?f _ _ ?d) _ _ => unfold f
  end.
Lemma printed_procData id tlv : printed (procData (m := Doc) id tlv) (procData (m := To) id tlv).
Proof.
  destruct id; cbn [procData]; first [apply printed_fail | apply printed_case; intros d; proc_unfold; printed_tac].
Qed.

(** ** Reading gives the structure back *)

(** What the document does not hold: a flag field of a structure with one flag
    is a boolean, and of the events only those of linuxptp have a member. *)
Definition one_flag (flags : Z) : bool := (flags =? 0) || (flags =? 1).
Definition named_events (bitmask : list byte) : bool :=
  bool_decide (bitmask = z2b (Z.land (b2z (nth 0 bitmask x00)) 0xf) :: repeat x00 63).
Definition json_whole (t : BaseMngTlv) : bool :=
  match t with
  | T_PARENT_DATA_SET d => one_flag (pds_flags d)
  | T_SLAVE_ONLY d => one_flag (so_flags d)
  | T_UNICAST_NEGOTIATION_ENABLE d => one_flag (une_flags d)
  | T_PATH_TRACE_ENABLE d => one_flag (pte_flags d)
  | T_ACCEPTABLE_MASTER_TABLE_ENABLED d => one_flag (ame_flags d)
  | T_ALTERNATE_MASTER d => one_flag (am_flags d)
  | T_ALTERNATE_TIME_OFFSET_ENABLE d => one_flag (atoe_flags d)
  | T_TRANSPARENT_CLOCK_PORT_DATA_SET d => one_flag (tcp_flags d)
  | T_EXTERNAL_PORT_CONFIGURATION_ENABLED d => one_flag (epc_flags d)
  | T_MASTER_ONLY d => one_flag (mo_flags d)
  | T_HOLDOVER_UPGRADE_ENABLE d => one_flag (hue_flags d)
  | T_EXT_PORT_CONFIG_PORT_DATA_SET d => one_flag (epp_flags d)
  | T_SUBSCRIBE_EVENTS_NP d => named_events (sen_bitmask d)
  | T_PORT_STATS_NP d => (length (psn_rxMsgType d) =? 16)%nat && (length (psn_txMsgType d) =? 16)%nat
  | _ => true
  end.
(** The counters with a member. *)
Definition named_stats (l : list Z) : list Z :=
  map (fun i => nth i l 0)
    [STAT_SYNC; STAT_DELAY_REQ; STAT_PDELAY_REQ; STAT_PDELAY_RESP; STAT_FOLLOW_UP; STAT_DELAY_RESP;
     STAT_PDELAY_RESP_FOLLOW_UP; STAT_ANNOUNCE; STAT_SIGNALING; STAT_MANAGEMENT].
(** The structures are the same up to length fields and masked flags; reading
    leaves the counters without a member as they were in the new structure. *)
Definition json_same (t t' : BaseMngTlv) : Prop :=
  match t, t' with
  | T_PORT_STATS_NP d, T_PORT_STATS_NP d' =>
      psn_portIdentity d' = psn_portIdentity d /\
      named_stats (psn_rxMsgType d') = named_stats (psn_rxMsgType d) /\
      named_stats (psn_txMsgType d') = named_stats (psn_txMsgType d)
  | _, _ => norm_tlv t' = norm_tlv t
  end.

Lemma normFlags_land mask f M : M = mask -> (1 <? mask) = true ->
  normFlags mask (Z.land f M) = normFlags mask f.
Proof. intros -> H. unfold normFlags. rewrite H. by rewrite <- Z.land_assoc, Z.land_diag. Qed.
Lemma normFlags_one f M : M = 1 -> one_flag f = true -> normFlags 1 (Z.land f M) = normFlags 1 f.
Proof. unfold one_flag. by intros -> [->%Z.eqb_eq| ->%Z.eqb_eq]%orb_prop. Qed.
Lemma map_len {A B} (f : A -> B) l l' : map f l' = map f l -> len l' = len l.
Proof. intros E. apply (f_equal length) in E. rewrite !length_map in E. unfold len. by rewrite E. Qed.
Lemma map_id_eq {A} (l l' : list A) : map (fun v => v) l' = map (fun v => v) l -> l' = l.
Proof. by rewrite !map_id. Qed.

Ltac same_field :=
  solve [ reflexivity | congruence
        | apply normFlags_land; reflexivity
        | apply normFlags_one; [reflexivity|assumption]
        | eapply map_len; eassumption
        | by apply map_id_eq
        | f_equal; congruence ].
Ltac same_tac :=
  lazymatch goal with
  | |- json_same ?t ?t' =>
      let u := eval hnf in t in let u' := eval hnf in t' in change (json_same u u')
  end;
  cbn [json_same norm_tlv];
  lazymatch goal with
  | |- ?c (?f _) = ?c (?f _) =>
      apply (f_equal c); unfold f;
      cbn -[norm_PTPText norm_PortAddress norm_FaultRecord norm_LinuxptpUnicastMaster normFlags len map Z.land];
      f_equal; same_field
  end.

(** The new structure of [procData]. *)
Ltac new_tlv :=
  lazymatch goal with
  | |- context [@tlv_init ?D ?i] =>
      let v := eval hnf in (@tlv_init D i) in change (@tlv_init D i) with v
  end.

(** The counters of concrete lists. *)
Ltac stats_at :=
  cbv [nth insert list_insert STAT_SYNC STAT_DELAY_REQ STAT_PDELAY_REQ STAT_PDELAY_RESP STAT_FOLLOW_UP
    STAT_DELAY_RESP STAT_PDELAY_RESP_FOLLOW_UP STAT_ANNOUNCE STAT_SIGNALING STAT_MANAGEMENT].

Section Agree.
Context (float_stamp : json -> option Timestamp_t).
#[local] Abbreviation FromP := (JsonProcFrom_proc float_stamp).

Definition read_case {D} {inst : MngTlv D} (pd : D -> Doc D) (pf : D -> From D) : Prop :=
  forall d, json_whole (tlv_up d) = true ->
    agrees_read (pd d) (pf tlv_init) (fun _ d' => json_same (tlv_up d) (tlv_up d')).

Lemma read_SUBSCRIBE_EVENTS_NP :
  read_case (proc_SUBSCRIBE_EVENTS_NP (m := Doc)) (proc_SUBSCRIBE_EVENTS_NP (H := FromP)).
Proof.
  intros [dur bm] W. cbn in W. apply bool_decide_eq_true in W.
  set (o := nth 0 bm x00) in W. clearbody o.
  assert (z2b (Z.land (b2z (z2b (Z.land (b2z o) 15))) 15) = z2b (Z.land (b2z o) 15)) as E.
  { rewrite b2z_z2b, Z.mod_small by apply land_byte, b2z_range. by rewrite <- Z.land_assoc. }
  revert W E. generalize (z2b (Z.land (b2z o) 15)) as c. intros c -> E. new_tlv. proc_unfold.
  replace (repeat x00 64) with (z2b (Z.land (b2z c) 0) :: repeat x00 63) by (by rewrite Z.land_0_r).
  cbn [sen_bitmask sen_duration]. read_tac.
  exact (f_equal (fun o => norm_tlv (T_SUBSCRIBE_EVENTS_NP (mk_SUBSCRIBE_EVENTS_NP dur (o :: repeat x00 63)))) E).
Qed.
Lemma read_PORT_STATS_NP :
  read_case (proc_PORT_STATS_NP (m := Doc)) (proc_PORT_STATS_NP (H := FromP)).
Proof.
  intros [pi rx tx] W. cbn [tlv_up MngTlv_PORT_STATS_NP json_whole psn_rxMsgType psn_txMsgType] in W.
  apply andb_prop in W as [W1%Nat.eqb_eq W2%Nat.eqb_eq].
  do 17 (destruct rx as [|? rx]; try discriminate W1). do 17 (destruct tx as [|? tx]; try discriminate W2).
  new_tlv. proc_unfold. cbn [psn_portIdentity psn_rxMsgType psn_txMsgType].
  set (rx0 := repeat 0 16). set (tx0 := repeat 0 16). cbv in rx0, tx0. subst rx0 tx0.
  repeat (read_step; stats_at). by apply agrees_read_ret.
Qed.
Lemma read_procData id t : json_whole t = true ->
  agrees_read (procData (m := Doc) id (Some t)) (procData (H := FromP) id None) (fun _ t' => json_same t t').
Proof.
  intros W.
  assert (forall D (inst : MngTlv D) (pd : D -> Doc D) (pf : D -> From D),
    read_case pd pf -> (forall d, tlv_cast t = Some d -> t = tlv_up d) ->
    agrees_read (proc_case pd (Some t)) (proc_case (H := FromP) pf None) (fun _ t' => json_same t t')) as C.
  { intros D inst pd pf R U. unfold proc_case. destruct (tlv_cast t) as [d|] eqn:E; [|by intros a ms obj F].
    specialize (U d eq_refl) as ->. eapply agrees_read_and; [by apply R|]. intros a a' S.
    by apply agrees_read_ret. }
  destruct id; cbn [procData].
  all: try (intros a ms obj F; discriminate F).
  all: apply C; [|intros d; destruct t; cbn; congruence].
  all: clear C W t; try exact read_SUBSCRIBE_EVENTS_NP; try exact read_PORT_STATS_NP.
  all: intros d W; cbn in W; new_tlv; proc_unfold; read_tac; same_tac.
Qed.

Lemma procData_verified id obj t : procData (H := FromP) id None obj = Some t ->
  verifyTlv id (Obj t) = true /\ isEmpty id = false.
Proof.
  assert (forall D (inst : MngTlv D) (pf : D -> From D),
    proc_case (H := FromP) pf None obj = Some t -> exists d : D, t = tlv_up d) as C.
  { intros D inst pf E. unfold proc_case in E. cbn in E. destruct (pf tlv_init obj) as [d|]; [|done].
    injection E as <-. by exists d. }
  destruct id; cbn [procData]; intros E; first [discriminate E | apply C in E as [d ->]; done].
Qed.
End Agree.

(** The ids of the documents. *)
Lemma tlv_doc_id id t ms : tlv_doc id t = Some ms ->
  isEmpty id = false /\ findMngID (mng2str_c id) NULL_PTP_MANAGEMENT true = (true, id).
Proof. unfold tlv_doc. destruct id; cbn [procData]; intros E; first [discriminate E | by vm_compute]. Qed.

(** The parts of a document: names that differ, members that can be printed, and
    the text that [tlv2json] gives. *)
Lemma tlv_doc_printed id t ms : tlv_doc id t = Some ms ->
  NoDup ms.*1 /\ Forall member_ok ms /\
  forall header s, data2json id (Some t) header s =
    closeObject (after ms (if header then to_procObject "dataField" s else startObject s)).
Proof.
  unfold tlv_doc. intros ([a ms'] & E & ->)%fmap_Some_1. destruct (printed_procData id (Some t)) as (ns & N & P).
  destruct (P a ms' E) as (En & Ok & Pr). cbn [snd]. split; [rewrite En; by apply bool_decide_eq_true in N|].
  split; [done|]. intros header s. unfold data2json. rewrite Pr. by destruct header.
Qed.
Lemma tlv_doc_read fs id t ms obj : tlv_doc id t = Some ms -> json_whole t = true -> has obj ms ->
  exists t', procData (H := JsonProcFrom_proc fs) id None obj = Some t' /\ json_same t t' /\
    verifyTlv id (Obj t') = true.
Proof.
  unfold tlv_doc. intros ([a ms'] & E & ->)%fmap_Some_1 W Ho.
  destruct (read_procData fs id t W a ms' obj E Ho) as (t' & Et & S). exists t'. split; [done|].
  split; [done|]. by eapply (procData_verified fs).
Qed.

(** The text of a document, on its own lines. *)
Definition document (indent : nat) (ms : list (list byte * json)) : list byte :=
  spaces indent ++ core indent (J_object ms).
Lemma document_parsed main indent ms comments : Forall member_ok ms ->
  parseBuffer main (document indent ms) comments =
    Some (true, Some (J_object (insert_all [] (canon_members ms)))).
Proof. intros Ok. apply parseBuffer_core. by apply printable_object. Qed.

(** An object that is printed at the start is a document. *)
Lemma closed_document f ms indent : closes f ms ->
  m_result ((startObject >> f)%jsonto (J_start indent)) = document indent ms.
Proof. intros C. by rewrite (element_object _ _ C). Qed.

Lemma tlv2json_document id t ms indent : tlv_doc id t = Some ms ->
  tlv2json id (Some t) indent = document indent ms.
Proof.
  intros D. destruct (tlv_doc_id _ _ _ D) as [Ne _]. destruct (tlv_doc_printed _ _ _ D) as (_ & _ & P).
  unfold tlv2json. rewrite Ne, P.
  exact (closed_document (fun s => closeObject (after ms s)) ms indent (fun s => eq_refl)).
Qed.


Definition demo_time_set : DEFAULT_DATA_SET_t :=
  mk_DEFAULT_DATA_SET 3 2 128 (mk_ClockQuality 248 0xfe 0xffff) 127
    (mk_ClockIdentity [x00; x11; x22; xff; xfe; x33; x44; x55]) 24.

(** ** Requests *)

Lemma mng_name_plain id : plain_str (bytes (mng2str_c id)) = true.
Proof. by destruct id. Qed.

(** Parts that leave the data as it was. *)
Definition keeps_data (f : Part) : Prop := forall mobj j, m_tlvData (f mobj j).2 = m_tlvData j.
Lemma parts_keep l mobj j : Forall keeps_data l -> m_tlvData (parts l mobj j).2 = m_tlvData j.
Proof.
  intros F. revert j. induction F as [|f l K _ IH]; intros j; [done|]. cbn [parts].
  pose proof (K mobj j) as E. destruct (f mobj j) as [[] j']; cbn in E; rewrite <- E; [apply IH|done].
Qed.
Lemma parts_app l l' mobj j : parts (l ++ l') mobj j =
  let '(r, j) := parts l mobj j in if r then parts l' mobj j else (false, j).
Proof.
  revert j. induction l as [|f l IH]; intros j; [by destruct (parts l' mobj j) as [[] ?]|].
  cbn [app parts]. destruct (f mobj j) as [[] ?]; [apply IH|done].
Qed.
Lemma keep_testMand key use : (forall str j, m_tlvData (use str j).2 = m_tlvData j) -> keeps_data (testMand key use).
Proof. intros U mobj j. unfold testMand. by repeat case_match. Qed.
Lemma keep_optProc k : keeps_data (optProc k).
Proof. intros mobj j. unfold optProc. by repeat case_match. Qed.
Lemma keep_portProc k get set : (forall v j, m_tlvData (set v j) = m_tlvData j) ->
  keeps_data (portProc k get set).
Proof. intros S mobj j. unfold portProc. repeat case_match; cbn; rewrite ?S; done. Qed.

Section Requests.
Context (fs : json -> option Timestamp_t).

(** All parts but the last. *)
Definition head_parts : list Part := removelast (fromJson_parts fs).
Lemma fromJson_head : fromJson_parts fs = head_parts ++ [dataProc fs].
Proof. done. Qed.
Lemma head_keep : Forall keeps_data head_parts.
Proof.
  unfold head_parts. cbn [removelast fromJson_parts]. repeat constructor; try done; try apply keep_optProc.
  - apply keep_testMand. intros str j. unfold use_action. by repeat case_match.
  - apply keep_testMand. intros str j. unfold use_id. by repeat case_match.
  - intros mobj j. unfold unicastProc. by repeat case_match.
  - by apply keep_portProc.
  - by apply keep_portProc.
Qed.

(** The data that a request needs: a structure of the id, or nothing. *)
Definition data_fits (j : Json2msg) : Prop :=
  if negb (bool_decide (m_action j = GET)) && negb (isEmpty (m_managementId j))
  then verifyTlv (m_managementId j) (dataField j) = true else dataField j = Null.
Lemma dataProc_fits mobj j j' : m_tlvData j = None -> dataProc fs mobj j = (true, j') -> data_fits j'.
Proof.
  unfold dataProc, data_fits, dataField. intros N. destruct (have_dataField mobj) as [h|]; [|done].
  destruct (bool_decide (m_action j = GET)) eqn:G.
  { intros [= _ <-]. by rewrite G, N. }
  destruct (isEmpty (m_managementId j)) eqn:Em.
  { intros [= _ <-]. by rewrite G, Em, N. }
  destruct h; [|done]. cbn [negb]. destruct (obj_getObj _ mobj) as [obj|]; [|done].
  destruct (procData (H := JsonProcFrom_proc fs) (m_managementId j) None obj) as [t|] eqn:E; [|done].
  intros [= <-]. cbn. rewrite G, Em.
  by apply procData_verified in E as [V _].
Qed.
Lemma fits_setAction j msg : data_fits j ->
  (json_setAction j msg).1 = allowedAction (implementSpecific (m_prms msg)) (m_managementId j) (m_action j).
Proof.
  unfold data_fits, json_setAction. rewrite setAction_cases. cbv zeta.
  destruct (negb (bool_decide (m_action j = GET)) && negb (isEmpty (m_managementId j))); cbn [negb orb].
  - intros ->. rewrite andb_true_r. by destruct (allowedAction _ _ _).
  - intros _. rewrite andb_true_r. by destruct (allowedAction _ _ _).
Qed.

(** The members that a request has to have. *)
Definition request (a : actionField_e) (id : mng_vals_e) (data : json) : list (list byte * json) :=
  [(bytes "actionField", J_string (bytes (act2str_c (actionField_val a))));
   (bytes "managementId", J_string (bytes (mng2str_c id))); (bytes "dataField", data)].
Definition asked (a : actionField_e) (id : mng_vals_e) : Json2msg :=
  set_m_managementId id (set_m_action a Json2msg_new).
Lemma request_sorted a id data : insert_all [] (canon_members (request a id data)) =
  [(bytes "actionField", J_string (bytes (act2str_c (actionField_val a)))); (bytes "dataField", canon data);
   (bytes "managementId", J_string (bytes (mng2str_c id)))].
Proof. done. Qed.
Lemma request_head a id data : a = SET \/ a = COMMAND -> isEmpty id = false -> in_table id = true ->
  parts head_parts (insert_all [] (canon_members (request a id data))) Json2msg_new = (true, asked a id).
Proof.
  rewrite request_sorted. generalize (canon data) as v.
  intros v [-> | ->] Ne T; destruct id; first [discriminate Ne | discriminate T | vm_compute; reflexivity].
Qed.
Lemma fromJson_parts_end mobj j :
  parts (fromJson_parts fs) mobj j =
  let '(r, j) := parts head_parts mobj j in
  if r then let '(r, j) := dataProc fs mobj j in (r, j) else (false, j).
Proof.
  rewrite fromJson_head, parts_app. destruct (parts head_parts mobj j) as [[] j']; [|done].
  cbn [parts]. by destruct (dataProc fs mobj j') as [[] ?].
Qed.
Lemma request_parts a id t ms : a = SET \/ a = COMMAND -> tlv_doc id t = Some ms -> json_whole t = true ->
  exists t', parts (fromJson_parts fs) (insert_all [] (canon_members (request a id (J_object ms)))) Json2msg_new =
      (true, set_m_tlvData (Some t') (asked a id)) /\
    json_same t t' /\ verifyTlv id (Obj t') = true.
Proof.
  intros A D W. destruct (tlv_doc_id _ _ _ D) as [Ne _]. destruct (tlv_doc_printed _ _ _ D) as (N & _ & _).
  destruct (tlv_doc_read fs id t ms _ D W (has_canon ms N)) as (t' & R & S & V).
  exists t'. split; [|done]. rewrite fromJson_parts_end, request_head by (done || by eapply verifyTlv_in_table).
  rewrite request_sorted. unfold dataProc. cbn [asked m_action m_managementId set_m_managementId set_m_action]. rewrite Ne.
  change (have_dataField _) with (Some true).
  change (obj_getObj _ _) with (Some (insert_all [] (canon_members ms))). 
  cbn [negb]. rewrite R.
  by destruct A as [-> | ->].
Qed.
End Requests.

(** What a text makes of a new [Json2msg].  Reading returns for every text.
    When it succeeds, the object holds a structure of the id exactly when the
    action and the id need one, and [setAction] then accepts the request exactly
    when the action is allowed for the id in the message: a text never gives a
    message data of a wrong type or no data where data is sent. *)
Theorem fromJson_request fs text :
  exists r j, fromJson fs text Json2msg_new = Some (r, j) /\
    (r = true ->
      data_fits j /\
      forall msg, (json_setAction j msg).1 =
        allowedAction (implementSpecific (m_prms msg)) (m_managementId j) (m_action j)).
Proof.
  unfold fromJson. destruct (parseBuffer_returns None text false) as [[[] [[| | | |ms|]|]] ->];
    try by (eexists _, _).
  rewrite fromJson_parts_end. pose proof (parts_keep (head_parts fs) ms Json2msg_new (head_keep fs)) as K.
  destruct (parts (head_parts fs) ms Json2msg_new) as [[] j]; [|by eexists _, _].
  destruct (dataProc fs ms j) as [r j'] eqn:E. eexists _, _. split; [done|]. intros ->.
  assert (data_fits j') as F by by apply (dataProc_fits fs ms j). split; [done|]. intros msg.
  by apply fits_setAction.
Qed.

(** A request in JSON becomes the request of the message.  The text of the
    action, the id and a document of the data is read, and [setAction] puts into
    any message that allows the action a SET or COMMAND of this id with a
    structure that is the same as the one of the document. *)
Theorem json_request_sent fs a id t ms indent msg :
  a = SET \/ a = COMMAND -> tlv_doc id t = Some ms -> json_whole t = true ->
  allowedAction (implementSpecific (m_prms msg)) id a = true ->
  exists j t',
    fromJson fs (document indent (request a id (J_object ms))) Json2msg_new = Some (true, j) /\
    json_same t t' /\ (json_setAction j msg).1 = true /\
    m_sendAction (bld (json_setAction j msg).2) = a /\ m_tlv_id (bld (json_setAction j msg).2) = id /\
    m_dataSend (bld (json_setAction j msg).2) = Obj t'.
Proof.
  intros A D W Al. destruct (request_parts fs a id t ms A D W) as (t' & P & S & V).
  destruct (tlv_doc_printed _ _ _ D) as (_ & Ok & _). destruct (tlv_doc_id _ _ _ D) as [Ne _].
  exists (set_m_tlvData (Some t') (asked a id)), t'. split.
  - unfold fromJson. rewrite document_parsed; [by rewrite P|].
    assert (printable (J_object ms)) as Po by by apply printable_object.
    destruct A as [-> | ->]; (constructor; [done|constructor; [|by repeat constructor]]);
      (split; [done|]); cbn [snd printable]; by apply mng_name_plain.
  - change (json_setAction _ msg) with (setAction a id (Obj t') msg).
    rewrite setAction_cases. cbv zeta. rewrite Al, Ne, V. by destruct A as [-> | ->].
Qed.

Lemma json_request_sent_witness : exists j t',
  fromJson (fun _ => None) (document 0 (request SET PRIORITY1
      (J_object [(bytes "priority1", J_int 137)]))) Json2msg_new = Some (true, j) /\
  json_same (T_PRIORITY1 (mk_PRIORITY1 137)) t' /\ (json_setAction j Message_new).1 = true /\
  m_sendAction (bld (json_setAction j Message_new).2) = SET /\
  m_tlv_id (bld (json_setAction j Message_new).2) = PRIORITY1 /\
  m_dataSend (bld (json_setAction j Message_new).2) = Obj t'.
Proof.
  apply (json_request_sent (fun _ => None) SET PRIORITY1 (T_PRIORITY1 (mk_PRIORITY1 137)));
    [by left|vm_compute; reflexivity..].
Defined.

(** * A management message in JSON

    The document of a parsed management message that carries data: [msg2json]
    prints it, and the object that is read from the text has the header, the id
    and the data of the message. *)

Definition header_doc (p : parse_st) : list (string * option json) :=
  [("sequenceId", doc_uint 16 (m_sequence p)); ("sdoId", doc_uint 32 (m_sdoId p));
   ("domainNumber", doc_uint 8 (m_domainNumber p)); ("versionPTP", doc_uint 8 (m_versionPTP p));
   ("minorVersionPTP", doc_uint 8 (m_minorVersionPTP p));
   ("unicastFlag", Some (J_boolean (m_isUnicast p)));
   ("PTPProfileSpecific", doc_uint 8 (m_PTPProfileSpecific p));
   ("messageType", Some (J_string (bytes "Management")));
   ("sourcePortIdentity", doc_PortIdentity (m_peer p));
   ("targetPortIdentity", doc_PortIdentity (m_target p))].
Definition msg_fields (p : parse_st) (data : list (list byte * json)) : list (string * option json) :=
  header_doc p ++
    [("actionField", Some (J_string (bytes (act2str_c (actionField_val (m_replyAction p))))));
     ("tlvType", Some (J_string (bytes "MANAGEMENT")));
     ("managementId", Some (J_string (bytes (mng2str_c (m_replayTlv_id p)))));
     ("dataField", Some (J_object data))].
Definition msg_doc (p : parse_st) (data : list (list byte * json)) : option json :=
  doc_object (msg_fields p data).

Lemma prints_enum name t : prints (procEnum name t) [(bytes name, J_string (bytes t))].
Proof. apply prints_string. Qed.
#[local] Hint Resolve prints_enum : prints.
Ltac prints_chain :=
  repeat match goal with
  | |- prints (_ >> _)%jsonto (?m :: ?m' :: ?ms) =>
      apply (prints_seq _ _ [m] (m' :: ms)); [solve [eauto with prints]|]
  end; solve [eauto with prints].

Definition doc_members (l : list (string * option json)) : list (list byte * json) -> Prop :=
  Forall2 (fun m m' => bytes m.1 = m'.1 /\ m.2 = Some m'.2) l.
Lemma doc_members_names l ms : doc_members l ms -> ms.*1 = map (fun m => bytes m.1) l.
Proof. induction 1 as [|m m' l ms [E _] _ IH]; [done|]. cbn. by rewrite E, IH. Qed.

Lemma prints_header p ms : m_type p = Management ->
  doc_members (header_doc p) ms -> prints (header2json p) ms.
Proof.
  unfold header_doc, header2json. intros -> H. unfold doc_members in H. change (type2str_c Management) with "Management".
  doc_inv. simplify_eq. prints_chain.
Qed.

(** The members of the document can be printed, and their names differ. *)
Lemma msg_doc_members p id t data j :
  tlv_doc id t = Some data -> msg_doc p data = Some j ->
  exists ms, j = J_object ms /\ doc_members (msg_fields p data) ms /\ NoDup ms.*1 /\ printable j.
Proof.
  intros D M. destruct (tlv_doc_printed _ _ _ D) as (_ & Ok & _). apply printable_object in Ok.
  assert (printable j) as Pj.
  { eapply printable_doc; [exact M|]. unfold msg_fields, header_doc. cbn [app].
    intros m I; repeat (apply elem_of_cons in I as [-> |I]; [split; [reflexivity|cbn [snd]; intros ? E]|]);
      [..|by apply elem_of_nil in I].
    all: try (injection E as <-); try done; try (by eauto with printable).
    - by destruct (m_replyAction p).
    - apply mng_name_plain. }
  apply doc_object_inv in M as (ms & -> & F). exists ms. split; [done|]. split; [done|]. split; [|done].
  rewrite (doc_members_names _ _ F). apply (bool_decide_unpack _). by vm_compute.
Qed.

Lemma doc_members_app l l' ms : doc_members (l ++ l') ms ->
  exists m1 m2, ms = m1 ++ m2 /\ doc_members l m1 /\ doc_members l' m2.
Proof. intros F. apply Forall2_app_inv_l in F as (m1 & m2 & F1 & F2 & ->). by eauto 6. Qed.
Lemma procMngId_doc name id t data : tlv_doc id t = Some data ->
  procMngId name id = procEnum name (mng2str_c id).
Proof. intros D. apply tlv_doc_id in D as [_ Fi]. destruct id; first [done | discriminate Fi]. Qed.

Lemma andthen_at f g (s : JsonProcToJson) : (f >> g)%jsonto s = g (f s).
Proof. done. Qed.
Lemma msg2json_document dt msg id t data ms indent :
  m_type (prs msg) = Management -> m_mngType (prs msg) = MANAGEMENT ->
  m_replayTlv_id (prs msg) = id -> m_dataGet (prs msg) = Obj t ->
  tlv_doc id t = Some data -> doc_members (msg_fields (prs msg) data) ms ->
  msg2json dt msg indent = Some (document indent ms).
Proof.
  intros T M Id G D F. set (p := prs msg) in *. destruct (tlv_doc_printed _ _ _ D) as (_ & _ & P).
  apply doc_members_app in F as (m1 & m2 & -> & F1 & F2). apply (prints_header p m1 T) in F1.
  unfold doc_members in F2. doc_inv. simplify_eq.
  unfold msg2json. fold p. rewrite T. cbn [Z.eqb Management Pos.eqb]. unfold mng2json. rewrite M, G, Z.eqb_refl.
  cbn [ptr_data mbind option_bind]. rewrite P, (procMngId_doc _ _ _ _ D).
  assert (prints (to_procObject "dataField" >> (fun s => closeObject (after data s)))%jsonto
    [(bytes "dataField", J_object data)]) as Pd by by apply prints_object.
  lazymatch goal with |- context [document _ (_ ++ [?a; ?b; ?c; ?d])] =>
    assert (closes (header2json p >> (procEnum "actionField" (act2str_c (actionField_val (m_replyAction p))) >>
      procEnum "tlvType" "MANAGEMENT" >> procEnum "managementId" (mng2str_c (m_replayTlv_id p)) >>
      to_procObject "dataField" >> (fun s => closeObject (after data s))) >> closeObject)%jsonto
      (m1 ++ [a; b; c; d])) as C
  end.
  { apply closes_seq; [done|]. lazymatch goal with |- closes _ ?ms => apply (closes_seq _ _ ms []) end;
      [|apply closes_end].
    do 3 (lazymatch goal with |- prints _ (?m :: ?ms) => apply (prints_seq _ _ [m] ms) end;
      [apply prints_enum|]). exact Pd. }
  f_equal. rewrite <- (closed_document _ _ _ C), !andthen_at. reflexivity.
Qed.


Definition demo_port : PortIdentity_t := mk_PortIdentity (mk_ClockIdentity [x00; x11; x22; xff; xfe; x33; x44; x55]) 1.
Definition demo_response : Message :=
  set_prs (mk_parse_st 7 true 0 RESPONSE DEFAULT_DATA_SET 0x100 Management MANAGEMENT 24 2 1 (mk_MessageSigTlvs [] false)
    (Obj (T_DEFAULT_DATA_SET demo_time_set)) demo_port demo_port 0 []) Message_new.
