(* ===== verification/Sock.v ===== *)
(** * Sock.v: sockets

    The classes of sockets of [src/src/sock.cpp]: [SockUnix], [SockIp4],
    [SockIp6] and [SockRaw].  The system calls are the class [Os]: each
    takes the state of the system and returns what the call returns.  A method
    that returns bool is an [act] on the object and the system.  The log of errors
    is left out. *)

From S2P Require Import Prelude CStr Types Codec Bin Text Config.

#[local] Open Scope list_scope.

(** ** The system *)

(** Addresses: [sun_path] has 108 octets. *)
Inductive sockaddr :=
| SA_UN (sun_path : list byte)
| SA_IN (sin_addr : list byte) (sin_port : Z)
| SA_IN6 (sin6_addr : list byte) (sin6_port sin6_scope_id : Z)
| SA_LL (sll_ifindex sll_protocol sll_halen : Z) (sll_addr : list byte).
Inductive sock_domain := AF_UNIX | AF_INET | AF_INET6 | AF_PACKET.
#[global] Instance sock_domain_eq : EqDecision sock_domain.
Proof. solve_decision. Defined.
(** A line of a packet filter. *)
Record sock_filter := mk_filter { f_code : Z; f_jt : Z; f_jf : Z; f_k : Z }.
Inductive sockopt :=
| SO_REUSEADDR (on : Z)
| SO_BINDTODEVICE (name : list byte)
| IP_MULTICAST_TTL (ttl : Z)
| IP_ADD_MEMBERSHIP (multiaddr : list byte) (ifindex : Z)
| IP_MULTICAST_LOOP (on : Z)
| IP_MULTICAST_IF (ifindex : Z)
| IPV6_MULTICAST_HOPS (ttl : Z)
| IPV6_ADD_MEMBERSHIP (multiaddr : list byte) (interface : Z)
| IPV6_MULTICAST_LOOP (on : Z)
| IPV6_MULTICAST_IF (interface : Z)
| SO_PRIORITY (priority : Z)
| SO_ATTACH_FILTER (code : list sock_filter)
| PACKET_ADD_MEMBERSHIP (ifindex alen : Z) (address : list byte).

(** [os_recv] gives the count, the octets and, for a unix socket, the 108 octets
    of the path of the sender; [os_poll] the result and if there is input. *)
Class Os (W : Type) := {
  os_socket : sock_domain -> W -> Z * W;
  os_setsockopt : Z -> sockopt -> W -> bool * W;
  os_bind : Z -> sockaddr -> W -> bool * W;
  os_close : Z -> W -> W;
  os_unlink : list byte -> W -> W;
  os_sendto : Z -> sockaddr -> list byte -> W -> Z * W;
  os_recv : Z -> Z -> bool -> W -> (Z * list byte * list byte) * W;
  os_poll : Z -> Z -> W -> (Z * bool) * W;
  os_getuid : W -> Z;
  os_getpid : W -> Z;
  os_home : W -> option (list byte);
  os_dir : list byte -> W -> bool;
  os_clock : W -> option timespec
}.

(** ** Sequences of calls *)

Definition act (S : Type) : Type := S -> bool * S.
(** The second part runs when the first is true. *)
Definition andthen {S} (m k : act S) : act S := fun s => let '(r, s) := m s in if r then k s else (false, s).
Declare Scope sock_scope.
Delimit Scope sock_scope with sock.
Notation "m ;? k" := (andthen m k) (at level 100, right associativity) : sock_scope.
#[local] Open Scope sock_scope.
(** A test that ends the method, and an assignment. *)
Definition require {S} (f : S -> bool) : act S := fun s => (f s, s).
Definition assign_to {S} (f : S -> S) : act S := fun s => (true, f s).

(** ** All sockets *)

Record SockBase := mk_SockBase { m_fd : Z; m_isInit : bool }.
Definition SockBase_new : SockBase := mk_SockBase (-1) false.
Definition sendReply (cnt n : Z) : bool := negb (cnt <? 0) && (cnt =? n).
(** [int] from the [uint64_t] of the caller. *)
Definition poll_timeout (timeout_ms : Z) : Z := if 0 <? timeout_ms then swrap 32 timeout_ms else -1.

Section Sockets.
Context {W : Type} `{Os W}.

Definition poll (b : SockBase) (timeout_ms : Z) (w : W) : bool * W :=
  if negb (m_isInit b) then (false, w)
  else
    let '((ret, input), w) := os_poll (m_fd b) (poll_timeout timeout_ms) w in
    ((0 <? ret) && input, w).
(** [tpoll]: the time that is left, in milliseconds.  [None] is running out of
    the rounds of the subtraction of stamps. *)
Definition NSEC_PER_MSEC : Z := 1000000.
Definition tpoll (b : SockBase) (timeout_ms : Z) (w : W) : option (bool * Z * W) :=
  if negb (m_isInit b) then Some (false, timeout_ms, w)
  else
    let start := if 0 <? timeout_ms then os_clock w else None in
    let '(ret, w) := poll b timeout_ms w in
    match start with
    | None => Some (ret, timeout_ms, w)
    | Some start =>
        match os_clock w with
        | None => Some (ret, timeout_ms, w)
        | Some now =>
            n ← Timestamp_subt 2 (Timestamp_from_timespec now) (Timestamp_from_timespec start);
            let pass := toNanoseconds n / NSEC_PER_MSEC in
            Some (ret, if pass <? timeout_ms then timeout_ms - pass else 0, w)
        end
    end.
(** [closeBase], around what the class adds. *)
Definition closeBase (closeChild : SockBase -> W -> W) (b : SockBase) (w : W) : SockBase * W :=
  let w := if 0 <=? m_fd b then os_close (m_fd b) w else w in
  let b := if 0 <=? m_fd b then mk_SockBase (-1) (m_isInit b) else b in
  (mk_SockBase (m_fd b) false, closeChild b w).
Definition no_child (b : SockBase) (w : W) : W := w.

(** The destructor: a class that adds to [closeBase] is already gone. *)
Definition SockBase_destroy (b : SockBase) (w : W) : W := (closeBase no_child b w).2.

(** ** Unix sockets *)

Definition unix_path_max : Z := 107.
Definition useDefstrPre : list byte := bytes "/var/run/user/".
Definition useDefstrPost : list byte := bytes "/pmc.".
Definition useDefstr : list byte := bytes "/.pmc.".
Definition rootBasestr : list byte := bytes "/var/run/pmc.".

Record SockUnix := mk_SockUnix {
  u_base : SockBase; m_me : list byte; m_peer : list byte; m_lastFrom : list byte; m_peerAddr : sockaddr
}.
Definition set_u_base (b : SockBase) (s : SockUnix) : SockUnix := mk_SockUnix b (m_me s) (m_peer s) (m_lastFrom s) (m_peerAddr s).
Definition set_m_me (v : list byte) (s : SockUnix) : SockUnix :=
  mk_SockUnix (u_base s) v (m_peer s) (m_lastFrom s) (m_peerAddr s).
Definition set_m_lastFrom (v : list byte) (s : SockUnix) : SockUnix :=
  mk_SockUnix (u_base s) (m_me s) (m_peer s) v (m_peerAddr s).

Definition testUnix (str : list byte) (extra : Z) : bool :=
  negb ((len str =? 0) || (unix_path_max - extra <? len str)).
Definition setUnixAddr (str : list byte) : sockaddr :=
  let path := take (Z.to_nat unix_path_max) str in
  SA_UN (path ++ repeat x00 (108 - length path)).
Definition isAddressAbstract (addr : list byte) : bool :=
  match addr with c :: _ => bool_decide (c = x00) | [] => false end.
Definition SockUnix_new : SockUnix := mk_SockUnix SockBase_new [] [] [] (setUnixAddr []).
Definition abstract_name (useAbstract : bool) (str : list byte) : list byte :=
  if useAbstract then x00 :: str else str.

Definition SockUnix_closeChild (me : list byte) (b : SockBase) (w : W) : W :=
  if m_isInit b && negb (isAddressAbstract me) then os_unlink me w else w.
Definition SockUnix_close (s : SockUnix) (w : W) : SockUnix * W :=
  let '(b, w) := closeBase (SockUnix_closeChild (m_me s)) (u_base s) w in (set_u_base b s, w).

(** [socket], the file descriptor kept in the object. *)
Definition SockUnix_socket : act (SockUnix * W) := fun '(s, w) =>
  let '(fd, w) := os_socket AF_UNIX w in
  (negb (fd <? 0), (set_u_base (mk_SockBase fd (m_isInit (u_base s))) s, w)).
Definition SockUnix_bind : act (SockUnix * W) := fun '(s, w) =>
  let '(ok, w) := os_bind (m_fd (u_base s)) (setUnixAddr (m_me s)) w in (ok, (s, w)).
Definition SockUnix_ready : SockUnix * W -> SockUnix * W := fun '(s, w) =>
  (set_u_base (mk_SockBase (m_fd (u_base s)) true) s, w).
Definition SockUnix_init : act (SockUnix * W) :=
  require (fun st => negb (m_isInit (u_base st.1))) ;?
  require (fun st => testUnix (m_me st.1) 0) ;?
  assign_to (fun st => SockUnix_close st.1 st.2) ;?
  SockUnix_socket ;? SockUnix_bind ;? assign_to SockUnix_ready.

Definition setPeerAddress (str : list byte) (useAbstract : bool) (s : SockUnix) : bool * SockUnix :=
  if negb (testUnix str (if useAbstract then 1 else 0)) then (false, s)
  else
    let peer := abstract_name useAbstract str in
    (true, mk_SockUnix (u_base s) (m_me s) peer (m_lastFrom s) (setUnixAddr peer)).
Definition setPeerAddress_cfg (cfg : ConfigFile) (section : string) (s : SockUnix) : option (bool * SockUnix) :=
  v ← uds_address cfg section; Some (setPeerAddress v false s).
Definition setSelfAddress (str : list byte) (useAbstract : bool) (s : SockUnix) : bool * SockUnix :=
  if m_isInit (u_base s) then (false, s)
  else if negb (testUnix str (if useAbstract then 1 else 0)) then (false, s)
  else (true, set_m_me (abstract_name useAbstract str) s).
(** [getHomeDir]: the static [m_homeDir] keeps its value without an entry. *)
Definition getHomeDir (homeDir : list byte) (w : W) : list byte := default homeDir (os_home w).
(** The path that [setDefSelfAddress] chooses, and [m_homeDir]. *)
Definition default_base (rootBase useDef homeDir : list byte) (w : W) : list byte * list byte :=
  if negb (os_getuid w =? 0) then
    match useDef with
    | [] =>
        let run := useDefstrPre ++ to_string (os_getuid w) in
        if negb (os_dir run w)
        then let home := getHomeDir homeDir w in (home ++ useDefstr, home)
        else (run ++ useDefstrPost, homeDir)
    | c :: _ =>
        if bool_decide (c = x2f) then (useDef, homeDir)
        else let home := getHomeDir homeDir w in (home ++ useDef, home)
    end
  else (match rootBase with [] => rootBasestr | _ => rootBase end, homeDir).
Definition setDefSelfAddress (rootBase useDef homeDir : list byte) (s : SockUnix) (w : W)
    : bool * (SockUnix * list byte) :=
  if m_isInit (u_base s) then (false, (s, homeDir))
  else
    let '(new_me, homeDir) := default_base rootBase useDef homeDir w in
    let '(ok, s) := setSelfAddress (new_me ++ to_string (os_getpid w)) false s in
    (ok, (s, homeDir)).

Definition sendAny (s : SockUnix) (msg : list byte) (addr : sockaddr) (w : W) : bool * W :=
  let '(cnt, w) := os_sendto (m_fd (u_base s)) addr msg w in (sendReply cnt (len msg), w).
Definition SockUnix_send (s : SockUnix) (msg : list byte) (w : W) : bool * W :=
  if negb (m_isInit (u_base s)) then (false, w)
  else if negb (testUnix (m_peer s) 0) then (false, w)
  else sendAny s msg (m_peerAddr s) w.
Definition sendTo (s : SockUnix) (msg addrStr : list byte) (useAbstract : bool) (w : W) : bool * W :=
  if negb (m_isInit (u_base s)) then (false, w)
  else if negb (testUnix addrStr (if useAbstract then 1 else 0)) then (false, w)
  else sendAny s msg (setUnixAddr (abstract_name useAbstract addrStr)) w.
(** The count, the octets and the sender; [from] is left alone on an error. *)
Definition rcvFrom (s : SockUnix) (bufSize : Z) (block : bool) (from : list byte) (w : W)
    : (Z * list byte * list byte) * W :=
  if negb (m_isInit (u_base s)) then ((-1, [], from), w)
  else
    let '((cnt, d, path), w) := os_recv (m_fd (u_base s)) bufSize block w in
    if cnt <? 0 then ((-1, d, from), w)
    else if bufSize <? cnt then ((-1, d, from), w)
    else ((cnt, d, cstr (take (Z.to_nat unix_path_max) path)), w).
Definition SockUnix_rcv (s : SockUnix) (bufSize : Z) (block : bool) (w : W) : (Z * list byte) * W :=
  if negb (m_isInit (u_base s)) then ((-1, []), w)
  else if negb (testUnix (m_peer s) 0) then ((-1, []), w)
  else
    let '((cnt, d, from), w) := rcvFrom s bufSize block [] w in
    if cnt <? 0 then ((-1, d), w)
    else if negb (bool_decide (from = m_peer s)) then ((-1, d), w)
    else if cnt =? 0 then ((-1, d), w)
    else ((cnt, d), w).
(** [rcvFrom] that keeps the sender in the object. *)
Definition rcvFrom_last (s : SockUnix) (bufSize : Z) (block : bool) (w : W) : (Z * list byte) * (SockUnix * W) :=
  let '((cnt, d, from), w) := rcvFrom s bufSize block (m_lastFrom s) w in
  ((cnt, d), (set_m_lastFrom from s, w)).
Definition isLastFromAbstract (s : SockUnix) : bool := isAddressAbstract (m_lastFrom s).
Definition isPeerAddressAbstract (s : SockUnix) : bool := isAddressAbstract (m_peer s).
Definition isSelfAddressAbstract (s : SockUnix) : bool := isAddressAbstract (m_me s).

(** ** Sockets of an interface *)

(** [IfInfo] of [ptp.cpp], as its getters give it. *)
Record IfInfo := mk_IfInfo { if_isInit : bool; if_ifIndex : Z; if_ifName : list byte; if_mac : list byte }.
Record SockBaseIf := mk_SockBaseIf {
  i_base : SockBase; m_ifName : list byte; m_mac : list byte; m_ifIndex : Z; m_have_if : bool
}.
Definition set_i_base (b : SockBase) (s : SockBaseIf) : SockBaseIf :=
  mk_SockBaseIf b (m_ifName s) (m_mac s) (m_ifIndex s) (m_have_if s).
Definition setInt (o : IfInfo) (s : SockBaseIf) : SockBaseIf :=
  mk_SockBaseIf (i_base s) (if_ifName o) (if_mac o) (if_ifIndex o) true.
Definition setIf (o : IfInfo) (s : SockBaseIf) : bool * SockBaseIf :=
  if m_isInit (i_base s) then (false, s) else if negb (if_isInit o) then (false, s) else (true, setInt o s).
(** With the result of [initUsingName] or [initUsingIndex]. *)
Definition setIfUsing (found : option IfInfo) (s : SockBaseIf) : bool * SockBaseIf :=
  if m_isInit (i_base s) then (false, s)
  else match found with None => (false, s) | Some o => (true, setInt o s) end.

(** ** UDP sockets *)

Definition udp_port : Z := 320.
(** The octets of "224.0.1.129" and of "ff0e::181". *)
Definition ipv4_udp_mc : list byte := [xe0; x00; x01; x81].
Definition ipv6_udp_mc : list byte := [xff; x0e] ++ repeat x00 12 ++ [x01; x81].
Definition IN6ADDR_ANY : list byte := repeat x00 16.
Definition INADDR_ANY : list byte := repeat x00 4.

(** [SockIp4] and [SockIp6], by their domain; the first has no scope. *)
Record SockIp := mk_SockIp {
  p_if : SockBaseIf; m_domain : sock_domain; m_udp_ttl : Z; m_addr : sockaddr; m_mcast : list byte;
  m_udp6_scope : Z
}.
Definition set_p_if (v : SockBaseIf) (s : SockIp) : SockIp :=
  mk_SockIp v (m_domain s) (m_udp_ttl s) (m_addr s) (m_mcast s) (m_udp6_scope s).
Definition set_p_base (b : SockBase) (s : SockIp) : SockIp := set_p_if (set_i_base b (p_if s)) s.
Definition set_udp_ttl (v : Z) (s : SockIp) : SockIp :=
  mk_SockIp (p_if s) (m_domain s) v (m_addr s) (m_mcast s) (m_udp6_scope s).
Definition set_m_addr (v : sockaddr) (s : SockIp) : SockIp :=
  mk_SockIp (p_if s) (m_domain s) (m_udp_ttl s) v (m_mcast s) (m_udp6_scope s).
Definition set_m_mcast (v : list byte) (s : SockIp) : SockIp :=
  mk_SockIp (p_if s) (m_domain s) (m_udp_ttl s) (m_addr s) v (m_udp6_scope s).
Definition set_udp6_scope (v : Z) (s : SockIp) : SockIp :=
  mk_SockIp (p_if s) (m_domain s) (m_udp_ttl s) (m_addr s) (m_mcast s) v.
Definition p_base (s : SockIp) : SockBase := i_base (p_if s).

Definition SockBaseIf_new : SockBaseIf := mk_SockBaseIf SockBase_new [] [] 0 false.
Definition SockIp4_new : SockIp := mk_SockIp SockBaseIf_new AF_INET (-1) (SA_IN INADDR_ANY udp_port) [] (-1).
Definition SockIp6_new : SockIp := mk_SockIp SockBaseIf_new AF_INET6 (-1) (SA_IN6 IN6ADDR_ANY udp_port 0) [] (-1).

Definition setUdpTtl (ttl : Z) (s : SockIp) : bool * SockIp :=
  if m_isInit (p_base s) then (false, s) else (true, set_udp_ttl ttl s).
Definition setScope (scope : Z) (s : SockIp) : bool * SockIp :=
  if m_isInit (p_base s) then (false, s)
  else if 0xf <? scope then (false, s) else (true, set_udp6_scope scope s).
(** With a configuration; [None] is an exception of [map::at]. *)
Definition setUdpTtl_cfg (cfg : ConfigFile) (section : string) (s : SockIp) : option (bool * SockIp) :=
  if m_isInit (p_base s) then Some (false, s) else v ← udp_ttl cfg section; Some (true, set_udp_ttl v s).
Definition setScope_cfg (cfg : ConfigFile) (section : string) (s : SockIp) : option (bool * SockIp) :=
  if m_isInit (p_base s) then Some (false, s) else v ← udp6_scope cfg section; Some (true, set_udp6_scope v s).
Definition SockIp_setAllBase (cfg : ConfigFile) (section : string) (s : SockIp) : option (bool * SockIp) :=
  '(ok, s) ← setUdpTtl_cfg cfg section s;
  match m_domain s with
  | AF_INET6 => if ok : bool then setScope_cfg cfg section s else Some (false, s)
  | _ => Some (ok, s)
  end.
Definition SockIp_setAll (o : IfInfo) (cfg : ConfigFile) (section : string) (s : SockIp)
    : option (bool * SockIp) :=
  let '(ok, i) := setIf o (p_if s) in
  if ok then SockIp_setAllBase cfg section (set_p_if i s) else Some (false, s).

(** The steps of [initBase] and [initIp]. *)
Definition SockIp_close (s : SockIp) (w : W) : SockIp * W :=
  let '(b, w) := closeBase no_child (p_base s) w in (set_p_base b s, w).
Definition ip_socket : act (SockIp * W) := fun '(s, w) =>
  let '(fd, w) := os_socket (m_domain s) w in
  (negb (fd <? 0), (set_p_base (mk_SockBase fd (m_isInit (p_base s))) s, w)).
Definition ip_opt (o : SockIp -> sockopt) : act (SockIp * W) := fun '(s, w) =>
  let '(ok, w) := os_setsockopt (m_fd (p_base s)) (o s) w in (ok, (s, w)).
Definition ip_bind : act (SockIp * W) := fun '(s, w) =>
  let '(ok, w) := os_bind (m_fd (p_base s)) (m_addr s) w in (ok, (s, w)).
Definition ip_set (f : SockIp -> SockIp) : act (SockIp * W) := assign_to (fun st => (f st.1, st.2)).
Definition SockIp4_initIp : act (SockIp * W) :=
  ip_opt (fun s => IP_MULTICAST_TTL (m_udp_ttl s)) ;?
  ip_opt (fun s => IP_ADD_MEMBERSHIP (m_mcast s) (m_ifIndex (p_if s))) ;?
  ip_opt (fun s => IP_MULTICAST_LOOP 0) ;?
  ip_opt (fun s => IP_MULTICAST_IF (m_ifIndex (p_if s))) ;?
  ip_set (fun s => set_m_addr (match m_addr s with SA_IN _ p => SA_IN (m_mcast s) p | a => a end) s).
Definition set_scope_octet (scope : Z) (mc : list byte) : list byte := <[1%nat := z2b scope]> mc.
Definition SockIp6_initIp : act (SockIp * W) :=
  require (fun st => negb (m_udp6_scope st.1 <? 0)) ;?
  ip_opt (fun s => IPV6_MULTICAST_HOPS (m_udp_ttl s)) ;?
  ip_set (fun s => set_m_mcast (set_scope_octet (m_udp6_scope s) (m_mcast s)) s) ;?
  ip_opt (fun s => IPV6_ADD_MEMBERSHIP (m_mcast s) (m_ifIndex (p_if s))) ;?
  ip_opt (fun s => IPV6_MULTICAST_LOOP 0) ;?
  ip_opt (fun s => IPV6_MULTICAST_IF (m_ifIndex (p_if s))) ;?
  ip_set (fun s => set_m_addr (match m_addr s with
    | SA_IN6 _ p id => SA_IN6 (m_mcast s) p (if m_udp6_scope s =? 2 then m_ifIndex (p_if s) else id)
    | a => a end) s).
Definition initIp : act (SockIp * W) := fun st =>
  match m_domain st.1 with AF_INET6 => SockIp6_initIp st | _ => SockIp4_initIp st end.
Definition mcast_str (d : sock_domain) : list byte :=
  match d with AF_INET6 => ipv6_udp_mc | _ => ipv4_udp_mc end.
Definition SockIp_init : act (SockIp * W) :=
  require (fun st => negb (m_isInit (p_base st.1))) ;?
  require (fun st => m_have_if (p_if st.1)) ;?
  require (fun st => negb (m_udp_ttl st.1 <? 0)) ;?
  assign_to (fun st => SockIp_close st.1 st.2) ;?
  ip_socket ;?
  ip_opt (fun s => SO_REUSEADDR 1) ;?
  ip_bind ;?
  ip_opt (fun s => SO_BINDTODEVICE (m_ifName (p_if s))) ;?
  ip_set (fun s => set_m_mcast (mcast_str (m_domain s)) s) ;?
  initIp ;?
  ip_set (fun s => set_p_base (mk_SockBase (m_fd (p_base s)) true) s).

Definition SockIp_setAllInit (o : IfInfo) (cfg : ConfigFile) (section : string) (s : SockIp) (w : W)
    : option (bool * (SockIp * W)) :=
  '(ok, s) ← SockIp_setAll o cfg section s;
  if ok : bool then Some (SockIp_init (s, w)) else Some (false, (s, w)).

Definition SockIp_send (s : SockIp) (msg : list byte) (w : W) : bool * W :=
  if negb (m_isInit (p_base s)) then (false, w)
  else let '(cnt, w) := os_sendto (m_fd (p_base s)) (m_addr s) msg w in (sendReply cnt (len msg), w).
Definition SockIp_rcv (s : SockIp) (bufSize : Z) (block : bool) (w : W) : (Z * list byte) * W :=
  if negb (m_isInit (p_base s)) then ((-1, []), w)
  else
    let '((cnt, d, _), w) := os_recv (m_fd (p_base s)) bufSize block w in
    if cnt <? 0 then ((-1, d), w) else if bufSize <? cnt then ((-1, d), w) else ((cnt, d), w).

(** ** Raw sockets *)

Definition ETH_P_ALL : Z := 0x0003.
Definition ETH_P_1588 : Z := 0x88f7.
Definition OP_LDH : Z := 0x28.
Definition OP_JEQ : Z := 0x15.
Definition OP_RET : Z := 0x06.
Definition bpf_code : list sock_filter := [
  mk_filter OP_LDH 0 0 12; mk_filter OP_JEQ 0 1 ETH_P_1588; mk_filter OP_RET 0 0 0x40000;
  mk_filter OP_RET 0 0 0].

(** [m_hdr] is its 14 octets. *)
Record SockRaw := mk_SockRaw {
  r_if : SockBaseIf; m_ptp_dst_mac : list byte; m_socket_priority : Z; r_addr : sockaddr; m_hdr : list byte
}.
Definition set_r_if (v : SockBaseIf) (s : SockRaw) : SockRaw :=
  mk_SockRaw v (m_ptp_dst_mac s) (m_socket_priority s) (r_addr s) (m_hdr s).
Definition set_r_base (b : SockBase) (s : SockRaw) : SockRaw := set_r_if (set_i_base b (r_if s)) s.
Definition set_ptp_dst_mac (v : list byte) (s : SockRaw) : SockRaw :=
  mk_SockRaw (r_if s) v (m_socket_priority s) (r_addr s) (m_hdr s).
Definition set_socket_priority (v : Z) (s : SockRaw) : SockRaw :=
  mk_SockRaw (r_if s) (m_ptp_dst_mac s) v (r_addr s) (m_hdr s).
Definition set_r_addr (v : sockaddr) (s : SockRaw) : SockRaw :=
  mk_SockRaw (r_if s) (m_ptp_dst_mac s) (m_socket_priority s) v (m_hdr s).
Definition set_m_hdr (v : list byte) (s : SockRaw) : SockRaw :=
  mk_SockRaw (r_if s) (m_ptp_dst_mac s) (m_socket_priority s) (r_addr s) v.
Definition r_base (s : SockRaw) : SockBase := i_base (r_if s).
Definition SockRaw_new (hdr : list byte) : SockRaw :=
  mk_SockRaw SockBaseIf_new [] (-1) (SA_LL 0 0 0 (repeat x00 8)) hdr.

Definition setPtpDstMacStr (str : list byte) (s : SockRaw) : bool * SockRaw :=
  if m_isInit (r_base s) then (false, s)
  else if bool_decide (str = []) then (false, s)
  else let '(ok, mac) := fromMac str Binary_new in
       if ok then (true, set_ptp_dst_mac (octets mac) s) else (false, s).
Definition setPtpDstMac (mac : Binary) (s : SockRaw) : bool * SockRaw :=
  if m_isInit (r_base s) then (false, s)
  else if negb (isMacLen mac) then (false, s) else (true, set_ptp_dst_mac (octets mac) s).
Definition setPtpDstMac_cfg (cfg : ConfigFile) (section : string) (s : SockRaw) : option (bool * SockRaw) :=
  if m_isInit (r_base s) then Some (false, s)
  else v ← ptp_dst_mac cfg section; Some (true, set_ptp_dst_mac (octets v) s).
Definition setSocketPriority (priority : Z) (s : SockRaw) : bool * SockRaw :=
  if m_isInit (r_base s) then (false, s)
  else if 15 <? priority then (false, s) else (true, set_socket_priority priority s).
Definition setSocketPriority_cfg (cfg : ConfigFile) (section : string) (s : SockRaw) : option (bool * SockRaw) :=
  if m_isInit (r_base s) then Some (false, s)
  else v ← socket_priority cfg section; Some (true, set_socket_priority v s).
Definition SockRaw_setAll (o : IfInfo) (cfg : ConfigFile) (section : string) (s : SockRaw)
    : option (bool * SockRaw) :=
  let '(ok, i) := setIf o (r_if s) in
  if ok then
    '(ok, s) ← setPtpDstMac_cfg cfg section (set_r_if i s);
    if ok : bool then setSocketPriority_cfg cfg section s else Some (false, s)
  else Some (false, s).

Definition SockRaw_close (s : SockRaw) (w : W) : SockRaw * W :=
  let '(b, w) := closeBase no_child (r_base s) w in (set_r_base b s, w).
Definition raw_socket : act (SockRaw * W) := fun '(s, w) =>
  let '(fd, w) := os_socket AF_PACKET w in
  (negb (fd <? 0), (set_r_base (mk_SockBase fd (m_isInit (r_base s))) s, w)).
Definition raw_opt (o : SockRaw -> sockopt) : act (SockRaw * W) := fun '(s, w) =>
  let '(ok, w) := os_setsockopt (m_fd (r_base s)) (o s) w in (ok, (s, w)).
Definition raw_bind : act (SockRaw * W) := fun '(s, w) =>
  let '(ok, w) := os_bind (m_fd (r_base s)) (r_addr s) w in (ok, (s, w)).
Definition raw_set (f : SockRaw -> SockRaw) : act (SockRaw * W) := assign_to (fun st => (f st.1, st.2)).
(** [Binary::copy] to a position of octets; nothing for an empty one. *)
Definition copy_at (off : Z) (bs target : list byte) : list byte := splice target off bs.
(** The address for [bind], and for sending. *)
Definition raw_bind_addr (s : SockRaw) : sockaddr :=
  match r_addr s with
  | SA_LL _ _ halen a => SA_LL (m_ifIndex (r_if s)) ETH_P_ALL halen a
  | a => a
  end.
Definition raw_send_addr (s : SockRaw) : sockaddr :=
  match r_addr s with
  | SA_LL i p _ a => SA_LL i p (len (m_ptp_dst_mac s)) (copy_at 0 (m_ptp_dst_mac s) a)
  | a => a
  end.
(** The type of the frame, then its destination and its source. *)
Definition raw_hdr (s : SockRaw) : list byte :=
  copy_at 6 (m_mac (r_if s)) (copy_at 0 (m_ptp_dst_mac s) (copy_at 12 (be_enc 2 ETH_P_1588) (m_hdr s))).
Definition SockRaw_init : act (SockRaw * W) :=
  require (fun st => negb (m_isInit (r_base st.1))) ;?
  require (fun st => m_have_if (r_if st.1)) ;?
  require (fun st => negb (bool_decide (m_ptp_dst_mac st.1 = []))) ;?
  require (fun st => negb (m_socket_priority st.1 <? 0)) ;?
  assign_to (fun st => SockRaw_close st.1 st.2) ;?
  raw_socket ;?
  raw_opt (fun s => SO_BINDTODEVICE (m_ifName (r_if s))) ;?
  raw_opt (fun s => SO_PRIORITY (m_socket_priority s)) ;?
  raw_opt (fun s => SO_ATTACH_FILTER bpf_code) ;?
  raw_opt (fun s => PACKET_ADD_MEMBERSHIP (m_ifIndex (r_if s)) (len (m_ptp_dst_mac s))
                      (copy_at 0 (m_ptp_dst_mac s) (repeat x00 8))) ;?
  raw_set (fun s => set_r_addr (raw_bind_addr s) s) ;?
  raw_bind ;?
  raw_set (fun s => set_m_hdr (raw_hdr s) (set_r_addr (raw_send_addr s) s)) ;?
  raw_set (fun s => set_r_base (mk_SockBase (m_fd (r_base s)) true) s).
Definition SockRaw_setAllInit (o : IfInfo) (cfg : ConfigFile) (section : string) (s : SockRaw) (w : W)
    : option (bool * (SockRaw * W)) :=
  '(ok, s) ← SockRaw_setAll o cfg section s;
  if ok : bool then Some (SockRaw_init (s, w)) else Some (false, (s, w)).
(** The header and the message in one frame. *)
Definition SockRaw_send (s : SockRaw) (msg : list byte) (w : W) : bool * W :=
  if negb (m_isInit (r_base s)) then (false, w)
  else
    let '(cnt, w) := os_sendto (m_fd (r_base s)) (r_addr s) (m_hdr s ++ msg) w in
    (sendReply cnt (len msg + 14), w).
(** The frame without its header of 14 octets. *)
Definition SockRaw_rcv (s : SockRaw) (bufSize : Z) (block : bool) (w : W) : (Z * list byte) * W :=
  if negb (m_isInit (r_base s)) then ((-1, []), w)
  else
    let '((cnt, d, _), w) := os_recv (m_fd (r_base s)) (bufSize + 14) block w in
    if cnt <? 0 then ((-1, drop 14 d), w)
    else if cnt <? 14 then ((-1, drop 14 d), w)
    else if bufSize + 14 <? cnt then ((-1, drop 14 d), w)
    else ((cnt - 14, drop 14 d), w).
End Sockets.
#[global] Arguments SockUnix_init {_ _} _ : simpl never.
#[global] Arguments SockIp_init {_ _} _ : simpl never.
#[global] Arguments SockRaw_init {_ _} _ : simpl never.
#[global] Arguments SockBase_destroy {_ _} _ _ : simpl never.
