(* ===== verification/SockFacts.v ===== *)
(** * SockFacts.v: what the sockets do

    Each socket owns the file descriptor that it keeps: no sequence of its methods
    leaks one.  Which senders a unix socket takes messages from, which address it
    takes for itself, and the frames of a raw socket. *)

From S2P Require Import Prelude CStr Types Codec Bin Text Config Sock.

#[local] Open Scope list_scope.
#[local] Open Scope sock_scope.

(** ** Rules for sequences of calls *)

(** From a state with [P]: [Q] when the sequence is true, [R] when it is false. *)
Definition hoare {S} (P : S -> Prop) (m : act S) (Q R : S -> Prop) : Prop :=
  forall st, P st -> let '(r, st') := m st in if r : bool then Q st' else R st'.

Lemma hoare_andthen {S} (P Q Q' R : S -> Prop) m k : hoare P m Q R -> hoare Q k Q' R -> hoare P (m ;? k) Q' R.
Proof.
  intros M K st Hp. unfold andthen. specialize (M st Hp). destruct (m st) as [[] st']; [|done]. by apply K.
Qed.
Lemma hoare_require {S} (P R : S -> Prop) f : (forall st, P st -> R st) -> hoare P (require f) P R.
Proof. intros PR st Hp. cbn. destruct (f st); auto. Qed.
Lemma hoare_assign {S} (P Q R : S -> Prop) f : (forall st, P st -> Q (f st)) -> hoare P (assign_to f) Q R.
Proof. intros F st Hp. by apply F. Qed.

(** ** File descriptors *)

Lemma set_closed (fd : Z) (X : gset Z) : {[fd]} ## X -> ({[fd]} ∪ X) ∖ {[fd]} = X.
Proof.
  intros D. rewrite difference_union_distr_l_L, difference_diag_L, (left_id_L ∅ (∪)).
  by apply difference_disjoint_L.
Qed.
Lemma set_fresh (fd : Z) (X : gset Z) : fd ∉ X -> {[fd]} ## X.
Proof. by rewrite disjoint_singleton_l. Qed.

(** What is open, and the files of the sockets that are bound. *)
Class OsView (W : Type) := { open_fds : W -> gset Z; bound_files : W -> gset (list byte) }.
(** The user, its process and its folders. *)
Definition same_user {W} `{Os W} (w w' : W) : Prop :=
  os_getuid w' = os_getuid w /\ os_getpid w' = os_getpid w /\ os_home w' = os_home w /\
  forall d, os_dir d w' = os_dir d w.
(** [socket] gives a descriptor that was not open, [close] closes, [bind] to a
    path that is not abstract creates a file that was not there and [unlink]
    removes it; nothing else changes what is open. *)
Class OsLaws (W : Type) `{Os W, OsView W} := {
  fds_socket d w : let '(fd, w') := os_socket d w in
    if (fd <? 0) then open_fds w' = open_fds w
    else (fd ∉ open_fds w) /\ open_fds w' = ({[fd]} ∪ open_fds w);
  fds_close fd w : open_fds (os_close fd w) = (open_fds w ∖ {[fd]});
  fds_setsockopt fd o w : open_fds (os_setsockopt fd o w).2 = open_fds w;
  fds_bind fd a w : open_fds (os_bind fd a w).2 = open_fds w;
  fds_unlink p w : open_fds (os_unlink p w) = open_fds w;
  fds_sendto fd a d w : open_fds (os_sendto fd a d w).2 = open_fds w;
  fds_recv fd n b w : open_fds (os_recv fd n b w).2 = open_fds w;
  fds_poll fd t w : open_fds (os_poll fd t w).2 = open_fds w;
  files_socket d w : bound_files (os_socket d w).2 = bound_files w;
  files_close fd w : bound_files (os_close fd w) = bound_files w;
  files_unlink p w : bound_files (os_unlink p w) = (bound_files w ∖ {[cstr p]});
  files_bind fd path w : isAddressAbstract path = false ->
    let '(ok, w') := os_bind fd (SA_UN path) w in
    if ok : bool
    then (cstr path ∉ bound_files w) /\ bound_files w' = ({[cstr path]} ∪ bound_files w)
    else bound_files w' = bound_files w;
  user_socket d w : same_user w (os_socket d w).2;
  user_close fd w : same_user w (os_close fd w);
  user_unlink p w : same_user w (os_unlink p w);
  user_bind fd a w : same_user w (os_bind fd a w).2;
  clock_valid w t : os_clock w = Some t -> 0 <= tv_sec t < 2 ^ 63 /\ 0 <= tv_nsec t < NSEC_PER_SEC
}.

Section Descriptors.
Context {W : Type} `{OL : OsLaws W}.

(** The descriptors that are open are those of the others and the one of the
    socket. *)
Definition fd_set (b : SockBase) : gset Z := if 0 <=? m_fd b then {[m_fd b]} else ∅.
Definition owns (others : gset Z) (b : SockBase) (w : W) : Prop :=
  open_fds w = fd_set b ∪ others /\ fd_set b ## others /\ (m_isInit b = true -> 0 <= m_fd b).

Lemma owns_same others b b' w w' : owns others b w -> m_fd b' = m_fd b ->
  (m_isInit b' = true -> m_isInit b = true \/ 0 <= m_fd b) -> open_fds w' = open_fds w -> owns others b' w'.
Proof.
  intros (E & D & I) F J O. unfold owns, fd_set in *. rewrite F, O. split; [done|]. split; [done|].
  intros K. destruct (J K); auto.
Qed.
Lemma closeBase_owns others child b w : (forall b w, open_fds (child b w) = open_fds w) ->
  owns others b w -> let '(b', w') := closeBase child b w in
  owns others b' w' /\ m_fd b' < 0 /\ m_isInit b' = false /\ open_fds w' = others.
Proof.
  intros C (E & D & I). unfold closeBase, owns, fd_set in *. destruct (Z.leb_spec 0 (m_fd b)) as [L|L]; cbn.
  - rewrite C, fds_close, E, set_closed, (left_id_L ∅ (∪)) by done. by repeat split.
  - rewrite (proj2 (Z.leb_gt _ _) L), C, E, (left_id_L ∅ (∪)). by repeat split.
Qed.
Lemma socket_owns others d b w : owns others b w -> m_fd b < 0 -> m_isInit b = false ->
  let '(fd, w') := os_socket d w in owns others (mk_SockBase fd false) w'.
Proof.
  intros (E & D & I) L N. pose proof (fds_socket d w) as F. destruct (os_socket d w) as [fd w'].
  unfold owns, fd_set in *. cbn. rewrite (proj2 (Z.leb_gt _ _) L), (left_id_L ∅ (∪)) in E.
  destruct (Z.ltb_spec fd 0) as [L'|L'].
  - rewrite (proj2 (Z.leb_gt _ _) L'), F, E, (left_id_L ∅ (∪)). by repeat split.
  - rewrite (proj2 (Z.leb_le _ _) L'). destruct F as [F1 F2]. rewrite E in F1. rewrite F2, E.
    split; [done|]. split; [by apply set_fresh|done].
Qed.

(** The steps of the methods [init], for the base [f] of a socket. *)
Section Init.
Context {S : Type} (f : S -> SockBase) (others : gset Z).
Definition own (st : S * W) : Prop := owns others (f st.1) st.2.
Definition shut (st : S * W) : Prop := own st /\ m_fd (f st.1) < 0 /\ m_isInit (f st.1) = false.
Definition fresh (st : S * W) : Prop := own st /\ 0 <= m_fd (f st.1) /\ m_isInit (f st.1) = false.

Lemma fresh_own st : fresh st -> own st.
Proof. by intros [? _]. Qed.
(** A call that leaves the base and the descriptors. *)
Lemma fresh_call (m : act (S * W)) :
  (forall st, f (m st).2.1 = f st.1 /\ open_fds (m st).2.2 = open_fds st.2) -> hoare fresh m fresh own.
Proof.
  intros M st (O & F & I). destruct (M st) as [E1 E2]. destruct (m st) as [r [s w]]. cbn [fst snd] in *.
  assert (fresh (s, w)) as K by (unfold fresh, own, owns, fd_set in *; cbn [fst snd]; by rewrite E1, E2).
  destruct r; [done|by apply fresh_own].
Qed.
Lemma fresh_socket (d : S -> sock_domain) (g : SockBase -> S -> S) (m : act (S * W)) :
  (forall b s, f (g b s) = b) ->
  (forall s w, m (s, w) = let '(fd, w) := os_socket (d s) w in
                 (negb (fd <? 0), (g (mk_SockBase fd (m_isInit (f s))) s, w))) ->
  hoare shut m fresh own.
Proof.
  intros G M [s w] (O & F & I). rewrite M. cbn [fst snd] in *.
  pose proof (socket_owns others (d s) (f s) w O F I) as K. destruct (os_socket (d s) w) as [fd w'].
  rewrite I. unfold fresh, own. cbn [fst snd]. destruct (Z.ltb_spec fd 0); cbn [negb fst snd]; rewrite G; [done|].
  by split.
Qed.
End Init.

(** ** No descriptor is lost *)

Definition SockUnix_own := own (S := SockUnix) u_base.
Definition SockIp_own := own (S := SockIp) p_base.
Definition SockRaw_own := own (S := SockRaw) r_base.

Lemma unix_child me b w : open_fds (SockUnix_closeChild me b w) = open_fds w.
Proof. unfold SockUnix_closeChild. destruct (_ && _); [apply fds_unlink|done]. Qed.

Lemma SockUnix_init_own others : hoare (SockUnix_own others) SockUnix_init (SockUnix_own others) (SockUnix_own others).
Proof.
  unfold SockUnix_init. do 2 (eapply hoare_andthen; [by apply hoare_require|]).
  eapply (hoare_andthen _ (shut u_base others)).
  { apply hoare_assign. intros [s w] O. unfold SockUnix_close. cbn [fst snd].
    pose proof (closeBase_owns others _ (u_base s) w (unix_child (m_me s)) O) as K.
    destruct (closeBase _ _ _) as [b w']. by destruct K as (K1 & K2 & K3 & _). }
  eapply (hoare_andthen _ (fresh u_base others)); [by apply (fresh_socket u_base others (fun _ => AF_UNIX) set_u_base)|].
  eapply (hoare_andthen _ (fresh u_base others)).
  { apply fresh_call. intros [s w]. unfold SockUnix_bind.
    pose proof (fds_bind (m_fd (u_base s)) (setUnixAddr (m_me s)) w). by destruct (os_bind _ _ _). }
  apply hoare_assign. intros [s w] (O & F & I). by apply (owns_same others (u_base s) _ w); [| |right|].
Qed.

Lemma no_child_fds b w : open_fds (no_child b w) = open_fds w.
Proof. done. Qed.
Lemma ip_opt_fresh others o : hoare (fresh p_base others) (ip_opt o) (fresh p_base others) (SockIp_own others).
Proof.
  apply fresh_call. intros [s w]. unfold ip_opt. pose proof (fds_setsockopt (m_fd (p_base s)) (o s) w).
  by destruct (os_setsockopt _ _ _).
Qed.
Lemma ip_set_fresh others g : (forall s, p_base (g s) = p_base s) ->
  hoare (fresh p_base others) (ip_set g) (fresh p_base others) (SockIp_own others).
Proof. intros G. apply fresh_call. intros [s w]. cbn. by rewrite G. Qed.
Lemma ip_require_fresh others g : hoare (fresh p_base others) (require g) (fresh p_base others) (SockIp_own others).
Proof. apply hoare_require. by intros st [? _]. Qed.
Create HintDb sock.
Hint Resolve hoare_andthen ip_opt_fresh ip_set_fresh ip_require_fresh : sock.
Lemma initIp_fresh others : hoare (fresh p_base others) initIp (fresh p_base others) (SockIp_own others).
Proof.
  assert (hoare (fresh p_base others) SockIp4_initIp (fresh p_base others) (SockIp_own others)) as I4
    by (unfold SockIp4_initIp; eauto 12 with sock).
  assert (hoare (fresh p_base others) SockIp6_initIp (fresh p_base others) (SockIp_own others)) as I6
    by (unfold SockIp6_initIp; eauto 14 with sock).
  intros st Hp. unfold initIp. destruct (m_domain st.1); first [by apply I4|by apply I6].
Qed.

Lemma SockIp_init_own others : hoare (SockIp_own others) SockIp_init (SockIp_own others) (SockIp_own others).
Proof.
  unfold SockIp_init. do 3 (eapply hoare_andthen; [by apply hoare_require|]).
  eapply (hoare_andthen _ (shut p_base others)).
  { apply hoare_assign. intros [s w] O. unfold SockIp_close. cbn [fst snd].
    pose proof (closeBase_owns others _ (p_base s) w no_child_fds O) as K.
    destruct (closeBase _ _ _) as [b w']. by destruct K as (K1 & K2 & K3 & _). }
  eapply (hoare_andthen _ (fresh p_base others)); [by apply (fresh_socket p_base others m_domain set_p_base)|].
  eapply (hoare_andthen _ (fresh p_base others)); [apply ip_opt_fresh|].
  eapply (hoare_andthen _ (fresh p_base others)).
  { apply fresh_call. intros [s w]. unfold ip_bind.
    pose proof (fds_bind (m_fd (p_base s)) (m_addr s) w). by destruct (os_bind _ _ _). }
  eapply (hoare_andthen _ (fresh p_base others)); [apply ip_opt_fresh|].
  eapply (hoare_andthen _ (fresh p_base others)); [by apply ip_set_fresh|].
  eapply (hoare_andthen _ (fresh p_base others)); [apply initIp_fresh|].
  apply hoare_assign. intros [s w] (O & F & I). by apply (owns_same others (p_base s) _ w); [| |right|].
Qed.

Lemma raw_opt_fresh others o : hoare (fresh r_base others) (raw_opt o) (fresh r_base others) (SockRaw_own others).
Proof.
  apply fresh_call. intros [s w]. unfold raw_opt. pose proof (fds_setsockopt (m_fd (r_base s)) (o s) w).
  by destruct (os_setsockopt _ _ _).
Qed.
Lemma raw_set_fresh others g : (forall s, r_base (g s) = r_base s) ->
  hoare (fresh r_base others) (raw_set g) (fresh r_base others) (SockRaw_own others).
Proof. intros G. apply fresh_call. intros [s w]. cbn. by rewrite G. Qed.
Lemma SockRaw_init_own others : hoare (SockRaw_own others) SockRaw_init (SockRaw_own others) (SockRaw_own others).
Proof.
  unfold SockRaw_init. do 4 (eapply hoare_andthen; [by apply hoare_require|]).
  eapply (hoare_andthen _ (shut r_base others)).
  { apply hoare_assign. intros [s w] O. unfold SockRaw_close. cbn [fst snd].
    pose proof (closeBase_owns others _ (r_base s) w no_child_fds O) as K.
    destruct (closeBase _ _ _) as [b w']. by destruct K as (K1 & K2 & K3 & _). }
  eapply (hoare_andthen _ (fresh r_base others));
    [by apply (fresh_socket r_base others (fun _ => AF_PACKET) set_r_base)|].
  do 4 (eapply (hoare_andthen _ (fresh r_base others)); [apply raw_opt_fresh|]).
  eapply (hoare_andthen _ (fresh r_base others)); [by apply raw_set_fresh|].
  eapply (hoare_andthen _ (fresh r_base others)).
  { apply fresh_call. intros [s w]. unfold raw_bind.
    pose proof (fds_bind (m_fd (r_base s)) (r_addr s) w). by destruct (os_bind _ _ _). }
  eapply (hoare_andthen _ (fresh r_base others)); [by apply raw_set_fresh|].
  apply hoare_assign. intros [s w] (O & F & I). by apply (owns_same others (r_base s) _ w); [| |right|].
Qed.

(** ** All uses of a socket *)

Inductive socket := S_unix (s : SockUnix) | S_ip (s : SockIp) | S_raw (s : SockRaw).
Definition base_of (s : socket) : SockBase :=
  match s with S_unix s => u_base s | S_ip s => p_base s | S_raw s => r_base s end.
Definition socket_close (s : socket) (w : W) : socket * W :=
  match s with
  | S_unix s => let '(s, w) := SockUnix_close s w in (S_unix s, w)
  | S_ip s => let '(s, w) := SockIp_close s w in (S_ip s, w)
  | S_raw s => let '(s, w) := SockRaw_close s w in (S_raw s, w)
  end.
Definition socket_init (s : socket) (w : W) : bool * (socket * W) :=
  match s with
  | S_unix s => let '(r, (s, w)) := SockUnix_init (s, w) in (r, (S_unix s, w))
  | S_ip s => let '(r, (s, w)) := SockIp_init (s, w) in (r, (S_ip s, w))
  | S_raw s => let '(r, (s, w)) := SockRaw_init (s, w) in (r, (S_raw s, w))
  end.
(** The methods that only change the object. *)
Inductive setter : socket -> socket -> Prop :=
| set_none s : setter s s
| set_peer str a s : setter (S_unix s) (S_unix (setPeerAddress str a s).2)
| set_self str a s : setter (S_unix s) (S_unix (setSelfAddress str a s).2)
| set_def root use home s (w : W) : setter (S_unix s) (S_unix (setDefSelfAddress root use home s w).2.1)
| set_last from s : setter (S_unix s) (S_unix (set_m_lastFrom from s))
| set_ip_if o s : setter (S_ip s) (S_ip (set_p_if (setIf o (p_if s)).2 s))
| set_ip_using o s : setter (S_ip s) (S_ip (set_p_if (setIfUsing o (p_if s)).2 s))
| set_ttl v s : setter (S_ip s) (S_ip (setUdpTtl v s).2)
| set_scope v s : setter (S_ip s) (S_ip (setScope v s).2)
| set_ttl_cfg cfg sec s r s' : setUdpTtl_cfg cfg sec s = Some (r, s') -> setter (S_ip s) (S_ip s')
| set_scope_cfg cfg sec s r s' : setScope_cfg cfg sec s = Some (r, s') -> setter (S_ip s) (S_ip s')
| set_ip_all o cfg sec s r s' : SockIp_setAll o cfg sec s = Some (r, s') -> setter (S_ip s) (S_ip s')
| set_raw_if o s : setter (S_raw s) (S_raw (set_r_if (setIf o (r_if s)).2 s))
| set_raw_using o s : setter (S_raw s) (S_raw (set_r_if (setIfUsing o (r_if s)).2 s))
| set_mac_str str s : setter (S_raw s) (S_raw (setPtpDstMacStr str s).2)
| set_mac mac s : setter (S_raw s) (S_raw (setPtpDstMac mac s).2)
| set_priority v s : setter (S_raw s) (S_raw (setSocketPriority v s).2)
| set_mac_cfg cfg sec s r s' : setPtpDstMac_cfg cfg sec s = Some (r, s') -> setter (S_raw s) (S_raw s')
| set_priority_cfg cfg sec s r s' : setSocketPriority_cfg cfg sec s = Some (r, s') -> setter (S_raw s) (S_raw s')
| set_raw_all o cfg sec s r s' : SockRaw_setAll o cfg sec s = Some (r, s') -> setter (S_raw s) (S_raw s').
Inductive sock_step : socket * W -> socket * W -> Prop :=
| step_init s w : sock_step (s, w) (socket_init s w).2
| step_close s w : sock_step (s, w) (socket_close s w)
| step_set s s' w : setter s s' -> sock_step (s, w) (s', w)
| step_poll s t w : sock_step (s, w) (s, (poll (base_of s) t w).2)
| step_tpoll s t w r left w' : tpoll (base_of s) t w = Some (r, left, w') -> sock_step (s, w) (s, w')
| step_send_unix s d w : sock_step (S_unix s, w) (S_unix s, (SockUnix_send s d w).2)
| step_sendTo s d a b w : sock_step (S_unix s, w) (S_unix s, (sendTo s d a b w).2)
| step_send_ip s d w : sock_step (S_ip s, w) (S_ip s, (SockIp_send s d w).2)
| step_send_raw s d w : sock_step (S_raw s, w) (S_raw s, (SockRaw_send s d w).2)
| step_rcv_unix s n b w : sock_step (S_unix s, w) (S_unix s, (SockUnix_rcv s n b w).2)
| step_rcvFrom s n b from w : sock_step (S_unix s, w) (S_unix s, (rcvFrom s n b from w).2)
| step_rcv_last s n b w : sock_step (S_unix s, w) (S_unix (rcvFrom_last s n b w).2.1, (rcvFrom_last s n b w).2.2)
| step_rcv_ip s n b w : sock_step (S_ip s, w) (S_ip s, (SockIp_rcv s n b w).2)
| step_rcv_raw s n b w : sock_step (S_raw s, w) (S_raw s, (SockRaw_rcv s n b w).2).
Definition socket_new (s : socket) : Prop :=
  s = S_unix SockUnix_new \/ s = S_ip SockIp4_new \/ s = S_ip SockIp6_new \/
  exists hdr, s = S_raw (SockRaw_new hdr).

Lemma setSelfAddress_base str a s : u_base (setSelfAddress str a s).2 = u_base s.
Proof. unfold setSelfAddress. by repeat case_match. Qed.
Lemma setIf_base o i : i_base (setIf o i).2 = i_base i.
Proof. unfold setIf. by repeat case_match. Qed.
Lemma SockIp_setAll_base o cfg sec s r s' : SockIp_setAll o cfg sec s = Some (r, s') -> p_base s' = p_base s.
Proof.
  unfold SockIp_setAll, SockIp_setAllBase, setUdpTtl_cfg, setScope_cfg. pose proof (setIf_base o (p_if s)) as B.
  destruct (setIf o (p_if s)) as [[] i]; [|intros; by simplify_eq]. cbn in B.
  change (p_base (set_p_if i s)) with (i_base i).
  destruct (m_isInit (i_base i)) eqn:E; cbn [mbind option_bind].
  - destruct (m_domain _); intros; by simplify_eq.
  - destruct (udp_ttl cfg sec); [|done]. cbn [mbind option_bind]. destruct (m_domain _); try (intros; by simplify_eq).
    change (p_base (set_udp_ttl z (set_p_if i s))) with (i_base i). rewrite E.
    destruct (udp6_scope cfg sec); [|done]. cbn. intros; by simplify_eq.
Qed.
Lemma SockRaw_setAll_base o cfg sec s r s' : SockRaw_setAll o cfg sec s = Some (r, s') -> r_base s' = r_base s.
Proof.
  unfold SockRaw_setAll, setPtpDstMac_cfg, setSocketPriority_cfg. pose proof (setIf_base o (r_if s)) as B.
  destruct (setIf o (r_if s)) as [[] i]; [|intros; by simplify_eq]. cbn in B.
  change (r_base (set_r_if i s)) with (i_base i).
  destruct (m_isInit (i_base i)) eqn:E; cbn [mbind option_bind]; [intros; by simplify_eq|].
  destruct (ptp_dst_mac cfg sec) as [mac|]; [|done]. cbn [mbind option_bind].
  change (r_base (set_ptp_dst_mac (octets mac) (set_r_if i s))) with (i_base i). rewrite E.
  destruct (socket_priority cfg sec); [|done]. cbn. intros; by simplify_eq.
Qed.
Lemma cfg_setters_base cfg sec :
  (forall s r s', setUdpTtl_cfg cfg sec s = Some (r, s') -> p_base s' = p_base s /\ m_domain s' = m_domain s) /\
  (forall s r s', setScope_cfg cfg sec s = Some (r, s') -> p_base s' = p_base s /\ m_domain s' = m_domain s) /\
  (forall s r s', setPtpDstMac_cfg cfg sec s = Some (r, s') -> r_base s' = r_base s) /\
  (forall s r s', setSocketPriority_cfg cfg sec s = Some (r, s') -> r_base s' = r_base s).
Proof.
  unfold setUdpTtl_cfg, setScope_cfg, setPtpDstMac_cfg, setSocketPriority_cfg.
  repeat apply conj; intros s r s'; (destruct (m_isInit _); [by intros [= _ <-]|]).
  - destruct (udp_ttl cfg sec); [|done]. by intros [= _ <-].
  - destruct (udp6_scope cfg sec); [|done]. by intros [= _ <-].
  - destruct (ptp_dst_mac cfg sec); [|done]. by intros [= _ <-].
  - destruct (socket_priority cfg sec); [|done]. by intros [= _ <-].
Qed.
Lemma setter_base s s' : setter s s' -> base_of s' = base_of s.
Proof.
  destruct 1; cbn [base_of]; try apply setSelfAddress_base; try apply (setIf_base o);
    try (by eapply SockIp_setAll_base); try (by eapply SockRaw_setAll_base);
    try (match goal with E : ?f ?cfg ?sec _ = Some _ |- _ =>
           destruct (cfg_setters_base cfg sec) as (F1 & F2 & F3 & F4);
           first [by apply F1 in E as []|by apply F2 in E as []|by apply F3 in E|by apply F4 in E] end);
    try done;
    unfold setPeerAddress, setDefSelfAddress, setUdpTtl, setScope, setIfUsing, setPtpDstMacStr,
      setPtpDstMac, setSocketPriority.
  2: { destruct (m_isInit _); [done|]. destruct (default_base _ _ _ _) as [l h].
       pose proof (setSelfAddress_base (l ++ to_string (os_getpid w)) false s) as B.
       by destruct (setSelfAddress _ _ _). }
  all: by repeat case_match.
Qed.

Definition socket_own (others : gset Z) (st : socket * W) : Prop := owns others (base_of st.1) st.2.
Lemma socket_close_own others s w : socket_own others (s, w) ->
  socket_own others (socket_close s w) /\ m_isInit (base_of (socket_close s w).1) = false /\
  open_fds (socket_close s w).2 = others.
Proof.
  intros O. unfold socket_own in *. destruct s as [s|s|s]; cbn [base_of fst snd socket_close] in *;
    unfold SockUnix_close, SockIp_close, SockRaw_close.
  - pose proof (closeBase_owns others _ (u_base s) w (unix_child (m_me s)) O) as K.
    destruct (closeBase _ _ _) as [b w']. by destruct K as (K1 & _ & K2 & K3).
  - pose proof (closeBase_owns others _ (p_base s) w no_child_fds O) as K.
    destruct (closeBase _ _ _) as [b w']. by destruct K as (K1 & _ & K2 & K3).
  - pose proof (closeBase_owns others _ (r_base s) w no_child_fds O) as K.
    destruct (closeBase _ _ _) as [b w']. by destruct K as (K1 & _ & K2 & K3).
Qed.
Lemma socket_init_own others s w : socket_own others (s, w) -> socket_own others (socket_init s w).2.
Proof.
  intros O. unfold socket_own in *. destruct s as [s|s|s]; cbn [base_of fst snd socket_init] in *.
  - pose proof (SockUnix_init_own others (s, w) O) as K. destruct (SockUnix_init _) as [[] [s' w']]; exact K.
  - pose proof (SockIp_init_own others (s, w) O) as K. destruct (SockIp_init _) as [[] [s' w']]; exact K.
  - pose proof (SockRaw_init_own others (s, w) O) as K. destruct (SockRaw_init _) as [[] [s' w']]; exact K.
Qed.

(** Sending, receiving and polling open and close nothing. *)
Lemma sendto_fds fd a d w n : open_fds (let '(cnt, w) := os_sendto fd a d w in (sendReply cnt n, w)).2 = open_fds w.
Proof. pose proof (fds_sendto fd a d w). by destruct (os_sendto _ _ _ _). Qed.
Lemma poll_fds b t w : open_fds (poll b t w).2 = open_fds w.
Proof.
  unfold poll. destruct (negb _); [done|]. pose proof (fds_poll (m_fd b) (poll_timeout t) w).
  by destruct (os_poll _ _ _) as [[? ?] ?].
Qed.
Lemma tpoll_fds b t w r left w' : tpoll b t w = Some (r, left, w') -> open_fds w' = open_fds w.
Proof.
  unfold tpoll. destruct (negb _); [by intros [= _ _ <-]|]. pose proof (poll_fds b t w) as E.
  destruct (poll b t w) as [r1 w1]. destruct (if _ <? _ then _ else _); [|by intros [= _ _ <-]].
  destruct (os_clock w1); [|by intros [= _ _ <-]]. destruct (Timestamp_subt _ _ _); [|done].
  by intros [= _ _ <-].
Qed.
Lemma rcvFrom_fds s n b from w : open_fds (rcvFrom s n b from w).2 = open_fds w.
Proof.
  unfold rcvFrom. destruct (negb _); [done|]. pose proof (fds_recv (m_fd (u_base s)) n b w).
  destruct (os_recv _ _ _ _) as [[[? ?] ?] ?]. destruct (_ <? 0); [done|]. by destruct (_ <? _).
Qed.
Lemma SockUnix_rcv_fds s n b w : open_fds (SockUnix_rcv s n b w).2 = open_fds w.
Proof.
  unfold SockUnix_rcv. destruct (negb _); [done|]. destruct (negb _); [done|].
  pose proof (rcvFrom_fds s n b [] w). destruct (rcvFrom _ _ _ _ _) as [[[? ?] ?] ?].
  by repeat case_match.
Qed.
Lemma recv_fds_ip s n b w : open_fds (SockIp_rcv s n b w).2 = open_fds w.
Proof.
  unfold SockIp_rcv. destruct (negb _); [done|]. pose proof (fds_recv (m_fd (p_base s)) n b w).
  destruct (os_recv _ _ _ _) as [[[? ?] ?] ?]. by repeat case_match.
Qed.
Lemma recv_fds_raw s n b w : open_fds (SockRaw_rcv s n b w).2 = open_fds w.
Proof.
  unfold SockRaw_rcv. destruct (negb _); [done|]. pose proof (fds_recv (m_fd (r_base s)) (n + 14) b w).
  destruct (os_recv _ _ _ _) as [[[? ?] ?] ?]. by repeat case_match.
Qed.
Lemma rcvFrom_last_fds s n b w :
  base_of (S_unix (rcvFrom_last s n b w).2.1) = u_base s /\ open_fds (rcvFrom_last s n b w).2.2 = open_fds w.
Proof.
  unfold rcvFrom_last. pose proof (rcvFrom_fds s n b (m_lastFrom s) w).
  by destruct (rcvFrom _ _ _ _ _) as [[[? ?] ?] ?].
Qed.
Lemma send_fds s d w : open_fds (SockUnix_send s d w).2 = open_fds w.
Proof. unfold SockUnix_send, sendAny. repeat (destruct (negb _); [done|]). apply sendto_fds. Qed.
Lemma sendTo_fds s d a b w : open_fds (sendTo s d a b w).2 = open_fds w.
Proof. unfold sendTo, sendAny. repeat (destruct (negb _); [done|]). apply sendto_fds. Qed.
Lemma send_fds_ip s d w : open_fds (SockIp_send s d w).2 = open_fds w.
Proof. unfold SockIp_send. destruct (negb _); [done|]. apply sendto_fds. Qed.
Lemma send_fds_raw s d w : open_fds (SockRaw_send s d w).2 = open_fds w.
Proof.
  unfold SockRaw_send. destruct (negb _); [done|].
  pose proof (fds_sendto (m_fd (r_base s)) (r_addr s) (m_hdr s ++ d) w). by destruct (os_sendto _ _ _ _).
Qed.
Hint Resolve poll_fds rcvFrom_fds SockUnix_rcv_fds recv_fds_ip recv_fds_raw send_fds sendTo_fds send_fds_ip send_fds_raw : sock.
Lemma step_fds s w s' w' : sock_step (s, w) (s', w') ->
  (base_of s' = base_of s /\ open_fds w' = open_fds w) \/
  (s', w') = (socket_init s w).2 \/ (s', w') = socket_close s w.
Proof.
  inversion 1; subst; eauto using tpoll_fds with sock; left.
  - split; [by apply setter_base|done].
  - apply rcvFrom_last_fds.
Qed.
Lemma sock_step_own others st st' : socket_own others st -> sock_step st st' -> socket_own others st'.
Proof.
  destruct st as [s w], st' as [s' w']. intros O St. destruct (step_fds _ _ _ _ St) as [[B F]|[E|E]].
  - unfold socket_own in *. cbn [fst snd] in *. eapply (owns_same others (base_of s)); [done|by rewrite B| |done].
    rewrite B. by left.
  - rewrite E. by apply socket_init_own.
  - rewrite E. by apply socket_close_own.
Qed.

Lemma sock_rtc_own others st st' : socket_own others st -> rtc sock_step st st' -> socket_own others st'.
Proof. intros O R. induction R as [|x y z St _ IH]; [done|]. apply IH. by eapply sock_step_own. Qed.

Lemma destroy_own others s w : socket_own others (s, w) -> open_fds (SockBase_destroy (base_of s) w) = others.
Proof.
  intros O. pose proof (closeBase_owns others no_child (base_of s) w no_child_fds O) as C. unfold SockBase_destroy.
  destruct (closeBase no_child (base_of s) w) as [b w']. apply C.
Qed.
Lemma socket_new_own s w : socket_new s -> socket_own (open_fds w) (s, w).
Proof.
  intros N. assert (base_of s = SockBase_new) as B by (destruct N as [->|[->|[->|[hdr ->]]]]; done).
  unfold socket_own, owns, fd_set. cbn [fst snd]. rewrite B. cbn. rewrite (left_id_L ∅ (∪)).
  split; [done|]. split; [apply disjoint_empty_l|done].
Qed.

(** C29: Whatever methods a program calls on a socket and whatever the system
    returns, the open descriptors are those of the rest of the program and the one
    that the socket keeps, which is open while the socket is initialised; closing
    the socket, also after an initialisation that failed half way, leaves exactly
    those of the rest of the program. *)
Theorem socket_no_leak s0 w0 s w :
  socket_new s0 -> rtc sock_step (s0, w0) (s, w) ->
  open_fds w = fd_set (base_of s) ∪ open_fds w0 /\
  (m_isInit (base_of s) = true -> m_fd (base_of s) ∈ open_fds w) /\
  m_isInit (base_of (socket_close s w).1) = false /\ open_fds (socket_close s w).2 = open_fds w0.
Proof.
  intros N R. pose proof (socket_new_own s0 w0 N) as O.
  assert (socket_own (open_fds w0) (s, w)) as (E & D & I).
  { by eapply sock_rtc_own. }
  cbn [fst snd] in E, D, I.
  destruct (socket_close_own (open_fds w0) s w) as (_ & C1 & C2); [done|].
  split; [done|]. split; [|done].
  intros K. rewrite E. unfold fd_set. rewrite (proj2 (Z.leb_le _ _) (I K)). apply elem_of_union_l. by apply elem_of_singleton.
Qed.
End Descriptors.
