(* ===== verification/SockAddr.v ===== *)
(** * SockAddr.v: addresses, frames and time outs of the sockets

    The file of a unix socket and its default address, which senders a unix
    socket takes messages from, the groups of the UDP sockets, the frames of the
    raw sockets and the time that [tpoll] leaves. *)

From S2P Require Import Prelude CStr Types Codec Bin Text Config Sock SockFacts.

#[local] Open Scope list_scope.
#[local] Open Scope sock_scope.

(** ** Sequences that succeed *)

Lemma andthen_true {S} (m k : act S) st st' : (m ;? k) st = (true, st') ->
  exists st1, m st = (true, st1) /\ k st1 = (true, st').
Proof. unfold andthen. destruct (m st) as [[] st1]; [eauto|done]. Qed.
Lemma require_true {S} (f : S -> bool) st st' : require f st = (true, st') -> f st = true /\ st' = st.
Proof. unfold require. by intros [= ? ?]. Qed.
Lemma assign_true {S} (f : S -> S) st st' : assign_to f st = (true, st') -> f st = st'.
Proof. by intros [= ?]. Qed.
Ltac run_act H :=
  lazymatch type of H with
  | (_ ;? _) _ = (true, _) =>
      let st := fresh "st" in let H1 := fresh "R" in
      apply andthen_true in H as (st & H1 & H); run_act H1; run_act H
  | require _ _ = (true, _) => apply require_true in H as [H ?]; subst
  | assign_to _ _ = (true, _) => apply assign_true in H
  | _ => idtac
  end.

(** ** Addresses *)

Lemma testUnix_spec str n : testUnix str n = true <-> 0 < len str <= unix_path_max - n.
Proof. unfold testUnix. rewrite negb_true_iff, orb_false_iff, Z.eqb_neq, Z.ltb_ge. pose proof (len_nonneg str). lia. Qed.
Lemma cstr_app_nul s r : cstr (s ++ x00 :: r) = cstr s.
Proof. induction s as [|c s IH]; cbn; [done|]. by rewrite IH. Qed.
Lemma cstr_length s : (length (cstr s) <= length s)%nat.
Proof. induction s as [|c s IH]; cbn; [done|]. case_bool_decide; cbn; lia. Qed.
Lemma cstr_no_nul_inv s : x00 ∉ cstr s.
Proof.
  induction s as [|c s IH]; cbn; [apply not_elem_of_nil|]. case_bool_decide; [apply not_elem_of_nil|].
  apply not_elem_of_cons. by split; [congruence|].
Qed.
(** The path of an address is the string, when it fits. *)
Lemma setUnixAddr_path str : testUnix str 0 = true ->
  exists pad, setUnixAddr str = SA_UN (str ++ x00 :: pad) /\ length (str ++ x00 :: pad) = 108%nat /\
    take 107 (str ++ x00 :: pad) = str ++ take (107 - length str) (x00 :: pad) /\
    cstr (take 107 (str ++ x00 :: pad)) = cstr str.
Proof.
  intros [_ L]%testUnix_spec. unfold unix_path_max, len in L. assert (length str <= 107)%nat as L' by lia.
  exists (repeat x00 (107 - length str)). unfold setUnixAddr. change (Z.to_nat unix_path_max) with 107%nat.
  rewrite take_ge by done. replace (108 - length str)%nat with (S (107 - length str)) by lia.
  cbn [repeat]. split; [done|]. split; [rewrite length_app; cbn; rewrite repeat_length; lia|].
  rewrite take_app, take_ge by done. split; [done|].
  destruct (107 - length str)%nat as [|n]; [by rewrite take_0, app_nil_r|]. cbn [repeat take]. apply cstr_app_nul.
Qed.

Lemma abstract_path str pad : testUnix str 0 = true ->
  isAddressAbstract (str ++ x00 :: pad) = isAddressAbstract str.
Proof. intros [L _]%testUnix_spec. by destruct str. Qed.

(** ** The file of a unix socket *)

Lemma set_removed {A} `{Countable A} (x : A) (X : gset A) : (x ∉ X) -> ({[x]} ∪ X) ∖ {[x]} = X.
Proof.
  intros D. rewrite difference_union_distr_l_L, difference_diag_L, (left_id_L ∅ (∪)).
  apply difference_disjoint_L. symmetry. by apply disjoint_singleton_l.
Qed.

Section Unix.
Context {W : Type} `{OL : OsLaws W}.

Lemma same_user_trans (w1 w2 w3 : W) : same_user w1 w2 -> same_user w2 w3 -> same_user w1 w3.
Proof.
  intros (A1 & A2 & A3 & A4) (B1 & B2 & B3 & B4). split; [congruence|]. split; [congruence|].
  split; [congruence|]. intros d. by rewrite B4.
Qed.
(** What [init] does when it is true: nothing to the files up to [bind]. *)
Lemma SockUnix_init_true s w s' w' : SockUnix_init (s, w) = (true, (s', w')) ->
  m_isInit (u_base s) = false /\ testUnix (m_me s) 0 = true /\
  exists fd w1, bound_files w1 = bound_files w /\ same_user w w1 /\
    os_bind fd (setUnixAddr (m_me s)) w1 = (true, w') /\ s' = set_u_base (mk_SockBase fd true) s.
Proof.
  unfold SockUnix_init. intros H'. run_act H'. cbn [fst snd] in *. apply negb_true_iff in R.
  split; [done|]. split; [done|].
  unfold SockUnix_close, closeBase, SockUnix_closeChild in R1. rewrite R in R1.
  set (w1 := if 0 <=? m_fd (u_base s) then os_close (m_fd (u_base s)) w else w) in R1.
  assert (bound_files w1 = bound_files w /\ same_user w w1) as [F1 U1].
  { unfold w1. destruct (0 <=? _); [split; [apply files_close|apply user_close]|]. by repeat split. }
  assert (exists b, st = (set_u_base b s, w1)) as [b ->].
  { destruct (0 <=? m_fd (u_base s)); cbn in R1; rewrite ?R in R1; cbn in R1; eauto. }
  cbn in R2. pose proof (files_socket AF_UNIX w1) as F2. pose proof (user_socket AF_UNIX w1) as U2.
  destruct (os_socket AF_UNIX w1) as [fd w2]. cbn [fst snd] in *. injection R2 as _ <-.
  cbn in R3. destruct (os_bind fd (setUnixAddr (m_me s)) w2) as [ok w3] eqn:B. injection R3 as -> <-.
  cbn in H'. injection H' as <- <-. exists fd, w2. split; [congruence|].
  split; [by eapply same_user_trans|]. done.
Qed.
(** A bind to the file of a path that fits. *)
Lemma bind_file fd str w w' : testUnix str 0 = true -> isAddressAbstract str = false ->
  os_bind fd (setUnixAddr str) w = (true, w') ->
  (cstr str ∉ bound_files w) /\ bound_files w' = {[cstr str]} ∪ bound_files w.
Proof.
  intros T A B. destruct (setUnixAddr_path str T) as (pad & E & L & _ & _). rewrite E in B.
  pose proof (files_bind fd (str ++ x00 :: pad) w) as F. rewrite abstract_path, A, B, cstr_app_nul in F by done.
  by apply F.
Qed.

(** [init] of a unix socket with a path of a file creates that file, which was
    not there.  [close] removes it and leaves the files as they were before; the
    destructor of an object that was not closed leaves it, and then no socket
    can be initialised on that path. *)
Theorem unix_file_life s w s' w' : isSelfAddressAbstract s = false ->
  SockUnix_init (s, w) = (true, (s', w')) ->
  (cstr (m_me s) ∉ bound_files w) /\ bound_files w' = {[cstr (m_me s)]} ∪ bound_files w /\
  bound_files (SockUnix_close s' w').2 = bound_files w /\
  bound_files (SockBase_destroy (u_base s') w') = {[cstr (m_me s)]} ∪ bound_files w /\
  (forall s2, isSelfAddressAbstract s2 = false -> cstr (m_me s2) = cstr (m_me s) ->
     (SockUnix_init (s2, SockBase_destroy (u_base s') w')).1 = false).
Proof.
  intros A I. destruct (SockUnix_init_true _ _ _ _ I) as (_ & T & fd & w1 & F1 & _ & B & ->).
  destruct (bind_file _ _ _ _ T A B) as [N F]. rewrite F1 in N, F. split; [done|]. split; [done|].
  assert (bound_files (SockBase_destroy (mk_SockBase fd true) w') = {[cstr (m_me s)]} ∪ bound_files w) as D.
  { unfold SockBase_destroy, closeBase. cbn. unfold no_child. destruct (0 <=? fd); cbn; by rewrite ?files_close. }
  split; [|split; [done|]].
  - unfold SockUnix_close, closeBase, SockUnix_closeChild. cbn.
    change (isAddressAbstract (m_me s)) with (isSelfAddressAbstract s). rewrite A.
    destruct (0 <=? fd); cbn; rewrite files_unlink, ?files_close, F; by rewrite set_removed.
  - intros s2 A2 E2. clear I. destruct (SockUnix_init _) as [[] [s3 w3]] eqn:I2; [|done].
    destruct (SockUnix_init_true _ _ _ _ I2) as (_ & T2 & fd2 & w4 & F2 & _ & B2 & _).
    destruct (bind_file _ _ _ _ T2 A2 B2) as [N2 _]. cbn [u_base set_u_base] in F2. rewrite F2, E2, D in N2.
    exfalso. apply N2, elem_of_union. left. by apply elem_of_singleton.
Qed.

(** ** Senders *)

(** A unix socket that receives a message from another one, bound to its own
    address, takes it when the address of the sender is that of the peer; but an
    address of the abstract name space is read as a C string, so a socket with
    an abstract peer takes no message at all. *)
Theorem unix_rcv_peer s s2 n b w cnt d path w1 :
  m_isInit (u_base s) = true -> testUnix (m_peer s) 0 = true -> testUnix (m_me s2) 0 = true ->
  setUnixAddr (m_me s2) = SA_UN path -> os_recv (m_fd (u_base s)) n b w = ((cnt, d, path), w1) ->
  SockUnix_rcv s n b w =
    ((if (0 <? cnt) && (cnt <=? n) && bool_decide (cstr (m_me s2) = m_peer s) then cnt else -1, d), w1) /\
  (isPeerAddressAbstract s = true -> (SockUnix_rcv s n b w).1.1 = -1).
Proof.
  intros I T T2 E R. unfold SockUnix_rcv, rcvFrom. rewrite I, T, R. cbn [negb].
  destruct (setUnixAddr_path _ T2) as (pad & E' & _ & _ & C). rewrite E in E'. injection E' as ->.
  change (Z.to_nat unix_path_max) with 107%nat. rewrite C.
  assert (isPeerAddressAbstract s = true -> cstr (m_me s2) <> m_peer s) as Ab.
  { intros A Ec. unfold isPeerAddressAbstract in A. rewrite <- Ec in A. pose proof (cstr_no_nul_inv (m_me s2)) as N.
    destruct (cstr (m_me s2)) as [|c r]; [done|]. cbn in A. apply bool_decide_eq_true in A. subst.
    apply N. apply list_elem_of_here. }
  destruct (Z.ltb_spec cnt 0) as [L|L]; cbn [fst].
  { change (-1 <? 0) with true. cbn. split; [|done]. by rewrite (proj2 (Z.ltb_ge 0 cnt)) by lia. }
  destruct (Z.ltb_spec n cnt) as [L2|L2].
  { change (-1 <? 0) with true. cbn. split; [|done]. rewrite (proj2 (Z.leb_gt cnt n)), andb_false_r by lia. done. }
  rewrite (proj2 (Z.ltb_ge cnt 0)), (proj2 (Z.leb_le cnt n)), andb_true_r by lia.
  case_bool_decide as B; cbn [negb].
  - rewrite andb_true_r. destruct (Z.eqb_spec cnt 0) as [->|Z0]; [by split|].
    rewrite (proj2 (Z.ltb_lt 0 cnt)) by lia. split; [done|]. intros A. by destruct (Ab A).
  - by rewrite andb_false_r.
Qed.

(** ** Default addresses *)

Lemma default_base_user root1 root2 useDef home w w' : os_getuid w <> 0 -> same_user w w' ->
  default_base root2 useDef (default_base root1 useDef home w).2 w' = default_base root1 useDef home w.
Proof.
  intros U (E1 & E2 & E3 & E4). unfold default_base, getHomeDir. rewrite E1, E3, E4.
  apply Z.eqb_neq in U. rewrite U. cbn [negb].
  destruct useDef as [|c u]; [destruct (os_dir _ w)|case_bool_decide]; cbn; by destruct (os_home w).
Qed.
Lemma setSelfAddress_true str s s' : setSelfAddress str false s = (true, s') -> s' = set_m_me str s.
Proof. unfold setSelfAddress. destruct (m_isInit _); [done|]. destruct (negb _); [done|]. by intros [= <-]. Qed.
Lemma setDefSelfAddress_true root useDef home s w s' home' :
  setDefSelfAddress root useDef home s w = (true, (s', home')) ->
  m_me s' = (default_base root useDef home w).1 ++ to_string (os_getpid w) /\
  home' = (default_base root useDef home w).2.
Proof.
  unfold setDefSelfAddress. destruct (m_isInit _); [done|]. destruct (default_base _ _ _ _) as [base h].
  destruct (setSelfAddress _ _ _) as [[] t] eqn:E; [|done]. intros [= <- <-].
  by rewrite (setSelfAddress_true _ _ _ E).
Qed.

(** The default address of a user that is not root does not depend on the
    base that the caller gives: the second socket of a process, whatever its
    base, gets the address of the first and can not be initialised beside it. *)
Theorem second_self_refused root1 root2 useDef home s1 s1' home1 s1'' s2 s2' home2 w w1 :
  os_getuid w <> 0 -> setDefSelfAddress root1 useDef home s1 w = (true, (s1', home1)) ->
  isSelfAddressAbstract s1' = false -> SockUnix_init (s1', w) = (true, (s1'', w1)) ->
  setDefSelfAddress root2 useDef home1 s2 w1 = (true, (s2', home2)) ->
  m_me s2' = m_me s1' /\ (SockUnix_init (s2', w1)).1 = false.
Proof.
  intros U D1 A I D2. destruct (SockUnix_init_true _ _ _ _ I) as (_ & T & fd & w0 & F0 & U0 & B & _).
  assert (same_user w w1) as U1.
  { pose proof (user_bind fd (setUnixAddr (m_me s1')) w0) as K. rewrite B in K. by eapply same_user_trans. }
  destruct (bind_file _ _ _ _ T A B) as [_ F].
  apply setDefSelfAddress_true in D1 as [E1 ->], D2 as [E2 _].
  rewrite (default_base_user root1 root2 useDef home w w1 U U1) in E2.
  rewrite (proj1 (proj2 U1)), <- E1 in E2. split; [done|]. clear I.
  destruct (SockUnix_init _) as [[] [s3 w3]] eqn:I2; [|done].
  destruct (SockUnix_init_true _ _ _ _ I2) as (_ & T2 & fd2 & w4 & F2 & _ & B2 & _).
  unfold isSelfAddressAbstract in A. rewrite E2 in T2, B2. destruct (bind_file _ _ _ _ T2 A B2) as [N2 _].
  rewrite F2, F in N2. exfalso. apply N2, elem_of_union. left. by apply elem_of_singleton.
Qed.
End Unix.

(** ** UDP groups *)

Section Nets.
Context {W : Type} `{Os W}.

Lemma ip_opt_true o s w s' w' : ip_opt o (s, w) = (true, (s', w')) -> s' = s.
Proof. unfold ip_opt. destruct (os_setsockopt _ _ _). by intros [= _ <- _]. Qed.
Lemma ip_bind_true s w s' w' : ip_bind (s, w) = (true, (s', w')) -> s' = s.
Proof. unfold ip_bind. destruct (os_bind _ _ _). by intros [= _ <- _]. Qed.
Lemma ip_set_true f s (w : W) s' w' : ip_set f (s, w) = (true, (s', w')) -> s' = f s.
Proof. by intros [= <- _]. Qed.
Ltac ip_steps :=
  repeat match goal with
  | st : _ * _ |- _ => destruct st
  | E : ip_opt _ _ = _ |- _ => apply ip_opt_true in E; subst
  | E : ip_bind _ = _ |- _ => apply ip_bind_true in E; subst
  | E : ip_set _ _ = _ |- _ => apply ip_set_true in E; subst
  end.

(** The address of the group that a socket sends to. *)
Definition group_addr (s : SockIp) : sockaddr :=
  match m_addr s with
  | SA_IN _ p => SA_IN ipv4_udp_mc p
  | SA_IN6 _ p id =>
      SA_IN6 (xff :: z2b (m_udp6_scope s) :: repeat x00 12 ++ [x01; x81]) p
        (if m_udp6_scope s =? 2 then m_ifIndex (p_if s) else id)
  | a => a
  end.
Definition ip_kind (s : SockIp) : bool :=
  match m_domain s, m_addr s with AF_INET6, SA_IN6 _ _ _ => true | AF_INET, SA_IN _ _ => true | _, _ => false end.
Definition ip_same (s s' : SockIp) : Prop :=
  m_domain s' = m_domain s /\ m_addr s' = m_addr s /\ m_udp6_scope s' = m_udp6_scope s /\
  m_udp_ttl s' = m_udp_ttl s /\ m_ifIndex (p_if s') = m_ifIndex (p_if s).
Lemma initIp_true s w s' w' : m_mcast s = mcast_str (m_domain s) -> ip_kind s = true ->
  initIp (s, w) = (true, (s', w')) ->
  m_addr s' = group_addr s /\ p_base s' = p_base s /\ (m_domain s = AF_INET6 -> 0 <= m_udp6_scope s).
Proof.
  unfold initIp, ip_kind, group_addr. cbn [fst]. destruct (m_domain s) eqn:D; [done| | |done];
    destruct (m_addr s) eqn:A; try done; intros M _ I.
  - unfold SockIp4_initIp in I. run_act I. ip_steps. cbn. by rewrite A, M.
  - unfold SockIp6_initIp in I. run_act I. ip_steps. cbn [fst] in *. apply negb_true_iff, Z.ltb_ge in R.
    cbn. rewrite A, M. by cbn.
Qed.
Lemma SockIp_init_true s w s' w' : ip_kind s = true -> SockIp_init (s, w) = (true, (s', w')) ->
  m_isInit (p_base s') = true /\ m_addr s' = group_addr s /\ 0 <= m_udp_ttl s /\
  (m_domain s = AF_INET6 -> 0 <= m_udp6_scope s).
Proof.
  intros K I. unfold SockIp_init in I. run_act I. cbn [fst snd] in *. apply negb_true_iff, Z.ltb_ge in R1.
  assert (exists b w1, st = (set_p_base b s, w1)) as (b & w1 & ->).
  { unfold SockIp_close in R2. destruct (closeBase _ _ _) as [b w1]. eauto. }
  unfold ip_socket in R3. destruct (os_socket _ _) as [fd w2]. injection R3 as _ <-. ip_steps.
  apply initIp_true in R8 as (E1 & E2 & E3); [|done|done]. by repeat split.
Qed.

(** ** A configuration for a UDP socket *)

(** A UDP socket set from a configuration and an interface: no exception of a
    missing value, whatever files the configuration has read; when it is
    initialised it sends to the PTP group of its family, port 320, with the
    scope that the configuration gives in the second octet of the address, and
    the interface as the scope id of link local addresses. *)
Theorem udp_setAllInit_group o cfg section s0 w :
  cfg_reach cfg -> if_isInit o = true -> s0 = SockIp4_new \/ s0 = SockIp6_new ->
  exists r s' w' scope, SockIp_setAllInit o cfg section s0 w = Some (r, (s', w')) /\
    udp6_scope cfg section = Some scope /\ 0 <= scope <= 15 /\
    (r = true -> m_isInit (p_base s') = true /\
       m_addr s' = match m_domain s0 with
                   | AF_INET6 => SA_IN6 (xff :: z2b scope :: repeat x00 12 ++ [x01; x81]) 320
                                   (if scope =? 2 then if_ifIndex o else 0)
                   | _ => SA_IN [xe0; x00; x01; x81] 320
                   end).
Proof.
  intros R I N. apply cfg_reach_inv in R.
  destruct (get_func_ok cfg udp_ttl_val section R) as (ttl & T & _ & _); [vm_compute; lia|done|].
  destruct (get_func_ok cfg udp6_scope_val section R) as (scope & C & B & _); [vm_compute; lia|done|].
  assert (0 <= scope <= 15) as Bs. { destruct B as (r & Er & Br). injection Er as <-. exact Br. }
  change (udp_ttl cfg section = Some ttl) in T. change (udp6_scope cfg section = Some scope) in C.
  unfold SockIp_setAllInit, SockIp_setAll, setIf, SockIp_setAllBase, setUdpTtl_cfg, setScope_cfg.
  destruct N as [->| ->]; cbn; rewrite I; cbn; rewrite T; cbn; rewrite C; cbn.
  all: destruct (SockIp_init _) as [r [s' w']] eqn:E; exists r, s', w', scope;
    split; [done|]; split; [done|]; split; [done|]; intros ->.
  all: apply SockIp_init_true in E as (E1 & E2 & _); [|done].
  all: by split; [|rewrite E2].
Qed.

(** ** Frames of raw sockets *)

Lemma raw_opt_true o s w s' w' : raw_opt o (s, w) = (true, (s', w')) -> s' = s.
Proof. unfold raw_opt. destruct (os_setsockopt _ _ _). by intros [= _ <- _]. Qed.
Lemma raw_bind_true s w s' w' : raw_bind (s, w) = (true, (s', w')) -> s' = s.
Proof. unfold raw_bind. destruct (os_bind _ _ _). by intros [= _ <- _]. Qed.
Lemma raw_set_true f s (w : W) s' w' : raw_set f (s, w) = (true, (s', w')) -> s' = f s.
Proof. by intros [= <- _]. Qed.
Ltac raw_steps :=
  repeat match goal with
  | st : _ * _ |- _ => destruct st
  | E : raw_opt _ _ = _ |- _ => apply raw_opt_true in E; subst
  | E : raw_bind _ = _ |- _ => apply raw_bind_true in E; subst
  | E : raw_set _ _ = _ |- _ => apply raw_set_true in E; subst
  end.
Lemma SockRaw_init_true s w s' w' : SockRaw_init (s, w) = (true, (s', w')) ->
  m_isInit (r_base s') = true /\ m_hdr s' = raw_hdr s /\ 0 <= m_socket_priority s.
Proof.
  intros I. unfold SockRaw_init in I. run_act I. cbn [fst snd] in *. apply negb_true_iff, Z.ltb_ge in R2.
  assert (exists b w1, st = (set_r_base b s, w1)) as (b & w1 & ->).
  { unfold SockRaw_close in R3. destruct (closeBase _ _ _) as [b w1]. eauto. }
  unfold raw_socket in R4. destruct (os_socket _ _) as [fd w2]. injection R4 as _ <-. raw_steps.
  by repeat split.
Qed.
Lemma raw_hdr_frame s : length (m_hdr s) = 14%nat -> length (m_mac (r_if s)) = 6%nat ->
  (6 <= length (m_ptp_dst_mac s) <= 12)%nat ->
  raw_hdr s = take 6 (m_ptp_dst_mac s) ++ m_mac (r_if s) ++ [x88; xf7].
Proof.
  intros H1 H2 H3. unfold raw_hdr. destruct (m_hdr s) as [|h0 h]; [done|].
  do 13 (destruct h as [|? h]; [done|]). destruct h; [|done].
  destruct (m_mac (r_if s)) as [|a0 a]; [done|]. do 5 (destruct a as [|? a]; [done|]). destruct a; [|done].
  destruct (m_ptp_dst_mac s) as [|d0 d]; cbn in H3; [lia|].
  do 5 (destruct d as [|? d]; cbn in H3; [lia|]).
  do 7 (destruct d as [|? d]; [done|]). cbn in H3. lia.
Qed.

(** A raw socket sends its message in an Ethernet frame with the first 6
    octets of the destination, the address of the interface and the type of PTP;
    a socket that receives that frame gives the message back. *)
Theorem raw_frame s w s' w' msg :
  SockRaw_init (s, w) = (true, (s', w')) -> length (m_hdr s) = 14%nat ->
  length (m_mac (r_if s)) = 6%nat -> (6 <= length (m_ptp_dst_mac s) <= 12)%nat ->
  exists frame, frame = take 6 (m_ptp_dst_mac s) ++ m_mac (r_if s) ++ [x88; xf7] ++ msg /\
    (forall w1, SockRaw_send s' msg w1 =
       let '(cnt, w2) := os_sendto (m_fd (r_base s')) (r_addr s') frame w1 in (cnt =? len frame, w2)) /\
    (forall t n b w1 path w2, m_isInit (r_base t) = true -> len msg <= n ->
       os_recv (m_fd (r_base t)) (n + 14) b w1 = ((len frame, frame, path), w2) ->
       SockRaw_rcv t n b w1 = ((len msg, msg), w2)).
Proof.
  intros I H1 H2 H3. destruct (SockRaw_init_true _ _ _ _ I) as (E1 & E2 & _). eexists. split; [done|].
  set (hdr := take 6 (m_ptp_dst_mac s) ++ m_mac (r_if s) ++ [x88; xf7]).
  assert (len hdr = 14) as Lh by (unfold hdr, len; rewrite !length_app, length_take, H2; cbn [length]; lia).
  assert (take 6 (m_ptp_dst_mac s) ++ m_mac (r_if s) ++ [x88; xf7] ++ msg = hdr ++ msg) as ->
    by (unfold hdr; by rewrite <- !app_assoc).
  assert (len (hdr ++ msg) = len msg + 14) as Lf by (rewrite len_app; lia). pose proof (len_nonneg msg).
  split.
  - intros w1. unfold SockRaw_send. rewrite E1, E2, raw_hdr_frame, Lf by done. cbn [negb]. fold hdr.
    destruct (os_sendto _ _ _ _) as [cnt w2]. f_equal. unfold sendReply.
    destruct (Z.eqb_spec cnt (len msg + 14)) as [->|]; [|by rewrite andb_false_r].
    by rewrite (proj2 (Z.ltb_ge _ _)) by lia.
  - intros t n b w1 path w2 It Ln R. unfold SockRaw_rcv. rewrite It, R, Lf. cbn [negb].
    rewrite !(proj2 (Z.ltb_ge _ _)) by lia. f_equal. f_equal; [lia|].
    apply drop_app_length'. unfold len in Lh. lia.
Qed.

(** ** Time outs *)

Definition clock_ok (t : timespec) : Prop := 0 <= tv_sec t < 2 ^ 63 /\ 0 <= tv_nsec t < NSEC_PER_SEC.
Definition time_of (t : timespec) : Z := tv_sec t * NSEC_PER_SEC + tv_nsec t.
Lemma clock_stamp t : clock_ok t ->
  normal (Timestamp_from_timespec t) /\ stamp (Timestamp_from_timespec t) = time_of t.
Proof.
  intros [Hs Hn]. unfold normal, stamp, Timestamp_from_timespec, time_of. cbn.
  unfold NSEC_PER_SEC in *. rewrite !uwrap_small by (unfold uint; lia). unfold uint. lia.
Qed.
Lemma toNanoseconds_stamp d : toNanoseconds d = stamp d mod 2 ^ 64.
Proof.
  unfold toNanoseconds, stamp, uwrap. rewrite Zplus_mod_idemp_r. f_equal. lia.
Qed.

(** [tpoll] takes the time that has passed from the time out and never leaves
    a negative one; a real time clock that is set back while it waits leaves 0,
    which the next call takes as waiting for ever. *)
Theorem tpoll_left b timeout_ms w start now :
  m_isInit b = true -> 0 < timeout_ms -> os_clock w = Some start ->
  os_clock (poll b timeout_ms w).2 = Some now -> clock_ok start -> clock_ok now ->
  exists left, tpoll b timeout_ms w = Some ((poll b timeout_ms w).1, left, (poll b timeout_ms w).2) /\
    0 <= left <= timeout_ms /\
    (0 <= time_of now - time_of start < 2 ^ 64 ->
       left = Z.max 0 (timeout_ms - (time_of now - time_of start) / 10 ^ 6)) /\
    (-10 ^ 18 <= time_of now - time_of start < 0 -> timeout_ms <= 10 ^ 13 ->
       left = 0 /\ poll_timeout left = -1).
Proof.
  intros I T Cs Cn Os On. unfold tpoll. rewrite I, (proj2 (Z.ltb_lt _ _) T), Cs. cbn [negb].
  destruct (poll b timeout_ms w) as [r w1]. cbn [fst snd] in *. rewrite Cn.
  destruct (clock_stamp start Os) as [N1 E1], (clock_stamp now On) as [N2 E2].
  destruct (timestamp_subt_correct _ _ 2 N2 N1) as (d & -> & _ & Ed); [lia|].
  cbn [mbind option_bind]. rewrite toNanoseconds_stamp, Ed, E1, E2.
  assert (forall z, z mod STAMP_RANGE mod 2 ^ 64 = z mod 2 ^ 64) as MM.
  { intros z. unfold STAMP_RANGE, NSEC_PER_SEC. apply Z.mod_mod_divide. by exists 1000000000. }
  rewrite MM. change NSEC_PER_MSEC with (10 ^ 6). set (e := time_of now - time_of start).
  assert (0 <= e mod 2 ^ 64 / 10 ^ 6) as P. { apply Z.div_pos; [|lia]. by apply Z.mod_pos_bound. }
  eexists. split; [done|]. destruct (Z.ltb_spec (e mod 2 ^ 64 / 10 ^ 6) timeout_ms); (split; [lia|]).
  - split; [intros Be; rewrite Z.mod_small in * by done; lia|]. intros Be Bt. exfalso.
    assert (10 ^ 13 <= e mod 2 ^ 64 / 10 ^ 6) as K; [|lia].
    apply Z.div_le_lower_bound; [lia|]. rewrite <- (Z.mod_unique e (2 ^ 64) (-1) (e + 2 ^ 64)); lia.
  - split; [intros Be; rewrite Z.mod_small in * by done; lia|]. done.
Qed.
End Nets.
