(* ===== verification/SockC.v ===== *)
(** * SockC.v: the sockets of the C interface

    [ptpmgmt_sk_t] of [src/pub/c/sock.h] and its functions in
    [src/src/sock.cpp]: a table of functions that depends on the class of the
    socket, and a pointer to the C++ object that each function casts to its own
    class.  A cast to a class that the object is not of, and an exception that
    would leave the C function, are [None]. *)

From S2P Require Import Prelude CStr Types Codec Bin Text Config Sock SockFacts SockAddr.

#[local] Open Scope list_scope.

(** ** The structure *)

Inductive ptpmgmt_socket_class :=
| ptpmgmt_SockUnix | ptpmgmt_SockIp4 | ptpmgmt_SockIp6 | ptpmgmt_SockRaw | ptpmgmt_Sock_other (n : Z).
(** The functions that not all the classes have. *)
Inductive sk_func :=
| F_getPeerAddress | F_isPeerAddressAbstract | F_setPeerAddress | F_setPeerAddressAbstract
| F_setPeerAddressCfg | F_getSelfAddress | F_isSelfAddressAbstract | F_setSelfAddress
| F_setSelfAddressAbstract | F_setDefSelfAddress | F_sendTo | F_sendToA | F_rcvFrom | F_rcvFromA
| F_getLastFrom | F_isLastFromAbstract
| F_setIfUsingName | F_setIfUsingIndex | F_setIf | F_setAll | F_setAllInit
| F_setUdpTtl | F_setUdpTtlCfg | F_setScope | F_setScopeCfg
| F_setPtpDstMacStr | F_setPtpDstMac | F_setPtpDstMacCfg | F_setSocketPriority | F_setSocketPriorityCfg.
(** [sk_asgn] tells [ptpmgmt_sk_f] from [non_ptpmgmt_sk_f]. *)
Record ptpmgmt_sk_t := mk_sk { sk_this : option socket; sk_asgn : sk_func -> bool; sk_free_wrap : bool }.
Definition set_sk_this (s : socket) (sk : ptpmgmt_sk_t) : ptpmgmt_sk_t :=
  mk_sk (Some s) (sk_asgn sk) (sk_free_wrap sk).

(** The assignments of [ptpmgmt_sk_alloc_all]. *)
Definition C_ASGN (type : ptpmgmt_socket_class) (f : sk_func) : bool :=
  match type, f with
  | ptpmgmt_SockUnix,
    (F_getPeerAddress | F_isPeerAddressAbstract | F_setPeerAddress | F_setPeerAddressAbstract
    | F_setPeerAddressCfg | F_getSelfAddress | F_isSelfAddressAbstract | F_setSelfAddress
    | F_setSelfAddressAbstract | F_setDefSelfAddress | F_sendTo | F_sendToA | F_rcvFrom | F_rcvFromA
    | F_getLastFrom | F_isLastFromAbstract) => true
  | ptpmgmt_SockIp4,
    (F_setIfUsingName | F_setIfUsingIndex | F_setIf | F_setAll | F_setAllInit | F_setUdpTtl
    | F_setUdpTtlCfg) => true
  | ptpmgmt_SockIp6,
    (F_setIfUsingName | F_setIfUsingIndex | F_setIf | F_setAll | F_setAllInit | F_setUdpTtl
    | F_setUdpTtlCfg | F_setScope | F_setScopeCfg) => true
  | ptpmgmt_SockRaw,
    (F_setPtpDstMacStr | F_setPtpDstMac | F_setPtpDstMacCfg | F_setSocketPriority
    | F_setSocketPriorityCfg | F_setIfUsingName | F_setIfUsingIndex | F_setIf | F_setAll
    | F_setAllInit) => true
  | _, _ => false
  end.
(** A new object of the class; [hdr] is what the memory of [m_hdr] holds. *)
Definition new_socket (type : ptpmgmt_socket_class) (hdr : list byte) : option socket :=
  match type with
  | ptpmgmt_SockUnix => Some (S_unix SockUnix_new)
  | ptpmgmt_SockIp4 => Some (S_ip SockIp4_new)
  | ptpmgmt_SockIp6 => Some (S_ip SockIp6_new)
  | ptpmgmt_SockRaw => Some (S_raw (SockRaw_new hdr))
  | ptpmgmt_Sock_other _ => None
  end.
(** [None] is NULL; [mem] tells if [malloc] gives memory. *)
Definition ptpmgmt_sk_alloc_all (mem : bool) (hdr : list byte) (type : ptpmgmt_socket_class) (sko : option socket)
    : option ptpmgmt_sk_t :=
  if negb mem then None
  else
    n ← new_socket type hdr;
    match sko with
    | Some s => Some (mk_sk (Some s) (C_ASGN type) true)
    | None => Some (mk_sk (Some n) (C_ASGN type) false)
    end.
Definition ptpmgmt_sk_alloc (mem : bool) (hdr : list byte) (type : ptpmgmt_socket_class) : option ptpmgmt_sk_t :=
  ptpmgmt_sk_alloc_all mem hdr type None.
Definition ptpmgmt_sk_alloc_wrap (mem : bool) (hdr : list byte) (type : ptpmgmt_socket_class) (sko : option socket)
    : option ptpmgmt_sk_t :=
  match sko with None => None | Some _ => ptpmgmt_sk_alloc_all mem hdr type sko end.

Section CSock.
Context {W : Type} `{Os W}.

(** ** Calls *)

Definition cres (A : Type) : Type := option (A * (ptpmgmt_sk_t * W)).
(** A function of all sockets: [non] when there is no object. *)
Definition sk_call {A} (non : A) (m : socket -> W -> option (A * (socket * W))) (sk : ptpmgmt_sk_t) (w : W) : cres A :=
  match sk_this sk with
  | None => Some (non, (sk, w))
  | Some s => '(a, (s, w)) ← m s w; Some (a, (set_sk_this s sk, w))
  end.
(** A function of the table. *)
Definition vt_call {A} (f : sk_func) (non : A) (m : socket -> W -> option (A * (socket * W)))
    (sk : ptpmgmt_sk_t) (w : W) : cres A :=
  if sk_asgn sk f then sk_call non m sk w else Some (non, (sk, w)).
(** The casts of [valid_usk], [valid_isk], [valid_ipsk], [valid_ip6sk] and
    [valid_rsk]. *)
Definition valid_usk {A} (m : SockUnix -> W -> option (A * (SockUnix * W))) (s : socket) (w : W)
    : option (A * (socket * W)) :=
  match s with S_unix s => '(a, (s, w)) ← m s w; Some (a, (S_unix s, w)) | _ => None end.
Definition valid_ipsk {A} (m : SockIp -> W -> option (A * (SockIp * W))) (s : socket) (w : W)
    : option (A * (socket * W)) :=
  match s with S_ip s => '(a, (s, w)) ← m s w; Some (a, (S_ip s, w)) | _ => None end.
Definition valid_ip6sk {A} (m : SockIp -> W -> option (A * (SockIp * W))) (s : socket) (w : W)
    : option (A * (socket * W)) :=
  match s with
  | S_ip p => if decide (m_domain p = AF_INET6) then valid_ipsk m s w else None
  | _ => None
  end.
Definition valid_rsk {A} (m : SockRaw -> W -> option (A * (SockRaw * W))) (s : socket) (w : W)
    : option (A * (socket * W)) :=
  match s with S_raw s => '(a, (s, w)) ← m s w; Some (a, (S_raw s, w)) | _ => None end.
Definition valid_isk (m : SockBaseIf -> bool * SockBaseIf) (s : socket) (w : W) : option (bool * (socket * W)) :=
  match s with
  | S_unix _ => None
  | S_ip s => let '(r, i) := m (p_if s) in Some (r, (S_ip (set_p_if i s), w))
  | S_raw s => let '(r, i) := m (r_if s) in Some (r, (S_raw (set_r_if i s), w))
  end.
(** Methods that do not call the system. *)
Definition pure_m {S A} (m : S -> A * S) (s : S) (w : W) : option (A * (S * W)) :=
  let '(a, s) := m s in Some (a, (s, w)).
Definition try_m {S A} (m : S -> option (A * S)) (s : S) (w : W) : option (A * (S * W)) :=
  '(a, s) ← m s; Some (a, (s, w)).
Definition get_m {S A} (g : S -> A) (s : S) (w : W) : option (A * (S * W)) := Some (g s, (s, w)).
Definition section_arg (section : option string) : string := default ""%string section.

(** ** Functions of all sockets *)

Definition ptpmgmt_sk_free (sk : option ptpmgmt_sk_t) (w : W) : W :=
  match sk with
  | Some sk => match sk_this sk with Some s => SockBase_destroy (base_of s) w | None => w end
  | None => w
  end.
(** [sk->free(sk)]. *)
Definition c_free (sk : ptpmgmt_sk_t) (w : W) : W := if sk_free_wrap sk then w else ptpmgmt_sk_free (Some sk) w.
Definition ptpmgmt_sk_close : ptpmgmt_sk_t -> W -> cres unit :=
  sk_call tt (fun s w => Some (tt, socket_close s w)).
Definition ptpmgmt_sk_init : ptpmgmt_sk_t -> W -> cres bool := sk_call false (fun s w => Some (socket_init s w)).
Definition socket_send (s : socket) (msg : list byte) (w : W) : bool * W :=
  match s with S_unix s => SockUnix_send s msg w | S_ip s => SockIp_send s msg w | S_raw s => SockRaw_send s msg w end.
Definition socket_rcv (s : socket) (bufSize : Z) (block : bool) (w : W) : (Z * list byte) * W :=
  match s with
  | S_unix s => SockUnix_rcv s bufSize block w
  | S_ip s => SockIp_rcv s bufSize block w
  | S_raw s => SockRaw_rcv s bufSize block w
  end.
Definition ptpmgmt_sk_send (msg : list byte) : ptpmgmt_sk_t -> W -> cres bool :=
  sk_call false (fun s w => let '(r, w) := socket_send s msg w in Some (r, (s, w))).
(** Without an object the result is [false], 0. *)
Definition ptpmgmt_sk_rcv (bufSize : Z) (block : bool) : ptpmgmt_sk_t -> W -> cres (Z * list byte) :=
  sk_call (0, []) (fun s w => let '(r, w) := socket_rcv s bufSize block w in Some (r, (s, w))).
Definition ptpmgmt_sk_getFd : ptpmgmt_sk_t -> W -> cres Z := sk_call (-1) (get_m (fun s => m_fd (base_of s))).
Definition ptpmgmt_sk_poll (timeout_ms : Z) : ptpmgmt_sk_t -> W -> cres bool :=
  sk_call false (fun s w => let '(r, w) := poll (base_of s) timeout_ms w in Some (r, (s, w))).
(** With what is written to the time out. *)
Definition ptpmgmt_sk_tpoll (timeout_ms : option Z) : ptpmgmt_sk_t -> W -> cres (bool * option Z) :=
  sk_call (false, timeout_ms) (fun s w =>
    match timeout_ms with
    | Some t => '(r, rest, w) ← tpoll (base_of s) t w; Some ((r, Some rest), (s, w))
    | None => let '(r, w) := poll (base_of s) 0 w in Some ((r, None), (s, w))
    end).

(** ** Unix sockets: a C string stops at its end, also inside an abstract address *)

Definition ptpmgmt_sk_getPeerAddress : ptpmgmt_sk_t -> W -> cres (option (list byte)) :=
  vt_call F_getPeerAddress None (valid_usk (get_m (fun s => Some (cstr (m_peer s))))).
Definition ptpmgmt_sk_isPeerAddressAbstract : ptpmgmt_sk_t -> W -> cres bool :=
  vt_call F_isPeerAddressAbstract false (valid_usk (get_m isPeerAddressAbstract)).
(** A function with a string that may be NULL. *)
Definition str_call (str : option (list byte)) (m : list byte -> SockUnix -> bool * SockUnix)
    : socket -> W -> option (bool * (socket * W)) :=
  valid_usk (pure_m (fun s => match str with Some str => m (cstr str) s | None => (false, s) end)).
Definition ptpmgmt_sk_setPeerAddress (str : option (list byte)) : ptpmgmt_sk_t -> W -> cres bool :=
  vt_call F_setPeerAddress false (str_call str (fun str => setPeerAddress str false)).
Definition ptpmgmt_sk_setPeerAddressAbstract (str : option (list byte)) : ptpmgmt_sk_t -> W -> cres bool :=
  vt_call F_setPeerAddressAbstract false (str_call str (fun str => setPeerAddress str true)).
(** [C2CPP_func]: [cfg] is the object of the pointer, if any. *)
Definition C2CPP_func {S} (cfg : option ConfigFile) (section : option string)
    (m : ConfigFile -> string -> S -> option (bool * S)) (s : S) : option (bool * S) :=
  match cfg with Some cfg => m cfg (section_arg section) s | None => Some (false, s) end.
Definition ptpmgmt_sk_setPeerAddressCfg (cfg : option ConfigFile) (section : option string)
    : ptpmgmt_sk_t -> W -> cres bool :=
  vt_call F_setPeerAddressCfg false (valid_usk (try_m (C2CPP_func cfg section setPeerAddress_cfg))).
Definition ptpmgmt_sk_getSelfAddress : ptpmgmt_sk_t -> W -> cres (option (list byte)) :=
  vt_call F_getSelfAddress None (valid_usk (get_m (fun s => Some (cstr (m_me s))))).
Definition ptpmgmt_sk_isSelfAddressAbstract : ptpmgmt_sk_t -> W -> cres bool :=
  vt_call F_isSelfAddressAbstract false (valid_usk (get_m isSelfAddressAbstract)).
Definition ptpmgmt_sk_setSelfAddress (str : option (list byte)) : ptpmgmt_sk_t -> W -> cres bool :=
  vt_call F_setSelfAddress false (str_call str (fun str => setSelfAddress str false)).
Definition ptpmgmt_sk_setSelfAddressAbstract (str : option (list byte)) : ptpmgmt_sk_t -> W -> cres bool :=
  vt_call F_setSelfAddressAbstract false (str_call str (fun str => setSelfAddress str true)).
Definition str_arg (str : option (list byte)) : list byte := match str with Some str => cstr str | None => [] end.
(** With the static home folder. *)
Definition ptpmgmt_sk_setDefSelfAddress (rootBase useDef : option (list byte)) (homeDir : list byte)
    : ptpmgmt_sk_t -> W -> cres (bool * list byte) :=
  vt_call F_setDefSelfAddress (false, homeDir) (valid_usk (fun s w =>
    let '(r, (s, homeDir)) := setDefSelfAddress (str_arg rootBase) (str_arg useDef) homeDir s w in
    Some ((r, homeDir), (s, w)))).
Definition ptpmgmt_sk_getHomeDir (homeDir : list byte) (w : W) : list byte := cstr (getHomeDir homeDir w).
Definition c_sendTo (msg addrStr : option (list byte)) (useAbstract : bool) : socket -> W -> option (bool * (socket * W)) :=
  valid_usk (fun s w =>
    match msg, addrStr with
    | Some msg, Some addr =>
        if 0 <? len msg then let '(r, w) := sendTo s msg (cstr addr) useAbstract w in Some (r, (s, w))
        else Some (false, (s, w))
    | _, _ => Some (false, (s, w))
    end).
Definition ptpmgmt_sk_sendTo (msg addrStr : option (list byte)) : ptpmgmt_sk_t -> W -> cres bool :=
  vt_call F_sendTo false (c_sendTo msg addrStr false).
Definition ptpmgmt_sk_sendToA (msg addrStr : option (list byte)) : ptpmgmt_sk_t -> W -> cres bool :=
  vt_call F_sendToA false (c_sendTo msg addrStr true).
(** The memory of [from] and the value of [fromSize] after the sender [f]. *)
Definition copy_from (f : list byte) (from : option (list byte)) (fromSize : option Z)
    : option (list byte) * option Z :=
  match from, fromSize with
  | Some mem, Some size =>
      if (1 <? size) && negb (bool_decide (f = [])) then
        let c := Z.min (len f) (size - 1) in
        (Some (take (Z.to_nat c) f ++ x00 :: drop (Z.to_nat (c + 1)) mem), Some c)
      else (from, fromSize)
  | _, _ => (from, fromSize)
  end.
(** The count, the message and what is written to the arguments; [buf] tells if
    there is a buffer. *)
Definition ptpmgmt_sk_rcvFrom (buf : bool) (bufSize : Z) (from : option (list byte)) (fromSize : option Z) (block : bool)
    : ptpmgmt_sk_t -> W -> cres (Z * list byte * (option (list byte) * option Z)) :=
  vt_call F_rcvFrom (0, [], (from, fromSize)) (valid_usk (fun s w =>
    if buf && (0 <? bufSize) then
      let '((cnt, d, f), w) := rcvFrom s bufSize block [] w in
      Some ((cnt, d, copy_from f from fromSize), (s, w))
    else Some ((0, [], (from, fromSize)), (s, w)))).
Definition ptpmgmt_sk_rcvFromA (buf : bool) (bufSize : Z) (block : bool) : ptpmgmt_sk_t -> W -> cres (Z * list byte) :=
  vt_call F_rcvFromA (0, []) (valid_usk (fun s w =>
    if buf && (0 <? bufSize) then Some (rcvFrom_last s bufSize block w) else Some ((0, []), (s, w)))).
Definition ptpmgmt_sk_getLastFrom : ptpmgmt_sk_t -> W -> cres (option (list byte)) :=
  vt_call F_getLastFrom None (valid_usk (get_m (fun s => Some (cstr (m_lastFrom s))))).
Definition ptpmgmt_sk_isLastFromAbstract : ptpmgmt_sk_t -> W -> cres bool :=
  vt_call F_isLastFromAbstract false (valid_usk (get_m isLastFromAbstract)).

(** ** Sockets of an interface *)

(** What [initUsingName] and [initUsingIndex] of [IfInfo] find. *)
Context (find_name : list byte -> option IfInfo) (find_index : Z -> option IfInfo).
Definition ptpmgmt_sk_setIfUsingName (ifName : option (list byte)) : ptpmgmt_sk_t -> W -> cres bool :=
  vt_call F_setIfUsingName false (valid_isk (fun s =>
    match ifName with Some n => setIfUsing (find_name (cstr n)) s | None => (false, s) end)).
Definition ptpmgmt_sk_setIfUsingIndex (ifIndex : Z) : ptpmgmt_sk_t -> W -> cres bool :=
  vt_call F_setIfUsingIndex false (valid_isk (setIfUsing (find_index ifIndex))).
Definition ptpmgmt_sk_setIf (ifObj : option IfInfo) : ptpmgmt_sk_t -> W -> cres bool :=
  vt_call F_setIf false (valid_isk (fun s =>
    match ifObj with Some o => setIf o s | None => (false, s) end)).
(** [setAll] and [setAllInit] of the class of the object. *)
Definition socket_setAll (o : IfInfo) (cfg : ConfigFile) (section : string) (s : socket) : option (bool * socket) :=
  match s with
  | S_unix _ => None
  | S_ip s => '(r, s) ← SockIp_setAll o cfg section s; Some (r, S_ip s)
  | S_raw s => '(r, s) ← SockRaw_setAll o cfg section s; Some (r, S_raw s)
  end.
Definition socket_setAllInit (o : IfInfo) (cfg : ConfigFile) (section : string) (s : socket) (w : W)
    : option (bool * (socket * W)) :=
  match s with
  | S_unix _ => None
  | S_ip s => '(r, (s, w)) ← SockIp_setAllInit o cfg section s w; Some (r, (S_ip s, w))
  | S_raw s => '(r, (s, w)) ← SockRaw_setAllInit o cfg section s w; Some (r, (S_raw s, w))
  end.
(** [C2CPP_func2]. *)
Definition C2CPP_func2 (ifObj : option IfInfo) (cfg : option ConfigFile) (section : option string)
    (m : IfInfo -> ConfigFile -> string -> socket -> W -> option (bool * (socket * W))) (s : socket) (w : W)
    : option (bool * (socket * W)) :=
  match ifObj, cfg with
  | Some o, Some cfg => m o cfg (section_arg section) s w
  | _, _ => Some (false, (s, w))
  end.
Definition ptpmgmt_sk_setAll (ifObj : option IfInfo) (cfg : option ConfigFile) (section : option string)
    : ptpmgmt_sk_t -> W -> cres bool :=
  vt_call F_setAll false (C2CPP_func2 ifObj cfg section (fun o cfg section => try_m (socket_setAll o cfg section))).
Definition ptpmgmt_sk_setAllInit (ifObj : option IfInfo) (cfg : option ConfigFile) (section : option string)
    : ptpmgmt_sk_t -> W -> cres bool :=
  vt_call F_setAllInit false (C2CPP_func2 ifObj cfg section socket_setAllInit).
(** The arguments are [uint8_t]. *)
Definition ptpmgmt_sk_setUdpTtl (udp_ttl : Z) : ptpmgmt_sk_t -> W -> cres bool :=
  vt_call F_setUdpTtl false (valid_ipsk (pure_m (setUdpTtl (uwrap 8 udp_ttl)))).
Definition ptpmgmt_sk_setUdpTtlCfg (cfg : option ConfigFile) (section : option string) : ptpmgmt_sk_t -> W -> cres bool :=
  vt_call F_setUdpTtlCfg false (valid_ipsk (try_m (C2CPP_func cfg section setUdpTtl_cfg))).
Definition ptpmgmt_sk_setScope (udp6_scope : Z) : ptpmgmt_sk_t -> W -> cres bool :=
  vt_call F_setScope false (valid_ip6sk (pure_m (setScope (uwrap 8 udp6_scope)))).
Definition ptpmgmt_sk_setScopeCfg (cfg : option ConfigFile) (section : option string) : ptpmgmt_sk_t -> W -> cres bool :=
  vt_call F_setScopeCfg false (valid_ip6sk (try_m (C2CPP_func cfg section setScope_cfg))).

(** ** Raw sockets *)

Definition ptpmgmt_sk_setPtpDstMacStr (str : option (list byte)) : ptpmgmt_sk_t -> W -> cres bool :=
  vt_call F_setPtpDstMacStr false (valid_rsk (pure_m (fun s =>
    match str with Some str => setPtpDstMacStr (cstr str) s | None => (false, s) end))).
Definition ptpmgmt_sk_setPtpDstMac (mac : option (list byte)) : ptpmgmt_sk_t -> W -> cres bool :=
  vt_call F_setPtpDstMac false (valid_rsk (pure_m (fun s =>
    match mac with
    | Some mac => if 0 <? len mac then setPtpDstMac (mk_Binary mac (len mac)) s else (false, s)
    | None => (false, s)
    end))).
Definition ptpmgmt_sk_setPtpDstMacCfg (cfg : option ConfigFile) (section : option string)
    : ptpmgmt_sk_t -> W -> cres bool :=
  vt_call F_setPtpDstMacCfg false (valid_rsk (try_m (C2CPP_func cfg section setPtpDstMac_cfg))).
Definition ptpmgmt_sk_setSocketPriority (priority : Z) : ptpmgmt_sk_t -> W -> cres bool :=
  vt_call F_setSocketPriority false (valid_rsk (pure_m (setSocketPriority (uwrap 8 priority)))).
Definition ptpmgmt_sk_setSocketPriorityCfg (cfg : option ConfigFile) (section : option string)
    : ptpmgmt_sk_t -> W -> cres bool :=
  vt_call F_setSocketPriorityCfg false (valid_rsk (try_m (C2CPP_func cfg section setSocketPriority_cfg))).

(** ** All calls *)

(** A program's call on a structure, with its arguments. *)
Inductive c_call :=
| C_close | C_init | C_send (msg : list byte) | C_rcv (bufSize : Z) (block : bool) | C_getFd
| C_poll (timeout_ms : Z) | C_tpoll (timeout_ms : option Z)
| C_getPeerAddress | C_isPeerAddressAbstract | C_setPeerAddress (str : option (list byte))
| C_setPeerAddressAbstract (str : option (list byte))
| C_setPeerAddressCfg (cfg : option ConfigFile) (section : option string)
| C_getSelfAddress | C_isSelfAddressAbstract | C_setSelfAddress (str : option (list byte))
| C_setSelfAddressAbstract (str : option (list byte))
| C_setDefSelfAddress (rootBase useDef : option (list byte)) (homeDir : list byte)
| C_sendTo (msg addrStr : option (list byte)) | C_sendToA (msg addrStr : option (list byte))
| C_rcvFrom (buf : bool) (bufSize : Z) (from : option (list byte)) (fromSize : option Z) (block : bool)
| C_rcvFromA (buf : bool) (bufSize : Z) (block : bool)
| C_getLastFrom | C_isLastFromAbstract
| C_setIfUsingName (ifName : option (list byte)) | C_setIfUsingIndex (ifIndex : Z) | C_setIf (ifObj : option IfInfo)
| C_setAll (ifObj : option IfInfo) (cfg : option ConfigFile) (section : option string)
| C_setAllInit (ifObj : option IfInfo) (cfg : option ConfigFile) (section : option string)
| C_setUdpTtl (udp_ttl : Z) | C_setUdpTtlCfg (cfg : option ConfigFile) (section : option string)
| C_setScope (udp6_scope : Z) | C_setScopeCfg (cfg : option ConfigFile) (section : option string)
| C_setPtpDstMacStr (str : option (list byte)) | C_setPtpDstMac (mac : option (list byte))
| C_setPtpDstMacCfg (cfg : option ConfigFile) (section : option string)
| C_setSocketPriority (priority : Z) | C_setSocketPriorityCfg (cfg : option ConfigFile) (section : option string).
(** The structure and the system after a call. *)
Definition c_end {A} (r : cres A) : option (ptpmgmt_sk_t * W) := '(_, st) ← r; Some st.
Definition c_run (c : c_call) (sk : ptpmgmt_sk_t) (w : W) : option (ptpmgmt_sk_t * W) :=
  match c with
  | C_close => c_end (ptpmgmt_sk_close sk w)
  | C_init => c_end (ptpmgmt_sk_init sk w)
  | C_send m => c_end (ptpmgmt_sk_send m sk w)
  | C_rcv n b => c_end (ptpmgmt_sk_rcv n b sk w)
  | C_getFd => c_end (ptpmgmt_sk_getFd sk w)
  | C_poll t => c_end (ptpmgmt_sk_poll t sk w)
  | C_tpoll t => c_end (ptpmgmt_sk_tpoll t sk w)
  | C_getPeerAddress => c_end (ptpmgmt_sk_getPeerAddress sk w)
  | C_isPeerAddressAbstract => c_end (ptpmgmt_sk_isPeerAddressAbstract sk w)
  | C_setPeerAddress str => c_end (ptpmgmt_sk_setPeerAddress str sk w)
  | C_setPeerAddressAbstract str => c_end (ptpmgmt_sk_setPeerAddressAbstract str sk w)
  | C_setPeerAddressCfg cfg sec => c_end (ptpmgmt_sk_setPeerAddressCfg cfg sec sk w)
  | C_getSelfAddress => c_end (ptpmgmt_sk_getSelfAddress sk w)
  | C_isSelfAddressAbstract => c_end (ptpmgmt_sk_isSelfAddressAbstract sk w)
  | C_setSelfAddress str => c_end (ptpmgmt_sk_setSelfAddress str sk w)
  | C_setSelfAddressAbstract str => c_end (ptpmgmt_sk_setSelfAddressAbstract str sk w)
  | C_setDefSelfAddress r u h => c_end (ptpmgmt_sk_setDefSelfAddress r u h sk w)
  | C_sendTo m a => c_end (ptpmgmt_sk_sendTo m a sk w)
  | C_sendToA m a => c_end (ptpmgmt_sk_sendToA m a sk w)
  | C_rcvFrom buf n f fs b => c_end (ptpmgmt_sk_rcvFrom buf n f fs b sk w)
  | C_rcvFromA buf n b => c_end (ptpmgmt_sk_rcvFromA buf n b sk w)
  | C_getLastFrom => c_end (ptpmgmt_sk_getLastFrom sk w)
  | C_isLastFromAbstract => c_end (ptpmgmt_sk_isLastFromAbstract sk w)
  | C_setIfUsingName n => c_end (ptpmgmt_sk_setIfUsingName n sk w)
  | C_setIfUsingIndex i => c_end (ptpmgmt_sk_setIfUsingIndex i sk w)
  | C_setIf o => c_end (ptpmgmt_sk_setIf o sk w)
  | C_setAll o cfg sec => c_end (ptpmgmt_sk_setAll o cfg sec sk w)
  | C_setAllInit o cfg sec => c_end (ptpmgmt_sk_setAllInit o cfg sec sk w)
  | C_setUdpTtl v => c_end (ptpmgmt_sk_setUdpTtl v sk w)
  | C_setUdpTtlCfg cfg sec => c_end (ptpmgmt_sk_setUdpTtlCfg cfg sec sk w)
  | C_setScope v => c_end (ptpmgmt_sk_setScope v sk w)
  | C_setScopeCfg cfg sec => c_end (ptpmgmt_sk_setScopeCfg cfg sec sk w)
  | C_setPtpDstMacStr str => c_end (ptpmgmt_sk_setPtpDstMacStr str sk w)
  | C_setPtpDstMac mac => c_end (ptpmgmt_sk_setPtpDstMac mac sk w)
  | C_setPtpDstMacCfg cfg sec => c_end (ptpmgmt_sk_setPtpDstMacCfg cfg sec sk w)
  | C_setSocketPriority v => c_end (ptpmgmt_sk_setSocketPriority v sk w)
  | C_setSocketPriorityCfg cfg sec => c_end (ptpmgmt_sk_setSocketPriorityCfg cfg sec sk w)
  end.
Fixpoint c_runs (l : list c_call) (sk : ptpmgmt_sk_t) (w : W) : option (ptpmgmt_sk_t * W) :=
  match l with [] => Some (sk, w) | c :: l => '(sk, w) ← c_run c sk w; c_runs l sk w end.
End CSock.
