(* ===== verification/SockCFacts.v ===== *)
(** * SockCFacts.v: the sockets of the C interface are the sockets of the library

    The casts of the C functions are right for the objects that
    [ptpmgmt_sk_alloc] makes: no sequence of calls is undefined, each is a
    sequence of methods of the object, and freeing the structure leaves no
    descriptor. *)

From S2P Require Import Prelude CStr Types Codec Bin Config Text Sock SockFacts SockAddr SockC.

#[local] Open Scope list_scope.
#[local] Open Scope sock_scope.

(** ** The class of an object *)

Definition class_of (s : socket) : option ptpmgmt_socket_class :=
  match s with
  | S_unix _ => Some ptpmgmt_SockUnix
  | S_ip p => match m_domain p with AF_INET => Some ptpmgmt_SockIp4 | AF_INET6 => Some ptpmgmt_SockIp6 | _ => None end
  | S_raw _ => Some ptpmgmt_SockRaw
  end.

Section Class.
Context {W : Type} `{Os W}.

Definition domain_is (d : sock_domain) (st : SockIp * W) : Prop := m_domain st.1 = d.
Lemma ip_opt_domain d o : hoare (domain_is d) (ip_opt o) (domain_is d) (domain_is d).
Proof. intros [s w] D. unfold ip_opt. destruct (os_setsockopt _ _ _) as [[] ?]; exact D. Qed.
Lemma ip_set_domain d g : (forall s, m_domain (g s) = m_domain s) ->
  hoare (domain_is d) (ip_set g) (domain_is d) (domain_is d).
Proof. intros G [s w] D. unfold domain_is in *. cbn. by rewrite G. Qed.
Lemma require_domain d g : hoare (domain_is d) (require g) (domain_is d) (domain_is d).
Proof. by apply hoare_require. Qed.
Create HintDb domain.
Hint Resolve hoare_andthen ip_opt_domain ip_set_domain require_domain : domain.
Lemma SockIp_init_domain d : hoare (domain_is d) SockIp_init (domain_is d) (domain_is d).
Proof.
  assert (hoare (domain_is d) SockIp4_initIp (domain_is d) (domain_is d)) as I4
    by (unfold SockIp4_initIp; eauto 12 with domain).
  assert (hoare (domain_is d) SockIp6_initIp (domain_is d) (domain_is d)) as I6
    by (unfold SockIp6_initIp; eauto 14 with domain).
  assert (hoare (domain_is d) initIp (domain_is d) (domain_is d)) as I
    by (intros st D; unfold initIp; destruct (m_domain st.1); [by apply I4..|by apply I6|by apply I4]).
  assert (hoare (domain_is d) (assign_to (fun st : SockIp * W => SockIp_close st.1 st.2)) (domain_is d) (domain_is d)) as C.
  { intros [s w] D. unfold assign_to, SockIp_close. cbn. by destruct (closeBase no_child (p_base s) w). }
  assert (hoare (domain_is d) ip_socket (domain_is d) (domain_is d)) as S.
  { intros [s w] D. unfold ip_socket. destruct (os_socket _ _) as [fd ?]. destruct (negb _); exact D. }
  assert (hoare (domain_is d) ip_bind (domain_is d) (domain_is d)) as B.
  { intros [s w] D. unfold ip_bind. destruct (os_bind _ _ _) as [[] ?]; exact D. }
  unfold SockIp_init. eauto 30 with domain.
Qed.
Lemma SockIp_setAll_domain o cfg sec s r s' : SockIp_setAll o cfg sec s = Some (r, s') -> m_domain s' = m_domain s.
Proof.
  unfold SockIp_setAll, SockIp_setAllBase. destruct (setIf o (p_if s)) as [[] i]; [|by intros [= _ <-]].
  destruct (setUdpTtl_cfg cfg sec _) as [[r1 s1]|] eqn:E1; [|done].
  destruct (cfg_setters_base cfg sec) as (F1 & F2 & _). apply F1 in E1 as [_ E1]. cbn [mbind option_bind].
  destruct (m_domain s1) eqn:D; try (intros [= _ <-]; rewrite D; exact E1).
  destruct r1; [|by intros [= _ <-]; rewrite D]. intros [_ E]%F2. by rewrite E, D.
Qed.
Lemma setter_class s s' : setter (W := W) s s' -> class_of s' = class_of s.
Proof.
  destruct 1; try done; cbn [class_of];
    try (match goal with E : ?f ?cfg ?sec _ = Some _ |- _ =>
           destruct (cfg_setters_base cfg sec) as (F1 & F2 & F3 & F4);
           first [apply F1 in E as [_ ->]; done|apply F2 in E as [_ ->]; done] end).
  - unfold setUdpTtl. by destruct (m_isInit _).
  - unfold setScope. destruct (m_isInit _); [done|]. by destruct (_ <? _).
  - match goal with E : SockIp_setAll _ _ _ _ = _ |- _ => by rewrite (SockIp_setAll_domain _ _ _ _ _ _ E) end.
Qed.
Lemma socket_init_class s w : class_of (socket_init s w).2.1 = class_of s.
Proof.
  destruct s as [s|s|s]; cbn [socket_init].
  - by destruct (SockUnix_init _) as [? [? ?]].
  - pose proof (SockIp_init_domain (m_domain s) (s, w) eq_refl) as D.
    destruct (SockIp_init (s, w)) as [r [s' w']]. cbn in *. assert (m_domain s' = m_domain s) as -> by (destruct r; exact D).
    done.
  - by destruct (SockRaw_init _) as [? [? ?]].
Qed.
Lemma socket_close_class s w : class_of (socket_close s w).1 = class_of s.
Proof.
  destruct s as [s|s|s]; cbn [socket_close]; unfold SockUnix_close, SockIp_close, SockRaw_close;
    by destruct (closeBase _ _ _).
Qed.
Lemma sock_step_class st st' : sock_step (W := W) st st' -> class_of st'.1 = class_of st.1.
Proof.
  destruct 1; cbn [fst]; try done; [apply socket_init_class|apply socket_close_class|by apply setter_class].
Qed.
Lemma sock_rtc_class st st' : rtc (sock_step (W := W)) st st' -> class_of st'.1 = class_of st.1.
Proof. induction 1 as [|x y z S _ IH]; [done|]. by rewrite IH, (sock_step_class _ _ S). Qed.
End Class.

(** ** Each call is a sequence of methods *)

Section Calls.
Context {W : Type} `{OL : OsLaws W}.
Context (find_name : list byte -> option IfInfo) (find_index : Z -> option IfInfo).

(** The configurations that the calls get have only read files. *)
Definition call_cfg (c : c_call) : Prop :=
  match c with
  | C_setPeerAddressCfg (Some cfg) _ | C_setAll _ (Some cfg) _ | C_setAllInit _ (Some cfg) _
  | C_setUdpTtlCfg (Some cfg) _ | C_setScopeCfg (Some cfg) _ | C_setPtpDstMacCfg (Some cfg) _
  | C_setSocketPriorityCfg (Some cfg) _ => cfg_reach cfg
  | _ => True
  end.

Definition handle (type : ptpmgmt_socket_class) (b : bool) (s : socket) : ptpmgmt_sk_t := mk_sk (Some s) (C_ASGN type) b.
(** What a call leaves: the same structure around an object that methods made. *)
Definition called (type : ptpmgmt_socket_class) (b : bool) (s : socket) (w : W) (r : option (ptpmgmt_sk_t * W)) : Prop :=
  exists s' w', r = Some (handle type b s', w') /\ rtc sock_step (s, w) (s', w').

Lemma sk_called {A} (non : A) m type b s w :
  (exists a s' w', m s w = Some (a, (s', w')) /\ rtc sock_step (s, w) (s', w')) ->
  called type b s w (c_end (sk_call non m (handle type b s) w)).
Proof. intros (a & s' & w' & E & R). exists s', w'. split; [|done]. unfold sk_call. cbn. by rewrite E. Qed.
Lemma vt_called {A} f (non : A) m type b s w :
  (C_ASGN type f = true -> exists a s' w', m s w = Some (a, (s', w')) /\ rtc sock_step (s, w) (s', w')) ->
  called type b s w (c_end (vt_call f non m (handle type b s) w)).
Proof.
  intros Hm. unfold vt_call. change (sk_asgn (handle type b s) f) with (C_ASGN type f).
  destruct (C_ASGN type f); [by apply sk_called, Hm|]. exists s, w. split; [done|apply rtc_refl].
Qed.
(** One method, and none. *)
Lemma method {A} (r : option (A * (socket * W))) s w a s' w' : r = Some (a, (s', w')) -> sock_step (s, w) (s', w') ->
  exists a s' w', r = Some (a, (s', w')) /\ rtc sock_step (s, w) (s', w').
Proof. intros E S. exists a, s', w'. split; [done|by apply rtc_once]. Qed.
Lemma no_method {A} (r : option (A * (socket * W))) s w a : r = Some (a, (s, w)) ->
  exists a s' w', r = Some (a, (s', w')) /\ rtc sock_step (s, w) (s', w').
Proof. intros E. exists a, s, w. split; [done|apply rtc_refl]. Qed.
Lemma tpoll_total b t w : exists r rest w', tpoll b t w = Some (r, rest, w').
Proof.
  unfold tpoll. destruct (negb _); [eauto|]. destruct (poll b t w) as [r w1].
  destruct (0 <? t); [|eauto]. destruct (os_clock w) as [start|] eqn:E1; [|eauto].
  destruct (os_clock w1) as [now|] eqn:E2; [|eauto].
  destruct (clock_stamp start (clock_valid _ _ E1)) as [N1 _], (clock_stamp now (clock_valid _ _ E2)) as [N2 _].
  destruct (timestamp_subt_correct _ _ 2 N2 N1) as (d & -> & _); [lia|]. cbn. eauto.
Qed.

Lemma class_unix s : class_of s = Some ptpmgmt_SockUnix -> exists u, s = S_unix u.
Proof. destruct s as [u|p|r]; cbn; [eauto|by destruct (m_domain p)|done]. Qed.
Lemma class_ip4 s : class_of s = Some ptpmgmt_SockIp4 -> exists p, s = S_ip p.
Proof. destruct s as [u|p|r]; cbn; [done|eauto|done]. Qed.
Lemma class_ip6 s : class_of s = Some ptpmgmt_SockIp6 -> exists p, s = S_ip p /\ m_domain p = AF_INET6.
Proof. destruct s as [u|p|r]; cbn; [done| |done]. destruct (m_domain p) eqn:D; try done. eauto. Qed.
Lemma class_raw s : class_of s = Some ptpmgmt_SockRaw -> exists r, s = S_raw r.
Proof. destruct s as [u|p|r]; cbn; [done|by destruct (m_domain p)|eauto]. Qed.
Ltac by_class K A :=
  let D := fresh "D" in
  lazymatch type of K with class_of _ = Some ?t => destruct t; try discriminate A end;
  first [apply class_unix in K as [? ->]|apply class_ip4 in K as [? ->]|apply class_ip6 in K as (? & -> & D)
        |apply class_raw in K as [? ->]].

(** The methods behind the casts. *)
Lemma usk_pure {A} (m : SockUnix -> A * SockUnix) u (w : W) :
  valid_usk (pure_m m) (S_unix u) w = Some ((m u).1, (S_unix (m u).2, w)).
Proof. unfold valid_usk, pure_m. by destruct (m u). Qed.
Lemma ipsk_pure {A} (m : SockIp -> A * SockIp) p (w : W) :
  valid_ipsk (pure_m m) (S_ip p) w = Some ((m p).1, (S_ip (m p).2, w)).
Proof. unfold valid_ipsk, pure_m. by destruct (m p). Qed.
Lemma rsk_pure {A} (m : SockRaw -> A * SockRaw) r (w : W) :
  valid_rsk (pure_m m) (S_raw r) w = Some ((m r).1, (S_raw (m r).2, w)).
Proof. unfold valid_rsk, pure_m. by destruct (m r). Qed.
Lemma ip6sk_ipsk {A} (m : SockIp -> W -> option (A * (SockIp * W))) p w : m_domain p = AF_INET6 ->
  valid_ip6sk m (S_ip p) w = valid_ipsk m (S_ip p) w.
Proof. intros D. unfold valid_ip6sk. by rewrite decide_True. Qed.
Lemma isk_called m s (w : W) : (forall u, s <> S_unix u) ->
  (forall p, setter (W := W) (S_ip p) (S_ip (set_p_if (m (p_if p)).2 p))) ->
  (forall r, setter (W := W) (S_raw r) (S_raw (set_r_if (m (r_if r)).2 r))) ->
  exists a s' w', valid_isk m s w = Some (a, (s', w')) /\ rtc sock_step (s, w) (s', w').
Proof.
  intros N P R. destruct s as [u|p|r]; [by destruct (N u)|pose proof (P p) as S|pose proof (R r) as S]; cbn in *.
  - destruct (m (p_if p)) as [a i]. eapply method; [done|]. by apply step_set.
  - destruct (m (r_if r)) as [a i]. eapply method; [done|]. by apply step_set.
Qed.
Lemma set_p_if_same p : set_p_if (p_if p) p = p.
Proof. by destruct p. Qed.
Lemma set_r_if_same r : set_r_if (r_if r) r = r.
Proof. by destruct r. Qed.

(** The setters of a configuration succeed. *)
Lemma cfg_values cfg sec : cfg_reach cfg ->
  (exists v, uds_address cfg sec = Some v) /\ (exists v, udp_ttl cfg sec = Some v) /\
  (exists v, udp6_scope cfg sec = Some v) /\ (exists v, ptp_dst_mac cfg sec = Some v) /\
  (exists v, socket_priority cfg sec = Some v).
Proof.
  intros R. apply cfg_reach_inv in R. split; [|split; [|split; [|split]]].
  - apply (get_str_ok cfg uds_address_val sec R). unfold uds_address_val, str_base_val, bin_base_val. lia.
  - destruct (get_func_ok cfg udp_ttl_val sec R) as (v & E & _); [vm_compute; lia|done|eauto].
  - destruct (get_func_ok cfg udp6_scope_val sec R) as (v & E & _); [vm_compute; lia|done|eauto].
  - destruct (get_bin_ok cfg ptp_dst_mac_val sec R) as (v & E & _); [vm_compute; lia|eauto].
  - destruct (get_func_ok cfg socket_priority_val sec R) as (v & E & _); [vm_compute; lia|done|eauto].
Qed.
Lemma cfg_setters_ok cfg sec : cfg_reach cfg ->
  (forall s, exists r s', setPeerAddress_cfg cfg sec s = Some (r, s')) /\
  (forall s, exists r s', setUdpTtl_cfg cfg sec s = Some (r, s')) /\
  (forall s, exists r s', setScope_cfg cfg sec s = Some (r, s')) /\
  (forall s, exists r s', setPtpDstMac_cfg cfg sec s = Some (r, s')) /\
  (forall s, exists r s', setSocketPriority_cfg cfg sec s = Some (r, s')).
Proof.
  intros R. destruct (cfg_values cfg sec R) as ([v1 E1] & [v2 E2] & [v3 E3] & [v4 E4] & [v5 E5]).
  unfold setPeerAddress_cfg, setUdpTtl_cfg, setScope_cfg, setPtpDstMac_cfg, setSocketPriority_cfg.
  rewrite E1, E2, E3, E4, E5. cbn. repeat apply conj; intros s; try (destruct (m_isInit _); by eauto).
  destruct (setPeerAddress v1 false s) as [r s']. eauto.
Qed.
Lemma socket_setAll_ok o cfg sec s : cfg_reach cfg -> (forall u, s <> S_unix u) ->
  exists r s', socket_setAll o cfg sec s = Some (r, s') /\ setter (W := W) s s' /\
    (forall w, socket_setAllInit o cfg sec s w = Some (if r : bool then socket_init s' w else (false, (s', w)))).
Proof.
  intros R N. destruct (cfg_setters_ok cfg sec R) as (_ & Ft & Fs & Fm & Fp).
  destruct s as [u|p|r]; [by destruct (N u)| |]; cbn.
  - assert (exists r p', SockIp_setAll o cfg sec p = Some (r, p')) as (r & p' & E).
    { unfold SockIp_setAll, SockIp_setAllBase. destruct (setIf o (p_if p)) as [[] i]; [|eauto].
      destruct (Ft (set_p_if i p)) as (r & p1 & ->). cbn. destruct (m_domain p1); try by eauto.
      destruct r; [apply Fs|eauto]. }
    unfold SockIp_setAllInit. rewrite E. cbn. exists r, (S_ip p'). split; [done|]. split; [by eapply set_ip_all|].
    intros w. destruct r; [|done]. cbn. by destruct (SockIp_init (p', w)) as [? [? ?]].
  - assert (exists b r', SockRaw_setAll o cfg sec r = Some (b, r')) as (b & r' & E).
    { unfold SockRaw_setAll. destruct (setIf o (r_if r)) as [[] i]; [|eauto].
      destruct (Fm (set_r_if i r)) as (b & r1 & ->). cbn. destruct b; [apply Fp|eauto]. }
    unfold SockRaw_setAllInit. rewrite E. cbn. exists b, (S_raw r'). split; [done|]. split; [by eapply set_raw_all|].
    intros w. destruct b; [|done]. cbn. by destruct (SockRaw_init (r', w)) as [? [? ?]].
Qed.

Lemma not_unix s t : class_of s = Some t -> t <> ptpmgmt_SockUnix -> forall u, s <> S_unix u.
Proof. intros K N u ->. cbn in K. congruence. Qed.
(** The functions of the unix sockets: a method on the object, a getter, and a
    method that may be skipped. *)
Lemma unix_called {A} f (non : A) m type b s w : class_of s = Some type ->
  (C_ASGN type f = true -> type = ptpmgmt_SockUnix) ->
  (forall u, exists a s' w', m (S_unix u) w = Some (a, (s', w')) /\ rtc sock_step (S_unix u, w) (s', w')) ->
  called type b s w (c_end (vt_call f non m (handle type b s) w)).
Proof. intros K A0 M. apply vt_called. intros A1. rewrite (A0 A1) in K. apply class_unix in K as [u ->]. apply M. Qed.
Lemma raw_called {A} f (non : A) m type b s w : class_of s = Some type ->
  (C_ASGN type f = true -> type = ptpmgmt_SockRaw) ->
  (forall u, exists a s' w', m (S_raw u) w = Some (a, (s', w')) /\ rtc sock_step (S_raw u, w) (s', w')) ->
  called type b s w (c_end (vt_call f non m (handle type b s) w)).
Proof. intros K A0 M. apply vt_called. intros A1. rewrite (A0 A1) in K. apply class_raw in K as [u ->]. apply M. Qed.
Lemma str_called f str m type b s w : class_of s = Some type ->
  (C_ASGN type f = true -> type = ptpmgmt_SockUnix) ->
  (forall v u, setter (W := W) (S_unix u) (S_unix (m v u).2)) ->
  called type b s w (c_end (vt_call f false (str_call str m) (handle type b s) w)).
Proof.
  intros K A0 M. apply unix_called; [done..|]. intros u. unfold str_call. rewrite usk_pure.
  destruct str; [|by eapply no_method]. eapply method; [done|]. by apply step_set.
Qed.
Lemma send_called msg addr a u w :
  exists r s' w', c_sendTo msg addr a (S_unix u) w = Some (r, (s', w')) /\ rtc sock_step (S_unix u, w) (s', w').
Proof.
  unfold c_sendTo, valid_usk. destruct msg as [msg|]; [|by eapply no_method].
  destruct addr as [addr|]; [|by eapply no_method]. destruct (0 <? len msg); [|by eapply no_method].
  pose proof (step_sendTo u msg (cstr addr) a w) as S. destruct (sendTo _ _ _ _ _) as [r w']. by eapply method.
Qed.
Lemma if_called f m type b s w : class_of s = Some type ->
  (C_ASGN type f = true -> type <> ptpmgmt_SockUnix) ->
  (forall p, setter (W := W) (S_ip p) (S_ip (set_p_if (m (p_if p)).2 p))) ->
  (forall r, setter (W := W) (S_raw r) (S_raw (set_r_if (m (r_if r)).2 r))) ->
  called type b s w (c_end (vt_call f false (valid_isk m) (handle type b s) w)).
Proof. intros K A0 P R. apply vt_called. intros A. apply isk_called; [|done..]. by eapply not_unix, A0. Qed.
Lemma setAll_called f m type b s w ifObj cfg section : class_of s = Some type ->
  (C_ASGN type f = true -> type <> ptpmgmt_SockUnix) ->
  match cfg with Some cfg => cfg_reach cfg | None => True end ->
  (forall o cfg, cfg_reach cfg -> (forall u, s <> S_unix u) ->
     exists a s' w', m o cfg (section_arg section) s w = Some (a, (s', w')) /\ rtc sock_step (s, w) (s', w')) ->
  called type b s w (c_end (vt_call f false (C2CPP_func2 ifObj cfg section m) (handle type b s) w)).
Proof.
  intros K A0 R M. apply vt_called. intros A. unfold C2CPP_func2. destruct ifObj as [o|]; [|by eapply no_method].
  destruct cfg as [cfg|]; [|by eapply no_method]. apply M; [done|]. by eapply not_unix, A0.
Qed.
Lemma tpoll_called t s w : exists (a : bool * option Z) s' w',
  match t with
  | Some t => '(r, rest, w) ← tpoll (base_of s) t w; Some ((r, Some rest), (s, w))
  | None => let '(r, w) := poll (base_of s) 0 w in Some ((r, None), (s, w))
  end = Some (a, (s', w')) /\ rtc sock_step (s, w) (s', w').
Proof.
  destruct t as [t|].
  - destruct (tpoll_total (base_of s) t w) as (r & rest & w' & E). rewrite E. eapply method; [done|by eapply step_tpoll].
  - pose proof (step_poll s 0 w) as S. destruct (poll _ 0 w) as [r w']. by eapply method.
Qed.

Ltac asgn type := let A := fresh in intros A; by destruct type.
Ltac on_unix type := apply unix_called; [done|asgn type|].
Ltac on_str type := apply str_called; [done|asgn type|intros; constructor].
Ltac by_step S := eapply method; [done|exact S].
Lemma common_called c type b s w :
  match c with C_close | C_init | C_send _ | C_rcv _ _ | C_getFd | C_poll _ | C_tpoll _ => True | _ => False end ->
  called type b s w (c_run find_name find_index c (handle type b s) w).
Proof.
  intros Hc. destruct c; try done; cbn [c_run]; apply sk_called.
  - pose proof (step_close s w) as S. destruct (socket_close s w). by_step S.
  - pose proof (step_init s w) as S. destruct (socket_init s w) as [r [s' w']]. by_step S.
  - destruct s as [u|p|r]; cbn [socket_send].
    + pose proof (step_send_unix u msg w) as S. destruct (SockUnix_send u msg w). by_step S.
    + pose proof (step_send_ip p msg w) as S. destruct (SockIp_send p msg w). by_step S.
    + pose proof (step_send_raw r msg w) as S. destruct (SockRaw_send r msg w). by_step S.
  - destruct s as [u|p|r]; cbn [socket_rcv].
    + pose proof (step_rcv_unix u bufSize block w) as S. destruct (SockUnix_rcv u _ _ w). by_step S.
    + pose proof (step_rcv_ip p bufSize block w) as S. destruct (SockIp_rcv p _ _ w). by_step S.
    + pose proof (step_rcv_raw r bufSize block w) as S. destruct (SockRaw_rcv r _ _ w). by_step S.
  - by eapply no_method.
  - pose proof (step_poll s timeout_ms w) as S. destruct (poll _ _ w). by_step S.
  - apply tpoll_called.
Qed.
Lemma getters_called c type b s w : class_of s = Some type ->
  match c with C_getPeerAddress | C_isPeerAddressAbstract | C_getSelfAddress | C_isSelfAddressAbstract
  | C_getLastFrom | C_isLastFromAbstract => True | _ => False end ->
  called type b s w (c_run find_name find_index c (handle type b s) w).
Proof. intros K Hc. destruct c; try done; cbn [c_run]; on_unix type; intros u; by eapply no_method. Qed.
Lemma unix_calls_called c type b s w : call_cfg c -> class_of s = Some type ->
  match c with C_setPeerAddress _ | C_setPeerAddressAbstract _ | C_setPeerAddressCfg _ _ | C_setSelfAddress _
  | C_setSelfAddressAbstract _ | C_setDefSelfAddress _ _ _ | C_sendTo _ _ | C_sendToA _ _ | C_rcvFrom _ _ _ _ _
  | C_rcvFromA _ _ _ => True | _ => False end ->
  called type b s w (c_run find_name find_index c (handle type b s) w).
Proof.
  intros Cf K Hc. destruct c; try done; cbn [c_run call_cfg] in *.
  - on_str type.
  - on_str type.
  - on_unix type. intros u. unfold valid_usk, try_m, C2CPP_func. destruct cfg as [cfg|]; [|by eapply no_method].
    destruct (cfg_values cfg (section_arg section) Cf) as ([v E] & _).
    unfold setPeerAddress_cfg. rewrite E. cbn [mbind option_bind].
    pose proof (step_set _ _ w (set_peer (W := W) v false u)) as S. destruct (setPeerAddress v false u). by_step S.
  - on_str type.
  - on_str type.
  - on_unix type. intros u. unfold valid_usk.
    pose proof (step_set _ _ w (set_def (str_arg rootBase) (str_arg useDef) homeDir u w)) as S.
    destruct (setDefSelfAddress _ _ _ u w) as [r [u' h]]. by_step S.
  - on_unix type. intros u. apply send_called.
  - on_unix type. intros u. apply send_called.
  - on_unix type. intros u. unfold valid_usk. destruct (buf && _); [|by eapply no_method].
    pose proof (step_rcvFrom u bufSize block [] w) as S. destruct (rcvFrom u _ _ _ w) as [[[? ?] ?] ?]. by_step S.
  - on_unix type. intros u. unfold valid_usk. destruct (buf && _); [|by eapply no_method].
    pose proof (step_rcv_last u bufSize block w) as S. destruct (rcvFrom_last u _ _ w) as [? [? ?]]. by_step S.
Qed.
Lemma if_calls_called c type b s w : call_cfg c -> class_of s = Some type ->
  match c with C_setIfUsingName _ | C_setIfUsingIndex _ | C_setIf _ | C_setAll _ _ _ | C_setAllInit _ _ _ => True
  | _ => False end ->
  called type b s w (c_run find_name find_index c (handle type b s) w).
Proof.
  intros Cf K Hc. destruct c; try done; cbn [c_run call_cfg] in *.
  - apply if_called; [done|asgn type|..]; intros x; destruct ifName; cbn [snd];
      rewrite ?set_p_if_same, ?set_r_if_same; constructor.
  - apply if_called; [done|asgn type|..]; intros; constructor.
  - apply if_called; [done|asgn type|..]; intros x; destruct ifObj; cbn [snd];
      rewrite ?set_p_if_same, ?set_r_if_same; constructor.
  - apply setAll_called; [done|asgn type|done|]. intros o c R N. unfold try_m.
    destruct (socket_setAll_ok o c (section_arg section) s R N) as (r & s' & -> & S & _).
    eapply method; [done|by apply step_set].
  - apply setAll_called; [done|asgn type|done|]. intros o c R N.
    destruct (socket_setAll_ok o c (section_arg section) s R N) as (r & s' & _ & S & E). rewrite E.
    apply (step_set _ _ w) in S. destruct r; [|by_step S]. pose proof (step_init s' w) as I.
    destruct (socket_init s' w) as [r [s2 w2]]. exists r, s2, w2. split; [done|].
    eapply rtc_l; [exact S|]. by apply rtc_once.
Qed.
Lemma ip_called {A} f (non : A) m type b s w : class_of s = Some type ->
  (C_ASGN type f = true -> type = ptpmgmt_SockIp4 \/ type = ptpmgmt_SockIp6) ->
  (forall p, (type = ptpmgmt_SockIp6 -> m_domain p = AF_INET6) ->
     exists a s' w', m (S_ip p) w = Some (a, (s', w')) /\ rtc sock_step (S_ip p, w) (s', w')) ->
  called type b s w (c_end (vt_call f non m (handle type b s) w)).
Proof.
  intros K A0 M. apply vt_called. intros A1. destruct (A0 A1) as [->| ->].
  - apply class_ip4 in K as [p ->]. by apply M.
  - apply class_ip6 in K as (p & -> & D). by apply M.
Qed.
Lemma cfg_setter_called {S} (inj : S -> socket) (m : ConfigFile -> string -> S -> option (bool * S)) cfg section (x : S) w :
  match cfg with Some cfg => cfg_reach cfg | None => True end ->
  (forall cfg sec, cfg_reach cfg -> exists r x', m cfg sec x = Some (r, x') /\ setter (W := W) (inj x) (inj x')) ->
  exists r x', try_m (C2CPP_func cfg section m) x w = Some (r, (x', w)) /\ rtc sock_step (inj x, w) (inj x', w).
Proof.
  intros R M. unfold try_m, C2CPP_func. destruct cfg as [cfg|]; cbn [mbind option_bind].
  - destruct (M cfg (section_arg section) R) as (r & x' & -> & S'). exists r, x'. split; [done|].
    by apply rtc_once, step_set.
  - exists false, x. split; [done|apply rtc_refl].
Qed.
Lemma ip_calls_called c type b s w : call_cfg c -> class_of s = Some type ->
  match c with C_setUdpTtl _ | C_setUdpTtlCfg _ _ | C_setScope _ | C_setScopeCfg _ _ => True | _ => False end ->
  called type b s w (c_run find_name find_index c (handle type b s) w).
Proof.
  intros Cf K Hc. destruct c; try done; cbn [c_run call_cfg] in *.
  - apply ip_called; [done|intros A; destruct type; auto; done|]. intros p _. rewrite ipsk_pure.
    eapply method; [done|]. apply step_set. constructor.
  - apply ip_called; [done|intros A; destruct type; auto; done|]. intros p _.
    destruct (cfg_setter_called S_ip setUdpTtl_cfg cfg section p w Cf) as (r & p' & E & R).
    { intros c sec Rc. destruct (cfg_setters_ok c sec Rc) as (_ & F & _). destruct (F p) as (r & p' & E).
      exists r, p'. split; [done|]. by eapply set_ttl_cfg. }
    unfold valid_ipsk. rewrite E. by exists r, (S_ip p'), w.
  - apply vt_called. intros A. destruct type; try discriminate A. apply class_ip6 in K as (p & -> & D).
    rewrite ip6sk_ipsk, ipsk_pure by done. eapply method; [done|]. apply step_set. constructor.
  - apply vt_called. intros A. destruct type; try discriminate A. apply class_ip6 in K as (p & -> & D).
    rewrite ip6sk_ipsk by done.
    destruct (cfg_setter_called S_ip setScope_cfg cfg section p w Cf) as (r & p' & E & R).
    { intros c sec Rc. destruct (cfg_setters_ok c sec Rc) as (_ & _ & F & _). destruct (F p) as (r & p' & E).
      exists r, p'. split; [done|]. by eapply set_scope_cfg. }
    unfold valid_ipsk. rewrite E. by exists r, (S_ip p'), w.
Qed.
Lemma raw_calls_called c type b s w : call_cfg c -> class_of s = Some type ->
  match c with C_setPtpDstMacStr _ | C_setPtpDstMac _ | C_setPtpDstMacCfg _ _ | C_setSocketPriority _
  | C_setSocketPriorityCfg _ _ => True | _ => False end ->
  called type b s w (c_run find_name find_index c (handle type b s) w).
Proof.
  intros Cf K Hc. destruct c; try done; cbn [c_run call_cfg] in *; (apply raw_called; [done|asgn type|]; intros u).
  - rewrite rsk_pure. destruct str; [|by eapply no_method]. eapply method; [done|]. apply step_set. constructor.
  - rewrite rsk_pure. destruct mac as [mac|]; [|by eapply no_method]. destruct (0 <? len mac); [|by eapply no_method].
    eapply method; [done|]. apply step_set. constructor.
  - destruct (cfg_setter_called S_raw setPtpDstMac_cfg cfg section u w Cf) as (r & u' & E & R).
    { intros c sec Rc. destruct (cfg_setters_ok c sec Rc) as (_ & _ & _ & F & _). destruct (F u) as (r & u' & E).
      exists r, u'. split; [done|]. by eapply set_mac_cfg. }
    unfold valid_rsk. rewrite E. by exists r, (S_raw u'), w.
  - rewrite rsk_pure. eapply method; [done|]. apply step_set. constructor.
  - destruct (cfg_setter_called S_raw setSocketPriority_cfg cfg section u w Cf) as (r & u' & E & R).
    { intros c sec Rc. destruct (cfg_setters_ok c sec Rc) as (_ & _ & _ & _ & F). destruct (F u) as (r & u' & E).
      exists r, u'. split; [done|]. by eapply set_priority_cfg. }
    unfold valid_rsk. rewrite E. by exists r, (S_raw u'), w.
Qed.
Lemma c_run_called c type b s w : call_cfg c -> class_of s = Some type ->
  called type b s w (c_run find_name find_index c (handle type b s) w).
Proof.
  intros Cf K. destruct c;
    first [by apply common_called|by apply getters_called|by apply unix_calls_called|by apply if_calls_called
          |by apply ip_calls_called|by apply raw_calls_called].
Qed.
Lemma c_runs_called l type b s w : Forall call_cfg l -> class_of s = Some type ->
  called type b s w (c_runs find_name find_index l (handle type b s) w).
Proof.
  intros Cf. revert s w. induction Cf as [|c l Hc _ IH]; intros s w K; cbn [c_runs].
  { exists s, w. split; [done|apply rtc_refl]. }
  destruct (c_run_called c type b s w Hc K) as (s1 & w1 & -> & R). cbn [mbind option_bind].
  destruct (IH s1 w1) as (s2 & w2 & -> & R2). { by rewrite <- K; apply (sock_rtc_class _ _ R). }
  exists s2, w2. split; [done|]. by etrans.
Qed.

(** C28: A C program that allocates a socket of a class and calls any functions of
    its structure, in any order and with any arguments, is never undefined and
    stops at no exception: each call is a sequence of methods of the object (so
    that [sock_step] describes C programs too), the structure keeps its table
    and its object keeps its class, and [free] leaves the descriptors that were
    open before. *)
Theorem c_sockets_safe mem hdr type sk w0 l :
  ptpmgmt_sk_alloc mem hdr type = Some sk -> Forall call_cfg l ->
  exists s0 s w, sk = handle type false s0 /\ socket_new s0 /\
    c_runs find_name find_index l sk w0 = Some (handle type false s, w) /\
    rtc sock_step (s0, w0) (s, w) /\ class_of s = Some type /\
    open_fds (c_free (handle type false s) w) = open_fds w0.
Proof.
  unfold ptpmgmt_sk_alloc, ptpmgmt_sk_alloc_all. intros A Cf. destruct mem; [cbn [negb] in A|done].
  destruct (new_socket type hdr) as [s0|] eqn:N; [|done]. injection A as <-.
  assert (socket_new s0 /\ class_of s0 = Some type) as [Ns K].
  { unfold socket_new. destruct type; cbn in N; simplify_eq; eauto 8. }
  destruct (c_runs_called l type false s0 w0 Cf K) as (s & w & E & R). exists s0, s, w.
  split; [done|]. split; [done|]. split; [exact E|]. split; [done|].
  split; [rewrite <- K; apply (sock_rtc_class _ _ R)|].
  assert (socket_own (open_fds w0) (s0, w0)) as O.
  { by apply socket_new_own. }
  change (c_free (handle type false s) w) with (SockBase_destroy (base_of s) w).
  apply destroy_own. by apply (sock_rtc_own _ _ _ O R).
Qed.
End Calls.

(** * The sockets on a small system

    An instance of the system calls with its laws, and the theorems on the sockets
    at work on it. *)

#[local] Open Scope sock_scope.

(** ** A small system *)

(** Its descriptors, files, user, next message and its clock, the frames sent. *)
Record demo_os := mk_demo_os {
  d_fds : gset Z; d_files : gset (list byte); d_uid : Z; d_home : option (list byte);
  d_inbox : Z * list byte * list byte; d_sent : list (sockaddr * list byte); d_now : Z
}.
Definition set_d_fds v d := mk_demo_os v (d_files d) (d_uid d) (d_home d) (d_inbox d) (d_sent d) (d_now d).
Definition set_d_files v d := mk_demo_os (d_fds d) v (d_uid d) (d_home d) (d_inbox d) (d_sent d) (d_now d).
Definition set_d_sent v d := mk_demo_os (d_fds d) (d_files d) (d_uid d) (d_home d) (d_inbox d) v (d_now d).
Definition set_d_now v d := mk_demo_os (d_fds d) (d_files d) (d_uid d) (d_home d) (d_inbox d) (d_sent d) v.
Definition demo_fd (d : demo_os) : Z := Z.of_nat (base.fresh (set_map Z.to_nat (d_fds d) : gset nat)).
#[global] Instance demo_os_calls : Os demo_os := {|
  os_socket _ d := (demo_fd d, set_d_fds ({[demo_fd d]} ∪ d_fds d) d);
  os_setsockopt _ _ d := (true, d);
  os_bind _ a d :=
    match a with
    | SA_UN path =>
        if isAddressAbstract path then (true, d)
        else if decide (cstr path ∈ d_files d) then (false, d)
        else (true, set_d_files ({[cstr path]} ∪ d_files d) d)
    | _ => (true, d)
    end;
  os_close fd d := set_d_fds (d_fds d ∖ {[fd]}) d;
  os_unlink p d := set_d_files (d_files d ∖ {[cstr p]}) d;
  os_sendto _ a m d := (len m, set_d_sent ((a, m) :: d_sent d) d);
  os_recv _ _ _ d := (d_inbox d, d);
  os_poll _ t d := ((1, true), set_d_now (d_now d + 1500000) d);
  os_getuid := d_uid;
  os_getpid _ := 4321;
  os_home := d_home;
  os_dir _ _ := true;
  os_clock d := Some (mk_timespec ((d_now d / NSEC_PER_SEC) mod 2 ^ 63) (d_now d mod NSEC_PER_SEC))
|}.
#[global] Instance demo_os_view : OsView demo_os := {| open_fds := d_fds; bound_files := d_files |}.
#[global] Instance demo_os_laws : OsLaws demo_os.
Proof.
  split; try done.
  - intros dm w. cbn. rewrite (proj2 (Z.ltb_ge _ _)) by (unfold demo_fd; lia). split; [|done].
    intros E. apply (is_fresh (set_map Z.to_nat (d_fds w) : gset nat)). apply elem_of_map.
    exists (demo_fd w). split; [|done]. unfold demo_fd. by rewrite Nat2Z.id.
  - intros fd a w. cbn. destruct a; try done. destruct (isAddressAbstract _); [done|]. by destruct (decide _).
  - intros fd path w A. cbn. rewrite A. by destruct (decide _).
  - intros fd a w. cbn. destruct a; try done. destruct (isAddressAbstract _); [done|]. by destruct (decide _).
  - intros w t [= <-]. cbn [tv_sec tv_nsec]. split; apply Z.mod_pos_bound; unfold NSEC_PER_SEC; lia.
Qed.
Definition demo_world : demo_os := mk_demo_os {[0; 1; 2]} ∅ 1000 (Some (bytes "/home/u")) (0, [], []) [] (5 * 10 ^ 9).

(** ** The theorems at work *)

Definition demo_self : SockUnix := (setSelfAddress (bytes "/tmp/a") false SockUnix_new).2.
Definition demo_open : SockUnix * demo_os := (SockUnix_init (demo_self, demo_world)).2.
(** Another socket that talks to the first. *)
Definition demo_peer : SockUnix :=
  (setPeerAddress (bytes "/tmp/a") false (set_u_base (mk_SockBase 4 true) SockUnix_new)).2.
Definition demo_abstract : SockUnix :=
  (setPeerAddress (bytes "/tmp/a") true (set_u_base (mk_SockBase 4 true) SockUnix_new)).2.
Definition demo_path : list byte := bytes "/tmp/a" ++ repeat x00 102.
Definition demo_mail : demo_os := mk_demo_os {[4]} ∅ 1000 None (2, bytes "hi", demo_path) [] 0.

Lemma socket_no_leak_witness :
  open_fds demo_open.2 = {[3]} ∪ open_fds demo_world /\
  open_fds (socket_close (S_unix demo_open.1) demo_open.2).2 = open_fds demo_world.
Proof.
  destruct (socket_no_leak (S_unix SockUnix_new) demo_world (S_unix demo_open.1) demo_open.2) as (H & _ & _ & E).
  - by left.
  - eapply rtc_l; [apply (step_set _ (S_unix demo_self)); apply (set_self (bytes "/tmp/a") false SockUnix_new)|].
    eapply rtc_l; [apply (step_init (S_unix demo_self) demo_world)|].
    assert ((socket_init (S_unix demo_self) demo_world).2 = (S_unix demo_open.1, demo_open.2)) as ->
      by (vm_compute; reflexivity). apply rtc_refl.
  - split; [|exact E]. rewrite H. vm_compute. reflexivity.
Defined.
Lemma unix_file_life_witness :
  bound_files demo_open.2 = {[bytes "/tmp/a"]} ∪ ∅ /\
  bound_files (SockBase_destroy (u_base demo_open.1) demo_open.2) = {[bytes "/tmp/a"]} ∪ ∅.
Proof.
  destruct (unix_file_life demo_self demo_world demo_open.1 demo_open.2) as (_ & F & _ & D & _).
  - reflexivity.
  - vm_compute. reflexivity.
  - split; [exact F|exact D].
Defined.
Lemma unix_rcv_peer_witness :
  SockUnix_rcv demo_peer 10 true demo_mail = ((2, bytes "hi"), demo_mail) /\
  (SockUnix_rcv demo_abstract 10 true demo_mail).1.1 = -1.
Proof.
  split.
  - destruct (unix_rcv_peer demo_peer demo_self 10 true demo_mail 2 (bytes "hi") demo_path demo_mail) as [E _];
      [reflexivity..|]. rewrite E. vm_compute. reflexivity.
  - apply (unix_rcv_peer demo_abstract demo_self 10 true demo_mail 2 (bytes "hi") demo_path demo_mail); reflexivity.
Defined.
Lemma second_self_refused_witness :
  let d1 := setDefSelfAddress (bytes "/run/a.") [] [] SockUnix_new demo_world in
  let i1 := SockUnix_init (d1.2.1, demo_world) in
  let d2 := setDefSelfAddress (bytes "/run/b.") [] d1.2.2 SockUnix_new i1.2.2 in
  m_me d2.2.1 = bytes "/var/run/user/1000/pmc.4321" /\ (SockUnix_init (d2.2.1, i1.2.2)).1 = false.
Proof.
  cbv zeta. set (d1 := setDefSelfAddress (bytes "/run/a.") [] [] SockUnix_new demo_world).
  set (i1 := SockUnix_init (d1.2.1, demo_world)).
  set (d2 := setDefSelfAddress (bytes "/run/b.") [] d1.2.2 SockUnix_new i1.2.2).
  destruct (second_self_refused (bytes "/run/a.") (bytes "/run/b.") [] [] SockUnix_new d1.2.1 d1.2.2 i1.2.1
    SockUnix_new d2.2.1 d2.2.2 demo_world i1.2.2) as [E F]; [done|vm_compute; reflexivity..|].
  split; [rewrite E; vm_compute; reflexivity|exact F].
Defined.
Definition demo_if : IfInfo := mk_IfInfo true 2 (bytes "eth0") [x02; x00; x00; x00; x00; x01].
Lemma udp_setAllInit_group_witness :
  exists s' w', SockIp_setAllInit demo_if clear_sections "global" SockIp6_new demo_world = Some (true, (s', w')) /\
    m_addr s' = SA_IN6 ([xff; x0e] ++ repeat x00 12 ++ [x01; x81]) 320 0.
Proof.
  destruct (udp_setAllInit_group demo_if clear_sections "global" SockIp6_new demo_world) as (r & s' & w' & scope & E & C & _ & G).
  - constructor.
  - reflexivity.
  - by right.
  - vm_compute in C. injection C as <-. assert (r = true) as -> by (vm_compute in E; congruence).
    exists s', w'. split; [exact E|]. exact (proj2 (G eq_refl)).
Defined.
Definition demo_raw : SockRaw :=
  (setSocketPriority 3 (setPtpDstMac (mk_Binary [x01; x1b; x19; x00; x00; x00] 6)
     (set_r_if (setIf demo_if SockBaseIf_new).2 (SockRaw_new (repeat x00 14)))).2).2.
Lemma raw_frame_witness :
  d_sent (SockRaw_send (SockRaw_init (demo_raw, demo_world)).2.1 (bytes "m") demo_world).2 <> [] /\
  exists frame, frame = [x01; x1b; x19; x00; x00; x00; x02; x00; x00; x00; x00; x01; x88; xf7; x6d] /\
    (SockRaw_send (SockRaw_init (demo_raw, demo_world)).2.1 (bytes "m") demo_world).1 = true.
Proof.
  destruct (raw_frame demo_raw demo_world (SockRaw_init (demo_raw, demo_world)).2.1
    (SockRaw_init (demo_raw, demo_world)).2.2 (bytes "m")) as (frame & F & S & _);
    [vm_compute; reflexivity|reflexivity|reflexivity|vm_compute; lia|].
  rewrite S. split; [done|]. exists frame. split; [exact F|]. subst. vm_compute. reflexivity.
Defined.
Lemma tpoll_left_witness :
  exists left, tpoll (mk_SockBase 3 true) 10 demo_world = Some (true, left, set_d_now (5 * 10 ^ 9 + 1500000) demo_world) /\
    left = 9.
Proof.
  destruct (tpoll_left (mk_SockBase 3 true) 10 demo_world (mk_timespec 5 0) (mk_timespec 5 1500000)) as (l & E & _ & P & _);
    [reflexivity|lia|reflexivity..|unfold clock_ok, NSEC_PER_SEC; cbn; lia|unfold clock_ok, NSEC_PER_SEC; cbn; lia|].
  exists l. split; [exact E|]. rewrite P; [reflexivity|]. unfold time_of, NSEC_PER_SEC. cbn. lia.
Defined.

Definition demo_calls : list c_call :=
  [C_setSelfAddress (Some (bytes "/tmp/a")); C_init; C_setScope 3; C_setPeerAddress None;
   C_rcvFrom true 10 None None true; C_setAllInit (Some demo_if) (Some clear_sections) None].
Lemma c_sockets_safe_witness :
  exists sk s w, ptpmgmt_sk_alloc true [] ptpmgmt_SockUnix = Some sk /\
    c_runs (fun _ => None) (fun _ => None) demo_calls sk demo_world = Some (handle ptpmgmt_SockUnix false s, w) /\
    open_fds (c_free (handle ptpmgmt_SockUnix false s) w) = open_fds demo_world.
Proof.
  destruct (c_sockets_safe (fun _ => None) (fun _ => None) true [] ptpmgmt_SockUnix
    (handle ptpmgmt_SockUnix false (S_unix SockUnix_new)) demo_world demo_calls) as (s0 & s & w & _ & _ & E & _ & _ & F).
  - reflexivity.
  - repeat constructor.
  - exists (handle ptpmgmt_SockUnix false (S_unix SockUnix_new)), s, w. split; [reflexivity|]. by split.
Defined.
