(* ===== verification/Opt.v ===== *)
(** * Opt.v: the options of the command line

    [Options] of [src/src/opt.cpp].  [getopt_long] is a parameter: what it returns
    until -1, each with [optarg] and [optind], and [optind] at the end.  It is
    given the names of the long options by address, in the memory of the [Buf]
    that [insert] lets grow; reading a name of memory that [realloc] moved is
    [None].  What follows the last element of the vector of long options, which
    [insert] does not end with zeros, is taken as zeros. *)

From S2P Require Import Prelude CStr Types Codec Bin Text.

#[local] Open Scope list_scope.

(** ** Memory of the names *)

(** Blocks of [malloc], by a number. *)
Record names_mem := mk_names { n_blocks : gmap nat (list byte); n_next : nat }.
(** What [realloc] does: it fails, or keeps or moves the block. *)
Inductive realloc_res := R_fail | R_same | R_moved.
(** [Buf]: its block, if any. *)
Definition block_of (b : option nat) (h : names_mem) : option (list byte) :=
  match b with None => Some [] | Some n => n_blocks h !! n end.
(** [Buf::alloc] to a size above 0. *)
Definition Buf_alloc (r : realloc_res) (size : Z) (b : option nat) (h : names_mem) : option (bool * option nat * names_mem) :=
  old ← block_of b h;
  if size <=? len old then Some (true, b, h)
  else
    let new := old ++ repeat x00 (Z.to_nat (size - len old)) in
    match r, b with
    | R_fail, _ => Some (false, b, h)
    | R_same, Some n => Some (true, b, mk_names (<[n := new]> (n_blocks h)) (n_next h))
    | _, _ =>
        let blocks := match b with Some n => delete n (n_blocks h) | None => n_blocks h end in
        Some (true, Some (n_next h), mk_names (<[n_next h := new]> blocks) (S (n_next h)))
    end.

(** ** Options *)

Record Pmc_option := mk_Pmc_option {
  short_name : byte; long_name : list byte; have_arg : bool; long_only : bool;
  help_msg : list byte; arg_help : list byte; def_val : list byte
}.
(** [option] of [getopt.h]; its name is a place in a block. *)
Record lopt := mk_lopt { lo_block : nat; lo_off : Z; lo_has_arg : bool; lo_val : byte }.
Record helpStore := mk_helpStore { m_start : list byte; m_end : list byte }.

Record Options := mk_Options {
  m_max_arg_name : Z; m_long_opts_list : list lopt; m_strings : option nat; m_names : names_mem;
  m_last_strings : Z; m_opts : gmap nat (list byte); m_net_opts : list byte; m_all_opts : list byte;
  m_all_short_opts : list byte; m_with_opts : list byte; m_msg : list byte; m_net_select : byte;
  m_argc : Z; m_end_optind : Z; m_useDef : bool; help : list byte; helpVec : list helpStore
}.
(** The key of an option in [m_opts]. *)
Definition key (c : byte) : nat := Byte.to_nat c.

Definition set_help_lists (max : Z) (h : list byte) (v : list helpStore) (o : Options) : Options :=
  mk_Options max (m_long_opts_list o) (m_strings o) (m_names o) (m_last_strings o) (m_opts o) (m_net_opts o)
    (m_all_opts o) (m_all_short_opts o) (m_with_opts o) (m_msg o) (m_net_select o) (m_argc o) (m_end_optind o)
    (m_useDef o) h v.
Definition set_opt_lists (net all short with_ : list byte) (def : bool) (o : Options) : Options :=
  mk_Options (m_max_arg_name o) (m_long_opts_list o) (m_strings o) (m_names o) (m_last_strings o) (m_opts o) net
    all short with_ (m_msg o) (m_net_select o) (m_argc o) (m_end_optind o) def (help o) (helpVec o).
Definition set_longs (l : list lopt) (b : option nat) (h : names_mem) (last : Z) (o : Options) : Options :=
  mk_Options (m_max_arg_name o) l b h last (m_opts o) (m_net_opts o)
    (m_all_opts o) (m_all_short_opts o) (m_with_opts o) (m_msg o) (m_net_select o) (m_argc o) (m_end_optind o)
    (m_useDef o) (help o) (helpVec o).
Definition set_parsed (opts : gmap nat (list byte)) (msg : list byte) (net : byte) (argc ind : Z) (o : Options) : Options :=
  mk_Options (m_max_arg_name o) (m_long_opts_list o) (m_strings o) (m_names o) (m_last_strings o) opts (m_net_opts o)
    (m_all_opts o) (m_all_short_opts o) (m_with_opts o) msg net argc ind (m_useDef o) (help o) (helpVec o).
Definition set_m_msg (v : list byte) (o : Options) : Options :=
  set_parsed (m_opts o) v (m_net_select o) (m_argc o) (m_end_optind o) o.
Definition set_m_net_select (v : byte) (o : Options) : Options :=
  set_parsed (m_opts o) (m_msg o) v (m_argc o) (m_end_optind o) o.
Definition set_opt (c : byte) (v : list byte) (o : Options) : Options :=
  set_parsed (<[key c := v]> (m_opts o)) (m_msg o) (m_net_select o) (m_argc o) (m_end_optind o) o.
Definition set_ended (argc ind : Z) (o : Options) : Options :=
  set_parsed (m_opts o) (m_msg o) (m_net_select o) argc ind o.

Definition ch (s : string) : byte := default x00 (head (bytes s)).
Definition opt_arg (c ln hm ah dv : string) : Pmc_option :=
  mk_Pmc_option (ch c) (bytes ln) true false (bytes hm) (bytes ah) (bytes dv).
Definition opt_flag (c hm : string) : Pmc_option := mk_Pmc_option (ch c) [] false false (bytes hm) [] [].
Definition opt_long (c ln : string) : Pmc_option := mk_Pmc_option (ch c) (bytes ln) true true [] [] [].
Definition startOptions : list Pmc_option := [
  opt_arg "b" "" "boundary hops" "num" "1";
  opt_arg "d" "domainNumber" "domain number" "num" "0";
  opt_arg "f" "" "read configuration from 'file'" "file" "";
  opt_flag "h" "prints this message and exits";
  opt_arg "i" "" "interface device to use" "dev" "";
  opt_arg "s" "uds_address" "server address for UDS" "path" "'/var/run/ptp/ptp4l'";
  opt_arg "t" "transportSpecific" "transport specific field" "hex" "0x0";
  opt_flag "v" "prints the software version and exits";
  opt_flag "z" "send zero length TLV values with the GET actions";
  opt_long "n" "network_transport"; opt_long "M" "ptp_dst_mac"; opt_long "S" "udp6_scope";
  opt_long "T" "udp_ttl"; opt_long "P" "socket_priority"; opt_long "A" "active_key_id";
  opt_long "B" "spp"; opt_long "U" "allow_unauth"; opt_long "F" "sa_file" ].

(** ** Help *)

(** [helpStore::get]; [None] is a [string] of a negative length. *)
Definition help_get (length : Z) (h : helpStore) : option (list byte) :=
  if bool_decide (m_end h = []) then Some (m_start h ++ [x0a])
  else if length <? len (m_start h) then None
  else Some (m_start h ++ repeat x20 (Z.to_nat (length - len (m_start h))) ++ m_end h ++ [x0a]).
Fixpoint help_text (length : Z) (l : list helpStore) : option (list byte) :=
  match l with
  | [] => Some []
  | h :: l => a ← help_get length h; r ← help_text length l; Some (a ++ r)
  end.
(** [update_help] after the vector and the width have changed. *)
Definition update_help (max : Z) (v : list helpStore) (o : Options) : option Options :=
  h ← help_text (max + 7) v; Some (set_help_lists max h v o).

(** ** insert *)

Definition help_line (opt : Pmc_option) : helpStore :=
  mk_helpStore (bytes " -" ++ [short_name opt] ++ (if have_arg opt then bytes " [" ++ arg_help opt ++ bytes "]" else []))
    (help_msg opt ++ (if have_arg opt && negb (bool_decide (def_val opt = []))
                      then bytes ", default " ++ def_val opt else [])).
Definition opt_legal (opt : Pmc_option) (o : Options) : bool :=
  negb (bool_decide (short_name opt = x00) || bool_decide (short_name opt ∈ bytes ":+-W")) &&
  negb (bool_decide (short_name opt ∈ m_all_opts o)) &&
  (if long_only opt then negb (bool_decide (long_name opt = []))
   else negb (have_arg opt && bool_decide (arg_help opt = [])) && negb (bool_decide (help_msg opt = []))).
(** The short form and its help. *)
Definition insert_short (opt : Pmc_option) (o : Options) : option Options :=
  if long_only opt then Some o
  else
    let short := m_all_short_opts o ++ short_name opt :: (if have_arg opt then [x3a] else []) in
    let max := if have_arg opt then Z.max (m_max_arg_name o) (len (arg_help opt)) else m_max_arg_name o in
    update_help max (helpVec o ++ [help_line opt])
      (set_opt_lists (m_net_opts o) (m_all_opts o) short (m_with_opts o) (m_useDef o) o).
Definition insert_name (opt : Pmc_option) (o : Options) : Options :=
  let with_ := if have_arg opt then m_with_opts o ++ [short_name opt] else m_with_opts o in
  set_opt_lists (m_net_opts o) (m_all_opts o ++ [short_name opt]) (m_all_short_opts o) with_ (m_useDef o) o.
(** [memcpy] of a name and its end into the block. *)
Definition store_name (off : Z) (name block : list byte) : list byte := splice block off (name ++ [x00]).
(** Room for a name in [m_strings]. *)
Definition room (r : realloc_res) (size : Z) (o : Options) : option (bool * option nat * names_mem) :=
  old ← block_of (m_strings o) (m_names o);
  if len old <? size then Buf_alloc r (size + 250) (m_strings o) (m_names o) else Some (true, m_strings o, m_names o).
Definition insert_long (r : realloc_res) (opt : Pmc_option) (o : Options) : option (bool * Options) :=
  if bool_decide (long_name opt = []) then Some (true, o)
  else
    let size := m_last_strings o + len (long_name opt) + 1 in
    '(ok, b, h) ← room r size o;
    if negb ok then Some (false, set_longs (m_long_opts_list o) b h (m_last_strings o) o)
    else
      n ← b;
      block ← n_blocks h !! n;
      let h := mk_names (<[n := store_name (m_last_strings o) (long_name opt) block]> (n_blocks h)) (n_next h) in
      let l := mk_lopt n (m_last_strings o) (have_arg opt) (short_name opt) in
      Some (true, set_longs (m_long_opts_list o ++ [l]) b h size o).
Definition insert (r : realloc_res) (opt : Pmc_option) (o : Options) : option (bool * Options) :=
  if negb (opt_legal opt o) then Some (false, o)
  else o ← insert_short opt o; insert_long r opt (insert_name opt o).

(** ** Construction *)

Definition Options_empty : Options :=
  mk_Options 0 [] None (mk_names ∅ 0) 0 ∅ [] [] [] [] [] x00 0 0 false [] [].
Definition net_help : list helpStore := [
  mk_helpStore (bytes " Network Transport" ++ [x0a]) []; mk_helpStore (bytes " -2") (bytes "IEEE 802.3");
  mk_helpStore (bytes " -4") (bytes "UDP IPV4 (default)"); mk_helpStore (bytes " -6") (bytes "UDP IPV6");
  mk_helpStore (bytes " -u") (bytes "UDS local" ++ [x0a]);
  mk_helpStore (bytes " Other Options" ++ [x0a]) [] ].
(** The result of [insert] is not used. *)
Fixpoint insert_all (r : nat -> realloc_res) (l : list Pmc_option) (o : Options) : option Options :=
  match l with
  | [] => Some o
  | opt :: l => '(_, o) ← insert (r 0%nat) opt o; insert_all (fun n => r (S n)) l o
  end.
Definition useDefOption (r : nat -> realloc_res) (o : Options) : option Options :=
  if m_useDef o then Some o
  else
    let net := bytes "u246" in
    o ← update_help (m_max_arg_name o) (helpVec o ++ net_help)
          (set_opt_lists net (m_all_opts o ++ net) (m_all_short_opts o ++ net) (m_with_opts o) (m_useDef o) o);
    o ← insert_all r startOptions o;
    Some (set_opt_lists (m_net_opts o) (m_all_opts o) (m_all_short_opts o) (m_with_opts o) true o).
Definition Options_new (r : nat -> realloc_res) (useDef : bool) : option Options :=
  if useDef then useDefOption r Options_empty else Some Options_empty.

(** ** Parsing *)

Inductive loop_val := OPT_ERR | OPT_MSG | OPT_HELP | OPT_DONE.
(** The name of a long option, if its memory is still there. *)
Definition name_of (h : names_mem) (l : lopt) : option (list byte) :=
  block ← n_blocks h !! lo_block l; Some (cstr (drop (Z.to_nat (lo_off l)) block)).
Definition long_names (o : Options) : option (list (list byte * bool * byte)) :=
  mapM (fun l => n ← name_of (m_names o) l; Some (n, lo_has_arg l, lo_val l)) (m_long_opts_list o).
Definition lower (c : byte) : byte := if (65 <=? b2z c) && (b2z c <=? 90) then z2b (b2z c + 32) else c.
Definition same_nocase (a b : list byte) : bool := bool_decide (map lower a = map lower b).

Section Parse.
(** [getopt_long] on the short options, the long options and the arguments. *)
Context (getopt_long : list byte -> list (list byte * bool * byte) -> list (list byte) ->
  list (byte * option (list byte) * Z) * Z).
Context (version : list byte).

Definition set_net_transport (arg : list byte) (o : Options) : option Options :=
  if same_nocase arg (bytes "UDPv4") then Some (set_m_net_select (ch "4") o)
  else if same_nocase arg (bytes "UDPv6") then Some (set_m_net_select (ch "6") o)
  else if same_nocase arg (bytes "L2") then Some (set_m_net_select (ch "2") o)
  else None.
(** An option that the switch on the default options leaves. *)
Definition store_opt (c : byte) (optarg : option (list byte)) (o : Options) : option (option Options) :=
  if bool_decide (c ∈ m_net_opts o) then Some (Some (set_m_net_select c o))
  else if bool_decide (c ∈ m_with_opts o) then a ← optarg; Some (Some (set_opt c a o))
  else if bool_decide (c ∈ m_all_opts o) then Some (Some (set_opt c (bytes "1") o))
  else Some None.
(** A null [optarg] where the code needs a string, and [argv] out of its range,
    are [None]. *)
Fixpoint parse_loop (argv : list (list byte)) (l : list (byte * option (list byte) * Z)) (ind : Z) (o : Options)
    : option (loop_val * Options) :=
  match l with
  | [] => Some (OPT_DONE, set_ended (len argv) ind o)
  | (c, optarg, optind) :: l =>
      if bool_decide (c = ch "?") then
        a ← (if optind <? 1 then None else argv !! Z.to_nat (optind - 1));
        Some (OPT_ERR, set_m_msg (bytes "invalid option -- '" ++ a ++ bytes "'") o)
      else if m_useDef o && bool_decide (c = ch "v") then Some (OPT_MSG, set_m_msg version o)
      else if m_useDef o && bool_decide (c = ch "h") then Some (OPT_HELP, o)
      else if m_useDef o && bool_decide (c = ch "n") then
        a ← optarg;
        match set_net_transport a o with
        | Some o => parse_loop argv l ind o
        | None => Some (OPT_ERR, set_m_msg (bytes "Wrong network transport -- '" ++ a ++ bytes "'") o)
        end
      else
        r ← store_opt c optarg o;
        match r with
        | Some o => parse_loop argv l ind o
        | None => Some (OPT_ERR, set_m_msg (bytes "error") o)
        end
  end.
Definition parse_options (argv : list (list byte)) (o : Options) : option (loop_val * Options) :=
  names ← long_names o;
  let '(l, ind) := getopt_long (m_all_short_opts o) names argv in
  parse_loop argv l ind o.
End Parse.

(** ** Results *)

Definition have (c : byte) (o : Options) : bool := match m_opts o !! key c with Some _ => true | None => false end.
Definition val (c : byte) (o : Options) : list byte := default [] (m_opts o !! key c).
(** [atoi]. *)
Definition atoi (s : list byte) : Z := swrap 32 (strtol 10 s).1.
Definition val_i (c : byte) (o : Options) : Z := match m_opts o !! key c with Some v => atoi (cstr v) | None => 0 end.
Definition get_net_transport (o : Options) : byte := m_net_select o.
Definition have_more (o : Options) : bool := m_end_optind o <? m_argc o.
Definition process_next (o : Options) : Z := m_end_optind o.

(** ** The C interface *)

(** A structure that is not NULL, with its object. *)
Definition ptpmgmt_opt_t : Type := option Options.
(** The strings of [ptpmgmt_opt_option] may be NULL. *)
Record ptpmgmt_opt_option := mk_c_option {
  c_short_name : byte; c_long_name : option (list byte); c_have_arg : bool; c_long_only : bool;
  c_help_msg : option (list byte); c_arg_help : option (list byte); c_def_val : option (list byte)
}.
Definition _asn_s (s : option (list byte)) : list byte := match s with Some s => cstr s | None => [] end.
Definition Pmc_option_of (opt : ptpmgmt_opt_option) : Pmc_option :=
  mk_Pmc_option (c_short_name opt) (_asn_s (c_long_name opt)) (c_have_arg opt) (c_long_only opt)
    (_asn_s (c_help_msg opt)) (_asn_s (c_arg_help opt)) (_asn_s (c_def_val opt)).
Definition ptpmgmt_opt_insert (r : realloc_res) (opt : option ptpmgmt_opt_option) (me : ptpmgmt_opt_t)
    : option (bool * ptpmgmt_opt_t) :=
  match me, opt with
  | Some o, Some opt => '(b, o) ← insert r (Pmc_option_of opt) o; Some (b, Some o)
  | _, _ => Some (false, me)
  end.
(** An empty value is NULL. *)
Definition ptpmgmt_opt_val (c : byte) (me : ptpmgmt_opt_t) : option (list byte) :=
  o ← me; if bool_decide (val c o = []) then None else Some (cstr (val c o)).
Definition ptpmgmt_opt_have (c : byte) (me : ptpmgmt_opt_t) : bool := match me with Some o => have c o | None => false end.
Definition ptpmgmt_opt_val_i (c : byte) (me : ptpmgmt_opt_t) : Z := match me with Some o => val_i c o | None => 0 end.
Definition ptpmgmt_opt_get_net_transport (me : ptpmgmt_opt_t) : byte :=
  match me with Some o => get_net_transport o | None => x00 end.
Definition ptpmgmt_opt_have_more (me : ptpmgmt_opt_t) : bool := match me with Some o => have_more o | None => false end.
Definition ptpmgmt_opt_process_next (me : ptpmgmt_opt_t) : Z := match me with Some o => process_next o | None => 0 end.
Definition ptpmgmt_opt_get_help (me : ptpmgmt_opt_t) : option (list byte) := o ← me; Some (cstr (help o)).
Definition ptpmgmt_opt_get_msg (me : ptpmgmt_opt_t) : option (list byte) := o ← me; Some (cstr (m_msg o)).
Definition ptpmgmt_opt_useDefOption (r : nat -> realloc_res) (me : ptpmgmt_opt_t) : option ptpmgmt_opt_t :=
  match me with Some o => o ← useDefOption r o; Some (Some o) | None => Some None end.
Inductive ptpmgmt_opt_loop_val := PTPMGMT_OPT_ERR | PTPMGMT_OPT_MSG | PTPMGMT_OPT_HELP | PTPMGMT_OPT_DONE.
Definition c_loop_val (v : loop_val) : ptpmgmt_opt_loop_val :=
  match v with
  | OPT_MSG => PTPMGMT_OPT_MSG | OPT_HELP => PTPMGMT_OPT_HELP | OPT_DONE => PTPMGMT_OPT_DONE
  | OPT_ERR => PTPMGMT_OPT_ERR
  end.
(** [argv] is [None] when it is NULL. *)
Definition ptpmgmt_opt_parse_options (getopt : list byte -> list (list byte * bool * byte) -> list (list byte) ->
    list (byte * option (list byte) * Z) * Z) (version : list byte) (argv : option (list (list byte))) (me : ptpmgmt_opt_t)
    : option (ptpmgmt_opt_loop_val * ptpmgmt_opt_t) :=
  match me, argv with
  | Some o, Some argv =>
      if 0 <? len argv
      then '(v, o) ← parse_options getopt version argv o; Some (c_loop_val v, Some o)
      else Some (PTPMGMT_OPT_ERR, me)
  | _, _ => Some (PTPMGMT_OPT_ERR, me)
  end.
Definition ptpmgmt_opt_alloc (r : nat -> realloc_res) (mem : bool) : option (option ptpmgmt_opt_t) :=
  if mem then o ← Options_new r true; Some (Some (Some o)) else Some None.
Definition ptpmgmt_opt_alloc_empty (mem : bool) : option ptpmgmt_opt_t := if mem then Some (Some Options_empty) else None.
