(* ===== verification/OptFacts.v ===== *)
(** * OptFacts.v: what the options do

    Inserting options never makes a string of a negative length and keeps the
    names of the long options readable as long as [realloc] leaves the memory in
    its place; parsing is defined on whatever [getopt_long] returns. *)

From S2P Require Import Prelude CStr Types Codec Bin Text Opt.

#[local] Open Scope list_scope.

(** ** Help *)

(** A line that fits the column of the arguments. *)
Definition line_fits (max : Z) (h : helpStore) : Prop := m_end h = [] \/ len (m_start h) <= max + 7.
Lemma help_text_total max l : Forall (line_fits max) l -> exists t, help_text (max + 7) l = Some t.
Proof.
  induction 1 as [|h l F _ [t IH]]; cbn; [eauto|]. rewrite IH. unfold help_get. case_bool_decide; [cbn; eauto|].
  destruct F as [F|F]; [done|]. rewrite (proj2 (Z.ltb_ge _ _)) by lia. cbn. eauto.
Qed.
Lemma line_fits_mono max max' h : max <= max' -> line_fits max h -> line_fits max' h.
Proof. intros L [F|F]; [by left|right; lia]. Qed.
Lemma update_help_total max v o : Forall (line_fits max) v -> exists h, update_help max v o = Some (set_help_lists max h v o).
Proof. intros F. unfold update_help. destruct (help_text_total max v F) as [t ->]. cbn. eauto. Qed.
Lemma help_line_fits opt max : 0 <= max -> (have_arg opt = true -> len (arg_help opt) <= max) -> line_fits max (help_line opt).
Proof.
  intros M A. right. unfold help_line, len in *. cbn [m_start]. rewrite !length_app.
  destruct (have_arg opt); [specialize (A eq_refl); rewrite !length_app|]; vm_compute (bytes _); cbn [length]; lia.
Qed.

(** ** Names *)

(** A name in a block, and its end, before the place of the next name. *)
Definition name_in (block : list byte) (last : Z) (l : lopt) : Prop :=
  0 <= lo_off l < last /\ x00 ∈ take (Z.to_nat (last - lo_off l)) (drop (Z.to_nat (lo_off l)) block).
Record names_inv (o : Options) : Prop := {
  ni_block : forall n, m_strings o = Some n -> exists block, n_blocks (m_names o) !! n = Some block /\
    m_last_strings o <= len block /\ Forall (name_in block (m_last_strings o)) (m_long_opts_list o);
  ni_here : Forall (fun l => m_strings o = Some (lo_block l)) (m_long_opts_list o);
  ni_last : 0 <= m_last_strings o;
  ni_none : m_strings o = None -> m_last_strings o = 0
}.
Lemma cstr_prefix s t n : x00 ∈ take n s -> take n s = take n t -> cstr s = cstr t.
Proof.
  revert s t. induction n as [|n IH]; intros s t; [by intros ?%not_elem_of_nil|].
  destruct s as [|c s]; cbn; [by intros ?%not_elem_of_nil|]. destruct t as [|d t]; [done|].
  intros E [= <- T]. cbn. case_bool_decide as C; [done|]. f_equal. apply (IH s t); [|done].
  apply elem_of_cons in E as [E|E]; [by destruct C|done].
Qed.
Lemma names_live o : names_inv o -> exists names, long_names o = Some names.
Proof.
  intros I. unfold long_names. apply mapM_is_Some. apply Forall_forall. intros l Hl.
  pose proof (proj1 (Forall_forall _ _) (ni_here o I) l Hl) as B.
  cbn in B |- *. destruct (ni_block o I _ B) as (block & E & _). unfold name_of. by rewrite E.
Qed.

(** Names depend on the octets before the place of the next one. *)
Lemma name_kept block block' last last' l : take (Z.to_nat last) block = take (Z.to_nat last) block' -> last <= last' ->
  name_in block last l ->
  name_in block' last' l /\ cstr (drop (Z.to_nat (lo_off l)) block') = cstr (drop (Z.to_nat (lo_off l)) block).
Proof.
  intros P L [O N]. set (k := Z.to_nat (lo_off l)) in *. set (n := Z.to_nat (last - lo_off l)) in *.
  assert (take n (drop k block) = take n (drop k block')) as T.
  { rewrite !take_drop_commute. replace (k + n)%nat with (Z.to_nat last) by lia. by rewrite P. }
  split; [|symmetry; by apply (cstr_prefix _ _ n)]. split; [lia|]. fold k. rewrite T in N.
  replace (Z.to_nat (last' - lo_off l)) with (n + Z.to_nat (last' - last))%nat by lia.
  rewrite <- (take_drop n (take _ _)), take_take, Nat.min_l by lia. apply elem_of_app. by left.
Qed.
Lemma take_store last name block : 0 <= last <= len block ->
  take (Z.to_nat last) (store_name last name block) = take (Z.to_nat last) block.
Proof.
  unfold store_name, splice, len. intros H1. rewrite take_app_le by (rewrite length_take; lia).
  by rewrite take_take, Nat.min_id.
Qed.
Lemma drop_store last name block : 0 <= last -> last + len name + 1 <= len block ->
  drop (Z.to_nat last) (store_name last name block) = name ++ x00 :: drop (Z.to_nat (last + len name + 1)) block.
Proof.
  unfold store_name, splice. intros H1 H2. unfold len in *.
  rewrite drop_app_ge by (rewrite length_take; lia). rewrite length_take.
  replace (Z.to_nat last - Nat.min (Z.to_nat last) (length block))%nat with 0%nat by lia.
  rewrite drop_0, <- app_assoc. cbn. rewrite length_app. cbn [length]. do 2 f_equal. f_equal. lia.
Qed.
Lemma store_len last name block : 0 <= last -> last + len name + 1 <= len block ->
  len (store_name last name block) = len block.
Proof. intros. unfold store_name. apply len_splice; [done|]. rewrite len_app. cbn. unfold len in *. cbn. lia. Qed.

Lemma cstr_app_end s r : cstr (s ++ x00 :: r) = cstr s.
Proof. induction s as [|c s IH]; cbn; [done|]. by rewrite IH. Qed.

(** What [insert_long] leaves of the memory. *)
Lemma Buf_alloc_ok r size b h : r <> R_moved -> (forall n, b = Some n -> is_Some (n_blocks h !! n)) -> 0 < size ->
  exists ok b' h', Buf_alloc r size b h = Some (ok, b', h') /\
    (ok = false -> b' = b /\ h' = h) /\
    (ok = true -> exists n block old, b' = Some n /\ n_blocks h' !! n = Some block /\ block_of b h = Some old /\
       size <= len block /\ take (length old) block = old /\ (b = None \/ b = Some n)).
Proof.
  intros Nr Hb P. unfold Buf_alloc. assert (exists old, block_of b h = Some old) as [old E].
  { destruct b as [n|]; cbn; [by apply Hb|eauto]. }
  rewrite E. cbn [mbind option_bind]. destruct (Z.leb_spec size (len old)) as [L|L].
  { exists true, b, h. split; [done|]. split; [done|]. intros _. destruct b as [n|]; cbn in E.
    - exists n, old, old. repeat (split; [done|]). split; [by rewrite take_ge|by right].
    - injection E as <-. cbn in L. unfold len in L. cbn in L. lia. }
  set (new := old ++ repeat x00 (Z.to_nat (size - len old))).
  assert (size <= len new) as Ln by (unfold new, len in *; rewrite length_app, repeat_length; lia).
  assert (take (length old) new = old) as T by (unfold new; by rewrite take_app_length).
  destruct r; [| |done].
  - exists false, b, h. split; [done|]. by split.
  - destruct b as [n|]; cbn [n_blocks].
    + exists true, (Some n). eexists. split; [done|]. split; [done|]. intros _. exists n, new, old. cbn.
      rewrite lookup_insert_eq. repeat (split; [done|]). by right.
    + exists true. eexists _, _. split; [done|]. split; [done|]. intros _. exists (n_next h), new, old. cbn.
      rewrite lookup_insert_eq. repeat (split; [done|]). by left.
Qed.

Lemma room_ok r size o : r <> R_moved -> names_inv o -> m_last_strings o < size ->
  exists ok b h, room r size o = Some (ok, b, h) /\ (ok = false -> b = m_strings o /\ h = m_names o) /\
    (ok = true -> exists n block, b = Some n /\ n_blocks h !! n = Some block /\ size <= len block /\
       Forall (fun l => b = Some (lo_block l) /\ name_in block (m_last_strings o) l /\
                        name_of h l = name_of (m_names o) l) (m_long_opts_list o)).
Proof.
  intros Nr I S. unfold room. assert (exists old, block_of (m_strings o) (m_names o) = Some old /\ m_last_strings o <= len old) as (old & E & Lo).
  { destruct (m_strings o) as [n|] eqn:B; cbn.
    - destruct (ni_block o I n B) as (block & E & L & _). eauto.
    - exists []. split; [done|]. rewrite (ni_none o I B). unfold len. cbn. lia. }
  rewrite E. cbn [mbind option_bind].
  assert (forall b h n block, b = Some n -> n_blocks h !! n = Some block -> take (length old) block = old ->
    (m_strings o = None \/ m_strings o = Some n) ->
    Forall (fun l => b = Some (lo_block l) /\ name_in block (m_last_strings o) l /\
                     name_of h l = name_of (m_names o) l) (m_long_opts_list o)) as Kept.
  { intros b h n block -> Eb T Or. apply Forall_forall. intros l Hl.
    pose proof (proj1 (Forall_forall _ _) (ni_here o I) l Hl) as B. cbn in B.
    destruct Or as [Or|Or]; rewrite Or in B; [done|]. injection B as ->. split; [done|].
    destruct (ni_block o I _ Or) as (block0 & E0 & L0 & F). rewrite Or in E. cbn in E. rewrite E0 in E. injection E as ->.
    pose proof (proj1 (Forall_forall _ _) F l Hl) as Nl.
    assert (take (Z.to_nat (m_last_strings o)) old = take (Z.to_nat (m_last_strings o)) block) as P.
    { rewrite <- T, take_take. f_equal. unfold len in L0. lia. }
    destruct (name_kept _ _ _ _ l P (Z.le_refl _) Nl) as [Nl' C]. split; [done|].
    unfold name_of. rewrite Eb, E0. cbn. by rewrite C. }
  destruct (Z.ltb_spec (len old) size) as [L|L].
  - destruct (Buf_alloc_ok r (size + 250) (m_strings o) (m_names o)) as (ok & b & h & EB & F0 & F1); [done| | |].
    { intros n B. destruct (ni_block o I n B) as (block & Eb & _). by rewrite Eb. }
    { pose proof (ni_last o I). lia. }
    exists ok, b, h. split; [done|]. split; [done|]. intros Ok. destruct (F1 Ok) as (n & block & old' & -> & Eb & E' & Ls & T & Or).
    rewrite E in E'. injection E' as <-. exists n, block. split; [done|]. split; [done|]. split; [lia|]. by eapply Kept.
  - exists true, (m_strings o), (m_names o). split; [done|]. split; [done|]. intros _.
    destruct (m_strings o) as [n|] eqn:B.
    + cbn in E. exists n, old. repeat (split; [done|]). eapply Kept; [done|done|by rewrite take_ge|by right].
    + cbn in E. injection E as <-. pose proof (ni_last o I). unfold len in L. cbn in L. lia.
Qed.

Lemma mapM_snoc {A B} (f : A -> option B) l x ys y : mapM f l = Some ys -> f x = Some y ->
  mapM f (l ++ [x]) = Some (ys ++ [y]).
Proof.
  revert ys. induction l as [|a l IH]; intros ys; cbn.
  - intros [= <-] ->. done.
  - destruct (f a) as [b|]; [|done]. cbn. destruct (mapM f l) as [zs|]; [|done]. intros [= <-] E.
    by rewrite (IH zs eq_refl E).
Qed.
Lemma mapM_same {A B} (f g : A -> option B) l : Forall (fun x => g x = f x) l -> mapM g l = mapM f l.
Proof. induction 1 as [|x l E _ IH]; cbn; [done|]. by rewrite E, IH. Qed.
Lemma insert_long_ok r opt o names : r <> R_moved -> names_inv o -> long_names o = Some names ->
  exists b o', insert_long r opt o = Some (b, o') /\ names_inv o' /\
    long_names o' = Some (if b && negb (bool_decide (long_name opt = []))
                          then names ++ [(cstr (long_name opt), have_arg opt, short_name opt)] else names).
Proof.
  intros Nr I N. unfold insert_long. case_bool_decide as E.
  { exists true, o. split; [done|]. by split. }
  set (size := m_last_strings o + len (long_name opt) + 1). pose proof (len_nonneg (long_name opt)). pose proof (ni_last o I).
  destruct (room_ok r size o Nr I) as (ok & b & h & -> & F0 & F1); [lia|]. cbn [mbind option_bind].
  destruct ok; cbn [negb].
  - destruct (F1 eq_refl) as (n & block & -> & Eb & L & F). cbn [mbind option_bind]. rewrite Eb. cbn [mbind option_bind].
    set (block' := store_name (m_last_strings o) (long_name opt) block).
    assert (len block' = len block) as Lb by (apply store_len; lia).
    assert (take (Z.to_nat (m_last_strings o)) block = take (Z.to_nat (m_last_strings o)) block') as P
      by (symmetry; apply take_store; lia).
    assert (drop (Z.to_nat (m_last_strings o)) block' = long_name opt ++ x00 :: drop (Z.to_nat size) block) as D
      by (apply drop_store; lia).
    set (o' := set_longs _ _ _ _ o). exists true, o'. split; [done|].
    assert (Forall (fun l => name_in block' size l /\
      name_of (m_names o') l = name_of (m_names o) l) (m_long_opts_list o)) as Old.
    { eapply Forall_impl; [exact F|]. intros l (B & Nl & Ne). injection B as ->.
      destruct (name_kept _ _ _ size l P ltac:(lia) Nl) as [Nl' C]. split; [done|]. rewrite <- Ne.
      unfold name_of. cbn. rewrite lookup_insert_eq, Eb. cbn. by rewrite C. }
    split; [split; cbn|].
    + intros m [= <-]. exists block'. rewrite lookup_insert_eq. split; [done|]. split; [lia|].
      apply Forall_app. split; [eapply Forall_impl; [exact Old|]; by intros l [K _]|]. constructor; [|done]. split; cbn; [lia|].
      rewrite D. unfold size. rewrite <- Z.add_assoc, Z.add_simpl_l. unfold len.
      replace (Z.to_nat _) with (length (long_name opt) + 1)%nat by lia.
      rewrite take_app_add. apply elem_of_app. right. cbn. apply list_elem_of_here.
    + apply Forall_app. split; [|by constructor]. eapply Forall_impl; [exact F|]. by intros l (-> & _).
    + lia.
    + done.
    + cbn [andb]. apply mapM_snoc.
      * rewrite <- N. apply mapM_same. eapply Forall_impl; [exact Old|]. intros l [_ E2]. by rewrite E2.
      * unfold name_of. cbn. rewrite lookup_insert_eq. cbn. fold block'. rewrite D. by rewrite cstr_app_end.
  - destruct (F0 eq_refl) as [-> ->]. eexists false, _. split; [done|]. split; [|done]. by destruct I.
Qed.

(** ** Declarations *)

(** What [getopt] reads of an option in the string of the short ones: if a colon
    follows it. *)
Fixpoint short_decl (s : list byte) (c : byte) : option bool :=
  match s with
  | [] => None
  | x :: s => if bool_decide (x = c) then Some (match s with y :: _ => bool_decide (y = x3a) | [] => false end)
              else short_decl s c
  end.
Lemma short_decl_app s t c : (match t with y :: _ => y <> x3a | [] => True end) ->
  short_decl (s ++ t) c = match short_decl s c with Some b => Some b | None => short_decl t c end.
Proof.
  intros T. induction s as [|x s IH]; cbn; [done|]. case_bool_decide; [|exact IH].
  destruct s as [|y s]; [|done]. cbn. destruct t as [|y t]; [done|]. by rewrite bool_decide_eq_false_2.
Qed.
(** An option that is declared is known, and with an argument when its value is
    stored. *)
Definition declared (o : Options) (c : byte) (b : bool) : Prop :=
  c ∈ m_all_opts o /\ (c ∈ m_with_opts o -> b = true \/ c ∈ m_net_opts o).
Record opt_inv (o : Options) : Prop := {
  oi_names : names_inv o;
  oi_max : 0 <= m_max_arg_name o;
  oi_help : Forall (line_fits (m_max_arg_name o)) (helpVec o);
  oi_short : forall c b, c <> x3a -> short_decl (m_all_short_opts o) c = Some b -> declared o c b;
  oi_long : Forall (fun l => declared o (lo_val l) (lo_has_arg l)) (m_long_opts_list o);
  oi_with : forall c, c ∈ m_with_opts o -> c ∈ m_all_opts o
}.
Lemma names_inv_same o o' : m_strings o' = m_strings o -> m_names o' = m_names o -> m_last_strings o' = m_last_strings o ->
  m_long_opts_list o' = m_long_opts_list o -> names_inv o -> names_inv o' /\ long_names o' = long_names o.
Proof.
  intros E1 E2 E3 E4 [I1 I2 I3 I4]. split; [split; rewrite ?E1, ?E2, ?E3, ?E4; done|].
  unfold long_names. by rewrite E2, E4.
Qed.
Lemma opt_legal_spec opt o : opt_legal opt o = true ->
  short_name opt <> x3a /\ short_name opt ∉ m_all_opts o.
Proof.
  unfold opt_legal. intros [[A B]%andb_prop _]%andb_prop. apply negb_true_iff, orb_false_iff in A as [_ A].
  apply negb_true_iff, bool_decide_eq_false in B. apply bool_decide_eq_false in A. split; [|done].
  intros E. apply A. rewrite E. apply list_elem_of_here.
Qed.
(** The lists after the short form and the name of a legal option. *)
Definition with_after (opt : Pmc_option) (o : Options) : list byte :=
  if have_arg opt then m_with_opts o ++ [short_name opt] else m_with_opts o.
Lemma with_after_spec opt o c : c ∈ with_after opt o <-> c ∈ m_with_opts o \/ (have_arg opt = true /\ c = short_name opt).
Proof.
  unfold with_after. destruct (have_arg opt).
  - rewrite elem_of_app, list_elem_of_singleton. split; [intros [?|?]; auto|intros [?|[_ ?]]; auto].
  - split; [by left|intros [?|[? _]]; done].
Qed.
(** [o'] is [o] with a new name in the lists. *)
Definition named (opt : Pmc_option) (o o' : Options) : Prop :=
  m_all_opts o' = m_all_opts o ++ [short_name opt] /\ m_with_opts o' = with_after opt o /\
  m_net_opts o' = m_net_opts o /\ m_useDef o' = m_useDef o.
Lemma named_old opt o o' c b : named opt o o' -> short_name opt ∉ m_all_opts o -> declared o c b -> declared o' c b.
Proof.
  intros (E1 & E2 & E3 & _) N [D1 D2]. unfold declared. rewrite E1, E2, E3. split; [apply elem_of_app; by left|].
  intros [W|[_ W]]%with_after_spec; [by apply D2|]. subst. by destruct N.
Qed.
Lemma named_new opt o o' : opt_inv o -> named opt o o' -> short_name opt ∉ m_all_opts o ->
  declared o' (short_name opt) (have_arg opt).
Proof.
  intros I (E1 & E2 & E3 & _) N. unfold declared. rewrite E1, E2. split; [apply elem_of_app; right; apply list_elem_of_here|].
  intros [W|[W _]]%with_after_spec; [|by left]. by apply (oi_with o I) in W.
Qed.
Lemma insert_head_ok opt o names : opt_inv o -> long_names o = Some names -> opt_legal opt o = true ->
  exists o1, insert_short opt o = Some o1 /\ opt_inv (insert_name opt o1) /\ named opt o (insert_name opt o1) /\
    long_names (insert_name opt o1) = Some names.
Proof.
  intros I N L. destruct (opt_legal_spec opt o L) as [Nc Na]. pose proof (oi_max o I).
  set (max := if have_arg opt then Z.max (m_max_arg_name o) (len (arg_help opt)) else m_max_arg_name o).
  assert (m_max_arg_name o <= max) as M by (unfold max; destruct (have_arg opt); lia).
  assert (exists o1, insert_short opt o = Some o1 /\ named opt o (insert_name opt o1) /\
    (m_strings o1 = m_strings o /\ m_names o1 = m_names o /\ m_last_strings o1 = m_last_strings o /\
     m_long_opts_list o1 = m_long_opts_list o) /\
    (0 <= m_max_arg_name o1 /\ Forall (line_fits (m_max_arg_name o1)) (helpVec o1)) /\
    (m_all_short_opts o1 = m_all_short_opts o \/
     m_all_short_opts o1 = m_all_short_opts o ++ short_name opt :: (if have_arg opt then [x3a] else []))) as K.
  { unfold insert_short. cbv zeta. fold max. destruct (long_only opt).
    - exists o. split; [done|]. split; [done|]. split; [done|]. split; [split; [done|apply (oi_help o I)]|by left].
    - match goal with |- context [update_help _ ?v ?x] => destruct (update_help_total max v x) as [h E] end.
      { apply Forall_app. split.
        - eapply Forall_impl; [apply (oi_help o I)|]. intros x. by apply line_fits_mono.
        - constructor; [|done]. apply help_line_fits; [lia|]. intros A. unfold max. rewrite A. lia. }
      rewrite E. eexists. split; [done|]. split; [done|]. split; [done|]. cbn. split; [split; [lia|]|by right].
      apply Forall_app. split.
      + eapply Forall_impl; [apply (oi_help o I)|]. intros x. by apply line_fits_mono.
      + constructor; [|done]. apply help_line_fits; [lia|]. intros A. unfold max. rewrite A. lia. }
  destruct K as (o1 & E & Nm & (S1 & S2 & S3 & S4) & (H1 & H2) & Sh). exists o1. split; [done|].
  destruct (names_inv_same o (insert_name opt o1) S1 S2 S3 S4 (oi_names o I)) as [Ni Nl].
  split; [|split; [done|by rewrite Nl]]. split; [exact Ni|exact H1|exact H2| | |].
  - intros c b Nc2 D. cbn in D. assert (short_decl (m_all_short_opts o) c = Some b -> declared (insert_name opt o1) c b) as Old.
    { intros D'. apply (named_old opt o); [done|done|]. by apply (oi_short o I). }
    destruct Sh as [Sh|Sh]; rewrite Sh in D; [by apply Old|]. rewrite short_decl_app in D by done.
    destruct (short_decl (m_all_short_opts o) c) as [b'|] eqn:D0; [by apply Old|]. cbn in D.
    case_bool_decide as C.
    + subst c. injection D as <-. replace (match (if have_arg opt then [x3a] else []) with y :: _ => bool_decide (y = x3a) | [] => false end)
        with (have_arg opt) by (by destruct (have_arg opt)). by apply (named_new opt o).
    + exfalso. destruct (have_arg opt); cbn in D; [|done]. rewrite bool_decide_eq_false_2 in D; done.
  - cbn. rewrite S4. eapply Forall_impl; [apply (oi_long o I)|]. intros l. by apply (named_old opt o).
  - intros c W. destruct Nm as (E1 & E2 & _). rewrite E2 in W. rewrite E1. apply elem_of_app.
    apply with_after_spec in W as [W|[_ ->]]; [left; by apply (oi_with o I)|right; apply list_elem_of_here].
Qed.
Lemma insert_ok r opt o names : r <> R_moved -> opt_inv o -> long_names o = Some names ->
  exists b o', insert r opt o = Some (b, o') /\ opt_inv o' /\
    (opt_legal opt o = false -> b = false /\ o' = o) /\ (opt_legal opt o = true -> named opt o o') /\
    long_names o' = Some (if b && negb (bool_decide (long_name opt = []))
                          then names ++ [(cstr (long_name opt), have_arg opt, short_name opt)] else names).
Proof.
  intros Nr I N. unfold insert. destruct (opt_legal opt o) eqn:L; cbn [negb].
  2: { exists false, o. split; [done|]. split; [done|]. by split. }
  destruct (insert_head_ok opt o names I N L) as (o1 & E & I1 & Nm & N1). rewrite E. cbn [mbind option_bind].
  destruct (insert_long_ok r opt _ names Nr (oi_names _ I1) N1) as (b & o' & E2 & Ni & Nl).
  exists b, o'. split; [done|].
  assert (exists l s m k, o' = set_longs l s m k (insert_name opt o1) /\
    (l = m_long_opts_list (insert_name opt o1) \/
     exists x, l = m_long_opts_list (insert_name opt o1) ++ [x] /\ lo_val x = short_name opt /\ lo_has_arg x = have_arg opt))
    as (l & s & m & k & -> & Hl).
  { unfold insert_long in E2. destruct (bool_decide _).
    { injection E2 as _ <-. set (x := insert_name opt o1).
      exists (m_long_opts_list x), (m_strings x), (m_names x), (m_last_strings x). split; [by destruct x|by left]. }
    destruct (room _ _ _) as [[[[] b'] h]|]; [| |done]; cbn [mbind option_bind negb] in E2.
    - destruct b' as [n|]; [|done]. cbn [mbind option_bind] in E2. destruct (n_blocks h !! n); [|done].
      injection E2 as _ <-. eexists _, _, _, _. split; [done|]. right. by eexists.
    - injection E2 as _ <-. eexists _, _, _, _. split; [done|]. by left. }
  split; [|split; [done|split; [done|done]]]. split; try apply I1; [done|]. cbn.
  destruct Hl as [->|(x & -> & Vx & Ax)]; [apply (oi_long _ I1)|]. apply Forall_app.
  split; [apply (oi_long _ I1)|]. constructor; [|done]. rewrite Vx, Ax.
  apply (named_new opt o); [done|done|]. by apply (opt_legal_spec opt o).
Qed.
(** The names and those with an argument, after inserting options. *)
Definition legal_in (all : list byte) (opt : Pmc_option) : bool :=
  opt_legal opt (set_opt_lists [] all [] [] false Options_empty).
Definition lists_step (st : list byte * list byte) (opt : Pmc_option) : list byte * list byte :=
  if legal_in st.1 opt then (st.1 ++ [short_name opt], if have_arg opt then st.2 ++ [short_name opt] else st.2) else st.
Lemma insert_all_ok l : forall r o names, (forall n, r n <> R_moved) -> opt_inv o -> long_names o = Some names ->
  exists o' more, insert_all r l o = Some o' /\ opt_inv o' /\ long_names o' = Some (names ++ more) /\
    m_net_opts o' = m_net_opts o /\ (m_all_opts o', m_with_opts o') = foldl lists_step (m_all_opts o, m_with_opts o) l.
Proof.
  induction l as [|opt l IH]; intros r o names Nr I N.
  { exists o, []. rewrite app_nil_r. split; [done|]. split; [done|]. by split. }
  destruct (insert_ok (r 0%nat) opt o names (Nr 0%nat) I N) as (b & o1 & E & I1 & L0 & L1 & N1).
  destruct (IH (fun n => r (S n)) o1 _ (fun n => Nr (S n)) I1 N1) as (o' & more & E' & I' & N' & Net & Ls).
  cbn [insert_all foldl]. rewrite E. cbn [mbind option_bind].
  assert ((m_all_opts o1, m_with_opts o1) = lists_step (m_all_opts o, m_with_opts o) opt /\ m_net_opts o1 = m_net_opts o)
    as [Es Net1].
  { unfold lists_step. cbn [fst snd]. change (legal_in (m_all_opts o) opt) with (opt_legal opt o).
    destruct (opt_legal opt o); [|by destruct (L0 eq_refl) as [_ ->]].
    destruct (L1 eq_refl) as (E1 & E2 & E3 & _). rewrite E1, E2, E3. done. }
  rewrite Es in Ls. exists o'. destruct (b && _); eexists.
  - rewrite <- app_assoc in N'. split; [exact E'|]. split; [done|]. split; [exact N'|]. by rewrite Net.
  - split; [exact E'|]. split; [done|]. split; [exact N'|]. by rewrite Net.
Qed.
Lemma opt_inv_empty : opt_inv Options_empty.
Proof. by split; [split| | | | |]; cbn; try done; try lia; intros ? ?%not_elem_of_nil. Qed.

Lemma net_help_fits max : 0 <= max -> Forall (line_fits max) net_help.
Proof.
  intros M. unfold net_help.
  repeat (apply Forall_cons_2; [first [by left|right; change (3 <= max + 7); lia]|]). apply Forall_nil_2.
Qed.
Definition bytes4 : list byte := bytes "u246".
Lemma useDefOption_ok r o names : (forall n, r n <> R_moved) -> opt_inv o -> long_names o = Some names -> m_net_opts o = [] ->
  m_useDef o = false ->
  exists o' more, useDefOption r o = Some o' /\ opt_inv o' /\ long_names o' = Some (names ++ more) /\
    (m_useDef o' = true /\ m_net_opts o' = bytes4) /\
    (m_all_opts o', m_with_opts o') = foldl lists_step (m_all_opts o ++ bytes4, m_with_opts o) startOptions.
Proof.
  intros Nr I N Net D. unfold useDefOption. rewrite D. fold bytes4. set (o1 := set_opt_lists _ _ _ _ _ o).
  destruct (update_help_total (m_max_arg_name o) (helpVec o ++ net_help) o1) as [h E].
  { apply Forall_app. split; [apply (oi_help o I)|apply net_help_fits, (oi_max o I)]. }
  rewrite E. cbn [mbind option_bind]. set (o2 := set_help_lists _ _ _ o1).
  destruct (names_inv_same o o2 eq_refl eq_refl eq_refl eq_refl (oi_names o I)) as [Ni Nl].
  assert (opt_inv o2) as I2.
  { split; [exact Ni|apply (oi_max o I)| | | |].
    - cbn. apply Forall_app. split; [apply (oi_help o I)|apply net_help_fits, (oi_max o I)].
    - intros c b Nc Dc. cbn in Dc. rewrite short_decl_app in Dc by done. unfold declared. cbn.
      destruct (short_decl (m_all_short_opts o) c) as [b'|] eqn:D0.
      + injection Dc as ->. destruct (oi_short o I c b Nc D0) as [A W]. split; [apply elem_of_app; by left|].
        intros [?|W']%W; [by left|]. rewrite Net in W'. by apply not_elem_of_nil in W'.
      + assert (c ∈ bytes4) as C. { revert Dc. cbn. repeat (case_bool_decide; [intros; subst; set_solver|]). done. }
        split; [apply elem_of_app; by right|by right].
    - cbn. eapply Forall_impl; [apply (oi_long o I)|]. intros l [A W]. split; [apply elem_of_app; by left|].
      cbn. intros [?|W']%W; [by left|]. rewrite Net in W'. by apply not_elem_of_nil in W'.
    - intros c W. cbn. apply elem_of_app. left. by apply (oi_with o I). }
  destruct (insert_all_ok startOptions r o2 names Nr I2) as (o3 & more & E3 & I3 & N3 & Net3 & Ls); [by rewrite Nl|].
  rewrite E3. cbn [mbind option_bind]. set (o4 := set_opt_lists _ _ _ _ true o3).
  destruct (names_inv_same o3 o4 eq_refl eq_refl eq_refl eq_refl (oi_names o3 I3)) as [Ni4 Nl4].
  exists o4, more. split; [done|]. split; [by destruct I3; split|]. split; [by rewrite Nl4|].
  split; [by split|done].
Qed.

(** ** Reachable objects *)

Definition getopt_fun : Type := list byte -> list (list byte * bool * byte) -> list (list byte) ->
  list (byte * option (list byte) * Z) * Z.
(** What [getopt_long] documents: it returns a question mark or an option that is
    declared, with an argument when the declaration asks for one; [optind] is in
    the arguments. *)
Definition getopt_ok (g : getopt_fun) : Prop := forall shorts longs argv, argv <> [] ->
  Forall (fun '(c, arg, ind) => 1 <= ind <= len argv /\
    (c = ch "?" \/ (c <> x3a /\ exists b, (short_decl shorts c = Some b \/ exists n, (n, b, c) ∈ longs) /\
                                         (b = true -> is_Some arg)))) (g shorts longs argv).1.

Inductive opt_reach : Options -> Prop :=
| reach_new r def o : (forall n, r n <> R_moved) -> Options_new r def = Some o -> opt_reach o
| reach_insert r opt o b o' : r <> R_moved -> opt_reach o -> insert r opt o = Some (b, o') -> opt_reach o'
| reach_parse g version argv o v o' : opt_reach o -> parse_options g version argv o = Some (v, o') -> opt_reach o'.

(** Parsing only changes what it found. *)
Definition unparsed (o o' : Options) : Prop := exists opts msg net argc ind, o' = set_parsed opts msg net argc ind o.
Lemma unparsed_refl o : unparsed o o.
Proof. exists (m_opts o), (m_msg o), (m_net_select o), (m_argc o), (m_end_optind o). by destruct o. Qed.
Lemma unparsed_trans o1 o2 o3 : unparsed o1 o2 -> unparsed o2 o3 -> unparsed o1 o3.
Proof. intros (a & b & c & d & e & ->) (a' & b' & c' & d' & e' & ->). by exists a', b', c', d', e'. Qed.
Lemma unparsed_set opts msg net argc ind o : unparsed o (set_parsed opts msg net argc ind o).
Proof. by exists opts, msg, net, argc, ind. Qed.
Lemma unparsed_inv o o' : unparsed o o' -> opt_inv o -> opt_inv o'.
Proof. intros (a & b & c & d & e & ->) [[I1 I2 I3 I4] I5 I6 I7 I8 I9]. by split; [split|..]. Qed.
Lemma store_opt_unparsed c arg o o' : store_opt c arg o = Some (Some o') -> unparsed o o'.
Proof.
  unfold store_opt. case_bool_decide; [intros [= <-]; apply unparsed_set|]. case_bool_decide.
  - destruct arg; [|done]. intros [= <-]. apply unparsed_set.
  - case_bool_decide; [|done]. intros [= <-]. apply unparsed_set.
Qed.
Lemma set_net_unparsed a o o' : set_net_transport a o = Some o' -> unparsed o o'.
Proof. unfold set_net_transport. repeat (destruct (same_nocase _ _); [intros [= <-]; apply unparsed_set|]). done. Qed.
Lemma parse_loop_unparsed version argv l : forall ind o v o', parse_loop version argv l ind o = Some (v, o') -> unparsed o o'.
Proof.
  induction l as [|[[c arg] i] l IH]; intros ind o v o'; cbn [parse_loop].
  { intros [= _ <-]. apply unparsed_set. }
  case_bool_decide.
  { destruct (if i <? 1 then _ else _); [|done]. intros [= _ <-]. apply unparsed_set. }
  destruct (_ && _); [intros [= _ <-]; apply unparsed_set|]. destruct (_ && _); [intros [= _ <-]; apply unparsed_refl|].
  destruct (_ && _).
  - destruct arg as [a|]; [|done]. cbn [mbind option_bind]. destruct (set_net_transport a o) as [o1|] eqn:E.
    + intros P. eapply unparsed_trans; [by eapply set_net_unparsed|]. by eapply IH.
    + intros [= _ <-]. apply unparsed_set.
  - destruct (store_opt c arg o) as [[o1|]|] eqn:E; [| |done]; cbn [mbind option_bind].
    + intros P. eapply unparsed_trans; [by eapply store_opt_unparsed|]. by eapply IH.
    + intros [= _ <-]. apply unparsed_set.
Qed.

Definition reach_inv (o : Options) : Prop :=
  opt_inv o /\ (m_useDef o = true -> ch "n" ∈ m_with_opts o /\ ch "n" ∉ m_net_opts o).
Lemma opt_reach_inv o : opt_reach o -> reach_inv o.
Proof.
  induction 1 as [r def o Nr E|r opt o b o' Nr _ [I D] E|g version argv o v o' _ [I D] E].
  - unfold Options_new in E. destruct def.
    + destruct (useDefOption_ok r Options_empty [] Nr opt_inv_empty eq_refl eq_refl eq_refl) as (o1 & more & E1 & I & _ & Net & Ls).
      rewrite E in E1. injection E1 as <-. split; [done|]. intros _. cbn [m_all_opts m_with_opts Options_empty] in Ls.
      assert (m_with_opts o = (foldl lists_step ([] ++ bytes4, []) startOptions).2) as -> by (by rewrite <- Ls).
      rewrite (proj2 Net). split.
      * apply (bool_decide_eq_true (ch "n" ∈ _)). vm_compute. reflexivity.
      * intros C. apply (bool_decide_eq_true (ch "n" ∈ bytes4)) in C. vm_compute in C. done.
    + injection E as <-. split; [apply opt_inv_empty|done].
  - destruct (names_live o (oi_names o I)) as [names N].
    destruct (insert_ok r opt o names Nr I N) as (b' & o1 & E1 & I1 & L0 & L1 & _). rewrite E in E1. injection E1 as _ <-.
    split; [done|]. destruct (opt_legal opt o) eqn:L; [|by destruct (L0 eq_refl) as [_ ->]].
    destruct (L1 eq_refl) as (Ea & Ew & En & Ed). rewrite Ed, En, Ew. intros K. destruct (D K) as [W Nn]. split; [|done].
    apply with_after_spec. by left.
  - unfold parse_options in E. destruct (long_names o) as [nm|]; [|done]. cbn [mbind option_bind] in E.
    destruct (g _ _ _) as [l ind]. apply parse_loop_unparsed in E as U. split; [by eapply unparsed_inv|].
    by destruct U as (? & ? & ? & ? & ? & ->).
Qed.

(** ** Parsing is defined *)

Lemma long_names_declared o names n b c : opt_inv o -> long_names o = Some names -> (n, b, c) ∈ names -> declared o c b.
Proof.
  intros I N Hn. unfold long_names in N. apply mapM_Some in N.
  apply list_elem_of_lookup in Hn as [i Hi]. destruct (Forall2_lookup_r _ _ _ _ _ N Hi) as (l & Hl & E).
  cbn in E. destruct (name_of _ _); [|done]. cbn in E. injection E as _ <- <-.
  apply list_elem_of_lookup_2 in Hl. exact (proj1 (Forall_forall _ _) (oi_long o I) l Hl).
Qed.
Lemma store_opt_ok o c b arg : declared o c b -> (b = true -> is_Some arg) -> exists o', store_opt c arg o = Some (Some o').
Proof.
  intros [A W] B. unfold store_opt. case_bool_decide; [eauto|]. case_bool_decide as C.
  - destruct (W C) as [->|?]; [|done]. destruct (B eq_refl) as [a ->]. cbn. eauto.
  - rewrite bool_decide_eq_true_2 by done. eauto.
Qed.
Definition result_ok (o : Options) (argv : list (list byte)) (r : byte * option (list byte) * Z) : Prop :=
  let '(c, arg, i) := r in
  1 <= i <= len argv /\ (c = ch "?" \/ exists b, declared o c b /\ (b = true -> is_Some arg)).
Lemma parse_loop_ok version argv l : forall ind o, reach_inv o ->
  Forall (result_ok o argv) l ->
  exists v o', parse_loop version argv l ind o = Some (v, o') /\ (v = OPT_ERR -> m_msg o' <> bytes "error").
Proof.
  induction l as [|[[c arg] i] l IH]; intros ind o R F; cbn [parse_loop]; [by eexists _, _|].
  apply Forall_cons in F as [[Hi Hc] F].
  assert (forall o', unparsed o o' -> reach_inv o' /\ Forall (result_ok o' argv) l) as Next.
  { intros o' U. split; [|by destruct U as (? & ? & ? & ? & ? & ->)]. destruct R as [I D].
    split; [by eapply unparsed_inv|]. by destruct U as (? & ? & ? & ? & ? & ->). }
  case_bool_decide as Cq.
  { rewrite (proj2 (Z.ltb_ge _ _)) by lia. destruct (lookup_lt_is_Some_2 argv (Z.to_nat (i - 1))) as [a ->].
    { unfold len in Hi. lia. } cbn. by eexists _, _. }
  destruct Hc as [?|(b & Dc & B)]; [done|].
  destruct (_ && _); [by eexists _, _|]. destruct (_ && _); [by eexists _, _|].
  destruct (m_useDef o && _) eqn:En.
  - apply andb_prop in En as [Du Ec]. apply bool_decide_eq_true in Ec. subst c. destruct R as [I D].
    destruct (D Du) as [W Nn]. destruct Dc as [_ Dc]. destruct (Dc W) as [->|?]; [|done]. destruct (B eq_refl) as [a ->].
    cbn [mbind option_bind]. destruct (set_net_transport a o) as [o1|] eqn:E; [|by eexists _, _].
    apply set_net_unparsed in E. destruct (Next o1 E) as [R1 F1]. by apply IH.
  - destruct (store_opt_ok o c b arg Dc B) as [o1 E]. rewrite E. cbn [mbind option_bind].
    apply store_opt_unparsed in E. destruct (Next o1 E) as [R1 F1]. by apply IH.
Qed.


(** ** Values *)

Lemma key_inj c d : key c = key d -> c = d.
Proof.
  unfold key. intros E. apply (f_equal Byte.of_nat) in E. rewrite !Byte.of_to_nat in E. congruence.
Qed.
(** The value that the last use of an option gives. *)
Fixpoint last_arg (with_ : list byte) (c : byte) (l : list (byte * option (list byte) * Z)) : option (list byte) :=
  match l with
  | [] => None
  | (d, arg, _) :: l =>
      match last_arg with_ c l with
      | Some a => Some a
      | None => if bool_decide (d = c) then (if bool_decide (c ∈ with_) then arg else Some (bytes "1")) else None
      end
  end.
Definition or_else {A} (a b : option A) : option A := match a with Some x => Some x | None => b end.
Lemma parse_loop_values version argv l : forall ind o o', parse_loop version argv l ind o = Some (OPT_DONE, o') ->
  m_argc o' = len argv /\ m_end_optind o' = ind /\
  forall c, c ∉ m_net_opts o -> (m_useDef o = true -> c <> ch "n") ->
    m_opts o' !! key c = or_else (last_arg (m_with_opts o) c l) (m_opts o !! key c).
Proof.
  induction l as [|[[d arg] i] l IH]; intros ind o o'; cbn [parse_loop last_arg].
  { intros [= <-]. done. }
  case_bool_decide; [by destruct (if i <? 1 then _ else _)|]. destruct (_ && _); [done|]. destruct (_ && _); [done|].
  assert (forall o1, unparsed o o1 -> parse_loop version argv l ind o1 = Some (OPT_DONE, o') ->
    (forall c, c ∉ m_net_opts o -> (m_useDef o = true -> c <> ch "n") -> last_arg (m_with_opts o) c l = None ->
       m_opts o1 !! key c = or_else (if bool_decide (d = c) then (if bool_decide (c ∈ m_with_opts o) then arg else Some (bytes "1"))
                                     else None) (m_opts o !! key c)) ->
    m_argc o' = len argv /\ m_end_optind o' = ind /\
    forall c, c ∉ m_net_opts o -> (m_useDef o = true -> c <> ch "n") ->
      m_opts o' !! key c = or_else (match last_arg (m_with_opts o) c l with
        | Some a => Some a
        | None => if bool_decide (d = c) then (if bool_decide (c ∈ m_with_opts o) then arg else Some (bytes "1")) else None
        end) (m_opts o !! key c)) as Step.
  { intros o1 U P K. destruct (IH _ _ _ P) as (A1 & A2 & A3). split; [done|]. split; [done|]. intros c Hc Hn.
    assert (m_net_opts o1 = m_net_opts o /\ m_useDef o1 = m_useDef o /\ m_with_opts o1 = m_with_opts o) as (E1 & E2 & E3)
      by (by destruct U as (? & ? & ? & ? & ? & ->)).
    rewrite E1, E2, E3 in A3. rewrite (A3 c Hc Hn). destruct (last_arg (m_with_opts o) c l) eqn:La; [done|].
    cbn [or_else]. by apply K. }
  destruct (m_useDef o && _) eqn:En.
  - apply andb_prop in En as [Du Ed]. apply bool_decide_eq_true in Ed. destruct arg as [a|]; [|done].
    cbn [mbind option_bind]. destruct (set_net_transport a o) as [o1|] eqn:E; [|done]. intros P.
    apply (Step o1); [by eapply set_net_unparsed|done|]. intros c Hc Hn _.
    rewrite (bool_decide_eq_false_2 (d = c)) by (intros ->; by apply Hn). cbn.
    unfold set_net_transport in E. repeat (destruct (same_nocase _ _); [by injection E as <-|]). done.
  - destruct (store_opt d arg o) as [[o1|]|] eqn:E; [| |done]; cbn [mbind option_bind]; [|done]. intros P.
    apply (Step o1); [by eapply store_opt_unparsed|done|]. intros c Hc _ _. unfold store_opt in E.
    case_bool_decide as Dn.
    { injection E as <-. rewrite (bool_decide_eq_false_2 (d = c)) by (by intros ->). done. }
    case_bool_decide as Dw.
    + destruct arg as [a|]; [|done]. injection E as <-. cbn [m_opts set_opt set_parsed]. destruct (decide (d = c)) as [->|C].
      * by rewrite lookup_insert_eq, !bool_decide_eq_true_2.
      * rewrite lookup_insert_ne, (bool_decide_eq_false_2 (d = c)); [done..|]. by intros ->%key_inj.
    + case_bool_decide as Da; [|done]. injection E as <-. cbn [m_opts set_opt set_parsed]. destruct (decide (d = c)) as [->|C].
      * by rewrite lookup_insert_eq, bool_decide_eq_true_2, bool_decide_eq_false_2.
      * rewrite lookup_insert_ne, (bool_decide_eq_false_2 (d = c)); [done..|]. by intros ->%key_inj.
Qed.

(** Parsing that is done leaves the value of the last use of each option, the
    text 1 for one without an argument, and what was there for the others. *)
Theorem parse_values g version argv o o' :
  parse_options g version argv o = Some (OPT_DONE, o') ->
  exists names l ind, long_names o = Some names /\ g (m_all_short_opts o) names argv = (l, ind) /\
    process_next o' = ind /\ have_more o' = (ind <? len argv) /\
    forall c, c ∉ m_net_opts o -> (m_useDef o = true -> c <> ch "n") ->
      val c o' = default [] (or_else (last_arg (m_with_opts o) c l) (m_opts o !! key c)).
Proof.
  unfold parse_options. destruct (long_names o) as [names|]; [|done]. cbn [mbind option_bind].
  destruct (g _ _ _) as [l ind] eqn:G. intros P. destruct (parse_loop_values _ _ _ _ _ _ P) as (A1 & A2 & A3).
  exists names, l, ind. split; [done|]. split; [done|]. split; [done|]. unfold have_more. rewrite A1, A2. split; [done|].
  intros c Hc Hn. unfold val. by rewrite A3.
Qed.

(** ** Names that moved *)

(** A long name of [n] characters. *)
Definition wide_option (c : string) (n : nat) : Pmc_option := mk_Pmc_option (ch c) (repeat x61 n) false true [] [] [].
(** [realloc] moves the memory when the names do not fit any more, and then the
    names that were inserted before can not be read. *)
Lemma names_dangle : exists o b o', opt_reach o /\ insert R_moved (wide_option "y" 300) o = Some (b, o') /\
  long_names o' = None /\ forall g version argv, parse_options g version argv o' = None.
Proof.
  destruct (insert R_same (wide_option "x" 3) Options_empty) as [[b1 o]|] eqn:E1; [|by vm_compute in E1].
  assert (opt_reach o) as R.
  { apply (reach_insert R_same (wide_option "x" 3) Options_empty b1 o); [done| |done].
    by apply (reach_new (fun _ => R_same) false). }
  vm_compute in E1. injection E1 as <- <-.
  match type of R with opt_reach ?x => set (o := x) in *; destruct (insert R_moved (wide_option "y" 300) o) as [[b o']|] eqn:E end;
    [|by vm_compute in E].
  exists o, b, o'. split; [done|]. split; [done|]. assert (long_names o' = None) as N.
  { vm_compute in E. injection E as <- <-. vm_compute. done. }
  split; [done|]. intros. unfold parse_options. by rewrite N.
Qed.
