(* ===== verification/Init.v ===== *)
(** * Init.v: the start of an application

    [Init] of [src/src/init.cpp]: [process] takes the options, reads the
    configuration and the keys, makes the parameters of the message and
    initialises the socket.  The files, the interfaces, the MAC library and the
    system calls are parameters.  An exception, and a copy beyond an identity of a
    clock, are [None]. *)

From S2P Require Import Prelude CStr Types Ids Codec MsgProc MngTlvs SigTlvs Bin Auth Message Cfg Text Config Sock SockFacts SockC Opt.

#[local] Open Scope list_scope.

(** ** Sequences that may throw *)

Definition oact (S : Type) : Type := S -> option (bool * S).
Definition othen {S} (m k : oact S) : oact S := fun s => '(r, s) ← m s; if r : bool then k s else Some (false, s).
Declare Scope init_scope.
Delimit Scope init_scope with init.
Notation "m ;! k" := (othen m k) (at level 100, right associativity) : init_scope.
#[local] Open Scope init_scope.

(** ** The object *)

(** [i_sk] is the object of [m_sk]; [i_gen] counts the objects it has held. *)
Record Init := mk_Init {
  i_cfg : ConfigFile; i_sa : SaFile; i_msg : Message; i_sk : option socket; i_gen : nat;
  i_net_select : byte; i_use_uds : bool; i_allow_unauth : Z
}.
Definition Init_new : Init := mk_Init clear_sections ∅ Message_new None 0 x00 false 0.
Definition set_i_cfg v i := mk_Init v (i_sa i) (i_msg i) (i_sk i) (i_gen i) (i_net_select i) (i_use_uds i) (i_allow_unauth i).
Definition set_i_sa v i := mk_Init (i_cfg i) v (i_msg i) (i_sk i) (i_gen i) (i_net_select i) (i_use_uds i) (i_allow_unauth i).
Definition set_i_msg v i := mk_Init (i_cfg i) (i_sa i) v (i_sk i) (i_gen i) (i_net_select i) (i_use_uds i) (i_allow_unauth i).
Definition set_i_sk v g i := mk_Init (i_cfg i) (i_sa i) (i_msg i) v g (i_net_select i) (i_use_uds i) (i_allow_unauth i).
Definition set_i_net_select v i := mk_Init (i_cfg i) (i_sa i) (i_msg i) (i_sk i) (i_gen i) v (i_use_uds i) (i_allow_unauth i).
Definition set_i_use_uds v i := mk_Init (i_cfg i) (i_sa i) (i_msg i) (i_sk i) (i_gen i) (i_net_select i) v (i_allow_unauth i).
Definition set_i_allow_unauth v i := mk_Init (i_cfg i) (i_sa i) (i_msg i) (i_sk i) (i_gen i) (i_net_select i) (i_use_uds i) v.

(** Fields of the parameters that [process] sets. *)
Definition set_prm_ids (dom tspec hops : Z) (zero : bool) (p : MsgParams) : MsgParams :=
  mk_MsgParams tspec dom hops (minorVersion p) (isUnicast p) (implementSpecific p) (target p) (self_id p) zero
    (rcvSignaling p) (filterSignaling p) (rcvSMPTEOrg p) (sendAuth p) (rcvAuth p) (allowSigTlvs p).
Definition set_self_id (v : PortIdentity_t) (p : MsgParams) : MsgParams :=
  mk_MsgParams (Types.transportSpecific p) (Types.domainNumber p) (boundaryHops p) (minorVersion p) (isUnicast p)
    (implementSpecific p) (target p) v (useZeroGet p)
    (rcvSignaling p) (filterSignaling p) (rcvSMPTEOrg p) (sendAuth p) (rcvAuth p) (allowSigTlvs p).
Definition set_prm_auth (minor rcv : Z) (p : MsgParams) : MsgParams :=
  mk_MsgParams (Types.transportSpecific p) (Types.domainNumber p) (boundaryHops p) minor (isUnicast p)
    (implementSpecific p) (target p) (self_id p) (useZeroGet p)
    (rcvSignaling p) (filterSignaling p) (rcvSMPTEOrg p) (sendAuth p) rcv (allowSigTlvs p).

(** The state of [process]: the object, its local [prms], [net_select] and
    [ifObj], and the system. *)
Record pst (W : Type) := mk_pst { p_i : Init; p_prms : MsgParams; p_net : byte; p_if : option IfInfo; p_w : W }.
Arguments mk_pst {W}. Arguments p_i {W}. Arguments p_prms {W}. Arguments p_net {W}. Arguments p_if {W}. Arguments p_w {W}.
Section Sets.
Context {W : Type}.
Definition on_i (f : Init -> Init) (s : pst W) : pst W := mk_pst (f (p_i s)) (p_prms s) (p_net s) (p_if s) (p_w s).
Definition on_prms (f : MsgParams -> MsgParams) (s : pst W) : pst W := mk_pst (p_i s) (f (p_prms s)) (p_net s) (p_if s) (p_w s).
Definition set_p_net (v : byte) (s : pst W) : pst W := mk_pst (p_i s) (p_prms s) v (p_if s) (p_w s).
Definition set_p_ifc (v : option IfInfo) (s : pst W) : pst W := mk_pst (p_i s) (p_prms s) (p_net s) v (p_w s).
Definition set_p_w (v : W) (s : pst W) : pst W := mk_pst (p_i s) (p_prms s) (p_net s) (p_if s) v.
Definition check (f : pst W -> bool) : oact (pst W) := fun s => Some (f s, s).
Definition assign (f : pst W -> pst W) : oact (pst W) := fun s => Some (true, f s).
Definition when (c : bool) (m : oact (pst W)) : oact (pst W) := fun s => if c then m s else Some (true, s).
End Sets.

Section Process.
Context {W : Type} `{Os W} `{lib : MacLib}.
(** The files that can be opened, the rest of the line buffer, the interfaces. *)
Context (fs : list byte -> option (list byte)) (residue : list byte) (find_name : list byte -> option IfInfo).

(** ** Configuration and keys *)

Definition read_config (opt : Options) : oact (pst W) :=
  when (have (ch "f") opt) (fun s =>
    '(r, cfg) ← read_cfg residue (fs (cstr (val (ch "f") opt))) (i_cfg (p_i s));
    Some (r, on_i (set_i_cfg cfg) s)).
(** [spp], -1 without one; [None] inside is a value out of range. *)
Definition choose_spp (opt : Options) (cfg : ConfigFile) : option (option Z) :=
  if have (ch "B") opt then
    let spp := val_i (ch "B") opt in
    Some (if (spp <? 0) || (UINT8_MAX <? spp) then None else Some spp)
  else
    h ← haveSpp cfg "";
    if h : bool then v ← spp cfg ""; Some (Some v) else Some (Some (-1)).
Definition choose_key (opt : Options) (cfg : ConfigFile) : option Z :=
  if have (ch "A") opt then Some (uwrap 32 (val_i (ch "A") opt)) else active_key_id cfg "".
Definition read_key_file (opt : Options) : oact (pst W) :=
  when (have (ch "F") opt) (fun s =>
    '(r, sa) ← read_sa_name fs residue (cstr (val (ch "F") opt)) (i_sa (p_i s));
    Some (r, on_i (set_i_sa sa) s)).
Definition read_key_cfg : oact (pst W) := fun s =>
  '(r, sa) ← read_sa_cfg fs residue (i_cfg (p_i s)) "" (i_sa (p_i s)); Some (r, on_i (set_i_sa sa) s).
Definition use_key (spp key_id : Z) : oact (pst W) := fun s =>
  let '(r, m) := useAuth (i_sa (p_i s)) spp key_id (i_msg (p_i s)) in Some (r, on_i (set_i_msg m) s).
Definition allow_part (opt : Options) : oact (pst W) := fun s =>
  v ← (if have (ch "U") opt then Some (uwrap 8 (val_i (ch "U") opt)) else allow_unauth (i_cfg (p_i s)) "");
  let p := p_prms s in
  let rcv := if 0 <? v then Z.lor (rcvAuth p) RCV_AUTH_IGNORE else rcvAuth p in
  let minor := if minorVersion p <? 1 then 1 else minorVersion p in
  Some (true, on_prms (set_prm_auth minor rcv) (on_i (set_i_allow_unauth v) s)).
Definition auth_part (opt : Options) : oact (pst W) := fun s =>
  let s := on_prms (fun _ => m_prms (i_msg (p_i s))) (on_i (set_i_allow_unauth 0) s) in
  r ← choose_spp opt (i_cfg (p_i s));
  match r with
  | None => Some (false, s)
  | Some spp =>
      if spp <? 0 then Some (true, s)
      else
        key_id ← choose_key opt (i_cfg (p_i s));
        (check (fun _ => negb (key_id <? 1)) ;! read_key_file opt ;! read_key_cfg ;! use_key spp key_id ;!
         allow_part opt) s
  end.

(** ** Parameters *)

(** [clockIdentity.copy] to the 8 octets of the identity. *)
Definition copy_identity (bs : list byte) (id : ClockIdentity_t) : option ClockIdentity_t :=
  if 8 <? len bs then None else Some (mk_ClockIdentity (splice (ci_v id) 0 bs)).
Definition choose_net (opt : Options) : oact (pst W) := fun s =>
  let net := get_net_transport opt in
  if bool_decide (net = x00)
  then n ← network_transport (i_cfg (p_i s)) ""; Some (true, set_p_net (z2b n) s)
  else Some (true, set_p_net net s).
Definition find_interface (opt : Options) : oact (pst W) := fun s =>
  if bool_decide (p_net s = ch "u") then Some (true, s)
  else
    let interface := val (ch "i") opt in
    if bool_decide (interface = []) then Some (false, s)
    else match find_name (cstr interface) with
         | None => Some (false, s)
         | Some o =>
             let eui := snd (eui48ToEui64 (Binary_of (if_mac o))) in
             id ← copy_identity (octets eui) (clockIdentity (self_id (p_prms s)));
             Some (true, on_i (set_i_use_uds false)
                     (on_prms (set_self_id (mk_PortIdentity id 1)) (set_p_ifc (Some o) s)))
         end.
(** The fields are [uint8_t]. *)
Definition numbers (opt : Options) : oact (pst W) := fun s =>
  let hops := if have (ch "b") opt then uwrap 8 (val_i (ch "b") opt) else 1 in
  dom ← (if have (ch "d") opt then Some (uwrap 8 (val_i (ch "d") opt)) else domainNumber (i_cfg (p_i s)) "");
  tspec ← (if have (ch "t") opt then Some (uwrap 8 (strtol 16 (cstr (val (ch "t") opt))).1)
           else transportSpecific (i_cfg (p_i s)) "");
  let zero := bool_decide (val (ch "z") opt = bytes "1") in
  Some (true, on_i (set_i_net_select (p_net s)) (on_prms (set_prm_ids dom tspec hops zero) s)).

(** ** The socket *)

(** [m_sk.reset] with a new object: the old one is destroyed. *)
Definition reset_sk (sk : socket) : oact (pst W) := fun s =>
  let w := match i_sk (p_i s) with Some old => SockBase_destroy (base_of old) (p_w s) | None => p_w s end in
  Some (true, set_p_w w (on_i (fun i => set_i_sk (Some sk) (S (i_gen i)) i) s)).
(** A method on the object of [m_sk], which is of the class that it was made
    with. *)
Definition on_sk (m : socket -> W -> option (bool * (socket * W))) : oact (pst W) := fun s =>
  sk ← i_sk (p_i s);
  '(r, (sk, w)) ← m sk (p_w s);
  Some (r, set_p_w w (on_i (fun i => set_i_sk (Some sk) (i_gen i) i) s)).
Definition on_unix (m : SockUnix -> W -> bool * (SockUnix * W)) : oact (pst W) := on_sk (valid_usk (fun s w => Some (m s w))).
Definition init_sk : oact (pst W) := on_sk (fun s w => Some (socket_init s w)).
Definition setAll_sk : oact (pst W) := fun s =>
  o ← p_if s; on_sk (try_m (socket_setAll o (i_cfg (p_i s)) "")) s.
(** [setUdpTtl], [setScope] and [setSocketPriority] take an [uint8_t]. *)
Definition with_number (c : byte) (opt : Options) (m : Z -> socket -> W -> option (bool * (socket * W))) : oact (pst W) :=
  when (have c opt) (on_sk (m (uwrap 8 (val_i c opt)))).
Definition self_default (s : SockUnix) (w : W) : bool * (SockUnix * W) :=
  let '(r, (s, _)) := setDefSelfAddress [] [] [] s w in (r, (s, w)).
Definition uds_path (opt : Options) (cfg : ConfigFile) : option (list byte) :=
  if have (ch "s") opt then Some (val (ch "s") opt) else uds_address cfg "".
Definition pid_identity (pid : Z) (id : PortIdentity_t) : PortIdentity_t :=
  let v := ci_v (clockIdentity id) in
  let v := <[6%nat := z2b (Z.land (Z.shiftr pid 24) 0xff)]> v in
  let v := <[7%nat := z2b (Z.land (Z.shiftr pid 16) 0xff)]> v in
  mk_PortIdentity (mk_ClockIdentity v) (Z.land pid 0xffff).
Definition unix_part (opt : Options) : oact (pst W) := fun s =>
  (reset_sk (S_unix SockUnix_new) ;!
   (fun s => path ← uds_path opt (i_cfg (p_i s));
      (on_unix self_default ;! init_sk ;!
       on_unix (fun u w => let '(r, u) := setPeerAddress path false u in (r, (u, w)))) s) ;!
   assign (fun s => on_i (set_i_use_uds true)
                      (on_prms (fun p => set_self_id (pid_identity (os_getpid (p_w s)) (self_id p)) p) s))) s.
Definition ip4_part (opt : Options) : oact (pst W) :=
  reset_sk (S_ip SockIp4_new) ;! setAll_sk ;!
  with_number (ch "T") opt (fun v => valid_ipsk (pure_m (setUdpTtl v))) ;! init_sk.
Definition ip6_part (opt : Options) : oact (pst W) :=
  reset_sk (S_ip SockIp6_new) ;! setAll_sk ;!
  with_number (ch "T") opt (fun v => valid_ipsk (pure_m (setUdpTtl v))) ;!
  with_number (ch "S") opt (fun v => valid_ip6sk (pure_m (setScope v))) ;! init_sk.
Definition set_mac_opt (opt : Options) : oact (pst W) :=
  when (have (ch "M") opt) (fun s =>
    let '(ok, mac) := fromMac (val (ch "M") opt) Binary_new in
    if negb ok then Some (false, s) else on_sk (valid_rsk (pure_m (setPtpDstMac mac))) s).
(** [hdr]: the memory of the header of the new object. *)
Definition raw_part (hdr : list byte) (opt : Options) : oact (pst W) :=
  reset_sk (S_raw (SockRaw_new hdr)) ;! setAll_sk ;!
  with_number (ch "P") opt (fun v => valid_rsk (pure_m (setSocketPriority v))) ;!
  set_mac_opt opt ;! init_sk.
Definition socket_part (hdr : list byte) (opt : Options) : oact (pst W) := fun s =>
  if bool_decide (p_net s = ch "u") then unix_part opt s
  else if bool_decide (p_net s = ch "6") then ip6_part opt s
  else if bool_decide (p_net s = ch "2") then raw_part hdr opt s
  else ip4_part opt (on_i (set_i_net_select (ch "4")) s).

(** ** process *)

(** The result of [updateParams] is not used. *)
Definition update_part : oact (pst W) :=
  assign (fun s => on_i (fun i => set_i_msg (snd (updateParams (p_prms s) (i_msg i))) i) s).
Definition process_steps (hdr : list byte) (opt : Options) : oact (pst W) :=
  read_config opt ;! auth_part opt ;! choose_net opt ;! find_interface opt ;! numbers opt ;!
  socket_part hdr opt ;! update_part.
Definition process (hdr : list byte) (opt : Options) (i : Init) (w : W) : option (bool * (Init * W)) :=
  '(r, s) ← process_steps hdr opt (mk_pst i (m_prms (i_msg i)) x00 None w); Some (r, (p_i s, p_w s)).
Definition Init_close (i : Init) (w : W) : Init * W :=
  match i_sk i with
  | Some s => let '(s, w) := socket_close s w in (set_i_sk (Some s) (i_gen i) i, w)
  | None => (i, w)
  end.

(** ** The C interface *)

(** [me->sSk]: the class and the object that the structure holds. *)
Record ptpmgmt_init_t := mk_c_init { ci_init : Init; ci_sk : option (ptpmgmt_socket_class * nat) }.
Definition ptpmgmt_init_alloc : ptpmgmt_init_t := mk_c_init Init_new None.
Definition ptpmgmt_init_process (hdr : list byte) (opt : option Options) (me : ptpmgmt_init_t) (w : W)
    : option (bool * (ptpmgmt_init_t * W)) :=
  match opt with
  | None => Some (false, (me, w))
  | Some opt => '(r, (i, w)) ← process hdr opt (ci_init me) w; Some (r, (mk_c_init i (ci_sk me), w))
  end.
Definition ptpmgmt_init_close (me : ptpmgmt_init_t) (w : W) : ptpmgmt_init_t * W :=
  let '(i, w) := Init_close (ci_init me) w in (mk_c_init i (ci_sk me), w).
Definition class_of_net (net : byte) : option ptpmgmt_socket_class :=
  if bool_decide (net = ch "u") then Some ptpmgmt_SockUnix
  else if bool_decide (net = ch "4") then Some ptpmgmt_SockIp4
  else if bool_decide (net = ch "6") then Some ptpmgmt_SockIp6
  else if bool_decide (net = ch "2") then Some ptpmgmt_SockRaw
  else None.
(** The structure of the socket is made once; NULL without an object. *)
Definition ptpmgmt_init_sk (me : ptpmgmt_init_t) : option (ptpmgmt_socket_class * nat) * ptpmgmt_init_t :=
  match ci_sk me with
  | Some sk => (Some sk, me)
  | None =>
      match class_of_net (i_net_select (ci_init me)), i_sk (ci_init me) with
      | Some type, Some _ =>
          let sk := Some (type, i_gen (ci_init me)) in (sk, mk_c_init (ci_init me) sk)
      | _, _ => (None, me)
      end
  end.
(** A call of the structure: [None] when its object was destroyed. *)
Definition c_init_call (c : c_call) (find_index : Z -> option IfInfo) (sk : ptpmgmt_socket_class * nat) (me : ptpmgmt_init_t) (w : W)
    : option (ptpmgmt_init_t * W) :=
  if bool_decide (snd sk = i_gen (ci_init me)) then
    '(h, w) ← c_run find_name find_index c (mk_sk (i_sk (ci_init me)) (C_ASGN (fst sk)) true) w;
    Some (mk_c_init (set_i_sk (sk_this h) (i_gen (ci_init me)) (ci_init me)) (ci_sk me), w)
  else None.
Definition ptpmgmt_init_getNetSelect (me : ptpmgmt_init_t) : byte := i_net_select (ci_init me).
Definition ptpmgmt_init_use_uds (me : ptpmgmt_init_t) : bool := i_use_uds (ci_init me).
Definition ptpmgmt_init_allow_unauth (me : ptpmgmt_init_t) : Z := i_allow_unauth (ci_init me).
End Process.
