(* ===== verification/InitFacts.v ===== *)
(** * InitFacts.v: what the start of an application does

    [process] never throws and never loses a descriptor, whatever the options and
    the configuration; the parameters that the message gets. *)

From S2P Require Import Prelude CStr Types Ids MsgProc Codec Bin MngTlvs SigTlvs Auth Cfg Message.
From S2P Require Import ParseSafe Config Text Sock SockFacts SockAddr SockC SockCFacts Opt OptFacts.
From S2P Require Import Init.

#[local] Open Scope list_scope.
#[local] Open Scope init_scope.

Section Facts.
Context {W : Type} `{OL : OsLaws W} `{lib : MacLib}.
Context (fs : list byte -> option (list byte)) (residue : list byte) (find_name : list byte -> option IfInfo).
(** The files end their lines with a line feed, and the lines fit the buffer;
    hardware addresses have 6 or 8 octets. *)
Context (Lr : length residue = lineSize) (Tf : forall name file, fs name = Some file -> text_file file).
Context (Fm : forall name o, find_name name = Some o -> if_isInit o = true /\ (length (if_mac o) = 6 \/ length (if_mac o) = 8)%nat).

(** ** The invariant *)

(** The descriptors are those of the others and that of the socket; [k] is the
    class of the socket, when it matters. *)
Definition init_own (others : gset Z) (i : Init) (w : W) : Prop :=
  (cfg_reach (i_cfg i) /\ len (ci_v (clockIdentity (self_id (m_prms (i_msg i))))) = 8) /\
  match i_sk i with None => open_fds w = others | Some s => socket_own others (s, w) end.
Definition pinv (others : gset Z) (k : option ptpmgmt_socket_class) (s : pst W) : Prop :=
  init_own others (p_i s) (p_w s) /\ (k <> None -> k <> Some ptpmgmt_SockUnix -> p_if s <> None) /\
  len (ci_v (clockIdentity (self_id (p_prms s)))) = 8 /\
  match k with None => True | Some _ => exists sk, i_sk (p_i s) = Some sk /\ class_of sk = k end.
(** A step that keeps the invariant and does not throw. *)
Definition keeps (P Q R : pst W -> Prop) (m : oact (pst W)) : Prop :=
  forall s, P s -> exists r s', m s = Some (r, s') /\ if r : bool then Q s' else R s'.

Lemma keeps_seq P Q Q' R m k : keeps P Q R m -> keeps Q Q' R k -> keeps P Q' R (m ;! k).
Proof.
  intros M K s Ps. destruct (M s Ps) as (r & s1 & E & C). unfold othen. rewrite E. cbn [mbind option_bind].
  destruct r; [by apply K|]. by exists false, s1.
Qed.
Lemma keeps_assign (P Q R : pst W -> Prop) f : (forall s, P s -> Q (f s)) -> keeps P Q R (assign f).
Proof. intros F s Ps. exists true, (f s). split; [done|]. by apply F. Qed.
Lemma keeps_check (P R : pst W -> Prop) f : (forall s, P s -> R s) -> keeps P P R (check f).
Proof. intros PR s Ps. exists (f s), s. split; [done|]. destruct (f s); auto. Qed.
Lemma keeps_when (P R : pst W -> Prop) c m : (forall s, P s -> R s) -> keeps P P R m -> keeps P P R (when c m).
Proof. intros PR M s Ps. unfold when. destruct c; [by apply M|]. by exists true, s. Qed.
Lemma keeps_weaken (P Q R R' : pst W -> Prop) m : (forall s, R s -> R' s) -> keeps P Q R m -> keeps P Q R' m.
Proof. intros RR M s Ps. destruct (M s Ps) as (r & s' & E & C). exists r, s'. split; [done|]. destruct r; auto. Qed.

(** ** The socket of the object *)

Definition ended (others : gset Z) (s : pst W) : Prop := init_own others (p_i s) (p_w s).
Lemma on_sk_keeps others K m :
  (forall sk w, class_of sk = Some K -> exists r sk' w', m sk w = Some (r, (sk', w')) /\ rtc sock_step (sk, w) (sk', w')) ->
  keeps (pinv others (Some K)) (pinv others (Some K)) (ended others) (on_sk m).
Proof.
  intros M s ((Rc & O) & Hif & Hl & sk & E & Cl). unfold on_sk. rewrite E. cbn [mbind option_bind].
  destruct (M sk (p_w s) Cl) as (r & sk' & w' & -> & St). cbn [mbind option_bind]. eexists r, _. split; [done|].
  rewrite E in O. assert (init_own others (set_i_sk (Some sk') (i_gen (p_i s)) (p_i s)) w') as O'.
  { split; [exact Rc|]. cbn. by apply (sock_rtc_own others _ _ O St). }
  destruct r; [|exact O']. split; [exact O'|]. split; [exact Hif|]. split; [exact Hl|].
  exists sk'. split; [done|]. rewrite <- Cl. apply (sock_rtc_class _ _ St).
Qed.
(** After the search of the interface. *)
Definition found (others : gset Z) (s : pst W) : Prop := pinv others None s /\ (p_net s <> ch "u" -> p_if s <> None).
Lemma reset_keeps others sk K : base_of sk = SockBase_new -> class_of sk = Some K ->
  keeps (fun s => found others s /\ (K <> ptpmgmt_SockUnix -> p_net s <> ch "u")) (pinv others (Some K)) (ended others)
    (reset_sk sk).
Proof.
  intros B Cl s [[((Rc & O) & _ & Hl & _) Hif] Nu]. eexists true, _. split; [done|]. cbn.
  set (w := match i_sk (p_i s) with Some old => _ | None => _ end).
  assert (open_fds w = others) as F.
  { unfold w. destruct (i_sk (p_i s)) as [old|]; [by apply destroy_own|done]. }
  split; [|split; [intros _ N; apply Hif, Nu; congruence|split; [exact Hl|by exists sk]]].
  split; [exact Rc|]. cbn. unfold socket_own, owns, fd_set. cbn [fst snd]. rewrite B. cbn.
  rewrite (left_id_L ∅ (∪)). split; [done|]. split; [apply disjoint_empty_l|done].
Qed.

(** ** The parts *)

Definition before (others : gset Z) : pst W -> Prop := pinv others None.
Lemma pinv_ended others k s : pinv others k s -> ended others s.
Proof. by intros (O & _). Qed.
Hint Resolve pinv_ended : core.
Lemma read_config_keeps others opt : keeps (before others) (before others) (ended others) (read_config fs residue opt).
Proof.
  apply keeps_when; [apply pinv_ended|]. intros s (([Rc Hm] & O) & _ & Hl & _).
  assert (exists r cfg, read_cfg residue (fs (cstr (val (ch "f") opt))) (i_cfg (p_i s)) = Some (r, cfg) /\ cfg_reach cfg)
    as (r & cfg & E & Rc').
  { destruct (fs (cstr (val (ch "f") opt))) as [file|] eqn:Ef.
    - destruct (read_cfg_safe residue file (i_cfg (p_i s)) Lr (Tf _ _ Ef)) as [[r cfg] E].
      exists r, cfg. split; [done|]. by eapply reach_read.
    - exists false, (i_cfg (p_i s)). by split. }
  rewrite E. cbn [mbind option_bind]. eexists r, _. split; [done|].
  assert (init_own others (set_i_cfg cfg (p_i s)) (p_w s)) as O' by (by split; [|exact O]).
  destruct r; [|exact O']. by split; [|split; [|split]].
Qed.
(** Reading keys and their use only change the keys and the authentication of the
    message. *)
Lemma sa_keeps others (s : pst W) sa : before others s -> before others (on_i (set_i_sa sa) s).
Proof. intros (O & H1 & H2 & H3). by split; [exact O|split; [|split]]. Qed.
Lemma read_key_file_keeps others opt : keeps (before others) (before others) (ended others) (read_key_file fs residue opt).
Proof.
  apply keeps_when; [apply pinv_ended|]. intros s I. unfold read_sa_name.
  case_bool_decide; [cbn; eexists false, _; split; [done|]; eapply pinv_ended, sa_keeps, I|].
  destruct (fs _) as [file|] eqn:Ef.
  - destruct (read_sa_total residue file (i_sa (p_i s)) Lr (Tf _ _ Ef)) as [[r sa] ->]. cbn.
    eexists r, _. split; [done|]. destruct r; [by apply sa_keeps|eapply pinv_ended, sa_keeps, I].
  - cbn. eexists false, _. split; [done|]. eapply pinv_ended, sa_keeps, I.
Qed.
Lemma read_key_cfg_keeps others : keeps (before others) (before others) (ended others) (read_key_cfg fs residue).
Proof.
  intros s I. pose proof I as (([Rc _] & _) & _). apply cfg_reach_inv in Rc.
  destruct (read_sa_cfg_total fs residue (i_cfg (p_i s)) "" (i_sa (p_i s)) Rc Lr Tf) as [[r sa] E].
  unfold read_key_cfg. rewrite E. cbn [mbind option_bind]. eexists r, _. split; [done|].
  destruct r; [by apply sa_keeps|eapply pinv_ended, sa_keeps, I].
Qed.
Lemma useAuth_prms sa spp k m : m_prms (useAuth sa spp k m).2 = m_prms m.
Proof. unfold useAuth. destruct (SaFile_have sa spp k); [|done]. by destruct (hmac_allocHMAC _ _). Qed.
Lemma use_key_keeps others spp k : keeps (before others) (before others) (ended others) (use_key spp k).
Proof.
  intros s (([Rc Hm] & O) & H1 & H2 & H3). unfold use_key. pose proof (useAuth_prms (i_sa (p_i s)) spp k (i_msg (p_i s))) as P.
  destruct (useAuth _ _ _ _) as [r m]. cbn [snd] in P. eexists r, _. split; [done|].
  assert (init_own others (set_i_msg m (p_i s)) (p_w s)) as O'.
  { split; [|exact O]. split; [exact Rc|]. cbn. by rewrite P. }
  destruct r; [|exact O']. by split; [|split; [|split]].
Qed.
Lemma cfg_number cfg idx : cfg_reach cfg -> (idx < str_base_val)%nat -> idx <> active_key_id_val ->
  exists v, get_func idx cfg "" = Some v /\ in_range idx v.
Proof. intros Rc%cfg_reach_inv L N. destruct (get_func_ok cfg idx "" Rc L N) as (v & E & B & _). eauto. Qed.
Ltac small_idx := vm_compute; lia.
Lemma allow_part_keeps others opt : keeps (before others) (before others) (ended others) (allow_part opt).
Proof.
  intros s (([Rc Hm] & O) & H1 & H2 & H3). unfold allow_part.
  destruct (cfg_number _ allow_unauth_val Rc) as (v & E & _); [small_idx|done|].
  change (allow_unauth (i_cfg (p_i s)) "" = Some v) in E. rewrite E.
  destruct (have (ch "U") opt); cbn [mbind option_bind]; eexists true, _; (split; [done|]);
    (split; [split; [by split|exact O]|split; [exact H1|by split]]).
Qed.
Lemma choose_spp_ok opt cfg : cfg_reach cfg -> exists r, choose_spp opt cfg = Some r.
Proof.
  intros Rc. unfold choose_spp. destruct (have (ch "B") opt); [eauto|].
  destruct (haveSpp cfg "") as [h|] eqn:Hs.
  - cbn [mbind option_bind]. destruct h; [|eauto]. destruct (cfg_number cfg spp_val Rc) as (v & E & _); [small_idx|done|].
    change (spp cfg "" = Some v) in E. rewrite E. cbn. eauto.
  - apply cfg_reach_inv in Rc. apply (haveSpp_none cfg "" Rc) in Hs as [? _]. done.
Qed.
Lemma choose_key_ok opt cfg : cfg_reach cfg -> exists k, choose_key opt cfg = Some k.
Proof.
  intros Rc%cfg_reach_inv. unfold choose_key. destruct (have (ch "A") opt); [eauto|].
  destruct (get_num_ok cfg active_key_id_val "" Rc) as (k & E & _); [small_idx|eauto].
Qed.
Lemma auth_part_keeps others opt : keeps (before others) (before others) (ended others) (auth_part fs residue opt).
Proof.
  intros s (([Rc Hm] & O) & H1 & H2 & H3). unfold auth_part. cbv zeta.
  set (s0 := on_prms _ _). assert (before others s0) as I0.
  { split; [split; [by split|exact O]|]. split; [exact H1|]. by split. }
  destruct (choose_spp_ok opt (i_cfg (p_i s0)) Rc) as [r ->]. cbn [mbind option_bind].
  destruct r as [spp|]; [|eexists false, _; split; [done|by eapply pinv_ended]].
  destruct (spp <? 0); [by exists true, s0|].
  destruct (choose_key_ok opt (i_cfg (p_i s0)) Rc) as [k ->]. cbn [mbind option_bind].
  assert (keeps (before others) (before others) (ended others)
    (check (fun _ => negb (k <? 1)) ;! read_key_file fs residue opt ;! read_key_cfg fs residue ;! use_key spp k ;! allow_part opt)) as K.
  { eapply keeps_seq; [apply keeps_check, pinv_ended|]. eapply keeps_seq; [apply read_key_file_keeps|].
    eapply keeps_seq; [apply read_key_cfg_keeps|]. eapply keeps_seq; [apply use_key_keeps|apply allow_part_keeps]. }
  by apply K.
Qed.

Lemma choose_net_keeps others opt : keeps (before others) (before others) (ended others) (choose_net opt).
Proof.
  intros s (([Rc Hm] & O) & H1 & H2 & H3). unfold choose_net.
  destruct (cfg_number _ network_transport_val Rc) as (v & E & _); [small_idx|done|].
  change (network_transport (i_cfg (p_i s)) "" = Some v) in E. rewrite E.
  case_bool_decide; cbn [mbind option_bind]; eexists true, _; (split; [done|]);
    (split; [split; [by split|exact O]|split; [done|by split]]).
Qed.
(** The identity of a clock with a hardware address. *)
Definition eui64 (mac : list byte) : list byte :=
  if (length mac =? 6)%nat then take 3 mac ++ [xff; xfe] ++ drop 3 mac else mac.
Lemma eui64_octets mac : (length mac = 6 \/ length mac = 8)%nat ->
  octets (eui48ToEui64 (Binary_of mac)).2 = eui64 mac /\ length (eui64 mac) = 8%nat.
Proof.
  intros L. destruct L as [L|L].
  - do 6 (destruct mac as [|? mac]; [done|]). by destruct mac.
  - do 8 (destruct mac as [|? mac]; [done|]). by destruct mac.
Qed.
Lemma copy_identity_all bs id : length bs = 8%nat -> len (ci_v id) = 8 -> copy_identity bs id = Some (mk_ClockIdentity bs).
Proof.
  intros L1 L2. unfold copy_identity, len in *. rewrite L1. cbn. f_equal. f_equal. unfold splice. cbn.
  rewrite drop_ge; [by rewrite app_nil_r|]. unfold len. rewrite L1. lia.
Qed.
Lemma find_interface_keeps others opt : keeps (before others) (found others) (ended others) (find_interface find_name opt).
Proof.
  intros s I. pose proof I as (O & H1 & H2 & H3). unfold find_interface. case_bool_decide as U; [by exists true, s|].
  case_bool_decide; [by exists false, s|]. destruct (find_name _) as [o|] eqn:E; [|by exists false, s].
  destruct (Fm _ _ E) as [_ Lm]. destruct (eui64_octets (if_mac o) Lm) as [-> L8].
  rewrite copy_identity_all by done. cbn [mbind option_bind]. eexists true, _. split; [done|].
  split; [|done]. split; [exact O|]. split; [done|]. split; [cbn; unfold len; by rewrite L8|done].
Qed.
Lemma numbers_keeps others opt : keeps (found others) (found others) (ended others) (numbers opt).
Proof.
  intros s ((([Rc Hm] & O) & H1 & H2 & H3) & Hif). unfold numbers.
  destruct (cfg_number _ domainNumber_val Rc) as (d & Ed & _); [small_idx|done|].
  destruct (cfg_number _ transportSpecific_val Rc) as (t & Et & _); [small_idx|done|].
  change (domainNumber (i_cfg (p_i s)) "" = Some d) in Ed. change (transportSpecific (i_cfg (p_i s)) "" = Some t) in Et.
  rewrite Ed, Et. destruct (have (ch "d") opt), (have (ch "t") opt); cbn [mbind option_bind]; eexists true, _;
    (split; [done|]); (split; [split; [split; [by split|exact O]|split; [done|by split]]|exact Hif]).
Qed.

(** ** The sockets *)

Lemma init_sk_keeps others K : keeps (pinv others (Some K)) (pinv others (Some K)) (ended others) init_sk.
Proof.
  apply on_sk_keeps. intros sk w _. pose proof (step_init sk w) as S. destruct (socket_init sk w) as [r [sk' w']].
  exists r, sk', w'. split; [done|]. by apply rtc_once.
Qed.
Lemma setAll_keeps others K : K <> ptpmgmt_SockUnix ->
  keeps (pinv others (Some K)) (pinv others (Some K)) (ended others) setAll_sk.
Proof.
  intros NK s I. pose proof I as (([Rc Hm] & O) & H1 & _ & sk & E & Cl). unfold setAll_sk.
  destruct (p_if s) as [o|] eqn:Ef; [|exfalso; by apply H1; [done|congruence|]]. cbn [mbind option_bind].
  apply (on_sk_keeps others K); [|done]. intros sk' w Cl'.
  destruct (socket_setAll_ok o (i_cfg (p_i s)) "" sk' Rc (not_unix sk' K Cl' NK)) as (r & s' & E' & S & _).
  unfold try_m. rewrite E'. cbn. exists r, s', w. split; [done|]. by apply rtc_once, step_set.
Qed.
Lemma with_number_keeps others K c opt m :
  (forall v sk w, class_of sk = Some K -> exists r sk' w', m v sk w = Some (r, (sk', w')) /\ rtc sock_step (sk, w) (sk', w')) ->
  keeps (pinv others (Some K)) (pinv others (Some K)) (ended others) (with_number c opt m).
Proof. intros M. apply keeps_when; [apply pinv_ended|]. apply on_sk_keeps. intros. by apply M. Qed.
Lemma ttl_ok K v sk w : K = ptpmgmt_SockIp4 \/ K = ptpmgmt_SockIp6 -> class_of sk = Some K ->
  exists r sk' w', valid_ipsk (pure_m (setUdpTtl v)) sk w = Some (r, (sk', w')) /\ rtc sock_step (sk, w) (sk', w').
Proof.
  intros [->| ->] Cl; [apply class_ip4 in Cl as [p ->]|apply class_ip6 in Cl as (p & -> & _)];
    rewrite ipsk_pure; eexists _, _, _; (split; [done|]); apply rtc_once, step_set; constructor.
Qed.
Lemma ip4_keeps others opt : keeps (fun s => found others s /\ (ptpmgmt_SockIp4 <> ptpmgmt_SockUnix -> p_net s <> ch "u"))
  (pinv others (Some ptpmgmt_SockIp4)) (ended others) (ip4_part opt).
Proof.
  eapply keeps_seq; [by apply reset_keeps|]. eapply keeps_seq; [by apply setAll_keeps|].
  eapply keeps_seq; [apply with_number_keeps; intros; by apply (ttl_ok ptpmgmt_SockIp4); [left|]|]. apply init_sk_keeps.
Qed.
Lemma ip6_keeps others opt : keeps (fun s => found others s /\ (ptpmgmt_SockIp6 <> ptpmgmt_SockUnix -> p_net s <> ch "u"))
  (pinv others (Some ptpmgmt_SockIp6)) (ended others) (ip6_part opt).
Proof.
  eapply keeps_seq; [by apply reset_keeps|]. eapply keeps_seq; [by apply setAll_keeps|].
  eapply keeps_seq; [apply with_number_keeps; intros; by apply (ttl_ok ptpmgmt_SockIp6); [right|]|].
  eapply keeps_seq; [|apply init_sk_keeps]. apply with_number_keeps. intros v sk w Cl.
  apply class_ip6 in Cl as (p & -> & D). rewrite ip6sk_ipsk, ipsk_pure by done.
  eexists _, _, _. split; [done|]. apply rtc_once, step_set. constructor.
Qed.
Lemma raw_keeps others hdr opt : keeps (fun s => found others s /\ (ptpmgmt_SockRaw <> ptpmgmt_SockUnix -> p_net s <> ch "u"))
  (pinv others (Some ptpmgmt_SockRaw)) (ended others) (raw_part hdr opt).
Proof.
  eapply keeps_seq; [by apply reset_keeps|]. eapply keeps_seq; [by apply setAll_keeps|].
  eapply keeps_seq; [apply with_number_keeps|].
  { intros v sk w Cl. apply class_raw in Cl as [r ->]. rewrite rsk_pure. eexists _, _, _. split; [done|].
    apply rtc_once, step_set. constructor. }
  eapply keeps_seq; [|apply init_sk_keeps]. apply keeps_when; [apply pinv_ended|]. intros s I.
  destruct (fromMac _ _) as [ok mac]. destruct (negb ok); [exists false, s; split; [done|by eapply pinv_ended]|].
  apply (on_sk_keeps others ptpmgmt_SockRaw); [|done]. intros sk w Cl. apply class_raw in Cl as [r ->]. rewrite rsk_pure.
  eexists _, _, _. split; [done|]. apply rtc_once, step_set. constructor.
Qed.
Lemma on_unix_keeps others m : (forall u w, exists s', (m u w).2 = (s', w) /\ setter (W := W) (S_unix u) (S_unix s')) ->
  keeps (pinv others (Some ptpmgmt_SockUnix)) (pinv others (Some ptpmgmt_SockUnix)) (ended others) (on_unix m).
Proof.
  intros M. apply on_sk_keeps. intros sk w Cl. apply class_unix in Cl as [u ->]. destruct (M u w) as (s' & E & S).
  unfold valid_usk. destruct (m u w) as [r [s2 w2]]. cbn in E |- *. injection E as -> ->.
  eexists _, _, _. split; [done|]. by apply rtc_once, step_set.
Qed.
Lemma unix_keeps others opt : keeps (found others) (pinv others (Some ptpmgmt_SockUnix)) (ended others) (unix_part opt).
Proof.
  intros s I. apply (keeps_seq (fun s => found others s /\ (ptpmgmt_SockUnix <> ptpmgmt_SockUnix -> p_net s <> ch "u"))
    (pinv others (Some ptpmgmt_SockUnix)) (pinv others (Some ptpmgmt_SockUnix)) (ended others)); [by apply reset_keeps| |by split].
  eapply keeps_seq.
  - intros s1 I1. pose proof I1 as (([Rc Hm] & _) & _).
    assert (exists path, uds_path opt (i_cfg (p_i s1)) = Some path) as [path ->].
    { unfold uds_path. destruct (have (ch "s") opt); [eauto|]. by apply cfg_values. }
    cbn [mbind option_bind].
    apply (keeps_seq (pinv others (Some ptpmgmt_SockUnix)) (pinv others (Some ptpmgmt_SockUnix))
      (pinv others (Some ptpmgmt_SockUnix)) (ended others)); [|eapply keeps_seq; [apply init_sk_keeps|]|done].
    + apply on_unix_keeps. intros u w. unfold self_default. pose proof (set_def [] [] [] u w) as S.
      destruct (setDefSelfAddress [] [] [] u w) as [r [u' h]]. by exists u'.
    + apply on_unix_keeps. intros u w. pose proof (set_peer (W := W) path false u) as S.
      destruct (setPeerAddress path false u) as [r u']. by exists u'.
  - apply keeps_assign. intros s1 (O & H1 & H2 & H3). split; [exact O|]. split; [exact H1|]. split; [|exact H3].
    cbn. unfold len in *. by rewrite !length_insert.
Qed.
Lemma socket_part_keeps others hdr opt :
  keeps (found others) (fun s => exists K, pinv others (Some K) s) (ended others) (socket_part hdr opt).
Proof.
  intros s I. unfold socket_part.
  assert (forall K m, keeps (fun s => found others s /\ (K <> ptpmgmt_SockUnix -> p_net s <> ch "u")) (pinv others (Some K))
    (ended others) m -> forall s, found others s -> p_net s <> ch "u" -> exists r s', m s = Some (r, s') /\
      if r : bool then (exists K, pinv others (Some K) s') else ended others s') as Part.
  { intros K m M s1 I1 Nu. destruct (M s1) as (r & s' & E & C); [by split|]. exists r, s'. split; [done|].
    destruct r; [by exists K|done]. }
  case_bool_decide.
  { destruct (unix_keeps others opt s I) as (r & s' & E & C). exists r, s'. split; [done|]. destruct r; [by eexists|done]. }
  case_bool_decide; [by eapply Part; [apply ip6_keeps|..]|].
  case_bool_decide; [by eapply Part; [apply raw_keeps|..]|]. by eapply Part; [apply ip4_keeps|..].
Qed.


(** ** The parameters of the message *)

Lemma othen_true {S} (m k : oact S) s s' : (m ;! k) s = Some (true, s') ->
  exists s1, m s = Some (true, s1) /\ k s1 = Some (true, s').
Proof.
  unfold othen. destruct (m s) as [[[] s1]|]; cbn [mbind option_bind]; [eauto|done|done].
Qed.
(** What the work on the socket leaves. *)
Definition sk_frame (s s' : pst W) : Prop :=
  p_prms s' = p_prms s /\ p_net s' = p_net s /\ i_cfg (p_i s') = i_cfg (p_i s) /\ i_msg (p_i s') = i_msg (p_i s) /\
  i_use_uds (p_i s') = i_use_uds (p_i s).
Lemma sk_frame_refl s : sk_frame s s.
Proof. done. Qed.
Lemma sk_frame_trans s1 s2 s3 : sk_frame s1 s2 -> sk_frame s2 s3 -> sk_frame s1 s3.
Proof. intros (A1 & A2 & A3 & A4 & A5) (B1 & B2 & B3 & B4 & B5). repeat split; congruence. Qed.
(** A step that only works on the socket. *)
Definition on_socket (m : oact (pst W)) : Prop := forall s r s', m s = Some (r, s') -> sk_frame s s'.
Lemma on_socket_then m k : on_socket m -> on_socket k -> on_socket (m ;! k).
Proof.
  intros M K s r s' E. unfold othen in E. destruct (m s) as [[b s1]|] eqn:E1; [|done]. cbn [mbind option_bind] in E.
  apply M in E1. destruct b; [|by injection E as _ <-]. eapply sk_frame_trans; [exact E1|by eapply K].
Qed.
Lemma on_socket_sk m : on_socket (on_sk m).
Proof.
  intros s r s'. unfold on_sk. destruct (i_sk (p_i s)); [|done]. cbn [mbind option_bind].
  destruct (m _ _) as [[b [sk w]]|]; [|done]. cbn [mbind option_bind]. by intros [= _ <-].
Qed.
Lemma on_socket_when c m : on_socket m -> on_socket (when c m).
Proof. intros M s r s'. unfold when. destruct c; [apply M|by intros [= _ <-]]. Qed.
Lemma on_socket_reset sk : on_socket (reset_sk sk).
Proof. intros s r s' E. unfold reset_sk in E. by injection E as _ <-. Qed.
Lemma on_socket_setAll : on_socket setAll_sk.
Proof. intros s r s'. unfold setAll_sk. destruct (p_if s); [|done]. apply on_socket_sk. Qed.
Lemma on_socket_mac opt : on_socket (set_mac_opt opt).
Proof.
  apply on_socket_when. intros s r s'. destruct (fromMac _ _) as [ok mac]. destruct (negb ok); [by intros [= _ <-]|].
  apply on_socket_sk.
Qed.
Create HintDb on_socket.
Hint Resolve on_socket_then on_socket_sk on_socket_when on_socket_reset on_socket_setAll on_socket_mac : on_socket.
Lemma ip_parts opt hdr : on_socket (ip4_part opt) /\ on_socket (ip6_part opt) /\ on_socket (raw_part hdr opt).
Proof.
  unfold ip4_part, ip6_part, raw_part, with_number, init_sk.
  split; [|split]; eauto 12 with on_socket.
Qed.
Lemma unix_part_true opt s s' : unix_part opt s = Some (true, s') ->
  i_cfg (p_i s') = i_cfg (p_i s) /\ i_msg (p_i s') = i_msg (p_i s) /\ i_use_uds (p_i s') = true /\
  exists pid, p_prms s' = set_self_id (pid_identity pid (self_id (p_prms s))) (p_prms s).
Proof.
  intros (s1 & E1 & (s2 & E2 & E3)%othen_true)%othen_true. apply on_socket_reset in E1 as (A1 & _ & A3 & A4 & _).
  destruct (uds_path opt (i_cfg (p_i s1))) as [path|]; [|done]. cbn [mbind option_bind] in E2.
  assert (sk_frame s1 s2) as (B1 & _ & B3 & B4 & _).
  { revert E2. apply on_socket_then; [apply on_socket_sk|apply on_socket_then; apply on_socket_sk]. }
  injection E3 as <-. cbn. split; [congruence|]. split; [congruence|]. split; [done|].
  exists (os_getpid (p_w s2)). by rewrite B1, A1.
Qed.
Lemma socket_part_true hdr opt s s' : socket_part hdr opt s = Some (true, s') ->
  i_cfg (p_i s') = i_cfg (p_i s) /\ i_msg (p_i s') = i_msg (p_i s) /\
  if bool_decide (p_net s = ch "u")
  then i_use_uds (p_i s') = true /\ exists pid, p_prms s' = set_self_id (pid_identity pid (self_id (p_prms s))) (p_prms s)
  else i_use_uds (p_i s') = i_use_uds (p_i s) /\ p_prms s' = p_prms s.
Proof.
  unfold socket_part. destruct (ip_parts opt hdr) as (I4 & I6 & Ir). case_bool_decide.
  { intros (A1 & A2 & A3 & A4)%unix_part_true. by repeat split. }
  case_bool_decide; [by intros (A1 & _ & A3 & A4 & A5)%I6|].
  case_bool_decide; [by intros (A1 & _ & A3 & A4 & A5)%Ir|]. by intros (A1 & _ & A3 & A4 & A5)%I4.
Qed.

(** The other parts. *)
Definition same_prms (s s' : pst W) : Prop :=
  i_cfg (p_i s') = i_cfg (p_i s) /\ m_prms (i_msg (p_i s')) = m_prms (i_msg (p_i s)).
Lemma read_config_true opt (s s' : pst W) : read_config fs residue opt s = Some (true, s') ->
  m_prms (i_msg (p_i s')) = m_prms (i_msg (p_i s)).
Proof.
  unfold read_config, when. destruct (have _ _); [|by intros [= <-]].
  destruct (read_cfg _ _ _) as [[r cfg]|]; [|done]. cbn [mbind option_bind]. by intros [= _ <-].
Qed.
Lemma auth_part_true opt (s s' : pst W) : auth_part fs residue opt s = Some (true, s') ->
  same_prms s s' /\ self_id (p_prms s') = self_id (m_prms (i_msg (p_i s))).
Proof.
  unfold auth_part. cbv zeta. destruct (choose_spp _ _) as [[spp|]|]; [|done|done]. cbn [mbind option_bind].
  destruct (spp <? 0); [by intros [= <-]|]. destruct (choose_key _ _); [|done]. cbn [mbind option_bind].
  intros (s1 & E1 & (s2 & E2 & (s3 & E3 & (s4 & E4 & E5)%othen_true)%othen_true)%othen_true)%othen_true.
  injection E1 as _ <-. unfold read_key_file, when in E2. unfold read_key_cfg in E3. unfold use_key in E4. unfold allow_part in E5.
  assert (same_prms s s2 /\ p_prms s2 = m_prms (i_msg (p_i s))) as [F2 P2].
  { destruct (have (ch "F") opt); [|by injection E2 as <-]. destruct (read_sa_name _ _ _ _) as [[r sa]|]; [|done].
    cbn [mbind option_bind] in E2. by injection E2 as _ <-. }
  destruct (read_sa_cfg _ _ _ _ _) as [[r sa]|]; [|done]. cbn [mbind option_bind] in E3. injection E3 as _ <-.
  match type of E4 with context [useAuth ?a ?b ?c ?d] => pose proof (useAuth_prms a b c d) as P; destruct (useAuth a b c d) as [r4 m4] end.
  injection E4 as _ <-. match type of E5 with (?c ≫= _) = _ => destruct c as [v|]; [|done] end.
  cbn [mbind option_bind] in E5. injection E5 as <-.
  destruct F2 as [C2 M2]. split; [split; [exact C2|cbn in P |- *; by rewrite P]|]. cbn. by rewrite P2.
Qed.
Lemma choose_net_true opt (s s' : pst W) : choose_net opt s = Some (true, s') ->
  same_prms s s' /\ p_prms s' = p_prms s.
Proof.
  unfold choose_net. case_bool_decide; [|by intros [= <-]]. destruct (network_transport _ _); [|done].
  cbn [mbind option_bind]. by intros [= <-].
Qed.

Lemma find_interface_true opt (s s' : pst W) : find_interface find_name opt s = Some (true, s') ->
  same_prms s s' /\ p_net s' = p_net s /\
  if bool_decide (p_net s = ch "u") then s' = s
  else i_use_uds (p_i s') = false /\
    exists o, find_name (cstr (val (ch "i") opt)) = Some o /\
      (len (ci_v (clockIdentity (self_id (p_prms s)))) = 8 ->
       self_id (p_prms s') = mk_PortIdentity (mk_ClockIdentity (eui64 (if_mac o))) 1).
Proof.
  unfold find_interface. case_bool_decide; [by intros [= <-]|]. case_bool_decide; [done|].
  destruct (find_name _) as [o|] eqn:E; [|done]. destruct (Fm _ _ E) as [_ Lm].
  destruct (eui64_octets (if_mac o) Lm) as [-> L8].
  destruct (copy_identity _ _) as [id|] eqn:Ec; [|done]. cbn [mbind option_bind]. intros [= <-].
  split; [done|]. split; [done|]. split; [done|]. exists o. split; [done|]. intros L. cbn.
  rewrite copy_identity_all in Ec by done. by injection Ec as <-.
Qed.
(** The numbers, when the configuration is [cfg]. *)
Definition numbers_of (opt : Options) (cfg : ConfigFile) (prms : MsgParams) : Prop :=
  (if have (ch "t") opt then Some (uwrap 8 (strtol 16 (cstr (val (ch "t") opt))).1)
   else transportSpecific cfg "") = Some (Types.transportSpecific prms) /\
  (if have (ch "d") opt then Some (uwrap 8 (val_i (ch "d") opt)) else domainNumber cfg "") =
    Some (Types.domainNumber prms) /\
  boundaryHops prms = (if have (ch "b") opt then uwrap 8 (val_i (ch "b") opt) else 1) /\
  useZeroGet prms = bool_decide (val (ch "z") opt = bytes "1").
Lemma numbers_true opt (s s' : pst W) : numbers opt s = Some (true, s') ->
  same_prms s s' /\ p_net s' = p_net s /\ i_use_uds (p_i s') = i_use_uds (p_i s) /\
  self_id (p_prms s') = self_id (p_prms s) /\ numbers_of opt (i_cfg (p_i s)) (p_prms s').
Proof.
  unfold numbers, numbers_of. cbv zeta.
  destruct (if have (ch "d") opt then _ else _) as [dom|]; [|done]. cbn [mbind option_bind].
  destruct (if have (ch "t") opt then _ else _) as [t|]; [|done]. cbn [mbind option_bind]. by intros [= <-].
Qed.
Lemma updateParams_prms p m : m_prms (updateParams p m).2 = if 0xf <? Types.transportSpecific p then m_prms m else p.
Proof. unfold updateParams. by destruct (_ <? _). Qed.


(** ** The structure of the socket in C *)

(** A step that makes [n] new objects, at least when it succeeds. *)
Definition makes (n : nat) (m : oact (pst W)) : Prop :=
  forall s r s', m s = Some (r, s') ->
    (i_gen (p_i s) <= i_gen (p_i s'))%nat /\ (r = true -> i_gen (p_i s') = (i_gen (p_i s) + n)%nat).
Lemma makes_then a b m k : makes a m -> makes b k -> makes (a + b) (m ;! k).
Proof.
  intros M K s r s' E. unfold othen in E. destruct (m s) as [[[] s1]|] eqn:E1; [| |done]; cbn [mbind option_bind] in E.
  - apply M in E1 as [L1 T1]. apply K in E as [L T]. specialize (T1 eq_refl). split; [lia|]. intros ->. rewrite T by done. lia.
  - apply M in E1 as [L1 _]. by injection E as <- <-.
Qed.
Lemma makes_sk m : makes 0 (on_sk m).
Proof.
  intros s r s'. unfold on_sk. destruct (i_sk (p_i s)); [|done]. cbn [mbind option_bind].
  destruct (m _ _) as [[b [sk w]]|]; [|done]. cbn [mbind option_bind]. intros [= _ <-]. cbn. lia.
Qed.
Lemma makes_when c m : makes 0 m -> makes 0 (when c m).
Proof. intros M s r s'. unfold when. destruct c; [apply M|intros [= _ <-]]. lia. Qed.
Lemma makes_reset sk : makes 1 (reset_sk sk).
Proof. intros s r s' E. unfold reset_sk in E. injection E as <- <-. cbn. lia. Qed.
Lemma makes_setAll : makes 0 setAll_sk.
Proof. intros s r s'. unfold setAll_sk. destruct (p_if s); [|done]. apply makes_sk. Qed.
Lemma makes_mac opt : makes 0 (set_mac_opt opt).
Proof.
  apply makes_when. intros s r s'. destruct (fromMac _ _) as [ok mac]. destruct (negb ok); [intros [= <- <-]; by split|].
  apply makes_sk.
Qed.
(** A sequence that makes nothing. *)
Lemma makes_then0 m k : makes 0 m -> makes 0 k -> makes 0 (m ;! k).
Proof. apply (makes_then 0 0). Qed.
Create HintDb makes.
Hint Resolve makes_then0 makes_sk makes_when makes_setAll makes_mac : makes.
Lemma socket_part_makes hdr opt : makes 1 (socket_part hdr opt).
Proof.
  intros s r s'. unfold socket_part. case_bool_decide.
  { unfold unix_part. apply (makes_then 1 0); [apply makes_reset|]. apply makes_then0.
    - intros t b t'. destruct (uds_path _ _) as [path|]; [|done]. cbn [mbind option_bind]. unfold on_unix, init_sk.
      revert t b t'. change (makes 0 (on_unix self_default ;! (init_sk ;! on_unix (fun u w => let '(r, u) := setPeerAddress path false u in (r, (u, w)))))).
      unfold on_unix, init_sk. eauto with makes.
    - intros t b t' [= <- <-]. cbn. lia. }
  case_bool_decide; [|case_bool_decide].
  - unfold ip6_part, with_number, init_sk. apply (makes_then 1 0); [apply makes_reset|]. eauto 8 with makes.
  - unfold raw_part, with_number, init_sk. apply (makes_then 1 0); [apply makes_reset|]. eauto 8 with makes.
  - intros E. change (i_gen (p_i s)) with (i_gen (p_i (on_i (set_i_net_select (ch "4")) s))). revert E.
    unfold ip4_part, with_number, init_sk. apply (makes_then 1 0); [apply makes_reset|]. eauto 8 with makes.
Qed.
Lemma read_config_makes opt : makes 0 (read_config fs residue opt).
Proof.
  apply makes_when. intros s r s'. destruct (read_cfg _ _ _) as [[b cfg]|]; [|done]. cbn [mbind option_bind].
  intros [= <- <-]. cbn. lia.
Qed.
Lemma auth_part_makes opt : makes 0 (auth_part fs residue opt).
Proof.
  assert (forall spp key, makes 0 (check (fun _ => negb (key <? 1)) ;! read_key_file fs residue opt ;!
    read_key_cfg fs residue ;! use_key spp key ;! allow_part opt)) as K.
  { intros spp key. repeat apply makes_then0.
    - intros s r s' [= <- <-]. lia.
    - apply makes_when. intros s r s'. destruct (read_sa_name _ _ _ _) as [[b sa]|]; [|done]. cbn [mbind option_bind].
      intros [= <- <-]. cbn. lia.
    - intros s r s'. unfold read_key_cfg. destruct (read_sa_cfg _ _ _ _ _) as [[b sa]|]; [|done]. cbn [mbind option_bind].
      intros [= <- <-]. cbn. lia.
    - intros s r s'. unfold use_key. destruct (useAuth _ _ _ _) as [b m]. intros [= <- <-]. cbn. lia.
    - intros s r s'. unfold allow_part. destruct (if have _ _ then _ else _) as [v|]; [|done]. cbn [mbind option_bind].
      intros [= <- <-]. cbn. lia. }
  intros s r s'. unfold auth_part. cbv zeta. destruct (choose_spp _ _) as [[spp|]|]; [| |done]; cbn [mbind option_bind].
  - destruct (spp <? 0); [intros [= <- <-]; cbn; lia|]. destruct (choose_key _ _); [|done]. cbn [mbind option_bind].
    intros E. by apply K in E.
  - intros [= <- <-]. by split.
Qed.
Lemma choose_net_makes opt : makes 0 (choose_net (W := W) opt).
Proof.
  intros s r s'. unfold choose_net. case_bool_decide; [|intros [= <- <-]; cbn; lia].
  destruct (network_transport _ _); [|done]. cbn [mbind option_bind]. intros [= <- <-]. cbn. lia.
Qed.
Lemma find_interface_makes opt : makes 0 (find_interface (W := W) find_name opt).
Proof.
  intros s r s'. unfold find_interface. case_bool_decide; [intros [= <- <-]; lia|].
  case_bool_decide; [by intros [= <- <-]|]. destruct (find_name _); [|by intros [= <- <-]].
  destruct (copy_identity _ _); [|done]. cbn [mbind option_bind]. intros [= <- <-]. cbn. lia.
Qed.
Lemma numbers_makes opt : makes 0 (numbers (W := W) opt).
Proof.
  intros s r s'. unfold numbers. cbv zeta.
  destruct (if have (ch "d") opt then _ else _) as [dom|]; [|done]. cbn [mbind option_bind].
  destruct (if have (ch "t") opt then _ else _) as [t|]; [|done]. cbn [mbind option_bind]. intros [= <- <-]. cbn. lia.
Qed.
Lemma process_makes hdr opt i w r i' w' :
  process fs residue find_name hdr opt i w = Some (r, (i', w')) ->
  (i_gen i <= i_gen i')%nat /\ (r = true -> i_gen i' = S (i_gen i)).
Proof.
  unfold process. destruct (process_steps _ _ _ _ _ _) as [[b s']|] eqn:E; [|done]. cbn [mbind option_bind].
  intros [= <- <- _]. assert (makes 1 (process_steps fs residue find_name hdr opt)) as K.
  { unfold process_steps. apply (makes_then 0 1); [apply read_config_makes|]. apply (makes_then 0 1); [apply auth_part_makes|].
    apply (makes_then 0 1); [apply choose_net_makes|]. apply (makes_then 0 1); [apply find_interface_makes|].
    apply (makes_then 0 1); [apply numbers_makes|]. apply (makes_then 1 0); [apply socket_part_makes|].
    intros s r s2 [= <- <-]. cbn. lia. }
  apply K in E as [L T]. cbn in L, T. split; [exact L|]. intros ->. rewrite T by done. lia.
Qed.
(** The structure of the socket that a C program got is made once: after another
    [process] that succeeds it is still what [sk] gives, with the class of the
    first, but it points to the object that was destroyed. *)
Theorem second_process_stale hdr opt me sk me1 w me2 w2 find_index c w3 :
  ptpmgmt_init_sk me = (Some sk, me1) -> (snd sk <= i_gen (ci_init me1))%nat ->
  ptpmgmt_init_process fs residue find_name hdr (Some opt) me1 w = Some (true, (me2, w2)) ->
  ptpmgmt_init_sk me2 = (Some sk, me2) /\ c_init_call find_name c find_index sk me2 w3 = None.
Proof.
  intros E L P. assert (ci_sk me1 = Some sk) as C1.
  { revert E. unfold ptpmgmt_init_sk. destruct (ci_sk me) as [k|] eqn:K; [by intros [= -> <-]|].
    destruct (class_of_net _); [|done]. destruct (i_sk _); [|done]. by intros [= <- <-]. }
  unfold ptpmgmt_init_process in P. destruct (process _ _ _ _ _ _ _) as [[r [i' w']]|] eqn:Ep; [|done].
  cbn [mbind option_bind] in P. injection P as -> <- _. apply process_makes in Ep as [_ G]. specialize (G eq_refl).
  split; [unfold ptpmgmt_init_sk; cbn [ci_sk]; by rewrite C1|].
  unfold c_init_call. cbn [ci_init]. rewrite bool_decide_eq_false_2; [done|]. lia.
Qed.

(** ** A file of keys in the options alone *)

(** With authentication on, the keys of the file of option F are read, and then
    those of the configuration: without a file there, [process] is refused. *)
Lemma key_file_alone opt (s : pst W) spp : choose_spp opt (i_cfg (p_i s)) = Some (Some spp) -> 0 <= spp ->
  sa_file (i_cfg (p_i s)) "" = Some [] -> forall s', auth_part fs residue opt s <> Some (true, s').
Proof.
  intros C Hs Sf s' E. unfold auth_part in E. cbv zeta in E. cbn [p_i on_i on_prms i_cfg set_i_allow_unauth] in E. rewrite C in E.
  cbn [mbind option_bind] in E. rewrite (proj2 (Z.ltb_ge spp 0)) in E by done.
  destruct (choose_key _ _); [|done]. cbn [mbind option_bind] in E.
  apply othen_true in E as (s1 & E1 & (s2 & E2 & (s3 & E3 & _)%othen_true)%othen_true). injection E1 as _ <-.
  assert (i_cfg (p_i s2) = i_cfg (p_i s)) as C2.
  { unfold read_key_file, when in E2. destruct (have (ch "F") opt); [|by injection E2 as <-].
    destruct (read_sa_name _ _ _ _) as [[b sa]|]; [|done]. cbn [mbind option_bind] in E2. by injection E2 as _ <-. }
  unfold read_key_cfg, read_sa_cfg in E3. by rewrite C2, Sf in E3.
Qed.
End Facts.

(** * The start of an application on a small system

    The theorems of [OptFacts] and [InitFacts] at work: a program with the default
    options, one interface, no files. *)

(** [-i] and its argument, when the program declares it; what follows is left. *)
Definition demo_getopt : getopt_fun := fun shorts longs argv =>
  match argv, short_decl shorts (ch "i") with
  | _ :: _ :: a :: _, Some true => ([(ch "i", Some a, 3)], 3)
  | _, _ => ([], len argv)
  end.
Definition demo_argv : list (list byte) := [bytes "pmc"; bytes "-i"; bytes "eth0"; bytes "GET"].
Definition demo_opts0 : Options := Eval vm_compute in default Options_empty (Options_new (fun _ => R_same) true).
Definition demo_opts : Options :=
  Eval vm_compute in match parse_options demo_getopt [] demo_argv demo_opts0 with Some (_, o) => o | None => Options_empty end.
Definition demo_find (name : list byte) : option IfInfo :=
  if bool_decide (name = bytes "eth0") then Some demo_if else None.
Definition no_file (name : list byte) : option (list byte) := None.

Lemma demo_opts0_reach : opt_reach demo_opts0.
Proof. apply (reach_new (fun _ => R_same) true); [done|]. by vm_compute. Qed.
Lemma demo_getopt_ok : getopt_ok demo_getopt.
Proof.
  intros shorts longs argv _. unfold demo_getopt. destruct argv as [|x [|y [|a l]]]; try constructor.
  destruct (short_decl shorts (ch "i")) as [[]|] eqn:E; try constructor; [|constructor].
  split; [unfold len; cbn [length]; lia|]. right. split; [done|]. exists true. split; [by left|done].
Qed.
Lemma parse_values_witness : val (ch "i") demo_opts = bytes "eth0" /\ have_more demo_opts = true.
Proof.
  destruct (parse_values demo_getopt [] demo_argv demo_opts0 demo_opts) as (names & l & ind & N & G & _ & M & V).
  - vm_compute. reflexivity.
  - vm_compute in N. injection N as <-. vm_compute in G. injection G as <- <-. split; [|rewrite M; reflexivity].
    rewrite (V (ch "i")); [reflexivity|..].
    + intros H. vm_compute in H. repeat (apply elem_of_cons in H as [H|H]; [discriminate|]). by apply not_elem_of_nil in H.
    + discriminate.
Defined.

Definition demo_files_text name file : no_file name = Some file -> text_file file.
Proof. discriminate. Qed.
Lemma demo_find_ok name o : demo_find name = Some o -> if_isInit o = true /\ (length (if_mac o) = 6 \/ length (if_mac o) = 8)%nat.
Proof. unfold demo_find. case_bool_decide; [|done]. intros [= <-]. split; [done|by left]. Qed.
Definition demo_run (i : Init) (w : demo_os) : option (bool * (Init * demo_os)) :=
  process no_file zeros_line demo_find (repeat x00 14) demo_opts i w.
(** The object and the system after it. *)
Definition demo_after : Init * demo_os := match demo_run Init_new demo_world with Some (_, s) => s | None => (Init_new, demo_world) end.
Lemma demo_runs : demo_run Init_new demo_world = Some (true, demo_after).
Proof.
  assert (match demo_run Init_new demo_world with Some (r, _) => r | None => false end = true) as R by (vm_compute; reflexivity).
  unfold demo_after. revert R. destruct (demo_run _ _) as [[[] s]|]; done.
Qed.
Lemma second_process_stale_witness :
  exists sk me1 me2, ptpmgmt_init_sk (mk_c_init demo_after.1 None) = (Some sk, me1) /\
    ptpmgmt_init_sk me2 = (Some sk, me2) /\ snd sk <> i_gen (ci_init me2).
Proof.
  destruct (demo_run demo_after.1 demo_after.2) as [[r [i2 w2]]|] eqn:E.
  2: { exfalso. revert E. vm_compute. discriminate. }
  assert (r = true) as -> by (vm_compute in E; congruence).
  exists (ptpmgmt_SockIp4, 1%nat), (mk_c_init demo_after.1 (Some (ptpmgmt_SockIp4, 1%nat))),
    (mk_c_init i2 (Some (ptpmgmt_SockIp4, 1%nat))).
  assert (ptpmgmt_init_sk (mk_c_init demo_after.1 None) =
    (Some (ptpmgmt_SockIp4, 1%nat), mk_c_init demo_after.1 (Some (ptpmgmt_SockIp4, 1%nat)))) as K by (vm_compute; reflexivity).
  split; [exact K|].
  destruct (second_process_stale no_file zeros_line demo_find eq_refl (repeat x00 14) demo_opts _ _ _ demo_after.2
    (mk_c_init i2 (Some (ptpmgmt_SockIp4, 1%nat))) w2 (fun _ => None) C_close w2 K) as [A _].
  - vm_compute. lia.
  - unfold ptpmgmt_init_process. unfold demo_run in E. cbn [ci_init ci_sk]. rewrite E. reflexivity.
  - split; [exact A|]. assert (i_gen i2 = 2%nat) as G by (vm_compute in E; injection E as <- _; reflexivity).
    cbn [ci_init snd]. rewrite G. discriminate.
Defined.
