(* ===== verification/Ptp.v ===== *)
(** * Ptp.v: network interfaces and PTP clocks

    [IfInfo], [BaseClock], [SysClock] and [PtpClock] of [src/src/ptp.cpp] with the
    classes of [src/pub/ptp.h].  System calls are a class over the state of the
    system, with [ioctl] a family of requests, each with the type of its answer.
    Reading outside of an array is [None].  Arithmetic of [long double] is a
    class. *)

From S2P Require Import Prelude CStr Types Bin Text.

#[local] Open Scope list_scope.

(** ** Structures of the kernel *)

Record ptp_clock_time := mk_pct { pct_sec : Z; pct_nsec : Z }.
Record ptp_clock_caps := mk_caps {
  max_adj : Z; n_alarm : Z; n_ext_ts : Z; n_per_out : Z; pps : Z; n_pins : Z; cross_timestamping : Z;
  adjust_phase : Z; max_phase_adj : Z
}.
(** [name] has 64 octets. *)
Record ptp_pin_desc := mk_desc { d_name : list byte; d_index : Z; d_func : Z; d_chan : Z }.
Record ptp_extts_request := mk_extts { et_index : Z; et_flags : Z }.
Record ptp_extts_event := mk_event { ev_t : ptp_clock_time; ev_index : Z }.
(** [start] and [phase] are one field, [on] and the reserved words too. *)
Record ptp_perout_request := mk_perout {
  po_start : ptp_clock_time; po_period : ptp_clock_time; po_index : Z; po_flags : Z; po_on : ptp_clock_time
}.
Record ptp_sys_offset_precise := mk_precise {
  device : ptp_clock_time; sys_realtime : ptp_clock_time; sys_monoraw : ptp_clock_time
}.
Record timex := mk_timex { tx_modes : Z; tx_offset : Z; tx_freq : Z; tx_time : Z * Z; tx_tick : Z }.
Definition timex_zero : timex := mk_timex 0 0 0 (0, 0) 0.

(** The requests and what they answer; [v2] is the second version of a request. *)
Inductive ioctl : Type -> Type :=
| SIOCGIFINDEX (ifr_name : list byte) : ioctl Z
| SIOCGIFNAME (ifr_ifindex : Z) : ioctl (list byte)
| SIOCGIFHWADDR (ifr_name : list byte) : ioctl (list byte)
| SIOCETHTOOL_TS_INFO (ifr_name : list byte) : ioctl Z
| PTP_CLOCK_GETCAPS : ioctl ptp_clock_caps
| PTP_PIN_GETFUNC (index : Z) : ioctl ptp_pin_desc
| PTP_PIN_SETFUNC (desc : ptp_pin_desc) : ioctl unit
| PTP_EXTTS_REQUEST (v2 : bool) (req : ptp_extts_request) : ioctl unit
| PTP_MASK_CLEAR_ALL : ioctl unit
| PTP_MASK_EN_SINGLE (index : Z) : ioctl unit
| PTP_PEROUT_REQUEST (v2 : bool) (req : ptp_perout_request) : ioctl unit
| PTP_ENABLE_PPS (req : Z) : ioctl unit
| PTP_SYS_OFFSET (n_samples : Z) : ioctl (Z * list ptp_clock_time)
| PTP_SYS_OFFSET_EXTENDED (n_samples : Z) : ioctl (Z * list (list ptp_clock_time))
| PTP_SYS_OFFSET_PRECISE : ioctl ptp_sys_offset_precise.

(** [pt_read] gives the number of octets and the array of events; [pt_adjtime] the
    state of the clock, or -1, and the structure that it fills. *)
Class PtpOs (W : Type) := {
  pt_socket : W -> Z * W;
  pt_open : list byte -> bool -> W -> Z * W;
  pt_close : Z -> W -> W;
  pt_ioctl : forall A, Z -> ioctl A -> W -> option A * W;
  pt_read : Z -> Z -> W -> (Z * list ptp_extts_event) * W;
  pt_gettime : Z -> W -> option timespec;
  pt_settime : Z -> timespec -> W -> bool * W;
  pt_adjtime : Z -> timex -> W -> (Z * timex) * W;
  pt_stat : list byte -> W -> option bool;
  pt_realpath : list byte -> W -> option (list byte);
  pt_clk_tck : W -> Z
}.
Arguments pt_ioctl {W _ A}.
(** The expressions of [getFreq] and [setFreq] over [long double]: [freq_tick t n]
    is [1e3 * t * n], [freq_ticks f t u] is [round(f / 1e3 / t) + u] as a [long],
    [freq_scale f] is [(long)(f * PPB_TO_SCALE_PPM)] and [freq_unscale n] is
    [(float_freq)n / PPB_TO_SCALE_PPM]. *)
Class FreqArith (F : Type) := {
  freq_zero : F; freq_add : F -> F -> F; freq_sub : F -> F -> F; freq_tick : Z -> Z -> F;
  freq_ticks : F -> Z -> Z -> Z; freq_scale : F -> Z; freq_unscale : Z -> F
}.

(** ** Constants and conversions *)

Definition CLOCK_REALTIME : Z := 0.
Definition CLOCK_INVALID : Z := -1.
Definition NO_SUCH_IF : Z := -1.
Definition NO_SUCH_PTP : Z := -1.
Definition IFNAMSIZ : Z := 16.
Definition CLOCKFD : Z := 3.
Definition make_process_cpuclock (pid clock : Z) : Z :=
  swrap 32 (Z.lor (uwrap 32 (Z.shiftl (uwrap 32 (Z.lnot pid)) 3)) clock).
Definition fd_to_clockid (fd : Z) : Z := make_process_cpuclock (uwrap 32 fd) CLOCKFD.
Definition ADJ_OFFSET : Z := 0x0001.
Definition ADJ_FREQUENCY : Z := 0x0002.
Definition ADJ_SETOFFSET : Z := 0x0100.
Definition ADJ_NANO : Z := 0x2000.
Definition ADJ_TICK : Z := 0x4000.
Definition PTP_MAX_SAMPLES : Z := 25.
Definition ptp_dev : list byte := bytes "/dev/ptp".
Definition toTs (p : ptp_clock_time) : Timestamp_t := mk_Timestamp (uwrap 64 (pct_sec p)) (pct_nsec p).
Definition fromTs (t : Timestamp_t) : ptp_clock_time := mk_pct (swrap 64 (secondsField t)) (nanosecondsField t).

(** The static variables of [calcTicks]. *)
Record Ticks := mk_Ticks { fetchClockTicks : bool; clockTicks : Z; userTicks : Z }.
Definition Ticks_start : Ticks := mk_Ticks false 0 0.

Section Ptp.
Context {W : Type} `{PtpOs W}.

Definition calcTicks (t : Ticks) (w : W) : Ticks :=
  if fetchClockTicks t then t
  else
    let n := pt_clk_tck w in
    mk_Ticks true n (if 0 <? n then (1000000 + n / 2) / n else 0).
Definition setTimeFromTime (isInit : bool) (from to : Z) (w : W) : bool * W :=
  if negb isInit then (false, w)
  else match pt_gettime from w with
       | None => (false, w)
       | Some ts => pt_settime to ts w
       end.

(** ** IfInfo *)

Record IfInfo := mk_IfInfo { n_isInit : bool; n_ifIndex : Z; n_ptpIndex : Z; n_ifName : list byte; n_mac : Binary }.
Definition IfInfo_new : IfInfo := mk_IfInfo false NO_SUCH_IF NO_SUCH_PTP [] (Binary_of []).
Definition EUI48 : nat := 6.
(** The socket is closed on every way out; [name] is that of the request. *)
Definition initPtp (fd : Z) (name : list byte) (i : IfInfo) (w : W) : bool * (IfInfo * W) :=
  let '(r, w) := pt_ioctl fd (SIOCGIFHWADDR name) w in
  match r with
  | None => (false, (i, pt_close fd w))
  | Some sa_data =>
      let i := mk_IfInfo (n_isInit i) (n_ifIndex i) (n_ptpIndex i) (n_ifName i) (setBin (take EUI48 sa_data) (n_mac i)) in
      let '(r, w) := pt_ioctl fd (SIOCETHTOOL_TS_INFO name) w in
      match r with
      | None => (false, (i, pt_close fd w))
      | Some phc_index => (true, (mk_IfInfo true (n_ifIndex i) phc_index (n_ifName i) (n_mac i), pt_close fd w))
      end
  end.
Definition initUsingName (ifName : list byte) (i : IfInfo) (w : W) : bool * (IfInfo * W) :=
  if n_isInit i then (false, (i, w))
  else if (len ifName =? 0) || (IFNAMSIZ <=? len ifName) then (false, (i, w))
  else
    let '(fd, w) := pt_socket w in
    if fd <? 0 then (false, (i, w))
    else
      let '(r, w) := pt_ioctl fd (SIOCGIFINDEX (cstr ifName)) w in
      match r with
      | None => (false, (i, pt_close fd w))
      | Some index => initPtp fd (cstr ifName) (mk_IfInfo false index (n_ptpIndex i) ifName (n_mac i)) w
      end.
Definition initUsingIndex (ifIndex : Z) (i : IfInfo) (w : W) : bool * (IfInfo * W) :=
  if n_isInit i then (false, (i, w))
  else
    let '(fd, w) := pt_socket w in
    if fd <? 0 then (false, (i, w))
    else
      let '(r, w) := pt_ioctl fd (SIOCGIFNAME ifIndex) w in
      match r with
      | None => (false, (i, pt_close fd w))
      | Some ifr_name => initPtp fd (cstr ifr_name) (mk_IfInfo false ifIndex (n_ptpIndex i) (cstr ifr_name) (n_mac i)) w
      end.

(** ** BaseClock *)

Record BaseClock := mk_Clock { m_clkId : Z; m_isInit : bool; m_freq : bool }.
Definition BaseClock_new : BaseClock := mk_Clock CLOCK_INVALID false false.
Definition SysClock_new : BaseClock := mk_Clock CLOCK_REALTIME true true.
Definition getTime (c : BaseClock) (w : W) : Timestamp_t :=
  if negb (m_isInit c) then mk_Timestamp 0 0
  else match pt_gettime (m_clkId c) w with
       | None => mk_Timestamp 0 0
       | Some ts => Timestamp_from_timespec ts
       end.
Definition setTime (ts : Timestamp_t) (c : BaseClock) (w : W) : bool * W :=
  if negb (m_isInit c) then (false, w) else pt_settime (m_clkId c) (toTimespec ts) w.
(** [clock_adjtime] other than 0 is taken as a failure. *)
Definition adjust (tmx : timex) (c : BaseClock) (w : W) : bool * timex * W :=
  let '((r, tmx), w) := pt_adjtime (m_clkId c) tmx w in (r =? 0, tmx, w).
(** [None]: the loop that makes the remainder positive needs more than 2 rounds. *)
Definition offsetClock (offset : Z) (c : BaseClock) (w : W) : option (bool * W) :=
  if negb (m_isInit c) then Some (false, w)
  else
    '(quot, rem) ← fixRem 2 (Z.quot offset NSEC_PER_SEC) (Z.rem offset NSEC_PER_SEC);
    let '(r, _, w) := adjust (mk_timex (Z.lor ADJ_SETOFFSET ADJ_NANO) 0 0 (quot, rem) 0) c w in
    Some (r, w).
Definition setPhase (offset : Z) (c : BaseClock) (w : W) : bool * W :=
  if negb (m_isInit c) then (false, w)
  else let '(r, _, w) := adjust (mk_timex (Z.lor ADJ_OFFSET ADJ_NANO) offset 0 (0, 0) 0) c w in (r, w).
Section Freq.
Context {F : Type} `{FreqArith F}.
Definition getFreq (c : BaseClock) (t : Ticks) (w : W) : F * Ticks * W :=
  if negb (m_isInit c) then (freq_zero, t, w)
  else
    let '(r, tmx, w) := adjust timex_zero c w in
    if negb r then (freq_zero, t, w)
    else
      let t := if m_freq c then calcTicks t w else t in
      let add := if m_freq c && negb (userTicks t =? 0) && negb (tx_tick tmx =? 0)
                 then freq_tick (clockTicks t) (tx_tick tmx - userTicks t) else freq_zero in
      (freq_add (freq_unscale (tx_freq tmx)) add, t, w).
Definition setFreq (freq : F) (c : BaseClock) (t : Ticks) (w : W) : bool * Ticks * W :=
  if negb (m_isInit c) then (false, t, w)
  else
    let t := if m_freq c then calcTicks t w else t in
    let ticks := m_freq c && negb (userTicks t =? 0) in
    let tick := if ticks then freq_ticks freq (clockTicks t) (userTicks t) else 0 in
    let freq := if ticks then freq_sub freq (freq_tick (clockTicks t) (tick - userTicks t)) else freq in
    let modes := if ticks then Z.lor ADJ_FREQUENCY ADJ_TICK else ADJ_FREQUENCY in
    let '(r, _, w) := adjust (mk_timex modes 0 (freq_scale freq) (0, 0) tick) c w in
    (r, t, w).
End Freq.

(** ** PtpClock *)

Record PtpClock := mk_PtpClock { p_clock : BaseClock; m_fd : Z; m_ptpIndex : Z; m_device : list byte }.
Definition PtpClock_new : PtpClock := mk_PtpClock BaseClock_new (-1) NO_SUCH_PTP [].
Definition PtpClock_destroy (p : PtpClock) (w : W) : W := if 0 <=? m_fd p then pt_close (m_fd p) w else w.
Definition p_isInit (p : PtpClock) : bool := m_isInit (p_clock p).
Definition set_m_ptpIndex (v : Z) (p : PtpClock) : PtpClock := mk_PtpClock (p_clock p) (m_fd p) v (m_device p).
Definition set_m_device (v : list byte) (p : PtpClock) : PtpClock := mk_PtpClock (p_clock p) (m_fd p) (m_ptpIndex p) v.
Definition isCharFile (file : list byte) (w : W) : bool := default false (pt_stat (cstr file) w).
Definition init (dev : list byte) (readonly : bool) (p : PtpClock) (w : W) : bool * (PtpClock * W) :=
  let '(fd, w) := pt_open (cstr dev) readonly w in
  if fd <? 0 then (false, (p, w))
  else
    let cid := fd_to_clockid fd in
    if cid =? CLOCK_INVALID then (false, (p, pt_close fd w))
    else match pt_gettime cid w with
         | None => (false, (p, pt_close fd w))
         | Some _ => (true, (mk_PtpClock (mk_Clock cid true (m_freq (p_clock p))) fd (m_ptpIndex p) (m_device p), w))
         end.
(** [strncmp] is 0; [None] is reading after the end of an array. *)
Fixpoint strncmp_same (n : nat) (a b : list byte) : option bool :=
  match n with
  | O => Some true
  | S n =>
      match a, b with
      | x :: a, y :: b =>
          if negb (bool_decide (x = y)) then Some false
          else if bool_decide (x = x00) then Some true
          else strncmp_same n a b
      | _, _ => None
      end
  end.
(** The index in the name of a device, when it has one; [sizeof ptp_dev] counts
    the null character at its end. *)
Definition device_index (file : list byte) : option (option Z) :=
  let size := S (length ptp_dev) in
  s ← strncmp_same size file (ptp_dev ++ [x00]);
  if negb s then Some None
  else
    num ← file !! size;
    if bool_decide (num = x00) then Some None
    else if bool_decide (x00 ∈ drop size file) then
      let '(ret, endptr) := strtol 10 (cstr (drop size file)) in
      Some (if (0 <=? ret) && bool_decide (endptr = []) && (ret <? LONG_MAX) then Some (swrap 32 ret) else None)
    else None.
(** [PATH_MAX] characters with a path at their start. *)
Definition PATH_MAX : nat := 4096.
Definition path_array (path residue : list byte) : list byte := take PATH_MAX (path ++ x00 :: drop (S (length path)) residue).
(** The device that [initUsingDevice] opens. *)
Definition find_device (dev : list byte) (w : W) : option (list byte) :=
  if isCharFile dev w then pt_realpath (cstr dev) w
  else if bool_decide (x2f ∈ dev) then None
  else
    let dev := bytes "/dev/" ++ dev in
    if isCharFile dev w then pt_realpath (cstr dev) w else None.
(** [residue] is what the array of the path held. *)
Definition initUsingDevice (residue dev : list byte) (readonly : bool) (p : PtpClock) (w : W) : option (bool * (PtpClock * W)) :=
  if p_isInit p then Some (false, (p, w))
  else match find_device dev w with
       | None => Some (false, (p, w))
       | Some path =>
           let '(r, (p, w)) := init path readonly p w in
           if negb r then Some (false, (p, w))
           else
             i ← device_index (path_array path residue);
             let p := set_m_device path p in
             Some (true, (match i with Some n => set_m_ptpIndex n p | None => p end, w))
       end.
Definition initUsingPtpIndex (ptpIndex : Z) (readonly : bool) (p : PtpClock) (w : W) : bool * (PtpClock * W) :=
  if p_isInit p then (false, (p, w))
  else
    let p := set_m_device (ptp_dev ++ to_string ptpIndex) p in
    if negb (isCharFile (m_device p) w) then (false, (p, w))
    else
      let '(r, (p, w)) := init (m_device p) readonly p w in
      if negb r then (false, (p, w)) else (true, (set_m_ptpIndex ptpIndex p, w)).
Definition setTimeFromSys (p : PtpClock) (w : W) : bool * W :=
  setTimeFromTime (p_isInit p) CLOCK_REALTIME (m_clkId (p_clock p)) w.
Definition setTimeToSys (p : PtpClock) (w : W) : bool * W :=
  setTimeFromTime (p_isInit p) (m_clkId (p_clock p)) CLOCK_REALTIME w.

(** A request on the device of a clock that is initialised. *)
Definition request {A} (r : ioctl A) (p : PtpClock) (w : W) : option A * W :=
  if negb (p_isInit p) then (None, w) else pt_ioctl (m_fd p) r w.
Definition request_ok {A} (r : ioctl A) (p : PtpClock) (w : W) : bool * W :=
  let '(a, w) := request r p w in (match a with Some _ => true | None => false end, w).

(** *** Capabilities and pins *)

Record PtpCaps_t := mk_PtpCaps {
  max_ppb : Z; num_alarm : Z; num_external_channels : Z; num_periodic_sig : Z; has_pps : bool; num_pins : Z;
  has_cross_timestamping : bool; has_adjust_phase : bool; ppb_max_phase_adj : Z
}.
Definition caps_of (c : ptp_clock_caps) : PtpCaps_t :=
  mk_PtpCaps (max_adj c) (n_alarm c) (n_ext_ts c) (n_per_out c) (0 <? pps c) (n_pins c) (0 <? cross_timestamping c)
    (0 <? adjust_phase c) (max_phase_adj c).
Definition fetchCaps (caps : PtpCaps_t) (p : PtpClock) (w : W) : bool * PtpCaps_t * W :=
  let '(r, w) := request PTP_CLOCK_GETCAPS p w in
  match r with None => (false, caps, w) | Some c => (true, caps_of c, w) end.

(** A value of the enumeration that has no name is possible too. *)
Inductive PtpPinFunc_e :=
| PTP_PIN_UNUSED | PTP_PIN_EXTERNAL_TS | PTP_PIN_PERIODIC_OUT | PTP_PIN_PHY_SYNC | PTP_PIN_wrong (v : Z).
Record PtpPin_t := mk_Pin { pin_index : Z; description : list byte; functional : PtpPinFunc_e; channel : Z }.
Definition PTP_PF_NONE : Z := 0.
Definition PTP_PF_EXTTS : Z := 1.
Definition PTP_PF_PEROUT : Z := 2.
Definition PTP_PF_PHYSYNC : Z := 3.
Definition pin_function (func : Z) : option PtpPinFunc_e :=
  if func =? PTP_PF_NONE then Some PTP_PIN_UNUSED
  else if func =? PTP_PF_EXTTS then Some PTP_PIN_EXTERNAL_TS
  else if func =? PTP_PF_PEROUT then Some PTP_PIN_PERIODIC_OUT
  else if func =? PTP_PF_PHYSYNC then Some PTP_PIN_PHY_SYNC
  else None.
Definition pin_func_code (f : PtpPinFunc_e) : option Z :=
  match f with
  | PTP_PIN_UNUSED => Some PTP_PF_NONE
  | PTP_PIN_EXTERNAL_TS => Some PTP_PF_EXTTS
  | PTP_PIN_PERIODIC_OUT => Some PTP_PF_PEROUT
  | PTP_PIN_PHY_SYNC => Some PTP_PF_PHYSYNC
  | PTP_PIN_wrong _ => None
  end.
(** The function of the pin stays when the one of the device has no name. *)
Definition readPin (index : Z) (pin : PtpPin_t) (p : PtpClock) (w : W) : bool * PtpPin_t * W :=
  let '(r, w) := request (PTP_PIN_GETFUNC index) p w in
  match r with
  | None => (false, pin, w)
  | Some desc =>
      let pin := mk_Pin index (cstr (d_name desc)) (functional pin) (d_chan desc) in
      match pin_function (d_func desc) with
      | Some f => (true, mk_Pin (pin_index pin) (description pin) f (channel pin), w)
      | None => (false, pin, w)
      end
  end.
(** [name] is the part of the local structure that is not set. *)
Definition writePin (name : list byte) (pin : PtpPin_t) (p : PtpClock) (w : W) : bool * W :=
  if negb (p_isInit p) then (false, w)
  else match pin_func_code (functional pin) with
       | None => (false, w)
       | Some f => request_ok (PTP_PIN_SETFUNC (mk_desc name (pin_index pin) f (channel pin))) p w
       end.

(** *** Events *)

Definition PTP_ENABLE_FEATURE : Z := 1.
Definition PTP_EXTERN_TS_STRICT : Z := 8.
Definition PTP_PERIOD_WIDTH : Z := 2.
Definition PTP_PERIOD_PHASE : Z := 4.
Definition ExternTSEbable (index flags : Z) (p : PtpClock) (w : W) : bool * W :=
  request_ok (PTP_EXTTS_REQUEST (0 <? Z.land PTP_EXTERN_TS_STRICT flags)
    (mk_extts index (Z.lor flags PTP_ENABLE_FEATURE))) p w.
Definition ExternTSDisable (index : Z) (p : PtpClock) (w : W) : bool * W :=
  request_ok (PTP_EXTTS_REQUEST false (mk_extts index 0)) p w.
Definition MaskClearAll (p : PtpClock) (w : W) : bool * W := request_ok PTP_MASK_CLEAR_ALL p w.
Definition MaskEnable (index : Z) (p : PtpClock) (w : W) : bool * W := request_ok (PTP_MASK_EN_SINGLE index) p w.

Record PtpEvent_t := mk_PtpEvent { event_index : Z; event_time : Timestamp_t }.
Definition event_of (e : ptp_extts_event) : PtpEvent_t := mk_PtpEvent (ev_index e) (toTs (ev_t e)).
Definition event_size : Z := 32.
(** The first event of the array that [read] filled. *)
Definition PtpClock_readEvent (isInit : bool) (fd : Z) (w : W) : option (option ptp_extts_event * W) :=
  if negb isInit then Some (None, w)
  else
    let '((ret, ents), w) := pt_read fd event_size w in
    if ret =? event_size then e ← ents !! 0%nat; Some (Some e, w) else Some (None, w).
Definition readEvent (event : PtpEvent_t) (p : PtpClock) (w : W) : option (bool * PtpEvent_t * W) :=
  '(r, w) ← PtpClock_readEvent (p_isInit p) (m_fd p) w;
  Some (match r with Some e => (true, event_of e) | None => (false, event) end, w).
Definition PTP_BUF_TIMESTAMPS : Z := 30.
(** The number of events, and the array. *)
Definition PtpClock_readEvents (fd max : Z) (w : W) : Z * list ptp_extts_event * W :=
  let '((cnt, ents), w) := pt_read fd (event_size * max) w in
  (if cnt <=? 0 then 0 else if negb (Z.rem cnt event_size =? 0) then 0 else Z.quot cnt event_size, ents, w).
Fixpoint first_events (n : nat) (ents : list ptp_extts_event) : option (list ptp_extts_event) :=
  match n, ents with
  | O, _ => Some []
  | S n, e :: ents => r ← first_events n ents; Some (e :: r)
  | S _, [] => None
  end.
(** -1 is returned as a [bool] when the clock is not initialised. *)
Definition readEvents (max : Z) (events : list PtpEvent_t) (p : PtpClock) (w : W)
    : option (bool * list PtpEvent_t * W) :=
  if negb (p_isInit p) then Some (true, events, w)
  else
    let max := if max =? 0 then PTP_BUF_TIMESTAMPS else Z.min max PTP_BUF_TIMESTAMPS in
    let '(num, ents, w) := PtpClock_readEvents (m_fd p) max w in
    if num =? 0 then Some (false, events, w)
    else l ← first_events (Z.to_nat num) ents; Some (true, events ++ map event_of l, w).

(** *** Periodic signals *)

Record PtpPinPeriodDef_t := mk_Period { period : Timestamp_t; width : Timestamp_t; phase : Timestamp_t }.
(** The request, with the start that the function sets in it. *)
Definition PtpClock_setPinPeriod (fd clkId index : Z) (req : ptp_perout_request) (w : W) : bool * ptp_perout_request * W :=
  let start :=
    if Z.land (po_flags req) PTP_PERIOD_PHASE =? 0
    then match pt_gettime clkId w with
         | Some ts => Some (mk_pct (tv_sec ts + 2) 0)
         | None => None
         end
    else Some (po_start req) in
  match start with
  | None => (false, req, w)
  | Some start =>
      let req := mk_perout start (po_period req) index (po_flags req) (po_on req) in
      let '(r, w) := pt_ioctl fd (PTP_PEROUT_REQUEST (negb (po_flags req =? 0)) req) w in
      (match r with Some _ => true | None => false end, req, w)
  end.
Definition setPinPeriod (index : Z) (times : PtpPinPeriodDef_t) (flags : Z) (p : PtpClock) (w : W) : bool * W :=
  if negb (p_isInit p) then (false, w)
  else
    let on := if 0 <? Z.land PTP_PERIOD_WIDTH flags then fromTs (width times) else mk_pct 0 0 in
    let start := if 0 <? Z.land PTP_PERIOD_PHASE flags then fromTs (phase times) else mk_pct 0 0 in
    let '(r, _, w) := PtpClock_setPinPeriod (m_fd p) (m_clkId (p_clock p)) index
                        (mk_perout start (fromTs (period times)) 0 flags on) w in
    (r, w).
Definition setPtpPpsEvent (enable : bool) (p : PtpClock) (w : W) : bool * W :=
  request_ok (PTP_ENABLE_PPS (if enable then 1 else 0)) p w.

(** *** Samples *)

Record PtpSample_t := mk_Sample { sysClk : Timestamp_t; phcClk : Timestamp_t }.
Record PtpSampleExt_t := mk_SampleExt { before : Timestamp_t; ext_phcClk : Timestamp_t; after : Timestamp_t }.
Record PtpSamplePrecise_t := mk_SamplePrecise { pre_phcClk : Timestamp_t; pre_sysClk : Timestamp_t; monoClk : Timestamp_t }.
Definition wrong_count (count : Z) : bool := (count =? 0) || (PTP_MAX_SAMPLES <? count).
Definition PtpClock_samplePtpSys (count : Z) (p : PtpClock) (w : W) : option (Z * list ptp_clock_time) * W :=
  if negb (p_isInit p) then (None, w)
  else if wrong_count count then (None, w)
  else pt_ioctl (m_fd p) (PTP_SYS_OFFSET count) w.
(** The loop over the array: the system and the clock in turn. *)
Fixpoint take_samples (n : nat) (ts : list ptp_clock_time) : option (list PtpSample_t) :=
  match n, ts with
  | O, _ => Some []
  | S n, s :: c :: ts => r ← take_samples n ts; Some (mk_Sample (toTs s) (toTs c) :: r)
  | S _, _ => None
  end.
Definition samplePtpSys (count : Z) (samples : list PtpSample_t) (p : PtpClock) (w : W)
    : option (bool * list PtpSample_t * W) :=
  let '(r, w) := PtpClock_samplePtpSys count p w in
  match r with
  | None => Some (false, samples, w)
  | Some (n_samples, ts) => l ← take_samples (Z.to_nat n_samples) ts; Some (true, samples ++ l, w)
  end.
Definition PtpClock_extSamplePtpSys (count : Z) (p : PtpClock) (w : W) : option (Z * list (list ptp_clock_time)) * W :=
  if negb (p_isInit p) then (None, w)
  else if wrong_count count then (None, w)
  else pt_ioctl (m_fd p) (PTP_SYS_OFFSET_EXTENDED count) w.
Fixpoint take_ext_samples (n : nat) (ts : list (list ptp_clock_time)) : option (list PtpSampleExt_t) :=
  match n, ts with
  | O, _ => Some []
  | S n, (b :: c :: a :: _) :: ts => r ← take_ext_samples n ts; Some (mk_SampleExt (toTs b) (toTs c) (toTs a) :: r)
  | S _, _ => None
  end.
Definition extSamplePtpSys (count : Z) (samples : list PtpSampleExt_t) (p : PtpClock) (w : W)
    : option (bool * list PtpSampleExt_t * W) :=
  let '(r, w) := PtpClock_extSamplePtpSys count p w in
  match r with
  | None => Some (false, samples, w)
  | Some (n_samples, ts) => l ← take_ext_samples (Z.to_nat n_samples) ts; Some (true, samples ++ l, w)
  end.
Definition preciseSamplePtpSys (sample : PtpSamplePrecise_t) (p : PtpClock) (w : W) : bool * PtpSamplePrecise_t * W :=
  let '(r, w) := request PTP_SYS_OFFSET_PRECISE p w in
  match r with
  | None => (false, sample, w)
  | Some req => (true, mk_SamplePrecise (toTs (device req)) (toTs (sys_realtime req)) (toTs (sys_monoraw req)), w)
  end.
End Ptp.
