(* ===== verification/PtpC.v ===== *)
(** * PtpC.v: the C interface of interfaces and clocks

    [ptpmgmt_ifInfo_t] and [ptpmgmt_clock_t] of [src/pub/c/ptp.h] with their
    functions in [src/src/ptp.cpp].  A clock structure holds a [PtpClock] or a
    [SysClock]; the second has functions of its own for what only the first can
    do.  A cast of a [SysClock] to [PtpClock] is [None]. *)

From S2P Require Import Prelude CStr Types Bin Text Ptp.

#[local] Open Scope list_scope.

Section C.
Context {W : Type} `{PtpOs W}.

(** ** Interfaces *)

(** The object of a structure that is not NULL. *)
Definition ptpmgmt_ifInfo_t : Type := option IfInfo.
Definition ifInfo_init (m : IfInfo -> W -> bool * (IfInfo * W)) (me : ptpmgmt_ifInfo_t) (w : W) : bool * (ptpmgmt_ifInfo_t * W) :=
  match me with Some i => let '(r, (i, w)) := m i w in (r, (Some i, w)) | None => (false, (me, w)) end.
Definition ptpmgmt_ifInfo_initUsingName (ifName : option (list byte)) (me : ptpmgmt_ifInfo_t) (w : W) : bool * (ptpmgmt_ifInfo_t * W) :=
  match ifName with Some s => ifInfo_init (initUsingName (cstr s)) me w | None => (false, (me, w)) end.
Definition ptpmgmt_ifInfo_initUsingIndex (ifIndex : Z) : ptpmgmt_ifInfo_t -> W -> bool * (ptpmgmt_ifInfo_t * W) :=
  ifInfo_init (initUsingIndex ifIndex).
Definition ptpmgmt_ifInfo_isInit (me : ptpmgmt_ifInfo_t) : bool := match me with Some i => n_isInit i | None => false end.
Definition ptpmgmt_ifInfo_ifIndex (me : ptpmgmt_ifInfo_t) : Z := match me with Some i => n_ifIndex i | None => NO_SUCH_IF end.
Definition ptpmgmt_ifInfo_ifName (me : ptpmgmt_ifInfo_t) : option (list byte) :=
  i ← me; if bool_decide (n_ifName i = []) then None else Some (cstr (n_ifName i)).
Definition ptpmgmt_ifInfo_mac (me : ptpmgmt_ifInfo_t) : option (list byte) := i ← me; Some (octets (n_mac i)).
Definition ptpmgmt_ifInfo_mac_size (me : ptpmgmt_ifInfo_t) : Z := match me with Some i => len (octets (n_mac i)) | None => 0 end.
Definition ptpmgmt_ifInfo_ptpIndex (me : ptpmgmt_ifInfo_t) : Z := match me with Some i => n_ptpIndex i | None => NO_SUCH_PTP end.

(** ** Clocks *)

Inductive clock := C_sys (c : BaseClock) | C_ptp (p : PtpClock).
(** [clk_asgn] tells [ptpmgmt_clock_f] from [non_ptpmgmt_clock_f]. *)
Record ptpmgmt_clock_t := mk_clk { clk_this : option clock; clk_asgn : bool }.
Definition ptpmgmt_clock_alloc (mem : bool) : option ptpmgmt_clock_t :=
  if mem then Some (mk_clk (Some (C_ptp PtpClock_new)) true) else None.
Definition ptpmgmt_clock_alloc_sys (mem : bool) : option ptpmgmt_clock_t :=
  if mem then Some (mk_clk (Some (C_sys SysClock_new)) false) else None.
(** [ptpmgmt_clock_free] and [ptpmgmt_clock_free_sys]. *)
Definition ptpmgmt_clock_free (me : ptpmgmt_clock_t) (w : W) : option W :=
  match clk_this me, clk_asgn me with
  | Some (C_ptp p), true => Some (PtpClock_destroy p w)
  | Some (C_sys _), false | None, _ => Some w
  | _, _ => None
  end.

(** A function of both classes. *)
Definition base_call {A} (non : A) (m : BaseClock -> W -> A * W) (me : ptpmgmt_clock_t) (w : W) : A * W :=
  match clk_this me with
  | None => (non, w)
  | Some (C_sys c) => m c w
  | Some (C_ptp p) => m (p_clock p) w
  end.
Definition ptpmgmt_clock_getTime (me : ptpmgmt_clock_t) (w : W) : timespec :=
  toTimespec (base_call (mk_Timestamp 0 0) (fun c w => (getTime c w, w)) me w).1.
Definition ptpmgmt_clock_setTime (ts : option timespec) (me : ptpmgmt_clock_t) (w : W) : bool * W :=
  match ts with
  | Some ts => base_call false (setTime (Timestamp_from_timespec ts)) me w
  | None => (false, w)
  end.
Definition ptpmgmt_clock_offsetClock (offset : Z) (me : ptpmgmt_clock_t) (w : W) : option (bool * W) :=
  match clk_this me with
  | None => Some (false, w)
  | Some (C_sys c) => offsetClock offset c w
  | Some (C_ptp p) => offsetClock offset (p_clock p) w
  end.
Definition ptpmgmt_clock_setPhase (offset : Z) : ptpmgmt_clock_t -> W -> bool * W := base_call false (setPhase offset).
Section Freq.
Context {F : Type} `{FreqArith F}.
(** Between [double] and [long double] nothing is rounded here. *)
Definition ptpmgmt_clock_getFreq (t : Ticks) (me : ptpmgmt_clock_t) (w : W) : F * Ticks * W :=
  base_call (freq_zero, t) (fun c w => getFreq c t w) me w.
Definition ptpmgmt_clock_setFreq (freq : F) (t : Ticks) (me : ptpmgmt_clock_t) (w : W) : bool * Ticks * W :=
  base_call (false, t) (fun c w => setFreq freq c t w) me w.
End Freq.
Definition ptpmgmt_clock_isCharFile (file : option (list byte)) (w : W) : bool :=
  match file with Some f => isCharFile (cstr f) w | None => false end.

(** A function of [PtpClock]. *)
Definition kres (A : Type) : Type := option (A * (ptpmgmt_clock_t * W)).
Definition ptp_call {A} (non : A) (m : PtpClock -> W -> option (A * (PtpClock * W))) (me : ptpmgmt_clock_t) (w : W) : kres A :=
  if negb (clk_asgn me) then Some (non, (me, w))
  else match clk_this me with
       | None => Some (non, (me, w))
       | Some (C_sys _) => None
       | Some (C_ptp p) => '(a, (p, w)) ← m p w; Some (a, (mk_clk (Some (C_ptp p)) (clk_asgn me), w))
       end.
(** Methods that leave the object as it is. *)
Definition const_call {A} (non : A) (m : PtpClock -> W -> A * W) : ptpmgmt_clock_t -> W -> kres A :=
  ptp_call non (fun p w => let '(a, w) := m p w in Some (a, (p, w))).
Definition ptpmgmt_clock_initUsingDevice (residue : list byte) (dev : option (list byte)) (readonly : bool)
    (me : ptpmgmt_clock_t) (w : W) : kres bool :=
  match dev with
  | Some dev => ptp_call false (initUsingDevice residue (cstr dev) readonly) me w
  | None => Some (false, (me, w))
  end.
Definition ptpmgmt_clock_initUsingIndex (ptpIndex : Z) (readonly : bool) : ptpmgmt_clock_t -> W -> kres bool :=
  ptp_call false (fun p w => Some (initUsingPtpIndex ptpIndex readonly p w)).
Definition ptpmgmt_clock_isInit : ptpmgmt_clock_t -> W -> kres bool := const_call false (fun p w => (p_isInit p, w)).
Definition ptpmgmt_clock_clkId : ptpmgmt_clock_t -> W -> kres Z := const_call CLOCK_INVALID (fun p w => (m_clkId (p_clock p), w)).
Definition ptpmgmt_clock_getFd : ptpmgmt_clock_t -> W -> kres Z := const_call (-1) (fun p w => (m_fd p, w)).
Definition ptpmgmt_clock_ptpIndex : ptpmgmt_clock_t -> W -> kres Z := const_call NO_SUCH_PTP (fun p w => (m_ptpIndex p, w)).
Definition ptpmgmt_clock_device : ptpmgmt_clock_t -> W -> kres (option (list byte)) :=
  const_call None (fun p w => (Some (cstr (m_device p)), w)).
Definition ptpmgmt_clock_setTimeFromSys : ptpmgmt_clock_t -> W -> kres bool := const_call false setTimeFromSys.
Definition ptpmgmt_clock_setTimeToSys : ptpmgmt_clock_t -> W -> kres bool := const_call false setTimeToSys.
(** The C functions give the structures of the kernel; [out] tells if the
    pointer of the answer is not NULL. *)
Definition out_call {A} (out : bool) (m : PtpClock -> W -> option A * W) (me : ptpmgmt_clock_t) (w : W) : kres (option A) :=
  if out then const_call None m me w else Some (None, (me, w)).
Definition ptpmgmt_clock_fetchCaps (out : bool) : ptpmgmt_clock_t -> W -> kres (option ptp_clock_caps) :=
  out_call out (request PTP_CLOCK_GETCAPS).
Definition ptpmgmt_clock_readPin (index : Z) (out : bool) : ptpmgmt_clock_t -> W -> kres (option ptp_pin_desc) :=
  out_call out (request (PTP_PIN_GETFUNC index)).
Definition ptpmgmt_clock_writePin (pin : option ptp_pin_desc) (me : ptpmgmt_clock_t) (w : W) : kres bool :=
  match pin with
  | Some desc => const_call false (request_ok (PTP_PIN_SETFUNC desc)) me w
  | None => Some (false, (me, w))
  end.
Definition ptpmgmt_clock_ExternTSEbable (index flags : Z) : ptpmgmt_clock_t -> W -> kres bool :=
  const_call false (ExternTSEbable index flags).
Definition ptpmgmt_clock_ExternTSDisable (index : Z) : ptpmgmt_clock_t -> W -> kres bool :=
  const_call false (ExternTSDisable index).
Definition ptpmgmt_clock_MaskClearAll : ptpmgmt_clock_t -> W -> kres bool := const_call false MaskClearAll.
Definition ptpmgmt_clock_MaskEnable (index : Z) : ptpmgmt_clock_t -> W -> kres bool := const_call false (MaskEnable index).
Definition ptpmgmt_clock_readEvent (out : bool) (me : ptpmgmt_clock_t) (w : W) : kres (option ptp_extts_event) :=
  if out
  then ptp_call None (fun p w => '(r, w) ← PtpClock_readEvent (p_isInit p) (m_fd p) w; Some (r, (p, w))) me w
  else Some (None, (me, w)).
(** The events that the array got, [None] when nothing was read; [size] is the
    number of events that fit, [None] for a null pointer. *)
Definition ptpmgmt_clock_readEvents (out : bool) (size : option Z) (me : ptpmgmt_clock_t) (w : W)
    : kres (option (list ptp_extts_event)) :=
  match size with
  | Some size =>
      if out && (0 <? size)
      then ptp_call None (fun p w =>
             if negb (p_isInit p) then Some (None, (p, w))
             else
               let '(ret, ents, w) := PtpClock_readEvents (m_fd p) (Z.min size PTP_BUF_TIMESTAMPS) w in
               if 0 <? ret then l ← first_events (Z.to_nat ret) ents; Some (Some l, (p, w)) else Some (None, (p, w))) me w
      else Some (None, (me, w))
  | None => Some (None, (me, w))
  end.
(** The result and the request, in which the function sets the start. *)
Definition ptpmgmt_clock_setPinPeriod (index : Z) (times : option ptp_perout_request) (me : ptpmgmt_clock_t) (w : W)
    : kres (bool * option ptp_perout_request) :=
  match times with
  | Some req =>
      const_call (false, times) (fun p w =>
        if negb (p_isInit p) then ((false, times), w)
        else let '(r, req, w) := PtpClock_setPinPeriod (m_fd p) (m_clkId (p_clock p)) index req w in ((r, Some req), w)) me w
  | None => Some ((false, times), (me, w))
  end.
Definition ptpmgmt_clock_setPtpPpsEvent (enable : bool) : ptpmgmt_clock_t -> W -> kres bool := const_call false (setPtpPpsEvent enable).
Definition ptpmgmt_clock_samplePtpSys (count : Z) (out : bool) : ptpmgmt_clock_t -> W -> kres (option (Z * list ptp_clock_time)) :=
  out_call out (PtpClock_samplePtpSys count).
Definition ptpmgmt_clock_extSamplePtpSys (count : Z) (out : bool)
    : ptpmgmt_clock_t -> W -> kres (option (Z * list (list ptp_clock_time))) :=
  out_call out (PtpClock_extSamplePtpSys count).
Definition ptpmgmt_clock_preciseSamplePtpSys (out : bool) : ptpmgmt_clock_t -> W -> kres (option ptp_sys_offset_precise) :=
  out_call out (request PTP_SYS_OFFSET_PRECISE).

(** ** Programs *)

(** The calls of a C program; those of the frequency, over any [F], are left out. *)
Inductive k_call :=
| K_getTime | K_setTime (ts : option timespec) | K_offsetClock (offset : Z) | K_setPhase (offset : Z)
| K_initUsingDevice (residue : list byte) (dev : option (list byte)) (readonly : bool) | K_initUsingIndex (index : Z) (readonly : bool)
| K_isInit | K_clkId | K_getFd | K_ptpIndex | K_device | K_setTimeFromSys | K_setTimeToSys | K_fetchCaps (out : bool)
| K_readPin (index : Z) (out : bool) | K_writePin (pin : option ptp_pin_desc) | K_ExternTSEbable (index flags : Z)
| K_ExternTSDisable (index : Z) | K_MaskClearAll | K_MaskEnable (index : Z) | K_readEvent (out : bool)
| K_readEvents (out : bool) (size : option Z) | K_setPinPeriod (index : Z) (times : option ptp_perout_request)
| K_setPtpPpsEvent (enable : bool) | K_samplePtpSys (count : Z) (out : bool) | K_extSamplePtpSys (count : Z) (out : bool)
| K_preciseSamplePtpSys (out : bool).
Definition k_end {A} (r : kres A) : option (ptpmgmt_clock_t * W) := '(_, s) ← r; Some s.
Definition k_run (c : k_call) (me : ptpmgmt_clock_t) (w : W) : option (ptpmgmt_clock_t * W) :=
  match c with
  | K_getTime => Some (me, w)
  | K_setTime ts => Some (me, (ptpmgmt_clock_setTime ts me w).2)
  | K_offsetClock o => '(_, w) ← ptpmgmt_clock_offsetClock o me w; Some (me, w)
  | K_setPhase o => Some (me, (ptpmgmt_clock_setPhase o me w).2)
  | K_initUsingDevice res dev ro => k_end (ptpmgmt_clock_initUsingDevice res dev ro me w)
  | K_initUsingIndex i ro => k_end (ptpmgmt_clock_initUsingIndex i ro me w)
  | K_isInit => k_end (ptpmgmt_clock_isInit me w)
  | K_clkId => k_end (ptpmgmt_clock_clkId me w)
  | K_getFd => k_end (ptpmgmt_clock_getFd me w)
  | K_ptpIndex => k_end (ptpmgmt_clock_ptpIndex me w)
  | K_device => k_end (ptpmgmt_clock_device me w)
  | K_setTimeFromSys => k_end (ptpmgmt_clock_setTimeFromSys me w)
  | K_setTimeToSys => k_end (ptpmgmt_clock_setTimeToSys me w)
  | K_fetchCaps out => k_end (ptpmgmt_clock_fetchCaps out me w)
  | K_readPin i out => k_end (ptpmgmt_clock_readPin i out me w)
  | K_writePin pin => k_end (ptpmgmt_clock_writePin pin me w)
  | K_ExternTSEbable i f => k_end (ptpmgmt_clock_ExternTSEbable i f me w)
  | K_ExternTSDisable i => k_end (ptpmgmt_clock_ExternTSDisable i me w)
  | K_MaskClearAll => k_end (ptpmgmt_clock_MaskClearAll me w)
  | K_MaskEnable i => k_end (ptpmgmt_clock_MaskEnable i me w)
  | K_readEvent out => k_end (ptpmgmt_clock_readEvent out me w)
  | K_readEvents out size => k_end (ptpmgmt_clock_readEvents out size me w)
  | K_setPinPeriod i times => k_end (ptpmgmt_clock_setPinPeriod i times me w)
  | K_setPtpPpsEvent e => k_end (ptpmgmt_clock_setPtpPpsEvent e me w)
  | K_samplePtpSys n out => k_end (ptpmgmt_clock_samplePtpSys n out me w)
  | K_extSamplePtpSys n out => k_end (ptpmgmt_clock_extSamplePtpSys n out me w)
  | K_preciseSamplePtpSys out => k_end (ptpmgmt_clock_preciseSamplePtpSys out me w)
  end.
Fixpoint k_runs (l : list k_call) (me : ptpmgmt_clock_t) (w : W) : option (ptpmgmt_clock_t * W) :=
  match l with [] => Some (me, w) | c :: l => '(me, w) ← k_run c me w; k_runs l me w end.
End C.
