(* ===== verification/PtpFacts.v ===== *)
(** * PtpFacts.v: what interfaces and clocks do

    No descriptor is lost by an interface or a clock, and the functions of the C
    structures never take a clock for one of the other class.  What the kernel
    gets to set an offset, a pin and a signal, what becomes of its answers, and the
    index of a device, which is not found. *)

From S2P Require Import Prelude CStr Types Bin Text SockFacts Ptp PtpC.

#[local] Open Scope list_scope.

(** ** The system *)

Class PtpView (W : Type) := { pt_fds : W -> gset Z }.
(** Descriptors are opened and closed by [socket], [open] and [close] only;
    [read] gives whole events that fit; samples are those that were asked; a real
    path fits [PATH_MAX] and no device is at [/dev/ptp] itself. *)
Class PtpLaws (W : Type) `{PtpOs W, PtpView W} := {
  ptl_socket w : let '(fd, w') := pt_socket w in
    if (fd <? 0) then pt_fds w' = pt_fds w else (fd ∉ pt_fds w) /\ pt_fds w' = ({[fd]} ∪ pt_fds w);
  ptl_open path ro w : let '(fd, w') := pt_open path ro w in
    if (fd <? 0) then pt_fds w' = pt_fds w else (fd ∉ pt_fds w) /\ pt_fds w' = ({[fd]} ∪ pt_fds w);
  ptl_close fd w : pt_fds (pt_close fd w) = (pt_fds w ∖ {[fd]});
  ptl_ioctl A fd (r : ioctl A) w : pt_fds (pt_ioctl fd r w).2 = pt_fds w;
  ptl_read fd n w : pt_fds (pt_read fd n w).2 = pt_fds w;
  ptl_settime c ts w : pt_fds (pt_settime c ts w).2 = pt_fds w;
  ptl_adjtime c t w : pt_fds (pt_adjtime c t w).2 = pt_fds w;
  ptl_events fd n w cnt ents : (pt_read fd n w).1 = (cnt, ents) -> 0 <= cnt -> cnt <= n /\ cnt / event_size <= len ents;
  ptl_samples fd n w n' ts : (pt_ioctl fd (PTP_SYS_OFFSET n) w).1 = Some (n', ts) -> n' = n /\ 2 * n <= len ts;
  ptl_ext fd n w n' ts : (pt_ioctl fd (PTP_SYS_OFFSET_EXTENDED n) w).1 = Some (n', ts) ->
    n' = n /\ n <= len ts /\ Forall (fun r => 3 <= len r) ts;
  ptl_path path w p : pt_realpath path w = Some p -> (length p < PATH_MAX)%nat /\ (x00 ∉ p) /\ p <> ptp_dev
}.

Section Facts.
Context {W : Type} `{PL : PtpLaws W}.

(** ** Descriptors of an interface *)

Lemma initPtp_fds fd name i w others : (fd ∉ others) -> pt_fds w = ({[fd]} ∪ others) ->
  pt_fds (initPtp fd name i w).2.2 = others.
Proof.
  intros Nf E. pose proof (set_closed fd others (set_fresh fd others Nf)) as C. unfold initPtp.
  pose proof (ptl_ioctl _ fd (SIOCGIFHWADDR name) w) as L1. destruct (pt_ioctl fd (SIOCGIFHWADDR name) w) as [[mac|] w1]; cbn [snd] in L1.
  2: { cbn. by rewrite ptl_close, L1, E. }
  pose proof (ptl_ioctl _ fd (SIOCETHTOOL_TS_INFO name) w1) as L2.
  destruct (pt_ioctl fd (SIOCETHTOOL_TS_INFO name) w1) as [[n|] w2]; cbn [snd] in L2; cbn; by rewrite ptl_close, L2, L1, E.
Qed.
(** An interface leaves no descriptor open, however the system answers. *)
Lemma interface_no_leak i w : (forall name, pt_fds (initUsingName name i w).2.2 = pt_fds w) /\
  forall index, pt_fds (initUsingIndex index i w).2.2 = pt_fds w.
Proof.
  pose proof (ptl_socket w) as S. split; intros a.
  - unfold initUsingName. destruct (n_isInit i); [done|]. destruct (_ || _); [done|].
    destruct (pt_socket w) as [fd w1]. destruct (fd <? 0); [done|]. destruct S as [Nf E].
    pose proof (ptl_ioctl _ fd (SIOCGIFINDEX (cstr a)) w1) as L. destruct (pt_ioctl fd _ w1) as [[n|] w2]; cbn [snd] in L.
    + apply initPtp_fds; [done|]. by rewrite L.
    + cbn. rewrite ptl_close, L, E. by apply set_closed, set_fresh.
  - unfold initUsingIndex. destruct (n_isInit i); [done|].
    destruct (pt_socket w) as [fd w1]. destruct (fd <? 0); [done|]. destruct S as [Nf E].
    pose proof (ptl_ioctl _ fd (SIOCGIFNAME a) w1) as L. destruct (pt_ioctl fd _ w1) as [[n|] w2]; cbn [snd] in L.
    + apply initPtp_fds; [done|]. by rewrite L.
    + cbn. rewrite ptl_close, L, E. by apply set_closed, set_fresh.
Qed.

(** ** Descriptors of a clock *)

(** A clock is initialised when it has a descriptor, and its clock is that of the
    descriptor. *)
Definition ptp_ok (others : gset Z) (p : PtpClock) (w : W) : Prop :=
  if 0 <=? m_fd p
  then p_isInit p = true /\ (m_fd p ∉ others) /\ pt_fds w = ({[m_fd p]} ∪ others) /\ m_clkId (p_clock p) = fd_to_clockid (m_fd p)
  else p_isInit p = false /\ pt_fds w = others.
Lemma ptp_ok_fds others p w w' : pt_fds w' = pt_fds w -> ptp_ok others p w -> ptp_ok others p w'.
Proof. intros E. unfold ptp_ok. by rewrite E. Qed.
Lemma destroy_fds others p w : ptp_ok others p w -> pt_fds (PtpClock_destroy p w) = others.
Proof.
  unfold ptp_ok, PtpClock_destroy. destruct (0 <=? m_fd p); [|by intros [_ ->]].
  intros (_ & Nf & E & _). rewrite ptl_close, E. by apply set_closed, set_fresh.
Qed.
Lemma init_ok others dev ro p w r p' w' : ptp_ok others p w -> p_isInit p = false -> init dev ro p w = (r, (p', w')) ->
  ptp_ok others p' w' /\ m_device p' = m_device p /\ m_ptpIndex p' = m_ptpIndex p /\ p_isInit p' = r.
Proof.
  unfold ptp_ok. intros O Ni. destruct (0 <=? m_fd p) eqn:Ef; [destruct O; congruence|]. destruct O as [_ Ew].
  unfold init. pose proof (ptl_open (cstr dev) ro w) as L. destruct (pt_open (cstr dev) ro w) as [fd w1].
  destruct (fd <? 0) eqn:Lf. { intros [= <- <- <-]. rewrite Ef. split; [split; congruence|done]. }
  destruct L as [Nf E1]. assert (pt_fds (pt_close fd w1) = others) as Cl.
  { rewrite ptl_close, E1, Ew. apply set_closed, set_fresh. by rewrite <- Ew. }
  destruct (fd_to_clockid fd =? CLOCK_INVALID). { intros [= <- <- <-]. rewrite Ef. done. }
  destruct (pt_gettime _ w1); intros [= <- <- <-]; [|rewrite Ef; done]. cbn [m_fd].
  rewrite (proj2 (Z.leb_le 0 fd)) by lia. rewrite E1, Ew. split; [|done]. split; [done|]. split; [by rewrite <- Ew|done].
Qed.

(** *** Devices *)

Lemma strncmp_same_c dev : (x00 ∉ dev) -> forall path r, (x00 ∉ path) ->
  strncmp_same (S (length dev)) (path ++ x00 :: r) (dev ++ [x00]) = Some (bool_decide (path = dev)).
Proof.
  induction dev as [|y dev IH]; intros Nd [|x path] r Np; cbn [strncmp_same app length].
  - done.
  - rewrite (bool_decide_eq_false_2 (x = x00)) by (intros ->; apply Np; by left). done.
  - rewrite (bool_decide_eq_false_2 (x00 = y)) by (intros <-; apply Nd; by left). done.
  - apply not_elem_of_cons in Nd as [Ny Nd], Np as [Nx Np]. destruct (decide (x = y)) as [->|D].
    + rewrite (bool_decide_eq_true_2 (y = y)) by done. cbn [negb]. rewrite (bool_decide_eq_false_2 (y = x00)) by done.
      change (strncmp_same (S (length dev)) (path ++ x00 :: r) (dev ++ [x00]) = Some (bool_decide (y :: path = y :: dev))).
      rewrite IH by done. f_equal. apply bool_decide_ext. split; [by intros ->|by intros [= ->]].
    + rewrite (bool_decide_eq_false_2 (x = y)) by done. cbn. f_equal. symmetry. apply bool_decide_eq_false_2. by intros [= ->].
Qed.
(** The name of a device never has an index: the comparison takes the end of
    [ptp_dev] too. *)
Lemma device_index_none path residue : (length path < PATH_MAX)%nat -> (x00 ∉ path) -> path <> ptp_dev ->
  device_index (path_array path residue) = Some None.
Proof.
  intros L Nz D. unfold device_index, path_array. rewrite take_app_ge by lia.
  destruct (PATH_MAX - length path)%nat as [|k] eqn:Ek; [lia|]. cbn [take].
  rewrite strncmp_same_c; [|apply (bool_decide_unpack _); vm_compute; exact Logic.I|done]. by rewrite (bool_decide_eq_false_2 (path = ptp_dev)).
Qed.
Lemma find_device_path dev w path : find_device dev w = Some path -> (length path < PATH_MAX)%nat /\ (x00 ∉ path) /\ path <> ptp_dev.
Proof.
  unfold find_device. destruct (isCharFile dev w); [apply ptl_path|]. case_bool_decide; [done|].
  destruct (isCharFile _ w); [apply ptl_path|done].
Qed.
(** Opening a device: the object keeps its path and its descriptor, and the clock
    of the descriptor; the index stays as it was. *)
Lemma device_ok others residue dev ro p w : ptp_ok others p w ->
  exists r p' w', initUsingDevice residue dev ro p w = Some (r, (p', w')) /\ ptp_ok others p' w' /\
    m_ptpIndex p' = m_ptpIndex p /\ (r = true -> p_isInit p = false /\ p_isInit p' = true /\ find_device dev w = Some (m_device p')).
Proof.
  intros O. unfold initUsingDevice. destruct (p_isInit p) eqn:I; [by exists false, p, w|].
  destruct (find_device dev w) as [path|] eqn:Fd; [|by exists false, p, w].
  destruct (init path ro p w) as [r [p1 w1]] eqn:E. destruct (init_ok _ _ _ _ _ _ _ _ O I E) as (O1 & Dv & Ix & I1).
  destruct r; cbn [negb]; [|exists false, p1, w1; split; [done|]; by repeat split].
  destruct (find_device_path _ _ _ Fd) as (L & Nz & D). rewrite device_index_none by done. cbn [mbind option_bind].
  eexists true, _, w1. split; [done|]. split; [exact O1|]. split; [exact Ix|]. intros _. by repeat split.
Qed.
Lemma ptp_index_ok others n ro p w : ptp_ok others p w ->
  exists r p' w', initUsingPtpIndex n ro p w = (r, (p', w')) /\ ptp_ok others p' w' /\
    (r = true -> m_ptpIndex p' = n /\ p_isInit p' = true) /\
    (p_isInit p = false -> m_device p' = ptp_dev ++ to_string n).
Proof.
  intros O. unfold initUsingPtpIndex. destruct (p_isInit p) eqn:I.
  { exists false, p, w. split; [done|]. split; [exact O|done]. }
  cbn [m_device set_m_device]. destruct (isCharFile _ w); cbn [negb].
  2: { eexists false, _, w. split; [done|]. split; [exact O|]. split; [done|]. by intros _. }
  destruct (init _ ro (set_m_device _ p) w) as [r [p1 w1]] eqn:E.
  destruct (init_ok others _ _ _ _ _ _ _ (O : ptp_ok others (set_m_device (ptp_dev ++ to_string n) p) w) I E) as (O1 & Dv & Ix & I1).
  destruct r; cbn [negb].
  - eexists true, _, w1. split; [done|]. split; [exact O1|]. split; [done|]. by intros _.
  - eexists false, _, w1. split; [done|]. split; [exact O1|]. split; [done|]. by intros _.
Qed.

(** *** Other methods *)

Lemma time_fds b f t w : pt_fds (setTimeFromTime b f t w).2 = pt_fds w.
Proof. unfold setTimeFromTime. destruct (negb b); [done|]. destruct (pt_gettime f w); [apply ptl_settime|done]. Qed.
Lemma adjust_fds t c w : pt_fds (adjust t c w).2 = pt_fds w.
Proof. unfold adjust. pose proof (ptl_adjtime (m_clkId c) t w) as L. by destruct (pt_adjtime _ _ _) as [[r x] w']. Qed.
Lemma set_fds ts c w : pt_fds (setTime ts c w).2 = pt_fds w.
Proof. unfold setTime. destruct (negb _); [done|apply ptl_settime]. Qed.
Lemma phase_fds o c w : pt_fds (setPhase o c w).2 = pt_fds w.
Proof.
  unfold setPhase. destruct (negb _); [done|]. pose proof (adjust_fds (mk_timex (Z.lor ADJ_OFFSET ADJ_NANO) o 0 (0, 0) 0) c w) as L.
  by destruct (adjust _ c w) as [[r x] w'].
Qed.
(** [offsetClock] always gives a result. *)
Lemma offset_fds o c w : exists r w', offsetClock o c w = Some (r, w') /\ pt_fds w' = pt_fds w.
Proof.
  unfold offsetClock. destruct (negb _); [by exists false, w|]. destruct (fixRem_correct o) as (q & r & -> & _). cbn [mbind option_bind].
  pose proof (adjust_fds (mk_timex (Z.lor ADJ_SETOFFSET ADJ_NANO) 0 0 (q, r) 0) c w) as L.
  destruct (adjust _ c w) as [[b x] w']. by exists b, w'.
Qed.
Lemma freq_fds {F} `{FreqArith F} (f : F) c t w : pt_fds (getFreq (F := F) c t w).2 = pt_fds w /\ pt_fds (setFreq f c t w).2 = pt_fds w.
Proof.
  unfold getFreq, setFreq. destruct (negb (m_isInit c)); [done|]. split.
  - pose proof (adjust_fds timex_zero c w) as L. destruct (adjust _ c w) as [[r x] w']. by destruct (negb r).
  - cbv zeta. match goal with |- context [adjust ?x c w] => pose proof (adjust_fds x c w) as L; by destruct (adjust x c w) as [[r y] w'] end.
Qed.
Lemma request_fds {A} (r : ioctl A) p w : pt_fds (request r p w).2 = pt_fds w.
Proof. unfold request. destruct (negb _); [done|apply ptl_ioctl]. Qed.
Lemma request_ok_fds {A} (r : ioctl A) p w : pt_fds (request_ok r p w).2 = pt_fds w.
Proof. unfold request_ok. pose proof (request_fds r p w) as L. by destruct (request r p w). Qed.
(** ** Answers in arrays *)

Lemma first_events_take n : forall ents, (n <= length ents)%nat -> first_events n ents = Some (take n ents).
Proof.
  induction n as [|n IH]; intros [|e ents] L; cbn [first_events length take] in *; try done; [lia|].
  rewrite IH by lia. done.
Qed.
(** What [read] gives: whole events, no more than were asked. *)
Lemma read_events_ok fd max w : 0 <= max ->
  let '(num, ents, w') := PtpClock_readEvents fd max w in
  0 <= num <= max /\ (Z.to_nat num <= length ents)%nat /\ pt_fds w' = pt_fds w.
Proof.
  intros M. unfold PtpClock_readEvents. pose proof (ptl_events fd (event_size * max) w) as E.
  pose proof (ptl_read fd (event_size * max) w) as L. destruct (pt_read fd _ w) as [[cnt ents] w'].
  cbn [fst snd] in *. specialize (E cnt ents eq_refl). unfold event_size in *.
  destruct (cnt <=? 0) eqn:C; [split; [lia|split; [lia|done]]|].
  destruct (negb _); [split; [lia|split; [lia|done]]|]. destruct E as [E1 E2]; [lia|].
  rewrite Z.quot_div_nonneg by lia. unfold len in E2.
  assert (cnt / 32 <= max) by (apply Z.div_le_upper_bound; lia). assert (0 <= cnt / 32) by (apply Z.div_pos; lia).
  split; [lia|]. split; [lia|done].
Qed.
Lemma take_samples_ok n : forall ts, (2 * n <= length ts)%nat ->
  exists l, take_samples n ts = Some l /\ length l = n /\
    forall i, (i < n)%nat -> exists s c, ts !! (2 * i)%nat = Some s /\ ts !! (2 * i + 1)%nat = Some c /\
                                         l !! i = Some (mk_Sample (toTs s) (toTs c)).
Proof.
  induction n as [|n IH]; intros ts L; [by exists []; split; [|split; [|lia]]|].
  destruct ts as [|s [|c ts]]; cbn [length] in L; [lia..|]. destruct (IH ts) as (l & E & Ll & K); [lia|].
  cbn [take_samples]. rewrite E. cbn [mbind option_bind]. eexists. split; [done|]. split; [cbn; lia|].
  intros [|i] Hi; [by exists s, c|]. destruct (K i) as (s' & c' & A & B & C); [lia|]. exists s', c'.
  replace (2 * S i)%nat with (S (S (2 * i))) by lia. replace (S (S (2 * i)) + 1)%nat with (S (S (2 * i + 1))) by lia.
  by cbn [lookup list_lookup].
Qed.

(** ** Programs in C *)

(** The table of functions is that of the class of the object. *)
Definition clk_ok (others : gset Z) (me : ptpmgmt_clock_t) (w : W) : Prop :=
  match clk_this me, clk_asgn me with
  | Some (C_ptp p), true => ptp_ok others p w
  | Some (C_sys _), false => pt_fds w = others
  | _, _ => False
  end.
(** A call that gives a result and keeps that. *)
Definition called (others : gset Z) (r : option (ptpmgmt_clock_t * W)) : Prop :=
  exists me w, r = Some (me, w) /\ clk_ok others me w.
Lemma called_fds others me w w' : pt_fds w' = pt_fds w -> clk_ok others me w -> called others (Some (me, w')).
Proof.
  intros E K. exists me, w'. split; [done|]. unfold clk_ok in *. destruct (clk_this me) as [[c|p]|], (clk_asgn me); try done.
  - congruence.
  - by eapply ptp_ok_fds.
Qed.
Lemma ptp_call_ok {A} others (non : A) m me w :
  (forall p w, ptp_ok others p w -> exists a p' w', m p w = Some (a, (p', w')) /\ ptp_ok others p' w') ->
  clk_ok others me w -> called others (k_end (ptp_call non m me w)).
Proof.
  intros M K. unfold clk_ok in K. unfold ptp_call. destruct (clk_asgn me) eqn:Ea; cbn [negb].
  2: { eapply (called_fds others me w); [done|]. unfold clk_ok. by rewrite Ea. }
  destruct (clk_this me) as [[c|p]|] eqn:Et; try done. destruct (M p w K) as (a & p' & w' & -> & O). by eexists _, w'.
Qed.
Lemma const_call_ok {A} others (non : A) m me w : (forall p w, pt_fds (m p w).2 = pt_fds w) ->
  clk_ok others me w -> called others (k_end (const_call non m me w)).
Proof.
  intros M. apply ptp_call_ok. intros p w1 O. pose proof (M p w1) as E. destruct (m p w1) as [a w2].
  exists a, p, w2. split; [done|]. by eapply ptp_ok_fds.
Qed.
Lemma out_call_ok {A} others out (m : PtpClock -> W -> option A * W) me w : (forall p w, pt_fds (m p w).2 = pt_fds w) ->
  clk_ok others me w -> called others (k_end (out_call out m me w)).
Proof. intros M K. unfold out_call. destruct out; [by apply const_call_ok|]. by apply (called_fds others me w). Qed.
Lemma base_call_fds {A} (non : A) m me w : (forall c w, pt_fds (m c w).2 = pt_fds w) -> pt_fds (base_call non m me w).2 = pt_fds w.
Proof. intros M. unfold base_call. destruct (clk_this me) as [[c|p]|]; [apply M..|done]. Qed.
Lemma read_event_fds b fd w : exists r w', PtpClock_readEvent b fd w = Some (r, w') /\ pt_fds w' = pt_fds w.
Proof.
  unfold PtpClock_readEvent. destruct (negb b); [by exists None, w|]. pose proof (ptl_events fd event_size w) as E.
  pose proof (ptl_read fd event_size w) as L. destruct (pt_read fd _ w) as [[cnt ents] w']. cbn [fst snd] in *.
  specialize (E cnt ents eq_refl). case (Z.eqb_spec cnt event_size) as [->|]; [|by exists None, w'].
  destruct E as [_ E]; [done|]. destruct ents as [|e ents]; [done|]. by exists (Some e), w'.
Qed.
Lemma samples_fds n p w : pt_fds (PtpClock_samplePtpSys n p w).2 = pt_fds w /\ pt_fds (PtpClock_extSamplePtpSys n p w).2 = pt_fds w.
Proof.
  unfold PtpClock_samplePtpSys, PtpClock_extSamplePtpSys. destruct (negb _); [done|]. destruct (wrong_count n); [done|].
  split; apply ptl_ioctl.
Qed.
Lemma period_fds fd clk i req w : pt_fds (PtpClock_setPinPeriod fd clk i req w).2 = pt_fds w.
Proof.
  unfold PtpClock_setPinPeriod. destruct (if _ =? 0 then _ else _) as [start|]; [|done].
  match goal with |- context [pt_ioctl fd ?r w] => pose proof (ptl_ioctl _ fd r w) as L; by destruct (pt_ioctl fd r w) end.
Qed.
Lemma k_run_ok others c me w : clk_ok others me w -> called others (k_run c me w).
Proof.
  intros K. pose proof (called_fds others me w w eq_refl K) as Same. destruct c; cbn [k_run]; try exact Same;
    try (apply const_call_ok; [|exact K]; intros p w1; first [apply time_fds|apply request_ok_fds|done]);
    try (apply out_call_ok; [|exact K]; intros p w1; first [apply request_fds|apply samples_fds]).
  - apply (called_fds others me w); [|exact K]. unfold ptpmgmt_clock_setTime. destruct ts; [|done].
    apply base_call_fds. intros. apply set_fds.
  - unfold ptpmgmt_clock_offsetClock. destruct (clk_this me) as [[c|p]|].
    + destruct (offset_fds offset c w) as (r & w' & -> & E). by apply (called_fds others me w).
    + destruct (offset_fds offset (p_clock p) w) as (r & w' & -> & E). by apply (called_fds others me w).
    + exact Same.
  - apply (called_fds others me w); [|exact K]. apply base_call_fds. intros. apply phase_fds.
  - unfold ptpmgmt_clock_initUsingDevice. destruct dev as [dev|]; [|exact Same]. apply ptp_call_ok; [|exact K].
    intros p w1 O. destruct (device_ok others residue (cstr dev) readonly p w1 O) as (r & p' & w' & E & O' & _). by exists r, p', w'.
  - apply ptp_call_ok; [|exact K]. intros p w1 O. destruct (ptp_index_ok others index readonly p w1 O) as (r & p' & w' & -> & O' & _).
    by exists r, p', w'.
  - unfold ptpmgmt_clock_writePin. destruct pin; [|exact Same]. apply const_call_ok; [|exact K]. intros. apply request_ok_fds.
  - unfold ptpmgmt_clock_readEvent. destruct out; [|exact Same]. apply ptp_call_ok; [|exact K]. intros p w1 O.
    destruct (read_event_fds (p_isInit p) (m_fd p) w1) as (r & w' & -> & E). exists r, p, w'. split; [done|]. by eapply ptp_ok_fds.
  - unfold ptpmgmt_clock_readEvents. destruct size as [size|]; [|exact Same]. destruct (out && _) eqn:Os; [|exact Same].
    apply andb_prop in Os as [_ Os]. apply ptp_call_ok; [|exact K]. intros p w1 O. destruct (negb _); [by exists None, p, w1|].
    pose proof (read_events_ok (m_fd p) (Z.min size PTP_BUF_TIMESTAMPS) w1) as R.
    destruct (PtpClock_readEvents _ _ w1) as [[ret ents] w']. destruct R as (_ & L & E); [unfold PTP_BUF_TIMESTAMPS; lia|].
    destruct (0 <? ret); [rewrite first_events_take by done|]; eexists _, p, w'; (split; [done|]); by eapply ptp_ok_fds.
  - unfold ptpmgmt_clock_setPinPeriod. destruct times as [req|]; [|exact Same]. apply const_call_ok; [|exact K]. intros p w1.
    destruct (negb _); [done|]. pose proof (period_fds (m_fd p) (m_clkId (p_clock p)) index req w1) as E.
    by destruct (PtpClock_setPinPeriod _ _ _ _ w1) as [[r q] w'].
Qed.

(** ** Clocks that are opened *)

Lemma clockid_value fd : 0 <= fd < 2 ^ 28 -> fd_to_clockid fd = - 8 * fd - 5.
Proof.
  intros Hf. unfold fd_to_clockid, make_process_cpuclock. rewrite (uwrap_small 32 fd) by (unfold uint; lia).
  rewrite Z.shiftl_mul_pow2 by lia. assert (Z.lnot fd = - fd - 1) as -> by (unfold Z.lnot; lia).
  assert (forall z k, uwrap 32 (uwrap 32 z * 2 ^ k) = uwrap 32 (z * 2 ^ k)) as W1.
  { intros z k. unfold uwrap. by rewrite Zmult_mod_idemp_l. }
  rewrite W1. assert (uwrap 32 ((- fd - 1) * 2 ^ 3) = 2 ^ 32 - 8 * fd - 8) as ->.
  { unfold uwrap. symmetry. apply (Z.mod_unique_pos _ _ (-1)); lia. }
  assert (Z.lor (2 ^ 32 - 8 * fd - 8) CLOCKFD = 2 ^ 32 - 8 * fd - 5) as ->.
  { replace (2 ^ 32 - 8 * fd - 8) with (Z.shiftl (2 ^ 29 - fd - 1) 3) by (rewrite Z.shiftl_mul_pow2; lia).
    pose proof (Z.add_lor_land (Z.shiftl (2 ^ 29 - fd - 1) 3) CLOCKFD) as E.
    assert (Z.land (Z.shiftl (2 ^ 29 - fd - 1) 3) CLOCKFD = 0) as E0.
    { apply Z.bits_inj'. intros n Hn. rewrite Z.land_spec, Z.bits_0. destruct (decide (n < 3)) as [L|L].
      - by rewrite Z.shiftl_spec_low.
      - apply andb_false_intro2. apply Z.bits_above_log2; [done|]. change (Z.log2 CLOCKFD) with 1. lia. }
    rewrite E0 in E. rewrite Z.shiftl_mul_pow2 in E |- * by lia. unfold CLOCKFD in *. lia. }
  unfold swrap. cbv zeta. rewrite uwrap_small by (unfold uint; lia). rewrite (proj2 (Z.ltb_ge _ _)) by lia. lia.
Qed.
(** opening a clock by its device or its index: it has the descriptor that was
    opened, the clock of that descriptor, whose number is -8 times the descriptor
    less 5 and never CLOCK_INVALID, and the real path of the device or the path
    made of the index.  Opened by its index the clock knows the index; opened by
    its device it never does: the comparison of the path with the start of the
    names of clocks includes the null character at its end. *)
Theorem clock_opened others residue dev n ro p w : ptp_ok others p w ->
  (exists r p' w', initUsingDevice residue dev ro p w = Some (r, (p', w')) /\ m_ptpIndex p' = m_ptpIndex p /\
     (r = true -> p_isInit p = false /\ p_isInit p' = true /\ find_device dev w = Some (m_device p') /\ 0 <= m_fd p' /\
        (m_fd p' < 2 ^ 28 -> m_clkId (p_clock p') = - 8 * m_fd p' - 5))) /\
  (exists r p' w', initUsingPtpIndex n ro p w = (r, (p', w')) /\
     (p_isInit p = false -> m_device p' = ptp_dev ++ to_string n) /\
     (r = true -> p_isInit p' = true /\ m_ptpIndex p' = n /\ 0 <= m_fd p' /\
        (m_fd p' < 2 ^ 28 -> m_clkId (p_clock p') = - 8 * m_fd p' - 5))).
Proof.
  intros O. assert (forall p1 w1, ptp_ok others p1 w1 -> p_isInit p1 = true -> 0 <= m_fd p1 /\
    (m_fd p1 < 2 ^ 28 -> m_clkId (p_clock p1) = - 8 * m_fd p1 - 5)) as K.
  { intros p1 w1 O1 I. unfold ptp_ok in O1. destruct (Z.leb_spec 0 (m_fd p1)); [|destruct O1; congruence].
    destruct O1 as (_ & _ & _ & ->). split; [done|]. intros. by apply clockid_value. }
  split.
  - destruct (device_ok others residue dev ro p w O) as (r & p' & w' & E & O' & Ix & T). exists r, p', w'. split; [exact E|].
    split; [exact Ix|]. intros R. destruct (T R) as (T1 & T2 & T3). split; [done|]. split; [done|]. split; [done|]. by eapply K.
  - destruct (ptp_index_ok others n ro p w O) as (r & p' & w' & E & O' & T & D). exists r, p', w'. split; [exact E|].
    split; [exact D|]. intros R. destruct (T R) as (T1 & T2). split; [done|]. split; [done|]. by eapply K.
Qed.

(** ** Requests *)

(** The offset that the kernel gets is the one of the caller, with nanoseconds
    that are not negative.  Any answer but 0 counts as a failure. *)
Lemma offset_exact offset c w : m_isInit c = true ->
  exists sec nsec, offset = sec * NSEC_PER_SEC + nsec /\ 0 <= nsec < NSEC_PER_SEC /\
    offsetClock offset c w = let '((r, _), w') := pt_adjtime (m_clkId c) (mk_timex 0x2100 0 0 (sec, nsec) 0) w in Some (r =? 0, w').
Proof.
  intros I. destruct (fixRem_correct offset) as (q & r & E & Eo & Hr). exists q, r. split; [done|]. split; [done|].
  unfold offsetClock, adjust. rewrite I, E. cbn [negb mbind option_bind].
  change (Z.lor ADJ_SETOFFSET ADJ_NANO) with 0x2100. by destruct (pt_adjtime _ _ w) as [[x y] w'].
Qed.
(** A pin that was written reads as it was, when the device keeps its function
    and its channel. *)
Lemma pin_roundtrip name dname pin pin0 p w w1 w2 : writePin name pin p w = (true, w1) ->
  (forall f, pin_func_code (functional pin) = Some f ->
     pt_ioctl (m_fd p) (PTP_PIN_GETFUNC (pin_index pin)) w1 = (Some (mk_desc dname (pin_index pin) f (channel pin)), w2)) ->
  readPin (pin_index pin) pin0 p w1 = (true, mk_Pin (pin_index pin) (cstr dname) (functional pin) (channel pin), w2).
Proof.
  unfold writePin, readPin, request. destruct (negb (p_isInit p)); [done|].
  destruct (pin_func_code (functional pin)) as [f|] eqn:E; [|done]. intros _ K. rewrite (K f eq_refl). cbn [d_func d_name d_chan].
  assert (pin_function f = Some (functional pin)) as ->; [|done].
  clear K. destruct pin as [a b [] d]; cbn in E; by simplify_eq.
Qed.
(** Without a phase a signal starts two seconds after the time of the clock. *)
Lemma period_start index times flags p w ts : p_isInit p = true -> Z.land flags PTP_PERIOD_PHASE = 0 -> 0 <= flags ->
  pt_gettime (m_clkId (p_clock p)) w = Some ts ->
  exists r w', setPinPeriod index times flags p w = (r, w') /\
    pt_ioctl (m_fd p) (PTP_PEROUT_REQUEST (negb (flags =? 0)) (mk_perout (mk_pct (tv_sec ts + 2) 0) (fromTs (period times)) index flags
      (if 0 <? Z.land PTP_PERIOD_WIDTH flags then fromTs (width times) else mk_pct 0 0))) w = (if r then Some tt else None, w').
Proof.
  intros I Ph _ T. unfold setPinPeriod, PtpClock_setPinPeriod. rewrite I. cbn [negb po_flags po_start po_period po_on].
  rewrite Ph, T. cbn [Z.eqb]. match goal with |- context [pt_ioctl (m_fd p) ?r w] => destruct (pt_ioctl (m_fd p) r w) as [[[]|] w'] eqn:E end.
  - by exists true, w'.
  - by exists false, w'.
Qed.

(** ** Answers *)

(** Samples: from 1 to 25 are asked, and then as many are added, each made of two
    times of the array, the system and the clock, in its order. *)
Lemma samples_taken count samples p w : 0 <= count -> exists r samples' w', samplePtpSys count samples p w = Some (r, samples', w') /\
  (r = false -> samples' = samples) /\
  (r = true -> 1 <= count <= PTP_MAX_SAMPLES) /\
  (r = true -> exists ts l, (pt_ioctl (m_fd p) (PTP_SYS_OFFSET count) w).1 = Some (count, ts) /\ samples' = samples ++ l /\
     length l = Z.to_nat count /\
     forall i, (i < Z.to_nat count)%nat -> exists s c, ts !! (2 * i)%nat = Some s /\ ts !! (2 * i + 1)%nat = Some c /\
                                                      l !! i = Some (mk_Sample (toTs s) (toTs c))).
Proof.
  intros Hc. unfold samplePtpSys, PtpClock_samplePtpSys. destruct (negb _); [by exists false, samples, w|].
  destruct (wrong_count count) eqn:C; [by exists false, samples, w|]. unfold wrong_count in C.
  destruct (pt_ioctl (m_fd p) (PTP_SYS_OFFSET count) w) as [[[n ts]|] w'] eqn:E; [|by exists false, samples, w'].
  destruct (ptl_samples (m_fd p) count w n ts) as [-> L]; [by rewrite E|].
  destruct (take_samples_ok (Z.to_nat count) ts) as (l & -> & Ll & K); [unfold len in L; lia|]. cbn [mbind option_bind].
  exists true, (samples ++ l), w'. split; [done|]. split; [done|]. split; [intros _; lia|]. intros _. by exists ts, l.
Qed.
(** Events: those that [read] gave are added, at most 30; without a descriptor
    the result is true all the same. *)
Lemma events_taken max events p w : 0 <= max -> exists r events' w', readEvents max events p w = Some (r, events', w') /\
  (p_isInit p = false -> r = true /\ events' = events) /\
  (p_isInit p = true -> exists l, events' = events ++ map event_of l /\ len l <= PTP_BUF_TIMESTAMPS /\
     (0 < max -> len l <= max) /\ (r = true <-> l <> [])).
Proof.
  intros M. unfold readEvents. destruct (p_isInit p) eqn:I; cbn [negb]; [|by exists true, events, w].
  set (m := if max =? 0 then PTP_BUF_TIMESTAMPS else Z.min max PTP_BUF_TIMESTAMPS).
  assert (0 <= m <= PTP_BUF_TIMESTAMPS /\ (0 < max -> m <= max)) as [Hm Hm'].
  { subst m. unfold PTP_BUF_TIMESTAMPS. destruct (Z.eqb_spec max 0); lia. }
  pose proof (read_events_ok (m_fd p) m w) as R. destruct (PtpClock_readEvents (m_fd p) m w) as [[num ents] w'].
  destruct R as (Hn & L & _); [lia|]. destruct (Z.eqb_spec num 0) as [->|N0].
  - exists false, events, w'. split; [done|]. split; [done|]. intros _. exists []. rewrite app_nil_r. cbn. unfold len. cbn.
    split; [done|]. split; [lia|]. split; [lia|]. split; congruence.
  - rewrite first_events_take by done. cbn [mbind option_bind]. exists true, (events ++ map event_of (take (Z.to_nat num) ents)), w'.
    split; [done|]. split; [done|]. intros _. exists (take (Z.to_nat num) ents). unfold len. rewrite length_take.
    split; [done|]. split; [lia|]. split; [lia|]. split; [|done]. intros _ E. apply (f_equal length) in E. rewrite length_take in E. cbn in E. lia.
Qed.
End Facts.

(** * Interfaces and clocks on a small system

    An instance of the system calls of [Ptp] with its laws, and the theorems of
    [PtpFacts] at work on it. *)

(** Its descriptors; there is one clock, [/dev/ptp0]. *)
Record demo_sys := mk_demo_sys { ds_fds : gset Z; ds_sets : list (Z * timex) }.
Definition ds_fresh (s : demo_sys) : Z := Z.of_nat (base.fresh (set_map Z.to_nat (ds_fds s) : gset nat)).
Definition ds_opened (s : demo_sys) : Z * demo_sys := (ds_fresh s, mk_demo_sys ({[ds_fresh s]} ∪ ds_fds s) (ds_sets s)).
Definition ds_path : list byte := bytes "/dev/ptp0".
Definition ds_time (n : Z) : ptp_clock_time := mk_pct n 5.
Definition ds_answer {A} (r : ioctl A) : option A :=
  match r with
  | SIOCGIFINDEX _ => Some 2
  | SIOCGIFNAME _ => Some (bytes "eth0")
  | SIOCGIFHWADDR _ => Some (repeat x02 14)
  | SIOCETHTOOL_TS_INFO _ => Some 0
  | PTP_CLOCK_GETCAPS => Some (mk_caps 1000 0 1 1 1 2 1 0 0)
  | PTP_PIN_GETFUNC i => Some (mk_desc (bytes "SDP") i PTP_PF_NONE 0)
  | PTP_PIN_SETFUNC _ | PTP_EXTTS_REQUEST _ _ | PTP_MASK_CLEAR_ALL | PTP_MASK_EN_SINGLE _
  | PTP_PEROUT_REQUEST _ _ | PTP_ENABLE_PPS _ => Some tt
  | PTP_SYS_OFFSET n => Some (n, map (fun i => ds_time (Z.of_nat i)) (seq 0 (Z.to_nat (2 * n + 1))))
  | PTP_SYS_OFFSET_EXTENDED n => Some (n, repeat [ds_time 1; ds_time 2; ds_time 3] (Z.to_nat n))
  | PTP_SYS_OFFSET_PRECISE => Some (mk_precise (ds_time 1) (ds_time 2) (ds_time 3))
  end.
#[global] Instance demo_sys_calls : PtpOs demo_sys := {|
  pt_socket := ds_opened;
  pt_open _ _ := ds_opened;
  pt_close fd s := mk_demo_sys (ds_fds s ∖ {[fd]}) (ds_sets s);
  pt_ioctl A _ r s := (ds_answer r, s);
  pt_read _ n s := ((n, repeat (mk_event (ds_time 7) 1) (Z.to_nat n)), s);
  pt_gettime _ _ := Some (mk_timespec 100 200);
  pt_settime _ _ s := (true, s);
  pt_adjtime c t s := ((0, t), mk_demo_sys (ds_fds s) ((c, t) :: ds_sets s));
  pt_stat p _ := if bool_decide (p = ds_path) then Some true else None;
  pt_realpath p _ := if bool_decide (p = ds_path) then Some p else None;
  pt_clk_tck _ := 100
|}.
#[global] Instance demo_sys_view : PtpView demo_sys := {| pt_fds := ds_fds |}.
Lemma ds_fresh_ok s : (ds_fresh s <? 0) = false /\ (ds_fresh s ∉ ds_fds s).
Proof.
  split; [apply Z.ltb_ge, Nat2Z.is_nonneg|]. intros E. apply (is_fresh (set_map Z.to_nat (ds_fds s) : gset nat)).
  apply elem_of_map. exists (ds_fresh s). split; [|done]. unfold ds_fresh. by rewrite Nat2Z.id.
Qed.
#[global] Instance demo_sys_laws : PtpLaws demo_sys.
Proof.
  split; try done.
  - intros s. destruct (ds_fresh_ok s) as [L F]. cbn. by rewrite L.
  - intros p ro s. destruct (ds_fresh_ok s) as [L F]. cbn. by rewrite L.
  - intros fd n s cnt ents [= <- <-] Hn. unfold len, event_size. rewrite repeat_length. split; [lia|].
    apply (Z.le_trans _ n); [apply Z.div_le_upper_bound; lia|lia].
  - intros fd n s n' ts [= <- <-]. split; [done|]. unfold len. rewrite length_map, length_seq. lia.
  - intros fd n s n' ts [= <- <-]. split; [done|]. unfold len. rewrite repeat_length. split; [lia|].
    induction (Z.to_nat n); cbn; constructor; [by vm_compute|done].
  - intros path s p. cbn. case_bool_decide; [|done]. intros [= <-]. subst. split; [vm_compute; lia|].
    split; [|done]. apply (bool_decide_unpack _). vm_compute. exact Logic.I.
Qed.

Definition demo_start : demo_sys := mk_demo_sys {[0; 1; 2]} [].
Definition demo_program : list k_call :=
  [K_initUsingIndex 0 false; K_offsetClock (-1); K_readEvents true (Some 4); K_samplePtpSys 3 true;
   K_initUsingDevice (repeat x00 4096) (Some (bytes "ptp0")) true; K_setTimeFromSys; K_readPin 1 false].
Lemma clock_opened_witness : exists p w, initUsingDevice (repeat x00 4096) (bytes "ptp0") false PtpClock_new demo_start = Some (true, (p, w)) /\
  m_ptpIndex p = NO_SUCH_PTP /\ (initUsingPtpIndex 0 false PtpClock_new demo_start).1 = true.
Proof.
  destruct (clock_opened (pt_fds demo_start) (repeat x00 4096) (bytes "ptp0") 0 false PtpClock_new demo_start)
    as [(r & p & w & E & Ix & _) (r2 & p2 & w2 & E2 & _)].
  - split; reflexivity.
  - assert (match initUsingDevice (repeat x00 4096) (bytes "ptp0") false PtpClock_new demo_start with Some (r, _) => r | None => false end = true) as R
      by (vm_compute; reflexivity).
    rewrite E in R. subst r. exists p, w. split; [exact E|]. split; [exact Ix|]. vm_compute. reflexivity.
Defined.
