(* ===== verification/ClkPtp4l.v ===== *)
(** * ClkPtp4l.v: the proxy follows ptp4l

    [ptpSet] of [src/clkmgr/proxy/connect_ptp4l.cpp]: one thread for each time base
    subscribes to the events of a ptp4l, asks for its data sets and turns the
    replies into the [ptp_event] of the time base, with the messages of Message.v
    and the dispatcher of MsgCall.v.  The class [Host] stands for what is around
    the thread: its socket, the flag that stops it, and the publication of an
    event, which is [ptpEvent::copy] and [Client::notifyClients] of ClkProxy.v.

    A thread is a machine with a step for what precedes its loops and for one
    round of each of them.  [None] is a fault of the parser, the builder, the
    dispatcher or the notification.  The service of [connect_srv.hpp] creates
    and starts the threads. *)

From S2P Require Import Prelude CStr Types Ids MngTlvs ClkEvent ClkConfig ClkMsg ClkProxy Text Auth.
From S2P Require Import Message MsgCall.

#[local] Open Scope list_scope.

(** ** The surroundings of the threads *)

(** The sockets, the flag that stops a thread and the published events, each for
    the index of a time base.  [sku_rcv] is [None] when nothing is received;
    [notify_clients] is [None] when it faults.  [conv_overflow] is what a
    conversion of a floating point number to [uint64_t] gives outside of its
    range, where C++ does not define it. *)
Class Host (W : Type) := {
  stopThread : Z -> W -> bool;
  sku_open : Z -> list byte -> list byte -> W -> bool * W;
  sku_close : Z -> W -> W;
  sku_send : Z -> list byte -> W -> bool * W;
  sku_poll : Z -> W -> bool * W;
  sku_rcv : Z -> W -> option (list byte) * W;
  sleep_100ms : W -> W;
  copy_event : Z -> ptp_event -> W -> W;
  notify_clients : Z -> W -> option W;
  conv_overflow : Z -> Z
}.

Definition USEC_PER_SEC : Z := 1000000.
Definition bufSize : Z := 2000.
Definition baseAddr : list byte := bytes "/var/run/pmc.".
(** A MANAGEMENT TLV of an id without a dataField carries none. *)
Definition safe_datagram (d : list byte) : Prop :=
  forall id tn, isEmpty id = true -> in_table id = true ->
    rd16 d 52 = Some (mi_value (mng_all_vals id)) -> rd16 d 50 = Some tn -> tn <= 2.

(** ** What the surroundings promise *)

(** The event that the clients get for a time base, and when the surroundings are
    in order. *)
Class HostView (W : Type) := { host_ok : W -> Prop; event_of : Z -> W -> ptp_event }.
(** A change that leaves the events alone and stops no thread from stopping. *)
Definition kept `{Host W, HostView W} (w w' : W) : Prop :=
  host_ok w' /\ (forall j, event_of j w' = event_of j w) /\
  (forall j, stopThread j w = true -> stopThread j w' = true).
Class HostLaws (W : Type) `{Host W, HostView W} := {
  kept_open i a p w : host_ok w -> kept w (sku_open i a p w).2;
  kept_close i w : host_ok w -> kept w (sku_close i w);
  kept_send i d w : host_ok w -> kept w (sku_send i d w).2;
  kept_poll i w : host_ok w -> kept w (sku_poll i w).2;
  kept_rcv i w : host_ok w -> kept w (sku_rcv i w).2;
  kept_sleep w : host_ok w -> kept w (sleep_100ms w);
  kept_notify i w : host_ok w -> exists w', notify_clients i w = Some w' /\ kept w w';
  copy_ok i e w : host_ok w -> host_ok (copy_event i e w);
  copy_event_of i e w j : host_ok w ->
    event_of j (copy_event i e w) = if j =? i then e else event_of j w;
  copy_stop i e w j : stopThread j (copy_event i e w) = stopThread j w;
  rcv_safe i w d w' : host_ok w -> sku_rcv i w = (Some d, w') -> safe_datagram (take (Z.to_nat bufSize) d)
}.

(** ** Constants *)

(** The TLV that all threads send, from [Client::connect_ptp4l]. *)
Definition eventsTlv : SUBSCRIBE_EVENTS_NP_t :=
  setEvent (setEvent (setEvent (mk_SUBSCRIBE_EVENTS_NP 0xffff (repeat x00 64)) 1) 0) 3.

(** The states of a port. *)
Definition INITIALIZING : Z := 1.
Definition FAULTY : Z := 2.
Definition DISABLED : Z := 3.
Definition LISTENING : Z := 4.
Definition PRE_MASTER : Z := 5.
Definition MASTER : Z := 6.
Definition PASSIVE : Z := 7.
Definition UNCALIBRATED : Z := 8.
Definition SLAVE : Z := 9.

(** [seq] is an [int] and does not reach its limit. *)
Record ptpSet := mk_ptpSet {
  ps_index : Z;
  ps_param : TimeBaseCfg;
  ps_udsAddr : list byte;
  ps_event : ptp_event;
  ps_msg : Message;
  ps_do_notify : bool;
  ps_buf : list byte;
  ps_seq : Z;
  ps_gmIdentity : ClockIdentity_t;
  ps_need_set_action : bool
}.
Definition set_ps_event (v : ptp_event) (s : ptpSet) : ptpSet :=
  mk_ptpSet (ps_index s) (ps_param s) (ps_udsAddr s) v (ps_msg s) (ps_do_notify s) (ps_buf s) (ps_seq s)
    (ps_gmIdentity s) (ps_need_set_action s).
Definition set_ps_msg (v : Message) (s : ptpSet) : ptpSet :=
  mk_ptpSet (ps_index s) (ps_param s) (ps_udsAddr s) (ps_event s) v (ps_do_notify s) (ps_buf s) (ps_seq s)
    (ps_gmIdentity s) (ps_need_set_action s).
Definition set_do_notify (v : bool) (s : ptpSet) : ptpSet :=
  mk_ptpSet (ps_index s) (ps_param s) (ps_udsAddr s) (ps_event s) (ps_msg s) v (ps_buf s) (ps_seq s)
    (ps_gmIdentity s) (ps_need_set_action s).
Definition set_ps_buf (v : list byte) (s : ptpSet) : ptpSet :=
  mk_ptpSet (ps_index s) (ps_param s) (ps_udsAddr s) (ps_event s) (ps_msg s) (ps_do_notify s) v (ps_seq s)
    (ps_gmIdentity s) (ps_need_set_action s).
Definition set_ps_seq (v : Z) (s : ptpSet) : ptpSet :=
  mk_ptpSet (ps_index s) (ps_param s) (ps_udsAddr s) (ps_event s) (ps_msg s) (ps_do_notify s) (ps_buf s) v
    (ps_gmIdentity s) (ps_need_set_action s).
Definition set_gmIdentity (v : ClockIdentity_t) (s : ptpSet) : ptpSet :=
  mk_ptpSet (ps_index s) (ps_param s) (ps_udsAddr s) (ps_event s) (ps_msg s) (ps_do_notify s) (ps_buf s)
    (ps_seq s) v (ps_need_set_action s).
Definition set_need_set_action (v : bool) (s : ptpSet) : ptpSet :=
  mk_ptpSet (ps_index s) (ps_param s) (ps_udsAddr s) (ps_event s) (ps_msg s) (ps_do_notify s) (ps_buf s)
    (ps_seq s) (ps_gmIdentity s) v.

(** The event of the set, field by field. *)
Definition with_offset (v : Z) (e : ptp_event) : ptp_event :=
  mk_ptp_event v (pe_gmClockUUID e) (pe_syncInterval e) (pe_asCapable e) (pe_syncedWithGm e).
Definition with_uuid (v : Z) (e : ptp_event) : ptp_event :=
  mk_ptp_event (pe_clockOffset e) v (pe_syncInterval e) (pe_asCapable e) (pe_syncedWithGm e).
Definition with_interval (v : Z) (e : ptp_event) : ptp_event :=
  mk_ptp_event (pe_clockOffset e) (pe_gmClockUUID e) v (pe_asCapable e) (pe_syncedWithGm e).
Definition with_asCapable (v : bool) (e : ptp_event) : ptp_event :=
  mk_ptp_event (pe_clockOffset e) (pe_gmClockUUID e) (pe_syncInterval e) v (pe_syncedWithGm e).
Definition with_synced (v : bool) (e : ptp_event) : ptp_event :=
  mk_ptp_event (pe_clockOffset e) (pe_gmClockUUID e) (pe_syncInterval e) (pe_asCapable e) v.
Definition on_event (f : ptp_event -> ptp_event) (s : ptpSet) : ptpSet := set_ps_event (f (ps_event s)) s.

(** The loops that put the octets of an identity in a number. *)
Definition uuid_of (d : ClockIdentity_t) : Z :=
  fold_left (fun uuid i => Z.lor uuid (Z.shiftl (b2z (nth i (ci_v d) x00)) (8 * (7 - Z.of_nat i))))
    (seq 0 8) 0.

(** A new set: the identity and the buffer hold anything. *)
Definition ptpSet_new (i : Z) (p : TimeBaseCfg) (uds junk : list byte) (gm : ClockIdentity_t) : ptpSet :=
  mk_ptpSet i p uds zero_ptp_event Message_new false junk 0 gm false.

Definition portDataReset (s : ptpSet) : ptpSet := set_need_set_action true (on_event portDataClear s).
Definition portReset (s : ptpSet) : ptpSet := set_need_set_action true (set_ps_event zero_ptp_event s).

(** A thread: its set, the flag of a lost connection and where it is. *)
Inductive phase := Starting | Polling | Reconnecting | Ended.
Record thread := mk_thread { th_set : ptpSet; th_lost : bool; th_phase : phase }.

Section Thread.
Context `{lib : MacLib} {W : Type} `{Host W}.

(** ** Requests *)

Definition msg_send (st : ptpSet * W) : option (bool * (ptpSet * W)) :=
  let '(s, w) := st in
  '(err, m, b) ← build (ps_msg s) (ps_buf s) bufSize (uwrap 16 (ps_seq s));
  let s := set_ps_buf b (set_ps_msg m s) in
  if negb (bool_decide (err = MNG_PARSE_ERROR_OK)) then Some (false, (s, w))
  else
    let '(ok, w) := sku_send (ps_index s) (take (Z.to_nat (m_msgLen (bld m))) b) w in
    if ok then Some (true, (set_ps_seq (ps_seq s + 1) s, w)) else Some (false, (s, w)).
Definition msg_set_action (id : mng_vals_e) (st : ptpSet * W) : option (bool * (ptpSet * W)) :=
  let '(s, w) := st in
  let '(ok, m) := setAction GET id Null (ps_msg s) in
  if ok then msg_send (set_ps_msg m s, w) else Some (false, (set_ps_msg m s, w)).
Definition event_subscription (st : ptpSet * W) : option (bool * (ptpSet * W)) :=
  let '(s, w) := st in
  let '(ok, m) := setAction SET SUBSCRIBE_EVENTS_NP (Obj (T_SUBSCRIBE_EVENTS_NP eventsTlv)) (ps_msg s) in
  if ok then msg_send (set_ps_msg m s, w) else Some (false, (set_ps_msg m s, w)).

(** ** The call-backs of the dispatcher *)

Definition TIME_STATUS_NP_h (tlv : TIME_STATUS_NP_t) (st : ptpSet * W) : option (ptpSet * W) :=
  let '(s, w) := st in
  let e := with_uuid (uuid_of (tsn_gmIdentity tlv)) (with_offset (tsn_master_offset tlv) (ps_event s)) in
  Some (set_do_notify true (set_gmIdentity (tsn_gmIdentity tlv) (set_ps_event e s)), w).
(** [pow(2.0, n) * USEC_PER_SEC] as an [uint64_t]; the product is exact. *)
Definition sync_usec (n : Z) : Z :=
  if n <? 0 then USEC_PER_SEC / 2 ^ (- n)
  else if USEC_PER_SEC * 2 ^ n <? 2 ^ 64 then USEC_PER_SEC * 2 ^ n
  else conv_overflow n.
Definition LOG_SYNC_INTERVAL_h (tlv : LOG_SYNC_INTERVAL_t) (st : ptpSet * W) : option (ptpSet * W) :=
  let '(s, w) := st in
  let n := lsi_logSyncInterval tlv in
  if negb (swrap 8 (pe_syncInterval (ps_event s)) =? n) then
    Some (set_do_notify true (on_event (with_interval (sync_usec n)) s), w)
  else Some (s, w).
(** The request that a reset makes necessary. *)
Definition need_interval (st : ptpSet * W) : option (ptpSet * W) :=
  if ps_need_set_action st.1 then
    '(_, st) ← msg_set_action LOG_SYNC_INTERVAL st;
    Some (set_need_set_action false st.1, st.2)
  else Some st.
Definition PORT_DATA_SET_h (tlv : PORT_DATA_SET_t) (st : ptpSet * W) : option (ptpSet * W) :=
  let '(s, w) := st in
  let state := ptds_portState tlv in
  let own := clockIdentity (ptds_portIdentity tlv) in
  if existsb (Z.eqb state) [INITIALIZING; FAULTY; DISABLED; LISTENING; PRE_MASTER; PASSIVE; UNCALIBRATED]
  then Some (set_do_notify true (portDataReset s), w)
  else if state =? MASTER then
    if ClockIdentity_eq (ps_gmIdentity s) own then Some (s, w)
    else
      st ← need_interval (set_gmIdentity own (on_event (with_uuid (uuid_of own)) (portDataReset s)), w);
      Some (set_do_notify true st.1, st.2)
  else if state =? SLAVE then
    st ← need_interval (on_event (with_synced true) s, w);
    Some (set_do_notify true st.1, st.2)
  else Some (set_do_notify true s, w).
Definition CMLDS_INFO_NP_h (tlv : CMLDS_INFO_NP_t) (st : ptpSet * W) : option (ptpSet * W) :=
  let '(s, w) := st in
  if portNumber (m_peer (prs (ps_msg s))) =? 0 then Some (s, w)
  else
    let asCapable := 0 <? cin_as_capable tlv in
    if negb (Bool.eqb (pe_asCapable (ps_event s)) asCapable)
    then Some (set_do_notify true (on_event (with_asCapable asCapable) s), w)
    else Some (s, w).

(** A call-back changes the set, which is the object of the dispatcher. *)
Definition on_set (f : ptpSet * W -> option (ptpSet * W)) (o : disp (option (ptpSet * W)))
    : disp (option (ptpSet * W)) :=
  mk_disp (nc o) (st ← app o; f st).
(** The methods that the set does not override. *)
Definition no_callback {S} (c : tlv_case) : @handler_t S c :=
  match c with CaseUF _ _ => None | _ => tt end.
Definition ptp_callbacks : MessageDispatcher (option (ptpSet * W)) := {|
  on_tlv id :=
    match id as i return handler_t (tlv_case_of i) with
    | TIME_STATUS_NP => Some (fun _ tlv _ => on_set (TIME_STATUS_NP_h tlv))
    | PORT_DATA_SET => Some (fun _ tlv _ => on_set (PORT_DATA_SET_h tlv))
    | CMLDS_INFO_NP => Some (fun _ tlv _ => on_set (CMLDS_INFO_NP_h tlv))
    | LOG_SYNC_INTERVAL => Some (fun _ tlv _ => on_set (LOG_SYNC_INTERVAL_h tlv))
    | i => no_callback (tlv_case_of i)
    end;
  noTlv _ o := o;
  noTlvCallBack _ _ o := o
|}.

(** ** The thread *)

(** The copy of the event for the clients, and their notification. *)
Definition notify (st : ptpSet * W) : option (ptpSet * W) :=
  let i := ps_index st.1 in
  w ← notify_clients i (copy_event i (ps_event st.1) st.2); Some (st.1, w).
Definition stopped (st : ptpSet * W) : bool := stopThread (ps_index st.1) st.2.
Definition event_handle (st : ptpSet * W) : option (ptpSet * W) :=
  if stopped st then Some st
  else
    let s := set_do_notify false st.1 in
    o ← callHadler ptp_callbacks (ps_msg s) (mk_disp false (Some (s, st.2)));
    st ← app o;
    if stopped st then Some st else if ps_do_notify st.1 then notify st else Some st.

(** What is before the loops. *)
Definition start_round (st : ptpSet * W) (lost : bool) : option (thread * W) :=
  if stopped st then Some (mk_thread st.1 lost Ended, st.2)
  else
    '(ok, st) ← event_subscription st;
    if (ok : bool) then
      '(_, st) ← msg_set_action TIME_STATUS_NP st;
      '(_, st) ← msg_set_action PORT_DATA_SET st;
      '(_, st) ← msg_set_action LOG_SYNC_INTERVAL st;
      Some (mk_thread st.1 lost Polling, st.2)
    else Some (mk_thread st.1 true Polling, st.2).

(** What [rcv] leaves in the buffer and its count; a longer datagram is cut. *)
Definition received (d buf : list byte) : list byte * Z :=
  let d := take (Z.to_nat bufSize) d in (d ++ drop (length d) buf, len d).
(** A round of the loop over the events. *)
Definition poll_round (st : ptpSet * W) (lost : bool) : option (thread * W) :=
  let '(s, w) := st in
  if stopped (s, w) then Some (mk_thread s lost Ended, w)
  else
    let '(ret, w) := sku_poll (ps_index s) w in
    if stopped (s, w) then Some (mk_thread s lost Ended, w)
    else if ret then
      let '(d, w) := sku_rcv (ps_index s) w in
      match d with
      | None => Some (mk_thread s lost Polling, w)
      | Some d =>
          let '(buf, cnt) := received d (ps_buf s) in
          let s := set_ps_buf buf s in
          if 0 <? cnt then
            '(err, m) ← parse (ps_msg s) buf cnt;
            let s := set_ps_msg m s in
            if bool_decide (err = MNG_PARSE_ERROR_OK) then
              st ← event_handle (s, w); Some (mk_thread st.1 lost Polling, st.2)
            else Some (mk_thread s lost Polling, w)
          else Some (mk_thread s lost Polling, w)
      end
    else Some (mk_thread s lost Reconnecting, w).

(** The loop that waits 5 seconds in 50 parts. *)
Fixpoint wait_retry (n : nat) (i : Z) (w : W) : W :=
  match n with
  | O => w
  | S n => if stopThread i w then w else wait_retry n i (sleep_100ms w)
  end.
(** A round of the loop that tries to connect again. *)
Definition reconnect_round (st : ptpSet * W) (lost : bool) : option (thread * W) :=
  if stopped st then Some (mk_thread st.1 lost Ended, st.2)
  else
    '(ok, st) ← event_subscription st;
    if (ok : bool) then Some (mk_thread st.1 false Polling, st.2)
    else if lost
    then Some (mk_thread st.1 true Reconnecting, wait_retry 50 (ps_index st.1) st.2)
    else
      let st := (portReset st.1, st.2) in
      if stopped st then Some (mk_thread st.1 true Ended, st.2)
      else
        st ← notify st;
        Some (mk_thread st.1 true Reconnecting, wait_retry 50 (ps_index st.1) st.2).

Definition round (t : thread) (w : W) : option (thread * W) :=
  match th_phase t with
  | Starting => start_round (th_set t, w) (th_lost t)
  | Polling => poll_round (th_set t, w) (th_lost t)
  | Reconnecting => reconnect_round (th_set t, w) (th_lost t)
  | Ended => Some (t, w)
  end.
(** [thread_loop], for a number of rounds. *)
Fixpoint rounds (n : nat) (t : thread) (w : W) : option (thread * W) :=
  match n with O => Some (t, w) | S n => '(t, w) ← round t w; rounds n t w end.
Definition thread_new (s : ptpSet) : thread := mk_thread s false Starting.
Definition thread_loop (n : nat) (s : ptpSet) (w : W) : option (thread * W) := rounds n (thread_new s) w.

(** ** The service: a thread for each time base *)

Definition ptp_params (p : TimeBaseCfg) (prms : MsgParams) : MsgParams :=
  set_domainNumber (ClkConfig.domainNumber p)
    (set_transportSpecific (ClkConfig.transportSpecific p) prms).
(** [sku_open] is the three calls on the socket. *)
Definition ptpSet_init (s : ptpSet) (w : W) : bool * (ptpSet * W) :=
  let addr := baseAddr ++ to_string (ClkConfig.domainNumber (ps_param s)) in
  let '(ok, w) := sku_open (ps_index s) addr (ps_udsAddr s) w in
  if ok then
    let '(ok, m) := updateParams (ptp_params (ps_param s) (m_prms (ps_msg s))) (ps_msg s) in
    (ok, (set_ps_msg m s, w))
  else (false, (s, w)).

Definition isValid (cfg : TimeBaseCfgFull) : bool := negb (bool_decide (udsAddrPtp4l cfg = [])).
(** A new set; [memory] is what its uninitialised members hold.  The constructor
    of its event copies the zeros. *)
Definition ptpSet_alloc (memory : Z -> list byte * ClockIdentity_t) (cfg : TimeBaseCfgFull) : ptpSet :=
  let i := timeBaseIndex (base cfg) in
  ptpSet_new i (base cfg) (udsAddrPtp4l cfg) (memory i).1 (memory i).2.
Definition alloc_all (memory : Z -> list byte * ClockIdentity_t) (cfgs : list TimeBaseCfgFull) (w : W)
    : list (Z * ptpSet) * W :=
  foldl (fun '(l, w) cfg =>
           if isValid cfg then
             let s := ptpSet_alloc memory cfg in
             (set (ps_index s) s l, copy_event (ps_index s) (ps_event s) w)
           else (l, w)) ([], w) cfgs.
Fixpoint init_all (l : list (Z * ptpSet)) (w : W) : bool * (list (Z * ptpSet) * W) :=
  match l with
  | [] => (true, ([], w))
  | (i, s) :: r =>
      let '(ok, (s, w)) := ptpSet_init s w in
      if ok then
        let '(ok, (r, w)) := init_all r w in (ok, ((i, s) :: r, w))
      else (false, ((i, s) :: r, w))
  end.
Definition close_all (l : list (Z * ptpSet)) (w : W) : W := foldl (fun w it => sku_close it.1 w) w l.
(** The threads that are started, none when the initialisation fails. *)
Definition registerSrv (memory : Z -> list byte * ClockIdentity_t) (cfgs : list TimeBaseCfgFull) (w : W)
    : bool * (list (Z * thread) * W) :=
  let '(l, w) := alloc_all memory cfgs w in
  let '(ok, (l, w)) := init_all l w in
  if ok then (true, (map (fun it => (it.1, thread_new it.2)) l, w)) else (false, ([], close_all l w)).
(** [finalize], once the threads ended. *)
Definition srv_finalize (threads : list (Z * thread)) (w : W) : list (Z * thread) * W :=
  ([], close_all (map (fun it => (it.1, th_set it.2)) threads) w).
End Thread.

(** ** Changes of the surroundings *)

Section Kept.
Context {W : Type} `{Host W, HostView W}.
Lemma host_kept_refl w : host_ok w -> kept w w.
Proof. by intros O. Qed.
Lemma host_kept_trans w1 w2 w3 : kept w1 w2 -> kept w2 w3 -> kept w1 w3.
Proof.
  intros (O1 & E1 & S1) (O2 & E2 & S2). split; [done|]. split; [|by auto].
  intros j. by rewrite E2, E1.
Qed.
End Kept.
