(* ===== verification/ClkPtp4lHost.v ===== *)
(** * ClkPtp4lHost.v: the threads in the proxy

    The surroundings of the threads that follow ptp4l are the proxy of ClkProxy.v,
    which publishes their events, and their sockets.  The messages of clients,
    which another thread handles, leave the events alone. *)

From S2P Require Import Prelude CStr Types ClkEvent ClkConfig ClkMsg ClkProxy Ids MngTlvs Auth.
From S2P Require Import Message ParseSafe ParseFacts ClkPtp4l.

#[local] Open Scope list_scope.
#[local] Open Scope clk_scope.

(** ** Programs that keep the events *)

(** The invariant of the proxy, and its events. *)
Definition events_kept (p p' : Proxy) : Prop :=
  proxy_inv p' /\ forall j, getPTPEvent j p' = getPTPEvent j p /\ getChronyEvent j p' = getChronyEvent j p.
Definition keeps {A} (m : Io Proxy A) : Prop :=
  forall s r s', proxy_inv s.1 -> m s = Some (r, s') -> events_kept s.1 s'.1.

Lemma events_refl p : proxy_inv p -> events_kept p p.
Proof. by intros I. Qed.
Lemma events_trans p1 p2 p3 : events_kept p1 p2 -> events_kept p2 p3 -> events_kept p1 p3.
Proof.
  intros [_ E1] [I E2]. split; [done|]. intros j. destruct (E1 j) as [<- <-]. exact (E2 j).
Qed.

Lemma keeps_ret {A} (a : A) : keeps (ioret a).
Proof. by intros s r s' I [= _ <-]. Qed.
Lemma keeps_fail {A} : keeps (@iofail Proxy A).
Proof. by intros s r s' I [= _ <-]. Qed.
Lemma keeps_bind {A C} (m : Io Proxy A) (k : A -> Io Proxy C) :
  keeps m -> (forall a, keeps (k a)) -> keeps (iobind m k).
Proof.
  intros M K s r s' I E. unfold iobind in E. destruct (m s) as [[[a|] s1]|] eqn:E1; [| |done].
  - pose proof (M _ _ _ I E1) as K1. eapply events_trans; [exact K1|]. by apply (K a _ _ _ (proj1 K1) E).
  - injection E as _ <-. by apply (M _ _ _ I E1).
Qed.
Lemma keeps_buffer f : keeps (on_buffer f).
Proof. by intros s r s' I [= _ <-]. Qed.
Lemma keeps_PARSE n : keeps (PARSE_RX n).
Proof. intros s r s' I E. unfold PARSE_RX in E. by repeat case_match; simplify_eq. Qed.
Lemma keeps_WRITE l : keeps (WRITE_TX l).
Proof. intros s r s' I E. unfold WRITE_TX in E. by repeat case_match; simplify_eq. Qed.
(** A state that is put is one that keeps the events of the state read before. *)
Lemma keeps_get {C} (k : Proxy -> Io Proxy C) :
  (forall p b r s', proxy_inv p -> k p (p, b) = Some (r, s') -> events_kept p s'.1) -> keeps (iobind get_state k).
Proof. intros K [p b] r s' I E. by apply (K p b r s'). Qed.
Create HintDb keeps.
#[export] Hint Resolve keeps_ret keeps_fail keeps_bind keeps_buffer keeps_PARSE keeps_WRITE : keeps.
Lemma keeps_write_all ls : keeps (write_all ls).
Proof. induction ls; cbn; auto with keeps. Qed.
#[export] Hint Resolve keeps_write_all : keeps.

Lemma get_map {A} (f : A -> A) i (m : list (Z * A)) : get i (map (fun b => (b.1, f b.2)) m) = f <$> get i m.
Proof. induction m as [|[j a] m IH]; [done|]. cbn. by destruct (i =? j). Qed.
Lemma get_removed s p j : getPTPEvent j (removeClient s p) = getPTPEvent j p /\
  getChronyEvent j (removeClient s p) = getChronyEvent j p.
Proof. unfold getPTPEvent, getChronyEvent, removeClient. cbn. rewrite get_map. by destruct (get j _). Qed.
Lemma get_all_removed l p : proxy_inv p -> events_kept p (foldl (fun p s => removeClient s p) p l).
Proof.
  revert p. induction l as [|s l IH]; intros p I; [done|]. cbn.
  eapply events_trans; [|by apply IH, removeClient_inv]. split; [by apply removeClient_inv|].
  intros j. apply get_removed.
Qed.
Lemma get_subscribed i s p : proxy_inv p -> events_kept p (subscribe i s p).2.
Proof.
  intros I. split; [by apply subscribe_inv|]. intros j. unfold subscribe. destruct (get i (timeBaseDataMap p)) as [d|] eqn:G; [|done].
  destruct (_ || _); [done|]. destruct (mem _ _); [done|]. unfold getPTPEvent, getChronyEvent. cbn.
  rewrite get_set_key by apply I. destruct (Z.eqb_spec j i) as [->|]; [|done]. by rewrite G.
Qed.

Section Listener.
Context `{Queues} `{Padding}.

Lemma keeps_makeBuffer m : keeps (makeBuffer m).
Proof.
  unfold makeBuffer. cbn [makeBufferTail proxy_side]. repeat (apply keeps_bind; [auto with keeps|intros _]).
  apply keeps_get. intros p b r s' I E.
  assert (forall k : Io Proxy unit, keeps k -> k (p, b) = Some (r, s') -> events_kept p s'.1) as K.
  { intros k Hk. by apply (Hk (p, b)). }
  revert E. apply K. unfold ProxyConnectMessage_make, ProxySubscribeMessage_make, ProxyNotificationMessage_make.
  destruct (msgId m); auto 6 with keeps.
Qed.
Lemma connect_events s id p r p' : proxy_inv p -> connect s id p = Some (r, p') -> events_kept p p'.
Proof.
  intros I E. split; [by eapply connect_inv|]. intros j. unfold connect, CreateClientSession in E.
  destruct (negb _); [by simplify_eq|]. destruct (free_session _ _ _); [|done]. cbn in E.
  destruct (negb _); by simplify_eq.
Qed.
Lemma keeps_tail m : keeps (proxy_parseBufferTail m).
Proof.
  unfold proxy_parseBufferTail. apply keeps_get. intros p b r s' I E.
  destruct (msgId m); unfold ProxyConnectMessage_parse, ProxySubscribeMessage_parse, ProxyDisconnectMessage_parse in E.
  - destruct (connect _ _ p) as [[s p']|] eqn:C; [|done]. pose proof (connect_events _ _ _ _ _ I C) as K.
    unfold iobind, put_state in E. cbn in E. destruct (_ =? _); by injection E as _ <-.
  - pose proof (get_subscribed (msg_index m) (m_sessionId m) p I) as K.
    destruct (subscribe _ _ p) as [ok p']. unfold iobind, put_state in E. cbn in E, K.
    destruct ok; by injection E as _ <-.
  - by injection E as _ <-.
  - injection E as _ <-. by apply (get_all_removed [m_sessionId m]).
Qed.
Lemma keeps_parseBuffer : keeps parseBuffer.
Proof.
  unfold parseBuffer, parseBufferComm, ConnectMessage_parse, SubscribeMessage_parse, NotificationMessage_parse,
    DisconnectMessage_parse.
  apply keeps_bind; [auto with keeps|]. intros id. destruct (msgId_of _) as [i|]; [|auto with keeps].
  destruct (registered i); [|auto with keeps]. apply keeps_bind; [auto with keeps|]. intros ack.
  apply keeps_bind; [|apply keeps_tail]. destruct (msgId _); auto 8 with keeps.
Qed.
(** The messages of clients keep the events. *)
Lemma keeps_listener msg : keeps (MqListenerWork msg).
Proof.
  unfold MqListenerWork. case_bool_decide; [auto with keeps|]. apply keeps_bind; [auto with keeps|]. intros _.
  apply keeps_bind; [apply keeps_parseBuffer|]. intros m. destruct (_ =? _); [auto with keeps|].
  apply keeps_bind; [apply keeps_makeBuffer|]. intros _. apply keeps_get. intros p b r s' I E.
  destruct (_ && _); by injection E as _ <-.
Qed.
Lemma keeps_then {A} (m : Io Proxy unit) (f : Proxy * Buffer -> A) p q b r s' :
  proxy_inv p -> keeps m -> events_kept p q ->
  (m ;;; put_state q ;;; (fun s => Some (Some (f s), s))) (p, b) = Some (r, s') -> events_kept p s'.1.
Proof.
  intros I M K E. unfold iobind at 1 in E. destruct (m (p, b)) as [[[u|] [p1 b1]]|] eqn:E1; [| |done].
  - by injection E as _ <-.
  - injection E as _ <-. exact (M (p, b) _ _ I E1).
Qed.
Lemma keeps_notify i t : keeps (notifyClients i t).
Proof.
  unfold notifyClients. apply keeps_get. intros p b r s' I. destruct (get _ _) as [d|]; [|by intros [= _ <-]].
  apply keeps_then; [done|apply keeps_makeBuffer|by apply get_all_removed].
Qed.
Lemma keeps_disconnect : keeps notifyDisconnect.
Proof.
  unfold notifyDisconnect. apply keeps_bind; [apply keeps_makeBuffer|]. intros _. apply keeps_get.
  intros p b r s' I E. injection E as _ <-. by apply get_all_removed.
Qed.
End Listener.

(** ** The proxy and the sockets *)

(** The part of the surroundings that is outside of the proxy. *)
Class Sockets (N : Type) := {
  net_stop : Z -> N -> bool;
  net_open : Z -> list byte -> list byte -> N -> bool * N;
  net_close : Z -> N -> N;
  net_send : Z -> list byte -> N -> bool * N;
  net_poll : Z -> N -> bool * N;
  net_rcv : Z -> N -> option (list byte) * N;
  net_sleep : N -> N;
  net_conv : Z -> Z
}.
(** Once a thread is to stop it stays so, and the peer sends safe datagrams. *)
Definition stop_kept {N : Type} `{Sockets N} (n n' : N) : Prop := forall j, net_stop j n = true -> net_stop j n' = true.
Class SocketLaws (N : Type) `{Sockets N} := {
  stop_open i a p n : stop_kept n (net_open i a p n).2;
  stop_close i n : stop_kept n (net_close i n);
  stop_send i d n : stop_kept n (net_send i d n).2;
  stop_poll i n : stop_kept n (net_poll i n).2;
  stop_rcv i n : stop_kept n (net_rcv i n).2;
  stop_sleep n : stop_kept n (net_sleep n);
  net_safe i n d n' : net_rcv i n = (Some d, n') -> safe_datagram (take (Z.to_nat bufSize) d)
}.

Section Proxy.
Context {N : Type} `{Sockets N} `{Queues} `{Padding}.

(** The buffer of the notifications of a thread: any buffer, each is built anew. *)
Context (notifyBuff : Buffer) (notifyBuff_ok : tx_ok notifyBuff).

#[global] Instance proxy_host : Host (Proxy * N) := {|
  stopThread i w := net_stop i w.2;
  sku_open i a p w := let '(ok, n) := net_open i a p w.2 in (ok, (w.1, n));
  sku_close i w := (w.1, net_close i w.2);
  sku_send i d w := let '(ok, n) := net_send i d w.2 in (ok, (w.1, n));
  sku_poll i w := let '(ok, n) := net_poll i w.2 in (ok, (w.1, n));
  sku_rcv i w := let '(d, n) := net_rcv i w.2 in (d, (w.1, n));
  sleep_100ms w := (w.1, net_sleep w.2);
  copy_event i e w := (ptpEvent_copy i e w.1, w.2);
  notify_clients i w := '(_, s) ← notifyClients i PTPClock (w.1, notifyBuff); Some (s.1, w.2);
  conv_overflow := net_conv
|}.
#[global] Instance proxy_view : HostView (Proxy * N) := {|
  host_ok w := proxy_inv w.1;
  event_of i w := getPTPEvent i w.1
|}.

Lemma kept_net (p : Proxy) (n n' : N) : proxy_inv p -> stop_kept n n' -> kept (p, n) (p, n').
Proof. intros I S. split; [done|]. by split. Qed.
(** What keeps the events of the proxy is no concern of the threads. *)
Lemma kept_proxy (p p' : Proxy) (n : N) : events_kept p p' -> kept (p, n) (p', n).
Proof. intros [I E]. split; [done|]. split; [|done]. intros j. apply E. Qed.

#[global] Instance proxy_laws {SL : SocketLaws N} : HostLaws (Proxy * N).
Proof.
  split; intros; repeat match goal with w : Proxy * N |- _ => destruct w as [? ?] end;
    cbn -[notifyClients ptpEvent_copy getPTPEvent] in *.
  - pose proof (stop_open i a p n). destruct (net_open _ _ _ _). by apply kept_net.
  - by apply kept_net, stop_close.
  - pose proof (stop_send i d n). destruct (net_send _ _ _). by apply kept_net.
  - pose proof (stop_poll i n). destruct (net_poll _ _). by apply kept_net.
  - pose proof (stop_rcv i n). destruct (net_rcv _ _). by apply kept_net.
  - by apply kept_net, stop_sleep.
  - destruct (notifyClients_ok i PTPClock p notifyBuff) as (r & p' & b' & E & _); [done..|].
    rewrite E. cbn. exists (p', n). split; [done|]. apply kept_proxy. by apply keeps_notify in E.
  - by apply (events_inv i e zero_chrony_event).
  - unfold getPTPEvent, ptpEvent_copy. cbn. rewrite get_set_key by (match goal with I : proxy_inv _ |- _ => apply I end).
    by destruct (j =? i).
  - done.
  - match goal with E : (let '(_, _) := net_rcv ?i ?n in _) = _ |- _ =>
      destruct (net_rcv i n) as [d1 n1] eqn:R; injection E as -> _ _ end.
    exact (net_safe _ _ _ _ R).
Qed.

(** A message of a client is one of the things that happen around the threads. *)
Lemma listener_kept (Q : Queues) (p p' : Proxy) b b' r (n : N) msg :
  proxy_inv p -> MqListenerWork msg (p, b) = Some (r, (p', b')) -> kept (p, n) (p', n).
Proof. intros I E. apply kept_proxy. by apply keeps_listener in E. Qed.
End Proxy.

(** ** An example *)

(** A ptp4l that answers everything with the state of the time, while it runs. *)
Definition time_status_octets : list byte :=
  demo_msg 2 (be_enc 2 1 ++ be_enc 2 52 ++ be_enc 2 0xc000 ++
    be_enc 8 (uwrap 64 (-42)) ++ repeat x00 34 ++
    [x01; x02; x03; x04; x05; x06; x07; x08]).
Record demo_net := mk_demo_net { dn_runs : bool; dn_sent : list (list byte) }.
#[global] Instance demo_sockets : Sockets demo_net := {|
  net_stop i n := false;
  net_open i a p n := (true, n);
  net_close i n := n;
  net_send i d n := (dn_runs n, mk_demo_net (dn_runs n) (if dn_runs n then dn_sent n ++ [d] else dn_sent n));
  net_poll i n := (dn_runs n, n);
  net_rcv i n := (if dn_runs n then Some time_status_octets else None, n);
  net_sleep n := n;
  net_conv n := 0
|}.
Lemma time_status_safe : safe_datagram time_status_octets.
Proof.
  intros id tn E T V _. assert (mi_value (mng_all_vals id) = 0xc000) as F.
  { assert (rd16 time_status_octets 52 = Some 0xc000) as R by (vm_compute; reflexivity).
    rewrite R in V. by injection V. }
  exfalso. clear V. destruct id; (discriminate F || discriminate E || discriminate T).
Qed.
#[global] Instance demo_socket_laws : SocketLaws demo_net.
Proof.
  split; try done. intros i n d n' E.
  assert (d = time_status_octets) as -> by (cbn [net_rcv demo_sockets] in E; destruct (dn_runs n); congruence).
  replace (take (Z.to_nat bufSize) time_status_octets) with time_status_octets by (vm_compute; reflexivity).
  apply time_status_safe.
Qed.
