(* ===== verification/ClkPtp4lFacts.v ===== *)
(** * ClkPtp4lFacts.v: the proxy follows ptp4l

    A round of a thread does not fault while the datagrams it receives are safe,
    and after it the published event of the time base is the one of the thread.
    What the replies of ptp4l and a lost connection do to the event. *)

From S2P Require Import Prelude CStr Types Ids Names MsgProc Codec Structs MngTlvs MngTlvsSpec.
From S2P Require Import Dispatch ClkEvent ClkConfig ClkMsg ClkProxy Text SigTlvs Auth Message.
From S2P Require Import ParseSafe MessageInv ParseFacts SigFacts BuildFacts MsgCall ClkPtp4l.
From S2P Require Import ClkPtp4lHost.

#[local] Open Scope list_scope.

(** ** The received data *)

Section Received.
Context `{lib : MacLib}.

(** What a message of [n] octets does to the data: an indeterminate pointer only
    comes from an id without a dataField. *)
Definition data_after (m m' : Message) (buf : list byte) (n : Z) : Prop :=
  m_dataGet (prs m') = m_dataGet (prs m) \/ (exists t, m_dataGet (prs m') = Obj t) \/
  exists id tn, isEmpty id = true /\ in_table id = true /\ 2 < tn <= n - 52 /\
    rd16 buf 52 = Some (mi_value (mng_all_vals id)) /\ rd16 buf 50 = Some tn.

Lemma parseMngTlv_dataGet m buf ty act tn n e m' :
  0 <= tn <= n - 52 -> n <= len buf -> rd16 buf 50 = Some tn ->
  parseMngTlv m buf ty act tn MNG_PARSE_ERROR_OK = Some (e, m') -> data_after m m' buf n.
Proof.
  intros H0 Hl R E. destruct (bool_decide_reflect (e = MNG_PARSE_ERROR_OK)) as [->|N].
  - destruct (parseMngTlv_ok m buf ty act tn _ m' ltac:(lia) ltac:(lia) E) as (_ & _ & _ & _ & Ht & Rv & D).
    destruct D as [[_ ?]|[(_ & _ & V)|(L & Em & _)]]; [by left| |].
    + right; left. destruct (m_dataGet (prs m')); [done..|by eexists].
    + right; right. exists (m_replayTlv_id (prs m')), tn. by repeat (split; [done || lia|]).
  - unfold parseMngTlv in E. cbv zeta in E.
    repeat match type of E with
    | (if ?b then _ else _) = Some _ => destruct b eqn:?
    | mbind _ ?e = Some _ => destruct e as [?|] eqn:?; [cbn [mbind option_bind] in E|done]
    | (let '(_, _) := ?p in _) = Some _ => destruct p
    | match ?x with _ => _ end = Some _ => destruct x eqn:?
    end; simplify_eq; try (by left); right; left; by eexists.
Qed.

Lemma rd16_nonneg buf off v : rd16 buf off = Some v -> 0 <= v.
Proof.
  unfold rd16, rd. destruct (load buf off _) as [bs|]; [|done]. intros [= <-]. pose proof (be_dec_range bs). lia.
Qed.

Lemma parseMng_dataGet m buf n e m' :
  m_haveAuth (auth m) = false -> n <= len buf -> parseMng m buf n = Some (e, m') ->
  data_after m m' buf n.
Proof.
  intros Ha Hn E. unfold parseMng in E. cbv zeta in E.
  destruct (rd8 buf 46) as [act|]; [|done]. cbn [mbind option_bind] in E.
  destruct (negb _); [left; by simplify_eq|].
  destruct (rd16 buf 48) as [ty|]; [|done]. cbn [mbind option_bind] in E.
  destruct (rd16 buf 50) as [tn|] eqn:R; [|done]. cbn [mbind option_bind] in E.
  change mngMsgMinSize with 52 in E. pose proof (rd16_nonneg _ _ _ R).
  destruct ((n - 52 <? tn) || Z.odd tn) eqn:B; [left; by simplify_eq|].
  cbn [auth set_prs] in E. rewrite Ha in E. cbn [andb] in E.
  exact (parseMngTlv_dataGet _ buf ty _ tn n e m' ltac:(lia) Hn R E).
Qed.

Lemma parse_dataGet m buf n e m' :
  m_haveAuth (auth m) = false -> rcvSignaling (m_prms m) = false -> n <= len buf ->
  parse m buf n = Some (e, m') ->
  data_after m m' buf n.
Proof.
  intros Ha Hs Hn E. unfold parse in E. cbv zeta in E.
  destruct (n <? sigBaseSize); [left; by simplify_eq|].
  destruct (rd16 buf 2) as [sz|]; [|done]. cbn [mbind option_bind] in E.
  destruct (Z.ltb_spec n sz); [left; by simplify_eq|].
  destruct (rd8 buf 0) as [b0|]; [|done]. cbn [mbind option_bind] in E.
  change (m_prms (set_prs _ m)) with (m_prms m) in E. rewrite Hs in E.
  destruct (_ =? Signaling) eqn:T; cbn [andb negb] in E; [left; by simplify_eq|].
  destruct (_ && _); [left; by simplify_eq|]. destruct (negb _); [left; by simplify_eq|].
  destruct (parseHeader _ _) as [[g p]|] eqn:Hd; [|done]. cbn [mbind option_bind] in E.
  apply parseHeader_reply in Hd as [D _]. unfold reply in D. injection D as _ _ D _ _. cbn in D.
  destruct (negb g); [left; by simplify_eq|].
  destruct (parseMng_dataGet (set_prs p m) buf sz e m' Ha ltac:(lia) E) as [K|[K|(id & tn & K1 & K2 & K3 & K4)]].
  - left. by rewrite K.
  - by right; left.
  - right; right. exists id, tn. by repeat (split; [done || lia|]).
Qed.

(** The data that a datagram leaves is set. *)
Lemma parse_keeps_data m d rest e m' :
  m_haveAuth (auth m) = false -> rcvSignaling (m_prms m) = false -> safe_datagram d ->
  parse m (d ++ rest) (len d) = Some (e, m') ->
  m_dataGet (prs m) <> Unset -> m_dataGet (prs m') <> Unset.
Proof.
  intros Ha Hs Sd E U. assert (len d <= len (d ++ rest)) as Hn by (rewrite len_app; pose proof (len_nonneg rest); lia).
  destruct (parse_dataGet m (d ++ rest) (len d) e m' Ha Hs Hn E) as [->|[[t ->]|K]]; [done..|].
  destruct K as (id & tn & Em & Ht & L & R1 & R2). unfold rd16 in *. rewrite rd_before in R1, R2 by lia.
  pose proof (Sd id tn Em Ht R1 R2). lia.
Qed.
End Received.

(** ** The state of a set *)

Record set_inv (s : ptpSet) : Prop := mk_set_inv {
  si_len : len (ps_buf s) = bufSize;
  si_send : send_inv (bld (ps_msg s));
  si_display : display_inv (prs (ps_msg s));
  si_auth : auth (ps_msg s) = auth Message_new;
  si_prms : m_prms (ps_msg s) = ptp_params (ps_param s) MsgParams_default;
  si_param : 0 <= ClkConfig.transportSpecific (ps_param s) <= 15 /\ uint 8 (ClkConfig.domainNumber (ps_param s));
  si_data : m_dataGet (prs (ps_msg s)) <> Unset
}.

(** The members that only the messages change. *)
Definition frame (s s' : ptpSet) : Prop :=
  s' = set_ps_seq (ps_seq s') (set_ps_buf (ps_buf s') (set_ps_msg (ps_msg s') s)).
Lemma frame_refl s : frame s s.
Proof. by destruct s. Qed.
Lemma frame_trans s1 s2 s3 : frame s1 s2 -> frame s2 s3 -> frame s1 s3.
Proof. unfold frame. intros E1 E2. rewrite E2, E1. reflexivity. Qed.

Lemma wf_ptp_params p :
  0 <= ClkConfig.transportSpecific p <= 15 -> uint 8 (ClkConfig.domainNumber p) ->
  wf_MsgParams (ptp_params p MsgParams_default).
Proof.
  intros H1 H2. unfold wf_MsgParams, ptp_params; cbn. unfold uint in *.
  repeat (split; [done || lia|]); try lia; try by vm_compute.
Qed.

Section Thread.
Context `{lib : MacLib} {laws : MacLaws lib} {W : Type} `{HL : HostLaws W}.

(** ** Requests *)

Lemma set_can_build s : set_inv s -> wf_send (ps_msg s) -> can_build (ps_msg s).
Proof.
  intros I Wf. destruct (si_param s I). split; [apply I|]. split; [done|].
  rewrite (si_prms s I), (si_auth s I). split; [by apply wf_ptp_params|].
  split; [apply map_Forall_empty|]. intros U. unfold useAuthTlv in U. rewrite (si_auth s I) in U. done.
Qed.

(** What is sent: the octets of the request in the message. *)
Definition request (s : ptpSet) (out : list byte) : Prop :=
  exists data, data_field (ps_msg s) data /\
    message (ps_msg s) (uwrap 16 (ps_seq s)) (getMsgPlanedLen (ps_msg s)) data out.

(** One datagram is sent, and the set is in order for the next one. *)
Definition sends (q : list byte -> Prop) (s : ptpSet) (w : W) (r : option (bool * (ptpSet * W))) : Prop :=
  exists s' out, q out /\ set_inv s' /\ frame s s' /\
    let '(ok, w') := sku_send (ps_index s) out w in
    r = Some (ok, (s', w')) /\ ps_seq s' = if ok then ps_seq s + 1 else ps_seq s.

Lemma msg_send_ok s w :
  set_inv s -> wf_send (ps_msg s) -> getMsgPlanedLen (ps_msg s) <= bufSize ->
  sends (request s) s w (msg_send (s, w)).
Proof.
  intros I Wf Hp. pose proof (set_can_build s I Wf) as C. pose proof (si_len s I) as L.
  destruct (build_octets (ps_msg s) (ps_buf s) bufSize (uwrap 16 (ps_seq s)) C) as [_ B]; [lia|].
  destruct (B Hp) as (data & out & DF & Ms & Lo & E).
  set (m := built (ps_msg s) (len out)) in *. set (b := out ++ drop (length out) (ps_buf s)) in *.
  set (s1 := set_ps_buf b (set_ps_msg m s)).
  assert (take (Z.to_nat (m_msgLen (bld m))) b = out) as T.
  { change (m_msgLen (bld m)) with (len out). rewrite to_nat_len. apply take_app_length. }
  assert (set_inv s1) as I1.
  { destruct I as [I1 I2 I3 I4 I5 I6 I7]. split; try done; cbn [s1 ps_buf ps_msg set_ps_buf set_ps_msg].
    - unfold b. rewrite len_app. pose proof (len_nonneg out). unfold len in *. rewrite length_drop. lia.
    - by apply (build_inv _ _ _ _ _ _ _ E). }
  unfold msg_send. rewrite E. cbn [mbind option_bind]. rewrite bool_decide_eq_true_2 by done. cbn [negb].
  fold s1. change (ps_index s1) with (ps_index s). rewrite T.
  destruct (sku_send (ps_index s) out w) as [ok w'] eqn:Es.
  exists (if ok then set_ps_seq (ps_seq s1 + 1) s1 else s1), out.
  split; [by exists data|]. split; [|split; [by destruct ok, s|rewrite Es; split; by destruct ok]].
  destruct ok; [|done]. by destruct I1.
Qed.

Definition get_request (id : mng_vals_e) (s : ptpSet) : list byte -> Prop :=
  request (set_ps_msg (setAction GET id Null (ps_msg s)).2 s).
Definition subscribe_request (s : ptpSet) : list byte -> Prop :=
  request (set_ps_msg (setAction SET SUBSCRIBE_EVENTS_NP (Obj (T_SUBSCRIBE_EVENTS_NP eventsTlv)) (ps_msg s)).2 s).

Lemma set_inv_action s m : set_inv s -> send_inv (bld m) -> prs m = prs (ps_msg s) ->
  m_prms m = m_prms (ps_msg s) -> auth m = auth (ps_msg s) -> set_inv (set_ps_msg m s).
Proof.
  intros [I1 I2 I3 I4 I5 I6 I7] B E1 E2 E3. split; cbn; try done; by rewrite ?E1, ?E2, ?E3.
Qed.
Lemma sends_frame q s m w r : sends q (set_ps_msg m s) w r -> sends q s w r.
Proof.
  intros (s' & out & Q & I & F & R). exists s', out. split; [done|]. split; [done|]. split; [|done].
  unfold frame in *. by rewrite F.
Qed.

Lemma ptp_spec s : set_inv s -> implementSpecific (m_prms (ps_msg s)) = linuxptp /\ useZeroGet (m_prms (ps_msg s)) = true.
Proof. intros I. by rewrite (si_prms s I). Qed.

Lemma msg_set_action_ok id s w :
  set_inv s -> allowedAction linuxptp id GET = true ->
  sends (get_request id s) s w (msg_set_action id (s, w)).
Proof.
  intros I A. destruct (ptp_spec s I) as [Sp Uz]. unfold msg_set_action, get_request.
  pose proof (setAction_cases GET id Null (ps_msg s)) as E. cbv zeta in E. rewrite Sp, A in E.
  cbn in E. rewrite E. cbn [snd fst]. eapply sends_frame, msg_send_ok.
  - apply set_inv_action; try done. apply (setAction_send linuxptp id GET Null); done.
  - done.
  - rewrite send_planned; [|apply (setAction_send linuxptp id GET Null); done|done].
    unfold data_len, useAuthTlv. cbn [ps_msg set_ps_msg bld set_bld m_dataSend m_sendAction m_prms auth].
    rewrite (si_auth s I), Uz. cbn. done.
Qed.
Lemma event_subscription_ok s w :
  set_inv s -> sends (subscribe_request s) s w (event_subscription (s, w)).
Proof.
  intros I. destruct (ptp_spec s I) as [Sp Uz]. unfold event_subscription, subscribe_request.
  pose proof (setAction_cases SET SUBSCRIBE_EVENTS_NP (Obj (T_SUBSCRIBE_EVENTS_NP eventsTlv)) (ps_msg s)) as E.
  cbv zeta in E. rewrite Sp in E. cbn in E. rewrite E. cbn [snd fst]. eapply sends_frame, msg_send_ok.
  - by apply set_inv_action.
  - by vm_compute.
  - rewrite send_planned;
      [|by apply (setAction_send linuxptp SUBSCRIBE_EVENTS_NP SET (Obj (T_SUBSCRIBE_EVENTS_NP eventsTlv)))|by vm_compute].
    unfold data_len, useAuthTlv. cbn [ps_msg set_ps_msg bld set_bld m_dataSend m_sendAction m_prms auth].
    rewrite (si_auth s I). by vm_compute.
Qed.

(** ** The call-backs *)

(** The members that tell whose set it is. *)
Definition same_id (s s' : ptpSet) : Prop :=
  ps_index s' = ps_index s /\ ps_param s' = ps_param s /\ ps_udsAddr s' = ps_udsAddr s.
(** A change of the event is to be notified. *)
Definition tells (s s' : ptpSet) : Prop :=
  ps_do_notify s' = true \/ ps_event s' = ps_event s /\ ps_do_notify s' = ps_do_notify s.
Definition handled (s : ptpSet) (w : W) (r : option (ptpSet * W)) : Prop :=
  exists s' w', r = Some (s', w') /\ set_inv s' /\ kept w w' /\ same_id s s' /\ tells s s'.

Lemma set_inv_core s s' : ps_buf s' = ps_buf s -> ps_msg s' = ps_msg s -> ps_param s' = ps_param s ->
  set_inv s -> set_inv s'.
Proof. intros E1 E2 E3 [I1 I2 I3 I4 I5 I6 I7]. split; by rewrite ?E1, ?E2, ?E3. Qed.
Lemma handled_pure s s' w : set_inv s -> host_ok w -> ps_buf s' = ps_buf s -> ps_msg s' = ps_msg s ->
  same_id s s' -> tells s s' -> handled s w (Some (s', w)).
Proof.
  intros I O E1 E2 Id T. exists s', w. split; [done|]. split; [|by repeat (split; [done|])].
  by apply (set_inv_core s); [| |apply Id|].
Qed.

Lemma sends_kept q s w r : sends q s w r -> host_ok w ->
  exists ok s' w', r = Some (ok, (s', w')) /\ set_inv s' /\ frame s s' /\ kept w w'.
Proof.
  intros (s' & out & _ & I & F & R) O. pose proof (kept_send (ps_index s) out w O) as K.
  destruct (sku_send _ _ _) as [ok w']. destruct R as [-> _]. by exists ok, s', w'.
Qed.

(** The surroundings after the request that a set may have to make. *)
Definition asked (s : ptpSet) (w w' : W) : Prop :=
  if ps_need_set_action s
  then exists out, get_request LOG_SYNC_INTERVAL s out /\ w' = (sku_send (ps_index s) out w).2
  else w' = w.
Lemma need_interval_ok s w : set_inv s -> host_ok w ->
  exists s' w', need_interval (s, w) = Some (s', w') /\ set_inv s' /\ kept w w' /\ same_id s s' /\
    ps_event s' = ps_event s /\ ps_gmIdentity s' = ps_gmIdentity s /\ ps_need_set_action s' = false /\
    asked s w w'.
Proof.
  intros I O. unfold need_interval, asked. cbn [fst]. destruct (ps_need_set_action s) eqn:N; cycle 1.
  { exists s, w. by repeat (split; [done || by apply host_kept_refl|]). }
  destruct (msg_set_action_ok LOG_SYNC_INTERVAL s w I eq_refl) as (s' & out & Q & I' & F & R).
  pose proof (kept_send (ps_index s) out w O) as K. destruct (sku_send _ out w) as [ok w'] eqn:E.
  destruct R as [-> _]. cbn [mbind option_bind fst snd].
  exists (set_need_set_action false s'), w'. split; [done|].
  split; [by apply (set_inv_core s')|]. split; [done|]. unfold frame in F. rewrite F.
  repeat (split; [done|]). exists out. by rewrite E.
Qed.

Lemma TIME_STATUS_NP_ok tlv s w : set_inv s -> host_ok w -> handled s w (TIME_STATUS_NP_h tlv (s, w)).
Proof. intros I O. by apply handled_pure; try done; left. Qed.
Lemma LOG_SYNC_INTERVAL_ok tlv s w : set_inv s -> host_ok w -> handled s w (LOG_SYNC_INTERVAL_h tlv (s, w)).
Proof.
  intros I O. unfold LOG_SYNC_INTERVAL_h. destruct (negb _); apply handled_pure; try done; [by left|by right].
Qed.
Lemma CMLDS_INFO_NP_ok tlv s w : set_inv s -> host_ok w -> handled s w (CMLDS_INFO_NP_h tlv (s, w)).
Proof.
  intros I O. unfold CMLDS_INFO_NP_h.
  destruct (_ =? 0); [apply handled_pure; by try right|].
  destruct (negb _); apply handled_pure; try done; [by left|by right].
Qed.
Lemma PORT_DATA_SET_ok tlv s w : set_inv s -> host_ok w -> handled s w (PORT_DATA_SET_h tlv (s, w)).
Proof.
  intros I O. unfold PORT_DATA_SET_h.
  destruct (existsb _ _); [apply handled_pure; by try left|].
  destruct (_ =? MASTER); [|destruct (_ =? SLAVE)].
  - destruct (ClockIdentity_eq _ _); [apply handled_pure; by try right|].
    set (s1 := set_gmIdentity _ _).
    destruct (need_interval_ok s1 w) as (s' & w' & -> & I' & K & Id & _);
      [by apply (set_inv_core s)|done|]. cbn [mbind option_bind fst snd].
    eexists _, w'. split; [done|]. split; [by apply (set_inv_core s')|]. split; [done|].
    split; [done|by left].
  - set (s1 := on_event _ s).
    destruct (need_interval_ok s1 w) as (s' & w' & -> & I' & K & Id & _);
      [by apply (set_inv_core s)|done|]. cbn [mbind option_bind fst snd].
    eexists _, w'. split; [done|]. split; [by apply (set_inv_core s')|]. split; [done|].
    split; [done|by left].
  - by apply handled_pure; try left.
Qed.

(** ** A round *)

Lemma handled_same s w : set_inv s -> host_ok w -> handled s w (Some (s, w)).
Proof. intros I O. apply handled_pure; try done. by right. Qed.

(** The method of an id, on a TLV of its type. *)
Lemma callback_ok m id t s w : set_inv s -> host_ok w ->
  handled s w (app (iCallHandler ptp_callbacks m id t (mk_disp false (Some (s, w)))).2).
Proof.
  intros I O. pose proof (handled_same s w I O) as Same. unfold iCallHandler.
  destruct id; try exact Same; cbn [tlv_case_of]; destruct (tlv_cast t) as [tlv|]; try exact Same.
  all: cbn -[PORT_DATA_SET_h TIME_STATUS_NP_h CMLDS_INFO_NP_h LOG_SYNC_INTERVAL_h].
  all: lazymatch goal with
       | |- context [PORT_DATA_SET_h] => by apply PORT_DATA_SET_ok
       | |- context [TIME_STATUS_NP_h] => by apply TIME_STATUS_NP_ok
       | |- context [CMLDS_INFO_NP_h] => by apply CMLDS_INFO_NP_ok
       | |- context [LOG_SYNC_INTERVAL_h] => by apply LOG_SYNC_INTERVAL_ok
       end.
Qed.
Lemma dispatch_ok s w : set_inv s -> host_ok w ->
  exists o, callHadler ptp_callbacks (ps_msg s) (mk_disp false (Some (s, w))) = Some o /\ handled s w (app o).
Proof.
  intros I O. pose proof (handled_same s w I O) as Same. unfold callHadler, callHadler_tlv.
  destruct (_ || _); [by eexists|]. pose proof (si_data s I).
  destruct (m_dataGet (prs (ps_msg s))) as [| |t]; [done|by eexists|].
  pose proof (callback_ok (ps_msg s) (m_replayTlv_id (prs (ps_msg s))) t s w I O) as C.
  destruct (iCallHandler _ _ _ _ _) as [[x|] o]; [|by eexists]. by destruct (nc o); eexists.
Qed.

(** The clients get the event of the set, or the set is being stopped. *)
Definition published (st : ptpSet * W) : Prop :=
  stopped st = true \/ event_of (ps_index st.1) st.2 = ps_event st.1.
(** What a step of the thread of [i] does around it. *)
Definition only_mine (i : Z) (w w' : W) : Prop :=
  host_ok w' /\ (forall j, j <> i -> event_of j w' = event_of j w) /\
  (forall j, stopThread j w = true -> stopThread j w' = true).
Lemma kept_mine i w w' : kept w w' -> only_mine i w w'.
Proof. intros (O & E & S). by split. Qed.
Lemma mine_trans i w1 w2 w3 : only_mine i w1 w2 -> only_mine i w2 w3 -> only_mine i w1 w3.
Proof.
  intros (O1 & E1 & S1) (O2 & E2 & S2). split; [done|]. split; [|by auto].
  intros j N. by rewrite E2, E1.
Qed.
Lemma published_kept s s' w w' : published (s, w) -> kept w w' -> same_id s s' -> ps_event s' = ps_event s ->
  published (s', w').
Proof.
  intros P (O & E & S) (Ei & _) Ee. unfold published, stopped in *. cbn in *. rewrite Ei, Ee, E.
  destruct P as [P|P]; [left; by apply S|by right].
Qed.

Lemma notify_round s w : host_ok w ->
  exists w', notify (s, w) = Some (s, w') /\ only_mine (ps_index s) w w' /\
    event_of (ps_index s) w' = ps_event s.
Proof.
  intros O. unfold notify. cbn [fst snd]. pose proof (copy_ok (ps_index s) (ps_event s) w O) as O1.
  destruct (kept_notify (ps_index s) _ O1) as (w' & -> & O2 & E & S). cbn [mbind option_bind].
  exists w'. split; [done|]. split; [split; [done|split]|].
  - intros j N. rewrite E, copy_event_of by done. by rewrite (proj2 (Z.eqb_neq _ _) N).
  - intros j Hj. apply S. by rewrite copy_stop.
  - by rewrite E, copy_event_of, Z.eqb_refl by done.
Qed.

(** The thread goes on with its set in order, and what it tells is published. *)
Definition goes_on (s : ptpSet) (w : W) (r : option (ptpSet * W)) : Prop :=
  exists s' w', r = Some (s', w') /\ set_inv s' /\ same_id s s' /\ only_mine (ps_index s) w w' /\
    published (s', w').

Lemma event_handle_ok s w : set_inv s -> host_ok w -> published (s, w) ->
  goes_on s w (event_handle (s, w)).
Proof.
  intros I O P. unfold event_handle. destruct (stopped (s, w)) eqn:St.
  { exists s, w. by repeat (split; [done || by apply kept_mine, host_kept_refl|]). }
  cbn [fst snd]. set (s0 := set_do_notify false s).
  assert (set_inv s0) as I0 by by apply (set_inv_core s).
  destruct (dispatch_ok s0 w I0 O) as (o & -> & s' & w' & E & I' & K & Id & T).
  cbn [mbind option_bind]. rewrite E. cbn [mbind option_bind].
  destruct (stopped (s', w')) eqn:St'.
  { exists s', w'. split; [done|]. split; [done|]. split; [done|]. split; [by apply kept_mine|by left]. }
  cbn [fst]. destruct (ps_do_notify s') eqn:N.
  - destruct (notify_round s' w') as (w2 & -> & M & Ev); [apply K|]. exists s', w2.
    split; [done|]. split; [done|]. split; [done|].
    rewrite (proj1 Id) in M. split; [|by right]. eapply mine_trans; [by apply kept_mine|done].
  - exists s', w'. split; [done|]. split; [done|]. split; [done|]. split; [by apply kept_mine|].
    destruct T as [T|[T _]]; [congruence|]. by apply (published_kept s s' w w').
Qed.

Definition round_ok (t : thread) (w : W) (r : option (thread * W)) : Prop :=
  exists t' w', r = Some (t', w') /\ set_inv (th_set t') /\ same_id (th_set t) (th_set t') /\
    only_mine (ps_index (th_set t)) w w' /\ published (th_set t', w').
Lemma round_intro t s l p w w' : set_inv s -> same_id (th_set t) s ->
  only_mine (ps_index (th_set t)) w w' -> published (s, w') -> round_ok t w (Some (mk_thread s l p, w')).
Proof. intros I Id M P. by exists (mk_thread s l p), w'. Qed.

Lemma frame_id s s' : frame s s' -> same_id s s' /\ ps_event s' = ps_event s.
Proof. unfold frame. by intros ->. Qed.

Lemma wait_retry_kept n i w : host_ok w -> kept w (wait_retry n i w).
Proof.
  revert w. induction n as [|n IH]; intros w O; [by apply host_kept_refl|]. cbn.
  destruct (stopThread i w); [by apply host_kept_refl|]. pose proof (kept_sleep w O) as K.
  eapply host_kept_trans; [exact K|]. apply IH, K.
Qed.

(** A request between two steps of a thread. *)
Lemma sends_mine q s w r : sends q s w r -> host_ok w -> published (s, w) ->
  exists ok s' w', r = Some (ok, (s', w')) /\ set_inv s' /\ same_id s s' /\ kept w w' /\
    published (s', w') /\ ps_event s' = ps_event s.
Proof.
  intros S O P. destruct (sends_kept _ _ _ _ S O) as (ok & s' & w' & -> & I & F & K).
  destruct (frame_id _ _ F) as [Id E]. exists ok, s', w'. repeat (split; [done|]). split; [|done].
  by apply (published_kept s s' w w').
Qed.
Tactic Notation "send_next" constr(S) "as" ident(x) ident(s) ident(w') :=
  let I := fresh "I" in let Id := fresh "Id" in let K := fresh "K" in let P := fresh "P" in
  let Ee := fresh "Ee" in
  destruct (sends_mine _ _ _ _ S) as (x & s & w' & -> & I & Id & K & P & Ee);
  [first [done | by match goal with K : kept _ _ |- _ => apply K end]|done|];
  cbn [mbind option_bind fst snd].

Lemma start_round_ok t w l : set_inv (th_set t) -> host_ok w -> published (th_set t, w) ->
  round_ok t w (start_round (th_set t, w) l).
Proof.
  intros I O P. unfold start_round. cbn [fst snd]. destruct (stopped _).
  { by apply round_intro; [| |apply kept_mine, host_kept_refl|]. }
  send_next (event_subscription_ok _ w I) as ok s1 w1. destruct ok; cycle 1.
  { by apply round_intro; [| |apply kept_mine|]. }
  send_next (msg_set_action_ok TIME_STATUS_NP s1 w1 I0 eq_refl) as ok2 s2 w2.
  send_next (msg_set_action_ok PORT_DATA_SET s2 w2 I1 eq_refl) as ok3 s3 w3.
  send_next (msg_set_action_ok LOG_SYNC_INTERVAL s3 w3 I2 eq_refl) as ok4 s4 w4.
  apply round_intro; [done| | |done].
  - unfold same_id in *. intuition congruence.
  - apply kept_mine. eauto using host_kept_trans.
Qed.

Lemma received_spec d buf : len buf = bufSize ->
  let d' := take (Z.to_nat bufSize) d in
  received d buf = (d' ++ drop (length d') buf, len d') /\ len (received d buf).1 = bufSize.
Proof.
  intros L. cbv zeta. split; [done|]. unfold received. cbn [fst]. rewrite len_app. unfold len in *.
  rewrite length_drop, length_take. unfold bufSize in *. lia.
Qed.

Lemma parse_set_inv s d e m : set_inv s -> safe_datagram (take (Z.to_nat bufSize) d) ->
  let '(buf, cnt) := received d (ps_buf s) in
  parse (ps_msg s) buf cnt = Some (e, m) -> set_inv (set_ps_msg m (set_ps_buf buf s)).
Proof.
  intros I Sd. destruct (received_spec d (ps_buf s) (si_len s I)) as [E Lb].
  destruct (received d (ps_buf s)) as [buf cnt]. cbn [fst] in Lb. injection E as -> ->.
  set (d' := take _ d) in *. set (buf := d' ++ _) in *. intros Pe.
  assert (auth_inv (auth (ps_msg s))) as Ia by (rewrite (si_auth s I); by intros).
  assert (len d' <= len buf) as Ld by (unfold buf; rewrite len_app; pose proof (len_nonneg (drop (length d') (ps_buf s))); lia).
  destruct (parse_total (ps_msg s) buf (len d') Ia (si_display s I) Ld) as (e1 & p & Pe' & Dp).
  rewrite Pe in Pe'. injection Pe' as <- ->.
  destruct I as [I1 I2 I3 I4 I5 I6 I7]. split; try done. cbn [ps_msg set_ps_msg].
  eapply (parse_keeps_data (ps_msg s)); [by rewrite I4|by rewrite I5|exact Sd|exact Pe|done].
Qed.
Lemma parse_returns s d : set_inv s ->
  let '(buf, cnt) := received d (ps_buf s) in is_Some (parse (ps_msg s) buf cnt).
Proof.
  intros I. destruct (received_spec d (ps_buf s) (si_len s I)) as [E Lb].
  destruct (received d (ps_buf s)) as [buf cnt]. cbn [fst] in Lb. injection E as -> ->.
  destruct (parse_total (ps_msg s) (take (Z.to_nat bufSize) d ++ drop (length (take (Z.to_nat bufSize) d)) (ps_buf s))
    (len (take (Z.to_nat bufSize) d))) as (e & p & -> & _); [rewrite (si_auth s I); by intros|apply I| |by eexists].
  rewrite len_app. pose proof (len_nonneg (drop (length (take (Z.to_nat bufSize) d)) (ps_buf s))). lia.
Qed.

Lemma poll_round_ok t w l : set_inv (th_set t) -> host_ok w -> published (th_set t, w) ->
  round_ok t w (poll_round (th_set t, w) l).
Proof.
  intros I O P. set (s := th_set t) in *. unfold poll_round.
  assert (forall s' w' l p, set_inv s' -> kept w w' -> same_id s s' -> ps_event s' = ps_event s ->
    round_ok t w (Some (mk_thread s' l p, w'))) as Same.
  { intros s' w' l' p I' K Id E. apply round_intro; [done|done|by apply kept_mine|].
    by apply (published_kept s s' w w'). }
  destruct (stopped (s, w)); [by apply Same; [|apply host_kept_refl|..]|].
  pose proof (kept_poll (ps_index s) w O) as K1. destruct (sku_poll _ w) as [ret w1]. cbn [snd] in K1.
  destruct (stopped (s, w1)); [by apply Same|]. destruct ret; [|by apply Same].
  pose proof (kept_rcv (ps_index s) w1 (proj1 K1)) as K2.
  pose proof (fun d w2 => rcv_safe (ps_index s) w1 d w2 (proj1 K1)) as Sd.
  destruct (sku_rcv _ w1) as [d w2]. cbn [snd] in K2. pose proof (host_kept_trans _ _ _ K1 K2) as K.
  destruct d as [d|]; [|by apply Same]. specialize (Sd d w2 eq_refl).
  pose proof (received_spec d (ps_buf s) (si_len s I)) as [_ Lb].
  pose proof (parse_returns s d I) as Pr. pose proof (fun e m => parse_set_inv s d e m I Sd) as Pi.
  destruct (received d (ps_buf s)) as [buf cnt]. cbn [fst] in Lb.
  assert (set_inv (set_ps_buf buf s)) as Ib by (destruct I; by split).
  destruct (0 <? cnt); [|by apply Same].
  change (ps_msg (set_ps_buf buf s)) with (ps_msg s). destruct Pr as [[e m] Pe]. rewrite Pe.
  cbn [mbind option_bind]. specialize (Pi e m Pe). set (s2 := set_ps_msg m (set_ps_buf buf s)) in *.
  destruct (bool_decide _); [|by apply Same].
  destruct (event_handle_ok s2 w2 Pi (proj1 K)) as (s3 & w3 & -> & I3 & Id & M & P3);
    [by apply (published_kept s s2 w w2)|].
  cbn [mbind option_bind fst snd]. apply round_intro; [done|done| |done].
  eapply mine_trans; [by apply kept_mine|done].
Qed.

Lemma reconnect_round_ok t w l : set_inv (th_set t) -> host_ok w -> published (th_set t, w) ->
  round_ok t w (reconnect_round (th_set t, w) l).
Proof.
  intros I O P. unfold reconnect_round. cbn [fst snd]. destruct (stopped _).
  { by apply round_intro; [| |apply kept_mine, host_kept_refl|]. }
  send_next (event_subscription_ok _ w I) as ok s1 w1.
  destruct ok; [by apply round_intro; [| |apply kept_mine|]|].
  pose proof (fun w => wait_retry_kept 50 (ps_index s1) w) as Wt. destruct l.
  - pose proof (Wt w1 (proj1 K)) as K1. apply round_intro; [done|done| |].
    + apply kept_mine. by eapply host_kept_trans.
    + by apply (published_kept s1 s1 w1 _).
  - set (s2 := portReset s1). assert (set_inv s2) as I2 by by apply (set_inv_core s1).
    destruct (stopped (s2, w1)) eqn:St.
    { apply round_intro; [done|done|by apply kept_mine|by left]. }
    destruct (notify_round s2 w1 (proj1 K)) as (w2 & -> & M & Ev). cbn [mbind option_bind fst snd].
    pose proof (Wt w2 (proj1 M)) as K1. apply round_intro; [done|done| |].
    + change (ps_index s2) with (ps_index s1) in M. rewrite (proj1 Id) in M.
      eapply mine_trans; [by apply kept_mine|]. eapply mine_trans; [done|by apply kept_mine].
    + right. cbn [fst snd]. rewrite (proj1 (proj2 K1)). exact Ev.
Qed.

Lemma round_goes_on t w : set_inv (th_set t) -> host_ok w -> published (th_set t, w) ->
  round_ok t w (round t w).
Proof.
  intros I O P. unfold round. destruct (th_phase t).
  - by apply start_round_ok.
  - by apply poll_round_ok.
  - by apply reconnect_round_ok.
  - exists t, w. by repeat (split; [done || by apply kept_mine, host_kept_refl|]).
Qed.
End Thread.

(** ** What the replies do *)

Lemma lor_next k k' acc c : k = 8 + k' -> 0 <= k' ->
  Z.lor (acc * 2 ^ k) (Z.shiftl (b2z c) k') = (acc * 256 + b2z c) * 2 ^ k'.
Proof.
  intros -> Hk. pose proof (b2z_range c). assert (0 < 2 ^ k') by (apply Z.pow_pos_nonneg; lia).
  rewrite Z.lor_comm, <- (Z.shiftl_mul_pow2 acc) by lia. rewrite (Z.shiftl_mul_pow2 (b2z c)) by lia.
  rewrite lor_shiftl_add; rewrite ?Z.pow_add_r by lia; change (2 ^ 8) with 256; [ring|lia|nia].
Qed.
(** The loops over the octets read the number in network order. *)
Lemma uuid_of_be d : wf_ClockIdentity d -> uuid_of d = be_dec (ci_v d).
Proof.
  unfold wf_ClockIdentity. destruct d as [v]. cbn [ci_v]. intros L.
  do 8 (destruct v as [|? v]; [done|]). destruct v; [|done]. clear L.
  unfold uuid_of. cbn [seq fold_left nth ci_v]. change 0 with (0 * 2 ^ 64) at 1.
  do 8 rewrite lor_next by lia. unfold be_dec. change (8 * (7 - Z.of_nat 7)) with 0.
  rewrite Z.pow_0_r. cbn -[Z.mul Z.add b2z]. ring.
Qed.

Section Replies.
Context `{lib : MacLib} {laws : MacLaws lib} {W : Type} `{HL : HostLaws W}.

(** The states of a port that is not used for the time. *)
Definition resets (state : Z) : bool :=
  existsb (Z.eqb state) [INITIALIZING; FAULTY; DISABLED; LISTENING; PRE_MASTER; PASSIVE; UNCALIBRATED].

(** C27: What the state of the port that ptp4l reports does to the event of the
    time base: the states in which the port does not follow a master clear it, but
    for the identity of the grandmaster and the capability; a port that becomes
    MASTER clears it as well and gives its own identity; a SLAVE is synchronised;
    MASTER and SLAVE ask for the interval again when a reset made that necessary.
    Every change is notified.  A port that reports MASTER while the identity of
    the grandmaster is already its own changes nothing. *)
Theorem PORT_DATA_SET_correct tlv s w :
  set_inv s -> host_ok w ->
  let own := clockIdentity (ptds_portIdentity tlv) in
  let e := ps_event s in
  exists s' w', PORT_DATA_SET_h tlv (s, w) = Some (s', w') /\
    if resets (ptds_portState tlv) then
      ps_event s' = portDataClear e /\ ps_need_set_action s' = true /\ ps_do_notify s' = true /\ w' = w
    else if ptds_portState tlv =? MASTER then
      if ClockIdentity_eq (ps_gmIdentity s) own then s' = s /\ w' = w
      else
        ps_event s' = with_uuid (uuid_of own) (portDataClear e) /\ ps_gmIdentity s' = own /\
        ps_need_set_action s' = false /\ ps_do_notify s' = true /\
        exists out, get_request LOG_SYNC_INTERVAL (set_gmIdentity own (on_event (with_uuid (uuid_of own)) (portDataReset s))) out /\
          w' = (sku_send (ps_index s) out w).2
    else if ptds_portState tlv =? SLAVE then
      ps_event s' = with_synced true e /\ ps_need_set_action s' = false /\ ps_do_notify s' = true /\
      asked (on_event (with_synced true) s) w w'
    else ps_event s' = e /\ ps_do_notify s' = true /\ w' = w.
Proof.
  intros I O. cbv zeta. unfold PORT_DATA_SET_h, resets. destruct (existsb _ _); [by eexists _, _|].
  destruct (_ =? MASTER); [destruct (ClockIdentity_eq _ _); [by eexists _, _|]|destruct (_ =? SLAVE); [|by eexists _, _]].
  - match goal with |- context [need_interval (?x, w)] => set (s1 := x) end.
    destruct (need_interval_ok s1 w) as (s' & w' & -> & _ & _ & _ & E & G & N & A);
      [by apply (set_inv_core s)|done|]. cbn [mbind option_bind fst snd]. eexists _, w'. split; [done|].
    split; [exact E|]. split; [exact G|]. by repeat (split; [done|]).
  - match goal with |- context [need_interval (?x, w)] => set (s1 := x) end.
    destruct (need_interval_ok s1 w) as (s' & w' & -> & _ & _ & _ & E & G & N & A);
      [by apply (set_inv_core s)|done|]. cbn [mbind option_bind fst snd]. eexists _, w'. split; [done|].
    split; [exact E|]. by repeat (split; [done|]).
Qed.

(** The interval of a reply is taken as microseconds, and notified, unless the
    last octet of the interval before, as a number with a sign, is the logarithm
    of the reply.  So after a reset an interval of one second, whose logarithm is
    zero, is lost; and a reply that repeats an interval is notified again,
    whatever the interval, but for 1/4096 of a second. *)
Theorem LOG_SYNC_INTERVAL_octet n s (w : W) :
  -128 <= n <= 44 ->
  let st r := (LOG_SYNC_INTERVAL_h (mk_LOG_SYNC_INTERVAL n) r : option (ptpSet * W)) in
  (pe_syncInterval (ps_event s) = 0 ->
     st (s, w) = if n =? 0 then Some (s, w)
                 else Some (set_do_notify true (on_event (with_interval (sync_usec n)) s), w)) /\
  (n <> -12 -> pe_syncInterval (ps_event s) = sync_usec n -> st (s, w) = Some (set_do_notify true s, w)).
Proof.
  intros Hn. cbv zeta. unfold LOG_SYNC_INTERVAL_h. cbn [lsi_logSyncInterval]. split.
  - intros ->. change (swrap 8 0) with 0. rewrite Z.eqb_sym. by destruct (n =? 0).
  - intros N E. rewrite E.
    assert (forallb (fun k => let n := Z.of_nat k - 128 in
      (n =? -12) || negb (swrap 8 (sync_usec n) =? n)) (seq 0 173) = true) as C by (vm_compute; reflexivity).
    rewrite forallb_forall in C. specialize (C (Z.to_nat (n + 128))). cbv zeta in C.
    replace (Z.of_nat (Z.to_nat (n + 128)) - 128) with n in C by lia.
    rewrite (proj2 (Z.eqb_neq n (-12)) N) in C. cbn [orb] in C.
    rewrite C by (apply in_seq; lia). unfold on_event, set_ps_event, with_interval. rewrite <- E.
    by destruct s as [? ? ? []].
Qed.

Lemma parse_ok_size m buf n m' : parse m buf n = Some (MNG_PARSE_ERROR_OK, m') -> (0 <? n) = true.
Proof.
  unfold parse. change sigBaseSize with 44. destruct (Z.ltb_spec n 44); [done|]. intros _. lia.
Qed.

(** A round in which a thread receives a reply with TIME_STATUS_NP puts the
    master offset and the identity of the grandmaster, as a number in network
    order, in the event of the time base, and publishes it. *)
Theorem time_status_published s w1 w2 w3 d m tlv lost :
  set_inv s -> host_ok w1 -> stopThread (ps_index s) w1 = false ->
  sku_poll (ps_index s) w1 = (true, w2) -> stopThread (ps_index s) w2 = false ->
  sku_rcv (ps_index s) w2 = (Some d, w3) -> stopThread (ps_index s) w3 = false ->
  parse (ps_msg s) (received d (ps_buf s)).1 (received d (ps_buf s)).2 = Some (MNG_PARSE_ERROR_OK, m) ->
  m_replayTlv_id (prs m) = TIME_STATUS_NP -> m_dataGet (prs m) = Obj (T_TIME_STATUS_NP tlv) ->
  wf_ClockIdentity (tsn_gmIdentity tlv) ->
  exists t w4, poll_round (s, w1) lost = Some (t, w4) /\
    ps_event (th_set t) = with_uuid (be_dec (ci_v (tsn_gmIdentity tlv)))
                            (with_offset (tsn_master_offset tlv) (ps_event s)) /\
    event_of (ps_index s) w4 = ps_event (th_set t) /\ th_phase t = Polling.
Proof.
  intros I O S1 P1 S2 R S3 Pe Id D Wf.
  pose proof (kept_poll (ps_index s) w1 O) as K1. rewrite P1 in K1. cbn [snd] in K1.
  pose proof (kept_rcv (ps_index s) w2 (proj1 K1)) as K2. rewrite R in K2. cbn [snd] in K2.
  unfold poll_round, stopped. cbn [fst snd]. rewrite S1, P1. cbn [fst snd]. rewrite S2, R.
  pose proof (parse_ok_size _ _ _ _ Pe) as Sz.
  pose proof (parse_set_inv s d MNG_PARSE_ERROR_OK m I (rcv_safe _ _ _ _ (proj1 K1) R)) as Im.
  destruct (received d (ps_buf s)) as [buf cnt]. cbn [fst snd] in *. rewrite Sz.
  change (ps_msg (set_ps_buf buf s)) with (ps_msg s). rewrite Pe. cbn [mbind option_bind].
  rewrite bool_decide_eq_true_2 by done. specialize (Im Pe). set (s2 := set_ps_msg m _) in *.
  unfold event_handle, stopped. cbn [fst snd]. change (ps_index s2) with (ps_index s). rewrite S3.
  cbv zeta. change (ps_msg (set_do_notify false s2)) with m.
  unfold callHadler. rewrite Id, D. unfold callHadler_tlv.
  assert (implementSpecific (m_prms m) = linuxptp) as -> by exact (proj1 (ptp_spec s2 Im)).
  cbn -[TIME_STATUS_NP_h notify stopThread]. cbn [TIME_STATUS_NP_h mbind option_bind fst snd].
  match goal with |- context [stopThread ?i w3] => change i with (ps_index s) end. rewrite S3.
  match goal with |- context [notify (?x, w3)] => set (s4 := x); destruct (notify_round s4 w3 (proj1 K2)) as (w4 & E & M & Ev) end.
  cbn [ps_do_notify s4 set_do_notify]. rewrite E. cbn [mbind option_bind fst snd].
  exists (mk_thread s4 lost Polling), w4. split; [done|]. cbn [th_set].
  change (ps_index s4) with (ps_index s) in Ev. split; [|done].
  unfold s4; cbn [ps_event set_do_notify set_gmIdentity set_ps_event]. by rewrite uuid_of_be.
Qed.

(** A round of the loop that tries to connect again sends the subscription
    once.  When it is sent the thread goes back to the events.  When it is not, and
    the connection was not lost before, the clients get an event of zeros and the
    request for the interval becomes necessary; with the connection already lost
    nothing is published again. *)
Theorem lost_connection_once s w lost :
  set_inv s -> host_ok w -> stopThread (ps_index s) w = false ->
  exists out t w', subscribe_request s out /\
    reconnect_round (s, w) lost = Some (t, w') /\
    let '(ok, w1) := sku_send (ps_index s) out w in
    if (ok : bool) then
      w' = w1 /\ th_phase t = Polling /\ th_lost t = false /\ ps_event (th_set t) = ps_event s
    else
      th_lost t = true /\
      if lost : bool then
        w' = wait_retry 50 (ps_index s) w1 /\ th_phase t = Reconnecting /\
        ps_event (th_set t) = ps_event s
      else
        ps_event (th_set t) = zero_ptp_event /\ ps_need_set_action (th_set t) = true /\
        if stopThread (ps_index s) w1 then w' = w1 /\ th_phase t = Ended
        else
          th_phase t = Reconnecting /\ event_of (ps_index s) w' = zero_ptp_event /\
          exists w2, notify_clients (ps_index s) (copy_event (ps_index s) zero_ptp_event w1) = Some w2 /\
            w' = wait_retry 50 (ps_index s) w2.
Proof.
  intros I O S. unfold reconnect_round, stopped. cbn [fst snd]. rewrite S.
  destruct (event_subscription_ok s w I) as (s' & out & Q & I' & F & R). exists out.
  pose proof (kept_send (ps_index s) out w O) as K. destruct (sku_send _ out w) as [ok w1]. cbn [snd] in K.
  destruct R as [-> _]. cbn [mbind option_bind fst snd]. destruct (frame_id _ _ F) as [Id E].
  destruct ok; [by eexists _, _|]. destruct lost.
  { eexists _, _. split; [done|]. split; [done|]. rewrite (proj1 Id). by repeat (split; [done|]). }
  change (ps_index (portReset s')) with (ps_index s'). rewrite (proj1 Id).
  destruct (stopThread (ps_index s) w1); [by eexists _, _|].
  destruct (notify_round (portReset s') w1 (proj1 K)) as (w2 & En & M & Ev). rewrite En.
  cbn [mbind option_bind fst snd]. eexists _, _. split; [done|]. split; [done|].
  change (ps_index (portReset s')) with (ps_index s') in *. rewrite (proj1 Id) in *.
  pose proof (wait_retry_kept 50 (ps_index s) w2 (proj1 M)) as Kw.
  do 4 (split; [done|]). split; [rewrite (proj1 (proj2 Kw)); exact Ev|].
  exists w2. split; [|done]. unfold notify in En. cbn [fst snd] in En.
  change (ps_index (portReset s')) with (ps_index s') in En. rewrite (proj1 Id) in En.
  change (ps_event (portReset s')) with zero_ptp_event in En.
  destruct (notify_clients _ _); [|done]. cbn in En. by simplify_eq.
Qed.
End Replies.

(** ** An example *)

(** A time base whose thread got its first reply, in a proxy with no client. *)
#[local] Instance demo_padding : Padding := { pad n := repeat x00 n; pad_length n := repeat_length x00 n }.
#[local] Instance demo_queues : Queues := {| open_ok _ := true; send_ok _ := true |}.
#[local] Instance demo_host : Host (Proxy * demo_net) := proxy_host empty_buffer.
#[local] Instance demo_view : HostView (Proxy * demo_net) := proxy_view.
Lemma empty_tx_ok : tx_ok empty_buffer.
Proof. split; [apply repeat_length|split; apply Nat.le_0_l]. Qed.
#[local] Instance demo_host_laws : HostLaws (Proxy * demo_net) := proxy_laws empty_buffer empty_tx_ok.

Definition demo_cfg : TimeBaseCfg := mk_cfg 1 (name_array (bytes "G")) (name_array (bytes "eth0")) 0 24 false true.
Definition demo_set0 : ptpSet :=
  ptpSet_new 1 demo_cfg (bytes "/var/run/ptp4l") (repeat x00 (Z.to_nat bufSize)) (mk_ClockIdentity (repeat xaa 8)).
Definition demo_world (runs : bool) : Proxy * demo_net :=
  (ptpEvent_copy 1 zero_ptp_event (Proxy_new []), mk_demo_net runs []).
Definition demo_ptp : ptpSet := (ptpSet_init demo_set0 (demo_world true)).2.1.
Lemma demo_ptp_inv : set_inv demo_ptp.
Proof.
  split; try done; vm_compute; repeat split; try discriminate; try by left.
Qed.
Lemma demo_world_ok r : host_ok (demo_world r).
Proof. apply (events_inv 1 zero_ptp_event zero_chrony_event), proxy_new_inv. Qed.

Definition demo_slave : PORT_DATA_SET_t :=
  mk_PORT_DATA_SET (mk_PortIdentity (mk_ClockIdentity (repeat x01 8)) 1) SLAVE 0 (mk_TimeInterval 0) 0 0 0 0 0 2.
Lemma PORT_DATA_SET_correct_witness :
  exists s' w', PORT_DATA_SET_h demo_slave (demo_ptp, demo_world true) = Some (s', w') /\
    pe_syncedWithGm (ps_event s') = true.
Proof.
  destruct (PORT_DATA_SET_correct demo_slave demo_ptp (demo_world true) demo_ptp_inv (demo_world_ok true))
    as (s' & w' & E & E' & _). exists s', w'. split; [exact E|]. by rewrite E'.
Defined.
Lemma LOG_SYNC_INTERVAL_octet_witness :
  LOG_SYNC_INTERVAL_h (mk_LOG_SYNC_INTERVAL 0) (demo_ptp, demo_world true) = Some (demo_ptp, demo_world true).
Proof.
  destruct (LOG_SYNC_INTERVAL_octet 0 demo_ptp (demo_world true)) as [E _]; [lia|]. exact (E eq_refl).
Defined.
Lemma lost_connection_once_witness :
  exists t w', reconnect_round (demo_ptp, demo_world false) false = Some (t, w') /\
    event_of 1 w' = zero_ptp_event /\ th_phase t = Reconnecting.
Proof.
  destruct (lost_connection_once (HL := demo_host_laws) demo_ptp (demo_world false) false demo_ptp_inv (demo_world_ok false)
    ltac:(reflexivity))
    as (out & t & w' & _ & E & C). exists t, w'. split; [exact E|].
  destruct C as (_ & _ & _ & P & Ev & _). split; [exact Ev|exact P].
Defined.
Lemma time_status_published_witness :
  exists t w4, poll_round (demo_ptp, demo_world true) false = Some (t, w4) /\
    pe_clockOffset (ps_event (th_set t)) = -42 /\
    pe_gmClockUUID (ps_event (th_set t)) = 0x0102030405060708 /\
    event_of 1 w4 = ps_event (th_set t).
Proof.
  pose (r := received time_status_octets (ps_buf demo_ptp)).
  pose (m := match parse (ps_msg demo_ptp) r.1 r.2 with Some (_, m) => m | None => Message_new end).
  pose (tlv := match m_dataGet (prs m) with Obj (T_TIME_STATUS_NP t) => t | _ => init_TIME_STATUS_NP end).
  destruct (time_status_published (HL := demo_host_laws) demo_ptp (demo_world true) (demo_world true) (demo_world true)
    time_status_octets m tlv false demo_ptp_inv (demo_world_ok true)) as (t & w4 & E & Ev & P & _).
  - reflexivity.
  - reflexivity.
  - reflexivity.
  - reflexivity.
  - reflexivity.
  - vm_compute. reflexivity.
  - vm_compute. reflexivity.
  - vm_compute. reflexivity.
  - vm_compute. reflexivity.
  - exists t, w4. split; [exact E|]. rewrite Ev. split; [vm_compute; reflexivity|].
    split; [vm_compute; reflexivity|]. rewrite <- Ev. exact P.
Defined.
