(* ===== verification/ClkPtp4lSys.v ===== *)
(** * ClkPtp4lSys.v: the threads of the proxy that follow ptp4l

    The service starts a thread for each time base with a ptp4l; with any
    interleaving of their rounds no thread faults, and the clients get the event
    of the thread. *)

From S2P Require Import Prelude CStr Types Ids Names MsgProc Codec Structs MngTlvs MngTlvsSpec.
From S2P Require Import Dispatch ClkEvent ClkConfig ClkMsg ClkProxy Text SigTlvs Auth Message.
From S2P Require Import ParseSafe MessageInv MsgCall ClkPtp4l ClkPtp4lHost ClkPtp4lFacts.

#[local] Open Scope list_scope.

(** ** All threads *)

Section System.
Context `{lib : MacLib} {laws : MacLaws lib} {W : Type} `{HL : HostLaws W}.

(** A thread makes a round, or something else happens in the process: a client
    sends a message, chrony has an event, the process is stopped. *)
Inductive sys_step : list (Z * thread) * W -> list (Z * thread) * W -> Prop :=
| sys_round i t t' ths w w' : get i ths = Some t -> round t w = Some (t', w') ->
    sys_step (ths, w) (set i t' ths, w')
| sys_other ths w w' : kept w w' -> sys_step (ths, w) (ths, w').

Definition thread_inv (w : W) (it : Z * thread) : Prop :=
  ps_index (th_set it.2) = it.1 /\ set_inv (th_set it.2) /\ published (th_set it.2, w).
Definition sys_inv (s : list (Z * thread) * W) : Prop :=
  ordered s.1 /\ host_ok s.2 /\ Forall (thread_inv s.2) s.1.

Lemma published_mine i w w' s : only_mine i w w' -> ps_index s <> i -> published (s, w) -> published (s, w').
Proof.
  intros (_ & E & S) N [P|P]; [left; by apply S|right]. cbn in *. by rewrite E.
Qed.
Lemma sys_step_inv s s' : sys_inv s -> sys_step s s' -> sys_inv s'.
Proof.
  intros (Or & Ok & F) St. destruct St as [i t t' ths w w' G R|ths w w' K]; cbn [fst snd] in *.
  - destruct (get_Forall _ _ _ _ F G) as (Ei & I & P). cbn [fst snd] in *.
    destruct (round_goes_on t w I Ok P) as (t1 & w1 & E & I1 & Id & M & P1).
    rewrite R in E. injection E as <- <-. rewrite Ei in M. split; [by apply ordered_set|].
    split; [apply M|]. cbn [fst snd].
    assert (thread_inv w' (i, t')) as Ti.
    { split; [|done]. cbn. by rewrite (proj1 Id). }
    assert (forall j u, get j (set i t' ths) = Some u -> thread_inv w' (j, u)) as Fg.
    { intros j u. rewrite get_set_key by done. destruct (Z.eqb_spec j i) as [->|N]; [by intros [= <-]|].
      intros Gj. destruct (get_Forall _ _ _ _ F Gj) as (Ej & Ij & Pj). split; [done|]. split; [done|].
      apply (published_mine i w w' _ M); cbn in *; [congruence|done]. }
    apply Forall_forall. intros [j u] Hj. apply Fg, In_get; [by apply ordered_set|done].
  - split; [done|]. split; [apply K|]. eapply Forall_impl; [exact F|]. intros [j u] (Ej & Ij & Pj).
    split; [done|]. split; [done|]. by apply (published_kept (th_set u) (th_set u) w).
Qed.

(** ** The start of the service *)

(** A set before its initialisation. *)
Definition fresh_set (cfgs : list TimeBaseCfgFull) (memory : Z -> list byte * ClockIdentity_t)
    (it : Z * ptpSet) : Prop :=
  exists cfg, cfg ∈ cfgs /\ isValid cfg = true /\ timeBaseIndex (base cfg) = it.1 /\
    it.2 = ptpSet_alloc memory cfg.
(** The sets of the time bases with a ptp4l, each with the zeros published. *)
Definition allocated (cfgs : list TimeBaseCfgFull) (memory : Z -> list byte * ClockIdentity_t)
    (r : list (Z * ptpSet) * W) : Prop :=
  ordered r.1 /\ host_ok r.2 /\ Forall (fresh_set cfgs memory) r.1 /\
  Forall (fun it => event_of it.1 r.2 = zero_ptp_event) r.1 /\
  (forall cfg, cfg ∈ cfgs -> isValid cfg = true -> mem (timeBaseIndex (base cfg)) r.1 = true).

Lemma fresh_mono cfgs cfgs' memory it : (forall c, c ∈ cfgs -> c ∈ cfgs') ->
  fresh_set cfgs memory it -> fresh_set cfgs' memory it.
Proof. intros S (c & Ic & R). exists c. auto. Qed.

Lemma alloc_all_ok memory cfgs w : host_ok w -> allocated cfgs memory (alloc_all memory cfgs w).
Proof.
  intros O. unfold alloc_all. induction cfgs as [|cfg cfgs IH] using rev_ind.
  { split; [constructor|]. split; [done|]. split; [constructor|]. split; [constructor|].
    intros cfg H'. by apply not_elem_of_nil in H'. }
  rewrite foldl_app. cbn [foldl]. destruct (foldl _ _ cfgs) as [l w1].
  destruct IH as (Or & Ok & Fr & Ev & Al). cbn [fst snd] in *.
  assert (forall it, fresh_set cfgs memory it -> fresh_set (cfgs ++ [cfg]) memory it) as Mono.
  { intros it. apply fresh_mono. intros c. rewrite elem_of_app. by left. }
  destruct (isValid cfg) eqn:V; cycle 1.
  { split; [done|]. split; [done|].
    split; [exact (Forall_impl _ _ _ Fr Mono)|]. split; [done|].
    intros c. rewrite elem_of_app, list_elem_of_singleton. intros [Ic| ->]; [auto|congruence]. }
  set (i := ps_index (ptpSet_alloc memory cfg)). change (timeBaseIndex (base cfg)) with i in *.
  split; [by apply ordered_set|]. split; [by apply copy_ok|]. cbn [fst snd]. split; [|split].
  - apply Forall_set; [|exact (Forall_impl _ _ _ Fr Mono)]. exists cfg. rewrite elem_of_app, list_elem_of_singleton.
    split; [by right|done].
  - apply Forall_set; [cbn [fst snd]; rewrite copy_event_of by done; by rewrite Z.eqb_refl|].
    eapply Forall_impl; [exact Ev|]. intros it E. cbn in E |- *. rewrite copy_event_of by done.
    by destruct (it.1 =? _).
  - intros c. rewrite elem_of_app, list_elem_of_singleton. unfold mem. rewrite get_set_key by done.
    intros [Ic| ->] Vc; [|change (timeBaseIndex (base cfg)) with i; by rewrite Z.eqb_refl].
    destruct (_ =? i); [done|]. by apply Al.
Qed.

(** A set that [init] accepted, and what it asked of its socket. *)
Definition started (cfgs : list TimeBaseCfgFull) (it : Z * ptpSet) : Prop :=
  exists cfg, cfg ∈ cfgs /\ isValid cfg = true /\ timeBaseIndex (base cfg) = it.1 /\
    ps_index it.2 = it.1 /\ ps_param it.2 = base cfg /\ ps_udsAddr it.2 = udsAddrPtp4l cfg /\
    ps_event it.2 = zero_ptp_event /\ set_inv it.2.

Lemma ptpSet_init_ok cfgs memory it w :
  host_ok w -> Forall row_ok cfgs -> (forall i, len (memory i).1 = bufSize) -> fresh_set cfgs memory it ->
  let '(ok, (s, w')) := ptpSet_init it.2 w in
  kept w w' /\ (ok = true -> started cfgs (it.1, s)).
Proof.
  intros O R M (cfg & Ic & V & Ei & Es). rewrite Es. unfold ptpSet_init.
  rewrite Forall_forall in R. destruct (R _ Ic) as [(_ & _ & Ht & Hd & _) _].
  match goal with |- context [sku_open ?i ?a ?p w] => pose proof (kept_open i a p w O) as K;
    destruct (sku_open i a p w) as [[] w'] end; [|done].
  unfold updateParams. match goal with |- context [0xf <? ?x] =>
    change x with (ClkConfig.transportSpecific (base cfg)) end.
  destruct (Z.ltb_spec 0xf (ClkConfig.transportSpecific (base cfg))) as [L|L]; [by split|].
  split; [done|]. intros _. exists cfg. cbn.
  repeat (split; [done|]). split; try done.
  - apply M.
  - split; [done|]. split; [done|by left].
  - cbn. split; [lia|]. unfold uint. lia.
Qed.

Lemma init_all_ok cfgs memory l w :
  host_ok w -> Forall row_ok cfgs -> (forall i, len (memory i).1 = bufSize) -> Forall (fresh_set cfgs memory) l ->
  let '(ok, (l', w')) := init_all l w in
  kept w w' /\ ClkConfig.keys l' = ClkConfig.keys l /\ (ok = true -> Forall (started cfgs) l').
Proof.
  intros O R M F. revert w O. induction F as [|[i s] l Fs F IH]; intros w O; cbn [init_all].
  { split; [by apply host_kept_refl|]. split; [done|]. intros _. constructor. }
  pose proof (ptpSet_init_ok cfgs memory (i, s) w O R M Fs) as K. cbn [fst snd] in K.
  destruct (ptpSet_init s w) as [[] [s' w1]]; destruct K as [K S]; [|by split].
  specialize (IH w1 (proj1 K)). destruct (init_all l w1) as [ok [l' w2]]. destruct IH as (K2 & E & T).
  split; [by eapply host_kept_trans|]. split; [unfold ClkConfig.keys in *; cbn; by rewrite E|].
  intros Ok. constructor; auto.
Qed.
Lemma close_all_kept l w : host_ok w -> kept w (close_all l w).
Proof.
  unfold close_all. revert w. induction l as [|it l IH]; intros w O; [by apply host_kept_refl|]. cbn [foldl].
  pose proof (kept_close it.1 w O) as K. eapply host_kept_trans; [exact K|]. apply IH, K.
Qed.

(** What the service leaves. *)
Lemma registerSrv_ok memory cfgs w :
  host_ok w -> Forall row_ok cfgs -> (forall i, len (memory i).1 = bufSize) ->
  let '(ok, s) := registerSrv memory cfgs w in
  host_ok s.2 /\
  if ok : bool then
    sys_inv s /\ Forall (fun it => started cfgs (it.1, th_set it.2) /\ th_phase it.2 = Starting) s.1 /\
    (forall cfg, cfg ∈ cfgs -> isValid cfg = true -> mem (timeBaseIndex (base cfg)) s.1 = true)
  else s.1 = [].
Proof.
  intros O R M. unfold registerSrv. pose proof (alloc_all_ok memory cfgs w O) as (Or & Ok & Fr & Ev & Al).
  destruct (alloc_all memory cfgs w) as [l w1]. cbn [fst snd] in *.
  pose proof (init_all_ok cfgs memory l w1 Ok R M Fr) as K.
  destruct (init_all l w1) as [ok [l' w2]]. destruct K as (K & Ek & St).
  destruct ok; cycle 1; cbn [fst snd].
  { split; [|done]. apply close_all_kept, K. }
  specialize (St eq_refl). split; [apply K|]. split; [split; [|split; [apply K|]]|split].
  - eapply ordered_same_keys; [|exact Or]. rewrite <- Ek. symmetry. apply (keys_map (fun it => thread_new it.2)).
  - cbn [fst snd]. rewrite Forall_map. rewrite Forall_forall in St |- *. intros [i s] Hi.
    destruct (St _ Hi) as (cfg & _ & _ & _ & Ei & _ & _ & Ee & I). cbn [fst snd] in *.
    split; [done|]. split; [done|]. right. cbn [fst snd th_set thread_new]. rewrite (proj1 (proj2 K)), Ei, Ee.
    assert (mem i l = true) as Hm.
    { rewrite <- (mem_same_keys l' l) by done. apply (mem_elem l' (i, s)); [|done]. by eapply ordered_same_keys. }
    unfold mem in Hm. destruct (get i l) as [s0|] eqn:G; [|done]. by apply (get_Forall _ _ _ _ Ev G).
  - rewrite Forall_map. eapply Forall_impl; [exact St|]. by intros [i s].
  - intros cfg Ic V. rewrite mem_map. rewrite (mem_same_keys l' l) by done. by apply Al.
Qed.

End System.

(** ** An example *)

#[local] Existing Instances demo_padding demo_queues demo_host demo_view demo_host_laws.
Definition demo_rows : list TimeBaseCfgFull := [mk_cfg_full demo_cfg [] (bytes "/var/run/ptp4l")].
Definition demo_memory (i : Z) : list byte * ClockIdentity_t :=
  (repeat x00 (Z.to_nat bufSize), mk_ClockIdentity (repeat xaa 8)).
Definition demo_start : list (Z * thread) * (Proxy * demo_net) :=
  (registerSrv demo_memory demo_rows (demo_world true)).2.

