(* ===== verification/ClkEventC.v ===== *)
(** * ClkEventC.v: what a client reads of its time bases

    The access functions of [ClockEventBase], [PTPClockEvent] and [ClockSyncData] and
    their C interface, [src/clkmgr/client/clock_event.cpp], with the C functions that
    subscribe and wait, [src/clkmgr/client/clockmanager_c.cpp].  The events are those
    of ClkEvent.v.  [None] as the result of a C function is the use of a null
    pointer.  The theorems: a client reads the identity of the grandmaster as the
    message library prints it, and what a C program reads after a wait is the state of
    its time base. *)

From S2P Require Import Prelude CStr Types Structs Bin Text ClkEvent ClkConfig ClkMsg ClkProxy ClkClient ClkRound ClkPtp4l ClkPtp4lFacts.

#[local] Open Scope list_scope.

(** ** The classes *)

Definition getNotificationTimestamp (e : ClockEventBase) : Z := notificationTimestamp e.
Definition getClockOffset (e : ClockEventBase) : Z := clockOffset e.
Definition getGmIdentity (e : ClockEventBase) : Z := gmClockUUID e.
(** The octets of the identity, the highest first. *)
Definition gm_octets (uuid : Z) : list byte :=
  map (fun i => z2b (Z.land (Z.shiftr uuid (8 * (7 - Z.of_nat i))) 0xff)) (seq 0 8).
Definition getGmIdentityStr (e : ClockEventBase) : list byte :=
  match map hex_octet (gm_octets (gmClockUUID e)) with
  | [o0; o1; o2; o3; o4; o5; o6; o7] =>
      o0 ++ o1 ++ o2 ++ bytes "." ++ o3 ++ o4 ++ bytes "." ++ o5 ++ o6 ++ o7
  | _ => []
  end.
Definition isOffsetInRange (e : ClockEventBase) : bool := offsetInRange e.
Definition isGmChanged (e : ClockEventBase) : bool := gmChanged e.
Definition getSyncInterval (e : ClockEventBase) : Z := syncInterval e.
Definition getOffsetInRangeEventCount (e : ClockEventBase) : Z := offsetInRangeCount e.
Definition getGmChangedEventCount (e : ClockEventBase) : Z := gmChangedCount e.

Definition isSyncedWithGm (e : PTPClockEvent) : bool := syncedWithGm e.
Definition isAsCapable (e : PTPClockEvent) : bool := asCapable e.
Definition isCompositeEventMet (e : PTPClockEvent) : bool := compositeEvent e.
Definition getSyncedWithGmEventCount (e : PTPClockEvent) : Z := syncedWithGmCount e.
Definition getAsCapableEventCount (e : PTPClockEvent) : Z := asCapableCount e.
Definition getCompositeEventCount (e : PTPClockEvent) : Z := compositeEventCount e.

Definition havePTP (d : ClockSyncData) : bool := ptpAvailable d.
Definition csd_getPtp (d : ClockSyncData) : PTPClockEvent := ptpClockSync d.
Definition haveSys (d : ClockSyncData) : bool := sysAvailable d.
Definition getSysClock (d : ClockSyncData) : ClockEventBase := sysClockSync d.

(** ** The C interface *)

Definition clkmgr_constructClockSyncDataInstance : ClockSyncData :=
  mk_csd ptpev_default event_default false false.

(** The functions that need the object. *)
Definition clkmgr_havePtpData (data_c : option ClockSyncData) : option bool := havePTP <$> data_c.
Definition clkmgr_haveSysData (data_c : option ClockSyncData) : option bool := haveSys <$> data_c.
Definition clkmgr_isPtpSyncedWithGm (data_c : option ClockSyncData) : option bool :=
  d ← data_c; Some (isSyncedWithGm (csd_getPtp d)).
Definition clkmgr_getPtpSyncedWithGmEventCount (data_c : option ClockSyncData) : option Z :=
  d ← data_c; Some (getSyncedWithGmEventCount (csd_getPtp d)).
Definition clkmgr_isPtpAsCapable (data_c : option ClockSyncData) : option bool :=
  d ← data_c; Some (isAsCapable (csd_getPtp d)).
Definition clkmgr_getPtpAsCapableEventCount (data_c : option ClockSyncData) : option Z :=
  d ← data_c; Some (getAsCapableEventCount (csd_getPtp d)).
Definition clkmgr_isPtpCompositeEventMet (data_c : option ClockSyncData) : option bool :=
  d ← data_c; Some (isCompositeEventMet (csd_getPtp d)).
Definition clkmgr_getPtpCompositeEventCount (data_c : option ClockSyncData) : option Z :=
  d ← data_c; Some (getCompositeEventCount (csd_getPtp d)).

(** The functions that take any pointer and any number of a clock: the switch over
    [clock_type]. *)
Definition by_clock {A} (get : ClockEventBase -> A) (no : A)
    (data_c : option ClockSyncData) (clock_type : Z) : A :=
  match data_c with
  | None => no
  | Some d =>
      if clock_type =? ClockType_val PTPClock then get (ev (csd_getPtp d))
      else if clock_type =? ClockType_val SysClock then get (getSysClock d)
      else no
  end.
Definition clkmgr_getClockOffset : option ClockSyncData -> Z -> Z := by_clock getClockOffset 0.
Definition clkmgr_isOffsetInRange : option ClockSyncData -> Z -> bool := by_clock isOffsetInRange false.
Definition clkmgr_getOffsetInRangeEventCount : option ClockSyncData -> Z -> Z :=
  by_clock getOffsetInRangeEventCount 0.
Definition clkmgr_getSyncInterval : option ClockSyncData -> Z -> Z := by_clock getSyncInterval 0.
Definition clkmgr_getGmIdentity : option ClockSyncData -> Z -> Z := by_clock getGmIdentity 0.
Definition clkmgr_isGmChanged : option ClockSyncData -> Z -> bool := by_clock isGmChanged false.
Definition clkmgr_getGmChangedEventCount : option ClockSyncData -> Z -> Z := by_clock getGmChangedEventCount 0.
Definition clkmgr_getNotificationTimestamp : option ClockSyncData -> Z -> Z :=
  by_clock getNotificationTimestamp 0.

(** [clkmgr_subscribe]: the subscription that [ClockManager::subscribe] is called
    with; [None] is the refusal. *)
Definition clkmgr_newSub (c : Clkmgr_Subscription) : ClockSyncSubscription :=
  let newSub := syncsub_default in
  let newSub := if clkmgr_isSubscriptionEnabled PTPClock c then setPtpSubscription (c_ptp c) newSub else newSub in
  if clkmgr_isSubscriptionEnabled SysClock c then setSysSubscription (c_sys c) newSub else newSub.
Definition clkmgr_subscribe (sub_c : option Clkmgr_Subscription) (timeBaseIndex : Z)
    (data_c : option ClockSyncData) : option ClockSyncSubscription :=
  match sub_c, data_c with
  | Some c, Some _ => if timeBaseIndex =? 0 then None else Some (clkmgr_newSub c)
  | _, _ => None
  end.

(** The time the call takes is in [rounds], as for [statusWait]; [None] still
    waits. *)
Definition clkmgr_statusWait (timeBaseIndex : Z) (rounds : list between) (c : ClientState)
    (data_c : option ClockSyncData) : option (StatusWaitResult * option ClockSyncData * ClientState) :=
  match data_c with
  | None => Some (SWRInvalidArgument, None, c)
  | Some d =>
      if timeBaseIndex =? 0 then Some (SWRInvalidArgument, Some d, c)
      else r ← statusWait timeBaseIndex rounds c d;
           let '(res, d, c) := r in Some (res, Some d, c)
  end.
Definition clkmgr_statusWaitByName (name : list byte) (rounds : list between) (c : ClientState)
    (data_c : option ClockSyncData) : option (StatusWaitResult * option ClockSyncData * ClientState) :=
  match data_c with
  | None => Some (SWRInvalidArgument, None, c)
  | Some d =>
      match BaseNameToBaseIndex name (cl_cfgs c) with
      | Some i => clkmgr_statusWait i rounds c (Some d)
      | None => Some (SWRInvalidArgument, Some d, c)
      end
  end.

(** ** The identity *)

Lemma octet_below uuid k : 0 <= k -> z2b (Z.land (Z.shiftr uuid k) 0xff) = z2b (uuid / 2 ^ k).
Proof.
  intros K. change 0xff with (Z.ones 8). rewrite Z.land_ones, Z.shiftr_div_pow2 by lia.
  apply b2z_inj. rewrite !b2z_z2b. change (2 ^ 8) with 256. by rewrite Z.mod_mod.
Qed.
Lemma gm_octets_enc uuid : gm_octets uuid = be_enc 8 uuid.
Proof.
  unfold gm_octets, be_enc. cbn [seq map le_enc rev app]. rewrite !octet_below by lia.
  rewrite !Z.div_div by lia. change (2 ^ (8 * (7 - Z.of_nat 7))) with 1. by rewrite Z.div_1_r.
Qed.

(** A client reads the identity of the grandmaster as the message library prints the
    [ClockIdentity] that the event was made of, whether it was the grandmaster of a
    [TIME_STATUS_NP] or the clock itself. *)
Theorem gm_text_same e d : wf_ClockIdentity d -> gmClockUUID e = uuid_of d ->
  getGmIdentityStr e = ClockIdentity_string d.
Proof.
  intros Wf E. unfold getGmIdentityStr. rewrite E, uuid_of_be, gm_octets_enc by done.
  unfold wf_ClockIdentity in Wf. rewrite <- Wf, be_enc_dec. unfold ClockIdentity_string.
  destruct d as [v]. cbn [ci_v] in *. do 8 (destruct v as [|? v]; [done|]). by destruct v.
Qed.
Lemma gm_text_same_witness :
  getGmIdentityStr (setGmIdentity 0x0001020304050607 event_default)
    = ClockIdentity_string (mk_ClockIdentity [x00; x01; x02; x03; x04; x05; x06; x07]) /\
  getGmIdentityStr (setGmIdentity 0x0001020304050607 event_default) = bytes "000102.0304.050607".
Proof.
  split; [apply gm_text_same; [reflexivity|vm_compute; reflexivity]|vm_compute; reflexivity].
Defined.

(** ** What a C program reads *)

(** The values that the C functions give of a clock are those of its event. *)
Definition reads_clock (d : option ClockSyncData) (clock_type : Z) (e : ClockEventBase) : Prop :=
  clkmgr_getClockOffset d clock_type = clockOffset e /\
  clkmgr_isOffsetInRange d clock_type = offsetInRange e /\
  clkmgr_getOffsetInRangeEventCount d clock_type = offsetInRangeCount e /\
  clkmgr_getSyncInterval d clock_type = syncInterval e /\
  clkmgr_getGmIdentity d clock_type = gmClockUUID e /\
  clkmgr_isGmChanged d clock_type = gmChanged e /\
  clkmgr_getGmChangedEventCount d clock_type = gmChangedCount e /\
  clkmgr_getNotificationTimestamp d clock_type = notificationTimestamp e.
Definition reads_ptp (d : option ClockSyncData) (e : PTPClockEvent) : Prop :=
  reads_clock d (ClockType_val PTPClock) (ev e) /\
  clkmgr_isPtpSyncedWithGm d = Some (syncedWithGm e) /\
  clkmgr_getPtpSyncedWithGmEventCount d = Some (syncedWithGmCount e) /\
  clkmgr_isPtpAsCapable d = Some (asCapable e) /\
  clkmgr_getPtpAsCapableEventCount d = Some (asCapableCount e) /\
  clkmgr_isPtpCompositeEventMet d = Some (compositeEvent e) /\
  clkmgr_getPtpCompositeEventCount d = Some (compositeEventCount e).
(** After [updateAll] with a state, over what was read before. *)
Definition reads_state (d : option ClockSyncData) (s : TimeBaseState) (before : ClockSyncData) : Prop :=
  clkmgr_havePtpData d = Some (havePtPData s) /\ clkmgr_haveSysData d = Some (haveSysData s) /\
  reads_ptp d (if havePtPData s then ptpEventState s else ptpClockSync before) /\
  reads_clock d (ClockType_val SysClock) (if haveSysData s then sysEventState s else sysClockSync before).

Lemma update_reads s d : reads_state (Some (updateAll s d)) s d.
Proof. repeat split. Qed.

(** A C program that waits by the name of a time base, connected and subscribed:
    the wait ends once the time is over with what the C++ class gives; on an event,
    and when the time ended without one, every value that the C functions read is
    of the state that the last round saw, and the values of a clock that the state
    has no data of are those that were read before. *)
Theorem c_wait_reads name i rounds c data :
  BaseNameToBaseIndex name (cl_cfgs c) = Some i -> i <> 0 ->
  m_connected c = true -> getSubscribed i (cl_states c) = true ->
  Exists (fun r => bw_over r = true) rounds ->
  exists res data' c', clkmgr_statusWaitByName name rounds c (Some data) = Some (res, Some data', c') /\
    statusWaitByName name rounds c data = Some (res, data', c') /\
    match res with
    | SWREventDetected | SWRNoEventDetected => exists rs c1 s, waits i rounds c rs c1 /\ sees i c1 s /\
        reads_state (Some data') s data
    | SWRLostConnection | SWRInvalidArgument => data' = data
    end.
Proof.
  intros N I C S X. destruct (loop_result i data rounds c X) as (res & data' & c' & L & R).
  exists res, data', c'. unfold clkmgr_statusWaitByName, clkmgr_statusWait, statusWaitByName, statusWait.
  apply Z.eqb_neq in I. rewrite N, I, C, S, L. do 2 (split; [done|]). destruct res; cbn in R.
  - by destruct R as [-> _].
  - by destruct R as [-> _].
  - destruct R as (r & rs & c1 & s & W & _ & Se & _ & -> & _). exists (r :: rs), c1, s.
    split; [done|]. split; [done|]. apply update_reads.
  - destruct R as (rs & c1 & s & W & Se & _ & -> & _). exists rs, c1, s.
    split; [done|]. split; [done|]. apply update_reads.
Qed.

Definition named_subscriber : ClientState :=
  mk_ClientState (m_clientID a_subscriber) (cl_sessionId a_subscriber) (m_connected a_subscriber)
    (addTimeBaseCfg (mk_cfg 1 (name_array (bytes "G")) no_name 0 0 true false) []) (cl_states a_subscriber).
Lemma c_wait_reads_witness : exists res data' c',
  clkmgr_statusWaitByName (bytes "G") two_rounds named_subscriber
    (Some clkmgr_constructClockSyncDataInstance) = Some (res, Some data', c').
Proof.
  destruct (c_wait_reads (bytes "G") 1 two_rounds named_subscriber clkmgr_constructClockSyncDataInstance)
    as (res & data' & c' & E & _); [vm_compute; reflexivity|lia|reflexivity|vm_compute; reflexivity
    |unfold two_rounds; right; left; reflexivity|].
  exists res, data', c'. exact E.
Defined.
