(* ===== verification/ClkQueue.v ===== *)
(** * ClkQueue.v: message queues, the listener and its thread

    [Queue], [Listener] and [Transmitter] of [src/clkmgr/common/msgq_tport.cpp], the
    end of a process, [End::stopAll] of [src/clkmgr/common/termin.cpp], and what a
    client does with them, [ClientState::init] and [ClockManager::disconnect].  The
    calls of the system are the class [MqOs]; what a message does is [MqListenerWork]
    of ClkMsg.v. *)

From S2P Require Import Prelude CStr ClkMsg ClkProxy.

#[local] Open Scope list_scope.

(** What a [mq_receive] ends with. *)
Inductive received := mq_failed | mq_interrupted | mq_message (msg : list byte).
(** The calls of a POSIX message queue; [-1] is no descriptor.  The mode of a queue
    that is created lets others write when the flag is set. *)
Class MqOs (W : Type) := {
  mq_create : list byte -> Z -> bool -> W -> Z * W;
  mq_attach : list byte -> bool -> W -> Z * W;
  mq_close : Z -> W -> bool * W;
  mq_unlink : list byte -> W -> bool * W;
  mq_send : Z -> list byte -> W -> bool * W;
  mq_receive : Z -> Z -> W -> received * W
}.

(** ** Queues *)

Definition invalidMq : Z := -1.
Record Queue := mk_queue { mq : Z; rx : bool; q_name : list byte; q_clientId : list byte }.
Definition Queue_new : Queue := mk_queue invalidMq false [] [].
Definition set_mq (fd : Z) (q : Queue) : Queue := mk_queue fd (rx q) (q_name q) (q_clientId q).
Definition exist (q : Queue) : bool := negb (mq q =? invalidMq).

Section Queues.
Context {W : Type} `{MqOs W}.

Definition RxOpen (n : list byte) (maxMsg : Z) (allRx : bool) (q : Queue) (w : W) : bool * (Queue * W) :=
  let '(fd, w) := mq_create n maxMsg allRx w in
  let q := set_mq fd q in
  if exist q then (true, (mk_queue (mq q) true n n, w)) else (false, (q, w)).
Definition TxOpen (n : list byte) (block : bool) (q : Queue) (w : W) : bool * (Queue * W) :=
  let '(fd, w) := mq_attach n block w in
  let q := set_mq fd q in
  if exist q then (true, (mk_queue (mq q) (rx q) (q_name q) n, w)) else (false, (q, w)).
Definition q_send (msg : list byte) (q : Queue) (w : W) : bool * W :=
  if exist q && negb (rx q) then mq_send (mq q) msg w else (false, w).
(** [-1] without a queue to receive from: [errno] is of an earlier call. *)
Definition q_receive (length : Z) (q : Queue) (w : W) : received * W :=
  if exist q && rx q then mq_receive (mq q) length w else (mq_failed, w).
Definition q_remove (q : Queue) (w : W) : bool * (Queue * W) :=
  if bool_decide (q_name q = []) then (false, (q, w))
  else let '(ok, w) := mq_unlink (q_name q) w in
       if ok then (true, (mk_queue (mq q) (rx q) [] (q_clientId q), w)) else (false, (q, w)).
Definition q_close (q : Queue) (w : W) : bool * (Queue * W) :=
  if exist q then
    let '(ok, w) := mq_close (mq q) w in
    if ok then (true, (set_mq invalidMq q, w)) else (false, (q, w))
  else (false, (q, w)).
(** [close(); remove();]: the destructor, and the start of an assignment. *)
Definition q_end (q : Queue) (w : W) : Queue * W :=
  let '(q, w) := snd (q_close q w) in snd (q_remove q w).
(** The move constructor and the move assignment: the object that is made, and what
    is left of the other. *)
Definition moved_from (other : Queue) : Queue := mk_queue invalidMq false [] (q_clientId other).
Definition Queue_move (other : Queue) : Queue * Queue :=
  (mk_queue (mq other) (rx other) (q_name other) [], moved_from other).
Definition Queue_assign (self other : Queue) (w : W) : Queue * Queue * W :=
  let '(self, w) := q_end self w in
  (mk_queue (mq other) (rx other) (q_name other) (q_clientId self), moved_from other, w).

(** ** Transmitters *)

Definition Transmitter_open (n : list byte) (block : bool) (q : Queue) (w : W) : bool * (Queue * W) :=
  TxOpen n block q w.
Definition sendBuffer (b : Buffer) (q : Queue) (w : W) : bool * W := q_send (sent b) q w.
Definition Transmitter_finalize (q : Queue) (w : W) : bool * (Queue * W) := q_close q w.

(** ** The listener *)

(** [m_promise] is the value that the thread left; the future is made once. *)
Record Listener := mk_listener {
  m_listenerQueue : Queue; m_promise : option bool; m_exitVal : bool; m_joinable : bool
}.
Definition Listener_new : Listener := mk_listener Queue_new None false false.
Definition set_queue (q : Queue) (l : Listener) : Listener :=
  mk_listener q (m_promise l) (m_exitVal l) (m_joinable l).
Definition set_exit (l : Listener) : Listener :=
  mk_listener (m_listenerQueue l) (m_promise l) true (m_joinable l).
Definition set_joinable (v : bool) (l : Listener) : Listener :=
  mk_listener (m_listenerQueue l) (m_promise l) (m_exitVal l) v.
Definition isFutureSet (l : Listener) : bool := bool_decide (is_Some (m_promise l)).

(** The thread still runs, ended, or an exception that nothing takes ended the
    process: a promise takes one value, [set_value_at_thread_exit] throws for a
    second one. *)
Inductive outcome (A : Type) := Runs (a : A) | Ended (a : A) | Terminated.
#[global] Arguments Runs {A} a.
#[global] Arguments Ended {A} a.
#[global] Arguments Terminated {A}.
Definition thread_exit (v : bool) (l : Listener) : option Listener :=
  match m_promise l with
  | None => Some (mk_listener (m_listenerQueue l) (Some v) (m_exitVal l) (m_joinable l))
  | Some _ => None
  end.

(** [stop] and [finalize], which [stopAll] calls.  [signalled] is the result of the
    signal; [in_time] tells whether the thread ends in [EXIT_TIMEOUT]. *)
Definition Listener_stop (signalled : bool) (l : Listener) : bool * Listener :=
  let l := set_exit l in if isFutureSet l then (true, l) else (signalled, l).
Definition Listener_finalize (l : Listener) (w : W) : bool * (Listener * W) :=
  if negb (isFutureSet l) then (false, (l, w))
  else
    let l := set_joinable false l in
    let '(q, w) := snd (q_close (m_listenerQueue l) w) in
    let '(q, w) := snd (q_remove q w) in
    (true, (set_queue q l, w)).
(** [init] up to the start of the thread, and after it. *)
Definition Listener_open (n : list byte) (maxMsg : Z) (allRx : bool) (l : Listener) (w : W)
    : bool * (Listener * W) :=
  let '(ok, (q, w)) := RxOpen n maxMsg allRx (m_listenerQueue l) w in
  if ok then (true, (set_joinable true (set_queue q l), w)) else (false, (set_queue q l, w)).
Definition Listener_started (l : Listener) : bool * Listener :=
  if isFutureSet l then (false, set_joinable false l) else (true, l).

(** One round of the loop: what was received, and whether another thread asked for
    the end meanwhile. *)
Record round := mk_round { r_received : received; r_stop : bool }.
Section Loop.
Context {St : Type} `{Side St} `{Queues}.

(** [MqListenerWork] with its call of the queue; [None] is outside the buffer. *)
Definition listener_work (r : received) (s : St * Buffer)
    : option (bool * option (Z * list byte) * (St * Buffer)) :=
  match r with
  | mq_failed => Some (false, None, s)
  | mq_interrupted => Some (true, None, s)
  | mq_message msg =>
      x ← MqListenerWork msg s;
      let '(a, s) := x in
      Some (match a with Some answer => (true, answer, s) | None => (false, None, s) end)
  end.
Definition asked_to_stop (r : round) (l : Listener) : Listener := if r_stop r then set_exit l else l.
Definition loop_end {A} (v : bool) (l : Listener) (a : A) : outcome (Listener * A) :=
  match thread_exit v l with Some l => Ended (l, a) | None => Terminated end.
(** [dispatchLoop]; the result holds the answers that were sent. *)
Fixpoint dispatchLoop (rounds : list round) (l : Listener) (s : St * Buffer) (answers : list (Z * list byte))
    : option (outcome (Listener * (St * Buffer * list (Z * list byte)))) :=
  if m_exitVal l then Some (loop_end true l (s, answers))
  else match rounds with
       | [] => Some (Runs (l, (s, answers)))
       | r :: rounds =>
           match listener_work (r_received r) s with
           | None => None
           | Some (ok, answer, s) =>
               let answers := answers ++ from_option (fun a => [a]) [] answer in
               let l := asked_to_stop r l in
               if ok : bool then dispatchLoop rounds l s answers else Some (loop_end false l (s, answers))
           end
       end.
End Loop.
End Queues.

(** ** The end of a process *)

(** [End::stopAll] over the objects: all are stopped, then those whose [stop] was
    true are finalized while the result is true. *)
Section StopAll.
Context {E W : Type} (e_stop e_finalize : E -> W -> bool * W).

Fixpoint stop_each (all : list E) (ret : bool) (w : W) : bool * list (E * bool) * W :=
  match all with
  | [] => (ret, [], w)
  | e :: all =>
      let '(stopPass, w) := e_stop e w in
      let '(ret, passed, w) := stop_each all (ret && stopPass) w in
      (ret, (e, stopPass) :: passed, w)
  end.
Fixpoint finalize_each (passed : list (E * bool)) (ret : bool) (w : W) : bool * W :=
  match passed with
  | [] => (ret, w)
  | (e, stopPass) :: passed =>
      if stopPass && ret then
        let '(done, w) := e_finalize e w in finalize_each passed done w
      else finalize_each passed ret w
  end.
Definition stopAll (all : list E) (w : W) : bool * W :=
  let '(ret, passed, w) := stop_each all true w in finalize_each passed ret w.
End StopAll.

(** ** A client *)

(** The queue to the proxy, the listener and [doInit] of a client. *)
Record Endpoint := mk_endpoint { txContext : Queue; e_listener : Listener; doInit : bool }.
Definition Endpoint_new : Endpoint := mk_endpoint Queue_new Listener_new false.

Section Client.
Context {W : Type} `{MqOs W} (mqProxyName own_name : list byte).

(** [ClientState::init] up to the start of the thread of the listener. *)
Definition ClientState_init (e : Endpoint) (w : W) : bool * (Endpoint * W) :=
  let '(ok, (q, w)) := Transmitter_open mqProxyName true (txContext e) w in
  let e := mk_endpoint q (e_listener e) (doInit e) in
  if negb ok then (false, (e, w))
  else
    let '(ok, (l, w)) := Listener_open own_name 2 false (e_listener e) w in
    (ok, (mk_endpoint (txContext e) l (doInit e), w)).
(** [ClockManager::disconnect]: [connected] tells whether the proxy knows the client,
    and [notified] whether the disconnect message was sent to it.  The listener is the
    one object that [stopAll] ends. *)
Definition disconnect (connected notified signalled : bool) (e : Endpoint) (w : W) : bool * (Endpoint * W) :=
  if negb (doInit e) then (true, (e, w))
  else if connected && negb notified then (false, (e, w))
  else
    let '(ok, (l, w)) := stopAll
      (fun _ s => let '(ok, l) := Listener_stop signalled s.1 in (ok, (l, s.2)))
      (fun _ s => Listener_finalize s.1 s.2) [tt] (e_listener e, w) in
    (ok, (mk_endpoint (txContext e) l (if ok then false else doInit e), w)).
End Client.

(** * What the queues and the listener do

    Every descriptor of a queue is kept by one object, and is closed with it; the queue
    that an object created goes with it.  One message that the proxy cannot handle ends
    its listener.  A client that connects again after it disconnected loses a
    descriptor and ends its process.  What [stopAll] leaves out. *)

(** The descriptors of the process, and the queues that it created and did not
    remove. *)
Class MqView (W : Type) := { mqs : W -> gset Z; mq_names : W -> gset (list byte) }.
Class MqLaws (W : Type) `{MqOs W} `{MqView W} : Prop := {
  law_create n maxMsg allRx w : let '(fd, w') := mq_create n maxMsg allRx w in
    if fd =? invalidMq then mqs w' = mqs w /\ mq_names w' = mq_names w
    else n <> [] /\ (fd ∉ mqs w) /\ mqs w' = ({[fd]} ∪ mqs w) /\ mq_names w' = ({[n]} ∪ mq_names w);
  law_attach n block w : let '(fd, w') := mq_attach n block w in
    mq_names w' = mq_names w /\
    if fd =? invalidMq then mqs w' = mqs w else (fd ∉ mqs w) /\ mqs w' = ({[fd]} ∪ mqs w);
  law_mq_close fd w : fd ∈ mqs w ->
    fst (mq_close fd w) = true /\ mqs (snd (mq_close fd w)) = (mqs w ∖ {[fd]}) /\
    mq_names (snd (mq_close fd w)) = mq_names w;
  law_mq_unlink n w : mqs (snd (mq_unlink n w)) = mqs w /\ mq_names (snd (mq_unlink n w)) = (mq_names w ∖ {[n]});
  law_mq_send fd msg w : mqs (snd (mq_send fd msg w)) = mqs w /\ mq_names (snd (mq_send fd msg w)) = mq_names w;
  law_mq_receive fd n w : mqs (snd (mq_receive fd n w)) = mqs w /\ mq_names (snd (mq_receive fd n w)) = mq_names w
}.

(** ** Queues *)

(** What an object keeps, and what objects keep. *)
Definition q_fd (q : Queue) : list Z := if exist q then [mq q] else [].
Definition held (qs : list Queue) : list Z := flat_map q_fd qs.

Section Facts.
Context {W : Type} `{MqLaws W}.

Definition fds_are (l : list Z) (w : W) : Prop := NoDup l /\ forall fd, fd ∈ mqs w <-> fd ∈ l.
Definition names_in (ns : list (list byte)) (w : W) : Prop := forall n, n ∈ mq_names w -> n <> [] /\ n ∈ ns.

#[global] Instance fds_are_proper : Proper ((≡ₚ) ==> (=) ==> iff) fds_are.
Proof. intros l l' P w w' ->. unfold fds_are. by setoid_rewrite P. Qed.
#[global] Instance names_in_proper : Proper ((≡ₚ) ==> (=) ==> iff) names_in.
Proof. intros l l' P w w' ->. unfold names_in. by setoid_rewrite P. Qed.

Lemma fds_same l w w' : mqs w' = mqs w -> fds_are l w -> fds_are l w'.
Proof. unfold fds_are. by intros ->. Qed.
Lemma names_same ns w w' : mq_names w' = mq_names w -> names_in ns w -> names_in ns w'.
Proof. unfold names_in. by intros ->. Qed.
Lemma names_more m ns w : names_in ns w -> names_in (m :: ns) w.
Proof. intros N n I. destruct (N n I). split; [done|by right]. Qed.
Lemma names_less ns w : names_in ([] :: ns) w -> names_in ns w.
Proof. intros N n I. destruct (N n I) as [E J]. apply elem_of_cons in J as [?|?]; done. Qed.
Lemma fds_fresh fd l w w' : fd ∉ mqs w -> mqs w' = {[fd]} ∪ mqs w -> fds_are l w -> fds_are (fd :: l) w'.
Proof.
  intros F E [N I]. split; [constructor; [by rewrite <- I|done]|]. intros x.
  by rewrite E, elem_of_union, elem_of_singleton, elem_of_cons, I.
Qed.
Lemma fds_closed fd l w w' : mqs w' = mqs w ∖ {[fd]} -> fds_are (fd :: l) w -> fds_are l w'.
Proof.
  intros E [N I]. apply NoDup_cons in N as [F N]. split; [done|]. intros x.
  rewrite E, elem_of_difference, elem_of_singleton, I, elem_of_cons. split; [tauto|].
  intros X. split; [by right|]. by intros ->.
Qed.

(** The operations over one object, with the descriptors [l] and the names [ns] of the
    others. *)
Lemma RxOpen_ok n maxMsg allRx q w l ns : fds_are l w -> names_in ns w ->
  let '(ok, (q', w')) := RxOpen n maxMsg allRx q w in
  fds_are (q_fd q' ++ l) w' /\ names_in (q_name q' :: ns) w' /\ exist q' = ok.
Proof.
  intros F N. unfold RxOpen. pose proof (law_create n maxMsg allRx w) as L.
  destruct (mq_create n maxMsg allRx w) as [fd w1]. unfold exist. cbn [mq set_mq].
  destruct (fd =? invalidMq) eqn:E; cbn [negb]; unfold q_fd, exist; cbn [mq set_mq q_name]; rewrite E; cbn.
  - destruct L as [L1 L2]. split; [by apply (fds_same _ w)|]. split; [|done]. apply names_more. by apply (names_same _ w).
  - destruct L as (Ne & Fr & L1 & L2). split; [by apply (fds_fresh _ _ w)|]. split; [|done].
    intros m. rewrite L2, elem_of_union, elem_of_singleton. intros [->|I]; [split; [done|by left]|].
    destruct (N m I). split; [done|by right].
Qed.
Lemma TxOpen_ok n block q w l ns : fds_are l w -> names_in (q_name q :: ns) w ->
  let '(ok, (q', w')) := TxOpen n block q w in
  fds_are (q_fd q' ++ l) w' /\ names_in (q_name q' :: ns) w' /\ exist q' = ok.
Proof.
  intros F N. unfold TxOpen. pose proof (law_attach n block w) as L.
  destruct (mq_attach n block w) as [fd w1]. destruct L as [L2 L]. unfold exist. cbn [mq set_mq].
  destruct (fd =? invalidMq) eqn:E; cbn [negb]; unfold q_fd, exist; cbn [mq set_mq q_name]; rewrite E; cbn.
  - split; [by apply (fds_same _ w)|]. split; [by apply (names_same _ w)|done].
  - destruct L as (Fr & L1). split; [by apply (fds_fresh _ _ w)|]. split; [by apply (names_same _ w)|done].
Qed.
Lemma q_close_ok q w l ns : fds_are (q_fd q ++ l) w -> names_in (q_name q :: ns) w ->
  let '(_, (q', w')) := q_close q w in
  q_fd q' = [] /\ fds_are l w' /\ names_in (q_name q' :: ns) w' /\ q_name q' = q_name q.
Proof.
  intros F N. unfold q_close. unfold q_fd in F. destruct (exist q) eqn:E; [|by unfold q_fd; rewrite E].
  cbn in F. destruct (law_mq_close (mq q) w) as (L1 & L2 & L3); [apply F; left|].
  destruct (mq_close (mq q) w) as [ok w1]. cbn in *. subst ok.
  split; [done|]. split; [by apply (fds_closed (mq q) _ w)|]. split; [by apply (names_same _ w)|done].
Qed.
Lemma q_remove_ok q w l ns : fds_are l w -> names_in (q_name q :: ns) w ->
  let '(_, (q', w')) := q_remove q w in
  q_fd q' = q_fd q /\ fds_are l w' /\ names_in ns w'.
Proof.
  intros F N. unfold q_remove. case_bool_decide as B.
  { rewrite B in N. split; [done|]. split; [done|]. by apply names_less. }
  pose proof (law_mq_unlink (q_name q) w) as [L1 L2]. destruct (mq_unlink (q_name q) w) as [ok w1]. cbn in *.
  assert (names_in ns w1) as N'.
  { intros m. rewrite L2, elem_of_difference, elem_of_singleton. intros [I D]. destruct (N m I) as [E J].
    split; [done|]. apply elem_of_cons in J as [?|?]; done. }
  destruct ok; (split; [done|]; split; [by apply (fds_same _ w)|done]).
Qed.
(** The destructor: nothing of the object is left. *)
Lemma q_end_ok q w l ns : fds_are (q_fd q ++ l) w -> names_in (q_name q :: ns) w ->
  let '(q', w') := q_end q w in q_fd q' = [] /\ fds_are l w' /\ names_in ns w'.
Proof.
  intros F N. unfold q_end. pose proof (q_close_ok q w l ns F N) as C.
  destruct (q_close q w) as [ok [q1 w1]]. cbn. destruct C as (C1 & C2 & C3 & C4).
  pose proof (q_remove_ok q1 w1 l ns C2 C3) as R. destruct (q_remove q1 w1) as [ok' [q2 w2]]. cbn.
  destruct R as (R1 & R2 & R3). split; [congruence|done].
Qed.

(** ** Programs *)

(** The objects of a program, in the order they are made; one that ended is a new one
    again. *)
Definition q_inv (qs : list Queue) (w : W) : Prop := fds_are (held qs) w /\ names_in (q_name <$> qs) w.

(** A queue is opened when it is closed, and created by an object without a name: an
    open one would lose what it has. *)
Inductive q_step : list Queue * W -> list Queue * W -> Prop :=
| step_make qs w : q_step (qs, w) (qs ++ [Queue_new], w)
| step_rx qs w i q n maxMsg allRx : qs !! i = Some q -> exist q = false -> q_name q = [] ->
    q_step (qs, w) (<[i := fst (snd (RxOpen n maxMsg allRx q w))]> qs, snd (snd (RxOpen n maxMsg allRx q w)))
| step_tx qs w i q n block : qs !! i = Some q -> exist q = false ->
    q_step (qs, w) (<[i := fst (snd (TxOpen n block q w))]> qs, snd (snd (TxOpen n block q w)))
| step_send qs w i q msg : qs !! i = Some q -> q_step (qs, w) (qs, snd (q_send msg q w))
| step_receive qs w i q n : qs !! i = Some q -> q_step (qs, w) (qs, snd (q_receive n q w))
| step_remove qs w i q : qs !! i = Some q ->
    q_step (qs, w) (<[i := fst (snd (q_remove q w))]> qs, snd (snd (q_remove q w)))
| step_close qs w i q : qs !! i = Some q ->
    q_step (qs, w) (<[i := fst (snd (q_close q w))]> qs, snd (snd (q_close q w)))
| step_end qs w i q : qs !! i = Some q -> q_step (qs, w) (<[i := Queue_new]> qs, snd (q_end q w))
| step_move qs w i q : qs !! i = Some q ->
    q_step (qs, w) (<[i := snd (Queue_move q)]> qs ++ [fst (Queue_move q)], w)
| step_assign qs w i j self other self' other' w' : qs !! i = Some self -> qs !! j = Some other -> i <> j ->
    Queue_assign self other w = (self', other', w') ->
    q_step (qs, w) (<[j := other']> (<[i := self']> qs), w').
Fixpoint end_all (qs : list Queue) (w : W) : W :=
  match qs with [] => w | q :: qs => end_all qs (snd (q_end q w)) end.

Lemma held_app a b : held (a ++ b) = held a ++ held b.
Proof. apply flat_map_app. Qed.
Lemma at_middle (qs : list Queue) i q : qs !! i = Some q ->
  exists rest, qs ≡ₚ q :: rest /\ forall q', <[i := q']> qs ≡ₚ q' :: rest.
Proof.
  intros E. exists (take i qs ++ drop (S i) qs). apply lookup_lt_Some in E as L. split.
  - rewrite <- (take_drop_middle qs i q E) at 1. by rewrite Permutation_middle.
  - intros q'. rewrite insert_take_drop by done. by rewrite Permutation_middle.
Qed.
#[global] Instance held_proper : Proper ((≡ₚ) ==> (≡ₚ)) held.
Proof. intros a b P. unfold held. induction P; cbn; [done|by apply Permutation_app_head| |by etrans].
  rewrite !app_assoc. apply Permutation_app_tail, Permutation_app_comm. Qed.
#[global] Instance q_inv_proper : Proper ((≡ₚ) ==> (=) ==> iff) q_inv.
Proof. intros a b P w w' ->. unfold q_inv. by rewrite P. Qed.

(** One object changes, with what the others have. *)
Lemma change_one qs w i q q' w' : qs !! i = Some q -> q_inv qs w ->
  (forall l ns, fds_are (q_fd q ++ l) w -> names_in (q_name q :: ns) w ->
     fds_are (q_fd q' ++ l) w' /\ names_in (q_name q' :: ns) w') ->
  q_inv (<[i := q']> qs) w'.
Proof.
  intros E I K. destruct (at_middle qs i q E) as (rest & P & P'). rewrite P'. rewrite P in I.
  destruct I as [F N]. by apply K.
Qed.
Lemma same_world qs w w' : mqs w' = mqs w /\ mq_names w' = mq_names w -> q_inv qs w -> q_inv qs w'.
Proof. intros [A B] [F N]. split; [by apply (fds_same _ w)|by apply (names_same _ w)]. Qed.

(** What one object has goes to one that has nothing. *)
Lemma take_over qs w i j other self' : qs !! i = Some Queue_new -> qs !! j = Some other -> i <> j ->
  q_fd self' = q_fd other -> q_name self' = q_name other -> q_inv qs w ->
  q_inv (<[i := self']> (<[j := moved_from other]> qs)) w.
Proof.
  intros Ei Ej D Fd Nm I. destruct (at_middle qs j other Ej) as (r2 & P2 & P2').
  assert (<[j := moved_from other]> qs !! i = Some Queue_new) as Ei2 by (by rewrite list_lookup_insert_ne).
  destruct (at_middle _ i _ Ei2) as (r3 & P3 & P3'). rewrite P3', P2 in *. rewrite P2' in P3.
  assert (held r2 ≡ₚ held r3) as Ph by exact (held_proper _ _ P3).
  assert (q_name <$> r2 ≡ₚ q_name <$> r3) as Pn.
  { apply (fmap_Permutation q_name) in P3. cbn in P3. by apply Permutation_cons_inv in P3. }
  destruct I as [F N]. split.
  - change (fds_are (q_fd self' ++ held r3) w). by rewrite Fd, <- Ph.
  - change (names_in (q_name self' :: (q_name <$> r3)) w). by rewrite Nm, <- Pn.
Qed.

Lemma q_step_inv s s' : q_step s s' -> q_inv s.1 s.2 -> q_inv s'.1 s'.2.
Proof.
  intros St I. destruct St as [qs w|qs w i q n m a E C Nm|qs w i q n b E C|qs w i q msg E|qs w i q n E|qs w i q E
    |qs w i q E|qs w i q E|qs w i q E|qs w i j self other self' other' w' Ei Ej D A]; cbn in *.
  - destruct I as [F N]. split.
    + unfold held in *. rewrite flat_map_app. cbn. by rewrite app_nil_r.
    + rewrite fmap_app. cbn. intros x X. destruct (N x X). split; [done|]. apply elem_of_app. by left.
  - apply (change_one _ w _ q); [done|done|]. intros l ns F N.
    unfold q_fd in F. rewrite C in F. rewrite Nm in N.
    pose proof (RxOpen_ok n m a q w l ns F (names_less _ _ N)) as R.
    destruct (RxOpen n m a q w) as [ok [q' w']]. by destruct R as (? & ? & _).
  - apply (change_one _ w _ q); [done|done|]. intros l ns F N. unfold q_fd in F. rewrite C in F.
    pose proof (TxOpen_ok n b q w l ns F N) as R.
    destruct (TxOpen n b q w) as [ok [q' w']]. by destruct R as (? & ? & _).
  - apply (same_world _ w); [|done]. unfold q_send. destruct (exist q && negb (rx q)); [apply law_mq_send|done].
  - apply (same_world _ w); [|done]. unfold q_receive. destruct (exist q && rx q); [apply law_mq_receive|done].
  - apply (change_one _ w _ q); [done|done|]. intros l ns F N.
    pose proof (q_remove_ok q w _ ns F N) as R. destruct (q_remove q w) as [ok [q' w']].
    destruct R as (R1 & R2 & R3). cbn. rewrite R1. split; [done|by apply names_more].
  - apply (change_one _ w _ q); [done|done|]. intros l ns F N.
    pose proof (q_close_ok q w l ns F N) as R. destruct (q_close q w) as [ok [q' w']].
    destruct R as (R1 & R2 & R3 & _). cbn. by rewrite R1.
  - apply (change_one _ w _ q); [done|done|]. intros l ns F N.
    pose proof (q_end_ok q w l ns F N) as R. destruct (q_end q w) as [q' w']. destruct R as (R1 & R2 & R3).
    split; [done|by apply names_more].
  - destruct (at_middle qs i q E) as (rest & P & P'). rewrite Permutation_app_comm. cbn.
    rewrite P'. rewrite P in I. destruct I as [F N]. split; [exact F|]. intros x X.
    destruct (N x X) as [A B]. split; [done|]. cbn in *. apply elem_of_cons in B as [->|B]; [left|by right; right].
  - unfold Queue_assign in A. destruct (q_end self w) as [s1 w1] eqn:Q. injection A as <- <- <-.
    rewrite <- (list_insert_insert_eq qs i _ Queue_new), (list_insert_insert_ne _ j i) by congruence.
    apply (take_over _ _ i j other); [|by rewrite list_lookup_insert_ne|done|done|done|].
    + apply list_lookup_insert_eq. by apply lookup_lt_Some in Ei.
    + apply (change_one _ w _ self); [done|done|]. intros l ns F N.
      pose proof (q_end_ok self w l ns F N) as R. rewrite Q in R. destruct R as (R1 & R2 & R3).
      split; [done|by apply names_more].
Qed.
Definition q_steps : list Queue * W -> list Queue * W -> Prop := rtc q_step.
Lemma q_steps_inv s s' : q_steps s s' -> q_inv s.1 s.2 -> q_inv s'.1 s'.2.
Proof. induction 1 as [|? ? ? St _ IH]; [done|]. intros I. by apply IH, (q_step_inv _ _ St). Qed.
Lemma end_all_inv qs w : q_inv qs w -> q_inv [] (end_all qs w).
Proof.
  revert w. induction qs as [|q qs IH]; intros w I; [done|]. cbn. apply IH. destruct I as [F N].
  pose proof (q_end_ok q w (held qs) (fmap (M := list) q_name qs) F N) as R. destruct (q_end q w) as [q' w'].
  by destruct R as (_ & ? & ?).
Qed.


(** ** A client that connects again *)

(** A descriptor is open and no object keeps it. *)
Definition lost (fd : Z) (qs : list Queue) (w : W) : Prop := fd ∈ mqs w /\ fd ∉ held qs.
Lemma lost_fd fd qs w : fds_are (held qs ++ [fd]) w -> lost fd qs w.
Proof.
  intros [N I]. split; [apply I, elem_of_app; right; by left|].
  apply NoDup_app in N as (_ & D & _). intros M. apply (D fd M). by left.
Qed.
(** What the end of the listener leaves: the queue to the proxy is still open. *)
Lemma finalized tx l w : q_inv [tx; m_listenerQueue l] w ->
  let '(ok, (l', w')) := Listener_finalize (set_exit l) w in
  ok = true -> fds_are (q_fd tx) w' /\ names_in [q_name tx] w' /\ q_fd (m_listenerQueue l') = [] /\
    m_exitVal l' = true /\ is_Some (m_promise l').
Proof.
  intros [F N]. unfold Listener_finalize. destruct (isFutureSet (set_exit l)) eqn:P; [|done]. cbn [negb].
  unfold isFutureSet in P. apply bool_decide_eq_true in P.
  change (m_listenerQueue (set_joinable false (set_exit l))) with (m_listenerQueue l).
  pose proof (q_end_ok (m_listenerQueue l) w (q_fd tx) [q_name tx]) as R. unfold q_end in R.
  destruct (snd (q_close (m_listenerQueue l) w)) as [q1 w1]. destruct (snd (q_remove q1 w1)) as [q2 w2].
  intros _. destruct R as (R1 & R2 & R3); [| |by split_and!].
  - unfold held in F. cbn [flat_map] in F. rewrite app_nil_r in F. by rewrite Permutation_app_comm.
  - intros n M. destruct (N n M) as [A B]. split; [done|]. cbn in B. rewrite !elem_of_cons in *. tauto.
Qed.

(** Once the client disconnected, a second [connect] opens another queue to the proxy
    over the one that is still open, whose descriptor no object keeps, and, when the
    queues open, the thread of the listener leaves its loop at once and sets the
    promise a second time, which ends the process. *)
Theorem second_connect mqProxyName own_name connected notified signalled e w e1 w1 :
  doInit e = true -> exist (txContext e) = true ->
  q_inv [txContext e; m_listenerQueue (e_listener e)] w ->
  disconnect connected notified signalled e w = (true, (e1, w1)) ->
  let '(ok, (e2, w2)) := ClientState_init mqProxyName own_name e1 w1 in
  lost (mq (txContext e)) [txContext e2; m_listenerQueue (e_listener e2)] w2 /\
  (ok = true -> forall (St : Type) (side : Side St) (queues : Queues) rounds s answers,
     dispatchLoop rounds (e_listener e2) s answers = Some Terminated).
Proof.
  intros Di Ex I D. unfold disconnect in D. rewrite Di in D. cbn [negb] in D.
  destruct (connected && negb notified); [done|]. unfold stopAll in D. cbn [stop_each fst snd] in D.
  destruct (Listener_stop signalled (e_listener e)) as [[] l] eqn:S; [|done]. cbn in D.
  assert (l = set_exit (e_listener e)) as -> by (unfold Listener_stop in S; destruct (isFutureSet _); by injection S).
  pose proof (finalized _ _ _ I) as K.
  destruct (Listener_finalize (set_exit (e_listener e)) w) as [[] [l1 w1']]; [|done].
  injection D as <- <-. destruct (K eq_refl) as (F & N & C & X & P).
  unfold ClientState_init, Transmitter_open. cbn [txContext e_listener doInit].
  pose proof (TxOpen_ok mqProxyName true (txContext e) w1' _ _ F N) as T.
  destruct (TxOpen mqProxyName true (txContext e) w1') as [ok [tx2 w2]]. destruct T as (F2 & N2 & _).
  unfold q_fd in F2 at 2. rewrite Ex in F2.
  destruct ok; cbn [negb txContext e_listener doInit].
  - unfold Listener_open. pose proof (RxOpen_ok own_name 2 false (m_listenerQueue l1) w2 _ _ F2 N2) as R.
    destruct (RxOpen own_name 2 false (m_listenerQueue l1) w2) as [ok [q3 w3]]. destruct R as (F3 & _ & _).
    assert (lost (mq (txContext e)) [tx2; q3] w3) as L.
    { apply lost_fd. unfold held. cbn [flat_map].
      by rewrite app_nil_r, (Permutation_app_comm (q_fd tx2)), <- app_assoc. }
    destruct ok; cbn [txContext e_listener m_listenerQueue set_queue set_joinable]; (split; [exact L|]); [|done].
    intros _ St side queues rounds s answers. destruct P as [v P].
    destruct rounds; cbn; rewrite X; unfold loop_end, thread_exit; cbn; by rewrite P.
  - assert (lost (mq (txContext e)) [tx2; m_listenerQueue l1] w2) as L
      by (apply lost_fd; cbn; rewrite C; by rewrite app_nil_r).
    split; [exact L|done].
Qed.
End Facts.

(** ** The thread of the listener *)

Lemma b2z_of z : le_dec [z] = b2z z.
Proof. cbn. lia. Qed.
Lemma unknown_message {St} `{Side St} `{Queues} (st : St) b z msg : tx_ok b ->
  (length (z :: msg) <= MAX_BUFFER_LENGTH)%nat ->
  (forall i, msgId_of (b2z z) = Some i -> registered i = false) ->
  exists b', MqListenerWork (z :: msg) (st, b) = Some (None, (st, b')) /\ rx_ok b'.
Proof.
  intros T L U. pose proof (store_rx_ok _ _ T L) as Rx.
  assert (rest (store_rx (z :: msg) b) = [z] ++ msg) as E.
  { unfold rest, store_rx, setLen. cbn [m_offset m_rcvSize m_buffer]. by rewrite drop_0, take_app_length. }
  destruct (parses_rx 1 st [z] msg eq_refl _ Rx E) as (b1 & P & Rx1 & _).
  exists b1. split; [|done]. unfold MqListenerWork. rewrite bool_decide_false by done.
  unfold on_buffer, iobind at 1. cbn [fst snd]. unfold parseBuffer, iobind. rewrite P, b2z_of.
  destruct (msgId_of (b2z z)) as [i|]; [|done]. by rewrite (U i).
Qed.

(** One message whose first octet is no message that this side takes ends the thread:
    its promise is false, the state is as before, and what comes after it in the
    queue, from whatever client, is not read. *)
Theorem bad_message_ends {St} `{Side St} `{Queues} (l : Listener) (st : St) b z msg stop rounds answers :
  m_exitVal l = false -> m_promise l = None -> tx_ok b -> (length (z :: msg) <= MAX_BUFFER_LENGTH)%nat ->
  (forall i, msgId_of (b2z z) = Some i -> registered i = false) ->
  exists l' b', dispatchLoop (mk_round (mq_message (z :: msg)) stop :: rounds) l (st, b) answers =
      Some (Ended (l', (st, b', answers))) /\
    m_promise l' = Some false /\ isFutureSet l' = true.
Proof.
  intros X P T L U. destruct (unknown_message st b z msg T L U) as (b' & E & _).
  exists (mk_listener (m_listenerQueue l) (Some false) (stop || m_exitVal l) (m_joinable l)), b'. split; [|done].
  cbn [dispatchLoop]. rewrite X. cbn [listener_work r_received r_stop]. rewrite E. cbn.
  rewrite app_nil_r. unfold asked_to_stop, loop_end, thread_exit. destruct stop; cbn; by rewrite P, ?X.
Qed.

(** ** The end of a process *)

Section StopAll.
Context {E W : Type} (e_stop e_finalize : E -> W -> bool * W).

Lemma finalize_none passed w : finalize_each e_finalize passed false w = (false, w).
Proof. induction passed as [|[e p] passed IH]; [done|]. cbn. by rewrite andb_false_r. Qed.
Lemma stop_each_all all ret w : let '(ret', passed, _) := stop_each e_stop all ret w in
  map fst passed = all /\ ret' = ret && forallb snd passed.
Proof.
  revert ret w. induction all as [|e all IH]; intros ret w; cbn; [by rewrite andb_true_r|].
  destruct (e_stop e w) as [p w1]. specialize (IH (ret && p) w1).
  destruct (stop_each e_stop all (ret && p) w1) as [[r passed] w2]. cbn. destruct IH as [-> ->].
  by rewrite andb_assoc.
Qed.
(** The objects from the first to the one whose [finalize] fails. *)
Fixpoint finalize_until (all : list E) (w : W) : bool * W :=
  match all with
  | [] => (true, w)
  | e :: all => let '(ok, w) := e_finalize e w in if ok then finalize_until all w else (false, w)
  end.
Lemma finalize_passed passed w : forallb snd passed = true ->
  finalize_each e_finalize passed true w = finalize_until (map fst passed) w.
Proof.
  revert w. induction passed as [|[e p] passed IH]; intros w; [done|]. cbn. intros [-> F]%andb_true_iff. cbn.
  destruct (e_finalize e w) as [[] w1]; [by apply IH|apply finalize_none].
Qed.

(** [stopAll] stops every object, but finalizes none when one of them did not stop,
    and none after the first that fails. *)
Theorem stopAll_finalizes all w :
  let '(ret, passed, w1) := stop_each e_stop all true w in
  map fst passed = all /\ ret = forallb snd passed /\
  stopAll e_stop e_finalize all w = if ret then finalize_until all w1 else (false, w1).
Proof.
  unfold stopAll. pose proof (stop_each_all all true w) as S.
  destruct (stop_each e_stop all true w) as [[ret passed] w1]. destruct S as [M R]. cbn in R.
  split; [done|]. split; [done|]. destruct ret; [|apply finalize_none].
  rewrite <- M. by apply finalize_passed.
Qed.
End StopAll.

(** ** Examples *)

(** A system that gives descriptors in turn. *)
Record demo_mq := mk_demo_mq { dm_fds : gset Z; dm_names : gset (list byte) }.
Definition dm_fresh (w : demo_mq) : Z := 1 + foldr Z.max 0 (elements (dm_fds w)).
#[local] Instance demo_mqos : MqOs demo_mq := {
  mq_create n maxMsg allRx w :=
    if bool_decide (n = []) then (invalidMq, w)
    else (dm_fresh w, mk_demo_mq ({[dm_fresh w]} ∪ dm_fds w) ({[n]} ∪ dm_names w));
  mq_attach n block w := (dm_fresh w, mk_demo_mq ({[dm_fresh w]} ∪ dm_fds w) (dm_names w));
  mq_close fd w := (true, mk_demo_mq (dm_fds w ∖ {[fd]}) (dm_names w));
  mq_unlink n w := (true, mk_demo_mq (dm_fds w) (dm_names w ∖ {[n]}));
  mq_send fd msg w := (true, w);
  mq_receive fd n w := (mq_interrupted, w)
}.
#[local] Instance demo_mqview : MqView demo_mq := { mqs := dm_fds; mq_names := dm_names }.
Lemma max_above (l : list Z) x : x ∈ l \/ x = 0 -> x <= foldr Z.max 0 l.
Proof.
  induction l as [|y l IH]; cbn [foldr]; [intros [N| ->]; [by apply elem_of_nil in N|done]|].
  rewrite elem_of_cons. intros [[->|I]|E]; [lia| |]; specialize (IH ltac:(auto)); lia.
Qed.
Lemma dm_fresh_ok w : (dm_fresh w =? invalidMq) = false /\ dm_fresh w ∉ dm_fds w.
Proof.
  unfold dm_fresh, invalidMq. pose proof (max_above (elements (dm_fds w)) 0 ltac:(auto)) as M.
  split; [apply Z.eqb_neq; lia|]. intros I. apply elem_of_elements in I.
  pose proof (max_above _ _ (or_introl I)). lia.
Qed.
#[local] Instance demo_mqlaws : MqLaws demo_mq.
Proof.
  constructor; intros; cbn.
  - case_bool_decide; [done|]. pose proof (dm_fresh_ok w) as [-> F]. done.
  - pose proof (dm_fresh_ok w) as [-> F]. done.
  - done.
  - done.
  - done.
  - done.
Qed.
Definition demo_mq0 : demo_mq := mk_demo_mq ∅ ∅.

(** A queue is created and moved to another object, which replaces it; a third is
    attached to a queue. *)
Definition demo_rx := RxOpen (bytes "/clkmgr") 10 false Queue_new demo_mq0.
Definition demo_moved : list Queue := <[0%nat := moved_from demo_rx.2.1]> [demo_rx.2.1] ++ [(Queue_move demo_rx.2.1).1].
Definition demo_tx := TxOpen (bytes "/other") true Queue_new demo_rx.2.2.
Definition demo_queues : list Queue := <[2%nat := demo_tx.2.1]> (demo_moved ++ [Queue_new]).
Lemma demo_program : q_steps ([], demo_mq0) (demo_queues, demo_tx.2.2).
Proof.
  eapply rtc_l; [apply step_make|].
  eapply rtc_l; [exact (step_rx [Queue_new] demo_mq0 0 Queue_new (bytes "/clkmgr") 10 false eq_refl eq_refl eq_refl)|].
  eapply rtc_l; [exact (step_move [demo_rx.2.1] demo_rx.2.2 0 demo_rx.2.1 eq_refl)|].
  eapply rtc_l; [apply step_make|].
  apply rtc_once. exact (step_tx (demo_moved ++ [Queue_new]) demo_rx.2.2 2 Queue_new (bytes "/other") true eq_refl eq_refl).
Qed.

(** A client after its first session: its thread ended. *)
Definition demo_client_tx := TxOpen (bytes "/clkmgr") true Queue_new demo_mq0.
Definition demo_client_rx := RxOpen (bytes "/clkmgr.7") 2 false Queue_new demo_client_tx.2.2.
Definition demo_endpoint : Endpoint :=
  mk_endpoint demo_client_tx.2.1 (mk_listener demo_client_rx.2.1 (Some true) true true) true.
Definition demo_disconnected := disconnect true true true demo_endpoint demo_client_rx.2.2.
Lemma demo_session : q_inv [txContext demo_endpoint; m_listenerQueue (e_listener demo_endpoint)] demo_client_rx.2.2.
Proof.
  assert (q_steps ([], demo_mq0) ([demo_client_tx.2.1; demo_client_rx.2.1], demo_client_rx.2.2)) as St.
  { eapply rtc_l; [apply step_make|].
    eapply rtc_l; [exact (step_tx [Queue_new] demo_mq0 0 Queue_new (bytes "/clkmgr") true eq_refl eq_refl)|].
    eapply rtc_l; [apply step_make|].
    apply rtc_once. exact (step_rx [demo_client_tx.2.1; Queue_new] demo_client_tx.2.2 1 Queue_new
      (bytes "/clkmgr.7") 2 false eq_refl eq_refl eq_refl). }
  apply (q_steps_inv _ _ St). split; [split; [constructor|]|]; intros x; cbn.
  - split; [by intros ?%elem_of_empty|by intros ?%elem_of_nil].
  - by intros ?%elem_of_empty.
Qed.
Lemma second_connect_witness :
  (ClientState_init (bytes "/clkmgr") (bytes "/clkmgr.7") demo_disconnected.2.1 demo_disconnected.2.2).1 = true /\
  let '(ok, (e2, w2)) := ClientState_init (bytes "/clkmgr") (bytes "/clkmgr.7")
    demo_disconnected.2.1 demo_disconnected.2.2 in
  lost (mq (txContext demo_endpoint)) [txContext e2; m_listenerQueue (e_listener e2)] w2 /\
  (ok = true -> forall (St : Type) (side : Side St) (queues : Queues) rounds s answers,
     dispatchLoop rounds (e_listener e2) s answers = Some Terminated).
Proof.
  split; [vm_compute; reflexivity|].
  apply (second_connect (bytes "/clkmgr") (bytes "/clkmgr.7") true true true demo_endpoint demo_client_rx.2.2).
  - reflexivity.
  - reflexivity.
  - apply demo_session.
  - unfold demo_disconnected. destruct (disconnect true true true demo_endpoint demo_client_rx.2.2) as [ok [e1 w1]] eqn:D.
    vm_compute in D. by injection D as <- _ _.
Defined.

#[local] Instance demo_zeros : Padding := { pad n := repeat x00 n; pad_length n := repeat_length x00 n }.
#[local] Instance demo_open : Queues := {| open_ok _ := true; send_ok _ := true |}.
Lemma bad_message_ends_witness : exists l' b',
  dispatchLoop (mk_round (mq_message [x07]) false :: [mk_round mq_interrupted true])
    (mk_listener Queue_new None false true)
    (Proxy_new [], mk_Buffer 0 0 (repeat x00 MAX_BUFFER_LENGTH)) [] = Some (Ended (l', (Proxy_new [], b', []))) /\
  m_promise l' = Some false.
Proof.
  destruct (bad_message_ends (mk_listener Queue_new None false true) (Proxy_new [])
    (mk_Buffer 0 0 (repeat x00 MAX_BUFFER_LENGTH)) x07 [] false [mk_round mq_interrupted true] [])
    as (l' & b' & E & P & _); [reflexivity|reflexivity| | |done|].
  - split; [apply repeat_length|split; apply Nat.le_0_l].
  - cbn. unfold MAX_BUFFER_LENGTH. lia.
  - exists l', b'. by split.
Defined.
