(* ===== verification/ClkChrony.v ===== *)
(** * ClkChrony.v: the proxy follows chrony

    [ChronyThreadSet] of [src/clkmgr/proxy/connect_chrony.cpp]: a thread of the
    proxy asks chronyd for its source again and again, and turns the answers into
    the [chrony_event] of its time base.  The library libchrony, [poll] and the
    time are the class [ChronyLib]; the publication of an event is
    [chronyEvent::copy] and [Client::notifyClients] of ClkProxy.v.

    A thread is a machine with a step for each round of its loops; [None] is a
    fault of the notification.  Nothing of the model changes the flag that stops
    the thread between two of its tests without a call in between, so such tests
    are one. *)

From S2P Require Import Prelude CStr Types ClkEvent ClkConfig ClkMsg ClkProxy Text.

#[local] Open Scope list_scope.

(** Descriptors and sessions by their numbers; [ch_stop] is the flag of the thread
    of a time base.  [ch_init] gives the new session, or fails and leaves the
    pointer as it was.  [ch_nsec] is [(int64_t)(1e9 * x)] of the field with that
    index, and [ch_conv] what a conversion of a floating point number to [int64_t]
    gives outside of its range. *)
Class ChronyLib (N : Type) := {
  ch_stop : Z -> N -> bool;
  ch_open : list byte -> N -> Z * N;
  ch_close : Z -> N -> N;
  ch_init : Z -> N -> option Z * N;
  ch_deinit : Z -> N -> N;
  ch_request_record : Z -> list byte -> Z -> N -> bool * N;
  ch_needs_response : Z -> N -> bool;
  ch_poll : Z -> Z -> N -> Z * N;
  ch_process_response : Z -> N -> bool * N;
  ch_field_index : Z -> list byte -> N -> Z;
  ch_uinteger : Z -> Z -> N -> Z;
  ch_integer : Z -> Z -> N -> Z;
  ch_nsec : Z -> Z -> N -> Z;
  ch_sleep : Z -> N -> N;
  ch_conv : Z -> Z
}.

(** Microseconds. *)
Definition def_syncInterval : Z := 10.
(** Where a thread is: before its loop; at the start of a round; waiting for the
    answer in [process_chronyd_data]; in the loop that connects again. *)
Inductive chrony_phase := Ch_start | Ch_subscribe | Ch_wait | Ch_reconnect | Ch_end.
Record ChronyThreadSet := mk_chrony {
  ct_index : Z; udsAddr : list byte; ct_event : chrony_event; chronyFd : Z; session : option Z; syncInterval : Z;
  ct_phase : chrony_phase
}.
Definition set_ct_event (v : chrony_event) (t : ChronyThreadSet) : ChronyThreadSet :=
  mk_chrony (ct_index t) (udsAddr t) v (chronyFd t) (session t) (syncInterval t) (ct_phase t).
Definition set_connection (fd : Z) (s : option Z) (t : ChronyThreadSet) : ChronyThreadSet :=
  mk_chrony (ct_index t) (udsAddr t) (ct_event t) fd s (syncInterval t) (ct_phase t).
Definition set_syncInterval (v : Z) (t : ChronyThreadSet) : ChronyThreadSet :=
  mk_chrony (ct_index t) (udsAddr t) (ct_event t) (chronyFd t) (session t) v (ct_phase t).
Definition set_ct_phase (v : chrony_phase) (t : ChronyThreadSet) : ChronyThreadSet :=
  mk_chrony (ct_index t) (udsAddr t) (ct_event t) (chronyFd t) (session t) (syncInterval t) v.
Definition ChronyThreadSet_new (i : Z) (uds : list byte) : ChronyThreadSet :=
  mk_chrony i uds zero_chrony_event (-1) None def_syncInterval Ch_start.

Section Thread.
Context {N : Type} `{ChronyLib N} `{Queues} `{Padding}.
(** The buffer of the notifications of a thread: any buffer, each is built anew. *)
Context (notifyBuff : Buffer).

(** [pow(2.0, interval) * 1000000] as an [int64_t]; the product is exact. *)
Definition interval_usec (interval : Z) : Z :=
  if interval <? 0 then 1000000 / 2 ^ (- interval)
  else if 1000000 * 2 ^ interval <? 2 ^ 63 then 1000000 * 2 ^ interval
  else ch_conv interval.
Definition chrony_close (t : ChronyThreadSet) (n : N) : ChronyThreadSet * N :=
  let n := if 0 <=? chronyFd t then ch_close (chronyFd t) n else n in
  let n := match session t with Some s => ch_deinit s n | None => n end in
  (set_connection (if 0 <=? chronyFd t then -1 else chronyFd t) None t, n).
(** [chronyEvent::copy] and [Client::notifyClients]. *)
Definition chrony_publish (t : ChronyThreadSet) (p : Proxy) : option Proxy :=
  '(_, s) ← notifyClients (ct_index t) SysClock (chronyEvent_copy (ct_index t) (ct_event t) p, notifyBuff); Some s.1.
(** The fields of the answer. *)
Definition read_fields (s : Z) (t : ChronyThreadSet) (n : N) : ChronyThreadSet :=
  let uuid := ch_uinteger s (ch_field_index s (bytes "reference ID") n) n in
  let interval := swrap 16 (ch_integer s (ch_field_index s (bytes "poll") n) n) in
  let second := ch_nsec s (ch_field_index s (bytes "original last sample offset") n) n in
  let usec := interval_usec interval in
  set_ct_event (mk_chrony_event second uuid (uwrap 64 usec)) (set_syncInterval usec t).
Definition sleep_and_again (t : ChronyThreadSet) (n : N) : ChronyThreadSet * N :=
  if ch_stop (ct_index t) n then (set_ct_phase Ch_end t, n)
  else (set_ct_phase Ch_subscribe t, ch_sleep (syncInterval t) n).
(** A connection that failed: the clients get zeros. *)
Definition chrony_failed (t : ChronyThreadSet) (p : Proxy) (n : N) : option (ChronyThreadSet * (Proxy * N)) :=
  let '(t, n) := chrony_close t n in
  if ch_stop (ct_index t) n then Some (set_ct_phase Ch_end t, (p, n))
  else
    let t := set_ct_event zero_chrony_event (set_syncInterval def_syncInterval t) in
    p ← chrony_publish t p; Some (set_ct_phase Ch_reconnect t, (p, n)).

(** What is before the loop. *)
Definition chrony_start (t : ChronyThreadSet) (p : Proxy) (n : N) : ChronyThreadSet * (Proxy * N) :=
  let '(fd, n) := ch_open (udsAddr t) n in
  let '(s, n) := if 0 <=? fd then ch_init fd n else (None, n) in
  (set_ct_phase Ch_subscribe (set_connection fd s t), (p, n)).
(** The request of [subscribe_to_chronyd]. *)
Definition subscribe_round (t : ChronyThreadSet) (p : Proxy) (n : N) : option (ChronyThreadSet * (Proxy * N)) :=
  if ch_stop (ct_index t) n then Some (set_ct_phase Ch_end t, (p, n))
  else match session t with
       | None => chrony_failed t p n
       | Some s =>
           let '(ok, n) := ch_request_record s (bytes "sources") 0 n in
           if ok then Some (set_ct_phase Ch_wait t, (p, n)) else chrony_failed t p n
       end.
(** A round of the loop of [process_chronyd_data], and what follows its end. *)
Definition wait_round (t : ChronyThreadSet) (p : Proxy) (n : N) : option (ChronyThreadSet * (Proxy * N)) :=
  if ch_stop (ct_index t) n then Some (set_ct_phase Ch_end t, (p, n))
  else match session t with
       | None => chrony_failed t p n
       | Some s =>
           if ch_needs_response s n then
             let '(ret, n) := ch_poll (chronyFd t) 1000 n in
             if ch_stop (ct_index t) n then Some (set_ct_phase Ch_end t, (p, n))
             else if 0 <? ret then
               let '(ok, n) := ch_process_response s n in
               if ok then Some (t, (p, n)) else chrony_failed t p n
             else Some (t, (p, n))
           else
             let t := read_fields s t n in
             p ← chrony_publish t p;
             let '(t, n) := sleep_and_again t n in Some (t, (p, n))
       end.
(** The loop that waits 5 seconds in 50 parts. *)
Fixpoint chrony_wait (k : nat) (i : Z) (n : N) : N :=
  match k with
  | O => n
  | S k => if ch_stop i n then n else chrony_wait k i (ch_sleep 100000 n)
  end.
(** The descriptor of a session that could not be made is not closed. *)
Definition chrony_reconnect (t : ChronyThreadSet) (p : Proxy) (n : N) : ChronyThreadSet * (Proxy * N) :=
  if ch_stop (ct_index t) n then (set_ct_phase Ch_end t, (p, n))
  else
    let '(fd, n) := ch_open (udsAddr t) n in
    if fd <? 0 then (set_connection fd (session t) t, (p, chrony_wait 50 (ct_index t) n))
    else
      let '(s, n) := ch_init fd n in
      match s with
      | Some s => let '(t, n) := sleep_and_again (set_connection fd (Some s) t) n in (t, (p, n))
      | None => (set_connection fd (session t) t, (p, n))
      end.
Definition chrony_round (t : ChronyThreadSet) (p : Proxy) (n : N) : option (ChronyThreadSet * (Proxy * N)) :=
  match ct_phase t with
  | Ch_start => Some (chrony_start t p n)
  | Ch_subscribe => subscribe_round t p n
  | Ch_wait => wait_round t p n
  | Ch_reconnect => Some (chrony_reconnect t p n)
  | Ch_end => Some (t, (p, n))
  end.
(** [thread_loop], for a number of rounds. *)
Fixpoint chrony_loop (k : nat) (t : ChronyThreadSet) (p : Proxy) (n : N) : option (ChronyThreadSet * (Proxy * N)) :=
  match k with O => Some (t, (p, n)) | S k => '(t, (p, n)) ← chrony_round t p n; chrony_loop k t p n end.

(** ** The service *)

Definition Chrony_isValid (cfg : TimeBaseCfgFull) : bool := negb (bool_decide (udsAddrChrony cfg = [])).
(** The constructor of the event of a thread copies the zeros; [init] of a thread
    is always true. *)
Definition Chrony_registerSrv (cfgs : list TimeBaseCfgFull) (p : Proxy) : list (Z * ChronyThreadSet) * Proxy :=
  foldl (fun '(l, p) cfg =>
           if Chrony_isValid cfg then
             let i := timeBaseIndex (base cfg) in
             (set i (ChronyThreadSet_new i (udsAddrChrony cfg)) l, chronyEvent_copy i zero_chrony_event p)
           else (l, p)) ([], p) cfgs.
Definition Chrony_finalize (threads : list (Z * ChronyThreadSet)) (n : N) : N :=
  foldl (fun n it => (chrony_close it.2 n).2) n threads.
End Thread.
