(* ===== verification/ClkChronyFacts.v ===== *)
(** * ClkChronyFacts.v: what the threads that follow chrony do

    The threads never fault and the clients get the events that they made; no
    descriptor is lost while sessions can be made; what is not noticed. *)

From S2P Require Import Prelude CStr Types ClkEvent ClkConfig ClkMsg ClkProxy Text ClkPtp4l.
From S2P Require Import ClkPtp4lHost ClkPtp4lFacts ClkChrony.

#[local] Open Scope list_scope.

Section Events.
Context {N : Type} `{ChronyLib N} `{Queues} `{Padding}.
Context (notifyBuff : Buffer) (notifyBuff_ok : tx_ok notifyBuff).

(** ** Events *)

(** The clients get the event of the thread. *)
Definition shown (t : ChronyThreadSet) (p : Proxy) : Prop := getChronyEvent (ct_index t) p = ct_event t.
(** What the thread of time base [i] does to the events of the proxy. *)
Definition only_chrony (i : Z) (p p' : Proxy) : Prop :=
  proxy_inv p' /\ forall j, getPTPEvent j p' = getPTPEvent j p /\ (j <> i -> getChronyEvent j p' = getChronyEvent j p).
Lemma only_refl i p : proxy_inv p -> only_chrony i p p.
Proof. by intros I. Qed.

Lemma publish_ok t p : proxy_inv p -> exists p', chrony_publish notifyBuff t p = Some p' /\ only_chrony (ct_index t) p p' /\ shown t p'.
Proof.
  intros I. unfold chrony_publish. set (i := ct_index t). set (p1 := chronyEvent_copy i (ct_event t) p).
  assert (proxy_inv p1) as I1 by (apply (events_inv i zero_ptp_event), I).
  destruct (notifyClients_ok i SysClock p1 notifyBuff) as (r & p' & b' & E & _); [done..|]. rewrite E. cbn [mbind option_bind fst].
  apply keeps_notify in E as [I' K]; [|exact I1]. cbn [fst] in *. exists p'. split; [done|].
  assert (forall j, getPTPEvent j p1 = getPTPEvent j p /\ getChronyEvent j p1 = if j =? i then ct_event t else getChronyEvent j p) as C.
  { intros j. unfold getPTPEvent, getChronyEvent, p1, chronyEvent_copy, data_of. cbn. rewrite get_set_key by apply I.
    destruct (Z.eqb_spec j i) as [->|]; [|done]. by destruct (get i (timeBaseDataMap p)). }
  split; [split; [exact I'|]|].
  - intros j. destruct (K j) as [-> ->], (C j) as [-> ->]. split; [done|]. intros Nj. by rewrite (proj2 (Z.eqb_neq j i)).
  - unfold shown. fold i. destruct (K i) as [_ ->], (C i) as [_ ->]. by rewrite Z.eqb_refl.
Qed.

(** A round is well when the proxy and the thread are after it; the event is the
    one before, the zeros of a connection that failed, or made of the fields of an
    answer. *)
Definition round_fine (t : ChronyThreadSet) (p : Proxy) (r : option (ChronyThreadSet * (Proxy * N))) : Prop :=
  exists t' p' n', r = Some (t', (p', n')) /\ ct_index t' = ct_index t /\ only_chrony (ct_index t) p p' /\ shown t' p' /\
    (ct_event t' = ct_event t \/
     (ct_event t' = zero_chrony_event /\ ct_phase t' = Ch_reconnect /\ session t' = None) \/
     (exists s n, ct_phase t = Ch_wait /\ session t = Some s /\ ch_needs_response s n = false /\ ct_event t' = ct_event (read_fields s t n))).
Lemma fine_same t t' p n : proxy_inv p -> shown t p -> ct_index t' = ct_index t -> ct_event t' = ct_event t ->
  round_fine t p (Some (t', (p, n))).
Proof.
  intros I S E1 E2. exists t', p, n. split; [done|]. split; [done|]. split; [by apply only_refl|].
  split; [unfold shown; by rewrite E1, E2|by left].
Qed.
Lemma failed_fine t p n : proxy_inv p -> shown t p -> round_fine t p (chrony_failed notifyBuff t p n).
Proof.
  intros I S. unfold chrony_failed. destruct (chrony_close t n) as [t1 n1] eqn:E.
  assert (ct_index t1 = ct_index t /\ ct_event t1 = ct_event t /\ session t1 = None) as (E1 & E2 & E3)
    by (unfold chrony_close in E; injection E as <- _; done).
  destruct (ch_stop _ n1); [by apply fine_same|].
  set (t2 := set_ct_event zero_chrony_event (set_syncInterval def_syncInterval t1)).
  destruct (publish_ok t2 p I) as (p' & -> & O & Sh). cbn [mbind option_bind]. exists (set_ct_phase Ch_reconnect t2), p', n1.
  change (ct_index t2) with (ct_index t1) in O. rewrite E1 in O. split; [done|]. split; [exact E1|]. split; [exact O|].
  split; [exact Sh|]. right. left. split; [done|]. by split.
Qed.
Lemma again_same (t : ChronyThreadSet) (n : N) : let '(t', _) := sleep_and_again t n in ct_index t' = ct_index t /\ ct_event t' = ct_event t.
Proof. unfold sleep_and_again. by destruct (ch_stop _ n). Qed.
Lemma chrony_round_fine t p n : proxy_inv p -> shown t p -> round_fine t p (chrony_round notifyBuff t p n).
Proof.
  intros I S. unfold chrony_round. destruct (ct_phase t) eqn:Ph.
  - unfold chrony_start. destruct (ch_open _ n) as [fd n1]. destruct (if 0 <=? fd then _ else _) as [s n2]. by apply fine_same.
  - unfold subscribe_round. destruct (ch_stop _ n); [by apply fine_same|]. destruct (session t) as [s|]; [|by apply failed_fine].
    destruct (ch_request_record _ _ _ n) as [[] n1]; [by apply fine_same|by apply failed_fine].
  - unfold wait_round. destruct (ch_stop _ n); [by apply fine_same|]. destruct (session t) as [s|] eqn:Es; [|by apply failed_fine].
    destruct (ch_needs_response s n) eqn:Nr.
    + destruct (ch_poll _ _ n) as [ret n1]. destruct (ch_stop _ n1); [by apply fine_same|]. destruct (0 <? ret); [|by apply fine_same].
      destruct (ch_process_response s n1) as [[] n2]; [by apply fine_same|by apply failed_fine].
    + set (t1 := read_fields s t n). destruct (publish_ok t1 p I) as (p' & -> & O & Sh). cbn [mbind option_bind].
      pose proof (again_same t1 n) as A. destruct (sleep_and_again t1 n) as [t2 n2]. destruct A as [A1 A2].
      exists t2, p', n2. split; [done|]. split; [exact A1|]. split; [exact O|]. split; [unfold shown; by rewrite A1, A2|].
      right. right. exists s, n. split; [done|]. split; [done|]. split; [done|]. exact A2.
  - unfold chrony_reconnect. destruct (ch_stop _ n); [by apply fine_same|]. destruct (ch_open _ n) as [fd n1].
    destruct (fd <? 0); [by apply fine_same|]. destruct (ch_init fd n1) as [[s|] n2]; [|by apply fine_same].
    pose proof (again_same (set_connection fd (Some s) t) n2) as A. destruct (sleep_and_again _ n2) as [t2 n3]. destruct A as [A1 A2].
    by apply fine_same.
  - by apply fine_same.
Qed.

(** ** All threads *)

(** A thread makes a round, or something else happens that leaves the events of
    chrony alone: a client sends a message, ptp4l has an event, time passes. *)
Inductive chrony_step : list (Z * ChronyThreadSet) * Proxy * N -> list (Z * ChronyThreadSet) * Proxy * N -> Prop :=
| ch_round i t t' ths p p' n n' : get i ths = Some t -> chrony_round notifyBuff t p n = Some (t', (p', n')) ->
    chrony_step (ths, p, n) (set i t' ths, p', n')
| ch_other ths p p' n n' : proxy_inv p' -> (forall j, getChronyEvent j p' = getChronyEvent j p) ->
    chrony_step (ths, p, n) (ths, p', n').
Definition ct_inv (p : Proxy) (it : Z * ChronyThreadSet) : Prop := ct_index it.2 = it.1 /\ shown it.2 p.
Definition chrony_inv (s : list (Z * ChronyThreadSet) * Proxy * N) : Prop :=
  ordered s.1.1 /\ proxy_inv s.1.2 /\ Forall (ct_inv s.1.2) s.1.1.
Lemma chrony_step_inv s s' : chrony_inv s -> chrony_step s s' -> chrony_inv s'.
Proof.
  intros (Or & Ip & F) St. destruct St as [i t t' ths p p' n n' G R|ths p p' n n' Ip' K]; cbn [fst snd] in *.
  - destruct (get_Forall _ _ _ _ F G) as (Ei & Sh). cbn [fst snd] in *.
    destruct (chrony_round_fine t p n Ip Sh) as (t1 & p1 & n1 & E & Ix & [I1 O] & Sh1 & _). rewrite R in E. injection E as <- <- <-.
    split; [by apply ordered_set|]. split; [exact I1|]. cbn [fst snd].
    assert (forall j u, get j (set i t' ths) = Some u -> ct_inv p' (j, u)) as Fg.
    { intros j u. rewrite get_set_key by done. destruct (Z.eqb_spec j i) as [->|Nj].
      - intros [= <-]. split; [cbn; congruence|exact Sh1].
      - intros Gj. destruct (get_Forall _ _ _ _ F Gj) as (Ej & Sj). split; [done|]. unfold shown in *. cbn in *.
        rewrite (proj2 (O (ct_index u))); [done|congruence]. }
    apply Forall_forall. intros [j u] Hj. apply Fg, In_get; [by apply ordered_set|done].
  - split; [done|]. split; [done|]. eapply Forall_impl; [exact F|]. intros [j u] [Ej Sj]. split; [done|]. unfold shown in *. by rewrite K.
Qed.
Lemma registered_inv cfgs p n : proxy_inv p ->
  let '(ths, p1) := Chrony_registerSrv cfgs p in
  chrony_inv (ths, p1, n) /\
  (forall i, mem i ths = true <-> exists cfg, cfg ∈ cfgs /\ Chrony_isValid cfg = true /\ timeBaseIndex (base cfg) = i).
Proof.
  intros I. unfold Chrony_registerSrv. induction cfgs as [|cfg cfgs IH] using rev_ind.
  { cbn. split; [split; [constructor|split; [exact I|constructor]]|]. intros i. split; [done|].
    intros (c & Hc & _). by apply not_elem_of_nil in Hc. }
  rewrite foldl_app. cbn [foldl]. destruct (foldl _ ([], p) cfgs) as [ths p1]. destruct IH as [(Or & Ip & F) M]. cbn [fst snd] in *.
  destruct (Chrony_isValid cfg) eqn:V; cycle 1.
  { split; [done|]. intros i. rewrite M. split; intros (c & Hc & R).
    - exists c. rewrite elem_of_app. by split; [left|].
    - apply elem_of_app in Hc as [Hc|Hc%list_elem_of_singleton]; [by exists c|]. subst. destruct R. congruence. }
  set (i := timeBaseIndex (base cfg)). assert (proxy_inv (chronyEvent_copy i zero_chrony_event p1)) as Ic
    by (apply (events_inv i zero_ptp_event), Ip).
  assert (forall j, getChronyEvent j (chronyEvent_copy i zero_chrony_event p1) = if j =? i then zero_chrony_event else getChronyEvent j p1) as C.
  { intros j. unfold getChronyEvent, chronyEvent_copy, data_of. cbn. rewrite get_set_key by apply Ip. by destruct (j =? i). }
  split; [split; [by apply ordered_set|split; [exact Ic|]]|].
  - cbn [fst snd]. apply Forall_forall. intros [j u] Hj. apply In_get in Hj; [|by apply ordered_set]. rewrite get_set_key in Hj by done.
    destruct (Z.eqb_spec j i) as [->|Nj].
    + injection Hj as <-. split; [done|]. unfold shown. cbn [snd]. rewrite C. cbn [ct_index ChronyThreadSet_new]. by rewrite Z.eqb_refl.
    + destruct (get_Forall _ _ _ _ F Hj) as (Ej & Sj). split; [done|]. unfold shown in *. cbn in *. rewrite C, Ej.
      rewrite (proj2 (Z.eqb_neq j i)) by done. by rewrite <- Ej.
  - intros j. unfold mem in *. rewrite get_set_key by done. destruct (Z.eqb_spec j i) as [->|Nj].
    + split; [|done]. intros _. exists cfg. rewrite elem_of_app, list_elem_of_singleton. by split; [right|].
    + rewrite M. split; intros (c & Hc & R).
      * exists c. rewrite elem_of_app. by split; [left|].
      * apply elem_of_app in Hc as [Hc|Hc%list_elem_of_singleton]; [by exists c|]. subst c. by destruct R as [_ <-].
Qed.
End Events.

(** ** Descriptors *)

Class ChronyView (N : Type) := { ch_fds : N -> gset Z }.
(** [chrony_open_socket] gives a descriptor that was not open, and
    [chrony_close_socket] closes it. *)
Class ChronyLaws (N : Type) `{ChronyLib N, ChronyView N} := {
  chl_open a n : let '(fd, n') := ch_open a n in
    if (0 <=? fd) then (fd ∉ ch_fds n) /\ ch_fds n' = ({[fd]} ∪ ch_fds n) else ch_fds n' = ch_fds n;
  chl_close fd n : ch_fds (ch_close fd n) = (ch_fds n ∖ {[fd]});
  chl_init fd n : ch_fds (ch_init fd n).2 = ch_fds n;
  chl_deinit s n : ch_fds (ch_deinit s n) = ch_fds n;
  chl_request s r i n : ch_fds (ch_request_record s r i n).2 = ch_fds n;
  chl_poll fd t n : ch_fds (ch_poll fd t n).2 = ch_fds n;
  chl_process s n : ch_fds (ch_process_response s n).2 = ch_fds n;
  chl_sleep d n : ch_fds (ch_sleep d n) = ch_fds n
}.

Section Descriptors.
Context {N : Type} `{CL : ChronyLaws N} `{Queues} `{Padding}.
Context (notifyBuff : Buffer).

(** The thread has the descriptor that it opened, and a session with it; before
    and while it connects it has none. *)
Definition ct_own (others : gset Z) (t : ChronyThreadSet) (n : N) : Prop :=
  if 0 <=? chronyFd t
  then (chronyFd t ∉ others) /\ ch_fds n = ({[chronyFd t]} ∪ others) /\ session t <> None /\ ct_phase t <> Ch_start /\ ct_phase t <> Ch_reconnect
  else ch_fds n = others.
Lemma close_own others t n : ct_own others t n ->
  let '(t', n') := chrony_close t n in ch_fds n' = others /\ chronyFd t' < 0.
Proof.
  unfold ct_own, chrony_close. destruct (Z.leb_spec 0 (chronyFd t)).
  - intros (Nf & E & _). cbn [chronyFd set_connection]. split; [|lia].
    destruct (session t); rewrite ?chl_deinit, chl_close, E, difference_union_distr_l_L, difference_diag_L, (left_id_L ∅ (∪));
      apply difference_disjoint_L, disjoint_singleton_r, Nf.
  - intros E. cbn [chronyFd set_connection]. split; [|lia]. by destruct (session t); rewrite ?chl_deinit.
Qed.
Lemma ct_own_same others t t' n n' : ct_own others t n -> chronyFd t' = chronyFd t -> session t' = session t -> ch_fds n' = ch_fds n ->
  (ct_phase t' = ct_phase t \/ (ct_phase t' <> Ch_start /\ ct_phase t' <> Ch_reconnect)) -> ct_own others t' n'.
Proof.
  unfold ct_own. intros O E1 E2 E3 Ph. rewrite E1, E2, E3. destruct (0 <=? chronyFd t); [|done].
  destruct O as (O1 & O2 & O3 & O4 & O5). split; [done|]. split; [done|]. split; [done|]. destruct Ph as [->|Ph]; [done|exact Ph].
Qed.
Lemma again_own others t n : ct_own others t n -> ct_phase t <> Ch_start -> let '(t', n') := sleep_and_again t n in ct_own others t' n'.
Proof.
  intros O Ns. unfold sleep_and_again. destruct (ch_stop _ n); (eapply ct_own_same; [exact O|done|done| |by right]); [done|apply chl_sleep].
Qed.
Lemma opened_own others t fd s n : (fd ∉ others) -> 0 <= fd -> ch_fds n = ({[fd]} ∪ others) ->
  let '(t', n') := sleep_and_again (set_connection fd (Some s) t) n in ct_own others t' n'.
Proof.
  intros Nf L E. unfold sleep_and_again. destruct (ch_stop _ n); unfold ct_own; cbn; rewrite (proj2 (Z.leb_le 0 fd)) by done;
    rewrite ?chl_sleep; by repeat split.
Qed.
Lemma wait_fds k i (n : N) : ch_fds (chrony_wait k i n) = ch_fds n.
Proof. revert n. induction k as [|k IH]; intros n; [done|]. cbn. destruct (ch_stop i n); [done|]. by rewrite IH, chl_sleep. Qed.
Lemma failed_own others t p n t' p' n' : ct_own others t n -> chrony_failed notifyBuff t p n = Some (t', (p', n')) -> ct_own others t' n'.
Proof.
  intros O. pose proof (close_own others t n O) as C. unfold chrony_failed. destruct (chrony_close t n) as [t1 n1]. destruct C as [E L].
  destruct (ch_stop _ n1). { intros [= <- <- <-]. unfold ct_own. cbn. by rewrite (proj2 (Z.leb_gt 0 _)). }
  destruct (chrony_publish _ _ p); [|done]. cbn [mbind option_bind]. intros [= <- <- <-]. unfold ct_own. cbn. by rewrite (proj2 (Z.leb_gt 0 _)).
Qed.
(** While sessions can be made no descriptor is lost, and the end of the service
    closes the last one. *)
Lemma chrony_round_own others t p n t' p' n' : (forall fd m, (ch_init fd m).1 <> None) ->
  ct_own others t n -> chrony_round notifyBuff t p n = Some (t', (p', n')) -> ct_own others t' n'.
Proof.
  intros Si O. unfold chrony_round. destruct (ct_phase t) eqn:Ph.
  - unfold chrony_start. assert (chronyFd t < 0 /\ ch_fds n = others) as [L E].
    { unfold ct_own in O. destruct (Z.leb_spec 0 (chronyFd t)); [|done]. by destruct O as (_ & _ & _ & ? & _). }
    pose proof (chl_open (udsAddr t) n) as Op. destruct (ch_open (udsAddr t) n) as [fd n1]. destruct (0 <=? fd) eqn:Lf.
    + pose proof (chl_init fd n1) as In. specialize (Si fd n1). destruct (ch_init fd n1) as [[s|] n2]; [|done]. intros [= <- <- <-].
      cbn [snd] in In. destruct Op as [Nf Ef]. unfold ct_own. cbn. rewrite Lf, In, Ef, E. rewrite <- E at 1. by repeat split.
    + intros [= <- <- <-]. unfold ct_own. cbn. rewrite Lf. congruence.
  - unfold subscribe_round. destruct (ch_stop _ n). { intros [= <- <- <-]. eapply ct_own_same; [exact O|done..|by right]. }
    destruct (session t) as [s|] eqn:Es; [|by apply failed_own]. pose proof (chl_request s (bytes "sources") 0 n) as Rq.
    destruct (ch_request_record _ _ _ n) as [ok n1]. cbn [snd] in Rq.
    assert (ct_own others t n1) as O1 by (eapply ct_own_same; [exact O|done|done|done|by left]).
    destruct ok; [|by apply failed_own]. intros [= <- <- <-]. eapply ct_own_same; [exact O1|done..|by right].
  - unfold wait_round. destruct (ch_stop _ n). { intros [= <- <- <-]. eapply ct_own_same; [exact O|done..|by right]. }
    destruct (session t) as [s|] eqn:Es; [|by apply failed_own]. destruct (ch_needs_response s n).
    + pose proof (chl_poll (chronyFd t) 1000 n) as Po. destruct (ch_poll _ _ n) as [ret n1]. cbn [snd] in Po.
      assert (ct_own others t n1) as O1 by (eapply ct_own_same; [exact O|done|done|done|by left]).
      destruct (ch_stop _ n1). { intros [= <- <- <-]. eapply ct_own_same; [exact O1|done..|by right]. }
      destruct (0 <? ret); [|by intros [= <- <- <-]]. pose proof (chl_process s n1) as Pr. destruct (ch_process_response s n1) as [ok n2].
      cbn [snd] in Pr. assert (ct_own others t n2) as O2 by (eapply ct_own_same; [exact O1|done|done|done|by left]).
      destruct ok; [by intros [= <- <- <-]|by apply failed_own].
    + destruct (chrony_publish _ _ p) as [p1|]; [|done]. cbn [mbind option_bind].
      assert (ct_own others (read_fields s t n) n) as O1 by (eapply ct_own_same; [exact O|done|done|done|by left]).
      pose proof (again_own others (read_fields s t n) n O1) as A. destruct (sleep_and_again _ n) as [t2 n2]. intros [= <- <- <-].
      apply A. cbn. by rewrite Ph.
  - unfold chrony_reconnect. assert (chronyFd t < 0 /\ ch_fds n = others) as [L E].
    { unfold ct_own in O. destruct (Z.leb_spec 0 (chronyFd t)); [|done]. by destruct O as (_ & _ & _ & _ & ?). }
    destruct (ch_stop _ n). { intros [= <- <- <-]. unfold ct_own. cbn. by rewrite (proj2 (Z.leb_gt 0 _)). }
    pose proof (chl_open (udsAddr t) n) as Op. destruct (ch_open (udsAddr t) n) as [fd n1].
    destruct (Z.ltb_spec fd 0) as [Lf|Lf].
    + rewrite (proj2 (Z.leb_gt 0 fd)) in Op by done. pose proof (wait_fds 50 (ct_index t) n1) as Wf.
      revert Wf. generalize (chrony_wait 50 (ct_index t) n1). intros n2 Wf [= <- <- <-]. unfold ct_own. cbn.
      rewrite (proj2 (Z.leb_gt 0 fd)) by done. congruence.
    + rewrite (proj2 (Z.leb_le 0 fd)) in Op by done. destruct Op as [Nf Ef]. pose proof (chl_init fd n1) as In. specialize (Si fd n1).
      destruct (ch_init fd n1) as [[s|] n2]; [|done]. cbn [snd] in In. pose proof (opened_own others t fd s n2) as A.
      destruct (sleep_and_again _ n2) as [t2 n3]. intros [= <- <- <-]. apply A; [by rewrite <- E|done|]. by rewrite In, Ef, E.
  - by intros [= <- <- <-].
Qed.
End Descriptors.

(** ** What is not noticed *)

(** A chronyd that stopped without an answer is waited for without end: the clients
    keep the last event. *)
Lemma silent_chronyd {N} `{ChronyLib N} `{Queues} `{Padding} notifyBuff s k : forall t p n,
  ct_phase t = Ch_wait -> session t = Some s -> (forall m, ch_stop (ct_index t) m = false) ->
  (forall m, ch_needs_response s m = true) -> (forall m, (ch_poll (chronyFd t) 1000 m).1 <= 0) ->
  exists n', chrony_loop notifyBuff k t p n = Some (t, (p, n')).
Proof.
  induction k as [|k IH]; intros t p n Ph Es St Nr Po; [by exists n|]. cbn [chrony_loop]. unfold chrony_round, wait_round.
  rewrite Ph, St, Es, Nr. specialize (Po n) as P. destruct (ch_poll _ _ n) as [ret n1]. cbn [fst] in P. rewrite St.
  rewrite (proj2 (Z.ltb_ge 0 ret)) by done. cbn [mbind option_bind]. by apply IH.
Qed.

(** * The threads that follow chrony on a small library

    An instance of [ChronyLib] with its laws, the theorem on the threads at work on
    it, and a connection whose session can not be made. *)

(** The descriptors that are open, whether sessions can be made, whether an answer
    is there. *)
Record demo_chrony := mk_demo_chrony { dc_fds : gset Z; dc_sessions : bool; dc_answer : bool }.
#[global] Instance demo_chrony_lib : ChronyLib demo_chrony := {|
  ch_stop i n := false;
  ch_open a n := let fd := Z.of_nat (base.fresh (set_map Z.to_nat (dc_fds n) : gset nat)) in
    (fd, mk_demo_chrony ({[fd]} ∪ dc_fds n) (dc_sessions n) (dc_answer n));
  ch_close fd n := mk_demo_chrony (dc_fds n ∖ {[fd]}) (dc_sessions n) (dc_answer n);
  ch_init fd n := (if dc_sessions n then Some 1 else None, n);
  ch_deinit s n := n;
  ch_request_record s r i n := (true, mk_demo_chrony (dc_fds n) (dc_sessions n) false);
  ch_needs_response s n := negb (dc_answer n);
  ch_poll fd t n := (1, n);
  ch_process_response s n := (true, mk_demo_chrony (dc_fds n) (dc_sessions n) true);
  ch_field_index s f n := 0;
  ch_uinteger s i n := 77;
  ch_integer s i n := 3;
  ch_nsec s i n := -5;
  ch_sleep d n := n;
  ch_conv z := 0
|}.
#[global] Instance demo_chrony_view : ChronyView demo_chrony := {| ch_fds := dc_fds |}.
#[global] Instance demo_chrony_laws : ChronyLaws demo_chrony.
Proof.
  split; try done. intros a n. cbn [ch_open demo_chrony_lib]. rewrite (proj2 (Z.leb_le 0 _)) by apply Nat2Z.is_nonneg.
  split; [|done]. intros E. apply (is_fresh (set_map Z.to_nat (dc_fds n) : gset nat)). apply elem_of_map.
  eexists. split; [|exact E]. by rewrite Nat2Z.id.
Qed.
#[local] Instance no_padding : Padding := { pad n := repeat x00 n; pad_length n := repeat_length x00 n }.
#[local] Instance any_queues : Queues := {| open_ok _ := true; send_ok _ := true |}.

Definition demo_system (sessions : bool) : demo_chrony := mk_demo_chrony {[0; 1; 2]} sessions false.
Definition demo_bases : list TimeBaseCfgFull := [mk_cfg_full demo_cfg (bytes "/run/chrony") []].
Definition demo_threads : list (Z * ChronyThreadSet) * Proxy := Chrony_registerSrv demo_bases (Proxy_new demo_bases).
Definition demo_thread : ChronyThreadSet := ChronyThreadSet_new 1 (bytes "/run/chrony").
(** A session that can not be made: each round of the loop that connects again
    opens a descriptor and leaves the one before open. *)
Lemma session_leak : exists t p n, chrony_loop ClkProxy.empty_buffer 6 demo_thread (Proxy_new demo_bases) (demo_system false) = Some (t, (p, n)) /\
  ct_phase t = Ch_reconnect /\ size (ch_fds n) = 7%nat.
Proof.
  destruct (chrony_loop ClkProxy.empty_buffer 6 demo_thread (Proxy_new demo_bases) (demo_system false)) as [[t [p n]]|] eqn:E.
  - exists t, p, n. split; [done|]. vm_compute in E. injection E as <- _ <-. split; vm_compute; reflexivity.
  - exfalso. revert E. vm_compute. discriminate.
Qed.
