(* ===== verification/SigC.v ===== *)
(** * SigC.v: the C structures of the signalling TLVs

    The C structure of every signalling TLV (generated, as the C++ one, from
    [src/src/sigTlvs.m4]) and its conversion from the C++ one: the [_c1]
    functions and [cpp2cSigTlv] of [src/src/sigTlvs.cpp].  The conversions of the
    basic structures and of the management TLVs are those of CTlvs.v, with its
    conventions; there is no conversion from C to C++.

    A list of a C structure has no count: its table has one element more than the
    C++ list, all zeros, so a C program stops at the first element of zeros. *)

From S2P Require Import Prelude Types Ids MsgProc Codec Structs MngTlvs MngTlvsSpec Dispatch.
From S2P Require Import SigTlvs Auth Message SigFacts CTlvs CTlvsFacts.

(** ** Structures *)

Record C_ORGANIZATION_EXTENSION := mk_C_ORGANIZATION_EXTENSION {
  c_oe_organizationId : list byte;
  c_oe_organizationSubType : list byte;
  c_oe_dataField : c_ptr byte;
  c_oe_dataSize : Z
}.
Record C_PATH_TRACE := mk_C_PATH_TRACE { c_pt_pathSequence : c_ptr ClockIdentity_t }.
Record C_ALTERNATE_TIME_OFFSET_INDICATOR := mk_C_ALTERNATE_TIME_OFFSET_INDICATOR {
  c_atoi_keyField : Z;
  c_atoi_currentOffset : Z;
  c_atoi_jumpSeconds : Z;
  c_atoi_timeOfNextJump : Z;
  c_atoi_displayName : C_PTPText
}.
Record C_PROTOCOL_ADDRESS := mk_C_PROTOCOL_ADDRESS { c_pa_portProtocolAddress : C_PortAddress }.
Record C_SLAVE_RX_SYNC_TIMING_DATA := mk_C_SLAVE_RX_SYNC_TIMING_DATA {
  c_srtd_syncSourcePortIdentity : PortIdentity_t;
  c_srtd_list : c_ptr SLAVE_RX_SYNC_TIMING_DATA_rec_t
}.
Record C_SLAVE_RX_SYNC_COMPUTED_DATA := mk_C_SLAVE_RX_SYNC_COMPUTED_DATA {
  c_srcd_sourcePortIdentity : PortIdentity_t;
  c_srcd_computedFlags : Z;
  c_srcd_list : c_ptr SLAVE_RX_SYNC_COMPUTED_DATA_rec_t
}.
Record C_SLAVE_TX_EVENT_TIMESTAMPS := mk_C_SLAVE_TX_EVENT_TIMESTAMPS {
  c_stet_sourcePortIdentity : PortIdentity_t;
  c_stet_eventMessageType : Z;
  c_stet_list : c_ptr SLAVE_TX_EVENT_TIMESTAMPS_rec_t
}.
Record C_SLAVE_DELAY_TIMING_DATA_NP := mk_C_SLAVE_DELAY_TIMING_DATA_NP {
  c_sdtd_sourcePortIdentity : PortIdentity_t;
  c_sdtd_list : c_ptr SLAVE_DELAY_TIMING_DATA_NP_rec_t
}.
Record C_MANAGEMENT_ERROR_STATUS := mk_C_MANAGEMENT_ERROR_STATUS {
  c_mes_managementId : mng_vals_e;
  c_mes_managementErrorId : Z;
  c_mes_displayData : C_PTPText
}.
Record C_MANAGEMENT := mk_C_MANAGEMENT {
  c_mng_managementId : mng_vals_e;
  c_mng_tlvData : CMngTlv
}.

(** What a [void *] to a C structure points to. *)
Inductive CSigTlv :=
| C_S_ORGANIZATION_EXTENSION (d : C_ORGANIZATION_EXTENSION)
| C_S_PATH_TRACE (d : C_PATH_TRACE)
| C_S_ALTERNATE_TIME_OFFSET_INDICATOR (d : C_ALTERNATE_TIME_OFFSET_INDICATOR)
| C_S_ENHANCED_ACCURACY_METRICS (d : ENHANCED_ACCURACY_METRICS_t)
| C_S_L1_SYNC (d : L1_SYNC_t)
| C_S_PORT_COMMUNICATION_AVAILABILITY (d : PORT_COMMUNICATION_AVAILABILITY_t)
| C_S_PROTOCOL_ADDRESS (d : C_PROTOCOL_ADDRESS)
| C_S_SLAVE_RX_SYNC_TIMING_DATA (d : C_SLAVE_RX_SYNC_TIMING_DATA)
| C_S_SLAVE_RX_SYNC_COMPUTED_DATA (d : C_SLAVE_RX_SYNC_COMPUTED_DATA)
| C_S_SLAVE_TX_EVENT_TIMESTAMPS (d : C_SLAVE_TX_EVENT_TIMESTAMPS)
| C_S_CUMULATIVE_RATE_RATIO (d : CUMULATIVE_RATE_RATIO_t)
| C_S_MANAGEMENT_ERROR_STATUS (d : C_MANAGEMENT_ERROR_STATUS)
| C_S_MANAGEMENT (d : C_MANAGEMENT)
| C_S_SLAVE_DELAY_TIMING_DATA_NP (d : C_SLAVE_DELAY_TIMING_DATA_NP).

(** A structure with the two other blocks that its conversion allocates: [x] the
    table of the list, or the management structure; [x2] the table of the
    management structure. *)
Record c1_out (A : Type) := mk_out { c1_a : A; c1_x : bool; c1_x2 : bool }.
Arguments mk_out {A} _ _ _.
Arguments c1_a {A} _.
Arguments c1_x {A} _.
Arguments c1_x2 {A} _.
Definition out_map {A B} (f : A -> B) (o : c1_out A) : c1_out B := mk_out (f (c1_a o)) (c1_x o) (c1_x2 o).
Definition no_table {A} (a : A) : c1_out A := mk_out a false false.
Definition with_table {A} (a : A) : c1_out A := mk_out a true false.

(** ** The conversions *)

(** [C1_tbl] of [src/src/sigTlvs.cpp]. *)
Definition sig_tbl {A} (zero : A) (f : A -> A) (l : list A) : c_ptr A := P_to (map f l ++ [zero]).

Definition c1_st_Timestamp (d : Timestamp_t) : Timestamp_t :=
  mk_Timestamp (secondsField d) (nanosecondsField d).
Definition c1_st_TimeInterval (d : TimeInterval_t) : TimeInterval_t :=
  mk_TimeInterval (scaledNanoseconds d).

Definition ORGANIZATION_EXTENSION_c1 (d : ORGANIZATION_EXTENSION_t) : c1_out C_ORGANIZATION_EXTENSION :=
  no_table (mk_C_ORGANIZATION_EXTENSION (memcpy 3 (oe_organizationId d)) (memcpy 3 (oe_organizationSubType d))
              (if bool_decide (oe_dataField d = []) then P_null else P_to (oe_dataField d))
              (len (oe_dataField d))).
Definition PATH_TRACE_c1 (d : PATH_TRACE_t) : c1_out C_PATH_TRACE :=
  with_table (mk_C_PATH_TRACE (sig_tbl zero_ClockIdentity memcpy_ClockIdentity (pt_pathSequence d))).
Definition ALTERNATE_TIME_OFFSET_INDICATOR_c1 (d : ALTERNATE_TIME_OFFSET_INDICATOR_t)
    : c1_out C_ALTERNATE_TIME_OFFSET_INDICATOR :=
  no_table (mk_C_ALTERNATE_TIME_OFFSET_INDICATOR (atoi_keyField d) (atoi_currentOffset d) (atoi_jumpSeconds d)
              (atoi_timeOfNextJump d) (c1_st_PTPText (atoi_displayName d))).
Definition ENHANCED_ACCURACY_METRICS_c1 (d : ENHANCED_ACCURACY_METRICS_t) : c1_out ENHANCED_ACCURACY_METRICS_t :=
  no_table (mk_ENHANCED_ACCURACY_METRICS (eam_bcHopCount d) (eam_tcHopCount d)
    (c1_st_TimeInterval (eam_maxGmInaccuracy d)) (eam_varGmInaccuracy d)
    (c1_st_TimeInterval (eam_maxTransientInaccuracy d)) (eam_varTransientInaccuracy d)
    (c1_st_TimeInterval (eam_maxDynamicInaccuracy d)) (eam_varDynamicInaccuracy d)
    (c1_st_TimeInterval (eam_maxStaticInstanceInaccuracy d)) (eam_varStaticInstanceInaccuracy d)
    (c1_st_TimeInterval (eam_maxStaticMediumInaccuracy d)) (eam_varStaticMediumInaccuracy d)).
Definition L1_SYNC_c1 (d : L1_SYNC_t) : c1_out L1_SYNC_t :=
  no_table
    (if 0 <? Z.land (l1_flags1 d) L1_SYNC_optParamsEnabled then
       mk_L1_SYNC (l1_flags1 d) (l1_flags2 d) (l1_flags3 d)
         (c1_st_TimeInterval (l1_phaseOffsetTx d)) (c1_st_Timestamp (l1_phaseOffsetTxTimestamp d))
         (c1_st_TimeInterval (l1_freqOffsetTx d)) (c1_st_Timestamp (l1_freqOffsetTxTimestamp d))
     else
       mk_L1_SYNC (l1_flags1 d) (l1_flags2 d) 0 zero_TimeInterval zero_Timestamp zero_TimeInterval
         zero_Timestamp).
Definition PORT_COMMUNICATION_AVAILABILITY_c1 (d : PORT_COMMUNICATION_AVAILABILITY_t)
    : c1_out PORT_COMMUNICATION_AVAILABILITY_t :=
  no_table (mk_PORT_COMMUNICATION_AVAILABILITY (pca_syncMessageAvailability d)
              (pca_delayRespMessageAvailability d)).
Definition PROTOCOL_ADDRESS_c1 (d : PROTOCOL_ADDRESS_t) : c1_out C_PROTOCOL_ADDRESS :=
  no_table (mk_C_PROTOCOL_ADDRESS (c1_st_PortAddress (pa_portProtocolAddress d))).

Definition SRT_c1 (f : SLAVE_RX_SYNC_TIMING_DATA_rec_t) : SLAVE_RX_SYNC_TIMING_DATA_rec_t :=
  mk_SLAVE_RX_SYNC_TIMING_DATA_rec (srt_sequenceId f) (c1_st_Timestamp (srt_syncOriginTimestamp f))
    (c1_st_TimeInterval (srt_totalCorrectionField f)) (srt_scaledCumulativeRateOffset f)
    (c1_st_Timestamp (srt_syncEventIngressTimestamp f)).
Definition SLAVE_RX_SYNC_TIMING_DATA_c1 (d : SLAVE_RX_SYNC_TIMING_DATA_t) : c1_out C_SLAVE_RX_SYNC_TIMING_DATA :=
  with_table (mk_C_SLAVE_RX_SYNC_TIMING_DATA (c1_st_PortIdentity (srtd_syncSourcePortIdentity d))
                (sig_tbl zero_SRT SRT_c1 (srtd_list d))).
Definition SRC_c1 (f : SLAVE_RX_SYNC_COMPUTED_DATA_rec_t) : SLAVE_RX_SYNC_COMPUTED_DATA_rec_t :=
  mk_SLAVE_RX_SYNC_COMPUTED_DATA_rec (src_sequenceId f) (c1_st_TimeInterval (src_offsetFromMaster f))
    (c1_st_TimeInterval (src_meanPathDelay f)) (src_scaledNeighborRateRatio f).
Definition SLAVE_RX_SYNC_COMPUTED_DATA_c1 (d : SLAVE_RX_SYNC_COMPUTED_DATA_t)
    : c1_out C_SLAVE_RX_SYNC_COMPUTED_DATA :=
  with_table (mk_C_SLAVE_RX_SYNC_COMPUTED_DATA (c1_st_PortIdentity (srcd_sourcePortIdentity d))
                (srcd_computedFlags d) (sig_tbl zero_SRC SRC_c1 (srcd_list d))).
Definition STE_c1 (f : SLAVE_TX_EVENT_TIMESTAMPS_rec_t) : SLAVE_TX_EVENT_TIMESTAMPS_rec_t :=
  mk_SLAVE_TX_EVENT_TIMESTAMPS_rec (ste_sequenceId f) (c1_st_Timestamp (ste_eventEgressTimestamp f)).
Definition SLAVE_TX_EVENT_TIMESTAMPS_c1 (d : SLAVE_TX_EVENT_TIMESTAMPS_t) : c1_out C_SLAVE_TX_EVENT_TIMESTAMPS :=
  with_table (mk_C_SLAVE_TX_EVENT_TIMESTAMPS (c1_st_PortIdentity (stet_sourcePortIdentity d))
                (stet_eventMessageType d) (sig_tbl zero_STE STE_c1 (stet_list d))).
Definition CUMULATIVE_RATE_RATIO_c1 (d : CUMULATIVE_RATE_RATIO_t) : c1_out CUMULATIVE_RATE_RATIO_t :=
  no_table (mk_CUMULATIVE_RATE_RATIO (crr_scaledCumulativeRateRatio d)).
Definition MANAGEMENT_ERROR_STATUS_c1 (d : MANAGEMENT_ERROR_STATUS_t) : c1_out C_MANAGEMENT_ERROR_STATUS :=
  no_table (mk_C_MANAGEMENT_ERROR_STATUS (mes_managementId d) (mes_managementErrorId d)
              (c1_st_PTPText (mes_displayData d))).
Definition SDT_c1 (f : SLAVE_DELAY_TIMING_DATA_NP_rec_t) : SLAVE_DELAY_TIMING_DATA_NP_rec_t :=
  mk_SLAVE_DELAY_TIMING_DATA_NP_rec (sdt_sequenceId f) (c1_st_Timestamp (sdt_delayOriginTimestamp f))
    (c1_st_TimeInterval (sdt_totalCorrectionField f)) (c1_st_Timestamp (sdt_delayResponseTimestamp f)).
Definition SLAVE_DELAY_TIMING_DATA_NP_c1 (d : SLAVE_DELAY_TIMING_DATA_NP_t)
    : c1_out C_SLAVE_DELAY_TIMING_DATA_NP :=
  with_table (mk_C_SLAVE_DELAY_TIMING_DATA_NP (c1_st_PortIdentity (sdtd_sourcePortIdentity d))
                (sig_tbl zero_SDT SDT_c1 (sdtd_list d))).

(** [cpp2cMngTlv] of a pointer: its result is null for the ids without a structure,
    whatever the pointer is; [None] is the use of a pointer that was not set. *)
Definition cpp2cMngTlv_ptr (id : mng_vals_e) (tlv : tlv_ptr) : option (option CMngTlv) :=
  match tlv with
  | Null => Some None
  | Obj t => Some (cpp2cMngTlv id t)
  | Unset =>
      match ctlv_case_of id with
      | CCaseNA => if bool_decide (id = SMPTE_MNG_ID) then None else Some None
      | _ => None
      end
  end.
Definition is_table {A} (p : c_ptr A) : bool := match p with P_to _ => true | _ => false end.
(** The [x] of [cpp2cMngTlv]: the TLVs with a table, when it is not empty. *)
Definition mng_table (t : CMngTlv) : bool :=
  match t with
  | C_T_FAULT_LOG a => is_table (c_fl_faultRecords a)
  | C_T_PATH_TRACE_LIST a => is_table (c_ptl_pathSequence a)
  | C_T_GRANDMASTER_CLUSTER_TABLE a => is_table (c_gct_PortAddress a)
  | C_T_UNICAST_MASTER_TABLE a => is_table (c_umt_PortAddress a)
  | C_T_ACCEPTABLE_MASTER_TABLE a => is_table (c_amt_list a)
  | C_T_UNICAST_MASTER_TABLE_NP a => is_table (c_umn_unicastMasters a)
  | _ => false
  end.
(** [Some None] is the error [e]. *)
Definition MANAGEMENT_c1 (d : MANAGEMENT_t) : option (option (c1_out C_MANAGEMENT)) :=
  x ← cpp2cMngTlv_ptr (mng_managementId d) (mng_tlvData d);
  Some (t ← x; Some (mk_out (mk_C_MANAGEMENT (mng_managementId d) t) true (mng_table t))).

(** ** The dispatch on the type *)

(** [cpp2cSigTlv]: [None] is a fault, [Some None] the null pointer. *)
Definition cpp2cSigTlv (tlv_id : Z) (tlv : option BaseSigTlv) : option (option (c1_out CSigTlv)) :=
  match tlv with
  | None => Some None
  | Some t =>
      match t with
      | S_ORGANIZATION_EXTENSION d =>
          if (tlv_id =? ORGANIZATION_EXTENSION_PROPAGATE) || (tlv_id =? ORGANIZATION_EXTENSION_DO_NOT_PROPAGATE)
             || (tlv_id =? ORGANIZATION_EXTENSION)
          then Some (Some (out_map C_S_ORGANIZATION_EXTENSION (ORGANIZATION_EXTENSION_c1 d))) else Some None
      | S_PATH_TRACE d =>
          if tlv_id =? PATH_TRACE then Some (Some (out_map C_S_PATH_TRACE (PATH_TRACE_c1 d))) else Some None
      | S_ALTERNATE_TIME_OFFSET_INDICATOR d =>
          if tlv_id =? ALTERNATE_TIME_OFFSET_INDICATOR
          then Some (Some (out_map C_S_ALTERNATE_TIME_OFFSET_INDICATOR (ALTERNATE_TIME_OFFSET_INDICATOR_c1 d)))
          else Some None
      | S_ENHANCED_ACCURACY_METRICS d =>
          if tlv_id =? ENHANCED_ACCURACY_METRICS
          then Some (Some (out_map C_S_ENHANCED_ACCURACY_METRICS (ENHANCED_ACCURACY_METRICS_c1 d)))
          else Some None
      | S_L1_SYNC d =>
          if tlv_id =? L1_SYNC then Some (Some (out_map C_S_L1_SYNC (L1_SYNC_c1 d))) else Some None
      | S_PORT_COMMUNICATION_AVAILABILITY d =>
          if tlv_id =? PORT_COMMUNICATION_AVAILABILITY
          then Some (Some (out_map C_S_PORT_COMMUNICATION_AVAILABILITY (PORT_COMMUNICATION_AVAILABILITY_c1 d)))
          else Some None
      | S_PROTOCOL_ADDRESS d =>
          if tlv_id =? PROTOCOL_ADDRESS
          then Some (Some (out_map C_S_PROTOCOL_ADDRESS (PROTOCOL_ADDRESS_c1 d))) else Some None
      | S_SLAVE_RX_SYNC_TIMING_DATA d =>
          if tlv_id =? SLAVE_RX_SYNC_TIMING_DATA
          then Some (Some (out_map C_S_SLAVE_RX_SYNC_TIMING_DATA (SLAVE_RX_SYNC_TIMING_DATA_c1 d)))
          else Some None
      | S_SLAVE_RX_SYNC_COMPUTED_DATA d =>
          if tlv_id =? SLAVE_RX_SYNC_COMPUTED_DATA
          then Some (Some (out_map C_S_SLAVE_RX_SYNC_COMPUTED_DATA (SLAVE_RX_SYNC_COMPUTED_DATA_c1 d)))
          else Some None
      | S_SLAVE_TX_EVENT_TIMESTAMPS d =>
          if tlv_id =? SLAVE_TX_EVENT_TIMESTAMPS
          then Some (Some (out_map C_S_SLAVE_TX_EVENT_TIMESTAMPS (SLAVE_TX_EVENT_TIMESTAMPS_c1 d)))
          else Some None
      | S_CUMULATIVE_RATE_RATIO d =>
          if tlv_id =? CUMULATIVE_RATE_RATIO
          then Some (Some (out_map C_S_CUMULATIVE_RATE_RATIO (CUMULATIVE_RATE_RATIO_c1 d))) else Some None
      | S_MANAGEMENT_ERROR_STATUS d =>
          if tlv_id =? MANAGEMENT_ERROR_STATUS
          then Some (Some (out_map C_S_MANAGEMENT_ERROR_STATUS (MANAGEMENT_ERROR_STATUS_c1 d))) else Some None
      | S_MANAGEMENT d =>
          if tlv_id =? MANAGEMENT
          then option_map (option_map (out_map C_S_MANAGEMENT)) (MANAGEMENT_c1 d) else Some None
      | S_SLAVE_DELAY_TIMING_DATA_NP d =>
          if tlv_id =? SLAVE_DELAY_TIMING_DATA_NP
          then Some (Some (out_map C_S_SLAVE_DELAY_TIMING_DATA_NP (SLAVE_DELAY_TIMING_DATA_NP_c1 d)))
          else Some None
      end
  end.

(** * What a C program reads in the structure of a signalling TLV

    [csig_read] is the signalling TLV that a C program finds in a C structure: the
    texts and octets behind its pointers, the elements of a list up to the one of
    zeros, the management structure as [c2cppMngTlv] reads it.  The theorems show
    that it is the TLV that was converted, and when it is not. *)

(** ** Reading *)

#[global] Instance SRT_eq_dec : EqDecision SLAVE_RX_SYNC_TIMING_DATA_rec_t.
Proof. solve_decision. Defined.
#[global] Instance SRC_eq_dec : EqDecision SLAVE_RX_SYNC_COMPUTED_DATA_rec_t.
Proof. solve_decision. Defined.
#[global] Instance STE_eq_dec : EqDecision SLAVE_TX_EVENT_TIMESTAMPS_rec_t.
Proof. solve_decision. Defined.
#[global] Instance SDT_eq_dec : EqDecision SLAVE_DELAY_TIMING_DATA_NP_rec_t.
Proof. solve_decision. Defined.

(** The elements before the first that is [zero]; [None] without one. *)
Fixpoint until {A} `{EqDecision A} (zero : A) (l : list A) : option (list A) :=
  match l with
  | [] => None
  | a :: l => if decide (a = zero) then Some [] else cons a <$> until zero l
  end.
Definition read_list {A} `{EqDecision A} (zero : A) (p : c_ptr A) : option (list A) :=
  match p with P_to l => until zero l | _ => None end.

Definition csig_read (c : CSigTlv) : option BaseSigTlv :=
  match c with
  | C_S_ORGANIZATION_EXTENSION d =>
      '(_, b) ← c2_st_Binary (c_oe_dataSize d) (c_oe_dataField d);
      Some (S_ORGANIZATION_EXTENSION (mk_ORGANIZATION_EXTENSION (c_oe_organizationId d)
                                        (c_oe_organizationSubType d) b))
  | C_S_PATH_TRACE d =>
      l ← read_list zero_ClockIdentity (c_pt_pathSequence d); Some (S_PATH_TRACE (mk_PATH_TRACE l))
  | C_S_ALTERNATE_TIME_OFFSET_INDICATOR d =>
      t ← c2_st_PTPText (c_atoi_displayName d);
      Some (S_ALTERNATE_TIME_OFFSET_INDICATOR (mk_ALTERNATE_TIME_OFFSET_INDICATOR (c_atoi_keyField d)
              (c_atoi_currentOffset d) (c_atoi_jumpSeconds d) (c_atoi_timeOfNextJump d) t))
  | C_S_ENHANCED_ACCURACY_METRICS d => Some (S_ENHANCED_ACCURACY_METRICS d)
  | C_S_L1_SYNC d => Some (S_L1_SYNC d)
  | C_S_PORT_COMMUNICATION_AVAILABILITY d => Some (S_PORT_COMMUNICATION_AVAILABILITY d)
  | C_S_PROTOCOL_ADDRESS d =>
      a ← c2_st_PortAddress (c_pa_portProtocolAddress d); Some (S_PROTOCOL_ADDRESS (mk_PROTOCOL_ADDRESS a))
  | C_S_SLAVE_RX_SYNC_TIMING_DATA d =>
      l ← read_list zero_SRT (c_srtd_list d);
      Some (S_SLAVE_RX_SYNC_TIMING_DATA (mk_SLAVE_RX_SYNC_TIMING_DATA (c_srtd_syncSourcePortIdentity d) l))
  | C_S_SLAVE_RX_SYNC_COMPUTED_DATA d =>
      l ← read_list zero_SRC (c_srcd_list d);
      Some (S_SLAVE_RX_SYNC_COMPUTED_DATA (mk_SLAVE_RX_SYNC_COMPUTED_DATA (c_srcd_sourcePortIdentity d)
              (c_srcd_computedFlags d) l))
  | C_S_SLAVE_TX_EVENT_TIMESTAMPS d =>
      l ← read_list zero_STE (c_stet_list d);
      Some (S_SLAVE_TX_EVENT_TIMESTAMPS (mk_SLAVE_TX_EVENT_TIMESTAMPS (c_stet_sourcePortIdentity d)
              (c_stet_eventMessageType d) l))
  | C_S_CUMULATIVE_RATE_RATIO d => Some (S_CUMULATIVE_RATE_RATIO d)
  | C_S_MANAGEMENT_ERROR_STATUS d =>
      t ← c2_st_PTPText (c_mes_displayData d);
      Some (S_MANAGEMENT_ERROR_STATUS (mk_MANAGEMENT_ERROR_STATUS (c_mes_managementId d)
              (c_mes_managementErrorId d) t))
  | C_S_MANAGEMENT d =>
      t ← c2cppMngTlv (c_mng_managementId d) (Some (c_mng_tlvData d));
      Some (S_MANAGEMENT (mk_MANAGEMENT (c_mng_managementId d)
              match t with Some t => Obj t | None => Null end))
  | C_S_SLAVE_DELAY_TIMING_DATA_NP d =>
      l ← read_list zero_SDT (c_sdtd_list d);
      Some (S_SLAVE_DELAY_TIMING_DATA_NP (mk_SLAVE_DELAY_TIMING_DATA_NP (c_sdtd_sourcePortIdentity d) l))
  end.

(** ** Lists *)

(** The elements before the first [zero] of a list that may have none. *)
Fixpoint before {A} `{EqDecision A} (zero : A) (l : list A) : list A :=
  match l with [] => [] | a :: l => if decide (a = zero) then [] else a :: before zero l end.

Lemma until_before {A} `{EqDecision A} (zero : A) l : until zero (l ++ [zero]) = Some (before zero l).
Proof.
  induction l as [|a l IH]; cbn; [by rewrite decide_True|]. case_decide; [done|]. by rewrite IH.
Qed.
Lemma before_all {A} `{EqDecision A} (zero : A) l : zero ∉ l -> before zero l = l.
Proof.
  induction l as [|a l IH]; [done|]. rewrite not_elem_of_cons. intros [N1 N2]. cbn.
  rewrite decide_False by congruence. by rewrite IH.
Qed.
(** The table of a list whose elements are copied unchanged. *)
Lemma tbl_read {A} `{EqDecision A} (zero : A) f l : Forall (fun a => f a = a) l ->
  read_list zero (sig_tbl zero f l) = Some (before zero l).
Proof.
  intros F. unfold read_list, sig_tbl. replace (map f l) with l; [apply until_before|].
  symmetry. apply list_eq_Forall2. induction F as [|a l E _ IH]; cbn; [done|]. by constructor.
Qed.

Lemma SRT_c1_id d : SRT_c1 d = d. Proof. by destruct d as [? [] [] ? []]. Qed.
Lemma SRC_c1_id d : SRC_c1 d = d. Proof. by destruct d as [? [] [] ?]. Qed.
Lemma STE_c1_id d : STE_c1 d = d. Proof. by destruct d as [? []]. Qed.
Lemma SDT_c1_id d : SDT_c1 d = d. Proof. by destruct d as [? [] [] []]. Qed.
Lemma PortIdentity_c1_id d : wf_PortIdentity d -> c1_st_PortIdentity d = d.
Proof.
  destruct d as [c n]. intros [W _]. unfold c1_st_PortIdentity. cbn in *.
  by rewrite memcpy_ClockIdentity_all.
Qed.

(** ** What the structures can hold *)

(** No element of a list is all zeros, and the management structure is one of its id
    that CTlvs.v can convert. *)
Definition sig_able (t : BaseSigTlv) : Prop :=
  match t with
  | S_PATH_TRACE d => wf_sig t /\ zero_ClockIdentity ∉ pt_pathSequence d
  | S_SLAVE_RX_SYNC_TIMING_DATA d => wf_sig t /\ zero_SRT ∉ srtd_list d
  | S_SLAVE_RX_SYNC_COMPUTED_DATA d => wf_sig t /\ zero_SRC ∉ srcd_list d
  | S_SLAVE_TX_EVENT_TIMESTAMPS d => wf_sig t /\ zero_STE ∉ stet_list d
  | S_SLAVE_DELAY_TIMING_DATA_NP d => wf_sig t /\ zero_SDT ∉ sdtd_list d
  | S_MANAGEMENT_ERROR_STATUS d => wf_PTPText (mes_displayData d)
  | S_MANAGEMENT d =>
      exists m, mng_tlvData d = Obj m /\ verifyTlv (mng_managementId d) (Obj m) = true /\ wf_tlv m /\ c_able m
  | _ => wf_sig t
  end.
(** The fields that the conversion recomputes: lengths of texts and addresses, and the
    extended parameters of [L1_SYNC] without their flag. *)
Definition sig_same (t t' : BaseSigTlv) : Prop :=
  match t, t' with
  | S_ALTERNATE_TIME_OFFSET_INDICATOR d, S_ALTERNATE_TIME_OFFSET_INDICATOR d' =>
      d' = mk_ALTERNATE_TIME_OFFSET_INDICATOR (atoi_keyField d) (atoi_currentOffset d) (atoi_jumpSeconds d)
             (atoi_timeOfNextJump d) (norm_PTPText (atoi_displayName d))
  | S_PROTOCOL_ADDRESS d, S_PROTOCOL_ADDRESS d' =>
      d' = mk_PROTOCOL_ADDRESS (norm_PortAddress (pa_portProtocolAddress d))
  | S_L1_SYNC d, S_L1_SYNC d' => norm_L1_SYNC d' = norm_L1_SYNC d /\ (norm_L1_SYNC d = d -> d' = d)
  | S_MANAGEMENT_ERROR_STATUS d, S_MANAGEMENT_ERROR_STATUS d' =>
      d' = mk_MANAGEMENT_ERROR_STATUS (mes_managementId d) (mes_managementErrorId d)
             (norm_PTPText (mes_displayData d))
  | S_MANAGEMENT d, S_MANAGEMENT d' =>
      mng_managementId d' = mng_managementId d /\
      match mng_tlvData d, mng_tlvData d' with
      | Obj m, Obj m' => norm_tlv m' = norm_tlv m /\ (norm_tlv m = m -> m' = m)
      | _, _ => False
      end
  | _, _ => t' = t
  end.

Definition converts (ty : Z) (t : BaseSigTlv) : Prop :=
  exists out t', cpp2cSigTlv ty (Some t) = Some (Some out) /\ csig_read (c1_a out) = Some t' /\ sig_same t t'.

Lemma MANAGEMENT_converts d : sig_able (S_MANAGEMENT d) -> converts MANAGEMENT (S_MANAGEMENT d).
Proof.
  destruct d as [id p]. cbn. intros (m & -> & V & W & A).
  destruct (c_tlv_back id m V W A) as (c & m' & E1 & E2 & _ & N & U).
  unfold converts. cbn [cpp2cSigTlv]. rewrite Z.eqb_refl. unfold MANAGEMENT_c1. cbn -[cpp2cMngTlv c2cppMngTlv].
  rewrite E1. cbn -[cpp2cMngTlv c2cppMngTlv]. eexists _, _. split; [reflexivity|]. cbn -[c2cppMngTlv].
  rewrite E2. cbn. done.
Qed.
Lemma L1_SYNC_converts d : converts L1_SYNC (S_L1_SYNC d).
Proof.
  eexists _, _. split; [reflexivity|]. split; [reflexivity|].
  destruct d as [f1 f2 f3 [a] [b b'] [c] [e e']]. cbn -[Z.land Z.ltb]. unfold L1_SYNC_c1. cbn -[Z.land Z.ltb].
  assert (Z.land (normFlags L1_SYNC_flagsMask1 f1) L1_SYNC_optParamsEnabled =
          Z.land f1 L1_SYNC_optParamsEnabled) as E.
  { unfold normFlags. change (1 <? L1_SYNC_flagsMask1) with true. cbv iota. by rewrite <- Z.land_assoc. }
  destruct (0 <? Z.land f1 L1_SYNC_optParamsEnabled) eqn:B; cbn -[Z.land Z.ltb].
  - done.
  - unfold norm_L1_SYNC. cbn -[Z.land Z.ltb]. rewrite E, B. split; [done|]. intros [= <- <- <- <- <- <- <- <- <-].
    done.
Qed.

(** A conversion and what is read are evaluated; only the lists are left. *)
Ltac sig_convert := eexists _, _; split; [reflexivity|]; cbn -[memcpy len read_list until sig_tbl c1_st_PTPText
  c2_st_PTPText c1_st_PortAddress c2_st_PortAddress c1_st_PortIdentity].

Lemma ORGANIZATION_EXTENSION_converts ty d : sig_typed (ty, S_ORGANIZATION_EXTENSION d) ->
  wf_sig (S_ORGANIZATION_EXTENSION d) -> converts ty (S_ORGANIZATION_EXTENSION d).
Proof.
  destruct d as [o1 o2 b]. cbn -[len]. intros T (L1 & L2 & L3).
  assert (c2_st_Binary (len b) (if bool_decide (b = []) then P_null else P_to b) = Some (len b, b)) as E.
  { pose proof (len_nonneg b). case_bool_decide as B; [by subst b|]. cbn -[len].
    destruct (Z.ltb_spec 0 (len b)) as [L|L]; [by rewrite read_n_all|].
    destruct b; [done|]. unfold len in L. cbn in L. lia. }
  assert (forall ty, ty = ORGANIZATION_EXTENSION \/ ty = ORGANIZATION_EXTENSION_PROPAGATE \/
    ty = ORGANIZATION_EXTENSION_DO_NOT_PROPAGATE -> converts ty (S_ORGANIZATION_EXTENSION
      (mk_ORGANIZATION_EXTENSION o1 o2 b))) as H; [|by apply H].
  intros ty' [->|[->| ->]]; sig_convert; cbn -[len memcpy c2_st_Binary]; rewrite E; cbn -[memcpy];
    (split; [reflexivity|]); by rewrite !memcpy_all.
Qed.

Lemma PATH_TRACE_converts d : sig_able (S_PATH_TRACE d) -> converts PATH_TRACE (S_PATH_TRACE d).
Proof.
  destruct d as [l]. cbn. intros [W N]. sig_convert. rewrite tbl_read.
  - cbn. rewrite before_all by done. done.
  - eapply Forall_impl; [exact W|]. intros. by apply memcpy_ClockIdentity_all.
Qed.
Lemma text_address_converts t : match t with S_ALTERNATE_TIME_OFFSET_INDICATOR _ | S_PROTOCOL_ADDRESS _
  | S_MANAGEMENT_ERROR_STATUS _ => True | _ => False end -> sig_able t -> converts (sig_type t) t.
Proof.
  destruct t as [d|d|d|d|d|d|d|d|d|d|d|d|d|d]; try done; intros _ A; cbn in A.
  - destruct A as (_ & _ & _ & _ & W). sig_convert. rewrite PTPText_back by done. by cbn.
  - sig_convert. rewrite PortAddress_back by done. by cbn.
  - sig_convert. rewrite PTPText_back by done. by cbn.
Qed.

Lemma records_converts t : match t with S_SLAVE_RX_SYNC_TIMING_DATA _ | S_SLAVE_RX_SYNC_COMPUTED_DATA _
  | S_SLAVE_TX_EVENT_TIMESTAMPS _ | S_SLAVE_DELAY_TIMING_DATA_NP _ => True | _ => False end ->
  sig_able t -> converts (sig_type t) t.
Proof.
  destruct t as [d|d|d|d|d|d|d|d|d|d|d|d|d|d]; try done; intros _ [W N]; cbn in W; destruct_and?;
    sig_convert; rewrite PortIdentity_c1_id by done.
  - rewrite tbl_read by (apply Forall_true, SRT_c1_id). cbn. rewrite before_all by done. by destruct d.
  - rewrite tbl_read by (apply Forall_true, SRC_c1_id). cbn. rewrite before_all by done. by destruct d.
  - rewrite tbl_read by (apply Forall_true, STE_c1_id). cbn. rewrite before_all by done. by destruct d.
  - rewrite tbl_read by (apply Forall_true, SDT_c1_id). cbn. rewrite before_all by done. by destruct d.
Qed.
Lemma flat_converts t : match t with S_ENHANCED_ACCURACY_METRICS _ | S_PORT_COMMUNICATION_AVAILABILITY _
  | S_CUMULATIVE_RATE_RATIO _ => True | _ => False end -> converts (sig_type t) t.
Proof.
  destruct t as [d|d|d|d|d|d|d|d|d|d|d|d|d|d]; try done; intros _; sig_convert; (split; [reflexivity|]); cbn.
  - by destruct d as [? ? [] ? [] ? [] ? [] ? [] ?].
  - by destruct d.
  - by destruct d.
Qed.

Lemma sig_converts ty t : sig_typed (ty, t) -> sig_able t -> converts ty t.
Proof.
  intros T A. destruct t as [d|d|d|d|d|d|d|d|d|d|d|d|d|d].
  13: cbn in T; destruct T as [-> _]; by apply MANAGEMENT_converts.
  1: by apply ORGANIZATION_EXTENSION_converts.
  all: cbn in T; subst ty; match goal with |- converts _ ?t => change (converts (sig_type t) t) end;
    first [by apply PATH_TRACE_converts | apply L1_SYNC_converts | by apply flat_converts
          | by apply text_address_converts | by apply records_converts].
Qed.

(** C17: The C structure of a signalling TLV, of any of its types, holds the TLV: the
    conversion succeeds and uses no pointer that was not set, and what a C program
    reads there, with no access outside of what the structure points to, is the same
    TLV, with its lengths recomputed, and in a [MANAGEMENT] a structure that builds the
    same octets.  It holds for every TLV in its ranges whose lists have no element of
    zeros. *)
Theorem c_sig_read ty t : sig_typed (ty, t) -> sig_able t -> converts ty t.
Proof. apply sig_converts. Qed.

Definition demo_sig : BaseSigTlv :=
  S_SLAVE_TX_EVENT_TIMESTAMPS (mk_SLAVE_TX_EVENT_TIMESTAMPS
    (mk_PortIdentity (mk_ClockIdentity (repeat x01 8)) 1) 0
    [mk_SLAVE_TX_EVENT_TIMESTAMPS_rec 0 (mk_Timestamp 3 4); mk_SLAVE_TX_EVENT_TIMESTAMPS_rec 9 (mk_Timestamp 5 6)]).
Lemma demo_sig_able : sig_able demo_sig.
Proof.
  split.
  - split; [split; [reflexivity|split; vm_compute; congruence]|]. split; [split; vm_compute; congruence|].
    repeat constructor; vm_compute; congruence.
  - cbn. rewrite !not_elem_of_cons. split; [discriminate|]. split; [discriminate|]. apply not_elem_of_nil.
Qed.
Lemma c_sig_read_witness : converts SLAVE_TX_EVENT_TIMESTAMPS demo_sig.
Proof. apply (c_sig_read SLAVE_TX_EVENT_TIMESTAMPS demo_sig); [reflexivity|exact demo_sig_able]. Defined.

(** The list that a C program finds ends at the first record of zeros, which a message may
    hold: the others are not seen. *)
Theorem c_sig_truncated d out : Forall wf_ClockIdentity (pt_pathSequence d) ->
  cpp2cSigTlv PATH_TRACE (Some (S_PATH_TRACE d)) = Some (Some out) ->
  csig_read (c1_a out) = Some (S_PATH_TRACE (mk_PATH_TRACE (before zero_ClockIdentity (pt_pathSequence d)))).
Proof.
  intros W [= <-]. cbn -[memcpy len read_list until sig_tbl]. rewrite tbl_read; [done|].
  eapply Forall_impl; [exact W|]. intros. by apply memcpy_ClockIdentity_all.
Qed.
Lemma c_sig_truncated_witness : exists out,
  cpp2cSigTlv PATH_TRACE (Some (S_PATH_TRACE (mk_PATH_TRACE (ptl_pathSequence demo_path)))) = Some (Some out) /\
  csig_read (c1_a out) = Some (S_PATH_TRACE (mk_PATH_TRACE [mk_ClockIdentity (repeat x01 8)])).
Proof.
  eexists. split; [reflexivity|].
  apply (c_sig_truncated (mk_PATH_TRACE (ptl_pathSequence demo_path))); [|reflexivity].
  repeat constructor; reflexivity.
Defined.
