(* ===== verification/CfgC.v ===== *)
(** * CfgC.v: the configuration and the key file of the C interface

    [ptpmgmt_cfg_t], [ptpmgmt_spp_t] and [ptpmgmt_safile_t] of [src/pub/c/cfg.h]
    and their functions in [src/src/cfg.cpp].

    The structures of the security parameters are blocks of a heap: one that the
    program allocates owns its C++ object; one that [ptpmgmt_safile_spp] makes has
    the address of an object in the map of the [SaFile], which lives until a read
    replaces the map.  [so_gen] counts the replaced maps, so that an address is a
    generation and an id.  [None] is an access that is not allowed, or an exception
    that leaves a C function; memory is never exhausted. *)

From S2P Require Import Prelude CStr Types Codec Bin Auth Cfg Config.

#[local] Open Scope list_scope.

(** ** The configuration *)

Record ptpmgmt_cfg_t := mk_cfg { cfg_this : option ConfigFile; cfg_wrap : bool }.
Definition ptpmgmt_cfg_alloc : ptpmgmt_cfg_t := mk_cfg (Some clear_sections) false.
Definition ptpmgmt_cfg_alloc_wrap (cfg : ConfigFile) : ptpmgmt_cfg_t := mk_cfg (Some cfg) true.
(** [me->free(me)]: what is left of the structure. *)
Definition c_cfg_free (me : ptpmgmt_cfg_t) : option ptpmgmt_cfg_t := if cfg_wrap me then Some me else None.

(** The C++ object behind a pointer to the structure. *)
Definition cfg_obj (me : option ptpmgmt_cfg_t) : option ConfigFile := me ← me; cfg_this me.
Definition section_or (section : option string) : string := default ""%string section.

(** [fs] gives the files that can be opened. *)
Definition ptpmgmt_cfg_read_cfg (fs : list byte -> option (list byte)) (residue : list byte)
    (me : option ptpmgmt_cfg_t) (file : option (list byte)) : option (bool * option ptpmgmt_cfg_t) :=
  match me, cfg_obj me, file with
  | Some s, Some c, Some file =>
      if bool_decide (file = []) then Some (false, me)
      else '(r, c) ← read_cfg residue (fs file) c; Some (r, Some (mk_cfg (Some c) (cfg_wrap s)))
  | _, _, _ => Some (false, me)
  end.
(** The functions of numbers, with the width of their result. *)
Definition C2CPP_funcN (n : Z) (func : ConfigFile -> string -> option Z) (me : option ptpmgmt_cfg_t)
    (section : option string) : option Z :=
  match cfg_obj me with
  | Some c => v ← func c (section_or section); Some (uwrap n v)
  | None => Some 0
  end.
Definition C2CPP_func := C2CPP_funcN 8.
Definition ptpmgmt_cfg_transportSpecific := C2CPP_func transportSpecific.
Definition ptpmgmt_cfg_domainNumber := C2CPP_func domainNumber.
Definition ptpmgmt_cfg_udp6_scope := C2CPP_func udp6_scope.
Definition ptpmgmt_cfg_udp_ttl := C2CPP_func udp_ttl.
Definition ptpmgmt_cfg_socket_priority := C2CPP_func socket_priority.
Definition ptpmgmt_cfg_network_transport := C2CPP_func network_transport.
Definition ptpmgmt_cfg_active_key_id := C2CPP_funcN 16 active_key_id.
Definition ptpmgmt_cfg_spp := C2CPP_func spp.
Definition ptpmgmt_cfg_allow_unauth := C2CPP_func allow_unauth.
Definition ptpmgmt_cfg_haveSpp (me : option ptpmgmt_cfg_t) (section : option string) : option bool :=
  match cfg_obj me with Some c => haveSpp c (section_or section) | None => Some false end.
(** The functions of strings: [Some None] is the null pointer. *)
Definition C2CPP_str (func : ConfigFile -> string -> option (list byte)) (me : option ptpmgmt_cfg_t)
    (section : option string) : option (option (list byte)) :=
  match cfg_obj me with
  | Some c => s ← func c (section_or section); Some (if bool_decide (s = []) then None else Some s)
  | None => Some None
  end.
Definition ptpmgmt_cfg_uds_address := C2CPP_str uds_address.
Definition ptpmgmt_cfg_sa_file := C2CPP_str sa_file.
(** The functions of addresses: the pointer and the length. *)
Definition C2CPP_bfunc (func : ConfigFile -> string -> option Binary) (me : option ptpmgmt_cfg_t)
    (section : option string) : option (option (list byte) * Z) :=
  match cfg_obj me with
  | Some c =>
      b ← func c (section_or section);
      Some (if 0 <? m_size b then (Some (octets b), m_size b) else (None, 0))
  | None => Some (None, 0)
  end.
Definition ptpmgmt_cfg_ptp_dst_mac := C2CPP_bfunc ptp_dst_mac.
Definition ptpmgmt_cfg_p2p_dst_mac := C2CPP_bfunc p2p_dst_mac.

(** ** Memory *)

Abbreviation spp_addr := nat (only parsing).
Inductive spp_block :=
| SB_own (s : Spp)
| SB_wrap (gen : nat) (id : Z).
Abbreviation spp_heap := (gmap nat spp_block) (only parsing).
Definition spp_malloc (b : spp_block) (h : spp_heap) : spp_addr * spp_heap :=
  let a := fresh (dom h) in (a, <[a := b]> h).
(** [free] of a pointer that may be null. *)
Definition spp_c_free (p : option spp_addr) (h : spp_heap) : option spp_heap :=
  match p with
  | None => Some h
  | Some a => match h !! a with Some _ => Some (delete a h) | None => None end
  end.

(** The C++ object of the key file. *)
Record sa_obj := mk_sa_obj { so_pool : SaFile; so_gen : nat }.
(** A new map replaces the old one. *)
Definition new_pool (pool : SaFile) (o : sa_obj) : sa_obj := mk_sa_obj pool (S (so_gen o)).

(** [ptpmgmt_safile_t]: the array [_all] of [UINT8_MAX] pointers. *)
Record c_safile := mk_c_safile { sf_this : sa_obj; sf_all : list (option spp_addr) }.
Definition null_all : list (option spp_addr) := replicate (Z.to_nat UINT8_MAX) None.

(** What a program with one key file has; [None] after [free]. *)
Record sa_prog := mk_sa_prog { sp_heap : spp_heap; sp_sf : option c_safile }.

(** ** Security parameters *)

(** The C++ object behind a pointer; [Some None] is the null pointer. *)
Definition spp_obj (p : option spp_addr) (st : sa_prog) : option (option Spp) :=
  match p with
  | None => Some None
  | Some a =>
      b ← sp_heap st !! a;
      match b with
      | SB_own s => Some (Some s)
      | SB_wrap gen id =>
          sf ← sp_sf st;
          if bool_decide (gen = so_gen (sf_this sf))
          then s ← so_pool (sf_this sf) !! id; Some (Some s)
          else None
      end
  end.
Definition set_spp (a : spp_addr) (s : Spp) (st : sa_prog) : sa_prog :=
  match sp_heap st !! a with
  | Some (SB_own _) => mk_sa_prog (<[a := SB_own s]> (sp_heap st)) (sp_sf st)
  | Some (SB_wrap _ id) =>
      mk_sa_prog (sp_heap st)
        ((fun sf => mk_c_safile (mk_sa_obj (<[id := s]> (so_pool (sf_this sf))) (so_gen (sf_this sf)))
                      (sf_all sf)) <$> sp_sf st)
  | None => st
  end.

Definition ptpmgmt_spp_alloc (id : Z) (st : sa_prog) : option spp_addr * sa_prog :=
  let (a, h) := spp_malloc (SB_own (Spp_new id)) (sp_heap st) in (Some a, mk_sa_prog h (sp_sf st)).
Definition ptpmgmt_spp_alloc_cp (p : option spp_addr) (st : sa_prog) : option (option spp_addr * sa_prog) :=
  s ← spp_obj p st;
  match s with
  | None => Some (None, st)
  | Some s => let (a, h) := spp_malloc (SB_own s) (sp_heap st) in Some (Some a, mk_sa_prog h (sp_sf st))
  end.
(** [spp->free(spp)]: a wrapper stays. *)
Definition c_spp_free (a : spp_addr) (st : sa_prog) : option sa_prog :=
  match sp_heap st !! a with
  | Some (SB_own _) => Some (mk_sa_prog (delete a (sp_heap st)) (sp_sf st))
  | Some (SB_wrap _ _) => Some st
  | None => None
  end.

(** [value] is null or the address of its octets. *)
Definition ptpmgmt_spp_addKey (p : option spp_addr) (id type : Z) (value : option (list byte)) (digest : Z)
    (replace : bool) (st : sa_prog) : option (bool * sa_prog) :=
  s ← spp_obj p st;
  match p, s, value with
  | Some a, Some s, Some k =>
      if (0 <? len k) && (1 <? digest) then
        let (r, s) := addKey s id type k digest replace in Some (r, set_spp a s st)
      else Some (false, st)
  | _, _, _ => Some (false, st)
  end.
Definition C2CPP_key {A} (nm : Spp -> A) (def : A) (p : option spp_addr) (st : sa_prog) : option A :=
  s ← spp_obj p st; Some (match s with Some s => nm s | None => def end).
Definition ptpmgmt_spp_have (p : option spp_addr) (key : Z) := C2CPP_key (fun s => Spp_have s key) false p.
Definition ptpmgmt_spp_mac_size (p : option spp_addr) (key : Z) := C2CPP_key (fun s => mac_size s key) 0 p.
Definition ptpmgmt_spp_htype (p : option spp_addr) (key : Z) := C2CPP_key (fun s => htype s key) HMAC_SHA256 p.
(** [Binary::get]: null for a key without octets. *)
Definition ptpmgmt_spp_key (p : option spp_addr) (key : Z) : sa_prog -> option (option (list byte)) :=
  C2CPP_key (fun s => if bool_decide (Spp_key s key = []) then None else Some (Spp_key s key)) None p.
Definition ptpmgmt_spp_key_size (p : option spp_addr) (key : Z) := C2CPP_key (fun s => len (Spp_key s key)) 0 p.
Definition ptpmgmt_spp_keys (p : option spp_addr) := C2CPP_key keys 0 p.
Definition ptpmgmt_spp_ownID (p : option spp_addr) := C2CPP_key ownID 0 p.

(** ** The key file *)

(** On the object of a program, or on the one of a message. *)
Definition safile_spp (sf : c_safile) (h : spp_heap) (sppID : Z)
    : option (option spp_addr * (c_safile * spp_heap)) :=
  if SaFile_have_spp (so_pool (sf_this sf)) sppID then
    slot ← sf_all sf !! Z.to_nat sppID;
    match slot with
    | Some a => Some (Some a, (sf, h))
    | None =>
        let (a, h) := spp_malloc (SB_wrap (so_gen (sf_this sf)) sppID) h in
        Some (Some a, (mk_c_safile (sf_this sf) (<[Z.to_nat sppID := Some a]> (sf_all sf)), h))
    end
  else Some (None, (sf, h)).
(** The loop of both functions that free. *)
Fixpoint free_slots (l : list (option spp_addr)) (h : spp_heap) : option spp_heap :=
  match l with [] => Some h | p :: l => h ← spp_c_free p h; free_slots l h end.

Definition ptpmgmt_safile_alloc (h : spp_heap) : sa_prog :=
  mk_sa_prog h (Some (mk_c_safile (mk_sa_obj ∅ 0) null_all)).
Definition ptpmgmt_safile_alloc_wrap (o : sa_obj) : c_safile := mk_c_safile o null_all.
Definition ptpmgmt_safile_free (st : sa_prog) : option sa_prog :=
  match sp_sf st with
  | None => Some st
  | Some sf => h ← free_slots (sf_all sf) (sp_heap st); Some (mk_sa_prog h None)
  end.
Definition ptpmgmt_safile_free_wrap (sf : c_safile) (h : spp_heap) : option spp_heap := free_slots (sf_all sf) h.

Definition with_sf {A} (def : A) (f : c_safile -> option (A * (c_safile * spp_heap))) (st : sa_prog)
    : option (A * sa_prog) :=
  match sp_sf st with
  | None => Some (def, st)
  | Some sf => '(a, (sf, h)) ← f sf; Some (a, mk_sa_prog h (Some sf))
  end.
(** A read that succeeds replaces the map. *)
Definition after_read (r : bool * SaFile) (sf : c_safile) : c_safile :=
  if r.1 then mk_c_safile (new_pool r.2 (sf_this sf)) (sf_all sf) else sf.
Definition ptpmgmt_safile_read_sa (fs : list byte -> option (list byte)) (residue : list byte)
    (file : option (list byte)) (st : sa_prog) : option (bool * sa_prog) :=
  with_sf false (fun sf =>
    match file with
    | None => Some (false, (sf, sp_heap st))
    | Some file =>
        r ← read_sa_name fs residue file (so_pool (sf_this sf)); Some (r.1, (after_read r sf, sp_heap st))
    end) st.
(** The object of the configuration is not checked. *)
Definition ptpmgmt_safile_read_sa_cfg (fs : list byte -> option (list byte)) (residue : list byte)
    (cfg : option ptpmgmt_cfg_t) (section : option string) (st : sa_prog) : option (bool * sa_prog) :=
  with_sf false (fun sf =>
    match cfg with
    | None => Some (false, (sf, sp_heap st))
    | Some cfg =>
        c ← cfg_this cfg;
        r ← read_sa_cfg fs residue c (section_or section) (so_pool (sf_this sf));
        Some (r.1, (after_read r sf, sp_heap st))
    end) st.
Definition ptpmgmt_safile_have (spp : Z) (st : sa_prog) : bool :=
  match sp_sf st with Some sf => SaFile_have_spp (so_pool (sf_this sf)) spp | None => false end.
Definition ptpmgmt_safile_have_key (spp key : Z) (st : sa_prog) : bool :=
  match sp_sf st with Some sf => SaFile_have (so_pool (sf_this sf)) spp key | None => false end.
Definition ptpmgmt_safile_spp (sppID : Z) (st : sa_prog) : option (option spp_addr * sa_prog) :=
  with_sf None (fun sf => safile_spp sf (sp_heap st) sppID) st.

(** * Theorems on the C interface of the configuration and the key file

    The blocks of [ptpmgmt_safile_spp] are released once, and what a program may do
    with their addresses; the numbers of the configuration through the C functions. *)

#[local] Arguments spp_malloc : simpl never.

(** ** The configuration *)

(** The C functions of 8 bits give what the C++ ones give; the one of the key cuts it. *)
Lemma C2CPP_func_same idx c w section :
  C2CPP_func (get_func idx) (Some (mk_cfg (Some c) w)) section = get_func idx c (section_or section).
Proof.
  unfold C2CPP_func, C2CPP_funcN, get_func. cbn. destruct (get_num c idx (section_or section)) as [v|]; [|done].
  cbn. f_equal. apply uwrap_small. unfold uint, uwrap. apply Z.mod_pos_bound. lia.
Qed.

(** The numbers of C are those of C++, the id of a key only when it has 16 bits. *)
Theorem c_cfg_values cfg w section key : active_key_id cfg (section_or section) = Some key ->
  ptpmgmt_cfg_transportSpecific (Some (mk_cfg (Some cfg) w)) section = transportSpecific cfg (section_or section) /\
  ptpmgmt_cfg_spp (Some (mk_cfg (Some cfg) w)) section = spp cfg (section_or section) /\
  ptpmgmt_cfg_active_key_id (Some (mk_cfg (Some cfg) w)) section = Some (uwrap 16 key) /\
  (ptpmgmt_cfg_active_key_id (Some (mk_cfg (Some cfg) w)) section = active_key_id cfg (section_or section) <->
   0 <= key < 2 ^ 16).
Proof.
  intros K. split; [apply C2CPP_func_same|]. split; [apply C2CPP_func_same|].
  unfold ptpmgmt_cfg_active_key_id, C2CPP_funcN. cbn [cfg_obj mbind option_bind cfg_this]. rewrite K. cbn [mbind option_bind].
  split; [done|]. split.
  - intros [= E]. rewrite <- E. apply Z.mod_pos_bound. lia.
  - intros H. by rewrite uwrap_small.
Qed.

Lemma c_cfg_values_witness :
  ptpmgmt_cfg_active_key_id (Some (mk_cfg (Some demo_cfg) false)) (Some "eth0"%string) = Some 7.
Proof.
  destruct (c_cfg_values demo_cfg false (Some "eth0"%string) 7) as (_ & _ & E & _); [by vm_compute|].
  rewrite E. reflexivity.
Defined.

(** ** The blocks of the key file *)

(** A slot that is set has the wrapper of its id, made from this map or from an earlier
    one; a wrapper is in the slot of its id; a wrapper made from this map has its object. *)
Record sf_own (sf : c_safile) (h : spp_heap) : Prop := {
  own_len : length (sf_all sf) = Z.to_nat UINT8_MAX;
  own_slot i a : sf_all sf !! i = Some (Some a) ->
    exists g, h !! a = Some (SB_wrap g (Z.of_nat i)) /\ (g <= so_gen (sf_this sf))%nat;
  own_block a g id : h !! a = Some (SB_wrap g id) ->
    0 <= id /\ sf_all sf !! Z.to_nat id = Some (Some a) /\
    (g = so_gen (sf_this sf) -> is_Some (so_pool (sf_this sf) !! id))
}.
Definition sa_own (st : sa_prog) : Prop :=
  match sp_sf st with
  | Some sf => sf_own sf (sp_heap st)
  | None => forall a g id, sp_heap st !! a <> Some (SB_wrap g id)
  end.

(** What a program may do: it uses the address of a structure that it made and did not
    free, or of one of the key file while the map it was made from is there; it does not
    ask for the id 255. *)
Definition usable (p : option spp_addr) (st : sa_prog) : Prop :=
  match p with
  | None => True
  | Some a =>
      match sp_heap st !! a, sp_sf st with
      | Some (SB_own _), _ => True
      | Some (SB_wrap g _), Some sf => g = so_gen (sf_this sf)
      | _, _ => False
      end
  end.

Inductive sa_call :=
| K_read (file : option (list byte))
| K_read_cfg (cfg : option ptpmgmt_cfg_t) (section : option string)
| K_spp (sppID : Z)
| K_alloc (id : Z)
| K_alloc_cp (p : option spp_addr)
| K_spp_free (a : spp_addr)
| K_addKey (p : option spp_addr) (id type : Z) (value : option (list byte)) (digest : Z) (replace : bool)
| K_key (p : option spp_addr) (key : Z)
| K_free.

(** ** What each call keeps *)

Lemma spp_malloc_own b h : exists a, spp_malloc b h = (a, <[a := b]> h) /\ h !! a = None.
Proof.
  exists (fresh (dom h)). split; [done|]. apply not_elem_of_dom. apply is_fresh.
Qed.
Lemma usable_obj p st : sa_own st -> usable p st -> exists s, spp_obj p st = Some s /\ (p = None -> s = None).
Proof.
  destruct p as [a|]; [|by exists None]. unfold sa_own, usable, spp_obj.
  destruct (sp_heap st !! a) as [[s|g id]|] eqn:E; [|destruct (sp_sf st) as [sf|] eqn:F; [|done]|done].
  - intros _ _. by exists (Some s).
  - intros O ->. destruct (own_block _ _ O _ _ _ E) as (_ & _ & G). destruct (G eq_refl) as [s Es].
    exists (Some s). cbn. rewrite bool_decide_true by done. rewrite Es. by cbn.
Qed.

(** A new structure of the program. *)
Lemma own_insert_own st a s : sa_own st ->
  match sp_heap st !! a with Some (SB_wrap _ _) => False | _ => True end ->
  sa_own (mk_sa_prog (<[a := SB_own s]> (sp_heap st)) (sp_sf st)).
Proof.
  unfold sa_own. cbn. intros O N. destruct (sp_sf st) as [sf|].
  - destruct O as [L S B]. split; [done|..].
    + intros i b E. destruct (S i b E) as (g & Eh & Hg). exists g. split; [|done].
      rewrite lookup_insert_ne; [done|]. intros ->. by rewrite Eh in N.
    + intros b g id E. apply B. destruct (decide (a = b)) as [->|].
      * by rewrite lookup_insert_eq in E.
      * by rewrite lookup_insert_ne in E.
  - intros b g id E. destruct (decide (a = b)) as [->|].
    + by rewrite lookup_insert_eq in E.
    + rewrite lookup_insert_ne in E by done. by eapply O.
Qed.
Lemma own_delete_own st a s : sa_own st -> sp_heap st !! a = Some (SB_own s) ->
  sa_own (mk_sa_prog (delete a (sp_heap st)) (sp_sf st)).
Proof.
  unfold sa_own. cbn. intros O N. destruct (sp_sf st) as [sf|].
  - destruct O as [L S B]. split; [done|..].
    + intros i b E. destruct (S i b E) as (g & Eh & Hg). exists g. split; [|done].
      rewrite lookup_delete_ne; [done|]. intros ->. by rewrite Eh in N.
    + intros b g id E. apply B. by apply lookup_delete_Some in E as [_ E].
  - intros b g id E. apply lookup_delete_Some in E as [_ E]. by eapply O.
Qed.
(** A read keeps the blocks. *)
Lemma own_read r sf h : sf_own sf h -> sf_own (after_read r sf) h.
Proof.
  unfold after_read. destruct (r.1); [|done]. intros [L S B]. split; cbn; [done|..].
  - intros i a E. destruct (S i a E) as (g & Eh & Hg). exists g. split; [done|lia].
  - intros a g id E. destruct (B a g id E) as (H1 & H2 & _). do 2 (split; [done|]). intros ->.
    destruct (S _ _ H2) as (g' & Eh & Hg). rewrite E in Eh. simplify_eq. lia.
Qed.

(** The slots after [i] are released, the other blocks stay. *)
Lemma free_slots_ok l (h : spp_heap) :
  (forall i a, l !! i = Some (Some a) -> is_Some (h !! a)) ->
  (forall i j a, l !! i = Some (Some a) -> l !! j = Some (Some a) -> i = j) ->
  exists h', free_slots l h = Some h' /\
    (forall a, h' !! a = if decide (Some a ∈ l) then None else h !! a).
Proof.
  revert h. induction l as [|p l IH]; intros h Live Once.
  { exists h. split; [done|]. intros a. by rewrite decide_False by apply not_elem_of_nil. }
  assert (forall h', (forall a, h' !! a = if decide (p = Some a) then None else h !! a) ->
    exists h2, free_slots l h' = Some h2 /\
      (forall a, h2 !! a = if decide (Some a ∈ p :: l) then None else h !! a)) as K.
  { intros h' Eh. destruct (IH h') as (h2 & E2 & H2).
    - intros i a Ei. rewrite Eh. case_decide as D; [|by apply (Live (S i))].
      subst p. by discriminate (Once (S i) 0%nat a Ei eq_refl).
    - intros i j a Ei Ej. by injection (Once (S i) (S j) a Ei Ej).
    - exists h2. split; [done|]. intros a. rewrite H2, Eh. case_decide as D1.
      { by rewrite decide_True by by right. }
      case_decide as D2; [by rewrite decide_True by (rewrite D2; left)|].
      rewrite decide_False; [done|]. rewrite elem_of_cons. intros [E|E]; by subst. }
  destruct p as [a|]; cbn; [|by apply K].
  destruct (Live 0%nat a eq_refl) as [b ->]. cbn. apply K. intros c.
  destruct (decide (a = c)) as [->|]; [by rewrite lookup_delete_eq, decide_True|].
  rewrite lookup_delete_ne by done. by rewrite decide_False by congruence.
Qed.

Lemma free_slots_own sf h : sf_own sf h ->
  exists h', free_slots (sf_all sf) h = Some h' /\ (forall a g id, h' !! a <> Some (SB_wrap g id)) /\
    (forall a s, h' !! a = Some (SB_own s) <-> h !! a = Some (SB_own s)).
Proof.
  intros [L S B]. destruct (free_slots_ok (sf_all sf) h) as (h' & E & H).
  - intros i a Ei. destruct (S i a Ei) as (g & -> & _). by eexists.
  - intros i j a Ei Ej. destruct (S i a Ei) as (g & E1 & _), (S j a Ej) as (g' & E2 & _).
    rewrite E1 in E2. simplify_eq. lia.
  - exists h'. split; [done|]. split.
    + intros a g id Ea. rewrite H in Ea. case_decide as D; [done|].
      destruct (B a g id Ea) as (_ & El & _). by apply list_elem_of_lookup_2 in El.
    + intros a s. rewrite H. case_decide as D; [|done]. split; [done|].
      apply list_elem_of_lookup_1 in D as [i Ei]. destruct (S i a Ei) as (g & E1 & _). congruence.
Qed.

Lemma safile_spp_ok sf h id : sf_own sf h -> uint 8 id -> id <> UINT8_MAX ->
  exists p sf' h', safile_spp sf h id = Some (p, (sf', h')) /\ sf_own sf' h' /\ sf_this sf' = sf_this sf.
Proof.
  intros [L S B] U N. unfold safile_spp. destruct (SaFile_have_spp _ id) eqn:E; [|by eexists _, _, _].
  assert (is_Some (sf_all sf !! Z.to_nat id)) as [slot Es].
  { apply lookup_lt_is_Some. rewrite L. unfold uint, UINT8_MAX in *. lia. }
  rewrite Es. cbn. destruct slot as [a|]; [by eexists _, _, _|].
  destruct (spp_malloc_own (SB_wrap (so_gen (sf_this sf)) id) h) as (a & -> & Fr).
  eexists _, _, _. split; [done|]. split; [|done]. split; cbn.
  - by rewrite length_insert.
  - intros i b Ei. destruct (decide (i = Z.to_nat id)) as [->|Ni].
    + rewrite list_lookup_insert_eq in Ei by (apply lookup_lt_is_Some; by eexists). simplify_eq.
      exists (so_gen (sf_this sf)). rewrite lookup_insert_eq. split; [|done]. do 2 f_equal.
      unfold uint in U. lia.
    + rewrite list_lookup_insert_ne in Ei by done. destruct (S i b Ei) as (g & Eb & Hg).
      exists g. rewrite lookup_insert_ne; [done|congruence].
  - intros b g id' Eb. destruct (decide (a = b)) as [<-|].
    + rewrite lookup_insert_eq in Eb. simplify_eq. split; [unfold uint in U; lia|].
      rewrite list_lookup_insert_eq by (apply lookup_lt_is_Some; by eexists). split; [done|]. intros _.
      unfold SaFile_have_spp in E. destruct (so_pool (sf_this sf) !! id'); [by eexists|done].
    + rewrite lookup_insert_ne in Eb by done. destruct (B b g id' Eb) as (H1 & H2 & H3).
      split; [done|]. split; [|done]. rewrite list_lookup_insert_ne; [done|].
      intros Eq. rewrite Eq in Es. congruence.
Qed.

Lemma set_spp_own a s st : sa_own st -> sa_own (set_spp a s st).
Proof.
  intros O. unfold set_spp. destruct (sp_heap st !! a) as [[s'|g id]|] eqn:E; [| |done].
  - apply own_insert_own; [done|]. by rewrite E.
  - unfold sa_own in *. cbn. destruct (sp_sf st) as [sf|]; cbn; [|done]. destruct O as [L S B].
    split; cbn; [done|done|]. intros b g' id' Eb. destruct (B b g' id' Eb) as (H1 & H2 & H3).
    do 2 (split; [done|]). intros Hg. destruct (decide (id = id')) as [->|].
    + exists s. apply lookup_insert_eq.
    + destruct (H3 Hg) as [x Ex]. exists x. etrans; [by apply lookup_insert_ne|done].
Qed.

(** The address that is given is in its slot. *)
Lemma safile_spp_slot sf h id a sf1 h1 : safile_spp sf h id = Some (Some a, (sf1, h1)) ->
  sf_all sf1 !! Z.to_nat id = Some (Some a).
Proof.
  intros Es. unfold safile_spp in Es. destruct (SaFile_have_spp _ id); [|by simplify_eq].
  destruct (sf_all sf !! Z.to_nat id) as [[b|]|] eqn:Eb; cbn in Es; unfold spp_malloc in Es; simplify_eq; [done|].
  cbn [sf_all]. rewrite list_lookup_insert_eq; [done|]. apply lookup_lt_is_Some. by eexists.
Qed.

Section Calls.
Context (fs : list byte -> option (list byte)) (residue : list byte).

Definition sa_run (c : sa_call) (st : sa_prog) : option sa_prog :=
  match c with
  | K_read file => snd <$> ptpmgmt_safile_read_sa fs residue file st
  | K_read_cfg cfg section => snd <$> ptpmgmt_safile_read_sa_cfg fs residue cfg section st
  | K_spp sppID => snd <$> ptpmgmt_safile_spp sppID st
  | K_alloc id => Some (snd (ptpmgmt_spp_alloc id st))
  | K_alloc_cp p => snd <$> ptpmgmt_spp_alloc_cp p st
  | K_spp_free a => c_spp_free a st
  | K_addKey p id type value digest replace => snd <$> ptpmgmt_spp_addKey p id type value digest replace st
  | K_key p key =>
      _ ← ptpmgmt_spp_have p key st; _ ← ptpmgmt_spp_mac_size p key st; _ ← ptpmgmt_spp_htype p key st;
      _ ← ptpmgmt_spp_key p key st; _ ← ptpmgmt_spp_key_size p key st; _ ← ptpmgmt_spp_keys p st;
      _ ← ptpmgmt_spp_ownID p st; Some st
  | K_free => ptpmgmt_safile_free st
  end.
Definition allowed (c : sa_call) (st : sa_prog) : Prop :=
  match c with
  | K_read _ | K_alloc _ | K_free => True
  | K_read_cfg cfg _ => forall c, cfg = Some c -> exists f, cfg_this c = Some f /\ cfg_inv f
  | K_spp sppID => uint 8 sppID /\ sppID <> UINT8_MAX
  | K_alloc_cp p | K_addKey p _ _ _ _ _ | K_key p _ => usable p st
  | K_spp_free a => is_Some (sp_heap st !! a)
  end.

Context (Lr : length residue = lineSize) (T : forall name file, fs name = Some file -> text_file file).

Lemma read_sa_ok file st : sa_own st -> exists st', sa_run (K_read file) st = Some st' /\ sa_own st'.
Proof.
  unfold sa_run, ptpmgmt_safile_read_sa, with_sf. intros O. destruct (sp_sf st) as [sf|] eqn:F; [|by exists st].
  unfold sa_own in O. rewrite F in O. destruct file as [file|]; cbn; [|by eexists].
  assert (exists r, read_sa_name fs residue file (so_pool (sf_this sf)) = Some r) as [r ->].
  { unfold read_sa_name. case_bool_decide; [by eexists|]. destruct (fs file) eqn:Ef; [|by eexists].
    apply read_sa_total; [done|]. by eapply T. }
  cbn. eexists. split; [done|]. by apply own_read.
Qed.
Lemma read_sa_cfg_ok cfg section st : sa_own st -> allowed (K_read_cfg cfg section) st ->
  exists st', sa_run (K_read_cfg cfg section) st = Some st' /\ sa_own st'.
Proof.
  unfold sa_run, ptpmgmt_safile_read_sa_cfg, with_sf. cbn. intros O A.
  destruct (sp_sf st) as [sf|] eqn:F; [|by exists st].
  unfold sa_own in O. rewrite F in O. destruct cfg as [cfg|]; cbn; [|by eexists].
  destruct (A cfg eq_refl) as (f & -> & I). cbn.
  destruct (read_sa_cfg_total fs residue f (section_or section) (so_pool (sf_this sf)) I Lr T) as [r ->].
  cbn. eexists. split; [done|]. by apply own_read.
Qed.


Lemma sa_call_ok c st : sa_own st -> allowed c st -> exists st', sa_run c st = Some st' /\ sa_own st'.
Proof.
  intros O A. destruct c as [file|cfg section|id|id|p|a|p id type value digest replace|p key|].
  - by apply read_sa_ok.
  - by apply read_sa_cfg_ok.
  - cbn. unfold ptpmgmt_safile_spp, with_sf. destruct (sp_sf st) as [sf|] eqn:F; [|by exists st].
    unfold sa_own in O. rewrite F in O. destruct A as [U N].
    destruct (safile_spp_ok sf (sp_heap st) id O U N) as (p & sf' & h' & -> & O' & _).
    cbn. by eexists.
  - cbn. unfold ptpmgmt_spp_alloc. destruct (spp_malloc_own (SB_own (Spp_new id)) (sp_heap st)) as (a & -> & Fr).
    eexists. split; [done|]. apply own_insert_own; [done|]. by rewrite Fr.
  - cbn. destruct (usable_obj p st O A) as (s & E & _). unfold ptpmgmt_spp_alloc_cp. rewrite E. cbn.
    destruct s as [s|]; [|by eexists].
    destruct (spp_malloc_own (SB_own s) (sp_heap st)) as (a & -> & Fr). eexists. split; [done|].
    apply own_insert_own; [done|]. by rewrite Fr.
  - cbn. destruct A as [b E]. unfold c_spp_free. rewrite E. destruct b as [s|g id]; [|by eexists].
    eexists. split; [done|]. by eapply own_delete_own.
  - cbn. destruct (usable_obj p st O A) as (s & E & _). unfold ptpmgmt_spp_addKey. rewrite E. cbn.
    destruct p as [a|], s as [s|], value as [k|]; try (by exists st).
    destruct (_ && _); [|by eexists]. destruct (addKey _ _ _ _ _ _) as [r s']. eexists. split; [done|].
    by apply set_spp_own.
  - cbn. destruct (usable_obj p st O A) as (s & E & _).
    unfold ptpmgmt_spp_have, ptpmgmt_spp_mac_size, ptpmgmt_spp_htype, ptpmgmt_spp_key, ptpmgmt_spp_key_size,
      ptpmgmt_spp_keys, ptpmgmt_spp_ownID, C2CPP_key. rewrite !E. cbn. by exists st.
  - cbn. unfold ptpmgmt_safile_free, sa_own in *. destruct (sp_sf st) as [sf|] eqn:F; [|exists st; by rewrite F].
    destruct (free_slots_own sf (sp_heap st) O) as (h' & -> & H & _). cbn. by eexists.
Qed.

(** ** Programs *)

(** The states of a program that allocates a key file and does what is allowed. *)
Inductive sa_reach : sa_prog -> Prop :=
| R_alloc : sa_reach (ptpmgmt_safile_alloc ∅)
| R_call c st st' : sa_reach st -> allowed c st -> sa_run c st = Some st' -> sa_reach st'.

Lemma sa_reach_own st : sa_reach st -> sa_own st.
Proof.
  induction 1 as [|c st st' _ IH A E].
  - cbn. split; cbn; [done|..].
    + intros i a Ei. apply lookup_replicate in Ei as [? _]. done.
    + intros a g id Ea. by rewrite lookup_empty in Ea.
  - destruct (sa_call_ok c st IH A) as (st2 & E2 & O). congruence.
Qed.

(** In every state of a C program that allocates a key file, allocates and copies
    security parameters, reads files, uses addresses while the map they come from is
    there, and asks for ids below 255, every call returns with no access to released
    memory and no second release; after [free] of the key file none of the structures
    that it gave is left. *)
Theorem c_safile_safe st c : sa_reach st -> allowed c st ->
  (exists st', sa_run c st = Some st' /\ sa_reach st') /\
  (sp_sf st = None -> forall a g id, sp_heap st !! a <> Some (SB_wrap g id)).
Proof.
  intros R A. pose proof (sa_reach_own st R) as O. split.
  - destruct (sa_call_ok c st O A) as (st' & E & _). exists st'. split; [done|]. by eapply R_call.
  - intros F. unfold sa_own in O. by rewrite F in O.
Qed.

(** The structure of the id 255 would be after the array. *)
Theorem c_spp_255 st sf s : sa_reach st -> sp_sf st = Some sf -> so_pool (sf_this sf) !! UINT8_MAX = Some s ->
  ptpmgmt_safile_spp UINT8_MAX st = None.
Proof.
  intros R F P. apply sa_reach_own in R. unfold sa_own in R. rewrite F in R. destruct R as [L _ _].
  unfold ptpmgmt_safile_spp, with_sf, safile_spp, SaFile_have_spp. rewrite F, P.
  rewrite lookup_ge_None_2; [done|]. by rewrite L.
Qed.

(** The structure that is asked for again after another read is the one of the first
    read: its object is gone, and any use of it is a use of released memory. *)
Theorem c_spp_stale st id a st1 file st2 : sa_reach st -> uint 8 id -> id <> UINT8_MAX ->
  ptpmgmt_safile_spp id st = Some (Some a, st1) ->
  ptpmgmt_safile_read_sa fs residue (Some file) st1 = Some (true, st2) -> ptpmgmt_safile_have id st2 = true ->
  ptpmgmt_safile_spp id st2 = Some (Some a, st2) /\ spp_obj (Some a) st2 = None.
Proof.
  intros R U N E1 E2 H.
  assert (sa_reach st1) as R1.
  { apply (R_call (K_spp id) st); [done|done|]. cbn. by rewrite E1. }
  pose proof (sa_reach_own _ R1) as O1. unfold ptpmgmt_safile_spp, with_sf in E1.
  destruct (sp_sf st) as [sf|]; [|done].
  destruct (safile_spp sf (sp_heap st) id) as [[p [sf1 h1]]|] eqn:Es; [|done]. cbn in E1. simplify_eq.
  apply safile_spp_slot in Es as Sl.
  unfold ptpmgmt_safile_read_sa, with_sf in E2. cbn in E2.
  destruct (read_sa_name _ _ _ _) as [[r pool]|]; [|done]. cbn in E2.
  injection E2 as -> <-. unfold after_read in *. cbn in *.
  unfold ptpmgmt_safile_spp, ptpmgmt_safile_have, with_sf, safile_spp in *. cbn in *. rewrite H, Sl. cbn.
  split; [done|]. destruct (own_slot _ _ O1 _ _ Sl) as (g & Ea & Hg). cbn in Ea. rewrite Ea. cbn in *.
  rewrite bool_decide_false; [done|]. cbn in Hg. lia.
Qed.

End Calls.

(** ** Witnesses *)

Definition demo_sa_255 : list byte :=
  bytes "[security_association]" ++ lf ++ bytes "spp 255" ++ lf ++ bytes "1 SHA256-128 ASCII:secret" ++ lf.
Definition demo_sa_fs (name : list byte) : option (list byte) :=
  if bool_decide (name = bytes "/etc/sa") then Some demo_sa_file
  else if bool_decide (name = bytes "/etc/255") then Some demo_sa_255 else None.
Lemma demo_sa_text name file : demo_sa_fs name = Some file -> text_file file.
Proof.
  unfold demo_sa_fs. case_bool_decide; [intros [= <-]; exact text_file_demo|].
  case_bool_decide; [|done]. intros [= <-]. unfold text_file. vm_compute. repeat constructor.
Qed.
Definition demo_run (cs : list sa_call) : option sa_prog :=
  foldl (fun st c => st ← st; sa_run demo_sa_fs zeros_line c st) (Some (ptpmgmt_safile_alloc ∅)) cs.
Definition K_demo (name : string) : sa_call := K_read (Some (bytes name)).
Definition demo_after (cs : list sa_call) : sa_prog := default (mk_sa_prog ∅ None) (demo_run cs).
Lemma demo_reach cs : Forall (fun c => match c with K_read _ => True | K_spp id => uint 8 id /\ id <> UINT8_MAX | _ => False end) cs ->
  demo_run cs = Some (demo_after cs) /\ sa_reach demo_sa_fs zeros_line (demo_after cs).
Proof.
  unfold demo_after. intros F. assert (exists st, demo_run cs = Some st /\ sa_reach demo_sa_fs zeros_line st) as (st & -> & R);
    [|by cbn].
  unfold demo_run. revert F. induction cs as [|c cs IH] using rev_ind; intros F.
  - eexists. split; [reflexivity|constructor].
  - apply Forall_app in F as [F1 F2]. apply Forall_inv in F2. rewrite foldl_app.
    destruct (IH F1) as (st & -> & R). cbn [foldl mbind option_bind].
    assert (allowed c st) as A by (by destruct c).
    destruct (sa_call_ok demo_sa_fs zeros_line eq_refl demo_sa_text c st (sa_reach_own demo_sa_fs zeros_line eq_refl demo_sa_text st R) A)
      as (st' & E & _).
    rewrite E. exists st'. split; [done|]. by eapply R_call.
Qed.

Lemma c_safile_safe_witness :
  exists st', sa_run demo_sa_fs zeros_line (K_spp 3) (demo_after [K_demo "/etc/sa"]) = Some st' /\
    sa_reach demo_sa_fs zeros_line st'.
Proof.
  apply (c_safile_safe demo_sa_fs zeros_line eq_refl demo_sa_text (demo_after [K_demo "/etc/sa"]) (K_spp 3)).
  - apply demo_reach. repeat constructor.
  - split; [split|]; vm_compute; congruence.
Defined.
Lemma c_spp_255_witness : ptpmgmt_safile_spp UINT8_MAX (demo_after [K_demo "/etc/255"]) = None.
Proof.
  destruct (sp_sf (demo_after [K_demo "/etc/255"])) as [sf|] eqn:E; [|vm_compute in E; discriminate].
  destruct (so_pool (sf_this sf) !! UINT8_MAX) as [s|] eqn:P.
  - apply (c_spp_255 demo_sa_fs zeros_line eq_refl demo_sa_text (demo_after [K_demo "/etc/255"]) sf s).
    + apply demo_reach. repeat constructor.
    + exact E.
    + exact P.
  - vm_compute in E. injection E as <-. vm_compute in P. discriminate.
Defined.
Lemma c_spp_stale_witness : exists a st2,
  ptpmgmt_safile_spp 3 st2 = Some (Some a, st2) /\ spp_obj (Some a) st2 = None.
Proof.
  exists 0%nat, (demo_after [K_demo "/etc/sa"; K_spp 3; K_demo "/etc/sa"]).
  apply (c_spp_stale demo_sa_fs zeros_line eq_refl demo_sa_text (demo_after [K_demo "/etc/sa"]) 3 0%nat
    (demo_after [K_demo "/etc/sa"; K_spp 3]) (bytes "/etc/sa")).
  - apply demo_reach. repeat constructor.
  - split; vm_compute; congruence.
  - vm_compute; congruence.
  - vm_compute; reflexivity.
  - vm_compute; reflexivity.
  - vm_compute; reflexivity.
Defined.
