(* ===== verification/MsgC.v ===== *)
(** * MsgC.v: the C structure of a message

    [ptpmgmt_msg_t] of [src/pub/c/msg.h] and its functions in [src/src/msg.cpp],
    beside those of CApi.v: the parameters ([ptpmgmt_MsgParams] of
    [src/src/types.cpp]), the authentication, the results of the last parse, and the
    blocks of the C structures that it gives.

    A C structure of parameters has values of its own and the address of a C++
    object: of its own, or the one of a message, which [P_msg] stands for.  The
    blocks of C structures are in a heap; the five pointers of the message own them.
    [None] is an access that is not allowed. *)

From S2P Require Import Prelude Types Ids Names MsgProc Codec Structs MngTlvs Auth Cfg Config Message.
From S2P Require Import SigTlvs CTlvs SigC CfgC.

#[local] Open Scope list_scope.

(** ** Parameters *)

Record c_values := mk_c_values {
  v_transportSpecific : Z;
  v_domainNumber : Z;
  v_boundaryHops : Z;
  v_minorVersion : Z;
  v_isUnicast : bool;
  v_implementSpecific : implementSpecific_e;
  v_target : PortIdentity_t;
  v_self_id : PortIdentity_t;
  v_useZeroGet : bool;
  v_rcvSignaling : bool;
  v_filterSignaling : bool;
  v_rcvSMPTEOrg : bool;
  v_sendAuth : bool;
  v_rcvAuth : Z
}.
(** [cpyMsgParams]: the values of the C++ object. *)
Definition cpyMsgParams (r : MsgParams) : c_values :=
  mk_c_values (Types.transportSpecific r) (Types.domainNumber r) (boundaryHops r) (minorVersion r) (isUnicast r)
    (implementSpecific r) (c1_st_PortIdentity (target r)) (c1_st_PortIdentity (self_id r)) (useZeroGet r)
    (rcvSignaling r) (filterSignaling r) (rcvSMPTEOrg r) (sendAuth r) (rcvAuth r).
(** [getMsgParams]: the C++ object after it takes the values. *)
Definition getMsgParams (p : c_values) (r : MsgParams) : MsgParams :=
  mk_MsgParams (v_transportSpecific p) (v_domainNumber p) (v_boundaryHops p) (v_minorVersion p)
    (v_isUnicast p) (v_implementSpecific p) (c1_st_PortIdentity (v_target p)) (c1_st_PortIdentity (v_self_id p))
    (v_useZeroGet p) (v_rcvSignaling p) (v_filterSignaling p) (v_rcvSMPTEOrg p) (v_sendAuth p) (v_rcvAuth p)
    (allowSigTlvs r).

Inductive prms_this :=
| P_own (r : MsgParams)
| P_msg.
Record ptpmgmt_MsgParams := mk_c_prms { cp_values : c_values; cp_this : prms_this }.

Definition ptpmgmt_MsgParams_alloc : ptpmgmt_MsgParams :=
  mk_c_prms (cpyMsgParams MsgParams_default) (P_own MsgParams_default).
(** The structure inside a C message. *)
Definition ptpmgmt_MsgParams_alloc_wrap (m : Message) : ptpmgmt_MsgParams :=
  mk_c_prms (cpyMsgParams (m_prms m)) P_msg.

(** The C++ object of a structure, beside the message of [P_msg], and a change of it. *)
Definition prms_obj (p : ptpmgmt_MsgParams) (m : Message) : MsgParams :=
  match cp_this p with P_own r => r | P_msg => m_prms m end.
Definition prms_set (r : MsgParams) (p : ptpmgmt_MsgParams) (m : Message) : ptpmgmt_MsgParams * Message :=
  match cp_this p with
  | P_own _ => (mk_c_prms (cp_values p) (P_own r), m)
  | P_msg => (p, set_m_prms r m)
  end.
Definition ptpmgmt_allowSigTlv (type : Z) (p : ptpmgmt_MsgParams) (m : Message) : ptpmgmt_MsgParams * Message :=
  prms_set (allowSigTlv type (prms_obj p m)) p m.
Definition ptpmgmt_removeSigTlv (type : Z) (p : ptpmgmt_MsgParams) (m : Message) : ptpmgmt_MsgParams * Message :=
  prms_set (removeSigTlv type (prms_obj p m)) p m.
Definition ptpmgmt_isSigTlv (type : Z) (p : ptpmgmt_MsgParams) (m : Message) : bool :=
  isSigTlv (prms_obj p m) type.
Definition ptpmgmt_countSigTlvs (p : ptpmgmt_MsgParams) (m : Message) : Z := countSigTlvs (prms_obj p m).

(** [ptpmgmt_msg_updateParams]: the object behind the structure takes the values before
    the message checks them. *)
Definition ptpmgmt_msg_updateParams (p : ptpmgmt_MsgParams) (m : Message)
    : bool * (ptpmgmt_MsgParams * Message) :=
  let r := getMsgParams (cp_values p) (prms_obj p m) in
  let (p, m) := prms_set r p m in
  let (ok, m) := updateParams r m in (ok, (p, m)).

(** ** The blocks of a message *)

Abbreviation c_addr := nat (only parsing).
Inductive c_block :=
| CB_mng (t : CMngTlv)
| CB_sig (t : CSigTlv)
| CB_table
| CB_port (p : PortIdentity_t).
Abbreviation c_heap := (gmap nat c_block) (only parsing).
Definition c_malloc (b : c_block) (h : c_heap) : c_addr * c_heap :=
  let a := fresh (dom h) in (a, <[a := b]> h).
(** [free] of a pointer that may be null. *)
Definition c_mfree (p : option c_addr) (h : c_heap) : option c_heap :=
  match p with
  | None => Some h
  | Some a => match h !! a with Some _ => Some (delete a h) | None => None end
  end.
(** The blocks [x] and [x2] of a conversion. *)
Definition c_malloc_if (b : bool) (block : c_block) (h : c_heap) : option c_addr * c_heap :=
  if b then let (a, h) := c_malloc block h in (Some a, h) else (None, h).

Record c_slots := mk_slots {
  s_data : option c_addr;
  s_dataTbl : option c_addr;
  s_dataSig1 : option c_addr;
  s_dataSig2 : option c_addr;
  s_dataSig3 : option c_addr
}.
Definition no_slots : c_slots := mk_slots None None None None None.

(** The C message: the object of the C++ class, its [_prms], its [_sa] with the blocks of
    security parameters and the number of times that the keys of the message were
    replaced, and the blocks of structures. *)
Record ptpmgmt_msg_t := mk_msg_t {
  mt_this : Message;
  mt_prms : c_values;
  mt_gen : nat;
  mt_sa : option (list (option spp_addr));
  mt_spps : spp_heap;
  mt_slots : c_slots;
  mt_heap : c_heap
}.
Definition set_this (o : Message) (m : ptpmgmt_msg_t) : ptpmgmt_msg_t :=
  mk_msg_t o (mt_prms m) (mt_gen m) (mt_sa m) (mt_spps m) (mt_slots m) (mt_heap m).
Definition set_slots (s : c_slots) (h : c_heap) (m : ptpmgmt_msg_t) : ptpmgmt_msg_t :=
  mk_msg_t (mt_this m) (mt_prms m) (mt_gen m) (mt_sa m) (mt_spps m) s h.

(** [ptpmgmt_msg_alloc], [ptpmgmt_msg_alloc_wrap]. *)
Definition ptpmgmt_msg_alloc (o : Message) : ptpmgmt_msg_t :=
  mk_msg_t o (cpyMsgParams (m_prms o)) 0 None ∅ no_slots ∅.
(** [ptpmgmt_msg_alloc_prms]: the parameters take the values first. *)
Definition ptpmgmt_msg_alloc_prms (p : ptpmgmt_MsgParams) (other : Message) (new : MsgParams -> Message)
    : ptpmgmt_msg_t * (ptpmgmt_MsgParams * Message) :=
  let r := getMsgParams (cp_values p) (prms_obj p other) in
  (ptpmgmt_msg_alloc (new r), prms_set r p other).

(** [ptpmgmt_msg_getParams]: the address of [_prms]. *)
Definition ptpmgmt_msg_getParams (m : ptpmgmt_msg_t) : ptpmgmt_MsgParams * ptpmgmt_msg_t :=
  let v := cpyMsgParams (m_prms (mt_this m)) in
  (mk_c_prms v P_msg, mk_msg_t (mt_this m) v (mt_gen m) (mt_sa m) (mt_spps m) (mt_slots m) (mt_heap m)).

(** ** Calls of methods *)

(** [C2CPP_ret], [C2CPP_cret]: the default without a message. *)
Definition C2CPP_ret {A} (func : Message -> A) (def : A) (m : option ptpmgmt_msg_t) : A :=
  match m with Some m => func (mt_this m) | None => def end.
Definition C2CPP_void (func : Message -> Message) (m : ptpmgmt_msg_t) : ptpmgmt_msg_t := set_this (func (mt_this m)) m.
Definition C2CPP_cret_1 {A} (func : Message -> Z -> A) (def : A) (m : option ptpmgmt_msg_t) (position : Z) : A :=
  C2CPP_ret (fun o => func o position) def m.
(** [C2CPP_find]: the value is written when it is found. *)
Definition C2CPP_find {A} (func : string -> A -> bool -> bool * A) (undefined : A) (str : option string)
    (arg : option A) (arg2 : bool) : bool * option A :=
  match str, arg with
  | Some s, Some old => let (r, x) := func s undefined arg2 in if r then (true, Some x) else (false, Some old)
  | _, _ => (false, arg)
  end.

Definition ptpmgmt_msg_setAllClocks := C2CPP_void setAllClocks.
Definition ptpmgmt_msg_isAllClocks := C2CPP_ret isAllClocks false.
Definition ptpmgmt_msg_getTlvId := C2CPP_ret (fun o => m_replayTlv_id (prs o)) NULL_PTP_MANAGEMENT.
Definition ptpmgmt_msg_getBuildTlvId := C2CPP_ret (fun o => m_tlv_id (bld o)) NULL_PTP_MANAGEMENT.
Definition ptpmgmt_msg_getSendAction := C2CPP_ret (fun o => m_sendAction (bld o)) GET.
Definition ptpmgmt_msg_getMsgLen := C2CPP_ret (fun o => m_msgLen (bld o)) 0.
Definition ptpmgmt_msg_getMsgPlanedLen := C2CPP_ret getMsgPlanedLen (-1).
Definition ptpmgmt_msg_getReplyAction := C2CPP_ret (fun o => m_replyAction (prs o)) GET.
Definition ptpmgmt_msg_isUnicast := C2CPP_ret (fun o => m_isUnicast (prs o)) false.
Definition ptpmgmt_msg_getPTPProfileSpecific := C2CPP_ret (fun o => m_PTPProfileSpecific (prs o)) 0.
Definition ptpmgmt_msg_getSequence := C2CPP_ret (fun o => m_sequence (prs o)) 0.
Definition ptpmgmt_msg_getSdoId := C2CPP_ret (fun o => m_sdoId (prs o)) 0.
Definition ptpmgmt_msg_getDomainNumber := C2CPP_ret (fun o => m_domainNumber (prs o)) 0.
Definition ptpmgmt_msg_getVersionPTP := C2CPP_ret (fun o => m_versionPTP (prs o)) 0.
Definition ptpmgmt_msg_getMinorVersionPTP := C2CPP_ret (fun o => m_minorVersionPTP (prs o)) 0.
Definition GENERAL_ERROR : Z := 0xfffe.
Definition ptpmgmt_msg_getErrId := C2CPP_ret (fun o => m_errorId (prs o)) GENERAL_ERROR.
Definition ptpmgmt_msg_getErrDisplay := C2CPP_ret (fun o => Some (m_errorDisplay (prs o))) None.
Definition ptpmgmt_msg_isLastMsgSig := C2CPP_ret isLastMsgSig false.
Definition ptpmgmt_msg_isLastMsgSMPTE := C2CPP_ret isLastMsgSMPTE false.
Definition ptpmgmt_msg_getType := C2CPP_ret (fun o => m_type (prs o)) Management.
Definition ptpmgmt_msg_getMngType := C2CPP_ret (fun o => m_mngType (prs o)) MANAGEMENT.
Definition ptpmgmt_msg_getSigTlvsCount := C2CPP_ret (fun o => sig_size (m_sigTlvs (prs o))) 0.
Definition ptpmgmt_msg_getSigTlvType := C2CPP_cret_1 (fun o => sig_getType (m_sigTlvs (prs o))) MANAGEMENT.
Definition ptpmgmt_msg_getSigMngTlvType :=
  C2CPP_cret_1 (fun o => sig_getTlvId (m_sigTlvs (prs o))) NULL_PTP_MANAGEMENT.
(** [C2CPP_port]: the identity that [_peer] and [_target] take. *)
Definition C2CPP_port (func : Message -> PortIdentity_t) : option ptpmgmt_msg_t -> option PortIdentity_t :=
  C2CPP_ret (fun o => Some (c1_st_PortIdentity (func o))) None.
Definition ptpmgmt_msg_getPeer := C2CPP_port (fun o => m_peer (prs o)).
Definition ptpmgmt_msg_getTarget := C2CPP_port (fun o => m_target (prs o)).
Definition ptpmgmt_msg_findMngID := C2CPP_find findMngID.
Definition ptpmgmt_msg_findTimeSrc := C2CPP_find findTimeSrc.
Definition ptpmgmt_msg_findPortState := C2CPP_find findPortState.
Definition ptpmgmt_msg_findDelayMech := C2CPP_find findDelayMech.

(** ** Authentication *)

Definition ptpmgmt_msg_usedAuthSppID := C2CPP_ret usedAuthSppID (-1).
Definition ptpmgmt_msg_usedAuthKeyID := C2CPP_ret usedAuthKeyID 0.
Definition ptpmgmt_msg_haveAuth := C2CPP_ret (fun o => m_haveAuth (auth o)) false.
Definition ptpmgmt_msg_disableAuth (m : ptpmgmt_msg_t) : bool * ptpmgmt_msg_t := (true, C2CPP_void disableAuth m).

Section Mac.
Context `{lib : MacLib}.

(** A call that may replace the keys of the message. *)
Definition replace_sa (r : bool * Message) (m : ptpmgmt_msg_t) : bool * ptpmgmt_msg_t :=
  (r.1, mk_msg_t r.2 (mt_prms m) (if r.1 then S (mt_gen m) else mt_gen m) (mt_sa m) (mt_spps m) (mt_slots m) (mt_heap m)).
Definition ptpmgmt_msg_useAuth (sa : SaFile) (spp key : Z) (m : ptpmgmt_msg_t) : bool * ptpmgmt_msg_t :=
  replace_sa (useAuth sa spp key (mt_this m)) m.
(** The section is the empty one without a string; [None] is an exception. *)
Definition ptpmgmt_msg_useAuth_cfg (fs : list byte -> option (list byte)) (residue : list byte)
    (cfg : option ptpmgmt_cfg_t) (section : option string) (m : ptpmgmt_msg_t) : option (bool * ptpmgmt_msg_t) :=
  match cfg_obj cfg with
  | None => Some (false, m)
  | Some c => r ← useAuth_cfg fs residue c (section_or section) (mt_this m); Some (replace_sa r m)
  end.
Definition ptpmgmt_msg_useConfig (cfg : option ptpmgmt_cfg_t) (section : option string) (m : ptpmgmt_msg_t)
    : option (bool * ptpmgmt_msg_t) :=
  match cfg_obj cfg with
  | None => Some (false, m)
  | Some c => '(r, o) ← Message_useConfig c (section_or section) (mt_this m); Some (r, set_this o m)
  end.
Definition ptpmgmt_msg_changeAuth (spp key : Z) (m : ptpmgmt_msg_t) : bool * ptpmgmt_msg_t :=
  let (r, o) := changeAuth spp key (mt_this m) in (r, set_this o m).
Definition ptpmgmt_msg_changeAuthKey (key : Z) (m : ptpmgmt_msg_t) : bool * ptpmgmt_msg_t :=
  let (r, o) := changeAuth_key key (mt_this m) in (r, set_this o m).
End Mac.

(** [ptpmgmt_msg_getSa]: the key file of the C interface on the keys of the message, made once. *)
Definition ptpmgmt_msg_getSa (m : ptpmgmt_msg_t) : ptpmgmt_msg_t :=
  match mt_sa m with
  | Some _ => m
  | None =>
      mk_msg_t (mt_this m) (mt_prms m) (mt_gen m)
        (Some (sf_all (ptpmgmt_safile_alloc_wrap (mk_sa_obj (m_sa (auth (mt_this m))) (mt_gen m)))))
        (mt_spps m) (mt_slots m) (mt_heap m)
  end.
Definition msg_sa (m : ptpmgmt_msg_t) : option c_safile :=
  mk_c_safile (mk_sa_obj (m_sa (auth (mt_this m))) (mt_gen m)) <$> mt_sa m.
(** A program with the key file of the message. *)
Definition msg_prog (m : ptpmgmt_msg_t) : sa_prog := mk_sa_prog (mt_spps m) (msg_sa m).
(** [spp] of the key file of the message. *)
Definition ptpmgmt_msg_sa_spp (sppID : Z) (m : ptpmgmt_msg_t) : option (option spp_addr * ptpmgmt_msg_t) :=
  match msg_sa m with
  | None => Some (None, m)
  | Some sf =>
      '(p, (sf, h)) ← safile_spp sf (mt_spps m) sppID;
      Some (p, mk_msg_t (mt_this m) (mt_prms m) (mt_gen m) (Some (sf_all sf)) h (mt_slots m) (mt_heap m))
  end.

(** ** Structures of the last message *)

(** [C_SWP] of the two pointers of the data. *)
Definition swap_data (d t : option c_addr) (m : ptpmgmt_msg_t) (h : c_heap) : option ptpmgmt_msg_t :=
  let s := mt_slots m in
  h ← c_mfree (s_data s) h;
  h ← c_mfree (s_dataTbl s) h;
  Some (set_slots (mk_slots d t (s_dataSig1 s) (s_dataSig2 s) (s_dataSig3 s)) h m).
(** [C_SWP] of the three pointers of a signalling TLV. *)
Definition swap_sig (p1 p2 p3 : option c_addr) (m : ptpmgmt_msg_t) (h : c_heap) : option ptpmgmt_msg_t :=
  let s := mt_slots m in
  h ← c_mfree (s_dataSig1 s) h;
  h ← c_mfree (s_dataSig2 s) h;
  h ← c_mfree (s_dataSig3 s) h;
  Some (set_slots (mk_slots (s_data s) (s_dataTbl s) p1 p2 p3) h m).

Definition ptpmgmt_msg_getData (m : ptpmgmt_msg_t) : option (option c_addr * ptpmgmt_msg_t) :=
  let o := mt_this m in
  tlv ← cpp2cMngTlv_ptr (m_replayTlv_id (prs o)) (m_dataGet (prs o));
  match tlv with
  | None => Some (None, m)
  | Some t =>
      let (a, h) := c_malloc (CB_mng t) (mt_heap m) in
      let (x, h) := c_malloc_if (mng_table t) CB_table h in
      m ← swap_data (Some a) x m h; Some (Some a, m)
  end.
(** The blocks of a signalling TLV: the structure, [x] and [x2]. *)
Definition sig_blocks (o : c1_out CSigTlv) (h : c_heap) : c_addr * option c_addr * option c_addr * c_heap :=
  let (a, h) := c_malloc (CB_sig (c1_a o)) h in
  let (x, h) := c_malloc_if (c1_x o) (match c1_a o with C_S_MANAGEMENT d => CB_mng (c_mng_tlvData d) | _ => CB_table end) h in
  let (x2, h) := c_malloc_if (c1_x2 o) CB_table h in
  (a, x, x2, h).
Definition give_sig (o : option (c1_out CSigTlv)) (m : ptpmgmt_msg_t) : option (option c_addr * ptpmgmt_msg_t) :=
  match o with
  | None => Some (None, m)
  | Some o =>
      let '(a, x, x2, h) := sig_blocks o (mt_heap m) in
      m ← swap_sig (Some a) x x2 m h; Some (Some a, m)
  end.
Definition ptpmgmt_msg_getSigTlv (position : Z) (m : ptpmgmt_msg_t) : option (option c_addr * ptpmgmt_msg_t) :=
  let t := m_sigTlvs (prs (mt_this m)) in
  o ← cpp2cSigTlv (sig_getType t position) (sig_get t position); give_sig o m.
Definition ptpmgmt_msg_getSigMngTlv (position : Z) (m : ptpmgmt_msg_t) : option (option c_addr * ptpmgmt_msg_t) :=
  let t := m_sigTlvs (prs (mt_this m)) in
  tlv ← cpp2cMngTlv_ptr (sig_getTlvId t position) (sig_getMngTlv t position);
  match tlv with
  | None => Some (None, m)
  | Some t =>
      let (a, h) := c_malloc (CB_mng t) (mt_heap m) in
      let (x, h) := c_malloc_if (mng_table t) CB_table h in
      m ← swap_sig None (Some a) x m h; Some (Some a, m)
  end.
(** [ptpmgmt_msg_traversSigTlvs]: the call-back gets the message, the type and the address
    of the structure, null when there is no conversion. *)
Definition sig_callback (S : Type) : Type :=
  S -> ptpmgmt_msg_t -> Z -> option c_addr -> option (bool * (S * ptpmgmt_msg_t)).
Fixpoint travers_list {S} (callback : sig_callback S) (l : list (Z * BaseSigTlv)) (cookie : S) (m : ptpmgmt_msg_t)
    : option (bool * (S * ptpmgmt_msg_t)) :=
  match l with
  | [] => Some (false, (cookie, m))
  | (ty, t) :: l =>
      o ← cpp2cSigTlv ty (Some t);
      '(sig, m) ← give_sig o m;
      '(stop, (cookie, m)) ← callback cookie m ty sig;
      if (stop : bool) then Some (true, (cookie, m)) else travers_list callback l cookie m
  end.
Definition ptpmgmt_msg_traversSigTlvs {S} (callback : option (sig_callback S)) (cookie : S) (m : ptpmgmt_msg_t)
    : option (bool * (S * ptpmgmt_msg_t)) :=
  let t := m_sigTlvs (prs (mt_this m)) in
  match callback with
  | None => Some (false, (cookie, m))
  | Some f => if m_lastSig t then travers_list f (m_tlvs t) cookie m else Some (false, (cookie, m))
  end.

(** ** Release *)

(** [ptpmgmt_msg_free_wrap], after the object of a message that owns one is deleted. *)
Definition ptpmgmt_msg_free_wrap (m : ptpmgmt_msg_t) : option ptpmgmt_msg_t :=
  m ← swap_data None None m (mt_heap m);
  m ← swap_sig None None None m (mt_heap m);
  match msg_sa m with
  | None => Some m
  | Some sf =>
      h ← ptpmgmt_safile_free_wrap sf (mt_spps m);
      Some (mk_msg_t (mt_this m) (mt_prms m) (mt_gen m) None h (mt_slots m) (mt_heap m))
  end.
