(* ===== verification/MsgCFacts.v ===== *)
(** * MsgCFacts.v: theorems on the C structure of a message

    The blocks of the structures that a C message gives are owned by its five
    pointers: nothing is released twice and nothing is lost; a structure holds the
    TLV of the message; parameters and keys are shared with the C++ object. *)

From S2P Require Import Prelude Types Ids Names MsgProc Codec Structs MngTlvs MngTlvsSpec Dispatch.
From S2P Require Import Auth Cfg Config Message SigTlvs SigFacts CTlvs CTlvsFacts SigC CfgC MsgC.

#[local] Open Scope list_scope.
#[local] Arguments c_malloc : simpl never.

(** ** Blocks and their owners *)

(** The live blocks are those of the list, each once. *)
Record owned (l : list (option c_addr)) (h : c_heap) : Prop := {
  owned_once : NoDup (omap id l);
  owned_live a : is_Some (h !! a) <-> Some a ∈ l
}.

Lemma elem_of_omap_id (l : list (option c_addr)) a : a ∈ omap id l <-> Some a ∈ l.
Proof.
  rewrite list_elem_of_omap. split; [intros (x & E & H)|intros H; by exists (Some a)].
  cbn in H. by subst x.
Qed.
Lemma owned_perm l l' h : Permutation l l' -> owned l h -> owned l' h.
Proof.
  intros P [N L]. split; [by rewrite <- P|]. intros a. by rewrite L, P.
Qed.
Lemma owned_malloc b l h : owned l h ->
  exists a, c_malloc b h = (a, <[a := b]> h) /\ owned (Some a :: l) (<[a := b]> h) /\ h !! a = None.
Proof.
  intros [N L]. exists (fresh (dom h)). split; [done|].
  assert (h !! fresh (dom h) = None) as F by (apply not_elem_of_dom, is_fresh).
  split; [|done]. split.
  - cbn. constructor; [|done]. rewrite elem_of_omap_id. intros E. apply L in E. rewrite F in E. by destruct E.
  - intros a. rewrite lookup_insert_is_Some, L, elem_of_cons. split.
    + intros [->|[_ ?]]; [by left|by right].
    + intros [[= ->]|?]; [by left|]. destruct (decide (fresh (dom h) = a)); [by left|by right].
Qed.
Lemma owned_malloc_if (c : bool) b l h : owned l h ->
  exists p h', c_malloc_if c b h = (p, h') /\ owned (p :: l) h' /\ (forall a x, h !! a = Some x -> h' !! a = Some x).
Proof.
  intros O. unfold c_malloc_if. destruct c.
  - destruct (owned_malloc b l h O) as (a & -> & O' & F). exists (Some a), (<[a := b]> h). do 2 (split; [done|]).
    intros a' x E. rewrite lookup_insert_ne; [done|congruence].
  - exists None, h. split; [done|]. split; [|done]. destruct O as [N L]. split; [done|].
    intros a. rewrite L, elem_of_cons. split; [by right|by intros [?|?]].
Qed.
(** The release of the block at a position. *)
Lemma owned_free i l p h : owned l h -> l !! i = Some p ->
  exists h', c_mfree p h = Some h' /\ owned (delete i l) h' /\
    (forall a, p <> Some a -> h' !! a = h !! a).
Proof.
  intros O E. assert (Permutation l (p :: delete i l)) as P by by apply delete_Permutation.
  apply (owned_perm _ _ _ P) in O. destruct O as [N L]. destruct p as [a|]; cbn.
  - assert (is_Some (h !! a)) as [b Eb] by (apply L; by left). rewrite Eb. eexists. split; [done|].
    cbn in N. apply NoDup_cons in N as [Na N]. split; [split; [done|]|].
    + intros a'. rewrite lookup_delete_is_Some, L, elem_of_cons. split.
      * intros [D [[= ?]|?]]; [by subst|done].
      * intros H. split; [|by right]. intros ->. by apply Na, elem_of_omap_id.
    + intros a' D. apply lookup_delete_ne. congruence.
  - eexists. split; [done|]. split; [|done]. split; [done|]. intros a. rewrite L, elem_of_cons.
    split; [by intros [?|?]|by right].
Qed.

(** ** The pointers of a message *)

Definition slot_list (s : c_slots) : list (option c_addr) :=
  [s_data s; s_dataTbl s; s_dataSig1 s; s_dataSig2 s; s_dataSig3 s].
Definition msg_own (m : ptpmgmt_msg_t) : Prop := owned (slot_list (mt_slots m)) (mt_heap m).

(** New blocks take the place of the old ones. *)
Lemma swap_data_ok d t m h : owned (t :: d :: slot_list (mt_slots m)) h ->
  exists m', swap_data d t m h = Some m' /\ msg_own m' /\ mt_this m' = mt_this m /\
    (forall a, Some a ∉ slot_list (mt_slots m) -> mt_heap m' !! a = h !! a) /\
    s_data (mt_slots m') = d.
Proof.
  intros O. unfold swap_data. destruct (mt_slots m) as [d0 t0 p1 p2 p3] eqn:Es. cbn [s_data s_dataTbl slot_list] in *.
  destruct (owned_free 2 _ d0 h O eq_refl) as (h1 & -> & O1 & K1). cbn in O1 |- *.
  destruct (owned_free 2 _ t0 h1 O1 eq_refl) as (h2 & -> & O2 & K2). cbn in O2 |- *.
  eexists. split; [done|]. split; [|split; [done|split; [|done]]].
  - unfold msg_own. cbn. eapply owned_perm; [apply perm_swap|exact O2].
  - cbn. intros a N. unfold slot_list in N. cbn in N. rewrite !not_elem_of_cons in N. destruct_and!.
    by rewrite K2, K1 by congruence.
Qed.
Lemma swap_sig_ok p q r m h : owned (r :: q :: p :: slot_list (mt_slots m)) h ->
  exists m', swap_sig p q r m h = Some m' /\ msg_own m' /\ mt_this m' = mt_this m /\
    (forall a, Some a ∉ slot_list (mt_slots m) -> mt_heap m' !! a = h !! a).
Proof.
  intros O. unfold swap_sig. destruct (mt_slots m) as [d t p1 p2 p3] eqn:Es. cbn [s_dataSig1 s_dataSig2 s_dataSig3 slot_list] in *.
  destruct (owned_free 5 _ p1 h O eq_refl) as (h1 & -> & O1 & K1). cbn in O1 |- *.
  destruct (owned_free 5 _ p2 h1 O1 eq_refl) as (h2 & -> & O2 & K2). cbn in O2 |- *.
  destruct (owned_free 5 _ p3 h2 O2 eq_refl) as (h3 & -> & O3 & K3). cbn in O3 |- *.
  eexists. split; [done|]. split; [|split; [done|]].
  - unfold msg_own. cbn. eapply owned_perm; [|exact O3].
    rewrite (Permutation_app_comm [r; q; p] [d; t]). cbn. do 2 apply perm_skip.
    apply (Permutation_rev [r; q; p]).
  - cbn. intros a N. unfold slot_list in N. cbn in N. rewrite !not_elem_of_cons in N. destruct_and!.
    by rewrite K3, K2, K1 by congruence.
Qed.

(** ** The structures that are given *)

(** The pointers of the message that the conversions use were set. *)
Definition msg_set (o : Message) : Prop := m_dataGet (prs o) <> Unset /\ sig_set (m_sigTlvs (prs o)).

Lemma cpp2cMngTlv_ptr_set id p : p <> Unset -> exists x, cpp2cMngTlv_ptr id p = Some x.
Proof. destruct p; [done|by eexists|by eexists]. Qed.
Lemma cpp2cSigTlv_set ty t : match t with S_MANAGEMENT d => mng_tlvData d <> Unset | _ => True end ->
  exists x, cpp2cSigTlv ty (Some t) = Some x.
Proof.
  destruct t; cbn -[cpp2cMngTlv_ptr]; intros H; try (case_match; by eexists).
  case_match; [|by eexists]. unfold MANAGEMENT_c1.
  destruct (cpp2cMngTlv_ptr_set (mng_managementId d) (mng_tlvData d) H) as [x ->]. cbn. by eexists.
Qed.
Lemma sig_at_set t pos e : sig_set t -> sig_at t pos = Some e ->
  match e.2 with S_MANAGEMENT d => mng_tlvData d <> Unset | _ => True end.
Proof.
  unfold sig_at. intros S. case_match; [|done]. intros E. by eapply (proj1 (Forall_lookup _ _) S).
Qed.

Lemma mng_given t m (f : option c_addr -> option c_addr -> ptpmgmt_msg_t -> c_heap -> option ptpmgmt_msg_t) :
  msg_own m ->
  (forall d x h, owned (x :: d :: slot_list (mt_slots m)) h -> exists m', f d x m h = Some m' /\ msg_own m' /\
     mt_this m' = mt_this m /\ (forall a, Some a ∉ slot_list (mt_slots m) -> mt_heap m' !! a = h !! a)) ->
  exists a m',
    (let (a, h) := c_malloc (CB_mng t) (mt_heap m) in
     let (x, h) := c_malloc_if (mng_table t) CB_table h in
     m ← f (Some a) x m h; Some (Some a, m)) = Some (Some a, m') /\
    msg_own m' /\ mt_this m' = mt_this m /\ mt_heap m' !! a = Some (CB_mng t).
Proof.
  intros O F. destruct (owned_malloc (CB_mng t) _ _ O) as (a & -> & O1 & Fr).
  destruct (owned_malloc_if (mng_table t) CB_table _ _ O1) as (x & h2 & -> & O2 & K).
  destruct (F (Some a) x h2 O2) as (m' & -> & O' & E' & K'). exists a, m'. cbn. do 3 (split; [done|]).
  rewrite K'.
  - apply K. apply lookup_insert_eq.
  - intros I. apply (owned_live _ _ O) in I. rewrite Fr in I. by destruct I.
Qed.

Lemma getData_ok m : msg_own m -> m_dataGet (prs (mt_this m)) <> Unset ->
  exists p m', ptpmgmt_msg_getData m = Some (p, m') /\ msg_own m' /\ mt_this m' = mt_this m /\
    forall t, cpp2cMngTlv_ptr (m_replayTlv_id (prs (mt_this m))) (m_dataGet (prs (mt_this m))) = Some (Some t) ->
      exists a, p = Some a /\ mt_heap m' !! a = Some (CB_mng t).
Proof.
  intros O S. unfold ptpmgmt_msg_getData.
  destruct (cpp2cMngTlv_ptr_set (m_replayTlv_id (prs (mt_this m))) _ S) as [[t|] E]; rewrite E; cbn -[c_malloc_if];
    [|by exists None, m].
  destruct (mng_given t m swap_data O) as (a & m' & E' & O' & T & H).
  { intros d x h Od. destruct (swap_data_ok d x m h Od) as (m' & H). exists m'. tauto. }
  exists (Some a), m'. do 3 (split; [done|]). intros t' [= <-]. by exists a.
Qed.
Lemma getSigMngTlv_ok pos m : msg_own m -> sig_set (m_sigTlvs (prs (mt_this m))) ->
  exists p m', ptpmgmt_msg_getSigMngTlv pos m = Some (p, m') /\ msg_own m' /\ mt_this m' = mt_this m.
Proof.
  intros O S. unfold ptpmgmt_msg_getSigMngTlv. set (t := m_sigTlvs (prs (mt_this m))) in *.
  assert (sig_getMngTlv t pos <> Unset) as N.
  { unfold sig_getMngTlv, sig_getMng. pose proof (sig_at_set t pos) as A.
    destruct (sig_at t pos) as [[ty []]|]; try done. cbn in A.
    destruct (ty =? MANAGEMENT); [|done]. by apply (A _ S eq_refl). }
  destruct (cpp2cMngTlv_ptr_set (sig_getTlvId t pos) _ N) as [[c|] ->]; cbn -[c_malloc_if]; [|by exists None, m].
  destruct (mng_given c m (fun a x m h => swap_sig None a x m h) O) as (a & m' & E' & O' & T & H).
  { intros d x h Od. destruct (swap_sig_ok None d x m h) as (m' & H); [|exists m'; tauto].
    destruct Od as [N1 L]. cbn in N1. split; [done|]. intros b. rewrite L, !elem_of_cons.
    split; [intros [?|[?|?]]; auto|]. intros [?|[?|[?|?]]]; auto; done. }
  exists (Some a), m'. tauto.
Qed.

Lemma give_sig_ok o m : msg_own m ->
  exists p m', give_sig o m = Some (p, m') /\ msg_own m' /\ mt_this m' = mt_this m /\
    forall c, o = Some c -> exists a, p = Some a /\ mt_heap m' !! a = Some (CB_sig (c1_a c)).
Proof.
  intros O. destruct o as [c|]; cbn -[sig_blocks]; [|by exists None, m]. unfold sig_blocks.
  destruct (owned_malloc (CB_sig (c1_a c)) _ _ O) as (a & -> & O1 & Fr).
  destruct (owned_malloc_if (c1_x c) (match c1_a c with C_S_MANAGEMENT d => CB_mng (c_mng_tlvData d) | _ => CB_table end)
    _ _ O1) as (x & h2 & -> & O2 & K2).
  destruct (owned_malloc_if (c1_x2 c) CB_table _ _ O2) as (x2 & h3 & -> & O3 & K3).
  destruct (swap_sig_ok (Some a) x x2 m h3 O3) as (m' & -> & O' & E' & K'). cbn.
  exists (Some a), m'. do 3 (split; [done|]). intros c' [= <-]. exists a. split; [done|]. rewrite K'.
  - apply K3, K2. apply lookup_insert_eq.
  - intros I. apply (owned_live _ _ O) in I. rewrite Fr in I. by destruct I.
Qed.
Lemma sig_get_set t pos : sig_set t -> exists o, cpp2cSigTlv (sig_getType t pos) (sig_get t pos) = Some o.
Proof.
  intros S. unfold sig_get, sig_getType. pose proof (sig_at_set t pos) as A.
  destruct (sig_at t pos) as [[ty d]|]; [|by eexists]. apply cpp2cSigTlv_set. by apply (A _ S eq_refl).
Qed.
Lemma getSigTlv_ok pos m : msg_own m -> sig_set (m_sigTlvs (prs (mt_this m))) ->
  exists p m', ptpmgmt_msg_getSigTlv pos m = Some (p, m') /\ msg_own m' /\ mt_this m' = mt_this m.
Proof.
  intros O S. unfold ptpmgmt_msg_getSigTlv. destruct (sig_get_set _ pos S) as [o ->]. cbn [mbind option_bind].
  destruct (give_sig_ok o m O) as (p & m' & H). exists p, m'. tauto.
Qed.

(** ** Programs with a message *)

(** The getters, also inside a call-back. *)
Inductive get_call :=
| G_data
| G_sig (position : Z)
| G_mng (position : Z).
Definition run_get (g : get_call) (m : ptpmgmt_msg_t) : option ptpmgmt_msg_t :=
  match g with
  | G_data => snd <$> ptpmgmt_msg_getData m
  | G_sig position => snd <$> ptpmgmt_msg_getSigTlv position m
  | G_mng position => snd <$> ptpmgmt_msg_getSigMngTlv position m
  end.
Fixpoint run_gets (gs : list get_call) (m : ptpmgmt_msg_t) : option ptpmgmt_msg_t :=
  match gs with [] => Some m | g :: gs => m ← run_get g m; run_gets gs m end.
(** A call-back that asks for structures. *)
Definition gets_callback (gs : list get_call) : sig_callback unit :=
  fun _ m _ _ => m ← run_gets gs m; Some (false, (tt, m)).

(** The calls; [C_message] is any method that changes the C++ object, [keys] when it replaces
    its keys. *)
Inductive msg_call :=
| C_get (g : get_call)
| C_travers (gs : list get_call)
| C_message (o : Message) (keys : bool)
| C_getSa
| C_spp (sppID : Z).
Definition run_call (c : msg_call) (m : ptpmgmt_msg_t) : option ptpmgmt_msg_t :=
  match c with
  | C_get g => run_get g m
  | C_travers gs =>
      '(_, (_, m)) ← ptpmgmt_msg_traversSigTlvs (Some (gets_callback gs)) tt m; Some m
  | C_message o keys => Some (snd (replace_sa (keys, o) m))
  | C_getSa => Some (ptpmgmt_msg_getSa m)
  | C_spp sppID => snd <$> ptpmgmt_msg_sa_spp sppID m
  end.
Definition call_ok (c : msg_call) (m : ptpmgmt_msg_t) : Prop :=
  match c with
  | C_message o keys => msg_set o /\ (keys = false -> m_sa (auth o) = m_sa (auth (mt_this m)))
  | C_spp sppID => uint 8 sppID /\ sppID <> UINT8_MAX
  | _ => True
  end.

(** What holds between two calls. *)
Definition spps_own (m : ptpmgmt_msg_t) : Prop :=
  match msg_sa m with Some sf => sf_own sf (mt_spps m) | None => mt_spps m = ∅ end /\
  forall a s, mt_spps m !! a <> Some (SB_own s).
Record msg_inv (m : ptpmgmt_msg_t) : Prop := {
  inv_set : msg_set (mt_this m);
  inv_own : msg_own m;
  inv_spps : spps_own m
}.

(** The getters do not use the keys. *)
Definition same_sa (m m' : ptpmgmt_msg_t) : Prop :=
  mt_this m' = mt_this m /\ mt_spps m' = mt_spps m /\ mt_sa m' = mt_sa m /\ mt_gen m' = mt_gen m.
Lemma swap_data_sa d t m h m' : swap_data d t m h = Some m' -> same_sa m m'.
Proof. unfold swap_data. intros E. by simplify_option_eq. Qed.
Lemma swap_sig_sa p q r m h m' : swap_sig p q r m h = Some m' -> same_sa m m'.
Proof. unfold swap_sig. intros E. by simplify_option_eq. Qed.
Lemma give_sig_sa o m p m' : give_sig o m = Some (p, m') -> same_sa m m'.
Proof.
  unfold give_sig. destruct o as [o|]; [|by intros [= _ <-]].
  destruct (sig_blocks _ _) as [[[a x] x2] h]. intros E. simplify_option_eq. by eapply swap_sig_sa.
Qed.
Lemma run_get_sa g m m' : run_get g m = Some m' -> same_sa m m'.
Proof.
  destruct g; cbn; intros E; apply fmap_Some in E as [[p m2] [E ->]].
  - unfold ptpmgmt_msg_getData in E. destruct (cpp2cMngTlv_ptr _ _) as [[t|]|]; [|by simplify_eq/=|done].
    cbn [mbind option_bind] in E. destruct (c_malloc _ _) as [a h], (c_malloc_if _ _ _) as [x h2].
    simplify_option_eq. by eapply swap_data_sa.
  - unfold ptpmgmt_msg_getSigTlv in E. destruct (cpp2cSigTlv _ _); [|done]. by eapply give_sig_sa.
  - unfold ptpmgmt_msg_getSigMngTlv in E. destruct (cpp2cMngTlv_ptr _ _) as [[t|]|]; [|by simplify_eq/=|done].
    cbn [mbind option_bind] in E. destruct (c_malloc _ _) as [a h], (c_malloc_if _ _ _) as [x h2].
    simplify_option_eq. by eapply swap_sig_sa.
Qed.
Lemma same_sa_spps m m' : same_sa m m' -> spps_own m -> spps_own m'.
Proof. intros (E1 & E2 & E3 & E4). unfold spps_own, msg_sa. by rewrite E1, E2, E3, E4. Qed.

Lemma run_get_ok g m : msg_inv m -> exists m', run_get g m = Some m' /\ msg_inv m' /\ mt_this m' = mt_this m.
Proof.
  intros [S O K]. assert (exists m', run_get g m = Some m' /\ msg_own m' /\ mt_this m' = mt_this m) as (m' & E & O' & T).
  { destruct g; cbn.
    - destruct (getData_ok m O (proj1 S)) as (p & m' & -> & H). exists m'. tauto.
    - destruct (getSigTlv_ok position m O (proj2 S)) as (p & m' & -> & H). by exists m'.
    - destruct (getSigMngTlv_ok position m O (proj2 S)) as (p & m' & -> & H). by exists m'. }
  exists m'. split; [done|]. split; [|done]. split; [by rewrite T|done|].
  eapply same_sa_spps; [by eapply run_get_sa|done].
Qed.
Lemma run_gets_ok gs m : msg_inv m -> exists m', run_gets gs m = Some m' /\ msg_inv m' /\ mt_this m' = mt_this m.
Proof.
  revert m. induction gs as [|g gs IH]; intros m I; [by exists m|]. cbn -[run_get].
  destruct (run_get_ok g m I) as (m1 & -> & I1 & T1). destruct (IH m1 I1) as (m2 & E & I2 & T2).
  exists m2. split; [done|]. split; [done|]. by rewrite T2.
Qed.

Lemma give_sig_inv o m : msg_inv m -> exists p m', give_sig o m = Some (p, m') /\ msg_inv m' /\ mt_this m' = mt_this m.
Proof.
  intros [S O K]. destruct (give_sig_ok o m O) as (p & m' & E & O' & T & _). exists p, m'.
  split; [done|]. split; [|done]. split; [by rewrite T|done|]. eapply same_sa_spps; [by eapply give_sig_sa|done].
Qed.
(** A call-back that keeps what holds is called for each TLV until it stops. *)
Lemma travers_ok {C} (callback : sig_callback C) cookie m :
  (forall cookie m ty p, msg_inv m ->
     exists r cookie' m', callback cookie m ty p = Some (r, (cookie', m')) /\ msg_inv m' /\ mt_this m' = mt_this m) ->
  msg_inv m ->
  exists r cookie' m', ptpmgmt_msg_traversSigTlvs (Some callback) cookie m = Some (r, (cookie', m')) /\
    msg_inv m' /\ mt_this m' = mt_this m.
Proof.
  intros Ok I. unfold ptpmgmt_msg_traversSigTlvs. case_match; [|by exists false, cookie, m]. clear H.
  pose proof (proj2 (inv_set _ I)) as F. unfold sig_set in F. revert F.
  generalize (m_tlvs (m_sigTlvs (prs (mt_this m)))) as l. intros l. revert cookie m I.
  induction l as [|[ty t] l IH]; intros cookie m I F; [by exists false, cookie, m|].
  apply Forall_cons in F as [F1 F2]. cbn -[cpp2cSigTlv give_sig].
  destruct (cpp2cSigTlv_set ty t F1) as [o ->]. cbn [mbind option_bind].
  destruct (give_sig_inv o m I) as (p & m1 & -> & I1 & E1). cbn [mbind option_bind].
  destruct (Ok cookie m1 ty p I1) as (r & cookie' & m2 & -> & I2 & E2). cbn [mbind option_bind].
  destruct r; [by exists true, cookie', m2; rewrite E2, E1|].
  destruct (IH cookie' m2 I2 F2) as (r & c3 & m3 & E3 & I3 & T3). exists r, c3, m3. by rewrite E3, T3, E2, E1.
Qed.

Lemma null_sf_own o (h : spp_heap) : (forall a b, h !! a <> Some b) -> sf_own (ptpmgmt_safile_alloc_wrap o) h.
Proof.
  intros N. split; cbn; [done|..].
  - intros i a E. apply lookup_replicate in E as [? _]. done.
  - intros a g id E. by apply N in E.
Qed.
Lemma spps_replaced m o keys : (keys = false -> m_sa (auth o) = m_sa (auth (mt_this m))) ->
  spps_own m -> spps_own (snd (replace_sa (keys, o) m)).
Proof.
  intros K [O N]. split; [|done]. unfold msg_sa in *. cbn in *. destruct (mt_sa m) as [l|]; [|done]. cbn in *.
  destruct keys.
  - by apply (own_read (true, m_sa (auth o)) _ _ O).
  - by rewrite K.
Qed.
Lemma spps_given sppID m : spps_own m -> uint 8 sppID -> sppID <> UINT8_MAX ->
  exists p m', ptpmgmt_msg_sa_spp sppID m = Some (p, m') /\ spps_own m' /\
    mt_this m' = mt_this m /\ mt_slots m' = mt_slots m /\ mt_heap m' = mt_heap m.
Proof.
  intros [O N] U D. unfold ptpmgmt_msg_sa_spp, spps_own in *. unfold msg_sa in *.
  destruct (mt_sa m) as [l|] eqn:L; cbn in *; [|exists None, m; by rewrite L].
  destruct (safile_spp_ok _ _ sppID O U D) as (p & sf' & h' & E & O' & T). rewrite E. cbn in *.
  exists p. eexists. split; [done|]. split; [|done]. cbn. split.
  - destruct sf' as [t l']. cbn in *. by subst t.
  - intros a s Ea. unfold safile_spp in E. cbn in E. case_match; [|by simplify_eq; eapply N].
    destruct (l !! Z.to_nat sppID) as [[b|]|]; cbn in E; unfold spp_malloc in E; simplify_eq; [by eapply N|].
    destruct (decide (fresh (dom (mt_spps m)) = a)) as [<-|].
    + by rewrite lookup_insert_eq in Ea.
    + rewrite lookup_insert_ne in Ea by done. by eapply N.
Qed.

Lemma run_call_ok c m : msg_inv m -> call_ok c m -> exists m', run_call c m = Some m' /\ msg_inv m'.
Proof.
  intros I A. destruct c as [g|gs|o keys| |id]; cbn -[ptpmgmt_msg_sa_spp run_get ptpmgmt_msg_traversSigTlvs].
  - destruct (run_get_ok g m I) as (m' & E & I' & _). by exists m'.
  - destruct (travers_ok (gets_callback gs) tt m) with (2 := I) as (r & [] & m' & -> & I' & _); [|by exists m'].
    intros c m0 ty p I0. unfold gets_callback. destruct (run_gets_ok gs m0 I0) as (m1 & -> & I1 & T1). by exists false, tt, m1.
  - destruct I as [S O K], A as [So Ka]. eexists. split; [done|]. split; [done|done|]. by apply spps_replaced.
  - exists (ptpmgmt_msg_getSa m). split; [done|]. destruct I as [S O [K N]]. unfold ptpmgmt_msg_getSa.
    destruct (mt_sa m) as [l|] eqn:L; [done|]. split; [done|done|]. split; [|done]. cbn.
    unfold msg_sa in K. rewrite L in K. cbn in K. rewrite K. apply null_sf_own. intros a b. by rewrite lookup_empty.
  - destruct I as [S O K], A as [U D]. destruct (spps_given id m K U D) as (p & m' & -> & K' & E1 & E2 & E3).
    exists m'. split; [done|]. split; [by rewrite E1| |done]. unfold msg_own. by rewrite E2, E3.
Qed.

Fixpoint run_calls (cs : list msg_call) (m : ptpmgmt_msg_t) : option ptpmgmt_msg_t :=
  match cs with [] => Some m | c :: cs => m ← run_call c m; run_calls cs m end.
Fixpoint calls_ok (cs : list msg_call) (m : ptpmgmt_msg_t) : Prop :=
  match cs with
  | [] => True
  | c :: cs => call_ok c m /\ match run_call c m with Some m => calls_ok cs m | None => False end
  end.

Lemma no_slots_none a : Some a ∉ slot_list no_slots.
Proof. unfold slot_list. cbn. rewrite !not_elem_of_cons. repeat (split; [done|]). apply not_elem_of_nil. Qed.

(** What a message owns is released once, and nothing else is left. *)
Lemma free_wrap_ok m : msg_inv m ->
  exists m', ptpmgmt_msg_free_wrap m = Some m' /\ mt_heap m' = ∅ /\ mt_spps m' = ∅.
Proof.
  intros [_ O [K N]]. unfold ptpmgmt_msg_free_wrap.
  assert (forall l (h : c_heap), owned l h -> owned (None :: l) h) as Null.
  { intros l h [N1 L1]. split; [done|]. intros a. rewrite L1, elem_of_cons. split; [by right|by intros [?|?]]. }
  destruct (swap_data_ok None None m (mt_heap m)) as (m1 & E1 & O1 & T1 & _ & D1); [by do 2 apply Null|].
  rewrite E1. cbn [mbind option_bind].
  destruct (swap_sig_ok None None None m1 (mt_heap m1)) as (m2 & E2 & O2 & T2 & _); [by do 3 apply Null|].
  rewrite E2. cbn [mbind option_bind].
  assert (mt_heap m2 = ∅) as H0.
  { apply map_empty. intros a. destruct (mt_heap m2 !! a) eqn:Ea; [|done]. exfalso.
    assert (is_Some (mt_heap m2 !! a)) as Ia by by eexists. apply (owned_live _ _ O2) in Ia.
    unfold swap_data, swap_sig in E1, E2. simplify_option_eq.
    by apply no_slots_none in Ia. }
  destruct (swap_data_sa _ _ _ _ _ E1) as (A1 & A2 & A3 & A4).
  destruct (swap_sig_sa _ _ _ _ _ _ E2) as (B1 & B2 & B3 & B4).
  assert (msg_sa m2 = msg_sa m) as -> by (unfold msg_sa; by rewrite B1, B3, B4, A1, A3, A4).
  destruct (msg_sa m) as [sf|]; [|exists m2; by rewrite B2, A2].
  destruct (free_slots_own sf (mt_spps m) K) as (h' & E & W & V). unfold ptpmgmt_safile_free_wrap.
  rewrite B2, A2, E. cbn. eexists. split; [done|]. split; [done|]. cbn.
  apply map_empty. intros a. destruct (h' !! a) as [[s|g id]|] eqn:Ea; [|by apply W in Ea|done].
  apply V in Ea. by apply N in Ea.
Qed.


(** The structure that a message gives for a signalling TLV holds it. *)
Theorem c_sig_given m pos ty t : msg_inv m -> sig_at (m_sigTlvs (prs (mt_this m))) pos = Some (ty, t) ->
  sig_typed (ty, t) -> sig_able t ->
  exists a m' c t', ptpmgmt_msg_getSigTlv pos m = Some (Some a, m') /\ mt_heap m' !! a = Some (CB_sig c) /\
    csig_read c = Some t' /\ sig_same t t'.
Proof.
  intros I E T A. destruct (sig_converts ty t T A) as (out & t' & E1 & E2 & Sm).
  unfold ptpmgmt_msg_getSigTlv, sig_getType, sig_get. rewrite E. cbn -[cpp2cSigTlv give_sig]. rewrite E1.
  cbn -[give_sig]. destruct (give_sig_ok (Some out) m (inv_own _ I)) as (p & m' & E3 & _ & _ & G).
  destruct (G out eq_refl) as (a & -> & H). by exists a, m', (c1_a out), t'.
Qed.

(** ** Parameters *)

Lemma values_back r : wf_PortIdentity (target r) -> wf_PortIdentity (self_id r) -> getMsgParams (cpyMsgParams r) r = r.
Proof.
  destruct r. unfold getMsgParams, cpyMsgParams. cbn -[c1_st_PortIdentity wf_PortIdentity].
  intros W1 W2. by rewrite !(PortIdentity_c1_id _ W1), !(PortIdentity_c1_id _ W2).
Qed.
(** The parameters that a message gives are accepted back and leave the message unchanged. *)
Theorem c_params_back m : wf_PortIdentity (target (m_prms (mt_this m))) -> wf_PortIdentity (self_id (m_prms (mt_this m))) ->
  Types.transportSpecific (m_prms (mt_this m)) <= 0xf ->
  exists p m', ptpmgmt_msg_getParams m = (p, m') /\ mt_this m' = mt_this m /\
    ptpmgmt_msg_updateParams p (mt_this m') = (true, (p, mt_this m)).
Proof.
  intros W1 W2 L. eexists _, _. split; [done|]. split; [done|].
  unfold ptpmgmt_msg_updateParams. cbn. rewrite values_back by done. unfold updateParams.
  destruct (Z.ltb_spec 0xf (Types.transportSpecific (m_prms (mt_this m)))); [lia|]. by destruct (mt_this m).
Qed.
(** Values that the message refuses are in it all the same: the structure that
    [getParams] gives has the address of the parameters of the message. *)
Theorem c_params_refused m v : 0xf < v_transportSpecific v ->
  exists o, ptpmgmt_msg_updateParams (mk_c_prms v (cp_this (fst (ptpmgmt_msg_getParams m)))) (mt_this m) =
    (false, (mk_c_prms v P_msg, o)) /\ Types.transportSpecific (m_prms o) = v_transportSpecific v /\
    Types.domainNumber (m_prms o) = v_domainNumber v.
Proof.
  intros L. unfold ptpmgmt_msg_updateParams. cbn. unfold updateParams. cbn.
  destruct (Z.ltb_spec 0xf (v_transportSpecific v)); [|lia]. by eexists.
Qed.

(** ** Keys *)

(** A structure of the keys of a message is gone when the message takes other keys, and the
    key file of the message keeps its address. *)
Theorem c_msg_keys_stale `{lib : MacLib} m id a m1 sa spp key m2 : msg_inv m -> uint 8 id -> id <> UINT8_MAX ->
  ptpmgmt_msg_sa_spp id m = Some (Some a, m1) -> ptpmgmt_msg_useAuth sa spp key m1 = (true, m2) ->
  SaFile_have_spp (m_sa (auth (mt_this m2))) id = true ->
  ptpmgmt_msg_sa_spp id m2 = Some (Some a, m2) /\ spp_obj (Some a) (msg_prog m2) = None.
Proof.
  intros I U D E1 E2 H. destruct (spps_given id m (inv_spps _ I) U D) as (p & m1' & E1' & [K1 _] & _).
  rewrite E1 in E1'. simplify_eq. unfold ptpmgmt_msg_sa_spp in E1.
  destruct (msg_sa m) as [sf|]; [|by simplify_eq].
  destruct (safile_spp sf (mt_spps m) id) as [[p [sf1 h1]]|] eqn:Es; [|done]. cbn in E1. simplify_eq.
  apply safile_spp_slot in Es as Sl.
  unfold ptpmgmt_msg_useAuth, replace_sa in E2. cbn in E2. destruct (useAuth sa spp key (mt_this m)) as [[] o]; [|done].
  cbn in E2. simplify_eq. unfold ptpmgmt_msg_sa_spp, msg_sa, msg_prog, safile_spp in *. cbn in *. rewrite H, Sl. cbn.
  split; [done|]. destruct (own_slot _ _ K1 _ _ Sl) as (g & Ea & Hg). unfold msg_sa. cbn in *. rewrite Ea. cbn.
  by rewrite bool_decide_false by lia.
Qed.

(** ** Witnesses *)

Definition demo_cmsg : Message :=
  set_prs (set_m_sigTlvs (mk_MessageSigTlvs [(SLAVE_TX_EVENT_TIMESTAMPS, demo_sig)] true) (prs Message_new)) Message_new.
Lemma demo_cmsg_set : msg_set demo_cmsg.
Proof. split; [done|]. repeat constructor. Qed.
Lemma demo_msg_inv o : msg_set o -> msg_inv (ptpmgmt_msg_alloc o).
Proof.
  intros S. split; [done| |by split]. split; cbn; [constructor|]. intros a. rewrite lookup_empty.
  split; [by intros []|]. intros Ia. by apply no_slots_none in Ia.
Qed.
Definition demo_calls : list msg_call :=
  [C_get (G_sig 0); C_travers [G_data; G_sig 0; G_sig 5]; C_getSa; C_message Message_new true; C_get (G_mng 0); C_spp 3].

(** Calls that are allowed in any state. *)
Definition call_static (c : msg_call) : Prop :=
  match c with
  | C_message o keys => msg_set o /\ keys = true
  | C_spp sppID => uint 8 sppID /\ sppID <> UINT8_MAX
  | _ => True
  end.
Lemma calls_static cs m : msg_inv m -> Forall call_static cs -> calls_ok cs m.
Proof.
  intros I F. revert m I. induction F as [|c cs A _ IH]; intros m I; [done|]. cbn -[run_call].
  assert (call_ok c m) as Ok by (destruct c; cbn in A |- *; try done; destruct A as [? ->]; done).
  split; [done|]. destruct (run_call_ok c m I Ok) as (m' & -> & I'). by apply IH.
Qed.
Lemma demo_calls_static : Forall call_static demo_calls.
Proof.
  unfold demo_calls. repeat (apply Forall_cons; split; [cbn; try exact Logic.I|]); [| |constructor].
  - split; [|done]. split; [done|constructor].
  - split; [split|]; vm_compute; congruence.
Qed.

Lemma c_sig_given_witness : exists a m' c t',
  ptpmgmt_msg_getSigTlv 0 (ptpmgmt_msg_alloc demo_cmsg) = Some (Some a, m') /\ mt_heap m' !! a = Some (CB_sig c) /\
  csig_read c = Some t' /\ sig_same demo_sig t'.
Proof.
  apply (c_sig_given (ptpmgmt_msg_alloc demo_cmsg) 0 SLAVE_TX_EVENT_TIMESTAMPS demo_sig).
  - apply demo_msg_inv, demo_cmsg_set.
  - reflexivity.
  - reflexivity.
  - exact demo_sig_able.
Defined.
Lemma c_params_back_witness : exists p m', ptpmgmt_msg_getParams (ptpmgmt_msg_alloc demo_cmsg) = (p, m') /\
  mt_this m' = demo_cmsg /\ ptpmgmt_msg_updateParams p (mt_this m') = (true, (p, demo_cmsg)).
Proof.
  apply (c_params_back (ptpmgmt_msg_alloc demo_cmsg)).
  - split; [reflexivity|split; vm_compute; congruence].
  - split; [reflexivity|split; vm_compute; congruence].
  - vm_compute. congruence.
Defined.
Definition demo_values : c_values :=
  let v := cpyMsgParams MsgParams_default in
  mk_c_values 0x20 9 (v_boundaryHops v) (v_minorVersion v) (v_isUnicast v) (v_implementSpecific v) (v_target v)
    (v_self_id v) (v_useZeroGet v) (v_rcvSignaling v) (v_filterSignaling v) (v_rcvSMPTEOrg v) (v_sendAuth v)
    (v_rcvAuth v).
Lemma c_params_refused_witness : exists o,
  ptpmgmt_msg_updateParams (mk_c_prms demo_values P_msg) demo_cmsg = (false, (mk_c_prms demo_values P_msg, o)) /\
  Types.transportSpecific (m_prms o) = 0x20 /\ Types.domainNumber (m_prms o) = 9.
Proof. apply (c_params_refused (ptpmgmt_msg_alloc demo_cmsg) demo_values). vm_compute. congruence. Defined.

#[local] Instance demo_keys_lib : MacLib :=
  {| mac_alloc := fun _ _ => true; mac_full := fun _ _ _ => None; mac_residue := [] |}.
Definition demo_keys_msg : ptpmgmt_msg_t :=
  ptpmgmt_msg_getSa (snd (ptpmgmt_msg_useAuth demo_pool 3 1 (ptpmgmt_msg_alloc Message_new))).
Lemma useAuth_prs sa sppID key o : prs (snd (useAuth sa sppID key o)) = prs o.
Proof. unfold useAuth. repeat case_match; done. Qed.
Lemma new_set : msg_set Message_new. Proof. split; [discriminate|constructor]. Qed.
Lemma run_call_inv c m m' : msg_inv m -> call_ok c m -> run_call c m = Some m' -> msg_inv m'.
Proof. intros I A E. destruct (run_call_ok c m I A) as (m2 & E2 & I2). congruence. Qed.
Lemma demo_keys_inv : msg_inv demo_keys_msg.
Proof.
  unfold demo_keys_msg. eapply (run_call_inv C_getSa); [|exact Logic.I|reflexivity].
  assert (fst (useAuth demo_pool 3 1 Message_new) = true) as E by (vm_compute; reflexivity).
  pose proof (useAuth_prs demo_pool 3 1 Message_new) as P.
  unfold ptpmgmt_msg_useAuth. change (mt_this (ptpmgmt_msg_alloc Message_new)) with Message_new.
  destruct (useAuth demo_pool 3 1 Message_new) as [r o]. cbn [fst snd] in E, P. subst r.
  eapply (run_call_inv (C_message o true)); [apply demo_msg_inv, new_set| |reflexivity].
  split; [|discriminate]. unfold msg_set. rewrite P. exact new_set.
Qed.
Lemma c_msg_keys_stale_witness : exists m2,
  ptpmgmt_msg_sa_spp 3 m2 = Some (Some 0%nat, m2) /\ spp_obj (Some 0%nat) (msg_prog m2) = None.
Proof.
  destruct (ptpmgmt_msg_sa_spp 3 demo_keys_msg) as [[p m1]|] eqn:E1; [|vm_compute in E1; discriminate].
  exists (snd (ptpmgmt_msg_useAuth demo_pool 3 1 m1)).
  apply (c_msg_keys_stale demo_keys_msg 3 0%nat m1 demo_pool 3 1 (snd (ptpmgmt_msg_useAuth demo_pool 3 1 m1))).
  - exact demo_keys_inv.
  - split; vm_compute; congruence.
  - vm_compute. congruence.
  - vm_compute in E1. injection E1 as <- <-. vm_compute. reflexivity.
  - vm_compute in E1. injection E1 as <- <-. vm_compute. reflexivity.
  - vm_compute in E1. injection E1 as <- <-. vm_compute. reflexivity.
Defined.
