(* ===== verification/Hmac.v ===== *)
(** * Hmac.v: the loader of the authentication libraries

    [src/src/hmac.cpp] of the shared library: it loads one of the libraries of
    [src/hmac] by its name, counts the keys, and unloads the library when no key is
    left.  The list of the names comes from the build, the loader of the system and
    the loaded libraries are third-party code: the class [DlOs].  Auth.v models what
    the keys compute.

    The static variables are the record [hmac_st].  The log of errors has no effect
    on the results.  A function that holds [hmacLoadLock] is one step; [hmac_allocHMAC]
    holds it for the loading only, and is cut in its steps for the interleavings. *)

From S2P Require Import Prelude CStr Names.

#[local] Open Scope list_scope.

(** A handle of [dlopen], in a world [W]: [dl_open] gives one or fails, [dl_close] tells its
    success; [dl_fetch] tells if [ptpm_hmac] is there and returns a structure, [dl_alloc] and
    [dl_init] are its [m_alloc_key] and the [init] of a key, [dl_unload] its [m_unload]. *)
Class DlOs (W : Type) := {
  dl_open : string -> W -> option nat * W;
  dl_close : nat -> W -> bool * W;
  dl_fetch : nat -> W -> bool;
  dl_alloc : nat -> W -> bool * W;
  dl_init : nat -> Z -> list byte -> W -> bool * W;
  dl_unload : nat -> W -> W
}.

(** [useLib] is an index of the list: the names are compared as pointers.
    [ptpm_hmac_p] is the handle of the library that the structure is in. *)
Record hmac_st := mk_hmac {
  hmacCount : Z;
  hmacLib : option nat;
  useLib : option nat;
  ptpm_hmac_p : option nat
}.
Definition hmac_init : hmac_st := mk_hmac 0 None None None.
Definition doLibNull (s : hmac_st) : hmac_st := mk_hmac (hmacCount s) None None None.
Definition set_count (n : Z) (s : hmac_st) : hmac_st := mk_hmac (uwrap 64 n) (hmacLib s) (useLib s) (ptpm_hmac_p s).

Section Loader.
Context {W : Type} `{DlOs W} (HMAC_LIBS : list string).

Definition doLibRm (s : hmac_st) (w : W) : W :=
  match hmacLib s with Some h => snd (dl_close h w) | None => w end.
(** [tryLib] of the name at an index; the pointers that are set stay when it fails. *)
Definition tryLib (i : nat) (s : hmac_st) (w : W) : bool * (hmac_st * W) :=
  match HMAC_LIBS !! i with
  | None => (false, (s, w))
  | Some name =>
      let (h, w) := dl_open name w in
      let s := mk_hmac (hmacCount s) h (useLib s) (ptpm_hmac_p s) in
      match h with
      | None => (false, (s, w))
      | Some lib =>
          if dl_fetch lib w then (true, (mk_hmac (hmacCount s) h (Some i) (Some lib), w))
          else (false, (mk_hmac (hmacCount s) h (useLib s) None, doLibRm s w))
      end
  end.

(** The first loop of [doReloadLibrary]: the indexes of the names that match. *)
Definition lib_matches (libMatch : string) : list nat :=
  List.filter (fun i => match HMAC_LIBS !! i with Some n => strcasestr n libMatch | None => false end)
    (seq 0 (length HMAC_LIBS)).
Definition doReloadLibrary (libMatch : string) (s : hmac_st) (w : W) : bool * (hmac_st * W) :=
  if bool_decide (libMatch = ""%string) then (false, (s, w))
  else
    match lib_matches libMatch with
    | [found] =>
        match hmacLib s with
        | None =>
            let '(r, (s, w)) := tryLib found s w in
            if r then (true, (s, w)) else (false, (doLibNull s, w))
        | Some _ => (bool_decide (useLib s = Some found), (s, w))
        end
    | _ => (false, (s, w))
    end.
Definition hmac_selectLib := doReloadLibrary.

(** The loop of [doLoadLibrary], from an index; the result is [true] on failure. *)
Fixpoint try_all (n i : nat) (s : hmac_st) (w : W) : bool * (hmac_st * W) :=
  match n with
  | O => (true, (doLibNull s, w))
  | S n =>
      let '(r, (s, w)) := tryLib i s w in
      if r then (false, (s, w)) else try_all n (S i) s w
  end.
Definition doLoadLibrary (s : hmac_st) (w : W) : bool * (hmac_st * W) :=
  match hmacLib s with
  | Some _ => (false, (s, w))
  | None => try_all (length HMAC_LIBS) 0 s w
  end.
Definition hmac_loadLibrary (s : hmac_st) (w : W) : option string * (hmac_st * W) :=
  let '(r, (s, w)) := doLoadLibrary s w in
  (if r then None else i ← useLib s; HMAC_LIBS !! i, (s, w)).
Definition hmac_isLibShared : bool := true.
Definition hmac_count (s : hmac_st) : Z := hmacCount s.

(** [freeLib], also at the exit of the program; [None] is a call through a null pointer. *)
Definition freeLib (s : hmac_st) (w : W) : option (hmac_st * W) :=
  if (hmacCount s =? 0) && bool_decide (is_Some (hmacLib s)) then
    lib ← ptpm_hmac_p s;
    Some (doLibNull s, doLibRm s (dl_unload lib w))
  else Some (s, w).
Definition hmac_freeLib := freeLib.

(** [HMAC_Key::~HMAC_Key]. *)
Definition HMAC_Key_destroy (s : hmac_st) : hmac_st := set_count (hmacCount s - 1) s.

(** ** The allocation of a key, and its steps *)

(** [ptpm_hmac_p->m_alloc_key()]. *)
Definition alloc_key (s : hmac_st) (w : W) : option (option nat * W) :=
  lib ← ptpm_hmac_p s;
  let (r, w) := dl_alloc lib w in Some (if r then Some lib else None, w).
(** What follows, for a key of the library [lib]. *)
Definition count_key (s : hmac_st) : hmac_st := set_count (hmacCount s + 1) s.
Definition init_key (lib : nat) (type : Z) (key : list byte) (s : hmac_st) (w : W) : bool * (hmac_st * W) :=
  let (r, w) := dl_init lib type key w in if r then (true, (s, w)) else (false, (HMAC_Key_destroy s, w)).

(** The whole of [hmac_allocHMAC]: the library of the key. *)
Definition hmac_allocHMAC_lib (type : Z) (key : list byte) (s : hmac_st) (w : W)
    : option (option nat * (hmac_st * W)) :=
  let '(failed, (s, w)) := doLoadLibrary s w in
  if (failed : bool) then Some (None, (s, w))
  else
    '(k, w) ← alloc_key s w;
    match k with
    | None => Some (None, (s, w))
    | Some lib =>
        let '(r, (s, w)) := init_key lib type key (count_key s) w in
        Some (if (r : bool) then Some lib else None, (s, w))
    end.

(** A thread of a program: between two calls, inside [hmac_allocHMAC], or with a key. *)
Inductive thread :=
| T_idle
| T_loaded (type : Z) (key : list byte)
| T_allocated (lib : nat) (type : Z) (key : list byte)
| T_counted (lib : nat) (type : Z) (key : list byte)
| T_key (lib : nat).
(** The state of a program; [None] is a fault: the use of a null pointer, or of the code of a
    library that is not loaded. *)
Record hmac_prog := mk_hprog { hp_st : hmac_st; hp_w : W; hp_threads : list thread }.
Definition set_thread (i : nat) (t : thread) (s : hmac_st) (w : W) (p : hmac_prog) : hmac_prog :=
  mk_hprog s w (<[i := t]> (hp_threads p)).
Definition loaded (lib : nat) (p : hmac_prog) : bool := bool_decide (hmacLib (hp_st p) = Some lib).

(** What a thread does next: [A_alloc] starts the allocation of a key, [A_next] is its next
    step, or a computation with the key; [A_delete] deletes the key; [A_free] is [hmac_freeLib],
    [A_select] is [hmac_selectLib]. *)
Inductive action :=
| A_alloc (type : Z) (key : list byte)
| A_next
| A_delete
| A_free
| A_select (libMatch : string).
Definition act (i : nat) (a : action) (p : hmac_prog) : option hmac_prog :=
  t ← hp_threads p !! i;
  let s := hp_st p in
  let w := hp_w p in
  match t, a with
  | T_idle, A_alloc type key =>
      let '(failed, (s, w)) := doLoadLibrary s w in
      Some (set_thread i (if (failed : bool) then T_idle else T_loaded type key) s w p)
  | T_loaded type key, A_next =>
      '(k, w) ← alloc_key s w;
      Some (set_thread i (match k with Some lib => T_allocated lib type key | None => T_idle end) s w p)
  | T_allocated lib type key, A_next => Some (set_thread i (T_counted lib type key) (count_key s) w p)
  | T_counted lib type key, A_next =>
      if loaded lib p then
        let '(r, (s, w)) := init_key lib type key s w in
        Some (set_thread i (if (r : bool) then T_key lib else T_idle) s w p)
      else None
  | T_key lib, A_next => if loaded lib p then Some p else None
  | T_key lib, A_delete => if loaded lib p then Some (set_thread i T_idle (HMAC_Key_destroy s) w p) else None
  | T_idle, A_free => '(s, w) ← hmac_freeLib s w; Some (mk_hprog s w (hp_threads p))
  | T_idle, A_select libMatch =>
      let '(_, (s, w)) := hmac_selectLib libMatch s w in Some (mk_hprog s w (hp_threads p))
  | _, _ => Some p
  end.
End Loader.
Arguments hmac_prog : clear implicits.

(** * Theorems on the loader of the authentication libraries

    One library at most is open, and it is the one that the static variables name; a
    key keeps its library; which interleavings of threads are safe. *)

(** The handles that are open.  A close that succeeds is documented for an open handle. *)
Class DlView (W : Type) := { dl_opened : W -> gset nat }.
Class DlLaws (W : Type) `{DlOs W} `{DlView W} : Prop := {
  law_open name w : match dl_open name w with
                    | (Some h, w') => (h ∉ dl_opened w) /\ dl_opened w' = {[h]} ∪ dl_opened w
                    | (None, w') => dl_opened w' = dl_opened w
                    end;
  law_close h w : h ∈ dl_opened w -> fst (dl_close h w) = true /\ dl_opened (snd (dl_close h w)) = (dl_opened w ∖ {[h]});
  law_alloc h w : dl_opened (snd (dl_alloc h w)) = dl_opened w;
  law_init h type key w : dl_opened (snd (dl_init h type key w)) = dl_opened w;
  law_unload h w : dl_opened (dl_unload h w) = dl_opened w
}.

(** A call that changes nothing. *)
Ltac same := repeat (split; [done|]); try done; try (split; [done|by left]); auto.

Section Facts.
Context {W : Type} `{DlLaws W} (HMAC_LIBS : list string).

(** ** The static variables *)

Lemma opened_closed (h : nat) (X : gset nat) : h ∉ X -> ({[h]} ∪ X) ∖ {[h]} = X.
Proof.
  intros N. apply set_eq. intros x. rewrite elem_of_difference, elem_of_union, elem_of_singleton.
  split; [by intros [[?|?] ?]|]. intros I. split; [by right|]. by intros ->.
Qed.
Lemma opened_in (h : nat) (X : gset nat) : h ∈ ({[h]} ∪ X : gset nat).
Proof. apply elem_of_union_l, elem_of_singleton_2. done. Qed.


(** All the pointers are set, to one open library of the list, or none is. *)
Definition hmac_own (others : gset nat) (s : hmac_st) (w : W) : Prop :=
  match hmacLib s with
  | Some h =>
      ptpm_hmac_p s = Some h /\ (exists i, useLib s = Some i /\ is_Some (HMAC_LIBS !! i)) /\
      (h ∉ others) /\ dl_opened w = {[h]} ∪ others
  | None => ptpm_hmac_p s = None /\ useLib s = None /\ dl_opened w = others
  end.

(** What a failed attempt leaves: nothing open of its own. *)
Lemma tryLib_ok others i s w : dl_opened w = others ->
  exists s' w', tryLib HMAC_LIBS i s w = (true, (s', w')) /\ hmac_own others s' w' /\ hmacCount s' = hmacCount s /\
      useLib s' = Some i \/
    tryLib HMAC_LIBS i s w = (false, (s', w')) /\ dl_opened w' = others /\ hmacCount s' = hmacCount s.
Proof.
  intros O. unfold tryLib. destruct (HMAC_LIBS !! i) as [name|] eqn:N; [|by exists s, w; right].
  pose proof (law_open name w) as L. destruct (dl_open name w) as [[h|] w1]; [|eexists _, _; right; by rewrite L].
  destruct L as [F E]. destruct (dl_fetch h w1).
  - eexists _, _. left. split; [done|]. split; [|done]. cbn. split; [done|]. split; [exists i; by rewrite N|].
    rewrite O in F, E. done.
  - eexists _, _. right. split; [done|]. split; [|done]. unfold doLibRm. cbn.
    destruct (law_close h w1) as [_ C]; [rewrite E; apply opened_in|]. rewrite C, E, opened_closed by done. done.
Qed.
Lemma try_all_ok others n i s w : dl_opened w = others ->
  exists r s' w', try_all HMAC_LIBS n i s w = (r, (s', w')) /\ hmac_own others s' w' /\ hmacCount s' = hmacCount s /\
    (r = negb (bool_decide (is_Some (hmacLib s')))).
Proof.
  revert i s w. induction n as [|n IH]; intros i s w O; cbn -[tryLib]; [by exists true, (doLibNull s), w|].
  destruct (tryLib_ok others i s w O) as (s' & w' & [(E & Ow & C & U)|(E & Ow & C)]); rewrite E.
  - exists false, s', w'. split; [done|]. split; [done|]. split; [done|]. unfold hmac_own in Ow.
    destruct (hmacLib s'); [done|]. destruct Ow as (_ & Ow & _). congruence.
  - destruct (IH (S i) s' w' Ow) as (r & s2 & w2 & E2 & Ow2 & C2 & R). exists r, s2, w2.
    split; [done|]. split; [done|]. split; [congruence|done].
Qed.
Lemma doLoadLibrary_ok others s w : hmac_own others s w ->
  exists r s' w', doLoadLibrary HMAC_LIBS s w = (r, (s', w')) /\ hmac_own others s' w' /\ hmacCount s' = hmacCount s /\
    r = negb (bool_decide (is_Some (hmacLib s'))) /\ (is_Some (hmacLib s) -> s' = s /\ w' = w).
Proof.
  intros O. unfold doLoadLibrary. destruct (hmacLib s) as [h|] eqn:E.
  - exists false, s, w. rewrite E. done.
  - unfold hmac_own in O. rewrite E in O. destruct O as (_ & _ & O).
    destruct (try_all_ok others (length HMAC_LIBS) 0 s w O) as (r & s' & w' & E' & O' & C & R).
    exists r, s', w'. do 4 (split; [done|]). by intros [? ?].
Qed.
Lemma selectLib_ok others m s w : hmac_own others s w ->
  exists r s' w', hmac_selectLib HMAC_LIBS m s w = (r, (s', w')) /\ hmac_own others s' w' /\ hmacCount s' = hmacCount s /\
    (is_Some (hmacLib s) -> s' = s /\ w' = w) /\
    (r = true -> exists i, lib_matches HMAC_LIBS m = [i] /\ useLib s' = Some i) /\
    (r = false -> s' = s \/ hmacLib s' = None).
Proof.
  intros O. unfold hmac_selectLib, doReloadLibrary.
  case_bool_decide; [exists false, s, w; by same|].
  destruct (lib_matches HMAC_LIBS m) as [|i [|]]; [exists false, s, w; by same| |exists false, s, w; by same].
  destruct (hmacLib s) as [h|] eqn:E.
  - eexists _, s, w. split; [done|]. do 3 (split; [done|]). split; [|by left].
    intros B. apply bool_decide_eq_true in B. by exists i.
  - unfold hmac_own in O. rewrite E in O. destruct O as (O1 & O2 & O).
    destruct (tryLib_ok others i s w O) as (s' & w' & [(E' & Ow & C & U)|(E' & Ow & C)]); rewrite E'.
    + exists true, s', w'. do 3 (split; [done|]). split; [by intros [? ?]|]. split; [by exists i|done].
    + exists false, (doLibNull s'), w'. do 3 (split; [done|]). split; [by intros [? ?]|]. split; [done|by right].
Qed.
Lemma freeLib_ok others s w : hmac_own others s w ->
  exists s' w', freeLib s w = Some (s', w') /\ hmac_own others s' w' /\ hmacCount s' = hmacCount s /\
    (hmacCount s <> 0 -> s' = s /\ w' = w) /\ (hmacCount s = 0 -> hmacLib s' = None).
Proof.
  intros O. unfold freeLib. destruct (Z.eqb_spec (hmacCount s) 0) as [C|C]; [|exists s, w; by same].
  case_bool_decide as B; cbn.
  - destruct B as [h E]. pose proof O as O'. unfold hmac_own in O. rewrite E in O.
    destruct O as (P & _ & N & O). rewrite P. cbn. eexists _, _. split; [done|]. split; [|done].
    unfold hmac_own. cbn. do 2 (split; [done|]). unfold doLibRm. rewrite E.
    destruct (law_close h (dl_unload h w)) as [_ L]; [rewrite law_unload, O; apply opened_in|].
    rewrite L, law_unload, O. by apply opened_closed.
  - exists s, w. do 4 (split; [done|]). intros _. destruct (hmacLib s); [|done]. by destruct B.
Qed.

(** The result of [hmac_selectLib]: the only name of the list that the pattern matches; a
    library that is loaded is never replaced; when it fails nothing new is open. *)
Theorem selectLib_correct others m s w : hmac_own others s w ->
  exists r s' w', hmac_selectLib HMAC_LIBS m s w = (r, (s', w')) /\ hmac_own others s' w' /\
    (is_Some (hmacLib s) -> s' = s /\ w' = w) /\
    (r = true -> exists i, lib_matches HMAC_LIBS m = [i] /\ useLib s' = Some i).
Proof.
  intros O. destruct (selectLib_ok others m s w O) as (r & s' & w' & E & O' & _ & K & T & _).
  by exists r, s', w'.
Qed.

(** ** Threads *)

(** The keys that are counted, and the libraries that threads use. *)
Definition counted (t : thread) : bool := match t with T_counted _ _ _ | T_key _ => true | _ => false end.
Definition uses (t : thread) : option nat :=
  match t with T_allocated lib _ _ | T_counted lib _ _ | T_key lib => Some lib | _ => None end.
Definition busy (t : thread) : bool := match t with T_loaded _ _ | T_allocated _ _ _ => true | _ => false end.
Definition counts (ts : list thread) : Z := Z.of_nat (length (List.filter counted ts)).

Record prog_inv (others : gset nat) (p : hmac_prog W) : Prop := {
  pi_own : hmac_own others (hp_st p) (hp_w p);
  pi_count : hmacCount (hp_st p) = counts (hp_threads p);
  pi_small : Z.of_nat (length (hp_threads p)) < 2 ^ 64;
  pi_uses t lib : t ∈ hp_threads p -> uses t = Some lib -> hmacLib (hp_st p) = Some lib;
  pi_loaded t type key : t ∈ hp_threads p -> t = T_loaded type key -> is_Some (hmacLib (hp_st p))
}.

Definition one (t : thread) : Z := if counted t then 1 else 0.
Lemma counts_insert ts i t t' : ts !! i = Some t -> counts (<[i := t']> ts) = counts ts - one t + one t'.
Proof.
  revert i. induction ts as [|x ts IH]; intros [|i] E; [done..| |].
  - injection E as ->. change (<[0%nat := t']> (t :: ts)) with (t' :: ts). unfold counts, one. cbn [List.filter].
    destruct (counted t), (counted t'); cbn [length]; lia.
  - specialize (IH i E). change (<[S i := t']> (x :: ts)) with (x :: <[i := t']> ts). unfold counts in *.
    cbn [List.filter]. destruct (counted x); cbn [length]; lia.
Qed.
Lemma counts_range ts : 0 <= counts ts <= Z.of_nat (length ts).
Proof.
  unfold counts. split; [lia|]. apply inj_le. induction ts as [|t ts IH]; cbn; [lia|].
  destruct (counted t); cbn; lia.
Qed.
Lemma counts_pos ts t : t ∈ ts -> counted t = true -> counts ts <> 0.
Proof.
  intros I C. unfold counts. apply list_elem_of_In in I.
  assert (In t (List.filter counted ts)) as F by by apply List.filter_In.
  destruct (List.filter counted ts); [done|]. cbn. lia.
Qed.

Lemma elem_of_insert_list {A} (l : list A) i x y : y ∈ <[i := x]> l -> y = x \/ y ∈ l.
Proof.
  rewrite !list_elem_of_lookup. intros [j E]. destruct (decide (i = j)) as [->|].
  - apply list_lookup_insert_Some in E as [(_ & <- & _)|(? & _)]; [by left|done].
  - rewrite list_lookup_insert_ne in E by done. right. by exists j.
Qed.
(** A thread that takes a step with the same library. *)
Lemma inv_set_thread others p i t t' s w : prog_inv others p -> hp_threads p !! i = Some t ->
  hmac_own others s w -> hmacLib s = hmacLib (hp_st p) -> hmacCount s = hmacCount (hp_st p) - one t + one t' ->
  (forall lib, uses t' = Some lib -> hmacLib s = Some lib) ->
  (forall type key, t' = T_loaded type key -> is_Some (hmacLib s)) ->
  prog_inv others (set_thread i t' s w p).
Proof.
  intros [O C S U L] E O' El Ec Hu Hl. split; cbn.
  - done.
  - rewrite (counts_insert _ _ t) by done. lia.
  - by rewrite length_insert.
  - intros x lib Ix Ux. apply elem_of_insert_list in Ix as [->|Ix]; [by apply Hu|]. rewrite El. by eapply U.
  - intros x type key Ix ->. apply elem_of_insert_list in Ix as [<-|Ix]; [by eapply Hl|]. rewrite El. by eapply L.
Qed.

Lemma set_count_small n s : 0 <= n < 2 ^ 64 -> hmacCount (set_count n s) = n.
Proof. intros R. unfold set_count. cbn. by apply uwrap_small. Qed.
(** The counter does not wrap while there are less threads than it can count. *)
Lemma counted_up others p i t : prog_inv others p -> hp_threads p !! i = Some t -> one t = 0 ->
  hmacCount (count_key (hp_st p)) = hmacCount (hp_st p) + 1.
Proof.
  intros I E Z. unfold count_key. apply set_count_small. rewrite (pi_count _ _ I).
  pose proof (counts_range (<[i := T_key 0]> (hp_threads p))) as R.
  rewrite (counts_insert _ _ t) in R by done. rewrite length_insert in R. cbn in R. rewrite Z in R.
  pose proof (counts_range (hp_threads p)). pose proof (pi_small _ _ I). lia.
Qed.
Lemma counted_down others p t : prog_inv others p -> t ∈ hp_threads p -> counted t = true ->
  hmacCount (HMAC_Key_destroy (hp_st p)) = hmacCount (hp_st p) - 1.
Proof.
  intros I E C. unfold HMAC_Key_destroy. apply set_count_small. rewrite (pi_count _ _ I).
  pose proof (counts_pos _ _ E C). pose proof (counts_range (hp_threads p)). pose proof (pi_small _ _ I). lia.
Qed.

(** The library stays, or no thread has it. *)
Lemma inv_same_threads others p s w : prog_inv others p -> hmac_own others s w -> hmacCount s = hmacCount (hp_st p) ->
  (is_Some (hmacLib (hp_st p)) -> hmacLib s = hmacLib (hp_st p)) \/
    (forall t, t ∈ hp_threads p -> uses t = None /\ busy t = false) ->
  prog_inv others (mk_hprog s w (hp_threads p)).
Proof.
  intros [O C S U L] O' Ec K. split; cbn; [done|congruence|done|..].
  - intros t lib I Ut. destruct K as [K|K]; [|by destruct (K t I); congruence].
    pose proof (U t lib I Ut) as E. rewrite K; [done|by eexists].
  - intros t type key I Et. destruct K as [K|K]; [|subst t; by destruct (K _ I)].
    pose proof (L t type key I Et) as E. by rewrite K.
Qed.

(** The library may be released when no thread is between the loading and the counting. *)
Definition act_ok (a : action) (p : hmac_prog W) : Prop := a = A_free -> forall t, t ∈ hp_threads p -> busy t = false.

Lemma act_safe others i a p : prog_inv others p -> is_Some (hp_threads p !! i) -> act_ok a p ->
  exists p', act HMAC_LIBS i a p = Some p' /\ prog_inv others p' /\ length (hp_threads p') = length (hp_threads p).
Proof.
  intros I [t E] Ok. unfold act. rewrite E. cbn [mbind option_bind].
  assert (t ∈ hp_threads p) as It by by eapply list_elem_of_lookup_2.
  assert (forall t' s w, length (hp_threads (set_thread i t' s w p)) = length (hp_threads p)) as Len
    by (intros; apply length_insert).
  destruct t as [|type key|lib type key|lib type key|lib]; destruct a as [ty k| | | |m];
    try (exists p; done).
  - destruct (doLoadLibrary_ok others _ _ (pi_own _ _ I)) as (r & s' & w' & -> & O' & C & R & K).
    eexists. split; [done|]. split; [|done]. destruct (hmacLib (hp_st p)) as [h|] eqn:Eh.
    + destruct K as [-> ->]; [by eexists|]. eapply inv_set_thread; [done|done|done|done| |..].
      * destruct r; cbn; lia.
      * by destruct r.
      * intros ? ? _. by eexists.
    + assert (forall t, t ∈ hp_threads p -> uses t = None /\ busy t = false) as None_.
      { intros t It'. destruct t as [|? ?|l ? ?|l ? ?|l]; cbn; try done;
          try (pose proof (pi_uses _ _ I _ l It' eq_refl); congruence).
        destruct (pi_loaded _ _ I _ _ _ It' eq_refl) as [? ?]. congruence. }
      pose proof (inv_same_threads others p s' w' I O' C (or_intror None_)) as I'.
      change (set_thread i (if r then T_idle else T_loaded ty k) s' w' p)
        with (set_thread i (if r then T_idle else T_loaded ty k) s' w' (mk_hprog s' w' (hp_threads p))).
      eapply inv_set_thread; [done|done|done|done| |..].
      * cbn. destruct r; cbn; lia.
      * by destruct r.
      * intros ? ? Er. destruct r; [done|]. destruct (hmacLib s'); [by eexists|done].
  - destruct (freeLib_ok others _ _ (pi_own _ _ I)) as (s' & w' & E' & O' & C & K1 & K2). unfold hmac_freeLib.
    rewrite E'. cbn. eexists. split; [done|]. split; [|done]. apply inv_same_threads; [done|done|done|].
    destruct (decide (hmacCount (hp_st p) = 0)) as [Z|Z]; [|left; by destruct (K1 Z) as [-> _]].
    right. intros t It'. split; [|by apply (Ok eq_refl)]. pose proof (Ok eq_refl t It') as B.
    destruct t as [|? ?|l ? ?|l ? ?|l]; try done; exfalso; rewrite (pi_count _ _ I) in Z;
      by eapply counts_pos; [exact It'| |exact Z].
  - destruct (selectLib_ok others m _ _ (pi_own _ _ I)) as (r & s' & w' & -> & O' & C & K & _).
    eexists. split; [done|]. split; [|done]. apply inv_same_threads; [done|done|done|].
    left. intros S. by destruct (K S) as [-> _].
  - destruct (pi_loaded _ _ I _ _ _ It eq_refl) as [h Eh]. pose proof (pi_own _ _ I) as O. unfold hmac_own in O.
    rewrite Eh in O. destruct O as (P & Us & N & Op). unfold alloc_key. rewrite P. cbn.
    pose proof (law_alloc h (hp_w p)) as La. destruct (dl_alloc h (hp_w p)) as [r w']. cbn in La |- *.
    eexists. split; [done|]. split; [|done]. eapply inv_set_thread; [done|done| |done| |..].
    + unfold hmac_own. rewrite Eh. by rewrite La.
    + destruct r; cbn; lia.
    + intros l. destruct r; [|done]. cbn. by intros [= <-].
    + by destruct r.
  - eexists. split; [done|]. split; [|done].
    pose proof (pi_own _ _ I) as O. eapply inv_set_thread; [done|done|exact O|done| |..].
    + rewrite (counted_up others p i (T_allocated lib type key)) by done. cbn. lia.
    + intros l [= <-]. by apply (pi_uses _ _ I _ lib It eq_refl).
    + done.
  - pose proof (pi_uses _ _ I _ lib It eq_refl) as El. unfold loaded. rewrite El, bool_decide_eq_true_2 by done.
    unfold init_key. pose proof (law_init lib type key (hp_w p)) as Li.
    destruct (dl_init lib type key (hp_w p)) as [r w']. cbn in Li.
    pose proof (pi_own _ _ I) as O. unfold hmac_own in O. rewrite El in O.
    destruct r; (eexists; split; [done|]; split; [|done]); (eapply inv_set_thread; [done|done| |done| |..]);
      try (unfold hmac_own; cbn; rewrite El; by rewrite Li); try done.
    + cbn. lia.
    + by intros l [= <-].
    + rewrite (counted_down others p (T_counted lib type key)) by done. cbn. lia.
  - pose proof (pi_uses _ _ I _ lib It eq_refl) as El. unfold loaded. rewrite El, bool_decide_eq_true_2 by done.
    by exists p.
  - pose proof (pi_uses _ _ I _ lib It eq_refl) as El. unfold loaded. rewrite El, bool_decide_eq_true_2 by done.
    eexists. split; [done|]. split; [|done]. pose proof (pi_own _ _ I) as O.
    eapply inv_set_thread; [done|done|exact O|done| |..]; try done.
    rewrite (counted_down others p (T_key lib)) by done. cbn. lia.
Qed.

(** ** Programs *)

(** The states of [n] threads that start with no library loaded. *)
Inductive hmac_reach (n : nat) (w0 : W) : hmac_prog W -> Prop :=
| HR_start : hmac_reach n w0 (mk_hprog hmac_init w0 (replicate n T_idle))
| HR_act i a p p' : hmac_reach n w0 p -> act_ok a p -> act HMAC_LIBS i a p = Some p' -> hmac_reach n w0 p'.

Lemma hmac_reach_inv n w0 p : Z.of_nat n < 2 ^ 64 -> hmac_reach n w0 p ->
  prog_inv (dl_opened w0) p /\ length (hp_threads p) = n.
Proof.
  intros N. induction 1 as [|i a p p' _ [I L] Ok E].
  - split; [|apply length_replicate]. split; cbn.
    + done.
    + clear. induction n as [|n IH]; [done|]. by rewrite IH.
    + by rewrite length_replicate.
    + intros t lib It Ut. apply elem_of_replicate in It as [-> _]. done.
    + intros t type key It ->. by apply elem_of_replicate in It as [? _].
  - assert (is_Some (hp_threads p !! i)) as S.
    { unfold act in E. destruct (hp_threads p !! i); [by eexists|done]. }
    destruct (act_safe _ i a p I S Ok) as (p2 & E2 & I2 & L2). rewrite E in E2. simplify_eq.
    split; [done|congruence].
Qed.


(** The condition on the release is needed: [hmac_allocHMAC] does not keep the lock, so a
    release by another thread, before the first key is counted, leaves it a null pointer. *)
Theorem hmac_release_race p type key s1 w1 : hp_threads p = [T_idle; T_idle] ->
  hmac_own (dl_opened (hp_w p)) (hp_st p) (hp_w p) -> hmacCount (hp_st p) = 0 ->
  doLoadLibrary HMAC_LIBS (hp_st p) (hp_w p) = (false, (s1, w1)) ->
  exists p1 p2, act HMAC_LIBS 0 (A_alloc type key) p = Some p1 /\ act HMAC_LIBS 1 A_free p1 = Some p2 /\
    act HMAC_LIBS 0 A_next p2 = None.
Proof.
  intros T O C E. destruct (doLoadLibrary_ok _ _ _ O) as (r & s' & w' & E' & O' & C' & _). rewrite E in E'. simplify_eq.
  destruct (freeLib_ok _ _ _ O') as (s2 & w2 & E2 & O2 & _ & _ & K). rewrite C' in K. specialize (K C).
  assert (act HMAC_LIBS 0 (A_alloc type key) p = Some (mk_hprog s' w' [T_loaded type key; T_idle])) as A1.
  { unfold act. rewrite T. cbn [lookup list_lookup mbind option_bind]. rewrite E. unfold set_thread. by rewrite T. }
  assert (act HMAC_LIBS 1 A_free (mk_hprog s' w' [T_loaded type key; T_idle]) =
    Some (mk_hprog s2 w2 [T_loaded type key; T_idle])) as A2.
  { unfold act. cbn -[freeLib]. unfold hmac_freeLib. by rewrite E2. }
  eexists _, _. split; [exact A1|]. split; [exact A2|]. unfold act. cbn. unfold alloc_key.
  unfold hmac_own in O2. rewrite K in O2. by destruct O2 as [-> _].
Qed.
End Facts.

(** ** A loader *)

(** The handles that are open; the names that exist. *)
Record demo_dl := mk_demo_dl { dd_open : gset nat; dd_names : list string }.
#[local] Instance demo_dl_os : DlOs demo_dl := {|
  dl_open name d :=
    if bool_decide (name ∈ dd_names d)
    then (Some (fresh (dd_open d)), mk_demo_dl ({[fresh (dd_open d)]} ∪ dd_open d) (dd_names d)) else (None, d);
  dl_close h d := (true, mk_demo_dl (dd_open d ∖ {[h]}) (dd_names d));
  dl_fetch _ _ := true;
  dl_alloc _ d := (true, d);
  dl_init _ _ key d := (negb (bool_decide (key = [])), d);
  dl_unload _ d := d
|}.
#[local] Instance demo_dl_view : DlView demo_dl := {| dl_opened := dd_open |}.
#[local] Instance demo_dl_laws : DlLaws demo_dl.
Proof.
  split; try done.
  intros name w. cbn. case_bool_decide; [|done]. split; [apply is_fresh|done].
Qed.
Definition demo_libs : list string := ["libptpmgmt_ssl.so"; "libptpmgmt_gnutls.so"]%string.
Definition demo_dl0 : demo_dl := mk_demo_dl ∅ demo_libs.

Lemma selectLib_correct_witness :
  exists r s' w', hmac_selectLib demo_libs "SSL"%string hmac_init demo_dl0 = (r, (s', w')) /\ hmac_own demo_libs ∅ s' w' /\
    (is_Some (hmacLib hmac_init) -> s' = hmac_init /\ w' = demo_dl0) /\
    (r = true -> exists i, lib_matches demo_libs "SSL"%string = [i] /\ useLib s' = Some i).
Proof. apply (selectLib_correct demo_libs ∅ "SSL"%string hmac_init demo_dl0). repeat split. Defined.
Lemma hmac_release_race_witness : exists p1 p2,
  act demo_libs 0 (A_alloc 0 [x01]) (mk_hprog hmac_init demo_dl0 [T_idle; T_idle]) = Some p1 /\
  act demo_libs 1 A_free p1 = Some p2 /\ act demo_libs 0 A_next p2 = None.
Proof.
  destruct (doLoadLibrary demo_libs hmac_init demo_dl0) as [r [s1 w1]] eqn:E.
  apply (hmac_release_race demo_libs (mk_hprog hmac_init demo_dl0 [T_idle; T_idle]) 0 [x01] s1 w1).
  - reflexivity.
  - repeat split.
  - reflexivity.
  - vm_compute in E. injection E as <- <- <-. vm_compute. reflexivity.
Defined.
