(* ===== verification/JsonC.v ===== *)
(** * JsonC.v: JSON of messages in the C interface

    [ptpmgmt_json_t] of [src/pub/c/json.h] and its functions in
    [src/src/jsonDef.cpp]: a [Json2msg] with the C structures that it gives, which are
    blocks of the heap of MsgC.v owned by four pointers. *)

From S2P Require Import Prelude Types Ids Names MsgProc Codec Structs MngTlvs MngTlvsSpec Dispatch Auth Message.
From S2P Require Import SigTlvs CTlvs CTlvsFacts SigC CfgC MsgC MsgCFacts Json JsonSafe JsonVal JsonProc JsonFrom.

#[local] Open Scope list_scope.
#[local] Arguments c_malloc : simpl never.

Record ptpmgmt_json_t := mk_json_t {
  jt_this : Json2msg;
  jt_srcPort : option c_addr;
  jt_dstPort : option c_addr;
  jt_data : option c_addr;
  jt_dataTbl : option c_addr;
  jt_heap : c_heap
}.
Definition ptpmgmt_json_alloc : ptpmgmt_json_t := mk_json_t Json2msg_new None None None None ∅.

(** Functions that call a method: the default without an object. *)
Definition json_ret {A} (func : Json2msg -> A) (def : A) (j : option ptpmgmt_json_t) : A :=
  match j with Some j => func (jt_this j) | None => def end.
Definition ptpmgmt_json_managementId := json_ret m_managementId NULL_PTP_MANAGEMENT.
Definition ptpmgmt_json_actionField := json_ret m_action GET.
Definition ptpmgmt_json_isUnicast := json_ret JsonFrom.m_isUnicast false.
Definition ptpmgmt_json_have (k : have_e) := json_ret (fun j => m_have j k) false.
Definition ptpmgmt_json_number (k : have_e) := json_ret (fun j => m_number j k) 0.
Definition ptpmgmt_json_setAction (j : option ptpmgmt_json_t) (m : Message) : bool * Message :=
  match j with Some j => json_setAction (jt_this j) m | None => (false, m) end.

Section FloatStamp.
Context (fs : json -> option Timestamp_t).

(** Without a text nothing is read; [None] is a fault of the parser. *)
Definition ptpmgmt_json_fromJson (arg : option (list byte)) (j : ptpmgmt_json_t) : option (bool * ptpmgmt_json_t) :=
  match arg with
  | None => Some (false, j)
  | Some text =>
      '(r, o) ← fromJson fs text (jt_this j);
      Some (r, mk_json_t o (jt_srcPort j) (jt_dstPort j) (jt_data j) (jt_dataTbl j) (jt_heap j))
  end.
End FloatStamp.

(** [C2CPP_port]: the block is allocated once, and takes the identity at each call. *)
Definition port_block (p : option c_addr) (v : PortIdentity_t) (h : c_heap) : option (c_addr * c_heap) :=
  match p with
  | None => Some (c_malloc (CB_port (c1_st_PortIdentity v)) h)
  | Some a => match h !! a with Some _ => Some (a, <[a := CB_port (c1_st_PortIdentity v)]> h) | None => None end
  end.
Definition ptpmgmt_json_srcPort (j : ptpmgmt_json_t) : option (c_addr * ptpmgmt_json_t) :=
  '(a, h) ← port_block (jt_srcPort j) (JsonFrom.m_srcPort (jt_this j)) (jt_heap j);
  Some (a, mk_json_t (jt_this j) (Some a) (jt_dstPort j) (jt_data j) (jt_dataTbl j) h).
Definition ptpmgmt_json_dstPort (j : ptpmgmt_json_t) : option (c_addr * ptpmgmt_json_t) :=
  '(a, h) ← port_block (jt_dstPort j) (JsonFrom.m_dstPort (jt_this j)) (jt_heap j);
  Some (a, mk_json_t (jt_this j) (jt_srcPort j) (Some a) (jt_data j) (jt_dataTbl j) h).

(** [ptpmgmt_json_dataField], with [C_SWP] of the two pointers. *)
Definition ptpmgmt_json_dataField (j : ptpmgmt_json_t) : option (option c_addr * ptpmgmt_json_t) :=
  tlv ← cpp2cMngTlv_ptr (m_managementId (jt_this j)) (dataField (jt_this j));
  match tlv with
  | None => Some (None, j)
  | Some t =>
      let (a, h) := c_malloc (CB_mng t) (jt_heap j) in
      let (x, h) := c_malloc_if (mng_table t) CB_table h in
      h ← c_mfree (jt_data j) h;
      h ← c_mfree (jt_dataTbl j) h;
      Some (Some a, mk_json_t (jt_this j) (jt_srcPort j) (jt_dstPort j) (Some a) x h)
  end.
Definition ptpmgmt_json_free (j : ptpmgmt_json_t) : option c_heap :=
  h ← c_mfree (jt_srcPort j) (jt_heap j);
  h ← c_mfree (jt_dstPort j) h;
  h ← c_mfree (jt_data j) h;
  c_mfree (jt_dataTbl j) h.

(** ** The blocks of a program *)

Definition json_slots (j : ptpmgmt_json_t) : list (option c_addr) :=
  [jt_srcPort j; jt_dstPort j; jt_data j; jt_dataTbl j].
Definition json_own (j : ptpmgmt_json_t) : Prop := owned (json_slots j) (jt_heap j).

(** A block of an identity in a slot: a new one, or a new value. *)
Lemma port_block_ok l p v h : owned (p :: l) h ->
  exists a h', port_block p v h = Some (a, h') /\ owned (Some a :: l) h' /\
    h' !! a = Some (CB_port (c1_st_PortIdentity v)).
Proof.
  intros O. destruct p as [a|]; cbn.
  - assert (is_Some (h !! a)) as [b Eb] by (apply (owned_live _ _ O); by left). rewrite Eb.
    eexists _, _. split; [done|]. split; [|apply lookup_insert_eq]. destruct O as [N L]. split; [done|].
    intros x. rewrite <- L, lookup_insert_is_Some. split.
    + intros [<-|[_ ?]]; [by eexists|done].
    + intros I. destruct (decide (a = x)); [by left|by right].
  - assert (owned l h) as O'.
    { destruct O as [N L]. split; [done|]. intros x. rewrite L, elem_of_cons. split; [by intros [?|?]|by right]. }
    destruct (owned_malloc (CB_port (c1_st_PortIdentity v)) l h O') as (a & -> & O2 & _).
    eexists _, _. split; [done|]. split; [done|]. apply lookup_insert_eq.
Qed.

Inductive json_call :=
| J_fromJson (arg : option (list byte))
| J_srcPort
| J_dstPort
| J_dataField.
Definition run_json fs (c : json_call) (j : ptpmgmt_json_t) : option ptpmgmt_json_t :=
  match c with
  | J_fromJson arg => snd <$> ptpmgmt_json_fromJson fs arg j
  | J_srcPort => snd <$> ptpmgmt_json_srcPort j
  | J_dstPort => snd <$> ptpmgmt_json_dstPort j
  | J_dataField => snd <$> ptpmgmt_json_dataField j
  end.

Lemma dataField_set j : dataField j <> Unset.
Proof. unfold dataField. by destruct (m_tlvData j). Qed.
Lemma json_dataField_ok j : json_own j ->
  exists p j', ptpmgmt_json_dataField j = Some (p, j') /\ json_own j' /\ jt_this j' = jt_this j /\
    forall t, cpp2cMngTlv_ptr (m_managementId (jt_this j)) (dataField (jt_this j)) = Some (Some t) ->
      exists a, p = Some a /\ jt_heap j' !! a = Some (CB_mng t).
Proof.
  intros O. unfold ptpmgmt_json_dataField.
  destruct (cpp2cMngTlv_ptr_set (m_managementId (jt_this j)) _ (dataField_set (jt_this j))) as [[t|] E]; rewrite E;
    cbn -[c_malloc_if]; [|by exists None, j].
  destruct (owned_malloc (CB_mng t) _ _ O) as (a & -> & O1 & Fr).
  destruct (owned_malloc_if (mng_table t) CB_table _ _ O1) as (x & h2 & -> & O2 & K).
  destruct (owned_free 4 _ (jt_data j) h2 O2 eq_refl) as (h3 & -> & O3 & K3). cbn in O3 |- *.
  destruct (owned_free 4 _ (jt_dataTbl j) h3 O3 eq_refl) as (h4 & -> & O4 & K4). cbn in O4 |- *.
  eexists _, _. split; [done|]. split; [|split; [done|]].
  - unfold json_own, json_slots. cbn. eapply owned_perm; [|exact O4].
    rewrite (Permutation_app_comm [x; Some a] [jt_srcPort j; jt_dstPort j]). cbn. do 2 apply perm_skip. apply perm_swap.
  - intros t' [= <-]. exists a. split; [done|]. cbn.
    assert (Some a ∉ json_slots j) as N.
    { intros I. apply (owned_live _ _ O) in I. rewrite Fr in I. by destruct I. }
    unfold json_slots in N. rewrite !not_elem_of_cons in N. destruct_and!.
    rewrite K4, K3 by congruence. apply K. apply lookup_insert_eq.
Qed.

Lemma run_json_ok fs c j : json_own j -> exists j', run_json fs c j = Some j' /\ json_own j'.
Proof.
  intros O. destruct c as [arg| | |]; cbn -[ptpmgmt_json_dataField ptpmgmt_json_fromJson].
  - destruct arg as [text|]; cbn -[fromJson]; [|by exists j].
    assert (exists r, fromJson fs text (jt_this j) = Some r) as [[r o] ->]; [|by cbn; eexists].
    unfold fromJson. destruct (parseBuffer_returns None text false) as [[[] [[| | | | |]|]] ->]; by eexists.
  - unfold ptpmgmt_json_srcPort.
    destruct (port_block_ok [jt_dstPort j; jt_data j; jt_dataTbl j] (jt_srcPort j) (JsonFrom.m_srcPort (jt_this j)) (jt_heap j) O)
      as (a & h' & -> & O' & _). cbn. by eexists.
  - unfold ptpmgmt_json_dstPort.
    destruct (port_block_ok [jt_srcPort j; jt_data j; jt_dataTbl j] (jt_dstPort j) (JsonFrom.m_dstPort (jt_this j)) (jt_heap j))
      as (a & h' & -> & O' & _); [eapply owned_perm; [apply perm_swap|exact O]|]. cbn. eexists. split; [done|].
    unfold json_own, json_slots. cbn. eapply owned_perm; [apply perm_swap|exact O'].
  - destruct (json_dataField_ok j O) as (p & j' & -> & O' & _). cbn. by eexists.
Qed.
Fixpoint run_jsons fs (cs : list json_call) (j : ptpmgmt_json_t) : option ptpmgmt_json_t :=
  match cs with [] => Some j | c :: cs => j ← run_json fs c j; run_jsons fs cs j end.

(** A C program that reads any texts into an object, and asks for its structures in any
    order: no call touches a released block, [free] releases each once, and none is left. *)
Theorem c_json_safe fs cs : exists j, run_jsons fs cs ptpmgmt_json_alloc = Some j /\ ptpmgmt_json_free j = Some ∅.
Proof.
  assert (json_own ptpmgmt_json_alloc) as O.
  { split; cbn; [constructor|]. intros a. rewrite lookup_empty. split; [by intros []|]. unfold json_slots. cbn.
    rewrite !elem_of_cons. intros [?|[?|[?|[?|I]]]]; try done. by apply elem_of_nil in I. }
  revert O. generalize ptpmgmt_json_alloc as j. induction cs as [|c cs IH]; intros j O; cbn -[run_json ptpmgmt_json_free].
  - exists j. split; [done|]. unfold ptpmgmt_json_free, json_own, json_slots in *.
    destruct (owned_free 0 _ _ _ O eq_refl) as (h1 & -> & O1 & _). cbn in O1 |- *.
    destruct (owned_free 0 _ _ _ O1 eq_refl) as (h2 & -> & O2 & _). cbn in O2 |- *.
    destruct (owned_free 0 _ _ _ O2 eq_refl) as (h3 & -> & O3 & _). cbn in O3 |- *.
    destruct (owned_free 0 _ _ _ O3 eq_refl) as (h4 & E4 & O4 & _). cbn in O4, E4 |- *. rewrite E4. f_equal.
    apply map_empty. intros a. destruct (h4 !! a) eqn:Ea; [|done]. exfalso.
    assert (is_Some (h4 !! a)) as I by by eexists. apply (owned_live _ _ O4) in I. by apply elem_of_nil in I.
  - destruct (run_json_ok fs c j O) as (j' & -> & O'). cbn [mbind option_bind]. by apply IH.
Qed.

(** The structure that an object gives for the data of a request builds the octets of the data. *)
Theorem c_json_data j t : json_own j -> m_tlvData (jt_this j) = Some t ->
  verifyTlv (m_managementId (jt_this j)) (Obj t) = true -> wf_tlv t -> c_able t ->
  exists a j' c t', ptpmgmt_json_dataField j = Some (Some a, j') /\ jt_heap j' !! a = Some (CB_mng c) /\
    c2cppMngTlv (m_managementId (jt_this j)) (Some c) = Some (Some t') /\ norm_tlv t' = norm_tlv t.
Proof.
  intros O E V Wf A. destruct (c_tlv_back _ t V Wf A) as (c & t' & E1 & E2 & _ & N & _).
  destruct (json_dataField_ok j O) as (p & j' & E3 & _ & _ & G). destruct (G c) as (a & -> & H).
  { unfold dataField. rewrite E. cbn. by rewrite E1. }
  by exists a, j', c, t'.
Qed.
Lemma c_json_data_witness :
  let j := mk_json_t (set_m_managementId PRIORITY1 (set_m_tlvData (Some (T_PRIORITY1 (mk_PRIORITY1 7))) Json2msg_new))
             None None None None ∅ in
  exists a j' c t', ptpmgmt_json_dataField j = Some (Some a, j') /\ jt_heap j' !! a = Some (CB_mng c) /\
    c2cppMngTlv PRIORITY1 (Some c) = Some (Some t') /\ norm_tlv t' = norm_tlv (T_PRIORITY1 (mk_PRIORITY1 7)).
Proof.
  intros j. apply (c_json_data j (T_PRIORITY1 (mk_PRIORITY1 7))).
  - split; cbn; [constructor|]. intros a. rewrite lookup_empty. split; [by intros []|]. unfold json_slots. cbn.
    rewrite !elem_of_cons. intros [?|[?|[?|[?|I]]]]; try done. by apply elem_of_nil in I.
  - reflexivity.
  - reflexivity.
  - split; vm_compute; congruence.
  - exact Logic.I.
Defined.
